(* ===== verification/_CoqProject ===== *)
-Q . S2P
Prelude.v
History.v
Enums.v
Rbac.v
PyValue.v
Models.v
Tables.v
Common.v
Sha256.v
Organizations.v
AiSafety.v
Evidence.v
RiskEngine.v
PlatformJobs.v
SecurityRules.v
Calendar.v
Notifications.v
Evaluations.v
Compliance.v
RemediationActions.v
AwsExecutor.v
Remediation.v
RemediationAdmin.v
RemediationLifecycle.v
Discovery.v
Uuids.v
Scheduler.v
Worker.v
Risk.v
RateLimit.v
Tokens.v
Auth.v
Invitations.v
AwsOnboarding.v
AiProvider.v
AiService.v
SecretBox.v
JiraClient.v
Jira.v
Dashboard.v
NotificationProviders.v
Collectors.v
DiscoveredRules.v
Config.v
Middleware.v
AuditLog.v
OrganizationsApi.v
ErrorResponses.v
SelfHost.v
SelfHostController.v
