(* ===== verification/Prelude.v ===== *)
(** Verification of the CloudOps backend (src/apps/api/app) and of the controller
    of its installations (src/scripts/selfhost).

    CloudOps connects the AWS accounts of an organization, records their assets,
    evaluates security rules over them, keeps the findings, scores risk and
    compliance, notifies people, opens Jira issues, drafts explanations with a
    model, and remediates findings under approval.  The backend is a FastAPI
    application over a PostgreSQL database, with workers that take jobs from a
    queue in the same database and a scheduler that fills it.

    * How the program is modelled

    Foundations:
    - Prelude: records with field update, the session monad [txn] (a database
      with what is committed and what the open transaction sees; [commit],
      [rollback], exceptions), weakest preconditions [wp], transactions that
      keep an invariant [keeps], and tables (finite maps from primary keys to
      rows, with queries, flushes and unique indexes).
    - History: tables whose rows have a life cycle, generic in the row.
    - PyValue, Calendar, Sha256, Uuids: the Python values and library functions
      the services use: JSON-shaped values, strings, dicts, [json.dumps], [int],
      [str(datetime)], SHA-256, [str(UUID)] and [UUID(text)].
    - Enums, Models: models/*.py, every enumeration and one record per table,
      the record of all tables [DB].  Tables: what a table with CHECK
      constraints and unique indexes keeps, and its transactions.
    - Rbac: security/rbac.py.  Common: services/common.py and the queries of
      repositories/data.py.

    People and access:
    - Organizations, OrganizationsApi: services/organizations.py and its
      endpoints.  Invitations: services/invitations.py.
    - Auth: services/auth.py.  Tokens: security/tokens.py, passwords.py and
      dependencies/auth.py, over PyJWT and argon2 as type classes with laws.
    - RateLimit: security/rate_limit.py.  Config: core/config.py.  Middleware:
      main.py, logging/middleware.py and security/trusted_host.py.
    - AuditLog: api/v1/audit.py.  Dashboard: services/dashboard.py.

    Inventory, findings and scores:
    - AwsOnboarding: services/aws_onboarding.py.
    - Discovery: the orchestrator of services/discovery.py, over the interface
      [DiscoveryCollector]; Collectors: its six collectors, over the interface
      [AwsClients] of boto3; DiscoveredRules: the rules on what they read, and
      services/demo_inventory.py.
    - SecurityRules: security_rules/*.py.  Evaluations: services/evaluations.py,
      repositories/findings.py and api/v1/security_findings.py.
    - Compliance: services/compliance.py.  RiskEngine: risk_engine.py.  Risk:
      services/risk.py.

    Work in the background:
    - PlatformJobs: services/platform_jobs.py, the queue.  Worker:
      worker/job_worker.py.  Scheduler: services/scheduler.py.

    Remediation:
    - RemediationActions, AwsExecutor: services/remediation_actions.py,
      remediation_executor.py, aws_credentials.py, aws_remediation_executor.py.
      The executor is an interface, a type class, of which the mock and the AWS
      executor are instances; AWS itself is an arbitrary service.
    - Remediation, RemediationAdmin, RemediationLifecycle:
      services/remediation.py, remediation_admin.py and their endpoints, and
      the theorems about all of them together.

    Outside services:
    - Notifications, NotificationProviders: services/notifications.py and
      notification_provider.py.  A provider is an interface, of which the mock,
      SMTP, SES and webhook providers are instances.
    - Evidence, AiSafety: security_rules/results.py, services/ai_safety.py and
      the payload checks, what may be stored or sent to a model.  AiProvider,
      AiService: services/ai_provider.py and ai.py.
    - SecretBox, JiraClient, Jira: security/secret_box.py, services/jira_client.py
      and jira_integration_service.py.

    Installations:
    - ErrorResponses: exceptions/*.py and api/v1/health.py.
    - SelfHost: scripts/selfhost/configure.py and generate_secrets.py, the
      configuration and the secrets of an installation.  SelfHostController:
      cloudops.py, healthcheck.py and preflight.py there, the commands of the
      controller over any host that runs Docker and Git.  Their effects are a
      state monad [io] of their own over the files and the processes run.

    A method of a service is a function to [txn DB]; its state is the database,
    its guards and early returns are those of the code.  The time, new UUIDs
    and random tokens are arguments.  Flushes test the CHECK constraints and
    unique indexes of the tables and raise [IntegrityError].  An operation that
    commits, calls out and commits again is as many steps, with anything in
    between.

    * What the theorems show

    Access: organizations keep an active owner and only change through members
    allowed to.  An invitation admits who was invited, once, and the results of
    stale deliveries are fenced off.  A refresh token works once, its second
    use ends the family; an access token names its user; the limiter is a
    sliding window.  Settings that are accepted are safe, and behind them a
    request reaches a route only from a known origin and host.  The audit
    export reads back as the newest events that match; the dashboard counts
    exactly the rows of its organization.

    Inventory: an account is connected only when a validation of its present
    role confirmed it, and no external identifier is issued twice.  A discovery
    ends, keeps the inventory exact per collector, and the collectors report
    clean, located assets; listings are read completely.  The rules on buckets
    conclude what AWS said.

    Findings: an evaluation always ends and applies each result to the one
    finding of its account, rule and asset; findings keep their life cycle.
    Compliance and risk assessments are snapshots of what they assess, and
    scores are bounded.

    Work: the queue keeps its constraints, a worker that lost its lease cannot
    touch the job, a step of the worker is fenced, what is put into a payload
    is read back, and a tick of the scheduler starts what is due.

    Remediation: a request follows its life cycle under every interleaving of
    clients and workers, live execution is gated, and a change in AWS is guarded
    by the approved state and its success is read back.

    Services: notifications are delivered only as approved, at most three times,
    with evidence, and the providers check before they send.  AI drafts are
    idempotent, within their quota, and change nothing else.  Issues go only to
    Jira sites that were tested.

    Installations: no command of the controller deletes or replaces data
    without its confirmation, and the tunnel to the public is opened last, after
    everything else was found healthy.

    Other theorems are in the files without being listed: the AES-GCM round trip
    of tokens, provider retries, the capability of administrators, and more.

    * Bounds

    Recursion is structural, with these exceptions.  Loops of regular
    expressions are bounded by the length of the text: an iteration that
    consumes nothing is never needed.  The loop over page tokens makes one call
    more than there are tokens, and Collectors proves that more calls change
    nothing.  The reservation of an external identifier tries the ten draws that
    the code tries, a model is asked at most twice, and an HTTP request as often
    as the settings say.  Waiting for a service of an installation takes one
    round per interval, and SelfHostController proves that the rounds suffice.  Integers are unbounded, as in Python; 32-bit words
    occur in SHA-256 only, binary64 in the percentage of the dashboard.

    * What is not modelled

    Transactions run one at a time: row locks, advisory locks and isolation are
    left out.  Foreign keys and their cascades are left out; where a theorem
    needs one, it says so.  Strings are ASCII.  Audit events are kept without
    metadata; client addresses, user agents, logging, most response schemas and
    human-readable messages are left out.  Code of others is a parameter with,
    where needed, its documented laws: PyJWT, argon2, AES-GCM, boto3 and AWS,
    the Bedrock runtime, SMTP servers, HTTP transports and resolvers, the e-mail
    package, [urlsplit], [ipaddress], [json.loads], [datetime.fromisoformat],
    pydantic's reading of the environment, Starlette's CORS and host checks.
    The database migrations describe tables whose constraints are those of the
    models; the other scripts, the infrastructure and the frontend only call
    the backend, Docker or AWS, and the tests are not part of the program. *)

From Stdlib Require Export ZArith Lia.
From stdpp Require Export base strings numbers option gmap list.

#[export] Set Default Goal Selector "!".

(** * Record update *)

(** A record type with its eta-expansion, the constructor applied to every
    projection in order; declared once per record with [eta!]. *)
Class Eta (R : Type) := eta_of : R → R.

Definition rd_pure {R A} (a : A) : R → A := λ _, a.
Definition rd_ap {R A B} (f : R → A → B) (g : R → A) : R → B := λ r, f r (g r).

Notation "'eta!' mk < f ; .. ; g >" :=
  ((rd_ap .. (rd_ap (rd_pure mk) f) .. g) : Eta _)
  (at level 0, mk at level 0, f at level 9, g at level 9, only parsing).

(** [upd proj f r] is [r] with the field [proj] mapped through [f]. *)
Class Upd {R E : Type} (proj : R → E) := upd : (E → E) → R → R.
Arguments upd {R E} proj {_} _ _.

Ltac solve_upd proj :=
  match type of proj with
  | ?R → ?E =>
      let i := constr:(_ : Eta R) in
      let e := eval red in i in
      let e := eval cbv [rd_ap rd_pure] in e in
      exact (λ (f : E → E) (r : R),
        ltac:(let b := eval cbv beta in (e r) in
              let b' := eval pattern (proj r) in b in
              match b' with
              | ?h _ => let t := eval cbv beta in (h (f (proj r))) in exact t
              end))
  end.
#[export] Hint Extern 1 (Upd ?proj) => solve_upd proj : typeclass_instances.

Declare Scope upd_scope.
Delimit Scope upd_scope with upd.
Open Scope upd_scope.
Notation "r <| p := v |>" := (upd p (λ _, v) r)
  (at level 1, left associativity, p at level 9) : upd_scope.
Notation "r <| p ::= f |>" := (upd p f r)
  (at level 1, left associativity, p at level 9) : upd_scope.

(** The equality test of Python's [==] on identifiers, enums and options. *)
Notation "x ≟ y" := (bool_decide (x = y)) (at level 70, no associativity).

(** * Identifiers, time and exceptions *)

(** A [uuid.UUID] is its 128-bit value; a [datetime] is its POSIX time in
    microseconds (every column the services compare is timezone-aware, so the
    instant is all that a comparison or a difference sees). *)
Abbreviation uuid := N (only parsing).
Abbreviation timestamp := Z (only parsing).

Definition microseconds (n : Z) : Z := n.
Definition seconds (n : Z) : Z := n * 1000000.
Definition minutes (n : Z) : Z := n * 60000000.
Definition hours (n : Z) : Z := n * 3600000000.
Definition days (n : Z) : Z := n * 86400000000.

(** exceptions/errors.py, the class and the code of an application error, and
    the exceptions of Python and SQLAlchemy that the services can meet.  The
    human-readable messages are not modelled. *)
Inductive exn :=
| AppError (code : string) (status_code : Z)
| AuthenticationError (code : string)
| ForbiddenError (code : string)
| NotFoundError (code : string)
| ConflictError (code : string)
| RateLimitError (code : string) (retry_after_seconds limit current_usage : Z)
| IntegrityError
| ValueError
| TypeError
| KeyError
| AttributeError
| AssertionError
| OtherException.

#[export] Instance exn_eq_dec : EqDecision exn.
Proof. solve_decision. Defined.

(** A computation that returns or raises. *)
Definition res (A : Type) : Type := (A + exn)%type.
#[export] Instance res_ret : MRet res := λ A a, inl a.
#[export] Instance res_bind : MBind res := λ A B f m,
  match m with inl a => f a | inr e => inr e end.

(** [[f(x) for x in xs]], stopping at the first exception *)
Fixpoint res_map {A B} (f : A → res B) (xs : list A) : res (list B) :=
  match xs with
  | [] => mret []
  | x :: xs => y ← f x; ys ← res_map f xs; mret (y :: ys)
  end.

(** * Sessions and transactions *)

(** The state of a SQLAlchemy session: what the database has committed and
    what the open transaction sees. *)
Record sess (D : Type) := Sess { committed : D; working : D }.
Arguments Sess {D} _ _.
Arguments committed {D} _.
Arguments working {D} _.

Inductive outcome (A : Type) :=
| Ret (a : A)
| Raise (e : exn).
Arguments Ret {A} _.
Arguments Raise {A} _.

Definition txn (D A : Type) : Type := sess D → outcome A * sess D.

#[export] Instance txn_ret {D} : MRet (txn D) := λ A a s, (Ret a, s).
#[export] Instance txn_bind {D} : MBind (txn D) := λ A B f m s,
  match m s with
  | (Ret a, s') => f a s'
  | (Raise e, s') => (Raise e, s')
  end.

Section ops.
Context {D : Type}.

(** [raise e] *)
Definition raise {A} (e : exn) : txn D A := λ s, (Raise e, s).
(** A query against the session. *)
Definition gets {A} (f : D → A) : txn D A := λ s, (Ret (f (working s)), s).
(** A change of the session, flushed at once. *)
Definition modify (f : D → D) : txn D () := λ s,
  (Ret tt, Sess (committed s) (f (working s))).
(** [db.commit()] *)
Definition commit : txn D () := λ s, (Ret tt, Sess (working s) (working s)).
(** [db.rollback()] *)
Definition rollback : txn D () := λ s, (Ret tt, Sess (committed s) (committed s)).
(** [if not b: raise e] *)
Definition ensure (b : bool) (e : exn) : txn D () :=
  if b then mret tt else raise e.
(** [if x is None: raise e] *)
Definition some_or {A} (o : option A) (e : exn) : txn D A :=
  match o with Some a => mret a | None => raise e end.
(** A call that returns or raises. *)
Definition of_res {A} (r : res A) : txn D A :=
  match r with inl a => mret a | inr e => raise e end.
(** [try: m except ...: h] *)
Definition try_catch {A} (m : txn D A) (h : exn → txn D A) : txn D A := λ s,
  match m s with
  | (Ret a, s') => (Ret a, s')
  | (Raise e, s') => h e s'
  end.
(** [for x in xs: f(x)] *)
Fixpoint for_each {A} (xs : list A) (f : A → txn D ()) : txn D () :=
  match xs with
  | [] => mret tt
  | x :: xs => _ ← f x; for_each xs f
  end.

(** One request or worker step on a fresh session.  The session is closed at
    the end, which discards what was not committed. *)
Definition run {A} (m : txn D A) (d : D) : outcome A * D :=
  let '(o, s) := m (Sess d d) in (o, committed s).
End ops.

(** * Weakest preconditions of transactions *)

Definition wp {D A} (m : txn D A) (Q : outcome A → sess D → Prop) (s : sess D) : Prop :=
  Q (m s).1 (m s).2.

Section wp.
Context {D : Type}.
Implicit Types s : sess D.

Lemma wp_ret {A} (a : A) Q s : Q (Ret a) s → wp (mret a : txn D A) Q s.
Proof. done. Qed.
Lemma wp_raise {A} e (Q : outcome A → sess D → Prop) s :
  Q (Raise e) s → wp (raise e) Q s.
Proof. done. Qed.
Lemma wp_gets {A} (f : D → A) Q s : Q (Ret (f (working s))) s → wp (gets f) Q s.
Proof. done. Qed.
Lemma wp_modify f Q s :
  Q (Ret tt) (Sess (committed s) (f (working s))) → wp (modify f) Q s.
Proof. done. Qed.
Lemma wp_commit Q s : Q (Ret tt) (Sess (working s) (working s)) → wp commit Q s.
Proof. done. Qed.
Lemma wp_rollback Q s :
  Q (Ret tt) (Sess (committed s) (committed s)) → wp rollback Q s.
Proof. done. Qed.

Lemma wp_bind {A B} (m : txn D A) (f : A → txn D B) Q s :
  wp m (λ o s', match o with Ret a => wp (f a) Q s' | Raise e => Q (Raise e) s' end) s →
  wp (m ≫= f) Q s.
Proof.
  unfold wp, mbind, txn_bind. by destruct (m s) as [[a|e] s'].
Qed.
Lemma wp_ensure b e Q s :
  (b = true → Q (Ret tt) s) → (b = false → Q (Raise e) s) → wp (ensure b e) Q s.
Proof. destruct b; intros H1 H2; [by apply H1|by apply H2]. Qed.
Lemma wp_some_or {A} (o : option A) e Q s :
  (∀ a, o = Some a → Q (Ret a) s) → (o = None → Q (Raise e) s) →
  wp (some_or o e) Q s.
Proof. destruct o; intros H1 H2; [by apply H1|by apply H2]. Qed.
Lemma wp_of_res {A} (r : res A) Q s :
  (∀ a, r = inl a → Q (Ret a) s) → (∀ e, r = inr e → Q (Raise e) s) →
  wp (of_res r) Q s.
Proof. destruct r; intros H1 H2; [by apply H1|by apply H2]. Qed.
Lemma wp_if {A} (b : bool) (m1 m2 : txn D A) Q s :
  (b = true → wp m1 Q s) → (b = false → wp m2 Q s) →
  wp (if b then m1 else m2) Q s.
Proof. destruct b; auto. Qed.
Lemma wp_try {A} (m : txn D A) h Q s :
  wp m (λ o s', match o with Ret a => Q (Ret a) s' | Raise e => wp (h e) Q s' end) s →
  wp (try_catch m h) Q s.
Proof. unfold wp, try_catch. by destruct (m s) as [[a|e] s']. Qed.
Lemma wp_mono {A} (m : txn D A) (Q Q' : outcome A → sess D → Prop) s :
  (∀ o s', Q o s' → Q' o s') → wp m Q s → wp m Q' s.
Proof. unfold wp. auto. Qed.

Lemma wp_and {A} (m : txn D A) (Q Q' : outcome A → sess D → Prop) s :
  wp m Q s → wp m Q' s → wp m (λ o s', Q o s' ∧ Q' o s') s.
Proof. by split. Qed.
Lemma wp_any {A} (m : txn D A) (Q : outcome A → sess D → Prop) s :
  (∀ o s', Q o s') → wp m Q s.
Proof. unfold wp. auto. Qed.

(** A loop keeps what each iteration keeps, on exit and on an exception. *)
Lemma wp_for_each {A} (I : sess D → Prop) (E : exn → sess D → Prop)
    (xs : list A) f s :
  I s →
  (∀ x s, x ∈ xs → I s →
     wp (f x) (λ o s', match o with Ret _ => I s' | Raise e => E e s' end) s) →
  wp (for_each xs f) (λ o s', match o with Ret _ => I s' | Raise e => E e s' end) s.
Proof.
  intros HI Hstep. revert s HI. induction xs as [|x xs IH]; intros s HI; cbn.
  { exact HI. }
  apply wp_bind. eapply wp_mono, Hstep; [|set_solver|done].
  intros [[]|e] s' Hs'; [|done]. apply IH; [|done].
  intros y s'' Hy. apply Hstep. set_solver.
Qed.

(** From a weakest precondition to the result of a request. *)
Lemma wp_run {A} (m : txn D A) (Q : outcome A → D → Prop) d :
  wp m (λ o s, Q o (committed s)) (Sess d d) → Q (run m d).1 (run m d).2.
Proof. unfold wp, run. by destruct (m (Sess d d)). Qed.
Lemma wp_run_eq {A} (m : txn D A) (Q : outcome A → D → Prop) d o d' :
  wp m (λ o s, Q o (committed s)) (Sess d d) → run m d = (o, d') → Q o d'.
Proof. intros H%wp_run Hr. by rewrite Hr in H. Qed.
Lemma wp_run_self {A} (m : txn D A) d :
  wp m (λ o s', run m d = (o, committed s')) (Sess d d).
Proof. unfold wp, run. by destruct (m (Sess d d)). Qed.
(** From a precondition to the two outcomes of a request. *)
Lemma run_cases {A} (m : txn D A) (P : A → D → Prop) (E : exn → D → Prop) d :
  wp m (λ o s, match o with Ret a => P a (committed s) | Raise e => E e (committed s) end)
    (Sess d d) →
  match run m d with (Ret a, d') => P a d' | (Raise e, d') => E e d' end.
Proof.
  intros H. apply (wp_run m (λ o d', match o with Ret a => P a d' | Raise e => E e d' end)) in H.
  by destruct (run m d) as [[a|e] d'].
Qed.

(** A request that returns a known value. *)
Lemma run_exists {A} (m : txn D A) (a : A) (P : D → Prop) d :
  wp m (λ o s, o = Ret a ∧ P (committed s)) (Sess d d) →
  ∃ d', run m d = (Ret a, d') ∧ P d'.
Proof.
  intros H. apply (wp_run m (λ o d', o = Ret a ∧ P d')) in H.
  destruct (run m d) as [o d']. cbn in H. destruct H as [-> HP]. by exists d'.
Qed.
End wp.

Global Opaque wp.

(** The step over a call of a component's operation; each component that other
    ones call extends it with the rules of its operations. *)
Ltac wp_call := fail.

(** Runs the primitive steps at the head of a [wp] goal, splitting on guards,
    optional values and conditionals, and naming what each case learns. *)
Ltac wp_step :=
  lazymatch goal with
  | |- wp (mret _) _ _ => apply wp_ret
  | |- wp (raise _) _ _ => apply wp_raise
  | |- wp (gets _) _ _ => apply wp_gets
  | |- wp (modify _) _ _ => apply wp_modify
  | |- wp commit _ _ => apply wp_commit
  | |- wp rollback _ _ => apply wp_rollback
  | |- wp (ensure _ _) _ _ => apply wp_ensure; intros ?
  | |- wp (some_or _ _) _ _ => apply wp_some_or; [intros ? ?|intros ?]
  | |- wp (of_res _) _ _ => apply wp_of_res; intros ? ?
  | |- wp (mbind _ _) _ _ => apply wp_bind
  | |- wp (try_catch _ _) _ _ => apply wp_try
  | |- wp (if ?b then _ else _) _ _ => apply wp_if; intros ?
  | |- wp (match ?x with _ => _ end) _ _ => destruct x eqn:?
  | |- wp _ _ _ => wp_call
  end; cbn beta iota.
Ltac wp_go := repeat (wp_step; cbn [working committed]).

(** From [run m d = (o, d')] in [H] to the precondition of [m]. *)
Ltac wp_run_in H :=
  lazymatch type of H with
  | run ?m ?d = (?o, ?d') =>
      pattern o, d'; refine (wp_run_eq m _ d o d' _ H); clear H o d'; cbn beta
  end.

(** * Invariants of transactions *)

(** Both sides of a session satisfy [I]: what is committed, and what would be
    if the transaction committed now. *)
Definition both {D} (I : D → Prop) (s : sess D) : Prop := I (committed s) ∧ I (working s).

(** Whatever it does, return or raise, [m] keeps [I] on both sides. *)
Definition keeps {D A} (I : D → Prop) (m : txn D A) : Prop :=
  ∀ s, both I s → wp m (λ _ s', both I s') s.

Section keeps.
Context {D : Type} (I : D → Prop).

Lemma keeps_ret {A} (a : A) : keeps I (mret a : txn D A).
Proof. intros s Hs. by apply wp_ret. Qed.
Lemma keeps_raise {A} e : keeps I (raise e : txn D A).
Proof. intros s Hs. by apply wp_raise. Qed.
Lemma keeps_gets {A} (f : D → A) : keeps I (gets f).
Proof. intros s Hs. by apply wp_gets. Qed.
Lemma keeps_modify f : (∀ d, I d → I (f d)) → keeps I (modify f).
Proof. intros Hf s [Hc Hw]. apply wp_modify. split; cbn; auto. Qed.
Lemma keeps_commit : keeps I commit.
Proof. intros s [Hc Hw]. apply wp_commit. by split. Qed.
Lemma keeps_rollback : keeps I rollback.
Proof. intros s [Hc Hw]. apply wp_rollback. by split. Qed.
Lemma keeps_ensure b e : keeps I (ensure b e).
Proof. intros s Hs. by apply wp_ensure. Qed.
Lemma keeps_some_or {A} (o : option A) e : keeps I (some_or o e).
Proof. intros s Hs. by apply wp_some_or. Qed.
Lemma keeps_of_res {A} (r : res A) : keeps I (of_res r).
Proof. intros s Hs. by apply wp_of_res. Qed.
Lemma keeps_bind {A B} (m : txn D A) (f : A → txn D B) :
  keeps I m → (∀ a, keeps I (f a)) → keeps I (m ≫= f).
Proof.
  intros Hm Hf s Hs. apply wp_bind. eapply wp_mono, Hm, Hs.
  intros [a|e] s' Hs'; [by apply Hf|done].
Qed.
Lemma keeps_if {A} (b : bool) (m1 m2 : txn D A) :
  keeps I m1 → keeps I m2 → keeps I (if b then m1 else m2).
Proof. by destruct b. Qed.
Lemma keeps_try {A} (m : txn D A) h : keeps I m → (∀ e, keeps I (h e)) → keeps I (try_catch m h).
Proof.
  intros Hm Hh s Hs. apply wp_try. eapply wp_mono, Hm, Hs.
  intros [a|e] s' Hs'; [done|by apply Hh].
Qed.

(** A call inside a weakest precondition that only needs the invariant. *)
Lemma wp_keeps {A} (m : txn D A) (Q : outcome A → sess D → Prop) s :
  keeps I m → both I s → (∀ o s', both I s' → Q o s') → wp m Q s.
Proof. intros Hm Hs HQ. eapply wp_mono, Hm, Hs. auto. Qed.

Lemma keeps_run {A} (m : txn D A) d : keeps I m → I d → I (run m d).2.
Proof.
  intros Hm Hd. apply (wp_run m (λ _, I)). eapply wp_keeps; [done|by split|].
  by intros o s' [? _].
Qed.
End keeps.

Create HintDb keeps discriminated.
#[export] Hint Resolve keeps_ret keeps_raise keeps_gets keeps_modify keeps_commit
  keeps_rollback keeps_ensure keeps_some_or keeps_of_res : keeps.

(** Takes a transaction apart; what remains are the changes of the state. *)
Ltac keeps_go :=
  repeat match goal with
  | |- ∀ _, _ => intros ?
  | |- keeps _ (mbind _ _) => apply keeps_bind
  | |- keeps _ (try_catch _ _) => apply keeps_try
  | |- keeps _ (if _ then _ else _) => apply keeps_if
  | |- keeps _ (match ?x with _ => _ end) => destruct x
  | |- keeps _ _ => solve [eauto with keeps]
  end.

(** * Tables *)

(** A table maps primary keys to rows; a row knows its key. *)
Class Row (R : Type) := row_id : R → uuid.

Definition keyed `{Row R} (t : gmap uuid R) : Prop :=
  ∀ k r, t !! k = Some r → row_id r = k.

(** [db.scalar(select(R).where(P))]: some row that satisfies the condition. *)
Definition find_row {R} (P : R → bool) (t : gmap uuid R) : option R :=
  snd <$> head (filter (λ kr, P kr.2 = true) (map_to_list t)).

(** [db.scalars(select(R).where(P))], in the table's order. *)
Definition filter_rows {R} (P : R → bool) (t : gmap uuid R) : list R :=
  filter (λ r, P r = true) (map_to_list t).*2.

(** [db.add(row)] and the update of a persistent row. *)
Definition put `{Row R} (r : R) (t : gmap uuid R) : gmap uuid R := <[row_id r := r]> t.

Lemma find_row_Some {R} (P : R → bool) t r :
  find_row P t = Some r → ∃ k, t !! k = Some r ∧ P r = true.
Proof.
  unfold find_row. intros H.
  destruct (filter _ _) as [|[k r'] l] eqn:E; simplify_eq/=.
  assert ((k, r) ∈ (k, r) :: l) as Hin by set_solver.
  rewrite <-E, list_elem_of_filter, elem_of_map_to_list in Hin. naive_solver.
Qed.

Lemma find_row_None {R} (P : R → bool) t :
  find_row P t = None ↔ ∀ k r, t !! k = Some r → P r = false.
Proof.
  unfold find_row. split.
  - intros H k r Hk. destruct (P r) eqn:HP; [|done].
    assert ((k, r) ∈ filter (λ kr, P kr.2 = true) (map_to_list t)) as Hin.
    { by rewrite list_elem_of_filter, elem_of_map_to_list. }
    destruct (filter _ _); set_solver.
  - intros H. destruct (filter _ _) as [|[k r] l] eqn:E; [done|].
    assert ((k, r) ∈ (k, r) :: l) as Hin by set_solver.
    rewrite <-E, list_elem_of_filter, elem_of_map_to_list in Hin.
    destruct Hin as [? Hk]. apply H in Hk. simplify_eq/=. congruence.
Qed.

(** A condition that pins the key is a lookup. *)
Lemma find_row_key `{Row R} (P : R → bool) t k :
  keyed t →
  find_row (λ r, bool_decide (row_id r = k) && P r) t
  = r ← t !! k; if P r then Some r else None.
Proof.
  intros Hkey. destruct (find_row _ t) as [r|] eqn:E.
  - apply find_row_Some in E as (k' & Hk & HP).
    apply andb_true_iff in HP as [Hid HP]. apply bool_decide_eq_true in Hid.
    pose proof (Hkey _ _ Hk) as Hk'. assert (k' = k) as -> by congruence.
    rewrite Hk. cbn. by rewrite HP.
  - destruct (t !! k) as [r|] eqn:Hk; [|done]. cbn.
    rewrite find_row_None in E. specialize (E _ _ Hk).
    rewrite (Hkey _ _ Hk), bool_decide_eq_true_2 in E by done. cbn in E. by rewrite E.
Qed.

Lemma find_row_ext {R} (P Q : R → bool) t :
  (∀ r, P r = Q r) → find_row P t = find_row Q t.
Proof.
  intros H. unfold find_row. do 2 f_equal. apply list_filter_iff. intros [k r]. cbn.
  by rewrite H.
Qed.

(** The row a key-pinning condition finds. *)
Lemma find_row_pinned `{Row R} (P Q : R → bool) t k r :
  keyed t → (∀ r, P r = (row_id r ≟ k) && Q r) →
  find_row P t = Some r ↔ t !! k = Some r ∧ Q r = true.
Proof.
  intros Hk HP. rewrite (find_row_ext _ _ _ HP), find_row_key by done.
  destruct (t !! k) as [r'|]; cbn; [|split; [done|by intros []]].
  destruct (Q r') eqn:E; split; [by intros [= <-]|by intros [[= <-] _]|done|].
  intros [[= <-] ?]. congruence.
Qed.

Lemma elem_of_filter_rows {R} (P : R → bool) t r :
  r ∈ filter_rows P t ↔ P r = true ∧ ∃ k, t !! k = Some r.
Proof.
  unfold filter_rows. rewrite list_elem_of_filter, list_elem_of_fmap. f_equiv.
  setoid_rewrite <-elem_of_map_to_list. split.
  - intros ([k r'] & -> & ?). eauto.
  - intros [k ?]. by exists (k, r).
Qed.

Lemma keyed_put `{Row R} (r : R) t : keyed t → keyed (put r t).
Proof.
  intros Hk k r'. unfold put. rewrite lookup_insert. case_decide; naive_solver.
Qed.

Lemma put_put `{Row R} (r r' : R) t : row_id r' = row_id r → put r' (put r t) = put r' t.
Proof. intros E. unfold put. by rewrite E, insert_insert_eq. Qed.

Lemma keyed_empty `{Row R} : keyed (∅ : gmap uuid R).
Proof. intros k r. by rewrite lookup_empty. Qed.

(** Every row of a table satisfies [P]. *)
Definition all_rows {R} (P : R → Prop) (t : gmap uuid R) : Prop :=
  map_Forall (λ _, P) t.

Lemma all_rows_put `{Row R} (P : R → Prop) r t :
  all_rows P t → P r → all_rows P (put r t).
Proof. intros. by apply map_Forall_insert_2. Qed.

Lemma all_rows_empty {R} (P : R → Prop) : all_rows P ∅.
Proof. apply map_Forall_empty. Qed.

Lemma all_rows_find {R} (P : R → Prop) Q t r :
  all_rows P t → find_row Q t = Some r → P r ∧ Q r = true.
Proof. intros Ht (k & Hk & HQ)%find_row_Some. split; [by apply (Ht k)|done]. Qed.

(** The flush of an inserted or changed row: the database refuses a second row
    with the primary key of [r] ([fresh] is true for an insert) or one that a
    unique index, given as [conflict], does not allow beside it. *)
Definition unique_ok `{Row R} (fresh : bool) (conflict : R → R → bool) (r : R)
    (t : gmap uuid R) : bool :=
  negb (fresh && bool_decide (is_Some (t !! row_id r)))
  && if find_row (λ r', negb (row_id r' ≟ row_id r) && conflict r r') t is Some _
     then false else true.

Arguments unique_ok : simpl never.
Arguments put : simpl never.

Lemma unique_ok_true `{Row R} fresh conflict (r : R) t :
  unique_ok fresh conflict r t = true ↔
  (fresh = true → t !! row_id r = None) ∧
  ∀ k r', t !! k = Some r' → row_id r' ≠ row_id r → conflict r r' = false.
Proof.
  unfold unique_ok. rewrite andb_true_iff, negb_true_iff, andb_false_iff.
  rewrite bool_decide_eq_false, <-eq_None_not_Some. f_equiv.
  { destruct fresh; naive_solver. }
  destruct (find_row _ t) as [r'|] eqn:E.
  - apply find_row_Some in E as (k & Hk & Hc). apply andb_true_iff in Hc as [Hn Hc].
    apply negb_true_iff, bool_decide_eq_false in Hn.
    split; [done|]. intros Hall. specialize (Hall k r' Hk Hn). congruence.
  - rewrite find_row_None in E. split; [|done]. intros _ k r' Hk Hn.
    specialize (E k r' Hk). rewrite bool_decide_eq_false_2 in E by done. exact E.
Qed.

(** Only the rows with another key count. *)
Lemma unique_ok_put `{Row R} conflict (r r' : R) t :
  keyed t → row_id r = row_id r' →
  unique_ok false conflict r' (put r t) = unique_ok false conflict r' t.
Proof.
  intros Hk E. apply eq_true_iff_eq. rewrite !unique_ok_true.
  split; intros [_ Ht]; (split; [done|]); intros k r1; specialize (Ht k).
  - intros Hr1 Hne. apply Ht; [|done]. unfold put. rewrite lookup_insert_ne; [done|].
    intros <-. apply Hne. rewrite <-E. by apply (Hk _ _ Hr1).
  - unfold put. rewrite lookup_insert. case_decide; [|by apply Ht]. intros [= <-] Hne. congruence.
Qed.

(** No two rows of a table conflict. *)
Definition unique_index {R} (conflict : R → R → bool) (t : gmap uuid R) : Prop :=
  ∀ k k' r r', t !! k = Some r → t !! k' = Some r' → k ≠ k' → conflict r r' = false.

Lemma unique_index_put `{Row R} fresh conflict (r : R) t :
  keyed t → (∀ r r', conflict r r' = conflict r' r) →
  unique_ok fresh conflict r t = true →
  unique_index conflict t → unique_index conflict (put r t).
Proof.
  intros Hk Hsym [_ Hok]%unique_ok_true Hu k k' r1 r2. unfold put.
  rewrite !lookup_insert. repeat case_decide; intros; simplify_eq; try done.
  - apply (Hok k'); [done|]. by rewrite (Hk k').
  - rewrite Hsym. apply (Hok k); [done|]. by rewrite (Hk k).
  - by apply (Hu k k').
Qed.

Lemma unique_index_empty {R} (conflict : R → R → bool) : unique_index conflict ∅.
Proof. intros k k' r r'. by rewrite lookup_empty. Qed.

(** Of two rows that satisfy [P], one is not the row at [k]. *)
Lemma filter_rows_other {R} (P : R → bool) (t : gmap uuid R) k r :
  t !! k = Some r → 2 ≤ length (filter_rows P t) →
  ∃ k' r', k' ≠ k ∧ t !! k' = Some r' ∧ P r' = true.
Proof.
  intros Hk Hlen. unfold filter_rows in Hlen.
  assert (∀ l : list (uuid * R), NoDup l.*1 →
    2 ≤ length (filter (λ r, P r = true) l.*2) →
    ∃ k' r', k' ≠ k ∧ (k', r') ∈ l ∧ P r' = true) as Hgen.
  { induction l as [|[k1 r1] l IH]; [cbn; lia|].
    rewrite !fmap_cons, NoDup_cons, filter_cons. intros [Hni Hnd].
    case_decide as HP; cbn [snd] in HP.
    - rewrite length_cons. intros Hl. destruct (decide (k1 = k)) as [->|Hne].
      + destruct (filter (λ r, P r = true) l.*2) as [|r2 l'] eqn:E; [cbn in Hl; lia|].
        assert (r2 ∈ r2 :: l') as Hin by set_solver.
        rewrite <-E, list_elem_of_filter, list_elem_of_fmap in Hin.
        destruct Hin as [HP2 [[k2 r2'] [-> Hin]]].
        exists k2, r2'. split_and!; [|set_solver|done].
        intros ->. apply Hni. apply list_elem_of_fmap. by exists (k, r2').
      + exists k1, r1. split_and!; [done|set_solver|done].
    - intros Hl. destruct IH as (k' & r' & ? & ? & ?); [done..|].
      exists k', r'. split_and!; [done|set_solver|done]. }
  destruct (Hgen (map_to_list t)) as (k' & r' & ? & Hin & ?);
    [apply NoDup_fst_map_to_list|done|].
  apply elem_of_map_to_list in Hin. eauto.
Qed.

Create HintDb rows discriminated.
#[export] Hint Resolve keyed_put keyed_empty all_rows_put all_rows_empty unique_index_empty : rows.

(** * Booleans and lists *)

(** [ORDER BY]: insertion sort, which keeps the order of equal elements. *)
Fixpoint insert_by {A} (le : A → A → bool) (x : A) (l : list A) : list A :=
  match l with
  | [] => [x]
  | y :: l' => if le x y then x :: l else y :: insert_by le x l'
  end.
Definition sort_by {A} (le : A → A → bool) (l : list A) : list A := foldr (insert_by le) [] l.

Lemma insert_by_perm {A} (le : A → A → bool) x l : insert_by le x l ≡ₚ x :: l.
Proof.
  induction l as [|y l IH]; cbn; [done|]. destruct (le x y); [done|].
  rewrite IH. by constructor.
Qed.
Lemma sort_by_perm {A} (le : A → A → bool) l : sort_by le l ≡ₚ l.
Proof. induction l as [|x l IH]; cbn; [done|]. by rewrite insert_by_perm, IH. Qed.

(** [ORDER BY ... LIMIT 1] *)
Fixpoint first_by {A} (le : A → A → bool) (l : list A) : option A :=
  match l with
  | [] => None
  | x :: l =>
      match first_by le l with
      | Some y => if le x y then Some x else Some y
      | None => Some x
      end
  end.

Lemma first_by_None {A} (le : A → A → bool) l : first_by le l = None ↔ l = [].
Proof. destruct l as [|x l]; cbn; [done|]. destruct (first_by le l); [destruct (le _ _)|]; done. Qed.

Lemma first_by_Some {A} (le : A → A → bool) l x :
  (∀ a b, le a b = true ∨ le b a = true) →
  (∀ a b c, le a b = true → le b c = true → le a c = true) →
  first_by le l = Some x → x ∈ l ∧ ∀ y, y ∈ l → le x y = true.
Proof.
  intros Htot Htrans. revert x. induction l as [|z l IH]; cbn; [done|]. intros x.
  assert (∀ a, le a a = true) as Hrefl by (intros a; by destruct (Htot a a)).
  destruct (first_by le l) as [y|] eqn:E.
  - destruct (IH y eq_refl) as [Hy Hmin]. destruct (le z y) eqn:Ez; intros [= <-].
    + split; [set_solver|]. intros w [->|Hw]%elem_of_cons; eauto.
    + split; [set_solver|]. intros w [->|Hw]%elem_of_cons; [|auto].
      destruct (Htot z y); congruence.
  - apply first_by_None in E as ->. intros [= <-]. split; [set_solver|].
    intros w ->%list_elem_of_singleton. apply Hrefl.
Qed.

Lemma first_by_elem {A} (le : A → A → bool) l x : first_by le l = Some x → x ∈ l.
Proof.
  revert x. induction l as [|y l IH]; cbn; [done|]. intros x.
  destruct (first_by le l) as [z|]; [destruct (le y z)|]; intros [= <-]; set_solver.
Qed.

(** [x is None], [x is not None] *)
Definition is_none_ {A} (o : option A) : bool := if o is Some _ then false else true.
Definition is_some_ {A} (o : option A) : bool := if o is Some _ then true else false.

(** Turns boolean equations in the context into propositions. *)
Ltac bools :=
  repeat match goal with
  | H : andb _ _ = true |- _ => apply andb_true_iff in H; destruct H
  | H : orb _ _ = false |- _ => apply orb_false_iff in H; destruct H
  | H : negb _ = true |- _ => apply negb_true_iff in H
  | H : negb _ = false |- _ => apply negb_false_iff in H
  | H : bool_decide _ = true |- _ => apply bool_decide_eq_true in H
  | H : bool_decide _ = false |- _ => apply bool_decide_eq_false in H
  | H : Is_true _ |- _ => apply Is_true_eq_true in H
  end.

(** Closes a goal about the fields of updated records. *)
Ltac fields := cbn in *; simplify_eq/=; try done; try tauto; try congruence; try lia.
