(* ===== verification/History.v ===== *)
(** Histories of a table: every stored row is well-formed, and a row that was
    once stored is still there in a later form.  Generic in the database, the
    table, the condition on rows and the order on their forms; the components
    whose rows have a life cycle instantiate it. *)

From S2P Require Import Prelude.
From stdpp Require Import list relations.

Section history.
Context {D R : Type} `{Row R} (tbl : D → gmap uuid R) (ok : R → Prop)
  (later : R → R → Prop) (conflict : R → R → bool).
Context `{!PreOrder later} (conflict_sym : ∀ r r', conflict r r' = conflict r' r).

(** The table respects its key, its unique index and its rows' condition. *)
Record table_ok (d : D) : Prop := {
  tk_keyed : keyed (tbl d);
  tk_unique : unique_index conflict (tbl d);
  tk_rows : all_rows ok (tbl d)
}.

(** No row of [d] is lost in [d'], each is in a later form. *)
Definition advances (d d' : D) : Prop :=
  ∀ k r, tbl d !! k = Some r → ∃ r', tbl d' !! k = Some r' ∧ later r r'.

Definition extends (d d' : D) : Prop := table_ok d' ∧ advances d d'.

Lemma history_refl d : table_ok d → extends d d.
Proof. intros Hd. split; [done|]. intros k r Hk. by exists r. Qed.

Lemma history_trans d1 d2 d3 : extends d1 d2 → extends d2 d3 → extends d1 d3.
Proof.
  intros [_ H12] [Hok H23]. split; [done|]. intros k r Hk.
  destruct (H12 k r Hk) as (r2 & Hk2 & ?). destruct (H23 k r2 Hk2) as (r3 & ? & ?).
  exists r3. split; [done|]. by etrans.
Qed.

(** Changes of other tables. *)
Lemma extends_same d0 d d' : extends d0 d → tbl d' = tbl d → extends d0 d'.
Proof.
  intros [[???] Hl] E. split.
  - split; by rewrite E.
  - intros k r. rewrite E. apply Hl.
Qed.

(** A flush that the database accepts. *)
Lemma extends_put d0 d d' fresh r :
  extends d0 d → ok r → unique_ok fresh conflict r (tbl d) = true →
  (∀ r0, tbl d !! row_id r = Some r0 → later r0 r) →
  tbl d' = put r (tbl d) → extends d0 d'.
Proof.
  intros Hf Hr Hu Hl E. eapply history_trans; [exact Hf|]. destruct Hf as [[Hk Hx Ha] _].
  split.
  - split; rewrite E; eauto using unique_index_put with rows.
  - intros k r0 H0. rewrite E. unfold put. rewrite lookup_insert. case_decide as Hkr.
    + exists r. split; [done|]. apply Hl. by rewrite <-Hkr in H0.
    + by exists r0.
Qed.

(** A fresh row has no earlier form. *)
Lemma extends_insert d0 d d' r :
  extends d0 d → ok r → unique_ok true conflict r (tbl d) = true →
  tbl d' = put r (tbl d) → extends d0 d'.
Proof.
  intros Hf Hr Hu E. eapply extends_put; [done..| |done].
  apply unique_ok_true in Hu as [Hn _]. intros r0 H0. rewrite Hn in H0 by done. done.
Qed.

Lemma extends_steps (step : D → D → Prop) d d' :
  (∀ d d', table_ok d → step d d' → extends d d') →
  table_ok d → rtc step d d' → extends d d'.
Proof.
  intros Hstep Hok Hs. induction Hs as [d|d1 d2 d3 H12 H23 IH]; [by apply history_refl|].
  pose proof (Hstep _ _ Hok H12) as He. eapply history_trans; [exact He|]. apply IH, He.
Qed.
End history.
