(* ===== verification/Enums.v ===== *)
(** The enumerations of models/enums.py.  Each [StrEnum] class is a module of
    the same name: the members are the constructors, [value] is the string the
    member is stored as, and [all] is the iteration order of the class. *)

From S2P Require Import Prelude.

Module UserStatus.
(** models/enums.py:8-12, UserStatus. *)
Inductive UserStatus :=
| ACTIVE
| INVITED
| SUSPENDED
| DISABLED.
#[export] Instance eq_dec : EqDecision UserStatus.
Proof. solve_decision. Defined.
Definition all : list UserStatus :=
  [ACTIVE; INVITED; SUSPENDED; DISABLED].
Definition value (x : UserStatus) : string :=
  match x with
  | ACTIVE => "active"
  | INVITED => "invited"
  | SUSPENDED => "suspended"
  | DISABLED => "disabled"
  end.
End UserStatus.
Export (hints) UserStatus.
Abbreviation UserStatus := UserStatus.UserStatus.

Module OrganizationStatus.
(** models/enums.py:15-18, OrganizationStatus. *)
Inductive OrganizationStatus :=
| ACTIVE
| SUSPENDED
| DISABLED.
#[export] Instance eq_dec : EqDecision OrganizationStatus.
Proof. solve_decision. Defined.
Definition all : list OrganizationStatus :=
  [ACTIVE; SUSPENDED; DISABLED].
Definition value (x : OrganizationStatus) : string :=
  match x with
  | ACTIVE => "active"
  | SUSPENDED => "suspended"
  | DISABLED => "disabled"
  end.
End OrganizationStatus.
Export (hints) OrganizationStatus.
Abbreviation OrganizationStatus := OrganizationStatus.OrganizationStatus.

Module OrganizationRole.
(** models/enums.py:21-27, OrganizationRole. *)
Inductive OrganizationRole :=
| OWNER
| ADMIN
| SECURITY_ANALYST
| CLOUD_ENGINEER
| AUDITOR
| VIEWER.
#[export] Instance eq_dec : EqDecision OrganizationRole.
Proof. solve_decision. Defined.
Definition all : list OrganizationRole :=
  [OWNER; ADMIN; SECURITY_ANALYST; CLOUD_ENGINEER; AUDITOR; VIEWER].
Definition value (x : OrganizationRole) : string :=
  match x with
  | OWNER => "owner"
  | ADMIN => "admin"
  | SECURITY_ANALYST => "security_analyst"
  | CLOUD_ENGINEER => "cloud_engineer"
  | AUDITOR => "auditor"
  | VIEWER => "viewer"
  end.
End OrganizationRole.
Export (hints) OrganizationRole.
Abbreviation OrganizationRole := OrganizationRole.OrganizationRole.

Module MembershipStatus.
(** models/enums.py:30-33, MembershipStatus. *)
Inductive MembershipStatus :=
| ACTIVE
| SUSPENDED
| REMOVED.
#[export] Instance eq_dec : EqDecision MembershipStatus.
Proof. solve_decision. Defined.
Definition all : list MembershipStatus :=
  [ACTIVE; SUSPENDED; REMOVED].
Definition value (x : MembershipStatus) : string :=
  match x with
  | ACTIVE => "active"
  | SUSPENDED => "suspended"
  | REMOVED => "removed"
  end.
End MembershipStatus.
Export (hints) MembershipStatus.
Abbreviation MembershipStatus := MembershipStatus.MembershipStatus.

Module InvitationStatus.
(** models/enums.py:36-40, InvitationStatus. *)
Inductive InvitationStatus :=
| PENDING
| ACCEPTED
| CANCELLED
| EXPIRED.
#[export] Instance eq_dec : EqDecision InvitationStatus.
Proof. solve_decision. Defined.
Definition all : list InvitationStatus :=
  [PENDING; ACCEPTED; CANCELLED; EXPIRED].
Definition value (x : InvitationStatus) : string :=
  match x with
  | PENDING => "pending"
  | ACCEPTED => "accepted"
  | CANCELLED => "cancelled"
  | EXPIRED => "expired"
  end.
End InvitationStatus.
Export (hints) InvitationStatus.
Abbreviation InvitationStatus := InvitationStatus.InvitationStatus.

Module AuditResult.
(** models/enums.py:43-46, AuditResult. *)
Inductive AuditResult :=
| SUCCEEDED
| FAILED
| DENIED.
#[export] Instance eq_dec : EqDecision AuditResult.
Proof. solve_decision. Defined.
Definition all : list AuditResult :=
  [SUCCEEDED; FAILED; DENIED].
Definition value (x : AuditResult) : string :=
  match x with
  | SUCCEEDED => "succeeded"
  | FAILED => "failed"
  | DENIED => "denied"
  end.
End AuditResult.
Export (hints) AuditResult.
Abbreviation AuditResult := AuditResult.AuditResult.

Module AWSAccountStatus.
(** models/enums.py:49-53, AWSAccountStatus. *)
Inductive AWSAccountStatus :=
| PENDING
| CONNECTED
| FAILED
| DISCONNECTED.
#[export] Instance eq_dec : EqDecision AWSAccountStatus.
Proof. solve_decision. Defined.
Definition all : list AWSAccountStatus :=
  [PENDING; CONNECTED; FAILED; DISCONNECTED].
Definition value (x : AWSAccountStatus) : string :=
  match x with
  | PENDING => "pending"
  | CONNECTED => "connected"
  | FAILED => "failed"
  | DISCONNECTED => "disconnected"
  end.
End AWSAccountStatus.
Export (hints) AWSAccountStatus.
Abbreviation AWSAccountStatus := AWSAccountStatus.AWSAccountStatus.

Module AssetType.
(** models/enums.py:56-68, AssetType. *)
Inductive AssetType :=
| EC2_INSTANCE
| EC2_SECURITY_GROUP
| EBS_VOLUME
| S3_BUCKET
| IAM_USER
| IAM_ROLE
| IAM_GROUP
| IAM_POLICY
| RDS_INSTANCE
| CLOUDWATCH_ALARM
| CLOUDWATCH_LOG_GROUP
| CLOUDTRAIL_TRAIL.
#[export] Instance eq_dec : EqDecision AssetType.
Proof. solve_decision. Defined.
Definition all : list AssetType :=
  [EC2_INSTANCE; EC2_SECURITY_GROUP; EBS_VOLUME; S3_BUCKET; IAM_USER; IAM_ROLE; IAM_GROUP; IAM_POLICY; RDS_INSTANCE; CLOUDWATCH_ALARM; CLOUDWATCH_LOG_GROUP; CLOUDTRAIL_TRAIL].
Definition value (x : AssetType) : string :=
  match x with
  | EC2_INSTANCE => "ec2_instance"
  | EC2_SECURITY_GROUP => "ec2_security_group"
  | EBS_VOLUME => "ebs_volume"
  | S3_BUCKET => "s3_bucket"
  | IAM_USER => "iam_user"
  | IAM_ROLE => "iam_role"
  | IAM_GROUP => "iam_group"
  | IAM_POLICY => "iam_policy"
  | RDS_INSTANCE => "rds_instance"
  | CLOUDWATCH_ALARM => "cloudwatch_alarm"
  | CLOUDWATCH_LOG_GROUP => "cloudwatch_log_group"
  | CLOUDTRAIL_TRAIL => "cloudtrail_trail"
  end.
End AssetType.
Export (hints) AssetType.
Abbreviation AssetType := AssetType.AssetType.

Module DiscoveryJobStatus.
(** models/enums.py:71-76, DiscoveryJobStatus. *)
Inductive DiscoveryJobStatus :=
| PENDING
| RUNNING
| COMPLETED
| PARTIALLY_COMPLETED
| FAILED.
#[export] Instance eq_dec : EqDecision DiscoveryJobStatus.
Proof. solve_decision. Defined.
Definition all : list DiscoveryJobStatus :=
  [PENDING; RUNNING; COMPLETED; PARTIALLY_COMPLETED; FAILED].
Definition value (x : DiscoveryJobStatus) : string :=
  match x with
  | PENDING => "pending"
  | RUNNING => "running"
  | COMPLETED => "completed"
  | PARTIALLY_COMPLETED => "partially_completed"
  | FAILED => "failed"
  end.
End DiscoveryJobStatus.
Export (hints) DiscoveryJobStatus.
Abbreviation DiscoveryJobStatus := DiscoveryJobStatus.DiscoveryJobStatus.

Module RuleResultStatus.
(** models/enums.py:79-83, RuleResultStatus. *)
Inductive RuleResultStatus :=
| PASSED
| FAILED
| NOT_APPLICABLE
| ERROR.
#[export] Instance eq_dec : EqDecision RuleResultStatus.
Proof. solve_decision. Defined.
Definition all : list RuleResultStatus :=
  [PASSED; FAILED; NOT_APPLICABLE; ERROR].
Definition value (x : RuleResultStatus) : string :=
  match x with
  | PASSED => "passed"
  | FAILED => "failed"
  | NOT_APPLICABLE => "not_applicable"
  | ERROR => "error"
  end.
End RuleResultStatus.
Export (hints) RuleResultStatus.
Abbreviation RuleResultStatus := RuleResultStatus.RuleResultStatus.

Module FindingStatus.
(** models/enums.py:86-89, FindingStatus. *)
Inductive FindingStatus :=
| OPEN
| RESOLVED
| SUPPRESSED.
#[export] Instance eq_dec : EqDecision FindingStatus.
Proof. solve_decision. Defined.
Definition all : list FindingStatus :=
  [OPEN; RESOLVED; SUPPRESSED].
Definition value (x : FindingStatus) : string :=
  match x with
  | OPEN => "open"
  | RESOLVED => "resolved"
  | SUPPRESSED => "suppressed"
  end.
End FindingStatus.
Export (hints) FindingStatus.
Abbreviation FindingStatus := FindingStatus.FindingStatus.

Module EvaluationJobStatus.
(** models/enums.py:92-97, EvaluationJobStatus. *)
Inductive EvaluationJobStatus :=
| PENDING
| RUNNING
| COMPLETED
| PARTIALLY_COMPLETED
| FAILED.
#[export] Instance eq_dec : EqDecision EvaluationJobStatus.
Proof. solve_decision. Defined.
Definition all : list EvaluationJobStatus :=
  [PENDING; RUNNING; COMPLETED; PARTIALLY_COMPLETED; FAILED].
Definition value (x : EvaluationJobStatus) : string :=
  match x with
  | PENDING => "pending"
  | RUNNING => "running"
  | COMPLETED => "completed"
  | PARTIALLY_COMPLETED => "partially_completed"
  | FAILED => "failed"
  end.
End EvaluationJobStatus.
Export (hints) EvaluationJobStatus.
Abbreviation EvaluationJobStatus := EvaluationJobStatus.EvaluationJobStatus.

Module FindingSeverity.
(** models/enums.py:100-105, FindingSeverity. *)
Inductive FindingSeverity :=
| CRITICAL
| HIGH
| MEDIUM
| LOW
| INFORMATIONAL.
#[export] Instance eq_dec : EqDecision FindingSeverity.
Proof. solve_decision. Defined.
Definition all : list FindingSeverity :=
  [CRITICAL; HIGH; MEDIUM; LOW; INFORMATIONAL].
Definition value (x : FindingSeverity) : string :=
  match x with
  | CRITICAL => "critical"
  | HIGH => "high"
  | MEDIUM => "medium"
  | LOW => "low"
  | INFORMATIONAL => "informational"
  end.
End FindingSeverity.
Export (hints) FindingSeverity.
Abbreviation FindingSeverity := FindingSeverity.FindingSeverity.

Module ComplianceAssessmentStatus.
(** models/enums.py:108-112, ComplianceAssessmentStatus. *)
Inductive ComplianceAssessmentStatus :=
| PENDING
| RUNNING
| COMPLETED
| FAILED.
#[export] Instance eq_dec : EqDecision ComplianceAssessmentStatus.
Proof. solve_decision. Defined.
Definition all : list ComplianceAssessmentStatus :=
  [PENDING; RUNNING; COMPLETED; FAILED].
Definition value (x : ComplianceAssessmentStatus) : string :=
  match x with
  | PENDING => "pending"
  | RUNNING => "running"
  | COMPLETED => "completed"
  | FAILED => "failed"
  end.
End ComplianceAssessmentStatus.
Export (hints) ComplianceAssessmentStatus.
Abbreviation ComplianceAssessmentStatus := ComplianceAssessmentStatus.ComplianceAssessmentStatus.

Module ComplianceControlStatus.
(** models/enums.py:115-119, ComplianceControlStatus. *)
Inductive ComplianceControlStatus :=
| PASS
| FAIL
| NOT_ASSESSED
| ERROR.
#[export] Instance eq_dec : EqDecision ComplianceControlStatus.
Proof. solve_decision. Defined.
Definition all : list ComplianceControlStatus :=
  [PASS; FAIL; NOT_ASSESSED; ERROR].
Definition value (x : ComplianceControlStatus) : string :=
  match x with
  | PASS => "pass"
  | FAIL => "fail"
  | NOT_ASSESSED => "not_assessed"
  | ERROR => "error"
  end.
End ComplianceControlStatus.
Export (hints) ComplianceControlStatus.
Abbreviation ComplianceControlStatus := ComplianceControlStatus.ComplianceControlStatus.

Module RiskPriority.
(** models/enums.py:122-126, RiskPriority. *)
Inductive RiskPriority :=
| CRITICAL
| HIGH
| MEDIUM
| LOW.
#[export] Instance eq_dec : EqDecision RiskPriority.
Proof. solve_decision. Defined.
Definition all : list RiskPriority :=
  [CRITICAL; HIGH; MEDIUM; LOW].
Definition value (x : RiskPriority) : string :=
  match x with
  | CRITICAL => "critical"
  | HIGH => "high"
  | MEDIUM => "medium"
  | LOW => "low"
  end.
End RiskPriority.
Export (hints) RiskPriority.
Abbreviation RiskPriority := RiskPriority.RiskPriority.

Module RiskAssessmentStatus.
(** models/enums.py:129-133, RiskAssessmentStatus. *)
Inductive RiskAssessmentStatus :=
| PENDING
| RUNNING
| COMPLETED
| FAILED.
#[export] Instance eq_dec : EqDecision RiskAssessmentStatus.
Proof. solve_decision. Defined.
Definition all : list RiskAssessmentStatus :=
  [PENDING; RUNNING; COMPLETED; FAILED].
Definition value (x : RiskAssessmentStatus) : string :=
  match x with
  | PENDING => "pending"
  | RUNNING => "running"
  | COMPLETED => "completed"
  | FAILED => "failed"
  end.
End RiskAssessmentStatus.
Export (hints) RiskAssessmentStatus.
Abbreviation RiskAssessmentStatus := RiskAssessmentStatus.RiskAssessmentStatus.

Module AITaskType.
(** models/enums.py:136-142, AITaskType. *)
Inductive AITaskType :=
| EXPLAIN_FINDING
| EXPLAIN_BUSINESS_IMPACT
| SUGGEST_REMEDIATION
| EXECUTIVE_SUMMARY
| JIRA_DESCRIPTION
| EMAIL_SUMMARY.
#[export] Instance eq_dec : EqDecision AITaskType.
Proof. solve_decision. Defined.
Definition all : list AITaskType :=
  [EXPLAIN_FINDING; EXPLAIN_BUSINESS_IMPACT; SUGGEST_REMEDIATION; EXECUTIVE_SUMMARY; JIRA_DESCRIPTION; EMAIL_SUMMARY].
Definition value (x : AITaskType) : string :=
  match x with
  | EXPLAIN_FINDING => "explain_finding"
  | EXPLAIN_BUSINESS_IMPACT => "explain_business_impact"
  | SUGGEST_REMEDIATION => "suggest_remediation"
  | EXECUTIVE_SUMMARY => "executive_summary"
  | JIRA_DESCRIPTION => "jira_description"
  | EMAIL_SUMMARY => "email_summary"
  end.
End AITaskType.
Export (hints) AITaskType.
Abbreviation AITaskType := AITaskType.AITaskType.

Module AIRequestStatus.
(** models/enums.py:145-153, AIRequestStatus. *)
Inductive AIRequestStatus :=
| PENDING
| RUNNING
| COMPLETED
| FAILED
| TIMED_OUT
| PROVIDER_DISABLED
| INVALID_RESPONSE
| RATE_LIMITED.
#[export] Instance eq_dec : EqDecision AIRequestStatus.
Proof. solve_decision. Defined.
Definition all : list AIRequestStatus :=
  [PENDING; RUNNING; COMPLETED; FAILED; TIMED_OUT; PROVIDER_DISABLED; INVALID_RESPONSE; RATE_LIMITED].
Definition value (x : AIRequestStatus) : string :=
  match x with
  | PENDING => "pending"
  | RUNNING => "running"
  | COMPLETED => "completed"
  | FAILED => "failed"
  | TIMED_OUT => "timed_out"
  | PROVIDER_DISABLED => "provider_disabled"
  | INVALID_RESPONSE => "invalid_response"
  | RATE_LIMITED => "rate_limited"
  end.
End AIRequestStatus.
Export (hints) AIRequestStatus.
Abbreviation AIRequestStatus := AIRequestStatus.AIRequestStatus.

Module AISourceType.
(** models/enums.py:156-159, AISourceType. *)
Inductive AISourceType :=
| FINDING
| RISK_ASSESSMENT
| COMPLIANCE_ASSESSMENT.
#[export] Instance eq_dec : EqDecision AISourceType.
Proof. solve_decision. Defined.
Definition all : list AISourceType :=
  [FINDING; RISK_ASSESSMENT; COMPLIANCE_ASSESSMENT].
Definition value (x : AISourceType) : string :=
  match x with
  | FINDING => "finding"
  | RISK_ASSESSMENT => "risk_assessment"
  | COMPLIANCE_ASSESSMENT => "compliance_assessment"
  end.
End AISourceType.
Export (hints) AISourceType.
Abbreviation AISourceType := AISourceType.AISourceType.

Module RiskCriticality.
(** models/enums.py:162-167, RiskCriticality. *)
Inductive RiskCriticality :=
| CRITICAL
| HIGH
| MEDIUM
| LOW
| UNKNOWN.
#[export] Instance eq_dec : EqDecision RiskCriticality.
Proof. solve_decision. Defined.
Definition all : list RiskCriticality :=
  [CRITICAL; HIGH; MEDIUM; LOW; UNKNOWN].
Definition value (x : RiskCriticality) : string :=
  match x with
  | CRITICAL => "critical"
  | HIGH => "high"
  | MEDIUM => "medium"
  | LOW => "low"
  | UNKNOWN => "unknown"
  end.
End RiskCriticality.
Export (hints) RiskCriticality.
Abbreviation RiskCriticality := RiskCriticality.RiskCriticality.

Module RiskEnvironment.
(** models/enums.py:170-175, RiskEnvironment. *)
Inductive RiskEnvironment :=
| PRODUCTION
| STAGING
| DEVELOPMENT
| SANDBOX
| UNKNOWN.
#[export] Instance eq_dec : EqDecision RiskEnvironment.
Proof. solve_decision. Defined.
Definition all : list RiskEnvironment :=
  [PRODUCTION; STAGING; DEVELOPMENT; SANDBOX; UNKNOWN].
Definition value (x : RiskEnvironment) : string :=
  match x with
  | PRODUCTION => "production"
  | STAGING => "staging"
  | DEVELOPMENT => "development"
  | SANDBOX => "sandbox"
  | UNKNOWN => "unknown"
  end.
End RiskEnvironment.
Export (hints) RiskEnvironment.
Abbreviation RiskEnvironment := RiskEnvironment.RiskEnvironment.

Module BusinessImpact.
(** models/enums.py:178-183, BusinessImpact. *)
Inductive BusinessImpact :=
| CRITICAL
| HIGH
| MEDIUM
| LOW
| UNKNOWN.
#[export] Instance eq_dec : EqDecision BusinessImpact.
Proof. solve_decision. Defined.
Definition all : list BusinessImpact :=
  [CRITICAL; HIGH; MEDIUM; LOW; UNKNOWN].
Definition value (x : BusinessImpact) : string :=
  match x with
  | CRITICAL => "critical"
  | HIGH => "high"
  | MEDIUM => "medium"
  | LOW => "low"
  | UNKNOWN => "unknown"
  end.
End BusinessImpact.
Export (hints) BusinessImpact.
Abbreviation BusinessImpact := BusinessImpact.BusinessImpact.

Module DataSensitivity.
(** models/enums.py:186-191, DataSensitivity. *)
Inductive DataSensitivity :=
| RESTRICTED
| CONFIDENTIAL
| INTERNAL
| PUBLIC
| UNKNOWN.
#[export] Instance eq_dec : EqDecision DataSensitivity.
Proof. solve_decision. Defined.
Definition all : list DataSensitivity :=
  [RESTRICTED; CONFIDENTIAL; INTERNAL; PUBLIC; UNKNOWN].
Definition value (x : DataSensitivity) : string :=
  match x with
  | RESTRICTED => "restricted"
  | CONFIDENTIAL => "confidential"
  | INTERNAL => "internal"
  | PUBLIC => "public"
  | UNKNOWN => "unknown"
  end.
End DataSensitivity.
Export (hints) DataSensitivity.
Abbreviation DataSensitivity := DataSensitivity.DataSensitivity.

Module RuleService.
(** models/enums.py:194-201, RuleService. *)
Inductive RuleService :=
| EC2
| S3
| IAM
| RDS
| CLOUDWATCH
| CLOUDWATCH_LOGS
| CLOUDTRAIL.
#[export] Instance eq_dec : EqDecision RuleService.
Proof. solve_decision. Defined.
Definition all : list RuleService :=
  [EC2; S3; IAM; RDS; CLOUDWATCH; CLOUDWATCH_LOGS; CLOUDTRAIL].
Definition value (x : RuleService) : string :=
  match x with
  | EC2 => "ec2"
  | S3 => "s3"
  | IAM => "iam"
  | RDS => "rds"
  | CLOUDWATCH => "cloudwatch"
  | CLOUDWATCH_LOGS => "cloudwatch_logs"
  | CLOUDTRAIL => "cloudtrail"
  end.
End RuleService.
Export (hints) RuleService.
Abbreviation RuleService := RuleService.RuleService.

Module RuleCategory.
(** models/enums.py:204-218, RuleCategory. *)
Inductive RuleCategory :=
| COVERAGE
| CREDENTIAL_HYGIENE
| DATA_PROTECTION
| EXPOSURE
| HARDENING
| IDENTITY
| INTEGRITY
| LEAST_PRIVILEGE
| LOGGING
| MONITORING
| NETWORK
| PATCHING
| RESILIENCE
| TRANSPORT.
#[export] Instance eq_dec : EqDecision RuleCategory.
Proof. solve_decision. Defined.
Definition all : list RuleCategory :=
  [COVERAGE; CREDENTIAL_HYGIENE; DATA_PROTECTION; EXPOSURE; HARDENING; IDENTITY; INTEGRITY; LEAST_PRIVILEGE; LOGGING; MONITORING; NETWORK; PATCHING; RESILIENCE; TRANSPORT].
Definition value (x : RuleCategory) : string :=
  match x with
  | COVERAGE => "coverage"
  | CREDENTIAL_HYGIENE => "credential_hygiene"
  | DATA_PROTECTION => "data_protection"
  | EXPOSURE => "exposure"
  | HARDENING => "hardening"
  | IDENTITY => "identity"
  | INTEGRITY => "integrity"
  | LEAST_PRIVILEGE => "least_privilege"
  | LOGGING => "logging"
  | MONITORING => "monitoring"
  | NETWORK => "network"
  | PATCHING => "patching"
  | RESILIENCE => "resilience"
  | TRANSPORT => "transport"
  end.
End RuleCategory.
Export (hints) RuleCategory.
Abbreviation RuleCategory := RuleCategory.RuleCategory.

Module NotificationChannel.
(** models/enums.py:221-224, NotificationChannel. *)
Inductive NotificationChannel :=
| EMAIL
| SLACK
| TEAMS.
#[export] Instance eq_dec : EqDecision NotificationChannel.
Proof. solve_decision. Defined.
Definition all : list NotificationChannel :=
  [EMAIL; SLACK; TEAMS].
Definition value (x : NotificationChannel) : string :=
  match x with
  | EMAIL => "email"
  | SLACK => "slack"
  | TEAMS => "teams"
  end.
End NotificationChannel.
Export (hints) NotificationChannel.
Abbreviation NotificationChannel := NotificationChannel.NotificationChannel.

Module NotificationStatus.
(** models/enums.py:227-231, NotificationStatus. *)
Inductive NotificationStatus :=
| PENDING_APPROVAL
| APPROVED
| DELIVERED
| FAILED.
#[export] Instance eq_dec : EqDecision NotificationStatus.
Proof. solve_decision. Defined.
Definition all : list NotificationStatus :=
  [PENDING_APPROVAL; APPROVED; DELIVERED; FAILED].
Definition value (x : NotificationStatus) : string :=
  match x with
  | PENDING_APPROVAL => "pending_approval"
  | APPROVED => "approved"
  | DELIVERED => "delivered"
  | FAILED => "failed"
  end.
End NotificationStatus.
Export (hints) NotificationStatus.
Abbreviation NotificationStatus := NotificationStatus.NotificationStatus.

Module RemediationStatus.
(** models/enums.py:234-240, RemediationStatus. *)
Inductive RemediationStatus :=
| PENDING_APPROVAL
| APPROVED
| REJECTED
| CANCELLED
| SUCCEEDED
| FAILED.
#[export] Instance eq_dec : EqDecision RemediationStatus.
Proof. solve_decision. Defined.
Definition all : list RemediationStatus :=
  [PENDING_APPROVAL; APPROVED; REJECTED; CANCELLED; SUCCEEDED; FAILED].
Definition value (x : RemediationStatus) : string :=
  match x with
  | PENDING_APPROVAL => "pending_approval"
  | APPROVED => "approved"
  | REJECTED => "rejected"
  | CANCELLED => "cancelled"
  | SUCCEEDED => "succeeded"
  | FAILED => "failed"
  end.
End RemediationStatus.
Export (hints) RemediationStatus.
Abbreviation RemediationStatus := RemediationStatus.RemediationStatus.

Module RemediationExecutionMode.
(** models/enums.py:243-247, RemediationExecutionMode. *)
Inductive RemediationExecutionMode :=
| MOCK_AUTOMATION
| MANUAL
| JIRA_DRAFT
| LIVE_AWS.
#[export] Instance eq_dec : EqDecision RemediationExecutionMode.
Proof. solve_decision. Defined.
Definition all : list RemediationExecutionMode :=
  [MOCK_AUTOMATION; MANUAL; JIRA_DRAFT; LIVE_AWS].
Definition value (x : RemediationExecutionMode) : string :=
  match x with
  | MOCK_AUTOMATION => "mock_automation"
  | MANUAL => "manual"
  | JIRA_DRAFT => "jira_draft"
  | LIVE_AWS => "live_aws"
  end.
End RemediationExecutionMode.
Export (hints) RemediationExecutionMode.
Abbreviation RemediationExecutionMode := RemediationExecutionMode.RemediationExecutionMode.

Module ScanRunStatus.
(** models/enums.py:250-254, ScanRunStatus. *)
Inductive ScanRunStatus :=
| PENDING
| RUNNING
| COMPLETED
| FAILED.
#[export] Instance eq_dec : EqDecision ScanRunStatus.
Proof. solve_decision. Defined.
Definition all : list ScanRunStatus :=
  [PENDING; RUNNING; COMPLETED; FAILED].
Definition value (x : ScanRunStatus) : string :=
  match x with
  | PENDING => "pending"
  | RUNNING => "running"
  | COMPLETED => "completed"
  | FAILED => "failed"
  end.
End ScanRunStatus.
Export (hints) ScanRunStatus.
Abbreviation ScanRunStatus := ScanRunStatus.ScanRunStatus.

Module ScanRunTrigger.
(** models/enums.py:257-259, ScanRunTrigger. *)
Inductive ScanRunTrigger :=
| MANUAL
| SCHEDULED.
#[export] Instance eq_dec : EqDecision ScanRunTrigger.
Proof. solve_decision. Defined.
Definition all : list ScanRunTrigger :=
  [MANUAL; SCHEDULED].
Definition value (x : ScanRunTrigger) : string :=
  match x with
  | MANUAL => "manual"
  | SCHEDULED => "scheduled"
  end.
End ScanRunTrigger.
Export (hints) ScanRunTrigger.
Abbreviation ScanRunTrigger := ScanRunTrigger.ScanRunTrigger.

Module PlatformJobType.
(** models/enums.py:262-269, PlatformJobType. *)
Inductive PlatformJobType :=
| DISCOVERY
| EVALUATION
| COMPLIANCE
| RISK_RECALCULATION
| NOTIFICATION_DELIVERY
| SCHEDULED_SCAN
| REMEDIATION_SIMULATION.
#[export] Instance eq_dec : EqDecision PlatformJobType.
Proof. solve_decision. Defined.
Definition all : list PlatformJobType :=
  [DISCOVERY; EVALUATION; COMPLIANCE; RISK_RECALCULATION; NOTIFICATION_DELIVERY; SCHEDULED_SCAN; REMEDIATION_SIMULATION].
Definition value (x : PlatformJobType) : string :=
  match x with
  | DISCOVERY => "discovery"
  | EVALUATION => "evaluation"
  | COMPLIANCE => "compliance"
  | RISK_RECALCULATION => "risk_recalculation"
  | NOTIFICATION_DELIVERY => "notification_delivery"
  | SCHEDULED_SCAN => "scheduled_scan"
  | REMEDIATION_SIMULATION => "remediation_simulation"
  end.
End PlatformJobType.
Export (hints) PlatformJobType.
Abbreviation PlatformJobType := PlatformJobType.PlatformJobType.

Module PlatformJobStatus.
(** models/enums.py:272-280, PlatformJobStatus. *)
Inductive PlatformJobStatus :=
| AVAILABLE
| LEASED
| RUNNING
| RETRY_WAIT
| SUCCEEDED
| FAILED
| DEAD_LETTERED
| CANCELLED.
#[export] Instance eq_dec : EqDecision PlatformJobStatus.
Proof. solve_decision. Defined.
Definition all : list PlatformJobStatus :=
  [AVAILABLE; LEASED; RUNNING; RETRY_WAIT; SUCCEEDED; FAILED; DEAD_LETTERED; CANCELLED].
Definition value (x : PlatformJobStatus) : string :=
  match x with
  | AVAILABLE => "available"
  | LEASED => "leased"
  | RUNNING => "running"
  | RETRY_WAIT => "retry_wait"
  | SUCCEEDED => "succeeded"
  | FAILED => "failed"
  | DEAD_LETTERED => "dead_lettered"
  | CANCELLED => "cancelled"
  end.
End PlatformJobStatus.
Export (hints) PlatformJobStatus.
Abbreviation PlatformJobStatus := PlatformJobStatus.PlatformJobStatus.

Module JiraIntegrationStatus.
(** models/enums.py:283-287, JiraIntegrationStatus. *)
Inductive JiraIntegrationStatus :=
| PENDING
| CONNECTED
| FAILED
| DISCONNECTED.
#[export] Instance eq_dec : EqDecision JiraIntegrationStatus.
Proof. solve_decision. Defined.
Definition all : list JiraIntegrationStatus :=
  [PENDING; CONNECTED; FAILED; DISCONNECTED].
Definition value (x : JiraIntegrationStatus) : string :=
  match x with
  | PENDING => "pending"
  | CONNECTED => "connected"
  | FAILED => "failed"
  | DISCONNECTED => "disconnected"
  end.
End JiraIntegrationStatus.
Export (hints) JiraIntegrationStatus.
Abbreviation JiraIntegrationStatus := JiraIntegrationStatus.JiraIntegrationStatus.

