(* ===== verification/Rbac.v ===== *)
(** security/rbac.py: capabilities, the role table and the governance checks
    on membership changes. *)

From S2P Require Import Prelude.
From S2P Require Import Enums.

Module Capability.
(** security/rbac.py:9-45, Capability. *)
Inductive Capability :=
| ORGANIZATION_READ
| ORGANIZATION_UPDATE
| MEMBERS_READ
| MEMBERS_MANAGE
| INVITATIONS_MANAGE
| AUDIT_READ
| AWS_ACCOUNTS_MANAGE
| AWS_ACCOUNTS_READ
| DISCOVERY_START
| ASSETS_READ
| RULES_READ
| EVALUATIONS_START
| FINDINGS_READ
| FINDINGS_SUPPRESS
| COMPLIANCE_READ
| COMPLIANCE_ASSESS
| RISK_READ
| RISK_ASSESS
| RISK_CONTEXT_MANAGE
| RISK_CONTROLS_MANAGE
| AI_READ
| AI_GENERATE
| NOTIFICATIONS_READ
| NOTIFICATIONS_APPROVE
| REMEDIATION_READ
| REMEDIATION_REQUEST
| REMEDIATION_APPROVE
| REMEDIATION_REJECT
| REMEDIATION_EXECUTE
| REMEDIATION_ADMIN
| SCHEDULE_READ
| SCHEDULE_MANAGE
| JOBS_READ
| JOBS_MANAGE
| JIRA_MANAGE
| JIRA_READ.
#[export] Instance eq_dec : EqDecision Capability.
Proof. solve_decision. Defined.
Definition all : list Capability :=
  [ORGANIZATION_READ; ORGANIZATION_UPDATE; MEMBERS_READ; MEMBERS_MANAGE;
   INVITATIONS_MANAGE; AUDIT_READ; AWS_ACCOUNTS_MANAGE; AWS_ACCOUNTS_READ;
   DISCOVERY_START; ASSETS_READ; RULES_READ; EVALUATIONS_START;
   FINDINGS_READ; FINDINGS_SUPPRESS; COMPLIANCE_READ; COMPLIANCE_ASSESS;
   RISK_READ; RISK_ASSESS; RISK_CONTEXT_MANAGE; RISK_CONTROLS_MANAGE;
   AI_READ; AI_GENERATE; NOTIFICATIONS_READ; NOTIFICATIONS_APPROVE;
   REMEDIATION_READ; REMEDIATION_REQUEST; REMEDIATION_APPROVE;
   REMEDIATION_REJECT; REMEDIATION_EXECUTE; REMEDIATION_ADMIN;
   SCHEDULE_READ; SCHEDULE_MANAGE; JOBS_READ; JOBS_MANAGE; JIRA_MANAGE;
   JIRA_READ].
Definition value (x : Capability) : string :=
  match x with
  | ORGANIZATION_READ => "organization.read"
  | ORGANIZATION_UPDATE => "organization.update"
  | MEMBERS_READ => "members.read"
  | MEMBERS_MANAGE => "members.manage"
  | INVITATIONS_MANAGE => "invitations.manage"
  | AUDIT_READ => "audit.read"
  | AWS_ACCOUNTS_MANAGE => "aws_accounts.manage"
  | AWS_ACCOUNTS_READ => "aws_accounts.read"
  | DISCOVERY_START => "discovery.start"
  | ASSETS_READ => "assets.read"
  | RULES_READ => "rules.read"
  | EVALUATIONS_START => "evaluations.start"
  | FINDINGS_READ => "findings.read"
  | FINDINGS_SUPPRESS => "findings.suppress"
  | COMPLIANCE_READ => "compliance.read"
  | COMPLIANCE_ASSESS => "compliance.assess"
  | RISK_READ => "risk.read"
  | RISK_ASSESS => "risk.assess"
  | RISK_CONTEXT_MANAGE => "risk.context.manage"
  | RISK_CONTROLS_MANAGE => "risk.controls.manage"
  | AI_READ => "ai.read"
  | AI_GENERATE => "ai.generate"
  | NOTIFICATIONS_READ => "notifications.read"
  | NOTIFICATIONS_APPROVE => "notifications.approve"
  | REMEDIATION_READ => "remediation.read"
  | REMEDIATION_REQUEST => "remediation.request"
  | REMEDIATION_APPROVE => "remediation.approve"
  | REMEDIATION_REJECT => "remediation.reject"
  | REMEDIATION_EXECUTE => "remediation.execute"
  | REMEDIATION_ADMIN => "remediation.admin"
  | SCHEDULE_READ => "schedule.read"
  | SCHEDULE_MANAGE => "schedule.manage"
  | JOBS_READ => "jobs.read"
  | JOBS_MANAGE => "jobs.manage"
  | JIRA_MANAGE => "jira.manage"
  | JIRA_READ => "jira.read"
  end.
End Capability.
Export (hints) Capability.
Abbreviation Capability := Capability.Capability.

Section role_table.
Import Capability.

(** security/rbac.py:48-179, ROLE_CAPABILITIES. *)
Definition ROLE_CAPABILITIES (role : OrganizationRole) : list Capability :=
  match role with
  | OrganizationRole.OWNER => Capability.all
  | OrganizationRole.ADMIN =>
      [ORGANIZATION_READ; ORGANIZATION_UPDATE; MEMBERS_READ;
       MEMBERS_MANAGE; INVITATIONS_MANAGE; AUDIT_READ;
       AWS_ACCOUNTS_MANAGE; AWS_ACCOUNTS_READ; RULES_READ;
       EVALUATIONS_START; FINDINGS_READ; FINDINGS_SUPPRESS;
       COMPLIANCE_READ; COMPLIANCE_ASSESS; RISK_READ; RISK_ASSESS;
       RISK_CONTEXT_MANAGE; RISK_CONTROLS_MANAGE; DISCOVERY_START;
       ASSETS_READ; AI_READ; AI_GENERATE; NOTIFICATIONS_READ;
       NOTIFICATIONS_APPROVE; REMEDIATION_READ; REMEDIATION_REQUEST;
       REMEDIATION_APPROVE; REMEDIATION_REJECT; REMEDIATION_EXECUTE;
       SCHEDULE_READ; SCHEDULE_MANAGE; JOBS_READ; JOBS_MANAGE;
       JIRA_MANAGE; JIRA_READ]
  | OrganizationRole.SECURITY_ANALYST =>
      [ORGANIZATION_READ; MEMBERS_READ; DISCOVERY_START; ASSETS_READ;
       AWS_ACCOUNTS_READ; RULES_READ; EVALUATIONS_START; FINDINGS_READ;
       FINDINGS_SUPPRESS; COMPLIANCE_READ; COMPLIANCE_ASSESS; RISK_READ;
       RISK_ASSESS; RISK_CONTEXT_MANAGE; RISK_CONTROLS_MANAGE; AI_READ;
       AI_GENERATE; NOTIFICATIONS_READ; NOTIFICATIONS_APPROVE;
       REMEDIATION_READ; REMEDIATION_REQUEST; REMEDIATION_APPROVE;
       REMEDIATION_REJECT; REMEDIATION_EXECUTE; SCHEDULE_READ;
       SCHEDULE_MANAGE; JOBS_READ; JOBS_MANAGE]
  | OrganizationRole.CLOUD_ENGINEER =>
      [ORGANIZATION_READ; MEMBERS_READ; DISCOVERY_START; ASSETS_READ;
       AWS_ACCOUNTS_READ; RULES_READ; EVALUATIONS_START; FINDINGS_READ;
       COMPLIANCE_READ; COMPLIANCE_ASSESS; RISK_READ; RISK_ASSESS;
       AI_READ; AI_GENERATE; NOTIFICATIONS_READ; REMEDIATION_READ;
       REMEDIATION_REQUEST; SCHEDULE_READ; SCHEDULE_MANAGE; JOBS_READ;
       JOBS_MANAGE]
  | OrganizationRole.AUDITOR =>
      [ORGANIZATION_READ; MEMBERS_READ; AUDIT_READ; ASSETS_READ;
       RULES_READ; FINDINGS_READ; COMPLIANCE_READ; RISK_READ; AI_READ;
       NOTIFICATIONS_READ; REMEDIATION_READ; SCHEDULE_READ; JOBS_READ]
  | OrganizationRole.VIEWER =>
      [ORGANIZATION_READ; ASSETS_READ; AWS_ACCOUNTS_READ; RULES_READ;
       FINDINGS_READ; COMPLIANCE_READ; RISK_READ; AI_READ;
       NOTIFICATIONS_READ; REMEDIATION_READ; SCHEDULE_READ; JOBS_READ]
  end.
End role_table.

(** security/rbac.py:182-183, role_has_capability. *)
Definition role_has_capability (role : OrganizationRole) (capability : Capability) : bool :=
  bool_decide (capability ∈ ROLE_CAPABILITIES role).

(** security/rbac.py:186-189, can_assign_role. *)
Definition can_assign_role (actor target : OrganizationRole) : bool :=
  if decide (actor = OrganizationRole.OWNER) then true
  else bool_decide (actor = OrganizationRole.ADMIN)
       && bool_decide (target ≠ OrganizationRole.OWNER).

(** security/rbac.py:192-208, ensure_actor_can_manage_membership.  [None] is
    the normal return, [Some e] the exception raised. *)
Definition ensure_actor_can_manage_membership (actor_role target_role : OrganizationRole)
    (requested_role : option OrganizationRole) : option exn :=
  if decide (actor_role ∉ [OrganizationRole.OWNER; OrganizationRole.ADMIN])
  then Some (ForbiddenError "forbidden")
  else if decide (target_role = OrganizationRole.OWNER ∧ actor_role ≠ OrganizationRole.OWNER)
  then Some (ForbiddenError "owner_management_forbidden")
  else if decide (requested_role = Some OrganizationRole.OWNER
                  ∧ actor_role ≠ OrganizationRole.OWNER)
  then Some (ForbiddenError "owner_assignment_forbidden")
  else None.
