(* ===== verification/PyValue.v ===== *)
(** JSON-shaped Python values and the string operations the services use.

    A [pyval] is what [json.loads] yields on documents without floats; strings
    are ASCII.  Dicts keep insertion order. *)

From S2P Require Import Prelude.
From Stdlib Require Import Ascii.
From stdpp Require Import pretty list.

Inductive pyval :=
| PNone
| PBool (b : bool)
| PInt (z : Z)
| PStr (s : string)
| PList (l : list pyval)
| PDict (d : list (string * pyval)).

(** * Strings *)

Definition code (c : ascii) : N := N_of_ascii c.

(** [str.lower] and [str.casefold], which agree on ASCII. *)
Definition lower_char (c : ascii) : ascii :=
  if (65 <=? code c)%N && (code c <=? 90)%N then ascii_of_N (code c + 32) else c.

Definition upper_char (c : ascii) : ascii :=
  if (97 <=? code c)%N && (code c <=? 122)%N then ascii_of_N (code c - 32) else c.
Fixpoint smap (f : ascii → ascii) (s : string) : string :=
  match s with
  | EmptyString => EmptyString
  | String c s => String (f c) (smap f s)
  end.

Definition lower : string → string := smap lower_char.

(** [s[:n]] *)
Fixpoint str_take (n : nat) (s : string) : string :=
  match n, s with
  | S n, String c s => String c (str_take n s)
  | _, _ => EmptyString
  end.

Arguments str_take : simpl nomatch.

(** [s[n:]] *)
Fixpoint str_drop (n : nat) (s : string) : string :=
  match n, s with
  | S n, String _ s => str_drop n s
  | _, s => s
  end.

Definition startswith (s p : string) : bool := String.prefix p s.
Definition endswith (s p : string) : bool :=
  let n := String.length s in let k := String.length p in
  Nat.leb k n && String.eqb (str_drop (n - k) s) p.

(** The ASCII whitespace of [str.isspace]: tab to carriage return, the four
    separators and space. *)
Definition is_space (c : ascii) : bool :=
  let n := code c in
  ((9 <=? n) && (n <=? 13) || (28 <=? n) && (n <=? 32))%N.

Fixpoint lstrip (s : string) : string :=
  match s with
  | String c s' => if is_space c then lstrip s' else s
  | EmptyString => s
  end.
Fixpoint srev_app (s acc : string) : string :=
  match s with
  | EmptyString => acc
  | String c s => srev_app s (String c acc)
  end.
Definition srev (s : string) : string := srev_app s EmptyString.
Definition rstrip (s : string) : string := srev (lstrip (srev s)).
(** [s.strip()] *)
Definition strip (s : string) : string := rstrip (lstrip s).

(** Truth value of a string. *)
Definition nonempty (s : string) : bool := negb (String.eqb s "").

(** * Case-insensitive keyword expressions

    The sensitive-key expressions are alternations of literals in which [.?]
    may stand between two words; [?] in a pattern below is [.?]. *)

Inductive rx_item := Chr (c : ascii) | OptDot.

Fixpoint rx_of (s : string) : list rx_item :=
  match s with
  | EmptyString => []
  | String c s => (if Ascii.eqb c "?" then OptDot else Chr c) :: rx_of s
  end.

Definition newline : ascii := ascii_of_nat 10.

(** Does the expression match a prefix of [s]? *)
Fixpoint rx_prefix (p : list rx_item) (s : string) : bool :=
  match p with
  | [] => true
  | Chr c :: p =>
      match s with
      | String c' s => Ascii.eqb (lower_char c) (lower_char c') && rx_prefix p s
      | EmptyString => false
      end
  | OptDot :: p =>
      rx_prefix p s
      || match s with
         | String c' s => negb (Ascii.eqb c' newline) && rx_prefix p s
         | EmptyString => false
         end
  end.

(** [re.search] for one alternative. *)
Fixpoint rx_search1 (p : list rx_item) (s : string) : bool :=
  rx_prefix p s
  || match s with
     | String _ s => rx_search1 p s
     | EmptyString => false
     end.

Definition rx_search (alts : list string) (s : string) : bool :=
  existsb (λ a, rx_search1 (rx_of a) s) alts.

(** * Dicts *)

Abbreviation pydict := (list (string * pyval)).

(** [d.get(k)] without a default *)
Fixpoint dget (k : string) (d : pydict) : option pyval :=
  match d with
  | [] => None
  | (k', v) :: d => if String.eqb k k' then Some v else dget k d
  end.

(** [d[k] = v], keeping the position of an existing key *)
Fixpoint dset (k : string) (v : pyval) (d : pydict) : pydict :=
  match d with
  | [] => [(k, v)]
  | (k', v') :: d =>
      if String.eqb k k' then (k', v) :: d else (k', v') :: dset k v d
  end.

(** A dict display or comprehension over the items. *)
Definition dict_of (items : list (string * pyval)) : pydict :=
  fold_left (λ d kv, dset kv.1 kv.2 d) items [].

(** [d.get(k, v)] *)
Definition dget_or (k : string) (v : pyval) (d : pydict) : pyval :=
  default v (dget k d).

(** * Equality, truth and [str] *)

Definition as_number (v : pyval) : option Z :=
  match v with
  | PBool b => Some (if b then 1 else 0)%Z
  | PInt z => Some z
  | _ => None
  end.

(** [a == b]: [True == 1], lists elementwise, dicts up to order. *)
Fixpoint py_eq (a b : pyval) {struct a} : bool :=
  match a, b with
  | PNone, PNone => true
  | PStr s, PStr t => String.eqb s t
  | PList l, PList l' =>
      (fix go l l' := match l, l' with
        | [], [] => true
        | x :: l, y :: l' => py_eq x y && go l l'
        | _, _ => false
        end) l l'
  | PDict d, PDict d' =>
      Nat.eqb (length d) (length d')
      && (fix go (d : pydict) := match d with
           | [] => true
           | (k, v) :: d =>
               match dget k d' with Some v' => py_eq v v' | None => false end && go d
           end) d
  | _, _ =>
      match as_number a, as_number b with
      | Some x, Some y => Z.eqb x y
      | _, _ => false
      end
  end.

(** [bool(v)] *)
Definition py_bool (v : pyval) : bool :=
  match v with
  | PNone => false
  | PBool b => b
  | PInt z => negb (Z.eqb z 0)
  | PStr s => nonempty s
  | PList l => match l with [] => false | _ => true end
  | PDict d => match d with [] => false | _ => true end
  end.

Definition is_true_obj (v : pyval) : bool := match v with PBool true => true | _ => false end.
Definition is_false_obj (v : pyval) : bool := match v with PBool false => true | _ => false end.
Definition is_none (v : pyval) : bool := match v with PNone => true | _ => false end.
(** [isinstance(v, int)], true of booleans as well *)
Definition is_int (v : pyval) : bool := match as_number v with Some _ => true | None => false end.
Definition is_str (v : pyval) : bool := match v with PStr _ => true | _ => false end.
Definition is_list (v : pyval) : bool := match v with PList _ => true | _ => false end.
Definition is_dict (v : pyval) : bool := match v with PDict _ => true | _ => false end.

Definition hex_digit (n : N) : ascii :=
  if (n <? 10)%N then ascii_of_N (48 + n) else ascii_of_N (87 + n).

Definition hex2 (c : ascii) : string :=
  String (hex_digit (code c / 16)) (String (hex_digit (code c mod 16)) EmptyString).

Definition quote_char : ascii := ascii_of_nat 39.
Definition dquote_char : ascii := ascii_of_nat 34.
Definition backslash : ascii := ascii_of_nat 92.

Fixpoint has_char (c : ascii) (s : string) : bool :=
  match s with
  | EmptyString => false
  | String c' s => Ascii.eqb c c' || has_char c s
  end.

(** The body of [repr(s)] between quotes [q]. *)
Fixpoint repr_body (q : ascii) (s : string) : string :=
  match s with
  | EmptyString => EmptyString
  | String c s =>
      let r := repr_body q s in
      let n := code c in
      if Ascii.eqb c q || Ascii.eqb c backslash then String backslash (String c r)
      else if (n =? 10)%N then String backslash (String "n" r)
      else if (n =? 13)%N then String backslash (String "r" r)
      else if (n =? 9)%N then String backslash (String "t" r)
      else if (n <? 32)%N || (126 <? n)%N
      then String backslash (String "x" (hex2 c +:+ r))
      else String c r
  end.

(** [repr(s)] of an ASCII string *)
Definition repr_str (s : string) : string :=
  let q := if has_char quote_char s && negb (has_char dquote_char s)
           then dquote_char else quote_char in
  String q (repr_body q s +:+ String q EmptyString).

Fixpoint concat_sep (sep : string) (l : list string) : string :=
  match l with
  | [] => ""
  | [x] => x
  | x :: l => x +:+ sep +:+ concat_sep sep l
  end.

(** [repr(v)] *)
Fixpoint py_repr (v : pyval) : string :=
  match v with
  | PNone => "None"
  | PBool b => if b then "True" else "False"
  | PInt z => pretty z
  | PStr s => repr_str s
  | PList l => "[" +:+ concat_sep ", " (map py_repr l) +:+ "]"
  | PDict d =>
      "{" +:+ concat_sep ", " (map (λ kv, repr_str kv.1 +:+ ": " +:+ py_repr kv.2) d) +:+ "}"
  end.

(** [str(v)] *)
Definition py_str (v : pyval) : string :=
  match v with PStr s => s | _ => py_repr v end.

(** * [json.dumps(v, sort_keys=True, separators=(",", ":"))] *)

Fixpoint json_escape (s : string) : string :=
  match s with
  | EmptyString => EmptyString
  | String c s =>
      let r := json_escape s in
      let n := code c in
      if Ascii.eqb c dquote_char || Ascii.eqb c backslash then String backslash (String c r)
      else if (n =? 10)%N then String backslash (String "n" r)
      else if (n =? 13)%N then String backslash (String "r" r)
      else if (n =? 9)%N then String backslash (String "t" r)
      else if (n =? 8)%N then String backslash (String "b" r)
      else if (n =? 12)%N then String backslash (String "f" r)
      else if (n <? 32)%N || (126 <? n)%N
      then String backslash ("u00" +:+ hex2 c +:+ r)
      else String c r
  end.

Definition json_str (s : string) : string :=
  String dquote_char (json_escape s +:+ String dquote_char EmptyString).

Fixpoint insert_item {A} (x : string * A) (l : list (string * A)) : list (string * A) :=
  match l with
  | [] => [x]
  | y :: l' => if String.leb x.1 y.1 then x :: l else y :: insert_item x l'
  end.
Definition sort_items {A} (l : list (string * A)) : list (string * A) :=
  foldr insert_item [] l.

Fixpoint json_dumps (v : pyval) : string :=
  match v with
  | PNone => "null"
  | PBool b => if b then "true" else "false"
  | PInt z => pretty z
  | PStr s => json_str s
  | PList l => "[" +:+ concat_sep "," (map json_dumps l) +:+ "]"
  | PDict d =>
      "{" +:+ concat_sep ","
        (map (λ kv : string * string, json_str kv.1 +:+ ":" +:+ kv.2)
             (sort_items (map (λ kv, (kv.1, json_dumps kv.2)) d))) +:+ "}"
  end.

(** * Iteration, [int] and sorting *)

Fixpoint chars (s : string) : list pyval :=
  match s with
  | EmptyString => []
  | String c s => PStr (String c EmptyString) :: chars s
  end.

(** The items a [for] loop over [v] visits. *)
Definition py_iter (v : pyval) : res (list pyval) :=
  match v with
  | PList l => inl l
  | PDict d => inl (map (λ kv, PStr kv.1) d)
  | PStr s => inl (chars s)
  | _ => inr TypeError
  end.

(** [s.replace(c, t)] for a one-character pattern *)
Fixpoint replace_char (c : ascii) (t s : string) : string :=
  match s with
  | EmptyString => EmptyString
  | String c' s => if Ascii.eqb c c' then t +:+ replace_char c t s
                   else String c' (replace_char c t s)
  end.

Definition digit_of (c : ascii) : option Z :=
  if (48 <=? code c)%N && (code c <=? 57)%N then Some (Z.of_N (code c) - 48)%Z else None.

(** Decimal digits with single underscores between them. *)
Fixpoint parse_digits (acc : Z) (after_digit : bool) (s : string) : option Z :=
  match s with
  | EmptyString => if after_digit then Some acc else None
  | String c s =>
      match digit_of c with
      | Some d => parse_digits (10 * acc + d)%Z true s
      | None => if Ascii.eqb c "_" && after_digit
                then match s with
                     | String c' _ => if digit_of c' is Some _ then parse_digits acc false s else None
                     | EmptyString => None
                     end
                else None
      end
  end.

(** [int(v)] *)
Definition py_int (v : pyval) : res Z :=
  match v with
  | PInt z => inl z
  | PBool b => inl (if b then 1 else 0)%Z
  | PStr s =>
      let s := strip s in
      let r := match s with
        | String c s' =>
            if Ascii.eqb c "-" then Z.opp <$> parse_digits 0 false s'
            else if Ascii.eqb c "+" then parse_digits 0 false s'
            else parse_digits 0 false s
        | EmptyString => None
        end in
      match r with Some z => inl z | None => inr ValueError end
  | _ => inr TypeError
  end.

Fixpoint insert_string (x : string) (l : list string) : list string :=
  match l with
  | [] => [x]
  | y :: l' => if String.eqb x y then l
               else if String.leb x y then x :: l else y :: insert_string x l'
  end.
(** [sorted(set(l))] *)
Definition sorted_set (l : list string) : list string := foldr insert_string [] l.

(** * Induction over values *)

Section pyval_ind.
Variable P : pyval → Prop.
Hypothesis HNone : P PNone.
Hypothesis HBool : ∀ b, P (PBool b).
Hypothesis HInt : ∀ z, P (PInt z).
Hypothesis HStr : ∀ s, P (PStr s).
Hypothesis HList : ∀ l, Forall P l → P (PList l).
Hypothesis HDict : ∀ d, Forall (λ kv, P kv.2) d → P (PDict d).

Fixpoint pyval_rec' (v : pyval) : P v :=
  match v with
  | PNone => HNone
  | PBool b => HBool b
  | PInt z => HInt z
  | PStr s => HStr s
  | PList l => HList l ((fix go l : Forall P l :=
      match l with
      | [] => List.Forall_nil _
      | x :: l => List.Forall_cons _ x l (pyval_rec' x) (go l)
      end) l)
  | PDict d => HDict d ((fix go d : Forall (λ kv, P kv.2) d :=
      match d with
      | [] => List.Forall_nil _
      | kv :: d => List.Forall_cons _ kv d (pyval_rec' kv.2) (go d)
      end) d)
  end.
End pyval_ind.

(** * Lemmas *)

Lemma insert_item_perm {A} (x : string * A) l : insert_item x l ≡ₚ x :: l.
Proof.
  induction l as [|y l IH]; cbn; [done|]. destruct (String.leb _ _); [done|].
  by rewrite IH, Permutation_swap.
Qed.
Lemma sort_items_perm {A} (l : list (string * A)) : sort_items l ≡ₚ l.
Proof.
  unfold sort_items. induction l as [|x l IH]; cbn; [done|]. by rewrite insert_item_perm, IH.
Qed.

Lemma dget_dset k k' v d :
  dget k (dset k' v d) = if String.eqb k k' then Some v else dget k d.
Proof.
  induction d as [|[k1 v1] d IH]; cbn.
  { done. }
  destruct (String.eqb_spec k' k1) as [->|Hne]; cbn.
  - by destruct (String.eqb k k1).
  - rewrite IH. destruct (String.eqb_spec k k1) as [->|]; [|done].
    by destruct (String.eqb_spec k1 k') as [->|].
Qed.

Lemma str_take_length n s : String.length (str_take n s) ≤ n.
Proof.
  revert s. induction n as [|n IH]; intros [|c s]; cbn; try lia.
  specialize (IH s). lia.
Qed.

Lemma str_take_id n s : String.length s ≤ n → str_take n s = s.
Proof.
  revert s. induction n as [|n IH]; intros [|c s]; cbn; intros; try done; [lia|].
  by rewrite IH by lia.
Qed.

Lemma str_take_take n s : str_take n (str_take n s) = str_take n s.
Proof. apply str_take_id, str_take_length. Qed.

(** A prefix that matches is a match of the whole string. *)
Lemma rx_prefix_take p n s : rx_prefix p (str_take n s) = true → rx_prefix p s = true.
Proof.
  revert n s. induction p as [|[c|] p IH]; intros n s; cbn; [done| |].
  - destruct n as [|n], s as [|c' s]; cbn; try done.
    intros [-> ?]%andb_true_iff. cbn. eauto.
  - intros [H|H]%orb_true_iff; apply orb_true_iff; [by eauto|].
    right. destruct n as [|n], s as [|c' s]; cbn in *; try done.
    apply andb_true_iff in H as [-> H]. cbn. eauto.
Qed.

Lemma rx_search1_take p n s : rx_search1 p (str_take n s) = true → rx_search1 p s = true.
Proof.
  revert s. induction n as [|n IH]; intros [|c s]; cbn; auto.
  - intros [H|]%orb_true_iff; [|done].
    apply orb_true_iff. left. by apply (rx_prefix_take p 0).
  - intros [H|H]%orb_true_iff; apply orb_true_iff; [left|right; eauto].
    by apply (rx_prefix_take p (S n) (String c s)).
Qed.

Lemma rx_search_take alts n s : rx_search alts (str_take n s) = true → rx_search alts s = true.
Proof.
  unfold rx_search. rewrite !existsb_exists. intros (a & ? & ?).
  eauto using rx_search1_take.
Qed.

(** Fewer alternatives match less. *)
Lemma rx_search_incl alts alts' s :
  alts ⊆ alts' → rx_search alts s = true → rx_search alts' s = true.
Proof.
  unfold rx_search. rewrite !existsb_exists. intros Hsub (a & Ha & ?).
  exists a. split; [|done]. apply list_elem_of_In, Hsub, list_elem_of_In, Ha.
Qed.

(** ** Dict construction *)

Lemma dset_fst k v d :
  (dset k v d).*1 = if decide (k ∈ d.*1) then d.*1 else d.*1 ++ [k].
Proof.
  induction d as [|[k' v'] d IH]; cbn; [done|].
  destruct (String.eqb_spec k k') as [->|Hne]; cbn.
  { rewrite decide_True by set_solver. done. }
  rewrite IH. repeat case_decide; set_solver.
Qed.

Lemma dset_Forall (P : string * pyval → Prop) k v d :
  Forall P d → P (k, v) → Forall P (dset k v d).
Proof.
  intros Hd Hkv. induction Hd as [|[k' v'] d Hx Hd IH]; cbn; [by repeat constructor|].
  destruct (String.eqb_spec k k') as [->|]; by repeat constructor.
Qed.

Lemma dset_length k v d : length (dset k v d) ≤ S (length d).
Proof.
  induction d as [|[k' v'] d IH]; cbn; [lia|].
  destruct (String.eqb k k'); cbn; lia.
Qed.

Lemma dset_NoDup k v d : NoDup d.*1 → NoDup (dset k v d).*1.
Proof.
  intros H. rewrite dset_fst. case_decide; [done|].
  apply NoDup_app. split_and!; [done|set_solver|apply NoDup_singleton].
Qed.

Lemma dset_new k v d : k ∉ d.*1 → dset k v d = d ++ [(k, v)].
Proof.
  induction d as [|[k' v'] d IH]; cbn; intros H; [done|].
  destruct (String.eqb_spec k k') as [->|]; [set_solver|].
  rewrite IH; set_solver.
Qed.

Lemma dict_of_Forall (P : string * pyval → Prop) items :
  Forall P items → Forall P (dict_of items).
Proof.
  unfold dict_of. intros Hi. assert (Forall P ([] : pydict)) as Hacc by constructor.
  revert Hacc. generalize ([] : pydict).
  induction Hi as [|[k v] items ? ? IH]; intros acc ?; cbn; [done|].
  by apply IH, dset_Forall.
Qed.

Lemma dict_of_NoDup items : NoDup (dict_of items).*1.
Proof.
  unfold dict_of. assert (NoDup ([] : pydict).*1) as Hacc by constructor.
  revert Hacc. generalize ([] : pydict).
  induction items as [|[k v] items IH]; intros acc ?; cbn; [done|].
  by apply IH, dset_NoDup.
Qed.

Lemma dict_of_length items : length (dict_of items) ≤ length items.
Proof.
  enough (∀ acc, length (fold_left (λ d kv, dset kv.1 kv.2 d) items acc)
                 ≤ length acc + length items) as H by apply (H []).
  induction items as [|[k v] items IH]; intros acc; cbn; [lia|].
  etrans; [apply IH|]. pose proof (dset_length k v acc). lia.
Qed.

Lemma dict_of_id d : NoDup d.*1 → dict_of d = d.
Proof.
  unfold dict_of. change d with ([] ++ d) at 1 3. generalize ([] : pydict).
  induction d as [|[k v] d IH]; intros acc; cbn.
  { by rewrite app_nil_r. }
  intros Hnd. rewrite fmap_app in Hnd. cbn in Hnd.
  rewrite dset_new.
  2: { apply NoDup_app in Hnd as (_ & Hnd & _). intros Hk. apply (Hnd _ Hk). set_solver. }
  rewrite IH, <-app_assoc; [done|].
  by rewrite <-app_assoc, fmap_app.
Qed.
