(* ===== verification/Models.v ===== *)
(** The tables of the database (app/models): one record per ORM class with its
    columns in declaration order, and the record of all tables.

    JSON columns hold a [pyval].  [updated_at] is not modelled, [created_at]
    only where a service orders by it.  Of an audit event the columns that say
    what happened are kept; its metadata, client address and insertion time
    are not.  CHECK constraints are stated as predicates in the files of the
    components that maintain them; a unique index is an explicit test of the
    insert that can violate it; foreign keys are not modelled. *)

From S2P Require Import Prelude.
From S2P Require Import Enums.
From S2P Require Import PyValue.

Module Organization.
(** models/organization.py:19-37, part of Organization. *)
Record Organization := mk {
  id : uuid;
  name : string;
  slug : string;
  status : OrganizationStatus;
  created_by_user_id : uuid
}.
#[export] Instance eta : Eta Organization :=
  eta! mk < id ; name ; slug ; status ; created_by_user_id >.
#[export] Instance row : Row Organization := id.
End Organization.
Abbreviation Organization := Organization.Organization.
Export (hints) Organization.

Module User.
(** models/user.py:20-42, part of User. *)
Record User := mk {
  id : uuid;
  email : string;
  normalized_email : string;
  password_hash : string;
  full_name : string;
  status : UserStatus;
  is_platform_admin : bool;
  email_verified_at : option timestamp;
  last_login_at : option timestamp
}.
#[export] Instance eta : Eta User :=
  eta! mk < id ; email ; normalized_email ; password_hash ; full_name ; status
  ; is_platform_admin ; email_verified_at ; last_login_at >.
#[export] Instance row : Row User := id.
End User.
Abbreviation User := User.User.
Export (hints) User.

Module OrganizationMembership.
(** models/membership.py:21-55, part of OrganizationMembership. *)
Record OrganizationMembership := mk {
  id : uuid;
  organization_id : uuid;
  user_id : uuid;
  role : OrganizationRole;
  status : MembershipStatus;
  invited_by_user_id : option uuid;
  joined_at : option timestamp
}.
#[export] Instance eta : Eta OrganizationMembership :=
  eta! mk < id ; organization_id ; user_id ; role ; status ;
  invited_by_user_id ; joined_at >.
#[export] Instance row : Row OrganizationMembership := id.
End OrganizationMembership.
Abbreviation OrganizationMembership := OrganizationMembership.OrganizationMembership.
Export (hints) OrganizationMembership.

Module OrganizationInvitation.
(** models/invitation.py:49-96, part of OrganizationInvitation. *)
Record OrganizationInvitation := mk {
  id : uuid;
  organization_id : uuid;
  email : string;
  normalized_email : string;
  role : OrganizationRole;
  token_hash : string;
  status : InvitationStatus;
  invited_by_user_id : uuid;
  expires_at : timestamp;
  accepted_at : option timestamp;
  last_delivery_status : option string;
  last_delivery_error_code : option string;
  last_delivery_attempt_at : option timestamp;
  last_delivered_at : option timestamp;
  delivery_generation : Z;
  created_at : timestamp
}.
#[export] Instance eta : Eta OrganizationInvitation :=
  eta! mk < id ; organization_id ; email ; normalized_email ; role ;
  token_hash ; status ; invited_by_user_id ; expires_at ; accepted_at ;
  last_delivery_status ; last_delivery_error_code ; last_delivery_attempt_at ;
  last_delivered_at ; delivery_generation ; created_at >.
#[export] Instance row : Row OrganizationInvitation := id.
End OrganizationInvitation.
Abbreviation OrganizationInvitation := OrganizationInvitation.OrganizationInvitation.
Export (hints) OrganizationInvitation.

Module RefreshTokenSession.
(** models/refresh_session.py:21-34, part of RefreshTokenSession. *)
Record RefreshTokenSession := mk {
  id : uuid;
  user_id : uuid;
  token_hash : string;
  family_id : uuid;
  issued_at : timestamp;
  expires_at : timestamp;
  revoked_at : option timestamp;
  replaced_by_id : option uuid
}.
#[export] Instance eta : Eta RefreshTokenSession :=
  eta! mk < id ; user_id ; token_hash ; family_id ; issued_at ; expires_at ;
  revoked_at ; replaced_by_id >.
#[export] Instance row : Row RefreshTokenSession := id.
End RefreshTokenSession.
Abbreviation RefreshTokenSession := RefreshTokenSession.RefreshTokenSession.
Export (hints) RefreshTokenSession.

Module AWSAccount.
(** models/aws_account.py:55-105, part of AWSAccount. *)
Record AWSAccount := mk {
  id : uuid;
  organization_id : uuid;
  name : string;
  account_id : string;
  role_arn : option string;
  external_id : string;
  remediation_role_arn : option string;
  remediation_external_id : option string;
  sandbox_approved : bool;
  sandbox_approved_at : option timestamp;
  sandbox_approved_by_user_id : option uuid;
  status : AWSAccountStatus;
  connection_status : AWSAccountStatus;
  failure_reason : option string;
  last_validated_at : option timestamp;
  validation_token : option uuid;
  validation_started_at : option timestamp;
  lifecycle_version : Z;
  created_by_user_id : uuid
}.
#[export] Instance eta : Eta AWSAccount :=
  eta! mk < id ; organization_id ; name ; account_id ; role_arn ; external_id
  ; remediation_role_arn ; remediation_external_id ; sandbox_approved ;
  sandbox_approved_at ; sandbox_approved_by_user_id ; status ;
  connection_status ; failure_reason ; last_validated_at ; validation_token ;
  validation_started_at ; lifecycle_version ; created_by_user_id >.
#[export] Instance row : Row AWSAccount := id.
End AWSAccount.
Abbreviation AWSAccount := AWSAccount.AWSAccount.
Export (hints) AWSAccount.

Module Asset.
(** models/asset.py:53-88, part of Asset. *)
Record Asset := mk {
  id : uuid;
  organization_id : uuid;
  aws_account_id : uuid;
  asset_type : AssetType;
  resource_id : string;
  arn : option string;
  name : string;
  region : string;
  status : option string;
  tags : pyval;
  metadata_json : pyval;
  first_seen_at : timestamp;
  last_seen_at : timestamp;
  is_active : bool
}.
#[export] Instance eta : Eta Asset :=
  eta! mk < id ; organization_id ; aws_account_id ; asset_type ; resource_id ;
  arn ; name ; region ; status ; tags ; metadata_json ; first_seen_at ;
  last_seen_at ; is_active >.
#[export] Instance row : Row Asset := id.
End Asset.
Abbreviation Asset := Asset.Asset.
Export (hints) Asset.

Module DiscoveryJob.
(** models/discovery_job.py:68-103, part of DiscoveryJob. *)
Record DiscoveryJob := mk {
  id : uuid;
  organization_id : uuid;
  aws_account_id : uuid;
  status : DiscoveryJobStatus;
  started_by_user_id : uuid;
  started_at : option timestamp;
  finished_at : option timestamp;
  assets_discovered : Z;
  assets_created : Z;
  assets_updated : Z;
  assets_deactivated : Z;
  error_summary : option string;
  created_at : timestamp
}.
#[export] Instance eta : Eta DiscoveryJob :=
  eta! mk < id ; organization_id ; aws_account_id ; status ;
  started_by_user_id ; started_at ; finished_at ; assets_discovered ;
  assets_created ; assets_updated ; assets_deactivated ; error_summary ;
  created_at >.
#[export] Instance row : Row DiscoveryJob := id.
End DiscoveryJob.
Abbreviation DiscoveryJob := DiscoveryJob.DiscoveryJob.
Export (hints) DiscoveryJob.

Module Finding.
(** models/finding.py:88-142, part of Finding. *)
Record Finding := mk {
  id : uuid;
  organization_id : uuid;
  aws_account_id : uuid;
  asset_id : option uuid;
  rule_key : string;
  rule_version : Z;
  severity : FindingSeverity;
  category : string;
  status : FindingStatus;
  evidence_json : pyval;
  first_seen_at : timestamp;
  last_seen_at : timestamp;
  resolved_at : option timestamp;
  suppressed_at : option timestamp;
  suppressed_until : option timestamp;
  suppression_reason : option string;
  suppressed_by_user_id : option uuid;
  last_evaluation_id : uuid;
  lifecycle_version : Z
}.
#[export] Instance eta : Eta Finding :=
  eta! mk < id ; organization_id ; aws_account_id ; asset_id ; rule_key ;
  rule_version ; severity ; category ; status ; evidence_json ; first_seen_at
  ; last_seen_at ; resolved_at ; suppressed_at ; suppressed_until ;
  suppression_reason ; suppressed_by_user_id ; last_evaluation_id ;
  lifecycle_version >.
#[export] Instance row : Row Finding := id.
End Finding.
Abbreviation Finding := Finding.Finding.
Export (hints) Finding.

Module EvaluationJob.
(** models/evaluation_job.py:90-149, part of EvaluationJob. *)
Record EvaluationJob := mk {
  id : uuid;
  organization_id : uuid;
  aws_account_id : uuid;
  discovery_job_id : option uuid;
  full_evaluation : bool;
  sequence : Z;
  status : EvaluationJobStatus;
  started_by_user_id : uuid;
  started_at : option timestamp;
  finished_at : option timestamp;
  assets_evaluated : Z;
  rules_evaluated : Z;
  passed_count : Z;
  failed_count : Z;
  error_count : Z;
  not_applicable_count : Z;
  findings_created : Z;
  findings_updated : Z;
  findings_resolved : Z;
  findings_reopened : Z;
  evaluation_errors : Z;
  error_summary : option string;
  created_at : timestamp
}.
#[export] Instance eta : Eta EvaluationJob :=
  eta! mk < id ; organization_id ; aws_account_id ; discovery_job_id ;
  full_evaluation ; sequence ; status ; started_by_user_id ; started_at ;
  finished_at ; assets_evaluated ; rules_evaluated ; passed_count ;
  failed_count ; error_count ; not_applicable_count ; findings_created ;
  findings_updated ; findings_resolved ; findings_reopened ; evaluation_errors
  ; error_summary ; created_at >.
#[export] Instance row : Row EvaluationJob := id.
End EvaluationJob.
Abbreviation EvaluationJob := EvaluationJob.EvaluationJob.
Export (hints) EvaluationJob.

Module EvaluationRuleResult.
(** models/compliance.py:278-293, part of EvaluationRuleResult. *)
Record EvaluationRuleResult := mk {
  id : uuid;
  evaluation_job_id : uuid;
  organization_id : uuid;
  aws_account_id : uuid;
  rule_key : string;
  rule_version : Z;
  passed_count : Z;
  failed_count : Z;
  not_applicable_count : Z;
  error_count : Z
}.
#[export] Instance eta : Eta EvaluationRuleResult :=
  eta! mk < id ; evaluation_job_id ; organization_id ; aws_account_id ;
  rule_key ; rule_version ; passed_count ; failed_count ; not_applicable_count
  ; error_count >.
#[export] Instance row : Row EvaluationRuleResult := id.
End EvaluationRuleResult.
Abbreviation EvaluationRuleResult := EvaluationRuleResult.EvaluationRuleResult.
Export (hints) EvaluationRuleResult.

Module ComplianceFramework.
(** models/compliance.py:32-39, part of ComplianceFramework. *)
Record ComplianceFramework := mk {
  id : uuid;
  key : string;
  name : string;
  version : string;
  description : string;
  official_reference : string;
  enabled : bool;
  published_at : option timestamp
}.
#[export] Instance eta : Eta ComplianceFramework :=
  eta! mk < id ; key ; name ; version ; description ; official_reference ;
  enabled ; published_at >.
#[export] Instance row : Row ComplianceFramework := id.
End ComplianceFramework.
Abbreviation ComplianceFramework := ComplianceFramework.ComplianceFramework.
Export (hints) ComplianceFramework.

Module ComplianceControl.
(** models/compliance.py:50-60, part of ComplianceControl. *)
Record ComplianceControl := mk {
  id : uuid;
  framework_id : uuid;
  control_key : string;
  title : string;
  description : string;
  section : option string;
  parent_control_id : option uuid
}.
#[export] Instance eta : Eta ComplianceControl :=
  eta! mk < id ; framework_id ; control_key ; title ; description ; section ;
  parent_control_id >.
#[export] Instance row : Row ComplianceControl := id.
End ComplianceControl.
Abbreviation ComplianceControl := ComplianceControl.ComplianceControl.
Export (hints) ComplianceControl.

Module RuleControlMapping.
(** models/compliance.py:96-109, part of RuleControlMapping. *)
Record RuleControlMapping := mk {
  id : uuid;
  rule_key : string;
  minimum_rule_version : Z;
  maximum_rule_version : option Z;
  framework_id : uuid;
  control_id : uuid;
  mapping_type : string;
  rationale : string
}.
#[export] Instance eta : Eta RuleControlMapping :=
  eta! mk < id ; rule_key ; minimum_rule_version ; maximum_rule_version ;
  framework_id ; control_id ; mapping_type ; rationale >.
#[export] Instance row : Row RuleControlMapping := id.
End RuleControlMapping.
Abbreviation RuleControlMapping := RuleControlMapping.RuleControlMapping.
Export (hints) RuleControlMapping.

Module ComplianceAssessment.
(** models/compliance.py:163-205, part of ComplianceAssessment. *)
Record ComplianceAssessment := mk {
  id : uuid;
  organization_id : uuid;
  aws_account_id : option uuid;
  framework_id : uuid;
  evaluation_job_id : option uuid;
  status : ComplianceAssessmentStatus;
  controls_total : Z;
  controls_passed : Z;
  controls_failed : Z;
  controls_not_assessed : Z;
  controls_error : Z;
  findings_count : Z;
  started_at : option timestamp;
  finished_at : option timestamp;
  error_summary : option string;
  created_at : timestamp
}.
#[export] Instance eta : Eta ComplianceAssessment :=
  eta! mk < id ; organization_id ; aws_account_id ; framework_id ;
  evaluation_job_id ; status ; controls_total ; controls_passed ;
  controls_failed ; controls_not_assessed ; controls_error ; findings_count ;
  started_at ; finished_at ; error_summary ; created_at >.
#[export] Instance row : Row ComplianceAssessment := id.
End ComplianceAssessment.
Abbreviation ComplianceAssessment := ComplianceAssessment.ComplianceAssessment.
Export (hints) ComplianceAssessment.

Module ComplianceAssessmentControl.
(** models/compliance.py:228-246, part of ComplianceAssessmentControl. *)
Record ComplianceAssessmentControl := mk {
  id : uuid;
  assessment_id : uuid;
  control_id : uuid;
  framework_id : uuid;
  status : ComplianceControlStatus;
  findings_count : Z;
  assessed_at : timestamp
}.
#[export] Instance eta : Eta ComplianceAssessmentControl :=
  eta! mk < id ; assessment_id ; control_id ; framework_id ; status ;
  findings_count ; assessed_at >.
#[export] Instance row : Row ComplianceAssessmentControl := id.
End ComplianceAssessmentControl.
Abbreviation ComplianceAssessmentControl := ComplianceAssessmentControl.ComplianceAssessmentControl.
Export (hints) ComplianceAssessmentControl.

Module AssetRiskContext.
(** models/risk.py:94-156, part of AssetRiskContext. *)
Record AssetRiskContext := mk {
  id : uuid;
  organization_id : uuid;
  aws_account_id : uuid;
  asset_id : option uuid;
  criticality : RiskCriticality;
  environment : RiskEnvironment;
  business_impact : BusinessImpact;
  data_sensitivity : DataSensitivity;
  source : string;
  updated_by_user_id : uuid;
  version : Z
}.
#[export] Instance eta : Eta AssetRiskContext :=
  eta! mk < id ; organization_id ; aws_account_id ; asset_id ; criticality ;
  environment ; business_impact ; data_sensitivity ; source ;
  updated_by_user_id ; version >.
#[export] Instance row : Row AssetRiskContext := id.
End AssetRiskContext.
Abbreviation AssetRiskContext := AssetRiskContext.AssetRiskContext.
Export (hints) AssetRiskContext.

Module CompensatingControl.
(** models/risk.py:489-503, part of CompensatingControl. *)
Record CompensatingControl := mk {
  id : uuid;
  organization_id : uuid;
  aws_account_id : uuid;
  finding_id : uuid;
  reason : string;
  score_adjustment : Z;
  created_by_user_id : uuid;
  expires_at : option timestamp;
  active : bool;
  created_at : timestamp
}.
#[export] Instance eta : Eta CompensatingControl :=
  eta! mk < id ; organization_id ; aws_account_id ; finding_id ; reason ;
  score_adjustment ; created_by_user_id ; expires_at ; active ; created_at >.
#[export] Instance row : Row CompensatingControl := id.
End CompensatingControl.
Abbreviation CompensatingControl := CompensatingControl.CompensatingControl.
Export (hints) CompensatingControl.

Module PlatformJob.
(** models/platform_job.py:78-135, part of PlatformJob. *)
Record PlatformJob := mk {
  id : uuid;
  organization_id : uuid;
  job_type : PlatformJobType;
  status : PlatformJobStatus;
  reference_id : uuid;
  payload_json : pyval;
  idempotency_key : string;
  priority : Z;
  attempt_count : Z;
  max_attempts : Z;
  scheduled_at : timestamp;
  available_at : timestamp;
  leased_at : option timestamp;
  lease_expires_at : option timestamp;
  lease_token : option uuid;
  lease_generation : Z;
  worker_id : option string;
  started_at : option timestamp;
  completed_at : option timestamp;
  failed_at : option timestamp;
  dead_lettered_at : option timestamp;
  last_error_code : option string;
  last_error_summary : option string;
  result_reference : option string;
  correlation_id : uuid;
  parent_job_id : option uuid;
  created_at : timestamp
}.
#[export] Instance eta : Eta PlatformJob :=
  eta! mk < id ; organization_id ; job_type ; status ; reference_id ;
  payload_json ; idempotency_key ; priority ; attempt_count ; max_attempts ;
  scheduled_at ; available_at ; leased_at ; lease_expires_at ; lease_token ;
  lease_generation ; worker_id ; started_at ; completed_at ; failed_at ;
  dead_lettered_at ; last_error_code ; last_error_summary ; result_reference ;
  correlation_id ; parent_job_id ; created_at >.
#[export] Instance row : Row PlatformJob := id.
End PlatformJob.
Abbreviation PlatformJob := PlatformJob.PlatformJob.
Export (hints) PlatformJob.

Module RemediationRequest.
(** models/remediation.py:95-190, part of RemediationRequest. *)
Record RemediationRequest := mk {
  id : uuid;
  organization_id : uuid;
  aws_account_id : uuid;
  finding_id : uuid;
  rule_key : string;
  rule_version : Z;
  action_key : string;
  action_version : Z;
  idempotency_key : string;
  requested_by_user_id : option uuid;
  approved_by_user_id : option uuid;
  rejected_by_user_id : option uuid;
  status : RemediationStatus;
  execution_mode : RemediationExecutionMode;
  executor_key : option string;
  target_region : option string;
  target_resource_arn : option string;
  automation_eligible : bool;
  title : string;
  summary : string;
  remediation_steps_json : list string;
  verification_steps_json : list string;
  rollback_steps_json : list string;
  preview_json : pyval;
  request_snapshot_json : pyval;
  request_snapshot_hash : string;
  approved_snapshot_hash : option string;
  execution_lease_id : option uuid;
  dry_run : bool;
  before_state_json : option pyval;
  after_state_json : option pyval;
  execution_result_json : option pyval;
  precondition_evidence_json : pyval;
  verification_result_json : option pyval;
  aws_request_ids_json : option pyval;
  attempt_count : Z;
  rejection_reason : option string;
  failure_reason : option string;
  requested_at : timestamp;
  approved_at : option timestamp;
  rejected_at : option timestamp;
  cancelled_at : option timestamp;
  executed_at : option timestamp;
  failed_at : option timestamp
}.
#[export] Instance eta : Eta RemediationRequest :=
  eta! mk < id ; organization_id ; aws_account_id ; finding_id ; rule_key ;
  rule_version ; action_key ; action_version ; idempotency_key ;
  requested_by_user_id ; approved_by_user_id ; rejected_by_user_id ; status ;
  execution_mode ; executor_key ; target_region ; target_resource_arn ;
  automation_eligible ; title ; summary ; remediation_steps_json ;
  verification_steps_json ; rollback_steps_json ; preview_json ;
  request_snapshot_json ; request_snapshot_hash ; approved_snapshot_hash ;
  execution_lease_id ; dry_run ; before_state_json ; after_state_json ;
  execution_result_json ; precondition_evidence_json ;
  verification_result_json ; aws_request_ids_json ; attempt_count ;
  rejection_reason ; failure_reason ; requested_at ; approved_at ; rejected_at
  ; cancelled_at ; executed_at ; failed_at >.
#[export] Instance row : Row RemediationRequest := id.
End RemediationRequest.
Abbreviation RemediationRequest := RemediationRequest.RemediationRequest.
Export (hints) RemediationRequest.

Module NotificationEvent.
(** models/notification.py:57-107, part of NotificationEvent. *)
Record NotificationEvent := mk {
  id : uuid;
  organization_id : uuid;
  source_event_type : string;
  source_resource_type : string;
  source_resource_id : uuid;
  channel : NotificationChannel;
  template_key : string;
  destination_reference : option string;
  payload_hash : string;
  status : NotificationStatus;
  attempt_count : Z;
  approved_by_user_id : option uuid;
  approved_at : option timestamp;
  approved_delivery_fingerprint : option string;
  scheduled_at : option timestamp;
  delivered_at : option timestamp;
  failed_at : option timestamp;
  failure_reason : option string;
  provider_key : option string;
  provider_message_id : option string;
  created_at : timestamp
}.
#[export] Instance eta : Eta NotificationEvent :=
  eta! mk < id ; organization_id ; source_event_type ; source_resource_type ;
  source_resource_id ; channel ; template_key ; destination_reference ;
  payload_hash ; status ; attempt_count ; approved_by_user_id ; approved_at ;
  approved_delivery_fingerprint ; scheduled_at ; delivered_at ; failed_at ;
  failure_reason ; provider_key ; provider_message_id ; created_at >.
#[export] Instance row : Row NotificationEvent := id.
End NotificationEvent.
Abbreviation NotificationEvent := NotificationEvent.NotificationEvent.
Export (hints) NotificationEvent.

Module NotificationDeliveryAttempt.
(** models/notification.py:135-152, part of NotificationDeliveryAttempt. *)
Record NotificationDeliveryAttempt := mk {
  id : uuid;
  organization_id : uuid;
  notification_event_id : uuid;
  attempt_number : Z;
  provider_key : string;
  destination_reference : string;
  template_key : string;
  template_version : Z;
  content_hash : string;
  provider_message_id : option string;
  response_classification : string;
  error_code : option string;
  error_summary : option string;
  attempted_at : timestamp;
  delivered_at : option timestamp;
  failed_at : option timestamp
}.
#[export] Instance eta : Eta NotificationDeliveryAttempt :=
  eta! mk < id ; organization_id ; notification_event_id ; attempt_number ;
  provider_key ; destination_reference ; template_key ; template_version ;
  content_hash ; provider_message_id ; response_classification ; error_code ;
  error_summary ; attempted_at ; delivered_at ; failed_at >.
#[export] Instance row : Row NotificationDeliveryAttempt := id.
End NotificationDeliveryAttempt.
Abbreviation NotificationDeliveryAttempt := NotificationDeliveryAttempt.NotificationDeliveryAttempt.
Export (hints) NotificationDeliveryAttempt.

Module ScanSchedule.
(** models/scheduler.py:50-65, part of ScanSchedule. *)
Record ScanSchedule := mk {
  id : uuid;
  organization_id : uuid;
  aws_account_id : uuid;
  name : string;
  interval_minutes : Z;
  enabled : bool;
  created_by_user_id : option uuid;
  last_run_at : option timestamp;
  last_enqueued_at : option timestamp;
  next_run_at : option timestamp;
  created_at : timestamp
}.
#[export] Instance eta : Eta ScanSchedule :=
  eta! mk < id ; organization_id ; aws_account_id ; name ; interval_minutes ;
  enabled ; created_by_user_id ; last_run_at ; last_enqueued_at ; next_run_at ;
  created_at >.
#[export] Instance row : Row ScanSchedule := id.
End ScanSchedule.
Abbreviation ScanSchedule := ScanSchedule.ScanSchedule.
Export (hints) ScanSchedule.

Module ScanRun.
(** models/scheduler.py:103-143, part of ScanRun. *)
Record ScanRun := mk {
  id : uuid;
  organization_id : uuid;
  aws_account_id : uuid;
  schedule_id : option uuid;
  trigger : ScanRunTrigger;
  status : ScanRunStatus;
  discovery_job_id : option uuid;
  evaluation_job_id : option uuid;
  error_summary : option string;
  started_at : option timestamp;
  finished_at : option timestamp;
  created_at : timestamp
}.
#[export] Instance eta : Eta ScanRun :=
  eta! mk < id ; organization_id ; aws_account_id ; schedule_id ; trigger ;
  status ; discovery_job_id ; evaluation_job_id ; error_summary ; started_at ;
  finished_at ;
  created_at >.
#[export] Instance row : Row ScanRun := id.
End ScanRun.
Abbreviation ScanRun := ScanRun.ScanRun.
Export (hints) ScanRun.

Module RiskScoringPolicy.
(** models/risk.py:45-54, part of RiskScoringPolicy. *)
Record RiskScoringPolicy := mk {
  id : uuid;
  key : string;
  version : Z;
  name : string;
  description : string;
  weights_json : pyval;
  bands_json : pyval;
  active : bool
}.
#[export] Instance eta : Eta RiskScoringPolicy :=
  eta! mk < id ; key ; version ; name ; description ; weights_json ;
  bands_json ; active >.
#[export] Instance row : Row RiskScoringPolicy := id.
End RiskScoringPolicy.
Abbreviation RiskScoringPolicy := RiskScoringPolicy.RiskScoringPolicy.
Export (hints) RiskScoringPolicy.

Module RiskAssessment.
(** models/risk.py:215-271, part of RiskAssessment. *)
Record RiskAssessment := mk {
  id : uuid;
  organization_id : uuid;
  aws_account_id : option uuid;
  policy_id : uuid;
  evaluation_time : timestamp;
  source_cutoff_at : timestamp;
  status : RiskAssessmentStatus;
  started_by_user_id : uuid;
  started_at : option timestamp;
  finished_at : option timestamp;
  findings_total : Z;
  critical_count : Z;
  high_count : Z;
  medium_count : Z;
  low_count : Z;
  informational_count : Z;
  accounts_scored : Z;
  aggregate_score : option Z;
  aggregate_priority : option RiskPriority;
  error_code : option string;
  created_at : timestamp
}.
#[export] Instance eta : Eta RiskAssessment :=
  eta! mk < id ; organization_id ; aws_account_id ; policy_id ;
  evaluation_time ; source_cutoff_at ; status ; started_by_user_id ;
  started_at ; finished_at ; findings_total ; critical_count ; high_count ;
  medium_count ; low_count ; informational_count ; accounts_scored ;
  aggregate_score ; aggregate_priority ; error_code ; created_at >.
#[export] Instance row : Row RiskAssessment := id.
End RiskAssessment.
Abbreviation RiskAssessment := RiskAssessment.RiskAssessment.
Export (hints) RiskAssessment.

Module FindingRiskSnapshot.
(** models/risk.py:313-359, part of FindingRiskSnapshot. *)
Record FindingRiskSnapshot := mk {
  id : uuid;
  assessment_id : uuid;
  organization_id : uuid;
  aws_account_id : uuid;
  finding_id : uuid;
  asset_id : option uuid;
  source_finding_version : Z;
  source_finding_status : FindingStatus;
  policy_key : string;
  policy_version : Z;
  evaluation_time : timestamp;
  risk_score : Z;
  priority : RiskPriority;
  severity_points : Z;
  exposure_points : Z;
  exploitability_points : Z;
  privilege_points : Z;
  asset_criticality_points : Z;
  environment_points : Z;
  business_impact_points : Z;
  data_sensitivity_points : Z;
  age_points : Z;
  compensating_adjustment : Z;
  component_codes_json : pyval;
  unknown_inputs_json : list string
}.
#[export] Instance eta : Eta FindingRiskSnapshot :=
  eta! mk < id ; assessment_id ; organization_id ; aws_account_id ; finding_id
  ; asset_id ; source_finding_version ; source_finding_status ; policy_key ;
  policy_version ; evaluation_time ; risk_score ; priority ; severity_points ;
  exposure_points ; exploitability_points ; privilege_points ;
  asset_criticality_points ; environment_points ; business_impact_points ;
  data_sensitivity_points ; age_points ; compensating_adjustment ;
  component_codes_json ; unknown_inputs_json >.
#[export] Instance row : Row FindingRiskSnapshot := id.
End FindingRiskSnapshot.
Abbreviation FindingRiskSnapshot := FindingRiskSnapshot.FindingRiskSnapshot.
Export (hints) FindingRiskSnapshot.

Module AccountRiskSnapshot.
(** models/risk.py:392-412, part of AccountRiskSnapshot. *)
Record AccountRiskSnapshot := mk {
  id : uuid;
  assessment_id : uuid;
  organization_id : uuid;
  aws_account_id : uuid;
  evaluation_time : timestamp;
  risk_score : Z;
  priority : RiskPriority;
  highest_finding_score : Z;
  top_ten_mean : Z;
  all_findings_mean : Z;
  findings_total : Z
}.
#[export] Instance eta : Eta AccountRiskSnapshot :=
  eta! mk < id ; assessment_id ; organization_id ; aws_account_id ;
  evaluation_time ; risk_score ; priority ; highest_finding_score ;
  top_ten_mean ; all_findings_mean ; findings_total >.
#[export] Instance row : Row AccountRiskSnapshot := id.
End AccountRiskSnapshot.
Abbreviation AccountRiskSnapshot := AccountRiskSnapshot.AccountRiskSnapshot.
Export (hints) AccountRiskSnapshot.

Module OrganizationRiskSnapshot.
(** models/risk.py:436-455, part of OrganizationRiskSnapshot. *)
Record OrganizationRiskSnapshot := mk {
  id : uuid;
  assessment_id : uuid;
  organization_id : uuid;
  evaluation_time : timestamp;
  risk_score : Z;
  priority : RiskPriority;
  highest_account_score : Z;
  mean_account_score : Z;
  accounts_total : Z;
  reason_code : string
}.
#[export] Instance eta : Eta OrganizationRiskSnapshot :=
  eta! mk < id ; assessment_id ; organization_id ; evaluation_time ;
  risk_score ; priority ; highest_account_score ; mean_account_score ;
  accounts_total ; reason_code >.
#[export] Instance row : Row OrganizationRiskSnapshot := id.
End OrganizationRiskSnapshot.
Abbreviation OrganizationRiskSnapshot := OrganizationRiskSnapshot.OrganizationRiskSnapshot.
Export (hints) OrganizationRiskSnapshot.

Module AWSExternalIDReservation.
(** models/aws_external_id_reservation.py:21-32, part of AWSExternalIDReservation. *)
Record AWSExternalIDReservation := mk {
  id : uuid;
  external_id : string;
  aws_account_id : option uuid;
  organization_id : uuid;
  issued_at : timestamp;
  retired_at : option timestamp
}.
#[export] Instance eta : Eta AWSExternalIDReservation :=
  eta! mk < id ; external_id ; aws_account_id ; organization_id ; issued_at ;
  retired_at >.
#[export] Instance row : Row AWSExternalIDReservation := id.
End AWSExternalIDReservation.
Abbreviation AWSExternalIDReservation := AWSExternalIDReservation.AWSExternalIDReservation.
Export (hints) AWSExternalIDReservation.

Module AIPromptTemplate.
(** models/ai.py:43-59, part of AIPromptTemplate. *)
Record AIPromptTemplate := mk {
  id : uuid;
  key : string;
  version : Z;
  task_type : AITaskType;
  system_instructions : string;
  schema_version : Z;
  active : bool
}.
#[export] Instance eta : Eta AIPromptTemplate :=
  eta! mk < id ; key ; version ; task_type ; system_instructions ;
  schema_version ; active >.
#[export] Instance row : Row AIPromptTemplate := id.
End AIPromptTemplate.
Abbreviation AIPromptTemplate := AIPromptTemplate.AIPromptTemplate.
Export (hints) AIPromptTemplate.

Module AIRequest.
(** models/ai.py:92-131, part of AIRequest. *)
Record AIRequest := mk {
  id : uuid;
  organization_id : uuid;
  requested_by_user_id : uuid;
  task_type : AITaskType;
  status : AIRequestStatus;
  idempotency_key : string;
  provider_key : string;
  prompt_key : string;
  prompt_version : Z;
  context_hash : string;
  request_fingerprint : string;
  response_schema_version : Z;
  model_key : string;
  error_code : option string;
  finished_at : option timestamp;
  created_at : timestamp
}.
#[export] Instance eta : Eta AIRequest :=
  eta! mk < id ; organization_id ; requested_by_user_id ; task_type ; status ;
  idempotency_key ; provider_key ; prompt_key ; prompt_version ; context_hash
  ; request_fingerprint ; response_schema_version ; model_key ; error_code ;
  finished_at ; created_at >.
#[export] Instance row : Row AIRequest := id.
End AIRequest.
Abbreviation AIRequest := AIRequest.AIRequest.
Export (hints) AIRequest.

Module AIRequestSource.
(** models/ai.py:178-198, part of AIRequestSource. *)
Record AIRequestSource := mk {
  id : uuid;
  request_id : uuid;
  organization_id : uuid;
  source_type : AISourceType;
  source_id : uuid;
  finding_id : option uuid;
  finding_aws_account_id : option uuid;
  risk_assessment_id : option uuid;
  compliance_assessment_id : option uuid;
  source_version : Z;
  source_hash : string
}.
#[export] Instance eta : Eta AIRequestSource :=
  eta! mk < id ; request_id ; organization_id ; source_type ; source_id ;
  finding_id ; finding_aws_account_id ; risk_assessment_id ;
  compliance_assessment_id ; source_version ; source_hash >.
#[export] Instance row : Row AIRequestSource := id.
End AIRequestSource.
Abbreviation AIRequestSource := AIRequestSource.AIRequestSource.
Export (hints) AIRequestSource.

Module AIResponse.
(** models/ai.py:214-219, part of AIResponse. *)
Record AIResponse := mk {
  id : uuid;
  request_id : uuid;
  organization_id : uuid;
  content_json : pyval;
  schema_version : Z;
  output_hash : string
}.
#[export] Instance eta : Eta AIResponse :=
  eta! mk < id ; request_id ; organization_id ; content_json ; schema_version
  ; output_hash >.
#[export] Instance row : Row AIResponse := id.
End AIResponse.
Abbreviation AIResponse := AIResponse.AIResponse.
Export (hints) AIResponse.

Module AIUsageWindow.
(** models/ai.py:234-240, part of AIUsageWindow. *)
Record AIUsageWindow := mk {
  id : uuid;
  organization_id : uuid;
  window_start : timestamp;
  request_count : Z;
  token_count : Z
}.
#[export] Instance eta : Eta AIUsageWindow :=
  eta! mk < id ; organization_id ; window_start ; request_count ; token_count
  >.
#[export] Instance row : Row AIUsageWindow := id.
End AIUsageWindow.
Abbreviation AIUsageWindow := AIUsageWindow.AIUsageWindow.
Export (hints) AIUsageWindow.

Module JiraIntegration.
(** models/jira_integration.py:49-78, part of JiraIntegration. *)
Record JiraIntegration := mk {
  id : uuid;
  organization_id : uuid;
  base_url : string;
  project_key : string;
  default_issue_type : string;
  email : string;
  api_token_encrypted : string;
  enabled : bool;
  status : JiraIntegrationStatus;
  last_validated_at : option timestamp;
  failure_reason : option string;
  created_by_user_id : uuid
}.
#[export] Instance eta : Eta JiraIntegration :=
  eta! mk < id ; organization_id ; base_url ; project_key ; default_issue_type ;
  email ; api_token_encrypted ; enabled ; status ; last_validated_at ;
  failure_reason ; created_by_user_id >.
#[export] Instance row : Row JiraIntegration := id.
End JiraIntegration.
Abbreviation JiraIntegration := JiraIntegration.JiraIntegration.
Export (hints) JiraIntegration.

Module JiraIssueLink.
(** models/jira_integration.py:103-119, part of JiraIssueLink. *)
Record JiraIssueLink := mk {
  id : uuid;
  organization_id : uuid;
  jira_integration_id : uuid;
  finding_id : option uuid;
  remediation_request_id : option uuid;
  idempotency_key : string;
  issue_key : string;
  issue_url : string;
  created_by_user_id : uuid;
  created_at : timestamp
}.
#[export] Instance eta : Eta JiraIssueLink :=
  eta! mk < id ; organization_id ; jira_integration_id ; finding_id ;
  remediation_request_id ; idempotency_key ; issue_key ; issue_url ;
  created_by_user_id ; created_at >.
#[export] Instance row : Row JiraIssueLink := id.
End JiraIssueLink.
Abbreviation JiraIssueLink := JiraIssueLink.JiraIssueLink.
Export (hints) JiraIssueLink.

Module AuditEvent.
(** models/audit.py:22-50, part of AuditEvent. *)
Record AuditEvent := mk {
  organization_id : option uuid;
  actor_user_id : option uuid;
  event_type : string;
  resource_type : string;
  resource_id : option uuid;
  result : AuditResult
}.
#[export] Instance eta : Eta AuditEvent :=
  eta! mk < organization_id ; actor_user_id ; event_type ; resource_type ;
  resource_id ; result >.
End AuditEvent.
Abbreviation AuditEvent := AuditEvent.AuditEvent.
Export (hints) AuditEvent.

(** * The database *)

Module DB.
Record DB := mk {
  organizations : gmap uuid Organization;
  users : gmap uuid User;
  members : gmap uuid OrganizationMembership;
  invitations : gmap uuid OrganizationInvitation;
  refresh_sessions : gmap uuid RefreshTokenSession;
  aws_accounts : gmap uuid AWSAccount;
  assets : gmap uuid Asset;
  discovery_jobs : gmap uuid DiscoveryJob;
  findings : gmap uuid Finding;
  evaluation_jobs : gmap uuid EvaluationJob;
  rule_results : gmap uuid EvaluationRuleResult;
  frameworks : gmap uuid ComplianceFramework;
  controls : gmap uuid ComplianceControl;
  mappings : gmap uuid RuleControlMapping;
  assessments : gmap uuid ComplianceAssessment;
  assessment_controls : gmap uuid ComplianceAssessmentControl;
  risk_contexts : gmap uuid AssetRiskContext;
  compensating_controls : gmap uuid CompensatingControl;
  platform_jobs : gmap uuid PlatformJob;
  remediations : gmap uuid RemediationRequest;
  notifications : gmap uuid NotificationEvent;
  delivery_attempts : gmap uuid NotificationDeliveryAttempt;
  scan_schedules : gmap uuid ScanSchedule;
  scan_runs : gmap uuid ScanRun;
  risk_policies : gmap uuid RiskScoringPolicy;
  risk_assessments : gmap uuid RiskAssessment;
  finding_risks : gmap uuid FindingRiskSnapshot;
  account_risks : gmap uuid AccountRiskSnapshot;
  organization_risks : gmap uuid OrganizationRiskSnapshot;
  reservations : gmap uuid AWSExternalIDReservation;
  prompt_templates : gmap uuid AIPromptTemplate;
  ai_requests : gmap uuid AIRequest;
  ai_sources : gmap uuid AIRequestSource;
  ai_responses : gmap uuid AIResponse;
  ai_usage : gmap uuid AIUsageWindow;
  jira_integrations : gmap uuid JiraIntegration;
  jira_links : gmap uuid JiraIssueLink;
  audit : list AuditEvent
}.
#[export] Instance eta : Eta DB :=
  eta! mk < organizations ; users ; members ; invitations ; refresh_sessions ;
  aws_accounts ; assets ; discovery_jobs ; findings ; evaluation_jobs ;
  rule_results ; frameworks ; controls ; mappings ; assessments ;
  assessment_controls ; risk_contexts ; compensating_controls ; platform_jobs
  ; remediations ; notifications ; delivery_attempts ; scan_schedules ;
  scan_runs ; risk_policies ; risk_assessments ; finding_risks ; account_risks
  ; organization_risks ; reservations ; prompt_templates ; ai_requests ;
  ai_sources ; ai_responses ; ai_usage ; jira_integrations ; jira_links ; audit >.
Definition empty : DB :=
  mk ∅ ∅ ∅ ∅ ∅ ∅ ∅ ∅ ∅ ∅ ∅ ∅ ∅ ∅ ∅ ∅ ∅ ∅ ∅ ∅ ∅ ∅ ∅ ∅ ∅ ∅ ∅ ∅ ∅ ∅ ∅ ∅ ∅ ∅ ∅ ∅ ∅ [].
End DB.
Abbreviation DB := DB.DB.
Export (hints) DB.

