(* ===== verification/Tables.v ===== *)
(** The tables of the database as instances of one class: where a table lives,
    its CHECK constraints and its unique indexes; the flushes of rows, and what
    a flush does to a table that satisfies its constraints. *)

From S2P Require Import Prelude.
From S2P Require Import History.
From S2P Require Import Models.
From stdpp Require Import list.

Class Table (R : Type) `{Row R} := mk_table {
  rows : DB → gmap uuid R;
  set_rows : (gmap uuid R → gmap uuid R) → DB → DB;
  checks : R → bool;
  conflict : R → R → bool;
  rows_set f d : rows (set_rows f d) = f (rows d);
  set_set f g d : set_rows f (set_rows g d) = set_rows (λ t, f (g t)) d;
  set_ext f g d : f (rows d) = g (rows d) → set_rows f d = set_rows g d;
  set_same d : set_rows (λ t, t) d = d;
  conflict_sym r r' : conflict r r' = conflict r' r
}.
Arguments rows R {_ _} _.
Arguments set_rows R {_ _} _ _.
Arguments checks {R _ _} _.
Arguments conflict {R _ _} _ _.

(** The laws of a table of the database. *)
Ltac solve_table :=
  [> by intros | by intros | by intros ? ? [] E; cbn in E |- *; unfold upd; cbn; rewrite E
   | by intros []
   | intros ? ?; apply eq_true_iff_eq;
     rewrite ?orb_true_iff, ?andb_true_iff, ?bool_decide_eq_true; intuition congruence].

(** A change of one table is not seen in another. *)
Class Apart (R R' : Type) `{Table R, Table R'} :=
  apart f d : rows R (set_rows R' f d) = rows R d.
#[export] Hint Extern 1 (Apart _ _) => intros ? ?; reflexivity : typeclass_instances.

Section table.
Context {R : Type} `{Table R}.
Implicit Types (r : R) (l : list R) (t : gmap uuid R).

(** The flush of a new ([fresh]) or changed row. *)
Definition save (fresh : bool) (r : R) : txn DB () :=
  t ← gets (rows R);
  _ ← ensure (checks r && unique_ok fresh conflict r t) IntegrityError;
  modify (set_rows R (put r)).

(** [db.delete(row)] *)
Definition erase (r : R) : txn DB () := modify (set_rows R (delete (row_id r))).

(** [db.add_all(rows)] *)
Definition save_all (l : list R) : txn DB () := for_each l (save true).

(** [db.scalar(select(R).where(P))], and when that is None, the insert and the
    flush of [new]. *)
Definition get_or_create (P : R → bool) (new : R) : txn DB R :=
  existing ← gets (λ d, find_row P (rows R d));
  match existing with
  | Some r => mret r
  | None => _ ← save true new; mret new
  end.

(** What the database guarantees of the table. *)
Definition sound (d : DB) : Prop := table_ok (rows R) (λ r, checks r = true) conflict d.

Definition puts l t : gmap uuid R := foldl (λ t r, put r t) t l.

(** The new rows [l] pass every test. *)
Record insertable l t : Prop := {
  in_checks : Forall (λ r, checks r = true) l;
  in_nodup : NoDup (row_id <$> l);
  in_fresh : Forall (λ r, t !! row_id r = None) l;
  in_apart : Forall (λ r, ∀ k r', t !! k = Some r' → conflict r r' = false) l;
  in_unique : ForallPairs (λ r r', row_id r ≠ row_id r' → conflict r r' = false) l
}.

Lemma wp_save fresh r Q s :
  (checks r = true → unique_ok fresh conflict r (rows R (working s)) = true →
     Q (Ret tt) (Sess (committed s) (set_rows R (put r) (working s)))) →
  (checks r && unique_ok fresh conflict r (rows R (working s)) = false →
     Q (Raise IntegrityError) s) →
  wp (save fresh r) Q s.
Proof. intros H1 H2. unfold save. wp_go; [bools|]; eauto. Qed.

(** A row that is known to pass. *)
Lemma wp_saved fresh r Q s :
  checks r = true → unique_ok fresh conflict r (rows R (working s)) = true →
  Q (Ret tt) (Sess (committed s) (set_rows R (put r) (working s))) →
  wp (save fresh r) Q s.
Proof. intros Hc Hu HQ. apply wp_save; [done|]. by rewrite Hc, Hu. Qed.

Lemma unique_ok_fresh r t :
  t !! row_id r = None → (∀ k r', t !! k = Some r' → conflict r r' = false) →
  unique_ok true conflict r t = true.
Proof. intros Hn Hc. apply unique_ok_true. eauto. Qed.

Lemma insertable_cons r l t :
  insertable (r :: l) t →
  checks r = true ∧ unique_ok true conflict r t = true ∧ insertable l (put r t).
Proof.
  intros [[Hc Hcs]%Forall_cons Hn [Hf Hfs]%Forall_cons [Ha Has]%Forall_cons Hu].
  rewrite fmap_cons, NoDup_cons in Hn. destruct Hn as [Hr Hn].
  assert (∀ r', r' ∈ l → row_id r' ≠ row_id r) as Hne.
  { intros r' Hr' E. apply Hr. rewrite <-E. by apply list_elem_of_fmap_2. }
  split; [done|]. split; [by apply unique_ok_fresh|]. rewrite Forall_forall in Hfs, Has.
  split; [done|done|apply Forall_forall; intros r' Hr'..|].
  - unfold put. rewrite lookup_insert_ne by (apply not_eq_sym; auto). auto.
  - intros k r1. unfold put. rewrite lookup_insert. case_decide; [|by apply Has].
    intros [= <-]. apply Hu; [by apply list_elem_of_In; right|by left|auto].
  - intros r1 r2 H1 H2. apply Hu; by right.
Qed.

Lemma wp_save_all l Q s :
  insertable l (rows R (working s)) →
  Q (Ret tt) (Sess (committed s) (set_rows R (puts l) (working s))) →
  wp (save_all l) Q s.
Proof.
  revert s. induction l as [|r l IH]; intros s Hl HQ.
  - apply wp_ret. cbn in HQ. rewrite set_same in HQ. by destruct s.
  - apply insertable_cons in Hl as (Hc & Hu & Hl). apply wp_bind, wp_saved; [done..|].
    apply IH; cbn; [by rewrite rows_set|]. by rewrite set_set.
Qed.

Lemma sound_set r fresh d :
  sound d → checks r = true → unique_ok fresh conflict r (rows R d) = true →
  sound (set_rows R (put r) d).
Proof.
  intros [Hk Hu Hr] Hc Huo. split; rewrite rows_set;
    eauto using unique_index_put, conflict_sym with rows.
Qed.

(** A query lists a row once. *)
Lemma filter_rows_ids (P : R → bool) t :
  keyed t → NoDup (row_id <$> filter_rows P t).
Proof.
  intros Hk. unfold filter_rows.
  assert (NoDup (row_id <$> (map_to_list t).*2)) as Hnd.
  { rewrite <-list_fmap_compose.
    assert (((λ kr : uuid * R, row_id kr.2) <$> map_to_list t) = (map_to_list t).*1) as E.
    { apply list_fmap_ext. intros i [k r] Hi. cbn. apply Hk, elem_of_map_to_list.
      by eapply list_elem_of_lookup_2. }
    unfold compose. rewrite E. apply NoDup_fst_map_to_list. }
  revert Hnd. generalize ((map_to_list t).*2). intros l. induction l as [|r l IH]; [done|].
  rewrite fmap_cons, NoDup_cons, filter_cons. intros [Hr Hl]. case_decide; [|auto].
  rewrite fmap_cons, NoDup_cons. split; [|auto]. intros Hin. apply Hr.
  apply list_elem_of_fmap in Hin as (r' & -> & [_ Hr']%list_elem_of_filter).
  by apply list_elem_of_fmap_2.
Qed.

(** A change of a stored row that the indexes allow beside every other row. *)
Record harmless (r r' : R) : Prop := {
  hl_id : row_id r' = row_id r;
  hl_checks : checks r' = true;
  hl_conflict x : conflict r x = false → conflict r' x = false
}.

Lemma wp_update r r' Q s :
  sound (working s) → rows R (working s) !! row_id r = Some r → harmless r r' →
  (sound (set_rows R (put r') (working s)) →
     Q (Ret tt) (Sess (committed s) (set_rows R (put r') (working s)))) →
  wp (save false r') Q s.
Proof.
  intros Hs Hr [Hid Hc Hcf] HQ.
  assert (unique_ok false conflict r' (rows R (working s)) = true) as Hu.
  { apply unique_ok_true. split; [done|]. intros k x Hk Hne. apply Hcf.
    apply (tk_unique _ _ _ _ Hs (row_id r) k); [done..|]. intros <-.
    apply Hne. rewrite Hid. by apply (tk_keyed _ _ _ _ Hs). }
  apply wp_saved; [done..|]. apply HQ. by eapply sound_set.
Qed.

(** A map of the rows that keeps their keys. *)
Lemma put_fmap (f : R → R) t r :
  keyed t → t !! row_id r = Some r → row_id (f r) = row_id r →
  put (f r) t = (λ x, if decide (row_id x = row_id r) then f x else x) <$> t.
Proof.
  intros Hk Hr Hf. apply map_eq. intros k. unfold put. rewrite Hf, lookup_insert, lookup_fmap.
  case_decide as E.
  - subst k. rewrite Hr. cbn. by rewrite decide_True.
  - destruct (t !! k) as [x|] eqn:Ex; [|done]. cbn. rewrite decide_False; [done|].
    rewrite (Hk _ _ Ex). congruence.
Qed.

(** Some rows of the table, all changed by [f]. *)
Definition change (f : R → R) (ids : list uuid) (r : R) : R :=
  if decide (row_id r ∈ ids) then f r else r.

Lemma wp_update_list (f : R → R) l Q s :
  sound (working s) → NoDup (row_id <$> l) →
  (∀ r, r ∈ l → rows R (working s) !! row_id r = Some r ∧ harmless r (f r)) →
  (sound (set_rows R (fmap (change f (row_id <$> l))) (working s)) →
   Q (Ret tt) (Sess (committed s) (set_rows R (fmap (change f (row_id <$> l))) (working s)))) →
  wp (for_each l (λ r, save false (f r))) Q s.
Proof.
  revert s. induction l as [|r l IH]; intros s Hs Hnd Hl HQ.
  - apply wp_ret. rewrite (set_ext _ (λ t, t)), set_same in HQ; [destruct s; auto|].
    etrans; [|apply map_fmap_id]. apply map_fmap_ext. intros k x _. unfold change.
    by rewrite decide_False by set_solver.
  - rewrite fmap_cons, NoDup_cons in Hnd. destruct Hnd as [Hr Hnd].
    destruct (Hl r ltac:(set_solver)) as [Hat Hh].
    apply wp_bind, (wp_update r); [done..|]. intros Hs1.
    apply IH; cbn [working committed]; [done|done|..].
    + intros r' Hr'. rewrite rows_set. destruct (Hl r' ltac:(set_solver)) as [Hat' ?].
      split; [|done]. unfold put. rewrite (hl_id _ _ Hh), lookup_insert_ne; [done|].
      intros E. apply Hr. rewrite E. by apply list_elem_of_fmap_2.
    + rewrite set_set, (set_ext _ (fmap (change f (row_id <$> r :: l)))); [done|].
      rewrite (put_fmap f); [|apply Hs|done|apply Hh]. rewrite <-map_fmap_compose.
      apply map_fmap_ext. intros k x Hx. unfold compose, change. rewrite fmap_cons.
      rewrite (decide_ext (row_id x ∈ row_id r :: (row_id <$> l))
        (row_id x = row_id r ∨ row_id x ∈ row_id <$> l)) by apply elem_of_cons.
      destruct (decide (row_id x = row_id r)) as [E|E].
      * assert (x = r) as ->.
        { rewrite <-E in Hat. rewrite (tk_keyed _ _ _ _ Hs _ _ Hx) in Hat. congruence. }
        rewrite (hl_id _ _ Hh). rewrite decide_False by done. by rewrite decide_True by auto.
      * destruct (decide (row_id x ∈ row_id <$> l)) as [H'|H'].
        -- by rewrite decide_True by auto.
        -- by rewrite decide_False by naive_solver.
Qed.

(** The rows of a condition, all changed by [f]. *)
Lemma wp_update_all (P : R → bool) (f : R → R) Q s :
  sound (working s) →
  (∀ k r, rows R (working s) !! k = Some r → P r = true → harmless r (f r)) →
  (sound (set_rows R (fmap (λ r, if P r then f r else r)) (working s)) →
   Q (Ret tt) (Sess (committed s) (set_rows R (fmap (λ r, if P r then f r else r)) (working s)))) →
  wp (for_each (filter_rows P (rows R (working s))) (λ r, save false (f r))) Q s.
Proof.
  intros Hs Hh HQ. pose proof (tk_keyed _ _ _ _ Hs) as Hk.
  apply wp_update_list; [done|by apply filter_rows_ids|..].
  - intros r [HP [k Hr]]%elem_of_filter_rows. split; [|eauto].
    by rewrite (Hk _ _ Hr).
  - rewrite (set_ext _ (fmap (λ r, if P r then f r else r))); [done|].
    apply map_fmap_ext. intros k r Hr. unfold change.
    destruct (decide _) as [Hin|Hin]; destruct (P r) eqn:E; try done; exfalso.
    + apply list_elem_of_fmap in Hin as (r' & E' & [HP [k' Hr']]%elem_of_filter_rows).
      rewrite (Hk _ _ Hr), (Hk _ _ Hr') in E'. subst k'. congruence.
    + apply Hin. apply list_elem_of_fmap_2, elem_of_filter_rows. eauto.
Qed.

(** The row that [get_or_create] returns, and the database after it. *)
Record got (P : R → bool) (new : R) (d : DB) (r : R) (d' : DB) : Prop := {
  got_sound : sound d';
  got_right : P r = true;
  got_at : rows R d' !! row_id r = Some r;
  got_more : rows R d ⊆ rows R d';
  got_only k : k ≠ row_id new → rows R d' !! k = rows R d !! k;
  got_frame : ∃ f, d' = set_rows R f d
}.

Lemma wp_get_or_create P new Q s :
  sound (working s) → checks new = true → P new = true →
  rows R (working s) !! row_id new = None →
  (∀ r, conflict new r = true → P r = true) →
  (∀ r d', got P new (working s) r d' → Q (Ret r) (Sess (committed s) d')) →
  wp (get_or_create P new) Q s.
Proof.
  intros Hs Hc HP Hn Hcf HQ. unfold get_or_create. apply wp_bind, wp_gets.
  destruct (find_row P (rows R (working s))) as [r|] eqn:E.
  - apply wp_ret. apply find_row_Some in E as (k & Hk & HPr).
    destruct s as [c d]. apply HQ. split; [done..| |done|done|].
    + by rewrite (tk_keyed _ _ _ _ Hs k r Hk).
    + exists (λ t, t). by rewrite set_same.
  - rewrite find_row_None in E.
    assert (unique_ok true conflict new (rows R (working s)) = true) as Hu.
    { apply unique_ok_fresh; [done|]. intros k r Hk. apply not_true_is_false. intros Hcr.
      specialize (E k r Hk). rewrite (Hcf r Hcr) in E. done. }
    apply wp_bind, wp_saved; [done..|]. apply wp_ret, HQ.
    split; [by eapply sound_set|done|..|by eexists]; rewrite rows_set; unfold put.
    + apply lookup_insert_eq.
    + by apply insert_subseteq.
    + intros k Hk. by apply lookup_insert_ne.
Qed.

(** A row that is there is found again: only one can satisfy the condition. *)
Lemma wp_get_known P new r Q s :
  sound (working s) → rows R (working s) !! row_id r = Some r → P r = true →
  (∀ r', P r' = true → conflict r r' = true) →
  Q (Ret r) s → wp (get_or_create P new) Q s.
Proof.
  intros Hs Hr HP Hcf HQ. unfold get_or_create. apply wp_bind, wp_gets.
  destruct (find_row P (rows R (working s))) as [r'|] eqn:E.
  - apply find_row_Some in E as (k & Hk & HPr). apply wp_ret.
    destruct (decide (k = row_id r)) as [->|Hne]; [by simplify_eq|].
    pose proof (tk_unique _ _ _ _ Hs _ _ _ _ Hr Hk (not_eq_sym Hne)) as Hno.
    rewrite (Hcf r' HPr) in Hno. done.
  - rewrite find_row_None in E. specialize (E _ _ Hr). congruence.
Qed.

Lemma keeps_save fresh r : keeps sound (save fresh r).
Proof.
  intros s [Hc Hw]. apply wp_save; intros; [|by split]. split; cbn; [done|].
  by eapply sound_set.
Qed.

Lemma keeps_erase r : keeps sound (erase r).
Proof.
  apply keeps_modify. intros d [Hk Hu Hr]. split; rewrite rows_set.
  - intros k r'. rewrite lookup_delete_Some. intros [_ ?]. by apply Hk.
  - intros k k' r1 r2. rewrite !lookup_delete_Some. intros [_ ?] [_ ?]. by apply Hu.
  - intros k r'. rewrite lookup_delete_Some. intros [_ ?]. by apply (Hr k).
Qed.

Lemma puts_cons r l t : puts (r :: l) t = puts l (put r t).
Proof. done. Qed.

Lemma puts_other l t k : k ∉ row_id <$> l → puts l t !! k = t !! k.
Proof.
  revert t. induction l as [|r l IH]; intros t; [done|].
  rewrite fmap_cons, not_elem_of_cons. intros [Hr Hl]. rewrite puts_cons, IH by done.
  unfold put. by rewrite lookup_insert_ne.
Qed.

Lemma puts_lookup l t r :
  NoDup (row_id <$> l) → r ∈ l → puts l t !! row_id r = Some r.
Proof.
  revert t. induction l as [|r' l IH]; intros t; [by intros _ ?%not_elem_of_nil|].
  rewrite fmap_cons, NoDup_cons, elem_of_cons. intros [Hr' Hl] [->|Hr]; rewrite puts_cons; [|auto].
  rewrite puts_other by done. unfold put. apply lookup_insert_eq.
Qed.

(** The rows of a condition after new rows came in. *)
Lemma filter_rows_puts (P : R → bool) l t :
  NoDup (row_id <$> l) → Forall (λ r, t !! row_id r = None) l →
  filter_rows P (puts l t) ≡ₚ filter (λ r, P r = true) l ++ filter_rows P t.
Proof.
  revert t. induction l as [|r l IH]; intros t; [done|].
  rewrite fmap_cons, NoDup_cons. intros [Hr Hl] [Hn Hf]%Forall_cons. rewrite puts_cons.
  rewrite IH; [|done|]; last first.
  { rewrite Forall_forall in Hf |- *. intros r' Hr'. unfold put.
    rewrite lookup_insert_ne; [auto|]. intros E. apply Hr. rewrite E.
    by apply list_elem_of_fmap_2. }
  unfold filter_rows, put. rewrite (map_to_list_insert t _ _ Hn), fmap_cons.
  rewrite !filter_cons. cbn [snd]. case_decide; [|done]. rewrite <-Permutation_middle. done.
Qed.

Lemma sound_puts l d : sound d → insertable l (rows R d) → sound (set_rows R (puts l) d).
Proof.
  revert d. induction l as [|r l IH]; intros d Hd Hl.
  - cbn. by rewrite set_same.
  - apply insertable_cons in Hl as (Hc & Hu & Hl).
    specialize (IH (set_rows R (put r) d)). rewrite set_set in IH. apply IH.
    + by eapply sound_set.
    + by rewrite rows_set.
Qed.

(** A condition on all rows, after new ones came in. *)
Lemma all_rows_puts (P : R → Prop) l t :
  all_rows P t → Forall P l → all_rows P (puts l t).
Proof.
  revert t. induction l as [|r l IH]; intros t Ht; [done|]. intros [Hr Hl]%Forall_cons.
  rewrite puts_cons. apply IH; [|done]. by apply all_rows_put.
Qed.

Lemma keeps_for_each {A} (I : DB → Prop) (l : list A) f :
  (∀ x, keeps I (f x)) → keeps I (for_each l f).
Proof.
  intros Hf. induction l as [|x l IH]; [apply keeps_ret|]. apply keeps_bind; [apply Hf|done].
Qed.

Lemma keeps_save_all l : keeps sound (save_all l).
Proof.
  induction l as [|r l IH]; [apply keeps_ret|]. apply keeps_bind; [apply keeps_save|done].
Qed.
(** A test of [sound], row by row. *)
Definition sound_test (d : DB) : bool :=
  let l := map_to_list (rows R d) in
  forallb (λ kr, (row_id kr.2 ≟ kr.1) && checks kr.2) l
  && forallb (λ kr, forallb (λ kr', (kr.1 ≟ kr'.1) || negb (conflict kr.2 kr'.2)) l) l.

Lemma sound_tested d : sound_test d = true → sound d.
Proof.
  unfold sound_test. rewrite andb_true_iff, !forallb_forall. intros [H1 H2].
  assert (∀ k r, rows R d !! k = Some r → In (k, r) (map_to_list (rows R d))) as Hin.
  { intros k r Hr. by apply list_elem_of_In, elem_of_map_to_list. }
  split.
  - intros k r Hr%Hin. apply H1 in Hr. bools. cbn in *. done.
  - intros k k' r r' Hr%Hin Hr'%Hin Hne. specialize (H2 _ Hr). rewrite forallb_forall in H2.
    specialize (H2 _ Hr'). cbn in H2. apply orb_true_iff in H2 as [E|E%negb_true_iff]; [|done].
    by apply bool_decide_eq_true in E.
  - intros k r Hr%Hin. apply H1 in Hr. bools. done.
Qed.
End table.
Arguments sound R {_ _} _.
Arguments sound_test R {_ _} _.

(** Soundness looks at the rows only. *)
Lemma sound_rows R `{Table R} d d' : rows R d' = rows R d → sound R d → sound R d'.
Proof. intros E []. by split; rewrite E. Qed.

(** Changes of another table. *)
Section apart.
Context {R R' : Type} `{Table R, Table R', !Apart R R'}.
Lemma sound_apart f d : sound R d → sound R (set_rows R' f d).
Proof. intros [???]. split; by rewrite apart. Qed.
Lemma keeps_save_apart fresh (r : R') : keeps (sound R) (save fresh r).
Proof.
  intros s [Hc Hw]. apply wp_save; intros; [|by split]. split; cbn; [done|].
  by apply sound_apart.
Qed.
Lemma keeps_save_all_apart (l : list R') : keeps (sound R) (save_all l).
Proof.
  induction l as [|r l IH]; [apply keeps_ret|]. apply keeps_bind; [apply keeps_save_apart|done].
Qed.
Lemma keeps_erase_apart (r : R') : keeps (sound R) (erase r).
Proof. apply keeps_modify. intros d. apply sound_apart. Qed.
End apart.

#[export] Hint Resolve keeps_save keeps_save_all keeps_erase : keeps.
#[export] Hint Resolve keeps_save_apart keeps_save_all_apart keeps_erase_apart | 5 : keeps.
