(* ===== verification/Common.v ===== *)
(** services/common.py and the organization and membership queries of
    repositories/data.py: what the services share. *)

From S2P Require Import Prelude.
From S2P Require Import Enums.
From S2P Require Import PyValue.
From S2P Require Import Models.
From Stdlib Require Import Ascii.
From stdpp Require Import list.

(** services/common.py:19-20, normalize_email. *)
Definition normalize_email (email : string) : string := lower (strip email).

(** The characters of [[a-z0-9]]. *)
Definition slug_char (c : ascii) : bool :=
  let n := code c in
  ((97 <=? n) && (n <=? 122) || (48 <=? n) && (n <=? 57))%N.

(** [re.sub(r"[^a-z0-9]+", "-", s)]; [run] tells that the last character was
    replaced too. *)
Fixpoint dash_runs (run : bool) (s : string) : string :=
  match s with
  | EmptyString => EmptyString
  | String c s =>
      if slug_char c then String c (dash_runs false s)
      else if run then dash_runs true s
      else String "-" (dash_runs true s)
  end.

(** [s.lstrip("-")] *)
Fixpoint ldash (s : string) : string :=
  match s with
  | String c s' => if Ascii.eqb c "-" then ldash s' else s
  | EmptyString => s
  end.

(** services/common.py:23-25, slugify. *)
Definition slugify (name : string) : string :=
  let slug := dash_runs false (lower (strip name)) in
  str_take 100 (srev (ldash (srev (ldash slug)))).

(** services/common.py:28-32, is_expired.  Timestamps are instants, so the
    naive ones the function repairs do not occur. *)
Definition is_expired (value now : timestamp) : bool := (value <=? now)%Z.

(** services/common.py:35-60, record_audit. *)
Definition record_audit (event_type resource_type : string) (result : AuditResult)
    (organization_id actor_user_id resource_id : option uuid) : txn DB () :=
  modify (λ d, d <| DB.audit ::= λ l,
    l ++ [AuditEvent.mk organization_id actor_user_id event_type resource_type
            resource_id result] |>).

(** The usual call, for an actor and a row of an organization. *)
Definition audit_ok (event_type resource_type : string)
    (organization_id actor_user_id resource_id : uuid) : txn DB () :=
  record_audit event_type resource_type AuditResult.SUCCEEDED
    (Some organization_id) (Some actor_user_id) (Some resource_id).

(** [.order_by(R.created_at.desc(), R.id)] *)
Definition newest_first {R} (created : R → timestamp) (id_ : R → uuid) (a b : R) : bool :=
  (created b <? created a)%Z || (created a =? created b)%Z && (id_ a <=? id_ b)%N.

(** [.offset((page - 1) * page_size).limit(page_size)] *)
Definition page_of {A} (page page_size : nat) (l : list A) : list A :=
  take page_size (drop ((page - 1) * page_size) l).

(** [except AppError] *)
Definition is_app_error (e : exn) : bool :=
  match e with
  | AppError _ _ | AuthenticationError _ | ForbiddenError _ | NotFoundError _ | ConflictError _
  | RateLimitError _ _ _ _ => true
  | _ => false
  end.

(** The escape of the wildcards in a search text, and the pattern that finds
    it anywhere. *)
Definition escaped (search : string) : string :=
  replace_char "_" (String backslash "_") (replace_char "%" (String backslash "%")
    (replace_char backslash (String backslash (String backslash "")) (strip search))).
Definition anywhere (s : string) : string := "%" +:+ s +:+ "%".

(** [column.like(p)]: [%] stands for any text, [_] for one character, and a
    backslash takes the next character as it is; characters are compared after
    [fold]. *)
Fixpoint like_with (fold : ascii → ascii) (p s : string) : bool :=
  match p with
  | EmptyString => String.eqb s ""
  | String c p =>
      if Ascii.eqb c "%" then
        (fix any (s : string) : bool :=
           like_with fold p s
           || match s with String _ s => any s | EmptyString => false end) s
      else if Ascii.eqb c backslash then
        match p, s with
        | String c' p', String c'' s' => Ascii.eqb (fold c') (fold c'') && like_with fold p' s'
        | _, _ => false
        end
      else
        match s with
        | String c' s =>
            (Ascii.eqb c "_" || Ascii.eqb (fold c) (fold c')) && like_with fold p s
        | EmptyString => false
        end
  end.
(** [column.ilike(p)] *)
Definition like : string → string → bool := like_with lower_char.

(** [if text:], an absent and an empty text alike *)
Definition given (o : option string) : option string :=
  s ← o; if nonempty s then Some s else None.

(** * Queries *)

(** repositories/data.py:38-39, Repository.organization. *)
Definition organization (organization_id : uuid) (d : DB) : option Organization :=
  DB.organizations d !! organization_id.

(** repositories/data.py:41-42, Repository.organization_by_slug. *)
Definition organization_by_slug (slug : string) (d : DB) : option Organization :=
  find_row (λ o, Organization.slug o ≟ slug) (DB.organizations d).

(** repositories/data.py:32-33, Repository.user_by_email. *)
Definition user_by_email (email : string) (d : DB) : option User :=
  find_row (λ u, User.normalized_email u ≟ email) (DB.users d).

(** repositories/data.py:35-36, Repository.user. *)
Definition user (user_id : uuid) (d : DB) : option User := DB.users d !! user_id.

(** repositories/data.py:44-52, Repository.membership. *)
Definition membership (organization_id user_id : uuid) (d : DB)
    : option OrganizationMembership :=
  find_row (λ m, (OrganizationMembership.organization_id m ≟ organization_id)
                 && (OrganizationMembership.user_id m ≟ user_id)) (DB.members d).

(** repositories/data.py:54-62, Repository.membership_by_id. *)
Definition membership_by_id (organization_id membership_id : uuid) (d : DB)
    : option OrganizationMembership :=
  find_row (λ m, (OrganizationMembership.id m ≟ membership_id)
                 && (OrganizationMembership.organization_id m ≟ organization_id))
    (DB.members d).

(** repositories/data.py:64-73, Repository.active_membership. *)
Definition active_membership (organization_id user_id : uuid) (d : DB)
    : option OrganizationMembership :=
  find_row (λ m, (OrganizationMembership.organization_id m ≟ organization_id)
                 && (OrganizationMembership.user_id m ≟ user_id)
                 && (OrganizationMembership.status m ≟ MembershipStatus.ACTIVE))
    (DB.members d).

(** An active owner of the organization. *)
Definition active_owner (organization_id : uuid) (m : OrganizationMembership) : bool :=
  (OrganizationMembership.organization_id m ≟ organization_id)
  && (OrganizationMembership.role m ≟ OrganizationRole.OWNER)
  && (OrganizationMembership.status m ≟ MembershipStatus.ACTIVE).

(** repositories/data.py:107-117, Repository.active_owner_count. *)
Definition active_owner_count (organization_id : uuid) (d : DB) : nat :=
  length (filter_rows (active_owner organization_id) (DB.members d)).

(** repositories/data.py:92-105, Repository.members.  The order by name is that
    of the joined list, which no operation relies on. *)
Definition members (organization_id : uuid) (d : DB)
    : list (OrganizationMembership * User) :=
  omap (λ m, u ← DB.users d !! OrganizationMembership.user_id m; Some (m, u))
    (filter_rows (λ m,
       (OrganizationMembership.organization_id m ≟ organization_id)
       && negb (OrganizationMembership.status m ≟ MembershipStatus.REMOVED))
       (DB.members d)).

(** repositories/data.py:75-90, Repository.user_organizations.  The order by
    name is that of the joined list, which no operation relies on. *)
Definition user_organizations (user_id : uuid) (d : DB)
    : list (Organization * OrganizationMembership) :=
  omap (λ m, o ← DB.organizations d !! OrganizationMembership.organization_id m;
             Some (o, m))
    (filter_rows (λ m,
       (OrganizationMembership.user_id m ≟ user_id)
       && (OrganizationMembership.status m ≟ MembershipStatus.ACTIVE))
       (DB.members d)).

(** repositories/data.py:213-231, Repository.aws_account_for_user.  The variant that
    locks the row selects the same. *)
Definition aws_account_for_user (account_id user_id : uuid) (d : DB)
    : option (AWSAccount * OrganizationMembership) :=
  a ← DB.aws_accounts d !! account_id;
  m ← active_membership (AWSAccount.organization_id a) user_id d;
  Some (a, m).

(** * Lemmas *)

Lemma active_membership_Some o u d m :
  active_membership o u d = Some m →
  ∃ k, DB.members d !! k = Some m
  ∧ OrganizationMembership.organization_id m = o
  ∧ OrganizationMembership.user_id m = u
  ∧ OrganizationMembership.status m = MembershipStatus.ACTIVE.
Proof. intros (k & ? & ?)%find_row_Some. bools. eauto 10. Qed.

Lemma membership_by_id_Some o i d m :
  keyed (DB.members d) → membership_by_id o i d = Some m →
  DB.members d !! i = Some m
  ∧ OrganizationMembership.id m = i ∧ OrganizationMembership.organization_id m = o.
Proof.
  intros Hk (k & Hl & ?)%find_row_Some. bools.
  pose proof (Hk _ _ Hl) as E. cbv in E. naive_solver.
Qed.

Lemma aws_account_for_user_Some i u d a m :
  aws_account_for_user i u d = Some (a, m) ↔
  DB.aws_accounts d !! i = Some a ∧ active_membership (AWSAccount.organization_id a) u d = Some m.
Proof.
  unfold aws_account_for_user. destruct (DB.aws_accounts d !! i) as [a'|]; cbn; [|naive_solver].
  destruct (active_membership _ u d) as [m'|] eqn:E; cbn; naive_solver.
Qed.

(** ** Invariants and audit events *)

(** An invariant that does not look at the audit log: whatever only records
    events keeps it. *)
Class StableAudit (I : DB → Prop) : Prop :=
  stable_audit : ∀ d f, I d → I (d <| DB.audit ::= f |>).

Lemma keeps_record_audit I `{!StableAudit I} e t r o a i : keeps I (record_audit e t r o a i).
Proof. apply keeps_modify. intros d. apply stable_audit. Qed.
Lemma keeps_audit_ok I `{!StableAudit I} e t o a i : keeps I (audit_ok e t o a i).
Proof. apply keeps_record_audit, _. Qed.

Lemma both_audit I `{!StableAudit I} s f :
  both I s → both I (Sess (committed s) ((working s) <| DB.audit ::= f |>)).
Proof. intros [Hc Hw]. split; [done|]. by apply stable_audit. Qed.

#[export] Hint Resolve keeps_record_audit keeps_audit_ok : keeps.
#[export] Hint Extern 1 (StableAudit _) => typeclasses eauto : keeps.
