(* ===== verification/Sha256.v ===== *)
(** The parts of Python's standard library the services use on identifiers and
    hashes: [hashlib.sha256(s.encode()).hexdigest()], on ASCII strings, and
    [str] of a UUID. *)

From S2P Require Import Prelude.
From S2P Require Import PyValue.
From Stdlib Require Import Ascii.
From stdpp Require Import list.

Open Scope N_scope.

(** * 32-bit words *)

Definition mask32 : N := 0xffffffff.
Definition add32 (a b : N) : N := N.land (a + b) mask32.
Definition rotr (n : N) (x : N) : N :=
  N.lor (N.shiftr x n) (N.land (N.shiftl x (32 - n)) mask32).
Definition ch (x y z : N) : N := N.lxor (N.land x y) (N.land (N.lxor x mask32) z).
Definition maj (x y z : N) : N := N.lxor (N.lxor (N.land x y) (N.land x z)) (N.land y z).
Definition big0 (x : N) : N := N.lxor (N.lxor (rotr 2 x) (rotr 13 x)) (rotr 22 x).
Definition big1 (x : N) : N := N.lxor (N.lxor (rotr 6 x) (rotr 11 x)) (rotr 25 x).
Definition small0 (x : N) : N := N.lxor (N.lxor (rotr 7 x) (rotr 18 x)) (N.shiftr x 3).
Definition small1 (x : N) : N := N.lxor (N.lxor (rotr 17 x) (rotr 19 x)) (N.shiftr x 10).

(** ** The constants

    FIPS 180-4 takes them from the first primes: 32 bits of the fractional part
    of the cube root, for the rounds, and of the square root, for the initial
    hash. *)

Definition is_prime (n : N) : bool :=
  forallb (λ d, negb (n mod N.of_nat d =? 0)) (seq 2 (N.to_nat n - 2)).
Definition primes : list N :=
  Eval vm_compute in List.filter is_prime (map N.of_nat (seq 2 310)).

(** The greatest [r + x] with [x < 2 ^ k] whose cube is at most [n]. *)
Fixpoint cube_root (k : nat) (r n : N) : N :=
  match k with
  | O => r
  | S k =>
      let r' := r + N.shiftl 1 (N.of_nat k) in
      cube_root k (if r' * r' * r' <=? n then r' else r) n
  end.

Definition round_constants : list N :=
  Eval vm_compute in map (λ p, N.land (cube_root 36 0 (N.shiftl p 96)) mask32) (take 64 primes).

Definition initial_hash : list N :=
  Eval vm_compute in map (λ p, N.land (N.sqrt (N.shiftl p 64)) mask32) (take 8 primes).

(** * The compression function *)

(** The message schedule, newest word first. *)
Fixpoint schedule (n : nat) (w : list N) : list N :=
  match n with
  | O => w
  | S n =>
      let x := add32 (add32 (small1 (nth 1 w 0)) (nth 6 w 0))
                     (add32 (small0 (nth 14 w 0)) (nth 15 w 0)) in
      schedule n (x :: w)
  end.

Definition round (s : list N) (kw : N * N) : list N :=
  match s with
  | [a; b; c; d; e; f; g; h] =>
      let t1 := add32 (add32 (add32 h (big1 e)) (ch e f g)) (add32 kw.1 kw.2) in
      let t2 := add32 (big0 a) (maj a b c) in
      [add32 t1 t2; a; b; c; add32 d t1; e; f; g]
  | _ => s
  end.

Definition compress (s : list N) (block : list N) : list N :=
  let w := rev (schedule 48 (rev block)) in
  zip_with add32 s (fold_left round (zip round_constants w) s).

(** * Padding and blocks *)

Fixpoint bytes_of (s : string) : list N :=
  match s with
  | EmptyString => []
  | String c s => N_of_ascii c :: bytes_of s
  end.

(** [n] as [k] big-endian bytes *)
Fixpoint big_endian (k : nat) (n : N) : list N :=
  match k with
  | O => []
  | S k => N.land (N.shiftr n (8 * N.of_nat k)) 255 :: big_endian k n
  end.

Definition pad (m : list N) : list N :=
  let n := length m in
  let zeros := ((120 - (n + 1) mod 64) mod 64)%nat in
  m ++ 128 :: repeat 0 zeros ++ big_endian 8 (8 * N.of_nat n).

Fixpoint words_of (m : list N) : list N :=
  match m with
  | a :: b :: c :: d :: m =>
      N.lor (N.lor (N.shiftl a 24) (N.shiftl b 16)) (N.lor (N.shiftl c 8) d) :: words_of m
  | _ => []
  end.

Fixpoint blocks (n : nat) (w : list N) : list (list N) :=
  match n with
  | O => []
  | S n => take 16 w :: blocks n (drop 16 w)
  end.

Definition sha256 (m : list N) : list N :=
  let w := words_of (pad m) in
  fold_left compress (blocks (length w / 16) w) initial_hash.

(** * Text *)

Fixpoint hex_bytes (l : list N) : string :=
  match l with
  | [] => EmptyString
  | b :: l => String (hex_digit (b / 16)) (String (hex_digit (b mod 16)) (hex_bytes l))
  end.

(** [hashlib.sha256(s.encode()).hexdigest()] *)
Definition sha256_hex (s : string) : string :=
  hex_bytes (flat_map (big_endian 4) (sha256 (bytes_of s))).

(** [str(u)] of a UUID *)
Definition uuid_str (u : N) : string :=
  let h := hex_bytes (big_endian 16 u) in
  str_take 8 h +:+ "-" +:+ str_take 4 (str_drop 8 h) +:+ "-" +:+ str_take 4 (str_drop 12 h)
  +:+ "-" +:+ str_take 4 (str_drop 16 h) +:+ "-" +:+ str_drop 20 h.

Arguments sha256_hex : simpl never.
Arguments uuid_str : simpl never.

(** * Test vectors of FIPS 180-4 *)

Example sha256_empty :
  sha256_hex "" = "e3b0c44298fc1c149afbf4c8996fb92427ae41e4649b934ca495991b7852b855".
Proof. vm_compute. reflexivity. Qed.

Example sha256_abc :
  sha256_hex "abc" = "ba7816bf8f01cfea414140de5dae2223b00361a396177a9cb410ff61f20015ad".
Proof. vm_compute. reflexivity. Qed.

Example sha256_two_blocks :
  sha256_hex "abcdbcdecdefdefgefghfghighijhijkijkljklmklmnlmnomnopnopq"
  = "248d6a61d20638b8e5c026930c3e6039a33ce45964ff2167f6ecedd419db06c1".
Proof. vm_compute. reflexivity. Qed.

Example uuid_str_example :
  uuid_str 0x0123456789abcdef0123456789abcdef = "01234567-89ab-cdef-0123-456789abcdef".
Proof. vm_compute. reflexivity. Qed.

#[global] Opaque sha256_hex uuid_str.
