(* ===== verification/Organizations.v ===== *)
(** services/organizations.py: organizations, memberships and the capability
    check every other service calls.

    An operation is a transaction over the database; [now] and the identifiers
    that [uuid4] draws are arguments. *)

From S2P Require Import Prelude.
From S2P Require Import Enums.
From S2P Require Import Rbac.
From S2P Require Import PyValue.
From S2P Require Import Models.
From S2P Require Import Common.
From stdpp Require Import list.

Abbreviation Member := OrganizationMembership.

(** * Operations *)

(** services/organizations.py:25-31, OrganizationService.require_member. *)
Definition require_member (organization_id user_id : uuid) : txn DB OrganizationMembership :=
  m ← gets (active_membership organization_id user_id);
  some_or m (NotFoundError "organization_not_found").

(** services/organizations.py:33-39, OrganizationService.require_capability. *)
Definition require_capability (organization_id user_id : uuid) (capability : Capability)
    : txn DB OrganizationMembership :=
  m ← require_member organization_id user_id;
  _ ← ensure (role_has_capability (OrganizationMembership.role m) capability)
        (ForbiddenError "forbidden");
  mret m.

(** models/organization.py:15-15, part of Organization.  The unique index. *)
Definition organization_conflict (o o' : Organization) : bool :=
  Organization.slug o ≟ Organization.slug o'.

(** models/membership.py:16-16, part of OrganizationMembership.  The unique
    index. *)
Definition membership_conflict (m m' : OrganizationMembership) : bool :=
  (OrganizationMembership.organization_id m ≟ OrganizationMembership.organization_id m')
  && (OrganizationMembership.user_id m ≟ OrganizationMembership.user_id m').

Definition save_organization (fresh : bool) (o : Organization) : txn DB () :=
  t ← gets DB.organizations;
  _ ← ensure (unique_ok fresh organization_conflict o t) IntegrityError;
  modify (λ d, d <| DB.organizations ::= put o |>).

Definition save_member (fresh : bool) (m : OrganizationMembership) : txn DB () :=
  t ← gets DB.members;
  _ ← ensure (unique_ok fresh membership_conflict m t) IntegrityError;
  modify (λ d, d <| DB.members ::= put m |>).

(** services/organizations.py:41-75, OrganizationService.create. *)
Definition create (org_id member_id : uuid) (now : timestamp)
    (actor : User) (name : string) (slug : option string)
    : txn DB (Organization * OrganizationMembership) :=
  let value :=
    match slug with Some s => if nonempty s then s else slugify name
    | None => slugify name end in
  taken ← gets (organization_by_slug value);
  _ ← ensure (nonempty value && if taken is Some _ then false else true)
        (ConflictError "slug_in_use");
  let org := Organization.mk org_id (strip name) value OrganizationStatus.ACTIVE
               (User.id actor) in
  _ ← save_organization true org;
  let member := OrganizationMembership.mk member_id org_id (User.id actor)
                  OrganizationRole.OWNER MembershipStatus.ACTIVE None (Some now) in
  _ ← try_catch
        (_ ← save_member true member;
         _ ← audit_ok "organization.created" "organization" org_id (User.id actor) org_id;
         commit)
        (λ e, match e with
              | IntegrityError =>
                  _ ← rollback; raise (ConflictError "organization_conflict")
              | e => raise e
              end);
  mret (org, member).

(** services/organizations.py:77-80, OrganizationService.list_for_user. *)
Definition list_for_user (user_id : uuid)
    : txn DB (list (Organization * OrganizationMembership)) :=
  gets (user_organizations user_id).

(** services/organizations.py:82-89, OrganizationService.get. *)
Definition get (organization_id user_id : uuid)
    : txn DB (Organization * OrganizationMembership) :=
  m ← require_member organization_id user_id;
  o ← gets (organization organization_id);
  o ← some_or o (NotFoundError "not_found");
  mret (o, m).

(** services/organizations.py:91-106, OrganizationService.update. *)
Definition update (organization_id : uuid) (actor : User) (name slug : option string)
    : txn DB Organization :=
  _ ← require_capability organization_id (User.id actor) Capability.ORGANIZATION_UPDATE;
  o ← gets (organization organization_id);
  o ← some_or o (NotFoundError "not_found");
  let o := match name with Some n => o <| Organization.name := strip n |> | None => o end in
  o ← match slug with
      | Some s =>
          if Organization.slug o ≟ s then mret o
          else
            taken ← gets (organization_by_slug s);
            _ ← ensure (if taken is Some _ then false else true)
                  (ConflictError "slug_in_use");
            mret (o <| Organization.slug := s |>)
      | None => mret o
      end;
  _ ← save_organization false o;
  _ ← commit;
  mret o.

(** services/organizations.py:108-112, OrganizationService.members. *)
Definition list_members (organization_id actor_id : uuid)
    : txn DB (list (OrganizationMembership * User)) :=
  _ ← require_capability organization_id actor_id Capability.MEMBERS_READ;
  gets (members organization_id).

(** services/organizations.py:203-207, OrganizationService._protect_last_owner. *)
Definition _protect_last_owner (organization_id : uuid) : txn DB () :=
  n ← gets (active_owner_count organization_id);
  ensure (negb (Nat.leb n 1)) (ConflictError "last_owner").

(** [if not target or target.status == REMOVED: raise NotFoundError] *)
Definition present_member (m : option OrganizationMembership) : option OrganizationMembership :=
  m ← m;
  if OrganizationMembership.status m ≟ MembershipStatus.REMOVED then None else Some m.

(** A check that raises or returns nothing. *)
Definition check (o : option exn) : txn DB () :=
  match o with Some e => raise e | None => mret tt end.

(** services/organizations.py:114-144, OrganizationService.change_role. *)
Definition change_role (organization_id membership_id : uuid) (actor : User)
    (role : OrganizationRole) : txn DB OrganizationMembership :=
  actor_member ← require_capability organization_id (User.id actor)
                   Capability.MEMBERS_MANAGE;
  target ← gets (membership_by_id organization_id membership_id);
  target ← some_or (present_member target) (NotFoundError "membership_not_found");
  _ ← check (ensure_actor_can_manage_membership (OrganizationMembership.role actor_member)
        (OrganizationMembership.role target) (Some role));
  _ ← if (OrganizationMembership.role target ≟ OrganizationRole.OWNER)
         && negb (role ≟ OrganizationRole.OWNER)
      then _protect_last_owner organization_id else mret tt;
  let target := target <| OrganizationMembership.role := role |> in
  _ ← save_member false target;
  _ ← audit_ok "membership.role_changed" "membership" organization_id
        (User.id actor) (OrganizationMembership.id target);
  _ ← commit;
  mret target.

(** schemas/organization.py:74-79, StatusUpdate.active_or_suspended.  The status
    a request may ask for. *)
Definition active_or_suspended (value : MembershipStatus) : bool :=
  bool_decide (value ∈ [MembershipStatus.ACTIVE; MembershipStatus.SUSPENDED]).

(** services/organizations.py:146-179, OrganizationService.change_status. *)
Definition change_status (organization_id membership_id : uuid) (actor : User)
    (status : MembershipStatus) : txn DB OrganizationMembership :=
  actor_member ← require_capability organization_id (User.id actor)
                   Capability.MEMBERS_MANAGE;
  target ← gets (membership_by_id organization_id membership_id);
  target ← some_or (present_member target) (NotFoundError "membership_not_found");
  _ ← check (ensure_actor_can_manage_membership (OrganizationMembership.role actor_member)
        (OrganizationMembership.role target) None);
  _ ← if (OrganizationMembership.role target ≟ OrganizationRole.OWNER)
         && (status ≟ MembershipStatus.SUSPENDED)
      then _protect_last_owner organization_id else mret tt;
  let target := target <| OrganizationMembership.status := status |> in
  _ ← save_member false target;
  _ ← audit_ok
        (if status ≟ MembershipStatus.SUSPENDED then "membership.suspended"
         else "membership.reactivated") "membership" organization_id
        (User.id actor) (OrganizationMembership.id target);
  _ ← commit;
  mret target.

(** services/organizations.py:181-201, OrganizationService.remove. *)
Definition remove (organization_id membership_id : uuid) (actor : User) : txn DB () :=
  actor_member ← require_capability organization_id (User.id actor)
                   Capability.MEMBERS_MANAGE;
  target ← gets (membership_by_id organization_id membership_id);
  match present_member target with
  | None => mret tt
  | Some target =>
      _ ← check (ensure_actor_can_manage_membership
            (OrganizationMembership.role actor_member)
            (OrganizationMembership.role target) None);
      _ ← if OrganizationMembership.role target ≟ OrganizationRole.OWNER
          then _protect_last_owner organization_id else mret tt;
      let target := target <| OrganizationMembership.status := MembershipStatus.REMOVED |> in
      _ ← save_member false target;
      _ ← audit_ok "membership.removed" "membership" organization_id
            (User.id actor) (OrganizationMembership.id target);
      commit
  end.

(** * The operations a client can request *)

Inductive op :=
| OpCreate (org_id member_id : uuid) (now : timestamp) (actor : User)
    (name : string) (slug : option string)
| OpUpdate (organization_id : uuid) (actor : User) (name slug : option string)
| OpChangeRole (organization_id membership_id : uuid) (actor : User)
    (role : OrganizationRole)
| OpChangeStatus (organization_id membership_id : uuid) (actor : User)
    (status : MembershipStatus)
| OpRemove (organization_id membership_id : uuid) (actor : User).

(** The database after a request; the schema refuses a status that
    [active_or_suspended] rejects before the service is called. *)
Definition perform (o : op) (d : DB) : DB :=
  match o with
  | OpCreate i m n a nm s => (run (create i m n a nm s) d).2
  | OpUpdate i a nm s => (run (update i a nm s) d).2
  | OpChangeRole i m a r => (run (change_role i m a r) d).2
  | OpChangeStatus i m a s =>
      if active_or_suspended s then (run (change_status i m a s) d).2 else d
  | OpRemove i m a => (run (remove i m a) d).2
  end.

Definition step (d d' : DB) : Prop := ∃ o, d' = perform o d.

(** The organization has an active owner. *)
Definition has_owner (organization_id : uuid) (d : DB) : Prop :=
  ∃ k m, DB.members d !! k = Some m ∧ active_owner organization_id m = true.

(** Tables are keyed by the identifiers, the unique indexes hold, and every
    organization has an owner. *)
Record well_owned (d : DB) : Prop := {
  wo_organizations : keyed (DB.organizations d);
  wo_members : keyed (DB.members d);
  wo_slugs : unique_index organization_conflict (DB.organizations d);
  wo_users : unique_index membership_conflict (DB.members d);
  wo_owner : ∀ k, is_Some (DB.organizations d !! k) → has_owner k d
}.

(** The organization a request names. *)
Definition target_organization (o : op) : uuid :=
  match o with
  | OpCreate i _ _ _ _ _ | OpUpdate i _ _ _ | OpChangeRole i _ _ _
  | OpChangeStatus i _ _ _ | OpRemove i _ _ => i
  end.

(** [d'] has the row and the memberships of [org] that [d] has. *)
Definition same_organization (org : uuid) (d d' : DB) : Prop :=
  DB.organizations d' !! org = DB.organizations d !! org
  ∧ ∀ k m, OrganizationMembership.organization_id m = org →
      DB.members d' !! k = Some m ↔ DB.members d !! k = Some m.

(** * Rules of the shared operations *)

Lemma keeps_require_member I o u : keeps I (require_member o u).
Proof. unfold require_member. keeps_go. Qed.
#[export] Hint Resolve keeps_require_member : keeps.
Lemma keeps_require_capability I o u c : keeps I (require_capability o u c).
Proof. unfold require_capability. keeps_go. Qed.
#[export] Hint Resolve keeps_require_capability : keeps.

Section rules.
Implicit Types s : sess DB.

Lemma wp_require_member o u Q s :
  (∀ m, active_membership o u (working s) = Some m → Q (Ret m) s) →
  (active_membership o u (working s) = None →
     Q (Raise (NotFoundError "organization_not_found")) s) →
  wp (require_member o u) Q s.
Proof. intros H1 H2. unfold require_member. wp_go; eauto. Qed.

Lemma wp_require_capability o u c Q s :
  (∀ m, active_membership o u (working s) = Some m →
     role_has_capability (OrganizationMembership.role m) c = true → Q (Ret m) s) →
  (active_membership o u (working s) = None →
     Q (Raise (NotFoundError "organization_not_found")) s) →
  (∀ m, active_membership o u (working s) = Some m →
     role_has_capability (OrganizationMembership.role m) c = false →
     Q (Raise (ForbiddenError "forbidden")) s) →
  wp (require_capability o u c) Q s.
Proof.
  intros H1 H2 H3. unfold require_capability. wp_step.
  apply wp_require_member; intros; wp_go; eauto.
Qed.

Lemma wp_check o Q s :
  (o = None → Q (Ret tt) s) → (∀ e, o = Some e → Q (Raise e) s) → wp (check o) Q s.
Proof. intros H1 H2. unfold check. destruct o; wp_go; eauto. Qed.

Lemma wp_audit_ok e r o a i Q s :
  Q (Ret tt) (Sess (committed s) ((working s) <| DB.audit ::= λ l,
    l ++ [AuditEvent.mk (Some o) (Some a) e r (Some i) AuditResult.SUCCEEDED] |>)) →
  wp (audit_ok e r o a i) Q s.
Proof. intros H. unfold audit_ok, record_audit. wp_go. exact H. Qed.

Lemma wp_save_member fresh m Q s :
  (unique_ok fresh membership_conflict m (DB.members (working s)) = true →
     Q (Ret tt) (Sess (committed s) ((working s) <| DB.members ::= put m |>))) →
  (unique_ok fresh membership_conflict m (DB.members (working s)) = false →
     Q (Raise IntegrityError) s) →
  wp (save_member fresh m) Q s.
Proof. intros H1 H2. unfold save_member. wp_go; eauto. Qed.

Lemma wp_protect o Q s :
  (2 ≤ active_owner_count o (working s) → Q (Ret tt) s) →
  (active_owner_count o (working s) ≤ 1 →
     Q (Raise (ConflictError "last_owner")) s) →
  wp (_protect_last_owner o) Q s.
Proof.
  intros H1 H2. unfold _protect_last_owner. wp_go.
  - apply H1. bools. apply Nat.leb_gt in H. lia.
  - apply H2. bools. by apply Nat.leb_le in H.
Qed.
End rules.

Ltac wp_call ::=
  lazymatch goal with
  | |- wp (require_member _ _) _ _ => apply wp_require_member; intros
  | |- wp (require_capability _ _ _) _ _ => apply wp_require_capability; intros
  | |- wp (check _) _ _ => apply wp_check; intros
  | |- wp (audit_ok _ _ _ _ _) _ _ => apply wp_audit_ok
  | |- wp (save_member _ _) _ _ => apply wp_save_member; intros
  | |- wp (_protect_last_owner _) _ _ => apply wp_protect; intros
  end.

(** * What a membership operation does *)

Lemma present_member_Some m m' :
  present_member m = Some m' →
  m = Some m' ∧ OrganizationMembership.status m' ≠ MembershipStatus.REMOVED.
Proof. destruct m; cbn; [|done]. case_bool_decide; naive_solver. Qed.

(** A change of one membership of [org] by an actor who may manage members:
    [old] becomes [new], one audit event is written, nothing else moves. *)
Record member_change (org membership_id : uuid) (actor : User) (d d' : DB)
    (am old new : OrganizationMembership) : Prop := {
  mc_actor : active_membership org (User.id actor) d = Some am;
  mc_manage : role_has_capability (OrganizationMembership.role am)
                Capability.MEMBERS_MANAGE = true;
  mc_target : membership_by_id org membership_id d = Some old;
  mc_present : OrganizationMembership.status old ≠ MembershipStatus.REMOVED;
  mc_row : OrganizationMembership.id new = OrganizationMembership.id old
           ∧ OrganizationMembership.organization_id new = OrganizationMembership.organization_id old
           ∧ OrganizationMembership.user_id new = OrganizationMembership.user_id old;
  mc_owner : OrganizationMembership.role old = OrganizationRole.OWNER →
             OrganizationMembership.role am = OrganizationRole.OWNER;
  mc_promote : OrganizationMembership.role new = OrganizationRole.OWNER →
               OrganizationMembership.role am = OrganizationRole.OWNER
               ∨ OrganizationMembership.role old = OrganizationRole.OWNER;
  mc_last : active_owner org old = true →
            active_owner org new = true ∨ 2 ≤ active_owner_count org d;
  mc_unique : unique_ok false membership_conflict new (DB.members d) = true;
  mc_tables : ∃ ev, d' = d <| DB.members ::= put new |> <| DB.audit ::= λ l, l ++ [ev] |>
}.

Lemma ensure_None ar tr rr :
  ensure_actor_can_manage_membership ar tr rr = None →
  (tr = OrganizationRole.OWNER → ar = OrganizationRole.OWNER)
  ∧ (rr = Some OrganizationRole.OWNER → ar = OrganizationRole.OWNER).
Proof.
  unfold ensure_actor_can_manage_membership.
  repeat case_decide; try done. intros _. split; intros; by destruct_decide (decide (ar = OrganizationRole.OWNER)); naive_solver.
Qed.

Lemma active_owner_true o m :
  active_owner o m = true ↔
  OrganizationMembership.organization_id m = o
  ∧ OrganizationMembership.role m = OrganizationRole.OWNER
  ∧ OrganizationMembership.status m = MembershipStatus.ACTIVE.
Proof. unfold active_owner. rewrite !andb_true_iff, !bool_decide_eq_true. tauto. Qed.

(** Builds a [member_change] from what the operation's path has established. *)
Ltac member_change :=
  repeat match goal with
  | H : present_member _ = Some _ |- _ => apply present_member_Some in H as [? ?]
  | H : ensure_actor_can_manage_membership _ _ _ = None |- _ =>
      apply ensure_None in H as [? ?]
  end;
  lazymatch goal with
  | H : active_membership _ _ _ = Some ?am, H' : membership_by_id _ _ _ = Some ?old |- _ =>
      exists am, old; try (lazymatch goal with |- _ ∧ _ => split; [|done] end); split
  end;
  cbn in *; try (by eauto); try tauto; try (intros ->; by auto);
  rewrite !active_owner_true; cbn; intros (? & ? & ?);
  try (right; assumption); left;
  repeat match goal with
  | H : _ && _ = false |- _ => apply andb_false_iff in H as [|]
  end; bools; naive_solver.

Lemma change_role_spec o i a r d out d' :
  run (change_role o i a r) d = (out, d') →
  match out with
  | Raise _ => d' = d
  | Ret m => ∃ am old, member_change o i a d d' am old m
                     ∧ m = old <| OrganizationMembership.role := r |>
  end.
Proof.
  intros H. wp_run_in H. unfold change_role. wp_go; try done; member_change.
Qed.

Lemma change_status_spec o i a st d out d' :
  active_or_suspended st = true →
  run (change_status o i a st) d = (out, d') →
  match out with
  | Raise _ => d' = d
  | Ret m => ∃ am old, member_change o i a d d' am old m
                     ∧ m = old <| OrganizationMembership.status := st |>
  end.
Proof.
  intros Hst H. wp_run_in H. unfold change_status.
  destruct st; try done; wp_go; try done; member_change.
Qed.

Lemma remove_spec o i a d out d' :
  run (remove o i a) d = (out, d') →
  match out with
  | Raise _ => d' = d
  | Ret () => present_member (membership_by_id o i d) = None ∧ d' = d
              ∨ ∃ am old, member_change o i a d d' am old
                  (old <| OrganizationMembership.status := MembershipStatus.REMOVED |>)
  end.
Proof.
  intros H. wp_run_in H. unfold remove. wp_go; try done; try (by left).
  all: right; member_change.
Qed.

(** A created organization and its first member: the organization's slug is
    free, the member is an active owner. *)
Record org_created (i mi : uuid) (actor : User) (d d' : DB) (org : Organization)
    (m : OrganizationMembership) : Prop := {
  oc_ids : Organization.id org = i ∧ OrganizationMembership.id m = mi;
  oc_owner : active_owner i m = true ∧ OrganizationMembership.user_id m = User.id actor;
  oc_slug : nonempty (Organization.slug org) = true;
  oc_fresh : unique_ok true organization_conflict org (DB.organizations d) = true;
  oc_fresh_member : unique_ok true membership_conflict m (DB.members d) = true;
  oc_tables : ∃ ev, d' = d <| DB.organizations ::= put org |> <| DB.members ::= put m |>
                           <| DB.audit ::= λ l, l ++ [ev] |>
}.

Lemma create_spec i mi n a nm sl d out d' :
  run (create i mi n a nm sl) d = (out, d') →
  match out with
  | Raise _ => d' = d
  | Ret (org, m) => org_created i mi a d d' org m
  end.
Proof.
  intros H. wp_run_in H. unfold create, save_organization. wp_go; try done.
  bools. split; try done; [|by eexists].
  split; [|done]. by apply active_owner_true.
Qed.

(** An update keeps the organization's row and changes its name and slug. *)
Lemma update_spec i a nm sl d out d' :
  keyed (DB.organizations d) → run (update i a nm sl) d = (out, d') →
  match out with
  | Raise _ => d' = d
  | Ret org => Organization.id org = i ∧ is_Some (DB.organizations d !! i)
      ∧ unique_ok false organization_conflict org (DB.organizations d) = true
      ∧ d' = d <| DB.organizations ::= put org |>
  end.
Proof.
  intros Hk H. wp_run_in H. unfold update, save_organization. wp_go; try done.
  all: match goal with H : organization _ _ = Some ?o |- _ =>
    pose proof (Hk _ _ H); split_and!; [by destruct nm|by exists o|done|done] end.
Qed.

(** * Theorems *)

Lemma membership_conflict_sym m m' : membership_conflict m m' = membership_conflict m' m.
Proof. unfold membership_conflict. f_equal; apply bool_decide_ext; naive_solver. Qed.
Lemma organization_conflict_sym o o' : organization_conflict o o' = organization_conflict o' o.
Proof. apply bool_decide_ext; naive_solver. Qed.
#[export] Hint Resolve membership_conflict_sym organization_conflict_sym : rows.

(** A change of one membership leaves every organization an active owner. *)
Lemma member_change_owner o i a d d' am old new org :
  keyed (DB.members d) → member_change o i a d d' am old new →
  has_owner org d → has_owner org d'.
Proof.
  intros Hk [? ? Ht ? (Hi & Ho & ?) ? ? Hl ? [ev ->]] (k & m & Hm & Ha).
  apply membership_by_id_Some in Ht as (Ht & Hti & Hto); [|done].
  pose proof Ha as (Horg & _ & _)%active_owner_true.
  unfold has_owner; cbn. destruct (decide (k = i)) as [->|Hne].
  - assert (m = old) as -> by congruence. assert (org = o) as -> by congruence.
    destruct (Hl Ha) as [Hn|Hc].
    + exists (OrganizationMembership.id old), new. split; [|congruence].
      unfold put. cbv [row_id OrganizationMembership.row]. by rewrite Hi, lookup_insert_eq.
    + destruct (filter_rows_other _ _ _ _ Hm Hc) as (k' & m' & Hk' & Hm' & Ha').
      exists k', m'. split; [|congruence]. unfold put.
      cbv [row_id OrganizationMembership.row]. rewrite lookup_insert_ne; [done|congruence].
  - exists k, m. split; [|done]. unfold put. cbv [row_id OrganizationMembership.row].
    rewrite lookup_insert_ne; [done|congruence].
Qed.

Lemma member_change_well_owned o i a d d' am old new :
  member_change o i a d d' am old new → well_owned d → well_owned d'.
Proof.
  intros Hc [Ho Hm Hs Hu Hw].
  assert (∀ k, has_owner k d → has_owner k d') by eauto using member_change_owner.
  destruct Hc as [_ _ _ _ _ _ _ _ Hun [ev ->]]. split; cbn in *; eauto with rows.
  eapply unique_index_put; eauto with rows.
Qed.

(** A new organization starts with its owner and disturbs no other. *)
Lemma well_owned_insert d d' org m :
  active_owner (Organization.id org) m = true →
  unique_ok true organization_conflict org (DB.organizations d) = true →
  unique_ok true membership_conflict m (DB.members d) = true →
  DB.organizations d' = put org (DB.organizations d) → DB.members d' = put m (DB.members d) →
  well_owned d → well_owned d'.
Proof.
  intros Hown Hfo Hfm Eo Em [Ho Hm Hs Hu Hw].
  pose proof (proj1 (proj1 (unique_ok_true _ _ _ _) Hfm) eq_refl) as Hfree.
  split; rewrite ?Eo, ?Em; eauto using unique_index_put with rows.
  intros k. unfold has_owner. rewrite Em. unfold put.
  cbv [row_id Organization.row OrganizationMembership.row].
  rewrite lookup_insert. case_decide as Hk.
  - intros _. subst k. exists (OrganizationMembership.id m), m. by rewrite lookup_insert_eq.
  - intros (k' & m' & Hm' & Ha')%Hw. exists k', m'. split; [|done].
    rewrite lookup_insert_ne; [done|].
    intros E. change (DB.members d !! OrganizationMembership.id m = None) in Hfree. congruence.
Qed.

Lemma org_created_well_owned i mi a d d' org m :
  org_created i mi a d d' org m → well_owned d → well_owned d'.
Proof.
  intros [[<- _] [Hown _] _ Hfo Hfm [ev ->]]. by eapply well_owned_insert.
Qed.

Lemma update_well_owned i a nm sl d out d' :
  run (update i a nm sl) d = (out, d') → well_owned d → well_owned d'.
Proof.
  intros H Hwo. pose proof Hwo as [Ho Hm Hs Hu Hw].
  pose proof (update_spec _ _ _ _ _ _ _ Ho H) as Hspec.
  destruct out as [org|e]; [|by subst]. destruct Hspec as (Hi & Hex & Hun & ->).
  split; cbn; eauto using unique_index_put with rows.
  intros k. unfold put. cbv [row_id Organization.row].
  rewrite Hi, lookup_insert. case_decide as Hk; [subst k|]; intros; by apply Hw.
Qed.

Lemma perform_well_owned o d : well_owned d → well_owned (perform o d).
Proof.
  intros Hwo. destruct o as [i m n a nm s|i a nm s|i m a r|i m a s|i m a]; cbn.
  - destruct (run _ d) as [out d'] eqn:E. cbn. apply create_spec in E.
    destruct out as [[org mem]|e]; [by eapply org_created_well_owned|by subst].
  - destruct (run _ d) as [out d'] eqn:E. by eapply update_well_owned.
  - destruct (run _ d) as [out d'] eqn:E. cbn. apply change_role_spec in E.
    destruct out; [|by subst]. destruct E as (? & ? & ? & _).
    by eapply member_change_well_owned.
  - destruct (active_or_suspended s) eqn:Es; [|done].
    destruct (run _ d) as [out d'] eqn:E. cbn. apply change_status_spec in E; [|done].
    destruct out; [|by subst]. destruct E as (? & ? & ? & _).
    by eapply member_change_well_owned.
  - destruct (run _ d) as [out d'] eqn:E. cbn. apply remove_spec in E.
    destruct out as [[]|e]; [|by subst]. destruct E as [[_ ->]|(? & ? & ?)]; [done|].
    by eapply member_change_well_owned.
Qed.

(** Rows of other organizations are not touched by a put of a row of [o]. *)
Lemma put_other o org (new : OrganizationMembership) (t : gmap uuid OrganizationMembership) k m :
  OrganizationMembership.organization_id new = o → org ≠ o →
  (∀ old, t !! OrganizationMembership.id new = Some old →
     OrganizationMembership.organization_id old = o) →
  OrganizationMembership.organization_id m = org →
  put new t !! k = Some m ↔ t !! k = Some m.
Proof.
  intros Hn Hne Hold Hm. unfold put. cbv [row_id OrganizationMembership.row].
  rewrite lookup_insert. case_decide as Hk; [subst k|done].
  split; [intros; simplify_eq|intros E; specialize (Hold _ E); congruence].
Qed.

Lemma member_change_same o i a d d' am old new org :
  keyed (DB.members d) → member_change o i a d d' am old new → org ≠ o →
  same_organization org d d'.
Proof.
  intros Hk [? ? Ht ? (Hi & Ho & ?) ? ? ? ? [ev ->]] Hne.
  apply membership_by_id_Some in Ht as (Ht & ? & ?); [|done].
  split; [done|]. intros k m Hm. cbn. apply (put_other o org); [congruence|done| |done].
  intros old' E. congruence.
Qed.

Lemma org_created_same i mi a d d' o m org :
  org_created i mi a d d' o m → org ≠ i → same_organization org d d'.
Proof.
  intros [[Hi Hmi] [(Horg & _ & _)%active_owner_true _] _ _ Hfm [ev ->]] Hne.
  pose proof (proj1 (proj1 (unique_ok_true _ _ _ _) Hfm) eq_refl) as Hfree. split; cbn.
  - unfold put. rewrite lookup_insert_ne; [done|]. cbv [row_id Organization.row]. congruence.
  - intros k m' Hm. apply (put_other i org); [done..| |done]. intros old E.
    change (DB.members d !! OrganizationMembership.id m = None) in Hfree. congruence.
Qed.

(** C3. No organization is ever left without an active owner.  Whatever
    sequence of create, update, role, status and removal requests is served,
    by whichever actors and with whichever outcome, if at the start the tables
    are keyed, slugs and (organization, user) pairs are unique and every
    organization has an active owner, then all of this still holds at the end. *)
Theorem organizations_keep_an_owner d d' :
  well_owned d → rtc step d d' → well_owned d'.
Proof.
  intros Hd Hsteps. induction Hsteps as [|d d1 d2 [o ->] _ IH]; [done|].
  by apply IH, perform_well_owned.
Qed.

(** Role changes cannot escalate and stay within one organization: when
    [change_role] returns, the actor is an active member of that organization
    with MEMBERS_MANAGE, who is an owner if the target was one or becomes one;
    only the target's membership of that organization has changed, and only
    in its role; and when it raises, the database is unchanged. *)
Theorem change_role_authorised o i a r d out d' :
  keyed (DB.members d) → run (change_role o i a r) d = (out, d') →
  match out with
  | Raise _ => d' = d
  | Ret m =>
      (∃ am old,
        active_membership o (User.id a) d = Some am
        ∧ role_has_capability (OrganizationMembership.role am) Capability.MEMBERS_MANAGE = true
        ∧ DB.members d !! i = Some old
        ∧ OrganizationMembership.organization_id old = o
        ∧ m = old <| OrganizationMembership.role := r |>
        ∧ (OrganizationMembership.role old = OrganizationRole.OWNER ∨
             r = OrganizationRole.OWNER →
           OrganizationMembership.role am = OrganizationRole.OWNER))
      ∧ DB.members d' = <[i := m]> (DB.members d)
      ∧ DB.organizations d' = DB.organizations d ∧ DB.users d' = DB.users d
      ∧ length (DB.audit d') = S (length (DB.audit d))
  end.
Proof.
  intros Hk H%change_role_spec. destruct out as [m|e]; [|done].
  destruct H as (am & old & [Ha Hc Ht ? ? Ho Hp ? ? [ev ->]] & ->).
  apply membership_by_id_Some in Ht as (Ht & Hi & Horg); [|done]. cbn in *.
  split_and!; [|by subst i|done|done|rewrite length_app; cbn; lia].
  exists am, old. split_and!; try done. intros [?|?]; [auto|]. destruct (Hp H); auto.
Qed.

(** Tenant isolation of organization management: a request that names an
    organization leaves the row and every membership of every other
    organization as they were. *)
Theorem requests_stay_in_their_organization o d org :
  well_owned d → org ≠ target_organization o → same_organization org d (perform o d).
Proof.
  intros [Ho Hm _ _ _] Hne. destruct o as [i m n a nm s|i a nm s|i m a r|i m a s|i m a]; cbn in *.
  - destruct (run _ d) as [out d'] eqn:E. cbn. apply create_spec in E.
    destruct out as [[o mem]|e]; [by eapply org_created_same|by subst].
  - destruct (run _ d) as [out d'] eqn:E. cbn. apply update_spec in E; [|done].
    destruct out as [o|e]; [|by subst]. destruct E as (Hi & _ & _ & ->).
    split; [|done]. cbn. unfold put. rewrite lookup_insert_ne; [done|].
    cbv [row_id Organization.row]. congruence.
  - destruct (run _ d) as [out d'] eqn:E. cbn. apply change_role_spec in E.
    destruct out; [|by subst]. destruct E as (? & ? & ? & _). by eapply member_change_same.
  - destruct (active_or_suspended s) eqn:Es; [|done].
    destruct (run _ d) as [out d'] eqn:E. cbn. apply change_status_spec in E; [|done].
    destruct out; [|by subst]. destruct E as (? & ? & ? & _). by eapply member_change_same.
  - destruct (run _ d) as [out d'] eqn:E. cbn. apply remove_spec in E.
    destruct out as [[]|e]; [|by subst]. destruct E as [[_ ->]|(? & ? & ?)]; [done|].
    by eapply member_change_same.
Qed.

(** * Witnesses *)

Definition alice : User :=
  User.mk 10 "alice@example.com" "alice@example.com" "hash" "Alice" UserStatus.ACTIVE
    false None None.

(** The database after Alice has created an organization. *)
Definition acme : DB := perform (OpCreate 1 2 0 alice "Acme Corp" None) DB.empty.

Lemma acme_well_owned : well_owned acme.
Proof.
  apply perform_well_owned. split; cbn; auto with rows.
  intros k [o Ho]. by rewrite lookup_empty in Ho.
Qed.

(** Alice cannot demote herself: she is the last owner. *)
Example acme_last_owner :
  (run (change_role 1 2 alice OrganizationRole.VIEWER) acme).1
  = Raise (ConflictError "last_owner").
Proof. vm_compute. reflexivity. Qed.

Lemma organizations_keep_an_owner_witness :
  DB.organizations acme !! 1%N ≠ None
  ∧ well_owned (perform (OpUpdate 1 alice (Some "Acme") (Some "acme"))
                 (perform (OpRemove 1 2 alice) acme)).
Proof.
  split; [vm_compute; discriminate|].
  apply (organizations_keep_an_owner acme); [apply acme_well_owned|].
  eapply rtc_l; [by eexists|]. eapply rtc_l; [by eexists|]. apply rtc_refl.
Defined.

Lemma change_role_authorised_witness :
  ∃ m, (run (change_role 1 2 alice OrganizationRole.OWNER) acme).1 = Ret m
  ∧ OrganizationMembership.role m = OrganizationRole.OWNER
  ∧ DB.members (run (change_role 1 2 alice OrganizationRole.OWNER) acme).2
    = <[2%N := m]> (DB.members acme).
Proof.
  destruct (run (change_role 1 2 alice OrganizationRole.OWNER) acme) as [out d'] eqn:E.
  pose proof (change_role_authorised _ _ _ _ _ _ _ (wo_members _ acme_well_owned) E) as H.
  destruct out as [m|e]; [|by vm_compute in E].
  destruct H as ((? & ? & _ & _ & _ & _ & -> & _) & Hm & _). eexists.
  split; [reflexivity|]. split; [reflexivity|exact Hm].
Defined.

Lemma requests_stay_in_their_organization_witness :
  same_organization 1 acme (perform (OpCreate 5 6 0 alice "Other" None) acme).
Proof.
  apply requests_stay_in_their_organization; [apply acme_well_owned|discriminate].
Defined.
