(* ===== verification/AiSafety.v ===== *)
(** services/ai_safety.py: redaction of secrets and injected instructions, and
    the sanitizer the audit log applies to metadata.

    [re.sub] is a backtracking matcher over a small regular-expression syntax.
    Strings are ASCII, on which NFKC normalisation is the identity and NUL is
    the only character of [_UNSAFE_CONTROLS]. *)

From S2P Require Import Prelude.
From S2P Require Import PyValue.
From Stdlib Require Import Ascii.
From stdpp Require Import list.

(** * Regular expressions *)

Inductive re :=
| Cls (f : ascii → bool)
| Eps
| WordB
| Cat (a b : re)
| Alt (a b : re)
| Star (a : re)
| LazyStar (a : re).

(** The character before the position and the rest of the subject. *)
Abbreviation pos := (option ascii * string)%type.

Definition between (a b : ascii) (c : ascii) : bool :=
  ((code a <=? code c) && (code c <=? code b))%N.
Definition is_digit : ascii → bool := between "0" "9".
Definition is_upper : ascii → bool := between "A" "Z".
Definition is_alnum (c : ascii) : bool :=
  between "a" "z" (lower_char c) || is_digit c.
(** [\w] *)
Definition is_word (c : ascii) : bool := is_alnum c || Ascii.eqb c "_".

Definition opt_word (c : option ascii) : bool := if c is Some c then is_word c else false.
Definition first (s : string) : option ascii :=
  match s with String c _ => Some c | EmptyString => None end.

(** The first match in Python's order of preference, passed on to [k]. *)
Fixpoint re_match (r : re) (p : pos) (k : pos → option string) : option string :=
  match r with
  | Cls f =>
      match p.2 with
      | String c s => if f c then k (Some c, s) else None
      | EmptyString => None
      end
  | Eps => k p
  | WordB => if eqb (opt_word p.1) (opt_word (first p.2)) then None else k p
  | Cat a b => re_match a p (λ p', re_match b p' k)
  | Alt a b =>
      match re_match a p k with Some q => Some q | None => re_match b p k end
  | Star a =>
      (fix loop (n : nat) (p : pos) : option string :=
         match n with
         | O => k p
         | S n =>
             match re_match a p (loop n) with Some q => Some q | None => k p end
         end) (String.length p.2) p
  | LazyStar a =>
      (fix loop (n : nat) (p : pos) : option string :=
         match n with
         | O => k p
         | S n =>
             match k p with Some q => Some q | None => re_match a p (loop n) end
         end) (String.length p.2) p
  end.

(** [pattern.sub(by, s)] for a pattern without empty matches. *)
Fixpoint re_sub_from (fuel : nat) (r : re) (by_ : string) (prev : option ascii)
    (s : string) : string :=
  match fuel with
  | O => s
  | S fuel =>
      match re_match r (prev, s) (λ p, Some p.2) with
      | Some rest =>
          let n := (String.length s - String.length rest)%nat in
          by_ +:+ re_sub_from fuel r by_ (String.get (n - 1) s) rest
      | None =>
          match s with
          | EmptyString => EmptyString
          | String c s => String c (re_sub_from fuel r by_ (Some c) s)
          end
      end
  end.
Definition re_sub (r : re) (by_ s : string) : string :=
  re_sub_from (S (String.length s)) r by_ None s.

Arguments re_sub : simpl never.

(** * Notation for patterns *)

Definition Chr1 (c : ascii) : re := Cls (Ascii.eqb c).
Fixpoint seq (l : list re) : re :=
  match l with [] => Eps | [r] => r | r :: l => Cat r (seq l) end.
Fixpoint alts (l : list re) : re :=
  match l with [] => Cls (λ _, false) | [r] => r | r :: l => Alt r (alts l) end.
Fixpoint lit (s : string) : re :=
  match s with
  | EmptyString => Eps
  | String c EmptyString => Chr1 c
  | String c s => Cat (Chr1 c) (lit s)
  end.
(** A literal under [(?i)]. *)
Fixpoint word (s : string) : re :=
  match s with
  | EmptyString => Eps
  | String c EmptyString => Cls (λ x, Ascii.eqb (lower_char x) c)
  | String c s => Cat (Cls (λ x, Ascii.eqb (lower_char x) c)) (word s)
  end.
Definition words (l : list string) : re := alts (map word l).
Definition plus (r : re) : re := Cat r (Star r).
Definition opt (r : re) : re := Alt r Eps.
Fixpoint times (n : nat) (r : re) : re :=
  match n with O => Eps | S O => r | S n => Cat r (times n r) end.
(** [r{n,}] *)
Definition at_least (n : nat) (r : re) : re := Cat (times n r) (Star r).
Definition spaces : re := Star (Cls is_space).
Definition spaces1 : re := plus (Cls is_space).
Definition of_chars (s : string) (c : ascii) : bool := has_char c s.
Definition none_of (f : ascii → bool) (c : ascii) : bool := negb (f c).
Definition one_of (f g : ascii → bool) (c : ascii) : bool := f c || g c.

(** * Patterns *)

Definition dquote : string := String (ascii_of_nat 34) EmptyString.
Definition quotes : string := String (ascii_of_nat 34) "'".
Definition dash_us : re := opt (Cls (of_chars "_-")).
Definition base64url : re := Cls (one_of is_alnum (of_chars "_-")).
(** [\s*[:=]\s*[^\s,;]+] *)
Definition assigned : re :=
  seq [spaces; Cls (of_chars ":="); spaces; plus (Cls (none_of (one_of is_space (of_chars ",;"))))].

(** services/ai_safety.py:10-19, _SECRET_PATTERNS. *)
Definition _SECRET_PATTERNS : list re := [
  Cat (lit "AKIA") (times 16 (Cls (one_of is_digit is_upper)));
  seq [WordB; words ["bearer"; "authorization"]; spaces1;
       plus (Cls (one_of is_alnum (of_chars "._~+/=-")))];
  seq [WordB; Alt (words ["password"; "secret"; "token"])
                  (seq [word "access"; dash_us; word "key"]); WordB; assigned];
  seq [lit "-----BEGIN "; Star (Cls (one_of is_upper (of_chars " "))); lit "PRIVATE KEY-----"];
  seq [WordB; lit "eyJ"; at_least 8 base64url; lit "."; at_least 8 base64url; lit ".";
       at_least 8 base64url; WordB];
  seq [WordB; alts [Cat (word "postgres") (opt (word "ql")); word "mysql"; word "mariadb";
                    Cat (word "mongodb") (opt (word "+srv"))];
       lit "://"; plus (Cls (none_of is_space))];
  seq [WordB; alts [seq [word "api"; dash_us; word "key"];
                    seq [word "client"; dash_us; word "secret"];
                    word "session"; word "cookie"]; WordB; assigned];
  seq [word "http"; opt (word "s"); lit "://"; plus (Cls (none_of is_space));
       Cls (of_chars "?&");
       words ["x-amz-signature"; "signature"; "token"; "key"; "secret"];
       lit "="; plus (Cls (none_of (one_of is_space (of_chars "&"))))] ].

Definition link_target : re :=
  seq [lit "["; Star (Cls (none_of (of_chars "]"))); lit "]("; spaces;
       words ["javascript"; "data"; "file"]; lit ":"; Star (Cls (none_of (of_chars ")"))); lit ")"].

(** services/ai_safety.py:20-35, _INSTRUCTION_PATTERNS. *)
Definition _INSTRUCTION_PATTERNS : list re := [
  seq [word "ignore "; words ["all"; "any"; "the"; "previous"; "prior"]; word " instructions"];
  word "system prompt";
  word "you are now";
  word "developer message";
  seq [lit "<"; spaces;
       words ["script"; "iframe"; "object"; "system"; "developer"; "tool_call"]; WordB;
       Star (Cls (none_of (of_chars ">"))); lit ">"; LazyStar (Cls (λ _, true));
       lit "<"; spaces; lit "/"];
  seq [WordB; word "on"; plus (Cls is_word); spaces; lit "="];
  Cat (lit "!") link_target;
  link_target;
  seq [WordB; words ["reveal"; "show"; "print"]; spaces1; opt (Cat (word "the") spaces1);
       words ["prompt"; "secret"; "credential"]];
  seq [WordB; words ["change"; "alter"; "modify"; "suppress"; "resolve"]; spaces1;
       opt (Cat (word "the") spaces1); words ["finding"; "severity"; "risk"; "compliance"]];
  seq [WordB; words ["execute"; "run"]; spaces1;
       opt (seq [word "a"; opt (word "n"); spaces1]);
       words ["aws"; "shell"; "tool"; "command"]];
  seq [Cls (of_chars quotes); words ["tool_call"; "function_call"; "command"];
       Cls (of_chars quotes); spaces; lit ":"] ].

(** services/ai_safety.py:8-8, MAX_STRING. *)
Definition MAX_STRING : nat := 1000.
(** services/ai_safety.py:9-9, MAX_ITEMS. *)
Definition MAX_ITEMS : nat := 50.

(** services/ai_safety.py:36-51, _UNSAFE_CONTROLS.  The ASCII member. *)
Definition _UNSAFE_CONTROLS (c : ascii) : bool := Ascii.eqb c zero.

(** The join of the generator: control characters become a marker. *)
Fixpoint mark_controls (s : string) : string :=
  match s with
  | EmptyString => EmptyString
  | String c s =>
      if _UNSAFE_CONTROLS c then "[CONTROL_REMOVED]" +:+ mark_controls s
      else String c (mark_controls s)
  end.

(** services/ai_safety.py:54-63, redact_text. *)
Definition redact_text (value : string) : string :=
  let bounded := str_take MAX_STRING (mark_controls value) in
  let bounded := fold_left (λ s r, re_sub r "[REDACTED]" s) _SECRET_PATTERNS bounded in
  fold_left (λ s r, re_sub r "[UNTRUSTED_INSTRUCTION]" s) _INSTRUCTION_PATTERNS bounded.

Arguments redact_text : simpl never.

(** The dropped keys of [sanitize]. *)
Definition DROPPED_KEYS : list string :=
  ["password"; "secret"; "token"; "authorization"; "credentials"; "access_key";
   "secret_access_key"; "session_token"].

(** [str(key).casefold() in {...}] *)
Definition dropped (key : string) : bool := existsb (String.eqb (lower key)) DROPPED_KEYS.
Arguments dropped : simpl never.

(** services/ai_safety.py:66-91, sanitize. *)
Fixpoint sanitize (depth : nat) (value : pyval) : pyval :=
  if Nat.ltb 5 depth then PStr "[TRUNCATED]"
  else match value with
  | PStr s => PStr (redact_text s)
  | PDict d =>
      PDict (dict_of
        ((fix go (n : nat) (d : pydict) : pydict :=
            match n, d with
            | S n, (key, item) :: d =>
                let rest := go n d in
                if dropped key then rest
                else (str_take 100 (redact_text key), sanitize (S depth) item) :: rest
            | _, _ => []
            end) MAX_ITEMS d))
  | PList l =>
      PList ((fix go (n : nat) (l : list pyval) : list pyval :=
                match n, l with
                | S n, item :: l => sanitize (S depth) item :: go n l
                | _, _ => []
                end) MAX_ITEMS l)
  | PNone | PBool _ | PInt _ => value
  end.

(** services/ai_safety.py:94-95, canonical_json. *)
Definition canonical_json (value : pyval) : string := json_dumps (sanitize 0 value).

(** * Theorems *)

(** What the sanitizer promises: no container deeper than [n], at most
    [MAX_ITEMS] entries in each, and dict keys that are short and are not one
    of the dropped names under any capitalisation. *)

Fixpoint clean (n : nat) (v : pyval) {struct v} : bool :=
  match v with
  | PDict d =>
      match n with
      | O => false
      | S n =>
          Nat.leb (length d) MAX_ITEMS
          && forallb (λ kv, negb (dropped kv.1) && Nat.leb (String.length kv.1) 100
                            && clean n kv.2) d
      end
  | PList l =>
      match n with
      | O => false
      | S n => Nat.leb (length l) MAX_ITEMS && forallb (clean n) l
      end
  | _ => true
  end.

(** ** Substitution changes a string only by inserting its replacement *)

Lemma has_char_app c s t : has_char c (s +:+ t) = has_char c s || has_char c t.
Proof.
  induction s as [|c' s IH]; [done|].
  change (String c' s +:+ t) with (String c' (s +:+ t)). cbn [has_char].
  by rewrite IH, orb_assoc.
Qed.

Lemma re_sub_from_changed fuel r by_ c prev s :
  has_char c by_ = true →
  re_sub_from fuel r by_ prev s = s ∨ has_char c (re_sub_from fuel r by_ prev s) = true.
Proof.
  intros Hc. revert prev s. induction fuel as [|fuel IH]; intros prev s; cbn; [by left|].
  destruct (re_match _ _ _) as [rest|].
  { right. by rewrite has_char_app, Hc. }
  destruct s as [|a s]; [by left|]. cbn.
  destruct (IH (Some a) s) as [->|H]; [by left|right]. by rewrite H, orb_true_r.
Qed.

Lemma re_subs_changed rs by_ c s :
  has_char c by_ = true →
  fold_left (λ s r, re_sub r by_ s) rs s = s
  ∨ has_char c (fold_left (λ s r, re_sub r by_ s) rs s) = true.
Proof.
  intros Hc. revert s. induction rs as [|r rs IH]; intros s; cbn; [by left|].
  destruct (IH (re_sub r by_ s)) as [->|]; [|by right].
  by apply re_sub_from_changed.
Qed.

Lemma mark_controls_changed s : mark_controls s = s ∨ has_char "[" (mark_controls s) = true.
Proof.
  induction s as [|c s [IH|IH]]; cbn [mark_controls]; [by left|..];
    destruct (_UNSAFE_CONTROLS c); cbn; auto.
  - rewrite IH. by left.
  - right. by rewrite IH, orb_true_r.
Qed.

Lemma has_char_take c n s : has_char c (str_take n s) = true → has_char c s = true.
Proof.
  revert s. induction n as [|n IH]; intros [|a s]; cbn; try done.
  intros [->|H]%orb_true_iff; [done|]. by rewrite (IH _ H), orb_true_r.
Qed.

Lemma lower_bracket s : has_char "[" s = true → has_char "[" (lower s) = true.
Proof.
  unfold lower. induction s as [|c s IH]; cbn [smap has_char]; [done|].
  intros [H|H]%orb_true_iff.
  - by apply Ascii.eqb_eq in H as <-.
  - by rewrite (IH H), orb_true_r.
Qed.

Lemma lower_length s : String.length (lower s) = String.length s.
Proof. induction s as [|c s IH]; cbn; [done|]. by f_equal. Qed.

Lemma str_take_full n s : n ≤ String.length s → String.length (str_take n s) = n.
Proof.
  revert s. induction n as [|n IH]; intros [|c s]; cbn; intros; try lia.
  rewrite IH; lia.
Qed.

(** A dropped key is a short string of letters and underscores. *)
Lemma dropped_shape k :
  dropped k = true → String.length k < 20 ∧ has_char "[" k = false.
Proof.
  unfold dropped. rewrite existsb_exists. intros (x & Hx & Heq%String.eqb_eq).
  rewrite <-(lower_length k). split.
  - rewrite Heq. repeat (destruct Hx as [<-|Hx]; [cbn; lia|]). done.
  - destruct (has_char "[" k) eqn:E; [|done]. apply lower_bracket in E. rewrite Heq in E.
    repeat (destruct Hx as [<-|Hx]; [done|]). done.
Qed.

(** Redaction never turns a key into one of the dropped names. *)
Lemma dropped_subs ps qs k :
  let u := str_take MAX_STRING (mark_controls k) in
  let v := fold_left (λ s r, re_sub r "[REDACTED]" s) ps u in
  let w := fold_left (λ s r, re_sub r "[UNTRUSTED_INSTRUCTION]" s) qs v in
  dropped (str_take 100 w) = true → dropped k = true.
Proof.
  intros u v w H. destruct (dropped_shape _ H) as [Hlen Hb].
  assert (String.length w < 100) as Hr.
  { destruct (Nat.lt_ge_cases (String.length w) 100) as [|Hge]; [done|].
    apply str_take_full in Hge. lia. }
  rewrite str_take_id in H, Hlen, Hb by lia.
  destruct (re_subs_changed qs "[UNTRUSTED_INSTRUCTION]" "[" v)
    as [Hv|Hv]; [done| |subst w; congruence]. subst w. rewrite Hv in *.
  destruct (re_subs_changed ps "[REDACTED]" "[" u)
    as [Hu|Hu]; [done| |subst v; congruence]. subst v. rewrite Hu in *.
  assert (u = mark_controls k) as Hm.
  { apply str_take_id.
    destruct (Nat.lt_ge_cases MAX_STRING (String.length (mark_controls k))) as [Hge|]; [|done].
    apply Nat.lt_le_incl, str_take_full in Hge. fold u in Hge.
    pose proof (eq_refl : MAX_STRING = 1000%nat). lia. }
  clearbody u. subst u.
  destruct (mark_controls_changed k) as [Hk|Hk]; [by rewrite Hk in H|congruence].
Qed.

Lemma dropped_redact k : dropped (str_take 100 (redact_text k)) = true → dropped k = true.
Proof. exact (dropped_subs _SECRET_PATTERNS _INSTRUCTION_PATTERNS k). Qed.

Lemma sanitize_clean depth v : depth ≤ 6 → clean (6 - depth) (sanitize depth v) = true.
Proof.
  revert depth. induction v as [| | | |l IH|d IH] using pyval_rec'; intros depth Hd;
    cbn [sanitize]; destruct (Nat.ltb_spec 5 depth) as [|Hlt]; try done;
    replace (6 - depth) with (S (6 - S depth)) by lia; cbn [clean]; apply andb_true_iff.
  - match goal with |- Nat.leb (length (?g MAX_ITEMS l)) _ = true ∧ _ => set (go := g) end.
    split.
    + apply Nat.leb_le. generalize MAX_ITEMS. intros n. clear. revert l.
      induction n as [|n IH]; intros [|x l]; cbn; try lia. specialize (IH l). lia.
    + apply forallb_forall. generalize MAX_ITEMS. intros n. revert l IH.
      induction n as [|n IHn]; intros [|x l] IH y; cbn; try done.
      apply Forall_cons in IH as [Hx Hl]. intros [<-|Hy]; [|by eapply IHn].
      apply (Hx (S depth)). lia.
  - match goal with |- Nat.leb (length (dict_of (?g MAX_ITEMS d))) _ = true ∧ _ =>
      set (go := g) end.
    assert (∀ n, length (go n d) ≤ n) as Hlen.
    { intros n. clear. revert d. induction n as [|n IH]; intros [|[k x] d]; cbn; try lia.
      specialize (IH d). destruct (dropped k); cbn; lia. }
    split.
    + apply Nat.leb_le. etrans; [apply dict_of_length|]. apply Hlen.
    + apply forallb_forall. intros kv Hkv%list_elem_of_In. revert kv Hkv.
      apply Forall_forall, dict_of_Forall. clear Hlen. generalize MAX_ITEMS. intros n.
      revert d IH. induction n as [|n IHn]; intros [|[k x] d] IH; cbn; try by constructor.
      apply Forall_cons in IH as [Hx Hl].
      destruct (dropped k) eqn:E; [by apply IHn|]. constructor; [|by apply IHn]. cbn.
      rewrite !andb_true_iff. split_and!.
      * apply negb_true_iff. apply not_true_iff_false.
        intros Ed%dropped_redact. congruence.
      * apply Nat.leb_le, str_take_length.
      * apply (Hx (S depth)). lia.
Qed.


#[global] Opaque canonical_json.
