(* ===== verification/Evidence.v ===== *)
(** Bounded, secret-free evidence: rule results (security_rules/results.py),
    the payload check of the job queue (services/platform_jobs.py) and the
    evidence check of remediation requests (models/remediation.py). *)

From S2P Require Import Prelude.
From S2P Require Import Enums.
From S2P Require Import PyValue.

(** security_rules/results.py:9-11, _SENSITIVE. *)
Definition _SENSITIVE : list string :=
  ["access?key"; "secret"; "session?token"; "credential"; "password";
   "authorization"; "cookie"].

Definition MAX_EVIDENCE_ITEMS : nat := 50.
Definition MAX_EVIDENCE_STRING : nat := 1000.

(** security_rules/results.py:16-31, sanitize_evidence.  JSON has no tuples and no
    objects of other types, so the two branches for them do not arise. *)
Fixpoint sanitize_evidence (depth : nat) (value : pyval) : pyval :=
  if Nat.ltb 5 depth then PStr "[truncated]"
  else
    match value with
    | PDict d =>
        let items := take MAX_EVIDENCE_ITEMS
          (map (λ kv, (kv.1, sanitize_evidence (S depth) kv.2)) d) in
        PDict (dict_of (map (λ kv, (str_take 120 kv.1, kv.2))
          (List.filter (λ kv, negb (rx_search _SENSITIVE kv.1)) items)))
    | PList l => PList (take MAX_EVIDENCE_ITEMS (map (sanitize_evidence (S depth)) l))
    | PStr s => PStr (str_take MAX_EVIDENCE_STRING s)
    | PNone | PBool _ | PInt _ => value
    end.

(** security_rules/results.py:34-41, RuleResult. *)
Record RuleResult := mk_RuleResult {
  status : RuleResultStatus;
  evidence : pyval;
  error_code : option string
}.

(** security_rules/results.py:40-41, part of RuleResult.__post_init__. *)
Definition new_RuleResult (status : RuleResultStatus) (evidence : pydict)
    (error_code : option string) : RuleResult :=
  mk_RuleResult status (sanitize_evidence 0 (PDict evidence)) error_code.

(** security_rules/results.py:44-45, passed. *)
Definition passed (evidence : pydict) : RuleResult :=
  new_RuleResult RuleResultStatus.PASSED evidence None.

(** security_rules/results.py:48-49, failed. *)
Definition failed (evidence : pydict) : RuleResult :=
  new_RuleResult RuleResultStatus.FAILED evidence None.

(** security_rules/results.py:52-53, not_applicable. *)
Definition not_applicable (reason : string) : RuleResult :=
  new_RuleResult RuleResultStatus.NOT_APPLICABLE [("reason", PStr reason)] None.

(** security_rules/results.py:56-57, error. *)
Definition error (code : string) : RuleResult :=
  new_RuleResult RuleResultStatus.ERROR [] (Some code).

Definition error_default : RuleResult := error "invalid_or_incomplete_metadata".

(** models/remediation.py:27-29, SENSITIVE_EVIDENCE_KEY. *)
Definition SENSITIVE_EVIDENCE_KEY : list string :=
  ["access?key"; "secret"; "session?token"; "credential"; "authorization";
   "password"].

(** A dict key at any level matches one of the alternatives. *)
Fixpoint contains_key (alts : list string) (value : pyval) : bool :=
  match value with
  | PDict d => existsb (λ kv, rx_search alts kv.1 || contains_key alts kv.2) d
  | PList l => existsb (contains_key alts) l
  | _ => false
  end.

(** models/remediation.py:32-41, _contains_sensitive_evidence_key. *)
Definition _contains_sensitive_evidence_key (value : pyval) : bool :=
  contains_key SENSITIVE_EVIDENCE_KEY value.

(** services/platform_jobs.py:24-27, SENSITIVE_PAYLOAD_KEY. *)
Definition SENSITIVE_PAYLOAD_KEY : list string :=
  ["secret"; "password"; "credential"; "access?key"; "session?token";
   "authorization"; "cookie"; "webhook"; "body"].

Definition MAX_PAYLOAD_BYTES : nat := 4096.

(** services/platform_jobs.py:43-57, part of _validated_payload.check.  [true]
    when the walk raises nothing. *)
Fixpoint payload_check (depth : nat) (value : pyval) : bool :=
  negb (Nat.ltb 4 depth) &&
  match value with
  | PDict d =>
      forallb (λ kv, negb (rx_search SENSITIVE_PAYLOAD_KEY kv.1)
                     && payload_check (S depth) kv.2) d
  | PList l => Nat.leb (length l) 50 && forallb (payload_check (S depth)) l
  | PNone | PBool _ | PInt _ | PStr _ => true
  end.

(** services/platform_jobs.py:42-63, _validated_payload. *)
Definition _validated_payload (payload : pydict) : pydict + exn :=
  if payload_check 0 (PDict payload)
     && Nat.leb (String.length (json_dumps (PDict payload))) MAX_PAYLOAD_BYTES
  then inl payload
  else inr ValueError.

(** * What a bounded value is *)

(** At most [levels] nested containers, at most 50 items each, strings of at
    most 1000 and keys of at most 120 characters. *)
Fixpoint within (levels : nat) (v : pyval) : Prop :=
  match v with
  | PStr s => String.length s ≤ MAX_EVIDENCE_STRING
  | PList l =>
      match levels with
      | 0 => False
      | S n => length l ≤ MAX_EVIDENCE_ITEMS ∧ Forall (within n) l
      end
  | PDict d =>
      match levels with
      | 0 => False
      | S n => length d ≤ MAX_EVIDENCE_ITEMS
               ∧ Forall (λ kv, String.length kv.1 ≤ 120 ∧ within n kv.2) d
      end
  | _ => True
  end.

(** * Lemmas *)

Lemma contains_key_dict alts d :
  contains_key alts (PDict d) = false ↔
  Forall (λ kv, rx_search alts kv.1 = false ∧ contains_key alts kv.2 = false) d.
Proof.
  cbn. induction d as [|[k v] d IH]; cbn; [done|].
  rewrite Forall_cons, <-IH. cbn. rewrite !orb_false_iff. tauto.
Qed.

Lemma contains_key_list alts l :
  contains_key alts (PList l) = false ↔ Forall (λ v, contains_key alts v = false) l.
Proof.
  cbn. induction l as [|v l IH]; cbn; [done|].
  rewrite Forall_cons, <-IH, orb_false_iff. done.
Qed.

Lemma contains_key_incl alts alts' v :
  alts ⊆ alts' → contains_key alts' v = false → contains_key alts v = false.
Proof.
  intros Hsub. induction v as [| | | |l IH|d IH] using pyval_rec'; try done.
  - rewrite !contains_key_list, !Forall_forall in *. naive_solver.
  - rewrite !contains_key_dict, !Forall_forall in *. intros H kv Hkv.
    destruct (H kv Hkv) as [Hk Hv]. split; [|by apply IH].
    destruct (rx_search alts kv.1) eqn:E; [|done].
    eapply rx_search_incl in E; [|done]. congruence.
Qed.

(** Induction on the two container cases of [sanitize_evidence]: whatever holds
    of the sanitized leaves and is closed under the two constructions. *)
Lemma sanitized_items (P : pyval → Prop) depth d :
  Forall (λ kv, P (sanitize_evidence (S depth) kv.2)) d →
  Forall (λ kv, ∃ k, kv.1 = str_take 120 k ∧ rx_search _SENSITIVE k = false ∧ P kv.2)
    (dict_of (map (λ kv, (str_take 120 kv.1, kv.2))
      (List.filter (λ kv, negb (rx_search _SENSITIVE kv.1))
        (take MAX_EVIDENCE_ITEMS
          (map (λ kv, (kv.1, sanitize_evidence (S depth) kv.2)) d))))).
Proof.
  intros H. apply dict_of_Forall. rewrite List.Forall_map, Forall_forall.
  intros [k v] Hin. rewrite list_elem_of_In, List.filter_In in Hin.
  destruct Hin as [Hin Hk]. cbn in *.
  apply negb_true_iff in Hk. exists k. split_and!; [done..|].
  apply list_elem_of_In in Hin. apply elem_of_take in Hin as (i & Hi & _).
  apply list_elem_of_lookup_2 in Hi.
  apply list_elem_of_fmap in Hi as ([k' v'] & [= -> ->] & Hi).
  rewrite Forall_forall in H. apply (H _ Hi).
Qed.

Lemma filter_length_le {A} (f : A → bool) l : length (List.filter f l) ≤ length l.
Proof. apply List.filter_length_le. Qed.

Lemma sanitize_evidence_clean depth v :
  contains_key _SENSITIVE (sanitize_evidence depth v) = false.
Proof.
  revert depth. induction v as [| | | |l IH|d IH] using pyval_rec'; intros depth;
    cbn [sanitize_evidence]; destruct (Nat.ltb 5 depth); try done.
  - apply contains_key_list. apply Forall_take, List.Forall_map.
    eapply Forall_impl; [done|]. auto.
  - apply contains_key_dict.
    eapply Forall_impl; [apply (sanitized_items (λ v, contains_key _SENSITIVE v = false))|].
    + eapply Forall_impl; [done|]. auto.
    + intros [k v] (k' & Hk & Hs & Hv). cbn [fst snd] in *. split; [|done]. subst.
      destruct (rx_search _SENSITIVE (str_take 120 k')) eqn:E; [|done].
      apply rx_search_take in E. congruence.
Qed.

Lemma within_str n s : within n (PStr s) ↔ String.length s ≤ MAX_EVIDENCE_STRING.
Proof. by destruct n. Qed.

Lemma within_truncated n : within n (PStr "[truncated]").
Proof. apply within_str. unfold MAX_EVIDENCE_STRING. cbn. lia. Qed.

Lemma sanitize_evidence_within_aux n depth v :
  n + depth = 6 → within n (sanitize_evidence depth v).
Proof.
  revert n depth. induction v as [| | |s|l IH|d IH] using pyval_rec'; intros n depth Hd;
    cbn [sanitize_evidence]; destruct (Nat.ltb_spec 5 depth); auto using within_truncated.
  1-3: by destruct n.
  - apply within_str, str_take_length.
  - destruct n as [|n]; [lia|]. cbn [within]. split; [rewrite length_take; lia|].
    apply Forall_take, List.Forall_map. eapply Forall_impl; [done|]. cbn. auto with lia.
  - destruct n as [|n]; [lia|]. cbn [within]. split.
    + etrans; [apply dict_of_length|]. rewrite length_map.
      etrans; [apply List.filter_length_le|]. rewrite length_take. lia.
    + eapply Forall_impl; [apply (sanitized_items (within n))|].
      * eapply Forall_impl; [done|]. cbn. auto with lia.
      * intros [k v] (k' & -> & _ & Hv). split; [apply str_take_length|done].
Qed.

(** A dict that already has the shape of a sanitized one is left alone. *)
Lemma sanitize_dict_fix depth items :
  Nat.ltb 5 depth = false →
  length items ≤ MAX_EVIDENCE_ITEMS →
  NoDup items.*1 →
  Forall (λ kv, ∃ k, kv.1 = str_take 120 k ∧ rx_search _SENSITIVE k = false
     ∧ sanitize_evidence (S depth) kv.2 = kv.2) items →
  sanitize_evidence depth (PDict items) = PDict items.
Proof.
  intros E Hlen Hnd Hitems. cbn [sanitize_evidence]. rewrite E. f_equal.
  rewrite take_ge by (rewrite length_map; lia).
  assert (map (λ kv, (kv.1, sanitize_evidence (S depth) kv.2)) items = items) as ->.
  { rewrite <-(map_id items) at 2. apply map_ext_Forall.
    eapply Forall_impl; [done|]. intros [k v] (? & _ & _ & Hv). cbn in Hv |- *. by rewrite Hv. }
  assert (List.filter (λ kv, negb (rx_search _SENSITIVE kv.1)) items = items) as ->.
  { apply List.forallb_filter_id, List.forallb_forall. intros [k v] Hin.
    rewrite Forall_forall in Hitems.
    destruct (Hitems (k, v)) as (k' & Hk & Hs & _); [by apply list_elem_of_In|].
    cbn [fst] in *. subst. apply negb_true_iff.
    destruct (rx_search _ (str_take _ _)) eqn:E'; [|done].
    apply rx_search_take in E'. congruence. }
  assert (map (λ kv : string * pyval, (str_take 120 kv.1, kv.2)) items = items) as ->.
  { rewrite <-(map_id items) at 2. apply map_ext_Forall.
    eapply Forall_impl; [done|]. intros [k v] (? & Hk & _).
    cbn [fst snd] in *. subst. by rewrite str_take_take. }
  by apply dict_of_id.
Qed.

(** Sanitizing a sanitized value changes nothing. *)
Lemma sanitize_evidence_idem_aux depth v :
  sanitize_evidence depth (sanitize_evidence depth v) = sanitize_evidence depth v.
Proof.
  revert depth. induction v as [| | |s|l IH|d IH] using pyval_rec'; intros depth;
    cbn [sanitize_evidence]; destruct (Nat.ltb 5 depth) eqn:E;
    try apply sanitize_dict_fix; cbn [sanitize_evidence]; rewrite ?E; try done.
  - by rewrite str_take_take.
  - f_equal. rewrite <-firstn_map, map_map. rewrite take_take, Nat.min_id.
    f_equal. apply map_ext_Forall. eapply Forall_impl; [done|]. auto.
  - etrans; [apply dict_of_length|]. rewrite length_map.
    etrans; [apply List.filter_length_le|]. rewrite length_take. lia.
  - apply dict_of_NoDup.
  - apply (sanitized_items (λ v, sanitize_evidence (S depth) v = v)).
    eapply Forall_impl; [done|]. cbn. auto.
Qed.

(** ** The payload check, declaratively *)

(** Levels below the value: 0 for a scalar or an empty container. *)
Fixpoint height (v : pyval) : nat :=
  match v with
  | PList l => foldr (λ x n, S x `max` n) 0 (map height l)
  | PDict d => foldr (λ x n, S x `max` n) 0 (map (λ kv, height kv.2) d)
  | _ => 0
  end.

(** No list anywhere has more than [n] items. *)
Fixpoint lists_at_most (n : nat) (v : pyval) : bool :=
  match v with
  | PList l => Nat.leb (length l) n && forallb (lists_at_most n) l
  | PDict d => forallb (λ kv, lists_at_most n kv.2) d
  | _ => true
  end.

Lemma heights_le m l : foldr (λ x n, S x `max` n) 0 l ≤ m ↔ Forall (λ x, S x ≤ m) l.
Proof. induction l as [|x l IH]; cbn; [split; [constructor|lia]|]. rewrite Forall_cons, <-IH. lia. Qed.

Lemma forallb_Forall {A} (f : A → bool) l : forallb f l = true ↔ Forall (λ x, f x = true) l.
Proof. induction l as [|x l IH]; cbn; [done|]. by rewrite andb_true_iff, Forall_cons, IH. Qed.

Definition payload_ok (depth : nat) (v : pyval) : Prop :=
  depth + height v ≤ 4 ∧ contains_key SENSITIVE_PAYLOAD_KEY v = false
  ∧ lists_at_most 50 v = true.

Lemma payload_children depth xs :
  Forall (λ v, ∀ depth, payload_check depth v = true ↔ payload_ok depth v) xs →
  depth ≤ 4 ∧ Forall (λ v, payload_check (S depth) v = true) xs ↔
  depth + foldr (λ x n, S x `max` n) 0 (map height xs) ≤ 4
  ∧ Forall (λ v, contains_key SENSITIVE_PAYLOAD_KEY v = false) xs
  ∧ Forall (λ v, lists_at_most 50 v = true) xs.
Proof.
  intros IH.
  assert (Forall (λ v, payload_check (S depth) v = true) xs
          ↔ Forall (payload_ok (S depth)) xs) as ->.
  { rewrite !Forall_forall in *. split; intros H v Hv; by apply IH, H. }
  unfold payload_ok. rewrite !Forall_and.
  assert (depth ≤ 4 → (depth + foldr (λ x n, S x `max` n) 0 (map height xs) ≤ 4
          ↔ Forall (λ v, S depth + height v ≤ 4) xs)) as Hh.
  { intros Hd.
    assert (∀ m, depth + m ≤ 4 ↔ m ≤ 4 - depth) as -> by lia.
    rewrite heights_le, List.Forall_map. apply Forall_iff. intros. lia. }
  split.
  - intros (Hd & H & ?). rewrite (Hh Hd). done.
  - intros (H & ?). assert (depth ≤ 4) as Hd by lia. rewrite (Hh Hd) in H. done.
Qed.

Lemma payload_check_iff depth v : payload_check depth v = true ↔ payload_ok depth v.
Proof.
  revert depth. induction v as [| | | |l IH|d IH] using pyval_rec'; intros depth.
  1-4: unfold payload_ok; cbn [payload_check height lists_at_most contains_key];
    rewrite andb_true_iff, negb_true_iff, Nat.ltb_ge; intuition lia.
  - pose proof (payload_children depth l IH) as Hc. unfold payload_ok.
    cbn [payload_check height lists_at_most].
    rewrite contains_key_list, !andb_true_iff, negb_true_iff, Nat.ltb_ge, !forallb_Forall.
    tauto.
  - pose proof (payload_children depth d.*2) as Hc. unfold payload_ok.
    cbn [payload_check height lists_at_most].
    rewrite contains_key_dict, andb_true_iff, negb_true_iff, Nat.ltb_ge, !forallb_Forall.
    rewrite !Forall_fmap in Hc. specialize (Hc IH).
    replace (map height d.*2) with (map (λ kv, height kv.2) d) in Hc
      by (symmetry; apply map_map).
    assert (Forall (λ kv, negb (rx_search SENSITIVE_PAYLOAD_KEY kv.1)
                          && payload_check (S depth) kv.2 = true) d
      ↔ Forall (λ kv, rx_search SENSITIVE_PAYLOAD_KEY kv.1 = false) d
        ∧ Forall (λ kv, payload_check (S depth) kv.2 = true) d) as ->.
    { rewrite <-Forall_and. apply Forall_iff. intros kv.
      by rewrite andb_true_iff, negb_true_iff. }
    rewrite Forall_and. unfold compose in Hc. tauto.
Qed.

(** * Properties *)

(** The evidence a rule result carries never holds a dict key that looks
    like a credential, at any depth, and is bounded: at most six nested
    containers of at most 50 items, strings of at most 1000 and keys of at most
    120 characters.  In particular the evidence check of remediation requests
    never refuses it. *)
Theorem rule_result_evidence_safe st ev code :
  let r := new_RuleResult st ev code in
  contains_key _SENSITIVE (evidence r) = false
  ∧ within 6 (evidence r)
  ∧ _contains_sensitive_evidence_key (evidence r) = false.
Proof.
  cbn zeta. unfold new_RuleResult, _contains_sensitive_evidence_key. cbn [evidence].
  split_and!.
  - apply sanitize_evidence_clean.
  - by apply sanitize_evidence_within_aux.
  - eapply contains_key_incl; [|apply sanitize_evidence_clean].
    unfold SENSITIVE_EVIDENCE_KEY, _SENSITIVE. set_solver.
Qed.

(** Sanitizing is idempotent: the second pass that the evaluation service
    makes before it stores the evidence of a finding stores exactly what the
    rule result carries. *)
Theorem sanitize_evidence_idempotent st ev code :
  let r := new_RuleResult st ev code in
  sanitize_evidence 0 (evidence r) = evidence r.
Proof. apply sanitize_evidence_idem_aux. Qed.

(** The queue accepts a payload exactly when its JSON text has at most 4096
    bytes, it nests at most four levels deep, no list has more than 50 items and
    no dict key at any level looks like a secret; it is then stored unchanged,
    and every other payload raises ValueError. *)
Theorem validated_payload_spec payload :
  _validated_payload payload = inl payload ∧
    height (PDict payload) ≤ 4 ∧
    contains_key SENSITIVE_PAYLOAD_KEY (PDict payload) = false ∧
    lists_at_most 50 (PDict payload) = true ∧
    String.length (json_dumps (PDict payload)) ≤ 4096
  ∨ _validated_payload payload = inr ValueError ∧
    ¬ (height (PDict payload) ≤ 4 ∧
       contains_key SENSITIVE_PAYLOAD_KEY (PDict payload) = false ∧
       lists_at_most 50 (PDict payload) = true ∧
       String.length (json_dumps (PDict payload)) ≤ 4096).
Proof.
  unfold _validated_payload, MAX_PAYLOAD_BYTES.
  destruct (payload_check 0 (PDict payload)) eqn:E.
  - apply payload_check_iff in E.
    destruct E as (? & ? & ?).
    destruct (Nat.leb_spec (String.length (json_dumps (PDict payload))) 4096) as [|Hlt];
      [left|right]; cbn [andb]; [done|]. split; [done|]. intros (_ & _ & _ & ?). lia.
  - right. split; [done|]. intros (? & ? & ? & _).
    assert (payload_check 0 (PDict payload) = true); [|congruence].
    apply payload_check_iff. done.
Qed.
