(* ===== verification/RiskEngine.v ===== *)
(** risk_engine.py: the deterministic scoring policy CLOUDOPS_RISK_V1, with
    Python's [decimal] arithmetic at its default precision of 28 digits. *)

From S2P Require Import Prelude.
From S2P Require Import Enums.
From S2P Require Import PyValue.
From stdpp Require Import sorting list.

Open Scope Z_scope.

(** * Decimal arithmetic

    Only non-negative operands occur.  A result is [coefficient / 10^scale]. *)

Definition decimal_precision : Z := 28.

(** Number of decimal digits of a positive integer. *)
Fixpoint digits_fuel (fuel : nat) (n : Z) : Z :=
  match fuel with
  | O => 1
  | S fuel => if n <? 10 then 1 else 1 + digits_fuel fuel (n / 10)
  end.
Definition digits (n : Z) : Z := digits_fuel (Z.to_nat (Z.log2 n)) n.

(** Rounding of [n / d] to an integer, ties to even. *)
Definition round_half_even (n d : Z) : Z :=
  let q := n / d in
  let r := n mod d in
  if 2 * r <? d then q
  else if d <? 2 * r then q + 1
  else if Z.even q then q else q + 1.

(** Fraction digits that leave [decimal_precision] significant digits in
    [n / d]; the source's values have at most three integer digits. *)
Definition quotient_scale (n d : Z) : Z :=
  let k := digits n - digits d in
  let adjusted := if d * 10 ^ Z.max 0 k <=? n * 10 ^ Z.max 0 (- k) then k else k - 1 in
  Z.max 0 (decimal_precision - 1 - adjusted).

(** [Decimal(n) / Decimal(d)] as coefficient and scale *)
Definition decimal_div (n d : Z) : Z * Z :=
  if n =? 0 then (0, 0)
  else let s := quotient_scale n d in (round_half_even (n * 10 ^ s) d, s).

(** risk_engine.py:285-286, _round_decimal.  [ROUND_HALF_UP] of a non-negative
    value. *)
Definition _round_decimal (value : Z * Z) : Z :=
  let '(c, s) := value in (2 * c + 10 ^ s) / (2 * 10 ^ s).

(** * The policy tables *)

(** risk_engine.py:20-30, COMPONENT_MAXIMUMS. *)
Definition COMPONENT_MAXIMUMS : list (string * Z) :=
  [("severity", 30); ("exposure", 15); ("exploitability", 10); ("privilege", 10);
   ("asset_criticality", 10); ("environment", 5); ("business_impact", 10);
   ("data_sensitivity", 5); ("age", 5)].

(** risk_engine.py:32-38, SEVERITY_POINTS. *)
Definition SEVERITY_POINTS (x : FindingSeverity) : Z :=
  match x with
  | FindingSeverity.CRITICAL => 30
  | FindingSeverity.HIGH => 24
  | FindingSeverity.MEDIUM => 16
  | FindingSeverity.LOW => 8
  | FindingSeverity.INFORMATIONAL => 0
  end.

(** risk_engine.py:39-45, EXPOSURE_POINTS. *)
Definition EXPOSURE_POINTS : list (string * Z) :=
  [("public", 15); ("internet_reachable", 12); ("internal", 5); ("none", 0); ("unknown", 7)].

(** risk_engine.py:46-46, EXPLOITABILITY_POINTS. *)
Definition EXPLOITABILITY_POINTS : list (string * Z) :=
  [("high", 10); ("medium", 6); ("low", 3); ("unknown", 5)].

(** risk_engine.py:48-48, PRIVILEGE_POINTS. *)
Definition PRIVILEGE_POINTS : list (string * Z) :=
  [("none", 10); ("low", 7); ("high", 2); ("unknown", 5)].

(** risk_engine.py:49-55, CRITICALITY_POINTS. *)
Definition CRITICALITY_POINTS (x : RiskCriticality) : Z :=
  match x with
  | RiskCriticality.CRITICAL => 10
  | RiskCriticality.HIGH => 8
  | RiskCriticality.MEDIUM => 5
  | RiskCriticality.LOW => 2
  | RiskCriticality.UNKNOWN => 5
  end.

(** risk_engine.py:56-62, ENVIRONMENT_POINTS. *)
Definition ENVIRONMENT_POINTS (x : RiskEnvironment) : Z :=
  match x with
  | RiskEnvironment.PRODUCTION => 5
  | RiskEnvironment.STAGING => 3
  | RiskEnvironment.DEVELOPMENT => 1
  | RiskEnvironment.SANDBOX => 0
  | RiskEnvironment.UNKNOWN => 2
  end.

(** risk_engine.py:63-69, BUSINESS_IMPACT_POINTS. *)
Definition BUSINESS_IMPACT_POINTS (x : BusinessImpact) : Z :=
  match x with
  | BusinessImpact.CRITICAL => 10
  | BusinessImpact.HIGH => 8
  | BusinessImpact.MEDIUM => 5
  | BusinessImpact.LOW => 2
  | BusinessImpact.UNKNOWN => 5
  end.

(** risk_engine.py:70-76, DATA_SENSITIVITY_POINTS. *)
Definition DATA_SENSITIVITY_POINTS (x : DataSensitivity) : Z :=
  match x with
  | DataSensitivity.RESTRICTED => 5
  | DataSensitivity.CONFIDENTIAL => 4
  | DataSensitivity.INTERNAL => 2
  | DataSensitivity.PUBLIC => 0
  | DataSensitivity.UNKNOWN => 2
  end.

(** risk_engine.py:79-88, RULE_CONTEXT. *)
Definition RULE_CONTEXT : list (string * (string * string)) :=
  [("EC2_SG_SSH_OPEN_TO_WORLD", ("public", "high"));
   ("EC2_SG_RDP_OPEN_TO_WORLD", ("public", "high"));
   ("EC2_SG_ALL_TRAFFIC_OPEN_TO_WORLD", ("public", "high"));
   ("EC2_INSTANCE_PUBLIC_IP", ("public", "medium"));
   ("S3_BUCKET_PUBLIC_ACCESS_CONFIRMED", ("public", "high"));
   ("RDS_INSTANCE_PUBLICLY_ACCESSIBLE", ("public", "high"));
   ("IAM_ADMINISTRATOR_ACCESS_ATTACHED", ("none", "high"));
   ("IAM_INLINE_POLICY_ALLOW_ALL", ("none", "high"))].

(** risk_engine.py:105-110, POLICY_BANDS. *)
Definition POLICY_BANDS : list (RiskPriority * (Z * Z)) :=
  [(RiskPriority.LOW, (0, 29)); (RiskPriority.MEDIUM, (30, 59));
   (RiskPriority.HIGH, (60, 79)); (RiskPriority.CRITICAL, (80, 100))].

(** [mapping.get(key)] on a dict display with distinct keys *)
Fixpoint assoc {A} (key : string) (m : list (string * A)) : option A :=
  match m with
  | [] => None
  | (k, v) :: m => if String.eqb key k then Some v else assoc key m
  end.

(** * Inputs and results *)

(** A [datetime]: wall-clock microseconds and UTC offset, absent if naive. *)
Record datetime := mk_datetime { wall : Z; utcoffset : option Z }.

(** risk_engine.py:113-126, RiskInputs. *)
Record RiskInputs := mk_RiskInputs {
  severity : FindingSeverity;
  rule_key : string;
  first_seen_at : datetime;
  evaluation_time : datetime;
  criticality : RiskCriticality;
  environment : RiskEnvironment;
  business_impact : BusinessImpact;
  data_sensitivity : DataSensitivity;
  exposure : option string;
  exploitability : option string;
  required_privilege : option string;
  compensating_adjustment : Z
}.

(** risk_engine.py:129-135, RiskResult. *)
Record RiskResult := mk_RiskResult {
  score : Z;
  priority : RiskPriority;
  components : list (string * Z);
  explanation_codes : list (string * string);
  unknown_inputs : list string
}.

(** risk_engine.py:138-145, AggregateRisk. *)
Record AggregateRisk := mk_AggregateRisk {
  agg_score : Z;
  agg_priority : RiskPriority;
  highest : Z;
  focused_mean : Z;
  overall_mean : Z;
  reason_code : string
}.

(** * Scoring *)

(** risk_engine.py:148-149, clamp. *)
Definition clamp (value minimum maximum : Z) : Z := Z.min maximum (Z.max minimum value).

(** risk_engine.py:152-160, priority_for_score. *)
Definition priority_for_score (score : Z) : RiskPriority :=
  let checked := clamp score 0 100 in
  if 80 <=? checked then RiskPriority.CRITICAL
  else if 60 <=? checked then RiskPriority.HIGH
  else if 30 <=? checked then RiskPriority.MEDIUM
  else RiskPriority.LOW.

(** risk_engine.py:294-295, _aware. *)
Definition _aware (value : datetime) : datetime :=
  match utcoffset value with
  | Some _ => value
  | None => mk_datetime (wall value) (Some 0)
  end.

Definition instant (value : datetime) : Z := wall value - default 0 (utcoffset value).

(** risk_engine.py:163-175, age_points.  [timedelta.days] is the floor of the
    difference in days. *)
Definition age_points (first_seen_at evaluation_time : datetime) : Z * string :=
  let first := _aware first_seen_at in
  let evaluated := _aware evaluation_time in
  let n := Z.max 0 ((instant evaluated - instant first) / days 1) in
  if 180 <=? n then (5, "age_180_plus_days")
  else if 90 <=? n then (4, "age_90_179_days")
  else if 30 <=? n then (3, "age_30_89_days")
  else if 7 <=? n then (1, "age_7_29_days")
  else (0, "age_under_7_days").

(** risk_engine.py:289-291, _known. *)
Definition _known (value : option string) (mapping : list (string * Z)) (fallback : string)
    : string :=
  let normalized :=
    match value with
    | Some v => if nonempty v then lower (strip v) else fallback
    | None => fallback
    end in
  if assoc normalized mapping is Some _ then normalized else "unknown".

(** risk_engine.py:178-232, score_finding.  [None] is a KeyError. *)
Definition score_finding (inputs : RiskInputs) : option RiskResult :=
  let '(context_exposure, context_exploitability) :=
    default ("unknown", "unknown") (assoc (rule_key inputs) RULE_CONTEXT) in
  let exposure := _known (exposure inputs) EXPOSURE_POINTS context_exposure in
  let exploitability :=
    _known (exploitability inputs) EXPLOITABILITY_POINTS context_exploitability in
  let privilege := _known (required_privilege inputs) PRIVILEGE_POINTS "unknown" in
  let adjustment := Z.min 0 (Z.max (-15) (compensating_adjustment inputs)) in
  let '(age_value, age_code) := age_points (first_seen_at inputs) (evaluation_time inputs) in
  exposure_points ← assoc exposure EXPOSURE_POINTS;
  exploitability_points ← assoc exploitability EXPLOITABILITY_POINTS;
  privilege_points ← assoc privilege PRIVILEGE_POINTS;
  let components :=
    [("severity", SEVERITY_POINTS (severity inputs));
     ("exposure", exposure_points);
     ("exploitability", exploitability_points);
     ("privilege", privilege_points);
     ("asset_criticality", CRITICALITY_POINTS (criticality inputs));
     ("environment", ENVIRONMENT_POINTS (environment inputs));
     ("business_impact", BUSINESS_IMPACT_POINTS (business_impact inputs));
     ("data_sensitivity", DATA_SENSITIVITY_POINTS (data_sensitivity inputs));
     ("age", age_value);
     ("compensating_controls", adjustment)] in
  let total := clamp (foldr Z.add 0 components.*2) 0 100 in
  let unknown :=
    (List.filter (λ nv, String.eqb nv.2 "unknown")
      [("exposure", exposure);
       ("exploitability", exploitability);
       ("required_privilege", privilege);
       ("asset_criticality", RiskCriticality.value (criticality inputs));
       ("environment", RiskEnvironment.value (environment inputs));
       ("business_impact", BusinessImpact.value (business_impact inputs));
       ("data_sensitivity", DataSensitivity.value (data_sensitivity inputs))]).*1 in
  let explanations :=
    [("severity", "severity_" +:+ FindingSeverity.value (severity inputs));
     ("exposure", "exposure_" +:+ exposure);
     ("exploitability", "exploitability_" +:+ exploitability);
     ("privilege", "privilege_" +:+ privilege);
     ("asset_criticality", "criticality_" +:+ RiskCriticality.value (criticality inputs));
     ("environment", "environment_" +:+ RiskEnvironment.value (environment inputs));
     ("business_impact", "business_impact_" +:+ BusinessImpact.value (business_impact inputs));
     ("data_sensitivity",
       "data_sensitivity_" +:+ DataSensitivity.value (data_sensitivity inputs));
     ("age", age_code);
     ("compensating_controls",
       if negb (adjustment =? 0) then "compensating_control_applied"
       else "no_compensating_control")] in
  Some (mk_RiskResult total (priority_for_score total) components explanations unknown).

(** * Aggregation *)

(** risk_engine.py:270-273, _mean. *)
Definition _mean (values : list Z) : Z :=
  match values with
  | [] => 0
  | _ => _round_decimal (decimal_div (foldr Z.add 0 values) (Z.of_nat (length values)))
  end.

(** risk_engine.py:276-282, _weighted. *)
Definition _weighted (parts : list (Z * Z)) : Z :=
  clamp (_round_decimal
    (decimal_div (foldr Z.add 0 (map (λ '(value, weight), value * weight) parts)) 100)) 0 100.

Fixpoint insert_desc (x : Z) (l : list Z) : list Z :=
  match l with
  | [] => [x]
  | y :: l' => if y <=? x then x :: l else y :: insert_desc x l'
  end.
(** [sorted(values, reverse=True)] *)
Definition sorted_desc (l : list Z) : list Z := foldr insert_desc [] l.

(** [max(values)] of a non-empty sequence *)
Definition py_max (x : Z) (l : list Z) : Z := foldr Z.max x l.

(** risk_engine.py:235-250, account_risk. *)
Definition account_risk (scores : list Z) : AggregateRisk :=
  match scores with
  | [] => mk_AggregateRisk 0 RiskPriority.LOW 0 0 0 "no_active_findings"
  | _ =>
      let ordered := sorted_desc (map (λ score, clamp score 0 100) scores) in
      let highest := hd 0 ordered in
      let top_ten_mean := _mean (take 10 ordered) in
      let all_mean := _mean ordered in
      let score := _weighted [(highest, 50); (top_ten_mean, 30); (all_mean, 20)] in
      mk_AggregateRisk score (priority_for_score score) highest top_ten_mean all_mean
        "active_findings_scored"
  end.

(** risk_engine.py:253-267, organization_risk. *)
Definition organization_risk (account_scores : list Z) : AggregateRisk :=
  match account_scores with
  | [] => mk_AggregateRisk 0 RiskPriority.LOW 0 0 0 "no_accounts_scored"
  | x :: l =>
      let checked := map (λ score, clamp score 0 100) account_scores in
      let highest := py_max (clamp x 0 100) (map (λ score, clamp score 0 100) l) in
      let mean := _mean checked in
      let score := _weighted [(highest, 60); (mean, 40)] in
      mk_AggregateRisk score (priority_for_score score) highest mean mean
        "account_risk_aggregated"
  end.

(** * Lemmas on decimal rounding *)

Lemma digits_fuel_spec fuel n :
  0 < n → Z.log2 n ≤ Z.of_nat fuel →
  1 ≤ digits_fuel fuel n ∧
  10 ^ (digits_fuel fuel n - 1) ≤ n < 10 ^ digits_fuel fuel n.
Proof.
  revert n. induction fuel as [|fuel IH]; intros n Hn Hl; cbn [digits_fuel].
  { assert (n = 1) as ->; [|done].
    destruct (Z.log2_spec n Hn) as [_ H]. pose proof (Z.log2_nonneg n).
    replace (Z.log2 n) with 0 in H by lia. cbn in H. lia. }
  destruct (Z.ltb_spec n 10); [cbn; lia|].
  assert (0 < n / 10) by (apply Z.div_str_pos; lia).
  destruct (IH (n / 10)) as (H1 & H2 & H3); [done| |].
  { apply Z.lt_succ_r, Z.log2_lt_pow2; [done|].
    destruct (Z.log2_spec n Hn) as [_ Hlt].
    assert (2 ^ Z.succ (Z.log2 n) ≤ 2 ^ Z.succ (Z.succ (Z.of_nat fuel))).
    { apply Z.pow_le_mono_r; lia. }
    rewrite (Z.pow_succ_r 2 (Z.succ _)) in * by lia.
    apply Z.div_lt_upper_bound; lia. }
  set (k := digits_fuel fuel (n / 10)) in *.
  pose proof (Z.div_mod n 10 ltac:(done)). pose proof (Z.mod_pos_bound n 10 ltac:(done)).
  split; [lia|]. replace (1 + k - 1) with (Z.succ (k - 1)) by lia.
  replace (1 + k) with (Z.succ k) by lia. rewrite !Z.pow_succ_r by lia. lia.
Qed.

Lemma digits_spec n : 0 < n → 1 ≤ digits n ∧ 10 ^ (digits n - 1) ≤ n < 10 ^ digits n.
Proof. intros Hn. apply digits_fuel_spec; [done|]. pose proof (Z.log2_nonneg n). lia. Qed.

Lemma quotient_scale_ge n d : 0 < n → 0 < d → n ≤ 100 * d → 25 ≤ quotient_scale n d.
Proof.
  intros Hn Hd Hle. unfold quotient_scale, decimal_precision.
  destruct (digits_spec n Hn) as (? & Hn1 & _), (digits_spec d Hd) as (? & _ & Hd2).
  set (k := digits n - digits d). destruct (Z.leb_spec (d * 10 ^ Z.max 0 k)
    (n * 10 ^ Z.max 0 (- k))) as [Hc|_].
  - destruct (Z.le_gt_cases k 2); [lia|].
    rewrite (Z.max_l 0 (- k)), (Z.max_r 0 k) in Hc by lia.
    assert (10 ^ 3 ≤ 10 ^ k) by (apply Z.pow_le_mono_r; lia). nia.
  - destruct (Z.le_gt_cases k 3); [lia|]. exfalso.
    assert (10 ^ digits d * 10 ^ 3 ≤ 10 ^ (digits n - 1)).
    { rewrite <-Z.pow_add_r by lia. apply Z.pow_le_mono_r; lia. }
    lia.
Qed.

Lemma round_half_even_near n d :
  0 < d → -d ≤ 2 * (round_half_even n d * d - n) ≤ d.
Proof.
  intros Hd. unfold round_half_even.
  pose proof (Z.div_mod n d ltac:(lia)). pose proof (Z.mod_pos_bound n d Hd).
  repeat case_match; rewrite ?Z.ltb_lt, ?Z.ltb_ge in *; nia.
Qed.

(** Two roundings, to 28 significant digits and then half-up to an integer,
    give what rounding the exact quotient half-up would give. *)
Lemma round_decimal_div n d :
  0 ≤ n ≤ 100 * d → 0 < d ≤ 10 ^ 24 →
  _round_decimal (decimal_div n d) = (2 * n + d) / (2 * d).
Proof.
  intros Hn Hd. unfold _round_decimal, decimal_div.
  destruct (Z.eqb_spec n 0) as [->|Hne].
  { rewrite Z.mul_0_r, Z.add_0_l, (Z.div_small d) by lia. done. }
  pose proof (quotient_scale_ge n d ltac:(lia) ltac:(lia) ltac:(lia)) as Hs.
  set (s := quotient_scale n d) in *.
  assert (10 ^ 25 ≤ 10 ^ s) as HP by (apply Z.pow_le_mono_r; lia).
  assert (∃ h, 10 ^ s = 2 * h) as [h Hh].
  { exists (5 * 10 ^ (s - 1)). replace s with (Z.succ (s - 1)) at 1 by lia.
    rewrite Z.pow_succ_r by lia. lia. }
  pose proof (round_half_even_near (n * 10 ^ s) d ltac:(lia)) as Hr.
  set (r := round_half_even _ _) in *. clearbody r s. rewrite Hh in *.
  assert (d < 2 * h) as Hdh by lia.
  pose proof (Z.div_mod (2 * n + d) (2 * d) ltac:(lia)) as Hm.
  pose proof (Z.mod_pos_bound (2 * n + d) (2 * d) ltac:(lia)).
  set (m := (2 * n + d) / (2 * d)) in *. clearbody m.
  symmetry. apply Z.div_unique with (2 * r + 2 * h - 2 * (2 * h) * m); [left|lia].
  assert ((2 * m - 1) * h ≤ r).
  { assert (2 * ((2 * m - 1) * h - r) * d ≤ d) by nia. nia. }
  assert (r < (2 * m + 1) * h).
  { destruct (Z.lt_ge_cases r ((2 * m + 1) * h)) as [|Hge]; [done|].
    assert (2 * n ≤ (2 * m + 1) * d - 1) by lia.
    assert ((2 * m + 1) * (2 * h) * d ≤ 2 * r * d) by nia. nia. }
  lia.
Qed.

(** * Lemmas on scoring *)

Lemma assoc_Forall {A} (P : A → Prop) k m (v : A) :
  Forall (λ kv, P kv.2) m → assoc k m = Some v → P v.
Proof.
  induction 1 as [|[k' v'] m Hv Hm IH]; cbn; [done|].
  destruct (String.eqb k k'); naive_solver.
Qed.

Lemma _known_total value mapping fallback :
  is_Some (assoc "unknown" mapping) →
  is_Some (assoc (_known value mapping fallback) mapping).
Proof. unfold _known. intros H. by case_match eqn:E; [rewrite E|]. Qed.

Lemma clamp_bounds v : 0 ≤ clamp v 0 100 ≤ 100.
Proof. unfold clamp. lia. Qed.

Lemma clamp_id v : 0 ≤ v ≤ 100 → clamp v 0 100 = v.
Proof. unfold clamp. lia. Qed.

Lemma clamp_mono v w : v ≤ w → clamp v 0 100 ≤ clamp w 0 100.
Proof. unfold clamp. lia. Qed.

Lemma age_points_bounds f e : 0 ≤ (age_points f e).1 ≤ 5.
Proof. unfold age_points. cbn zeta. repeat case_match; cbn; lia. Qed.

Lemma instant_aware d : instant (_aware d) = instant d.
Proof. unfold instant, _aware. by destruct d as [w [o|]]. Qed.

(** An older finding never gets fewer age points. *)
Lemma age_points_mono f e f' e' :
  instant e - instant f ≤ instant e' - instant f' →
  (age_points f e).1 ≤ (age_points f' e').1.
Proof.
  intros H. unfold age_points. cbn zeta. rewrite !instant_aware.
  assert ((instant e - instant f) / days 1 ≤ (instant e' - instant f') / days 1) as Hd.
  { by apply Z.div_le_mono. }
  revert Hd. generalize ((instant e - instant f) / days 1), ((instant e' - instant f') / days 1).
  intros n n' Hd.
  repeat match goal with
  | |- context [?a <=? ?b] => destruct (Z.leb_spec a b)
  end; cbn; lia.
Qed.

(** The bands of the stored policy are the thresholds of the code. *)
Lemma priority_in_band s :
  0 ≤ s ≤ 100 →
  ∃ lo hi, (priority_for_score s, (lo, hi)) ∈ POLICY_BANDS ∧ lo ≤ s ≤ hi.
Proof.
  intros Hs. unfold priority_for_score. rewrite clamp_id by done. cbn zeta.
  repeat match goal with
  | |- context [?a <=? ?b] => destruct (Z.leb_spec a b)
  end; unfold POLICY_BANDS; do 2 eexists;
    (split; [repeat first [apply list_elem_of_here | apply list_elem_of_further]|lia]).
Qed.

Definition priority_rank (p : RiskPriority) : nat :=
  match p with
  | RiskPriority.LOW => 0
  | RiskPriority.MEDIUM => 1
  | RiskPriority.HIGH => 2
  | RiskPriority.CRITICAL => 3
  end.

Lemma priority_mono s s' :
  s ≤ s' → (priority_rank (priority_for_score s) ≤ priority_rank (priority_for_score s'))%nat.
Proof.
  intros H%clamp_mono. unfold priority_for_score. cbn zeta. revert H.
  generalize (clamp s 0 100), (clamp s' 0 100). intros v v' H.
  repeat match goal with
  | |- context [?a <=? ?b] => destruct (Z.leb_spec a b)
  end; cbn; lia.
Qed.

(** What a component of a score may be. *)
Definition component_ok (c : string * Z) : Prop :=
  if String.eqb c.1 "compensating_controls" then -15 ≤ c.2 ≤ 0
  else ∃ m, assoc c.1 COMPONENT_MAXIMUMS = Some m ∧ 0 ≤ c.2 ≤ m.

(** The three looked-up values of a score. *)
Lemma score_lookups i :
  ∃ e x p,
    let '(ce, cx) := default ("unknown", "unknown") (assoc (rule_key i) RULE_CONTEXT) in
    assoc (_known (exposure i) EXPOSURE_POINTS ce) EXPOSURE_POINTS = Some e ∧
    assoc (_known (exploitability i) EXPLOITABILITY_POINTS cx) EXPLOITABILITY_POINTS = Some x ∧
    assoc (_known (required_privilege i) PRIVILEGE_POINTS "unknown") PRIVILEGE_POINTS = Some p ∧
    0 ≤ e ≤ 15 ∧ 0 ≤ x ≤ 10 ∧ 0 ≤ p ≤ 10.
Proof.
  destruct (default _ _) as [ce cx].
  destruct (_known_total (exposure i) EXPOSURE_POINTS ce) as [e He]; [by eexists|].
  destruct (_known_total (exploitability i) EXPLOITABILITY_POINTS cx) as [x Hx]; [by eexists|].
  destruct (_known_total (required_privilege i) PRIVILEGE_POINTS "unknown") as [p Hp];
    [by eexists|].
  assert (0 ≤ e ≤ 15).
  { eapply (assoc_Forall (λ z, 0 ≤ z ≤ 15)); [|exact He]. repeat constructor; done. }
  assert (0 ≤ x ≤ 10).
  { eapply (assoc_Forall (λ z, 0 ≤ z ≤ 10)); [|exact Hx]. repeat constructor; done. }
  assert (0 ≤ p ≤ 10).
  { eapply (assoc_Forall (λ z, 0 ≤ z ≤ 10)); [|exact Hp]. repeat constructor; done. }
  by exists e, x, p.
Qed.

(** * Lemmas on aggregation *)

Lemma insert_desc_perm x l : insert_desc x l ≡ₚ x :: l.
Proof.
  induction l as [|y l IH]; cbn; [done|]. case_match; [done|].
  rewrite IH. apply Permutation_swap.
Qed.

Lemma sorted_desc_perm l : sorted_desc l ≡ₚ l.
Proof. induction l as [|x l IH]; cbn; [done|]. by rewrite insert_desc_perm, IH. Qed.

Lemma insert_desc_sorted x l :
  StronglySorted (λ a b, b ≤ a) l → StronglySorted (λ a b, b ≤ a) (insert_desc x l).
Proof.
  induction 1 as [|y l Hl IH Hy]; cbn; [by repeat constructor|].
  destruct (Z.leb_spec y x).
  - constructor; [by constructor|]. constructor; [done|].
    eapply Forall_impl; [done|]. cbn. lia.
  - constructor; [done|]. rewrite insert_desc_perm. constructor; [lia|done].
Qed.

Lemma sorted_desc_sorted l : StronglySorted (λ a b, b ≤ a) (sorted_desc l).
Proof. induction l; cbn; [constructor|]. by apply insert_desc_sorted. Qed.

#[local] Instance ge_antisym : AntiSymm (=) (λ a b : Z, b ≤ a).
Proof. intros x y ??. lia. Qed.

Lemma sorted_desc_proper l l' : l ≡ₚ l' → sorted_desc l = sorted_desc l'.
Proof.
  intros H. apply (StronglySorted_unique (λ a b, b ≤ a)); [apply sorted_desc_sorted..|].
  by rewrite !sorted_desc_perm.
Qed.

Abbreviation sum l := (foldr Z.add 0 l) (only parsing).

Lemma sum_perm l l' : l ≡ₚ l' → sum l = sum l'.
Proof. induction 1; cbn; lia. Qed.

Lemma sum_app l l' : sum (l ++ l') = sum l + sum l'.
Proof. induction l; cbn; lia. Qed.

Lemma sum_le m l : Forall (λ x, x ≤ m) l → sum l ≤ m * Z.of_nat (length l).
Proof. induction 1; cbn [foldr length]; lia. Qed.

Lemma sum_ge m l : Forall (λ x, m ≤ x) l → m * Z.of_nat (length l) ≤ sum l.
Proof. induction 1; cbn [foldr length]; lia. Qed.

(** Half-up rounding of a ratio is monotone in the ratio. *)
Lemma half_up_mono a b a' b' :
  0 < b → 0 < b' → a * b' ≤ a' * b → (2 * a + b) / (2 * b) ≤ (2 * a' + b') / (2 * b').
Proof.
  intros Hb Hb' H. apply Z.div_le_lower_bound; [lia|].
  pose proof (Z.mul_div_le (2 * a + b) (2 * b) ltac:(lia)) as Hm.
  set (m := (2 * a + b) / (2 * b)) in *. clearbody m.
  assert ((2 * m - 1) * b * b' ≤ 2 * a' * b) by nia. nia.
Qed.

Lemma half_up_int m b : 0 < b → (2 * (m * b) + b) / (2 * b) = m.
Proof. intros. symmetry. apply Z.div_unique with b; lia. Qed.

(** Scores that were clamped, and at most 10^24 of them. *)
Definition scored (l : list Z) : Prop :=
  Forall (λ x, 0 ≤ x ≤ 100) l ∧ l ≠ [] ∧ Z.of_nat (length l) ≤ 10 ^ 24.

Lemma mean_exact l :
  scored l → _mean l = (2 * sum l + Z.of_nat (length l)) / (2 * Z.of_nat (length l)).
Proof.
  intros (Hf & Hne & Hl). destruct l as [|x l]; [done|]. unfold _mean.
  apply round_decimal_div; [|cbn [length] in *; lia]. split.
  - etrans; [|apply (sum_ge 0)]; [lia|]. eapply Forall_impl; [done|]. cbn. lia.
  - apply sum_le. eapply Forall_impl; [done|]. cbn. lia.
Qed.

Lemma mean_bounds m M l :
  scored l → Forall (λ x, m ≤ x ≤ M) l → m ≤ _mean l ≤ M.
Proof.
  intros Hl Hf. rewrite mean_exact by done. destruct Hl as (_ & Hne & _).
  destruct l as [|x l]; [done|]. set (n := Z.of_nat (length (x :: l))).
  assert (0 < n) by (unfold n; cbn [length]; lia).
  split.
  - rewrite <-(half_up_int m n) at 1 by done. apply half_up_mono; [done..|].
    assert (m * n ≤ sum (x :: l)); [|nia]. apply sum_ge.
    eapply Forall_impl; [done|]. cbn. lia.
  - rewrite <-(half_up_int M n) by done. apply half_up_mono; [done..|].
    assert (sum (x :: l) ≤ M * n); [|nia]. apply sum_le.
    eapply Forall_impl; [done|]. cbn. lia.
Qed.

(** The mean of the first items of a descending list is at least the mean of
    the whole list. *)
Lemma mean_take_ge k l :
  scored l → StronglySorted (λ a b, b ≤ a) l → (0 < k)%nat →
  _mean l ≤ _mean (take k l).
Proof.
  intros Hl Hs Hk.
  assert (scored (take k l)) as Ht.
  { destruct Hl as (? & ? & ?). split_and!; [by apply Forall_take| |].
    - by destruct l, k; [..|lia|].
    - rewrite length_take. lia. }
  rewrite !mean_exact by done. destruct Hl as (_ & Hne & _), Ht as (_ & Hte & _).
  assert (0 < Z.of_nat (length l)) by (destruct l; [done|cbn; lia]).
  assert (0 < Z.of_nat (length (take k l))) by (destruct (take k l); [done|cbn; lia]).
  apply half_up_mono; [done..|]. rewrite <-(take_drop k l) at 1 4.
  rewrite sum_app, length_app. set (t := take k l) in *.
  assert (∃ m, Forall (λ x, m ≤ x) t ∧ Forall (λ x, x ≤ m) (drop k l)) as (m & H1 & H2).
  { rewrite <-(take_drop k l) in Hs. fold t in Hs. destruct t as [|x t'] using rev_ind; [done|].
    exists x. clear -Hs. revert Hs. clear. induction t' as [|y t' IH]; cbn.
    - intros [Hs Hx]%StronglySorted_inv. split; [repeat constructor; lia|done].
    - intros [Hs Hx]%StronglySorted_inv. destruct (IH Hs) as [??]. split; [|done].
      constructor; [|done]. rewrite !Forall_app, Forall_singleton in Hx. naive_solver. }
  apply sum_ge in H1. apply sum_le in H2. rewrite Nat2Z.inj_add. nia.
Qed.

Lemma weighted_exact parts :
  Forall (λ vw, 0 ≤ vw.1 ≤ 100 ∧ 0 ≤ vw.2) parts →
  foldr Z.add 0 parts.*2 = 100 →
  let w := foldr Z.add 0 (map (λ '(value, weight), value * weight) parts) in
  0 ≤ w ≤ 100 * 100 ∧ _weighted parts = (2 * w + 100) / 200.
Proof.
  intros Hp Hw w.
  assert (0 ≤ w ≤ 100 * foldr Z.add 0 parts.*2) as Hb.
  { unfold w. clear Hw w. induction Hp as [|[v k] parts [? ?] _ IH]; cbn in *; nia. }
  rewrite Hw in Hb. split; [done|]. unfold _weighted. fold w.
  rewrite round_decimal_div by lia. apply clamp_id.
  split; [apply Z.div_pos; lia|]. apply Z.lt_succ_r, Z.div_lt_upper_bound; lia.
Qed.

(** A weighted score lies between bounds on its parts. *)
Lemma weighted_bounds m M parts :
  Forall (λ vw, 0 ≤ vw.1 ≤ 100 ∧ 0 ≤ vw.2 ∧ m ≤ vw.1 ≤ M) parts →
  foldr Z.add 0 parts.*2 = 100 →
  m ≤ _weighted parts ≤ M.
Proof.
  intros Hp Hw. destruct (weighted_exact parts) as [_ ->]; [|done|].
  { eapply Forall_impl; [done|]. cbn. naive_solver. }
  set (w := foldr _ _ _).
  assert (m * foldr Z.add 0 parts.*2 ≤ w ≤ M * foldr Z.add 0 parts.*2) as Hb.
  { unfold w. clear Hw w. induction Hp as [|[v k] parts (? & ? & ?) _ IH]; cbn in *; nia. }
  rewrite Hw in Hb. split.
  - apply Z.div_le_lower_bound; lia.
  - apply Z.lt_succ_r, Z.div_lt_upper_bound; lia.
Qed.

Definition clamped (scores : list Z) : list Z :=
  sorted_desc (map (λ score, clamp score 0 100) scores).

Lemma clamped_scored scores :
  scores ≠ [] → Z.of_nat (length scores) ≤ 10 ^ 24 → scored (clamped scores).
Proof.
  intros Hne Hl. unfold scored, clamped.
  assert (length (sorted_desc (map (λ score, clamp score 0 100) scores)) = length scores) as Hlen.
  { by rewrite sorted_desc_perm, length_map. }
  split_and!.
  - rewrite sorted_desc_perm. apply List.Forall_map, Forall_true. intros. apply clamp_bounds.
  - intros H. rewrite H in Hlen. by destruct scores.
  - by rewrite Hlen.
Qed.

(** The head of a descending list bounds the list. *)
Lemma hd_ge l x : StronglySorted (λ a b, b ≤ a) l → x ∈ l → x ≤ hd 0 l.
Proof.
  intros Hs Hx. destruct Hs as [|y l _ Hy]; [set_solver|]. cbn.
  apply elem_of_cons in Hx as [->|Hx]; [lia|]. rewrite Forall_forall in Hy. auto.
Qed.

(** * Properties *)

(** C37. Scoring never fails: whatever the free-text exposure, exploitability
    and privilege inputs hold, every table lookup succeeds.  The score is the
    sum of the components clamped to 0..100, every component lies between 0 and
    its declared maximum, the compensating adjustment between -15 and 0, and the
    priority is the one whose stored policy band contains the score. *)
Theorem score_finding_total_and_bounded i :
  ∃ r, score_finding i = Some r ∧ 0 ≤ score r ≤ 100
    ∧ score r = clamp (sum (components r).*2) 0 100
    ∧ Forall component_ok (components r)
    ∧ ∃ lo hi, (priority r, (lo, hi)) ∈ POLICY_BANDS ∧ lo ≤ score r ≤ hi.
Proof.
  pose proof (score_lookups i) as (e & x & p & H). unfold score_finding.
  destruct (default _ _) as [ce cx]. destruct H as (-> & -> & -> & ? & ? & ?).
  pose proof (age_points_bounds (first_seen_at i) (evaluation_time i)).
  destruct (age_points _ _) as [a code]. cbn [mbind option_bind fst] in *.
  eexists. split; [done|]. cbn [score components priority].
  split_and!; try apply clamp_bounds; [done| |apply priority_in_band, clamp_bounds].
  rewrite !Forall_cons, Forall_nil. split_and!; [..|done]; unfold component_ok; cbn -[Z.le];
    try (eexists; split; [reflexivity|]); try lia;
    match goal with |- _ ≤ ?f ?y ≤ _ => destruct y end; cbn; lia.
Qed.

(** Scoring is monotone: for the same rule and context, a finding of at
    least the same severity, at least as old and with no larger compensating
    control never scores lower, and its priority is never lower. *)
Theorem score_finding_monotone i j ri rj :
  rule_key i = rule_key j → criticality i = criticality j →
  environment i = environment j → business_impact i = business_impact j →
  data_sensitivity i = data_sensitivity j → exposure i = exposure j →
  exploitability i = exploitability j → required_privilege i = required_privilege j →
  SEVERITY_POINTS (severity i) ≤ SEVERITY_POINTS (severity j) →
  instant (evaluation_time i) - instant (first_seen_at i)
    ≤ instant (evaluation_time j) - instant (first_seen_at j) →
  compensating_adjustment i ≤ compensating_adjustment j →
  score_finding i = Some ri → score_finding j = Some rj →
  score ri ≤ score rj ∧ (priority_rank (priority ri) ≤ priority_rank (priority rj))%nat.
Proof.
  intros Hr Hc He Hb Hd Hx Hy Hp Hsev Hage%age_points_mono Hadj.
  unfold score_finding. rewrite Hr, Hc, He, Hb, Hd, Hx, Hy, Hp.
  destruct (default _ _) as [ce cx].
  destruct (age_points (first_seen_at i) _) as [ai ?], (age_points (first_seen_at j) _) as [aj ?].
  cbn [fst] in Hage.
  destruct (assoc _ EXPOSURE_POINTS); [|done].
  destruct (assoc _ EXPLOITABILITY_POINTS); [|done].
  destruct (assoc _ PRIVILEGE_POINTS); [|done].
  intros [= <-] [= <-]. cbn [score priority].
  split; [apply clamp_mono|apply priority_mono, clamp_mono]; cbn; lia.
Qed.

(** The account aggregate, for up to 10^24 findings: it does not depend on
    the order of the scores; its means are the exact means rounded half-up, in
    spite of the intermediate 28-digit division; the mean of all scores is at
    most the mean of the ten highest, which is at most the highest; and the
    account's score lies between the mean of all and the highest. *)
Theorem account_risk_spec scores scores' :
  scores ≠ [] → Z.of_nat (length scores) ≤ 10 ^ 24 → scores ≡ₚ scores' →
  let l := clamped scores in
  let r := account_risk scores in
  account_risk scores' = r
  ∧ overall_mean r = (2 * sum l + Z.of_nat (length l)) / (2 * Z.of_nat (length l))
  ∧ focused_mean r = (2 * sum (take 10 l) + Z.of_nat (length (take 10 l)))
                     / (2 * Z.of_nat (length (take 10 l)))
  ∧ agg_score r = (2 * (50 * highest r + 30 * focused_mean r + 20 * overall_mean r) + 100) / 200
  ∧ (∀ x, x ∈ scores → clamp x 0 100 ≤ highest r)
  ∧ 0 ≤ overall_mean r ≤ focused_mean r ∧ focused_mean r ≤ highest r ≤ 100
  ∧ overall_mean r ≤ agg_score r ≤ highest r.
Proof.
  intros Hne Hl Hperm l r.
  pose proof (clamped_scored scores Hne Hl) as Hsc. fold l in Hsc.
  assert (StronglySorted (λ a b, b ≤ a) l) as Hs by apply sorted_desc_sorted.
  assert (r = let h := hd 0 l in let t := _mean (take 10 l) in let m := _mean l in
    let s := _weighted [(h, 50); (t, 30); (m, 20)] in
    mk_AggregateRisk s (priority_for_score s) h t m "active_findings_scored") as ->.
  { unfold r, account_risk. by destruct scores. }
  cbn zeta. cbn [agg_score highest focused_mean overall_mean].
  assert (scored (take 10 l)) as Ht.
  { destruct Hsc as (? & ? & ?). split_and!; [by apply Forall_take|by destruct l|].
    rewrite length_take. lia. }
  assert (∀ x, x ∈ l → 0 ≤ x ≤ hd 0 l) as Hhd.
  { intros x Hx. destruct Hsc as [Hf _]. rewrite Forall_forall in Hf.
    split; [by apply Hf|by apply hd_ge]. }
  assert (hd 0 l ∈ l) as Hin.
  { destruct Hsc as (_ & Hn & _). destruct l; [done|]. apply list_elem_of_here. }
  assert (0 ≤ hd 0 l ≤ 100) as Hh.
  { destruct Hsc as [Hf _]. rewrite Forall_forall in Hf. by apply Hf. }
  assert (0 ≤ _mean l) by (eapply mean_bounds; [done|]; by apply Forall_forall).
  assert (_mean (take 10 l) ≤ hd 0 l).
  { apply (mean_bounds 0); [done|]. apply Forall_take, Forall_forall, Hhd. }
  pose proof (mean_take_ge 10 l Hsc Hs ltac:(lia)).
  split_and!; try lia.
  - unfold account_risk. destruct scores' as [|x scores']; [by apply Permutation_nil_r in Hperm|].
    assert (sorted_desc (map (λ score, clamp score 0 100) (x :: scores')) = l) as ->; [|done].
    apply sorted_desc_proper. by rewrite Hperm.
  - by apply mean_exact.
  - by apply mean_exact.
  - destruct (weighted_exact [(hd 0 l, 50); (_mean (take 10 l), 30); (_mean l, 20)])
      as [_ ->]; [rewrite !Forall_cons, Forall_nil; cbn; lia|done|]. cbn. f_equal. lia.
  - intros x Hx. apply Hhd. unfold l, clamped. rewrite sorted_desc_perm.
    apply list_elem_of_fmap. eauto.
  - apply (weighted_bounds _ (hd 0 l)); [|done]. rewrite !Forall_cons, Forall_nil. cbn. lia.
  - apply (weighted_bounds (_mean l)); [|done]. rewrite !Forall_cons, Forall_nil. cbn. lia.
Qed.

(** The organization aggregate, for up to 10^24 accounts: its mean is the
    exact mean of the clamped account scores rounded half-up, its highest is
    their maximum, and its score lies between the two. *)
Theorem organization_risk_spec x l :
  Z.of_nat (length (x :: l)) ≤ 10 ^ 24 →
  let checked := map (λ score, clamp score 0 100) (x :: l) in
  let r := organization_risk (x :: l) in
  overall_mean r = (2 * sum checked + Z.of_nat (length checked)) / (2 * Z.of_nat (length checked))
  ∧ highest r ∈ checked ∧ (∀ y, y ∈ checked → y ≤ highest r)
  ∧ agg_score r = (2 * (60 * highest r + 40 * overall_mean r) + 100) / 200
  ∧ overall_mean r ≤ agg_score r ≤ highest r.
Proof.
  intros Hl checked r. unfold r, organization_risk. fold checked.
  cbn zeta. cbn [agg_score highest focused_mean overall_mean].
  set (h := py_max _ _).
  assert (scored checked) as Hsc.
  { unfold scored, checked. rewrite length_map. split_and!; [|done..].
    apply List.Forall_map, Forall_true. intros. apply clamp_bounds. }
  assert (h ∈ checked ∧ ∀ y, y ∈ checked → y ≤ h) as [Hin Hub].
  { unfold h, checked, py_max. cbn [map]. generalize (clamp x 0 100). clear.
    induction l as [|y l IH]; intros z; cbn [map foldr]; [set_solver by lia|].
    destruct (IH z) as [Hin Hub]. destruct (Z.max_spec (clamp y 0 100)
      (foldr Z.max z (map (λ score, clamp score 0 100) l))) as [[? ->]|[? ->]];
      (split; [set_solver|]); intros w Hw; repeat setoid_rewrite elem_of_cons in Hw;
      destruct Hw as [->|[->|Hw]]; try lia; pose proof (Hub z ltac:(set_solver)); try lia;
      pose proof (Hub w ltac:(set_solver)); lia. }
  clearbody h checked. assert (0 ≤ h ≤ 100).
  { destruct Hsc as [Hf _]. rewrite Forall_forall in Hf. by apply Hf. }
  assert (0 ≤ _mean checked ≤ h).
  { apply mean_bounds; [done|]. apply Forall_forall. intros y Hy. split; [|auto].
    destruct Hsc as [Hf _]. rewrite Forall_forall in Hf. by apply Hf. }
  split_and!; try done.
  - by apply mean_exact.
  - destruct (weighted_exact [(h, 60); (_mean checked, 40)])
      as [_ ->]; [rewrite !Forall_cons, Forall_nil; cbn; lia|done|]. cbn. f_equal. lia.
  - apply (weighted_bounds _ h); [|done]. rewrite !Forall_cons, Forall_nil. cbn. lia.
  - apply (weighted_bounds (_mean checked)); [|done]. rewrite !Forall_cons, Forall_nil. cbn. lia.
Qed.

(** * Witnesses *)

Definition sample_inputs (sev : FindingSeverity) (age : Z) : RiskInputs :=
  mk_RiskInputs sev "EC2_SG_SSH_OPEN_TO_WORLD"
    (mk_datetime 0 None) (mk_datetime (days age) (Some 0))
    RiskCriticality.HIGH RiskEnvironment.PRODUCTION BusinessImpact.UNKNOWN
    DataSensitivity.RESTRICTED None (Some " HIGH ") (Some "nonsense") 0.

Lemma score_finding_monotone_witness :
  ∃ ri rj, score ri ≤ score rj ∧ (priority_rank (priority ri) ≤ priority_rank (priority rj))%nat
    ∧ score ri = 78 ∧ score rj = 88.
Proof.
  destruct (score_finding (sample_inputs FindingSeverity.HIGH 10)) as [ri|] eqn:Ei;
    [|vm_compute in Ei; discriminate Ei].
  destruct (score_finding (sample_inputs FindingSeverity.CRITICAL 200)) as [rj|] eqn:Ej;
    [|vm_compute in Ej; discriminate Ej].
  exists ri, rj.
  destruct (score_finding_monotone (sample_inputs FindingSeverity.HIGH 10)
    (sample_inputs FindingSeverity.CRITICAL 200) ri rj eq_refl eq_refl eq_refl eq_refl eq_refl
    eq_refl eq_refl eq_refl ltac:(vm_compute; congruence) ltac:(vm_compute; congruence)
    ltac:(vm_compute; congruence) Ei Ej) as [H1 H2].
  vm_compute in Ei, Ej. injection Ei as <-. injection Ej as <-. by split_and!.
Defined.

Lemma account_risk_spec_witness :
  account_risk [71; 40; 90] = account_risk [40; 90; 71]
  ∧ account_risk [40; 90; 71]
    = mk_AggregateRisk 79 RiskPriority.HIGH 90 67 67 "active_findings_scored".
Proof.
  split; [|vm_compute; reflexivity].
  apply (account_risk_spec [40; 90; 71] [71; 40; 90]); [done|done|].
  apply (Permutation_app_comm [40; 90] [71]).
Defined.

Lemma organization_risk_spec_witness :
  agg_score (organization_risk [79; 20]) ≤ highest (organization_risk [79; 20])
  ∧ agg_score (organization_risk [79; 20]) = 67.
Proof.
  split; [|vm_compute; reflexivity].
  apply (organization_risk_spec 79 [20]). done.
Defined.
