(* ===== verification/PlatformJobs.v ===== *)
(** services/platform_jobs.py: the durable job queue.

    Workers take jobs under a lease that is fenced by a token: [acquire] draws
    a fresh token, and every later step of the worker names it.  Row locks are
    not modelled, a transaction runs alone. *)

From S2P Require Import Prelude.
From S2P Require Import Enums.
From S2P Require Import Rbac.
From S2P Require Import PyValue.
From S2P Require Import Models.
From S2P Require Import Tables.
From S2P Require Import Common.
From S2P Require Import Evidence.
From S2P Require Import AiSafety.
From S2P Require Import Organizations.
From Stdlib Require Import Ascii.
From stdpp Require Import list.

Module Job := PlatformJob.

(** services/platform_jobs.py:23-23, MAX_ERROR_SUMMARY. *)
Definition MAX_ERROR_SUMMARY : nat := 500.

(** services/platform_jobs.py:28-33, ACTIVE_STATUSES. *)
Definition ACTIVE_STATUSES : list PlatformJobStatus :=
  [PlatformJobStatus.AVAILABLE; PlatformJobStatus.LEASED; PlatformJobStatus.RUNNING;
   PlatformJobStatus.RETRY_WAIT].

(** services/platform_jobs.py:34-39, TERMINAL_STATUSES. *)
Definition TERMINAL_STATUSES : list PlatformJobStatus :=
  [PlatformJobStatus.SUCCEEDED; PlatformJobStatus.FAILED;
   PlatformJobStatus.DEAD_LETTERED; PlatformJobStatus.CANCELLED].

Definition active (j : PlatformJob) : bool := bool_decide (Job.status j ∈ ACTIVE_STATUSES).
Definition terminal (j : PlatformJob) : bool := bool_decide (Job.status j ∈ TERMINAL_STATUSES).
Definition holds_lease (s : PlatformJobStatus) : bool :=
  bool_decide (s ∈ [PlatformJobStatus.LEASED; PlatformJobStatus.RUNNING]).

(** * Constraints of the table *)

Definition same_key (j j' : PlatformJob) : bool :=
  (Job.organization_id j ≟ Job.organization_id j')
  && (Job.job_type j ≟ Job.job_type j')
  && (Job.idempotency_key j ≟ Job.idempotency_key j').
Definition same_reference (j j' : PlatformJob) : bool :=
  (Job.organization_id j ≟ Job.organization_id j')
  && (Job.job_type j ≟ Job.job_type j')
  && (Job.reference_id j ≟ Job.reference_id j').

(** models/platform_job.py:32-75, part of PlatformJob.  The unique index on the
    idempotency key, and the partial one on the reference of active jobs. *)
Definition job_conflict (j j' : PlatformJob) : bool :=
  same_key j j' || active j && active j' && same_reference j j'.

(** models/platform_job.py:44-53, part of PlatformJob.  The CHECK
    constraints. *)
Definition job_checks (j : PlatformJob) : bool :=
  let none {A} (o : option A) := if o is Some _ then false else true in
  ((0 <=? Job.attempt_count j) && (1 <=? Job.max_attempts j) && (Job.max_attempts j <=? 20)
   && (-100 <=? Job.priority j) && (Job.priority j <=? 100))%Z
  && if holds_lease (Job.status j)
     then negb (none (Job.lease_token j)) && negb (none (Job.worker_id j))
          && negb (none (Job.lease_expires_at j))
     else none (Job.lease_token j) && none (Job.worker_id j)
          && none (Job.lease_expires_at j).

(** The flush of a new or changed job. *)
Definition save_job (fresh : bool) (j : PlatformJob) : txn DB () :=
  t ← gets DB.platform_jobs;
  _ ← ensure (job_checks j && unique_ok fresh job_conflict j t) IntegrityError;
  modify (λ d, d <| DB.platform_jobs ::= put j |>).

(** * Operations *)

(** [with db.begin_nested(): m], a savepoint that is undone on an exception. *)
Definition begin_nested {A} (m : txn DB A) : txn DB A := λ s,
  match m s with
  | (Ret a, s') => (Ret a, s')
  | (Raise e, _) => (Raise e, s)
  end.

(** services/platform_jobs.py:70-135, PlatformJobService.enqueue. *)
Definition enqueue (new_id new_correlation_id : uuid) (now : timestamp)
    (organization_id : uuid) (job_type : PlatformJobType) (reference_id : uuid)
    (idempotency_key : string) (payload : option pydict) (available_at : option timestamp)
    (priority max_attempts : Z) (correlation_id parent_job_id actor_user_id : option uuid)
    : txn DB (PlatformJob * bool) :=
  match _validated_payload (default [] payload) with
  | inr e => raise e
  | inl payload =>
      let candidate :=
        Job.mk new_id organization_id job_type PlatformJobStatus.AVAILABLE reference_id
          (PDict payload) (str_take 160 idempotency_key) priority 0 max_attempts
          now (default now available_at) None None None 0 None None None None None
          None None None (default new_correlation_id correlation_id) parent_job_id now in
      inserted ← try_catch (_ ← begin_nested (save_job true candidate); mret true)
        (λ e, match e with IntegrityError => mret false | e => raise e end);
      if inserted : bool then
        _ ← record_audit "platform.job.enqueued" "platform_job" AuditResult.SUCCEEDED
              (Some organization_id) actor_user_id (Some new_id);
        mret (candidate, true)
      else
        existing ← gets (λ d, find_row (same_key candidate) (DB.platform_jobs d));
        existing ← match existing with
                   | Some j => mret (Some j)
                   | None => gets (λ d, find_row
                               (λ j, same_reference candidate j && active j)
                               (DB.platform_jobs d))
                   end;
        existing ← some_or existing (ConflictError "job_already_active");
        mret (existing, false)
  end.

(** The WHERE clause of [acquire]. *)
Definition acquirable (now : timestamp) (j : PlatformJob) : bool :=
  bool_decide (Job.status j ∈ [PlatformJobStatus.AVAILABLE; PlatformJobStatus.RETRY_WAIT])
    && (Job.available_at j <=? now)%Z
  || holds_lease (Job.status j)
     && match Job.lease_expires_at j with
        | Some t => (t <=? now)%Z
        | None => false
        end.

(** The ORDER BY clause: [j] may come before [j']. *)
Definition before (j j' : PlatformJob) : bool :=
  let key j := (- Job.priority j, Job.available_at j, Job.created_at j)%Z in
  let '(a, b, c) := key j in let '(a', b', c') := key j' in
  ((a <? a') || (a =? a') && ((b <? b') || (b =? b') && (c <=? c')))%Z.

(** services/platform_jobs.py:137-183, PlatformJobService.acquire. *)
Definition acquire (new_token : uuid) (worker_id : string) (lease_seconds : Z)
    (now : timestamp) : txn DB (option PlatformJob) :=
  rows ← gets (λ d, filter_rows (acquirable now) (DB.platform_jobs d));
  match first_by before rows with
  | None => mret None
  | Some job =>
      let job := job
        <| Job.status := PlatformJobStatus.LEASED |>
        <| Job.worker_id := Some (str_take 128 worker_id) |>
        <| Job.lease_token := Some new_token |>
        <| Job.lease_generation ::= λ g, (g + 1)%Z |>
        <| Job.leased_at := Some now |>
        <| Job.lease_expires_at := Some (now + seconds lease_seconds)%Z |>
        <| Job.attempt_count ::= λ n, (n + 1)%Z |>
        <| Job.started_at := None |> in
      _ ← save_job false job;
      _ ← commit;
      mret (Some job)
  end.

(** services/platform_jobs.py:330-349, PlatformJobService._leased. *)
Definition _leased (job_id lease_token : uuid) (expected_status : PlatformJobStatus)
    : txn DB PlatformJob :=
  job ← gets (λ d, find_row
          (λ j, (Job.id j ≟ job_id)
                && (Job.lease_token j ≟ Some lease_token)
                && (Job.status j ≟ expected_status))
          (DB.platform_jobs d));
  some_or job (ConflictError "stale_job_lease").

(** services/platform_jobs.py:351-355, PlatformJobService._clear_lease. *)
Definition _clear_lease (job : PlatformJob) : PlatformJob :=
  job <| Job.worker_id := None |>
      <| Job.lease_token := None |>
      <| Job.lease_expires_at := None |>.

(** services/platform_jobs.py:185-190, PlatformJobService.start. *)
Definition start (now : timestamp) (job_id lease_token : uuid) : txn DB PlatformJob :=
  job ← _leased job_id lease_token PlatformJobStatus.LEASED;
  let job := job <| Job.status := PlatformJobStatus.RUNNING |>
                 <| Job.started_at := Some now |> in
  _ ← save_job false job;
  _ ← commit;
  mret job.

(** services/platform_jobs.py:192-202, PlatformJobService.heartbeat. *)
Definition heartbeat (now : timestamp) (job_id lease_token : uuid) (lease_seconds : Z)
    : txn DB PlatformJob :=
  job ← _leased job_id lease_token PlatformJobStatus.RUNNING;
  let job := job <| Job.lease_expires_at := Some (now + seconds lease_seconds)%Z |> in
  _ ← save_job false job;
  _ ← commit;
  mret job.

(** services/platform_jobs.py:204-213, PlatformJobService.succeed. *)
Definition succeed (now : timestamp) (job_id lease_token : uuid)
    (result_reference : option string) : txn DB PlatformJob :=
  job ← _leased job_id lease_token PlatformJobStatus.RUNNING;
  let job := _clear_lease (job
    <| Job.status := PlatformJobStatus.SUCCEEDED |>
    <| Job.completed_at := Some now |>
    <| Job.result_reference :=
         match result_reference with
         | Some r => if nonempty r then Some (str_take 255 r) else None
         | None => None
         end |>) in
  _ ← save_job false job;
  _ ← commit;
  mret job.

(** The characters [re.sub(r"[^a-z0-9_.-]", "_", ...)] keeps. *)
Definition code_char (c : ascii) : ascii :=
  if slug_char c || has_char c "_.-" then c else "_"%char.

(** services/platform_jobs.py:226-240, part of PlatformJobService.fail.  The
    fields a failure sets. *)
Definition after_fail (now : timestamp) (error_code error_summary : string)
    (retryable : bool) (retry_after_seconds : option Z) (job : PlatformJob) : PlatformJob :=
  let job := job
    <| Job.last_error_code := Some (str_take 100 (smap code_char (lower error_code))) |>
    <| Job.last_error_summary :=
         Some (str_take MAX_ERROR_SUMMARY (redact_text error_summary)) |> in
  let job :=
    if retryable && (Job.attempt_count job <? Job.max_attempts job)%Z then
      let backoff := Z.min 900 (2 ^ Z.min (Job.attempt_count job) 9) in
      let delay := match retry_after_seconds with
                   | Some s => if (s =? 0)%Z then backoff else s
                   | None => backoff
                   end in
      job <| Job.status := PlatformJobStatus.RETRY_WAIT |>
          <| Job.available_at := (now + seconds (Z.max 1 delay))%Z |>
    else if retryable then
      job <| Job.status := PlatformJobStatus.DEAD_LETTERED |>
          <| Job.dead_lettered_at := Some now |>
          <| Job.failed_at := Some now |>
    else
      job <| Job.status := PlatformJobStatus.FAILED |>
          <| Job.failed_at := Some now |> in
  _clear_lease job.

(** services/platform_jobs.py:215-242, PlatformJobService.fail. *)
Definition fail (now : timestamp) (job_id lease_token : uuid)
    (error_code error_summary : string) (retryable : bool) (retry_after_seconds : option Z)
    : txn DB PlatformJob :=
  job ← _leased job_id lease_token PlatformJobStatus.RUNNING;
  let job := after_fail now error_code error_summary retryable retry_after_seconds job in
  _ ← save_job false job;
  _ ← commit;
  mret job.

(** services/platform_jobs.py:244-255, PlatformJobService.get_scoped. *)
Definition get_scoped (organization_id job_id : uuid) : txn DB PlatformJob :=
  job ← gets (λ d, find_row
          (λ j, (Job.id j ≟ job_id) && (Job.organization_id j ≟ organization_id))
          (DB.platform_jobs d));
  some_or job (NotFoundError "platform_job_not_found").

(** services/platform_jobs.py:257-278, PlatformJobService.cancel. *)
Definition cancel (now : timestamp) (organization_id job_id : uuid) (actor : User)
    : txn DB PlatformJob :=
  _ ← require_capability organization_id (User.id actor) Capability.JOBS_MANAGE;
  job ← get_scoped organization_id job_id;
  _ ← ensure (negb (terminal job)) (ConflictError "job_terminal");
  let job := _clear_lease (job
    <| Job.status := PlatformJobStatus.CANCELLED |>
    <| Job.completed_at := Some now |>) in
  _ ← save_job false job;
  _ ← audit_ok "platform.job.cancelled" "platform_job" organization_id
        (User.id actor) (Job.id job);
  _ ← commit;
  mret job.

(** services/platform_jobs.py:280-311, PlatformJobService.requeue. *)
Definition requeue (now : timestamp) (organization_id job_id : uuid) (actor : User)
    : txn DB PlatformJob :=
  _ ← require_capability organization_id (User.id actor) Capability.JOBS_MANAGE;
  job ← get_scoped organization_id job_id;
  _ ← ensure (bool_decide (Job.status job ∈
                [PlatformJobStatus.FAILED; PlatformJobStatus.DEAD_LETTERED;
                 PlatformJobStatus.CANCELLED]))
        (ConflictError "job_not_requeueable");
  let job := _clear_lease (job
    <| Job.status := PlatformJobStatus.AVAILABLE |>
    <| Job.available_at := now |>
    <| Job.attempt_count := 0%Z |>
    <| Job.failed_at := None |>
    <| Job.dead_lettered_at := None |>
    <| Job.completed_at := None |>
    <| Job.last_error_code := None |>
    <| Job.last_error_summary := None |>) in
  _ ← save_job false job;
  _ ← audit_ok "platform.job.requeued" "platform_job" organization_id
        (User.id actor) (Job.id job);
  _ ← commit;
  mret job.

(** The number of rows per status, for the statuses that occur. *)
Definition status_counts (rows : list PlatformJob) : list (string * Z) :=
  omap (λ s, let n := length (filter (λ j, Job.status j = s) rows) in
             if Nat.eqb n 0 then None else Some (PlatformJobStatus.value s, Z.of_nat n))
    PlatformJobStatus.all.

(** services/platform_jobs.py:313-319, PlatformJobService.counts. *)
Definition counts (organization_id : uuid) : txn DB (list (string * Z)) :=
  gets (λ d, status_counts
    (filter_rows (λ j, Job.organization_id j ≟ organization_id) (DB.platform_jobs d))).

(** services/platform_jobs.py:321-328, PlatformJobService.global_counts. *)
Definition global_counts : txn DB (list (string * Z)) :=
  gets (λ d, status_counts (filter_rows (λ _, true) (DB.platform_jobs d))).

(** * Rules *)

(** The table satisfies its constraints. *)
Record jobs_ok (d : DB) : Prop := {
  jo_keyed : keyed (DB.platform_jobs d);
  jo_checks : all_rows (λ j, job_checks j = true) (DB.platform_jobs d);
  jo_unique : unique_index job_conflict (DB.platform_jobs d)
}.

(** [j'] is a later state of [j]: what identifies the job and its budget are
    kept, it is not active again once it was not, and it passes the checks. *)
Record evolves (j j' : PlatformJob) : Prop := {
  ev_id : Job.id j' = Job.id j;
  ev_org : Job.organization_id j' = Job.organization_id j;
  ev_type : Job.job_type j' = Job.job_type j;
  ev_ref : Job.reference_id j' = Job.reference_id j;
  ev_key : Job.idempotency_key j' = Job.idempotency_key j;
  ev_max : Job.max_attempts j' = Job.max_attempts j;
  ev_active : active j' = true → active j = true;
  ev_checks : job_checks j = true → job_checks j' = true
}.

Lemma job_conflict_sym j j' : job_conflict j j' = job_conflict j' j.
Proof.
  unfold job_conflict, same_key, same_reference.
  rewrite (bool_decide_ext (Job.organization_id j = _) (Job.organization_id j' = Job.organization_id j)),
    (bool_decide_ext (Job.job_type j = _) (Job.job_type j' = Job.job_type j)),
    (bool_decide_ext (Job.idempotency_key j = _) (Job.idempotency_key j' = Job.idempotency_key j)),
    (bool_decide_ext (Job.reference_id j = _) (Job.reference_id j' = Job.reference_id j)),
    (andb_comm (active j)) by naive_solver. done.
Qed.
#[export] Hint Resolve job_conflict_sym : rows.

Lemma job_conflict_evolves j j' r : evolves j j' → job_conflict j r = false → job_conflict j' r = false.
Proof.
  intros [? Ho Ht Hr Hk ? Ha ?]. unfold job_conflict, same_key, same_reference.
  rewrite Ho, Ht, Hr, Hk. destruct (active j'); [by rewrite Ha|].
  intros [-> _]%orb_false_iff. done.
Qed.

(** An evolution always passes the flush. *)
Lemma evolves_ok d k j j' :
  jobs_ok d → DB.platform_jobs d !! k = Some j → evolves j j' →
  job_checks j' = true
  ∧ unique_ok false job_conflict j' (DB.platform_jobs d) = true.
Proof.
  intros [Hk Hc Hu] Hj He. pose proof (Hk _ _ Hj) as Hid. split.
  { by apply He, (Hc k). }
  apply unique_ok_true. split; [done|]. intros k' r Hr Hne.
  apply (job_conflict_evolves j); [done|]. apply (Hu k k'); [done..|].
  intros ->. apply Hne. rewrite (Hk _ _ Hr). etrans; [symmetry; exact Hid|].
  symmetry. apply He.
Qed.

Lemma jobs_ok_put d fresh j :
  jobs_ok d → job_checks j = true →
  unique_ok fresh job_conflict j (DB.platform_jobs d) = true →
  jobs_ok (d <| DB.platform_jobs ::= put j |>).
Proof.
  intros [Hk Hc Hu] Hj Hun. split; cbn; eauto using unique_index_put with rows.
Qed.

Lemma jobs_ok_audit d f : jobs_ok d → jobs_ok (d <| DB.audit ::= f |>).
Proof. intros [??]. by split. Qed.

Lemma wp_save_job fresh j Q s :
  (job_checks j = true → unique_ok fresh job_conflict j (DB.platform_jobs (working s)) = true →
     Q (Ret tt) (Sess (committed s) ((working s) <| DB.platform_jobs ::= put j |>))) →
  (job_checks j && unique_ok fresh job_conflict j (DB.platform_jobs (working s)) = false →
     Q (Raise IntegrityError) s) →
  wp (save_job fresh j) Q s.
Proof. intros H1 H2. unfold save_job. wp_go; [bools|]; eauto. Qed.

Lemma wp_save_evolves k j j' Q s :
  jobs_ok (working s) → DB.platform_jobs (working s) !! k = Some j → evolves j j' →
  Q (Ret tt) (Sess (committed s) ((working s) <| DB.platform_jobs ::= put j' |>)) →
  wp (save_job false j') Q s.
Proof.
  intros Hok Hj He HQ. destruct (evolves_ok _ _ _ _ Hok Hj He) as [Hc Hu].
  apply wp_save_job; [done|]. intros H. by rewrite Hc, Hu in H.
Qed.

Lemma wp_begin_nested {A} (m : txn DB A) Q s :
  wp m (λ o s', match o with Ret a => Q (Ret a) s' | Raise e => Q (Raise e) s end) s →
  wp (begin_nested m) Q s.
Proof. Transparent wp. unfold wp, begin_nested. by destruct (m s) as [[a|e] s']. Opaque wp. Qed.

Lemma keeps_begin_nested {A} I (m : txn DB A) : keeps I m → keeps I (begin_nested m).
Proof.
  intros Hm s Hs. apply wp_begin_nested. eapply wp_keeps; [done..|]. by intros [] s' ?.
Qed.

(** The queue as a table. *)
#[export] Instance jobs_table : Table PlatformJob.
Proof.
  refine (mk_table _ _ DB.platform_jobs (λ f d, d <| DB.platform_jobs ::= f |>) job_checks
    job_conflict _ _ _ _ job_conflict_sym).
  - by intros.
  - by intros.
  - intros f g [] E. cbn in E |- *. unfold upd. cbn. by rewrite E.
  - by intros [].
Defined.

Lemma jobs_ok_sound d : jobs_ok d ↔ sound PlatformJob d.
Proof. split; intros []; by split. Qed.

(** An invariant that does not look at the queue: whatever only enqueues keeps
    it. *)
Class StableQueue (I : DB → Prop) : Prop :=
  stable_queue : ∀ d f, I d → I (d <| DB.platform_jobs ::= f |>).

(** Enqueueing changes the queue and the audit log, nothing else. *)
Lemma wp_enqueue_frame i c now o t r key pl av pr mx co pa ac Q s :
  (∀ out f g, Q out (Sess (committed s)
     ((working s) <| DB.platform_jobs ::= f |> <| DB.audit ::= g |>))) →
  wp (enqueue i c now o t r key pl av pr mx co pa ac) Q s.
Proof.
  intros HQ.
  assert (∀ out, Q out s) as HQ0.
  { intros out. specialize (HQ out id id). destruct s as [dc []]. exact HQ. }
  assert (∀ out g, Q out (Sess (committed s) ((working s) <| DB.audit ::= g |>))) as HQ1.
  { intros out g. specialize (HQ out id g). destruct s as [dc []]. exact HQ. }
  unfold enqueue. destruct (_validated_payload _) as [pl'|e]; wp_go; [|done].
  apply wp_begin_nested. unfold save_job, record_audit. wp_go; try done.
Qed.

Lemma keeps_enqueue I `{!StableAudit I, !StableQueue I} i c now o t r key pl av pr mx co pa ac :
  keeps I (enqueue i c now o t r key pl av pr mx co pa ac).
Proof.
  intros s [Hc Hw]. apply wp_enqueue_frame. split; cbn; [done|].
  by apply stable_audit, stable_queue.
Qed.
#[export] Hint Resolve keeps_enqueue : keeps.

(** The job that [enqueue] adds. *)
Definition new_job (i c : uuid) (now : timestamp) (o : uuid) (t : PlatformJobType) (r : uuid)
    (key : string) (pl : pydict) (av : option timestamp) (pr mx : Z) (co pa : option uuid)
    : PlatformJob :=
  Job.mk i o t PlatformJobStatus.AVAILABLE r (PDict pl) (str_take 160 key) pr 0 mx now
    (default now av) None None None 0 None None None None None None None None (default c co) pa now.

(** A job with a new key for a reference without an active job is added. *)
Lemma wp_enqueue_new i c now o t r key pl pl' av pr mx co pa ac Q s :
  let j := new_job i c now o t r key pl' av pr mx co pa in
  _validated_payload (default [] pl) = inl pl' →
  job_checks j = true → unique_ok true job_conflict j (DB.platform_jobs (working s)) = true →
  (∀ f, Q (Ret (j, true)) (Sess (committed s)
     ((working s) <| DB.platform_jobs ::= put j |> <| DB.audit ::= f |>))) →
  wp (enqueue i c now o t r key pl av pr mx co pa ac) Q s.
Proof.
  intros j Hpl Hc Hu HQ. unfold enqueue. rewrite Hpl. apply wp_bind, wp_try, wp_bind, wp_begin_nested.
  apply wp_save_job; [intros _ _|intros H]; last first.
  { change (job_checks j && unique_ok true job_conflict j (DB.platform_jobs (working s)) = false)
      in H. by rewrite Hc, Hu in H. }
  apply wp_ret. cbn beta iota. apply wp_bind. unfold record_audit. apply wp_modify, wp_ret. apply HQ.
Qed.
#[export] Hint Extern 1 (StableQueue _) => typeclasses eauto : keeps.

(** What [start], [heartbeat], [succeed] and [fail] share. *)
Definition leased_update (i t : uuid) (st : PlatformJobStatus) (f : PlatformJob → PlatformJob)
    : txn DB PlatformJob :=
  job ← _leased i t st;
  _ ← save_job false (f job);
  _ ← commit;
  mret (f job).

(** The job [i] is leased under the token [t] and has the status [st]. *)
Definition owns (i t : uuid) (st : PlatformJobStatus) (d : DB) (j : PlatformJob) : Prop :=
  DB.platform_jobs d !! i = Some j ∧ Job.lease_token j = Some t ∧ Job.status j = st.

Lemma leased_Some i t st d j :
  keyed (DB.platform_jobs d) →
  find_row (λ j, (Job.id j ≟ i) && (Job.lease_token j ≟ Some t) && (Job.status j ≟ st))
    (DB.platform_jobs d) = Some j ↔ owns i t st d j.
Proof.
  intros Hk. unfold owns.
  rewrite (find_row_pinned _ (λ j, (Job.lease_token j ≟ Some t) && (Job.status j ≟ st)) _ i);
    [|done|intros; by rewrite andb_assoc].
  by rewrite andb_true_iff, !bool_decide_eq_true.
Qed.

Lemma leased_update_spec i t st f d out d' :
  jobs_ok d →
  (∀ j, job_checks j = true → Job.lease_token j = Some t → Job.status j = st →
     evolves j (f j)) →
  run (leased_update i t st f) d = (out, d') →
  match out with
  | Ret j' => ∃ j, owns i t st d j ∧ j' = f j ∧ evolves j j'
                   ∧ d' = d <| DB.platform_jobs ::= put j' |>
  | Raise e => e = ConflictError "stale_job_lease" ∧ d' = d ∧ ∀ j, ¬ owns i t st d j
  end.
Proof.
  intros Hok Hf H. pose proof Hok as [Hk Hc Hu]. wp_run_in H.
  unfold leased_update, _leased. wp_go.
  2: { split_and!; [done..|]. intros j Hj%leased_Some; [|done]. cbn in *. congruence. }
  match goal with H : find_row _ _ = Some ?a |- _ =>
    apply leased_Some in H as Ho; [|done]; pose proof Ho as (Hl & Ht & Hs);
    pose proof (Hf a (Hc _ _ Hl) Ht Hs) as He end.
  eapply wp_save_evolves; [done..|]. wp_go. eauto 10.
Qed.

(** Evaluates the status tests on constants. *)
Ltac eval_lease :=
  repeat match goal with
  | |- context [holds_lease ?c] =>
      let b := eval vm_compute in (holds_lease c) in
      match b with true => idtac | false => idtac end; change (holds_lease c) with b
  | H : context [holds_lease ?c] |- _ =>
      let b := eval vm_compute in (holds_lease c) in
      match b with true => idtac | false => idtac end; change (holds_lease c) with b in H
  end.

(** Closes [evolves] goals about updates of a row. *)
Ltac evolve :=
  split; try done;
  unfold active, job_checks in *; cbn in *;
  repeat match goal with H : Job.status _ = _ |- _ => rewrite H in * end; cbn in *; try done;
  eval_lease; intros; bools; rewrite ?andb_true_iff; split_and!; try done; try lia; try (by apply negb_true_iff).

(** ** The worker's steps *)

Definition after_start (now : timestamp) (job : PlatformJob) : PlatformJob :=
  job <| Job.status := PlatformJobStatus.RUNNING |> <| Job.started_at := Some now |>.
Definition after_heartbeat (now lease_seconds : Z) (job : PlatformJob) : PlatformJob :=
  job <| Job.lease_expires_at := Some (now + seconds lease_seconds)%Z |>.
Definition after_succeed (now : timestamp) (r : option string) (job : PlatformJob)
    : PlatformJob :=
  _clear_lease (job
    <| Job.status := PlatformJobStatus.SUCCEEDED |>
    <| Job.completed_at := Some now |>
    <| Job.result_reference :=
         match r with
         | Some r => if nonempty r then Some (str_take 255 r) else None
         | None => None
         end |>).

(** A step of a worker that names its lease. *)
Inductive worker_op :=
| WStart
| WHeartbeat (lease_seconds : Z)
| WSucceed (result_reference : option string)
| WFail (error_code error_summary : string) (retryable : bool) (retry_after_seconds : option Z).

Definition run_worker (o : worker_op) (now : timestamp) (i t : uuid) : txn DB PlatformJob :=
  match o with
  | WStart => start now i t
  | WHeartbeat s => heartbeat now i t s
  | WSucceed r => succeed now i t r
  | WFail c s b ra => fail now i t c s b ra
  end.
Definition worker_status (o : worker_op) : PlatformJobStatus :=
  match o with WStart => PlatformJobStatus.LEASED | _ => PlatformJobStatus.RUNNING end.
Definition worker_update (o : worker_op) (now : timestamp) : PlatformJob → PlatformJob :=
  match o with
  | WStart => after_start now
  | WHeartbeat s => after_heartbeat now s
  | WSucceed r => after_succeed now r
  | WFail c s b ra => after_fail now c s b ra
  end.

Lemma run_worker_eq o now i t :
  run_worker o now i t = leased_update i t (worker_status o) (worker_update o now).
Proof. by destruct o. Qed.

Lemma worker_evolves o now t j :
  job_checks j = true → Job.lease_token j = Some t → Job.status j = worker_status o →
  evolves j (worker_update o now j)
  ∧ (Job.lease_token (worker_update o now j) = Some t
     ∨ Job.lease_token (worker_update o now j) = None).
Proof.
  intros Hc Ht Hs. destruct o as [|s|r|c s b ra]; cbn in *.
  4: unfold after_fail; destruct b; cbn;
     [destruct (_ <? _)%Z eqn:E; cbn|].
  all: split; [evolve|auto].
Qed.

Lemma worker_spec o now i t d out d' :
  jobs_ok d → run (run_worker o now i t) d = (out, d') →
  match out with
  | Ret j' => ∃ j, owns i t (worker_status o) d j ∧ j' = worker_update o now j
                   ∧ evolves j j' ∧ d' = d <| DB.platform_jobs ::= put j' |>
  | Raise e => e = ConflictError "stale_job_lease" ∧ d' = d
               ∧ ∀ j, ¬ owns i t (worker_status o) d j
  end.
Proof.
  intros Hok. rewrite run_worker_eq. apply leased_update_spec; [done|].
  intros j ???. by apply (worker_evolves o now t).
Qed.

(** ** The other operations *)

Lemma before_total a b : before a b = true ∨ before b a = true.
Proof. unfold before. lia. Qed.
Lemma before_trans a b c : before a b = true → before b c = true → before a c = true.
Proof. unfold before. lia. Qed.

(** What [acquire] writes. *)
Definition after_acquire (tok : uuid) (worker_id : string) (ls now : Z) (job : PlatformJob)
    : PlatformJob :=
  job <| Job.status := PlatformJobStatus.LEASED |>
      <| Job.worker_id := Some (str_take 128 worker_id) |>
      <| Job.lease_token := Some tok |>
      <| Job.lease_generation ::= λ g, (g + 1)%Z |>
      <| Job.leased_at := Some now |>
      <| Job.lease_expires_at := Some (now + seconds ls)%Z |>
      <| Job.attempt_count ::= λ n, (n + 1)%Z |>
      <| Job.started_at := None |>.

Lemma acquirable_active now j : acquirable now j = true → active j = true.
Proof.
  unfold acquirable, active, holds_lease.
  intros [[H _]%andb_true_iff|[H _]%andb_true_iff]%orb_true_iff; bools;
    apply bool_decide_eq_true; unfold ACTIVE_STATUSES; set_solver.
Qed.

Lemma acquire_spec tok w ls now d out d' :
  jobs_ok d → run (acquire tok w ls now) d = (out, d') →
  match out with
  | Raise _ => False
  | Ret None => d' = d ∧ ∀ k j, DB.platform_jobs d !! k = Some j → acquirable now j = false
  | Ret (Some j') => ∃ j, DB.platform_jobs d !! Job.id j = Some j ∧ acquirable now j = true
      ∧ (∀ k r, DB.platform_jobs d !! k = Some r → acquirable now r = true →
           before j r = true)
      ∧ j' = after_acquire tok w ls now j ∧ evolves j j'
      ∧ d' = d <| DB.platform_jobs ::= put j' |>
  end.
Proof.
  intros Hok H. pose proof Hok as [Hk Hc Hu]. wp_run_in H. unfold acquire. wp_step. wp_step.
  cbn [working]. destruct (first_by _ _) as [j|] eqn:E.
  2: { wp_go. apply first_by_None in E. split; [done|]. intros k j Hj.
       apply not_true_iff_false. intros Ha. eapply (not_elem_of_nil j). rewrite <-E.
       apply elem_of_filter_rows. eauto. }
  apply first_by_Some in E as [Hj Hmin]; [|apply before_total|apply before_trans].
  apply elem_of_filter_rows in Hj as [Ha [k Hj]].
  assert (DB.platform_jobs d !! Job.id j = Some j) as Hid
    by (pose proof (Hk _ _ Hj) as <-; exact Hj).
  assert (evolves j (after_acquire tok w ls now j)) as He.
  { pose proof (acquirable_active _ _ Ha). evolve. }
  wp_step. eapply wp_save_evolves; [done..|]. wp_go. exists j. split_and!; try done.
  intros k' r Hr Har. apply Hmin, elem_of_filter_rows. eauto.
Qed.

(** A management operation on the job [i] of the organization [o]: the actor
    may manage jobs there, and [old] becomes [new]. *)
Definition job_change (o i : uuid) (actor : User) (d d' : DB) (old new : PlatformJob) : Prop :=
  (∃ am, active_membership o (User.id actor) d = Some am
         ∧ role_has_capability (OrganizationMembership.role am) Capability.JOBS_MANAGE = true)
  ∧ DB.platform_jobs d !! i = Some old ∧ Job.organization_id old = o
  ∧ ∃ ev, d' = d <| DB.platform_jobs ::= put new |> <| DB.audit ::= λ l, l ++ [ev] |>.

Definition after_cancel (now : timestamp) (job : PlatformJob) : PlatformJob :=
  _clear_lease (job
    <| Job.status := PlatformJobStatus.CANCELLED |>
    <| Job.completed_at := Some now |>).
Definition after_requeue (now : timestamp) (job : PlatformJob) : PlatformJob :=
  _clear_lease (job
    <| Job.status := PlatformJobStatus.AVAILABLE |>
    <| Job.available_at := now |>
    <| Job.attempt_count := 0%Z |>
    <| Job.failed_at := None |>
    <| Job.dead_lettered_at := None |>
    <| Job.completed_at := None |>
    <| Job.last_error_code := None |>
    <| Job.last_error_summary := None |>).

Lemma scoped_Some i o d j :
  keyed (DB.platform_jobs d) →
  find_row (λ j, (Job.id j ≟ i) && (Job.organization_id j ≟ o)) (DB.platform_jobs d) = Some j
  ↔ DB.platform_jobs d !! i = Some j ∧ Job.organization_id j = o.
Proof.
  intros Hk. rewrite (find_row_pinned _ (λ j, Job.organization_id j ≟ o) _ i) by done.
  by rewrite bool_decide_eq_true.
Qed.

Lemma cancel_spec now o i a d out d' :
  jobs_ok d → run (cancel now o i a) d = (out, d') →
  match out with
  | Raise e => e ≠ IntegrityError ∧ d' = d
  | Ret j' => ∃ j, terminal j = false ∧ j' = after_cancel now j ∧ evolves j j'
                   ∧ job_change o i a d d' j j'
  end.
Proof.
  intros Hok H. pose proof Hok as [Hk Hc Hu]. wp_run_in H.
  unfold cancel, get_scoped. wp_go; try done.
  match goal with H : find_row _ _ = Some ?j |- _ =>
    apply scoped_Some in H as [Hj Ho]; [|done]; assert (evolves j (after_cancel now j)) as He
  end.
  { bools. unfold terminal in *. evolve. }
  eapply wp_save_evolves; [done..|]. wp_go. bools. eexists. split_and!; [done..|].
  unfold job_change. eauto 10.
Qed.

Lemma requeue_spec now o i a d out d' :
  jobs_ok d → run (requeue now o i a) d = (out, d') →
  match out with
  | Raise e => d' = d
  | Ret j' => ∃ j, Job.status j ∈ [PlatformJobStatus.FAILED; PlatformJobStatus.DEAD_LETTERED;
                                   PlatformJobStatus.CANCELLED]
                   ∧ j' = after_requeue now j ∧ job_checks j' = true
                   ∧ unique_ok false job_conflict j' (DB.platform_jobs d) = true
                   ∧ job_change o i a d d' j j'
  end.
Proof.
  intros Hok H. pose proof Hok as [Hk Hc Hu]. wp_run_in H.
  unfold requeue, get_scoped. wp_go; try done.
  match goal with H : find_row _ _ = Some ?j |- _ =>
    apply scoped_Some in H as [Hj Ho]; [|done] end.
  apply wp_save_job; intros; [|done]. wp_go. bools. eexists. split_and!; [done..|].
  unfold job_change. eauto 10.
Qed.

(** A request for a new job, as [enqueue] receives it. *)
Record enqueue_request := {
  er_id : uuid; er_correlation : uuid; er_now : timestamp; er_org : uuid;
  er_type : PlatformJobType; er_ref : uuid; er_key : string; er_payload : option pydict;
  er_available : option timestamp; er_priority : Z; er_max : Z;
  er_corr : option uuid; er_parent : option uuid; er_actor : option uuid
}.
Definition enqueue_of (r : enqueue_request) : txn DB (PlatformJob * bool) :=
  enqueue (er_id r) (er_correlation r) (er_now r) (er_org r) (er_type r) (er_ref r) (er_key r)
    (er_payload r) (er_available r) (er_priority r) (er_max r) (er_corr r) (er_parent r)
    (er_actor r).

(** The job is for the resource and the key of the request. *)
Definition requested (r : enqueue_request) (j : PlatformJob) : Prop :=
  Job.organization_id j = er_org r ∧ Job.job_type j = er_type r
  ∧ (Job.idempotency_key j = str_take 160 (er_key r)
     ∨ Job.reference_id j = er_ref r ∧ active j = true).

Lemma enqueue_spec r d out d' :
  jobs_ok d → run (x ← enqueue_of r; _ ← commit; mret x) d = (out, d') →
  match out with
  | Raise e => d' = d
      ∧ (e = ValueError ∧ _validated_payload (default [] (er_payload r)) = inr ValueError
         ∨ e = ConflictError "job_already_active"
           ∧ ∀ k j, DB.platform_jobs d !! k = Some j → ¬ requested r j)
  | Ret (j, false) => d' = d ∧ requested r j ∧ (∃ k, DB.platform_jobs d !! k = Some j)
      ∧ ∃ p, _validated_payload (default [] (er_payload r)) = inl p
  | Ret (j, true) =>
      Job.id j = er_id r ∧ Job.reference_id j = er_ref r
      ∧ Job.organization_id j = er_org r ∧ Job.job_type j = er_type r
      ∧ Job.idempotency_key j = str_take 160 (er_key r)
      ∧ Job.status j = PlatformJobStatus.AVAILABLE ∧ Job.lease_token j = None
      ∧ Job.attempt_count j = 0%Z ∧ Job.max_attempts j = er_max r
      ∧ (∃ p, Job.payload_json j = PDict p
              ∧ _validated_payload (default [] (er_payload r)) = inl p)
      ∧ job_checks j = true
      ∧ unique_ok true job_conflict j (DB.platform_jobs d) = true
      ∧ ∃ ev, d' = d <| DB.platform_jobs ::= put j |> <| DB.audit ::= λ l, l ++ [ev] |>
  end.
Proof.
  intros Hok H. pose proof Hok as [Hk Hc Hu]. wp_run_in H. unfold enqueue_of, enqueue.
  destruct (_validated_payload _) as [p|e] eqn:Ep; wp_go.
  2: { split; [done|left]. unfold _validated_payload in *.
       destruct (_ && _); simplify_eq. done. }
  match goal with |- context [save_job true ?x] => set (c := x) end.
  assert (∀ j, same_key c j = true ∨ same_reference c j && active j = true ↔ requested r j) as Hreq.
  { intros j. unfold same_key, same_reference, requested.
    rewrite !andb_true_iff, !bool_decide_eq_true. subst c; cbn.
    split; [intros [((?&?)&?)|(((?&?)&?)&?)]|intros (?&?&[?|[? ?]])]; intuition congruence. }
  apply wp_begin_nested, wp_save_job; cbn [working]; intros.
  { unfold record_audit. wp_go. split_and!; try done; eauto. }
  wp_go; try discriminate.
  - split; [done|]. match goal with H : find_row _ _ = Some ?x, H' : Some ?x = _ |- _ =>
      injection H' as <-; apply find_row_Some in H as (k & Hj & Hkey) end.
    split_and!; [apply Hreq; by left|by eauto..].
  - split; [done|]. match goal with H : find_row _ _ = Some _ |- _ =>
      apply find_row_Some in H as (k & Hj & Hkey) end.
    split_and!; [apply Hreq; by right|by eauto..].
  - split; [done|right]. split; [done|]. intros k j Hj [Hr|Hr]%Hreq;
    match goal with H : find_row _ _ = None, H' : find_row _ _ = None |- _ =>
      rewrite find_row_None in H, H'; specialize (H _ _ Hj); specialize (H' _ _ Hj) end;
    cbn in *; congruence.
Qed.

(** * Executions *)

(** A call of the service.  [acquire] draws the token [tok]. *)
Inductive call :=
| CEnqueue (r : enqueue_request)
| CAcquire (tok : uuid) (worker_id : string) (lease_seconds : Z) (now : timestamp)
| CWorker (o : worker_op) (now : timestamp) (i t : uuid)
| CCancel (now : timestamp) (o i : uuid) (actor : User)
| CRequeue (now : timestamp) (o i : uuid) (actor : User).

Definition perform_call (c : call) (d : DB) : DB :=
  match c with
  | CEnqueue r => (run (x ← enqueue_of r; _ ← commit; mret x) d).2
  | CAcquire tok w ls now => (run (acquire tok w ls now) d).2
  | CWorker o now i t => (run (run_worker o now i t) d).2
  | CCancel now o i a => (run (cancel now o i a) d).2
  | CRequeue now o i a => (run (requeue now o i a) d).2
  end.

(** An execution with the tokens drawn so far: [uuid4] never repeats one. *)
Record config := Config { tokens : gset uuid; db : DB }.
Inductive call_step : config → config → Prop :=
| step_acquire tok w ls now c :
    tok ∉ tokens c →
    call_step c (Config ({[tok]} ∪ tokens c) (perform_call (CAcquire tok w ls now) (db c)))
| step_call k c :
    (∀ tok w ls now, k ≠ CAcquire tok w ls now) →
    call_step c (Config (tokens c) (perform_call k (db c))).

(** Every token in the table has been drawn. *)
Definition tokens_known (c : config) : Prop :=
  ∀ k j t, DB.platform_jobs (db c) !! k = Some j → Job.lease_token j = Some t → t ∈ tokens c.
(** No two jobs are leased under one token. *)
Definition tokens_unique (d : DB) : Prop :=
  ∀ k k' j j' t, DB.platform_jobs d !! k = Some j → DB.platform_jobs d !! k' = Some j' →
    Job.lease_token j = Some t → Job.lease_token j' = Some t → k = k'.
Definition config_ok (c : config) : Prop :=
  jobs_ok (db c) ∧ tokens_known c ∧ tokens_unique (db c).

(** The token was drawn and no job is leased under it any more. *)
Definition dead_token (t : uuid) (c : config) : Prop :=
  t ∈ tokens c ∧ ∀ k j, DB.platform_jobs (db c) !! k = Some j → Job.lease_token j ≠ Some t.

(** How one call changes the table. *)
Inductive table_change (toks : option uuid) (d d' : DB) : Prop :=
| tc_same : DB.platform_jobs d' = DB.platform_jobs d → table_change toks d d'
| tc_put fresh j' :
    DB.platform_jobs d' = put j' (DB.platform_jobs d) →
    job_checks j' = true →
    unique_ok fresh job_conflict j' (DB.platform_jobs d) = true →
    (Job.lease_token j' = None ∨ Job.lease_token j' = toks ∨
     ∃ j, DB.platform_jobs d !! Job.id j' = Some j ∧ Job.lease_token j' = Job.lease_token j) →
    table_change toks d d'.

Definition drawn (c : call) : option uuid :=
  match c with CAcquire tok _ _ _ => Some tok | _ => None end.

Lemma perform_call_change c d :
  jobs_ok d → table_change (drawn c) d (perform_call c d).
Proof.
  intros Hok. destruct c as [r|tok w ls now|o now i t|now o i a|now o i a]; cbn [perform_call];
    destruct (run _ d) as [out d'] eqn:E; cbn [snd].
  - apply enqueue_spec in E; [|done]. destruct out as [[j []]|e].
    + destruct E as (? & ? & ? & ? & ? & ? & ? & ? & ? & ? & ? & ? & ev & ->).
      by eapply tc_put; [..|left].
    + destruct E as [-> _]. by apply tc_same.
    + destruct E as [-> _]. by apply tc_same.
  - apply acquire_spec in E; [|done]. destruct out as [[j'|]|e]; [| |done].
    + destruct E as (j & Hj & _ & _ & Ej & He & ->).
      destruct (evolves_ok _ _ _ _ Hok Hj He). eapply tc_put; try done. subst j'. by right; left.
    + destruct E as [-> _]. by apply tc_same.
  - apply worker_spec in E; [|done]. destruct out as [j'|e].
    + destruct E as (j & (Hj & Ht & Hs) & -> & He & ->).
      destruct (evolves_ok _ _ _ _ Hok Hj He) as [Hc Hu]. eapply tc_put; try done.
      destruct (worker_evolves o now t j) as [_ [Hl|Hl]]; [|done..| |by left].
      { by apply (jo_checks _ Hok i). }
      right; right. exists j. split; [|congruence]. rewrite (ev_id _ _ He).
      pose proof (jo_keyed _ Hok _ _ Hj) as <-. exact Hj.
    + destruct E as (_ & -> & _). by apply tc_same.
  - apply cancel_spec in E; [|done]. destruct out as [j'|e].
    + destruct E as (j & _ & -> & He & _ & Hj & _ & ev & ->).
      destruct (evolves_ok _ _ _ _ Hok Hj He). eapply tc_put; try done. by left.
    + destruct E as [_ ->]. by apply tc_same.
  - apply requeue_spec in E; [|done]. destruct out as [j'|e].
    + destruct E as (j & _ & -> & Hc & Hu & _ & Hj & _ & ev & ->). eapply tc_put; try done. by left.
    + subst. by apply tc_same.
Qed.

Lemma table_change_ok toks d d' : table_change toks d d' → jobs_ok d → jobs_ok d'.
Proof.
  intros [E|fresh j' E ? ? _] [Hk Hc Hu]; split; rewrite E; eauto using unique_index_put with rows.
Qed.

(** Tokens do not appear out of nowhere, nor move to another job. *)
Lemma table_change_token toks d d' k j t :
  table_change toks d d' → DB.platform_jobs d' !! k = Some j → Job.lease_token j = Some t →
  toks = Some t ∨ ∃ j0, DB.platform_jobs d !! k = Some j0 ∧ Job.lease_token j0 = Some t.
Proof.
  intros [E|fresh j' E _ _ Hl]; rewrite E; [eauto|]. unfold put. rewrite lookup_insert.
  case_decide as Hk; [|eauto]. intros [= <-] Ht. change (Job.id j' = k) in Hk. subst k.
  destruct Hl as [Hl|[Hl|(j0 & ? & Hl)]]; [congruence|left; congruence|].
  right. exists j0. split; [done|congruence].
Qed.

Lemma perform_tokens k c :
  config_ok c → (∀ t, drawn k = Some t → t ∉ tokens c) →
  tokens_unique (perform_call k (db c)).
Proof.
  intros (Hok & Hkn & Hun) Hnew i i' j j' t Hj Hj' Ht Ht'.
  pose proof (perform_call_change k _ Hok) as Hc.
  destruct (table_change_token _ _ _ _ _ _ Hc Hj Ht) as [E|(j0 & Hj0 & Ht0)].
  - assert (t ∉ tokens c) as Hn by auto.
    destruct Hc as [Ec|fresh r Ec _ _ _].
    { destruct Hn. apply (Hkn i j); [by rewrite <-Ec|done]. }
    assert (∀ i j, DB.platform_jobs (perform_call k (db c)) !! i = Some j →
      Job.lease_token j = Some t → i = row_id r) as Hrow; [|by rewrite (Hrow i j), (Hrow i' j')].
    intros i1 j1 Hj1 Ht1. rewrite Ec in Hj1. unfold put in Hj1.
    rewrite lookup_insert in Hj1. case_decide; [done|]. destruct Hn. eauto.
  - destruct (table_change_token _ _ _ _ _ _ Hc Hj' Ht') as [E'|(j0' & Hj0' & Ht0')]; [|eauto].
    exfalso. apply (Hnew t E'). eauto.
Qed.

Lemma call_step_call c c' :
  call_step c c' → ∃ k, db c' = perform_call k (db c)
    ∧ (∀ t, drawn k = Some t → t ∉ tokens c) ∧ tokens c ⊆ tokens c'
    ∧ (∀ t, drawn k = Some t → t ∈ tokens c').
Proof.
  intros [tok w ls now c0 Hn|k c0 Hk].
  - exists (CAcquire tok w ls now). cbn. split_and!; try done; [|set_solver|].
    + by intros t [= <-].
    + intros t [= <-]. set_solver.
  - exists k. split_and!; try done; intros t Ht; destruct k; try done; exfalso; by eapply Hk.
Qed.

Lemma call_step_ok c c' : call_step c c' → config_ok c → config_ok c'.
Proof.
  intros (k & Ed & Hnew & Hsub & Hin)%call_step_call Hc. pose proof Hc as (Hok & Hkn & Hun).
  pose proof (perform_call_change k _ Hok) as Htc. unfold config_ok, tokens_known. rewrite Ed.
  split_and!; [by eapply table_change_ok| |by apply perform_tokens].
  intros i j t Hj Hl.
  destruct (table_change_token _ _ _ _ _ _ Htc Hj Hl) as [E|(j0 & ? & ?)]; [auto|eauto].
Qed.

Lemma call_step_dead c c' t : call_step c c' → config_ok c → dead_token t c → dead_token t c'.
Proof.
  intros (k & Ed & Hnew & Hsub & Hin)%call_step_call (Hok & Hkn & Hun) [Ht Hd].
  pose proof (perform_call_change k _ Hok) as Htc. split; [set_solver|]. rewrite Ed.
  intros i j Hj Hl.
  destruct (table_change_token _ _ _ _ _ _ Htc Hj Hl) as [E|(j0 & H0 & ?)];
    [by apply (Hnew t)|by apply (Hd i j0)].
Qed.

Lemma call_steps_dead c c' t :
  rtc call_step c c' → config_ok c → dead_token t c → config_ok c' ∧ dead_token t c'.
Proof.
  induction 1; [done|]. intros. apply IHrtc; [by eapply call_step_ok|by eapply call_step_dead].
Qed.

(** A token taken off its job is dead. *)
Lemma call_step_kills c c' i j j' t :
  call_step c c' → config_ok c →
  DB.platform_jobs (db c) !! i = Some j → Job.lease_token j = Some t →
  DB.platform_jobs (db c') !! i = Some j' → Job.lease_token j' ≠ Some t →
  dead_token t c'.
Proof.
  intros (k & Ed & Hnew & Hsub & Hin)%call_step_call (Hok & Hkn & Hun) Hj Ht Hj' Ht'.
  pose proof (perform_call_change k _ Hok) as Htc. split; [apply Hsub; eauto|].
  rewrite Ed in *. intros i2 j2 Hj2 Hl2.
  destruct (table_change_token _ _ _ _ _ _ Htc Hj2 Hl2) as [E|(j0 & H0 & ?)].
  - apply (Hnew t E). eauto.
  - assert (i2 = i) as -> by eauto. congruence.
Qed.

(** * Theorems *)

(** C13. The lease is a fence.  Once any call has taken the lease token [t] off
    the job that held it (its lease expired and another worker acquired the
    job, the job was cancelled, finished or failed), then after every further
    sequence of calls, in which [acquire] draws unused tokens, whatever the
    former holder tries with [t] on any job is refused with stale_job_lease
    and changes nothing. *)
Theorem lost_lease_stays_lost c c1 c2 i j j' t :
  config_ok c → call_step c c1 →
  DB.platform_jobs (db c) !! i = Some j → Job.lease_token j = Some t →
  DB.platform_jobs (db c1) !! i = Some j' → Job.lease_token j' ≠ Some t →
  rtc call_step c1 c2 →
  ∀ o now i', run (run_worker o now i' t) (db c2)
              = (Raise (ConflictError "stale_job_lease"), db c2).
Proof.
  intros Hc Hs Hj Ht Hj' Ht' Hrtc o now i'.
  destruct (call_steps_dead _ _ t Hrtc) as [[Hok _] [_ Hdead]];
    [by eapply call_step_ok|by eapply call_step_kills|].
  destruct (run _ _) as [out d'] eqn:E. apply worker_spec in E; [|done].
  destruct out as [r|e].
  - destruct E as (j0 & (Hj0 & Hl & _) & _). exfalso. by apply (Hdead i' j0).
  - by destruct E as (-> & -> & _).
Qed.

(** C14. The queue keeps its constraints by itself.  From a table that
    satisfies the CHECK constraints and the unique indexes, every sequence of
    calls leads to one that does, with every lease token in use by one job
    only; and no enqueue, acquire, worker step or cancellation ever fails with
    an integrity error. *)
Theorem queue_stays_consistent c c' :
  config_ok c → rtc call_step c c' →
  config_ok c' ∧ ∀ k d', (∀ now o i a, k ≠ CRequeue now o i a) →
    match k with
    | CEnqueue r => run (x ← enqueue_of r; _ ← commit; mret x) (db c') ≠ (Raise IntegrityError, d')
    | CAcquire tok w ls now => run (acquire tok w ls now) (db c') ≠ (Raise IntegrityError, d')
    | CWorker o now i t => run (run_worker o now i t) (db c') ≠ (Raise IntegrityError, d')
    | CCancel now o i a => run (cancel now o i a) (db c') ≠ (Raise IntegrityError, d')
    | CRequeue _ _ _ _ => True
    end.
Proof.
  intros Hc Hs. assert (config_ok c') as Hc' by (induction Hs; eauto using call_step_ok).
  split; [done|]. destruct Hc' as [Hok _].
  intros [r|tok w ls now|o now i t|now o i a|now o i a] d' _; try done; intros E.
  - apply enqueue_spec in E; [|done]. by destruct E as [_ [[??]|[??]]].
  - by apply acquire_spec in E.
  - apply worker_spec in E; [|done]. by destruct E.
  - apply cancel_spec in E; [|done]. by destruct E.
Qed.

(** [acquire] takes the right job: one that is due (available, or leased
    with an expired lease), such that no other due job comes before it by
    priority, then availability, then age.  It is leased to the worker for
    the lease time under the new token, with one more attempt and one more
    lease generation.  It returns nothing exactly when no job is due. *)
Theorem acquire_takes_the_first_due_job tok w ls now d out d' :
  jobs_ok d → run (acquire tok w ls now) d = (out, d') →
  match out with
  | Raise _ => False
  | Ret None => d' = d ∧ ∀ k j, DB.platform_jobs d !! k = Some j → acquirable now j = false
  | Ret (Some j') => ∃ j,
      DB.platform_jobs d !! Job.id j = Some j ∧ acquirable now j = true
      ∧ (∀ k r, DB.platform_jobs d !! k = Some r → acquirable now r = true → before j r = true)
      ∧ Job.id j' = Job.id j ∧ Job.status j' = PlatformJobStatus.LEASED
      ∧ Job.lease_token j' = Some tok
      ∧ Job.lease_expires_at j' = Some (now + seconds ls)%Z
      ∧ Job.attempt_count j' = (Job.attempt_count j + 1)%Z
      ∧ Job.lease_generation j' = (Job.lease_generation j + 1)%Z
      ∧ DB.platform_jobs d' = <[Job.id j := j']> (DB.platform_jobs d)
  end.
Proof.
  intros Hok E%acquire_spec; [|done]. destruct out as [[j'|]|e]; [|done..].
  destruct E as (j & Hj & Ha & Hmin & -> & He & ->). exists j. by split_and!.
Qed.

Lemma after_fail_fields now c m b ra j :
  let j' := after_fail now c m b ra j in
  Job.lease_token j' = None ∧ Job.attempt_count j' = Job.attempt_count j
  ∧ Job.last_error_code j' = Some (str_take 100 (smap code_char (lower c)))
  ∧ Job.last_error_summary j' = Some (str_take MAX_ERROR_SUMMARY (redact_text m))
  ∧ if b then
      if (Job.attempt_count j <? Job.max_attempts j)%Z then
        Job.status j' = PlatformJobStatus.RETRY_WAIT
        ∧ Job.available_at j' = (now + seconds (Z.max 1
            match ra with
            | Some s => if (s =? 0)%Z then Z.min 900 (2 ^ Z.min (Job.attempt_count j) 9) else s
            | None => Z.min 900 (2 ^ Z.min (Job.attempt_count j) 9)
            end))%Z
      else Job.status j' = PlatformJobStatus.DEAD_LETTERED
           ∧ Job.dead_lettered_at j' = Some now ∧ Job.failed_at j' = Some now
    else Job.status j' = PlatformJobStatus.FAILED ∧ Job.failed_at j' = Some now.
Proof.
  unfold after_fail. destruct b; [|done]. cbn [andb].
  change (Job.attempt_count _) with (Job.attempt_count j) at 1.
  change (Job.max_attempts _) with (Job.max_attempts j) at 1.
  destruct (_ <? _)%Z; done.
Qed.

Lemma backoff_bounds n : (0 ≤ n → 1 ≤ Z.min 900 (2 ^ Z.min n 9) ≤ 512)%Z.
Proof.
  intros Hn. assert (2 ^ 0 ≤ 2 ^ Z.min n 9)%Z by (apply Z.pow_le_mono_r; lia).
  assert (2 ^ Z.min n 9 ≤ 2 ^ 9)%Z by (apply Z.pow_le_mono_r; lia). lia.
Qed.

(** A recorded failure decides the job's future: a retryable one puts the
    job back to wait between 1 second and the larger of 512 seconds and the
    hint of the error, as long as attempts are left, and dead-letters it
    otherwise; any other failure is final.  In every case the lease is given
    up, the stored code has at most 100 and the summary at most 500
    characters, and the attempts are unchanged. *)
Theorem fail_decides now i t code_ summary retryable ra d j' d' :
  jobs_ok d → run (fail now i t code_ summary retryable ra) d = (Ret j', d') →
  ∃ j, owns i t PlatformJobStatus.RUNNING d j
    ∧ DB.platform_jobs d' = <[Job.id j := j']> (DB.platform_jobs d)
    ∧ Job.lease_token j' = None ∧ Job.attempt_count j' = Job.attempt_count j
    ∧ (∃ c, Job.last_error_code j' = Some c ∧ String.length c ≤ 100)
    ∧ (∃ m, Job.last_error_summary j' = Some m ∧ String.length m ≤ 500)
    ∧ if retryable then
        if (Job.attempt_count j <? Job.max_attempts j)%Z then
          Job.status j' = PlatformJobStatus.RETRY_WAIT
          ∧ (now + seconds 1 ≤ Job.available_at j'
             ≤ now + seconds (Z.max 512 (default 0 ra)))%Z
        else Job.status j' = PlatformJobStatus.DEAD_LETTERED
             ∧ Job.dead_lettered_at j' = Some now ∧ Job.failed_at j' = Some now
      else Job.status j' = PlatformJobStatus.FAILED ∧ Job.failed_at j' = Some now.
Proof.
  intros Hok E. change (fail now i t code_ summary retryable ra)
    with (run_worker (WFail code_ summary retryable ra) now i t) in E.
  apply worker_spec in E; [|done]. destruct E as (j & Ho & -> & He & ->). exists j.
  pose proof (jo_checks _ Hok i j (proj1 Ho)) as Hc. cbn in Hc.
  assert (0 ≤ Job.attempt_count j)%Z as Hn by (unfold job_checks in Hc; bools; lia).
  split; [done|]. split; [by rewrite <-(ev_id _ _ He)|].
  destruct (after_fail_fields now code_ summary retryable ra j) as (Hl & Hat & Hcode & Hsum & Hst).
  cbn [worker_update].
  split; [exact Hl|]. split; [exact Hat|].
  split; [by eexists; split; [exact Hcode|apply str_take_length]|].
  split; [by eexists; split; [exact Hsum|apply str_take_length]|].
  destruct retryable; [|exact Hst].
  destruct (Job.attempt_count j <? Job.max_attempts j)%Z; [|exact Hst].
  destruct Hst as [-> ->]. split; [done|].
  pose proof (backoff_bounds _ Hn). unfold seconds.
  destruct ra as [s|]; [destruct (s =? 0)%Z eqn:Es|]; unfold default, from_option, id; lia.
Qed.

(** Enqueueing is idempotent: once a request has been accepted (as a new
    job or as an existing one), repeating it with any other identifiers and
    times, in the state it left, returns a job of the same key or of the same
    active resource, reports that nothing was created, and changes nothing. *)
Theorem enqueue_idempotent r r' d j b d' out d'' :
  jobs_ok d → run (x ← enqueue_of r; _ ← commit; mret x) d = (Ret (j, b), d') →
  er_org r' = er_org r → er_type r' = er_type r → er_ref r' = er_ref r →
  er_key r' = er_key r → er_payload r' = er_payload r →
  run (x ← enqueue_of r'; _ ← commit; mret x) d' = (out, d'') →
  ∃ j', out = Ret (j', false) ∧ d'' = d' ∧ requested r j'.
Proof.
  intros Hok E1 Ho Ht Hr Hk Hp E2.
  assert (∃ k0 j0, DB.platform_jobs d' !! k0 = Some j0 ∧ requested r j0) as (k0 & j0 & Hj0 & Hreq).
  { apply enqueue_spec in E1; [|done]. destruct b.
    - destruct E1 as (? & ? & ? & ? & ? & ? & ? & ? & ? & ? & ? & ? & ev & ->).
      exists (Job.id j), j. split; [by apply lookup_insert_eq|]. split_and!; try done. by left.
    - destruct E1 as (-> & ? & [k ?] & _). eauto. }
  assert (jobs_ok d' ∧ ∃ p, _validated_payload (default [] (er_payload r)) = inl p)
    as [Hok' [p Hpl]].
  { apply enqueue_spec in E1; [|done]. destruct b.
    - destruct E1 as (? & ? & ? & ? & ? & ? & ? & ? & ? & (p & _ & ?) & ? & ? & ev & ->).
      split; [|eauto]. by apply jobs_ok_audit, (jobs_ok_put d true).
    - destruct E1 as (-> & _ & _ & ?). by split. }
  assert (∀ j, requested r' j ↔ requested r j) as Hrr.
  { intros ?. unfold requested. by rewrite Ho, Ht, Hr, Hk. }
  apply enqueue_spec in E2; [|done]. destruct out as [[j' []]|e].
  - exfalso. destruct E2 as (Hid & Href & Horg & Hty & Hkey & Hst & _ & _ & _ & _ & _ & Hun & _).
    apply unique_ok_true in Hun as [Hfree Hun]. specialize (Hfree eq_refl).
    assert (job_conflict j' j0 = true) as Hcf.
    { assert (active j' = true) as Hact by (unfold active; by rewrite Hst).
      unfold job_conflict, same_key, same_reference.
      rewrite orb_true_iff, !andb_true_iff, !bool_decide_eq_true.
      destruct Hreq as (? & ? & [?|[? ?]]); [left|right]; intuition congruence. }
    pose proof (jo_keyed _ Hok' _ _ Hj0) as Hk0.
    assert (row_id j0 ≠ row_id j') as Hne by congruence.
    specialize (Hun _ _ Hj0 Hne). congruence.
  - destruct E2 as (-> & Hq & _). exists j'. split_and!; [done..|]. by apply Hrr.
  - exfalso. destruct E2 as [_ [[_ E]|[_ E]]]; [rewrite Hp in E; congruence|].
    apply (E _ _ Hj0). by apply Hrr.
Qed.

Lemma active_not_terminal j : active j = true → terminal j = false.
Proof.
  unfold active, terminal. intros H%bool_decide_eq_true. apply bool_decide_eq_false.
  unfold ACTIVE_STATUSES, TERMINAL_STATUSES in *. destruct (Job.status j); set_solver.
Qed.

(** Finished work stays finished: a job that has succeeded, failed, been
    dead-lettered or cancelled is not touched by any later call, except that
    a requeue of that very job makes an unsuccessful one available again. *)
Theorem terminal_jobs_stay c d i j :
  jobs_ok d → DB.platform_jobs d !! i = Some j → terminal j = true →
  DB.platform_jobs (perform_call c d) !! i = Some j
  ∨ ∃ now o a, c = CRequeue now o i a ∧ Job.status j ≠ PlatformJobStatus.SUCCEEDED
    ∧ DB.platform_jobs (perform_call c d) !! i = Some (after_requeue now j).
Proof.
  intros Hok Hj Hterm. pose proof (jo_keyed _ Hok _ _ Hj) as Hid. change (Job.id j = i) in Hid.
  assert (∀ j0 j', Job.id j' = Job.id j0 → Job.id j0 ≠ i →
    put j' (DB.platform_jobs d) !! i = Some j) as Hother.
  { intros j0 j' E Hne. unfold put. rewrite lookup_insert_ne; [done|].
    change (Job.id j' ≠ i). congruence. }
  assert (∀ j0, DB.platform_jobs d !! Job.id j0 = Some j0 → terminal j0 = false →
    Job.id j0 ≠ i) as Hne by (intros j0 H0 ? E0; rewrite E0 in H0; congruence).
  destruct c as [r|tok w ls now|o now i0 t|now o i0 a|now o i0 a]; cbn [perform_call];
    destruct (run _ d) as [out d'] eqn:E; cbn [snd].
  - left. apply enqueue_spec in E; [|done]. destruct out as [[j' []]|e]; [|by destruct E as [-> _]..].
    destruct E as (Hi & _ & _ & _ & _ & _ & _ & _ & _ & _ & _ & Hu & ev & ->). cbn.
    apply unique_ok_true in Hu as [Hfree _]. specialize (Hfree eq_refl).
    unfold put. rewrite lookup_insert_ne; [done|]. congruence.
  - left. apply acquire_spec in E; [|done]. destruct out as [[j'|]|e]; [|by destruct E as [-> _]|done].
    destruct E as (j0 & Hj0 & Ha & _ & _ & He & ->). apply (Hother j0); [apply He|].
    apply Hne; [done|]. apply active_not_terminal. by eapply acquirable_active.
  - left. apply worker_spec in E; [|done]. destruct out as [j'|e]; [|by destruct E as (_ & -> & _)].
    destruct E as (j0 & (Hj0 & _ & Hs) & _ & He & ->). apply (Hother j0); [apply He|].
    pose proof (jo_keyed _ Hok _ _ Hj0) as Hid0. change (Job.id j0 = i0) in Hid0.
    intros Heq. assert (j0 = j) as -> by congruence.
    unfold terminal in Hterm. rewrite Hs in Hterm. by destruct o.
  - left. apply cancel_spec in E; [|done]. destruct out as [j'|e]; [|by destruct E as [_ ->]].
    destruct E as (j0 & Hnt & _ & He & _ & Hj0 & _ & ev & ->). apply (Hother j0); [apply He|].
    pose proof (jo_keyed _ Hok _ _ Hj0) as Hid0. change (Job.id j0 = i0) in Hid0.
    apply Hne; [by rewrite Hid0|done].
  - apply requeue_spec in E; [|done]. destruct out as [j'|e]; [|by subst; left].
    destruct E as (j0 & Hst & -> & _ & _ & _ & Hj0 & _ & ev & ->).
    pose proof (jo_keyed _ Hok _ _ Hj0) as Hid0. change (Job.id j0 = i0) in Hid0.
    destruct (decide (i0 = i)) as [->|Hn]; [right|left; apply (Hother j0); [done|congruence]].
    assert (j0 = j) as -> by congruence. exists now, o, a. split_and!; [done| |].
    + intros Hs. rewrite Hs in Hst. by set_solver.
    + unfold put. change (<[Job.id j := after_requeue now j]> (DB.platform_jobs d) !! i
                          = Some (after_requeue now j)).
      by rewrite Hid, lookup_insert_eq.
Qed.

(** * Witnesses *)

(** One organization, its owner, and an empty queue. *)
Definition request0 : enqueue_request :=
  {| er_id := 100; er_correlation := 101; er_now := 0; er_org := 1;
     er_type := PlatformJobType.EVALUATION; er_ref := 7; er_key := "key";
     er_payload := Some [("account_id", PStr "7")]; er_available := None; er_priority := 0;
     er_max := 3; er_corr := None; er_parent := None; er_actor := None |}.
Definition queue0 : config := Config ∅ acme.
Definition queue1 : config := Config ∅ (perform_call (CEnqueue request0) acme).
Definition acquire_at (tok : uuid) (now : Z) (c : config) : config :=
  Config ({[tok]} ∪ tokens c) (perform_call (CAcquire tok "w" 60 now) (db c)).

Lemma acme_jobs_ok : jobs_ok acme.
Proof.
  assert (DB.platform_jobs acme = ∅) as E by (vm_compute; reflexivity).
  split; rewrite E; auto with rows.
Qed.

Lemma queue0_ok : config_ok queue0.
Proof.
  split_and!; [apply acme_jobs_ok|intros k j t Hj|intros k k' j j' t Hj]; vm_compute in Hj; done.
Qed.

Lemma queue1_step : call_step queue0 queue1.
Proof. by apply (step_call (CEnqueue request0)). Qed.

Lemma queue1_ok : config_ok queue1.
Proof. eapply call_step_ok; [apply queue1_step|apply queue0_ok]. Qed.

Lemma acquire_at_ok tok now c :
  tok ∉ tokens c → config_ok c → call_step c (acquire_at tok now c) ∧ config_ok (acquire_at tok now c).
Proof.
  intros Hn Hc. assert (call_step c (acquire_at tok now c)) by by apply step_acquire.
  split; [done|]. by eapply call_step_ok.
Qed.

Lemma put_singleton (j j' : PlatformJob) :
  Job.id j' = Job.id j → put j' {[Job.id j := j]} = {[Job.id j := j']}.
Proof.
  intros E. unfold put. change (row_id j') with (Job.id j'). rewrite E.
  apply insert_singleton_eq.
Qed.

(** A worker that dies after each [acquire] and is replaced when the lease has
    run out. *)
Lemma crash_loop (n : nat) :
  ∃ c j now, rtc call_step queue1 c ∧ config_ok c
    ∧ DB.platform_jobs (db c) = {[100%N := j]} ∧ Job.id j = 100%N
    ∧ acquirable now j = true ∧ Job.attempt_count j = Z.of_nat n
    ∧ Job.max_attempts j = 3%Z.
Proof.
  induction n as [|n (c & j & now & Hs & Hc & Et & Hid & Ha & Hn & Hm)].
  { destruct (DB.platform_jobs acme !! 100%N) eqn:E0; [vm_compute in E0; discriminate|].
    eexists queue1, _, 0%Z. split; [apply rtc_refl|]. split; [apply queue1_ok|].
    split; [vm_compute; reflexivity|]. by split_and!. }
  set (c' := acquire_at (fresh (tokens c)) now c).
  destruct (acquire_at_ok (fresh (tokens c)) now c) as [Hs' Hc']; [apply is_fresh|done|].
  destruct (run (acquire (fresh (tokens c)) "w" 60 now) (db c)) as [out d'] eqn:E.
  pose proof E as Espec. apply acquire_spec in Espec; [|apply Hc].
  assert (DB.platform_jobs (db c) !! 100%N = Some j) as Hj by (rewrite Et; apply lookup_singleton_eq).
  destruct out as [[j'|]|e]; [| |done].
  2: { destruct Espec as [_ Hnone]. specialize (Hnone _ _ Hj). congruence. }
  destruct Espec as (j0 & Hj0 & _ & _ & -> & He & ->).
  rewrite Et in Hj0. apply lookup_singleton_Some in Hj0 as [_ <-].
  exists c', (after_acquire (fresh (tokens c)) "w" 60 now j), (now + seconds 60)%Z. split; [by eapply rtc_r|]. split; [done|]. split.
  { assert (db c' = (db c) <| DB.platform_jobs ::= put (after_acquire (fresh (tokens c)) "w" 60 now j) |>)
      as -> by (cbn [c' acquire_at db perform_call]; by rewrite E).
    etrans; [|rewrite <-Hid; by apply put_singleton]. by rewrite Hid, <-Et. }
  split_and!; [done| |cbn; lia|done].
  unfold acquirable. cbn [Job.status Job.lease_expires_at].
  rewrite orb_true_iff. right. cbn. by rewrite Z.leb_refl.
Qed.

(** The attempt budget does not bound the attempts.  [acquire] takes a job
    whose lease has expired whatever its attempt count: for every number of
    attempts there is an execution, in which workers die before they report
    an outcome, that leases a job with [max_attempts] 3 that often. *)
Theorem attempts_can_exceed_the_maximum (n : nat) :
  ∃ c j, rtc call_step queue1 c ∧ DB.platform_jobs (db c) !! 100%N = Some j
    ∧ Job.max_attempts j = 3%Z ∧ Job.attempt_count j = Z.of_nat n.
Proof.
  destruct (crash_loop n) as (c & j & now & Hs & _ & Et & _ & _ & Hn & Hm).
  exists c, j. split_and!; [done| |done..]. rewrite Et. apply lookup_singleton_eq.
Qed.

Ltac fresh_token :=
  lazymatch goal with |- ?x ∉ ?X =>
    apply (proj1 (bool_decide_eq_false (x ∈ X))); vm_compute; reflexivity end.

(** The first worker's lease runs out, a second worker takes the job over. *)
Lemma lost_lease_stays_lost_witness :
  run (run_worker (WSucceed None) 70000001 100 1000)
    (db (acquire_at 1001 61000000 (acquire_at 1000 0 queue1)))
  = (Raise (ConflictError "stale_job_lease"),
     db (acquire_at 1001 61000000 (acquire_at 1000 0 queue1))).
Proof.
  destruct (acquire_at_ok 1000 0 queue1) as [_ H1]; [fresh_token|apply queue1_ok|].
  destruct (acquire_at_ok 1001 61000000 (acquire_at 1000 0 queue1)) as [Hs _];
    [fresh_token|exact H1|].
  destruct (DB.platform_jobs (db (acquire_at 1000 0 queue1)) !! 100%N) as [j|] eqn:Ej;
    [|vm_compute in Ej; discriminate].
  destruct (DB.platform_jobs (db (acquire_at 1001 61000000 (acquire_at 1000 0 queue1))) !! 100%N)
    as [j'|] eqn:Ej'; [|vm_compute in Ej'; discriminate].
  eapply (lost_lease_stays_lost _ _ _ 100%N j j'); [exact H1|exact Hs|exact Ej| |exact Ej'| |].
  - vm_compute in Ej. by injection Ej as <-.
  - vm_compute in Ej'. by injection Ej' as <-.
  - apply rtc_refl.
Defined.

Lemma queue_stays_consistent_witness :
  run (cancel 5 1 100 alice) (db queue1) ≠ (Raise IntegrityError, acme).
Proof.
  destruct (queue_stays_consistent queue0 queue1 queue0_ok (rtc_once _ _ queue1_step))
    as [_ H].
  exact (H (CCancel 5 1 100 alice) acme ltac:(discriminate)).
Defined.

Lemma acquire_takes_the_first_due_job_witness :
  ∃ j j' d', run (acquire 1000 "w" 60 0) (db queue1) = (Ret (Some j'), d')
    ∧ DB.platform_jobs (db queue1) !! Job.id j = Some j ∧ Job.attempt_count j' = (Job.attempt_count j + 1)%Z.
Proof.
  destruct (run (acquire 1000 "w" 60 0) (db queue1)) as [out d'] eqn:E.
  pose proof (acquire_takes_the_first_due_job _ _ _ _ _ _ _ (proj1 queue1_ok) E) as H.
  destruct out as [[j'|]|e]; [|vm_compute in E; discriminate|done].
  destruct H as (j & Hj & _ & _ & _ & _ & _ & _ & Ha & _). by exists j, j', d'.
Defined.

Definition running : DB :=
  perform_call (CWorker WStart 1 100 1000) (db (acquire_at 1000 0 queue1)).

Lemma running_ok : jobs_ok running.
Proof.
  destruct (acquire_at_ok 1000 0 queue1) as [_ H1]; [fresh_token|apply queue1_ok|].
  eapply table_change_ok; [apply perform_call_change|]; apply H1.
Qed.

Lemma fail_decides_witness :
  ∃ j' d', run (fail 5 100 1000 "Some Code" "token: abc" true None) running = (Ret j', d')
    ∧ Job.lease_token j' = None ∧ Job.status j' = PlatformJobStatus.RETRY_WAIT.
Proof.
  destruct (run (fail 5 100 1000 "Some Code" "token: abc" true None) running) as [out d'] eqn:E.
  assert (∃ j', out = Ret j' ∧ Job.status j' = PlatformJobStatus.RETRY_WAIT) as (j' & -> & Hs).
  { vm_compute in E. injection E as <- <-. eexists. by split. }
  exists j', d'. split; [done|]. split; [|exact Hs].
  destruct (fail_decides _ _ _ _ _ _ _ _ _ _ running_ok E) as (j & _ & _ & Hl & _). exact Hl.
Defined.

Definition request1 : enqueue_request :=
  {| er_id := 200; er_correlation := 201; er_now := 9; er_org := 1;
     er_type := PlatformJobType.EVALUATION; er_ref := 7; er_key := "key";
     er_payload := Some [("account_id", PStr "7")]; er_available := None; er_priority := 5;
     er_max := 0; er_corr := None; er_parent := None; er_actor := None |}.

Lemma enqueue_idempotent_witness :
  ∃ j, run (x ← enqueue_of request1; _ ← commit; mret x) (db queue1)
       = (Ret (j, false), db queue1) ∧ requested request0 j.
Proof.
  destruct (run (x ← enqueue_of request0; _ ← commit; mret x) acme) as [out d'] eqn:E.
  assert (∃ j b, out = Ret (j, b)) as (j & b & ->).
  { vm_compute in E. injection E as <- <-. by eexists _, _. }
  assert (d' = db queue1) as -> by (cbn [db queue1 perform_call]; by rewrite E).
  destruct (run (x ← enqueue_of request1; _ ← commit; mret x) (db queue1)) as [out d''] eqn:E'.
  destruct (enqueue_idempotent request0 request1 acme j b (db queue1) out d'' acme_jobs_ok E)
    as (j' & -> & -> & Hr); [done..|].
  exists j'. split; [exact eq_refl|exact Hr].
Defined.

Lemma terminal_jobs_stay_witness :
  ∃ j, DB.platform_jobs (perform_call (CCancel 9 1 100 alice) (perform_call (CCancel 5 1 100 alice) (db queue1))) !! 100%N = Some j
    ∧ Job.completed_at j = Some 5%Z.
Proof.
  destruct (DB.platform_jobs (perform_call (CCancel 5 1 100 alice) (db queue1)) !! 100%N) as [j|] eqn:Ej;
    [|vm_compute in Ej; discriminate].
  exists j. split; [|by vm_compute in Ej; injection Ej as <-].
  destruct (terminal_jobs_stay (CCancel 9 1 100 alice) (perform_call (CCancel 5 1 100 alice) (db queue1)) 100%N j)
    as [H|(? & ? & ? & [=] & _)].
  - eapply table_change_ok; [apply perform_call_change|]; apply queue1_ok.
  - exact Ej.
  - by vm_compute in Ej; injection Ej as <-.
  - exact H.
Defined.
