(* ===== verification/SecurityRules.v ===== *)
(** security_rules/: the deterministic rules that turn the stored metadata of an
    asset into a pass, a failure, an error or "not applicable".

    An evaluator can raise, and returns a [res RuleResult]; the [assert]s of
    the source are the [AssertionError] branches.  [datetime.fromisoformat] is
    a parameter of the section: an arbitrary function from texts to datetimes,
    [None] standing for the ValueError it raises. *)

From S2P Require Import Prelude.
From S2P Require Import Enums.
From S2P Require Import PyValue.
From S2P Require Import Models.
From S2P Require Import Evidence.
From S2P Require Import RiskEngine.
From Stdlib Require Import Ascii Sorted.
From stdpp Require Import list.

(** * Rules and their context *)

(** security_rules/base.py:12-18, RuleContext. *)
Record RuleContext := mk_RuleContext {
  account_assets : list Asset;
  evaluated_at : timestamp
}.

(** security_rules/base.py:17-18, RuleContext.assets_of_type. *)
Definition assets_of_type (asset_type : AssetType) (c : RuleContext) : list Asset :=
  filter (λ a, Asset.asset_type a = asset_type) (account_assets c).

(** security_rules/base.py:21-21, Evaluator. *)
Definition Evaluator : Type := option Asset → RuleContext → res RuleResult.

(** security_rules/base.py:25-38, part of SecurityRule. *)
Record SecurityRule := mk_SecurityRule {
  key : string;
  version : Z;
  name : string;
  description : string;
  service : string;
  asset_type : option AssetType;
  category : string;
  severity : FindingSeverity;
  remediation : string;
  references : list string;
  enabled_by_default : bool;
  additional_asset_types : list AssetType;
  evaluator : Evaluator
}.

(** security_rules/base.py:40-44, SecurityRule.__post_init__. *)
Definition post_init (r : SecurityRule) : res SecurityRule :=
  if negb (nonempty (key r)) || (version r <=? 0)%Z then inr ValueError
  else if (if asset_type r is None then true else false)
          && negb (match additional_asset_types r with [] => true | _ => false end)
  then inr ValueError
  else inl r.

(** security_rules/base.py:46-50, SecurityRule.asset_types. *)
Definition asset_types (r : SecurityRule) : list AssetType :=
  match asset_type r with
  | None => []
  | Some t => t :: additional_asset_types r
  end.

(** security_rules/base.py:52-55, SecurityRule.applies_to. *)
Definition applies_to (r : SecurityRule) (asset : option Asset) : bool :=
  match asset_type r, asset with
  | None, None => true
  | None, Some _ => false
  | Some _, None => false
  | Some _, Some a => bool_decide (Asset.asset_type a ∈ asset_types r)
  end.

(** security_rules/base.py:57-62, SecurityRule.evaluate. *)
Definition evaluate (r : SecurityRule) (asset : option Asset) (context : RuleContext)
    : res RuleResult :=
  if applies_to r asset then evaluator r asset context
  else mret (not_applicable "asset_type_mismatch").

(** [assert asset is not None].  The column of the metadata is a dict and not
    nullable (models/asset.py, Asset.metadata_json), and the collectors write
    dicts: the value for anything else stands for no row of the table. *)
Definition with_metadata (asset : option Asset) (k : pydict → res RuleResult) : res RuleResult :=
  match asset with
  | None => inr AssertionError
  | Some a => k match Asset.metadata_json a with PDict d => d | _ => [] end
  end.

(** [any(f(x) for x in l)], where [f] can raise *)
Fixpoint any_res {A} (f : A → res bool) (l : list A) : res bool :=
  match l with
  | [] => mret false
  | x :: l => b ← f x; if b : bool then mret true else any_res f l
  end.

(** * EC2 *)

(** security_rules/ec2.py:10-10, WORLD_CIDRS. *)
Definition WORLD_CIDRS : list string := ["0.0.0.0/0"; "::/0"].

(** [v in WORLD_CIDRS]; an unhashable value raises. *)
Definition in_world (v : option pyval) : res bool :=
  match v with
  | Some (PStr s) => mret (existsb (String.eqb s) WORLD_CIDRS)
  | Some (PList _) | Some (PDict _) => inr TypeError
  | _ => mret false
  end.

(** security_rules/ec2.py:13-17, _permissions. *)
Definition _permissions (metadata : pydict) : option (list pydict) :=
  match dget "ip_permissions" metadata with
  | Some (PList l) => mapM (λ v, match v with PDict d => Some d | _ => None end) l
  | _ => None
  end.

(** One loop of [_world_ranges]: the world ranges of one address family. *)
Definition family_ranges (ranges field : string) (permission : pydict) : res (list string) :=
  items ← py_iter (dget_or ranges (PList []) permission);
  found ← res_map (λ item,
    match item with
    | PDict d =>
        w ← in_world (dget field d);
        mret (if w : bool then [default "" (v ← dget field d; Some (py_str v))] else [])
    | _ => mret []
    end) items;
  mret (concat found).

(** security_rules/ec2.py:20-28, _world_ranges. *)
Definition _world_ranges (permission : pydict) : res (list string) :=
  v4 ← family_ranges "IpRanges" "CidrIp" permission;
  v6 ← family_ranges "Ipv6Ranges" "CidrIpv6" permission;
  mret (sorted_set (v4 ++ v6)).

Definition opt_none (o : option pyval) : pyval := default PNone o.
Definition str_list (l : list string) : pyval := PList (map PStr l).

(** [isinstance(start, int) and isinstance(end, int) and start <= port <= end] *)
Definition in_ports (port : Z) (start end_ : option pyval) : bool :=
  match start ≫= as_number, end_ ≫= as_number with
  | Some a, Some b => (a <=? port)%Z && (port <=? b)%Z
  | _, _ => false
  end.

(** One iteration of the loop of [_port_exposure]. *)
Definition exposure (port : Z) (permission : pydict) : res (list pyval) :=
  ranges ← _world_ranges permission;
  let protocol := py_str (dget_or "IpProtocol" (PStr "") permission) in
  let start := dget "FromPort" permission in
  let end_ := dget "ToPort" permission in
  let applies := String.eqb protocol "-1" || in_ports port start end_ in
  mret (if negb (match ranges with [] => true | _ => false end) && applies
        then [PDict [("protocol", PStr protocol); ("from_port", opt_none start);
                     ("to_port", opt_none end_); ("cidrs", str_list ranges)]]
        else []).

(** security_rules/ec2.py:31-51, _port_exposure. *)
Definition _port_exposure (port : Z) : Evaluator := λ asset _,
  with_metadata asset (λ m,
    match _permissions m with
    | None => mret error_default
    | Some permissions =>
        exposed ← res_map (exposure port) permissions;
        let exposed := concat exposed in
        mret match exposed with
             | [] => passed [("port", PInt port)]
             | _ => failed [("exposures", PList exposed); ("port", PInt port)]
             end
    end).

(** security_rules/ec2.py:54-64, _all_traffic. *)
Definition _all_traffic : Evaluator := λ asset _,
  with_metadata asset (λ m,
    match _permissions m with
    | None => mret error_default
    | Some permissions =>
        exposed ← res_map (λ permission,
          if String.eqb (py_str (opt_none (dget "IpProtocol" permission))) "-1" then
            ranges ← _world_ranges permission;
            mret match ranges with
                 | [] => []
                 | _ => [PDict [("protocol", opt_none (dget "IpProtocol" permission));
                                ("cidrs", str_list ranges)]]
                 end
          else mret []) permissions;
        let exposed := concat exposed in
        mret match exposed with
             | [] => passed []
             | _ => failed [("exposures", PList exposed)]
             end
    end).

(** security_rules/ec2.py:67-75, _boolean_failure. *)
Definition _boolean_failure (field : string) (unsafe_value : pyval) (missing_error : bool)
    : Evaluator := λ asset _,
  with_metadata asset (λ m,
    match dget field m with
    | None => mret (if missing_error then error_default else passed [])
    | Some value =>
        mret (if py_eq value unsafe_value then failed [(field, value)]
              else passed [(field, value)])
    end).

(** security_rules/ec2.py:78-84, _imdsv1. *)
Definition _imdsv1 : Evaluator := λ asset _,
  with_metadata asset (λ m,
    match dget "metadata_options" m with
    | Some (PDict options) =>
        match dget "http_tokens" options with
        | None => mret error_default
        | Some value =>
            mret (if negb (py_eq value (PStr "required")) then failed [("http_tokens", value)]
                  else passed [("http_tokens", value)])
        end
    | _ => mret error_default
    end).

(** * S3 *)

(** security_rules/s3.py:11-19, _metadata_rule. *)
Definition _metadata_rule (field : string) (unsafe : pyval) : Evaluator := λ asset _,
  with_metadata asset (λ m,
    match dget field m with
    | None => mret error_default
    | Some value =>
        mret (if py_eq value unsafe then failed [(field, value)] else passed [(field, value)])
    end).

(** security_rules/s3.py:22-28, _public_confirmed. *)
Definition _public_confirmed : Evaluator := λ asset _,
  with_metadata asset (λ m,
    match dget "public_access_signals" m with
    | Some (PDict signals) =>
        mret (if existsb (λ kv, is_true_obj kv.2) signals
              then failed [("signals", PDict signals)]
              else passed [("signals", PDict signals)])
    | _ => mret error_default
    end).

(** The statements of a policy document: [None] when they are no list. *)
Definition statements_of (document : pydict) : option (list pyval) :=
  match dget "Statement" document with
  | Some (PDict d) => Some [PDict d]
  | Some (PList l) => Some l
  | _ => None
  end.

(** [secure_transport is False or (isinstance(...) and ... == "false")] *)
Definition denies_insecure (secure_transport : option pyval) : bool :=
  match secure_transport with
  | Some (PBool b) => negb b
  | Some (PStr s) => String.eqb (lower s) "false"
  | _ => false
  end.

(** The loop of [_https_only_policy], from the statement number [index]. *)
Fixpoint https_loop (index : Z) (statements : list pyval) : RuleResult :=
  match statements with
  | [] => failed [("policy_present", PBool true)]
  | PDict statement :: rest =>
      match dget "Effect" statement, dget_or "Condition" (PDict []) statement with
      | Some (PStr effect), PDict condition =>
          match dget_or "Bool" (PDict []) condition with
          | PNone => https_loop (index + 1) rest
          | PDict bool_condition =>
              if String.eqb effect "Deny"
                 && denies_insecure (dget "aws:SecureTransport" bool_condition)
              then passed [("statement_index", PInt index); ("policy_present", PBool true)]
              else https_loop (index + 1) rest
          | _ => error "malformed_bucket_policy"
          end
      | _, _ => error "malformed_bucket_policy"
      end
  | _ :: _ => error "malformed_bucket_policy"
  end.

(** security_rules/s3.py:31-63, _https_only_policy. *)
Definition _https_only_policy : Evaluator := λ asset _,
  with_metadata asset (λ m,
    mret match dget "policy_document" m with
         | None => error_default
         | Some PNone => failed [("policy_present", PBool false)]
         | Some (PDict document) =>
             match statements_of document with
             | None => error "malformed_bucket_policy"
             | Some statements => https_loop 0 statements
             end
         | Some _ => error "malformed_bucket_policy"
         end).

(** * IAM *)

(** security_rules/iam.py:12-20, _predicate. *)
Definition _predicate (required : list string) (predicate : pydict → res bool) : Evaluator :=
  λ asset _, with_metadata asset (λ m,
    match mapM (λ field, v ← dget field m; Some (field, v)) required with
    | None => mret error_default
    | Some evidence =>
        b ← predicate evidence;
        mret (if b : bool then failed evidence else passed evidence)
    end).

(** security_rules/iam.py:92-95, part of RULES.  The predicate of the MFA
    rule. *)
Definition console_without_mfa (e : pydict) : res bool :=
  mret (py_bool (opt_none (dget "console_access" e))
        && negb (py_bool (opt_none (dget "mfa_enabled" e)))).

(** security_rules/iam.py:120-125, part of RULES.  The predicate of the
    AdministratorAccess rule. *)
Definition administrator_attached (e : pydict) : res bool :=
  arns ← py_iter (opt_none (dget "attached_policy_arns" e));
  mret (existsb (λ v, endswith (py_str v) "/AdministratorAccess") arns).

Section iso.
Context (fromisoformat : string → option datetime).

(** The age in days of one access key; [None] when its creation time is
    malformed.  [timedelta.days] rounds down. *)
Definition key_age (evaluated_at : timestamp) (value : pyval) : option Z :=
  match value with
  | PStr s =>
      created ← fromisoformat (replace_char "Z"%char "+00:00" s);
      Some ((evaluated_at - instant (_aware created)) / days 1)%Z
  | _ => None
  end.

(** [max(ages, default=0)] *)
Definition max_or_zero (ages : list Z) : Z :=
  match ages with [] => 0%Z | a :: ages => py_max a ages end.

(** security_rules/iam.py:23-44, _access_key_age. *)
Definition _access_key_age : Evaluator := λ asset context,
  with_metadata asset (λ m,
    mret match dget "active_key_created_at" m with
         | Some (PList values) =>
             match mapM (key_age (evaluated_at context)) values with
             | None => error "malformed_access_key_metadata"
             | Some ages =>
                 let oldest := max_or_zero ages in
                 if (90 <? oldest)%Z then failed [("oldest_active_key_age_days", PInt oldest)]
                 else passed [("oldest_active_key_age_days", PInt oldest)]
             end
         | _ => error_default
         end).

(** [[v] if isinstance(v, str) else v], then the test that it is a list of
    strings *)
Definition string_items (v : option pyval) : option (list string) :=
  match v with
  | Some (PStr s) => Some [s]
  | Some (PList l) => mapM (λ v, match v with PStr s => Some s | _ => None end) l
  | _ => None
  end.

(** [statements.index(statement)] *)
Fixpoint index_of (x : pyval) (l : list pyval) : Z :=
  match l with
  | [] => 0
  | y :: l => if py_eq y x then 0 else 1 + index_of x l
  end%Z.

(** What one statement of an inline policy decides: an error, or whether it
    allows every action on every resource. *)
Definition allows_all (statement : pyval) : option bool :=
  match statement with
  | PDict d =>
      match dget "Effect" d with
      | Some (PStr effect) =>
          actions ← string_items (dget "Action" d);
          resources ← string_items (dget "Resource" d);
          Some (String.eqb effect "Allow" && existsb (String.eqb "*") actions
                && existsb (String.eqb "*") resources)
      | _ => None
      end
  | _ => None
  end.

(** The inner loop of [_inline_allow_all]; [None] when it runs to its end. *)
Fixpoint statement_loop (all_ statements : list pyval) : option RuleResult :=
  match statements with
  | [] => None
  | statement :: rest =>
      match allows_all statement with
      | None => Some (error "malformed_inline_policy")
      | Some true => Some (failed [("statement_index", PInt (index_of statement all_))])
      | Some false => statement_loop all_ rest
      end
  end.

(** The outer loop of [_inline_allow_all]. *)
Fixpoint document_loop (documents : list pyval) : RuleResult :=
  match documents with
  | [] => passed []
  | PDict document :: rest =>
      match statements_of document with
      | None => error "malformed_inline_policy"
      | Some statements =>
          match statement_loop statements statements with
          | Some r => r
          | None => document_loop rest
          end
      end
  | _ :: _ => error "malformed_inline_policy"
  end.

(** security_rules/iam.py:47-78, _inline_allow_all. *)
Definition _inline_allow_all : Evaluator := λ asset _,
  with_metadata asset (λ m,
    mret match dget "inline_policy_documents" m with
         | Some (PList documents) => document_loop documents
         | _ => error_default
         end).

(** * RDS, CloudWatch and CloudTrail *)

(** security_rules/rds.py:11-19, _rule. *)
Definition _rule (field : string) (predicate : pyval → res bool) : Evaluator := λ asset _,
  with_metadata asset (λ m,
    match dget field m with
    | None => mret error_default
    | Some value =>
        b ← predicate value;
        mret (if b : bool then failed [(field, value)] else passed [(field, value)])
    end).

(** security_rules/cloudwatch.py:9-14, _missing_retention. *)
Definition _missing_retention : Evaluator := λ asset _,
  with_metadata asset (λ m,
    mret match dget "retention_days" m with
         | None => failed [("retention_days", PNone)]
         | Some value =>
             if is_none value then failed [("retention_days", value)]
             else passed [("retention_days", value)]
         end).

(** security_rules/cloudwatch.py:17-25, _not_encrypted. *)
Definition _not_encrypted : Evaluator := λ asset _,
  with_metadata asset (λ m,
    mret match dget "kms_encrypted" m with
         | None => error_default
         | Some value =>
             if is_false_obj value then failed [("kms_encrypted", PBool false)]
             else passed [("kms_encrypted", PBool true)]
         end).

(** security_rules/cloudwatch.py:28-33, _actions_disabled. *)
Definition _actions_disabled : Evaluator := λ asset _,
  with_metadata asset (λ m,
    mret match dget "actions_enabled" m with
         | None => error_default
         | Some value =>
             if is_false_obj value then failed [("actions_enabled", value)]
             else passed [("actions_enabled", value)]
         end).

(** security_rules/cloudtrail.py:11-19, _field. *)
Definition _field (field : string) (unsafe : pyval) : Evaluator := λ asset _,
  with_metadata asset (λ m,
    match dget field m with
    | None => mret error_default
    | Some value =>
        mret (if py_eq value unsafe then failed [(field, value)] else passed [(field, value)])
    end).

(** [trail.metadata_json.get("is_logging")] *)
Definition is_logging (trail : Asset) : pyval :=
  match Asset.metadata_json trail with
  | PDict d => opt_none (dget "is_logging" d)
  | _ => PNone
  end.

(** security_rules/cloudtrail.py:22-31, _no_active. *)
Definition _no_active : Evaluator := λ _ context,
  let trails := assets_of_type AssetType.CLOUDTRAIL_TRAIL context in
  let states := map is_logging trails in
  mret (match trails with
        | [] => failed [("active_trails", PInt 0)]
        | _ =>
            if existsb is_true_obj states then
              passed [("active_trails", PInt (Z.of_nat (length (List.filter is_true_obj states))))]
            else if existsb is_none states then error_default
            else failed [("active_trails", PInt 0)]
        end).

(** * The shipped rules *)

(** security_rules/ec2.py:87-160, RULES. *)
Definition EC2_RULES : list SecurityRule := [
  mk_SecurityRule "EC2_SG_SSH_OPEN_TO_WORLD" 1 "SSH open to the world"
    "Security-group ingress permits SSH from an IPv4 or IPv6 world CIDR."
    "ec2" (Some AssetType.EC2_SECURITY_GROUP) "network" FindingSeverity.CRITICAL
    "Restrict TCP port 22 to explicitly approved private or administrative CIDRs."
    [] true []
    (_port_exposure 22);
  mk_SecurityRule "EC2_SG_RDP_OPEN_TO_WORLD" 1 "RDP open to the world"
    "Security-group ingress permits RDP from an IPv4 or IPv6 world CIDR."
    "ec2" (Some AssetType.EC2_SECURITY_GROUP) "network" FindingSeverity.CRITICAL
    "Restrict TCP port 3389 to explicitly approved administrative CIDRs."
    [] true []
    (_port_exposure 3389);
  mk_SecurityRule "EC2_SG_ALL_TRAFFIC_OPEN_TO_WORLD" 1 "All traffic open to the world"
    "Security-group ingress permits every protocol from a world CIDR."
    "ec2" (Some AssetType.EC2_SECURITY_GROUP) "network" FindingSeverity.CRITICAL
    "Replace unrestricted ingress with least-privilege protocol and port rules."
    [] true []
    (_all_traffic);
  mk_SecurityRule "EC2_INSTANCE_IMDSV1_ALLOWED" 1 "IMDSv1 is allowed"
    "The instance does not require IMDSv2 session tokens."
    "ec2" (Some AssetType.EC2_INSTANCE) "hardening" FindingSeverity.HIGH
    "Require IMDSv2 by setting HttpTokens to required."
    [] true []
    (_imdsv1);
  mk_SecurityRule "EC2_INSTANCE_PUBLIC_IP" 1 "Instance has a public IP"
    "The instance has a directly assigned public IPv4 address."
    "ec2" (Some AssetType.EC2_INSTANCE) "exposure" FindingSeverity.MEDIUM
    "Remove the public address unless direct internet reachability is required."
    [] true []
    (λ asset context, _boolean_failure "has_public_ip" (PBool true) true asset context);
  mk_SecurityRule "EBS_VOLUME_UNENCRYPTED" 1 "EBS volume is unencrypted"
    "The EBS volume metadata confirms encryption is disabled."
    "ec2" (Some AssetType.EBS_VOLUME) "data_protection" FindingSeverity.HIGH
    "Migrate data to an encrypted EBS volume."
    [] true []
    (_boolean_failure "encrypted" (PBool false) true) ].

(** security_rules/s3.py:66-139, RULES. *)
Definition S3_RULES : list SecurityRule := [
  mk_SecurityRule "S3_BUCKET_PUBLIC_ACCESS_CONFIRMED" 1 "Public S3 access confirmed"
    "Stored S3 ACL or policy status confirms public access."
    "s3" (Some AssetType.S3_BUCKET) "exposure" FindingSeverity.CRITICAL
    "Remove public grants and public policy statements."
    [] true []
    (_public_confirmed);
  mk_SecurityRule "S3_BUCKET_PUBLIC_ACCESS_BLOCK_INCOMPLETE" 1 "Public access block incomplete"
    "Not all S3 public-access-block controls are enabled."
    "s3" (Some AssetType.S3_BUCKET) "exposure" FindingSeverity.HIGH
    "Enable all four S3 public access block controls."
    [] true []
    (_metadata_rule "public_access_block_complete" (PBool false));
  mk_SecurityRule "S3_BUCKET_DEFAULT_ENCRYPTION_MISSING" 1 "Default encryption missing"
    "Default server-side encryption is not configured."
    "s3" (Some AssetType.S3_BUCKET) "data_protection" FindingSeverity.HIGH
    "Configure default SSE-S3 or SSE-KMS encryption."
    [] true []
    (_metadata_rule "default_encryption_enabled" (PBool false));
  mk_SecurityRule "S3_BUCKET_VERSIONING_DISABLED" 1 "Versioning disabled"
    "S3 object versioning is disabled."
    "s3" (Some AssetType.S3_BUCKET) "resilience" FindingSeverity.MEDIUM
    "Enable S3 versioning."
    [] true []
    (_metadata_rule "versioning_enabled" (PBool false));
  mk_SecurityRule "S3_BUCKET_HTTPS_ONLY_POLICY_MISSING" 1 "HTTPS-only policy missing"
    "The bounded policy signal does not confirm HTTPS-only access."
    "s3" (Some AssetType.S3_BUCKET) "transport" FindingSeverity.HIGH
    "Add a bucket policy denying requests when aws:SecureTransport is false."
    [] true []
    (_https_only_policy);
  mk_SecurityRule "S3_BUCKET_LOGGING_DISABLED" 1 "Access logging disabled"
    "S3 server access logging is disabled."
    "s3" (Some AssetType.S3_BUCKET) "logging" FindingSeverity.MEDIUM
    "Enable access logging to an approved log bucket."
    [] true []
    (_metadata_rule "logging_enabled" (PBool false)) ].

(** security_rules/iam.py:81-140, RULES. *)
Definition IAM_RULES : list SecurityRule := [
  mk_SecurityRule "IAM_USER_CONSOLE_ACCESS_WITHOUT_MFA" 1 "Console user has no MFA"
    "An IAM user has console access but no active MFA device."
    "iam" (Some AssetType.IAM_USER) "identity" FindingSeverity.CRITICAL
    "Enroll an MFA device or remove console access."
    [] true []
    (_predicate ["console_access"; "mfa_enabled"] console_without_mfa);
  mk_SecurityRule "IAM_USER_ACCESS_KEY_TOO_OLD" 1 "IAM access key is too old"
    "At least one active access key exceeds the configured 90-day threshold."
    "iam" (Some AssetType.IAM_USER) "credential_hygiene" FindingSeverity.HIGH
    "Rotate or remove the old access key."
    [] true []
    (_access_key_age);
  mk_SecurityRule "IAM_ADMINISTRATOR_ACCESS_ATTACHED" 1 "AdministratorAccess attached"
    "The principal has the AWS AdministratorAccess managed policy attached."
    "iam" (Some AssetType.IAM_USER) "least_privilege" FindingSeverity.CRITICAL
    "Replace AdministratorAccess with a least-privilege policy."
    [] true [AssetType.IAM_ROLE; AssetType.IAM_GROUP]
    (_predicate ["attached_policy_arns"] administrator_attached);
  mk_SecurityRule "IAM_INLINE_POLICY_ALLOW_ALL" 1 "Inline policy allows all actions"
    "The bounded inline-policy summary confirms an Allow * action."
    "iam" (Some AssetType.IAM_USER) "least_privilege" FindingSeverity.CRITICAL
    "Replace wildcard administrative permissions with scoped actions and resources."
    [] true [AssetType.IAM_ROLE; AssetType.IAM_GROUP]
    (_inline_allow_all) ].

(** security_rules/rds.py:22-83, RULES. *)
Definition RDS_RULES : list SecurityRule := [
  mk_SecurityRule "RDS_INSTANCE_PUBLICLY_ACCESSIBLE" 1 "RDS is publicly accessible"
    "The RDS instance is marked publicly accessible."
    "rds" (Some AssetType.RDS_INSTANCE) "exposure" FindingSeverity.CRITICAL
    "Disable public accessibility."
    [] true []
    (_rule "publicly_accessible" (λ value, mret (py_bool value)));
  mk_SecurityRule "RDS_STORAGE_NOT_ENCRYPTED" 1 "RDS storage is unencrypted"
    "Storage encryption is disabled."
    "rds" (Some AssetType.RDS_INSTANCE) "data_protection" FindingSeverity.HIGH
    "Migrate to an encrypted database."
    [] true []
    (_rule "storage_encrypted" (λ value, mret (is_false_obj value)));
  mk_SecurityRule "RDS_BACKUP_RETENTION_INSUFFICIENT" 1 "Backup retention is insufficient"
    "Automated backup retention is less than seven days."
    "rds" (Some AssetType.RDS_INSTANCE) "resilience" FindingSeverity.MEDIUM
    "Set backup retention to at least seven days."
    [] true []
    (_rule "backup_retention_period"
         (λ value, n ← py_int value; mret (n <? 7)%Z));
  mk_SecurityRule "RDS_AUTO_MINOR_VERSION_UPGRADE_DISABLED" 1 "Automatic minor upgrades disabled"
    "Automatic minor version upgrades are disabled."
    "rds" (Some AssetType.RDS_INSTANCE) "patching" FindingSeverity.MEDIUM
    "Enable automatic minor version upgrades."
    [] true []
    (_rule "auto_minor_version_upgrade" (λ value, mret (is_false_obj value)));
  mk_SecurityRule "RDS_DELETION_PROTECTION_DISABLED" 1 "Deletion protection disabled"
    "Database deletion protection is disabled."
    "rds" (Some AssetType.RDS_INSTANCE) "resilience" FindingSeverity.MEDIUM
    "Enable deletion protection."
    [] true []
    (_rule "deletion_protection" (λ value, mret (is_false_obj value))) ].

(** security_rules/cloudwatch.py:36-73, RULES. *)
Definition CLOUDWATCH_RULES : list SecurityRule := [
  mk_SecurityRule "CLOUDWATCH_LOG_GROUP_RETENTION_NOT_CONFIGURED" 1 "CloudWatch log retention is not configured"
    "The log group retains events indefinitely."
    "cloudwatch_logs" (Some AssetType.CLOUDWATCH_LOG_GROUP) "logging" FindingSeverity.MEDIUM
    "Configure an approved retention period."
    [] true []
    (_missing_retention);
  mk_SecurityRule "CLOUDWATCH_LOG_GROUP_NOT_KMS_ENCRYPTED" 1 "CloudWatch log group is not KMS encrypted"
    "The log group has no KMS key association."
    "cloudwatch_logs" (Some AssetType.CLOUDWATCH_LOG_GROUP) "data_protection" FindingSeverity.MEDIUM
    "Associate an approved KMS key."
    [] true []
    (_not_encrypted);
  mk_SecurityRule "CLOUDWATCH_ALARM_ACTIONS_DISABLED" 1 "CloudWatch alarm actions disabled"
    "The alarm cannot invoke configured actions."
    "cloudwatch" (Some AssetType.CLOUDWATCH_ALARM) "monitoring" FindingSeverity.MEDIUM
    "Enable alarm actions."
    [] true []
    (_actions_disabled) ].

(** security_rules/cloudtrail.py:34-131, RULES. *)
Definition CLOUDTRAIL_RULES : list SecurityRule := [
  mk_SecurityRule "CLOUDTRAIL_NO_ACTIVE_TRAIL" 1 "No active CloudTrail trail"
    "No persisted CloudTrail configuration confirms active logging."
    "cloudtrail" (None) "logging" FindingSeverity.CRITICAL
    "Create and enable a multi-region trail."
    [] true []
    (_no_active);
  mk_SecurityRule "CLOUDTRAIL_LOGGING_DISABLED" 1 "CloudTrail logging disabled"
    "The trail is not currently logging."
    "cloudtrail" (Some AssetType.CLOUDTRAIL_TRAIL) "logging" FindingSeverity.CRITICAL
    "Start logging for the trail."
    [] true []
    (_field "is_logging" (PBool false));
  mk_SecurityRule "CLOUDTRAIL_NOT_MULTI_REGION" 1 "CloudTrail is not multi-region"
    "The trail does not cover all AWS regions."
    "cloudtrail" (Some AssetType.CLOUDTRAIL_TRAIL) "coverage" FindingSeverity.HIGH
    "Convert the trail to multi-region."
    [] true []
    (_field "is_multi_region" (PBool false));
  mk_SecurityRule "CLOUDTRAIL_GLOBAL_EVENTS_DISABLED" 1 "Global events disabled"
    "Global service events are excluded."
    "cloudtrail" (Some AssetType.CLOUDTRAIL_TRAIL) "coverage" FindingSeverity.HIGH
    "Enable global service event collection."
    [] true []
    (_field "include_global_service_events" (PBool false));
  mk_SecurityRule "CLOUDTRAIL_LOG_VALIDATION_DISABLED" 1 "Log validation disabled"
    "CloudTrail log-file integrity validation is disabled."
    "cloudtrail" (Some AssetType.CLOUDTRAIL_TRAIL) "integrity" FindingSeverity.MEDIUM
    "Enable log-file validation."
    [] true []
    (_field "log_file_validation_enabled" (PBool false));
  mk_SecurityRule "CLOUDTRAIL_NOT_KMS_ENCRYPTED" 1 "CloudTrail is not KMS encrypted"
    "No KMS key is configured for the trail."
    "cloudtrail" (Some AssetType.CLOUDTRAIL_TRAIL) "data_protection" FindingSeverity.MEDIUM
    "Configure an approved KMS key."
    [] true []
    (_field "kms_encrypted" (PBool false));
  mk_SecurityRule "CLOUDTRAIL_CLOUDWATCH_INTEGRATION_MISSING" 1 "CloudWatch Logs integration missing"
    "The trail is not integrated with CloudWatch Logs."
    "cloudtrail" (Some AssetType.CLOUDTRAIL_TRAIL) "monitoring" FindingSeverity.MEDIUM
    "Configure CloudWatch Logs delivery."
    [] true []
    (_field "cloudwatch_integration" (PBool false));
  mk_SecurityRule "CLOUDTRAIL_DELIVERY_FAILURE" 1 "CloudTrail delivery is failing"
    "The latest delivery status reports an error."
    "cloudtrail" (Some AssetType.CLOUDTRAIL_TRAIL) "logging" FindingSeverity.CRITICAL
    "Correct the trail destination and delivery permissions."
    [] true []
    (_field "delivery_failed" (PBool true)) ].

(** * The registry *)

(** security_rules/registry.py:15-15, part of RuleRegistry.  The dict of rules,
    in insertion order. *)
Record RuleRegistry := mk_RuleRegistry { _rules : list (string * SecurityRule) }.

(** security_rules/registry.py:16-21, RuleRegistry.__init__. *)
Definition new_RuleRegistry (rules : list SecurityRule) : res RuleRegistry :=
  _rules ← foldl (λ acc rule,
      acc ← acc;
      if existsb (λ kr, String.eqb kr.1 (key rule)) acc then inr ValueError
      else mret (acc ++ [(key rule, rule)])) (mret []) rules;
  mret (mk_RuleRegistry _rules).

(** security_rules/registry.py:23-24, RuleRegistry.all. *)
Definition registry_all (g : RuleRegistry) : list SecurityRule := (sort_items (_rules g)).*2.

(** security_rules/registry.py:26-27, RuleRegistry.get. *)
Definition registry_get (g : RuleRegistry) (k : string) : option SecurityRule :=
  snd <$> List.find (λ kr, String.eqb kr.1 k) (_rules g).

(** [wanted is None or ok(wanted)] *)
Definition wants {A} (wanted : option A) (ok : A → bool) : bool :=
  match wanted with None => true | Some a => ok a end.

(** security_rules/registry.py:29-46, RuleRegistry.filter. *)
Definition registry_filter (g : RuleRegistry) (service_ : option string)
    (asset_type_ : option AssetType) (severity_ : option FindingSeverity)
    (category_ : option string) (enabled : option bool) : list SecurityRule :=
  List.filter (λ rule,
    wants service_ (String.eqb (service rule))
    && wants asset_type_ (λ t, bool_decide (t ∈ asset_types rule))
    && wants severity_ (λ s, severity rule ≟ s)
    && wants category_ (String.eqb (category rule))
    && wants enabled (eqb (enabled_by_default rule))) (registry_all g).

(** security_rules/registry.py:48-50, RuleRegistry.services. *)
Definition services (g : RuleRegistry) : list string :=
  sorted_set (map (λ kr, service kr.2) (_rules g)).

(** security_rules/registry.py:52-54, RuleRegistry.categories. *)
Definition categories (g : RuleRegistry) : list string :=
  sorted_set (map (λ kr, category kr.2) (_rules g)).

(** The rules of the default registry, each checked by [__post_init__]. *)
Definition all_rules : list SecurityRule :=
  EC2_RULES ++ S3_RULES ++ IAM_RULES ++ RDS_RULES ++ CLOUDWATCH_RULES ++ CLOUDTRAIL_RULES.

(** security_rules/registry.py:57-59, default_registry. *)
Definition default_registry : res RuleRegistry :=
  rules ← res_map post_init all_rules; new_RuleRegistry rules.
End iso.

(** * Which exceptions an evaluator can raise *)

(** [m] returns, or raises an exception that satisfies [P]. *)
Definition raises {A} (P : exn → Prop) (m : res A) : Prop :=
  match m with inl _ => True | inr e => P e end.

Section raises.
Context (P : exn → Prop).
Lemma raises_bind {A B} (m : res A) (f : A → res B) :
  raises P m → (∀ a, raises P (f a)) → raises P (m ≫= f).
Proof. intros Hm Hf. by destruct m as [a|e]; cbn. Qed.
Lemma raises_map {A B} (f : A → res B) l : (∀ a, raises P (f a)) → raises P (res_map f l).
Proof.
  intros Hf. induction l as [|x l IH]; cbn; [done|].
  apply raises_bind; [done|]. intros. by apply raises_bind.
Qed.
End raises.

(** The exceptions of malformed metadata. *)
Definition data_error (e : exn) : Prop := e = TypeError ∨ e = ValueError.

Lemma raises_py_iter v : raises data_error (py_iter v).
Proof. destruct v; cbn; unfold data_error; auto. Qed.
Lemma raises_py_int v : raises data_error (py_int v).
Proof.
  unfold data_error. destruct v; cbn; auto.
  destruct (match strip s with EmptyString => _ | String _ _ => _ end); cbn; auto.
Qed.
Lemma raises_in_world v : raises data_error (in_world v).
Proof. unfold data_error. destruct v as [[]|]; cbn; auto. Qed.
Create HintDb raises discriminated.
#[export] Hint Resolve raises_py_iter raises_py_int raises_in_world : raises.

Ltac raises_go :=
  repeat (first
    [ solve [eauto with raises]
    | lazymatch goal with
      | |- raises _ (mbind _ _) => apply raises_bind; [|intros]
      | |- raises _ (res_map _ _) => apply raises_map; intros
      | |- raises _ (mret _) => exact I
      | |- raises _ (if ?b then _ else _) => destruct b
      | |- raises _ (match ?x with _ => _ end) => destruct x
      end]; cbn beta iota).

Lemma raises_family r f p : raises data_error (family_ranges r f p).
Proof. unfold family_ranges. raises_go. Qed.
#[export] Hint Resolve raises_family : raises.
Lemma raises_world_ranges p : raises data_error (_world_ranges p).
Proof. unfold _world_ranges. raises_go. Qed.
#[export] Hint Resolve raises_world_ranges : raises.
Lemma raises_exposure port p : raises data_error (exposure port p).
Proof. unfold exposure. raises_go. Qed.
#[export] Hint Resolve raises_exposure : raises.

Lemma raises_port_exposure port a c : raises data_error (_port_exposure port (Some a) c).
Proof. unfold _port_exposure, with_metadata. raises_go. Qed.
Lemma raises_all_traffic a c : raises data_error (_all_traffic (Some a) c).
Proof. unfold _all_traffic, with_metadata. raises_go. Qed.
Lemma raises_imdsv1 a c : raises data_error (_imdsv1 (Some a) c).
Proof. unfold _imdsv1, with_metadata. raises_go. Qed.
Lemma raises_boolean_failure f u m a c : raises data_error (_boolean_failure f u m (Some a) c).
Proof. unfold _boolean_failure, with_metadata. raises_go. Qed.
Lemma raises_metadata_rule f u a c : raises data_error (_metadata_rule f u (Some a) c).
Proof. unfold _metadata_rule, with_metadata. raises_go. Qed.
Lemma raises_public_confirmed a c : raises data_error (_public_confirmed (Some a) c).
Proof. unfold _public_confirmed, with_metadata. raises_go. Qed.
Lemma raises_https_only_policy a c : raises data_error (_https_only_policy (Some a) c).
Proof. exact I. Qed.
Lemma raises_access_key_age iso a c : raises data_error (_access_key_age iso (Some a) c).
Proof. exact I. Qed.
Lemma raises_inline_allow_all a c : raises data_error (_inline_allow_all (Some a) c).
Proof. exact I. Qed.
Lemma raises_missing_retention a c : raises data_error (_missing_retention (Some a) c).
Proof. unfold _missing_retention, with_metadata. raises_go. Qed.
Lemma raises_not_encrypted a c : raises data_error (_not_encrypted (Some a) c).
Proof. unfold _not_encrypted, with_metadata. raises_go. Qed.
Lemma raises_actions_disabled a c : raises data_error (_actions_disabled (Some a) c).
Proof. unfold _actions_disabled, with_metadata. raises_go. Qed.
Lemma raises_field f u a c : raises data_error (_field f u (Some a) c).
Proof. unfold _field, with_metadata. raises_go. Qed.
Lemma raises_no_active a c : raises data_error (_no_active a c).
Proof. exact I. Qed.
Lemma raises_rule f p a c :
  (∀ v, raises data_error (p v)) → raises data_error (_rule f p (Some a) c).
Proof. intros Hp. unfold _rule, with_metadata. raises_go. Qed.
Lemma raises_predicate fs p a c :
  (∀ e, raises data_error (p e)) → raises data_error (_predicate fs p (Some a) c).
Proof. intros Hp. unfold _predicate, with_metadata. raises_go. Qed.
Lemma raises_console e : raises data_error (console_without_mfa e).
Proof. exact I. Qed.
Lemma raises_administrator e : raises data_error (administrator_attached e).
Proof. unfold administrator_attached. raises_go. Qed.
#[export] Hint Resolve raises_port_exposure raises_all_traffic raises_imdsv1
  raises_boolean_failure raises_metadata_rule raises_public_confirmed
  raises_https_only_policy raises_access_key_age raises_inline_allow_all
  raises_missing_retention raises_not_encrypted raises_actions_disabled
  raises_field raises_no_active raises_administrator raises_console : raises.

(** A rule that runs only raises what malformed metadata explains. *)
Definition well_guarded (r : SecurityRule) : Prop :=
  ∀ a c, applies_to r a = true → raises data_error (evaluator r a c).

Lemma guarded_asset r t :
  asset_type r = Some t → (∀ a c, raises data_error (evaluator r (Some a) c)) → well_guarded r.
Proof. intros Ht H [a|] c; [done|]. unfold applies_to. by rewrite Ht. Qed.

Ltac guarded :=
  eapply guarded_asset; [reflexivity|intros a c; cbn [evaluator]];
  cbn beta; first [solve [eauto with raises]
        |apply raises_rule; intros; solve [raises_go]
        |apply raises_predicate; intros; solve [raises_go]].

Lemma ec2_guarded : Forall well_guarded EC2_RULES.
Proof. unfold EC2_RULES. rewrite !Forall_cons, Forall_nil. split_and!; first [exact I|guarded]. Qed.
Lemma s3_guarded : Forall well_guarded S3_RULES.
Proof. unfold S3_RULES. rewrite !Forall_cons, Forall_nil. split_and!; first [exact I|guarded]. Qed.
Lemma iam_guarded iso : Forall well_guarded (IAM_RULES iso).
Proof. unfold IAM_RULES. rewrite !Forall_cons, Forall_nil. split_and!; first [exact I|guarded]. Qed.
Lemma rds_guarded : Forall well_guarded RDS_RULES.
Proof. unfold RDS_RULES. rewrite !Forall_cons, Forall_nil. split_and!; first [exact I|guarded]. Qed.
Lemma cloudwatch_guarded : Forall well_guarded CLOUDWATCH_RULES.
Proof. unfold CLOUDWATCH_RULES. rewrite !Forall_cons, Forall_nil. split_and!; first [exact I|guarded]. Qed.
Lemma cloudtrail_guarded : Forall well_guarded CLOUDTRAIL_RULES.
Proof.
  unfold CLOUDTRAIL_RULES. rewrite !Forall_cons, Forall_nil. split_and!; first [exact I|guarded|intros a c _; exact I].
Qed.
Lemma all_rules_guarded iso : Forall well_guarded (all_rules iso).
Proof.
  unfold all_rules. rewrite !Forall_app.
  split_and!; auto using ec2_guarded, s3_guarded, iam_guarded, rds_guarded, cloudwatch_guarded,
    cloudtrail_guarded.
Qed.

(** * The registry as a finite map *)

Lemma new_RuleRegistry_spec rules :
  match new_RuleRegistry rules with
  | inl g => NoDup (map key rules) ∧ _rules g = map (λ r, (key r, r)) rules
  | inr e => e = ValueError ∧ ¬ NoDup (map key rules)
  end.
Proof.
  unfold new_RuleRegistry.
  set (f := λ (acc : res (list (string * SecurityRule))) (rule : SecurityRule), _).
  assert (∀ rs e, foldl f (inr e) rs = inr e) as Herr by (by induction rs).
  assert (∀ rs pre,
    NoDup (map key pre) →
    match foldl f (inl (map (λ r, (key r, r)) pre)) rs with
    | inl acc => NoDup (map key (pre ++ rs)) ∧ acc = map (λ r, (key r, r)) (pre ++ rs)
    | inr e => e = ValueError ∧ ¬ NoDup (map key (pre ++ rs))
    end) as Hgen.
  { induction rs as [|r rs IH]; intros pre Hnd; cbn; [by rewrite app_nil_r|].
    destruct (existsb _ _) eqn:E.
    - rewrite Herr. split; [done|]. rewrite map_app. cbn. intros Hnd'.
      apply NoDup_app in Hnd' as (_ & Hd & _).
      apply existsb_exists in E as ([k r'] & Hin & Hkr%String.eqb_eq).
      cbn in Hkr. subst k.
      apply in_map_iff in Hin as (r0 & [= Hk _] & Hr0). apply (Hd (key r)); [|set_solver].
      rewrite <-Hk. apply list_elem_of_In, in_map, Hr0.
    - assert (key r ∉ map key pre) as Hni.
      { intros (r0 & Hk & Hr0)%list_elem_of_In%in_map_iff. apply not_true_iff_false in E.
        apply E, existsb_exists. exists (key r0, r0). split; [by apply in_map_iff; exists r0|].
        apply String.eqb_eq. by cbn. }
      specialize (IH (pre ++ [r])). rewrite <-app_assoc in IH. cbn [app] in IH.
      rewrite (map_app (λ r, (key r, r)) pre [r]) in IH. cbn [map] in IH.
      apply IH. rewrite map_app. apply NoDup_app. split_and!; [done|set_solver|apply NoDup_singleton]. }
  specialize (Hgen rules [] NoDup_nil_2). cbn in Hgen.
  change (mret []) with (@inl (list (string * SecurityRule)) exn []).
  destruct (foldl f _ rules) as [acc|e]; cbn; [|done]. exact Hgen.
Qed.

Lemma find_key (l : list SecurityRule) k r :
  NoDup (map key l) →
  (snd <$> List.find (λ kr, String.eqb kr.1 k) (map (λ r, (key r, r)) l)) = Some r
  ↔ r ∈ l ∧ key r = k.
Proof.
  induction l as [|x l IH]; cbn; [set_solver|]. rewrite NoDup_cons. intros [Hni Hnd].
  destruct (String.eqb_spec (key x) k) as [<-|Hne]; cbn.
  - split; [intros [= <-]; set_solver|]. intros [[->|Hr]%elem_of_cons Hk]; [done|].
    exfalso. apply Hni. rewrite <-Hk. apply list_elem_of_In, in_map. by apply list_elem_of_In.
  - rewrite IH by done. set_solver.
Qed.

Definition key_le (a b : string) : Prop := String.leb a b = true.

Lemma leb_cons a b s t :
  String.leb (String a s) (String b t)
  = match (N_of_ascii a ?= N_of_ascii b)%N with
    | Lt => true | Gt => false | Eq => String.leb s t end.
Proof.
  unfold String.leb. cbn [String.compare].
  change (Ascii.compare a b) with (N_of_ascii a ?= N_of_ascii b)%N. by destruct (_ ?= _)%N.
Qed.

#[export] Instance key_le_trans : Transitive key_le.
Proof.
  unfold key_le. intros x. induction x as [|a x IH]; intros y z Hxy Hyz.
  { destruct z; done. }
  destruct y as [|b y]; [done|]. destruct z as [|c z]; [done|].
  rewrite leb_cons in *.
  destruct (N.compare_spec (N_of_ascii a) (N_of_ascii b)) as [E1|E1|E1],
    (N.compare_spec (N_of_ascii b) (N_of_ascii c)) as [E2|E2|E2],
    (N.compare_spec (N_of_ascii a) (N_of_ascii c)) as [E3|E3|E3]; try done; try lia; eauto.
Qed.

Lemma insert_item_sorted {A} (x : string * A) l :
  StronglySorted key_le l.*1 → StronglySorted key_le (insert_item x l).*1.
Proof.
  induction l as [|y l IH]; cbn; [by repeat constructor|].
  intros [Hs Hy]%StronglySorted_inv. destruct (String.leb x.1 y.1) eqn:E; cbn.
  - constructor; [by constructor|]. constructor; [done|].
    eapply Forall_impl; [exact Hy|]. intros z Hz. by etrans.
  - constructor; [by apply IH|]. rewrite insert_item_perm. constructor; [|done].
    destruct (String.leb_total x.1 y.1) as [|]; [congruence|done].
Qed.
Lemma sort_items_sorted {A} (l : list (string * A)) : StronglySorted key_le (sort_items l).*1.
Proof.
  unfold sort_items. induction l as [|x l IH]; cbn; [constructor|]. by apply insert_item_sorted.
Qed.

Lemma indexed_snd (l : list SecurityRule) : (map (λ r, (key r, r)) l).*2 = l.
Proof. induction l as [|x l IH]; cbn; [done|]. by f_equal. Qed.
Lemma indexed_Forall (l : list SecurityRule) :
  Forall (λ kr, kr.1 = key kr.2) (map (λ r, (key r, r)) l).
Proof. induction l; cbn; by constructor. Qed.
Lemma keys_of_indexed (l : list (string * SecurityRule)) :
  Forall (λ kr, kr.1 = key kr.2) l → map key l.*2 = l.*1.
Proof. induction 1 as [|[k r] l Hk _ IH]; cbn in *; [done|]. by f_equal. Qed.

(** The registry is a finite map from the rules' keys.  It is built exactly
    when the keys are distinct, and otherwise refused with ValueError; then
    [get] returns the rule with the key and nothing else, and [all] returns
    every rule once, in the order of the keys. *)
Theorem registry_is_a_map rules :
  match new_RuleRegistry rules with
  | inr e => e = ValueError ∧ ¬ NoDup (map key rules)
  | inl g =>
      NoDup (map key rules)
      ∧ (∀ k r, registry_get g k = Some r ↔ r ∈ rules ∧ key r = k)
      ∧ registry_all g ≡ₚ rules
      ∧ StronglySorted key_le (map key (registry_all g))
  end.
Proof.
  pose proof (new_RuleRegistry_spec rules) as H.
  destruct (new_RuleRegistry rules) as [g|e]; [|done]. destruct H as [Hnd Hg].
  split; [done|]. unfold registry_get, registry_all. rewrite Hg. split_and!.
  - intros k r. by apply find_key.
  - rewrite sort_items_perm, indexed_snd. done.
  - rewrite keys_of_indexed; [apply sort_items_sorted|].
    rewrite sort_items_perm. apply indexed_Forall.
Qed.

Lemma post_init_all rules :
  forallb (λ r, if post_init r is inl _ then true else false) rules = true →
  res_map post_init rules = inl rules.
Proof.
  induction rules as [|r rules IH]; [done|]. cbn [forallb res_map].
  intros [Hr Hrs]%andb_true_iff. rewrite IH by done.
  destruct (post_init r) as [r'|e] eqn:E; [|done]. unfold post_init in E.
  destruct (negb _ || _); [done|]. repeat case_match; simplify_eq; done.
Qed.

(** The shipped registry is built, with every rule in it. *)
Lemma default_registry_rules iso :
  ∃ g, default_registry iso = inl g ∧ _rules g = map (λ r, (key r, r)) (all_rules iso).
Proof.
  assert (res_map post_init (all_rules iso) = inl (all_rules iso)) as Hpost
    by (apply post_init_all; vm_compute; reflexivity).
  assert (NoDup (map key (all_rules iso))) as Hnd.
  { apply (bool_decide_unpack _). vm_compute. exact I. }
  assert (default_registry iso = new_RuleRegistry (all_rules iso)) as ->
    by (unfold default_registry; by rewrite Hpost).
  pose proof (new_RuleRegistry_spec (all_rules iso)) as H.
  destruct (new_RuleRegistry (all_rules iso)) as [g|e]; [|tauto]. destruct H as [_ Hg].
  exists g. split; [reflexivity|exact Hg].
Qed.

(** C39. The shipped registry loads, whatever [fromisoformat] does: all 32 rules
    pass their own validation, their keys are distinct, and evaluating any
    of them on any asset, or on none, and any context returns a result or
    raises the TypeError or ValueError of malformed metadata; the assertions
    in the evaluators never fail. *)
Theorem default_registry_sound iso :
  ∃ g, default_registry iso = inl g ∧ length (registry_all g) = 32%nat
  ∧ ∀ r a c, r ∈ registry_all g →
      match evaluate r a c with
      | inl _ => True
      | inr e => e = TypeError ∨ e = ValueError
      end.
Proof.
  destruct (default_registry_rules iso) as (g & Hdef & Hg).
  assert (registry_all g ≡ₚ all_rules iso) as Hperm.
  { unfold registry_all. rewrite Hg, sort_items_perm, indexed_snd. done. }
  exists g. split; [exact Hdef|]. split.
  { rewrite Hperm. reflexivity. }
  intros r a c Hr. rewrite Hperm in Hr. unfold evaluate.
  destruct (applies_to r a) eqn:Ha; [|done].
  pose proof (all_rules_guarded iso) as Hall. rewrite Forall_forall in Hall.
  specialize (Hall r Hr a c Ha). destruct (evaluator r a c); [done|exact Hall].
Qed.

(** * Network exposure *)

(** The ranges of one family are a list whose entries hold no container. *)
Definition ranges_ok (ranges field : string) (permission : pydict) : Prop :=
  ∃ items, dget_or ranges (PList []) permission = PList items
  ∧ ∀ d v, PDict d ∈ items → dget field d = Some v → is_list v = false ∧ is_dict v = false.
Definition permission_ok (p : pydict) : Prop :=
  ranges_ok "IpRanges" "CidrIp" p ∧ ranges_ok "Ipv6Ranges" "CidrIpv6" p.

(** One family has a world range. *)
Definition family_open (ranges field : string) (p : pydict) : Prop :=
  ∃ items d s, dget ranges p = Some (PList items) ∧ PDict d ∈ items
  ∧ dget field d = Some (PStr s) ∧ s ∈ WORLD_CIDRS.
Definition open_to_world (p : pydict) : Prop :=
  family_open "IpRanges" "CidrIp" p ∨ family_open "Ipv6Ranges" "CidrIpv6" p.

(** The permission admits the port: every protocol, or a range around it. *)
Definition covers (port : Z) (p : pydict) : Prop :=
  py_str (dget_or "IpProtocol" (PStr "") p) = "-1"
  ∨ ∃ a b v w, dget "FromPort" p = Some v ∧ as_number v = Some a
    ∧ dget "ToPort" p = Some w ∧ as_number w = Some b ∧ (a ≤ port ≤ b)%Z.

Lemma res_map_total {A B} (f : A → res B) (g : A → B) l :
  (∀ a, a ∈ l → f a = inl (g a)) → res_map f l = inl (map g l).
Proof.
  intros H. induction l as [|x l IH]; [done|]. cbn. rewrite H by set_solver. cbn.
  rewrite IH by set_solver. done.
Qed.

Lemma family_ranges_spec r f p :
  ranges_ok r f p → ∃ l, family_ranges r f p = inl l ∧ (l ≠ [] ↔ family_open r f p).
Proof.
  intros (items & Hi & Hok). unfold family_ranges. rewrite Hi. cbn [py_iter mbind res_bind].
  set (g := λ item, match item with
    | PDict d => match dget f d with
                 | Some (PStr s) => if existsb (String.eqb s) WORLD_CIDRS then [s] else []
                 | _ => [] end
    | _ => [] end).
  rewrite (res_map_total _ g).
  2: { intros [| | | | |d] Hd; try done. specialize (Hok d). unfold g. cbn.
       destruct (dget f d) as [v|] eqn:E; [|reflexivity].
       destruct (Hok v Hd eq_refl) as [Hl Hdd]. destruct v; try done; cbn; by destruct (_ || _). }
  eexists. split; [done|]. split.
  - intros Hne. assert (∃ s, s ∈ concat (map g items)) as [s Hs].
    { destruct (concat _) as [|s l]; [done|]. exists s. set_solver. }
    apply list_elem_of_In, in_concat in Hs as (l & Hl & Hs).
    apply in_map_iff in Hl as (item & <- & Hit). unfold g in Hs.
    destruct item as [| | | | |d]; try done. destruct (dget f d) as [[| | |s'| |]|] eqn:E; try done.
    destruct (existsb _ _) eqn:Ew; [|done]. apply existsb_exists in Ew as (w & Hw & ->%String.eqb_eq).
    exists items, d, w. split_and!; try done; [|by apply list_elem_of_In..].
    unfold dget_or in Hi. destruct (dget r p) as [v|]; cbn in Hi; [by subst|].
    injection Hi as <-. done.
  - intros (items' & d & s & Hr & Hd & Hf & Hs). unfold dget_or in Hi. rewrite Hr in Hi.
    injection Hi as ->. intros Hnil.
    assert (s ∈ concat (map g items)) as Hin; [|rewrite Hnil in Hin; set_solver].
    apply list_elem_of_In, in_concat. exists (g (PDict d)). split.
    + by apply in_map, list_elem_of_In.
    + unfold g. rewrite Hf. assert (existsb (String.eqb s) WORLD_CIDRS = true) as ->.
      { apply existsb_exists. exists s. split; [by apply list_elem_of_In|apply String.eqb_refl]. }
      by left.
Qed.

Lemma sorted_set_nil l : sorted_set l = [] ↔ l = [].
Proof.
  split; [|by intros ->]. destruct l as [|x l]; [done|]. cbn. unfold sorted_set.
  destruct (foldr insert_string [] l) as [|y l']; cbn; [done|].
  destruct (String.eqb x y); [done|]. by destruct (String.leb x y).
Qed.

Lemma world_ranges_spec p :
  permission_ok p → ∃ l, _world_ranges p = inl l ∧ (l ≠ [] ↔ open_to_world p).
Proof.
  intros [(l4 & E4 & H4)%family_ranges_spec (l6 & E6 & H6)%family_ranges_spec].
  unfold _world_ranges. rewrite E4. cbn. rewrite E6. cbn. eexists. split; [done|].
  unfold open_to_world. rewrite <-H4, <-H6, sorted_set_nil.
  destruct l4; [|naive_solver]. cbn. naive_solver.
Qed.

Lemma covers_spec port p :
  (String.eqb (py_str (dget_or "IpProtocol" (PStr "") p)) "-1"
   || in_ports port (dget "FromPort" p) (dget "ToPort" p)) = true ↔ covers port p.
Proof.
  unfold covers. rewrite orb_true_iff, String.eqb_eq. f_equiv. unfold in_ports. split.
  - destruct (dget "FromPort" p) as [v|], (dget "ToPort" p) as [w|]; cbn; try done;
      destruct (as_number v) eqn:Ev; try done; destruct (as_number w) eqn:Ew; try done.
    intros. do 4 eexists. split_and!; eauto; lia.
  - intros (a & b & v & w & -> & Ev & -> & Ew & H). cbn. rewrite Ev, Ew. lia.
Qed.

Lemma exposure_spec port p :
  permission_ok p → ∃ l, exposure port p = inl l ∧ (l ≠ [] ↔ open_to_world p ∧ covers port p).
Proof.
  intros (l & E & Hl)%world_ranges_spec. unfold exposure. rewrite E. cbn [mbind res_bind].
  eexists. split; [reflexivity|]. rewrite <-covers_spec, <-Hl.
  destruct l as [|x l]; cbn [negb andb]; [naive_solver|].
  destruct (_ || _); naive_solver.
Qed.

Lemma exposures_spec port ps :
  Forall permission_ok ps →
  ∃ ls, res_map (exposure port) ps = inl ls
  ∧ (concat ls ≠ [] ↔ ∃ p, p ∈ ps ∧ open_to_world p ∧ covers port p).
Proof.
  induction 1 as [|p ps (l & E & Hl)%(exposure_spec port) _ (ls & Es & Hls)]; cbn.
  { exists []. split; [done|]. set_solver. }
  rewrite E. cbn. rewrite Es. cbn. eexists. split; [done|]. cbn.
  assert (l ++ concat ls ≠ [] ↔ l ≠ [] ∨ concat ls ≠ []) as -> by (destruct l; naive_solver).
  rewrite Hl, Hls. set_solver.
Qed.

Lemma result_status (b : list pyval) f p :
  RuleResultStatus.FAILED ≠ RuleResultStatus.PASSED ∧
  status (match b with [] => passed p | _ => failed f end)
  = match b with [] => RuleResultStatus.PASSED | _ => RuleResultStatus.FAILED end.
Proof. split; [done|]. by destruct b. Qed.

(** The open-port rules are exact on well-formed metadata: if the asset's
    permissions are a list of dicts whose ranges are lists with text CIDRs,
    the rule for a port fails when some permission has a world CIDR (IPv4 or
    IPv6) and covers the port, by protocol -1 or by its range, and passes
    otherwise; it never errors or raises. *)
Theorem port_exposure_exact port a c m ps :
  Asset.metadata_json a = PDict m → _permissions m = Some ps → Forall permission_ok ps →
  ∃ r, _port_exposure port (Some a) c = inl r
  ∧ (status r = RuleResultStatus.FAILED ↔ ∃ p, p ∈ ps ∧ open_to_world p ∧ covers port p)
  ∧ (status r = RuleResultStatus.PASSED ↔ ¬ ∃ p, p ∈ ps ∧ open_to_world p ∧ covers port p).
Proof.
  intros Hm Hp Hok. destruct (exposures_spec port ps Hok) as (ls & E & Hls).
  unfold _port_exposure, with_metadata. rewrite Hm, Hp, E. cbn [mbind res_bind].
  eexists. split; [reflexivity|].
  rewrite (proj2 (result_status _ _ _)), <-Hls. destruct (concat ls); naive_solver.
Qed.

(** * The HTTPS-only policy *)

(** A statement that denies requests made without TLS. *)
Definition denies_http (v : pyval) : Prop :=
  ∃ d cond b t, v = PDict d ∧ dget "Effect" d = Some (PStr "Deny")
  ∧ dget "Condition" d = Some (PDict cond) ∧ dget "Bool" cond = Some (PDict b)
  ∧ dget "aws:SecureTransport" b = Some t
  ∧ (t = PBool false ∨ ∃ s, t = PStr s ∧ lower s = "false").

(** A statement the rule can read. *)
Definition statement_ok (v : pyval) : Prop :=
  ∃ d effect cond, v = PDict d ∧ dget "Effect" d = Some (PStr effect)
  ∧ dget_or "Condition" (PDict []) d = PDict cond
  ∧ (dget "Bool" cond = None ∨ dget "Bool" cond = Some PNone
     ∨ ∃ b, dget "Bool" cond = Some (PDict b)).

Lemma denies_insecure_spec o :
  denies_insecure o = true ↔
  ∃ t, o = Some t ∧ (t = PBool false ∨ ∃ s, t = PStr s ∧ lower s = "false").
Proof.
  unfold denies_insecure. destruct o as [[|b| |s| |]|]; try naive_solver.
  - destruct b; naive_solver.
  - rewrite String.eqb_eq. naive_solver.
Qed.

Lemma https_loop_step i v rest :
  statement_ok v →
  (denies_http v → status (https_loop i (v :: rest)) = RuleResultStatus.PASSED)
  ∧ (¬ denies_http v → https_loop i (v :: rest) = https_loop (i + 1) rest).
Proof.
  intros (d & effect & cond & -> & He & Hc & Hb). cbn [https_loop]. rewrite He, Hc. split.
  - intros (d' & cond' & b & t & [= <-] & He' & Hc' & Hb' & Ht & Hor).
    unfold dget_or in Hc. rewrite Hc' in Hc. injection Hc as ->.
    unfold dget_or. rewrite Hb'. cbn. rewrite He in He'. injection He' as ->. cbn.
    assert (denies_insecure (dget "aws:SecureTransport" b) = true) as ->; [|done].
    apply denies_insecure_spec. eauto.
  - intros Hn. unfold dget_or at 1. destruct Hb as [->|[->|[b Hb]]]; cbn; [|done|].
    + by rewrite andb_false_r.
    + rewrite Hb. cbn. destruct (String.eqb_spec effect "Deny") as [->|]; [|done]. cbn.
      destruct (denies_insecure _) eqn:E; [|done]. exfalso. apply Hn.
      apply denies_insecure_spec in E as (t & Ht & Hor). unfold dget_or in Hc.
      destruct (dget "Condition" d) as [cv|] eqn:Ecv; cbn in Hc.
      * subst cv. by exists d, cond, b, t.
      * injection Hc as <-. done.
Qed.

Lemma denies_http_em v : statement_ok v → denies_http v ∨ ¬ denies_http v.
Proof.
  intros (d & effect & cond & -> & He & Hc & Hb).
  destruct (String.eqb_spec effect "Deny") as [->|Hne].
  2: { right. intros (d' & ? & ? & ? & [= <-] & He' & _). congruence. }
  destruct (dget "Condition" d) as [cv|] eqn:Ecv.
  2: { right. intros (d' & ? & ? & ? & [= <-] & _ & Hc' & _). congruence. }
  unfold dget_or in Hc. rewrite Ecv in Hc. cbn in Hc. subst cv.
  destruct Hb as [Hb|[Hb|[b Hb]]].
  1,2: right; intros (d' & ? & ? & ? & [= <-] & _ & Hc' & Hb' & _); congruence.
  destruct (denies_insecure (dget "aws:SecureTransport" b)) eqn:E.
  - left. apply denies_insecure_spec in E as (t & Ht & Hor). by exists d, cond, b, t.
  - right. intros (d' & ? & b' & t & [= <-] & _ & Hc' & Hb' & Ht & Hor).
    apply not_true_iff_false in E. apply E, denies_insecure_spec. exists t.
    assert (b' = b) as -> by congruence. done.
Qed.

Lemma https_loop_spec i l :
  Forall statement_ok l →
  (status (https_loop i l) = RuleResultStatus.PASSED ↔ ∃ v, v ∈ l ∧ denies_http v)
  ∧ (status (https_loop i l) = RuleResultStatus.FAILED ↔ ¬ ∃ v, v ∈ l ∧ denies_http v).
Proof.
  intros Hl. revert i. induction Hl as [|v l Hv _ IH]; intros i.
  { cbn. split; split; try done; set_solver. }
  destruct (https_loop_step i v l Hv) as [H1 H2].
  destruct (denies_http_em v Hv) as [Hd|Hd].
  - rewrite (H1 Hd). split; split; try done; [intros _; exists v; set_solver|].
    intros Hn. exfalso. apply Hn. exists v. set_solver.
  - rewrite (H2 Hd), (proj1 (IH _)), (proj2 (IH _)).
    assert ((∃ w, w ∈ v :: l ∧ denies_http w) ↔ ∃ w, w ∈ l ∧ denies_http w) as ->; [|done].
    split; [|set_solver]. intros (w & [->|Hw]%elem_of_cons & Hdw); [done|eauto].
Qed.

(** The HTTPS-only rule on a readable bucket policy (every statement has a
    text Effect, a dict Condition and a dict or absent Bool): it passes
    exactly when some statement denies requests whose aws:SecureTransport is
    false, as the boolean or as text in any case, and fails otherwise. *)
Theorem https_only_exact a c m document statements :
  Asset.metadata_json a = PDict m → dget "policy_document" m = Some (PDict document) →
  statements_of document = Some statements → Forall statement_ok statements →
  ∃ r, _https_only_policy (Some a) c = inl r
  ∧ (status r = RuleResultStatus.PASSED ↔ ∃ v, v ∈ statements ∧ denies_http v)
  ∧ (status r = RuleResultStatus.FAILED ↔ ¬ ∃ v, v ∈ statements ∧ denies_http v).
Proof.
  intros Hm Hp Hs Hok. unfold _https_only_policy, with_metadata. rewrite Hm, Hp, Hs.
  eexists. split; [reflexivity|]. by apply https_loop_spec.
Qed.

(** * Access keys *)

(** The access-key rule fails exactly when some active key is older than 90
    whole days at the time of the evaluation, provided that every creation
    time parses; if one does not, the result is the error for malformed
    metadata and no verdict is given. *)
Theorem access_key_age_exact iso a c m values :
  Asset.metadata_json a = PDict m → dget "active_key_created_at" m = Some (PList values) →
  ∃ r, _access_key_age iso (Some a) c = inl r
  ∧ match mapM (key_age iso (evaluated_at c)) values with
    | None => status r = RuleResultStatus.ERROR
              ∧ error_code r = Some "malformed_access_key_metadata"
    | Some ages =>
        (status r = RuleResultStatus.FAILED ↔ ∃ n, n ∈ ages ∧ (90 < n)%Z)
        ∧ (status r = RuleResultStatus.PASSED ↔ Forall (λ n, (n ≤ 90)%Z) ages)
    end.
Proof.
  intros Hm Hv. unfold _access_key_age, with_metadata. rewrite Hm, Hv.
  eexists. split; [reflexivity|].
  destruct (mapM _ values) as [ages|]; [|done].
  assert ((90 <? max_or_zero ages)%Z = true ↔ ∃ n, n ∈ ages ∧ (90 < n)%Z) as Hmax.
  { rewrite Z.ltb_lt. unfold max_or_zero, py_max. destruct ages as [|x l]; [set_solver by lia|].
    revert x. induction l as [|y l IH]; intros x; cbn.
    - split; [intros; exists x; set_solver|]. by intros (n & ->%list_elem_of_singleton & ?).
    - rewrite Z.max_lt_iff, IH. set_solver. }
  assert (Forall (λ n, (n ≤ 90)%Z) ages ↔ ¬ ∃ n, n ∈ ages ∧ (90 < n)%Z) as ->.
  { rewrite Forall_forall. split; [intros H (n & Hn & ?); specialize (H n Hn); lia|].
    intros H n Hn. destruct (Z.le_gt_cases n 90); [done|]. exfalso; eauto. }
  rewrite <-Hmax. destruct (90 <? _)%Z; naive_solver.
Qed.

(** * Witnesses *)

Definition sample_asset (t : AssetType) (m : pydict) : Asset :=
  Asset.mk 1 2 3 t "sg-1" None "asset" "us-east-1" None (PDict []) (PDict m) 0 0 true.
Definition sample_context : RuleContext := mk_RuleContext [] (days 100).

(** A UDP range around port 22 that is open to IPv6. *)
Definition udp_permission : pydict :=
  [("IpProtocol", PStr "udp"); ("FromPort", PInt 20); ("ToPort", PInt 30);
   ("Ipv6Ranges", PList [PDict [("CidrIpv6", PStr "::/0")]])].

Lemma port_exposure_exact_witness :
  ∃ r, _port_exposure 22 (Some (sample_asset AssetType.EC2_SECURITY_GROUP
         [("ip_permissions", PList [PDict udp_permission])])) sample_context = inl r
  ∧ status r = RuleResultStatus.FAILED.
Proof.
  destruct (port_exposure_exact 22 (sample_asset AssetType.EC2_SECURITY_GROUP
         [("ip_permissions", PList [PDict udp_permission])]) sample_context _
         [udp_permission] eq_refl eq_refl) as (r & Hr & Hf & _).
  - apply Forall_singleton. split; eexists; (split; [reflexivity|]); cbn.
    + intros d v Hd. by apply not_elem_of_nil in Hd.
    + intros d v [= ->]%list_elem_of_singleton. cbn. by intros [= <-].
  - exists r. split; [exact Hr|]. apply Hf. exists udp_permission. split; [set_solver|]. split.
    + right. do 3 eexists. split_and!; [reflexivity|apply list_elem_of_here|reflexivity|].
      unfold WORLD_CIDRS. set_solver.
    + right. do 4 eexists. split_and!; reflexivity || done.
Defined.

Lemma https_only_exact_witness :
  ∃ r, _https_only_policy (Some (sample_asset AssetType.S3_BUCKET
         [("policy_document", PDict [("Statement", PList [PDict
             [("Effect", PStr "Allow")]])])])) sample_context = inl r
  ∧ status r = RuleResultStatus.FAILED.
Proof.
  edestruct (https_only_exact (sample_asset AssetType.S3_BUCKET
         [("policy_document", PDict [("Statement", PList [PDict
             [("Effect", PStr "Allow")]])])]) sample_context _ _ _ eq_refl eq_refl eq_refl)
    as (r & Hr & _ & Hf).
  - apply Forall_singleton. do 3 eexists. split_and!; [reflexivity..|]. by left.
  - exists r. split; [exact Hr|]. apply Hf.
    intros (v & ->%list_elem_of_singleton & d & cond & b & t & [= <-] & [=] & _).
Defined.

Lemma access_key_age_exact_witness :
  ∃ r, _access_key_age (λ _, Some (mk_datetime 0 (Some 0%Z)))
         (Some (sample_asset AssetType.IAM_USER
            [("active_key_created_at", PList [PStr "1970-01-01T00:00:00Z"])])) sample_context = inl r
  ∧ status r = RuleResultStatus.FAILED.
Proof.
  destruct (access_key_age_exact (λ _, Some (mk_datetime 0 (Some 0%Z))) (sample_asset AssetType.IAM_USER
            [("active_key_created_at", PList [PStr "1970-01-01T00:00:00Z"])]) sample_context
            _ _ eq_refl eq_refl) as (r & Hr & H).
  exists r. split; [exact Hr|]. cbv [mapM key_age] in H. apply H. exists 100%Z.
  split; [apply list_elem_of_here|lia].
Defined.
