(* ===== verification/Calendar.v ===== *)
(** The text Python gives a timezone-aware [datetime] in UTC, which the
    services write into messages. *)

From S2P Require Import Prelude.
From S2P Require Import PyValue.
From Stdlib Require Import Ascii.
From stdpp Require Import pretty list.

Local Open Scope Z_scope.

(** The proleptic Gregorian date of a day, counted from 1970-01-01: the day is
    placed in its 400-year era, whose years are taken to begin in March. *)
Definition civil (day : Z) : Z * Z * Z :=
  let z := day + 719468 in
  let era := z / 146097 in
  let doe := z mod 146097 in
  let yoe := (doe - doe / 1460 + doe / 36524 - doe / 146096) / 365 in
  let doy := doe - (365 * yoe + yoe / 4 - yoe / 100) in
  let mp := (5 * doy + 2) / 153 in
  let d := doy - (153 * mp + 2) / 5 + 1 in
  let m := if mp <? 10 then mp + 3 else mp - 9 in
  (yoe + era * 400 + (if m <=? 2 then 1 else 0), m, d).

(** [f"{n:0{width}d}"] of a natural number *)
Definition zpad (width : nat) (n : Z) : string :=
  let s := pretty n in
  concat_sep "" (repeat "0" (width - String.length s)) +:+ s.

(** [value.isoformat(sep)] and, with a space, [str(value)] *)
Definition isoformat (sep : string) (value : timestamp) : string :=
  let us := value mod 1000000 in
  let secs := value / 1000000 in
  let '(y, m, d) := civil (secs / 86400) in
  let t := secs mod 86400 in
  zpad 4 y +:+ "-" +:+ zpad 2 m +:+ "-" +:+ zpad 2 d +:+ sep
  +:+ zpad 2 (t / 3600) +:+ ":" +:+ zpad 2 (t / 60 mod 60) +:+ ":" +:+ zpad 2 (t mod 60)
  +:+ (if us =? 0 then "" else "." +:+ zpad 6 us) +:+ "+00:00".

Definition str_datetime (value : timestamp) : string := isoformat " " value.

Example str_datetime_epoch : str_datetime 0 = "1970-01-01 00:00:00+00:00".
Proof. vm_compute. reflexivity. Qed.
Example str_datetime_leap : str_datetime 1709210096000042 = "2024-02-29 12:34:56.000042+00:00".
Proof. vm_compute. reflexivity. Qed.

Arguments isoformat : simpl never.
#[global] Opaque isoformat.
