(* ===== verification/Notifications.v ===== *)
(** services/notifications.py: approval and delivery of notification events,
    over any provider, with the mock provider of notification_provider.py and
    the endpoints of api/v1/notifications.py that change state.

    The database gives timestamps in UTC, and sorts emails by their bytes. *)

From S2P Require Import Prelude.
From S2P Require Import Enums.
From S2P Require Import Rbac.
From S2P Require Import PyValue.
From S2P Require Import Models.
From S2P Require Import Sha256.
From S2P Require Import AiSafety.
From S2P Require Import Common.
From S2P Require Import Organizations.
From S2P Require Import PlatformJobs.
From S2P Require Import Calendar.
From S2P Require Import History.
From Stdlib Require Import Ascii.
From stdpp Require Import pretty list.

Module Event := NotificationEvent.
Module Attempt := NotificationDeliveryAttempt.

(** * Providers *)

(** services/notification_provider.py:30-32, NotificationDeliveryOutcome. *)
Inductive NotificationDeliveryOutcome := SUCCESS | FAILURE.

(** services/notification_provider.py:35-42, NotificationDeliveryResult. *)
Record NotificationDeliveryResult := mk_result {
  outcome : NotificationDeliveryOutcome;
  sanitized_error : option string;
  provider_message_id : option string;
  error_code : option string;
  retryable : bool;
  retry_after_seconds : option Z
}.

(** What [deliver] is given. *)
Record message := mk_message {
  msg_channel : NotificationChannel;
  msg_destination : option string;
  msg_recipients : list string;
  msg_subject : string;
  msg_body : string;
  msg_template : string;
  msg_context : pydict
}.

(** services/notification_provider.py:45-58, NotificationProvider.  A provider
    returns a result or raises, and may change its own state. *)
Class NotificationProvider (P : Type) := {
  provider_key : P → string;
  provider_deliver : P → message → res NotificationDeliveryResult * P
}.

(** services/notification_provider.py:61-101, MockNotificationProvider. *)
Record MockNotificationProvider := mk_mock { fault_mode : string; invocations : Z }.

(** services/notification_provider.py:73-101, MockNotificationProvider.deliver. *)
Definition mock_deliver (p : MockNotificationProvider) (_ : message)
    : res NotificationDeliveryResult * MockNotificationProvider :=
  let p := mk_mock (fault_mode p) (invocations p + 1) in
  let success := mk_result SUCCESS None None None false None in
  let result :=
    if String.eqb (fault_mode p) "success" then success
    else if String.eqb (fault_mode p) "always_fail" then
      mk_result FAILURE (Some "Mock provider was configured to fail delivery.") None
        (Some "mock_transient_failure") true None
    else if String.eqb (fault_mode p) "fail_then_succeed" && (invocations p =? 1)%Z then
      mk_result FAILURE (Some "Mock provider transient failure.") None
        (Some "mock_transient_failure") true None
    else success in
  (inl result, p).

#[export] Instance mock_provider : NotificationProvider MockNotificationProvider :=
  {| provider_key := λ _, "mock"; provider_deliver := mock_deliver |}.

(** * Constants *)

(** services/notifications.py:48-48, MAX_DELIVERY_ATTEMPTS. *)
Definition MAX_DELIVERY_ATTEMPTS : Z := 3.
(** services/notifications.py:49-49, CRITICAL_FINDING_TEMPLATE_KEY. *)
Definition CRITICAL_FINDING_TEMPLATE_KEY : string := "critical_finding_created".
(** services/notifications.py:50-50, CRITICAL_FINDING_EVENT_TYPE. *)
Definition CRITICAL_FINDING_EVENT_TYPE : string := "security.finding.created".
(** services/notifications.py:51-51, CRITICAL_FINDING_TEMPLATE_VERSION. *)
Definition CRITICAL_FINDING_TEMPLATE_VERSION : Z := 1.

(** services/notifications.py:52-52, EMAIL_RE. *)
Definition EMAIL_RE : re :=
  let part := AiSafety.plus (Cls (λ c, negb (Ascii.eqb c "@" || is_space c))) in
  AiSafety.seq [part; Chr1 "@"; part; Chr1 "."; part].

(** [EMAIL_RE.match(s)]: the expression matches a prefix that ends where [$]
    holds, at the end or before a final newline. *)
Definition email_ok (s : string) : bool :=
  is_some_ (re_match EMAIL_RE (None, s) (λ p,
    if String.eqb p.2 "" || String.eqb p.2 (String newline "") then Some p.2 else None)).

(** services/notifications.py:55-56, _payload_hash. *)
Definition _payload_hash (organization_id finding_id : uuid) (template_key : string) : string :=
  sha256_hex (uuid_str organization_id +:+ ":" +:+ uuid_str finding_id +:+ ":" +:+ template_key).

(** * Constraints of the tables *)

(** models/notification.py:37-51, part of NotificationEvent.  The CHECK
    constraints. *)
Definition event_checks (e : NotificationEvent) : bool :=
  let ap := is_some_ (Event.approved_at e) in
  let by_ := is_some_ (Event.approved_by_user_id e) in
  let de := is_some_ (Event.delivered_at e) in
  let fa := is_some_ (Event.failed_at e) in
  ((0 <=? Event.attempt_count e) && (Event.attempt_count e <=? 3))%Z
  && match Event.status e with
     | NotificationStatus.PENDING_APPROVAL => negb ap && negb by_ && negb de && negb fa
     | NotificationStatus.APPROVED => ap && negb de && negb fa
     | NotificationStatus.DELIVERED => ap && de && negb fa
     | NotificationStatus.FAILED => ap && fa && negb de
     end.

(** models/notification.py:26-33, part of NotificationEvent.  The key that
    keeps one event per source. *)
Definition event_conflict (e e' : NotificationEvent) : bool :=
  (Event.organization_id e ≟ Event.organization_id e')
  && (Event.source_event_type e ≟ Event.source_event_type e')
  && (Event.source_resource_id e ≟ Event.source_resource_id e')
  && (Event.channel e ≟ Event.channel e')
  && (Event.template_key e ≟ Event.template_key e').

(** models/notification.py:124-127, part of NotificationDeliveryAttempt.  The
    CHECK constraint. *)
Definition attempt_checks (a : NotificationDeliveryAttempt) : bool :=
  ((1 <=? Attempt.attempt_number a) && (Attempt.attempt_number a <=? 20))%Z.

(** models/notification.py:113-117, part of NotificationDeliveryAttempt.  The
    key of the attempts. *)
Definition attempt_conflict (a a' : NotificationDeliveryAttempt) : bool :=
  (Attempt.notification_event_id a ≟ Attempt.notification_event_id a')
  && (Attempt.attempt_number a ≟ Attempt.attempt_number a').

(** The flush of a new or changed event, and of a new attempt. *)
Definition save_event (fresh : bool) (e : NotificationEvent) : txn DB () :=
  t ← gets DB.notifications;
  _ ← ensure (event_checks e && unique_ok fresh event_conflict e t) IntegrityError;
  modify (λ d, d <| DB.notifications ::= put e |>).
Definition save_attempt (a : NotificationDeliveryAttempt) : txn DB () :=
  t ← gets DB.delivery_attempts;
  _ ← ensure (attempt_checks a && unique_ok true attempt_conflict a t) IntegrityError;
  modify (λ d, d <| DB.delivery_attempts ::= put a |>).

(** * The service *)

Section service.
Context {P : Type} `{NotificationProvider P}.

(** services/notifications.py:73-114, NotificationService.create_for_critical_finding. *)
Definition create_for_critical_finding (new_id : uuid) (now : timestamp) (finding : Finding)
    : txn DB (option NotificationEvent) :=
  if negb (Finding.severity finding ≟ FindingSeverity.CRITICAL) then mret None
  else
    let candidate :=
      Event.mk new_id (Finding.organization_id finding) CRITICAL_FINDING_EVENT_TYPE "finding"
        (Finding.id finding) NotificationChannel.EMAIL CRITICAL_FINDING_TEMPLATE_KEY None
        (_payload_hash (Finding.organization_id finding) (Finding.id finding)
           CRITICAL_FINDING_TEMPLATE_KEY)
        NotificationStatus.PENDING_APPROVAL 0 None None None None None None None None None now in
    inserted ← try_catch (_ ← begin_nested (save_event true candidate); mret true)
      (λ e, match e with IntegrityError => mret false | e => raise e end);
    if inserted : bool then
      _ ← record_audit "notification.event.created" "notification_event"
            AuditResult.SUCCEEDED (Some (Finding.organization_id finding)) None (Some new_id);
      mret (Some candidate)
    else mret None.

(** services/notifications.py:116-125, NotificationService._get_scoped. *)
Definition _get_scoped (organization_id event_id : uuid) : txn DB NotificationEvent :=
  e ← gets (λ d, find_row (λ e, (Event.id e ≟ event_id)
                 && (Event.organization_id e ≟ organization_id)) (DB.notifications d));
  some_or e (NotFoundError "notification_event_not_found").

Definition invalid_recipient : exn := ConflictError "notification_invalid_recipient".

(** services/notifications.py:129-140, part of
    NotificationService._recipients_for_event.  The active owners and admins. *)
Definition admin_emails (organization_id : uuid) (d : DB) : list string :=
  (sort_items (omap (λ m,
     u ← DB.users d !! OrganizationMembership.user_id m;
     if User.status u ≟ UserStatus.ACTIVE then Some (User.normalized_email u, User.email u)
     else None)
   (filter_rows (λ m,
      (OrganizationMembership.organization_id m ≟ organization_id)
      && (OrganizationMembership.status m ≟ MembershipStatus.ACTIVE)
      && bool_decide (OrganizationMembership.role m ∈
                        [OrganizationRole.OWNER; OrganizationRole.ADMIN]))
      (DB.members d)))).*2.

(** services/notifications.py:142-148, part of
    NotificationService._recipients_for_event.  Who started the evaluation. *)
Definition starter_email (event : NotificationEvent) (d : DB) : list string :=
  match DB.findings d !! Event.source_resource_id event with
  | Some finding =>
      if Finding.organization_id finding ≟ Event.organization_id event then
        match DB.evaluation_jobs d !! Finding.last_evaluation_id finding with
        | Some evaluation =>
            if EvaluationJob.organization_id evaluation ≟ Event.organization_id event then
              match DB.users d !! EvaluationJob.started_by_user_id evaluation with
              | Some actor => if User.status actor ≟ UserStatus.ACTIVE
                              then [User.email actor] else []
              | None => []
              end
            else []
        | None => []
        end
      else []
  | None => []
  end.

(** services/notifications.py:150-162, part of
    NotificationService._recipients_for_event.  The loop over the addresses. *)
Fixpoint dedupe (seen : list string) (recipients : list string) : res (list string) :=
  match recipients with
  | [] => mret []
  | recipient :: recipients =>
      let email := strip recipient in
      let normalized := lower email in
      if negb (email_ok email) then inr invalid_recipient
      else if existsb (String.eqb normalized) seen then dedupe seen recipients
      else rest ← dedupe (normalized :: seen) recipients; mret (email :: rest)
  end.

(** services/notifications.py:127-168, NotificationService._recipients_for_event. *)
Definition _recipients_for_event (event : NotificationEvent) (d : DB) : res (list string) :=
  deduped ← dedupe [] (admin_emails (Event.organization_id event) d ++ starter_email event d);
  match deduped with
  | [] => inr invalid_recipient
  | _ => mret deduped
  end.

(** [re.sub(r"[\r\n\x00-\x1f]", " ", s)] *)
Definition safe_char (c : ascii) : ascii := if (code c <? 32)%N then " "%char else c.

(** services/notifications.py:170-217, NotificationService._email_content. *)
Definition _email_content (frontend_url : string) (event : NotificationEvent) (d : DB)
    : string * string :=
  let organization := DB.organizations d !! Event.organization_id event in
  let finding := DB.findings d !! Event.source_resource_id event in
  let scoped := f ← finding;
    if Finding.organization_id f ≟ Event.organization_id event then Some f else None in
  let account := f ← scoped; DB.aws_accounts d !! Finding.aws_account_id f in
  let evaluation := f ← scoped; DB.evaluation_jobs d !! Finding.last_evaluation_id f in
  let org_name := from_option Organization.name "CloudOps organization" organization in
  let account_name := from_option AWSAccount.name "AWS account" account in
  let masked_account :=
    match account with
    | Some a =>
        let i := AWSAccount.account_id a in
        if Nat.leb 4 (String.length i)
        then "********" +:+ str_drop (String.length i - 4) i else "unknown"
    | None => "unknown"
    end in
  let safe_org_name := str_take 200 (strip (smap safe_char org_name)) in
  let subject := str_take 998 ("CloudOps security notification for " +:+ safe_org_name) in
  let evaluation_time :=
    default (Event.created_at event) (e ← evaluation; EvaluationJob.finished_at e) in
  let findings_created :=
    from_option EvaluationJob.findings_created 1%Z evaluation in
  let lines := [
    "Organization: " +:+ org_name;
    "AWS account: " +:+ account_name +:+ " (" +:+ masked_account +:+ ")";
    "Scan/evaluation time: " +:+ str_datetime evaluation_time;
    "Notification type: critical security finding";
    "Finding count: " +:+ pretty findings_created;
    "Critical/high/medium/low summary: critical=1, high=0, medium=0, low=0";
    "Compliance summary: review the CloudOps compliance page for the latest assessment.";
    "Risk summary: review the CloudOps risk page for the latest deterministic risk score."]
    ++ match finding with
       | Some f => ["Top finding:";
                    "- " +:+ Finding.rule_key f +:+ " ("
                    +:+ FindingSeverity.value (Finding.severity f) +:+ ")"]
       | None => []
       end
    ++ ["";
        "Remediation execution is simulated in CloudOps Version 1.";
        "Review the finding, compliance, risk, remediation, schedule, and audit "
        +:+ "pages before action.";
        "Open CloudOps: " +:+ frontend_url] in
  (subject, concat_sep (String newline "") lines).

Context (provider : P) (frontend_url : string).

(** services/notifications.py:419-429, NotificationService._delivery_fingerprint. *)
Definition _delivery_fingerprint (event : NotificationEvent) : string :=
  sha256_hex (concat_sep ":"
    [NotificationChannel.value (Event.channel event); Event.template_key event;
     default "" (Event.destination_reference event); Event.payload_hash event;
     provider_key provider]).

Definition event_transition : exn := ConflictError "notification_event_invalid_transition".

(** services/notifications.py:219-243, NotificationService.approve. *)
Definition approve (now : timestamp) (organization_id event_id : uuid) (approver : User)
    : txn DB NotificationEvent :=
  event ← _get_scoped organization_id event_id;
  if Event.status event ≟ NotificationStatus.APPROVED then mret event
  else
    _ ← ensure (Event.status event ≟ NotificationStatus.PENDING_APPROVAL) event_transition;
    let event := event
      <| Event.status := NotificationStatus.APPROVED |>
      <| Event.approved_at := Some now |>
      <| Event.approved_by_user_id := Some (User.id approver) |> in
    let event := event
      <| Event.approved_delivery_fingerprint := Some (_delivery_fingerprint event) |> in
    _ ← save_event false event;
    _ ← audit_ok "notification.event.approved" "notification_event" organization_id
          (User.id approver) (Event.id event);
    mret event.

(** services/notifications.py:245-270, NotificationService.revoke_approval. *)
Definition revoke_approval (organization_id event_id : uuid) (actor : User)
    : txn DB NotificationEvent :=
  event ← _get_scoped organization_id event_id;
  if Event.status event ≟ NotificationStatus.PENDING_APPROVAL then mret event
  else
    _ ← ensure (Event.status event ≟ NotificationStatus.APPROVED) event_transition;
    let event := event
      <| Event.status := NotificationStatus.PENDING_APPROVAL |>
      <| Event.approved_at := None |>
      <| Event.approved_by_user_id := None |>
      <| Event.approved_delivery_fingerprint := None |>
      <| Event.scheduled_at := None |> in
    _ ← audit_ok "notification.event.approval_revoked" "notification_event" organization_id
          (User.id actor) (Event.id event);
    _ ← save_event false event;
    mret event.

(** services/notifications.py:278-302, part of NotificationService.deliver.  The
    checks before the provider is called, and the message it is given. *)
Definition deliverable (organization_id event_id : uuid)
    : txn DB (NotificationEvent * message) :=
  event ← _get_scoped organization_id event_id;
  _ ← ensure (Event.status event ≟ NotificationStatus.APPROVED) event_transition;
  _ ← ensure (Event.approved_delivery_fingerprint event ≟ Some (_delivery_fingerprint event))
        (ConflictError "notification_approval_stale");
  content ← gets (_email_content frontend_url event);
  recipients ← gets (_recipients_for_event event);
  recipients ← of_res recipients;
  mret (event, mk_message (Event.channel event) (Event.destination_reference event)
    recipients content.1 content.2 (Event.template_key event)
    [("organization_id", PStr (uuid_str organization_id));
     ("source_resource_id", PStr (uuid_str (Event.source_resource_id event)))]).

(** services/notifications.py:322-346, part of NotificationService.deliver.  The
    evidence of one attempt, for an event that already counts it. *)
Definition evidence_of (new_id : uuid) (now : timestamp) (organization_id : uuid)
    (event : NotificationEvent) (msg : message) (result : NotificationDeliveryResult)
    : NotificationDeliveryAttempt :=
  Attempt.mk new_id organization_id (Event.id event) (Event.attempt_count event)
    (provider_key provider)
    ("recipient_count:" +:+ pretty (Z.of_nat (length (msg_recipients msg))))
    (Event.template_key event) CRITICAL_FINDING_TEMPLATE_VERSION
    (sha256_hex (msg_subject msg +:+ String newline "" +:+ msg_body msg))
    (provider_message_id result)
    (match outcome result with
     | SUCCESS => "success"
     | FAILURE => if retryable result then "retryable_failure" else "permanent_failure"
     end)
    (error_code result) (sanitized_error result) now
    (match outcome result with SUCCESS => Some now | FAILURE => None end)
    (match outcome result with SUCCESS => None | FAILURE => Some now end).

(** services/notifications.py:348-390, part of NotificationService.deliver.  What
    the result makes of an event that already counts the attempt. *)
Definition concluded (now : timestamp) (result : NotificationDeliveryResult)
    (event : NotificationEvent) : NotificationEvent :=
  match outcome result with
  | SUCCESS => event
      <| Event.status := NotificationStatus.DELIVERED |>
      <| Event.delivered_at := Some now |>
      <| Event.failed_at := None |>
      <| Event.failure_reason := None |>
      <| Event.provider_key := Some (provider_key provider) |>
      <| Event.provider_message_id := provider_message_id result |>
  | FAILURE =>
      if negb (retryable result) || (MAX_DELIVERY_ATTEMPTS <=? Event.attempt_count event)%Z
      then event
        <| Event.status := NotificationStatus.FAILED |>
        <| Event.failed_at := Some now |>
        <| Event.failure_reason := sanitized_error result |>
        <| Event.provider_key := Some (provider_key provider) |>
      else event <| Event.provider_key := Some (provider_key provider) |>
  end.

(** services/notifications.py:317-317, part of NotificationService.deliver.  The
    attempt is counted. *)
Definition counted_event (e : NotificationEvent) : NotificationEvent :=
  e <| Event.attempt_count ::= λ n, (n + 1)%Z |>.

(** services/notifications.py:272-392, NotificationService.deliver.  The result is
    what the service keeps as [last_result]. *)
Definition deliver (new_id : uuid) (now : timestamp) (organization_id event_id : uuid)
    : txn DB (NotificationEvent * NotificationDeliveryResult) :=
  em ← deliverable organization_id event_id;
  result ← of_res (provider_deliver provider em.2).1;
  let event := counted_event em.1 in
  let evidence := evidence_of new_id now organization_id event em.2 result in
  let event := concluded now result event in
  _ ← record_audit
        (match Event.status event with
         | NotificationStatus.DELIVERED => "notification.event.delivered"
         | NotificationStatus.FAILED => "notification.event.failed"
         | _ => "notification.event.delivery_retry"
         end) "notification_event"
        (if Event.status event ≟ NotificationStatus.FAILED then AuditResult.FAILED
         else AuditResult.SUCCEEDED)
        (Some organization_id) None (Some (Event.id event));
  _ ← save_event false event;
  _ ← save_attempt evidence;
  mret (event, result).

(** services/notifications.py:412-412, part of NotificationService.enqueue_delivery. *)
Definition delivery_payload (event_id : uuid) : pydict :=
  [("notification_event_id", PStr (uuid_str event_id))].

(** services/notifications.py:394-417, NotificationService.enqueue_delivery. *)
Definition enqueue_delivery (new_id new_correlation_id : uuid) (now : timestamp)
    (organization_id event_id : uuid) (actor : User) : txn DB PlatformJob :=
  event ← _get_scoped organization_id event_id;
  _ ← ensure (Event.status event ≟ NotificationStatus.APPROVED) event_transition;
  let fingerprint := match Event.approved_delivery_fingerprint event with
                     | Some f => if nonempty f then f else "missing"
                     | None => "missing"
                     end in
  jc ← enqueue new_id new_correlation_id now organization_id
         PlatformJobType.NOTIFICATION_DELIVERY (Event.id event)
         ("notification-delivery:" +:+ uuid_str (Event.id event) +:+ ":" +:+ fingerprint)
         (Some (delivery_payload (Event.id event)))
         None 0 3 None None (Some (User.id actor));
  _ ← save_event false (event <| Event.scheduled_at := Some now |>);
  mret jc.1.

(** * The endpoints *)

(** api/v1/notifications.py:27-30, _require_read. *)
Definition _require_read (user : User) (organization_id : uuid) : txn DB () :=
  _ ← require_capability organization_id (User.id user) Capability.NOTIFICATIONS_READ; mret tt.

(** api/v1/notifications.py:33-36, _require_approve. *)
Definition _require_approve (user : User) (organization_id : uuid) : txn DB () :=
  _ ← require_capability organization_id (User.id user) Capability.NOTIFICATIONS_APPROVE;
  mret tt.

(** api/v1/notifications.py:39-71, list_notifications. *)
Definition list_notifications (user : User) (organization_id : uuid)
    (status_filter : option NotificationStatus) (channel : option NotificationChannel)
    (source_resource_id : option uuid) (page page_size : nat)
    : txn DB (list NotificationEvent * nat) :=
  _ ← _require_read user organization_id;
  rows ← gets (λ d, filter_rows (λ e,
    (Event.organization_id e ≟ organization_id)
    && from_option (λ s, Event.status e ≟ s) true status_filter
    && from_option (λ c, Event.channel e ≟ c) true channel
    && from_option (λ i, Event.source_resource_id e ≟ i) true source_resource_id)
    (DB.notifications d));
  mret (page_of page page_size
          (sort_by (newest_first Event.created_at Event.id) rows), length rows).

(** api/v1/notifications.py:74-90, notification_detail. *)
Definition notification_detail (event_id : uuid) (user : User) (organization_id : uuid)
    : txn DB NotificationEvent :=
  _ ← _require_read user organization_id;
  _get_scoped organization_id event_id.

(** api/v1/notifications.py:93-122, notification_delivery_attempts. *)
Definition notification_delivery_attempts (event_id : uuid) (user : User)
    (organization_id : uuid) : txn DB (list NotificationDeliveryAttempt) :=
  _ ← _require_read user organization_id;
  _ ← _get_scoped organization_id event_id;
  rows ← gets (λ d, filter_rows
    (λ a, (Attempt.notification_event_id a ≟ event_id)
          && (Attempt.organization_id a ≟ organization_id)) (DB.delivery_attempts d));
  mret (take 20 (sort_by (λ a b, (Attempt.attempt_number a <=? Attempt.attempt_number b)%Z) rows)).

(** api/v1/notifications.py:125-135, approve_notification. *)
Definition approve_notification (now : timestamp) (event_id : uuid) (user : User)
    (organization_id : uuid) : txn DB NotificationEvent :=
  _ ← _require_approve user organization_id;
  event ← approve now organization_id event_id user;
  _ ← commit;
  mret event.

(** api/v1/notifications.py:138-151, revoke_notification_approval. *)
Definition revoke_notification_approval (event_id : uuid) (user : User)
    (organization_id : uuid) : txn DB NotificationEvent :=
  _ ← _require_approve user organization_id;
  event ← revoke_approval organization_id event_id user;
  _ ← commit;
  mret event.

(** api/v1/notifications.py:154-169, deliver_notification. *)
Definition deliver_notification (new_id new_correlation_id : uuid) (now : timestamp)
    (event_id : uuid) (user : User) (organization_id : uuid) : txn DB PlatformJob :=
  _ ← _require_approve user organization_id;
  job ← enqueue_delivery new_id new_correlation_id now organization_id event_id user;
  _ ← commit;
  mret job.
End service.

(** * Well-formed events *)

(** An event that may still be delivered. *)
Definition open_event (e : NotificationEvent) : bool :=
  bool_decide (Event.status e ∈ [NotificationStatus.PENDING_APPROVAL; NotificationStatus.APPROVED]).

Record event_ok (e : NotificationEvent) : Prop := {
  eo_checks : event_checks e = true;
  (** an open event has attempts left *)
  eo_attempts : open_event e = true → (Event.attempt_count e < MAX_DELIVERY_ATTEMPTS)%Z
}.

(** A later form of an event: its source and content stay, attempts are only
    added, and a closed event stays as it is. *)
Record event_later (e e' : NotificationEvent) : Prop := {
  el_id : Event.id e' = Event.id e;
  el_org : Event.organization_id e' = Event.organization_id e;
  el_source : Event.source_resource_id e' = Event.source_resource_id e;
  el_payload : Event.payload_hash e' = Event.payload_hash e;
  el_attempts : (Event.attempt_count e <= Event.attempt_count e')%Z;
  el_closed : open_event e = false → e' = e
}.

#[export] Instance event_later_preorder : PreOrder event_later.
Proof.
  split; [by split|]. intros e1 e2 e3 [] []. split; try congruence; [lia|].
  intros Hc. assert (e2 = e1) as -> by auto. auto.
Qed.

(** The attempt that evidence [a] records fits the state of its event: all but
    the last attempt of a closed event are failures to be retried, the last
    one of a delivered event is the success, and of a failed one it is not. *)
Definition fits (e : NotificationEvent) (a : NotificationDeliveryAttempt) : Prop :=
  (1 <= Attempt.attempt_number a <= Event.attempt_count e)%Z
  ∧ if negb (open_event e) && (Attempt.attempt_number a =? Event.attempt_count e)%Z
    then match Event.status e with
         | NotificationStatus.DELIVERED => Attempt.response_classification a = "success"
         | _ => Attempt.response_classification a ≠ "success"
         end
    else Attempt.response_classification a = "retryable_failure".

(** The events and the evidence of their attempts. *)
Record ledger_ok (d : DB) : Prop := {
  lg_events : table_ok DB.notifications event_ok event_conflict d;
  lg_keyed : keyed (DB.delivery_attempts d);
  lg_unique : unique_index attempt_conflict (DB.delivery_attempts d);
  (** evidence belongs to an event and fits it *)
  lg_fits : ∀ k a, DB.delivery_attempts d !! k = Some a →
    ∃ e, DB.notifications d !! Attempt.notification_event_id a = Some e ∧ fits e a;
  (** every counted attempt has evidence *)
  lg_all : ∀ i e n, DB.notifications d !! i = Some e → (1 <= n <= Event.attempt_count e)%Z →
    ∃ k a, DB.delivery_attempts d !! k = Some a
           ∧ Attempt.notification_event_id a = i ∧ Attempt.attempt_number a = n
}.

Definition ledger_follows (d d' : DB) : Prop :=
  ledger_ok d' ∧ advances DB.notifications event_later d d'.

Lemma event_conflict_sym e e' : event_conflict e e' = event_conflict e' e.
Proof.
  apply eq_true_iff_eq. unfold event_conflict. rewrite !andb_true_iff, !bool_decide_eq_true.
  naive_solver.
Qed.
Lemma attempt_conflict_sym a a' : attempt_conflict a a' = attempt_conflict a' a.
Proof.
  apply eq_true_iff_eq. unfold attempt_conflict. rewrite !andb_true_iff, !bool_decide_eq_true.
  naive_solver.
Qed.
#[export] Hint Resolve event_conflict_sym attempt_conflict_sym : rows.

Lemma ledger_refl d : ledger_ok d → ledger_follows d d.
Proof. intros Hd. split; [done|]. intros k r Hk. by exists r. Qed.
Lemma ledger_trans d1 d2 d3 : ledger_follows d1 d2 → ledger_follows d2 d3 → ledger_follows d1 d3.
Proof.
  intros [Hd2 H12] [Hd3 H23]. split; [done|].
  by apply (history_trans _ event_ok event_later event_conflict d1 d2 d3);
    (split; [apply lg_events|]).
Qed.

(** Changes of other tables. *)
Lemma ledger_same d0 d d' :
  ledger_follows d0 d → DB.notifications d' = DB.notifications d →
  DB.delivery_attempts d' = DB.delivery_attempts d → ledger_follows d0 d'.
Proof.
  intros [[[] ? ? ? ?] Hl] E E'. split.
  - split; [split|..]; rewrite ?E, ?E'; done.
  - intros k r. rewrite E. apply Hl.
Qed.

(** An open event stays open, with as many attempts. *)
Lemma ledger_put_open d0 d fresh e :
  ledger_follows d0 d → event_ok e → open_event e = true →
  unique_ok fresh event_conflict e (DB.notifications d) = true →
  match DB.notifications d !! Event.id e with
  | Some e0 => event_later e0 e ∧ open_event e0 = true
               ∧ Event.attempt_count e = Event.attempt_count e0
  | None => Event.attempt_count e = 0%Z
  end →
  ledger_follows d0 (d <| DB.notifications ::= put e |>).
Proof.
  intros Hf He Ho Hu He0. eapply ledger_trans; [exact Hf|]. destruct Hf as [[Ht Hk Hx Hfit Hall] _].
  pose proof (extends_put DB.notifications event_ok event_later event_conflict event_conflict_sym
    d d (d <| DB.notifications ::= put e |>) fresh e) as [Ht' Hadv].
  { by apply history_refl; [apply _|]. }
  1-2: done.
  { intros e0 H0. change (row_id e) with (Event.id e) in H0. rewrite H0 in He0. tauto. }
  { done. }
  split; [split|]; cbn; try done.
  - intros k a Ha. destruct (Hfit k a Ha) as (e0 & H0 & Hf). unfold put.
    change (row_id e) with (Event.id e). rewrite lookup_insert. case_decide as E.
    + exists e. split; [done|]. rewrite E, H0 in He0. destruct He0 as (_ & Ho0 & Hc).
      unfold fits in *. by rewrite Ho, Hc; rewrite Ho0 in Hf.
    + by exists e0.
  - intros i e1 n. unfold put. change (row_id e) with (Event.id e). rewrite lookup_insert.
    case_decide as E; [intros [= <-]|by apply Hall].
    destruct (DB.notifications d !! Event.id e) as [e0|] eqn:H0.
    + destruct He0 as (_ & _ & ->). rewrite <-E. by apply Hall.
    + rewrite He0. lia.
Qed.

(** * Rules *)

Lemma wp_get_event o i Q s :
  keyed (DB.notifications (working s)) →
  (∀ e, DB.notifications (working s) !! i = Some e → Event.organization_id e = o →
     Event.id e = i → Q (Ret e) s) →
  Q (Raise (NotFoundError "notification_event_not_found")) s →
  wp (_get_scoped o i) Q s.
Proof.
  intros Hk H1 H2. unfold _get_scoped. wp_go; [|done].
  match goal with H : find_row _ _ = Some ?a |- _ =>
    apply (find_row_pinned _ (λ r, Event.organization_id r ≟ o) _ i) in H as [H ?]; [|done..] end.
  bools. apply H1; [done..|]. by apply (Hk i).
Qed.

Lemma wp_save_event fresh e Q s :
  (event_checks e = true →
   unique_ok fresh event_conflict e (DB.notifications (working s)) = true →
     Q (Ret tt) (Sess (committed s) ((working s) <| DB.notifications ::= put e |>))) →
  Q (Raise IntegrityError) s →
  wp (save_event fresh e) Q s.
Proof. intros H1 H2. unfold save_event. wp_go; [bools|]; eauto. Qed.

#[export] Instance ledger_audit d0 : StableAudit (ledger_follows d0).
Proof. intros d f Hd. by eapply ledger_same. Qed.
#[export] Instance ledger_queue d0 : StableQueue (ledger_follows d0).
Proof. intros d f Hd. by eapply ledger_same. Qed.

Section keeps.
Context {P : Type} `{NotificationProvider P} (d0 : DB).
Abbreviation J := (ledger_follows d0).

(** The flush of an open event that follows the stored one. *)
Lemma wp_save_open fresh e Q s :
  both J s → (event_checks e = true → event_ok e) → open_event e = true →
  match DB.notifications (working s) !! Event.id e with
  | Some e0 => event_later e0 e ∧ open_event e0 = true
               ∧ Event.attempt_count e = Event.attempt_count e0
  | None => Event.attempt_count e = 0%Z
  end →
  (∀ o s', both J s' → Q o s') →
  wp (save_event fresh e) Q s.
Proof.
  intros [Hc Hw] He Ho H0 HQ. apply wp_save_event; [|by apply HQ].
  intros. apply HQ. split; cbn; [done|]. eapply ledger_put_open; eauto.
Qed.

Lemma keeps_create i now f : keeps J (create_for_critical_finding i now f).
Proof.
  unfold create_for_critical_finding. keeps_go. apply keeps_begin_nested.
  intros s Hs. apply wp_bind. unfold save_event. wp_go; [|done]. bools.
  split; [apply Hs|]. eapply ledger_put_open; [apply Hs| |done|done|].
  { by split. }
  match goal with H : unique_ok _ _ _ _ = true |- _ => apply unique_ok_true in H as [Hn _] end.
  pose proof (Hn eq_refl) as E. cbn in E |- *. by rewrite E.
Qed.

Lemma keeps_event {A} o i (f : NotificationEvent → txn DB A) :
  (∀ e s, both J s → DB.notifications (working s) !! Event.id e = Some e → event_ok e →
     wp (f e) (λ _ s', both J s') s) →
  keeps J (e ← _get_scoped o i; f e).
Proof.
  intros Hf s Hs. apply wp_bind. pose proof Hs as [_ [[[Hk Hu Ha] ? ? ? ?] _]].
  apply wp_get_event; [done| |done].
  intros e He _ Hid. apply Hf; [done| |by apply (Ha _ _ He)]. by rewrite Hid.
Qed.

Lemma open_of_status e s :
  s = NotificationStatus.PENDING_APPROVAL ∨ s = NotificationStatus.APPROVED →
  Event.status e = s → open_event e = true.
Proof. intros Hs E. unfold open_event. rewrite E. by destruct Hs as [-> | ->]. Qed.

Lemma open_later e e' :
  open_event e = true → Event.id e' = Event.id e →
  Event.organization_id e' = Event.organization_id e →
  Event.source_resource_id e' = Event.source_resource_id e →
  Event.payload_hash e' = Event.payload_hash e →
  Event.attempt_count e' = Event.attempt_count e → event_later e e'.
Proof. intros Ho ???? E. split; try done; [lia|congruence]. Qed.

(** The flush of an open event changed from the loaded, open event [e]. *)
Ltac saves_open e :=
  eapply (wp_save_open false);
  [done
  |intros Hchk; split; [exact Hchk|intros _; cbn;
     match goal with H : event_ok e |- _ => apply (eo_attempts _ H) end;
     eauto using open_of_status]
  |by eauto using open_of_status
  |cbn; match goal with H : _ !! _ = Some e |- _ => rewrite H end;
   split_and!; [apply open_later; eauto using open_of_status|by eauto using open_of_status|done]
  |].

Lemma keeps_approve_event (p : P) now o i u : keeps J (approve p now o i u).
Proof.
  apply keeps_event. intros e s Hs He Hok. wp_go; try done. bools.
  saves_open e. intros [[]|] s' Hs'; [|done].
  refine (keeps_bind J _ _ _ _ s' Hs'); keeps_go.
Qed.

Lemma keeps_revoke o i u : keeps J (revoke_approval o i u).
Proof.
  apply keeps_event. intros e s Hs He Hok. wp_go; try done. bools.
  apply (both_audit J _ (λ l, l ++ [AuditEvent.mk (Some o) (Some (User.id u))
    "notification.event.approval_revoked" "notification_event" (Some (Event.id e))
    AuditResult.SUCCEEDED])) in Hs.
  saves_open e. by intros [[]|] s' Hs'; [apply wp_ret|].
Qed.

(** Queueing a delivery leaves the loaded event as it is. *)
Lemma keeps_enqueue_delivery i c now o ev u : keeps J (enqueue_delivery i c now o ev u).
Proof.
  apply keeps_event. intros e s Hs He Hok. wp_step. wp_step; [|done]. bools. cbn zeta.
  apply wp_bind, wp_enqueue_frame. intros out f g.
  assert (both J (Sess (committed s)
    ((working s) <| DB.platform_jobs ::= f |> <| DB.audit ::= g |>))) as Hs'.
  { split; [apply Hs|]. apply stable_audit, stable_queue, Hs. }
  destruct out as [jc|]; [|done]. cbn beta iota. apply wp_bind.
  saves_open e. by intros [[]|] s' ?; [apply wp_ret|].
Qed.
End keeps.

(** * Delivery *)

Section deliver.
Context {P : Type} `{NotificationProvider P} (provider : P) (url : string).

(** The status an attempt leads to. *)
Definition verdict (result : NotificationDeliveryResult) (attempts : Z) : NotificationStatus :=
  match outcome result with
  | SUCCESS => NotificationStatus.DELIVERED
  | FAILURE => if retryable result && (attempts <? MAX_DELIVERY_ATTEMPTS)%Z
               then NotificationStatus.APPROVED else NotificationStatus.FAILED
  end.

Lemma concluded_fields now result e :
  let e' := concluded provider now result e in
  Event.id e' = Event.id e ∧ Event.organization_id e' = Event.organization_id e
  ∧ Event.source_resource_id e' = Event.source_resource_id e
  ∧ Event.payload_hash e' = Event.payload_hash e
  ∧ Event.attempt_count e' = Event.attempt_count e.
Proof. unfold concluded. destruct (outcome result); [done|]. by case_match. Qed.

Lemma concluded_status now result e :
  Event.status e = NotificationStatus.APPROVED →
  Event.status (concluded provider now result e) = verdict result (Event.attempt_count e).
Proof.
  unfold concluded, verdict, MAX_DELIVERY_ATTEMPTS. intros He.
  destruct (outcome result); [done|]. rewrite Z.ltb_antisym.
  by destruct (retryable result), (3 <=? Event.attempt_count e)%Z.
Qed.

(** An attempt at an approved event, with its evidence. *)
Lemma ledger_attempt d i now o e msg result :
  ledger_ok d → DB.notifications d !! Event.id e = Some e →
  Event.status e = NotificationStatus.APPROVED →
  let a := evidence_of provider i now o (counted_event e) msg result in
  let e' := concluded provider now result (counted_event e) in
  event_checks e' = true →
  unique_ok false event_conflict e' (DB.notifications d) = true →
  unique_ok true attempt_conflict a (DB.delivery_attempts d) = true →
  ledger_follows d (d <| DB.notifications ::= put e' |> <| DB.delivery_attempts ::= put a |>).
Proof.
  intros [Ht Hk Hx Hfit Hall] He Hst a e' Hchk Hue Hua.
  pose proof (concluded_fields now result (counted_event e)) as (Hid & Ho & Hsrc & Hph & Hcnt).
  pose proof (concluded_status now result (counted_event e) Hst) as Hv.
  fold e' in Hid, Ho, Hsrc, Hph, Hcnt, Hv. cbn in Hcnt.
  assert (open_event e = true) as Hop by eauto using open_of_status.
  assert (event_ok e) as [_ Hroom] by apply (tk_rows _ _ _ _ Ht _ _ He).
  assert (open_event e' = true → retryable result = true ∧ outcome result = FAILURE
            ∧ (Event.attempt_count e' < MAX_DELIVERY_ATTEMPTS)%Z) as Hopen'.
  { unfold open_event. rewrite Hv, Hcnt. unfold verdict. cbn [counted_event Event.attempt_count].
    destruct (outcome result); [done|]. destruct (retryable result); [|done]. cbn [andb].
    destruct (_ <? _)%Z eqn:Hlt; [|done]. intros _. split_and!; [done..|]. by apply Z.ltb_lt. }
  assert (event_ok e') as Hok' by (split; [done|apply Hopen']).
  assert (1 <= Event.attempt_count e')%Z as Hpos.
  { pose proof (tk_rows _ _ _ _ Ht _ _ He) as [Hc0 _].
    apply andb_true_iff in Hc0 as [Hc0 _]. rewrite Hcnt. lia. }
  assert (fits e' a) as Hfa.
  { unfold fits. change (Attempt.attempt_number a) with (Event.attempt_count e + 1)%Z.
    rewrite <-Hcnt, Z.eqb_refl, andb_true_r. split; [lia|]. cbn.
    destruct (open_event e') eqn:Ho'; cbn.
    - by destruct (Hopen' eq_refl) as (-> & -> & _).
    - rewrite Hv. unfold verdict. destruct (outcome result); [done|].
      by destruct (retryable result), (_ <? _)%Z. }
  assert (∀ a0, fits e a0 → fits e' a0) as Hmono.
  { intros a0 [Hn Hc]. rewrite Hop in Hc. cbn in Hc. unfold fits. rewrite Hcnt.
    split; [lia|]. destruct (_ =? _)%Z eqn:Heq; [apply Z.eqb_eq in Heq; lia|].
    by rewrite andb_false_r. }
  assert (DB.delivery_attempts d !! i = None) as Hnew.
  { apply unique_ok_true in Hua as [Hn _]. exact (Hn eq_refl). }
  pose proof (extends_put DB.notifications event_ok event_later event_conflict
    event_conflict_sym d d
    (d <| DB.notifications ::= put e' |> <| DB.delivery_attempts ::= put a |>) false e')
    as [Ht' Hadv]; [by apply history_refl; [apply _|]|done..| |done|].
  { intros e0. change (row_id e') with (Event.id e'). rewrite Hid. cbn. rewrite He.
    intros [= <-]. split; try done; [rewrite Hcnt; cbn; lia|congruence]. }
  split; [|done]. split; [exact Ht'|by apply keyed_put| | |]; cbn.
  - eapply unique_index_put; eauto with rows.
  - intros k a0. unfold put. rewrite lookup_insert. case_decide as E.
    + intros [= <-]. exists e'. split; [|done].
      change (row_id e') with (Event.id e'). rewrite Hid. apply lookup_insert_eq.
    + intros Ha0. destruct (Hfit k a0 Ha0) as (e0 & H0 & Hf0).
      change (row_id e') with (Event.id e'). rewrite lookup_insert. case_decide as E'.
      * exists e'. split; [done|]. apply Hmono. rewrite Hid in E'. cbn in E'.
        rewrite E', H0 in He. by injection He as <-.
      * by exists e0.
  - intros j e1 n. unfold put. change (row_id e') with (Event.id e'). rewrite lookup_insert.
    assert (∀ k a0, DB.delivery_attempts d !! k = Some a0 →
      <[row_id a:=a]> (DB.delivery_attempts d) !! k = Some a0) as Hkept.
    { intros k a0 Ha0. rewrite lookup_insert_ne; [done|]. intros <-.
      change (row_id a) with i in Ha0. congruence. }
    case_decide as E.
    + intros [= <-] Hn. rewrite Hid in E. cbn in E. destruct (decide (n = Event.attempt_count e')) as [->|].
      * exists i, a. split_and!; [apply lookup_insert_eq|exact E|by rewrite Hcnt].
      * destruct (Hall _ _ n He) as (k & a0 & ? & ? & ?); [lia|].
        exists k, a0. split_and!; [auto|congruence|done].
    + intros H1 Hn. destruct (Hall _ _ n H1 Hn) as (k & a0 & ? & ? & ?).
      exists k, a0. auto.
Qed.

(** What [deliverable] establishes. *)
Record sendable (o ev : uuid) (d : DB) (e : NotificationEvent) (msg : message) : Prop := {
  sd_event : DB.notifications d !! ev = Some e;
  sd_id : Event.id e = ev;
  sd_org : Event.organization_id e = o;
  sd_status : Event.status e = NotificationStatus.APPROVED;
  sd_fingerprint : Event.approved_delivery_fingerprint e = Some (_delivery_fingerprint provider e);
  sd_recipients : _recipients_for_event e d = inl (msg_recipients msg);
  sd_content : (msg_subject msg, msg_body msg) = _email_content url e d
}.

Lemma wp_deliverable o ev Q s :
  keyed (DB.notifications (working s)) →
  (∀ e msg, sendable o ev (working s) e msg → Q (Ret (e, msg)) s) →
  (∀ x, Q (Raise x) s) →
  wp (deliverable provider url o ev) Q s.
Proof.
  intros Hk HQ HE. unfold deliverable. apply wp_bind, wp_get_event; [done| |apply HE].
  intros e He Ho Hid. wp_go; try apply HE. bools. apply HQ.
  by split.
Qed.

(** A recipient list never is empty, and only has addresses. *)
Lemma dedupe_spec seen l out :
  dedupe seen l = inl out →
  Forall (λ x, email_ok x = true) out ∧ NoDup (map lower out)
  ∧ ∀ x, x ∈ out → lower x ∉ seen.
Proof.
  revert seen out. induction l as [|r l IH]; intros seen out; cbn.
  { intros [= <-]. split_and!; [done|constructor|set_solver]. }
  destruct (email_ok (strip r)) eqn:Hok; cbn; [|done].
  destruct (existsb _ seen) eqn:Hs; [by apply IH|].
  destruct (dedupe _ l) as [rest|] eqn:Hd; cbn; [|done]. intros [= <-].
  destruct (IH _ _ Hd) as (Hf & Hnd & Hns).
  assert (lower (strip r) ∉ seen) as Hnot.
  { intros Hin. apply not_true_iff_false in Hs. apply Hs, existsb_exists.
    exists (lower (strip r)). split; [by apply list_elem_of_In|apply String.eqb_refl]. }
  split_and!; [by constructor| |].
  - cbn. constructor; [|done]. rewrite list_elem_of_fmap. intros (x & Hx & Hin).
    apply (Hns x Hin). rewrite <-Hx. set_solver.
  - intros x [->|Hin]%elem_of_cons; [done|]. specialize (Hns x Hin). set_solver.
Qed.

Lemma recipients_spec e d out :
  _recipients_for_event e d = inl out →
  out ≠ [] ∧ Forall (λ x, email_ok x = true) out ∧ NoDup (map lower out).
Proof.
  unfold _recipients_for_event. destruct (dedupe _ _) as [l|] eqn:Hd; cbn; [|done].
  destruct l as [|x l]; [done|]. intros [= <-].
  pose proof (dedupe_spec _ _ _ Hd) as (? & ? & _). split_and!; done.
Qed.
End deliver.

(** * Theorems *)

(** One step of any client or worker: the evaluation that reports a critical
    finding, the endpoints, the delivery of a queued job by some provider, and
    changes elsewhere. *)
Inductive event_step {P : Type} `{NotificationProvider P} : DB → DB → Prop :=
| step_create i now f d :
    event_step d (run (_ ← create_for_critical_finding i now f; commit) d).2
| step_approve (p : P) now ev u o d : event_step d (run (approve_notification p now ev u o) d).2
| step_revoke ev u o d : event_step d (run (revoke_notification_approval ev u o) d).2
| step_queue i c now ev u o d : event_step d (run (deliver_notification i c now ev u o) d).2
| step_deliver (p : P) url i now o ev d :
    event_step d (run (_ ← deliver p url i now o ev; commit) d).2
| step_elsewhere d d' :
    DB.notifications d' = DB.notifications d →
    DB.delivery_attempts d' = DB.delivery_attempts d → event_step d d'.

Lemma deliver_follows {P : Type} `{NotificationProvider P} (p : P) url i now o ev d :
  ledger_ok d → ledger_follows d (run (_ ← deliver p url i now o ev; commit) d).2.
Proof.
  intros Hd. apply (wp_run _ (λ _, ledger_follows d)). pose proof (ledger_refl _ Hd) as Hr.
  unfold deliver. apply wp_bind, wp_bind, wp_deliverable; [apply (lg_events _ Hd)| |done].
  intros e msg Hs. cbn [fst snd working]. wp_step. wp_step; [|done].
  rename a into result. unfold record_audit, save_event, save_attempt. wp_go; try exact Hr. bools.
  refine (ledger_same d (d <| DB.notifications ::= _ |> <| DB.delivery_attempts ::= _ |>) _ _ _ _).
  { eapply (ledger_attempt p d i now o e msg result Hd); try done.
    - rewrite (sd_id _ _ _ _ _ _ _ Hs). apply Hs.
    - apply Hs. }
  - done.
  - done.
Qed.

Lemma event_step_follows {P : Type} `{NotificationProvider P} d d' :
  ledger_ok d → event_step (P := P) d d' → ledger_follows d d'.
Proof.
  intros Hd Hs. pose proof (ledger_refl d Hd) as Hr.
  assert (∀ {A} (m : txn DB A), keeps (ledger_follows d) m → ledger_follows d (run m d).2) as Hrun.
  { intros A m Hm. by apply keeps_run. }
  destruct Hs; try by eapply ledger_same.
  - apply Hrun. keeps_go. apply keeps_create.
  - apply Hrun. unfold approve_notification, _require_approve. keeps_go. apply keeps_approve_event.
  - apply Hrun. unfold revoke_notification_approval, _require_approve. keeps_go. apply keeps_revoke.
  - apply Hrun. unfold deliver_notification, _require_approve. keeps_go. apply keeps_enqueue_delivery.
  - by apply deliver_follows.
Qed.

Lemma event_steps_follow {P : Type} `{NotificationProvider P} d d' :
  ledger_ok d → rtc (event_step (P := P)) d d' → ledger_follows d d'.
Proof.
  intros Hd Hs. induction Hs as [d|d1 d2 d3 H12 H23 IH]; [by apply ledger_refl|].
  pose proof (event_step_follows _ _ Hd H12) as Hf. eapply ledger_trans; [exact Hf|].
  apply IH, Hf.
Qed.


(** Delivery.  The provider is called once, and only for an approved event
    of the organization whose channel, template, destination, content and
    provider are those that were approved, with a list of recipients that is
    not empty, has no duplicates and only well-formed addresses.  Its result
    decides the event: delivered on success; approved still after a failure
    that may be retried, before the third attempt; failed otherwise.  One
    numbered piece of evidence is stored with it, in the same transaction.  A
    delivery that is refused, or whose provider raises, changes nothing. *)
Theorem deliver_decides {P : Type} `{NotificationProvider P} (p : P) url i now o ev d :
  ledger_ok d →
  match run (r ← deliver p url i now o ev; _ ← commit; mret r) d with
  | (Ret (e', result), d') =>
      ∃ e msg, sendable p url o ev d e msg
      ∧ msg_recipients msg ≠ []
      ∧ Forall (λ x, email_ok x = true) (msg_recipients msg)
      ∧ NoDup (map lower (msg_recipients msg))
      ∧ (provider_deliver p msg).1 = inl result
      ∧ DB.notifications d' = <[ev := e']> (DB.notifications d)
      ∧ Event.attempt_count e' = (Event.attempt_count e + 1)%Z
      ∧ Event.status e' = verdict result (Event.attempt_count e')
      ∧ DB.delivery_attempts d' =
          <[i := evidence_of p i now o (counted_event e) msg result]> (DB.delivery_attempts d)
  | (Raise _, d') => d' = d
  end.
Proof.
  intros Hd. destruct (run _ d) as [out d'] eqn:Hrun. wp_run_in Hrun.
  unfold deliver. apply wp_bind, wp_bind, wp_deliverable; [apply (lg_events _ Hd)| |done].
  intros e msg Hs. cbn [fst snd working]. wp_step. wp_step; [|done].
  rename a into result. unfold record_audit, save_event, save_attempt. wp_go; try done.
  exists e, msg. destruct (recipients_spec _ _ _ (sd_recipients _ _ _ _ _ _ _ Hs)) as (?&?&?).
  pose proof (concluded_fields p now result (counted_event e)) as (Hid & _ & _ & _ & Hcnt).
  split_and!; try assumption.
  - set (e' := concluded _ _ _ _) in *. change (<[Event.id e' := e']> (DB.notifications d)
      = <[ev := e']> (DB.notifications d)). rewrite Hid. cbn.
    by rewrite (sd_id _ _ _ _ _ _ _ Hs).
  - rewrite Hcnt. apply concluded_status, Hs.
  - reflexivity.
Qed.

(** * Witnesses *)

Definition outage : Finding :=
  Finding.mk 40 1 20 None "iam.root_access_key_present" 1 FindingSeverity.CRITICAL "identity"
    FindingStatus.OPEN (PDict []) 3 3 None None None None None 50 0.

(** Alice's organization with a critical finding, reported and approved. *)
Definition before_report : DB :=
  acme <| DB.users := {[10%N := alice]} |> <| DB.findings := {[40%N := outage]} |>.
Definition reported : DB :=
  (run (_ ← create_for_critical_finding 60 4 outage; commit) before_report).2.
Definition flaky : MockNotificationProvider := mk_mock "always_fail" 0.
Definition approved_event : DB := (run (approve_notification flaky 5 60 alice 1) reported).2.
Definition attempted (i now : Z) (d : DB) : DB :=
  (run (_ ← deliver flaky "http://localhost:3000" (Z.to_N i) now 1 60; commit) d).2.

Lemma empty_ledger d :
  DB.notifications d = ∅ → DB.delivery_attempts d = ∅ → ledger_ok d.
Proof.
  intros E E'. split; [split|..]; rewrite ?E, ?E'; auto with rows.
  - intros k a. by rewrite lookup_empty.
  - intros i e n. by rewrite lookup_empty.
Qed.

Lemma approved_ok : ledger_ok approved_event.
Proof.
  apply (event_steps_follow (P := MockNotificationProvider) before_report).
  - by apply empty_ledger.
  - eapply rtc_l; [apply (step_create 60 4 outage)|].
    eapply rtc_l; [apply (step_approve flaky 5 60 alice 1)|]. apply rtc_refl.
Qed.

(** After three failures the event has failed, with three pieces of evidence. *)
Definition three_failures : DB := attempted 73 8 (attempted 72 7 (attempted 71 6 approved_event)).

Example three_failures_shape :
  match DB.notifications three_failures !! 60%N with
  | Some e => (Event.status e ≟ NotificationStatus.FAILED) && (Event.attempt_count e =? 3)%Z
  | None => false
  end && Nat.eqb (size (DB.delivery_attempts three_failures)) 3 = true.
Proof. vm_compute. reflexivity. Qed.


Lemma deliver_decides_witness :
  ledger_ok approved_event
  ∧ ∃ e' d', (run (r ← deliver flaky "http://localhost:3000" 71 6 1 60; _ ← commit; mret r)
               approved_event) = (Ret e', d')
  ∧ Event.attempt_count e'.1 = 1%Z ∧ Event.status e'.1 = NotificationStatus.APPROVED.
Proof.
  split; [exact approved_ok|].
  pose proof (deliver_decides flaky "http://localhost:3000" 71 6 1 60 approved_event approved_ok) as H.
  assert (match (run (r ← deliver flaky "http://localhost:3000" 71 6 1 60; _ ← commit; mret r)
               approved_event).1 with
          | Ret (e, r) => (Event.attempt_count e =? 1)%Z
                          && bool_decide (Event.status e = NotificationStatus.APPROVED)
          | Raise _ => false
          end = true) as Hc by (vm_compute; reflexivity).
  destruct (run _ approved_event) as [[[e r]|x] d']; cbn [fst] in Hc; [|discriminate Hc].
  bools. exists (e, r), d'. split; [reflexivity|]. split; [|assumption].
  destruct H as (e0 & msg & H).
  by apply Z.eqb_eq.
Defined.
