(* ===== verification/Evaluations.v ===== *)
(** services/evaluations.py: an evaluation runs every enabled rule over the
    assets of an account and turns the results into findings, with the queries
    of repositories/findings.py and the endpoints of api/v1/security_findings.py.

    The sessions of the application are made with [autoflush=False]
    (db/session.py).  A loaded row that was assigned to is a value the session
    carries beside the database, here the [work] of an evaluation, and only a
    flush writes it.  A query with [populate_existing] reads the row again and
    forgets what was not flushed.

    The identifiers and the times an evaluation draws are a parameter, one per
    rule and asset. *)

From S2P Require Import Prelude.
From S2P Require Import History.
From S2P Require Import Enums.
From S2P Require Import Rbac.
From S2P Require Import PyValue.
From S2P Require Import Models.
From S2P Require Import Common.
From S2P Require Import Sha256.
From S2P Require Import Evidence.
From S2P Require Import AiSafety.
From S2P Require Import Organizations.
From S2P Require Import PlatformJobs.
From S2P Require Import SecurityRules.
From S2P Require Notifications.
Import (hints) Notifications.
From Stdlib Require Import Ascii.
From stdpp Require Import list relations.

Module Fnd := Finding.
Module EJ := EvaluationJob.
Module RR := EvaluationRuleResult.

(** * Constraints of the tables *)

(** models/finding.py:48-62, part of Finding.  The CHECK constraints. *)
Definition finding_checks (f : Finding) : bool :=
  ((0 <? Fnd.rule_version f) && (0 <=? Fnd.lifecycle_version f)
   && (Fnd.first_seen_at f <=? Fnd.last_seen_at f))%Z
  && match Fnd.status f with
     | FindingStatus.OPEN =>
         is_none_ (Fnd.resolved_at f) && is_none_ (Fnd.suppressed_at f)
         && is_none_ (Fnd.suppressed_by_user_id f)
     | FindingStatus.RESOLVED =>
         is_some_ (Fnd.resolved_at f) && is_none_ (Fnd.suppressed_at f)
         && is_none_ (Fnd.suppressed_by_user_id f)
     | FindingStatus.SUPPRESSED =>
         is_none_ (Fnd.resolved_at f) && is_some_ (Fnd.suppressed_at f)
         && from_option nonempty false (Fnd.suppression_reason f)
         && is_some_ (Fnd.suppressed_by_user_id f)
     end.

(** models/finding.py:70-85, part of Finding.  The unique indexes, by asset and
    rule, and by account and rule for findings without an asset. *)
Definition finding_conflict (f f' : Finding) : bool :=
  (Fnd.rule_key f ≟ Fnd.rule_key f')
  && match Fnd.asset_id f, Fnd.asset_id f' with
     | Some a, Some a' => a ≟ a'
     | None, None => Fnd.aws_account_id f ≟ Fnd.aws_account_id f'
     | _, _ => false
     end.

(** The statuses of an evaluation that is under way. *)
Definition active_evaluation (j : EvaluationJob) : bool :=
  bool_decide (EJ.status j ∈ [EvaluationJobStatus.PENDING; EvaluationJobStatus.RUNNING]).

(** models/evaluation_job.py:51-71, part of EvaluationJob.  The CHECK
    constraints. *)
Definition evaluation_checks (j : EvaluationJob) : bool :=
  (0 <? EJ.sequence j)%Z
  && forallb (λ n, (0 <=? n)%Z)
       [EJ.assets_evaluated j; EJ.rules_evaluated j; EJ.passed_count j; EJ.failed_count j;
        EJ.error_count j; EJ.not_applicable_count j; EJ.findings_created j;
        EJ.findings_updated j; EJ.findings_resolved j; EJ.findings_reopened j;
        EJ.evaluation_errors j]
  && match EJ.status j with
     | EvaluationJobStatus.PENDING => is_none_ (EJ.started_at j) && is_none_ (EJ.finished_at j)
     | EvaluationJobStatus.RUNNING => is_some_ (EJ.started_at j) && is_none_ (EJ.finished_at j)
     | _ => is_some_ (EJ.started_at j) && is_some_ (EJ.finished_at j)
     end.

(** models/evaluation_job.py:75-88, part of EvaluationJob.  The unique indexes:
    one active evaluation, and one per sequence number, for an account. *)
Definition evaluation_conflict (j j' : EvaluationJob) : bool :=
  (EJ.aws_account_id j ≟ EJ.aws_account_id j')
  && (active_evaluation j && active_evaluation j' || (EJ.sequence j ≟ EJ.sequence j')).

(** models/compliance.py:268-273, part of EvaluationRuleResult.  The CHECK
    constraints. *)
Definition rule_result_checks (r : EvaluationRuleResult) : bool :=
  (0 <? RR.rule_version r)%Z
  && forallb (λ n, (0 <=? n)%Z)
       [RR.passed_count r; RR.failed_count r; RR.not_applicable_count r; RR.error_count r].
(** models/compliance.py:262-267, part of EvaluationRuleResult.  The key. *)
Definition rule_result_conflict (r r' : EvaluationRuleResult) : bool :=
  (RR.evaluation_job_id r ≟ RR.evaluation_job_id r')
  && (RR.rule_key r ≟ RR.rule_key r') && (RR.rule_version r ≟ RR.rule_version r').

(** The flush of a new or changed row. *)
Definition save_finding (fresh : bool) (f : Finding) : txn DB () :=
  t ← gets DB.findings;
  _ ← ensure (finding_checks f && unique_ok fresh finding_conflict f t) IntegrityError;
  modify (λ d, d <| DB.findings ::= put f |>).
Definition save_evaluation (fresh : bool) (j : EvaluationJob) : txn DB () :=
  t ← gets DB.evaluation_jobs;
  _ ← ensure (evaluation_checks j && unique_ok fresh evaluation_conflict j t) IntegrityError;
  modify (λ d, d <| DB.evaluation_jobs ::= put j |>).
Definition save_rule_result (fresh : bool) (r : EvaluationRuleResult) : txn DB () :=
  t ← gets DB.rule_results;
  _ ← ensure (rule_result_checks r && unique_ok fresh rule_result_conflict r t) IntegrityError;
  modify (λ d, d <| DB.rule_results ::= put r |>).

(** * Queries *)

(** repositories/findings.py:19-25, EvaluationJobRepository.next_sequence. *)
Definition next_sequence (account_id : uuid) (d : DB) : Z :=
  (foldr Z.max 0 (map EJ.sequence
     (filter_rows (λ j, EJ.aws_account_id j ≟ account_id) (DB.evaluation_jobs d))) + 1)%Z.

(** repositories/findings.py:27-35, EvaluationJobRepository.active_for_account. *)
Definition active_for_account (account_id : uuid) (d : DB) : option EvaluationJob :=
  find_row (λ j, (EJ.aws_account_id j ≟ account_id) && active_evaluation j)
    (DB.evaluation_jobs d).

(** repositories/findings.py:37-53, EvaluationJobRepository.list. *)
Definition evaluation_list (organization_id : uuid) (page page_size : nat) (d : DB)
    : list EvaluationJob * nat :=
  let rows := filter_rows (λ j, EJ.organization_id j ≟ organization_id)
                (DB.evaluation_jobs d) in
  (page_of page page_size (sort_by (newest_first EJ.created_at EJ.id) rows), length rows).

(** repositories/findings.py:55-61, EvaluationJobRepository.get. *)
Definition evaluation_get (organization_id job_id : uuid) (d : DB) : option EvaluationJob :=
  find_row (λ j, (EJ.id j ≟ job_id) && (EJ.organization_id j ≟ organization_id))
    (DB.evaluation_jobs d).

(** repositories/findings.py:68-82, FindingRepository.for_rule. *)
Definition for_rule (account_id : uuid) (rule_key : string) (asset_id : option uuid) (d : DB)
    : option Finding :=
  find_row (λ f, (Fnd.aws_account_id f ≟ account_id) && (Fnd.rule_key f ≟ rule_key)
                 && (Fnd.asset_id f ≟ asset_id)) (DB.findings d).

(** repositories/findings.py:174-179, FindingRepository.get. *)
Definition finding_get (organization_id finding_id : uuid) (d : DB) : option Finding :=
  find_row (λ f, (Fnd.id f ≟ finding_id) && (Fnd.organization_id f ≟ organization_id))
    (DB.findings d).

(** The filters of a list of findings. *)
Record finding_filters := mk_filters {
  by_account : option uuid;
  by_asset : option uuid;
  by_service : option string;
  by_asset_type : option AssetType;
  by_severity : option FindingSeverity;
  by_status : option FindingStatus;
  by_rule_key : option string;
  by_region : option string;
  by_search : option string
}.

(** repositories/findings.py:129-172, FindingRepository._filters.  The condition on
    a finding and the asset the outer join gives it; a comparison with a column
    of a missing asset is not true. *)
Definition _filters (organization_id : uuid) (q : finding_filters)
    (rule_services : list (string * string)) (f : Finding) (asset : option Asset) : bool :=
  (Fnd.organization_id f ≟ organization_id)
  && from_option (λ a, Fnd.aws_account_id f ≟ a) true (by_account q)
  && from_option (λ a, Fnd.asset_id f ≟ Some a) true (by_asset q)
  && from_option (λ s, existsb (λ kv, String.eqb kv.2 s && String.eqb kv.1 (Fnd.rule_key f))
                         rule_services
                       || negb (existsb (λ kv, String.eqb kv.2 s) rule_services)
                          && String.eqb (Fnd.rule_key f) "__no_rule__")
       true (given (by_service q))
  && from_option (λ t, from_option (λ a, Asset.asset_type a ≟ t) false asset) true
       (by_asset_type q)
  && from_option (λ s, Fnd.severity f ≟ s) true (by_severity q)
  && from_option (λ s, Fnd.status f ≟ s) true (by_status q)
  && from_option (λ k, String.eqb (Fnd.rule_key f) k) true (given (by_rule_key q))
  && from_option (λ r, from_option (λ a, String.eqb (Asset.region a) r) false asset) true
       (given (by_region q))
  && from_option (λ s,
       let value := "%" +:+ strip s +:+ "%" in
       like value (Fnd.rule_key f) || like value (Fnd.category f)
       || from_option (λ a, like value (Asset.name a) || like value (Asset.resource_id a))
            false asset)
       true (given (by_search q)).

(** [.outerjoin(Asset, Finding.asset_id == Asset.id).where(...)] *)
Definition joined (organization_id : uuid) (q : finding_filters)
    (rule_services : list (string * string)) (d : DB) : list (Finding * option Asset) :=
  List.filter (λ fa, _filters organization_id q rule_services fa.1 fa.2)
    (map (λ f, (f, i ← Fnd.asset_id f; DB.assets d !! i))
       (filter_rows (λ _, true) (DB.findings d))).

(** repositories/findings.py:84-127, FindingRepository.list. *)
Definition finding_list (organization_id : uuid) (q : finding_filters)
    (rule_services : list (string * string)) (page page_size : nat) (d : DB)
    : list Finding * nat :=
  let rows := map fst (joined organization_id q rule_services d) in
  (page_of page page_size (sort_by (newest_first Fnd.last_seen_at Fnd.id) rows), length rows).

(** What a summary groups by. *)
Definition summary_key : Type :=
  FindingSeverity * FindingStatus * string * uuid * option AssetType * option string.
Definition key_of (rule_services : list (string * string)) (fa : Finding * option Asset)
    : summary_key :=
  (Fnd.severity fa.1, Fnd.status fa.1,
   default "unknown" (snd <$> List.find (λ kv, String.eqb kv.1 (Fnd.rule_key fa.1)) rule_services),
   Fnd.aws_account_id fa.1, Asset.asset_type <$> fa.2, Asset.region <$> fa.2).

(** repositories/findings.py:181-242, FindingRepository.summary.  The groups with
    their sizes; their order is that of the database's collation, which no
    operation relies on. *)
Definition finding_summary (organization_id : uuid) (q : finding_filters)
    (rule_services : list (string * string)) (d : DB) : list (summary_key * nat) :=
  let keys := map (key_of rule_services) (joined organization_id q rule_services d) in
  map (λ k, (k, length (filter (λ k', k' = k) keys))) (remove_dups keys).

(** * The service *)

(** What an evaluation draws: new identifiers and the clock, per rule and
    asset. *)
Record draws := mk_draws {
  new_summary : string → uuid;
  new_finding : string → option uuid → uuid;
  new_event : string → option uuid → uuid;
  clock : string → option uuid → timestamp
}.

(** The rows an evaluation holds in its session: its job, and the summaries of
    the rules so far, the current one first, with a mark on those that were
    never flushed. *)
Record work := mk_work {
  w_job : EvaluationJob;
  w_summaries : list (bool * EvaluationRuleResult)
}.

(** The flush of summaries. *)
Definition save_summaries (l : list (bool * EvaluationRuleResult)) : txn DB () :=
  for_each l (λ fr, save_rule_result fr.1 fr.2).

(** [self.db.flush()] *)
Definition flush (w : work) : txn DB work :=
  _ ← save_evaluation false (w_job w);
  _ ← save_summaries (w_summaries w);
  mret (mk_work (w_job w) (map (λ fr, (false, fr.2)) (w_summaries w))).

(** services/evaluations.py:201-218, part of EvaluationService._apply_result.  The
    counters of the job. *)
Definition tally_job (s : RuleResultStatus) (j : EvaluationJob) : EvaluationJob :=
  let j := j <| EJ.rules_evaluated ::= Z.succ |> in
  match s with
  | RuleResultStatus.PASSED => j <| EJ.passed_count ::= Z.succ |>
  | RuleResultStatus.FAILED => j <| EJ.failed_count ::= Z.succ |>
  | RuleResultStatus.ERROR => j <| EJ.error_count ::= Z.succ |> <| EJ.evaluation_errors ::= Z.succ |>
  | RuleResultStatus.NOT_APPLICABLE => j <| EJ.not_applicable_count ::= Z.succ |>
  end.

(** services/evaluations.py:201-218, part of EvaluationService._apply_result.  The
    counters of the rule's summary. *)
Definition tally_summary (s : RuleResultStatus) (r : EvaluationRuleResult)
    : EvaluationRuleResult :=
  match s with
  | RuleResultStatus.PASSED => r <| RR.passed_count ::= Z.succ |>
  | RuleResultStatus.FAILED => r <| RR.failed_count ::= Z.succ |>
  | RuleResultStatus.ERROR => r <| RR.error_count ::= Z.succ |>
  | RuleResultStatus.NOT_APPLICABLE => r <| RR.not_applicable_count ::= Z.succ |>
  end.

Definition tally (s : RuleResultStatus) (w : work) : work :=
  mk_work (tally_job s (w_job w))
    match w_summaries w with
    | fr :: l => (fr.1, tally_summary s fr.2) :: l
    | [] => []
    end.

(** [finding.status == SUPPRESSED and (suppressed_until is None or > now)] *)
Definition active_suppression (now : timestamp) (f : Finding) : bool :=
  (Fnd.status f ≟ FindingStatus.SUPPRESSED)
  && from_option (λ t, (now <? t)%Z) true (Fnd.suppressed_until f).

Definition clear_suppression (f : Finding) : Finding :=
  f <| Fnd.suppressed_at := None |> <| Fnd.suppressed_until := None |>
    <| Fnd.suppression_reason := None |> <| Fnd.suppressed_by_user_id := None |>.

(** services/evaluations.py:230-242, part of EvaluationService._apply_result.  The
    finding a failure creates. *)
Definition candidate (new_id : uuid) (now : timestamp) (job : EvaluationJob)
    (rule : SecurityRule) (asset : option Asset) (result : RuleResult) : Finding :=
  Fnd.mk new_id (EJ.organization_id job) (EJ.aws_account_id job) (Asset.id <$> asset)
    (key rule) (version rule) (severity rule) (category rule) FindingStatus.OPEN
    (sanitize_evidence 0 (evidence result)) now now None None None None None (EJ.id job) 0.

(** services/evaluations.py:263-278, part of EvaluationService._apply_result.  A failure
    of a rule that has its finding already. *)
Definition failed_again (now : timestamp) (job : EvaluationJob) (rule : SecurityRule)
    (result : RuleResult) (f : Finding) : Finding :=
  let f := if active_suppression now f then f
           else clear_suppression (f <| Fnd.status := FindingStatus.OPEN |>) in
  f <| Fnd.resolved_at := None |>
    <| Fnd.last_seen_at := now |>
    <| Fnd.evidence_json := sanitize_evidence 0 (evidence result) |>
    <| Fnd.rule_version := version rule |>
    <| Fnd.last_evaluation_id := EJ.id job |>
    <| Fnd.lifecycle_version ::= Z.succ |>.

(** services/evaluations.py:312-319, part of EvaluationService._apply_result.  A finding
    whose rule passes. *)
Definition resolved (now : timestamp) (job : EvaluationJob) (f : Finding) : Finding :=
  clear_suppression (f <| Fnd.status := FindingStatus.RESOLVED |>)
    <| Fnd.resolved_at := Some now |>
    <| Fnd.last_evaluation_id := EJ.id job |>
    <| Fnd.lifecycle_version ::= Z.succ |>.

(** services/evaluations.py:279-284, part of EvaluationService._apply_result.  Does
    the failure open a closed finding again? *)
Definition reopens (now : timestamp) (f : Finding) : bool :=
  (Fnd.status f ≟ FindingStatus.RESOLVED)
  || (Fnd.status f ≟ FindingStatus.SUPPRESSED) && negb (active_suppression now f).

Definition finding_event (event : string) (job : EvaluationJob) (f : Finding) : txn DB () :=
  audit_ok event "finding" (EJ.organization_id job) (EJ.started_by_user_id job) (Fnd.id f).

(** services/evaluations.py:193-337, EvaluationService._apply_result.  The flush at the
    end also covers those of the savepoints, which come before it and cannot be
    seen from outside. *)
Definition _apply_result (dr : draws) (w : work) (rule : SecurityRule) (asset : option Asset)
    (result : RuleResult) : txn DB work :=
  let asset_id := Asset.id <$> asset in
  let w := tally (status result) w in
  let job := w_job w in
  let count f := mk_work (f job) (w_summaries w) in
  finding ← gets (for_rule (EJ.aws_account_id job) (key rule) asset_id);
  stale ← gets (λ d,
    match finding with
    | Some f => match DB.evaluation_jobs d !! Fnd.last_evaluation_id f with
                | Some last_job => (EJ.sequence job <? EJ.sequence last_job)%Z
                | None => false
                end
    | None => false
    end);
  if stale : bool then mret w
  else if status result ≟ RuleResultStatus.ERROR then mret w
  else
    let now := clock dr (key rule) asset_id in
    let update f :=
      let f' := failed_again now job rule result f in
      _ ← save_finding false f';
      _ ← finding_event (if reopens now f then "security.finding.reopened"
                         else "security.finding.updated") job f';
      flush (count (λ j, if reopens now f then j <| EJ.findings_reopened ::= Z.succ |>
                         else j <| EJ.findings_updated ::= Z.succ |>)) in
    match status result, finding with
    | RuleResultStatus.FAILED, None =>
        let f := candidate (new_finding dr (key rule) asset_id) now job rule asset result in
        inserted ← try_catch (_ ← begin_nested (save_finding true f); mret true)
          (λ e, match e with IntegrityError => mret false | e => raise e end);
        if inserted : bool then
          _ ← finding_event "security.finding.created" job f;
          _ ← (if Fnd.severity f ≟ FindingSeverity.CRITICAL
               then Notifications.create_for_critical_finding
                      (new_event dr (key rule) asset_id) now f
               else mret None);
          flush (count (λ j, j <| EJ.findings_created ::= Z.succ |>))
        else
          finding ← gets (for_rule (EJ.aws_account_id job) (key rule) asset_id);
          finding ← some_or finding IntegrityError;
          update finding
    | RuleResultStatus.FAILED, Some f => update f
    | RuleResultStatus.PASSED, Some f =>
        if active_suppression now f || (Fnd.status f ≟ FindingStatus.RESOLVED) then flush w
        else
          let f' := resolved now job f in
          _ ← save_finding false f';
          _ ← finding_event "security.finding.resolved" job f';
          flush (count (λ j, j <| EJ.findings_resolved ::= Z.succ |>))
    | _, _ => flush w
    end.

(** services/evaluations.py:339-410, EvaluationService._finish.  The query forgets
    what the session holds of the job; [pending] are the summaries that the
    commit flushes. *)
Definition _finish (pending : list (bool * EvaluationRuleResult)) (now : timestamp)
    (job_id : uuid) (actor : User) (status : EvaluationJobStatus) (errors : list string)
    : txn DB EvaluationJob :=
  job ← gets (λ d, DB.evaluation_jobs d !! job_id);
  job ← some_or job (NotFoundError "evaluation_not_found");
  _ ← ensure (EJ.status job ≟ EvaluationJobStatus.RUNNING)
        (ConflictError "evaluation_not_running");
  let summary := str_take 2000 (concat_sep "; " errors) in
  let job := job
    <| EJ.status := status |>
    <| EJ.finished_at := Some now |>
    <| EJ.error_summary := if nonempty summary then Some summary else None |> in
  event ← match status with
          | EvaluationJobStatus.COMPLETED => mret "security.evaluation.completed"
          | EvaluationJobStatus.PARTIALLY_COMPLETED =>
              mret "security.evaluation.partially_completed"
          | EvaluationJobStatus.FAILED => mret "security.evaluation.failed"
          | _ => raise KeyError
          end;
  _ ← record_audit event "evaluation_job"
        (if status ≟ EvaluationJobStatus.FAILED then AuditResult.FAILED
         else AuditResult.SUCCEEDED)
        (Some (EJ.organization_id job)) (Some (User.id actor)) (Some (EJ.id job));
  _ ← save_evaluation false job;
  _ ← save_summaries pending;
  _ ← commit;
  mret job.

(** services/evaluations.py:412-453, EvaluationService._recover_failed. *)
Definition _recover_failed (now : timestamp) (job_id : uuid) (actor : User)
    (error_code : string) : txn DB EvaluationJob :=
  try_catch (_finish [] now job_id actor EvaluationJobStatus.FAILED [error_code])
    (λ _,
      _ ← rollback;
      job ← gets (λ d, DB.evaluation_jobs d !! job_id);
      job ← some_or job (NotFoundError "evaluation_not_found");
      if EJ.status job ≟ EvaluationJobStatus.RUNNING then
        let job := job
          <| EJ.status := EvaluationJobStatus.FAILED |>
          <| EJ.finished_at := Some now |>
          <| EJ.error_summary := Some error_code |> in
        _ ← save_evaluation false job;
        _ ← commit;
        mret job
      else mret job).

(** services/evaluations.py:130-141, part of EvaluationService.run.  The summary of
    a rule. *)
Definition empty_summary (dr : draws) (job : EvaluationJob) (rule : SecurityRule)
    : EvaluationRuleResult :=
  RR.mk (new_summary dr (key rule)) (EJ.id job) (EJ.organization_id job)
    (EJ.aws_account_id job) (key rule) (version rule) 0 0 0 0.

(** services/evaluations.py:142-146, part of EvaluationService.run.  What a rule is
    evaluated on. *)
Definition targets (assets : list Asset) (rule : SecurityRule) : list (option Asset) :=
  match asset_type rule with
  | None => [None]
  | Some _ => map Some (List.filter (λ a, applies_to rule (Some a)) assets)
  end.

(** services/evaluations.py:148-151, part of EvaluationService.run.  The result of a
    rule, an error when it raises. *)
Definition result_of (context : RuleContext) (rule : SecurityRule) (asset : option Asset)
    : RuleResult :=
  match evaluate rule asset context with
  | inl r => r
  | inr _ => new_RuleResult RuleResultStatus.ERROR [] (Some "rule_execution_failed")
  end.

(** services/evaluations.py:153-154, part of EvaluationService.run.  What a result
    adds to the errors. *)
Definition errors_of (rule : SecurityRule) (result : RuleResult) : list string :=
  if status result ≟ RuleResultStatus.ERROR then
    [key rule +:+ ":" +:+ default "rule_error" (given (error_code result))]
  else [].

(** services/evaluations.py:147-167, part of EvaluationService.run.  The loop over
    the targets of a rule. *)
Fixpoint run_targets (dr : draws) (context : RuleContext) (rule : SecurityRule)
    (assets : list (option Asset)) (w : work) (errors : list string)
    : txn DB (work * list string) :=
  match assets with
  | [] => mret (w, errors)
  | asset :: assets =>
      let result := result_of context rule asset in
      w ← _apply_result dr w rule asset result;
      run_targets dr context rule assets w (errors ++ errors_of rule result)
  end.

(** services/evaluations.py:129-167, part of EvaluationService.run.  The loop over
    the rules. *)
Fixpoint run_rules (dr : draws) (context : RuleContext) (rules : list SecurityRule)
    (w : work) (errors : list string) : txn DB (work * list string) :=
  match rules with
  | [] => mret (w, errors)
  | rule :: rules =>
      let w := mk_work (w_job w) ((true, empty_summary dr (w_job w) rule) :: w_summaries w) in
      we ← run_targets dr context rule (targets (account_assets context) rule) w errors;
      run_rules dr context rules we.1 we.2
  end.

(** services/evaluations.py:168-176, part of EvaluationService.run.  The status an
    evaluation ends with. *)
Definition terminal_status (job : EvaluationJob) (errors : list string) : EvaluationJobStatus :=
  if (0 <? EJ.rules_evaluated job)%Z && (EJ.evaluation_errors job =? EJ.rules_evaluated job)%Z
  then EvaluationJobStatus.FAILED
  else match errors with
       | [] => EvaluationJobStatus.COMPLETED
       | _ => EvaluationJobStatus.PARTIALLY_COMPLETED
       end.

(** services/evaluations.py:117-125, part of EvaluationService.run.  The assets an
    evaluation looks at. *)
Definition active_assets (job : EvaluationJob) (d : DB) : list Asset :=
  sort_by (λ a b, (Asset.id a <=? Asset.id b)%N)
    (filter_rows (λ a, (Asset.aws_account_id a ≟ EJ.aws_account_id job)
                       && (Asset.organization_id a ≟ EJ.organization_id job)
                       && Asset.is_active a) (DB.assets d)).

(** The times of one run: its start, that of the rules, and its end. *)
Record times := mk_times { t_started : timestamp; t_evaluated : timestamp; t_finished : timestamp }.

Section service.
Context (registry : RuleRegistry) (dr : draws) (t : times).

(** services/evaluations.py:115-183, part of EvaluationService.run.  The body of its
    [try]. *)
Definition evaluate_account (job : EvaluationJob) (actor : User) : txn DB EvaluationJob :=
  assets ← gets (active_assets job);
  let context := mk_RuleContext assets (t_evaluated t) in
  let job := job <| EJ.assets_evaluated := Z.of_nat (length assets) |> in
  we ← run_rules dr context (registry_filter registry None None None None (Some true))
         (mk_work job []) [];
  _finish (w_summaries we.1) (t_finished t) (EJ.id job) actor
    (terminal_status (w_job we.1) we.2) we.2.

(** services/evaluations.py:81-191, EvaluationService.run. *)
Definition run_evaluation (job_id : uuid) (actor : User) : txn DB EvaluationJob :=
  job ← gets (λ d, DB.evaluation_jobs d !! job_id);
  job ← some_or job (NotFoundError "evaluation_not_found");
  _ ← ensure (EJ.status job ≟ EvaluationJobStatus.PENDING)
        (ConflictError "evaluation_not_pending");
  let job := job <| EJ.status := EvaluationJobStatus.RUNNING |>
                 <| EJ.started_at := Some (t_started t) |> in
  _ ← audit_ok "security.evaluation.started" "evaluation_job" (EJ.organization_id job)
        (User.id actor) (EJ.id job);
  _ ← save_evaluation false job;
  _ ← commit;
  try_catch (evaluate_account job actor)
    (λ _, _ ← rollback;
          _recover_failed (t_finished t) job_id actor "evaluation_execution_failed").

(** services/evaluations.py:41-79, EvaluationService.start. *)
Definition start (new_id : uuid) (now : timestamp) (account_id : uuid) (actor : User)
    (discovery_job_id : option uuid) : txn DB EvaluationJob :=
  account ← gets (λ d, DB.aws_accounts d !! account_id);
  account ← some_or account (NotFoundError "aws_account_not_found");
  _ ← require_capability (AWSAccount.organization_id account) (User.id actor)
        Capability.EVALUATIONS_START;
  _ ← ensure (AWSAccount.connection_status account ≟ AWSAccountStatus.CONNECTED)
        (ConflictError "aws_account_not_connected");
  running ← gets (active_for_account (AWSAccount.id account));
  _ ← ensure (is_none_ running) (ConflictError "evaluation_already_running");
  sequence ← gets (next_sequence (AWSAccount.id account));
  let job := EJ.mk new_id (AWSAccount.organization_id account) (AWSAccount.id account)
    discovery_job_id true sequence EvaluationJobStatus.PENDING (User.id actor) None None
    0 0 0 0 0 0 0 0 0 0 0 None now in
  _ ← try_catch (_ ← save_evaluation true job; commit)
        (λ e, match e with
              | IntegrityError =>
                  _ ← rollback; raise (ConflictError "evaluation_already_running")
              | e => raise e
              end);
  run_evaluation new_id actor.
End service.

(** services/evaluations.py:479-524, EvaluationService.suppress. *)
Definition suppress (now : timestamp) (organization_id finding_id : uuid) (actor : User)
    (reason : string) (until : option timestamp) : txn DB Finding :=
  _ ← require_capability organization_id (User.id actor) Capability.FINDINGS_SUPPRESS;
  finding ← gets (finding_get organization_id finding_id);
  finding ← some_or finding (NotFoundError "finding_not_found");
  _ ← ensure (from_option (λ u, (now <? u)%Z) true until)
        (ConflictError "invalid_suppression_expiry");
  let finding := finding
    <| Fnd.status := FindingStatus.SUPPRESSED |>
    <| Fnd.resolved_at := None |>
    <| Fnd.suppressed_at := Some now |>
    <| Fnd.suppressed_until := until |>
    <| Fnd.suppression_reason := Some (strip reason) |>
    <| Fnd.suppressed_by_user_id := Some (User.id actor) |>
    <| Fnd.lifecycle_version ::= Z.succ |> in
  _ ← audit_ok "security.finding.suppressed" "finding" organization_id (User.id actor)
        (Fnd.id finding);
  _ ← save_finding false finding;
  _ ← commit;
  mret finding.

(** services/evaluations.py:526-558, EvaluationService.unsuppress. *)
Definition unsuppress (organization_id finding_id : uuid) (actor : User) : txn DB Finding :=
  _ ← require_capability organization_id (User.id actor) Capability.FINDINGS_SUPPRESS;
  finding ← gets (finding_get organization_id finding_id);
  finding ← some_or finding (NotFoundError "finding_not_found");
  if Fnd.status finding ≟ FindingStatus.SUPPRESSED then
    let finding := clear_suppression (finding <| Fnd.status := FindingStatus.OPEN |>)
      <| Fnd.lifecycle_version ::= Z.succ |> in
    _ ← audit_ok "security.finding.unsuppressed" "finding" organization_id (User.id actor)
          (Fnd.id finding);
    _ ← save_finding false finding;
    _ ← commit;
    mret finding
  else mret finding.

(** * The endpoints *)

(** What a response says of a finding. *)
Record FindingResponse := mk_response {
  fr_finding : Finding;
  fr_service : string;
  fr_asset_type : option AssetType;
  fr_region : option string;
  fr_remediation : string;
  fr_references : list string;
  fr_evidence : pyval
}.

Section endpoints.
(** [default_registry] *)
Context (registry : RuleRegistry).

(** api/v1/security_findings.py:64-96, _finding_response. *)
Definition _finding_response (finding : Finding) (d : DB) (asset : option Asset)
    : FindingResponse :=
  let rule := registry_get registry (Fnd.rule_key finding) in
  let asset := match asset with
               | Some a => Some a
               | None => i ← Fnd.asset_id finding; DB.assets d !! i
               end in
  mk_response finding (from_option service "unknown" rule)
    (Asset.asset_type <$> asset) (Asset.region <$> asset)
    (from_option remediation "" rule) (from_option references [] rule)
    (sanitize_evidence 0 (Fnd.evidence_json finding)).

Definition rule_services : list (string * string) :=
  map (λ r, (key r, service r)) (registry_all registry).

(** api/v1/security_findings.py:99-120, list_rules. *)
Definition list_rules (user : User) (organization_id : uuid) (service_ : option string)
    (asset_type_ : option AssetType) (category_ : option string)
    (severity_ : option FindingSeverity) (enabled : option bool)
    : txn DB (list SecurityRule) :=
  _ ← require_capability organization_id (User.id user) Capability.RULES_READ;
  mret (registry_filter registry service_ asset_type_ severity_ category_ enabled).

(** api/v1/security_findings.py:123-134, get_rule. *)
Definition get_rule (rule_key : string) (user : User) (organization_id : uuid)
    : txn DB SecurityRule :=
  _ ← require_capability organization_id (User.id user) Capability.RULES_READ;
  some_or (registry_get registry rule_key) (NotFoundError "rule_not_found").

(** api/v1/security_findings.py:158-164, part of start_evaluation. *)
Definition manual_evaluation_payload (account_id actor_id : uuid) (discovery_job_id : option uuid)
    : pydict :=
  [("actor_user_id", PStr (uuid_str actor_id)); ("account_id", PStr (uuid_str account_id))]
  ++ match discovery_job_id with
     | Some i => [("discovery_job_id", PStr (uuid_str i))]
     | None => []
     end.

(** api/v1/security_findings.py:137-174, start_evaluation. *)
Definition start_evaluation (new_id new_correlation_id new_key : uuid) (now : timestamp)
    (account_id : uuid) (discovery_job_id : option uuid) (user : User) : txn DB PlatformJob :=
  result ← gets (aws_account_for_user account_id (User.id user));
  am ← some_or result (NotFoundError "aws_account_not_found");
  let '(account, m) := am in
  _ ← ensure (role_has_capability (OrganizationMembership.role m) Capability.EVALUATIONS_START)
        (ForbiddenError "forbidden");
  _ ← ensure (AWSAccount.connection_status account ≟ AWSAccountStatus.CONNECTED)
        (ConflictError "aws_account_not_connected");
  let values := manual_evaluation_payload (AWSAccount.id account) (User.id user)
                  discovery_job_id in
  jc ← enqueue new_id new_correlation_id now (AWSAccount.organization_id account)
         PlatformJobType.EVALUATION (AWSAccount.id account)
         ("manual-evaluation:" +:+ uuid_str new_key) (Some values) None 0 3 None None
         (Some (User.id user));
  _ ← commit;
  mret jc.1.

(** api/v1/security_findings.py:177-192, list_evaluations. *)
Definition list_evaluations (user : User) (organization_id : uuid) (page page_size : nat)
    : txn DB (list EvaluationJob * nat) :=
  _ ← require_capability organization_id (User.id user) Capability.FINDINGS_READ;
  gets (evaluation_list organization_id page page_size).

(** api/v1/security_findings.py:195-206, get_evaluation. *)
Definition get_evaluation (evaluation_id : uuid) (user : User) (organization_id : uuid)
    : txn DB EvaluationJob :=
  _ ← require_capability organization_id (User.id user) Capability.FINDINGS_READ;
  job ← gets (evaluation_get organization_id evaluation_id);
  some_or job (NotFoundError "evaluation_not_found").

(** api/v1/security_findings.py:209-260, list_findings. *)
Definition list_findings (user : User) (organization_id : uuid) (q : finding_filters)
    (page page_size : nat) : txn DB (list FindingResponse * nat) :=
  _ ← require_capability organization_id (User.id user) Capability.FINDINGS_READ;
  rows ← gets (finding_list organization_id q rule_services page page_size);
  items ← gets (λ d, map (λ f, _finding_response f d
                     (i ← Fnd.asset_id f; DB.assets d !! i)) rows.1);
  mret (items, rows.2).

(** api/v1/security_findings.py:263-311, findings_summary. *)
Definition findings_summary (user : User) (organization_id : uuid) (q : finding_filters)
    : txn DB (nat * list (summary_key * nat)) :=
  _ ← require_capability organization_id (User.id user) Capability.FINDINGS_READ;
  items ← gets (finding_summary organization_id q rule_services);
  mret (sum_list (map snd items), items).

(** api/v1/security_findings.py:314-325, get_finding. *)
Definition get_finding (finding_id : uuid) (user : User) (organization_id : uuid)
    : txn DB FindingResponse :=
  _ ← require_capability organization_id (User.id user) Capability.FINDINGS_READ;
  finding ← gets (finding_get organization_id finding_id);
  finding ← some_or finding (NotFoundError "finding_not_found");
  gets (λ d, _finding_response finding d None).

(** api/v1/security_findings.py:328-343, suppress_finding. *)
Definition suppress_finding (now : timestamp) (finding_id : uuid) (reason : string)
    (suppressed_until : option timestamp) (user : User) (organization_id : uuid)
    : txn DB FindingResponse :=
  finding ← suppress now organization_id finding_id user reason suppressed_until;
  gets (λ d, _finding_response finding d None).

(** api/v1/security_findings.py:346-355, unsuppress_finding. *)
Definition unsuppress_finding (finding_id : uuid) (user : User) (organization_id : uuid)
    : txn DB FindingResponse :=
  finding ← unsuppress organization_id finding_id user;
  gets (λ d, _finding_response finding d None).
End endpoints.

(** * What an evaluation does, in one piece

    The results of a run, in order, and what each does to the finding of its
    rule and asset. *)

(** A rule, what it was evaluated on, and the result. *)
Definition outcome_row : Type := SecurityRule * option Asset * RuleResult.
Definition row_status (x : outcome_row) : RuleResultStatus := status x.2.
Definition is_error (x : outcome_row) : bool := row_status x ≟ RuleResultStatus.ERROR.

Definition results (context : RuleContext) (rules : list SecurityRule) : list outcome_row :=
  rule ← rules; asset ← targets (account_assets context) rule;
  [(rule, asset, result_of context rule asset)].

(** The place of a finding: account, rule and asset. *)
Definition place : Type := uuid * string * option uuid.
Definition finding_at (p : place) (d : DB) : option Finding := for_rule p.1.1 p.1.2 p.2 d.
Definition place_of (account_id : uuid) (x : outcome_row) : place :=
  (account_id, key x.1.1, Asset.id <$> x.1.2).

(** What a result makes of the finding at its place. *)
Definition next_finding (dr : draws) (job : EvaluationJob) (x : outcome_row)
    (o : option Finding) : option Finding :=
  let '(rule, asset, result) := x in
  let now := clock dr (key rule) (Asset.id <$> asset) in
  match status result, o with
  | RuleResultStatus.FAILED, None =>
      Some (candidate (new_finding dr (key rule) (Asset.id <$> asset)) now job rule asset result)
  | RuleResultStatus.FAILED, Some f => Some (failed_again now job rule result f)
  | RuleResultStatus.PASSED, Some f =>
      Some (if active_suppression now f || (Fnd.status f ≟ FindingStatus.RESOLVED) then f
            else resolved now job f)
  | _, _ => o
  end.

Lemma results_cons context rule rules :
  results context (rule :: rules)
  = map (λ a, (rule, a, result_of context rule a)) (targets (account_assets context) rule)
    ++ results context rules.
Proof. unfold results. cbn. f_equal. Qed.

Lemma elem_of_results context rules x :
  x ∈ results context rules ↔
  x.1.1 ∈ rules ∧ x.1.2 ∈ targets (account_assets context) x.1.1
  ∧ x.2 = result_of context x.1.1 x.1.2.
Proof.
  induction rules as [|rule rules IH]; [set_solver|].
  rewrite results_cons, elem_of_app, list_elem_of_fmap, IH, elem_of_cons. split.
  - intros [(a & -> & Ha)|]; [|tauto]. cbn. auto.
  - destruct x as [[r a] res]. cbn. intros ([->|] & Ha & ->); [|tauto]. left. by exists a.
Qed.

(** What a result means for the finding at its place, before and after. *)
Definition settles (dr : draws) (job : EvaluationJob) (x : outcome_row)
    (before after : option Finding) : Prop :=
  let '(rule, asset, result) := x in
  let now := clock dr (key rule) (Asset.id <$> asset) in
  match status result with
  | RuleResultStatus.FAILED =>
      ∃ f, after = Some f
      ∧ Fnd.last_evaluation_id f = EJ.id job ∧ Fnd.last_seen_at f = now
      ∧ Fnd.rule_version f = version rule
      ∧ Fnd.evidence_json f = sanitize_evidence 0 (evidence result)
      ∧ Fnd.resolved_at f = None
      ∧ match before with
        | None => Fnd.status f = FindingStatus.OPEN ∧ Fnd.first_seen_at f = now
                  ∧ Fnd.severity f = severity rule ∧ Fnd.lifecycle_version f = 0%Z
        | Some f0 =>
            Fnd.id f = Fnd.id f0 ∧ Fnd.first_seen_at f = Fnd.first_seen_at f0
            ∧ Fnd.lifecycle_version f = (Fnd.lifecycle_version f0 + 1)%Z
            ∧ Fnd.status f = (if active_suppression now f0 then FindingStatus.SUPPRESSED
                              else FindingStatus.OPEN)
        end
  | RuleResultStatus.PASSED =>
      match before with
      | None => after = None
      | Some f0 =>
          if active_suppression now f0 || (Fnd.status f0 ≟ FindingStatus.RESOLVED)
          then after = before
          else ∃ f, after = Some f ∧ Fnd.id f = Fnd.id f0
               ∧ Fnd.status f = FindingStatus.RESOLVED ∧ Fnd.resolved_at f = Some now
               ∧ Fnd.suppressed_at f = None ∧ Fnd.last_evaluation_id f = EJ.id job
               ∧ Fnd.lifecycle_version f = (Fnd.lifecycle_version f0 + 1)%Z
      end
  | _ => after = before
  end.

Lemma next_settles dr j x o : settles dr j x o (next_finding dr j x o).
Proof.
  destruct x as [[rule asset] result]. unfold settles, next_finding.
  destruct (status result); [|destruct o as [f|]|by destruct o|by destruct o].
  - destruct o as [f|]; [|done]. destruct (_ || _) eqn:E; [done|]. eexists; split_and!; done.
  - eexists. split; [reflexivity|]. unfold failed_again.
    destruct (active_suppression _ f) eqn:E; split_and!; try done.
    unfold active_suppression in E. apply andb_true_iff in E as [E _]. by bools.
  - eexists. split_and!; done.
Qed.

(** The counters of a job that say what its results were. *)
Definition counters (j : EvaluationJob) : list Z :=
  [EJ.rules_evaluated j; EJ.passed_count j; EJ.failed_count j; EJ.error_count j;
   EJ.not_applicable_count j; EJ.evaluation_errors j].
Definition count_of (s : RuleResultStatus) (l : list outcome_row) : Z :=
  Z.of_nat (length (filter (λ x, row_status x = s) l)).
Definition counts_of (l : list outcome_row) : list Z :=
  [Z.of_nat (length l); count_of RuleResultStatus.PASSED l; count_of RuleResultStatus.FAILED l;
   count_of RuleResultStatus.ERROR l; count_of RuleResultStatus.NOT_APPLICABLE l;
   count_of RuleResultStatus.ERROR l].

(** The results up to the last one that is not an error: those whose counters
    reach the database. *)
Fixpoint flushed (l : list outcome_row) : list outcome_row :=
  match l with
  | [] => []
  | x :: l => match flushed l with
              | [] => if is_error x then [] else [x]
              | l' => x :: l'
              end
  end.

Lemma flushed_app l x : flushed (l ++ [x]) = if is_error x then flushed l else l ++ [x].
Proof.
  induction l as [|y l IH]; cbn; [done|]. rewrite IH. destruct (is_error x); [done|].
  by destruct l.
Qed.

Lemma count_of_app s l x :
  count_of s (l ++ [x]) = (count_of s l + if row_status x ≟ s then 1 else 0)%Z.
Proof.
  unfold count_of. rewrite filter_app, length_app, Nat2Z.inj_add. f_equal.
  rewrite filter_cons, filter_nil. case_bool_decide as E.
  - rewrite decide_True by exact E. reflexivity.
  - rewrite decide_False by exact E. reflexivity.
Qed.

Lemma counters_tally j l x :
  counters j = counts_of l → counters (tally_job (row_status x) j) = counts_of (l ++ [x]).
Proof.
  unfold counters, counts_of. rewrite length_app, Nat2Z.inj_add, !count_of_app.
  intros E. injection E as E1 E2 E3 E4 E5 E6.
  unfold tally_job. destruct (row_status x); cbn; rewrite ?E1, ?E2, ?E3, ?E4, ?E5, ?E6;
    repeat (apply f_equal2; [repeat case_bool_decide; first [lia|congruence]|]); reflexivity.
Qed.

(** ** Findings by place *)

Record findings_indexed (d : DB) : Prop := {
  fi_keyed : keyed (DB.findings d);
  fi_unique : unique_index finding_conflict (DB.findings d)
}.

Definition at_place (p : place) (f : Finding) : Prop :=
  (Fnd.aws_account_id f, Fnd.rule_key f, Fnd.asset_id f) = p.

Lemma finding_at_spec p d f :
  findings_indexed d →
  finding_at p d = Some f ↔ DB.findings d !! Fnd.id f = Some f ∧ at_place p f.
Proof.
  intros [Hk Hu]. destruct p as [[a k] o]. unfold finding_at, for_rule, at_place. cbn. split.
  - intros (i & Hi & Hp)%find_row_Some. bools. pose proof (Hk _ _ Hi) as Hid.
    change (row_id f) with (Fnd.id f) in Hid. rewrite Hid. split; [done|]. congruence.
  - intros [Hf [= <- <- <-]]. destruct (find_row _ _) as [f'|] eqn:E.
    + apply find_row_Some in E as (i & Hi & Hp). bools. f_equal.
      destruct (decide (i = Fnd.id f)) as [->|Hne]; [congruence|].
      pose proof (Hu _ _ _ _ Hi Hf Hne) as Hc. exfalso. revert Hc. unfold finding_conflict.
      rewrite bool_decide_eq_true_2 by done. cbn.
      match goal with H : Fnd.asset_id f' = _ |- _ => rewrite H end.
      destruct (Fnd.asset_id f); by rewrite bool_decide_eq_true_2.
    + rewrite find_row_None in E. specialize (E _ _ Hf). by rewrite !bool_decide_eq_true_2 in E.
Qed.

Lemma finding_conflict_sym f f' : finding_conflict f f' = finding_conflict f' f.
Proof.
  apply eq_true_iff_eq. unfold finding_conflict.
  destruct (Fnd.asset_id f), (Fnd.asset_id f'); rewrite !andb_true_iff, ?bool_decide_eq_true; naive_solver.
Qed.
#[export] Hint Resolve finding_conflict_sym : rows.

Lemma indexed_put fresh f d d' :
  findings_indexed d → unique_ok fresh finding_conflict f (DB.findings d) = true →
  DB.findings d' = put f (DB.findings d) → findings_indexed d'.
Proof. intros [Hk Hu] Hok E. split; rewrite E; eauto using unique_index_put with rows. Qed.

(** A flushed finding stands at its place, and the others where they were. *)
Lemma finding_at_put fresh f p q d d' :
  findings_indexed d → unique_ok fresh finding_conflict f (DB.findings d) = true →
  DB.findings d' = put f (DB.findings d) → at_place p f →
  (∀ f0, DB.findings d !! Fnd.id f = Some f0 → at_place p f0) →
  finding_at q d' = if decide (q = p) then Some f else finding_at q d.
Proof.
  intros Hd Hok E Hp H0. pose proof (indexed_put _ _ _ _ Hd Hok E) as Hd'.
  case_decide as Hq.
  - subst q. apply (finding_at_spec _ _ _ Hd'). split; [|done]. rewrite E. apply lookup_insert_eq.
  - apply option_eq. intros f1. rewrite !finding_at_spec by done. rewrite E. unfold put.
    change (row_id f) with (Fnd.id f). rewrite lookup_insert. unfold at_place in *.
    case_decide as Hid; [|done]. split.
    + intros [[= <-] ?]. congruence.
    + intros [Hf1 ?]. exfalso. apply Hq. rewrite <-Hid in Hf1. rewrite <-(H0 _ Hf1). congruence.
Qed.

(** ** One result *)

(** Two forms of the job of one run. *)
Record same_run (j j' : EvaluationJob) : Prop := {
  sr_id : EJ.id j' = EJ.id j;
  sr_org : EJ.organization_id j' = EJ.organization_id j;
  sr_account : EJ.aws_account_id j' = EJ.aws_account_id j;
  sr_sequence : EJ.sequence j' = EJ.sequence j;
  sr_status : EJ.status j' = EJ.status j;
  sr_started : EJ.started_at j' = EJ.started_at j;
  sr_finished : EJ.finished_at j' = EJ.finished_at j
}.

Lemma same_run_tally s j : same_run j (tally_job s j).
Proof. by destruct s. Qed.
Lemma same_run_trans j1 j2 j3 : same_run j1 j2 → same_run j2 j3 → same_run j1 j3.
Proof. intros [] []. split; congruence. Qed.

Lemma next_finding_same dr j j' x o : same_run j j' → next_finding dr j' x o = next_finding dr j x o.
Proof.
  intros [Hi Ho Ha _ _ _ _]. destruct x as [[rule asset] result]. unfold next_finding, candidate,
    failed_again, resolved. by rewrite Hi, Ho, Ha.
Qed.

(** No finding of the account comes from a later evaluation. *)
Definition not_stale (j : EvaluationJob) (d : DB) : Prop :=
  ∀ i f last, DB.findings d !! i = Some f → Fnd.aws_account_id f = EJ.aws_account_id j →
    DB.evaluation_jobs d !! Fnd.last_evaluation_id f = Some last →
    (EJ.sequence last <= EJ.sequence j)%Z.

Record applied (dr : draws) (j : EvaluationJob) (x : outcome_row) (w : work) (d : DB)
    (w' : work) (d' : DB) : Prop := {
  ap_indexed : findings_indexed d';
  ap_place : finding_at (place_of (EJ.aws_account_id j) x) d'
             = next_finding dr j x (finding_at (place_of (EJ.aws_account_id j) x) d);
  ap_other : ∀ q, q ≠ place_of (EJ.aws_account_id j) x → finding_at q d' = finding_at q d;
  ap_run : same_run j (w_job w');
  ap_counts : counters (w_job w') = counters (tally_job (row_status x) (w_job w));
  ap_jobs : DB.evaluation_jobs d' = if is_error x then DB.evaluation_jobs d
                                    else put (w_job w') (DB.evaluation_jobs d)
}.

Lemma wp_save_finding fresh f Q s :
  (finding_checks f = true → unique_ok fresh finding_conflict f (DB.findings (working s)) = true →
     Q (Ret tt) (Sess (committed s) ((working s) <| DB.findings ::= put f |>))) →
  Q (Raise IntegrityError) s →
  wp (save_finding fresh f) Q s.
Proof. intros H1 H2. unfold save_finding. wp_go; [bools|]; eauto. Qed.

Lemma wp_save_evaluation fresh j Q s :
  (evaluation_checks j = true →
   unique_ok fresh evaluation_conflict j (DB.evaluation_jobs (working s)) = true →
     Q (Ret tt) (Sess (committed s) ((working s) <| DB.evaluation_jobs ::= put j |>))) →
  (evaluation_checks j && unique_ok fresh evaluation_conflict j
     (DB.evaluation_jobs (working s)) = false → Q (Raise IntegrityError) s) →
  wp (save_evaluation fresh j) Q s.
Proof. intros H1 H2. unfold save_evaluation. wp_go; [bools|]; eauto. Qed.

(** A flush of summaries changes their table only. *)
Lemma wp_save_summaries l Q s :
  (∀ out g, Q out (Sess (committed s) ((working s) <| DB.rule_results ::= g |>))) →
  wp (save_summaries l) Q s.
Proof.
  intros HQ.
  eapply wp_mono; [|apply (wp_for_each
    (λ s', ∃ g, s' = Sess (committed s) ((working s) <| DB.rule_results ::= g |>))
    (λ _ s', ∃ g, s' = Sess (committed s) ((working s) <| DB.rule_results ::= g |>)))].
  - intros [[]|e] s' [g ->]; apply HQ.
  - exists id. by destruct s as [dc []].
  - intros [fresh r] s' _ [g ->]. cbn. unfold save_rule_result. wp_go; [|by eexists].
    by exists (λ t, put r (g t)).
Qed.

Lemma wp_flush w Q s :
  (∀ l g, Q (Ret (mk_work (w_job w) l))
     (Sess (committed s) ((working s) <| DB.evaluation_jobs ::= put (w_job w) |>
                                      <| DB.rule_results ::= g |>))) →
  (∀ e s', committed s' = committed s → Q (Raise e) s') →
  wp (flush w) Q s.
Proof.
  intros HQ HE. unfold flush. apply wp_bind, wp_save_evaluation; intros; [|by apply HE].
  apply wp_bind, wp_save_summaries. intros [[]|e] g; [|by apply HE]. apply wp_ret, HQ.
Qed.

Lemma wp_create_frame i now f Q s :
  (∀ out g h, Q out (Sess (committed s)
     ((working s) <| DB.notifications ::= g |> <| DB.audit ::= h |>))) →
  wp (Notifications.create_for_critical_finding i now f) Q s.
Proof.
  intros HQ.
  assert (∀ out, Q out s) as HQ0.
  { intros out. specialize (HQ out id id). destruct s as [dc []]. exact HQ. }
  unfold Notifications.create_for_critical_finding. wp_go; [done|].
  apply wp_begin_nested. unfold Notifications.save_event, record_audit. wp_go; try done.
Qed.

(** A result that leaves the findings as they are. *)
Lemma applied_keep dr j x w d w' d' :
  findings_indexed d → DB.findings d' = DB.findings d →
  next_finding dr j x (finding_at (place_of (EJ.aws_account_id j) x) d)
  = finding_at (place_of (EJ.aws_account_id j) x) d →
  same_run j (w_job w') →
  counters (w_job w') = counters (tally_job (row_status x) (w_job w)) →
  DB.evaluation_jobs d' = (if is_error x then DB.evaluation_jobs d
                           else put (w_job w') (DB.evaluation_jobs d)) →
  applied dr j x w d w' d'.
Proof.
  intros [Hk Hu] E Hn Hr Hc Hj.
  assert (∀ q, finding_at q d' = finding_at q d) as Hq.
  { intros q. unfold finding_at, for_rule. by rewrite E. }
  split; try done; [by split; rewrite E|by rewrite Hq, Hn].
Qed.

(** A result that stores one finding at its place. *)
Lemma applied_put dr j x w d w' d' fresh f :
  findings_indexed d → unique_ok fresh finding_conflict f (DB.findings d) = true →
  DB.findings d' = put f (DB.findings d) →
  at_place (place_of (EJ.aws_account_id j) x) f →
  (∀ f0, DB.findings d !! Fnd.id f = Some f0 → at_place (place_of (EJ.aws_account_id j) x) f0) →
  next_finding dr j x (finding_at (place_of (EJ.aws_account_id j) x) d) = Some f →
  same_run j (w_job w') →
  counters (w_job w') = counters (tally_job (row_status x) (w_job w)) →
  is_error x = false →
  DB.evaluation_jobs d' = put (w_job w') (DB.evaluation_jobs d) →
  applied dr j x w d w' d'.
Proof.
  intros Hd Hok E Hp H0 Hn Hr Hc He Hj. split; try done.
  - by eapply indexed_put.
  - rewrite (finding_at_put fresh f _ _ _ _ Hd Hok E Hp H0), decide_True by done. done.
  - intros q Hq. rewrite (finding_at_put fresh f _ _ _ _ Hd Hok E Hp H0), decide_False by done. done.
  - by rewrite He.
Qed.

(** What the flush at the end of a result makes of a counted job. *)
Lemma wp_settle dr j x w w1 d Q s fresh f :
  findings_indexed d → unique_ok fresh finding_conflict f (DB.findings d) = true →
  DB.findings (working s) = put f (DB.findings d) →
  DB.evaluation_jobs (working s) = DB.evaluation_jobs d →
  at_place (place_of (EJ.aws_account_id j) x) f →
  (∀ f0, DB.findings d !! Fnd.id f = Some f0 → at_place (place_of (EJ.aws_account_id j) x) f0) →
  next_finding dr j x (finding_at (place_of (EJ.aws_account_id j) x) d) = Some f →
  same_run j (w_job w1) →
  counters (w_job w1) = counters (tally_job (row_status x) (w_job w)) →
  is_error x = false →
  (∀ w' d', applied dr j x w d w' d' → Q (Ret w') (Sess (committed s) d')) →
  (∀ e s', committed s' = committed s → Q (Raise e) s') →
  wp (flush w1) Q s.
Proof.
  intros Hd Hok E Ej Hp H0 Hn Hr Hc He HQ HE. apply wp_flush; [|done].
  intros l g. apply HQ. eapply (applied_put _ _ _ _ _ _ _ fresh f); try done. cbn. by rewrite Ej.
Qed.

(** The job whose results are counted, with one more finding counted. *)
Definition more_findings (f : EvaluationJob → EvaluationJob) : Prop :=
  ∀ j, same_run j (f j) ∧ counters (f j) = counters j.

Section one_result.
Context (dr : draws) (j : EvaluationJob) (w : work) (rule : SecurityRule)
  (asset : option Asset) (result : RuleResult) (dc d : DB)
  (Q : outcome work → sess DB → Prop).
Let x : outcome_row := (rule, asset, result).
Let p : place := place_of (EJ.aws_account_id j) x.
Let job := tally_job (status result) (w_job w).
Hypothesis Hd : findings_indexed d.
Hypothesis Hr : same_run j (w_job w).
Hypothesis HQ : ∀ w' d', applied dr j x w d w' d' → Q (Ret w') (Sess dc d').
Hypothesis HE : ∀ e s', committed s' = dc → Q (Raise e) s'.

Lemma run_job : same_run j job.
Proof. eapply same_run_trans; [exact Hr|apply same_run_tally]. Qed.

Lemma wp_unchanged sums :
  next_finding dr j x (finding_at p d) = finding_at p d → is_error x = false →
  wp (flush (mk_work job sums)) Q (Sess dc d).
Proof.
  intros Hn He. apply wp_flush; [|done]. intros l g. apply HQ.
  apply applied_keep; try done; [exact run_job|]. by rewrite He.
Qed.

(** The finding [f'] takes the place of the loaded one. *)
Lemma wp_replaced f f' event more sums :
  finding_at p d = Some f → Fnd.id f' = Fnd.id f → at_place p f' →
  next_finding dr job x (Some f) = Some f' → is_error x = false → more_findings more →
  wp (_ ← save_finding false f';
      _ ← finding_event event job f';
      flush (mk_work (more job) sums)) Q (Sess dc d).
Proof.
  intros Hf Hid Hp Hn He Hm. rewrite (next_finding_same dr j job) in Hn by apply run_job.
  apply wp_bind, wp_save_finding; [|by apply HE]. intros _ Hok.
  apply wp_bind. unfold finding_event, audit_ok, record_audit. wp_step.
  destruct (Hm job) as [Hmr Hmc].
  eapply (wp_settle dr j x w _ d _ _ false f'); try done.
  - intros f0. rewrite Hid. apply finding_at_spec in Hf as [Hf Hpl]; [|done].
    rewrite Hf. by intros [= <-].
  - change (next_finding dr j x (finding_at p d) = Some f'). by rewrite Hf.
  - eapply same_run_trans; [apply run_job|done].
Qed.

Lemma wp_created event more sums :
  let f := candidate (new_finding dr (key rule) (Asset.id <$> asset))
             (clock dr (key rule) (Asset.id <$> asset)) job rule asset result in
  finding_at p d = None → status result = RuleResultStatus.FAILED → more_findings more →
  ∀ (m : txn DB (option NotificationEvent)),
  (∀ Q s, (∀ out g h, Q out (Sess (committed s)
     ((working s) <| DB.notifications ::= g |> <| DB.audit ::= h |>))) → wp m Q s) →
  unique_ok true finding_conflict f (DB.findings d) = true →
  wp (_ ← finding_event event job f;
      _ ← m;
      flush (mk_work (more job) sums)) Q (Sess dc (d <| DB.findings ::= put f |>)).
Proof.
  intros f Hf Hs Hm m Hfr Hok. apply wp_bind.
  unfold finding_event, audit_ok, record_audit. wp_step. apply wp_bind, Hfr.
  intros [o|e] g h; [|by apply HE]. destruct (Hm job) as [Hmr Hmc].
  eapply (wp_settle dr j x w _ d _ _ true f); try done.
  - unfold at_place, p, place_of. cbn. by rewrite (sr_account _ _ run_job).
  - apply unique_ok_true in Hok as [Hnew _]. intros f0 Hf0.
    pose proof (eq_trans (eq_sym Hf0) (Hnew eq_refl)). done.
  - change (next_finding dr j x (finding_at p d) = Some f). rewrite Hf.
    rewrite <-(next_finding_same dr j job) by apply run_job. cbn. by rewrite Hs.
  - eapply same_run_trans; [apply run_job|done].
  - unfold is_error, row_status. cbn. by rewrite Hs.
Qed.
End one_result.

Lemma wp_apply_result dr j w rule asset result Q s :
  let x := (rule, asset, result) in
  findings_indexed (working s) → same_run j (w_job w) → not_stale j (working s) →
  (∀ w' d', applied dr j x w (working s) w' d' → Q (Ret w') (Sess (committed s) d')) →
  (∀ e s', committed s' = committed s → Q (Raise e) s') →
  wp (_apply_result dr w rule asset result) Q s.
Proof.
  intros x. destruct s as [dc d]. cbn -[x]. intros Hd Hr Hs HQ HE.
  pose proof (run_job j w result Hr) as Hr'.
  unfold _apply_result. cbn zeta. unfold tally. cbn [w_job w_summaries].
  set (job := tally_job (status result) (w_job w)) in *.
  set (sums := match w_summaries w with [] => [] | _ => _ end).
  rewrite (sr_account _ _ Hr').
  apply wp_bind, wp_gets. apply wp_bind, wp_gets. cbn [working].
  change (for_rule _ _ _ d) with (finding_at (place_of (EJ.aws_account_id j) x) d).
  assert (next_finding dr j x (finding_at (place_of (EJ.aws_account_id j) x) d)
          = finding_at (place_of (EJ.aws_account_id j) x) d → is_error x = true →
          wp (mret (mk_work job sums)) Q (Sess dc d)) as Herr.
  { intros Hn He. apply wp_ret, HQ, applied_keep; try done. by rewrite He. }
  destruct (finding_at _ d) as [f|] eqn:Hf; cbn iota beta.
  - assert (match DB.evaluation_jobs d !! Fnd.last_evaluation_id f with
            | Some last_job => (EJ.sequence job <? EJ.sequence last_job)%Z
            | None => false
            end = false) as ->.
    { destruct (_ !! _) as [last|] eqn:Hl; [|done]. apply Z.ltb_ge.
      rewrite (sr_sequence _ _ Hr'). pose proof Hf as [Hi Hp]%finding_at_spec; [|done].
      eapply Hs; [exact Hi| |exact Hl]. by injection Hp. }
    pose proof Hf as [_ Hp]%finding_at_spec; [|done].
    apply wp_if; intros He.
    { apply Herr; [|done]. bools. cbn. by rewrite He. }
    destruct (status result) eqn:Es in |- *; cbn iota.
    + apply wp_if; intros Hk.
      * apply (wp_unchanged dr j w rule asset result); try done.
        fold x. rewrite Hf. cbn. by rewrite Es, Hk.
      * apply (wp_replaced dr j w rule asset result _ _ _ Hd Hr HQ HE f _ _
          (λ j, j <| EJ.findings_resolved ::= Z.succ |>)); try done.
        fold job. clearbody job. cbn. by rewrite Es, Hk.
    + apply (wp_replaced dr j w rule asset result _ _ _ Hd Hr HQ HE f _ _
        (λ j, if reopens (clock dr (key rule) (Asset.id <$> asset)) f
              then j <| EJ.findings_reopened ::= Z.succ |>
              else j <| EJ.findings_updated ::= Z.succ |>)); try done.
      * unfold failed_again. by destruct (active_suppression _ _).
      * unfold failed_again, at_place. by destruct (active_suppression _ _).
      * fold job. clearbody job. cbn. by rewrite Es.
      * intros j1. by destruct (reopens _ _).
    + apply (wp_unchanged dr j w rule asset result); try done.
      fold x. rewrite Hf. cbn. by rewrite Es.
    + bools. congruence.
  - apply wp_if; intros He.
    { apply Herr; [|done]. bools. cbn. by rewrite He. }
    destruct (status result) eqn:Es in |- *; cbn iota;
      [| | |bools; congruence].
    1,3: apply (wp_unchanged dr j w rule asset result); try done;
      fold x; rewrite Hf; cbn; by rewrite Es.
    apply wp_bind, wp_try, wp_bind, wp_begin_nested, wp_save_finding.
    + intros _ Hok. cbn [committed working]. apply wp_ret. cbn iota.
      apply (wp_created dr j w rule asset result _ _ _ Hd Hr HQ HE _
        (λ j, j <| EJ.findings_created ::= Z.succ |>)); try done.
      intros Q0 s0 HQ0. apply wp_if; intros _; [by apply wp_create_frame|].
      apply wp_ret. specialize (HQ0 (Ret None) id id). destruct s0 as [? []]. exact HQ0.
    + apply wp_ret. cbn iota. apply wp_bind, wp_gets.
      change (for_rule _ _ _ ?y) with (finding_at (place_of (EJ.aws_account_id j) x) y).
      cbn [working]. rewrite Hf. apply wp_bind, wp_some_or; [done|]. intros _. by apply HE.
Qed.

(** What a result makes of a finding comes from this evaluation, or was there. *)
Lemma next_finding_source dr j x o f :
  next_finding dr j x o = Some f → Fnd.last_evaluation_id f = EJ.id j ∨ o = Some f.
Proof.
  destruct x as [[rule asset] result]. unfold next_finding.
  destruct (status result), o as [f0|]; try (intros [= <-]; by auto); try by auto.
  destruct (_ || _); intros [= <-]; by auto.
Qed.

(** A result keeps the account's findings from being stale. *)
Lemma applied_not_stale dr j x w d w' d' :
  applied dr j x w d w' d' → findings_indexed d → keyed (DB.evaluation_jobs d) →
  (∀ js, DB.evaluation_jobs d !! EJ.id j = Some js → EJ.sequence js = EJ.sequence j) →
  not_stale j d → not_stale j d'.
Proof.
  intros [Hi Hpl Hoth Hr _ Hj] Hd Hkj Hself Hs i f last Hf Ha Hl.
  assert (last = w_job w' ∨ DB.evaluation_jobs d !! Fnd.last_evaluation_id f = Some last)
    as [->|Hlast].
  { rewrite Hj in Hl. destruct (is_error x); [by right|].
    unfold put in Hl. rewrite lookup_insert in Hl. case_decide; [left; congruence|by right]. }
  { by rewrite (sr_sequence _ _ Hr). }
  assert (∀ q, finding_at q d = Some f → (EJ.sequence last <= EJ.sequence j)%Z) as Hold.
  { intros q [Hq _]%finding_at_spec; [|done]. by eapply Hs. }
  assert (finding_at (EJ.aws_account_id j, Fnd.rule_key f, Fnd.asset_id f) d' = Some f) as Hat.
  { apply finding_at_spec; [done|]. split; [|unfold at_place; by rewrite Ha].
    pose proof (fi_keyed _ Hi _ _ Hf) as E. change (row_id f) with (Fnd.id f) in E. by rewrite E. }
  destruct (decide ((EJ.aws_account_id j, Fnd.rule_key f, Fnd.asset_id f)
                    = place_of (EJ.aws_account_id j) x)) as [E|E].
  - rewrite E, Hpl in Hat. apply next_finding_source in Hat as [Hid|Hat]; [|by eapply Hold].
    rewrite Hid in Hlast. by rewrite (Hself _ Hlast).
  - rewrite Hoth in Hat by done. by eapply Hold.
Qed.

(** ** All results *)

Section run.
Context (dr : draws) (j : EvaluationJob) (context : RuleContext) (d0 : DB).
Let places : list outcome_row → list place := map (place_of (EJ.aws_account_id j)).

(** After the results [done], from the database [d0]. *)
Record progress (done : list outcome_row) (w : work) (errors : list string) (d : DB) : Prop := {
  pr_indexed : findings_indexed d;
  pr_run : same_run j (w_job w);
  pr_counts : counters (w_job w) = counts_of done;
  pr_errors : errors = done ≫= λ x, errors_of x.1.1 x.2;
  pr_stored : ∃ js, same_run j js ∧ counters js = counts_of (flushed done)
                    ∧ DB.evaluation_jobs d = put js (DB.evaluation_jobs d0);
  pr_fresh : not_stale j d;
  pr_at : ∀ x, x ∈ done →
    finding_at (place_of (EJ.aws_account_id j) x) d
    = next_finding dr j x (finding_at (place_of (EJ.aws_account_id j) x) d0);
  pr_other : ∀ q, q ∉ places done → finding_at q d = finding_at q d0
}.

Lemma progress_step done x w w' errors d d' :
  keyed (DB.evaluation_jobs d0) →
  progress done w errors d → applied dr j x w d w' d' →
  place_of (EJ.aws_account_id j) x ∉ places done →
  progress (done ++ [x]) w' (errors ++ errors_of x.1.1 x.2) d'.
Proof.
  intros Hk Hp Ha Hx. pose proof Ha as [Hi Hpl Hoth Hr Hc Hj].
  destruct (pr_stored _ _ _ _ Hp) as (js & Hjs & Hcs & Hjd).
  split; [done|done|..].
  - rewrite Hc. apply counters_tally, Hp.
  - rewrite (pr_errors _ _ _ _ Hp), bind_app. cbn. by rewrite app_nil_r.
  - rewrite flushed_app, Hj, Hjd. destruct (is_error x); [by exists js|].
    exists (w_job w'). split_and!; [done| |].
    + rewrite Hc. apply counters_tally, Hp.
    + apply put_put. unfold row_id, EJ.row. by rewrite (sr_id _ _ Hr), (sr_id _ _ Hjs).
  - eapply applied_not_stale; [exact Ha|apply Hp| | |apply Hp].
    + rewrite Hjd. by apply keyed_put.
    + intros js'. rewrite Hjd, <-(sr_id _ _ Hjs). unfold put. rewrite lookup_insert_eq.
      intros [= <-]. apply Hjs.
  - intros y [Hy| ->%list_elem_of_singleton]%elem_of_app.
    + rewrite Hoth, (pr_at _ _ _ _ Hp y Hy); [done|]. intros E. apply Hx. unfold places.
      rewrite <-E. by apply list_elem_of_fmap_2.
    + by rewrite Hpl, (pr_other _ _ _ _ Hp).
  - intros q Hq. unfold places in Hq. rewrite map_app in Hq. rewrite Hoth; [apply Hp|]; set_solver.
Qed.
(** What a loop leaves: nothing committed, and progress unless it raised. *)
Definition loop_post (dc : DB) (done : list outcome_row)
    (o : outcome (work * list string)) (s : sess DB) : Prop :=
  committed s = dc
  ∧ match o with Ret (w, errors) => progress done w errors (working s) | Raise _ => True end.

Lemma wp_run_targets rule l done w errors dc d :
  keyed (DB.evaluation_jobs d0) → progress done w errors d →
  let rows := map (λ a, (rule, a, result_of context rule a)) l in
  NoDup (places (done ++ rows)) →
  wp (run_targets dr context rule l w errors) (loop_post dc (done ++ rows)) (Sess dc d).
Proof.
  intros Hk. revert done w errors d. induction l as [|a l IH]; intros done w errors d Hp rows Hnd; cbn.
  { apply wp_ret. split; [done|]. by rewrite app_nil_r. }
  apply wp_bind, (wp_apply_result dr j); try apply Hp; [|intros e s' Hc; by split].
  intros w' d' Ha. cbn [working committed] in *.
  set (x := (rule, a, result_of context rule a)) in *.
  change rows with ([x] ++ map (λ a, (rule, a, result_of context rule a)) l) in *.
  rewrite (cons_middle x), !app_assoc in *. apply IH; [|done].
  apply (progress_step _ x w w' errors d d'); try done.
  unfold places in *. rewrite !map_app in Hnd.
  apply NoDup_app in Hnd as (Hnd & _ & _). apply NoDup_app in Hnd as (_ & Hx & _).
  intros Hin. apply (Hx _ Hin). set_solver.
Qed.

Lemma wp_run_rules rules done w errors dc d :
  keyed (DB.evaluation_jobs d0) → progress done w errors d →
  NoDup (places (done ++ results context rules)) →
  wp (run_rules dr context rules w errors) (loop_post dc (done ++ results context rules))
    (Sess dc d).
Proof.
  intros Hk. revert done w errors d. induction rules as [|rule rules IH];
    intros done w errors d Hp Hnd; cbn -[results].
  { apply wp_ret. split; [done|]. cbn. by rewrite app_nil_r. }
  rewrite results_cons, app_assoc in *.
  apply wp_bind. eapply wp_mono; [|apply (wp_run_targets rule); [done| |]].
  - intros [[w' errors']|e] s' [<- Hp']; cbn [fst snd]; [|by split].
    destruct s' as [dc' d']. apply IH; [exact Hp'|exact Hnd].
  - destruct Hp as [? ? ? ? ? ? ? ?]. by split.
  - unfold places in *. rewrite map_app in Hnd. by apply NoDup_app in Hnd as [? _].
Qed.
End run.

(** Rules have keys of their own, and so have assets: no two results share a
    place. *)
Lemma results_places a context rules :
  NoDup (map key rules) → NoDup (map Asset.id (account_assets context)) →
  NoDup (map (place_of a) (results context rules)).
Proof.
  intros Hr Ha. induction rules as [|rule rules IH]; [constructor|].
  cbn in Hr. apply NoDup_cons in Hr as [Hn Hr].
  rewrite results_cons, map_app. apply NoDup_app. split_and!; [| |by apply IH].
  - rewrite map_map. cbn. unfold targets. destruct (asset_type rule); [|apply NoDup_singleton].
    rewrite map_map. cbn.
    assert (NoDup (map Asset.id (List.filter (λ a, applies_to rule (Some a))
              (account_assets context)))) as Hf.
    { revert Ha. generalize (account_assets context). clear.
      induction l as [|x l IH]; cbn; [done|]. rewrite NoDup_cons. intros [Hx Hl].
      destruct (applies_to _ _); cbn; [|auto]. constructor; [|auto].
      intros Hin. apply Hx. apply list_elem_of_fmap in Hin as (y & -> & Hy).
      apply list_elem_of_In, filter_In in Hy as [Hy _]. by apply list_elem_of_fmap_2, list_elem_of_In. }
    revert Hf. generalize (List.filter (λ a, applies_to rule (Some a)) (account_assets context)).
    intros l Hl. assert (Inj (=) (=) (λ i : uuid, (a, key rule, Some i))) as Hinj
      by (by intros ?? [=]).
    apply (NoDup_fmap_2 (λ i, (a, key rule, Some i))) in Hl.
    change (NoDup ((λ i, (a, key rule, Some i)) <$> (Asset.id <$> l))) in Hl.
    rewrite <-list_fmap_compose in Hl. exact Hl.
  - intros q Hq Hq'. apply list_elem_of_fmap in Hq as (x & -> & Hx).
    apply list_elem_of_fmap in Hx as (t & -> & _).
    apply list_elem_of_fmap in Hq' as (y & E & Hy). apply Hn.
    apply elem_of_results in Hy as (Hy & _). injection E as -> _. by apply list_elem_of_fmap_2.
Qed.

(** ** The end of a run *)

Definition evaluations_ok (d : DB) : Prop :=
  table_ok DB.evaluation_jobs (λ j, evaluation_checks j = true) evaluation_conflict d.

Lemma evaluation_conflict_sym j j' : evaluation_conflict j j' = evaluation_conflict j' j.
Proof.
  apply eq_true_iff_eq. unfold evaluation_conflict.
  rewrite !andb_true_iff, !orb_true_iff, !andb_true_iff, !bool_decide_eq_true. naive_solver.
Qed.
#[export] Hint Resolve evaluation_conflict_sym : rows.

Lemma evaluations_put fresh j d d' :
  evaluations_ok d → evaluation_checks j = true →
  unique_ok fresh evaluation_conflict j (DB.evaluation_jobs d) = true →
  DB.evaluation_jobs d' = put j (DB.evaluation_jobs d) → evaluations_ok d'.
Proof.
  intros [Hk Hu Ha] Hc Hok E. split; rewrite E; eauto using unique_index_put with rows.
Qed.

(** A change of a stored job that keeps its account and sequence, and is active
    only if the job was, does not conflict with the others. *)
Lemma evaluation_unique j j' d :
  evaluations_ok d → DB.evaluation_jobs d !! EJ.id j = Some j → EJ.id j' = EJ.id j →
  EJ.aws_account_id j' = EJ.aws_account_id j → EJ.sequence j' = EJ.sequence j →
  (active_evaluation j' = true → active_evaluation j = true) →
  unique_ok false evaluation_conflict j' (DB.evaluation_jobs d) = true.
Proof.
  intros [Hk Hu _] Hj Hid Ha Hs Hact. apply unique_ok_true. split; [done|].
  intros k r Hr Hne. change (row_id ?x) with (EJ.id x) in *. rewrite Hid in Hne.
  assert (EJ.id j ≠ k) as Hk'.
  { intros E. apply Hne. rewrite (Hk _ _ Hr : EJ.id r = k). by symmetry. }
  specialize (Hu _ _ _ _ Hj Hr Hk'). unfold evaluation_conflict in *. rewrite Ha, Hs.
  destruct (_ ≟ _); [|done]. cbn in *. apply orb_false_iff in Hu as [Hu ->].
  destruct (active_evaluation j'); [|done]. rewrite Hact in Hu by done. cbn in *. by rewrite Hu.
Qed.

(** A running job that ends. *)
Definition ended (now : timestamp) (st : EvaluationJobStatus) (errors : list string)
    (j : EvaluationJob) : EvaluationJob :=
  let summary := str_take 2000 (concat_sep "; " errors) in
  j <| EJ.status := st |>
    <| EJ.finished_at := Some now |>
    <| EJ.error_summary := if nonempty summary then Some summary else None |>.

Definition final (st : EvaluationJobStatus) : bool :=
  bool_decide (st ∈ [EvaluationJobStatus.COMPLETED; EvaluationJobStatus.PARTIALLY_COMPLETED;
                     EvaluationJobStatus.FAILED]).

Lemma ended_ok now st errors j d :
  evaluations_ok d → DB.evaluation_jobs d !! EJ.id j = Some j →
  EJ.status j = EvaluationJobStatus.RUNNING → final st = true →
  evaluation_checks (ended now st errors j) = true
  ∧ unique_ok false evaluation_conflict (ended now st errors j) (DB.evaluation_jobs d) = true.
Proof.
  intros Hd Hj Hr Hst. split.
  - pose proof (tk_rows _ _ _ _ Hd _ _ Hj) as Hc. cbn -[forallb] in Hc.
    unfold evaluation_checks in *. rewrite Hr in Hc. apply andb_true_iff in Hc as [Hc Hs].
    apply andb_true_iff in Hs as [Hs _]. apply andb_true_iff. split; [exact Hc|].
    cbn -[forallb]. rewrite Hs. by destruct st.
  - apply (evaluation_unique j); try done. unfold active_evaluation. cbn. by destruct st.
Qed.

Lemma wp_finish pending now i actor st errors Q s js :
  DB.evaluation_jobs (working s) !! i = Some js → EJ.status js = EvaluationJobStatus.RUNNING →
  final st = true →
  (∀ d', DB.evaluation_jobs d' = put (ended now st errors js) (DB.evaluation_jobs (working s)) →
     DB.findings d' = DB.findings (working s) →
     Q (Ret (ended now st errors js)) (Sess d' d')) →
  (∀ e s', committed s' = committed s → Q (Raise e) s') →
  wp (_finish pending now i actor st errors) Q s.
Proof.
  intros Hj Hr Hst HQ HE. unfold _finish. apply wp_bind, wp_gets. rewrite Hj.
  apply wp_bind, wp_ret. cbn iota. apply wp_bind, wp_ensure; [intros _|intros Hf; bools; congruence].
  cbn iota zeta. fold (ended now st errors js).
  apply wp_bind. destruct st; try done; apply wp_ret; cbn iota; apply wp_bind;
    unfold record_audit; wp_step; apply wp_bind, wp_save_evaluation; intros;
    try (by apply HE); apply wp_bind, wp_save_summaries; (intros [[]|] g; [|by apply HE]);
    apply wp_bind, wp_commit, wp_ret, HQ; reflexivity.
Qed.

(** Without summaries to flush, a well-formed job ends for sure. *)
Lemma wp_finish_now now i actor st errors Q s js :
  evaluations_ok (working s) →
  DB.evaluation_jobs (working s) !! i = Some js → EJ.status js = EvaluationJobStatus.RUNNING →
  final st = true →
  (∀ d', DB.evaluation_jobs d' = put (ended now st errors js) (DB.evaluation_jobs (working s)) →
     DB.findings d' = DB.findings (working s) →
     Q (Ret (ended now st errors js)) (Sess d' d')) →
  wp (_finish [] now i actor st errors) Q s.
Proof.
  intros Hok Hj Hr Hst HQ. unfold _finish. apply wp_bind, wp_gets. rewrite Hj.
  assert (EJ.id js = i) as Hid by apply (tk_keyed _ _ _ _ Hok _ _ Hj).
  destruct (ended_ok now st errors js (working s)) as [Hc Hu]; [done|by rewrite Hid|done..|].
  apply wp_bind, wp_ret. cbn iota. apply wp_bind, wp_ensure; [intros _|intros Hf; bools; congruence].
  cbn iota zeta. fold (ended now st errors js).
  apply wp_bind. destruct st; try done; apply wp_ret; cbn iota; apply wp_bind;
    unfold record_audit; wp_step; apply wp_bind, wp_save_evaluation;
    try (intros Hf; cbn in Hf; by rewrite Hc, Hu in Hf); intros _ _;
    apply wp_bind; unfold save_summaries; cbn;
    apply wp_ret; apply wp_bind, wp_commit, wp_ret, HQ; reflexivity.
Qed.

(** ** A whole evaluation *)

(** The status the results lead to: failed when all of them are errors,
    partially completed when some are. *)
Definition verdict_of (l : list outcome_row) : EvaluationJobStatus :=
  if existsb is_error l
  then if forallb is_error l then EvaluationJobStatus.FAILED
       else EvaluationJobStatus.PARTIALLY_COMPLETED
  else EvaluationJobStatus.COMPLETED.

Lemma verdict_final l : final (verdict_of l) = true.
Proof. unfold verdict_of. by destruct (existsb is_error l), (forallb is_error l). Qed.

Lemma count_errors l :
  (count_of RuleResultStatus.ERROR l <= Z.of_nat (length l))%Z
  ∧ (count_of RuleResultStatus.ERROR l = Z.of_nat (length l) ↔ forallb is_error l = true).
Proof.
  unfold count_of. induction l as [|x l [IH1 IH2]]; [done|].
  rewrite filter_cons. cbn [length forallb]. unfold is_error at 1.
  case_bool_decide as E.
  - rewrite decide_True by exact E. cbn [length andb]. rewrite <-IH2. lia.
  - rewrite decide_False by exact E. cbn [andb]. split; [lia|]. split; [lia|done].
Qed.

Lemma errors_none (l : list outcome_row) :
  (l ≫= λ x, errors_of x.1.1 x.2) = [] ↔ existsb is_error l = false.
Proof.
  induction l as [|[[r a] res] l IH]; [done|]. cbn.
  unfold errors_of, is_error at 1, row_status. cbn. case_bool_decide; cbn; [done|exact IH].
Qed.

Lemma terminal_verdict w errors l :
  counters w = counts_of l → errors = (l ≫= λ x, errors_of x.1.1 x.2) →
  terminal_status w errors = verdict_of l.
Proof.
  intros Hc ->. injection Hc as E1 _ _ _ _ E6. unfold terminal_status, verdict_of.
  rewrite E1, E6. destruct (count_errors l) as [Hle Hall]. pose proof (errors_none l) as Hn.
  destruct (existsb is_error l) eqn:He.
  - destruct (forallb is_error l) eqn:Hf.
    + assert (l ≠ []) by (by intros ->). destruct l; [done|].
      rewrite (proj2 Hall eq_refl), Z.eqb_refl, andb_true_r. cbn [length].
      by rewrite (proj2 (Z.ltb_lt _ _)) by lia.
    + rewrite (proj2 (Z.eqb_neq _ _)), andb_false_r.
      2: { intros Heq. by apply Hall in Heq. }
      match goal with |- match ?e with _ => _ end = _ => destruct e eqn:Hl; [|done] end.
      discriminate (proj1 Hn eq_refl).
  - rewrite (proj2 Hn eq_refl). destruct l as [|x l]; [done|].
    destruct (Z.eqb_spec (count_of RuleResultStatus.ERROR (x :: l)) (Z.of_nat (length (x :: l))))
      as [Heq|_]; [|by rewrite andb_false_r].
    apply Hall in Heq. cbn in He, Heq. destruct (is_error x); done.
Qed.

(** The results of all enabled rules on the assets of the account. *)
Definition all_results (registry : RuleRegistry) (t : times) (j : EvaluationJob) (d : DB)
    : list outcome_row :=
  results (mk_RuleContext (active_assets j d) (t_evaluated t))
    (registry_filter registry None None None None (Some true)).

(** What an evaluation of job [j] did when it ended as [j'].  Either all rules
    ran, and every result was applied to the finding at its place; or it failed
    as a whole, and no finding was touched. *)
Record evaluated (registry : RuleRegistry) (dr : draws) (t : times) (j : EvaluationJob)
    (d : DB) (j' : EvaluationJob) (d' : DB) : Prop := {
  ev_stored : DB.evaluation_jobs d' !! EJ.id j = Some j';
  ev_finished : EJ.finished_at j' = Some (t_finished t);
  ev_outcome :
    let rows := all_results registry t j d in
    let place x := place_of (EJ.aws_account_id j) x in
    (EJ.status j' = verdict_of rows
     ∧ counters j' = counts_of (flushed rows)
     ∧ (∀ x, x ∈ rows →
          settles dr j x (finding_at (place x) d) (finding_at (place x) d'))
     ∧ (∀ q, (∀ x, x ∈ rows → q ≠ place x) → finding_at q d' = finding_at q d))
    ∨ (EJ.status j' = EvaluationJobStatus.FAILED
       ∧ EJ.error_summary j' = Some "evaluation_execution_failed"
       ∧ counters j' = counts_of []
       ∧ DB.findings d' = DB.findings d)
}.

(** What an evaluation needs to know of the database. *)
Record evaluable (registry : RuleRegistry) (d : DB) : Prop := {
  el_jobs : evaluations_ok d;
  el_findings : findings_indexed d;
  el_assets : keyed (DB.assets d);
  el_rules : NoDup (map key (registry_filter registry None None None None (Some true)))
}.

Lemma active_assets_NoDup j d : keyed (DB.assets d) → NoDup (map Asset.id (active_assets j d)).
Proof.
  intros Hk. unfold active_assets.
  eapply (NoDup_Permutation_proper _ (map Asset.id (filter_rows _ (DB.assets d)))).
  { apply Permutation_map, sort_by_perm. }
  unfold filter_rows.
  assert (∀ (P : Asset → bool) (l : list (uuid * Asset)), (∀ i a, (i, a) ∈ l → Asset.id a = i) → NoDup l.*1 →
    NoDup (map Asset.id (filter (λ r, P r = true) l.*2))) as Hgen.
  { intros P. induction l as [|[i a] l IH]; [constructor|]. intros Hl.
    rewrite !fmap_cons, filter_cons, NoDup_cons. cbn [fst snd]. intros [Hi Hnd].
    assert (NoDup (map Asset.id (filter (λ r, P r = true) l.*2))) as IHl.
    { apply IH; [|done]. intros i' a' Ha. apply Hl. set_solver. }
    case_decide; [|done]. cbn. constructor; [|done]. intros Hin.
    apply list_elem_of_fmap in Hin as (b & Hb & Hin).
    apply list_elem_of_filter in Hin as [_ Hin].
    apply list_elem_of_fmap in Hin as ([i' b'] & -> & Hin). cbn in *. apply Hi.
    assert (Asset.id a = i) as E by (apply Hl; set_solver).
    assert (Asset.id b' = i') as E' by (apply Hl; set_solver).
    apply list_elem_of_fmap. exists (i', b'). split; [cbn; congruence|done]. }
  apply Hgen; [|apply NoDup_fst_map_to_list].
  intros i a Ha%elem_of_map_to_list. by apply (Hk i a).
Qed.

Lemma wp_evaluate_account registry dr t j actor dc d Q :
  evaluable registry d → DB.evaluation_jobs d !! EJ.id j = Some j →
  counters j = counts_of [] → not_stale j d → EJ.status j = EvaluationJobStatus.RUNNING →
  (∀ j' d', evaluated registry dr t j d j' d' → Q (Ret j') (Sess d' d')) →
  (∀ e s', committed s' = dc → Q (Raise e) s') →
  wp (evaluate_account registry dr t j actor) Q (Sess dc d).
Proof.
  intros [Hjobs Hfi Hka Hrules] Hj Hc0 Hs Hrun HQ HE. unfold evaluate_account.
  apply wp_bind, wp_gets. cbn [working]. cbn zeta.
  set (assets := active_assets j d). set (context := mk_RuleContext assets (t_evaluated t)).
  set (j1 := j <| EJ.assets_evaluated := Z.of_nat (length assets) |>).
  set (rules := registry_filter registry None None None None (Some true)) in *.
  assert (NoDup (map (place_of (EJ.aws_account_id j)) (results context rules))) as Hnd.
  { apply results_places; [done|]. by apply active_assets_NoDup. }
  apply wp_bind.
  eapply wp_mono; [|apply (wp_run_rules dr j context d rules [] (mk_work j1 []) [] dc d)].
  - intros [[w errors]|e] [dc' d'] [E Hp]; cbn [committed working] in *; [subst dc'|by apply HE].
    cbn [app] in Hp. cbn [fst snd]. destruct (pr_stored _ _ _ _ _ _ _ Hp) as (js & Hjs & Hcs & Hjd).
    apply wp_finish with (js := js); cbn [working committed].
    + assert (EJ.id js = EJ.id j1) as E by apply Hjs. rewrite Hjd, <-E. apply lookup_insert_eq.
    + by rewrite (sr_status _ _ Hjs).
    + rewrite (terminal_verdict _ _ _ (pr_counts _ _ _ _ _ _ _ Hp) (pr_errors _ _ _ _ _ _ _ Hp)).
      apply verdict_final.
    + intros d2 Hjobs2 Hf2. apply HQ. split.
      * rewrite Hjobs2, <-(sr_id _ _ Hjs). apply lookup_insert_eq.
      * done.
      * left.
        assert (∀ q, finding_at q d2 = finding_at q d') as Hfa.
        { intros q. unfold finding_at, for_rule. by rewrite Hf2. }
        split_and!; [|exact Hcs| |].
        -- apply (terminal_verdict _ _ _ (pr_counts _ _ _ _ _ _ _ Hp) (pr_errors _ _ _ _ _ _ _ Hp)).
        -- intros x Hx. rewrite Hfa, (pr_at _ _ _ _ _ _ _ Hp x Hx). apply next_settles.
        -- intros q Hq. rewrite Hfa. apply (pr_other _ _ _ _ _ _ _ Hp).
           intros Hin. apply list_elem_of_fmap in Hin as (x & -> & Hx). by apply (Hq x).
    + intros e s' ?. by apply HE.
  - apply Hjobs.
  - split; try done.
    + exists j. split_and!; [done|done|]. symmetry. by apply insert_id.
    + set_solver.
  - exact Hnd.
Qed.

Lemma not_stale_put j j1 d d' :
  not_stale j d → EJ.sequence j1 = EJ.sequence j → EJ.aws_account_id j1 = EJ.aws_account_id j →
  DB.findings d' = DB.findings d → DB.evaluation_jobs d' = put j1 (DB.evaluation_jobs d) →
  not_stale j1 d'.
Proof.
  intros Hs Hq Ha Ef Ej i f last. rewrite Ef, Ej, Ha, Hq. intros Hf Hfa.
  unfold put. rewrite lookup_insert. case_decide; [|by eapply Hs].
  intros [= <-]. lia.
Qed.

(** A pending evaluation always ends. *)
Lemma wp_run_evaluation registry dr t actor j d Q :
  evaluable registry d → DB.evaluation_jobs d !! EJ.id j = Some j →
  counters j = counts_of [] → not_stale j d → EJ.status j = EvaluationJobStatus.PENDING →
  (∀ j' d', evaluated registry dr t j d j' d' → Q (Ret j') (Sess d' d')) →
  wp (run_evaluation registry dr t (EJ.id j) actor) Q (Sess d d).
Proof.
  intros [Hjobs Hfi Hka Hrules] Hj Hc0 Hs Hp HQ. unfold run_evaluation.
  apply wp_bind, wp_gets. cbn [working]. rewrite Hj. apply wp_bind, wp_ret. cbn iota.
  apply wp_bind, wp_ensure; [intros _|intros Hf; bools; congruence]. cbn iota zeta.
  set (j1 := j <| EJ.status := EvaluationJobStatus.RUNNING |> <| EJ.started_at := Some (t_started t) |>).
  assert (evaluation_checks j1 = true) as Hchk.
  { pose proof (tk_rows _ _ _ _ Hjobs _ _ Hj) as Hc. cbn -[forallb] in Hc.
    unfold evaluation_checks in *. rewrite Hp in Hc. apply andb_true_iff in Hc as [Hc Hf].
    apply andb_true_iff in Hf as [_ Hf]. apply andb_true_iff. by split. }
  assert (unique_ok false evaluation_conflict j1 (DB.evaluation_jobs d) = true) as Huniq.
  { apply (evaluation_unique j); try done. intros _. unfold active_evaluation. by rewrite Hp. }
  apply wp_bind. unfold audit_ok, record_audit. wp_step.
  apply wp_bind, wp_save_evaluation; [|intros Hf; cbn in Hf; by rewrite Hchk, Huniq in Hf].
  intros _ _. cbn [working committed].
  set (d1 := d <| DB.audit ::= _ |> <| DB.evaluation_jobs ::= put j1 |>).
  apply wp_bind, wp_commit. cbn [working]. apply wp_try.
  assert (DB.evaluation_jobs d1 !! EJ.id j1 = Some j1) as Hj1 by apply lookup_insert_eq.
  assert (evaluable registry d1) as Hd1.
  { split; [by eapply (evaluations_put false j1 d)| |done|done]. by destruct Hfi. }
  apply (wp_evaluate_account registry dr t j1 actor d1 d1); try done.
  - by eapply (not_stale_put j j1 d d1).
  - intros j' d' [Hst Hfin Hout]. apply HQ. by split.
  - intros e s' Hs'. apply wp_bind, wp_rollback. rewrite Hs'. unfold _recover_failed.
    apply wp_try, wp_finish_now with (js := j1); [apply Hd1|exact Hj1|done..|].
    intros d' Hjd Hfd. apply HQ. split; [|done|].
    + rewrite Hjd. apply lookup_insert_eq.
    + right. split_and!; [done|reflexivity|exact Hc0|exact Hfd].
Qed.

(** The number of a new evaluation is above the earlier ones. *)
Lemma next_sequence_above a d i j :
  DB.evaluation_jobs d !! i = Some j → EJ.aws_account_id j = a →
  (EJ.sequence j < next_sequence a d)%Z.
Proof.
  intros Hj Ha. unfold next_sequence.
  assert (j ∈ filter_rows (λ j, EJ.aws_account_id j ≟ a) (DB.evaluation_jobs d)) as Hin.
  { apply elem_of_filter_rows. split; [by apply bool_decide_eq_true|by exists i]. }
  revert Hin. generalize (filter_rows (λ j, EJ.aws_account_id j ≟ a) (DB.evaluation_jobs d)).
  induction l as [|y l IH]; [by intros ?%elem_of_nil|]. cbn.
  intros [->|Hin]%elem_of_cons; [lia|]. specialize (IH Hin). lia.
Qed.

Lemma next_sequence_pos a d : (0 < next_sequence a d)%Z.
Proof. unfold next_sequence. induction (map _ _) as [|x l IH]; cbn; lia. Qed.

(** A finding was last seen by an evaluation of its account. *)
Definition sources_ok (d : DB) : Prop :=
  ∀ i f last, DB.findings d !! i = Some f →
    DB.evaluation_jobs d !! Fnd.last_evaluation_id f = Some last →
    EJ.aws_account_id last = Fnd.aws_account_id f.

(** The job that [start] makes. *)
Definition pending_job (new_id : uuid) (now : timestamp) (account : AWSAccount) (actor : User)
    (discovery_job_id : option uuid) (d : DB) : EvaluationJob :=
  EJ.mk new_id (AWSAccount.organization_id account) (AWSAccount.id account)
    discovery_job_id true (next_sequence (AWSAccount.id account) d)
    EvaluationJobStatus.PENDING (User.id actor) None None
    0 0 0 0 0 0 0 0 0 0 0 None now.

Lemma wp_start registry dr t new_id now account_id actor disc d Q :
  evaluable registry d → sources_ok d →
  (∀ a j' d', DB.aws_accounts d !! account_id = Some a →
     AWSAccount.connection_status a = AWSAccountStatus.CONNECTED →
     (∃ m, active_membership (AWSAccount.organization_id a) (User.id actor) d = Some m
           ∧ role_has_capability (OrganizationMembership.role m) Capability.EVALUATIONS_START
             = true) →
     evaluated registry dr t (pending_job new_id now a actor disc d) d j' d' →
     Q (Ret j') (Sess d' d')) →
  (∀ e s', committed s' = d → Q (Raise e) s') →
  wp (start registry dr t new_id now account_id actor disc) Q (Sess d d).
Proof.
  intros Hd Hsrc HQ HE. pose proof Hd as [Hjobs Hfi Hka Hrules]. unfold start.
  apply wp_bind, wp_gets. apply wp_bind, wp_some_or; [|intros _; by apply HE].
  intros a Ha. cbn [working] in Ha. cbn iota. apply wp_bind, wp_require_capability;
    [|by intros; apply HE..].
  intros m Hm Hcap. cbn iota. apply wp_bind, wp_ensure; [intros Hcon|intros _; by apply HE]. bools.
  apply wp_bind, wp_gets. apply wp_bind, wp_ensure; [intros _|intros _; by apply HE].
  apply wp_bind, wp_gets. cbn iota zeta. cbn [working].
  fold (pending_job new_id now a actor disc d). set (j := pending_job new_id now a actor disc d).
  apply wp_bind, wp_try, wp_bind, wp_save_evaluation.
  - intros Hc Hu. cbn [working committed] in *. apply wp_commit. cbn [working].
    set (d1 := d <| DB.evaluation_jobs ::= put j |>).
    assert (evaluable registry d1) as Hd1.
    { split; [by eapply (evaluations_put true j d)| |done|done]. by destruct Hfi. }
    apply (wp_run_evaluation registry dr t actor j d1); try done.
    + apply lookup_insert_eq.
    + intros i f last Hf Hfa. cbn. unfold put. change (row_id j) with new_id.
      rewrite lookup_insert. case_decide; [by intros [= <-]|]. intros Hl.
      pose proof (Hsrc _ _ _ Hf Hl) as E. rewrite Hfa in E.
      pose proof (next_sequence_above _ d _ _ Hl E). cbn in *. lia.
    + intros j' d' [Hst Hfin Hout]. eapply HQ; [done|done|by exists m|]. by split.
  - intros _. apply wp_bind, wp_rollback, wp_raise. by apply HE.
Qed.

Lemma flushed_length l : length (flushed l) ≤ length l.
Proof.
  induction l as [|y l IH]; cbn; [lia|].
  destruct (flushed l); [destruct (is_error y)|]; cbn in *; lia.
Qed.

(** The stored counters are those of all results only if none was dropped. *)
Lemma flushed_counts l :
  counts_of (flushed l) = counts_of l
  ↔ match last l with Some x => is_error x = false | None => True end.
Proof.
  destruct l as [|x l] using rev_ind; [done|]. rewrite last_snoc, flushed_app.
  destruct (is_error x); [|done]. split; [|done]. intros E. exfalso.
  injection E as E _ _ _ _ _. pose proof (flushed_length l). rewrite length_app in E. cbn in E. lia.
Qed.

Lemma flushed_errors l : forallb is_error l = true → flushed l = [].
Proof.
  induction l as [|x l IH]; cbn; [done|]. intros [Hx Hl]%andb_true_iff.
  by rewrite (IH Hl), Hx.
Qed.

Lemma counts_add l :
  Z.of_nat (length l) = (count_of RuleResultStatus.PASSED l + count_of RuleResultStatus.FAILED l
    + count_of RuleResultStatus.ERROR l + count_of RuleResultStatus.NOT_APPLICABLE l)%Z.
Proof.
  induction l as [|x l IH] using rev_ind; [done|].
  rewrite length_app, Nat2Z.inj_add, IH, !count_of_app. cbn.
  destruct (row_status x); repeat case_bool_decide; try congruence; lia.
Qed.

(** * Theorems *)

(** C10. What an evaluation does to the findings.  An actor who may start
    evaluations starts one on a connected account of a well-formed database.
    Either every enabled rule ran on every asset it applies to, and each result
    was applied to the one finding of its account, rule and asset: a failure
    opens a new finding or opens the stored one again unless it is under an
    active suppression, a pass resolves it with the same exception, an error
    and "not applicable" leave it, and no other finding changed; or the
    evaluation failed as a whole, which is recorded, and no finding changed at
    all.  A start that is refused changes nothing. *)
Theorem evaluation_updates_findings registry dr t new_id now account_id actor disc d :
  evaluable registry d → sources_ok d →
  match run (start registry dr t new_id now account_id actor disc) d with
  | (Ret j', d') =>
      ∃ a m, DB.aws_accounts d !! account_id = Some a
      ∧ AWSAccount.connection_status a = AWSAccountStatus.CONNECTED
      ∧ active_membership (AWSAccount.organization_id a) (User.id actor) d = Some m
      ∧ role_has_capability (OrganizationMembership.role m) Capability.EVALUATIONS_START = true
      ∧ evaluated registry dr t (pending_job new_id now a actor disc d) d j' d'
  | (Raise _, d') => d' = d
  end.
Proof.
  intros Hd Hs. destruct (run _ d) as [o d'] eqn:Hrun. wp_run_in Hrun.
  apply wp_start; [done..| |]; cbn [committed].
  - intros a j' d' Ha Hc (m & Hm & Hcap) He. by exists a, m.
  - done.
Qed.

(** C12. An evaluation that began always ends.  Whatever the rules do, raise or
    give results that the database refuses, a pending evaluation runs to the
    end: the call returns, with the job stored as completed, partially
    completed or failed and its time of end set, so that it does not block the
    next evaluation of the account. *)
Theorem evaluation_ends registry dr t actor j d :
  evaluable registry d → DB.evaluation_jobs d !! EJ.id j = Some j →
  counters j = counts_of [] → not_stale j d → EJ.status j = EvaluationJobStatus.PENDING →
  ∃ j' d', run (run_evaluation registry dr t (EJ.id j) actor) d = (Ret j', d')
  ∧ DB.evaluation_jobs d' !! EJ.id j = Some j'
  ∧ final (EJ.status j') = true
  ∧ EJ.finished_at j' = Some (t_finished t)
  ∧ active_evaluation j' = false.
Proof.
  intros Hd Hj Hc Hs Hp. destruct (run _ d) as [o d'] eqn:Hrun.
  enough (match o with
          | Ret j' => evaluated registry dr t j d j' d'
          | Raise _ => False
          end) as H.
  - destruct o as [j'|]; [|done]. destruct H as [Hst Hfin Hout]. exists j', d'.
    assert (final (EJ.status j') = true) as Hf.
    { destruct Hout as [[-> _]|[-> _]]; [apply verdict_final|done]. }
    split_and!; try done. unfold active_evaluation. by destruct (EJ.status j').
  - wp_run_in Hrun. by apply wp_run_evaluation.
Qed.

(** The counters of an evaluation miss its last errors.  The errors that no
    other result follows are counted on the job in the session only, and the
    query of [_finish] forgets them: the stored counters are those of the
    results up to the last one that is not an error.  They add up, but they
    cover all results only if the last result is not an error, although the
    stored status takes every result into account: when every rule fails to
    run, the job is stored as failed with nothing evaluated and no error. *)
Theorem evaluation_counters registry dr t new_id now account_id actor disc d :
  evaluable registry d → sources_ok d →
  match run (start registry dr t new_id now account_id actor disc) d with
  | (Ret j', d') =>
      ∃ a, DB.aws_accounts d !! account_id = Some a
      ∧ let rows := all_results registry t (pending_job new_id now a actor disc d) d in
        (EJ.rules_evaluated j' = EJ.passed_count j' + EJ.failed_count j'
           + EJ.error_count j' + EJ.not_applicable_count j')%Z
        ∧ (EJ.error_summary j' = Some "evaluation_execution_failed"
           ∨ EJ.status j' = verdict_of rows
             ∧ counters j' = counts_of (flushed rows)
             ∧ (counters j' = counts_of rows ↔
                  match last rows with Some x => is_error x = false | None => True end)
             ∧ (forallb is_error rows = true → counters j' = [0; 0; 0; 0; 0; 0]%Z))
  | (Raise _, d') => d' = d
  end.
Proof.
  intros Hd Hs. destruct (run _ d) as [o d'] eqn:Hrun. wp_run_in Hrun.
  apply wp_start; [done..| |]; cbn [committed]; [|done].
  intros a j' d' Ha Hc _ [_ _ Hout]. exists a. split; [done|]. cbn zeta in *.
  set (rows := all_results _ _ _ _) in *.
  assert (∃ l, counters j' = counts_of l) as [l Hl] by (destruct Hout as [?|?]; naive_solver).
  split.
  { injection Hl as -> -> -> -> -> _. apply counts_add. }
  destruct Hout as [(Hst & Hcnt & _)|(_ & Herr & _)]; [right|by left].
  split_and!; [done|done| |].
  - rewrite Hcnt. apply flushed_counts.
  - intros He. by rewrite Hcnt, flushed_errors.
Qed.

(** ** The life of a finding *)

(** A later form of a finding: what it is about stays, and every change is
    counted. *)
Record finding_later (f f' : Finding) : Prop := {
  fl_id : Fnd.id f' = Fnd.id f;
  fl_org : Fnd.organization_id f' = Fnd.organization_id f;
  fl_account : Fnd.aws_account_id f' = Fnd.aws_account_id f;
  fl_asset : Fnd.asset_id f' = Fnd.asset_id f;
  fl_rule : Fnd.rule_key f' = Fnd.rule_key f;
  fl_severity : Fnd.severity f' = Fnd.severity f;
  fl_first : Fnd.first_seen_at f' = Fnd.first_seen_at f;
  fl_version : f' = f ∨ (Fnd.lifecycle_version f < Fnd.lifecycle_version f')%Z
}.

#[export] Instance finding_later_preorder : PreOrder finding_later.
Proof.
  split; [split; auto|]. intros f1 f2 f3 [] []. split; try congruence.
  destruct fl_version0 as [->|], fl_version1 as [->|]; auto. right. lia.
Qed.

Definition findings_ok : DB → Prop :=
  table_ok DB.findings (λ f, finding_checks f = true) finding_conflict.
Definition findings_follow : DB → DB → Prop :=
  extends DB.findings (λ f, finding_checks f = true) finding_later finding_conflict.

Lemma follow_same d0 d d' :
  findings_follow d0 d → DB.findings d' = DB.findings d → findings_follow d0 d'.
Proof. apply extends_same. Qed.

#[export] Instance follow_audit d0 : StableAudit (findings_follow d0).
Proof. intros d f Hd. by eapply follow_same. Qed.

Section keeps.
Context (d0 : DB).
Abbreviation J := (findings_follow d0).

Lemma keeps_other f : (∀ d, DB.findings (f d) = DB.findings d) → keeps J (modify f).
Proof. intros E. apply keeps_modify. intros d Hd. by eapply follow_same. Qed.

Lemma keeps_save_evaluation fresh j : keeps J (save_evaluation fresh j).
Proof. unfold save_evaluation. keeps_go. by apply keeps_other. Qed.
Lemma keeps_save_rule_result fresh r : keeps J (save_rule_result fresh r).
Proof. unfold save_rule_result. keeps_go. by apply keeps_other. Qed.
Lemma keeps_save_summaries l : keeps J (save_summaries l).
Proof.
  induction l as [|[fresh r] l IH]; [apply keeps_ret|].
  apply keeps_bind; [apply keeps_save_rule_result|intros _; exact IH].
Qed.
Hint Resolve keeps_save_evaluation keeps_save_summaries : keeps.
Lemma keeps_flush w : keeps J (flush w).
Proof. unfold flush. keeps_go. Qed.
Lemma keeps_finding_event e j f : keeps J (finding_event e j f).
Proof. unfold finding_event. keeps_go. Qed.
Lemma keeps_report i now f : keeps J (Notifications.create_for_critical_finding i now f).
Proof.
  intros s [Hc Hw]. apply wp_create_frame. intros o g h. split; [done|]. by eapply follow_same.
Qed.
Hint Resolve keeps_flush keeps_finding_event keeps_report : keeps.

(** The flush of a new finding, and of a later form of a stored one. *)
Lemma keeps_new f : keeps J (save_finding true f).
Proof.
  intros s [Hc Hw]. apply wp_save_finding; [|by split]. intros Hchk Hu. split; cbn; [done|].
  eapply (extends_insert _ _ _ _ finding_conflict_sym d0 (working s)); [exact Hw|exact Hchk|exact Hu|done].
Qed.

Lemma wp_save_later_finding f f' Q s :
  both J s → DB.findings (working s) !! Fnd.id f = Some f → finding_later f f' →
  (∀ o s', both J s' → Q o s') → wp (save_finding false f') Q s.
Proof.
  intros [Hc Hw] Hf Hl HQ. apply wp_save_finding; [|by apply HQ].
  intros Hchk Hu. apply HQ. split; cbn; [done|].
  eapply (extends_put _ _ _ _ finding_conflict_sym); [exact Hw|exact Hchk|exact Hu| |done].
  intros f0. change (row_id f') with (Fnd.id f'). rewrite (fl_id _ _ Hl), Hf. by intros [= <-].
Qed.

Lemma wp_updated {A} f f' (m : txn DB A) s :
  both J s → DB.findings (working s) !! Fnd.id f = Some f → finding_later f f' →
  keeps J m → wp (_ ← save_finding false f'; m) (λ _ s', both J s') s.
Proof.
  intros Hs Hf Hl Hm. apply wp_bind. eapply wp_save_later_finding; [done..|].
  intros [[]|] s' Hs'; [by apply Hm|done].
Qed.

Lemma failed_again_later now j r res f : finding_later f (failed_again now j r res f).
Proof.
  unfold failed_again. split; try by destruct (active_suppression now f).
  right. destruct (active_suppression now f); cbn; lia.
Qed.
Lemma resolved_later now j f : finding_later f (resolved now j f).
Proof. split; try done. right. cbn. lia. Qed.

Lemma for_rule_stored a k i d f :
  keyed (DB.findings d) → for_rule a k i d = Some f → DB.findings d !! Fnd.id f = Some f.
Proof.
  intros Hk (n & Hn & _)%find_row_Some. pose proof (Hk _ _ Hn) as E.
  change (row_id f) with (Fnd.id f) in E. by rewrite E.
Qed.

Lemma keeps_apply_result dr w r a res : keeps J (_apply_result dr w r a res).
Proof.
  intros s Hs. unfold _apply_result. cbn zeta. apply wp_bind, wp_gets.
  assert (∀ s, both J s → keyed (DB.findings (working s))) as Hk by (by intros ? [_ [[] _]]).
  assert (∀ f s w', both J s → for_rule (EJ.aws_account_id (w_job (tally (status res) w)))
     (key r) (Asset.id <$> a) (working s) = Some f →
     wp (_ ← save_finding false (failed_again (clock dr (key r) (Asset.id <$> a))
               (w_job (tally (status res) w)) r res f);
         _ ← finding_event (if reopens (clock dr (key r) (Asset.id <$> a)) f
                            then "security.finding.reopened" else "security.finding.updated")
               (w_job (tally (status res) w))
               (failed_again (clock dr (key r) (Asset.id <$> a))
                  (w_job (tally (status res) w)) r res f);
         flush w') (λ _ s', both J s') s) as Hupd.
  { intros f s' w' Hs' Hf. eapply wp_updated; [done| |apply failed_again_later|keeps_go].
    eapply for_rule_stored; eauto. }
  destruct (for_rule _ _ _ (working s)) as [f|] eqn:Hf; cbn iota beta; apply wp_bind, wp_gets.
  - apply wp_if; intros _; [by apply wp_ret|]. apply wp_if; intros _; [by apply wp_ret|].
    assert (DB.findings (working s) !! Fnd.id f = Some f) by (eapply for_rule_stored; eauto).
    destruct (status res); try (by apply keeps_flush); [|by apply Hupd].
    apply wp_if; intros _; [by apply keeps_flush|].
    eapply wp_updated; [done|done|apply resolved_later|keeps_go].
  - apply wp_if; intros _; [by apply wp_ret|].
    destruct (status res); try (by apply keeps_flush).
    refine (keeps_bind J _ _ _ _ s Hs).
    + apply keeps_try; [|intros []; keeps_go].
      apply keeps_bind; [apply keeps_begin_nested, keeps_new|intros; apply keeps_ret].
    + intros [] s' Hs'; 
        [match goal with |- wp ?m _ _ => assert (keeps J m) as Hm; [keeps_go|by apply Hm] end|].
      apply wp_bind, wp_gets. destruct (for_rule _ _ _ (working s')) as [f|] eqn:Hf'.
      * apply wp_bind, wp_some_or; [|done]. intros f1 [= ->]. by apply Hupd.
      * by apply wp_bind, wp_some_or.
Qed.

Lemma keeps_run_targets dr c r l w errs : keeps J (run_targets dr c r l w errs).
Proof.
  revert w errs. induction l as [|a l IH]; intros w errs; cbn; [apply keeps_ret|].
  apply keeps_bind; [apply keeps_apply_result|]. intros w'. apply IH.
Qed.
Lemma keeps_run_rules dr c rules w errs : keeps J (run_rules dr c rules w errs).
Proof.
  revert w errs. induction rules as [|r rules IH]; intros w errs; cbn; [apply keeps_ret|].
  apply keeps_bind; [apply keeps_run_targets|]. intros [w' e']. apply IH.
Qed.
Hint Resolve keeps_run_rules : keeps.

Lemma keeps_finish p now i a st errs : keeps J (_finish p now i a st errs).
Proof. unfold _finish. keeps_go. Qed.
Hint Resolve keeps_finish : keeps.

Lemma keeps_start registry dr t i now acc u disc : keeps J (start registry dr t i now acc u disc).
Proof.
  unfold start, run_evaluation, evaluate_account, _recover_failed. keeps_go.
Qed.

Lemma keeps_loaded_finding {A} o i (k : Finding → txn DB A) :
  (∀ f s, both J s → DB.findings (working s) !! Fnd.id f = Some f →
     wp (k f) (λ _ s', both J s') s) →
  keeps J (f ← gets (finding_get o i); f ← some_or f (NotFoundError "finding_not_found"); k f).
Proof.
  intros Hk s Hs. apply wp_bind, wp_gets. apply wp_bind, wp_some_or; [|done].
  intros f Hf. apply Hk; [done|]. destruct Hs as [_ [[Hkd _ _] _]].
  apply find_row_Some in Hf as (n & Hn & _). pose proof (Hkd _ _ Hn) as E.
  change (row_id f) with (Fnd.id f) in E. by rewrite E.
Qed.

(** An audit event between the loading of a finding and its flush. *)
Lemma wp_audited_update {A} e t o u i f f' (m : txn DB A) s :
  both J s → DB.findings (working s) !! Fnd.id f = Some f → finding_later f f' → keeps J m →
  wp (_ ← audit_ok e t o u i; _ ← save_finding false f'; m) (λ _ s', both J s') s.
Proof.
  intros Hs Hf Hl Hm. apply wp_bind. unfold audit_ok, record_audit. wp_step.
  eapply (wp_updated f); [by apply (both_audit J)|exact Hf|exact Hl|exact Hm].
Qed.

Lemma keeps_suppress now o i u reason till : keeps J (suppress now o i u reason till).
Proof.
  unfold suppress. apply keeps_bind; [apply keeps_require_capability|]. intros _.
  apply keeps_loaded_finding. intros f s Hs Hf. apply wp_bind, wp_ensure; intros; [|done].
  eapply wp_audited_update; [exact Hs|exact Hf| |keeps_go].
  split; try done. right. cbn. lia.
Qed.
Lemma keeps_unsuppress o i u : keeps J (unsuppress o i u).
Proof.
  unfold unsuppress. apply keeps_bind; [apply keeps_require_capability|]. intros _.
  apply keeps_loaded_finding. intros f s Hs Hf. apply wp_if; intros; [|by apply wp_ret].
  eapply wp_audited_update; [exact Hs|exact Hf| |keeps_go].
  split; try done. right. cbn. lia.
Qed.
End keeps.

(** One step of any client or worker. *)
Inductive finding_step : DB → DB → Prop :=
| step_evaluate registry dr t i now account_id actor disc d :
    finding_step d (run (start registry dr t i now account_id actor disc) d).2
| step_suppress now o i actor reason till d :
    finding_step d (run (suppress now o i actor reason till) d).2
| step_unsuppress o i actor d : finding_step d (run (unsuppress o i actor) d).2
| step_elsewhere d d' : DB.findings d' = DB.findings d → finding_step d d'.

(** C11. The life of a finding.  Whatever is evaluated, suppressed and
    unsuppressed, in any order, with any rules: the stored findings keep their
    CHECK constraints, so that a resolved finding has its time, a suppressed
    one its author and reason, and an open one neither; there is one finding
    per asset and rule; and no finding is lost: it keeps its organization,
    account, asset, rule, severity and the time it was first seen, and every
    change raises its version. *)
Theorem finding_lifecycle d d' :
  findings_ok d → rtc finding_step d d' →
  findings_ok d' ∧ advances DB.findings finding_later d d'.
Proof.
  intros Hd Hs. eapply (extends_steps DB.findings (λ f, finding_checks f = true) finding_later
    finding_conflict finding_step); [|exact Hd|exact Hs]. clear d d' Hd Hs.
  intros d d' Hd Hs.
  assert (∀ {A} (m : txn DB A), keeps (findings_follow d) m → findings_follow d (run m d).2) as Hrun.
  { intros A m Hm. apply keeps_run; [done|]. by apply history_refl; [apply _|]. }
  destruct Hs.
  - apply Hrun, keeps_start.
  - apply Hrun, keeps_suppress.
  - apply Hrun, keeps_unsuppress.
  - eapply follow_same; [|done]. by apply history_refl; [apply _|].
Qed.

(** * Witnesses *)

Definition cloud_account : AWSAccount :=
  AWSAccount.mk 20 1 "lab" "123456789012" None "ext" None None false None None
    AWSAccountStatus.CONNECTED AWSAccountStatus.CONNECTED None None None None 0 10.
Definition bucket_with (i : uuid) (metadata : pydict) : Asset :=
  Asset.mk i 1 20 AssetType.S3_BUCKET "cloudops-lab-data" None "data" "us-east-1" None
    (PDict []) (PDict metadata) 0 0 true.

Definition open_bucket : Asset :=
  bucket_with 30 [("policy_document", PNone);
                  ("public_access_signals", PDict [("acl", PBool true)])].
Definition dark_bucket : Asset := bucket_with 31 [].

(** Alice's organization with two buckets, an open one and one whose
    configuration could not be read. *)
Definition storage_lab : DB :=
  acme <| DB.aws_accounts := {[20%N := cloud_account]} |>
       <| DB.assets := {[30%N := open_bucket; 31%N := dark_bucket]} |>.
Definition s3_registry : RuleRegistry :=
  match new_RuleRegistry S3_RULES with inl g => g | inr _ => mk_RuleRegistry [] end.
Definition lab_draws : draws :=
  mk_draws (λ k, N.of_nat (500 + length (filter (λ r, String.leb (key r) k = true) S3_RULES)))
    (λ k _, N.of_nat (600 + length (filter (λ r, String.leb (key r) k = true) S3_RULES)))
    (λ _ _, 700%N) (λ _ _, 5%Z).
Definition lab_times : times := mk_times 3 4 9.
Definition evaluation_of_lab : outcome EvaluationJob * DB :=
  run (start s3_registry lab_draws lab_times 80 2 20 alice None) storage_lab.


Lemma single_keyed {R} `{Row R} i (r : R) : row_id r = i → keyed ({[i := r]} : gmap uuid R).
Proof. intros E k r' Hr. by apply lookup_singleton_Some in Hr as [<- <-]. Qed.

Lemma lab_no_findings : DB.findings storage_lab = ∅.
Proof. reflexivity. Qed.

Lemma storage_lab_evaluable : evaluable s3_registry storage_lab ∧ sources_ok storage_lab.
Proof.
  split; [split|].
  - split; cbn; auto with rows.
  - split; cbn; auto with rows.
  - change (keyed (put open_bucket {[31%N := dark_bucket]})). by apply keyed_put, single_keyed.
  - refine (bool_decide_unpack _ _). vm_compute. exact I.
  - intros i f last Hf. rewrite lab_no_findings, lookup_empty in Hf. done.
Qed.

(** Twelve results, the last three of them errors: nine are counted, and the
    failed rules have their findings. *)
Definition lab_result (x : outcome EvaluationJob * DB) : bool :=
  match x with
  | (Ret j, d) =>
      (EJ.status j ≟ EvaluationJobStatus.PARTIALLY_COMPLETED)
      && (EJ.rules_evaluated j =? 9)%Z && (EJ.failed_count j =? 2)%Z
      && Nat.eqb (size (DB.findings d)) 2 && Nat.eqb (size (DB.notifications d)) 1
  | _ => false
  end.

Example evaluation_of_lab_shape : lab_result evaluation_of_lab = true.
Proof. vm_compute. reflexivity. Qed.

Lemma evaluation_updates_findings_witness :
  ∃ j' d', evaluation_of_lab = (Ret j', d')
  ∧ evaluated s3_registry lab_draws lab_times
      (pending_job 80 2 cloud_account alice None storage_lab) storage_lab j' d'
  ∧ lab_result (Ret j', d') = true.
Proof.
  pose proof (evaluation_updates_findings s3_registry lab_draws lab_times 80 2 20 alice None
    storage_lab (proj1 storage_lab_evaluable) (proj2 storage_lab_evaluable)) as H.
  pose proof evaluation_of_lab_shape as Hc. unfold evaluation_of_lab in *.
  destruct (run _ storage_lab) as [[j'|e] d']; [|discriminate Hc].
  destruct H as (a & m & Ha & _ & _ & _ & He). injection Ha as <-.
  exists j', d'. split; [reflexivity|]. split; [exact He|exact Hc].
Defined.

Lemma evaluation_counters_witness :
  ∃ j' d', evaluation_of_lab = (Ret j', d') ∧ EJ.rules_evaluated j' = 9%Z
  ∧ EJ.status j' = verdict_of (all_results s3_registry lab_times
                     (pending_job 80 2 cloud_account alice None storage_lab) storage_lab)
  ∧ length (all_results s3_registry lab_times
              (pending_job 80 2 cloud_account alice None storage_lab) storage_lab) = 12.
Proof.
  pose proof (evaluation_counters s3_registry lab_draws lab_times 80 2 20 alice None
    storage_lab (proj1 storage_lab_evaluable) (proj2 storage_lab_evaluable)) as H.
  pose proof evaluation_of_lab_shape as Hc. unfold evaluation_of_lab in *.
  assert (match (run (start s3_registry lab_draws lab_times 80 2 20 alice None) storage_lab).1 with
          | Ret j => negb (EJ.error_summary j ≟ Some "evaluation_execution_failed")
          | Raise _ => false
          end = true) as Hs by (vm_compute; reflexivity).
  destruct (run _ storage_lab) as [[j'|e] d']; cbn [fst] in Hs; [|discriminate Hc].
  destruct H as (a & Ha & _ & Hout). injection Ha as <-.
  exists j', d'. split; [reflexivity|]. unfold lab_result in Hc. bools.
  split; [by apply Z.eqb_eq|]. split; [|vm_compute; reflexivity].
  destruct Hout as [Herr|[Hst _]]; [contradiction|exact Hst].
Defined.

(** The database after the evaluation was asked for, and before it ran. *)
Definition asked : EvaluationJob := pending_job 80 2 cloud_account alice None storage_lab.
Definition asked_lab : DB := storage_lab <| DB.evaluation_jobs := {[80%N := asked]} |>.

Lemma evaluation_ends_witness :
  ∃ j' d', run (run_evaluation s3_registry lab_draws lab_times 80 alice) asked_lab = (Ret j', d')
  ∧ active_evaluation j' = false.
Proof.
  destruct (evaluation_ends s3_registry lab_draws lab_times alice asked asked_lab)
    as (j' & d' & Hrun & _ & _ & _ & Hact).
  - destruct storage_lab_evaluable as [[_ [Hk Hu] Ha Hr] _].
    split; [|split; [exact Hk|exact Hu]|exact Ha|exact Hr].
    split; cbn.
    + by apply single_keyed.
    + intros k k' r r' H1 H2. apply lookup_singleton_Some in H1 as [<- <-].
      apply lookup_singleton_Some in H2 as [<- <-]. done.
    + apply map_Forall_singleton. reflexivity.
  - reflexivity.
  - reflexivity.
  - intros i f last Hf. change (DB.findings asked_lab) with (DB.findings storage_lab) in Hf.
    rewrite lab_no_findings, lookup_empty in Hf. done.
  - reflexivity.
  - exists j', d'. split; [exact Hrun|exact Hact].
Defined.

Definition evaluated_lab : DB := evaluation_of_lab.2.
Definition quiet (d : DB) : DB := (run (suppress 10 1 605 alice "accepted" (Some 20%Z)) d).2.

Lemma finding_lifecycle_witness :
  rtc finding_step storage_lab (quiet evaluated_lab)
  ∧ findings_ok (quiet evaluated_lab)
  ∧ existsb (λ f, Fnd.status f ≟ FindingStatus.SUPPRESSED)
      (filter_rows (λ _, true) (DB.findings (quiet evaluated_lab))) = true.
Proof.
  assert (rtc finding_step storage_lab (quiet evaluated_lab)) as Hs.
  { eapply rtc_l; [exact (step_evaluate s3_registry lab_draws lab_times 80 2 20 alice None _)|].
    eapply rtc_l; [exact (step_suppress 10 1 605 alice "accepted" (Some 20%Z) _)|].
    apply rtc_refl. }
  split; [exact Hs|]. split; [|vm_compute; reflexivity].
  refine (proj1 (finding_lifecycle _ _ _ Hs)). split; cbn; auto with rows.
Defined.
