(* ===== verification/Compliance.v ===== *)
(** services/compliance.py and api/v1/compliance.py: the catalogue of
    frameworks, and assessments, which freeze the status of every control of a
    framework for one account.

    The draws of [uuid4] are arguments, named by what they identify.  The lock
    of the account, which fails when another assessment holds it, is not
    modelled.  The catalogue adds its mappings without a flush, but no query
    looks for them before the next one, so they are saved at once here. *)

From S2P Require Import Prelude.
From S2P Require Import History.
From S2P Require Import Enums.
From S2P Require Import Rbac.
From S2P Require Import PyValue.
From S2P Require Import Models.
From S2P Require Import Tables.
From S2P Require Import Common.
From S2P Require Import Organizations.
From S2P Require Import PlatformJobs.
From S2P Require Import Evaluations.
From Stdlib Require Import Ascii.
From stdpp Require Import list.

Module FW := ComplianceFramework.
Module Ctl := ComplianceControl.
Module Mapping := RuleControlMapping.
Module CA := ComplianceAssessment.
Module Snap := ComplianceAssessmentControl.
Module CS := ComplianceControlStatus.

(** * Tables *)

(** models/compliance.py:28-28, part of ComplianceFramework.  The key. *)
Definition framework_conflict (f f' : ComplianceFramework) : bool :=
  (FW.key f ≟ FW.key f') && (FW.version f ≟ FW.version f').
(** models/compliance.py:45-45, part of ComplianceControl.  The key. *)
Definition control_conflict (c c' : ComplianceControl) : bool :=
  (Ctl.framework_id c ≟ Ctl.framework_id c') && (Ctl.control_key c ≟ Ctl.control_key c').

(** models/compliance.py:79-83, part of RuleControlMapping.  The CHECK
    constraints. *)
Definition mapping_checks (m : RuleControlMapping) : bool :=
  (0 <? Mapping.minimum_rule_version m)%Z
  && from_option (λ n, Mapping.minimum_rule_version m <=? n)%Z true (Mapping.maximum_rule_version m).
(** models/compliance.py:72-93, part of RuleControlMapping.  The unique
    constraint on closed ranges, in which NULLs differ, and the index on open
    ranges. *)
Definition mapping_conflict (m m' : RuleControlMapping) : bool :=
  (Mapping.rule_key m ≟ Mapping.rule_key m')
  && (Mapping.minimum_rule_version m ≟ Mapping.minimum_rule_version m')
  && (Mapping.maximum_rule_version m ≟ Mapping.maximum_rule_version m')
  && (Mapping.control_id m ≟ Mapping.control_id m').

Definition active_assessment (a : ComplianceAssessment) : bool :=
  bool_decide (CA.status a ∈ [ComplianceAssessmentStatus.PENDING;
                              ComplianceAssessmentStatus.RUNNING]).
(** models/compliance.py:132-148, part of ComplianceAssessment.  The CHECK
    constraints. *)
Definition assessment_checks (a : ComplianceAssessment) : bool :=
  forallb (λ n, (0 <=? n)%Z)
    [CA.controls_total a; CA.controls_passed a; CA.controls_failed a;
     CA.controls_not_assessed a; CA.controls_error a; CA.findings_count a]
  && (CA.controls_total a =? CA.controls_passed a + CA.controls_failed a
       + CA.controls_not_assessed a + CA.controls_error a)%Z
  && match CA.status a with
     | ComplianceAssessmentStatus.PENDING =>
         is_none_ (CA.started_at a) && is_none_ (CA.finished_at a)
     | ComplianceAssessmentStatus.RUNNING =>
         is_some_ (CA.started_at a) && is_none_ (CA.finished_at a)
     | _ => is_some_ (CA.started_at a) && is_some_ (CA.finished_at a)
     end.
(** models/compliance.py:153-160, part of ComplianceAssessment.  One active
    assessment per account and framework. *)
Definition assessment_conflict (a a' : ComplianceAssessment) : bool :=
  active_assessment a && active_assessment a'
  && is_some_ (CA.aws_account_id a) && (CA.aws_account_id a ≟ CA.aws_account_id a')
  && (CA.framework_id a ≟ CA.framework_id a').

(** models/compliance.py:211-211, part of ComplianceAssessmentControl.  The
    key. *)
Definition snapshot_conflict (s s' : ComplianceAssessmentControl) : bool :=
  (Snap.assessment_id s ≟ Snap.assessment_id s') && (Snap.control_id s ≟ Snap.control_id s').

#[export] Instance frameworks_table : Table ComplianceFramework.
Proof.
  refine (mk_table _ _ DB.frameworks (λ f d, d <| DB.frameworks ::= f |>) (λ _, true)
    framework_conflict _ _ _ _ _); unfold framework_conflict; solve_table.
Defined.
#[export] Instance controls_table : Table ComplianceControl.
Proof.
  refine (mk_table _ _ DB.controls (λ f d, d <| DB.controls ::= f |>) (λ _, true)
    control_conflict _ _ _ _ _); unfold control_conflict; solve_table.
Defined.
#[export] Instance mappings_table : Table RuleControlMapping.
Proof.
  refine (mk_table _ _ DB.mappings (λ f d, d <| DB.mappings ::= f |>) mapping_checks
    mapping_conflict _ _ _ _ _); unfold mapping_conflict; solve_table.
Defined.
#[export] Instance assessments_table : Table ComplianceAssessment.
Proof.
  refine (mk_table _ _ DB.assessments (λ f d, d <| DB.assessments ::= f |>) assessment_checks
    assessment_conflict _ _ _ _ _); unfold assessment_conflict; solve_table.
Defined.
(** models/compliance.py:212-212, part of ComplianceAssessmentControl.  The
    CHECK constraint. *)
Definition snapshot_checks (s : ComplianceAssessmentControl) : bool :=
  (0 <=? Snap.findings_count s)%Z.
#[export] Instance snapshots_table : Table ComplianceAssessmentControl.
Proof.
  refine (mk_table _ _ DB.assessment_controls (λ f d, d <| DB.assessment_controls ::= f |>)
    snapshot_checks snapshot_conflict _ _ _ _ _); unfold snapshot_conflict; solve_table.
Defined.

(** * The catalogue *)

(** services/compliance.py:36-69, CATALOG. *)
Definition CATALOG : list (string * string * string * string * string * string) :=
  [("cis_aws", "CIS AWS Foundations", "1.5",
    "CloudOps summary for network exposure safeguards.",
    "https://www.cisecurity.org/benchmark/amazon_web_services", "4.1");
   ("nist_csf", "NIST Cybersecurity Framework", "2.0",
    "CloudOps summary for protective controls.",
    "https://www.nist.gov/cyberframework", "PR.AA-01");
   ("iso_27001", "ISO/IEC 27001", "2022",
    "CloudOps summary for access and network controls.",
    "https://www.iso.org/standard/27001", "A.8.20");
   ("pci_dss", "PCI DSS", "4.0",
    "CloudOps summary for access restriction controls.",
    "https://www.pcisecuritystandards.org/", "1.2.1")].

(** services/compliance.py:70-74, MAPPED_RULES. *)
Definition MAPPED_RULES : list string :=
  ["EC2_SG_SSH_OPEN_TO_WORLD"; "EC2_SG_RDP_OPEN_TO_WORLD"; "EC2_SG_ALL_TRAFFIC_OPEN_TO_WORLD"].

(** The identifiers an assessment may draw: for the rows of the catalogue by
    the key of their framework, and for its snapshots by their control. *)
Record compliance_draws := mk_draws {
  new_framework : string → uuid;
  new_control : string → uuid;
  new_mapping : string → string → uuid;
  new_assessment : uuid;
  new_snapshot : uuid → uuid
}.

Section service.
Context (dr : compliance_draws).

(** services/compliance.py:85-100, part of ComplianceService.ensure_catalog.  The
    framework of an entry. *)
Definition ensure_framework (key name version description reference : string)
    : txn DB ComplianceFramework :=
  get_or_create (λ f, (FW.key f ≟ key) && (FW.version f ≟ version))
    (FW.mk (new_framework dr key) key name version description reference true None).

(** services/compliance.py:101-116, part of ComplianceService.ensure_catalog.
    Its control. *)
Definition ensure_control (key description control_key : string) (framework : ComplianceFramework)
    : txn DB ComplianceControl :=
  get_or_create (λ c, (Ctl.framework_id c ≟ FW.id framework) && (Ctl.control_key c ≟ control_key))
    (Ctl.mk (new_control dr key) (FW.id framework) control_key
       ("CloudOps mapping: " +:+ control_key) description (Some "CloudOps mapping") None).

(** services/compliance.py:117-136, part of ComplianceService.ensure_catalog.
    The mapping of one rule. *)
Definition ensure_mapping (key : string) (framework : ComplianceFramework)
    (control : ComplianceControl) (rule_key : string) : txn DB () :=
  _ ← get_or_create
    (λ m, (Mapping.rule_key m ≟ rule_key) && (Mapping.control_id m ≟ Ctl.id control)
          && (Mapping.minimum_rule_version m ≟ 1%Z)
          && (Mapping.maximum_rule_version m ≟ None))
    (Mapping.mk (new_mapping dr key rule_key) rule_key 1 None (FW.id framework)
       (Ctl.id control) "detective" "CloudOps deterministic network-exposure mapping.");
  mret tt.

(** services/compliance.py:84-136, part of ComplianceService.ensure_catalog.  The
    body of the loop. *)
Definition ensure_entry (e : string * string * string * string * string * string) : txn DB () :=
  let '(key, name, version, description, reference, control_key) := e in
  framework ← ensure_framework key name version description reference;
  control ← ensure_control key description control_key framework;
  for_each MAPPED_RULES (ensure_mapping key framework control).

(** services/compliance.py:83-136, ComplianceService.ensure_catalog. *)
Definition ensure_catalog : txn DB () := for_each CATALOG ensure_entry.

(** services/compliance.py:138-148, ComplianceService.framework.  Versions are
    compared as text, by their bytes. *)
Definition framework (key : string) (version : option string) : txn DB ComplianceFramework :=
  f ← gets (λ d, first_by (λ f f', String.leb (FW.version f') (FW.version f))
        (filter_rows (λ f, String.eqb (FW.key f) key && FW.enabled f
                           && from_option (String.eqb (FW.version f)) true (given version))
           (DB.frameworks d)));
  some_or f (NotFoundError "framework_not_found").

(** services/compliance.py:342-349, ComplianceService.controls. *)
Definition controls (framework_id : uuid) (d : DB) : list ComplianceControl :=
  sort_by (λ c c', String.leb (Ctl.control_key c) (Ctl.control_key c'))
    (filter_rows (λ c, Ctl.framework_id c ≟ framework_id) (DB.controls d)).

(** * The status of a control *)

(** [ORDER BY finished_at DESC, id]: PostgreSQL puts NULL first. *)
Definition latest_finished (j j' : EvaluationJob) : bool :=
  match EJ.finished_at j, EJ.finished_at j' with
  | None, Some _ => true
  | Some _, None => false
  | None, None => (EJ.id j <=? EJ.id j')%N
  | Some t, Some t' => (t' <? t)%Z || (t =? t')%Z && (EJ.id j <=? EJ.id j')%N
  end.

(** services/compliance.py:351-381, ComplianceService._source_evaluation. *)
Definition _source_evaluation (account_id organization_id : uuid)
    (evaluation_job_id : option uuid) (d : DB) : option EvaluationJob * ComplianceControlStatus :=
  let statement j := (EJ.aws_account_id j ≟ account_id)
                     && (EJ.organization_id j ≟ organization_id) in
  let evaluation :=
    match evaluation_job_id with
    | Some i => find_row (λ j, statement j && (EJ.id j ≟ i)) (DB.evaluation_jobs d)
    | None => first_by latest_finished (filter_rows statement (DB.evaluation_jobs d))
    end in
  match evaluation with
  | None => (None, CS.NOT_ASSESSED)
  | Some j =>
      (Some j,
       if (EJ.status j ≟ EvaluationJobStatus.COMPLETED)
          && (EJ.error_count j =? 0)%Z && (EJ.evaluation_errors j =? 0)%Z then CS.PASS
       else if bool_decide (EJ.status j ∈ [EvaluationJobStatus.COMPLETED;
                 EvaluationJobStatus.PARTIALLY_COMPLETED; EvaluationJobStatus.FAILED])
               && ((0 <? EJ.error_count j)%Z || (0 <? EJ.evaluation_errors j)%Z) then CS.ERROR
       else CS.NOT_ASSESSED)
  end.

(** [version >= minimum and (maximum is None or version <= maximum)] *)
Definition in_range (version : Z) (m : RuleControlMapping) : bool :=
  (Mapping.minimum_rule_version m <=? version)%Z
  && from_option (λ n, version <=? n)%Z true (Mapping.maximum_rule_version m).

(** services/compliance.py:383-399, ComplianceService._relevant_findings. *)
Definition _relevant_findings (findings : list Finding) (mappings : list RuleControlMapping)
    : list Finding :=
  List.filter (λ f, existsb (λ m, String.eqb (Mapping.rule_key m) (Fnd.rule_key f)
                                  && in_range (Fnd.rule_version f) m) mappings) findings.

(** services/compliance.py:420-432, part of ComplianceService._control_status.
    The results of a rule that one of its ranges covers. *)
Definition rule_matches (mappings : list RuleControlMapping)
    (rule_results : list EvaluationRuleResult) (rule_key : string)
    : list EvaluationRuleResult :=
  let ranges := List.filter (λ m, String.eqb (Mapping.rule_key m) rule_key) mappings in
  List.filter (λ r, String.eqb (RR.rule_key r) rule_key
                    && existsb (in_range (RR.rule_version r)) ranges) rule_results.

(** services/compliance.py:418-438, part of ComplianceService._control_status.
    The matched results of all rules, or nothing when a rule has none; a row is
    the same object when it has the same key. *)
Fixpoint matched_results (mappings : list RuleControlMapping)
    (rule_results : list EvaluationRuleResult) (rule_keys : list string)
    (matched : list EvaluationRuleResult) : option (list EvaluationRuleResult) :=
  match rule_keys with
  | [] => Some matched
  | rule_key :: rule_keys =>
      match rule_matches mappings rule_results rule_key with
      | [] => None
      | matches =>
          matched_results mappings rule_results rule_keys
            (fold_left (λ m r, if existsb (λ r', RR.id r' ≟ RR.id r) m then m else m ++ [r]) matches matched)
      end
  end.

(** services/compliance.py:401-450, ComplianceService._control_status. *)
Definition _control_status (mappings : list RuleControlMapping) (findings : list Finding)
    (source_state : ComplianceControlStatus) (rule_results : list EvaluationRuleResult)
    : ComplianceControlStatus :=
  if Nat.eqb (length mappings) 0 then CS.NOT_ASSESSED
  else if existsb (λ f, bool_decide (Fnd.status f ∈ [FindingStatus.OPEN;
                                                    FindingStatus.SUPPRESSED])) findings
  then CS.FAIL
  else if negb (source_state ≟ CS.PASS) then source_state
  else
    match matched_results mappings rule_results (sorted_set (map Mapping.rule_key mappings)) []
    with
    | None => CS.NOT_ASSESSED
    | Some matched =>
        if existsb (λ r, 0 <? RR.error_count r)%Z matched then CS.ERROR
        else if existsb (λ r, 0 <? RR.failed_count r)%Z matched then CS.ERROR
        else if existsb (λ r, RR.passed_count r + RR.failed_count r
                              + RR.not_applicable_count r =? 0)%Z matched
        then CS.NOT_ASSESSED
        else if forallb (λ r, RR.passed_count r =? 0)%Z matched then CS.NOT_ASSESSED
        else CS.PASS
    end.

(** * Assessments *)

(** services/compliance.py:246-253, part of ComplianceService.assess. *)
Definition account_findings (account : AWSAccount) (d : DB) : list Finding :=
  filter_rows (λ f, (Fnd.organization_id f ≟ AWSAccount.organization_id account)
                    && (Fnd.aws_account_id f ≟ AWSAccount.id account)) (DB.findings d).

(** services/compliance.py:254-266, part of ComplianceService.assess. *)
Definition source_results (evaluation : option EvaluationJob) (account : AWSAccount) (d : DB)
    : list EvaluationRuleResult :=
  match evaluation with
  | Some j => filter_rows
      (λ r, (RR.evaluation_job_id r ≟ EJ.id j)
            && (RR.organization_id r ≟ AWSAccount.organization_id account)
            && (RR.aws_account_id r ≟ AWSAccount.id account)) (DB.rule_results d)
  | None => []
  end.

(** services/compliance.py:272-279, part of ComplianceService.assess.  What the
    loop finds out about a control: its status and its relevant findings. *)
Definition assessed_control (source_state : ComplianceControlStatus)
    (mappings : list RuleControlMapping) (findings : list Finding)
    (rule_results : list EvaluationRuleResult) (control : ComplianceControl)
    : ComplianceControl * ComplianceControlStatus * nat :=
  let mine := List.filter (λ m, Mapping.control_id m ≟ Ctl.id control) mappings in
  let relevant := _relevant_findings findings mine in
  (control, _control_status mine relevant source_state rule_results, length relevant).

(** services/compliance.py:288-297, part of ComplianceService.assess.  The
    snapshot of a control. *)
Definition snapshot_of (assessment_id framework_id : uuid) (now : timestamp)
    (x : ComplianceControl * ComplianceControlStatus * nat) : ComplianceAssessmentControl :=
  let '(control, status, n) := x in
  Snap.mk (new_snapshot dr (Ctl.id control)) assessment_id (Ctl.id control) framework_id
    status (Z.of_nat n) now.

(** services/compliance.py:280-287, part of ComplianceService.assess.  One of the
    four counters. *)
Definition count_status (s : ComplianceControlStatus)
    (l : list (ComplianceControl * ComplianceControlStatus * nat)) : Z :=
  Z.of_nat (length (List.filter (λ x, x.1.2 ≟ s) l)).

(** services/compliance.py:178-324, part of ComplianceService.assess.  The
    assessment of an account for a framework. *)
Definition assess_framework (now : timestamp) (account : AWSAccount) (actor : User)
    (fw : ComplianceFramework) (evaluation_job_id : option uuid) : txn DB ComplianceAssessment :=
  let organization_id := AWSAccount.organization_id account in
  active ← gets (λ d, find_row
    (λ a, (CA.aws_account_id a ≟ Some (AWSAccount.id account))
          && (CA.framework_id a ≟ FW.id fw) && active_assessment a) (DB.assessments d));
  _ ← ensure (is_none_ active) (ConflictError "compliance_assessment_active");
  source ← gets (_source_evaluation (AWSAccount.id account) organization_id evaluation_job_id);
  let '(evaluation, source_state) := source in
  let assessment :=
    CA.mk (new_assessment dr) organization_id (Some (AWSAccount.id account)) (FW.id fw)
      (EJ.id <$> evaluation) ComplianceAssessmentStatus.RUNNING 0 0 0 0 0 0
      (Some now) None None now in
  _ ← save true assessment;
  _ ← audit_ok "compliance.assessment.started" "compliance_assessment" organization_id
        (User.id actor) (CA.id assessment);
  all_controls ← gets (controls (FW.id fw));
  mappings ← gets (λ d, filter_rows (λ m, Mapping.framework_id m ≟ FW.id fw) (DB.mappings d));
  findings ← gets (account_findings account);
  rule_results ← gets (source_results evaluation account);
  let results := map (assessed_control source_state mappings findings rule_results)
                   all_controls in
  _ ← save_all (map (snapshot_of (CA.id assessment) (FW.id fw) now) results);
  let assessment := assessment
    <| CA.controls_total := Z.of_nat (length all_controls) |>
    <| CA.controls_passed := count_status CS.PASS results |>
    <| CA.controls_failed := count_status CS.FAIL results |>
    <| CA.controls_not_assessed := count_status CS.NOT_ASSESSED results |>
    <| CA.controls_error := count_status CS.ERROR results |>
    <| CA.findings_count := Z.of_nat (length findings) |>
    <| CA.status := ComplianceAssessmentStatus.COMPLETED |>
    <| CA.finished_at := Some now |> in
  _ ← save false assessment;
  _ ← audit_ok "compliance.assessment.completed" "compliance_assessment" organization_id
        (User.id actor) (CA.id assessment);
  _ ← commit;
  mret assessment.
(** services/compliance.py:150-340, ComplianceService.assess. *)
Definition assess (now : timestamp) (account_id : uuid) (actor : User) (framework_key : string)
    (version : option string) (evaluation_job_id : option uuid)
    : txn DB ComplianceAssessment :=
  authorized ← gets (aws_account_for_user account_id (User.id actor));
  authorized ← some_or authorized (NotFoundError "aws_account_not_found");
  let account := fst authorized in
  _ ← require_capability (AWSAccount.organization_id account) (User.id actor) Capability.COMPLIANCE_ASSESS;
  _ ← ensure_catalog;
  fw ← framework framework_key version;
  assess_framework now account actor fw evaluation_job_id.
End service.

(** * Endpoints *)

Section endpoints.
Context (dr : compliance_draws).

(** api/v1/compliance.py:49-50, _read_capability. *)
Definition _read_capability (user : User) (organization_id : uuid) : txn DB () :=
  _ ← require_capability organization_id (User.id user) Capability.COMPLIANCE_READ;
  mret tt.

(** api/v1/compliance.py:53-57, _catalog. *)
Definition _catalog : txn DB () := _ ← ensure_catalog dr; commit.

(** api/v1/compliance.py:60-73, frameworks.  By key, then by version from the
    last, both by their bytes. *)
Definition frameworks (user : User) (organization_id : uuid) : txn DB (list ComplianceFramework) :=
  _ ← _read_capability user organization_id;
  _ ← _catalog;
  gets (λ d, sort_by
    (λ f f', if String.eqb (FW.key f) (FW.key f') then String.leb (FW.version f') (FW.version f)
             else String.leb (FW.key f) (FW.key f'))
    (filter_rows FW.enabled (DB.frameworks d))).

(** api/v1/compliance.py:76-84, framework_detail. *)
Definition framework_detail (framework_key : string) (user : User) (organization_id : uuid)
    : txn DB ComplianceFramework :=
  _ ← _read_capability user organization_id;
  _ ← _catalog;
  framework framework_key None.

(** api/v1/compliance.py:87-102, controls. *)
Definition framework_controls (framework_key : string) (user : User) (organization_id : uuid)
    : txn DB (list ComplianceControl) :=
  _ ← _read_capability user organization_id;
  _ ← _catalog;
  f ← framework framework_key None;
  gets (controls (FW.id f)).

(** api/v1/compliance.py:105-153, assess. *)
Definition assess_endpoint (now : timestamp) (account_id : uuid) (framework_key : string)
    (framework_version : option string) (evaluation_job_id : option uuid) (user : User)
    : txn DB ComplianceAssessment :=
  try_catch (assess dr now account_id user framework_key framework_version evaluation_job_id)
    (λ e,
      if is_app_error e then raise e
      else
        _ ← rollback;
        authorized ← gets (aws_account_for_user account_id (User.id user));
        _ ← match authorized with
            | Some (account, _) =>
                _ ← record_audit "compliance.assessment.failed" "compliance_assessment"
                      AuditResult.SUCCEEDED (Some (AWSAccount.organization_id account))
                      (Some (User.id user)) None;
                commit
            | None => mret tt
            end;
        raise e).

(** The filters of a list of assessments. *)
Record assessment_filters := mk_assessment_filters {
  of_framework : option string;
  of_version : option string;
  of_account : option uuid;
  of_status : option ComplianceAssessmentStatus;
  of_control_status : option ComplianceControlStatus;
  of_search : option string;
  started_before : option timestamp;
  started_after : option timestamp;
  completed_before : option timestamp;
  completed_after : option timestamp
}.

(** [column < value], not true of NULL *)
Definition before_ (column : option timestamp) (value : timestamp) : bool :=
  from_option (λ t, t <? value)%Z false column.
Definition after_ (column : option timestamp) (value : timestamp) : bool :=
  from_option (λ t, value <? t)%Z false column.

(** api/v1/compliance.py:175-214, part of assessments.  The condition on an
    assessment; the framework of its foreign key is joined. *)
Definition assessment_matches (organization_id : uuid) (q : assessment_filters) (d : DB)
    (a : ComplianceAssessment) : bool :=
  let fw (P : ComplianceFramework → bool) : bool :=
    from_option P false (DB.frameworks d !! CA.framework_id a) in
  (CA.organization_id a ≟ organization_id)
  && from_option (λ k, fw (λ f, String.eqb (FW.key f) k)) true (given (of_framework q))
  && from_option (λ v, fw (λ f, String.eqb (FW.version f) v)) true (given (of_version q))
  && from_option (λ i, CA.aws_account_id a ≟ Some i) true (of_account q)
  && from_option (λ s, CA.status a ≟ s) true (of_status q)
  && from_option (λ s, is_some_ (find_row
       (λ x, (Snap.status x ≟ s) && (Snap.assessment_id x ≟ CA.id a)) (DB.assessment_controls d)))
       true (of_control_status q)
  && from_option (λ s, let e := escaped s in
       negb (nonempty e)
       || fw (λ f, like (anywhere e) (FW.name f) || like (anywhere e) (FW.key f)))
       true (given (of_search q))
  && from_option (before_ (CA.started_at a)) true (started_before q)
  && from_option (after_ (CA.started_at a)) true (started_after q)
  && from_option (before_ (CA.finished_at a)) true (completed_before q)
  && from_option (after_ (CA.finished_at a)) true (completed_after q).

(** api/v1/compliance.py:156-228, assessments. *)
Definition assessments (user : User) (organization_id : uuid) (q : assessment_filters)
    (page page_size : nat) : txn DB (list ComplianceAssessment * nat) :=
  _ ← _read_capability user organization_id;
  rows ← gets (λ d, filter_rows (assessment_matches organization_id q d) (DB.assessments d));
  mret (page_of page page_size (sort_by (newest_first CA.created_at CA.id) rows), length rows).

(** api/v1/compliance.py:231-261, assessment_detail. *)
Definition assessment_detail (assessment_id : uuid) (user : User) (organization_id : uuid)
    : txn DB (ComplianceAssessment * list ComplianceAssessmentControl) :=
  _ ← _read_capability user organization_id;
  item ← gets (λ d, find_row
    (λ a, (CA.id a ≟ assessment_id) && (CA.organization_id a ≟ organization_id))
    (DB.assessments d));
  item ← some_or item (NotFoundError "assessment_not_found");
  rows ← gets (λ d, filter_rows (λ s, Snap.assessment_id s ≟ CA.id item)
                      (DB.assessment_controls d));
  mret (item, sort_by (λ s s', Snap.control_id s <=? Snap.control_id s')%N rows).

(** The snapshots of the assessments of an organization. *)
Definition snapshot_in (organization_id : uuid) (P : ComplianceAssessmentControl → bool) (d : DB)
    : option ComplianceAssessmentControl :=
  find_row (λ s, P s && from_option (λ a, CA.organization_id a ≟ organization_id) false
                          (DB.assessments d !! Snap.assessment_id s)) (DB.assessment_controls d).

(** api/v1/compliance.py:264-287, assessment_control_detail. *)
Definition assessment_control_detail (assessment_id snapshot_id : uuid) (user : User)
    (organization_id : uuid) : txn DB ComplianceAssessmentControl :=
  _ ← _read_capability user organization_id;
  s ← gets (snapshot_in organization_id
    (λ s, (Snap.id s ≟ snapshot_id) && (Snap.assessment_id s ≟ assessment_id)));
  some_or s (NotFoundError "assessment_control_not_found").

(** api/v1/compliance.py:290-301, control_detail. *)
Definition control_detail (control_id : uuid) (user : User) (organization_id : uuid)
    : txn DB ComplianceControl :=
  _ ← _read_capability user organization_id;
  c ← gets (λ d, DB.controls d !! control_id);
  some_or c (NotFoundError "control_not_found").

(** api/v1/compliance.py:304-326, control_rules. *)
Definition control_rules (control_id : uuid) (user : User) (organization_id : uuid)
    : txn DB (list RuleControlMapping) :=
  _ ← control_detail control_id user organization_id;
  gets (λ d, sort_by
    (λ m m', if String.eqb (Mapping.rule_key m) (Mapping.rule_key m') then
               (Mapping.minimum_rule_version m <? Mapping.minimum_rule_version m')%Z
               || (Mapping.minimum_rule_version m =? Mapping.minimum_rule_version m')%Z
                  && (Mapping.id m <=? Mapping.id m')%N
             else String.leb (Mapping.rule_key m) (Mapping.rule_key m'))
    (filter_rows (λ m, Mapping.control_id m ≟ control_id) (DB.mappings d))).

(** api/v1/compliance.py:329-363, summary.  The number of assessments, and the sums
    of their counters. *)
Definition summary (user : User) (organization_id : uuid) (framework_key : option string)
    (aws_account_id : option uuid) : txn DB (nat * Z * Z * Z * Z) :=
  _ ← _read_capability user organization_id;
  rows ← gets (λ d, filter_rows
    (λ a, (CA.organization_id a ≟ organization_id)
          && from_option (λ k, from_option (λ f, String.eqb (FW.key f) k) false
               (DB.frameworks d !! CA.framework_id a)) true (given framework_key)
          && from_option (λ i, CA.aws_account_id a ≟ Some i) true aws_account_id)
    (DB.assessments d));
  let sum f := foldr Z.add 0%Z (map f rows) in
  mret (length rows, sum CA.controls_passed, sum CA.controls_failed,
        sum CA.controls_not_assessed, sum CA.controls_error).

(** The filters of the findings of a control. *)
Record control_finding_filters := mk_control_filters {
  cf_account : option uuid;
  cf_severity : option FindingSeverity;
  cf_region : option string;
  cf_service : option string;
  cf_rule_key : option string;
  cf_search : option string
}.

(** api/v1/compliance.py:411-435, part of control_findings.  The condition on a
    finding; the join leaves out findings without an asset. *)
Definition control_finding_matches (organization_id : uuid) (rule_keys : list string)
    (q : control_finding_filters) (d : DB) (f : Finding) : bool :=
  (Fnd.organization_id f ≟ organization_id)
  && existsb (String.eqb (Fnd.rule_key f)) rule_keys
  && from_option (λ i, Fnd.aws_account_id f ≟ i) true (cf_account q)
  && from_option (λ s, Fnd.severity f ≟ s) true (cf_severity q)
  && from_option (λ k, String.eqb (Fnd.rule_key f) k) true (given (cf_rule_key q))
  && from_option (λ s, let n := smap upper_char (strip s) in
       negb (nonempty n) || like_with id (n +:+ "_%") (Fnd.rule_key f)) true (given (cf_service q))
  && from_option (λ r, from_option (λ a, String.eqb (Asset.region a) r) false
       (i ← Fnd.asset_id f; DB.assets d !! i)) true (given (cf_region q))
  && from_option (λ s, let e := escaped s in
       negb (nonempty e) || like (anywhere e) (Fnd.rule_key f)
       || like (anywhere e) (Fnd.category f)) true (given (cf_search q)).

(** api/v1/compliance.py:366-451, control_findings. *)
Definition control_findings (control_id : uuid) (user : User) (organization_id : uuid)
    (assessment_id : option uuid) (q : control_finding_filters) (page page_size : nat)
    : txn DB (ComplianceControl * option ComplianceControlStatus * list uuid * nat) :=
  control ← control_detail control_id user organization_id;
  status ← match assessment_id with
    | Some i =>
        s ← gets (snapshot_in organization_id
              (λ s, (Snap.assessment_id s ≟ i) && (Snap.control_id s ≟ control_id)));
        s ← some_or s (NotFoundError "assessment_control_not_found");
        mret (Some (Snap.status s))
    | None => mret None
    end;
  rule_keys ← gets (λ d, map Mapping.rule_key
    (filter_rows (λ m, Mapping.control_id m ≟ control_id) (DB.mappings d)));
  rows ← gets (λ d, filter_rows (control_finding_matches organization_id rule_keys q d)
                      (DB.findings d));
  mret (control, status,
        map Fnd.id (page_of page page_size
          (sort_by (newest_first Fnd.last_seen_at Fnd.id) rows)), length rows).
End endpoints.

(** * The status of a control, as a specification *)

Section status.
Context (mappings : list RuleControlMapping) (results : list EvaluationRuleResult).

(** Some mapping of the control covers the result. *)
Definition covered (r : EvaluationRuleResult) : Prop :=
  r ∈ results
  ∧ ∃ m, m ∈ mappings ∧ Mapping.rule_key m = RR.rule_key r
         ∧ in_range (RR.rule_version r) m = true.

(** Every rule the control is mapped to has a result that is covered. *)
Definition all_covered : Prop :=
  ∀ m, m ∈ mappings → ∃ r, covered r ∧ RR.rule_key r = Mapping.rule_key m.

(** The active findings of a control. *)
Definition active_finding (findings : list Finding) : Prop :=
  ∃ f, f ∈ findings ∧ (Fnd.status f = FindingStatus.OPEN ∨ Fnd.status f = FindingStatus.SUPPRESSED).

Lemma elem_of_rule_matches k r :
  r ∈ rule_matches mappings results k ↔ covered r ∧ RR.rule_key r = k.
Proof.
  unfold rule_matches, covered. rewrite !list_elem_of_In, filter_In, andb_true_iff, String.eqb_eq,
    existsb_exists. setoid_rewrite filter_In. setoid_rewrite String.eqb_eq.
  setoid_rewrite list_elem_of_In. naive_solver.
Qed.

Lemma fold_matched_elem l acc r :
  (∀ x y, x ∈ acc ++ l → y ∈ acc ++ l → RR.id x = RR.id y → x = y) →
  r ∈ fold_left (λ m x, if existsb (λ r', RR.id r' ≟ RR.id x) m then m else m ++ [x]) l acc
  ↔ r ∈ acc ∨ r ∈ l.
Proof.
  revert acc. induction l as [|x l IH]; intros acc Hinj; cbn; [set_solver|].
  destruct (existsb _ acc) eqn:E.
  - rewrite IH by (intros; apply Hinj; set_solver).
    apply existsb_exists in E as (y & Hy%list_elem_of_In & E). bools.
    assert (y = x) as -> by (apply Hinj; [set_solver..|done]). set_solver.
  - rewrite IH by (intros; apply Hinj; set_solver). set_solver.
Qed.

Hypothesis results_keyed : ∀ r r', r ∈ results → r' ∈ results → RR.id r = RR.id r' → r = r'.

Lemma matched_results_spec keys acc :
  (∀ r, r ∈ acc → r ∈ results) →
  match matched_results mappings results keys acc with
  | Some l => (∀ k, k ∈ keys → ∃ r, covered r ∧ RR.rule_key r = k)
              ∧ ∀ r, r ∈ l ↔ r ∈ acc ∨ covered r ∧ RR.rule_key r ∈ keys
  | None => ¬ ∀ k, k ∈ keys → ∃ r, covered r ∧ RR.rule_key r = k
  end.
Proof.
  revert acc. induction keys as [|k keys IH]; intros acc Hacc; cbn [matched_results].
  { split; set_solver. }
  pose proof (elem_of_rule_matches k) as Hk.
  destruct (rule_matches mappings results k) as [|x l].
  { intros H. destruct (H k) as (r & Hr); [set_solver|]. apply Hk in Hr. set_solver. }
  assert (∀ r, r ∈ x :: l → r ∈ results) as Hsub by (intros r Hr; apply Hk in Hr as [[? _] _]; done).
  set (acc' := fold_left _ _ _).
  assert (∀ r, r ∈ acc' ↔ r ∈ acc ∨ r ∈ x :: l) as Hacc'.
  { intros r. apply fold_matched_elem. intros y z Hy Hz. apply results_keyed; set_solver. }
  assert (∀ r, r ∈ acc' → r ∈ results) as Hin by (intros r; rewrite Hacc'; naive_solver).
  specialize (IH acc' Hin). destruct (matched_results _ _ keys acc') as [l'|].
  - destruct IH as [IH1 IH2]. split.
    + intros k' [->|?]%elem_of_cons; [|auto]. exists x. apply Hk. set_solver.
    + intros r. rewrite IH2, Hacc', Hk, elem_of_cons. naive_solver.
  - intros H. apply IH. intros k' ?. apply H. set_solver.
Qed.

Lemma elem_of_sorted_set x l : x ∈ sorted_set l ↔ x ∈ l.
Proof.
  assert (∀ y l, x ∈ insert_string y l ↔ x = y ∨ x ∈ l) as Hins.
  { intros y l'. induction l' as [|z l' IH]; cbn; [set_solver|].
    destruct (String.eqb y z) eqn:E; [apply String.eqb_eq in E; set_solver|].
    destruct (String.leb y z); set_solver. }
  induction l as [|y l IH]; cbn; [done|]. rewrite Hins, IH. set_solver.
Qed.

Lemma existsb_spec {A} (f : A → bool) (P : A → Prop) l :
  (∀ x, f x = true ↔ P x) → existsb f l = true ↔ ∃ x, x ∈ l ∧ P x.
Proof.
  intros Hf. rewrite existsb_exists. setoid_rewrite list_elem_of_In. by setoid_rewrite Hf.
Qed.

(** What the matched results say. *)
Definition verdict (l : list EvaluationRuleResult) : ComplianceControlStatus :=
  if existsb (λ r, 0 <? RR.error_count r)%Z l then CS.ERROR
  else if existsb (λ r, 0 <? RR.failed_count r)%Z l then CS.ERROR
  else if existsb (λ r, RR.passed_count r + RR.failed_count r
                        + RR.not_applicable_count r =? 0)%Z l
  then CS.NOT_ASSESSED
  else if forallb (λ r, RR.passed_count r =? 0)%Z l then CS.NOT_ASSESSED
  else CS.PASS.

Lemma existsb_no {A} (f : A → bool) (P : A → Prop) l :
  (∀ x, f x = false ↔ P x) → existsb f l = false → ∀ x, x ∈ l → P x.
Proof.
  intros Hf H x Hx. apply Hf, not_true_iff_false. intros Hx'. apply not_true_iff_false in H.
  apply H, existsb_exists. exists x. by rewrite <-list_elem_of_In.
Qed.

Lemma forallb_false {A} (f : A → bool) l : forallb f l = false → ∃ x, x ∈ l ∧ f x = false.
Proof.
  induction l as [|x l IH]; cbn; [done|]. destruct (f x) eqn:E; [|intros; exists x; set_solver].
  intros (y & ? & ?)%IH. exists y. set_solver.
Qed.

Lemma verdict_spec l :
  (verdict l = CS.PASS ↔
     (∀ r, r ∈ l → (RR.error_count r ≤ 0 ∧ RR.failed_count r ≤ 0
        ∧ RR.passed_count r + RR.failed_count r + RR.not_applicable_count r ≠ 0)%Z)
     ∧ ∃ r, r ∈ l ∧ RR.passed_count r ≠ 0%Z)
  ∧ (verdict l = CS.ERROR ↔ ∃ r, r ∈ l ∧ (0 < RR.error_count r ∨ 0 < RR.failed_count r)%Z)
  ∧ verdict l ≠ CS.FAIL.
Proof.
  unfold verdict. destruct (existsb (λ r, 0 <? RR.error_count r)%Z l) eqn:E1.
  { rewrite (existsb_spec _ (λ r, 0 < RR.error_count r)%Z) in E1 by (intros; apply Z.ltb_lt).
    destruct E1 as (r & Hr & Hx). split_and!; [split; [done|]|naive_solver|done].
    intros [H _]. specialize (H r Hr). lia. }
  pose proof (existsb_no _ (λ r, RR.error_count r ≤ 0)%Z _ (λ r, Z.ltb_ge _ _) E1) as H1.
  destruct (existsb (λ r, 0 <? RR.failed_count r)%Z l) eqn:E2.
  { rewrite (existsb_spec _ (λ r, 0 < RR.failed_count r)%Z) in E2 by (intros; apply Z.ltb_lt).
    destruct E2 as (r & Hr & Hx). split_and!; [split; [done|]|naive_solver|done].
    intros [H _]. specialize (H r Hr). lia. }
  pose proof (existsb_no _ (λ r, RR.failed_count r ≤ 0)%Z _ (λ r, Z.ltb_ge _ _) E2) as H2.
  assert (¬ ∃ r, r ∈ l ∧ (0 < RR.error_count r ∨ 0 < RR.failed_count r)%Z) as Hno.
  { intros (r & Hr & ?). specialize (H1 r Hr). specialize (H2 r Hr). cbn in *. lia. }
  destruct (existsb (λ r, RR.passed_count r + RR.failed_count r
    + RR.not_applicable_count r =? 0)%Z l) eqn:E3.
  { rewrite (existsb_spec _ (λ r, RR.passed_count r + RR.failed_count r
      + RR.not_applicable_count r = 0)%Z) in E3 by (intros; apply Z.eqb_eq).
    destruct E3 as (r & Hr & Hx). split_and!; [split; [done|]|naive_solver|done].
    intros [H _]. specialize (H r Hr). lia. }
  pose proof (existsb_no _ _ _ (λ r, Z.eqb_neq _ _) E3) as H3.
  destruct (forallb _ l) eqn:E4.
  - rewrite forallb_forall in E4. split_and!; [split; [done|]|naive_solver|done].
    intros (_ & r & Hr & Hn). exfalso. apply Hn, Z.eqb_eq, E4. by apply list_elem_of_In.
  - split_and!; [|naive_solver|done]. split; [|done]. intros _. split; [intros r Hr; split_and!; [by apply H1|by apply H2|by apply (H3 r)]|].
    apply forallb_false in E4 as (r & Hr & Hx). exists r. split; [done|]. by apply Z.eqb_neq.
Qed.

(** The status of a control.  It fails exactly when an active finding is
    mapped to it; otherwise it only passes when the evaluation was complete,
    every mapped rule has a result in range, none of them has an error, a
    failure or nothing evaluated, and one has a pass.  It is an error when the
    evaluation, or a covered result, says so.  Neither the order of the rows
    nor overlapping ranges matter. *)
Theorem control_status_exact findings source :
  source ≠ CS.FAIL →
  let status := _control_status mappings findings source results in
  (status = CS.FAIL ↔ mappings ≠ [] ∧ active_finding findings)
  ∧ (status = CS.PASS ↔ mappings ≠ [] ∧ ¬ active_finding findings ∧ source = CS.PASS ∧ all_covered
     ∧ (∀ r, covered r → (RR.error_count r ≤ 0 ∧ RR.failed_count r ≤ 0
          ∧ RR.passed_count r + RR.failed_count r + RR.not_applicable_count r ≠ 0)%Z)
     ∧ ∃ r, covered r ∧ RR.passed_count r ≠ 0%Z)
  ∧ (status = CS.ERROR ↔ mappings ≠ [] ∧ ¬ active_finding findings
     ∧ (source = CS.ERROR ∨ source = CS.PASS ∧ all_covered
          ∧ ∃ r, covered r ∧ (0 < RR.error_count r ∨ 0 < RR.failed_count r)%Z)).
Proof.
  intros Hsrc status. unfold status, _control_status.
  destruct (Nat.eqb (length mappings) 0) eqn:El.
  { apply Nat.eqb_eq, length_zero_iff_nil in El. naive_solver. }
  assert (mappings ≠ []) as Hm by (intros E; by rewrite E in El).
  destruct (existsb _ findings) eqn:Ef.
  { rewrite (existsb_spec _ (λ f, Fnd.status f = FindingStatus.OPEN
      ∨ Fnd.status f = FindingStatus.SUPPRESSED)) in Ef
      by (intros f; rewrite bool_decide_eq_true; set_solver).
    fold (active_finding findings) in Ef. naive_solver. }
  assert (¬ active_finding findings) as Hf.
  { intros Hf. apply not_true_iff_false in Ef. apply Ef.
    rewrite (existsb_spec _ (λ f, Fnd.status f = FindingStatus.OPEN
      ∨ Fnd.status f = FindingStatus.SUPPRESSED)); [done|].
    intros f; rewrite bool_decide_eq_true; set_solver. }
  clear El Ef. destruct (decide (source = CS.PASS)) as [->|Hp]; last first.
  { rewrite bool_decide_eq_false_2 by done. cbn [negb]. naive_solver. }
  rewrite bool_decide_eq_true_2 by done. cbn [negb].
  assert (all_covered ↔ ∀ k, k ∈ sorted_set (map Mapping.rule_key mappings) →
            ∃ r, covered r ∧ RR.rule_key r = k) as Hall.
  { unfold all_covered. setoid_rewrite elem_of_sorted_set.
    setoid_rewrite list_elem_of_In at 2. setoid_rewrite in_map_iff.
    setoid_rewrite list_elem_of_In. naive_solver. }
  pose proof (matched_results_spec (sorted_set (map Mapping.rule_key mappings)) []) as Hspec.
  destruct (matched_results _ _ _ []) as [l|].
  - destruct Hspec as [Hc Hl]; [set_solver|].
    assert (∀ r, r ∈ l ↔ covered r) as Hcov.
    { intros r. rewrite Hl. split; [by intros [?%not_elem_of_nil|[]]|]. intros Hr. right.
      split; [done|]. apply elem_of_sorted_set. destruct Hr as (_ & m & Hin & <- & _).
      by apply list_elem_of_fmap_2. }
    rewrite <-Hall in Hc. fold (verdict l). destruct (verdict_spec l) as (-> & -> & ?).
    setoid_rewrite Hcov. naive_solver.
  - assert (¬ all_covered) as Hn by (rewrite Hall; apply Hspec; set_solver). naive_solver.
Qed.
End status.

(** * The catalogue, set up once *)

(** The tables of the service satisfy their constraints, and a snapshot belongs
    to an assessment, a foreign key. *)
Record compliance_ok (d : DB) : Prop := {
  co_frameworks : sound ComplianceFramework d;
  co_controls : sound ComplianceControl d;
  co_mappings : sound RuleControlMapping d;
  co_assessments : sound ComplianceAssessment d;
  co_snapshots : sound ComplianceAssessmentControl d;
  co_owned : all_rows (λ s, is_Some (DB.assessments d !! Snap.assessment_id s))
               (DB.assessment_controls d)
}.

(** The catalogue of [d'] extends that of [d], and nothing else changed. *)
Record grown (d d' : DB) : Prop := {
  gr_frameworks : DB.frameworks d ⊆ DB.frameworks d';
  gr_controls : DB.controls d ⊆ DB.controls d';
  gr_mappings : DB.mappings d ⊆ DB.mappings d';
  gr_rest : ∃ f g h,
    d' = d <| DB.frameworks ::= f |> <| DB.controls ::= g |> <| DB.mappings ::= h |>
}.

(** An entry of the catalogue is in the database. *)
Definition complete (e : string * string * string * string * string * string) (d : DB) : Prop :=
  let '(key, _, version, _, _, control_key) := e in
  ∃ f c, DB.frameworks d !! FW.id f = Some f ∧ FW.key f = key ∧ FW.version f = version
  ∧ DB.controls d !! Ctl.id c = Some c ∧ Ctl.framework_id c = FW.id f
  ∧ Ctl.control_key c = control_key
  ∧ ∀ rule, rule ∈ MAPPED_RULES →
      ∃ m, DB.mappings d !! Mapping.id m = Some m ∧ Mapping.rule_key m = rule
      ∧ Mapping.control_id m = Ctl.id c ∧ Mapping.minimum_rule_version m = 1%Z
      ∧ Mapping.maximum_rule_version m = None.
Definition catalogued (d : DB) : Prop := ∀ e, e ∈ CATALOG → complete e d.

Lemma grown_refl d : grown d d.
Proof.
  split; [done..|]. exists (λ t, t), (λ t, t), (λ t, t). by destruct d.
Qed.
Lemma grown_trans d1 d2 d3 : grown d1 d2 → grown d2 d3 → grown d1 d3.
Proof.
  intros [? ? ? (f & g & h & E)] [? ? ? (f' & g' & h' & E')].
  split; [by etrans..|]. subst. by eexists (λ t, f' (f t)), (λ t, g' (g t)), (λ t, h' (h t)).
Qed.

Lemma complete_grown e d d' : complete e d → grown d d' → complete e d'.
Proof.
  destruct e as [[[[[key n] version] ds] rf] ck]. intros (f & c & Hf & ? & ? & Hc & ? & ? & Hm) [Gf Gc Gm _].
  exists f, c. split_and!; try done; [by eapply lookup_weaken..|].
  intros rule Hr. destruct (Hm rule Hr) as (m & ? & ?). exists m. split; [|done].
  by eapply lookup_weaken.
Qed.

Lemma compliance_grown d d' :
  compliance_ok d → grown d d' → sound ComplianceFramework d' → sound ComplianceControl d' →
  sound RuleControlMapping d' → compliance_ok d'.
Proof.
  intros [_ _ _ [???] [???] ?] [_ _ _ (f & g & h & ->)] ? ? ?. by split.
Qed.

Section catalogue.
Context (dr : compliance_draws).

(** The identifiers for an entry are new. *)
Record key_fresh (d : DB) (key : string) : Prop := {
  kf_framework : DB.frameworks d !! new_framework dr key = None;
  kf_control : DB.controls d !! new_control dr key = None;
  kf_mapping rule : DB.mappings d !! new_mapping dr key rule = None
}.

(** [uuid4] draws new and different identifiers. *)
Record draws_fresh (d : DB) : Prop := {
  df_key key : key_fresh d key;
  df_framework : Inj (=) (=) (new_framework dr);
  df_control : Inj (=) (=) (new_control dr);
  df_mapping : Inj2 (=) (=) (=) (new_mapping dr);
  df_assessment : DB.assessments d !! new_assessment dr = None;
  df_snapshot c : DB.assessment_controls d !! new_snapshot dr c = None;
  df_snapshots : Inj (=) (=) (new_snapshot dr)
}.

(** The mapping of a rule, as the catalogue wants it. *)
Definition mapping_for (control : ComplianceControl) (rule : string) (m : RuleControlMapping)
    : Prop :=
  Mapping.rule_key m = rule ∧ Mapping.control_id m = Ctl.id control
  ∧ Mapping.minimum_rule_version m = 1%Z ∧ Mapping.maximum_rule_version m = None.

Lemma wp_ensure_mappings key fw c rules Q s :
  NoDup rules → Inj2 (=) (=) (=) (new_mapping dr) →
  sound RuleControlMapping (working s) →
  (∀ rule, rule ∈ rules → DB.mappings (working s) !! new_mapping dr key rule = None) →
  (∀ h, let d := set_rows RuleControlMapping h (working s) in
     sound RuleControlMapping d → DB.mappings (working s) ⊆ DB.mappings d →
     (∀ rule, rule ∈ rules →
        ∃ m, DB.mappings d !! Mapping.id m = Some m ∧ mapping_for c rule m) →
     (∀ k, (∀ rule, rule ∈ rules → k ≠ new_mapping dr key rule) →
        DB.mappings d !! k = DB.mappings (working s) !! k) →
     Q (Ret tt) (Sess (committed s) d)) →
  wp (for_each rules (ensure_mapping dr key fw c)) Q s.
Proof.
  intros Hnd Hinj. revert s Hnd. induction rules as [|rule rules IH]; intros s Hnd Hs Hfr HQ.
  { apply wp_ret. destruct s as [c0 d0]. specialize (HQ (λ t, t)). destruct d0.
    apply HQ; [done|done|set_solver|done]. }
  apply NoDup_cons in Hnd as [Hni Hnd]. apply wp_bind. unfold ensure_mapping at 1. apply wp_bind.
  apply wp_get_or_create; [done|done|..].
  - cbn. by rewrite !bool_decide_eq_true_2.
  - apply Hfr. set_solver.
  - intros r Hr. cbn in Hr. unfold mapping_conflict in Hr. bools. cbn in *.
    rewrite !bool_decide_eq_true_2 by congruence. done.
  - intros m d' [Gs Gp Gat Gmore Gonly (h & ->)]. bools. apply wp_ret.
    apply IH; [done|exact Gs|..].
    + intros rule' Hr'. cbn. change (h _) with (rows RuleControlMapping
        (set_rows RuleControlMapping h (working s))). rewrite Gonly; [apply Hfr; set_solver|].
      cbn. intros E. apply Hinj in E as [_ ->]. done.
    + intros h' d1 Hd1 Hsub Hall Hrest. apply (HQ (λ t, h' (h t))); [done|..].
      * by etrans.
      * intros rule' [->|Hr']%elem_of_cons; [|by apply Hall]. exists m.
        split; [|by split_and!]. eapply lookup_weaken; [exact Gat|]. exact Hsub.
      * intros k Hk. etrans; [apply Hrest; intros; apply Hk; set_solver|].
        apply Gonly. apply Hk. set_solver.
Qed.

(** The key of an entry. *)
Definition entry_key (e : string * string * string * string * string * string) : string :=
  e.1.1.1.1.1.

Lemma wp_ensure_entry e Q s :
  Inj2 (=) (=) (=) (new_mapping dr) → Inj (=) (=) (new_framework dr) →
  Inj (=) (=) (new_control dr) →
  compliance_ok (working s) → key_fresh (working s) (entry_key e) →
  (∀ d, compliance_ok d → grown (working s) d → complete e d →
     (∀ k, k ≠ entry_key e → key_fresh (working s) k → key_fresh d k) →
     Q (Ret tt) (Sess (committed s) d)) →
  wp (ensure_entry dr e) Q s.
Proof.
  destruct e as [[[[[key name] version] ds] rf] ck]. unfold ensure_entry, complete, entry_key.
  cbn beta iota delta [fst snd]. intros Hm Hf Hc Hok [Ff Fc Fm] HQ. pose proof Hok as [Sf Sc Sm Sa Ss So].
  apply wp_bind, wp_get_or_create; [done|done|by cbn; rewrite !bool_decide_eq_true_2|done|..].
  { intros r Hr. cbn in Hr. unfold framework_conflict in Hr. bools. cbn in *.
    by rewrite !bool_decide_eq_true_2. }
  intros f d1 [G1 P1 A1 M1 O1 (g1 & ->)]. bools.
  apply wp_bind, wp_get_or_create; cbn [working committed];
    [by apply sound_apart|done|by cbn; rewrite !bool_decide_eq_true_2|done|..].
  { intros r Hr. cbn in Hr. unfold control_conflict in Hr. bools. cbn in *.
    by rewrite !bool_decide_eq_true_2 by congruence. }
  intros c d2 [G2 P2 A2 M2 O2 (g2 & ->)]. bools.
  apply wp_ensure_mappings; cbn [working committed];
    [by repeat constructor; set_solver|done|by do 2 apply sound_apart|by intros; apply Fm|].
  intros g3. cbn zeta. intros G3 M3 Hall O3. apply HQ.
  - split; [by do 2 apply sound_apart|by apply sound_apart|done|by do 3 apply sound_apart..|exact So].
  - split; [exact M1|exact M2|exact M3|by exists g1, g2, g3].
  - exists f, c. split_and!; done.
  - intros k Hk [Kf Kc Km]. split.
    + etrans; [apply O1|exact Kf]. cbn. intros E%Hf. done.
    + etrans; [apply O2|exact Kc]. cbn. intros E%Hc. done.
    + intros rule. etrans; [apply O3|apply Km]. intros r' _ E. apply Hm in E as [-> _]. done.
Qed.

Lemma wp_ensure_entries l Q s :
  Inj2 (=) (=) (=) (new_mapping dr) → Inj (=) (=) (new_framework dr) →
  Inj (=) (=) (new_control dr) → NoDup (entry_key <$> l) →
  compliance_ok (working s) → (∀ e, e ∈ l → key_fresh (working s) (entry_key e)) →
  (∀ d, compliance_ok d → grown (working s) d → (∀ e, e ∈ l → complete e d) →
     Q (Ret tt) (Sess (committed s) d)) →
  wp (for_each l (ensure_entry dr)) Q s.
Proof.
  intros Hm Hf Hc. revert s. induction l as [|e l IH]; intros s Hnd Hok Hfr HQ.
  { apply wp_ret. destruct s as [c d]. apply HQ; [done|apply grown_refl|set_solver]. }
  rewrite fmap_cons in Hnd. apply NoDup_cons in Hnd as [Hni Hnd].
  apply wp_bind, wp_ensure_entry; [done..|apply Hfr; set_solver|].
  intros d1 Hok1 G1 C1 F1. apply IH; cbn [working committed]; [done|done|..].
  - intros e' He'. apply F1; [|apply Hfr; set_solver]. intros E. apply Hni. rewrite <-E.
    by apply list_elem_of_fmap_2.
  - intros d2 Hok2 G2 C2. apply HQ; [done|by eapply grown_trans|].
    intros e' [->|He']%elem_of_cons; [by eapply complete_grown|auto].
Qed.

Lemma wp_ensure_catalog Q s :
  compliance_ok (working s) → draws_fresh (working s) →
  (∀ d, compliance_ok d → grown (working s) d → catalogued d →
     Q (Ret tt) (Sess (committed s) d)) →
  wp (ensure_catalog dr) Q s.
Proof.
  intros Hok [Hk Hf Hc Hm _ _ _] HQ. apply wp_ensure_entries; [done..| |done| |done].
  - apply (bool_decide_unpack _). vm_compute. exact I.
  - intros e _. apply Hk.
Qed.

(** Once it is there, nothing is added. *)
Lemma wp_known_entry e Q s :
  compliance_ok (working s) → complete e (working s) → Q (Ret tt) s → wp (ensure_entry dr e) Q s.
Proof.
  destruct e as [[[[[key name] version] ds] rf] ck]. unfold ensure_entry, complete.
  intros [Sf Sc Sm _ _ _] (f & c & Hf & Ek & Ev & Hc & Ei & Ec & Hm) HQ.
  apply wp_bind, (wp_get_known _ _ f); [done|exact Hf|by rewrite !bool_decide_eq_true_2|..].
  { intros r Hr. cbn. unfold framework_conflict. bools.
    by rewrite !bool_decide_eq_true_2 by congruence. }
  apply wp_bind, (wp_get_known _ _ c); [done|exact Hc|by rewrite !bool_decide_eq_true_2|..].
  { intros r Hr. cbn. unfold control_conflict. bools.
    by rewrite !bool_decide_eq_true_2 by congruence. }
  revert Hm. induction MAPPED_RULES as [|rule rules IH]; intros Hm; [by apply wp_ret|].
  destruct (Hm rule ltac:(set_solver)) as (m & Hl & E1 & E2 & E3 & E4).
  apply wp_bind. unfold ensure_mapping at 1.
  apply wp_bind, (wp_get_known _ _ m); [done|exact Hl|by rewrite !bool_decide_eq_true_2|..].
  { intros r Hr. cbn. unfold mapping_conflict. bools.
    by rewrite !bool_decide_eq_true_2 by congruence. }
  apply wp_ret, IH. set_solver.
Qed.

Lemma wp_catalogued Q s :
  compliance_ok (working s) → catalogued (working s) → Q (Ret tt) s →
  wp (ensure_catalog dr) Q s.
Proof.
  intros Hok Hcat HQ. unfold ensure_catalog, catalogued in *. revert Hcat.
  induction CATALOG as [|e l IH]; intros Hcat; [by apply wp_ret|].
  apply wp_bind, wp_known_entry; [done|apply Hcat; set_solver|]. apply IH. set_solver.
Qed.

End catalogue.

(** The catalogue is set up once.  On a well-formed database and with new
    identifiers, the request that ensures the catalogue succeeds, after it
    every framework, control and mapping of the catalogue is there, nothing
    that was there is lost and no other table changes; the next such request
    changes nothing. *)
Theorem catalogue_is_set_up_once dr dr' d :
  compliance_ok d → draws_fresh dr d →
  ∃ d', run (_catalog dr) d = (Ret tt, d') ∧ compliance_ok d' ∧ grown d d' ∧ catalogued d'
  ∧ run (_catalog dr') d' = (Ret tt, d').
Proof.
  intros Hok Hfr.
  pose proof (wp_run (_catalog dr) (λ o d', o = Ret tt ∧ compliance_ok d' ∧ grown d d'
    ∧ catalogued d') d) as H.
  destruct (run (_catalog dr) d) as [o d'] eqn:E. cbn [fst snd] in H. destruct H as (-> & Hok' & Hg & Hc).
  { unfold _catalog. apply wp_bind, wp_ensure_catalog; [done..|]. intros. by apply wp_commit. }
  exists d'. split_and!; [done..|].
  pose proof (wp_run (_catalog dr') (λ o d1, o = Ret tt ∧ d1 = d') d') as H.
  destruct (run (_catalog dr') d') as [o1 d1]. cbn [fst snd] in H. destruct H as [-> ->]; [|done].
  unfold _catalog. apply wp_bind, wp_catalogued; [done..|]. by apply wp_commit.
Qed.

(** * An assessment *)

(** What the controls of a framework come to, on a database. *)
Definition results_of (source_state : ComplianceControlStatus)
    (evaluation : option EvaluationJob) (account : AWSAccount) (framework_id : uuid) (d : DB)
    : list (ComplianceControl * ComplianceControlStatus * nat) :=
  map (assessed_control source_state
         (filter_rows (λ m, Mapping.framework_id m ≟ framework_id) (DB.mappings d))
         (account_findings account d) (source_results evaluation account d))
    (controls framework_id d).


(** The finished assessment. *)
Definition finished (dr : compliance_draws) (now : timestamp) (account : AWSAccount)
    (framework_id : uuid) (evaluation : option EvaluationJob)
    (results : list (ComplianceControl * ComplianceControlStatus * nat)) (findings : nat)
    : ComplianceAssessment :=
  CA.mk (new_assessment dr) (AWSAccount.organization_id account) (Some (AWSAccount.id account))
    framework_id (EJ.id <$> evaluation) ComplianceAssessmentStatus.COMPLETED
    (Z.of_nat (length results)) (count_status CS.PASS results) (count_status CS.FAIL results)
    (count_status CS.NOT_ASSESSED results) (count_status CS.ERROR results) (Z.of_nat findings)
    (Some now) (Some now) None now.

Lemma count_status_cons s x l :
  count_status s (x :: l) = ((if x.1.2 ≟ s then 1 else 0) + count_status s l)%Z.
Proof.
  unfold count_status. cbn. destruct (x.1.2 ≟ s); cbn [length]; lia.
Qed.

(** The four counters add up. *)
Lemma counts_match l :
  Z.of_nat (length l) = (count_status CS.PASS l + count_status CS.FAIL l
    + count_status CS.NOT_ASSESSED l + count_status CS.ERROR l)%Z.
Proof.
  induction l as [|x l IH]; [done|]. rewrite !count_status_cons. cbn [length].
  rewrite Nat2Z.inj_succ, IH. destruct x.1.2; repeat case_bool_decide; try done; lia.
Qed.

Lemma finished_checks dr now account fw j l n :
  assessment_checks (finished dr now account fw j l n) = true.
Proof.
  unfold assessment_checks, finished. cbn [CA.controls_total CA.controls_passed
    CA.controls_failed CA.controls_not_assessed CA.controls_error CA.findings_count CA.status
    CA.started_at CA.finished_at forallb].
  rewrite counts_match, Z.eqb_refl. unfold count_status.
  rewrite !(proj2 (Z.leb_le _ _)) by lia. done.
Qed.

Lemma elem_of_controls c framework_id d :
  c ∈ controls framework_id d →
  Ctl.framework_id c = framework_id ∧ ∃ k, DB.controls d !! k = Some c.
Proof.
  unfold controls. rewrite sort_by_perm, elem_of_filter_rows. intros [??]. by bools.
Qed.

(** The controls of a framework are listed once each. *)
Lemma controls_nodup framework_id d :
  keyed (DB.controls d) → NoDup (Ctl.id <$> controls framework_id d).
Proof.
  intros Hk. unfold controls. rewrite sort_by_perm. by apply filter_rows_ids.
Qed.

Section snapshots.
Context (dr : compliance_draws) (now : timestamp) (framework_id : uuid).

(** The snapshots of an assessment pass every test. *)
Lemma snapshots_insertable (l : list (ComplianceControl * ComplianceControlStatus * nat)) t :
  Inj (=) (=) (new_snapshot dr) → (∀ c, t !! new_snapshot dr c = None) →
  all_rows (λ s, Snap.assessment_id s ≠ new_assessment dr) t →
  NoDup ((λ x, Ctl.id x.1.1) <$> l) →
  insertable (map (snapshot_of dr (new_assessment dr) framework_id now) l) t.
Proof.
  intros Hinj Hfr Hown Hnd. split.
  - apply Forall_map, Forall_forall. intros [[c st] n] _. apply Z.leb_le. cbn. lia.
  - change (NoDup (row_id <$> (snapshot_of dr (new_assessment dr) framework_id now <$> l))).
    rewrite <-list_fmap_compose.
    apply (NoDup_fmap_2 (new_snapshot dr)) in Hnd. rewrite <-list_fmap_compose in Hnd.
    erewrite list_fmap_ext; [exact Hnd|]. by intros i [[c st] n] _.
  - apply Forall_map, Forall_forall. intros [[c st] n] _. apply Hfr.
  - apply Forall_map, Forall_forall. intros [[c st] n] _ k r Hr. cbn. unfold snapshot_conflict.
    cbn. rewrite bool_decide_eq_false_2; [done|]. intros E. by apply (Hown k r Hr).
  - intros r r' Hr Hr' Hne. cbn. unfold snapshot_conflict.
    apply in_map_iff in Hr as ([[c st] n] & <- & _), Hr' as ([[c' st'] n'] & <- & _). cbn in *.
    rewrite (bool_decide_eq_false_2 (Ctl.id c = _)), andb_false_r; [done|]. congruence.
Qed.
End snapshots.

(** What an assessment leaves behind: the finished row and one snapshot per
    control, on a database [dc] that has the catalogue. *)
Definition assessed (dr : compliance_draws) (now : timestamp) (account : AWSAccount)
    (fw : ComplianceFramework) (evaluation_job_id : option uuid) (dc : DB)
    (a : ComplianceAssessment) (d' : DB) : Prop :=
  let '(evaluation, source_state) := _source_evaluation (AWSAccount.id account)
    (AWSAccount.organization_id account) evaluation_job_id dc in
  let results := results_of source_state evaluation account (FW.id fw) dc in
  a = finished dr now account (FW.id fw) evaluation results (length (account_findings account dc))
  ∧ ∃ f, d' = dc <| DB.assessments ::= put a |>
                 <| DB.assessment_controls ::=
                      puts (map (snapshot_of dr (CA.id a) (FW.id fw) now) results) |>
                 <| DB.audit ::= f |>.

(** The framework that a request names. *)
Definition names_framework (key : string) (version : option string) (f : ComplianceFramework)
    : Prop :=
  FW.key f = key ∧ FW.enabled f = true
  ∧ ∀ v, given version = Some v → FW.version f = v.

Lemma wp_framework key version Q s :
  (∀ k f, DB.frameworks (working s) !! k = Some f → names_framework key version f →
     Q (Ret f) s) →
  ((∀ k f, DB.frameworks (working s) !! k = Some f → ¬ names_framework key version f) →
     Q (Raise (NotFoundError "framework_not_found")) s) →
  wp (framework key version) Q s.
Proof.
  intros H1 H2. unfold framework. apply wp_bind, wp_gets.
  set (rows := filter_rows _ _).
  assert (∀ f, f ∈ rows ↔ names_framework key version f
          ∧ ∃ k, DB.frameworks (working s) !! k = Some f) as Hrows.
  { intros f. unfold rows, names_framework. rewrite elem_of_filter_rows, !andb_true_iff.
    rewrite String.eqb_eq. destruct (given version) as [v|]; cbn; [rewrite String.eqb_eq|];
      naive_solver. }
  apply wp_some_or.
  - intros f Hf. apply first_by_elem in Hf. apply Hrows in Hf as [? [k ?]]. by eapply H1.
  - intros Hn. apply first_by_None in Hn. apply H2. intros k f Hk Hf.
    assert (f ∈ rows) as Hin by (apply Hrows; eauto). rewrite Hn in Hin. set_solver.
Qed.

Lemma results_ids s e acc fw d :
  ((λ x, Ctl.id x.1.1) <$> results_of s e acc fw d) = Ctl.id <$> controls fw d.
Proof.
  unfold results_of. induction (controls fw d) as [|c l IH]; cbn; [done|]. by f_equal.
Qed.
Lemma results_length s e acc fw d : length (results_of s e acc fw d) = length (controls fw d).
Proof. apply length_map. Qed.

(** The two flushes of the assessment come to one. *)
Lemma saved_twice (a a0 : ComplianceAssessment) g f1 f2 d :
  CA.id a = CA.id a0 →
  (set_rows ComplianceAssessment (put a)
     (set_rows ComplianceAssessmentControl g
        ((set_rows ComplianceAssessment (put a0) d) <| DB.audit ::= f1 |>))) <| DB.audit ::= f2 |>
  = d <| DB.assessments ::= put a |> <| DB.assessment_controls ::= g |>
      <| DB.audit ::= λ l, f2 (f1 l) |>.
Proof. intros E. destruct d. unfold set_rows, upd. cbn. by rewrite put_put. Qed.

Lemma compliance_assessed d a l f :
  compliance_ok d → checks a = true → DB.assessments d !! CA.id a = None →
  active_assessment a = false → insertable l (DB.assessment_controls d) →
  Forall (λ s, Snap.assessment_id s = CA.id a) l →
  compliance_ok (d <| DB.assessments ::= put a |> <| DB.assessment_controls ::= puts l |>
                   <| DB.audit ::= f |>).
Proof.
  intros [Sf Sc Sm Sa Ss So] Hc Hn Hact Hl Hown.
  assert (unique_ok true conflict a (DB.assessments d) = true) as Hu.
  { apply unique_ok_fresh; [done|]. intros. cbn. unfold assessment_conflict. by rewrite Hact. }
  pose proof (sound_set a true d Sa Hc Hu) as Sa'. pose proof (sound_puts l d Ss Hl) as Ss'.
  split; [destruct Sf, Sc, Sm, Sa', Ss'; by split..|].
  apply all_rows_puts.
  - intros k s Hs. unfold put. cbn. rewrite lookup_insert. case_decide; [by eexists|].
    by apply (So k).
  - eapply Forall_impl; [done|]. intros s E. cbn. rewrite E. unfold put.
    change (row_id a) with (CA.id a). rewrite lookup_insert_eq. by eexists.
Qed.

Lemma wp_assess_framework dr now account actor fw ev d dc Q :
  draws_fresh dr d → grown d dc → compliance_ok dc →
  (∀ a d', assessed dr now account fw ev dc a d' → compliance_ok d' → Q (Ret a) (Sess d' d')) →
  (∀ k r, DB.assessments d !! k = Some r → active_assessment r = true →
     CA.aws_account_id r = Some (AWSAccount.id account) →
     Q (Raise (ConflictError "compliance_assessment_active")) (Sess d dc)) →
  wp (assess_framework dr now account actor fw ev) Q (Sess d dc).
Proof.
  intros [_ _ _ _ Fa Fs Fi] Hg Hokc HQ HE. unfold assess_framework.
  assert (DB.assessments dc = DB.assessments d
          ∧ DB.assessment_controls dc = DB.assessment_controls d) as [Ea Es].
  { by destruct Hg as [_ _ _ (g1 & g2 & g3 & ->)]. }
  apply wp_bind, wp_gets. cbn [working]. apply wp_bind, wp_ensure.
  2: { intros Ha. destruct (find_row _ _) as [r|] eqn:E; [|done].
       apply find_row_Some in E as (k' & Hk' & Hr). bools. rewrite Ea in Hk'. by eapply HE. }
  intros Hna. apply wp_bind, wp_gets. cbn [working].
  destruct (_source_evaluation _ _ _ dc) as [evaluation source_state] eqn:Esrc.
  pose proof Hokc as [Sf Sc Sm Sa Ss So].
  apply wp_bind, wp_saved; [done|cbn [working]|].
  { apply unique_ok_fresh; [by cbn; rewrite Ea|]. intros k' r Hr. apply not_true_is_false.
    intros Hc. cbn in Hc. unfold assessment_conflict in Hc. bools. cbn in *.
    destruct (find_row _ _) eqn:E in Hna; [done|]. rewrite find_row_None in E.
    specialize (E k' r Hr). rewrite !bool_decide_eq_true_2 in E by congruence.
    cbn in E. congruence. }
  set (a0 := CA.mk _ _ _ _ _ _ _ _ _ _ _ _ _ _ _ _).
  apply wp_bind. unfold audit_ok at 1, record_audit. apply wp_modify. cbn [working committed].
  do 4 (apply wp_bind, wp_gets; cbn [working committed]).
  change (map (assessed_control _ _ _ _) _)
    with (results_of source_state evaluation account (FW.id fw) dc).
  assert (insertable (map (snapshot_of dr (CA.id a0) (FW.id fw) now)
      (results_of source_state evaluation account (FW.id fw) dc))
      (DB.assessment_controls dc)) as Hins.
  { apply snapshots_insertable; [done|by intros c; rewrite Es| |].
    - intros k' r Hr E. destruct (So k' r Hr) as [a Ha]. rewrite E, Ea, Fa in Ha. done.
    - rewrite results_ids. apply controls_nodup, Sc. }
  set (results := results_of _ _ _ _ _) in *.
  apply wp_bind, wp_save_all; [exact Hins|]. cbn [working committed].
  match goal with |- context [save false ?x] =>
    assert (x = finished dr now account (FW.id fw) evaluation results
                  (length (account_findings account dc))) as ->
      by (unfold finished, results; by rewrite results_length)
  end.
  set (a := finished _ _ _ _ _ _ _).
  apply wp_bind, wp_saved; cbn [working committed]; [apply finished_checks| |].
  { apply unique_ok_true. split; [done|]. intros. cbn. unfold assessment_conflict.
    unfold active_assessment at 1. rewrite bool_decide_eq_false_2; [done|]. cbn. set_solver. }
  apply wp_bind, wp_audit_ok, wp_bind, wp_commit, wp_ret. cbn [working committed].
  rewrite saved_twice by done. apply HQ.
  - unfold assessed. rewrite Esrc. split; [done|]. by eexists.
  - apply compliance_assessed; [done|apply finished_checks|by cbn; rewrite Ea|done|exact Hins|].
    apply Forall_map, Forall_forall. by intros [[c st] n] _.
Qed.

(** C24. What an assessment does.  On a well-formed database, a member who may
    assess an account gets an assessment of the framework the request names,
    unless that framework does not exist or an assessment of the account is
    under way.  It adds one finished assessment, whose counters add up, and one
    snapshot for every control of the framework, whose status follows from the
    mappings, the findings of the account and the results of the source
    evaluation; apart from the catalogue and the audit log nothing else
    changes.  Every refusal leaves the database as it was. *)
Theorem assessment_is_a_snapshot dr now account_id actor key version ev d :
  compliance_ok d → draws_fresh dr d →
  match run (assess dr now account_id actor key version ev) d with
  | (Ret a, d') =>
      ∃ account m fw k dc, aws_account_for_user account_id (User.id actor) d = Some (account, m)
      ∧ role_has_capability (OrganizationMembership.role m) Capability.COMPLIANCE_ASSESS = true
      ∧ grown d dc ∧ catalogued dc
      ∧ DB.frameworks dc !! k = Some fw ∧ names_framework key version fw
      ∧ assessed dr now account fw ev dc a d' ∧ compliance_ok d'
      ∧ CA.controls_total a = (CA.controls_passed a + CA.controls_failed a
          + CA.controls_not_assessed a + CA.controls_error a)%Z
  | (Raise e, d') =>
      d' = d
      ∧ (e = NotFoundError "aws_account_not_found"
           ∧ aws_account_for_user account_id (User.id actor) d = None
         ∨ ∃ account m, aws_account_for_user account_id (User.id actor) d = Some (account, m)
           ∧ (e = ForbiddenError "forbidden" ∧ role_has_capability (OrganizationMembership.role m)
                Capability.COMPLIANCE_ASSESS = false
              ∨ e = NotFoundError "framework_not_found"
                ∧ (∀ k f, DB.frameworks d !! k = Some f → ¬ names_framework key version f)
              ∨ e = ConflictError "compliance_assessment_active"
                ∧ ∃ k r, DB.assessments d !! k = Some r ∧ active_assessment r = true
                         ∧ CA.aws_account_id r = Some (AWSAccount.id account)))
  end.
Proof.
  intros Hok Hfr. apply run_cases. unfold assess. apply wp_bind, wp_gets. cbn [working].
  apply wp_bind, wp_some_or; [|intros Hn; split; [done|by left]].
  intros [account m] Hacc. cbn [fst].
  pose proof (proj2 (proj1 (aws_account_for_user_Some _ _ _ _ _) Hacc)) as Hm.
  apply wp_bind, wp_require_capability; cbn [working]; rewrite Hm; [|done|].
  2: { intros ? [= <-] Hc. split; [done|]. right. exists account, m. split; [done|]. by left. }
  intros ? [= <-] Hcap. apply wp_bind, wp_ensure_catalog; cbn [working committed]; [done..|].
  intros dc Hokc Hg Hcat. apply wp_bind, wp_framework; cbn [working].
  2: { intros Hn. split; [done|]. right. exists account, m. split; [done|]. right; left.
       split; [done|]. intros k f Hk. apply (Hn k). eapply lookup_weaken; [done|apply Hg]. }
  intros k fw Hk Hfw. apply (wp_assess_framework _ _ _ _ _ _ d); [done..| |].
  - intros a d' Ha Hd'. exists account, m, fw, k, dc. do 8 (split; [done|]).
    unfold assessed in Ha. destruct (_source_evaluation _ _ _ dc).
    destruct Ha as [-> _]. apply counts_match.
  - intros k' r Hr Hact Hr'. split; [done|]. right. exists account, m. split; [done|].
    right; right. split; [done|]. by exists k', r.
Qed.


(** * Witnesses *)

(** Alice's organization with its account and a complete evaluation, in which
    the three mapped rules passed. *)
Definition evaluated_80 : EvaluationJob :=
  EJ.mk 80 1 20 None true 1 EvaluationJobStatus.COMPLETED 10 (Some 3%Z) (Some 9%Z)
    1 3 3 0 0 0 0 0 0 0 0 None 2.
Definition rule_passed (i : uuid) (rule : string) : EvaluationRuleResult :=
  RR.mk i 80 1 20 rule 1 1 0 0 0.
Definition passed_rules : list EvaluationRuleResult :=
  [rule_passed 90 "EC2_SG_SSH_OPEN_TO_WORLD"; rule_passed 91 "EC2_SG_RDP_OPEN_TO_WORLD";
   rule_passed 92 "EC2_SG_ALL_TRAFFIC_OPEN_TO_WORLD"].
Definition compliance_lab : DB :=
  acme <| DB.aws_accounts := {[20%N := cloud_account]} |>
       <| DB.evaluation_jobs := {[80%N := evaluated_80]} |>
       <| DB.rule_results := puts passed_rules ∅ |>.
Definition lab_compliance_draws : compliance_draws :=
  mk_draws (λ k, Npos (encode k)) (λ k, Npos (encode k)) (λ k r, Npos (encode (k, r)))
    600 (λ c, N.succ c).

Lemma compliance_lab_ok : compliance_ok compliance_lab.
Proof. split; [split; cbn; auto with rows..|]. apply all_rows_empty. Qed.

Lemma lab_draws_fresh : draws_fresh lab_compliance_draws compliance_lab.
Proof.
  split; [by split| | | |done|done|].
  - intros k k' [= E]. by apply (inj encode).
  - intros k k' [= E]. by apply (inj encode).
  - intros k r k' r' [= E]. apply (inj encode) in E. by injection E.
  - intros c c' E. by apply N.succ_inj.
Qed.

Lemma catalogue_is_set_up_once_witness :
  ∃ d', run (_catalog lab_compliance_draws) compliance_lab = (Ret tt, d')
  ∧ catalogued d' ∧ run (_catalog lab_compliance_draws) d' = (Ret tt, d').
Proof.
  destruct (catalogue_is_set_up_once lab_compliance_draws lab_compliance_draws compliance_lab
    compliance_lab_ok lab_draws_fresh) as (d' & H1 & _ & _ & H2 & H3).
  exists d'. split; [exact H1|]. split; [exact H2|exact H3].
Defined.

Definition assessed_lab : outcome ComplianceAssessment * DB :=
  run (assess lab_compliance_draws 12 20 alice "cis_aws" None None) compliance_lab.
Definition assessed_shape (x : outcome ComplianceAssessment * DB) : bool :=
  match x with
  | (Ret a, d) => (CA.controls_total a =? 1)%Z && (CA.controls_passed a =? 1)%Z
                  && Nat.eqb (size (DB.assessment_controls d)) 1
                  && Nat.eqb (size (DB.mappings d)) 12
  | _ => false
  end.
Example assessed_lab_shape : assessed_shape assessed_lab = true.
Proof. vm_compute. reflexivity. Qed.

Lemma assessment_is_a_snapshot_witness :
  ∃ a d' fw dc, assessed_lab = (Ret a, d') ∧ FW.key fw = "cis_aws" ∧ catalogued dc
  ∧ assessed lab_compliance_draws 12 cloud_account fw None dc a d'
  ∧ assessed_shape (Ret a, d') = true.
Proof.
  pose proof (assessment_is_a_snapshot lab_compliance_draws 12 20 alice "cis_aws" None None
    compliance_lab compliance_lab_ok lab_draws_fresh) as H.
  pose proof assessed_lab_shape as Hc. unfold assessed_lab in *.
  destruct (run _ compliance_lab) as [[a|e] d']; [|discriminate Hc].
  destruct H as (account & m & fw & k & dc & Ha & _ & _ & Hcat & _ & Hfw & Has & _).
  injection Ha as <- _. exists a, d', fw, dc. split; [reflexivity|].
  split; [apply Hfw|]. split; [exact Hcat|]. split; [exact Has|exact Hc].
Defined.

(** Of two results in range, one has failures that no finding shows. *)
Definition ssh_mapping (i : uuid) (lo : Z) (hi : option Z) : RuleControlMapping :=
  Mapping.mk i "EC2_SG_SSH_OPEN_TO_WORLD" lo hi 1 2 "detective" "".
Definition ssh_mappings : list RuleControlMapping := [ssh_mapping 1 1 (Some 2%Z); ssh_mapping 2 2 None].
Definition ssh_results : list EvaluationRuleResult :=
  [rule_passed 90 "EC2_SG_SSH_OPEN_TO_WORLD";
   RR.mk 91 80 1 20 "EC2_SG_SSH_OPEN_TO_WORLD" 2 3 1 0 0].

Lemma control_status_exact_witness :
  _control_status ssh_mappings [] CS.PASS ssh_results = CS.ERROR.
Proof.
  apply (control_status_exact ssh_mappings ssh_results); [|discriminate|].
  - intros r r' Hr Hr'. unfold ssh_results in *. set_unfold.
    destruct Hr as [->|[->|[]]], Hr' as [->|[->|[]]]; cbn; congruence.
  - split; [discriminate|]. split; [by intros (f & Hf & _); apply not_elem_of_nil in Hf|].
    right. split; [reflexivity|].
    assert (covered ssh_mappings ssh_results (RR.mk 91 80 1 20 "EC2_SG_SSH_OPEN_TO_WORLD" 2 3 1 0 0))
      as Hc.
    { split; [right; left|]. exists (ssh_mapping 2 2 None). split; [right; left|]. by split. }
    split; [|eexists; split; [exact Hc|right; reflexivity]].
    intros m Hm. eexists. split; [exact Hc|]. unfold ssh_mappings in Hm. set_unfold.
    destruct Hm as [->|[->|[]]]; reflexivity.
Defined.
