(* ===== verification/RemediationActions.v ===== *)
(** services/remediation_actions.py and services/remediation_executor.py: the
    allowlist of remediation actions, and the interface of the executors with
    its offline implementation. *)

From S2P Require Import Prelude.
From S2P Require Import Enums.
From S2P Require Import PyValue.
From S2P Require Import Models.
From S2P Require Import Sha256.
From S2P Require Import Evidence.
From stdpp Require Import strings list.

(** * Actions *)

(** services/remediation_actions.py:6-23, RemediationAction. *)
Record RemediationAction := mk_RemediationAction {
  key : string;
  version : Z;
  rule_keys : list string;
  title : string;
  preview_steps : list string;
  verification_steps : list string;
  rollback_steps : list string;
  timeout_seconds : Z;
  max_attempts : Z
}.

(** The two dicts of a registry. *)
Record RemediationActionRegistry := mk_RemediationActionRegistry {
  _by_key : gmap string RemediationAction;
  _by_rule : gmap string RemediationAction
}.

(** services/remediation_actions.py:27-33, RemediationActionRegistry.__init__. *)
Definition new_RemediationActionRegistry (actions : list RemediationAction)
    : res RemediationActionRegistry :=
  let by_key := foldl (λ d a, <[key a := a]> d) ∅ actions in
  let by_rule := foldl (λ d a, foldl (λ d k, <[k := a]> d) d (rule_keys a)) ∅ actions in
  if Nat.eqb (size by_key) (length actions)
  then inl (mk_RemediationActionRegistry by_key by_rule)
  else inr ValueError.

(** services/remediation_actions.py:35-36, RemediationActionRegistry.for_rule. *)
Definition for_rule (g : RemediationActionRegistry) (rule_key : string)
    : option RemediationAction := _by_rule g !! rule_key.

(** services/remediation_actions.py:38-39, RemediationActionRegistry.get. *)
Definition get_action (g : RemediationActionRegistry) (action_key : string)
    : option RemediationAction := _by_key g !! action_key.

(** services/remediation_actions.py:42-100, DEFAULT_REMEDIATION_ACTIONS. *)
Definition DEFAULT_REMEDIATION_ACTIONS : list RemediationAction := [
  mk_RemediationAction "s3.enable_public_access_block" 1
    ["S3_BUCKET_PUBLIC_ACCESS_BLOCK_INCOMPLETE"]
    "Enable all S3 Block Public Access controls"
    ["Read the current bucket Public Access Block configuration.";
      "Dry-run the four-control Public Access Block configuration."]
    ["Verify all four bucket Public Access Block controls are enabled.";
      "Re-run deterministic discovery and rule evaluation."]
    ["Restore the exact pre-execution Public Access Block configuration."]
    30 3;
  mk_RemediationAction "ec2.revoke_approved_public_ingress" 1
    ["EC2_SG_SSH_OPEN_TO_WORLD"; "EC2_SG_RDP_OPEN_TO_WORLD"; "EC2_SG_ALL_TRAFFIC_OPEN_TO_WORLD"]
    "Remove the specifically approved public security-group ingress"
    ["Resolve the exact security-group rule from immutable finding evidence.";
      "Dry-run removal only when the current rule exactly matches the snapshot."]
    ["Verify the exact approved public ingress rule is absent.";
      "Re-run deterministic discovery and rule evaluation."]
    ["Restore only the exact ingress rule captured in the immutable snapshot."]
    30 3;
  mk_RemediationAction "s3.enable_default_encryption" 1
    ["S3_BUCKET_DEFAULT_ENCRYPTION_MISSING"]
    "Enable safe S3 default encryption"
    ["Read the current bucket encryption configuration.";
      "Dry-run enabling the organization-approved default encryption mode."]
    ["Verify default bucket encryption is enabled.";
      "Re-run deterministic discovery and rule evaluation."]
    ["Restore the exact pre-execution bucket encryption configuration."]
    30 3 ].

(** services/remediation_actions.py:102-102, default_remediation_actions. *)
Definition default_remediation_actions : res RemediationActionRegistry :=
  new_RemediationActionRegistry DEFAULT_REMEDIATION_ACTIONS.

(** * Executors *)

(** services/remediation_executor.py:12-14, RemediationExecutionOutcome. *)
Inductive RemediationExecutionOutcome := SUCCESS | FAILURE.

(** services/remediation_executor.py:17-26, RemediationExecutionResult. *)
Record RemediationExecutionResult := mk_RemediationExecutionResult {
  outcome : RemediationExecutionOutcome;
  before_state : pydict;
  after_state : option pydict;
  sanitized_error : option string;
  precondition_evidence : option pydict;
  verification_result : option pydict;
  rollback_state : option pydict;
  aws_request_ids : option pydict
}.

(** services/remediation_executor.py:29-34, RemediationExecutionContext. *)
Record RemediationExecutionContext := mk_RemediationExecutionContext {
  account : AWSAccount;
  asset : Asset;
  finding : Finding;
  request : RemediationRequest
}.

(** services/remediation_executor.py:37-48, RemediationExecutor.  An executor has
    a state, which for a live one is the outside world; running it can raise. *)
Class RemediationExecutor (E : Type) := {
  executor_key : E → string;
  executor_execute : E → string → uuid → string → bool →
    option RemediationExecutionContext → res RemediationExecutionResult * E
}.

(** models/remediation.py:192-202, RemediationRequest.reject_sensitive_execution_evidence.
    The validator of the three evidence columns. *)
Definition evidence_ok (o : option pydict) : bool :=
  if o is Some d then negb (_contains_sensitive_evidence_key (PDict d)) else true.

Definition safe_result (r : RemediationExecutionResult) : Prop :=
  evidence_ok (Some (default [] (precondition_evidence r))) = true
  ∧ evidence_ok (verification_result r) = true
  ∧ evidence_ok (aws_request_ids r) = true.

(** What the service relies on: the evidence an executor returns is never
    shaped like a credential. *)
Class SafeExecutor (E : Type) `{RemediationExecutor E} :=
  executor_safe : ∀ e action_key finding_id snapshot_hash dry_run context r,
    (executor_execute e action_key finding_id snapshot_hash dry_run context).1 = inl r →
    safe_result r.

(** services/remediation_executor.py:60-62, part of MockRemediationExecutor. *)
Record MockRemediationExecutor := mk_MockRemediationExecutor {
  fault_mode : string;
  invocations : Z
}.

Definition mock_success (before : pydict) (action_key : string) (dry_run : bool)
    : RemediationExecutionResult :=
  mk_RemediationExecutionResult SUCCESS before
    (Some [("simulated_remediated", PBool true); ("action_key", PStr action_key);
           ("dry_run", PBool dry_run)]) None None None None None.
Definition mock_failure (before : pydict) (error : string) : RemediationExecutionResult :=
  mk_RemediationExecutionResult FAILURE before None (Some error) None None None None.

(** services/remediation_executor.py:64-113, MockRemediationExecutor.execute. *)
Definition mock_execute (e : MockRemediationExecutor) (action_key : string)
    (finding_id : uuid) (snapshot_hash : string) (dry_run : bool)
    (_ : option RemediationExecutionContext)
    : res RemediationExecutionResult * MockRemediationExecutor :=
  let e := mk_MockRemediationExecutor (fault_mode e) (invocations e + 1) in
  let before :=
    [("simulated", PBool true); ("action_key", PStr action_key);
     ("finding_id", PStr (uuid_str finding_id)); ("snapshot_hash", PStr snapshot_hash);
     ("dry_run", PBool dry_run); ("attempt", PInt (invocations e))] in
  let r :=
    if String.eqb (fault_mode e) "success" then mock_success before action_key dry_run
    else if String.eqb (fault_mode e) "always_fail" then
      mock_failure before "Mock executor was configured to fail execution."
    else if String.eqb (fault_mode e) "fail_then_succeed" && (invocations e =? 1)%Z then
      mock_failure before "Mock executor transient failure."
    else mock_success before action_key dry_run in
  (inl r, e).

#[export] Instance mock_executor : RemediationExecutor MockRemediationExecutor := {
  executor_key _ := "mock";
  executor_execute := mock_execute
}.

#[export] Instance mock_executor_safe : SafeExecutor MockRemediationExecutor.
Proof.
  intros e a f h d c r. cbn. intros [= <-].
  unfold mock_success, mock_failure. repeat case_match; done.
Qed.

(** * Theorems *)

Lemma by_key_lookup (actions : list RemediationAction) k a (d : gmap string RemediationAction) :
  foldl (λ d a, <[key a := a]> d) d actions !! k = Some a →
  (a ∈ actions ∧ key a = k) ∨ d !! k = Some a.
Proof.
  revert d. induction actions as [|x l IH]; intros d; cbn; [auto|].
  intros [[? ?]|H]%IH; [left; set_solver|]. rewrite lookup_insert in H.
  case_decide; simplify_eq; [left; set_solver|auto].
Qed.

Lemma by_rule_lookup (actions : list RemediationAction) r a (d : gmap string RemediationAction) :
  foldl (λ d a, foldl (λ d k, <[k := a]> d) d (rule_keys a)) d actions !! r = Some a →
  (a ∈ actions ∧ r ∈ rule_keys a) ∨ d !! r = Some a.
Proof.
  revert d. induction actions as [|x l IH]; intros d; cbn; [auto|].
  intros [[? ?]|H]%IH; [left; set_solver|].
  assert (∀ ks (d : gmap string RemediationAction),
    foldl (λ d k, <[k := x]> d) d ks !! r = Some a →
    (a = x ∧ r ∈ ks) ∨ d !! r = Some a) as Hin.
  { clear. induction ks as [|k ks IH]; intros d; cbn; [auto|].
    intros [[? ?]|H]%IH; [left; set_solver|]. rewrite lookup_insert in H.
    case_decide; simplify_eq; [left; set_solver|auto]. }
  apply Hin in H as [[-> ?]|?]; [left; set_solver|auto].
Qed.


Lemma dom_by_key (actions : list RemediationAction) (d : gmap string RemediationAction) :
  dom (foldl (λ d a, <[key a := a]> d) d actions) = dom d ∪ list_to_set (map key actions).
Proof.
  revert d. induction actions as [|x l IH]; intros d; cbn; [set_solver|].
  rewrite IH, dom_insert_L. set_solver.
Qed.

Lemma size_keys (l : list string) :
  size (list_to_set l : gset string) = length l ↔ NoDup l.
Proof.
  induction l as [|x l IH]; cbn; [by rewrite size_empty; split; [constructor|]|].
  rewrite NoDup_cons. destruct (decide (x ∈ l)) as [Hx|Hx].
  - replace ({[x]} ∪ list_to_set l : gset string) with (list_to_set l : gset string)
      by set_solver.
    assert (∀ k : list string, size (list_to_set k : gset string) ≤ length k)%nat as Hle.
    { induction k as [|y k IHk]; cbn; [by rewrite size_empty|].
      pose proof (size_union_alt {[y]} (list_to_set k : gset string)) as E.
      pose proof (subseteq_size (list_to_set k ∖ {[y]}) (list_to_set k : gset string)
        ltac:(set_solver)) as Hs.
      rewrite size_singleton in E. lia. }
    split; [|tauto]. intros H. specialize (Hle l). lia.
  - rewrite size_union by set_solver. rewrite size_singleton. split.
    + intros H. split; [done|]. apply IH. lia.
    + intros [_ H]. apply IH in H. lia.
Qed.

Lemma lookup_by_key (actions : list RemediationAction) a (d : gmap string RemediationAction) :
  NoDup (map key actions) → a ∈ actions →
  foldl (λ d a, <[key a := a]> d) d actions !! key a = Some a.
Proof.
  revert d. induction actions as [|x l IH]; intros d; cbn; [set_solver|].
  rewrite NoDup_cons. intros [Hni Hnd] [->|Ha]%elem_of_cons; [|by apply IH].
  assert (∀ (k : list RemediationAction) (d : gmap string RemediationAction),
    key x ∉ map key k → foldl (λ d a, <[key a := a]> d) d k !! key x = d !! key x) as Hout.
  { clear. induction k as [|y k IH]; intros d; cbn; [done|]. intros Hn.
    rewrite IH by set_solver. rewrite lookup_insert_ne; [done|]. set_solver. }
  rewrite Hout by done. by rewrite lookup_insert_eq.
Qed.

Lemma action_registry_spec actions :
  match new_RemediationActionRegistry actions with
  | inr e => e = ValueError ∧ ¬ NoDup (map key actions)
  | inl g =>
      NoDup (map key actions)
      ∧ (∀ k a, get_action g k = Some a ↔ a ∈ actions ∧ key a = k)
      ∧ (∀ r a, for_rule g r = Some a →
           a ∈ actions ∧ r ∈ rule_keys a ∧ get_action g (key a) = Some a)
  end.
Proof.
  unfold new_RemediationActionRegistry.
  destruct (Nat.eqb_spec (size (foldl (λ d a, <[key a := a]> d) ∅ actions : gmap string _))
    (length actions)) as [E|E].
  all: rewrite <-size_dom, dom_by_key, dom_empty_L, (left_id_L ∅ (∪)),
    <-(length_map key actions), size_keys in E.
  - split; [done|]. unfold get_action, for_rule. cbn.
    assert (∀ k a, foldl (λ d a, <[key a:=a]> d) (∅ : gmap string _) actions !! k = Some a
      ↔ a ∈ actions ∧ key a = k) as Hget.
    { intros k a. split; [|intros [? <-]; by apply lookup_by_key].
      intros [?|H]%by_key_lookup; [done|]. by rewrite lookup_empty in H. }
    split; [done|]. intros r a [[? ?]|H]%by_rule_lookup; [|by rewrite lookup_empty in H].
    rewrite Hget. done.
  - done.
Qed.

(** C40. The allowlist of remediation actions is sound.  A registry is built
    exactly when the keys of the actions are distinct, and refused with
    ValueError otherwise; [get] then returns each action under its key and
    nothing else, and an action that [for_rule] proposes for a rule is one of
    the registered ones, lists that rule and is the one [get] returns for its
    key, which is what the executor checks again before it runs. *)
Theorem action_registry_sound actions :
  match new_RemediationActionRegistry actions with
  | inr e => e = ValueError ∧ ¬ NoDup (map key actions)
  | inl g =>
      NoDup (map key actions)
      ∧ (∀ k a, get_action g k = Some a ↔ a ∈ actions ∧ key a = k)
      ∧ (∀ r a, for_rule g r = Some a →
           a ∈ actions ∧ r ∈ rule_keys a ∧ get_action g (key a) = Some a)
  end.
Proof. apply action_registry_spec. Qed.

(** The shipped allowlist loads, with its three actions. *)
Lemma default_actions_load :
  ∃ g, default_remediation_actions = inl g
  ∧ ∀ k a, get_action g k = Some a ↔ a ∈ DEFAULT_REMEDIATION_ACTIONS ∧ key a = k.
Proof.
  pose proof (action_registry_spec DEFAULT_REMEDIATION_ACTIONS) as H.
  unfold default_remediation_actions.
  destruct (new_RemediationActionRegistry _) as [g|e]; [exists g; tauto|].
  exfalso. apply (proj2 H). apply (bool_decide_unpack _). vm_compute. exact I.
Qed.
