(* ===== verification/AwsExecutor.v ===== *)
(** services/aws_credentials.py and services/aws_remediation_executor.py: the
    tenant's temporary credentials and the live executor of the two approved
    actions.

    AWS is a parameter: [AwsApi] answers the calls the program makes.  The
    state of a run is that service's state and the log of the calls made with
    their answers, which the theorems are about. *)

From S2P Require Import Prelude.
From S2P Require Import Enums.
From S2P Require Import PyValue.
From S2P Require Import Models.
From S2P Require Import Sha256.
From S2P Require Import Evidence.
From S2P Require Import Common.
From S2P Require Import RemediationActions.
From Stdlib Require Import Ascii.
From stdpp Require Import list.

Module Acc := AWSAccount.

(** * The calls *)

(** core/config.py:98-100, part of Settings.  The settings of the role session. *)
Record AwsSettings := mk_AwsSettings {
  aws_role_session_name : string;
  aws_role_session_duration_seconds : Z;
  aws_credential_refresh_window_seconds : Z
}.

(** services/aws_credentials.py:23-28, _TemporaryCredentials. *)
Record Credentials := mk_Credentials {
  access_key_id : string;
  secret_access_key : string;
  session_token : string;
  expires_at : timestamp
}.

(** A boto3 client made with temporary credentials. *)
Record client := mk_client {
  service : string;
  client_region : string;
  credentials : Credentials
}.

Inductive call :=
| AssumeRole (role_arn session_name external_id : string) (duration : Z)
| GetCallerIdentity (c : Credentials)
| GetBucketTagging (c : client) (bucket : string)
| GetPublicAccessBlock (c : client) (bucket : string)
| PutPublicAccessBlock (c : client) (bucket : string) (configuration : pydict)
| DescribeSecurityGroups (c : client) (group : string)
| DescribeSecurityGroupRules (c : client) (group : string)
| RevokeSecurityGroupIngress (c : client) (group : string) (rules : list string).

(** The calls that change the customer's resources. *)
Definition mutating (c : call) : bool :=
  match c with
  | PutPublicAccessBlock _ _ _ | RevokeSecurityGroupIngress _ _ _ => true
  | _ => false
  end.

(** An answer: the dict of the response, the pages of a paginated one, and the
    expiration of credentials, which is a datetime. *)
Record response := mk_response {
  body : pydict;
  pages : list pydict;
  expiration : option timestamp
}.

(** The exceptions of a run: the executor's refusals, the failures of the
    credentials, boto3's two errors and Python's own. *)
Inductive fault :=
| Refusal (code : string)
| AWSConnectionFailure (reason : string)
| ClientError (error : pydict)
| BotoCoreError
| PyError (e : exn).

(** The AWS service, as a third party: a state and an answer to each call,
    which boto3 turns into a response or an exception. *)
Class AwsApi (W : Type) := aws_call : W → call → (response + fault) * W.

Abbreviation entry := (call * (response + fault))%type.

Definition aws (W A : Type) : Type := W * list entry → (A + fault) * (W * list entry).

#[export] Instance aws_ret {W} : MRet (aws W) := λ A a s, (inl a, s).
#[export] Instance aws_bind {W} : MBind (aws W) := λ A B f m s,
  match m s with
  | (inl a, s') => f a s'
  | (inr e, s') => (inr e, s')
  end.

Definition throw {W A} (e : fault) : aws W A := λ s, (inr e, s).
Definition require {W} (b : bool) (e : fault) : aws W () := if b then mret tt else throw e.
(** A pure step of Python. *)
Definition pure {W A} (r : res A) : aws W A :=
  match r with inl a => mret a | inr e => throw (PyError e) end.
Definition perform `{AwsApi W} (c : call) : aws W response := λ s,
  let '(r, w) := aws_call s.1 c in (r, (w, s.2 ++ [(c, r)])).
(** [try: m except: h] *)
Definition handle {W A} (m : aws W A) (h : fault → aws W A) : aws W A := λ s,
  match m s with
  | (inl a, s') => (inl a, s')
  | (inr e, s') => h e s'
  end.

(** * Python's operations on answers *)

(** [v.get(k, default)] *)
Definition get_item (k : string) (dflt v : pyval) : res pyval :=
  match v with PDict d => mret (dget_or k dflt d) | _ => inr AttributeError end.
(** [v[k]] *)
Definition item (k : string) (v : pyval) : res pyval :=
  match v with
  | PDict d => match dget k d with Some x => mret x | None => inr KeyError end
  | _ => inr TypeError
  end.

(** [re.sub(r"[^a-z0-9]+", "_", code.casefold()).strip("_")] *)
Definition safe_code (code : string) : string :=
  replace_char "-" "_" (srev (ldash (srev (ldash (dash_runs false (lower code)))))).

(** [str(exc.response.get("Error", {}).get("Code", "client_error"))] *)
Definition error_code (error : pydict) : res string :=
  v ← get_item "Code" (PStr "client_error") (dget_or "Error" (PDict []) error);
  mret (py_str v).

(** services/aws_credentials.py:148-151, _safe_client_error. *)
Definition _safe_client_error (error : pydict) : res string :=
  code ← error_code error;
  let safe := safe_code code in
  mret ("sts_" +:+ if nonempty safe then safe else "client_error").

(** * Credentials *)

Section provider.
Context `{AwsApi W} (settings : AwsSettings) (now : timestamp).
(** The role, external id and session name of the provider, and the account. *)
Context (role_arn external_id : option string) (session_name : string) (account_id : string).

(** services/aws_credentials.py:86-106, part of
    TenantRoleCredentialProvider._assume_and_verify. *)
Definition assume (role external : string) : aws W Credentials :=
  r ← perform (AssumeRole role session_name external (aws_role_session_duration_seconds settings));
  raw ← pure (item "Credentials" (PDict (body r)));
  _ ← pure (get_item "Expiration" PNone raw);
  let expires := default (now + seconds (aws_role_session_duration_seconds settings))%Z
                   (expiration r) in
  key ← pure (item "AccessKeyId" raw);
  secret ← pure (item "SecretAccessKey" raw);
  token ← pure (item "SessionToken" raw);
  mret (mk_Credentials (py_str key) (py_str secret) (py_str token) expires).

(** services/aws_credentials.py:77-122, TenantRoleCredentialProvider._assume_and_verify. *)
Definition _assume_and_verify : aws W Credentials :=
  match role_arn, external_id with
  | None, _ => throw (AWSConnectionFailure "role_arn_missing")
  | _, None => throw (AWSConnectionFailure "external_id_missing")
  | Some role, Some external =>
      handle
        (c ← assume role external;
         identity ← perform (GetCallerIdentity c);
         owner ← pure (item "Account" (PDict (body identity)));
         _ ← require (String.eqb (py_str owner) account_id)
               (AWSConnectionFailure "caller_account_mismatch");
         mret c)
        (λ e, match e with
              | ClientError error =>
                  code ← pure (_safe_client_error error); throw (AWSConnectionFailure code)
              | BotoCoreError | PyError KeyError | PyError TypeError =>
                  throw (AWSConnectionFailure "sts_validation_failed")
              | e => throw e
              end)
  end.

(** services/aws_credentials.py:65-75, TenantRoleCredentialProvider._current_credentials.
    [cached] is what the provider holds. *)
Definition _current_credentials (cached : option Credentials) : aws W Credentials :=
  let refresh_before := (now + seconds (aws_credential_refresh_window_seconds settings))%Z in
  match cached with
  | Some c => if (expires_at c <=? refresh_before)%Z then _assume_and_verify else mret c
  | None => _assume_and_verify
  end.

(** services/aws_credentials.py:49-58, TenantRoleCredentialProvider.client. *)
Definition provider_client (cached : option Credentials) (service region : string)
    : aws W client :=
  c ← _current_credentials cached; mret (mk_client service region c).
End provider.

(** services/aws_credentials.py:134-145, RemediationRoleCredentialProvider.  The
    provider of the remediation role, whose credentials are fresh. *)
Definition remediation_client `{AwsApi W} (settings : AwsSettings) (now : timestamp)
    (account : AWSAccount) (service region : string) : aws W client :=
  provider_client settings now (Acc.remediation_role_arn account)
    (Acc.remediation_external_id account)
    (str_take 48 (aws_role_session_name settings) +:+ "-Remediation")
    (Acc.account_id account) None service region.

(** * The executor *)

(** services/aws_remediation_executor.py:22-27, S3_PUBLIC_ACCESS_BLOCK_KEYS. *)
Definition S3_PUBLIC_ACCESS_BLOCK_KEYS : list string :=
  ["BlockPublicAcls"; "IgnorePublicAcls"; "BlockPublicPolicy"; "RestrictPublicBuckets"].

(** services/aws_remediation_executor.py:28-32, REQUIRED_REMEDIATION_TAGS. *)
Definition REQUIRED_REMEDIATION_TAGS : list (string * string) :=
  [("CloudOpsLab", "true"); ("Environment", "cloudops-test");
   ("AllowCloudOpsRemediation", "true")].

(** services/aws_remediation_executor.py:33-45, SECURITY_GROUP_RULE_FIELDS. *)
Definition SECURITY_GROUP_RULE_FIELDS : list string :=
  ["GroupId"; "SecurityGroupRuleId"; "IsEgress"; "IpProtocol"; "FromPort"; "ToPort";
   "CidrIpv4"; "CidrIpv6"; "PrefixListId"; "ReferencedGroupInfo"; "Description"].

(** services/aws_remediation_executor.py:105-111, AWSRemediationExecutor._failure. *)
Definition _failure (code : string) : RemediationExecutionResult :=
  mk_RemediationExecutionResult FAILURE [("captured", PBool false)] None (Some code)
    None None None None.

(** services/aws_remediation_executor.py:281-287, AWSRemediationExecutor._normalize_rule. *)
Definition _normalize_rule (rule : pydict) : pydict :=
  omap (λ field, v ← dget field rule;
          Some (field, if String.eqb field "IsEgress" then PBool (is_true_obj v) else v))
    SECURITY_GROUP_RULE_FIELDS.

(** services/aws_remediation_executor.py:289-293,
    AWSRemediationExecutor._normalize_public_access_block. *)
Definition _normalize_public_access_block (value : pyval) : pyval :=
  match value with
  | PDict d => PDict (omap (λ k, v ← dget k d; Some (k, PBool (is_true_obj v)))
                        S3_PUBLIC_ACCESS_BLOCK_KEYS)
  | _ => PNone
  end.

(** One tag of a list, [None] when its key is missing. *)
Definition tag_of (v : pyval) : res (option (string * pyval)) :=
  k ← get_item "Key" PNone v;
  if is_none k then mret None
  else x ← get_item "Value" PNone v; mret (Some (py_str k, PStr (py_str x))).

(** The dict of the tags of a list. *)
Definition tags_of (items : list pyval) : res pydict :=
  tags ← res_map tag_of items; mret (dict_of (omap id tags)).

(** services/aws_remediation_executor.py:295-303, AWSRemediationExecutor._ec2_tags. *)
Definition _ec2_tags (items : pyval) : res pydict :=
  match items with PList l => tags_of (filter (λ v, is_dict v = true) l) | _ => mret [] end.

Definition tags_ok (tags : pydict) : bool :=
  forallb (λ kv, py_eq (dget_or kv.1 PNone tags) (PStr kv.2)) REQUIRED_REMEDIATION_TAGS.

(** services/aws_remediation_executor.py:305-308, AWSRemediationExecutor._require_tags. *)
Definition _require_tags {W} (tags : pydict) : aws W () :=
  require (tags_ok tags) (Refusal "required_remediation_tags_missing").

(** services/aws_remediation_executor.py:310-318, AWSRemediationExecutor._request_id. *)
Definition _request_id (r : pydict) : option string :=
  match dget_or "ResponseMetadata" PNone r with
  | PDict m => let v := dget_or "RequestId" PNone m in
               if py_bool v then Some (str_take 128 (py_str v)) else None
  | _ => None
  end.

(** services/aws_remediation_executor.py:320-325, AWSRemediationExecutor._request_ids. *)
Definition _request_ids (values : list (string * option string)) : option pydict :=
  let bounded := omap (λ kv, v ← kv.2; if nonempty v then Some (kv.1, PStr v) else None) values in
  match bounded with [] => None | _ => Some bounded end.

(** services/aws_remediation_executor.py:259-270, AWSRemediationExecutor._matches_finding. *)
Definition _matches_finding (rule_key : string) (rule : pydict) : bool :=
  let get k := dget_or k PNone rule in
  let world := py_eq (get "CidrIpv4") (PStr "0.0.0.0/0") || py_eq (get "CidrIpv6") (PStr "::/0") in
  let protocol := py_str (get "IpProtocol") in
  world &&
  if String.eqb rule_key "EC2_SG_ALL_TRAFFIC_OPEN_TO_WORLD" then String.eqb protocol "-1"
  else
    let port := PInt (if String.eqb rule_key "EC2_SG_SSH_OPEN_TO_WORLD" then 22 else 3389) in
    String.eqb protocol "tcp" && py_eq (get "FromPort") port && py_eq (get "ToPort") port.

(** The rules of the asset's evidence that the finding can mean. *)
Definition candidate_rule (group rule_key : string) (v : pyval) : option pydict :=
  match v with
  | PDict rule =>
      if py_eq (dget_or "GroupId" PNone rule) (PStr group)
         && is_false_obj (dget_or "IsEgress" PNone rule) && _matches_finding rule_key rule
      then Some (_normalize_rule rule) else None
  | _ => None
  end.

(** services/aws_remediation_executor.py:243-257, AWSRemediationExecutor._approved_rule. *)
Definition _approved_rule (metadata : pydict) (group rule_key : string) : pydict + fault :=
  match dget_or "security_group_rules" PNone metadata with
  | PList raw_rules =>
      match omap (candidate_rule group rule_key) raw_rules with
      | [c] => if py_bool (dget_or "SecurityGroupRuleId" PNone c) then inl c
               else inr (Refusal "security_group_rule_not_unambiguous")
      | _ => inr (Refusal "security_group_rule_not_unambiguous")
      end
  | _ => inr (Refusal "security_group_rule_evidence_missing")
  end.

(** The items of a value that [len] and [[0]] are applied to. *)
Definition group_list (v : pyval) : res (list pyval) :=
  match v with
  | PDict [_] => inr KeyError
  | PDict _ => inl []
  | v => py_iter v
  end.

(** [r.get("SecurityGroupRuleId")] *)
Definition rule_id (rule : pydict) : pyval := dget_or "SecurityGroupRuleId" PNone rule.

(** [sorted(rules, key=lambda r: str(r.get("SecurityGroupRuleId", "")))] *)
Definition sort_rules (rules : list pydict) : list pydict :=
  (sort_items (map (λ r, (py_str (dget_or "SecurityGroupRuleId" (PStr "") r), r)) rules)).*2.

(** The rules of one page. *)
Definition page_rules (group : string) (page : pydict) : res (list pydict) :=
  items ← py_iter (dget_or "SecurityGroupRules" (PList []) page);
  mret (omap (λ v, match v with
                   | PDict d => if py_eq (dget_or "GroupId" PNone d) (PStr group)
                                then Some (_normalize_rule d) else None
                   | _ => None
                   end) items).

(** The metadata column holds a dict. *)
Definition metadata_of (asset : Asset) : res pydict :=
  match Asset.metadata_json asset with PDict d => mret d | _ => inr AttributeError end.

(** [{str(r.get("SecurityGroupRuleId")): r for r in rules}] *)
Definition by_rule_id (rules : list pydict) : pydict :=
  dict_of (map (λ r, (py_str (rule_id r), PDict r)) rules).

Section handlers.
Context `{AwsApi W} (settings : AwsSettings) (now : timestamp).

(** services/aws_remediation_executor.py:133-144, part of
    AWSRemediationExecutor._s3_public_access_block.  The configuration before,
    [PNone] when there is none, and the id of the request. *)
Definition read_block (c : client) (bucket : string) : aws W (pyval * option string) :=
  handle
    (before_response ← perform (GetPublicAccessBlock c bucket);
     mret (_normalize_public_access_block
             (dget_or "PublicAccessBlockConfiguration" PNone (body before_response)),
           _request_id (body before_response)))
    (λ e, match e with
          | ClientError error =>
              code ← pure (get_item "Code" PNone (dget_or "Error" (PDict []) error));
              if py_eq code (PStr "NoSuchPublicAccessBlockConfiguration") then mret (PNone, None)
              else throw (ClientError error)
          | e => throw e
          end).

(** services/aws_remediation_executor.py:113-175, AWSRemediationExecutor._s3_public_access_block. *)
Definition _s3_public_access_block (context : RemediationExecutionContext)
    : aws W RemediationExecutionResult :=
  let asset := RemediationActions.asset context in
  _ ← require (Asset.asset_type asset ≟ AssetType.S3_BUCKET) (Refusal "target_type_mismatch");
  let bucket := Asset.resource_id asset in
  _ ← require (startswith bucket "cloudops-lab-") (Refusal "s3_bucket_prefix_not_allowed");
  c ← remediation_client settings now (RemediationActions.account context) "s3"
        (Asset.region asset);
  tags_response ← perform (GetBucketTagging c bucket);
  items ← pure (py_iter (dget_or "TagSet" (PList []) (body tags_response)));
  tags ← pure (tags_of items);
  _ ← _require_tags tags;
  before ← read_block c bucket;
  metadata ← pure (metadata_of asset);
  _ ← require (py_eq before.1 (dget_or "public_access_block" PNone metadata))
        (Refusal "remediation_precondition_drift");
  let desired := map (λ k, (k, PBool true)) S3_PUBLIC_ACCESS_BLOCK_KEYS in
  write_response ← perform (PutPublicAccessBlock c bucket desired);
  verified_response ← perform (GetPublicAccessBlock c bucket);
  let verified := _normalize_public_access_block
    (dget_or "PublicAccessBlockConfiguration" PNone (body verified_response)) in
  _ ← require (py_eq verified (PDict desired)) (Refusal "remediation_verification_failed");
  mret (mk_RemediationExecutionResult SUCCESS
    [("public_access_block", before.1)]
    (Some [("public_access_block", verified)]) None
    (Some [("matched", PBool true); ("tags_verified", PBool true)])
    (Some [("matched", PBool true)])
    (Some [("public_access_block", before.1);
           ("configuration_was_absent", PBool (is_none before.1))])
    (_request_ids [("read_before", before.2); ("mutate", _request_id (body write_response));
                   ("verify", _request_id (body verified_response))])).

(** services/aws_remediation_executor.py:272-279, AWSRemediationExecutor._security_group_rules. *)
Definition _security_group_rules (c : client) (group : string) : aws W (list pydict) :=
  r ← perform (DescribeSecurityGroupRules c group);
  rules ← pure (res_map (page_rules group) (pages r));
  mret (sort_rules (concat rules)).

(** services/aws_remediation_executor.py:177-241, AWSRemediationExecutor._ec2_revoke_ingress. *)
Definition _ec2_revoke_ingress (context : RemediationExecutionContext)
    : aws W RemediationExecutionResult :=
  let asset := RemediationActions.asset context in
  _ ← require (Asset.asset_type asset ≟ AssetType.EC2_SECURITY_GROUP)
        (Refusal "target_type_mismatch");
  let group_id := Asset.resource_id asset in
  c ← remediation_client settings now (RemediationActions.account context) "ec2"
        (Asset.region asset);
  group_response ← perform (DescribeSecurityGroups c group_id);
  groups ← pure (group_list (dget_or "SecurityGroups" (PList []) (body group_response)));
  group ← match groups with
          | [g] => mret g
          | _ => throw (Refusal "security_group_not_found")
          end;
  id_ ← pure (get_item "GroupId" PNone group);
  _ ← require (py_eq id_ (PStr group_id)) (Refusal "target_resource_mismatch");
  vpc ← pure (get_item "VpcId" PNone group);
  metadata ← pure (metadata_of asset);
  _ ← require (py_eq vpc (dget_or "vpc_id" PNone metadata))
        (Refusal "remediation_precondition_drift");
  raw_tags ← pure (get_item "Tags" (PList []) group);
  tags ← pure (_ec2_tags raw_tags);
  _ ← _require_tags tags;
  approved ← match _approved_rule metadata group_id
                     (Finding.rule_key (RemediationActions.finding context)) with
             | inl r => mret r
             | inr e => throw e
             end;
  before_rules ← _security_group_rules c group_id;
  let same r := py_eq (rule_id r) (rule_id approved) in
  _ ← require (match List.find same before_rules with
               | Some current => py_eq (PDict current) (PDict approved)
               | None => false
               end) (Refusal "remediation_precondition_drift");
  write ← perform (RevokeSecurityGroupIngress c group_id [py_str (rule_id approved)]);
  after_rules ← _security_group_rules c group_id;
  _ ← require (negb (existsb same after_rules)) (Refusal "remediation_verification_failed");
  let unrelated_before := by_rule_id (List.filter (λ r, negb (same r)) before_rules) in
  _ ← require (py_eq (PDict unrelated_before) (PDict (by_rule_id after_rules)))
        (Refusal "unrelated_security_group_rule_changed");
  mret (mk_RemediationExecutionResult SUCCESS
    [("security_group_rule", PDict approved)]
    (Some [("security_group_rule_present", PBool false)]) None
    (Some [("matched", PBool true); ("tags_verified", PBool true)])
    (Some [("matched", PBool true); ("unrelated_rules_unchanged", PBool true)])
    (Some [("security_group_rule", PDict approved)])
    (_request_ids [("describe_group", _request_id (body group_response));
                   ("mutate", _request_id (body write))])).

(** services/aws_remediation_executor.py:79-93, part of AWSRemediationExecutor.execute.
    The body of the try block. *)
Definition dispatch (action_key : string) (dry_run : bool)
    (context : option RemediationExecutionContext) : aws W RemediationExecutionResult :=
  match context with
  | None => throw (Refusal "execution_context_missing")
  | Some context =>
      _ ← require (negb dry_run) (Refusal "live_execution_requires_non_dry_run_request");
      if String.eqb action_key "s3.enable_public_access_block" then
        _s3_public_access_block context
      else if String.eqb action_key "ec2.revoke_approved_public_ingress" then
        _ec2_revoke_ingress context
      else throw (Refusal "action_not_allowed")
  end.

(** services/aws_remediation_executor.py:68-103, AWSRemediationExecutor.execute. *)
Definition aws_execute (action_key : string) (dry_run : bool)
    (context : option RemediationExecutionContext) : aws W RemediationExecutionResult :=
  handle (dispatch action_key dry_run context)
    (λ e, match e with
          | Refusal code => mret (_failure code)
          | AWSConnectionFailure reason => mret (_failure reason)
          | ClientError error =>
              code ← pure (error_code error);
              let safe := safe_code code in
              mret (_failure ("aws_" +:+ if nonempty safe then safe else "client_error"))
          | BotoCoreError | PyError KeyError | PyError TypeError | PyError ValueError =>
              mret (_failure "aws_remediation_failed")
          | e => throw e
          end).
End handlers.

(** services/aws_remediation_executor.py:59-66, part of AWSRemediationExecutor.
    The executor, with the service it reaches and the time. *)
Record AWSRemediationExecutor (W : Type) := mk_AWSRemediationExecutor {
  settings : AwsSettings;
  clock : timestamp;
  world : W;
  log : list entry
}.
Arguments mk_AWSRemediationExecutor {W} _ _ _ _.
Arguments settings {W} _.
Arguments clock {W} _.
Arguments world {W} _.
Arguments log {W} _.

#[export] Instance aws_executor `{AwsApi W} : RemediationExecutor (AWSRemediationExecutor W) := {
  executor_key _ := "aws";
  executor_execute e action_key finding_id snapshot_hash dry_run context :=
    let '(r, (w, l)) := aws_execute (settings e) (clock e) action_key dry_run context
                          (world e, log e) in
    (match r with
     | inl res => inl res
     | inr (PyError ex) => inr ex
     | inr _ => inr OtherException
     end, mk_AWSRemediationExecutor (settings e) (clock e) w l)
}.

(** * Weakest preconditions of runs *)

Definition awp {W A} (m : aws W A) (Q : A + fault → W → list entry → Prop) (w : W)
    (l : list entry) : Prop :=
  Q (m (w, l)).1 (m (w, l)).2.1 (m (w, l)).2.2.

Section awp.
Context `{AwsApi W}.

Lemma awp_ret {A} (a : A) (Q : A + fault → W → list entry → Prop) w l :
  Q (inl a) w l → awp (mret a) Q w l.
Proof. done. Qed.
Lemma awp_throw {A} e (Q : A + fault → W → list entry → Prop) w l :
  Q (inr e) w l → awp (throw e) Q w l.
Proof. done. Qed.
Lemma awp_bind {A B} (m : aws W A) (f : A → aws W B) Q w l :
  awp m (λ r w l, match r with inl a => awp (f a) Q w l | inr e => Q (inr e) w l end) w l →
  awp (m ≫= f) Q w l.
Proof. unfold awp, mbind, aws_bind. by destruct (m (w, l)) as [[a|e] [w' l']]. Qed.
Lemma awp_require b e (Q : () + fault → W → list entry → Prop) w l :
  (b = true → Q (inl tt) w l) → (b = false → Q (inr e) w l) → awp (require b e) Q w l.
Proof. destruct b; intros H1 H2; [by apply H1|by apply H2]. Qed.
Lemma awp_pure {A} (r : res A) (Q : A + fault → W → list entry → Prop) w l :
  (∀ a, r = inl a → Q (inl a) w l) → (∀ e, r = inr e → Q (inr (PyError e)) w l) →
  awp (pure r) Q w l.
Proof. destruct r; intros H1 H2; [by apply H1|by apply H2]. Qed.
Lemma awp_perform c Q w l :
  (∀ r w', Q r w' (l ++ [(c, r)])) → awp (perform c) Q w l.
Proof. unfold awp, perform. cbn. intros HQ. destruct (aws_call w c) as [r w']. apply HQ. Qed.
Lemma awp_handle {A} (m : aws W A) h Q w l :
  awp m (λ r w l, match r with inl a => Q (inl a) w l | inr e => awp (h e) Q w l end) w l →
  awp (handle m h) Q w l.
Proof. unfold awp, handle. by destruct (m (w, l)) as [[a|e] [w' l']]. Qed.
Lemma awp_elim {A} (m : aws W A) (Q : A + fault → W → list entry → Prop) w l :
  awp m Q w l → Q (m (w, l)).1 (m (w, l)).2.1 (m (w, l)).2.2.
Proof. done. Qed.
Lemma awp_mono {A} (m : aws W A) (Q Q' : A + fault → W → list entry → Prop) w l :
  (∀ r w l, Q r w l → Q' r w l) → awp m Q w l → awp m Q' w l.
Proof. unfold awp. auto. Qed.
End awp.

Global Opaque awp.

Ltac awp_step :=
  lazymatch goal with
  | |- awp (mret _) _ _ _ => apply awp_ret
  | |- awp (throw _) _ _ _ => apply awp_throw
  | |- awp (require _ _) _ _ _ => apply awp_require; intros ?
  | |- awp (pure _) _ _ _ => apply awp_pure; [intros ? ?|intros ? ?]
  | |- awp (perform _) _ _ _ => apply awp_perform; intros [?|?] ?
  | |- awp (mbind _ _) _ _ _ => apply awp_bind
  | |- awp (handle _ _) _ _ _ => apply awp_handle
  | |- awp (if ?b then _ else _) _ _ _ => destruct b eqn:?
  | |- awp (match ?x with _ => _ end) _ _ _ => destruct x eqn:?
  end; cbn beta iota.

(** * What a mutating call presupposes *)

Definition read_only (l : list entry) : Prop := Forall (λ x, mutating x.1 = false) l.

(** The credentials are those of an answer of AWS. *)
Definition issued_credentials (r : response) (c : Credentials) : Prop :=
  ∃ raw key secret token,
    dget "Credentials" (body r) = Some (PDict raw)
    ∧ dget "AccessKeyId" raw = Some key ∧ access_key_id c = py_str key
    ∧ dget "SecretAccessKey" raw = Some secret ∧ secret_access_key c = py_str secret
    ∧ dget "SessionToken" raw = Some token ∧ session_token c = py_str token
    ∧ ∀ t, expiration r = Some t → expires_at c = t.

(** The client is one of the service and the region, its credentials are those
    that AWS issued for the account's remediation role and external id, and AWS
    confirmed that they belong to the account. *)
Definition verified_client (account : AWSAccount) (svc region : string) (c : client)
    (l : list entry) : Prop :=
  service c = svc ∧ client_region c = region ∧
  ∃ role name external duration r1 r2 owner,
    Acc.remediation_role_arn account = Some role
    ∧ Acc.remediation_external_id account = Some external
    ∧ (AssumeRole role (name +:+ "-Remediation") external duration, inl r1) ∈ l
    ∧ issued_credentials r1 (credentials c)
    ∧ (GetCallerIdentity (credentials c), inl r2) ∈ l
    ∧ dget "Account" (body r2) = Some owner ∧ py_str owner = Acc.account_id account.

(** AWS reported [block] as the configuration of the bucket. *)
Definition reported_block (c : client) (bucket : string) (block : pyval) (l : list entry) : Prop :=
  (∃ r, (GetPublicAccessBlock c bucket, inl r) ∈ l
     ∧ block = _normalize_public_access_block
                 (dget_or "PublicAccessBlockConfiguration" PNone (body r)))
  ∨ (∃ error code, (GetPublicAccessBlock c bucket, inr (ClientError error)) ∈ l
     ∧ get_item "Code" PNone (dget_or "Error" (PDict []) error) = inl code
     ∧ py_eq code (PStr "NoSuchPublicAccessBlockConfiguration") = true ∧ block = PNone).

(** AWS reported the rules of the group. *)
Definition reported_rules (c : client) (group : string) (rules : list pydict)
    (l : list entry) : Prop :=
  ∃ r rs, (DescribeSecurityGroupRules c group, inl r) ∈ l
  ∧ res_map (page_rules group) (pages r) = inl rs ∧ rules = sort_rules (concat rs).

(** What must hold, and have been read before, when [call] changes the target. *)
Definition allowed (ctx : RemediationExecutionContext) (l : list entry) (c : call) : Prop :=
  let a := RemediationActions.asset ctx in
  ∃ metadata, metadata_of a = inl metadata ∧
  match c with
  | PutPublicAccessBlock cl bucket configuration =>
      verified_client (RemediationActions.account ctx) "s3" (Asset.region a) cl l
      ∧ Asset.asset_type a = AssetType.S3_BUCKET
      ∧ bucket = Asset.resource_id a ∧ startswith bucket "cloudops-lab-" = true
      ∧ configuration = map (λ k, (k, PBool true)) S3_PUBLIC_ACCESS_BLOCK_KEYS
      ∧ (∃ r items tags, (GetBucketTagging cl bucket, inl r) ∈ l
           ∧ py_iter (dget_or "TagSet" (PList []) (body r)) = inl items
           ∧ tags_of items = inl tags ∧ tags_ok tags = true)
      ∧ (∃ block, reported_block cl bucket block l
           ∧ py_eq block (dget_or "public_access_block" PNone metadata) = true)
  | RevokeSecurityGroupIngress cl group ids =>
      verified_client (RemediationActions.account ctx) "ec2" (Asset.region a) cl l
      ∧ Asset.asset_type a = AssetType.EC2_SECURITY_GROUP
      ∧ group = Asset.resource_id a
      ∧ (∃ r g vpc raw_tags tags, (DescribeSecurityGroups cl group, inl r) ∈ l
           ∧ dget_or "SecurityGroups" (PList []) (body r) = PList [g]
           ∧ get_item "VpcId" PNone g = inl vpc
           ∧ py_eq vpc (dget_or "vpc_id" PNone metadata) = true
           ∧ get_item "Tags" (PList []) g = inl raw_tags
           ∧ _ec2_tags raw_tags = inl tags ∧ tags_ok tags = true)
      ∧ (∃ approved rules current,
           _approved_rule metadata group (Finding.rule_key (RemediationActions.finding ctx))
             = inl approved
           ∧ ids = [py_str (rule_id approved)]
           ∧ reported_rules cl group rules l
           ∧ List.find (λ r, py_eq (rule_id r) (rule_id approved)) rules = Some current
           ∧ py_eq (PDict current) (PDict approved) = true)
  | _ => True
  end.

(** A log in which a change is the only one and was allowed. *)
Definition guarded_log (ctx : option RemediationExecutionContext) (l : list entry) : Prop :=
  ∀ pre c r post, l = pre ++ (c, r) :: post → mutating c = true →
    read_only pre ∧ read_only post
    ∧ ∃ context, ctx = Some context ∧ allowed context pre c.

Lemma read_only_app l l' : read_only (l ++ l') ↔ read_only l ∧ read_only l'.
Proof. apply Forall_app. Qed.

Lemma read_only_snoc l c r : read_only l → mutating c = false → read_only (l ++ [(c, r)]).
Proof. intros Hl Hc. apply read_only_app. split; [done|]. by constructor. Qed.

Lemma read_only_guarded ctx l : read_only l → guarded_log ctx l.
Proof.
  intros Hl pre c r post -> Hc. apply read_only_app in Hl as [_ Hl].
  apply Forall_cons in Hl as [Hl _]. cbn in Hl. congruence.
Qed.

Lemma one_change_guarded context l c r post :
  read_only l → mutating c = true → allowed context l c → read_only post →
  guarded_log (Some context) (l ++ (c, r) :: post).
Proof.
  intros Hl Hc Ha Hp pre c' r' post' E Hc'.
  assert (pre = l ∧ c' = c ∧ post' = post) as (-> & -> & ->); [|by eauto].
  revert pre Hl E. clear Ha. induction l as [|x l IH]; intros pre Hl E; destruct pre as [|y pre].
  - by simplify_eq/=.
  - exfalso. simplify_eq/=. apply Forall_app in Hp as [_ Hp]. apply Forall_cons in Hp as [Hp _].
    cbn in Hp. congruence.
  - exfalso. simplify_eq/=. apply Forall_cons in Hl as [Hx _]. cbn in Hx. congruence.
  - simplify_eq/=. apply Forall_cons in Hl as [_ Hl].
    destruct (IH pre Hl) as (-> & -> & ->); done.
Qed.

#[export] Hint Resolve read_only_snoc : rows.

(** The only group of an answer, when it has the fields of a dict. *)
Lemma only_group v p x :
  group_list v = inl [p] → get_item "GroupId" PNone p = inl x → v = PList [p].
Proof.
  destruct v as [| | |s|l|d]; cbn; try done.
  - intros [= Hs]. destruct s as [|c s]; [done|]. cbn in Hs. by injection Hs as <- _.
  - by intros [= ->].
  - by destruct d as [|? []].
Qed.

Section guarded.
Context `{AwsApi W} (settings : AwsSettings) (now : timestamp).

(** The log grows by reads. *)
Definition extends (l l' : list entry) : Prop := ∃ reads, l' = l ++ reads ∧ read_only reads.

Lemma extends_refl l : extends l l.
Proof. exists []. rewrite app_nil_r. split; [done|]. constructor. Qed.
Lemma extends_trans l1 l2 l3 : extends l1 l2 → extends l2 l3 → extends l1 l3.
Proof.
  intros (r1 & -> & H1) (r2 & -> & H2). exists (r1 ++ r2). rewrite app_assoc.
  split; [done|]. by apply read_only_app.
Qed.
Lemma extends_snoc l l' c r :
  extends l l' → mutating c = false → extends l (l' ++ [(c, r)]).
Proof.
  intros Hl Hc. eapply extends_trans; [done|]. exists [(c, r)]. split; [done|].
  by apply Forall_singleton.
Qed.
Lemma extends_sub l l' : extends l l' → l ⊆ l'.
Proof. intros (r & -> & _). set_solver. Qed.
Lemma extends_read_only l : extends [] l → read_only l.
Proof. by intros (r & -> & Hr). Qed.
Hint Resolve extends_refl extends_snoc : rows.

Lemma verified_extends a svc region c l l' :
  verified_client a svc region c l → l ⊆ l' → verified_client a svc region c l'.
Proof.
  intros (Hsvc & Hreg & role & name & ext & dur & r1 & r2 & owner & H1) Hs.
  split; [done|]. split; [done|]. exists role, name, ext, dur, r1, r2, owner. set_solver.
Qed.

(** The credentials that are read from an answer are those it issued. *)
Lemma assume_issued r raw x key secret token expires :
  item "Credentials" (PDict (body r)) = inl raw → get_item "Expiration" PNone raw = inl x →
  item "AccessKeyId" raw = inl key → item "SecretAccessKey" raw = inl secret →
  item "SessionToken" raw = inl token → (∀ t, expiration r = Some t → expires = t) →
  issued_credentials r (mk_Credentials (py_str key) (py_str secret) (py_str token) expires).
Proof.
  intros H1 H2 H3 H4 H5 He. destruct raw as [| | | | |raw]; try done. cbn in *.
  destruct (dget "Credentials" (body r)) as [v|] eqn:E1; [injection H1 as ->|done].
  destruct (dget "AccessKeyId" raw) eqn:E3; [injection H3 as ->|done].
  destruct (dget "SecretAccessKey" raw) eqn:E4; [injection H4 as ->|done].
  destruct (dget "SessionToken" raw) eqn:E5; [injection H5 as ->|done].
  exists raw, key, secret, token. by split_and!.
Qed.

Lemma awp_remediation_client account svc region (Q : client + fault → W → list entry → Prop) w l :
  (∀ c w' l', extends l l' → verified_client account svc region c l' → Q (inl c) w' l') →
  (∀ e w' l', extends l l' → Q (inr e) w' l') →
  awp (remediation_client settings now account svc region) Q w l.
Proof.
  intros HQ HE. unfold remediation_client, provider_client, _current_credentials,
    _assume_and_verify, assume.
  repeat awp_step.
  all: try (apply HE; auto with rows).
  match goal with H : String.eqb _ _ = true |- _ => apply String.eqb_eq in H end.
  match goal with H : item "Account" _ = inl _ |- _ =>
    cbn in H; destruct (dget "Account" _) eqn:?; [injection H as ->|done] end.
  apply HQ; [auto with rows|]. split; [done|]. split; [done|].
  eexists _, _, _, _, _, _, _. split_and!; [done|done| | | |done|done].
  - apply elem_of_app. left. apply elem_of_app. right. by apply list_elem_of_singleton.
  - eapply assume_issued; [eassumption..|]. by intros t ->.
  - apply elem_of_app. right. by apply list_elem_of_singleton.
Qed.

Lemma awp_read_block c bucket (Q : pyval * option string + fault → W → list entry → Prop) w l :
  (∀ block i w' l', extends l l' → reported_block c bucket block l' → Q (inl (block, i)) w' l') →
  (∀ e w' l', extends l l' → Q (inr e) w' l') →
  awp (read_block c bucket) Q w l.
Proof.
  intros HQ HE. unfold read_block. repeat awp_step.
  all: try (apply HE; auto with rows).
  - apply HQ; [auto with rows|]. left. eexists. split; [|done].
    apply elem_of_app. right. by apply list_elem_of_singleton.
  - apply HQ; [auto with rows|]. right. eexists _, _. split_and!; [|done..].
    apply elem_of_app. right. by apply list_elem_of_singleton.
Qed.

Lemma awp_security_group_rules c group (Q : list pydict + fault → W → list entry → Prop) w l :
  (∀ rules w' l', extends l l' → reported_rules c group rules l' → Q (inl rules) w' l') →
  (∀ e w' l', extends l l' → Q (inr e) w' l') →
  awp (_security_group_rules c group) Q w l.
Proof.
  intros HQ HE. unfold _security_group_rules. repeat awp_step.
  all: try (apply HE; auto with rows).
  apply HQ; [auto with rows|]. eexists _, _. split_and!; [|done..].
  apply elem_of_app. right. by apply list_elem_of_singleton.
Qed.

(** The log of a run that began with an empty one. *)
Definition run_post (ctx : RemediationExecutionContext) :
    RemediationExecutionResult + fault → W → list entry → Prop :=
  λ _ _ l, guarded_log (Some ctx) l.

Lemma reads_guarded ctx l : extends [] l → guarded_log (Some ctx) l.
Proof. intros Hl. by apply read_only_guarded, extends_read_only. Qed.

(** After the change only reads may follow. *)
Lemma changed_guarded ctx l c r l' :
  extends [] l → allowed ctx l c → mutating c = true → extends (l ++ [(c, r)]) l' →
  guarded_log (Some ctx) l'.
Proof.
  intros Hl Ha Hc (post & -> & Hp). rewrite <-app_assoc. cbn.
  apply one_change_guarded; auto using extends_read_only.
Qed.

Lemma s3_log_guarded ctx w :
  awp (_s3_public_access_block settings now ctx) (run_post ctx) w [].
Proof.
  unfold _s3_public_access_block, _require_tags, run_post.
  apply awp_bind, awp_require; [|intros _; apply reads_guarded; auto with rows].
  intros Ht. awp_step. apply awp_require; [|intros _; apply reads_guarded; auto with rows].
  intros Hp. awp_step. apply awp_remediation_client; [|intros; by apply reads_guarded].
  intros c w1 l1 H1 Hc. repeat awp_step; try (apply reads_guarded; auto with rows).
  apply awp_read_block;
    [|intros; apply reads_guarded; eapply extends_trans; [|done]; auto with rows].
  intros block i w2 l2 H2' Hb. pose proof (extends_sub _ _ H2') as Hsub.
  assert (extends [] l2) as H2'' by (eapply extends_trans; [|done]; auto with rows).
  do 2 (awp_step; awp_step; [|by apply reads_guarded]). bools.
  assert (allowed ctx l2 (PutPublicAccessBlock c (Asset.resource_id (asset ctx))
    (map (λ k : string, (k, PBool true)) S3_PUBLIC_ACCESS_BLOCK_KEYS))) as Hall.
  { eexists. split; [done|]. split; [eapply verified_extends; [done|set_solver]|].
    split; [done|]. split; [done|]. split; [done|]. split; [done|]. split; [|by eauto].
    eexists _, _, _. split_and!; [|done..]. set_solver. }
  pose proof (λ r l', changed_guarded ctx l2 _ r l' H2'' Hall eq_refl) as Hafter.
  repeat awp_step; eapply Hafter; auto with rows.
Qed.

Lemma ec2_log_guarded ctx w :
  awp (_ec2_revoke_ingress settings now ctx) (run_post ctx) w [].
Proof.
  unfold _ec2_revoke_ingress, _require_tags, run_post.
  apply awp_bind, awp_require; [|intros _; apply reads_guarded; auto with rows].
  intros Ht. awp_step. apply awp_remediation_client; [|intros; by apply reads_guarded].
  intros c w1 l1 H1 Hc. repeat awp_step; try (apply reads_guarded; auto with rows).
  apply awp_security_group_rules;
    [|intros; apply reads_guarded; eapply extends_trans; [|done]; auto with rows].
  intros rules w2 l2 H2' Hrules. pose proof (extends_sub _ _ H2') as Hsub.
  assert (extends [] l2) as H2'' by (eapply extends_trans; [|done]; auto with rows).
  awp_step. awp_step; [|by apply reads_guarded]. bools. subst.
  match goal with H : context [List.find ?f ?l] |- _ =>
    destruct (List.find f l) as [current|] eqn:Hcur; [|done] end.
  match goal with H : group_list _ = inl [?p], H' : get_item "GroupId" _ ?p = _ |- _ =>
    pose proof (only_group _ _ _ H H') as Hone end.
  match goal with H : _approved_rule _ _ _ = inl ?rule |- _ =>
    assert (allowed ctx l2 (RevokeSecurityGroupIngress c (Asset.resource_id (asset ctx))
      [py_str (rule_id rule)])) as Hall end.
  { eexists. split; [done|]. split; [eapply verified_extends; [done|set_solver]|].
    split; [done|]. split; [done|]. split.
    - eexists _, _, _, _, _. split_and!; [|done..]. set_solver.
    - eexists _, _, _. by split_and!. }
  pose proof (λ r l', changed_guarded ctx l2 _ r l' H2'' Hall eq_refl) as Hafter.
  awp_step. awp_step; [|eapply Hafter; auto with rows].
  awp_step. apply awp_security_group_rules; [|intros; by eapply Hafter].
  intros. repeat awp_step; by eapply Hafter.
Qed.
End guarded.

Section execution.
Context `{AwsApi W}.

(** The exception handlers make no call and return failures. *)
Lemma awp_aws_execute st now action_key dry_run ctx
    (Q : RemediationExecutionResult + fault → W → list entry → Prop) w l :
  awp (dispatch st now action_key dry_run ctx)
    (λ r w' l', match r with
     | inl res => Q (inl res) w' l'
     | inr _ => (∀ code, Q (inl (_failure code)) w' l') ∧ (∀ e, Q (inr e) w' l')
     end) w l →
  awp (aws_execute st now action_key dry_run ctx) Q w l.
Proof.
  intros Hd. unfold aws_execute. apply awp_handle. eapply awp_mono, Hd.
  intros [res|e] w' l' Hr; cbn; [done|]. destruct Hr as [Hf He].
  repeat awp_step; auto.
Qed.

Lemma execute_log st now action_key dry_run ctx w :
  awp (aws_execute st now action_key dry_run ctx)
    (λ _ _ l, ∀ pre c r post, l = pre ++ (c, r) :: post → mutating c = true →
       read_only pre ∧ read_only post ∧ dry_run = false
       ∧ ∃ context, ctx = Some context ∧ allowed context pre c) w [].
Proof.
  apply awp_aws_execute. apply (awp_mono _ (λ _ _ l, ∀ pre c r post,
    l = pre ++ (c, r) :: post → mutating c = true →
    read_only pre ∧ read_only post ∧ dry_run = false
    ∧ ∃ context, ctx = Some context ∧ allowed context pre c)).
  { intros [res|e] w' l Hl; [done|]. by split. }
  unfold dispatch. destruct ctx as [ctx|]; [|apply awp_throw; by intros []].
  apply awp_bind, awp_require; [|by intros _ []]. intros Hdry. bools.
  repeat awp_step; [| |by intros []].
  all: (eapply awp_mono; [|first [apply s3_log_guarded|apply ec2_log_guarded]]).
  all: intros r' w' l Hg pre c r post E Hc; destruct (Hg pre c r post E Hc) as (?&?&?); done.
Qed.

Lemma request_ids_safe values :
  forallb (λ kv, negb (rx_search SENSITIVE_EVIDENCE_KEY kv.1)) values = true →
  evidence_ok (_request_ids values) = true.
Proof.
  intros Hv. unfold _request_ids.
  set (bounded := omap _ values).
  assert (forallb (λ kv : string * pyval, negb (rx_search SENSITIVE_EVIDENCE_KEY kv.1)
    && is_str kv.2) bounded = true) as Hb.
  { subst bounded. induction values as [|[k [v|]] values IH]; cbn in *; [done| |].
    - apply andb_true_iff in Hv as [Hk Hv]. destruct (nonempty v); cbn; [|auto].
      rewrite Hk. auto.
    - apply andb_true_iff in Hv as [Hk Hv]. auto. }
  destruct bounded as [|x l]; [done|]. cbn [evidence_ok]. apply negb_true_iff.
  unfold _contains_sensitive_evidence_key. apply contains_key_dict.
  rewrite forallb_Forall in Hb. eapply Forall_impl; [exact Hb|]. intros [k v] Hkv. bools.
  split; [done|]. by destruct v.
Qed.

Definition safe_outcome (r : RemediationExecutionResult + fault) : Prop :=
  match r with inl res => safe_result res | inr _ => True end.

Lemma execute_safe st now action_key dry_run ctx w l :
  awp (aws_execute st now action_key dry_run ctx) (λ r _ _, safe_outcome r) w l.
Proof.
  apply awp_aws_execute. apply (awp_mono _ (λ r _ _, safe_outcome r)).
  { intros [res|e] w' l'; [done|]. by split. }
  unfold dispatch, _s3_public_access_block, _ec2_revoke_ingress, _require_tags.
  repeat first [awp_step | exact I
    | apply awp_remediation_client; intros | apply awp_read_block; intros
    | apply awp_security_group_rules; intros].
  all: split; [done|split; [done|]]; apply request_ids_safe; done.
Qed.
End execution.

#[export] Instance aws_executor_safe `{AwsApi W} : SafeExecutor (AWSRemediationExecutor W).
Proof.
  intros e action_key finding_id snapshot_hash dry_run ctx res. cbn [executor_execute aws_executor].
  pose proof (execute_safe (settings e) (clock e) action_key dry_run ctx (world e) (log e)) as Hs.
  apply awp_elim in Hs. destruct (aws_execute _ _ _ _ _ _) as [[r|ex] [w l]]; cbn in *.
  - by intros [= <-].
  - by destruct ex.
Qed.

(** C2. A change of a customer's resource is guarded.  Whatever AWS answers, one
    execution that starts with an empty log makes at most one call that
    changes anything, and only when, before it: the execution is not a dry run
    and has a context; the client is one of the asset's service and region with the
    temporary credentials, key, secret, token and expiration, that AWS issued
    for the account's remediation role and external id, and AWS confirmed that
    they are that account's; and the target was read with that client, has the three
    required tags, and is in the state that the asset's evidence records.  The
    call then is either the block of all public access on the asset's own
    bucket, whose name has the laboratory prefix, or the removal of the one
    ingress rule of the asset's own security group that the finding means. *)
Theorem changes_are_guarded `{AwsApi W} (e : AWSRemediationExecutor W) action_key finding_id
    snapshot_hash dry_run ctx :
  log e = [] →
  let l := log (executor_execute e action_key finding_id snapshot_hash dry_run ctx).2 in
  ∀ pre c r post, l = pre ++ (c, r) :: post → mutating c = true →
    read_only pre ∧ read_only post ∧ dry_run = false
    ∧ ∃ context, ctx = Some context ∧ allowed context pre c.
Proof.
  intros Hlog. cbn [executor_execute aws_executor].
  pose proof (execute_log (settings e) (clock e) action_key dry_run ctx (world e)) as Hl.
  apply awp_elim in Hl. rewrite Hlog.
  destruct (aws_execute _ _ _ _ _ _) as [r [w l]]. exact Hl.
Qed.

(** The change was made and AWS reported its effect afterwards. *)
Definition verified_change (l : list entry) : Prop :=
  ∃ pre c r post, l = pre ++ (c, inl r) :: post ∧
  match c with
  | PutPublicAccessBlock cl bucket configuration =>
      ∃ block, reported_block cl bucket block post ∧ py_eq block (PDict configuration) = true
  | RevokeSecurityGroupIngress cl group ids =>
      ∃ removed before after, ids = [py_str (rule_id removed)]
      ∧ reported_rules cl group before pre ∧ reported_rules cl group after post
      ∧ (∀ x, x ∈ after → py_eq (rule_id x) (rule_id removed) = false)
      ∧ py_eq (PDict (by_rule_id (List.filter
                 (λ x, negb (py_eq (rule_id x) (rule_id removed))) before)))
              (PDict (by_rule_id after)) = true
  | _ => False
  end.

Section success.
Context `{AwsApi W}.

Definition success_post : RemediationExecutionResult + fault → W → list entry → Prop :=
  λ r _ l, match r with
           | inl res => RemediationActions.outcome res = SUCCESS → verified_change l
           | inr _ => True
           end.

Lemma s3_success st now ctx w :
  awp (_s3_public_access_block st now ctx) success_post w [].
Proof.
  unfold _s3_public_access_block, _require_tags.
  repeat first [awp_step | exact I | apply awp_remediation_client; intros
               | apply awp_read_block; intros].
  intros _. eexists _, _, _, _. split; [by rewrite <-app_assoc|].
  eexists. split; [|done]. left. eexists. split; [|done]. by apply list_elem_of_singleton.
Qed.

(** The rules read after the change, as the tail of the log. *)
Lemma awp_rules_after c group (Q : list pydict + fault → W → list entry → Prop) w l :
  (∀ rules w' tail, reported_rules c group rules tail → Q (inl rules) w' (l ++ tail)) →
  (∀ e w' tail, Q (inr e) w' (l ++ tail)) →
  awp (_security_group_rules c group) Q w l.
Proof.
  intros HQ HE. unfold _security_group_rules. repeat awp_step.
  all: try apply HE.
  apply HQ. eexists _, _. split_and!; [|done..]. by apply list_elem_of_singleton.
Qed.

Lemma ec2_success st now ctx w :
  awp (_ec2_revoke_ingress st now ctx) success_post w [].
Proof.
  unfold _ec2_revoke_ingress, _require_tags.
  repeat first [awp_step | exact I | apply awp_remediation_client; intros
               | lazymatch goal with |- awp (_security_group_rules _ _) _ _ (_ ++ [(RevokeSecurityGroupIngress _ _ _, _)]) =>
                   apply awp_rules_after; intros end
               | apply awp_security_group_rules; intros].
  intros _. eexists _, _, _, _. split; [by rewrite <-app_assoc|].
  eexists _, _, _. split_and!; [done|eassumption|eassumption| |assumption].
  intros x Hx. apply not_true_iff_false. intros E. bools.
  match goal with H : existsb _ _ = false |- _ => apply not_true_iff_false in H; apply H end.
  apply existsb_exists. exists x. split; [by apply list_elem_of_In|done].
Qed.

Lemma execute_success st now action_key dry_run ctx w :
  awp (aws_execute st now action_key dry_run ctx) success_post w [].
Proof.
  apply awp_aws_execute. apply (awp_mono _ success_post).
  { intros [res|e] w' l; [done|]. by split. }
  unfold dispatch. destruct ctx as [ctx|]; [|exact I].
  apply awp_bind, awp_require; [intros _|done]. repeat awp_step; [| |exact I].
  - apply s3_success.
  - apply ec2_success.
Qed.
End success.

(** Success is verified.  When the live executor reports success, its log
    shows the change answered without error and, read after it, its effect:
    all four public access blocks on for the bucket, or, for the group, the
    removed rule gone and every other rule as it was reported before.  So a
    remediation is never recorded as succeeded on the strength of the change's
    own answer. *)
Theorem success_is_verified `{AwsApi W} (e : AWSRemediationExecutor W) action_key finding_id
    snapshot_hash dry_run ctx res :
  log e = [] →
  (executor_execute e action_key finding_id snapshot_hash dry_run ctx).1 = inl res →
  RemediationActions.outcome res = SUCCESS →
  verified_change (log (executor_execute e action_key finding_id snapshot_hash dry_run ctx).2).
Proof.
  intros Hlog. cbn [executor_execute aws_executor].
  pose proof (execute_success (settings e) (clock e) action_key dry_run ctx (world e)) as Hs.
  apply awp_elim in Hs. rewrite Hlog.
  destruct (aws_execute _ _ _ _ _ _) as [[r|ex] [w l]]; cbn in *.
  - intros [= <-]. exact Hs.
  - by destruct ex.
Qed.

(** * Witnesses *)

(** A service that answers from a script. *)
Definition script : Type := list (response + fault).
#[export] Instance scripted : AwsApi script := λ answers _,
  match answers with
  | [] => (inr BotoCoreError, [])
  | r :: answers => (r, answers)
  end.

Definition answer (d : pydict) : response + fault := inl (mk_response d [] None).
Definition block_of (b : bool) : pydict :=
  [("PublicAccessBlockConfiguration",
    PDict (map (λ k, (k, PBool b)) S3_PUBLIC_ACCESS_BLOCK_KEYS))].
Definition sts_answers : script := [
  answer [("Credentials", PDict [("AccessKeyId", PStr "AK"); ("SecretAccessKey", PStr "SK");
                                 ("SessionToken", PStr "ST")])];
  answer [("Account", PStr "123456789012")];
  answer [("TagSet", PList (map (λ kv, PDict [("Key", PStr kv.1); ("Value", PStr kv.2)])
                              REQUIRED_REMEDIATION_TAGS))];
  answer (block_of false); answer []].

Definition bucket_account : AWSAccount :=
  Acc.mk 20 1 "lab" "123456789012" None "ext"
    (Some "arn:aws:iam::123456789012:role/Remediate") (Some "cloudops-remediation-x")
    true (Some 1%Z) (Some 10%N) AWSAccountStatus.CONNECTED AWSAccountStatus.CONNECTED None None
    None None 0 10.
Definition bucket : Asset :=
  Asset.mk 30 1 20 AssetType.S3_BUCKET "cloudops-lab-data" (Some "arn:aws:s3:::cloudops-lab-data")
    "data" "us-east-1" None (PDict [])
    (PDict [("public_access_block", PDict (map (λ k, (k, PBool false)) S3_PUBLIC_ACCESS_BLOCK_KEYS))])
    0 0 true.
Definition bucket_finding : Finding :=
  Finding.mk 40 1 20 (Some 30%N) "S3_BUCKET_PUBLIC_ACCESS_BLOCK_INCOMPLETE" 1
    FindingSeverity.HIGH "storage" FindingStatus.OPEN (PDict [("complete", PBool false)])
    0 0 None None None None None 50 0.
Definition bucket_request : RemediationRequest :=
  RemediationRequest.mk 60 1 20 40 "" 1 "" 1 "" None None None RemediationStatus.APPROVED
    RemediationExecutionMode.LIVE_AWS None None None true "" "" [] [] [] PNone PNone "" None None
    false None None None PNone None None 0 None None 0 None None None None None.
Definition bucket_context : RemediationExecutionContext :=
  mk_RemediationExecutionContext bucket_account bucket bucket_finding bucket_request.
Definition role_settings : AwsSettings := mk_AwsSettings "CloudOps" 900 60.
Definition executor_with (s : script) : AWSRemediationExecutor script :=
  mk_AWSRemediationExecutor role_settings 0 s [].
Definition run_bucket (s : script) :
    res RemediationExecutionResult * AWSRemediationExecutor script :=
  executor_execute (executor_with s) "s3.enable_public_access_block" 40 "hash" false
    (Some bucket_context).

Definition good_script : script := sts_answers ++ [answer (block_of true)].

Lemma changes_are_guarded_witness :
  ∃ pre c r post, log (run_bucket good_script).2 = pre ++ (c, r) :: post ∧ length pre = 4%nat
  ∧ mutating c = true ∧ read_only pre ∧ read_only post ∧ allowed bucket_context pre c.
Proof.
  assert (∃ c r, log (run_bucket good_script).2
    = take 4 (log (run_bucket good_script).2) ++ (c, r) :: drop 5 (log (run_bucket good_script).2)
    ∧ mutating c = true) as (c & r & E & Hc).
  { eexists _, _. split; vm_compute; reflexivity. }
  exists (take 4 (log (run_bucket good_script).2)), c, r, (drop 5 (log (run_bucket good_script).2)).
  split; [exact E|]. split; [vm_compute; reflexivity|]. split; [exact Hc|].
  destruct (changes_are_guarded (executor_with good_script) "s3.enable_public_access_block" 40 "hash"
    false (Some bucket_context) eq_refl _ c r _ E Hc) as (H1 & H2 & _ & ctx & [= <-] & H3).
  split; [exact H1|]. split; [exact H2|exact H3].
Defined.

Lemma success_is_verified_witness : verified_change (log (run_bucket good_script).2).
Proof.
  destruct (run_bucket good_script).1 as [res|e] eqn:E; [|vm_compute in E; discriminate].
  apply (success_is_verified (executor_with good_script) "s3.enable_public_access_block" 40 "hash"
    false (Some bucket_context) res eq_refl); [exact E|].
  vm_compute in E. injection E as <-. reflexivity.
Defined.

(** A failure after the change loses the state before it.  There are answers
    of AWS for which the executor makes the change, fails to verify it, and
    reports a failure that has no rollback state and whose before state says
    that nothing was captured, although the configuration was read and the
    request that changed it succeeded. *)
Theorem failed_change_is_not_captured :
  ∃ answers res, (run_bucket answers).1 = inl res
  ∧ RemediationActions.outcome res = FAILURE
  ∧ before_state res = [("captured", PBool false)] ∧ rollback_state res = None
  ∧ aws_request_ids res = None
  ∧ ∃ c r, (c, inl r) ∈ log (run_bucket answers).2 ∧ mutating c = true.
Proof.
  exists (sts_answers ++ [answer (block_of false)]).
  eexists. split; [vm_compute; reflexivity|]. split_and!; [reflexivity..|].
  eexists _, _. split.
  - assert (∀ l (x : entry), nth_error l 4 = Some x → x ∈ l) as Hnth
      by (intros l x Hx; apply list_elem_of_In; by eapply nth_error_In).
    apply Hnth. vm_compute. reflexivity.
  - reflexivity.
Qed.
