(* ===== verification/Remediation.v ===== *)
(** services/remediation.py: the approval workflow of remediation requests and
    the guarded route to an executor, with the endpoints of
    api/v1/remediation.py that call it.

    The service is built for one request or one job, so the state its executor
    is left in is not used again and is dropped here; the executors themselves
    are in RemediationActions and AwsExecutor. *)

From S2P Require Import Prelude.
From S2P Require Import Enums.
From S2P Require Import Rbac.
From S2P Require Import PyValue.
From S2P Require Import Models.
From S2P Require Import Sha256.
From S2P Require Import AiSafety.
From S2P Require Import Evidence.
From S2P Require Import Common.
From S2P Require Import Organizations.
From S2P Require Import PlatformJobs.
From S2P Require SecurityRules.
From S2P Require Import RemediationActions.
From stdpp Require Import list.

Module Req := RemediationRequest.
Abbreviation Request := RemediationRequest.

(** core/config.py:138-140, part of Settings.  The three switches of
    remediation. *)
Record Settings := mk_Settings {
  remediation_execution_enabled : bool;
  remediation_live_aws_enabled : bool;
  remediation_emergency_stop : bool
}.

(** services/remediation.py:35-35, MAX_EXECUTION_ATTEMPTS. *)
Definition MAX_EXECUTION_ATTEMPTS : Z := 3.

(** [hashlib.sha256(canonical_json(v).encode()).hexdigest()] *)
Definition hash_json (v : pyval) : string := sha256_hex (canonical_json v).

(** [hashlib.sha256(f"{organization_id}:{finding_id}:{snapshot_hash}".encode())] *)
Definition idempotency_hash (organization_id finding_id : uuid) (snapshot_hash : string)
    : string :=
  sha256_hex (uuid_str organization_id +:+ ":" +:+ uuid_str finding_id +:+ ":"
              +:+ snapshot_hash).

(** [snapshot.get(k) == s]; the column holds a dict. *)
Definition snapshot_has (k : string) (s : string) (snapshot : pyval) : bool :=
  match snapshot with
  | PDict d => py_eq (dget_or k PNone d) (PStr s)
  | _ => false
  end.

Arguments hash_json : simpl never.
Arguments idempotency_hash : simpl never.
#[global] Opaque hash_json idempotency_hash.

(** * Constraints of the table *)

(** The statuses of a request that is still open. *)
Definition OPEN_STATUSES : list RemediationStatus :=
  [RemediationStatus.PENDING_APPROVAL; RemediationStatus.APPROVED].
Definition open_request (r : Request) : bool := bool_decide (Req.status r ∈ OPEN_STATUSES).

(** models/remediation.py:58-76, part of RemediationRequest.  The CHECK
    constraints. *)
Definition remediation_checks (r : Request) : bool :=
  let a := is_some_ (Req.approved_at r) in
  let rej := is_some_ (Req.rejected_at r) in
  let can := is_some_ (Req.cancelled_at r) in
  let ex := is_some_ (Req.executed_at r) in
  let fa := is_some_ (Req.failed_at r) in
  ((0 <=? Req.attempt_count r) && (Req.attempt_count r <=? 3))%Z
  && match Req.status r with
     | RemediationStatus.PENDING_APPROVAL =>
         negb a && negb rej && negb can && negb ex && negb fa
     | RemediationStatus.APPROVED => a && negb rej && negb can && negb ex && negb fa
     | RemediationStatus.REJECTED => rej && negb a && negb can && negb ex && negb fa
     | RemediationStatus.CANCELLED => can && negb rej && negb ex && negb fa
     | RemediationStatus.SUCCEEDED => a && ex && negb rej && negb can && negb fa
     | RemediationStatus.FAILED => a && fa && negb rej && negb can && negb ex
     end.

(** models/remediation.py:80-92, part of RemediationRequest.  The unique index on
    the idempotency key, and the partial one on the finding of open requests. *)
Definition remediation_conflict (r r' : Request) : bool :=
  (Req.organization_id r ≟ Req.organization_id r')
  && (Req.idempotency_key r ≟ Req.idempotency_key r')
  || open_request r && open_request r' && (Req.finding_id r ≟ Req.finding_id r').

(** The flush of a new or changed request. *)
Definition save_request (fresh : bool) (r : Request) : txn DB () :=
  t ← gets DB.remediations;
  _ ← ensure (remediation_checks r && unique_ok fresh remediation_conflict r t)
        IntegrityError;
  modify (λ d, d <| DB.remediations ::= put r |>).

(** Assignments to a loaded request that are not flushed yet: the session holds
    them, and writes them if it is committed later. *)
Definition assign (r : Request) : txn DB () :=
  modify (λ d, d <| DB.remediations ::= put r |>).

(** * Queries *)

(** services/remediation.py:63-72, RemediationService._get_finding. *)
Definition _get_finding (organization_id finding_id : uuid) : txn DB Finding :=
  f ← gets (λ d, find_row (λ f, (Finding.id f ≟ finding_id)
                 && (Finding.organization_id f ≟ organization_id)) (DB.findings d));
  some_or f (NotFoundError "finding_not_found").

(** services/remediation.py:218-231, RemediationService.get_scoped. *)
Definition get_scoped (organization_id request_id : uuid) : txn DB Request :=
  r ← gets (λ d, find_row (λ r, (Req.id r ≟ request_id)
                 && (Req.organization_id r ≟ organization_id)) (DB.remediations d));
  some_or r (NotFoundError "remediation_request_not_found").

(** The open request of a finding, if any. *)
Definition open_for (finding_id : uuid) (d : DB) : option Request :=
  find_row (λ r, (Req.finding_id r ≟ finding_id) && open_request r) (DB.remediations d).

(** * Proposing *)

Definition strings (l : list string) : pyval := PList (map PStr l).
Definition opt_uuid (o : option uuid) : pyval :=
  match o with Some u => PStr (uuid_str u) | None => PNone end.

(** services/remediation.py:133-154, part of
    RemediationService.propose_for_finding.  The immutable snapshot. *)
Definition snapshot_of (organization_id : uuid) (finding : Finding) (rule_version : Z)
    (action : option RemediationAction) : pyval :=
  PDict [
    ("schema_version", PInt 1);
    ("organization_id", PStr (uuid_str organization_id));
    ("aws_account_id", PStr (uuid_str (Finding.aws_account_id finding)));
    ("finding_id", PStr (uuid_str (Finding.id finding)));
    ("asset_id", opt_uuid (Finding.asset_id finding));
    ("rule_key", PStr (Finding.rule_key finding));
    ("rule_version", PInt rule_version);
    ("finding_evidence_hash", PStr (hash_json (Finding.evidence_json finding)));
    ("action_key", PStr (if action is Some a then key a else "manual.review"));
    ("action_version", PInt (if action is Some a then version a else 1));
    ("execution_mode", PStr (RemediationExecutionMode.value
       (if action is Some _ then RemediationExecutionMode.MOCK_AUTOMATION
        else RemediationExecutionMode.MANUAL)));
    ("dry_run", PBool true);
    ("timeout_seconds", PInt (if action is Some a then timeout_seconds a else 0));
    ("max_attempts", PInt (if action is Some a then max_attempts a else 0)) ].

(** services/remediation.py:103-190, part of
    RemediationService.propose_for_finding.  The candidate request. *)
Definition candidate_of (registry : SecurityRules.RuleRegistry)
    (action_registry : RemediationActionRegistry) (new_id : uuid) (now : timestamp)
    (organization_id : uuid) (finding : Finding) (requester : User) : Request :=
  let rule := SecurityRules.registry_get registry (Finding.rule_key finding) in
  let rule_name := if rule is Some r then SecurityRules.name r else Finding.rule_key finding in
  let rule_description :=
    if rule is Some r then SecurityRules.description r else "Rule details are unavailable." in
  let rule_remediation :=
    if rule is Some r then SecurityRules.remediation r
    else "Review the finding evidence and remediate manually." in
  let rule_version :=
    if rule is Some r then SecurityRules.version r else Finding.rule_version finding in
  let action := for_rule action_registry (Finding.rule_key finding) in
  let action_key := if action is Some a then key a else "manual.review" in
  let action_version := (if action is Some a then version a else 1)%Z in
  let preview :=
    if action is Some a then preview_steps a
    else ["Review the immutable finding snapshot and plan a manual change."] in
  let verification :=
    if action is Some a then verification_steps a
    else ["Re-run discovery and evaluation for the affected AWS account.";
          "Confirm rule " +:+ Finding.rule_key finding
          +:+ " no longer produces this finding."] in
  let rollback :=
    if action is Some a then rollback_steps a
    else ["Use the organization's approved change rollback procedure."] in
  let snapshot := snapshot_of organization_id finding rule_version action in
  let snapshot_hash := hash_json snapshot in
  Req.mk new_id organization_id (Finding.aws_account_id finding) (Finding.id finding)
    (Finding.rule_key finding) rule_version action_key action_version
    (idempotency_hash organization_id (Finding.id finding) snapshot_hash)
    (Some (User.id requester)) None None RemediationStatus.PENDING_APPROVAL
    (if action is Some _ then RemediationExecutionMode.MOCK_AUTOMATION
     else RemediationExecutionMode.MANUAL)
    None None None (is_some_ action)
    (if action is Some a then title a else "Remediate " +:+ rule_name)
    rule_description [rule_remediation] verification rollback
    (PDict [("action_key", PStr action_key); ("action_version", PInt action_version);
            ("steps", strings preview); ("dry_run", PBool true)])
    snapshot snapshot_hash None None true None None None (PDict []) None None 0
    None None now None None None None None.

(** services/remediation.py:74-216, RemediationService.propose_for_finding. *)
Definition propose_for_finding (registry : SecurityRules.RuleRegistry)
    (action_registry : RemediationActionRegistry) (new_id : uuid) (now : timestamp)
    (organization_id finding_id : uuid) (requester : User) : txn DB Request :=
  finding ← _get_finding organization_id finding_id;
  _ ← ensure (Finding.status finding ≟ FindingStatus.OPEN) (ConflictError "finding_not_open");
  existing ← gets (open_for finding_id);
  match existing with
  | Some r => mret r
  | None =>
      let candidate := candidate_of registry action_registry new_id now organization_id
                         finding requester in
      inserted ← try_catch (_ ← begin_nested (save_request true candidate); mret true)
        (λ e, match e with IntegrityError => mret false | e => raise e end);
      if inserted : bool then
        _ ← audit_ok "remediation.request.proposed" "remediation_request" organization_id
              (User.id requester) new_id;
        mret candidate
      else
        existing_after_race ← gets (open_for finding_id);
        some_or existing_after_race IntegrityError
  end.

(** * Approving, rejecting, cancelling *)

Definition invalid_transition : exn := ConflictError "remediation_invalid_transition".

(** services/remediation.py:233-265, RemediationService.approve. *)
Definition approve (now : timestamp) (organization_id request_id : uuid) (approver : User)
    : txn DB Request :=
  request ← get_scoped organization_id request_id;
  _ ← ensure (String.eqb (hash_json (Req.request_snapshot_json request))
                (Req.request_snapshot_hash request))
        (ConflictError "remediation_snapshot_changed");
  if Req.status request ≟ RemediationStatus.APPROVED then mret request
  else
    _ ← ensure (Req.status request ≟ RemediationStatus.PENDING_APPROVAL) invalid_transition;
    let request := request
      <| Req.status := RemediationStatus.APPROVED |>
      <| Req.approved_at := Some now |>
      <| Req.approved_by_user_id := Some (User.id approver) |>
      <| Req.approved_snapshot_hash := Some (Req.request_snapshot_hash request) |> in
    _ ← save_request false request;
    _ ← audit_ok "remediation.request.approved" "remediation_request" organization_id
          (User.id approver) (Req.id request);
    mret request.

(** services/remediation.py:267-296, RemediationService.reject. *)
Definition reject (now : timestamp) (organization_id request_id : uuid) (rejector : User)
    (reason : string) : txn DB Request :=
  request ← get_scoped organization_id request_id;
  if Req.status request ≟ RemediationStatus.REJECTED then mret request
  else
    _ ← ensure (Req.status request ≟ RemediationStatus.PENDING_APPROVAL) invalid_transition;
    let request := request
      <| Req.status := RemediationStatus.REJECTED |>
      <| Req.rejected_at := Some now |>
      <| Req.rejected_by_user_id := Some (User.id rejector) |>
      <| Req.rejection_reason := Some reason |> in
    _ ← save_request false request;
    _ ← audit_ok "remediation.request.rejected" "remediation_request" organization_id
          (User.id rejector) (Req.id request);
    mret request.

(** services/remediation.py:298-323, RemediationService.cancel. *)
Definition cancel (now : timestamp) (organization_id request_id : uuid) (actor : User)
    : txn DB Request :=
  request ← get_scoped organization_id request_id;
  if Req.status request ≟ RemediationStatus.CANCELLED then mret request
  else
    _ ← ensure (open_request request) invalid_transition;
    let request := request
      <| Req.status := RemediationStatus.CANCELLED |>
      <| Req.cancelled_at := Some now |> in
    _ ← save_request false request;
    _ ← audit_ok "remediation.request.cancelled" "remediation_request" organization_id
          (User.id actor) (Req.id request);
    mret request.

(** * Executing *)

(** [bool(s)] of an optional string *)
Definition set_str (o : option string) : bool := if o is Some s then nonempty s else false.

(** services/remediation.py:472-539, RemediationService._live_execution_context. *)
Definition _live_execution_context (settings : Settings) (organization_id : uuid)
    (request : Request) (finding : Finding) : txn DB RemediationExecutionContext :=
  _ ← ensure (remediation_live_aws_enabled settings)
        (ConflictError "remediation_live_execution_disabled");
  _ ← ensure (negb (remediation_emergency_stop settings))
        (ConflictError "remediation_emergency_stop_active");
  _ ← ensure (negb (Req.dry_run request))
        (ConflictError "remediation_live_requires_execution_approval");
  account ← gets (λ d, find_row (λ a, (AWSAccount.id a ≟ Req.aws_account_id request)
               && (AWSAccount.organization_id a ≟ organization_id)) (DB.aws_accounts d));
  account ← some_or account (NotFoundError "aws_account_not_found");
  _ ← ensure (AWSAccount.sandbox_approved account
              && is_some_ (AWSAccount.sandbox_approved_at account)
              && is_some_ (AWSAccount.sandbox_approved_by_user_id account))
        (ConflictError "remediation_sandbox_not_approved");
  _ ← ensure (set_str (AWSAccount.remediation_role_arn account)
              && set_str (AWSAccount.remediation_external_id account))
        (ConflictError "remediation_role_not_configured");
  asset_id ← some_or (Finding.asset_id finding) (ConflictError "remediation_target_missing");
  asset ← gets (λ d, find_row (λ a, (Asset.id a ≟ asset_id)
               && (Asset.aws_account_id a ≟ AWSAccount.id account)
               && (Asset.organization_id a ≟ organization_id)) (DB.assets d));
  asset ← some_or asset (NotFoundError "asset_not_found");
  _ ← ensure ((Req.target_resource_arn request ≟ Asset.arn asset)
              && (Req.target_region request ≟ Some (Asset.region asset))
              && snapshot_has "asset_id" (uuid_str (Asset.id asset))
                   (Req.request_snapshot_json request)
              && snapshot_has "asset_evidence_hash"
                   (hash_json (Asset.metadata_json asset)) (Req.request_snapshot_json request))
        (ConflictError "remediation_target_mismatch");
  mret (mk_RemediationExecutionContext account asset finding request).

(** services/remediation.py:338-391, part of RemediationService.execute.  The
    gates both routes share; the request and its finding. *)
Definition executable (settings : Settings) (action_registry : RemediationActionRegistry)
    (organization_id request_id : uuid) : txn DB (Request * Finding) :=
  request ← get_scoped organization_id request_id;
  _ ← ensure (Req.status request ≟ RemediationStatus.APPROVED) invalid_transition;
  _ ← ensure (bool_decide (Req.execution_mode request ∈
                [RemediationExecutionMode.MOCK_AUTOMATION; RemediationExecutionMode.LIVE_AWS]))
        (ConflictError "remediation_not_automatable");
  _ ← ensure (remediation_execution_enabled settings)
        (ConflictError "remediation_execution_disabled");
  _ ← ensure (String.eqb (hash_json (Req.request_snapshot_json request))
                (Req.request_snapshot_hash request)
              && (Req.approved_snapshot_hash request ≟ Some (Req.request_snapshot_hash request)))
        (ConflictError "remediation_snapshot_changed");
  let action := get_action action_registry (Req.action_key request) in
  _ ← ensure (if action is Some a
              then (version a =? Req.action_version request)%Z
                   && bool_decide (Req.rule_key request ∈ rule_keys a)
              else false)
        (ConflictError "remediation_action_not_allowed");
  finding ← _get_finding organization_id (Req.finding_id request);
  _ ← ensure ((Finding.status finding ≟ FindingStatus.OPEN)
              && (Finding.rule_key finding ≟ Req.rule_key request)
              && snapshot_has "finding_evidence_hash" (hash_json (Finding.evidence_json finding))
                   (Req.request_snapshot_json request))
        (ConflictError "remediation_precondition_changed");
  mret (request, finding).

(** services/remediation.py:392-412, part of RemediationService.execute.  The
    gates of the live route and the lease; [None] routes to the executor the
    service was built with, [Some] to the live one, whose key is [live_key]. *)
Definition route (settings : Settings) (live_key : string) (organization_id : uuid)
    (request : Request) (finding : Finding) (execution_lease_id : uuid)
    : txn DB (Request * option RemediationExecutionContext) :=
  let leased := request <| Req.execution_lease_id := Some execution_lease_id |> in
  if Req.execution_mode request ≟ RemediationExecutionMode.LIVE_AWS then
    _ ← ensure (match Req.execution_lease_id request with
                | Some l => l ≟ execution_lease_id
                | None => true
                end)
          (ConflictError "remediation_execution_lease_mismatch");
    context ← _live_execution_context settings organization_id request finding;
    _ ← ensure (Req.executor_key request ≟ Some live_key)
          (ConflictError "remediation_executor_mismatch");
    _ ← assign leased;
    mret (leased, Some (mk_RemediationExecutionContext
      (RemediationActions.account context) (RemediationActions.asset context) finding leased))
  else
    _ ← assign leased;
    mret (leased, None).

(** [result.rollback_state or result.before_state] *)
Definition dict_or (o : option pydict) (d : pydict) : pydict :=
  match o with Some ((_ :: _) as d') => d' | _ => d end.

(** services/remediation.py:426-434, part of RemediationService.execute.  The
    request after a successful run. *)
Definition after_success (now : timestamp) (after : option pydict) (r : Request) : Request :=
  r <| Req.status := RemediationStatus.SUCCEEDED |>
    <| Req.executed_at := Some now |>
    <| Req.after_state_json := PDict <$> after |>
    <| Req.execution_result_json :=
         Some (PDict [("outcome", PStr "success"); ("attempt_count", PInt (Req.attempt_count r))]) |>
    <| Req.failure_reason := None |>.

(** services/remediation.py:443-450, part of RemediationService.execute.  The
    request after its last failure. *)
Definition after_last_failure (now : timestamp) (error : option string) (r : Request) : Request :=
  r <| Req.status := RemediationStatus.FAILED |>
    <| Req.failed_at := Some now |>
    <| Req.failure_reason := error |>
    <| Req.execution_result_json :=
         Some (PDict [("outcome", PStr "failed"); ("attempt_count", PInt (Req.attempt_count r))]) |>.

(** services/remediation.py:420-421, part of RemediationService.execute.  The run
    is counted. *)
Definition counted (result : RemediationExecutionResult) (r : Request) : Request :=
  r <| Req.attempt_count ::= λ n, (n + 1)%Z |>
    <| Req.before_state_json :=
         Some (PDict (dict_or (rollback_state result) (before_state result))) |>.

(** services/remediation.py:426-468, part of RemediationService.execute.  The
    request that is stored and the audit event of the outcome. *)
Definition settled (now : timestamp) (result : RemediationExecutionResult) (r : Request)
    : Request * string * AuditResult :=
  match RemediationActions.outcome result with
  | SUCCESS => (after_success now (after_state result) r,
                "remediation.request.succeeded", AuditResult.SUCCEEDED)
  | FAILURE =>
      if (MAX_EXECUTION_ATTEMPTS <=? Req.attempt_count r)%Z
      then (after_last_failure now (sanitized_error result) r,
            "remediation.request.failed", AuditResult.FAILED)
      else (r, "remediation.request.execution_retry", AuditResult.SUCCEEDED)
  end.

(** services/remediation.py:420-470, part of RemediationService.execute.  What
    is recorded of a run: the counter and the states, then the outcome.  The
    model's validator checks each evidence column as it is assigned. *)
Definition record_result (now : timestamp) (organization_id : uuid) (request : Request)
    (result : RemediationExecutionResult) : txn DB Request :=
  let r0 := counted result request in
  _ ← assign r0;
  _ ← ensure (evidence_ok (Some (default [] (precondition_evidence result)))) ValueError;
  let r1 := r0 <| Req.precondition_evidence_json :=
              PDict (default [] (precondition_evidence result)) |> in
  _ ← assign r1;
  _ ← ensure (evidence_ok (verification_result result)) ValueError;
  let r2 := r1 <| Req.verification_result_json := PDict <$> verification_result result |> in
  _ ← assign r2;
  _ ← ensure (evidence_ok (aws_request_ids result)) ValueError;
  let r3 := r2 <| Req.aws_request_ids_json := PDict <$> aws_request_ids result |> in
  let '(r, event, audit_result) := settled now result r3 in
  _ ← record_audit event "remediation_request" audit_result (Some organization_id) None
        (Some (Req.id r));
  _ ← save_request false r;
  mret r.

Section execute.
(** The executor of the service and the one the factory makes. *)
Context {E L : Type} `{RemediationExecutor E, RemediationExecutor L}.
Context (settings : Settings) (action_registry : RemediationActionRegistry).
Context (executor : E) (live_executor_factory : Settings → L).

(** services/remediation.py:338-412, part of RemediationService.execute.
    Everything before the executor is called. *)
Definition admitted (organization_id request_id execution_lease_id : uuid)
    : txn DB (Request * option RemediationExecutionContext) :=
  rf ← executable settings action_registry organization_id request_id;
  route settings (executor_key (live_executor_factory settings)) organization_id rf.1 rf.2
    execution_lease_id.

(** The call of the chosen executor. *)
Definition invoke (request : Request) (context : option RemediationExecutionContext)
    : res RemediationExecutionResult :=
  match context with
  | None => (executor_execute executor (Req.action_key request) (Req.finding_id request)
               (Req.request_snapshot_hash request) (Req.dry_run request) None).1
  | Some c => (executor_execute (live_executor_factory settings) (Req.action_key request)
               (Req.finding_id request) (Req.request_snapshot_hash request)
               (Req.dry_run request) (Some c)).1
  end.

(** services/remediation.py:325-470, RemediationService.execute. *)
Definition execute (now : timestamp) (organization_id request_id execution_lease_id : uuid)
    : txn DB Request :=
  rc ← admitted organization_id request_id execution_lease_id;
  match invoke rc.1 rc.2 with
  | inr e => raise e
  | inl result => record_result now organization_id rc.1 result
  end.
End execute.

(** * The endpoints *)

(** api/v1/remediation.py:30-33, _require. *)
Definition _require (user : User) (organization_id : uuid) (capability : Capability)
    : txn DB () :=
  _ ← require_capability organization_id (User.id user) capability; mret tt.

(** api/v1/remediation.py:87-101, propose_remediation. *)
Definition propose_remediation registry action_registry (new_id : uuid) (now : timestamp)
    (finding_id : uuid) (user : User) (organization_id : uuid) : txn DB Request :=
  _ ← _require user organization_id Capability.REMEDIATION_REQUEST;
  request ← propose_for_finding registry action_registry new_id now organization_id
              finding_id user;
  _ ← commit;
  mret request.

(** api/v1/remediation.py:104-114, approve_remediation. *)
Definition approve_remediation (now : timestamp) (request_id : uuid) (user : User)
    (organization_id : uuid) : txn DB Request :=
  _ ← _require user organization_id Capability.REMEDIATION_APPROVE;
  request ← approve now organization_id request_id user;
  _ ← commit;
  mret request.

(** api/v1/remediation.py:117-128, reject_remediation. *)
Definition reject_remediation (now : timestamp) (request_id : uuid) (reason : string)
    (user : User) (organization_id : uuid) : txn DB Request :=
  _ ← _require user organization_id Capability.REMEDIATION_REJECT;
  request ← reject now organization_id request_id user reason;
  _ ← commit;
  mret request.

(** api/v1/remediation.py:131-141, cancel_remediation. *)
Definition cancel_remediation (now : timestamp) (request_id : uuid) (user : User)
    (organization_id : uuid) : txn DB Request :=
  _ ← _require user organization_id Capability.REMEDIATION_REQUEST;
  request ← cancel now organization_id request_id user;
  _ ← commit;
  mret request.

(** api/v1/remediation.py:168-171, part of execute_remediation. *)
Definition remediation_payload (request_id actor_id : uuid) : pydict :=
  [("remediation_request_id", PStr (uuid_str request_id));
   ("actor_user_id", PStr (uuid_str actor_id))].

(** api/v1/remediation.py:144-176, execute_remediation. *)
Definition execute_remediation (new_id new_correlation_id : uuid) (now : timestamp)
    (request_id : uuid) (user : User) (organization_id : uuid) : txn DB PlatformJob :=
  _ ← _require user organization_id Capability.REMEDIATION_EXECUTE;
  request ← get_scoped organization_id request_id;
  _ ← ensure (Req.status request ≟ RemediationStatus.APPROVED) invalid_transition;
  jc ← enqueue new_id new_correlation_id now organization_id
         PlatformJobType.REMEDIATION_SIMULATION (Req.id request)
         ("remediation:" +:+ Req.idempotency_key request)
         (Some (remediation_payload (Req.id request) (User.id user)))
         None 0 3 None None (Some (User.id user));
  _ ← commit;
  mret jc.1.
