(* ===== verification/RemediationAdmin.v ===== *)
(** services/remediation_admin.py: the owner's administration of the live
    remediation trust, the sandbox approval, and the preparation of a request
    for live execution. *)

From S2P Require Import Prelude.
From S2P Require Import Enums.
From S2P Require Import Rbac.
From S2P Require Import PyValue.
From S2P Require Import Models.
From S2P Require Import Sha256.
From S2P Require Import AiSafety.
From S2P Require Import Common.
From S2P Require Import Organizations.
From S2P Require Import RemediationActions.
From S2P Require AwsExecutor.
From S2P Require Import Remediation.
From Stdlib Require Import Ascii.
From stdpp Require Import list.

Module Acc := AWSAccount.

(** * Role ARNs *)

(** The characters of a role's path and name. *)
Definition role_char (c : ascii) : bool := is_alnum c || has_char c "+=,.@_/-".

Fixpoint all_chars (f : ascii → bool) (s : string) : bool :=
  match s with
  | EmptyString => true
  | String c s => f c && all_chars f s
  end.

(** The prefix, account and suffix of
    [arn:(aws|aws-us-gov|aws-cn):iam::<12 digits>:role/<1 to 512 role_chars>]. *)
Definition parse_role_arn (s : string) : option (string * string * string) :=
  let try prefix :=
    let rest := str_drop (String.length prefix) s in
    let account := str_take 12 rest in
    let suffix := str_drop 12 rest in
    let role := str_drop 6 suffix in
    if startswith s prefix && Nat.eqb (String.length account) 12 && all_chars is_digit account
       && startswith suffix ":role/" && Nat.leb 1 (String.length role)
       && Nat.leb (String.length role) 512 && all_chars role_char role
    then Some (prefix, account, suffix) else None in
  match try "arn:aws:iam::" with
  | Some r => Some r
  | None => match try "arn:aws-us-gov:iam::" with
            | Some r => Some r
            | None => try "arn:aws-cn:iam::"
            end
  end.

(** schemas/aws_account.py:13-16, REMEDIATION_ROLE_ARN_PATTERN.  The account
    group of a full match. *)
Definition role_arn_account (s : string) : option string :=
  match parse_role_arn s with Some (_, account, _) => Some account | None => None end.

(** services/remediation_admin.py:52-66, RemediationAdminService.masked_role_arn. *)
Definition masked_role_arn (role_arn : option string) : option string :=
  arn ← role_arn;
  match parse_role_arn arn with
  | Some (prefix, account, suffix) =>
      Some (prefix +:+ "********" +:+ str_drop 8 account +:+ suffix)
  | None => None
  end.

(** * Constraints of the account table *)

(** models/aws_account.py:43-49, part of AWSAccount.  The CHECK constraint. *)
Definition account_checks (a : AWSAccount) : bool :=
  negb (Acc.sandbox_approved a) && is_none_ (Acc.sandbox_approved_at a)
    && is_none_ (Acc.sandbox_approved_by_user_id a)
  || Acc.sandbox_approved a && is_some_ (Acc.sandbox_approved_at a)
     && is_some_ (Acc.sandbox_approved_by_user_id a).

(** Two values that are set and equal; NULLs do not conflict. *)
Definition both_set (a b : option string) : bool := is_some_ a && (a ≟ b).

(** models/aws_account.py:29-36, part of AWSAccount.  The unique constraints. *)
Definition account_conflict (a b : AWSAccount) : bool :=
  (Acc.organization_id a ≟ Acc.organization_id b)
    && ((Acc.account_id a ≟ Acc.account_id b) || both_set (Acc.role_arn a) (Acc.role_arn b))
  || (Acc.external_id a ≟ Acc.external_id b)
  || both_set (Acc.remediation_external_id a) (Acc.remediation_external_id b).

(** The flush of a new or changed account. *)
Definition save_account (fresh : bool) (a : AWSAccount) : txn DB () :=
  t ← gets DB.aws_accounts;
  _ ← ensure (account_checks a && unique_ok fresh account_conflict a t) IntegrityError;
  modify (λ d, d <| DB.aws_accounts ::= put a |>).

(** * Operations *)

(** services/remediation_admin.py:29-34, LIVE_ACTIONS. *)
Definition LIVE_ACTIONS : list string :=
  ["s3.enable_public_access_block"; "ec2.revoke_approved_public_ingress"].

(** services/remediation_admin.py:68-84, RemediationAdminService._require_account. *)
Definition _require_account (account_id : uuid) (actor : User) : txn DB AWSAccount :=
  result ← gets (aws_account_for_user account_id (User.id actor));
  am ← some_or result (NotFoundError "aws_account_not_found");
  _ ← ensure (role_has_capability (OrganizationMembership.role am.2)
                Capability.REMEDIATION_ADMIN)
        (ForbiddenError "remediation_admin_forbidden");
  mret am.1.

(** services/remediation_admin.py:86-87, RemediationAdminService.get_status. *)
Definition get_status (account_id : uuid) (actor : User) : txn DB AWSAccount :=
  _require_account account_id actor.

(** Some account uses the external id, for discovery or for remediation. *)
Definition external_id_taken (candidate : string) (d : DB) : bool :=
  is_some_ (find_row (λ a, (Acc.external_id a ≟ candidate)
                           || (Acc.remediation_external_id a ≟ Some candidate))
              (DB.aws_accounts d)).

(** services/remediation_admin.py:89-106, RemediationAdminService._new_external_id.
    [draws] are the random values [generate_external_id] returns. *)
Definition _new_external_id (draws : list string) : txn DB string :=
  taken ← gets (λ d c, external_id_taken c d);
  some_or (List.find (λ c, negb (taken c)) (take 10 draws))
    (AppError "external_id_generation_failed" 500).

(** services/remediation_admin.py:108-112, RemediationAdminService._revoke_approval. *)
Definition _revoke_approval (a : AWSAccount) : AWSAccount :=
  a <| Acc.sandbox_approved := false |>
    <| Acc.sandbox_approved_at := None |>
    <| Acc.sandbox_approved_by_user_id := None |>.

(** services/remediation_admin.py:114-140, RemediationAdminService._audit. *)
Definition _audit (event_type : string) (account : AWSAccount) (actor : User) : txn DB () :=
  audit_ok event_type "aws_account" (Acc.organization_id account) (User.id actor)
    (Acc.id account).

(** services/remediation_admin.py:142-152, RemediationAdminService._commit. *)
Definition _commit (account : AWSAccount) : txn DB AWSAccount :=
  _ ← try_catch (_ ← save_account false account; commit)
        (λ e, match e with
              | IntegrityError =>
                  _ ← rollback; raise (ConflictError "remediation_admin_conflict")
              | e => raise e
              end);
  mret account.

(** services/remediation_admin.py:154-182, RemediationAdminService.configure_trust. *)
Definition configure_trust (draws : list string) (account_id : uuid) (actor : User)
    (remediation_role_arn : string) : txn DB (AWSAccount * option string) :=
  account ← _require_account account_id actor;
  let value := strip remediation_role_arn in
  owner ← some_or (role_arn_account value) (AppError "remediation_role_invalid" 422);
  _ ← ensure (String.eqb owner (Acc.account_id account))
        (AppError "remediation_role_account_mismatch" 422);
  if (Acc.remediation_role_arn account ≟ Some value)
     && set_str (Acc.remediation_external_id account)
  then
    _ ← commit;
    mret (account, None)
  else
    external_id ← _new_external_id draws;
    let account := _revoke_approval (account
      <| Acc.remediation_role_arn := Some value |>
      <| Acc.remediation_external_id := Some external_id |>) in
    _ ← _audit "aws.account.remediation_trust_configured" account actor;
    account ← _commit account;
    mret (account, Some external_id).

(** [account.remediation_role_arn and account.remediation_external_id] *)
Definition trusted (a : AWSAccount) : bool :=
  set_str (Acc.remediation_role_arn a) && set_str (Acc.remediation_external_id a).

(** services/remediation_admin.py:184-197, RemediationAdminService.rotate_external_id. *)
Definition rotate_external_id (draws : list string) (account_id : uuid) (actor : User)
    : txn DB (AWSAccount * string) :=
  account ← _require_account account_id actor;
  _ ← ensure (trusted account) (ConflictError "remediation_trust_not_configured");
  external_id ← _new_external_id draws;
  let account := _revoke_approval (account
    <| Acc.remediation_external_id := Some external_id |>) in
  _ ← _audit "aws.account.remediation_external_id_rotated" account actor;
  account ← _commit account;
  mret (account, external_id).

(** services/remediation_admin.py:199-205, RemediationAdminService.clear_trust. *)
Definition clear_trust (account_id : uuid) (actor : User) : txn DB AWSAccount :=
  account ← _require_account account_id actor;
  let account := _revoke_approval (account
    <| Acc.remediation_role_arn := None |>
    <| Acc.remediation_external_id := None |>) in
  _ ← _audit "aws.account.remediation_trust_cleared" account actor;
  _commit account.

(** services/remediation_admin.py:207-227, RemediationAdminService.grant_sandbox_approval. *)
Definition grant_sandbox_approval (now : timestamp) (account_id : uuid) (actor : User)
    : txn DB AWSAccount :=
  account ← _require_account account_id actor;
  _ ← ensure (negb (Acc.sandbox_approved account)) (ConflictError "sandbox_already_approved");
  _ ← ensure (trusted account) (ConflictError "sandbox_approval_prerequisite_missing");
  _ ← ensure (Acc.connection_status account ≟ AWSAccountStatus.CONNECTED)
        (ConflictError "sandbox_approval_prerequisite_missing");
  let account := account
    <| Acc.sandbox_approved := true |>
    <| Acc.sandbox_approved_at := Some now |>
    <| Acc.sandbox_approved_by_user_id := Some (User.id actor) |> in
  _ ← _audit "aws.account.sandbox_approved" account actor;
  _commit account.

(** services/remediation_admin.py:229-237, RemediationAdminService.revoke_sandbox_approval. *)
Definition revoke_sandbox_approval (account_id : uuid) (actor : User) : txn DB AWSAccount :=
  account ← _require_account account_id actor;
  _ ← ensure (Acc.sandbox_approved account) (ConflictError "sandbox_not_approved");
  let account := _revoke_approval account in
  _ ← _audit "aws.account.sandbox_approval_revoked" account actor;
  _commit account.

(** * Preparing a live request *)

Definition not_eligible : exn := ConflictError "live_request_not_eligible".

Definition default_for_rule (rule_key : string) : option RemediationAction :=
  match default_remediation_actions with
  | inl g => for_rule g rule_key
  | inr _ => None
  end.

#[global] Opaque default_for_rule.

(** [d.update(items)] *)
Definition dict_update (items d : pydict) : pydict :=
  fold_left (λ d kv, dset kv.1 kv.2 d) items d.

(** [{**v, k: x}] of a column that holds a dict *)
Definition with_item (k : string) (x v : pyval) : pyval :=
  match v with PDict d => PDict (dset k x d) | v => v end.

(** services/remediation_admin.py:332-341, part of
    RemediationAdminService.prepare_live_request.  What the live snapshot adds. *)
Definition live_items (asset : Asset) : pydict := [
  ("execution_mode", PStr (RemediationExecutionMode.value RemediationExecutionMode.LIVE_AWS));
  ("executor_key", PStr "aws");
  ("dry_run", PBool false);
  ("target_region", PStr (Asset.region asset));
  ("target_resource_arn", if Asset.arn asset is Some a then PStr a else PNone);
  ("asset_evidence_hash", PStr (hash_json (Asset.metadata_json asset)))].

(** services/remediation_admin.py:330-358, part of
    RemediationAdminService.prepare_live_request.  The fields the preparation
    sets: the approved snapshot is replaced and the approval taken back. *)
Definition prepared (organization_id : uuid) (finding : Finding) (asset : Asset)
    (request : Request) : Request :=
  let snapshot :=
    match Req.request_snapshot_json request with
    | PDict d => PDict (dict_update (live_items asset) d)
    | v => v
    end in
  request
    <| Req.execution_mode := RemediationExecutionMode.LIVE_AWS |>
    <| Req.executor_key := Some "aws" |>
    <| Req.dry_run := false |>
    <| Req.target_region := Some (Asset.region asset) |>
    <| Req.target_resource_arn := Asset.arn asset |>
    <| Req.request_snapshot_json := snapshot |>
    <| Req.request_snapshot_hash := hash_json snapshot |>
    <| Req.idempotency_key := idempotency_hash organization_id (Finding.id finding)
                                (hash_json snapshot) |>
    <| Req.preview_json ::= with_item "dry_run" (PBool false) |>
    <| Req.status := RemediationStatus.PENDING_APPROVAL |>
    <| Req.approved_at := None |>
    <| Req.approved_by_user_id := None |>
    <| Req.approved_snapshot_hash := None |>.

(** services/remediation_admin.py:239-370, RemediationAdminService.prepare_live_request. *)
Definition prepare_live_request (organization_id request_id : uuid) (actor : User)
    : txn DB Request :=
  membership ← require_member organization_id (User.id actor);
  _ ← ensure (role_has_capability (OrganizationMembership.role membership)
                Capability.REMEDIATION_ADMIN)
        (ForbiddenError "remediation_admin_forbidden");
  request ← get_scoped organization_id request_id;
  _ ← ensure (Req.status request ≟ RemediationStatus.APPROVED) not_eligible;
  let calculated := hash_json (Req.request_snapshot_json request) in
  _ ← ensure (String.eqb calculated (Req.request_snapshot_hash request)
              && (Req.approved_snapshot_hash request ≟ Some calculated)) not_eligible;
  _ ← ensure (bool_decide (Req.action_key request ∈ LIVE_ACTIONS))
        (ConflictError "remediation_action_not_supported");
  account ← gets (λ d, find_row (λ a, (Acc.id a ≟ Req.aws_account_id request)
               && (Acc.organization_id a ≟ organization_id)) (DB.aws_accounts d));
  account ← some_or account (NotFoundError "aws_account_not_found");
  _ ← ensure (Acc.sandbox_approved account && is_some_ (Acc.sandbox_approved_at account)
              && is_some_ (Acc.sandbox_approved_by_user_id account) && trusted account)
        not_eligible;
  finding ← gets (λ d, find_row (λ f, (Finding.id f ≟ Req.finding_id request)
               && (Finding.aws_account_id f ≟ Acc.id account)
               && (Finding.organization_id f ≟ organization_id)) (DB.findings d));
  finding ← some_or finding not_eligible;
  _ ← ensure (Finding.status finding ≟ FindingStatus.OPEN) not_eligible;
  _ ← ensure (snapshot_has "finding_evidence_hash" (hash_json (Finding.evidence_json finding))
                (Req.request_snapshot_json request)) not_eligible;
  _ ← ensure (if default_for_rule (Finding.rule_key finding) is Some action
              then String.eqb (key action) (Req.action_key request) else false)
        (ConflictError "remediation_action_not_supported");
  asset_id ← some_or (Finding.asset_id finding) not_eligible;
  asset ← gets (λ d, find_row (λ a, (Asset.id a ≟ asset_id)
               && (Asset.aws_account_id a ≟ Acc.id account)
               && (Asset.organization_id a ≟ organization_id)) (DB.assets d));
  asset ← some_or asset not_eligible;
  _ ← ensure (set_str (Asset.arn asset)) not_eligible;
  let request := prepared organization_id finding asset request in
  _ ← audit_ok "remediation.request.live_prepared" "remediation_request" organization_id
        (User.id actor) (Req.id request);
  _ ← save_request false request;
  _ ← commit;
  mret request.

(** * The administration of an account's trust *)

Inductive admin_op :=
| OpConfigureTrust (draws : list string) (account_id : uuid) (actor : User) (arn : string)
| OpRotate (draws : list string) (account_id : uuid) (actor : User)
| OpClearTrust (account_id : uuid) (actor : User)
| OpGrant (now : timestamp) (account_id : uuid) (actor : User)
| OpRevoke (account_id : uuid) (actor : User).

Definition administer (op : admin_op) (d : DB) : DB :=
  match op with
  | OpConfigureTrust draws i u arn => (run (configure_trust draws i u arn) d).2
  | OpRotate draws i u => (run (rotate_external_id draws i u) d).2
  | OpClearTrust i u => (run (clear_trust i u) d).2
  | OpGrant now i u => (run (grant_sandbox_approval now i u) d).2
  | OpRevoke i u => (run (revoke_sandbox_approval i u) d).2
  end.

Definition admin_actor (op : admin_op) : User :=
  match op with
  | OpConfigureTrust _ _ u _ | OpRotate _ _ u | OpClearTrust _ u | OpGrant _ _ u
  | OpRevoke _ u => u
  end.

(** What a change of an account by the administration satisfies. *)
Record admin_change (op : admin_op) (d : DB) (a a' : AWSAccount) : Prop := {
  (** the actor is an owner of the account's organization *)
  ac_owner : ∃ m, active_membership (Acc.organization_id a) (User.id (admin_actor op)) d = Some m
    ∧ OrganizationMembership.role m = OrganizationRole.OWNER;
  (** the account stays the account it is *)
  ac_same : Acc.id a' = Acc.id a ∧ Acc.organization_id a' = Acc.organization_id a
    ∧ Acc.account_id a' = Acc.account_id a ∧ Acc.role_arn a' = Acc.role_arn a
    ∧ Acc.connection_status a' = Acc.connection_status a;
  (** a change of the trust takes the approval back *)
  ac_trust : Acc.remediation_role_arn a' ≠ Acc.remediation_role_arn a
    ∨ Acc.remediation_external_id a' ≠ Acc.remediation_external_id a →
    Acc.sandbox_approved a' = false;
  (** a new role is one of the same AWS account *)
  ac_role : ∀ arn, Acc.remediation_role_arn a' = Some arn →
    Acc.remediation_role_arn a = Some arn ∨ role_arn_account arn = Some (Acc.account_id a);
  (** only a grant approves, and only a trusted and connected account *)
  ac_grant : Acc.sandbox_approved a' = true →
    (∃ now i, op = OpGrant now i (admin_actor op))
    ∧ Acc.sandbox_approved_by_user_id a' = Some (User.id (admin_actor op))
    ∧ trusted a' = true ∧ Acc.connection_status a' = AWSAccountStatus.CONNECTED
}.

Lemma remediation_admin_owner role :
  role_has_capability role Capability.REMEDIATION_ADMIN = true → role = OrganizationRole.OWNER.
Proof. destruct role; [done|vm_compute; discriminate..]. Qed.

Section admin.
Implicit Types s : sess DB.

Lemma wp_require_account i u Q s :
  (∀ a m, DB.aws_accounts (working s) !! i = Some a →
     active_membership (Acc.organization_id a) (User.id u) (working s) = Some m →
     OrganizationMembership.role m = OrganizationRole.OWNER → Q (Ret a) s) →
  (∀ e, Q (Raise e) s) →
  wp (_require_account i u) Q s.
Proof.
  intros H1 H2. unfold _require_account, aws_account_for_user. wp_go; [|done|done].
  destruct (DB.aws_accounts (working s) !! i) as [a0|] eqn:Ha; [|done]. cbn in *.
  destruct (active_membership _ _ _) as [m|] eqn:Hm; [|done]. simplify_eq/=.
  eapply H1; [done..|]. by apply remediation_admin_owner.
Qed.

Lemma wp_commit_account a Q s :
  (Q (Ret a) (Sess ((working s) <| DB.aws_accounts ::= put a |>)
                   ((working s) <| DB.aws_accounts ::= put a |>))) →
  (∀ e s', committed s' = committed s → Q (Raise e) s') →
  wp (_commit a) Q s.
Proof.
  intros H1 H2. unfold _commit, save_account. wp_go; eauto.
Qed.

(** The database an operation of [op] may leave. *)
Definition admin_post (op : admin_op) (d d' : DB) : Prop :=
  ∀ i a a', DB.aws_accounts d !! i = Some a → DB.aws_accounts d' !! i = Some a' → a' ≠ a →
    admin_change op d a a'.

Lemma admin_post_refl op d : admin_post op d d.
Proof. intros i a a' -> [= <-]. done. Qed.

(** Every operation ends by storing one changed account. *)
Lemma admin_post_put op d d' i a a' :
  keyed (DB.aws_accounts d) → DB.aws_accounts d !! i = Some a → admin_change op d a a' →
  DB.aws_accounts d' = put a' (DB.aws_accounts d) → admin_post op d d'.
Proof.
  intros Hk Ha Hch Hd j a1 a2 H1. rewrite Hd. unfold put. rewrite lookup_insert.
  case_decide as E; [|congruence]. intros [= <-] _.
  assert (a1 = a) as ->; [|done]. destruct (ac_same _ _ _ _ Hch) as [Hid _].
  pose proof (Hk _ _ Ha) as Hi. cbv [row_id Acc.row] in Hi, E. congruence.
Qed.

Lemma wp_new_external_id draws Q s :
  (∀ c, external_id_taken c (working s) = false → Q (Ret c) s) →
  Q (Raise (AppError "external_id_generation_failed" 500)) s →
  wp (_new_external_id draws) Q s.
Proof.
  intros H1 H2. unfold _new_external_id. wp_go; [|done].
  match goal with H : List.find _ _ = Some _ |- _ => apply find_some in H as [_ H] end.
  apply H1. by bools.
Qed.

Lemma revoked_change op a a' d m :
  active_membership (Acc.organization_id a) (User.id (admin_actor op)) d = Some m →
  OrganizationMembership.role m = OrganizationRole.OWNER →
  Acc.id a' = Acc.id a → Acc.organization_id a' = Acc.organization_id a →
  Acc.account_id a' = Acc.account_id a → Acc.role_arn a' = Acc.role_arn a →
  Acc.connection_status a' = Acc.connection_status a →
  (∀ arn, Acc.remediation_role_arn a' = Some arn →
    Acc.remediation_role_arn a = Some arn ∨ role_arn_account arn = Some (Acc.account_id a)) →
  admin_change op d a (_revoke_approval a').
Proof.
  intros Hm Hr Hid Ho Ha Hrole Hc Harn. split.
  - by exists m.
  - by split_and!.
  - intros _. reflexivity.
  - exact Harn.
  - intros E. discriminate E.
Qed.

Lemma administer_post op d : keyed (DB.aws_accounts d) → admin_post op d (administer op d).
Proof.
  intros Hk.
  assert (∀ {A} (m : txn DB A), wp m (λ _ s', admin_post op d (committed s')) (Sess d d) →
    admin_post op d (run m d).2) as Hrun.
  { intros A m Hm. by apply (wp_run m (λ _ d', admin_post op d d')). }
  destruct op as [draws i u arn|draws i u|i u|now i u|i u]; cbn [administer];
    apply Hrun; clear Hrun;
    apply wp_bind, wp_require_account; try (intros; apply admin_post_refl); cbn [working];
    intros a m Ha Hm Hrole; unfold _audit; wp_go; try apply admin_post_refl.
  all: try apply wp_new_external_id; intros; try apply admin_post_refl; cbn; wp_go.
  all: apply wp_commit_account; intros; cbn; repeat first [apply wp_bind | apply wp_ret]; cbn.
  all: try match goal with H : committed _ = _ |- _ =>
    cbn in H; rewrite H; apply admin_post_refl end.
  all: eapply (admin_post_put _ _ _ i a); [exact Hk|exact Ha| |reflexivity].
  1,2,3,5: apply (revoked_change _ _ _ _ m); [assumption|assumption|reflexivity..|cbn; auto].
  - intros ? [= <-]. match goal with H : String.eqb _ _ = true |- _ =>
      apply String.eqb_eq in H as <- end. auto.
  - discriminate.
  - bools. split; cbn.
    + by exists m.
    + by split_and!.
    + by intros [].
    + auto.
    + intros _. split_and!; [by eexists _, _|done..].
Qed.
End admin.

(** The administration of live trust is an owner's and cannot widen
    silently.  When one of the five operations changes an account: the actor is
    an active owner of the account's organization; the account keeps its
    organization, its AWS account, its read-only role and its connection
    status; a change of the remediation role or of the external id takes the
    sandbox approval back; a new role is an IAM role of the same AWS account;
    and an account is approved only by a grant, in the actor's name, with
    trust configured and the connection validated. *)
Theorem trust_administration op d i a a' :
  keyed (DB.aws_accounts d) → DB.aws_accounts d !! i = Some a →
  DB.aws_accounts (administer op d) !! i = Some a' → a' ≠ a →
  admin_change op d a a'.
Proof. intros Hk. by apply administer_post. Qed.

(** * Witness *)

(** Alice's organization with an account whose sandbox is approved. *)
Definition acme_with_account : DB :=
  acme <| DB.aws_accounts := {[20%N := AwsExecutor.bucket_account]} |>.

Lemma trust_administration_witness :
  ∃ a', DB.aws_accounts (administer (OpClearTrust 20 alice) acme_with_account) !! 20%N = Some a'
  ∧ Acc.sandbox_approved AwsExecutor.bucket_account = true ∧ Acc.sandbox_approved a' = false.
Proof.
  assert (keyed (DB.aws_accounts acme_with_account)) as Hk.
  { change (keyed ({[20%N := AwsExecutor.bucket_account]} : gmap uuid AWSAccount)).
    intros k r [<- <-]%lookup_singleton_Some. reflexivity. }
  assert (match DB.aws_accounts (administer (OpClearTrust 20 alice) acme_with_account) !! 20%N with
          | Some a' => is_none_ (Acc.remediation_role_arn a') | None => false end = true) as Hc
    by (vm_compute; reflexivity).
  destruct (DB.aws_accounts (administer (OpClearTrust 20 alice) acme_with_account) !! 20%N)
    as [a'|] eqn:Ha; [|discriminate Hc].
  assert (Acc.remediation_role_arn a' = None) as Hnone by (destruct (Acc.remediation_role_arn a'); done).
  assert (Acc.remediation_role_arn a' ≠ Acc.remediation_role_arn AwsExecutor.bucket_account) as Hne
    by (rewrite Hnone; discriminate).
  exists a'. split; [reflexivity|]. split; [reflexivity|].
  apply (ac_trust _ _ _ _ (trust_administration (OpClearTrust 20 alice) acme_with_account 20
    AwsExecutor.bucket_account a' Hk ltac:(reflexivity) Ha ltac:(intros ->; by apply Hne))).
  left. exact Hne.
Defined.
