(* ===== verification/RemediationLifecycle.v ===== *)
(** The life of remediation requests across the services that change them:
    the invariant of the table, the transitions a request can make, and what
    must have happened before a live executor runs. *)

From S2P Require Import Prelude.
From S2P Require Import Enums.
From S2P Require Import Rbac.
From S2P Require Import PyValue.
From S2P Require Import Models.
From S2P Require Import Sha256.
From S2P Require Import AiSafety.
From S2P Require Import Evidence.
From S2P Require Import Common.
From S2P Require Import Organizations.
From S2P Require Import PlatformJobs.
From S2P Require SecurityRules.
From S2P Require Import RemediationActions.
From S2P Require Import Remediation.
From S2P Require Import RemediationAdmin.
From S2P Require AwsExecutor.
Import (hints) AwsExecutor.
From stdpp Require Import list relations.

(** * Well-formed requests *)

Definition hash_of (r : Request) : string := hash_json (Req.request_snapshot_json r).

(** The statuses a request reaches only after an approval. *)
Definition was_approved (s : RemediationStatus) : bool :=
  bool_decide (s ∈ [RemediationStatus.APPROVED; RemediationStatus.SUCCEEDED;
                    RemediationStatus.FAILED]).

Definition live (r : Request) : Prop :=
  Req.execution_mode r = RemediationExecutionMode.LIVE_AWS.

Record request_ok (r : Request) : Prop := {
  (** the CHECK constraints *)
  ro_checks : remediation_checks r = true;
  (** the stored hash is that of the stored snapshot *)
  ro_hash : Req.request_snapshot_hash r = hash_of r;
  (** and it is the one that was approved, by somebody *)
  ro_approved : was_approved (Req.status r) = true →
    Req.approved_snapshot_hash r = Some (hash_of r)
    ∧ is_Some (Req.approved_by_user_id r);
  (** an open request has attempts left, a failed one has none *)
  ro_attempts : open_request r = true → (Req.attempt_count r < MAX_EXECUTION_ATTEMPTS)%Z;
  ro_failed : Req.status r = RemediationStatus.FAILED →
    Req.attempt_count r = MAX_EXECUTION_ATTEMPTS;
  (** a live request says so in its snapshot *)
  ro_live : live r →
    Req.executor_key r = Some "aws" ∧ Req.action_key r ∈ LIVE_ACTIONS
    ∧ snapshot_has "execution_mode" "live_aws" (Req.request_snapshot_json r) = true;
  (** only a live request is more than a dry run *)
  ro_dry : Req.dry_run r = true ↔ ¬ live r
}.

(** The index of the table. *)
Record index_ok (d : DB) : Prop := {
  ix_keyed : keyed (DB.remediations d);
  ix_unique : unique_index remediation_conflict (DB.remediations d)
}.

Record requests_ok (d : DB) : Prop := {
  rq_index : index_ok d;
  rq_rows : all_rows request_ok (DB.remediations d)
}.

(** A later state of a request: what it remediates stays, attempts are only
    added, a live request stays live, and a closed request stays as it is. *)
Record later (r r' : Request) : Prop := {
  lt_id : Req.id r' = Req.id r;
  lt_org : Req.organization_id r' = Req.organization_id r;
  lt_account : Req.aws_account_id r' = Req.aws_account_id r;
  lt_finding : Req.finding_id r' = Req.finding_id r;
  lt_rule : Req.rule_key r' = Req.rule_key r;
  lt_action : Req.action_key r' = Req.action_key r;
  lt_attempts : (Req.attempt_count r <= Req.attempt_count r')%Z;
  lt_live : live r → live r';
  lt_closed : open_request r = false → r' = r
}.

(** [d'] comes after [d]: well-formed, and no request is lost. *)
Definition follows (d d' : DB) : Prop :=
  requests_ok d'
  ∧ ∀ k r, DB.remediations d !! k = Some r →
      ∃ r', DB.remediations d' !! k = Some r' ∧ later r r'.

Lemma later_refl r : later r r.
Proof. by split. Qed.

Lemma later_trans r1 r2 r3 : later r1 r2 → later r2 r3 → later r1 r3.
Proof.
  intros [] []. split; try congruence; [lia|auto|].
  intros Hc. assert (r2 = r1) as -> by auto. auto.
Qed.

Lemma follows_refl d : requests_ok d → follows d d.
Proof. intros H. split; [done|]. intros k r Hk. exists r. split; [done|apply later_refl]. Qed.

Lemma follows_trans d1 d2 d3 : follows d1 d2 → follows d2 d3 → follows d1 d3.
Proof.
  intros [_ H12] [Hok H23]. split; [done|]. intros k r Hk.
  destruct (H12 k r Hk) as (r2 & Hk2 & ?). destruct (H23 k r2 Hk2) as (r3 & ? & ?).
  exists r3. split; [done|]. by eapply later_trans.
Qed.

Lemma remediation_conflict_sym r r' : remediation_conflict r r' = remediation_conflict r' r.
Proof.
  unfold remediation_conflict.
  rewrite (bool_decide_ext (Req.organization_id r = _) (Req.organization_id r' = Req.organization_id r)),
    (bool_decide_ext (Req.idempotency_key r = _) (Req.idempotency_key r' = Req.idempotency_key r)),
    (bool_decide_ext (Req.finding_id r = _) (Req.finding_id r' = Req.finding_id r)),
    (andb_comm (open_request r)) by naive_solver. done.
Qed.
#[export] Hint Resolve remediation_conflict_sym : rows.

(** A change that the flush accepts. *)
Lemma follows_put d0 d fresh r :
  follows d0 d → request_ok r →
  unique_ok fresh remediation_conflict r (DB.remediations d) = true →
  (∀ r0, DB.remediations d !! Req.id r = Some r0 → later r0 r) →
  follows d0 (d <| DB.remediations ::= put r |>).
Proof.
  intros Hf Hr Hu Hl. eapply follows_trans; [exact Hf|]. destruct Hf as [[[Hk Hx] Ha] _].
  split.
  - split; [split|]; cbn; eauto using unique_index_put with rows.
  - cbn. intros k r0 H0. unfold put. rewrite lookup_insert. case_decide as E.
    + exists r. split; [done|]. apply Hl. by rewrite <-E in H0.
    + exists r0. split; [done|apply later_refl].
Qed.

(** Changes elsewhere. *)
Lemma follows_same d0 d d' :
  follows d0 d → DB.remediations d' = DB.remediations d → follows d0 d'.
Proof.
  intros [[[??] ?] Hl] E. split.
  - split; [split|]; by rewrite E.
  - intros k r. rewrite E. apply Hl.
Qed.

(** * Rules *)

Lemma wp_get_scoped o i Q s :
  index_ok (working s) →
  (∀ r, DB.remediations (working s) !! i = Some r → Req.organization_id r = o →
     Req.id r = i → Q (Ret r) s) →
  Q (Raise (NotFoundError "remediation_request_not_found")) s →
  wp (Remediation.get_scoped o i) Q s.
Proof.
  intros [Hk _] H1 H2. unfold Remediation.get_scoped. wp_go; [|done].
  match goal with H : find_row _ _ = Some ?a |- _ =>
    apply (find_row_pinned _ (λ r, Req.organization_id r ≟ o) _ i) in H as [H ?]; [|done..] end.
  bools. apply H1; [done..|]. by apply (Hk i).
Qed.

Lemma wp_save_request fresh r Q s :
  (remediation_checks r = true →
   unique_ok fresh remediation_conflict r (DB.remediations (working s)) = true →
     Q (Ret tt) (Sess (committed s) ((working s) <| DB.remediations ::= put r |>))) →
  (remediation_checks r && unique_ok fresh remediation_conflict r
     (DB.remediations (working s)) = false → Q (Raise IntegrityError) s) →
  wp (save_request fresh r) Q s.
Proof. intros H1 H2. unfold save_request. wp_go; [bools|]; eauto. Qed.

Lemma wp_record_audit e t res o a i Q s :
  Q (Ret tt) (Sess (committed s) ((working s) <| DB.audit ::= λ l,
    l ++ [AuditEvent.mk o a e t i res] |>)) →
  wp (record_audit e t res o a i) Q s.
Proof. intros H. unfold record_audit. wp_go. exact H. Qed.

#[export] Instance follows_audit d0 : StableAudit (follows d0).
Proof. intros d f Hd. by eapply follows_same. Qed.

Section keeps.
Context (d0 : DB).
Abbreviation J := (follows d0).

Lemma keeps_require u o c : keeps J (_require u o c).
Proof. unfold _require, require_capability. keeps_go. Qed.
Lemma keeps_get_finding o i : keeps J (_get_finding o i).
Proof. unfold _get_finding. keeps_go. Qed.
Lemma keeps_get_scoped o i : keeps J (Remediation.get_scoped o i).
Proof. unfold Remediation.get_scoped. keeps_go. Qed.
Hint Resolve keeps_require keeps_get_finding keeps_get_scoped : keeps.

(** The flush of a well-formed request that comes after the stored one. *)
Lemma wp_save_later fresh r Q s :
  both J s →
  (remediation_checks r = true → request_ok r) →
  (∀ r0, DB.remediations (working s) !! Req.id r = Some r0 → later r0 r) →
  (∀ o s', both J s' → Q o s') →
  wp (save_request fresh r) Q s.
Proof.
  intros [Hc Hw] Hr Hl HQ. apply wp_save_request; intros; apply HQ; split; cbn; [done| |done..].
  eapply follows_put; eauto.
Qed.
End keeps.
#[export] Hint Resolve keeps_require
  keeps_get_finding keeps_get_scoped : keeps.

(** * The operations keep requests well-formed *)

Section operations.
Context (d0 : DB).
Abbreviation J := (follows d0).

Lemma candidate_ok g ag i now o f u : request_ok (candidate_of g ag i now o f u).
Proof.
  unfold candidate_of. generalize (snapshot_of o f). intros snapshot.
  destruct (for_rule _ _); split; try done; by split.
Qed.

Lemma keeps_save_new r : request_ok r → keeps J (save_request true r).
Proof.
  intros Hr s [Hc Hw]. apply wp_save_request; intros; split; cbn; try done.
  eapply follows_put; eauto. intros r0 Hr0.
  match goal with H : unique_ok _ _ _ _ = true |- _ => apply unique_ok_true in H as [Hn _] end.
  pose proof (eq_trans (eq_sym Hr0) (Hn eq_refl)). done.
Qed.

Lemma keeps_propose g ag i now f u o : keeps J (propose_remediation g ag i now f u o).
Proof.
  unfold propose_remediation, propose_for_finding. keeps_go.
  apply keeps_begin_nested, keeps_save_new, candidate_ok.
Qed.

(** The shape of [approve], [reject] and [cancel]: a request that was loaded
    is changed to a later well-formed one. *)
Lemma wp_update_request r r' Q s :
  both J s → DB.remediations (working s) !! Req.id r = Some r → later r r' →
  (request_ok r → remediation_checks r' = true → request_ok r') →
  (∀ o s', both J s' → Q o s') →
  wp (save_request false r') Q s.
Proof.
  intros Hs Hr Hl Hok HQ. eapply wp_save_later; [done| | |done].
  - apply Hok. destruct Hs as [_ [[_ Ha] _]]. by apply (Ha _ _ Hr).
  - intros r0. rewrite (lt_id _ _ Hl), Hr. by intros [= <-].
Qed.

Lemma keeps_loaded {A} o i (f : Request → txn DB A) :
  (∀ r s, both J s → DB.remediations (working s) !! Req.id r = Some r → request_ok r →
     wp (f r) (λ _ s', both J s') s) →
  keeps J (r ← Remediation.get_scoped o i; f r).
Proof.
  intros Hf s Hs. apply wp_bind. pose proof Hs as [_ [[Hi Ha] _]].
  apply wp_get_scoped; [done| |done].
  intros r Hr _ Hid. apply Hf; [done| |by apply (Ha _ _ Hr)]. by rewrite Hid.
Qed.

Ltac saves := eapply wp_update_request; [done|done| | |].

Lemma later_status r r' :
  open_request r = true → Req.id r' = Req.id r →
  Req.organization_id r' = Req.organization_id r →
  Req.aws_account_id r' = Req.aws_account_id r → Req.finding_id r' = Req.finding_id r →
  Req.rule_key r' = Req.rule_key r → Req.action_key r' = Req.action_key r →
  (Req.attempt_count r <= Req.attempt_count r')%Z → (live r → live r') →
  later r r'.
Proof. intros Ho. split; try done. congruence. Qed.

Lemma pending_open r : Req.status r = RemediationStatus.PENDING_APPROVAL → open_request r = true.
Proof. intros E. unfold open_request. by rewrite E. Qed.
Lemma approved_open r : Req.status r = RemediationStatus.APPROVED → open_request r = true.
Proof. intros E. unfold open_request. by rewrite E. Qed.

Lemma wp_audited {A} e t o a i (x : A) s :
  both J s → wp (_ ← audit_ok e t o a i; mret x) (λ _ s', both J s') s.
Proof.
  intros Hs. refine (keeps_bind J _ _ _ _ s Hs); [apply keeps_audit_ok, _|].
  intros ?. apply keeps_ret.
Qed.

(** Closes the steps after the flush. *)
Ltac audited := intros [[]|] s' Hs'; [by apply wp_audited|done].

Lemma keeps_approve now o i u : keeps J (approve now o i u).
Proof.
  apply keeps_loaded. intros r s Hs Hr Hok. wp_go; try done. bools.
  saves; [|intros [] Hc; split; cbn; try done|audited].
  - apply later_status; auto using pending_open. done.
  - intros _. split; [|done]. by f_equal.
  - auto using pending_open.
Qed.

Lemma keeps_reject now o i u reason : keeps J (reject now o i u reason).
Proof.
  apply keeps_loaded. intros r s Hs Hr Hok. wp_go; try done. bools.
  saves; [|intros [] Hc; split; cbn; try done|audited].
  apply later_status; auto using pending_open. done.
Qed.

Lemma keeps_cancel now o i u : keeps J (Remediation.cancel now o i u).
Proof.
  apply keeps_loaded. intros r s Hs Hr Hok. wp_go; try done.
  saves; [|intros [] Hc; split; cbn; try done|audited].
  apply later_status; auto. done.
Qed.

(** ** Preparing a live request *)

Lemma dict_update_get k v items d :
  NoDup items.*1 → (k, v) ∈ items → dget k (dict_update items d) = Some v.
Proof.
  unfold dict_update. revert d. induction items as [|[k' v'] items IH]; intros d; cbn; [set_solver|].
  rewrite NoDup_cons. intros [Hni Hnd] [[= -> ->]|Hin]%elem_of_cons; [|by apply IH].
  assert (∀ (l : pydict) d, k' ∉ l.*1 →
    dget k' (fold_left (λ d kv, dset kv.1 kv.2 d) l d) = dget k' d) as Hout.
  { clear. induction l as [|[k2 v2] l IH]; intros d; cbn; [done|]. intros Hn.
    rewrite IH by set_solver. rewrite dget_dset. destruct (String.eqb_spec k' k2); set_solver. }
  rewrite Hout by done. rewrite dget_dset, String.eqb_refl. done.
Qed.

Lemma snapshot_has_dict k x v : snapshot_has k x v = true → ∃ d, v = PDict d.
Proof. destruct v; [done..|]. eauto. Qed.

Lemma prepared_later o f a r :
  Req.status r = RemediationStatus.APPROVED → later r (prepared o f a r).
Proof. intros Hst. apply later_status; auto using approved_open; done. Qed.

Lemma prepared_snapshot o f a r d :
  Req.request_snapshot_json r = PDict d →
  Req.request_snapshot_json (prepared o f a r) = PDict (dict_update (live_items a) d).
Proof. intros E. unfold prepared. rewrite E. done. Qed.

Lemma prepared_ok o f a r d :
  request_ok r → Req.status r = RemediationStatus.APPROVED →
  Req.action_key r ∈ LIVE_ACTIONS → Req.request_snapshot_json r = PDict d →
  remediation_checks (prepared o f a r) = true → request_ok (prepared o f a r).
Proof.
  intros Hok Hst Hl Hd Hc. split; try done.
  - intros _. by apply Hok, approved_open.
  - intros _. split_and!; [done..|]. rewrite (prepared_snapshot _ _ _ _ _ Hd).
    unfold snapshot_has, dget_or.
    rewrite (dict_update_get "execution_mode" (PStr "live_aws")); [done| |].
    + apply (bool_decide_unpack _). vm_compute. exact I.
    + unfold live_items. cbn. set_solver.
Qed.

Lemma keeps_prepare_live o i u : keeps J (prepare_live_request o i u).
Proof.
  unfold prepare_live_request. apply keeps_bind; [apply keeps_require_member|]. intros m.
  apply keeps_bind; [apply keeps_ensure|]. intros _.
  apply keeps_loaded. intros r s Hs Hr Hok.
  wp_go. all: try exact Hs. bools.
  match goal with H : snapshot_has _ _ _ = true |- _ =>
    apply snapshot_has_dict in H as [sn Hsn] end.
  eapply (wp_update_request r).
  - destruct Hs as [Hc Hw]. split; [done|]. cbn. by eapply follows_same.
  - exact Hr.
  - by apply prepared_later.
  - intros _. by eapply prepared_ok.
  - intros [[]|] s' Hs'; [|done]. wp_go. destruct Hs'. by split.
Qed.

(** ** Executing *)

Definition leased_by (lease : uuid) (r : Request) : Request :=
  r <| Req.execution_lease_id := Some lease |>.

(** The request a run leaves. *)
Definition finished (now : timestamp) (res : RemediationExecutionResult) (r : Request) : Request :=
  (settled now res (counted res r
    <| Req.precondition_evidence_json := PDict (default [] (precondition_evidence res)) |>
    <| Req.verification_result_json := PDict <$> verification_result res |>
    <| Req.aws_request_ids_json := PDict <$> aws_request_ids res |>)).1.1.

Lemma finished_later now res r :
  Req.status r = RemediationStatus.APPROVED → later r (finished now res r).
Proof.
  intros Hst. unfold finished, settled.
  destruct (RemediationActions.outcome res); [|destruct (_ <=? _)%Z].
  all: apply later_status; cbn; auto using approved_open; lia.
Qed.

Lemma approved_attempts r :
  request_ok r → Req.status r = RemediationStatus.APPROVED →
  (0 <= Req.attempt_count r < MAX_EXECUTION_ATTEMPTS)%Z.
Proof.
  intros [Hc _ _ Ht _ _ _] Hst. specialize (Ht (approved_open _ Hst)).
  unfold remediation_checks in Hc. bools. lia.
Qed.

Lemma finished_ok now res r :
  request_ok r → Req.status r = RemediationStatus.APPROVED → request_ok (finished now res r).
Proof.
  intros Hok Hst. pose proof (approved_attempts _ Hok Hst) as Hn.
  destruct Hok as [Hc ? Ha Ht ? ? ?]. unfold remediation_checks in Hc. rewrite Hst in Hc. bools.
  assert (was_approved (Req.status r) = true) as Hw by (by rewrite Hst).
  unfold MAX_EXECUTION_ATTEMPTS in *. unfold finished, settled.
  destruct (RemediationActions.outcome res).
  2: match goal with |- context [if ?b then (after_last_failure _ _ _, _, _) else _] =>
       destruct b eqn:E end; cbn in E; unfold MAX_EXECUTION_ATTEMPTS in E.
  all: split; cbn; try done; auto.
  all: unfold remediation_checks; cbn; rewrite ?Hst; intros;
    repeat match goal with H : _ = ?b |- context [is_some_ ?x] => rewrite H end;
    rewrite ?andb_true_iff; split_and?; try done;
    unfold MAX_EXECUTION_ATTEMPTS; lia.
Qed.

Lemma finished_attempts now res lease r :
  Req.attempt_count (finished now res (leased_by lease r)) = (Req.attempt_count r + 1)%Z.
Proof.
  unfold finished, settled. destruct (RemediationActions.outcome res); [done|].
  match goal with |- context [if ?b then (after_last_failure _ _ _, _, _) else _] =>
    destruct b end; done.
Qed.

Lemma finished_status now res lease r :
  Req.status r = RemediationStatus.APPROVED → (0 <= Req.attempt_count r < 3)%Z →
  Req.status (finished now res (leased_by lease r)) =
    match RemediationActions.outcome res with
    | SUCCESS => RemediationStatus.SUCCEEDED
    | FAILURE => if (Req.attempt_count r =? 2)%Z then RemediationStatus.FAILED
                 else RemediationStatus.APPROVED
    end.
Proof.
  intros Hst Hn. unfold finished, settled.
  destruct (RemediationActions.outcome res); [done|].
  match goal with |- context [if ?b then (after_last_failure _ _ _, _, _) else _] =>
    destruct b eqn:E end; cbn in E; unfold MAX_EXECUTION_ATTEMPTS in E.
  all: destruct (_ =? 2)%Z eqn:E2; try done; lia.
Qed.

(** A change that keeps the index of a stored request passes the flush. *)
Lemma later_unique d r r' :
  index_ok d → DB.remediations d !! Req.id r = Some r → later r r' →
  Req.idempotency_key r' = Req.idempotency_key r →
  unique_ok false remediation_conflict r' (DB.remediations d) = true.
Proof.
  intros [Hk Hu] Hr Hl Hkey. apply unique_ok_true. split; [done|]. intros k r2 Hk2 Hne.
  assert (remediation_conflict r r2 = false) as Hn.
  { apply (Hu (Req.id r) k); [done..|]. intros E. apply Hne.
    rewrite (Hk _ _ Hk2), <-E. symmetry. apply Hl. }
  unfold remediation_conflict in *. rewrite Hkey, (lt_org _ _ Hl), (lt_finding _ _ Hl).
  apply orb_false_iff in Hn as [-> Hn].
  destruct (open_request r) eqn:E; [|rewrite (lt_closed _ _ Hl E), E; done].
  destruct (open_request r'); [exact Hn|done].
Qed.

Lemma finished_key now res r : Req.idempotency_key (finished now res r) = Req.idempotency_key r.
Proof.
  unfold finished, settled. destruct (RemediationActions.outcome res); [done|].
  match goal with |- context [if ?b then (after_last_failure _ _ _, _, _) else _] =>
    destruct b end; done.
Qed.

(** Recording a result of an executor that keeps its promise always succeeds. *)
Lemma wp_record_result now o r res Q s :
  both J s → DB.remediations (working s) !! Req.id r = Some r →
  Req.status r = RemediationStatus.APPROVED → safe_result res →
  (∀ s', both J s' → committed s' = committed s →
     DB.remediations (working s') = put (finished now res r) (DB.remediations (working s)) →
     Q (Ret (finished now res r)) s') →
  wp (record_result now o r res) Q s.
Proof.
  intros Hs Hr Hst (H1 & H2 & H3) HQ. pose proof Hs as [Hc [[Hi Ha] Hf]].
  pose proof (Ha _ _ Hr) as Hok. pose proof (finished_ok now res r Hok Hst) as Hok'.
  pose proof (finished_later now res r Hst) as Hl.
  pose proof (later_unique _ _ _ Hi Hr Hl (finished_key _ _ _)) as Hu.
  unfold record_result, finished in *.
  repeat first [ progress cbn [working committed] | apply wp_bind | apply wp_ret
               | apply wp_modify | apply wp_ensure; intros; [|congruence] ].
  set (r0 := counted res r). fold r0 in Hl, Hok', Hu, HQ.
  destruct (settled _ _ _) as [[r' ev] ar]. cbn [fst] in *.
  apply wp_bind, wp_record_audit, wp_bind. cbn [working committed].
  assert (Req.id r' = Req.id r0) as Hid by apply Hl.
  set (d' := (working s) <| DB.remediations ::= put r' |>).
  assert (J d') as Hd'.
  { eapply follows_put; [by split|done..|]. intros x Hx.
    assert (x = r) as -> by (rewrite (lt_id _ _ Hl) in Hx; congruence). done. }
  apply wp_save_request; cbn -[upd].
  - intros _ _. apply wp_ret, HQ; [|done|].
    + split; [done|]. eapply follows_same; [exact Hd'|]. cbn. by rewrite !put_put.
    + cbn. by rewrite !put_put.
  - pose proof (ix_keyed _ Hi) as Hk. cbn.
    rewrite !unique_ok_put by first [symmetry; exact Hid | auto with rows].
    rewrite Hu, (ro_checks _ Hok'). done.
Qed.
End operations.

(** ** The gates *)

(** What both routes check of a request and its finding. *)
Record gates (settings : Settings) (actions : RemediationActionRegistry) (o i : uuid)
    (d : DB) (r : Request) (f : Finding) : Prop := {
  gt_request : DB.remediations d !! i = Some r ∧ Req.id r = i ∧ Req.organization_id r = o;
  gt_status : Req.status r = RemediationStatus.APPROVED;
  gt_mode : Req.execution_mode r = RemediationExecutionMode.MOCK_AUTOMATION ∨ live r;
  gt_enabled : remediation_execution_enabled settings = true;
  gt_snapshot : Req.request_snapshot_hash r = hash_of r
    ∧ Req.approved_snapshot_hash r = Some (hash_of r);
  gt_action : ∃ a, get_action actions (Req.action_key r) = Some a
    ∧ version a = Req.action_version r ∧ Req.rule_key r ∈ rule_keys a;
  gt_finding : (∃ k, DB.findings d !! k = Some f) ∧ Finding.id f = Req.finding_id r
    ∧ Finding.organization_id f = o ∧ Finding.status f = FindingStatus.OPEN
    ∧ Finding.rule_key f = Req.rule_key r;
  gt_evidence : snapshot_has "finding_evidence_hash" (hash_json (Finding.evidence_json f))
    (Req.request_snapshot_json r) = true
}.

(** What the live route checks besides: the switches, the account and its
    approval, and the target. *)
Record live_gates (settings : Settings) (key : string) (o lease : uuid) (d : DB) (r : Request)
    (f : Finding) (c : RemediationExecutionContext) : Prop := {
  lg_live : live r ∧ Req.dry_run r = false ∧ Req.executor_key r = Some key;
  lg_switches : remediation_live_aws_enabled settings = true
    ∧ remediation_emergency_stop settings = false;
  lg_lease : Req.execution_lease_id r = None ∨ Req.execution_lease_id r = Some lease;
  lg_account : ∃ k, DB.aws_accounts d !! k = Some (account c);
  lg_same_account : Acc.id (account c) = Req.aws_account_id r
    ∧ Acc.organization_id (account c) = o;
  lg_approval : Acc.sandbox_approved (account c) = true
    ∧ is_Some (Acc.sandbox_approved_at (account c))
    ∧ is_Some (Acc.sandbox_approved_by_user_id (account c));
  lg_trust : trusted (account c) = true;
  lg_asset : (∃ k, DB.assets d !! k = Some (asset c)) ∧ Finding.asset_id f = Some (Asset.id (asset c))
    ∧ Asset.aws_account_id (asset c) = Req.aws_account_id r ∧ Asset.organization_id (asset c) = o;
  lg_target : Req.target_resource_arn r = Asset.arn (asset c)
    ∧ Req.target_region r = Some (Asset.region (asset c))
    ∧ snapshot_has "asset_id" (uuid_str (Asset.id (asset c))) (Req.request_snapshot_json r) = true
    ∧ snapshot_has "asset_evidence_hash" (hash_json (Asset.metadata_json (asset c)))
        (Req.request_snapshot_json r) = true
}.

Lemma is_some_true {A} (o : option A) : is_some_ o = true → is_Some o.
Proof. by destruct o. Qed.

Lemma wp_executable settings actions o i Q s :
  index_ok (working s) →
  (∀ r f, gates settings actions o i (working s) r f → Q (Ret (r, f)) s) →
  (∀ e, Q (Raise e) s) →
  wp (executable settings actions o i) Q s.
Proof.
  intros Hi HQ HE. unfold executable, _get_finding. apply wp_bind, wp_get_scoped; [done| |apply HE].
  intros r Hr Ho Hid. wp_go; try apply HE.
  match goal with H : find_row _ _ = Some _ |- _ => apply find_row_Some in H as (k & ? & ?) end.
  bools. match goal with H : String.eqb _ _ = true |- _ => apply String.eqb_eq in H end.
  apply HQ. split; auto.
  - match goal with H : Req.execution_mode r ∈ _ |- _ => revert H end. unfold live. set_solver.
  - split; [done|]. unfold hash_of. congruence.
  - destruct (get_action _ _) as [act|]; [|done]. bools. exists act. split_and!; [done|lia|done].
  - split_and!; eauto.
Qed.

Lemma wp_route settings key o r f lease Q s :
  (∀ c, live_gates settings key o lease (working s) r f c →
     RemediationActions.finding c = f → RemediationActions.request c = leased_by lease r →
     Q (Ret (leased_by lease r, Some c))
       (Sess (committed s) ((working s) <| DB.remediations ::= put (leased_by lease r) |>))) →
  (¬ live r → Q (Ret (leased_by lease r, None))
     (Sess (committed s) ((working s) <| DB.remediations ::= put (leased_by lease r) |>))) →
  (∀ e, Q (Raise e) s) →
  wp (route settings key o r f lease) Q s.
Proof.
  intros HL HM HE. unfold route, _live_execution_context, assign.
  repeat (wp_step; cbn [working committed]; try apply HE).
  2: apply HM; unfold live; by bools.
  repeat match goal with H : find_row _ _ = Some _ |- _ =>
    apply find_row_Some in H as (? & ? & ?) end.
  bools. subst. apply HL; [|reflexivity..].
  split; cbn [RemediationActions.account RemediationActions.asset].
  - unfold live. auto.
  - auto.
  - destruct (Req.execution_lease_id r); [bools; subst; auto|auto].
  - by eexists.
  - auto.
  - auto using is_some_true.
  - unfold trusted. apply andb_true_iff. auto.
  - split_and!; [by eexists|assumption| |assumption]. by etrans; [|eassumption].
  - auto.
Qed.

Section execution.
Context {E L : Type} `{SafeExecutor E, SafeExecutor L}.
Context (d0 : DB).
Abbreviation J := (follows d0).

Lemma leased_ok lease r : request_ok r → request_ok (leased_by lease r).
Proof. intros []. by split. Qed.

Lemma leased_later lease r :
  Req.status r = RemediationStatus.APPROVED → later r (leased_by lease r).
Proof. intros. apply later_status; cbn; auto using approved_open; done. Qed.

Lemma follows_leased lease d d' i r :
  J d → DB.remediations d !! i = Some r → Req.id r = i →
  Req.status r = RemediationStatus.APPROVED →
  DB.remediations d' = put (leased_by lease r) (DB.remediations d) → J d'.
Proof.
  intros Hd Hr Hid Hst Eq. pose proof Hd as [[Hi Ha] _].
  apply (follows_same _ (d <| DB.remediations ::= put (leased_by lease r) |>)); [|done].
  apply (follows_put _ _ false); [done| | |].
  - apply leased_ok. by apply (Ha i).
  - rewrite <-Hid in Hr. apply (later_unique _ r); [done..|by apply leased_later|done].
  - intros r0. change (Req.id (leased_by lease r)) with (Req.id r).
    rewrite Hid, Hr. intros [= <-]. by apply leased_later.
Qed.

(** A run keeps requests well-formed, whether the executor returns or raises. *)
Lemma keeps_execute settings actions (e : E) (factory : Settings → L) now o i lease :
  keeps J (execute settings actions e factory now o i lease).
Proof.
  intros s Hs. pose proof Hs as [Hc [[Hi Ha] Hf]].
  unfold execute, admitted. apply wp_bind, wp_bind, wp_executable; [done| |done].
  intros r f [(Hr & Hid & Ho) Hst _ _ _ _ _ _]. cbn [fst snd].
  assert (∀ ctx, wp (match invoke settings e factory (leased_by lease r) ctx with
    | inr e => raise e
    | inl result => record_result now o (leased_by lease r) result
    end) (λ _ s', both J s')
      (Sess (committed s) ((working s) <| DB.remediations ::= put (leased_by lease r) |>))) as Hrun.
  { intros ctx.
    assert (both J (Sess (committed s)
      ((working s) <| DB.remediations ::= put (leased_by lease r) |>))) as Hs'.
    { split; [done|]. by apply (follows_leased lease (working s) _ i r). }
    destruct (invoke _ _ _ _ _) as [res|ex] eqn:Hinv; [|by apply wp_raise].
    apply (wp_record_result d0); [done| |done| |done].
    - cbn. unfold put. apply lookup_insert_eq.
    - unfold invoke in Hinv.
      destruct ctx; [exact (executor_safe (E := L) _ _ _ _ _ _ _ Hinv)
                    |exact (executor_safe (E := E) _ _ _ _ _ _ _ Hinv)]. }
  apply wp_route; intros; try apply Hrun; done.
Qed.

(** The worker's step: it commits what the run left, also when it raised,
    since recording the failure of the job commits the session. *)
Definition work settings actions (e : E) (factory : Settings → L) now o i lease : txn DB () :=
  _ ← try_catch (r ← execute settings actions e factory now o i lease; mret (Some r))
        (λ _, mret None);
  commit.

Lemma keeps_work settings actions (e : E) (factory : Settings → L) now o i lease :
  keeps J (work settings actions e factory now o i lease).
Proof.
  unfold work. keeps_go. apply keeps_execute.
Qed.
End execution.

(** * The whole life *)

Section life.
(** The executors of the deployment. *)
Context {E L : Type} `{SafeExecutor E, SafeExecutor L}.

(** One step of any client or worker. *)
Inductive step : DB → DB → Prop :=
| step_propose g ag i now f u o d : step d (run (propose_remediation g ag i now f u o) d).2
| step_approve now i u o d : step d (run (approve_remediation now i u o) d).2
| step_reject now i reason u o d : step d (run (reject_remediation now i reason u o) d).2
| step_cancel now i u o d : step d (run (cancel_remediation now i u o) d).2
| step_prepare_live o i u d : step d (run (prepare_live_request o i u) d).2
| step_execute settings actions (e : E) (factory : Settings → L) now o i lease d :
    step d (run (work settings actions e factory now o i lease) d).2
| step_other d d' : DB.remediations d' = DB.remediations d → step d d'.

Lemma step_follows d d' : requests_ok d → step d d' → follows d d'.
Proof.
  intros Hok Hst. pose proof (follows_refl d Hok) as Hd.
  assert (∀ {A} (m : txn DB A), keeps (follows d) m → follows d (run m d).2) as Hrun.
  { intros A m Hm. by apply keeps_run. }
  destruct Hst; try (apply Hrun; clear Hrun).
  - apply keeps_propose.
  - unfold approve_remediation. keeps_go. apply keeps_approve.
  - unfold reject_remediation. keeps_go. apply keeps_reject.
  - unfold cancel_remediation. keeps_go. apply keeps_cancel.
  - apply keeps_prepare_live.
  - apply keeps_work.
  - by eapply follows_same.
Qed.

Lemma steps_follow d d' : requests_ok d → rtc step d d' → follows d d'.
Proof.
  intros Hok Hs. induction Hs as [d|d1 d2 d3 H12 H23 IH]; [by apply follows_refl|].
  pose proof (step_follows _ _ Hok H12) as Hf.
  eapply follows_trans; [exact Hf|]. apply IH, Hf.
Qed.
End life.

(** * Theorems *)

(** C4. The life of a remediation request.  Whatever clients and workers do, in
    any order and with any executors that keep their promise, every stored
    request keeps its CHECK constraints and unique indexes, its snapshot keeps
    the hash that was approved, attempts never exceed three, a live request is
    marked live in its snapshot, and no request is lost: it keeps its
    organization, account, finding, rule and action, its attempts only grow,
    and once it is rejected, cancelled, succeeded or failed it never changes
    again. *)
Theorem remediation_lifecycle {E L : Type} `{SafeExecutor E, SafeExecutor L} d d' :
  requests_ok d → rtc (step (E := E) (L := L)) d d' →
  requests_ok d'
  ∧ ∀ k r, DB.remediations d !! k = Some r →
      ∃ r', DB.remediations d' !! k = Some r' ∧ later r r'.
Proof. intros Hok Hs. exact (steps_follow _ _ Hok Hs). Qed.

Lemma wp_admitted {L : Type} `{RemediationExecutor L} settings actions (factory : Settings → L)
    o i lease Q s :
  index_ok (working s) →
  (∀ r f c s', gates settings actions o i (working s) r f →
     committed s' = committed s →
     DB.remediations (working s') = put (leased_by lease r) (DB.remediations (working s)) →
     match c with
     | Some ctx => live_gates settings (executor_key (factory settings)) o lease
                     (working s) r f ctx
                   ∧ RemediationActions.finding ctx = f
                   ∧ RemediationActions.request ctx = leased_by lease r
     | None => ¬ live r
     end → Q (Ret (leased_by lease r, c)) s') →
  (∀ e, Q (Raise e) s) →
  wp (admitted settings actions factory o i lease) Q s.
Proof.
  intros Hi HQ HE. unfold admitted. apply wp_bind, wp_executable; [done| |apply HE].
  intros r f Hg. apply wp_route; [intros c ???|intros ?|apply HE].
  - by apply (HQ r f (Some c)).
  - by apply (HQ r f None).
Qed.

(** C1. Live execution is gated.  In every state that clients and workers can
    reach from a well-formed one, the live executor is chosen only when all of
    this holds: the operator's three switches allow it; the request is
    approved, by somebody, with attempts left, and its stored snapshot, which
    declares live execution, is the one whose hash was approved; its action is
    allowlisted, for its rule and version, and is one of the two live actions;
    its finding is open in the same organization with the evidence the
    snapshot recorded; the account belongs to the organization, is approved as
    a sandbox and has its remediation role and external id; the asset is the
    one in the snapshot, unchanged; and no other lease holds the request.  A
    request that goes to the other executor is a dry run, and a refused one
    changes nothing. *)
Theorem live_execution_is_gated {E L : Type} `{SafeExecutor E, SafeExecutor L} d0 d
    settings actions (factory : Settings → L) o i lease :
  requests_ok d0 → rtc (step (E := E) (L := L)) d0 d →
  match run (admitted settings actions factory o i lease) d with
  | (Ret (r', Some ctx), _) =>
      ∃ r f, r' = leased_by lease r
      ∧ gates settings actions o i d r f
      ∧ live_gates settings (executor_key (factory settings)) o lease d r f ctx
      ∧ is_Some (Req.approved_by_user_id r)
      ∧ (0 <= Req.attempt_count r < MAX_EXECUTION_ATTEMPTS)%Z
      ∧ Req.action_key r ∈ LIVE_ACTIONS
      ∧ snapshot_has "execution_mode" "live_aws" (Req.request_snapshot_json r) = true
  | (Ret (r', None), _) =>
      ∃ r f, r' = leased_by lease r
      ∧ gates settings actions o i d r f ∧ Req.dry_run r = true
  | (Raise _, d') => d' = d
  end.
Proof.
  intros Hok Hs. pose proof (steps_follow _ _ Hok Hs) as [[Hi Ha] _].
  destruct (run _ d) as [out d'] eqn:Hrun. wp_run_in Hrun.
  apply wp_admitted; cbn; [done| |done]. intros r f c s' Hg _ _ Hc.
  pose proof (gt_request _ _ _ _ _ _ _ Hg) as (Hr & _ & _).
  pose proof (gt_status _ _ _ _ _ _ _ Hg) as Hst.
  pose proof (Ha _ _ Hr) as Hro. destruct c as [ctx|].
  - destruct Hc as (Hl & _ & _).
    destruct (ro_live _ Hro) as (_ & ? & ?); [apply Hl|].
    exists r, f. split_and!; try assumption; [reflexivity| | |].
    + apply Hro. by rewrite Hst.
    + by apply approved_attempts.
    + by apply approved_attempts.
  - exists r, f. split_and!; [reflexivity|assumption|]. by apply (ro_dry _ Hro).
Qed.

(** What a run does to its request.  Given a well-formed table, a run that
    passes the gates calls the chosen executor once, adds one attempt and
    stores one changed request: succeeded when the executor succeeded, failed
    when this was the third failure, and still approved otherwise, to be
    retried.  A run that is refused, or whose executor raises, commits
    nothing by itself. *)
Theorem execute_decides {E L : Type} `{SafeExecutor E, SafeExecutor L} d
    settings actions (e : E) (factory : Settings → L) now o i lease :
  requests_ok d →
  match run (r ← execute settings actions e factory now o i lease; _ ← commit; mret r) d with
  | (Ret r', d') =>
      ∃ r f ctx res, gates settings actions o i d r f
      ∧ invoke settings e factory (leased_by lease r) ctx = inl res
      ∧ (is_Some ctx ↔ live r)
      ∧ DB.remediations d' = <[i := r']> (DB.remediations d)
      ∧ Req.attempt_count r' = (Req.attempt_count r + 1)%Z
      ∧ Req.status r' =
          match RemediationActions.outcome res with
          | SUCCESS => RemediationStatus.SUCCEEDED
          | FAILURE => if (Req.attempt_count r =? 2)%Z then RemediationStatus.FAILED
                       else RemediationStatus.APPROVED
          end
  | (Raise _, d') => d' = d
  end.
Proof.
  intros Hok. pose proof Hok as [Hi Ha]. destruct (run _ d) as [out d'] eqn:Hrun. wp_run_in Hrun.
  unfold execute. apply wp_bind, wp_bind, wp_admitted; [done| |done].
  intros r f ctx s' Hg Hc Hput Hctx. cbn [fst snd] in *.
  pose proof (gt_request _ _ _ _ _ _ _ Hg) as (Hr & Hid & _).
  pose proof (gt_status _ _ _ _ _ _ _ Hg) as Hst. cbn in Hr, Hput, Hc.
  destruct (invoke _ _ _ _ _) as [res|ex] eqn:Hinv; [|by apply wp_raise].
  assert (safe_result res) as Hsafe.
  { unfold invoke in Hinv. destruct ctx; [exact (executor_safe (E := L) _ _ _ _ _ _ _ Hinv)
                                        |exact (executor_safe (E := E) _ _ _ _ _ _ _ Hinv)]. }
  apply (wp_record_result d); [| |done|done|].
  { split; [rewrite Hc; by apply follows_refl|].
    apply (follows_leased d lease d _ i r); [by apply follows_refl|done..]. }
  { rewrite Hput. cbn. unfold put. apply lookup_insert_eq. }
  intros s2 _ _ E2. cbn. apply wp_bind, wp_commit, wp_ret. cbn.
  pose proof (approved_attempts _ (Ha _ _ Hr) Hst) as Hn. unfold MAX_EXECUTION_ATTEMPTS in Hn.
  exists r, f, ctx, res.
  split; [exact Hg|]. split; [done|]. split; [|split; [|split]].
  - destruct ctx; [|by split; [intros []|intros ?%Hctx]]. split; [|done].
    intros _. apply Hctx.
  - rewrite E2, Hput, put_put by apply finished_later, Hst.
    unfold put. f_equal. rewrite <-Hid. apply (finished_later now res (leased_by lease r) Hst).
  - apply finished_attempts.
  - by apply finished_status.
Qed.

(** Another request of the organization has the candidate's idempotency key. *)
Definition key_used (c : Request) (d : DB) : Prop :=
  ∃ k r, DB.remediations d !! k = Some r
  ∧ Req.organization_id r = Req.organization_id c
  ∧ Req.idempotency_key r = Req.idempotency_key c.

Lemma key_used_dec c d : key_used c d ∨ ¬ key_used c d.
Proof.
  destruct (find_row (λ r, (Req.organization_id r ≟ Req.organization_id c)
    && (Req.idempotency_key r ≟ Req.idempotency_key c)) (DB.remediations d)) as [r|] eqn:E.
  - left. apply find_row_Some in E as (k & Hk & ?). bools. by exists k, r.
  - right. intros (k & r & Hk & Ho & Hkey). rewrite find_row_None in E. specialize (E k r Hk).
    by rewrite !bool_decide_eq_true_2 in E by done.
Qed.

Lemma candidate_fresh d c finding_id :
  requests_ok d → DB.remediations d !! Req.id c = None →
  open_for finding_id d = None → Req.finding_id c = finding_id → remediation_checks c = true →
  remediation_checks c && unique_ok true remediation_conflict c (DB.remediations d) = true
  ↔ ¬ key_used c d.
Proof.
  intros [[Hk _] _] Hn Ho Hf ->. cbn. rewrite unique_ok_true. unfold open_for in Ho.
  rewrite find_row_None in Ho. split.
  - intros [_ Hc] (k & r & Hr & Horg & Hkey).
    assert (Req.id r ≠ Req.id c) as Hne.
    { intros E. pose proof (Hk _ _ Hr) as Hid. cbv [row_id Req.row] in Hid. congruence. }
    specialize (Hc k r Hr Hne). unfold remediation_conflict in Hc.
    rewrite Horg, Hkey, !bool_decide_eq_true_2 in Hc by done. done.
  - intros Hu. split; [done|]. intros k r Hr _. unfold remediation_conflict.
    apply orb_false_iff. split.
    + apply not_true_iff_false. intros Hc. bools. apply Hu. exists k, r. split_and!; congruence.
    + specialize (Ho k r Hr). rewrite Hf. apply andb_false_iff in Ho as [Ho|Ho].
      * rewrite (bool_decide_ext _ (Req.finding_id r = finding_id)) by done.
        by rewrite Ho, andb_false_r.
      * by rewrite Ho, andb_false_r.
Qed.

(** What a proposal does, for a member who may request remediations and an
    open finding of the organization.  When the finding has an open request it
    is returned and nothing changes, so proposing twice gives one request.
    Otherwise the candidate is stored, pending approval, with one audit event,
    unless another request of the organization has its idempotency key.  That
    key is a hash of the finding and its snapshot, so a closed request for the
    same evidence is enough: then the IntegrityError of the insert escapes,
    and the finding cannot be proposed again. *)
Theorem propose_decides g ag new_id now finding_id u o d m f :
  requests_ok d → DB.remediations d !! new_id = None →
  active_membership o (User.id u) d = Some m →
  role_has_capability (OrganizationMembership.role m) Capability.REMEDIATION_REQUEST = true →
  find_row (λ f, (Finding.id f ≟ finding_id) && (Finding.organization_id f ≟ o))
    (DB.findings d) = Some f →
  Finding.status f = FindingStatus.OPEN →
  let c := candidate_of g ag new_id now o f u in
  let out := run (propose_remediation g ag new_id now finding_id u o) d in
  match open_for finding_id d with
  | Some r => out = (Ret r, d)
  | None =>
      (key_used c d ∧ out = (Raise IntegrityError, d))
      ∨ (¬ key_used c d ∧ Req.status c = RemediationStatus.PENDING_APPROVAL
         ∧ out = (Ret c, d <| DB.remediations ::= <[new_id := c]> |>
                           <| DB.audit ::= λ l, l ++ [AuditEvent.mk (Some o) (Some (User.id u))
                                "remediation.request.proposed" "remediation_request"
                                (Some new_id) AuditResult.SUCCEEDED] |>))
  end.
Proof.
  intros Hok Hn Hm Hcap Hf Hst c out. subst out.
  assert (Finding.id f = finding_id) as Hid.
  { apply find_row_Some in Hf as (? & _ & Hf). by bools. }
  pose proof (candidate_fresh d c finding_id Hok Hn) as Hfresh.
  destruct (run _ d) as [out d'] eqn:Hrun. wp_run_in Hrun.
  unfold propose_remediation, propose_for_finding, _require, _get_finding.
  apply wp_bind, wp_bind, wp_require_capability; cbn; rewrite Hm; [|done|].
  2: { intros ? [= <-] E. by rewrite Hcap in E. }
  intros ? _ _. apply wp_ret. cbn. apply wp_bind, wp_bind, wp_bind, wp_gets. cbn.
  rewrite Hf. apply wp_some_or; [|done]. intros ? [= <-]. cbn.
  apply wp_bind, wp_ensure; [|rewrite Hst; done]. intros _. cbn.
  apply wp_bind, wp_gets. cbn. destruct (open_for finding_id d) as [r|] eqn:Ho.
  { apply wp_ret. cbn. by apply wp_bind, wp_commit, wp_ret. }
  apply wp_bind, wp_try, wp_bind, wp_begin_nested, wp_save_request; cbn.
  all: fold c; specialize (Hfresh eq_refl Hid eq_refl).
  - intros Hc Hu. apply wp_ret. cbn. apply wp_bind, wp_audit_ok. cbn.
    apply wp_ret. cbn. apply wp_bind, wp_commit, wp_ret. cbn. right.
    rewrite <-Hfresh, Hu. done.
  - intros Hc. cbn. apply wp_ret. cbn. apply wp_bind, wp_gets. cbn. rewrite Ho.
    apply wp_some_or; [done|]. intros _. left. split; [|done].
    destruct (key_used_dec c d) as [|Hno]; [done|]. apply Hfresh in Hno. cbn in Hno. congruence.
Qed.

#[export] Instance action_eq_dec : EqDecision RemediationAction.
Proof. solve_decision. Defined.

(** The kind of resource the service of an action changes. *)
Definition target_type (a : RemediationAction) : AssetType :=
  if startswith (key a) "s3." then AssetType.S3_BUCKET else AssetType.EC2_SECURITY_GROUP.

(** The rule [k] is one of [rules], about what [a] changes, and [ag] maps it to [a]. *)
Definition fits (rules : list (string * SecurityRules.SecurityRule))
    (ag : RemediationActionRegistry) (a : RemediationAction) (k : string) : bool :=
  (for_rule ag k ≟ Some a)
  && match snd <$> List.find (λ kr, String.eqb kr.1 k) rules with
     | Some r => (SecurityRules.key r ≟ k) && (SecurityRules.asset_type r ≟ Some (target_type a))
     | None => false
     end.

(** The shipped allowlist fits the shipped rules, whatever [fromisoformat]
    does: every rule key that an action lists is a rule of the registry, that
    rule is about the kind of resource the action's service changes, and the
    registry of actions proposes that very action for it; so a finding of such
    a rule always yields an automatable proposal. *)
Theorem allowlist_fits_rules iso :
  ∃ g ag, SecurityRules.default_registry iso = inl g ∧ default_remediation_actions = inl ag
  ∧ ∀ a k, a ∈ DEFAULT_REMEDIATION_ACTIONS → k ∈ rule_keys a →
      for_rule ag k = Some a
      ∧ ∃ r, SecurityRules.registry_get g k = Some r ∧ SecurityRules.key r = k
        ∧ SecurityRules.asset_type r = Some (target_type a).
Proof.
  destruct (SecurityRules.default_registry_rules iso) as (g & Hdef & Hg).
  assert (match default_remediation_actions with
    | inl ag => forallb (λ a, forallb (fits (map (λ r, (SecurityRules.key r, r))
                  (SecurityRules.all_rules iso)) ag a) (rule_keys a)) DEFAULT_REMEDIATION_ACTIONS
    | inr _ => false end = true) as Hfits by (vm_compute; reflexivity).
  destruct default_remediation_actions as [ag|] eqn:Hag; [|discriminate Hfits].
  exists g, ag. split; [exact Hdef|]. split; [reflexivity|]. intros a k Ha Hk.
  rewrite forallb_forall in Hfits. apply list_elem_of_In in Ha, Hk.
  specialize (Hfits a Ha). rewrite forallb_forall in Hfits. specialize (Hfits k Hk).
  unfold fits in Hfits. rewrite <-Hg in Hfits. bools. split; [assumption|].
  unfold SecurityRules.registry_get. destruct (snd <$> _) as [r|]; [|discriminate]. bools.
  exists r. split; [reflexivity|]. split; assumption.
Qed.

(** * Witnesses *)

(** Alice's organization with an account, a bucket and its open finding. *)
Definition lab : DB :=
  acme <| DB.aws_accounts := {[20%N := AwsExecutor.bucket_account]} |>
       <| DB.assets := {[30%N := AwsExecutor.bucket]} |>
       <| DB.findings := {[40%N := AwsExecutor.bucket_finding]} |>.

Definition no_rules : SecurityRules.RuleRegistry := SecurityRules.mk_RuleRegistry [].
Definition shipped_actions : RemediationActionRegistry :=
  match default_remediation_actions with
  | inl g => g
  | inr _ => mk_RemediationActionRegistry ∅ ∅
  end.
Definition armed : Settings := mk_Settings true true false.

Definition proposed : DB := (run (propose_remediation no_rules shipped_actions 70 5 40 alice 1) lab).2.
Definition approved_once : DB := (run (approve_remediation 6 70 alice 1) proposed).2.
Definition live_prepared : DB := (run (prepare_live_request 1 70 alice) approved_once).2.
Definition approved_live : DB := (run (approve_remediation 7 70 alice 1) live_prepared).2.

Abbreviation Mock := MockRemediationExecutor.
Abbreviation Aws := (AwsExecutor.AWSRemediationExecutor AwsExecutor.script).

Lemma empty_requests_ok d : DB.remediations d = ∅ → requests_ok d.
Proof. intros E. split; [split|]; rewrite E; auto with rows. Qed.

Lemma lab_ok : requests_ok lab.
Proof. apply empty_requests_ok. vm_compute. reflexivity. Qed.

Lemma approved_live_reachable : rtc (step (E := Mock) (L := Aws)) lab approved_live.
Proof.
  apply (rtc_l _ _ proposed); [exact (step_propose no_rules shipped_actions 70 5 40 alice 1 lab)|].
  apply (rtc_l _ _ approved_once); [exact (step_approve 6 70 alice 1 proposed)|].
  apply (rtc_l _ _ live_prepared); [exact (step_prepare_live 1 70 alice approved_once)|].
  apply rtc_once. exact (step_approve 7 70 alice 1 live_prepared).
Qed.

Lemma remediation_lifecycle_witness :
  requests_ok approved_live ∧ is_Some (DB.remediations approved_live !! 70%N).
Proof.
  destruct (remediation_lifecycle lab approved_live lab_ok approved_live_reachable) as [H _].
  split; [exact H|]. vm_compute. by eexists.
Defined.

Definition sandbox (_ : Settings) : Aws := AwsExecutor.executor_with AwsExecutor.good_script.

Lemma live_execution_is_gated_witness :
  ∃ r, DB.remediations approved_live !! 70%N = Some r ∧ live r
  ∧ is_Some (Req.approved_by_user_id r)
  ∧ snapshot_has "execution_mode" "live_aws" (Req.request_snapshot_json r) = true.
Proof.
  pose proof (live_execution_is_gated (E := Mock) (L := Aws) lab approved_live armed shipped_actions
    sandbox 1 70 90 lab_ok approved_live_reachable) as H.
  assert (match (run (admitted armed shipped_actions sandbox 1 70 90) approved_live).1 with
          | Ret (_, Some _) => true | _ => false end = true) as Hc by (vm_compute; reflexivity).
  destruct (run (admitted armed shipped_actions sandbox 1 70 90) approved_live) as [out d'].
  destruct out as [[r' [ctx|]]|e]; [|discriminate Hc..].
  destruct H as (r & f & _ & Hg & Hl & Ha & _ & _ & Hs). exists r.
  split; [apply Hg|]. split; [apply Hl|]. split; [exact Ha|exact Hs].
Defined.

Lemma execute_decides_witness :
  ∃ r' d', run (r ← execute armed shipped_actions (mk_MockRemediationExecutor "success" 0) sandbox
                  8 1 70 90; _ ← commit; mret r) approved_live = (Ret r', d')
  ∧ Req.status r' = RemediationStatus.SUCCEEDED ∧ Req.attempt_count r' = 1%Z.
Proof.
  assert (requests_ok approved_live) as Hok
    by exact (proj1 (steps_follow _ _ lab_ok approved_live_reachable)).
  pose proof (execute_decides (E := Mock) (L := Aws) approved_live armed shipped_actions
    (mk_MockRemediationExecutor "success" 0) sandbox 8 1 70 90 Hok) as H.
  assert (match (run (r ← execute armed shipped_actions (mk_MockRemediationExecutor "success" 0)
                       sandbox 8 1 70 90; _ ← commit; mret r) approved_live).1 with
          | Ret r' => Req.status r' ≟ RemediationStatus.SUCCEEDED | _ => false end = true) as Hc
    by (vm_compute; reflexivity).
  destruct (run _ approved_live) as [out d'].
  destruct out as [r'|e]; [|discriminate Hc]. apply bool_decide_eq_true in Hc.
  exists r', d'. split; [exact eq_refl|]. split; [exact Hc|].
  destruct H as (r & f & ctx & res & Hg & _ & _ & _ & Hn & _).
  assert ((Req.attempt_count <$> DB.remediations approved_live !! 70%N) = Some 0%Z) as H0
    by (vm_compute; reflexivity).
  rewrite (proj1 (gt_request _ _ _ _ _ _ _ Hg)) in H0. injection H0 as H0. rewrite Hn, H0. reflexivity.
Defined.

(** After a rejection, the same open finding cannot be proposed again. *)
Definition rejected : DB := (run (reject_remediation 6 70 "not now" alice 1) proposed).2.

Lemma propose_decides_witness :
  run (propose_remediation no_rules shipped_actions 71 9 40 alice 1) rejected
  = (Raise IntegrityError, rejected).
Proof.
  assert (requests_ok rejected) as Hok.
  { apply (steps_follow (E := Mock) (L := Aws) lab); [apply lab_ok|].
    apply (rtc_l _ _ proposed); [exact (step_propose no_rules shipped_actions 70 5 40 alice 1 lab)|].
    apply rtc_once. exact (step_reject 6 70 "not now" alice 1 proposed). }
  assert (match active_membership 1 (User.id alice) rejected with
          | Some m => role_has_capability (OrganizationMembership.role m)
                        Capability.REMEDIATION_REQUEST
          | None => false end = true) as Hcap by (vm_compute; reflexivity).
  destruct (active_membership 1 (User.id alice) rejected) as [m|] eqn:Hm; [|discriminate Hcap].
  assert (open_for 40 rejected = None) as Hopen by (vm_compute; reflexivity).
  pose proof (propose_decides no_rules shipped_actions 71 9 40 alice 1 rejected m
    AwsExecutor.bucket_finding Hok ltac:(vm_compute; reflexivity) Hm Hcap
    ltac:(vm_compute; reflexivity) eq_refl) as H.
  cbv zeta in H. rewrite Hopen in H. destruct H as [[_ H]|[Hno _]]; [exact H|].
  exfalso. apply Hno.
  set (c := candidate_of _ _ _ _ _ _ _).
  assert (match DB.remediations rejected !! 70%N with
          | Some r => (Req.organization_id r ≟ Req.organization_id c)
                      && (Req.idempotency_key r ≟ Req.idempotency_key c)
          | None => false end = true) as Hkey by (vm_compute; reflexivity).
  destruct (DB.remediations rejected !! 70%N) as [r|] eqn:Hr; [|discriminate Hkey]. bools.
  exists 70%N, r. split; [exact Hr|]. split; assumption.
Defined.
