(* ===== verification/Discovery.v ===== *)
(** services/discovery.py, repositories/assets.py and api/v1/discovery.py: the
    discovery of an account's assets.

    The collectors are an interface, [DiscoveryCollector]: what they read from
    AWS is theirs, the orchestrator keeps the inventory and the record of the
    run.  Sessions do not flush before a query, so an asset that is added is
    not seen until the flush at the end of [_upsert]. *)

From S2P Require Import Prelude.
From S2P Require Import History.
From S2P Require Import Enums.
From S2P Require Import Rbac.
From S2P Require Import PyValue.
From S2P Require Import Models.
From S2P Require Import Tables.
From S2P Require Import Common.
From S2P Require Import Organizations.
From S2P Require Import Evidence.
From S2P Require Import PlatformJobs.
From S2P Require Import Calendar.
From S2P Require Import Evaluations.
From S2P Require Import AwsExecutor.
From S2P Require Import Sha256.
From Stdlib Require Import Ascii.
From stdpp Require Import list.

Module DJ := DiscoveryJob.

(** * Values *)

(** services/discovery.py:50-52, SENSITIVE_KEYS. *)
Definition SENSITIVE_KEYS : list string :=
  ["access?key"; "secret"; "session?token"; "credential"; "password"; "authorization"].

#[local] Arguments rx_search : simpl never.

(** A value that boto3 hands out: those of JSON, dates, and other objects, of
    which only the text is used. *)
Inductive awsval :=
| ANone
| ABool (b : bool)
| AInt (z : Z)
| AStr (s : string)
| AList (l : list awsval)
| ADict (items : list (string * awsval))
| ADate (t : timestamp)
| AOther (text : string).

(** services/discovery.py:55-68, json_safe. *)
Fixpoint json_safe (value : awsval) : pyval :=
  match value with
  | ANone => PNone
  | ABool b => PBool b
  | AInt z => PInt z
  | AStr s => PStr s
  | ADate t => PStr (isoformat "T" t)
  | AList l => PList (map json_safe l)
  | ADict items =>
      PDict ((fix go (items : list (string * awsval)) : pydict :=
         match items with
         | [] => []
         | (k, v) :: items =>
             if rx_search SENSITIVE_KEYS k then go items else (k, json_safe v) :: go items
         end) items)
  | AOther text => PStr text
  end.

(** A JSON value as boto3 would hand it out. *)
Fixpoint of_json (v : pyval) : awsval :=
  match v with
  | PNone => ANone
  | PBool b => ABool b
  | PInt z => AInt z
  | PStr s => AStr s
  | PList l => AList (map of_json l)
  | PDict items => ADict (map (λ kv, (kv.1, of_json kv.2)) items)
  end.

(** services/discovery.py:163-172, NormalizedAsset. *)
Record NormalizedAsset := mk_NormalizedAsset {
  na_asset_type : AssetType;
  na_resource_id : string;
  na_arn : option string;
  na_name : string;
  na_region : string;
  na_status : option string;
  na_tags : pyval;
  na_metadata : pyval
}.

(** services/discovery.py:776-784, DiscoveryCollector.  A collector, by the name of
    its class: the types of assets it is responsible for, and what it finds
    with a factory of clients in the regions of an account. *)
Record DiscoveryCollector (F : Type) := mk_DiscoveryCollector {
  collector : string;
  asset_types : list AssetType;
  discover : F → list string → string → list NormalizedAsset + fault
}.
Arguments mk_DiscoveryCollector {F} _ _ _.
Arguments collector {F} _.
Arguments asset_types {F} _.
Arguments discover {F} _ _ _ _.

(** services/discovery.py:764-773, safe_aws_error.  It may raise itself, on an error
    whose details are not a dict. *)
Definition safe_aws_error (e : fault) : res string :=
  match e with
  | ClientError error =>
      code ← error_code error;
      let value := str_take 80 (safe_code code) in
      mret (if nonempty value then value else "client_error")
  | AWSConnectionFailure reason => mret (str_take 80 reason)
  | BotoCoreError => mret "aws_service_error"
  | _ => mret "discovery_service_failed"
  end.

(** * Tables *)

(** models/asset.py:30-30, part of Asset.  The identity. *)
Definition asset_conflict (a a' : Asset) : bool :=
  (Asset.aws_account_id a ≟ Asset.aws_account_id a')
  && (Asset.asset_type a ≟ Asset.asset_type a')
  && (Asset.resource_id a ≟ Asset.resource_id a').
(** models/asset.py:37-37, part of Asset.  The CHECK constraint. *)
Definition asset_checks (a : Asset) : bool := (Asset.first_seen_at a <=? Asset.last_seen_at a)%Z.
#[export] Instance assets_table : Table Asset.
Proof.
  refine (mk_table _ _ DB.assets (λ f d, d <| DB.assets ::= f |>) asset_checks
    asset_conflict _ _ _ _ _); unfold asset_conflict; solve_table.
Defined.

Definition active_discovery (j : DiscoveryJob) : bool :=
  bool_decide (DJ.status j ∈ [DiscoveryJobStatus.PENDING; DiscoveryJobStatus.RUNNING]).
(** models/discovery_job.py:37-43, part of DiscoveryJob.  One active job per
    account. *)
Definition discovery_conflict (j j' : DiscoveryJob) : bool :=
  active_discovery j && active_discovery j' && (DJ.aws_account_id j ≟ DJ.aws_account_id j').
(** models/discovery_job.py:44-59, part of DiscoveryJob.  The CHECK
    constraints. *)
Definition discovery_checks (j : DiscoveryJob) : bool :=
  forallb (λ n, 0 <=? n)%Z
    [DJ.assets_discovered j; DJ.assets_created j; DJ.assets_updated j; DJ.assets_deactivated j]
  && match DJ.status j with
     | DiscoveryJobStatus.PENDING => is_none_ (DJ.finished_at j)
     | DiscoveryJobStatus.RUNNING => is_some_ (DJ.started_at j) && is_none_ (DJ.finished_at j)
     | DiscoveryJobStatus.COMPLETED =>
         is_some_ (DJ.started_at j) && is_some_ (DJ.finished_at j)
         && negb (from_option nonempty false (DJ.error_summary j))
     | _ => is_some_ (DJ.started_at j) && is_some_ (DJ.finished_at j)
     end.
#[export] Instance discovery_jobs_table : Table DiscoveryJob.
Proof.
  refine (mk_table _ _ DB.discovery_jobs (λ f d, d <| DB.discovery_jobs ::= f |>)
    discovery_checks discovery_conflict _ _ _ _ _); unfold discovery_conflict; solve_table.
Defined.

(** * Queries *)

(** repositories/assets.py:18-27, AssetRepository.by_identity. *)
Definition by_identity (account_id : uuid) (asset_type : AssetType) (resource_id : string) (d : DB)
    : option Asset :=
  find_row (λ a, (Asset.aws_account_id a ≟ account_id) && (Asset.asset_type a ≟ asset_type)
                 && (Asset.resource_id a ≟ resource_id)) (DB.assets d).

(** repositories/assets.py:53-94, AssetRepository.list.  A comparison with NULL is
    not true. *)
Definition asset_list (organization_id : uuid) (account_id : option uuid)
    (asset_type : option AssetType) (region status : option string) (is_active : option bool)
    (search : option string) (page page_size : nat) (d : DB) : list Asset * nat :=
  let rows := filter_rows (λ a,
    (Asset.organization_id a ≟ organization_id)
    && from_option (λ i, Asset.aws_account_id a ≟ i) true account_id
    && from_option (λ t, Asset.asset_type a ≟ t) true asset_type
    && from_option (λ r, String.eqb (Asset.region a) r) true (given region)
    && from_option (λ s, Asset.status a ≟ Some s) true (given status)
    && from_option (λ b, Bool.eqb (Asset.is_active a) b) true is_active
    && from_option (λ s, let value := anywhere (strip s) in
         like value (Asset.name a) || like value (Asset.resource_id a)
         || from_option (like value) false (Asset.arn a)) true (given search)) (DB.assets d) in
  (page_of page page_size (sort_by (newest_first Asset.last_seen_at Asset.id) rows), length rows).

(** repositories/assets.py:96-99, AssetRepository.get. *)
Definition asset_get (organization_id asset_id : uuid) (d : DB) : option Asset :=
  find_row (λ a, (Asset.organization_id a ≟ organization_id) && (Asset.id a ≟ asset_id))
    (DB.assets d).

(** repositories/assets.py:101-107, AssetRepository.summary.  The groups with their
    sizes. *)
Definition asset_groups (organization_id : uuid) (d : DB) : list (AssetType * bool * nat) :=
  let keys := map (λ a, (Asset.asset_type a, Asset.is_active a))
    (filter_rows (λ a, Asset.organization_id a ≟ organization_id) (DB.assets d)) in
  map (λ k, (k, length (filter (λ k', k' = k) keys))) (remove_dups keys).

(** repositories/assets.py:119-137, DiscoveryJobRepository.list. *)
Definition discovery_rows (organization_id : uuid) (page page_size : nat) (d : DB)
    : list DiscoveryJob * nat :=
  let rows := filter_rows (λ j, DJ.organization_id j ≟ organization_id) (DB.discovery_jobs d) in
  (page_of page page_size (sort_by (newest_first DJ.created_at DJ.id) rows), length rows).

(** repositories/assets.py:139-145, DiscoveryJobRepository.get. *)
Definition discovery_get (organization_id job_id : uuid) (d : DB) : option DiscoveryJob :=
  find_row (λ j, (DJ.organization_id j ≟ organization_id) && (DJ.id j ≟ job_id))
    (DB.discovery_jobs d).

(** repositories/assets.py:147-153, DiscoveryJobRepository.active_for_account. *)
Definition active_for_account (account_id : uuid) (d : DB) : option DiscoveryJob :=
  find_row (λ j, (DJ.aws_account_id j ≟ account_id) && active_discovery j) (DB.discovery_jobs d).

(** * The orchestrator *)

(** What a run draws: the identifiers of new assets, and the clock at the start,
    for each collector, and at the end. *)
Record discovery_draws := mk_discovery_draws {
  new_asset : AssetType → string → uuid;
  at_start : timestamp;
  at_upsert : string → timestamp;
  at_finish : timestamp
}.

(** [errors[name] = code]: the entries of a dict of strings, by key. *)
Abbreviation codes := (list (string * string)) (only parsing).
Fixpoint set_code (name code : string) (l : codes) : codes :=
  match l with
  | [] => [(name, code)]
  | (k, c) :: l => if String.eqb k name then (k, code) :: l else (k, c) :: set_code name code l
  end.

(** services/discovery.py:995-997, part of DiscoveryOrchestrator._finish.
    [... or None] *)
Definition error_summary_of (errors : codes) : option string :=
  given (Some (str_take 2000 (concat_sep "; "
    (map (λ kv, kv.1 +:+ ":" +:+ kv.2) (sort_items errors))))).

Section orchestrator.
Context {F : Type} (services : list (DiscoveryCollector F)) (regions : list string).
Context (client_factory : option F) (_assumed_client_factory : AWSAccount → F + fault).
Context (dr : discovery_draws).

(** services/discovery.py:955-966, part of DiscoveryOrchestrator._upsert.  What
    a discovered asset sets, on a new row or on the stored one. *)
Definition observe (at_ : timestamp) (item : NormalizedAsset) (a : Asset) : Asset :=
  a <| Asset.arn := na_arn item |>
    <| Asset.name := na_name item |>
    <| Asset.region := na_region item |>
    <| Asset.status := na_status item |>
    <| Asset.tags := na_tags item |>
    <| Asset.metadata_json := json_safe (of_json (na_metadata item)) |>
    <| Asset.last_seen_at := at_ |>
    <| Asset.is_active := true |>.

(** services/discovery.py:944-951, part of DiscoveryOrchestrator._upsert.  The
    new row. *)
Definition blank (at_ : timestamp) (account : AWSAccount) (item : NormalizedAsset) : Asset :=
  Asset.mk (new_asset dr (na_asset_type item) (na_resource_id item))
    (AWSAccount.organization_id account) (AWSAccount.id account) (na_asset_type item)
    (na_resource_id item) None "" "" None PNone PNone at_ at_ true.

(** services/discovery.py:938-966, part of DiscoveryOrchestrator._upsert.  The
    loop over what was discovered: the stored rows change, the new ones and
    the number of the others are returned. *)
Fixpoint upsert_items (at_ : timestamp) (account : AWSAccount) (items : list NormalizedAsset)
    : txn DB (list Asset * Z) :=
  match items with
  | [] => mret ([], 0%Z)
  | item :: items =>
      asset ← gets (by_identity (AWSAccount.id account) (na_asset_type item)
                      (na_resource_id item));
      match asset with
      | None =>
          r ← upsert_items at_ account items;
          mret (observe at_ item (blank at_ account item) :: fst r, snd r)
      | Some asset =>
          _ ← save false (observe at_ item asset);
          r ← upsert_items at_ account items;
          mret (fst r, (snd r + 1)%Z)
      end
  end.

(** The set [seen] of the identities that were discovered. *)
Definition seen (discovered : list NormalizedAsset) (a : Asset) : bool :=
  existsb (λ item, (na_asset_type item ≟ Asset.asset_type a)
                   && String.eqb (na_resource_id item) (Asset.resource_id a)) discovered.

(** repositories/assets.py:29-51, AssetRepository.deactivate_missing. *)
Definition deactivate_missing (account_id : uuid) (types : list AssetType)
    (discovered : list NormalizedAsset) : txn DB Z :=
  assets ← gets (λ d, filter_rows
    (λ a, (Asset.aws_account_id a ≟ account_id) && bool_decide (Asset.asset_type a ∈ types)
          && Asset.is_active a) (DB.assets d));
  let missing := List.filter (λ a, negb (seen discovered a)) assets in
  _ ← for_each missing (λ a, save false (a <| Asset.is_active := false |>));
  mret (Z.of_nat (length missing)).

(** services/discovery.py:930-969, DiscoveryOrchestrator._upsert. *)
Definition _upsert (at_ : timestamp) (account : AWSAccount) (discovered : list NormalizedAsset)
    (types : list AssetType) : txn DB (Z * Z * Z) :=
  r ← upsert_items at_ account discovered;
  deactivated ← deactivate_missing (AWSAccount.id account) types discovered;
  _ ← save_all (fst r);
  mret (Z.of_nat (length (fst r)), snd r, deactivated).

(** services/discovery.py:971-1025, DiscoveryOrchestrator._finish. *)
Definition _finish (job_id : uuid) (actor : User) (status : DiscoveryJobStatus) (errors : codes)
    : txn DB DiscoveryJob :=
  locked ← gets (λ d, DB.discovery_jobs d !! job_id);
  job ← some_or locked (NotFoundError "discovery_job_not_found");
  _ ← ensure (DJ.status job ≟ DiscoveryJobStatus.RUNNING)
        (ConflictError "discovery_job_not_running");
  let job := job <| DJ.status := status |>
                 <| DJ.finished_at := Some (at_finish dr) |>
                 <| DJ.error_summary := error_summary_of errors |> in
  _ ← save false job;
  _ ← record_audit
        (match status with
         | DiscoveryJobStatus.COMPLETED => "aws.discovery.completed"
         | DiscoveryJobStatus.PARTIALLY_COMPLETED => "aws.discovery.partially_completed"
         | _ => "aws.discovery.failed"
         end) "discovery_job"
        (if status ≟ DiscoveryJobStatus.FAILED then AuditResult.FAILED else AuditResult.SUCCEEDED)
        (Some (DJ.organization_id job)) (Some (User.id actor)) (Some (DJ.id job));
  _ ← commit;
  mret job.

(** services/discovery.py:895-903, part of DiscoveryOrchestrator.run.  What is
    done with the assets of a collector, up to the commit. *)
Definition keep_assets (account : AWSAccount) (job_id : uuid) (service : DiscoveryCollector F)
    (normalized : list NormalizedAsset) : txn DB () :=
  counts ← _upsert (at_upsert dr (collector service)) account normalized (asset_types service);
  let '(created, updated, deactivated) := counts in
  job ← gets (λ d, DB.discovery_jobs d !! job_id);
  job ← some_or job AttributeError;
  _ ← save false (job
    <| DJ.assets_discovered ::= λ n, (n + Z.of_nat (length normalized))%Z |>
    <| DJ.assets_created ::= λ n, (n + created)%Z |>
    <| DJ.assets_updated ::= λ n, (n + updated)%Z |>
    <| DJ.assets_deactivated ::= λ n, (n + deactivated)%Z |>);
  commit.

(** services/discovery.py:894-911, part of DiscoveryOrchestrator.run.  One turn
    of the loop: nothing, or the code of the failure, after a rollback. *)
Definition collect (factory : F) (account : AWSAccount) (job_id : uuid)
    (service : DiscoveryCollector F) : txn DB (option string) :=
  failure ← match discover service factory regions (AWSAccount.account_id account) with
    | inr e => mret (Some e)
    | inl normalized =>
        try_catch (_ ← keep_assets account job_id service normalized; mret None)
          (λ e, mret (Some (PyError e)))
    end;
  match failure with
  | None => mret None
  | Some e =>
      _ ← rollback;
      job ← gets (λ d, DB.discovery_jobs d !! job_id);
      _ ← some_or job AssertionError;
      code ← of_res (safe_aws_error e);
      mret (Some code)
  end.

(** services/discovery.py:892-911, part of DiscoveryOrchestrator.run.  The loop:
    the errors by collector, and the number of successes. *)
Fixpoint collect_all (factory : F) (account : AWSAccount) (job_id : uuid)
    (l : list (DiscoveryCollector F)) (errors : codes) (successes : nat)
    : txn DB (codes * nat) :=
  match l with
  | [] => mret (errors, successes)
  | service :: l =>
      failure ← collect factory account job_id service;
      match failure with
      | None => collect_all factory account job_id l errors (S successes)
      | Some code =>
          collect_all factory account job_id l (set_code (collector service) code errors)
            successes
      end
  end.

(** services/discovery.py:912-918, part of DiscoveryOrchestrator.run. *)
Definition outcome_status (errors : codes) (successes : nat) : DiscoveryJobStatus :=
  match errors, successes with
  | [], _ => DiscoveryJobStatus.COMPLETED
  | _, O => DiscoveryJobStatus.FAILED
  | _, _ => DiscoveryJobStatus.PARTIALLY_COMPLETED
  end.

(** services/discovery.py:850-919, DiscoveryOrchestrator.run. *)
Definition run_discovery (job_id : uuid) (actor : User) : txn DB DiscoveryJob :=
  job ← gets (λ d, DB.discovery_jobs d !! job_id);
  job ← some_or job (NotFoundError "discovery_job_not_found");
  _ ← ensure (DJ.status job ≟ DiscoveryJobStatus.PENDING)
        (ConflictError "discovery_job_not_pending");
  account ← gets (λ d, DB.aws_accounts d !! DJ.aws_account_id job);
  account ← some_or account (NotFoundError "aws_account_not_found");
  let job := job <| DJ.status := DiscoveryJobStatus.RUNNING |>
                 <| DJ.started_at := Some (at_start dr) |> in
  _ ← save false job;
  _ ← audit_ok "aws.discovery.started" "discovery_job" (DJ.organization_id job)
        (User.id actor) (DJ.id job);
  _ ← commit;
  match (match client_factory with Some f => inl f | None => _assumed_client_factory account end)
  with
  | inr e =>
      code ← of_res (safe_aws_error e);
      _finish job_id actor DiscoveryJobStatus.FAILED [("sts", code)]
  | inl factory =>
      r ← collect_all factory account job_id services [] 0;
      _finish job_id actor (outcome_status (fst r) (snd r)) (fst r)
  end.

(** services/discovery.py:818-848, DiscoveryOrchestrator.start. *)
Definition start (new_id : uuid) (now : timestamp) (account_id : uuid) (actor : User)
    : txn DB DiscoveryJob :=
  account ← gets (λ d, DB.aws_accounts d !! account_id);
  account ← some_or account (NotFoundError "aws_account_not_found");
  _ ← require_capability (AWSAccount.organization_id account) (User.id actor)
        Capability.DISCOVERY_START;
  _ ← ensure (AWSAccount.connection_status account ≟ AWSAccountStatus.CONNECTED)
        (ConflictError "aws_account_not_connected");
  running ← gets (active_for_account (AWSAccount.id account));
  _ ← ensure (is_none_ running) (ConflictError "discovery_already_running");
  let job := DJ.mk new_id (AWSAccount.organization_id account) (AWSAccount.id account)
               DiscoveryJobStatus.PENDING (User.id actor) None None 0 0 0 0 None now in
  _ ← try_catch (_ ← save true job; commit)
        (λ e, match e with
              | IntegrityError =>
                  _ ← rollback; raise (ConflictError "discovery_already_running")
              | e => raise e
              end);
  run_discovery new_id actor.
End orchestrator.

(** * Endpoints *)

(** api/v1/discovery.py:82-82, part of start_discovery. *)
Definition manual_discovery_payload (account_id actor_id : uuid) : pydict :=
  [("actor_user_id", PStr (uuid_str actor_id)); ("account_id", PStr (uuid_str account_id))].

(** api/v1/discovery.py:53-86, start_discovery. *)
Definition start_discovery (new_id new_correlation_id new_key : uuid) (now : timestamp)
    (account_id : uuid) (user : User) : txn DB PlatformJob :=
  result ← gets (aws_account_for_user account_id (User.id user));
  result ← some_or result (NotFoundError "aws_account_not_found");
  let '(account, member) := result in
  _ ← ensure (role_has_capability (OrganizationMembership.role member) Capability.DISCOVERY_START)
        (ForbiddenError "forbidden");
  _ ← ensure (AWSAccount.connection_status account ≟ AWSAccountStatus.CONNECTED)
        (ConflictError "aws_account_not_connected");
  jc ← enqueue new_id new_correlation_id now (AWSAccount.organization_id account)
         PlatformJobType.DISCOVERY (AWSAccount.id account)
         ("manual-discovery:" +:+ uuid_str new_key)
         (Some (manual_discovery_payload (AWSAccount.id account) (User.id user)))
         None 0 3 None None (Some (User.id user));
  _ ← commit;
  mret (fst jc).

(** The capability that every read of the inventory asks for. *)
Definition may_read (user : User) (organization_id : uuid) : txn DB () :=
  _ ← require_capability organization_id (User.id user) Capability.ASSETS_READ; mret tt.

(** api/v1/discovery.py:89-104, list_jobs. *)
Definition list_discovery_jobs (user : User) (organization_id : uuid) (page page_size : nat)
    : txn DB (list DiscoveryJob * nat) :=
  _ ← may_read user organization_id; gets (discovery_rows organization_id page page_size).

(** api/v1/discovery.py:107-118, get_job. *)
Definition get_discovery_job (job_id : uuid) (user : User) (organization_id : uuid)
    : txn DB DiscoveryJob :=
  _ ← may_read user organization_id;
  job ← gets (discovery_get organization_id job_id);
  some_or job (NotFoundError "discovery_job_not_found").

(** api/v1/discovery.py:32-50, _asset_response.  The columns that are cleaned
    before they leave. *)
Definition _asset_response (a : Asset) : Asset :=
  a <| Asset.tags := json_safe (of_json (Asset.tags a)) |>
    <| Asset.metadata_json := json_safe (of_json (Asset.metadata_json a)) |>.

(** api/v1/discovery.py:121-152, list_assets. *)
Definition list_assets (user : User) (organization_id : uuid) (aws_account_id : option uuid)
    (asset_type : option AssetType) (region asset_status : option string)
    (is_active : option bool) (search : option string) (page page_size : nat)
    : txn DB (list Asset * nat) :=
  _ ← may_read user organization_id;
  r ← gets (asset_list organization_id aws_account_id asset_type region asset_status is_active
              search page page_size);
  mret (map _asset_response (fst r), snd r).

(** api/v1/discovery.py:155-180, asset_summary.  The totals, and by type the active
    and the stale assets. *)
Definition asset_summary (user : User) (organization_id : uuid)
    : txn DB (nat * nat * nat * list (AssetType * nat * nat)) :=
  _ ← may_read user organization_id;
  groups ← gets (asset_groups organization_id);
  let count t b := foldr Nat.add 0
    (map snd (List.filter (λ g, (g.1.1 ≟ t) && Bool.eqb g.1.2 b) groups)) in
  let types := List.filter (λ t, existsb (λ g, g.1.1 ≟ t) groups) AssetType.all in
  let by_type := map (λ t, (t, count t true, count t false))
    (sort_by (λ t t', String.leb (AssetType.value t) (AssetType.value t')) types) in
  let active := foldr Nat.add 0 (map (λ x, x.1.2) by_type) in
  let stale := foldr Nat.add 0 (map snd by_type) in
  mret (active + stale, active, stale, by_type).

(** api/v1/discovery.py:183-194, get_asset. *)
Definition get_asset (asset_id : uuid) (user : User) (organization_id : uuid) : txn DB Asset :=
  _ ← may_read user organization_id;
  a ← gets (asset_get organization_id asset_id);
  a ← some_or a (NotFoundError "asset_not_found");
  mret (_asset_response a).

(** * What [json_safe] keeps *)

Section awsval_ind.
Variable P : awsval → Prop.
Hypothesis HNone : P ANone.
Hypothesis HBool : ∀ b, P (ABool b).
Hypothesis HInt : ∀ z, P (AInt z).
Hypothesis HStr : ∀ s, P (AStr s).
Hypothesis HList : ∀ l, Forall P l → P (AList l).
Hypothesis HDict : ∀ items, Forall (λ kv, P kv.2) items → P (ADict items).
Hypothesis HDate : ∀ t, P (ADate t).
Hypothesis HOther : ∀ s, P (AOther s).

Fixpoint awsval_rec' (v : awsval) : P v :=
  match v with
  | ANone => HNone
  | ABool b => HBool b
  | AInt z => HInt z
  | AStr s => HStr s
  | AList l => HList l ((fix go l : Forall P l :=
      match l with
      | [] => List.Forall_nil _
      | x :: l => List.Forall_cons _ x l (awsval_rec' x) (go l)
      end) l)
  | ADict items => HDict items ((fix go items : Forall (λ kv, P kv.2) items :=
      match items with
      | [] => List.Forall_nil _
      | kv :: items => List.Forall_cons _ kv items (awsval_rec' kv.2) (go items)
      end) items)
  | ADate t => HDate t
  | AOther s => HOther s
  end.
End awsval_ind.

(** The entries of a dict that are kept. *)
Definition safe_items (items : list (string * awsval)) : pydict :=
  map (λ kv, (kv.1, json_safe kv.2))
    (List.filter (λ kv, negb (rx_search SENSITIVE_KEYS kv.1)) items).

Lemma json_safe_dict items : json_safe (ADict items) = PDict (safe_items items).
Proof.
  cbn [json_safe]. f_equal. unfold safe_items.
  induction items as [|[k v] items IH]; cbn; [done|].
  destruct (rx_search SENSITIVE_KEYS k); cbn; [exact IH|]. f_equal. exact IH.
Qed.

Lemma of_json_safe_items items :
  Forall (λ kv : string * awsval, json_safe (of_json (json_safe kv.2)) = json_safe kv.2) items →
  safe_items (map (λ kv, (kv.1, of_json kv.2)) (safe_items items)) = safe_items items.
Proof.
  unfold safe_items. induction 1 as [|[k v] items Hv _ IH]; cbn; [done|].
  destruct (rx_search SENSITIVE_KEYS k) eqn:E; cbn; [done|]. rewrite E.
  cbn in Hv |- *. by rewrite Hv, IH.
Qed.

(** What is kept of an answer of AWS.  [json_safe] gives a value without a
    sensitive key at any depth, which is the test that the evidence of a
    remediation has to pass, and a second pass, as the inventory makes, changes
    nothing. *)
Theorem json_safe_is_clean (value : awsval) :
  contains_key SENSITIVE_KEYS (json_safe value) = false
  ∧ _contains_sensitive_evidence_key (json_safe value) = false
  ∧ json_safe (of_json (json_safe value)) = json_safe value.
Proof.
  assert (contains_key SENSITIVE_KEYS (json_safe value) = false) as Hc.
  { induction value as [| | | |l IH|items IH| |] using awsval_rec'; try done.
    - apply contains_key_list. cbn. apply List.Forall_map. done.
    - rewrite json_safe_dict. apply contains_key_dict. unfold safe_items.
      apply List.Forall_map. rewrite Forall_forall in IH. apply Forall_forall.
      intros [k v] [Hin Hk]%list_elem_of_In%filter_In. split; [by apply negb_true_iff|].
      apply (IH (k, v)). by apply list_elem_of_In. }
  split; [exact Hc|]. split.
  { unfold _contains_sensitive_evidence_key. eapply contains_key_incl, Hc.
    refine (bool_decide_unpack _ _). vm_compute. exact I. }
  clear Hc. induction value as [| | | |l IH|items IH| |] using awsval_rec'; try done.
  - cbn. f_equal. rewrite !map_map. apply map_ext_in. intros v Hv.
    rewrite Forall_forall in IH. apply IH. by apply list_elem_of_In.
  - rewrite json_safe_dict. cbn [of_json]. rewrite json_safe_dict. f_equal.
    by apply of_json_safe_items.
Qed.

(** * The inventory after a collector *)

Lemma NoDup_fmap_elem {A B} (f : A → B) l x y :
  NoDup (f <$> l) → x ∈ l → y ∈ l → f x = f y → x = y.
Proof.
  induction l as [|z l IH]; [by intros _ ?%not_elem_of_nil|].
  rewrite fmap_cons, NoDup_cons, !elem_of_cons. intros [Hz Hl] [->|Hx] [->|Hy] E; [done|..|auto];
    exfalso; apply Hz; [rewrite E|rewrite <-E]; by apply list_elem_of_fmap_2.
Qed.

Section inventory.
Context (dr : discovery_draws) (at_ : timestamp) (account : AWSAccount).
Implicit Types (item : NormalizedAsset) (items : list NormalizedAsset) (a : Asset).

(** The item is about the asset. *)
Definition about (item : NormalizedAsset) (a : Asset) : bool :=
  (na_asset_type item ≟ Asset.asset_type a)
  && String.eqb (na_resource_id item) (Asset.resource_id a).
Definition identity (item : NormalizedAsset) : AssetType * string :=
  (na_asset_type item, na_resource_id item).
Definition owned (a : Asset) : bool := Asset.aws_account_id a ≟ AWSAccount.id account.

(** The account has a row for the item. *)
Definition known (t : gmap uuid Asset) (item : NormalizedAsset) : bool :=
  is_some_ (find_row (λ a, owned a && about item a) t).

(** The rows of the items that are not known, and a stored row that is. *)
Definition additions (t : gmap uuid Asset) (items : list NormalizedAsset) : list Asset :=
  map (λ item, observe at_ item (blank dr at_ account item))
    (List.filter (λ item, negb (known t item)) items).
Definition observed (items : list NormalizedAsset) (a : Asset) : Asset :=
  if owned a then
    match List.find (λ item, about item a) items with
    | Some item => observe at_ item a
    | None => a
    end
  else a.

Lemma about_spec item a :
  about item a = true ↔ identity item = (Asset.asset_type a, Asset.resource_id a).
Proof.
  unfold about, identity. rewrite andb_true_iff, bool_decide_eq_true, String.eqb_eq. split; [by intros [-> ->]|by intros [= -> ->]].
Qed.

Lemma by_identity_eq item d :
  by_identity (AWSAccount.id account) (na_asset_type item) (na_resource_id item) d
  = find_row (λ a, owned a && about item a) (DB.assets d).
Proof.
  unfold by_identity. apply find_row_ext. intros a. unfold owned, about.
  rewrite <-andb_assoc. f_equal. f_equal.
  - apply bool_decide_ext. naive_solver.
  - destruct (String.eqb_spec (na_resource_id item) (Asset.resource_id a)) as [<-|Hne].
    + by rewrite bool_decide_eq_true_2.
    + by rewrite bool_decide_eq_false_2.
Qed.

(** A change of the rows that keeps what identifies them. *)
Definition keeps_identity (f : Asset → Asset) : Prop :=
  ∀ a, Asset.id (f a) = Asset.id a ∧ Asset.aws_account_id (f a) = Asset.aws_account_id a
       ∧ Asset.asset_type (f a) = Asset.asset_type a
       ∧ Asset.resource_id (f a) = Asset.resource_id a
       ∧ Asset.first_seen_at (f a) = Asset.first_seen_at a.

Lemma known_fmap f t item : keeps_identity f → known (f <$> t) item = known t item.
Proof.
  intros Hf. unfold known.
  assert (∀ a, owned (f a) && about item (f a) = owned a && about item a) as E.
  { intros a. unfold owned, about. destruct (Hf a) as (_ & -> & -> & -> & _). done. }
  destruct (find_row _ (f <$> t)) as [a'|] eqn:E1, (find_row _ t) as [a|] eqn:E2; try done; exfalso.
  - apply find_row_Some in E1 as (k & Hk & HP). rewrite find_row_None in E2.
    rewrite lookup_fmap in Hk. destruct (t !! k) as [a|] eqn:Ea; [|done]. simplify_eq/=.
    rewrite E in HP. specialize (E2 k a Ea). congruence.
  - apply find_row_Some in E2 as (k & Hk & HP). rewrite find_row_None in E1.
    specialize (E1 k (f a)). rewrite lookup_fmap, Hk, E in E1. rewrite E1 in HP; done.
Qed.

Lemma keeps_identity_observe item : keeps_identity (observe at_ item).
Proof. by intros []. Qed.
Lemma keeps_identity_observed items : keeps_identity (observed items).
Proof.
  intros a. unfold observed. destruct (owned a); [|done].
  destruct (List.find _ items); [apply keeps_identity_observe|done].
Qed.

Lemma additions_fmap f t items :
  keeps_identity f → additions (f <$> t) items = additions t items.
Proof.
  intros Hf. unfold additions. f_equal. apply filter_ext. intros item. by rewrite known_fmap.
Qed.

Lemma observed_cons_other item items a :
  owned a && about item a = false → observed (item :: items) a = observed items a.
Proof.
  unfold observed. cbn. destruct (owned a); cbn; [|done]. by intros ->.
Qed.

Lemma observed_cons_about item items a :
  NoDup (identity <$> item :: items) → owned a && about item a = true →
  observed (item :: items) a = observed items (observe at_ item a).
Proof.
  rewrite fmap_cons, NoDup_cons. intros [Hni _] [Ho Ha]%andb_true_iff.
  unfold observed. assert (owned (observe at_ item a) = owned a) as -> by by destruct a.
  rewrite Ho. cbn [List.find]. rewrite Ha.
  destruct (List.find _ items) as [i|] eqn:E; [|done]. exfalso.
  apply find_some in E as [Hin%list_elem_of_In Hi]. apply Hni.
  apply about_spec in Ha. apply about_spec in Hi. rewrite Ha.
  assert (identity i = (Asset.asset_type a, Asset.resource_id a)) as <- by (by destruct a).
  by apply list_elem_of_fmap_2.
Qed.

Lemma harmless_observe item a :
  (Asset.first_seen_at a ≤ at_)%Z → harmless a (observe at_ item a).
Proof. intros H. split; [by destruct a|by apply Z.leb_le|by destruct a]. Qed.

Lemma keeps_identity_one item a :
  keeps_identity (λ x, if decide (row_id x = row_id a) then observe at_ item x else x).
Proof. intros x. by destruct (decide (row_id x = row_id a)). Qed.

(** The row of an item, then those of the others. *)
Lemma put_observed item items a t :
  table_ok (λ t, t) (λ r, checks r = true) asset_conflict t →
  NoDup (identity <$> item :: items) → t !! row_id a = Some a →
  owned a && about item a = true →
  observed items <$> put (observe at_ item a) t = observed (item :: items) <$> t.
Proof.
  intros Ht Hnd Hk Ha. rewrite (put_fmap (observe at_ item)); [|apply Ht|done|done].
  rewrite <-map_fmap_compose. apply map_fmap_ext. intros k x Hx. unfold compose.
  pose proof (tk_keyed _ _ _ _ Ht _ _ Hx) as Hid. cbn in Hid.
  destruct (decide (row_id x = row_id a)) as [Hxa|Hxa].
  - assert (x = a) as -> by (cbn in *; congruence). by rewrite observed_cons_about.
  - rewrite observed_cons_other; [done|]. apply not_true_is_false. intros Hx'.
    assert (k ≠ row_id a) as Hne by (cbn in *; congruence).
    pose proof (tk_unique _ _ _ _ Ht _ _ _ _ Hx Hk Hne) as Hno.
    unfold asset_conflict in Hno. unfold owned in *. bools.
    apply about_spec in H0, H2. rewrite H0 in H2. injection H2 as E1 E2.
    rewrite !bool_decide_eq_true_2 in Hno by congruence. done.
Qed.

Lemma wp_upsert_items items Q s :
  sound Asset (working s) → NoDup (identity <$> items) →
  (∀ k a, DB.assets (working s) !! k = Some a → Asset.first_seen_at a ≤ at_)%Z →
  (sound Asset (set_rows Asset (fmap (observed items)) (working s)) →
   Q (Ret (additions (DB.assets (working s)) items,
           Z.of_nat (length (List.filter (known (DB.assets (working s))) items))))
     (Sess (committed s) (set_rows Asset (fmap (observed items)) (working s)))) →
  wp (upsert_items dr at_ account items) Q s.
Proof.
  revert Q s. induction items as [|item items IH]; intros Q s Hs Hnd Hat HQ.
  { apply wp_ret. rewrite (set_ext _ (λ t, t)), set_same in HQ.
    - destruct s. by apply HQ.
    - etrans; [|apply map_fmap_id]. apply map_fmap_ext. intros k a _. unfold observed. cbn.
      by destruct (owned a). }
  pose proof Hnd as Hnd'. rewrite fmap_cons, NoDup_cons in Hnd. destruct Hnd as [_ Hnd].
  cbn [upsert_items]. apply wp_bind, wp_gets. rewrite by_identity_eq.
  destruct (find_row _ _) as [a|] eqn:E.
  - pose proof E as E'. apply find_row_Some in E' as (k & Hk & Ha).
    pose proof (tk_keyed _ _ _ _ Hs _ _ Hk) as Hid. subst k.
    assert (known (DB.assets (working s)) item = true) as Hkn by (unfold known; by rewrite E).
    apply wp_bind, (wp_update a); [done|done|by eapply harmless_observe, Hat|].
    intros Hs1. apply wp_bind, IH; cbn [working committed]; [done|done|..].
    + intros k x. cbn. unfold put. rewrite lookup_insert. case_decide; [|by apply Hat].
      intros [= <-]. change (Asset.first_seen_at a ≤ at_)%Z. by eapply Hat.
    + intros Hs2. apply wp_ret. cbn [fst snd]. rewrite set_set in Hs2 |- *.
      assert (set_rows Asset (λ t, observed items <$> put (observe at_ item a) t) (working s)
        = set_rows Asset (fmap (observed (item :: items))) (working s)) as Ex.
      { apply set_ext, put_observed; [split; apply Hs|done..]. }
      rewrite Ex in *.
      cbn in HQ. unfold additions in HQ. cbn in HQ. rewrite Hkn in HQ. cbn in HQ.
      specialize (HQ Hs2). change (DB.assets _) with (put (observe at_ item a) (DB.assets (working s))).
      rewrite (put_fmap (observe at_ item)); [|apply Hs|done|done].
      rewrite additions_fmap, (filter_ext _ (known (DB.assets (working s)))).
      * replace (Z.of_nat _ + 1)%Z with (Z.of_nat (S (length (List.filter
          (known (DB.assets (working s))) items)))) by lia. exact HQ.
      * intros i. apply known_fmap. apply keeps_identity_one.
      * apply keeps_identity_one.
  - assert (known (DB.assets (working s)) item = false) as Hkn by (unfold known; by rewrite E).
    apply wp_bind, IH; [done|done|done|]. intros Hs2. apply wp_ret. cbn [fst snd].
    assert (set_rows Asset (fmap (observed items)) (working s)
      = set_rows Asset (fmap (observed (item :: items))) (working s)) as Ex.
    { apply set_ext, map_fmap_ext. intros k a Ha. rewrite find_row_None in E.
      by rewrite observed_cons_other by by eapply E. }
    rewrite Ex in *. cbn in HQ. unfold additions in HQ. cbn in HQ. rewrite Hkn in HQ. by apply HQ.
Qed.

Lemma filter_filter_rows {R} (g P : R → bool) (t : gmap uuid R) :
  List.filter g (filter_rows P t) = filter_rows (λ r, P r && g r) t.
Proof.
  unfold filter_rows. induction ((map_to_list t).*2) as [|r l IH]; [done|].
  rewrite !filter_cons. destruct (P r), (g r) eqn:E; cbn; rewrite ?E; repeat case_decide;
    cbn; rewrite ?E, ?IH; try done; discriminate.
Qed.

(** The active rows of some types that were not seen. *)
Definition missing (types : list AssetType) (items : list NormalizedAsset) (a : Asset) : bool :=
  owned a && bool_decide (Asset.asset_type a ∈ types) && Asset.is_active a
  && negb (seen items a).
Definition retire (types : list AssetType) (items : list NormalizedAsset) (a : Asset) : Asset :=
  if missing types items a then a <| Asset.is_active := false |> else a.

Lemma wp_deactivate types items Q s :
  sound Asset (working s) →
  (sound Asset (set_rows Asset (fmap (retire types items)) (working s)) →
   Q (Ret (Z.of_nat (length (filter_rows (missing types items) (DB.assets (working s))))))
     (Sess (committed s) (set_rows Asset (fmap (retire types items)) (working s)))) →
  wp (deactivate_missing (AWSAccount.id account) types items) Q s.
Proof.
  intros Hs HQ. unfold deactivate_missing. apply wp_bind, wp_gets. rewrite filter_filter_rows.
  set (P := λ r : Asset, _ && negb (seen items r)). change P with (missing types items).
  change (DB.assets (working s)) with (rows Asset (working s)) in *.
  apply wp_bind. apply (wp_update_all (missing types items) (λ a, a <| Asset.is_active := false |>)).
  - done.
  - intros k a Ha _. split; [by destruct a| |by destruct a].
    apply (tk_rows _ _ _ _ Hs k a Ha).
  - intros Hs'. apply wp_ret. by apply HQ.
Qed.

(** What a stored row comes to: the rows of the account take what was seen,
    and those of the collector's types that were not seen are retired. *)
Definition settle (types : list AssetType) (items : list NormalizedAsset) (a : Asset) : Asset :=
  retire types items (observed items a).

Lemma keeps_identity_settle types items : keeps_identity (settle types items).
Proof.
  intros a. destruct (keeps_identity_observed items a) as (E1 & E2 & E3 & E4 & E5).
  unfold settle, retire. destruct (missing _ _ _); [|done].
  rewrite <-E1, <-E2, <-E3, <-E4, <-E5. by destruct (observed items a).
Qed.

Lemma asset_conflict_spec a a' :
  conflict a a' = true ↔ Asset.aws_account_id a = Asset.aws_account_id a'
  ∧ Asset.asset_type a = Asset.asset_type a' ∧ Asset.resource_id a = Asset.resource_id a'.
Proof.
  cbn. unfold asset_conflict. rewrite !andb_true_iff, !bool_decide_eq_true. naive_solver.
Qed.

(** What a new row says. *)
Definition addition (item : NormalizedAsset) : Asset :=
  Asset.mk (new_asset dr (na_asset_type item) (na_resource_id item))
    (AWSAccount.organization_id account) (AWSAccount.id account) (na_asset_type item)
    (na_resource_id item) (na_arn item) (na_name item) (na_region item) (na_status item)
    (na_tags item) (json_safe (of_json (na_metadata item))) at_ at_ true.
Lemma addition_fields item : observe at_ item (blank dr at_ account item) = addition item.
Proof. reflexivity. Qed.

Lemma additions_insertable t items f :
  NoDup (identity <$> items) → keeps_identity f →
  (∀ ty rid, t !! new_asset dr ty rid = None) → Inj2 (=) (=) (=) (new_asset dr) →
  insertable (additions t items) (f <$> t).
Proof.
  intros Hnd Hf Hfr Hinj. unfold additions.
  assert (∀ item, row_id (observe at_ item (blank dr at_ account item))
            = new_asset dr (na_asset_type item) (na_resource_id item)) as Hid by done.
  split.
  - apply Forall_map, Forall_forall. intros item _. apply Z.leb_le. cbn. lia.
  - change (NoDup (row_id <$> ((λ item, observe at_ item (blank dr at_ account item)) <$>
      List.filter (λ item, negb (known t item)) items))).
    rewrite <-list_fmap_compose. apply NoDup_fmap_2_strong.
    + intros i j Hi Hj E. cbn in E. apply Hinj in E as [E1 E2].
      apply list_elem_of_In, filter_In in Hi as [Hi _], Hj as [Hj _].
      apply (NoDup_fmap_elem identity items); [done|by apply list_elem_of_In..|].
      unfold identity. by rewrite E1, E2.
    + apply NoDup_ListNoDup, List.NoDup_filter, NoDup_ListNoDup. by eapply NoDup_fmap_1.
  - apply Forall_map, Forall_forall. intros item _. rewrite Hid, lookup_fmap, Hfr. done.
  - apply Forall_map, Forall_forall. intros item Hi k r Hr.
    apply list_elem_of_In, filter_In in Hi as [_ Hi]. apply negb_true_iff in Hi.
    rewrite lookup_fmap in Hr. destruct (t !! k) as [a|] eqn:Ea; [|done].
    injection Hr as <-. apply not_true_is_false. intros Hc.
    apply asset_conflict_spec in Hc as (E1 & E2 & E3).
    destruct (Hf a) as (_ & F1 & F2 & F3 & _). rewrite F1 in E1. rewrite F2 in E2.
    rewrite F3 in E3. rewrite (addition_fields item) in E1, E2, E3.
    assert (owned a && about item a = true) as Hab.
    { apply andb_true_iff. split; [by apply bool_decide_eq_true|].
      apply about_spec. unfold identity. cbn in *. by rewrite E2, E3. }
    unfold known in Hi. destruct (find_row _ t) as [|] eqn:E; [done|].
    rewrite find_row_None in E. specialize (E k a Ea). congruence.
  - intros r r' (i & <- & _)%in_map_iff (j & <- & _)%in_map_iff Hne.
    apply not_true_is_false. intros Hc. apply Hne. rewrite !Hid.
    apply asset_conflict_spec in Hc as (_ & E2 & E3).
    rewrite (addition_fields i), (addition_fields j) in E2, E3. cbn in *. by rewrite E2, E3.
Qed.

(** The inventory after [_upsert]. *)
Definition inventory (types : list AssetType) (items : list NormalizedAsset)
    (t : gmap uuid Asset) : gmap uuid Asset :=
  puts (additions t items) (settle types items <$> t).

(** What the clock and the identifiers of a run are taken to be: no stored
    asset was first seen later, and new identifiers are new. *)
Record upsert_fresh (t : gmap uuid Asset) : Prop := {
  uf_clock k a : t !! k = Some a → (Asset.first_seen_at a ≤ at_)%Z;
  uf_fresh ty rid : t !! new_asset dr ty rid = None;
  uf_inj : Inj2 (=) (=) (=) (new_asset dr)
}.

Lemma wp__upsert items types Q s :
  sound Asset (working s) → NoDup (identity <$> items) → upsert_fresh (DB.assets (working s)) →
  (let t := DB.assets (working s) in
   let d' := set_rows Asset (inventory types items) (working s) in
   sound Asset d' →
   Q (Ret (Z.of_nat (length (additions t items)), Z.of_nat (length (List.filter (known t) items)),
           Z.of_nat (length (filter_rows (missing types items) (observed items <$> t)))))
     (Sess (committed s) d')) →
  wp (_upsert dr at_ account items types) Q s.
Proof.
  intros Hs Hnd [Hat Hfr Hinj] HQ. unfold _upsert.
  apply wp_bind, wp_upsert_items; [done..|]. intros Hs1. cbn [fst snd].
  apply wp_bind, wp_deactivate; [done|]. cbn [working committed]. intros Hs2.
  pose proof (additions_insertable (DB.assets (working s)) items (settle types items) Hnd
    (keeps_identity_settle types items) Hfr Hinj) as Hins.
  rewrite set_set in Hs2 |- *.
  assert (settle types items <$> DB.assets (working s)
    = retire types items <$> (observed items <$> DB.assets (working s))) as Ef.
  { rewrite <-map_fmap_compose. done. }
  apply wp_bind, wp_save_all; cbn [working committed].
  { rewrite rows_set. change (rows Asset (working s)) with (DB.assets (working s)).
    by rewrite <-Ef. }
  apply wp_ret. rewrite set_set.
  assert (set_rows Asset (λ t, puts (additions (DB.assets (working s)) items)
      (retire types items <$> (observed items <$> t))) (working s)
    = set_rows Asset (inventory types items) (working s)) as ->.
  { apply set_ext. unfold inventory. by rewrite <-map_fmap_compose. }
  apply HQ. rewrite <-(set_ext (λ t, puts (additions (DB.assets (working s)) items)
    (settle types items <$> t)) (inventory types items)) by done.
  rewrite <-(set_set (puts _) (fmap (settle types items))). apply sound_puts.
  - rewrite <-(set_ext (λ t, retire types items <$> (observed items <$> t))); [done|].
    by rewrite <-map_fmap_compose.
  - rewrite rows_set. exact Hins.
Qed.
End inventory.

(** The job of a run, with what a collector found counted. *)
Definition counted_job (discovered created updated deactivated : nat) (j : DiscoveryJob)
    : DiscoveryJob :=
  j <| DJ.assets_discovered ::= λ n, (n + Z.of_nat discovered)%Z |>
    <| DJ.assets_created ::= λ n, (n + Z.of_nat created)%Z |>
    <| DJ.assets_updated ::= λ n, (n + Z.of_nat updated)%Z |>
    <| DJ.assets_deactivated ::= λ n, (n + Z.of_nat deactivated)%Z |>.

Lemma two_tables f j d :
  set_rows DiscoveryJob (put j) (set_rows Asset f d)
  = d <| DB.assets := f (DB.assets d) |>
      <| DB.discovery_jobs := put j (DB.discovery_jobs d) |>.
Proof. by destruct d. Qed.

Lemma harmless_counted n1 n2 n3 n4 j :
  discovery_checks j = true → harmless j (counted_job n1 n2 n3 n4 j).
Proof.
  intros Hc. split; [by destruct j| |by destruct j]. cbn. unfold discovery_checks in *. destruct j.
  cbn in *. rewrite !andb_true_iff in *. rewrite !Z.leb_le in *. destruct_and!.
  split_and!; try done; lia.
Qed.

(** C15. What the assets of a collector do to the inventory.  When a collector
    returns every resource once, its assets are kept: each stored row of the
    account takes what was discovered about it and is active, a row of the
    collector's types that was not discovered is retired, the others stay as
    they were, no row is lost, and what has no row gets one.  The counters of
    the job say how many there were of each. *)
Theorem inventory_exact {F} dr account job_id j (service : DiscoveryCollector F) items d :
  let at_ := at_upsert dr (collector service) in
  let types := asset_types service in
  let t := DB.assets d in
  sound Asset d → sound DiscoveryJob d → NoDup (identity <$> items) → upsert_fresh dr at_ t →
  DB.discovery_jobs d !! job_id = Some j →
  let t' := puts (additions dr at_ account t items) (settle at_ account types items <$> t) in
  run (keep_assets dr account job_id service items) d
  = (Ret tt, d <| DB.assets := t' |>
               <| DB.discovery_jobs := put (counted_job (length items)
                    (length (additions dr at_ account t items))
                    (length (List.filter (known account t) items))
                    (length (filter_rows (missing account types items)
                               (observed at_ account items <$> t))) j) (DB.discovery_jobs d) |>).
Proof.
  intros at_ types t Ha Hj Hnd Hfr Hjob t'.
  match goal with |- _ = (_, ?d') =>
    pose proof (wp_run (keep_assets dr account job_id service items)
      (λ o d1, o = Ret tt ∧ d1 = d') d) as H
  end.
  destruct (run _ d) as [o d1]. cbn [fst snd] in H. destruct H as [-> ->]; [|done].
  unfold keep_assets. apply wp_bind, wp__upsert; [done..|]. cbn zeta. intros Ha'.
  apply wp_bind, wp_gets. cbn [working].
  pose proof (Hjob : DB.discovery_jobs (set_rows Asset (inventory dr at_ account types items) d)
    !! job_id = Some j) as Hjob'.
  apply wp_bind, wp_some_or; [|intros Hn; by pose proof (eq_trans (eq_sym Hn) Hjob')].
  intros j' Hj'. pose proof (eq_trans (eq_sym Hj') Hjob') as [= ->]. clear Hj' Hjob'.
  pose proof (tk_keyed _ _ _ _ Hj _ _ Hjob) as Hid. subst job_id.
  apply wp_bind, (wp_update j); [by apply sound_apart|exact Hjob| |].
  { by apply harmless_counted, (tk_rows _ _ _ _ Hj _ _ Hjob). }
  intros _. apply wp_commit. split; [done|]. cbn [working].
  apply two_tables.
Qed.

(** * A run always ends *)

Section ends.
Context {F : Type} (services : list (DiscoveryCollector F)) (regions : list string).
Context (client_factory : option F) (assumed : AWSAccount → F + fault).
Context (dr : discovery_draws) (account : AWSAccount) (d0 : DB) (j0 : DiscoveryJob).

(** The rows of [d0] are there, and those of other accounts unchanged. *)
Definition others_kept (d : DB) : Prop :=
  ∀ k a, DB.assets d0 !! k = Some a → ∃ a', DB.assets d !! k = Some a'
  ∧ Asset.aws_account_id a' = Asset.aws_account_id a
  ∧ (Asset.aws_account_id a ≠ AWSAccount.id account → a' = a).

(** While the run of [j0] is under way. *)
Record under_way (d : DB) : Prop := {
  uw_assets : sound Asset d;
  uw_jobs : sound DiscoveryJob d;
  uw_kept : others_kept d;
  uw_job : ∃ j, DB.discovery_jobs d !! DJ.id j0 = Some j ∧ DJ.id j = DJ.id j0
    ∧ DJ.status j = DiscoveryJobStatus.RUNNING ∧ DJ.started_at j = DJ.started_at j0
    ∧ DJ.organization_id j = DJ.organization_id j0 ∧ DJ.aws_account_id j = DJ.aws_account_id j0
}.

Definition lookup_of (d : DB) (k : uuid) : option Asset := DB.assets d !! k.

(** A stored row of the account may change, and new rows may come in. *)
Lemma under_way_asset fresh a d :
  under_way d → checks a = true → unique_ok fresh conflict a (DB.assets d) = true →
  (fresh = false → ∃ a0, DB.assets d !! Asset.id a = Some a0
     ∧ Asset.aws_account_id a = Asset.aws_account_id a0
     ∧ Asset.aws_account_id a0 = AWSAccount.id account) →
  under_way (set_rows Asset (put a) d).
Proof.
  intros [Ha Hj Ho Hrun] Hc Hu Hold. split; [by eapply sound_set|by apply sound_apart| |done].
  intros k a0 Hk. destruct (Ho k a0 Hk) as (a' & Hk' & Hacc & Hsame). cbn. unfold put.
  rewrite lookup_insert. case_decide as E; [|by exists a'].
  assert (fresh = false) as Hf.
  { destruct fresh; [|done]. apply unique_ok_true in Hu as [Hn _]. specialize (Hn eq_refl).
    rewrite E in Hn. congruence. }
  destruct (Hold Hf) as (a1 & Ha1 & E1 & E2).
  pose proof (eq_trans (eq_sym Hk') (eq_trans (f_equal (lookup_of d) (eq_sym E)) Ha1)) as [= ->].
  exists a. split; [done|]. split; [congruence|]. intros Hne. congruence.
Qed.

Lemma both_asset fresh a s :
  both under_way s →
  (fresh = false → ∃ a0, DB.assets (working s) !! Asset.id a = Some a0
     ∧ Asset.aws_account_id a = Asset.aws_account_id a0
     ∧ Asset.aws_account_id a0 = AWSAccount.id account) →
  wp (save fresh a) (λ _ s', both under_way s') s.
Proof.
  intros [Hc Hw] Hold. apply wp_save; intros; [|by split]. split; [done|].
  by eapply under_way_asset.
Qed.

Lemma keeps_upsert_items at_ items : keeps under_way (upsert_items dr at_ account items).
Proof.
  induction items as [|item items IH]; [apply keeps_ret|]. intros s Hs. cbn [upsert_items].
  apply wp_bind, wp_gets. destruct (by_identity _ _ _ _) as [a|] eqn:E.
  - apply find_row_Some in E as (k & Hk & Ha). bools.
    pose proof (tk_keyed _ _ _ _ (uw_assets _ (proj2 Hs)) _ _ Hk) as Hid.
    apply wp_bind. eapply wp_mono, both_asset; [|exact Hs|]; last first.
    + intros _. exists a. subst k. split; [exact Hk|by destruct a].
    + intros [[]|e] s1 Hs1; [|done]. eapply wp_keeps; [|exact Hs1|done]. keeps_go.
  - eapply wp_keeps; [|exact Hs|done]. keeps_go.
Qed.

Lemma keeps_deactivate types items :
  keeps under_way (deactivate_missing (AWSAccount.id account) types items).
Proof.
  intros s [Hc Hw]. apply wp_deactivate; [apply Hw|]. intros Hs. split; [done|]. cbn [working].
  destruct Hw as [Ha Hj Ho Hrun]. split; [done|by apply sound_apart| |done].
  intros k a Hk. destruct (Ho k a Hk) as (a' & Hk' & Hacc & Hsame).
  exists (retire account types items a'). cbn. rewrite lookup_fmap, Hk'. split; [done|].
  unfold retire. destruct (missing account types items a') eqn:E; [|done].
  split; [by destruct a'|]. intros Hne. exfalso. apply Hne. unfold missing, owned in E.
  bools. congruence.
Qed.

Lemma keeps_new_assets l : keeps under_way (save_all (R:=Asset) l).
Proof.
  apply keeps_for_each. intros a s Hs. by apply both_asset.
Qed.

Lemma keeps_job {A} (f : DiscoveryJob → DiscoveryJob) (k : txn DB A) :
  keeps under_way k →
  (∀ j, DJ.id (f j) = DJ.id j ∧ DJ.status (f j) = DJ.status j ∧ DJ.started_at (f j) = DJ.started_at j
        ∧ DJ.organization_id (f j) = DJ.organization_id j
        ∧ DJ.aws_account_id (f j) = DJ.aws_account_id j) →
  keeps under_way (job ← gets (λ d, DB.discovery_jobs d !! DJ.id j0);
                   job ← some_or job AttributeError;
                   _ ← save false (f job); k).
Proof.
  intros Hk Hf s [Hc Hw]. pose proof Hw as [Ha Hj Ho (j & Hjk & Hid & Hrun & Hst & Hog & Hac)].
  apply wp_bind, wp_gets. rewrite Hjk. apply wp_bind, wp_some_or; [|done]. intros ? [= <-].
  destruct (Hf j) as (E1 & E2 & E3 & E4 & E5).
  apply wp_bind, wp_save; intros; [|by split]. apply Hk. split; [done|].
  split; [by apply sound_apart|by eapply sound_set|done|].
  exists (f j). rewrite E1, E2, E3, E4, E5. split; [|done]. rewrite <-Hid, <-E1.
  apply (lookup_insert_eq (DB.discovery_jobs (working s)) (DJ.id (f j))).
Qed.

Lemma keeps_keep_assets {G} (service : DiscoveryCollector G) items :
  keeps under_way (keep_assets dr account (DJ.id j0) service items).
Proof.
  unfold keep_assets, _upsert. apply keeps_bind.
  - keeps_go; [apply keeps_upsert_items|apply keeps_deactivate|apply keeps_new_assets].
  - intros [[created updated] deactivated]. cbn beta iota.
    apply (keeps_job _ commit); [apply keeps_commit|]. by intros [].
Qed.

(** A fault as boto3 builds it: the answer of a [ClientError] is a dict whose
    [Error], where there is one, is a dict. *)
Definition boto_fault (e : fault) : Prop :=
  match e with
  | ClientError error => ∃ details, dget_or "Error" (PDict []) error = PDict details
  | _ => True
  end.
(** The faults that the collectors and the role of the account give are such. *)
Definition boto_faults : Prop :=
  (∀ e, client_factory = None → assumed account = inr e → boto_fault e)
  ∧ (∀ service factory e, service ∈ services →
       discover service factory regions (AWSAccount.account_id account) = inr e → boto_fault e).

Lemma boto_coded e : boto_fault e → ∃ code, safe_aws_error e = inl code.
Proof.
  destruct e; cbn; try by eexists. intros [details E]. unfold error_code. rewrite E. by eexists.
Qed.

(** The loop, turn by turn, on what is committed: with what each collector gave,
    either its assets were kept, or storing them failed, or the collector failed
    itself; in the last two cases with the code of the failure. *)
Inductive collected (factory : F) : DB → list (DiscoveryCollector F) → list (option string) →
    DB → Prop :=
| collected_nil d : collected factory d [] [] d
| collected_kept d d1 d2 service l items failures :
    discover service factory regions (AWSAccount.account_id account) = inl items →
    run (keep_assets dr account (DJ.id j0) service items) d = (Ret tt, d1) →
    collected factory d1 l failures d2 →
    collected factory d (service :: l) (None :: failures) d2
| collected_unstored d d1 d2 service l items e failures :
    discover service factory regions (AWSAccount.account_id account) = inl items →
    run (keep_assets dr account (DJ.id j0) service items) d = (Raise e, d1) →
    collected factory d1 l failures d2 →
    collected factory d (service :: l) (Some "discovery_service_failed" :: failures) d2
| collected_refused d d2 service l e code failures :
    discover service factory regions (AWSAccount.account_id account) = inr e →
    safe_aws_error e = inl code →
    collected factory d l failures d2 →
    collected factory d (service :: l) (Some code :: failures) d2.

(** The state the failures of the collectors call for. *)
Definition called_for (failures : list (option string)) : DiscoveryJobStatus :=
  if forallb is_none_ failures then DiscoveryJobStatus.COMPLETED
  else if existsb is_none_ failures then DiscoveryJobStatus.PARTIALLY_COMPLETED
  else DiscoveryJobStatus.FAILED.

(** The failures by collector. *)
Definition by_collector (l : list (DiscoveryCollector F)) (failures : list (option string)) : codes :=
  omap (λ x, code ← x.2; Some (collector x.1, code)) (zip l failures).

Lemma wp_keep_assets (service : DiscoveryCollector F) items d :
  under_way d →
  wp (keep_assets dr account (DJ.id j0) service items)
    (λ o s', both under_way s' ∧ run (keep_assets dr account (DJ.id j0) service items) d
               = (o, committed s')
             ∧ (o = Ret tt → working s' = committed s')) (Sess d d).
Proof.
  intros Hd. apply wp_and; [|apply wp_and; [apply wp_run_self|]].
  - eapply wp_keeps; [apply keeps_keep_assets|by split|done].
  - unfold keep_assets. apply wp_bind, wp_any. intros [[[created updated] deactivated]|e] s; [|done].
    cbn beta iota. apply wp_bind, wp_gets. apply wp_bind, wp_some_or; [|done]. intros j _.
    apply wp_bind, wp_any. intros [[]|e] s'; [|done]. by apply wp_commit.
Qed.

(** One turn of the loop. *)
Lemma wp_collect factory service d :
  boto_faults → service ∈ services → under_way d →
  wp (collect regions dr factory account (DJ.id j0) service)
    (λ o s', ∃ failure d', o = Ret failure ∧ s' = Sess d' d' ∧ under_way d'
       ∧ ∀ l failures d2, collected factory d' l failures d2 →
           collected factory d (service :: l) (failure :: failures) d2) (Sess d d).
Proof.
  intros [_ Hcode] Hin Hd. unfold collect.
  assert (∀ e code d' w, under_way d' → safe_aws_error e = inl code →
    wp (_ ← rollback; job ← gets (λ d, DB.discovery_jobs d !! DJ.id j0); _ ← some_or job AssertionError;
        code ← of_res (safe_aws_error e); mret (Some code))
      (λ o s', o = Ret (Some code) ∧ s' = Sess d' d') (Sess d' w)) as Hfail.
  { intros e code d' w Hd' Hc. destruct (uw_job _ Hd') as (j & Hj & _).
    apply wp_bind, wp_rollback, wp_bind, wp_gets. cbn [working committed]. rewrite Hj.
    apply wp_bind, wp_some_or; [|done]. intros _ _. rewrite Hc. by apply wp_bind, wp_ret, wp_ret. }
  destruct (discover _ _ _ _) as [items|e] eqn:E; apply wp_bind.
  - apply wp_try, wp_bind. eapply wp_mono, wp_keep_assets; [|done].
    intros [[]|e] [c w] (Hs & Hr & Hcl); cbn [committed working] in *; apply wp_ret.
    + apply wp_ret. rewrite (Hcl eq_refl) in *. exists None, c. split_and!; [done..|apply Hs|].
      intros. by eapply collected_kept.
    + eapply wp_mono, (Hfail (PyError e)); [|apply Hs|done]. intros o s' [-> ->].
      eexists _, c. split_and!; [done..|apply Hs|]. intros. by eapply collected_unstored.
  - apply wp_ret. destruct (boto_coded e (Hcode _ _ _ Hin E)) as [code Hc].
    eapply wp_mono, (Hfail e code); [|done..]. intros o s' [-> ->].
    eexists _, d. split_and!; [done..|]. intros. by eapply collected_refused.
Qed.

(** The dict [errors] after the loop. *)
Definition errors_of (errors : codes) (l : list (DiscoveryCollector F))
    (failures : list (option string)) : codes :=
  foldl (λ m x, match x.2 with Some code => set_code (collector x.1) code m | None => m end)
    errors (zip l failures).

(** What the loop returns: the errors of the collectors, and how many had none. *)
Lemma wp_collect_all factory l errors successes d :
  boto_faults → l ⊆ services → under_way d →
  wp (collect_all regions dr factory account (DJ.id j0) l errors successes)
    (λ o s', ∃ failures d', s' = Sess d' d' ∧ under_way d' ∧ collected factory d l failures d'
       ∧ o = Ret (errors_of errors l failures,
                  successes + length (List.filter is_none_ failures))) (Sess d d).
Proof.
  intros Hcode. revert errors successes d.
  induction l as [|service l IH]; intros errors successes d Hl Hd; cbn [collect_all].
  { apply wp_ret. exists [], d. rewrite Nat.add_0_r. split_and!; [done..|constructor|done]. }
  apply wp_bind. eapply wp_mono, wp_collect; [|done|set_solver|done].
  intros o s' (failure & d1 & -> & -> & Hd1 & Hcol).
  destruct failure; (eapply wp_mono, IH; [|set_solver|done]);
    intros o s' (failures & d2 & -> & Hd2 & Hc & ->);
    eexists (_ :: failures), d2; (split_and!; [done|done|by apply Hcol|]); cbn; do 2 f_equal; lia.
Qed.

Lemma set_code_cons name code m : set_code name code m ≠ [].
Proof. destruct m as [|[k c] m]; cbn; [done|]. by destruct (String.eqb k name). Qed.

Lemma collected_length factory d l failures d' :
  collected factory d l failures d' → length l = length failures.
Proof. induction 1; cbn; congruence. Qed.

(** There is no error exactly when no collector failed. *)
Lemma errors_of_nil errors l failures :
  length l = length failures →
  errors_of errors l failures = [] ↔ errors = [] ∧ forallb is_none_ failures = true.
Proof.
  revert errors failures. induction l as [|service l IH]; intros errors [|[code|] failures]; cbn; try done.
  - intros _. split; [by intros ->|by intros [-> _]].
  - intros [= E]. change (errors_of (set_code (collector service) code errors) l failures = []
      ↔ errors = [] ∧ false = true). rewrite IH by done. split; [|by intros []].
    by intros [?%set_code_cons _].
  - intros [= E]. by apply IH.
Qed.

Lemma outcome_called_for l failures :
  length l = length failures →
  outcome_status (errors_of [] l failures) (length (List.filter is_none_ failures))
  = called_for failures.
Proof.
  intros Hl. pose proof (errors_of_nil [] l failures Hl) as H. unfold called_for.
  destruct (forallb is_none_ failures).
  - by rewrite (proj2 H).
  - destruct (errors_of [] l failures); [by destruct (proj1 H eq_refl)|]. cbn. clear.
    by induction failures as [|[code|] failures IH].
Qed.

(** Collectors of different names have an error each. *)
Lemma set_code_fresh name code m : name ∉ map fst m → set_code name code m = m ++ [(name, code)].
Proof.
  induction m as [|[k c] m IH]; cbn; [done|]. rewrite not_elem_of_cons. intros [Hk Hm].
  destruct (String.eqb_spec k name); [congruence|]. by rewrite IH.
Qed.
Lemma errors_of_app errors l failures :
  NoDup (map fst errors ++ map collector l) →
  errors_of errors l failures = errors ++ by_collector l failures.
Proof.
  revert errors failures. induction l as [|service l IH]; intros errors [|failure failures] Hn;
    try by rewrite app_nil_r.
  cbn in Hn. destruct failure as [code|].
  - change (errors_of (set_code (collector service) code errors) l failures
      = errors ++ [(collector service, code)] ++ by_collector l failures).
    rewrite set_code_fresh.
    + rewrite IH; [by rewrite <-app_assoc|]. by rewrite map_app, <-app_assoc.
    + apply NoDup_app in Hn as (_ & Hn & _). intros Hin. apply (Hn _ Hin). by left.
  - change (errors_of errors l failures = errors ++ by_collector l failures). apply IH.
    apply NoDup_app in Hn as (? & Hn & [_ ?]%NoDup_cons). apply NoDup_app. split_and!; [done| |done].
    intros x Hx Hl. apply (Hn x Hx). by right.
Qed.

(** What the job says of the run that left the inventory of [d], after a first
    commit that left that of [d0]. *)
Definition told (j : DiscoveryJob) (d : DB) : Prop :=
  match (match client_factory with Some f => inl f | None => assumed account end) with
  | inr e => ∃ code, safe_aws_error e = inl code ∧ DJ.status j = DiscoveryJobStatus.FAILED
      ∧ DJ.error_summary j = error_summary_of [("sts", code)] ∧ DB.assets d = DB.assets d0
  | inl factory => ∃ d1 d2 failures, collected factory d1 services failures d2
      ∧ DB.assets d1 = DB.assets d0 ∧ DB.assets d = DB.assets d2
      ∧ DJ.status j = called_for failures
      ∧ (NoDup (map collector services) →
           DJ.error_summary j = error_summary_of (by_collector services failures))
  end.

(** The run is over: the job is terminal and says how it ended. *)
Definition over (j : DiscoveryJob) (d : DB) : Prop :=
  sound Asset d ∧ sound DiscoveryJob d ∧ others_kept d
  ∧ DB.discovery_jobs d !! DJ.id j0 = Some j
  ∧ (DJ.organization_id j, DJ.aws_account_id j, DJ.started_at j)
    = (DJ.organization_id j0, DJ.aws_account_id j0, DJ.started_at j0)
  ∧ DJ.finished_at j = Some (at_finish dr)
  ∧ told j d.

Lemma outcome_terminal errors successes :
  outcome_status errors successes ∉ [DiscoveryJobStatus.PENDING; DiscoveryJobStatus.RUNNING].
Proof. apply (bool_decide_unpack _). by destruct errors, successes. Qed.

(** The row that [_finish] leaves. *)
Definition finished_job (errors : codes) (successes : nat) (j : DiscoveryJob) : DiscoveryJob :=
  j <| DJ.status := outcome_status errors successes |>
    <| DJ.finished_at := Some (at_finish dr) |>
    <| DJ.error_summary := error_summary_of errors |>.

Lemma harmless_finished errors successes j :
  discovery_checks j = true → DJ.status j = DiscoveryJobStatus.RUNNING →
  harmless j (finished_job errors successes j).
Proof.
  intros Hc Hr. split.
  - by destruct j.
  - cbn [checks discovery_jobs_table]. unfold discovery_checks in *. rewrite Hr in Hc.
    apply andb_true_iff in Hc as [Hn [Hst _]%andb_true_iff].
    apply andb_true_iff. split; [destruct j; exact Hn|].
    destruct errors, successes; destruct j; cbn in *; by rewrite Hst.
  - intros x _. cbn [conflict discovery_jobs_table]. unfold discovery_conflict.
    assert (active_discovery (finished_job errors successes j) = false) as ->; [|done].
    apply bool_decide_eq_false, outcome_terminal.
Qed.

Lemma wp__finish actor errors successes d :
  under_way d →
  (∀ j d', DJ.status j = outcome_status errors successes →
     DJ.error_summary j = error_summary_of errors → DB.assets d' = DB.assets d → told j d') →
  wp (_finish dr (DJ.id j0) actor (outcome_status errors successes) errors)
    (λ o s', ∃ j, o = Ret j ∧ over j (committed s')) (Sess d d).
Proof.
  intros [Ha Hj Ho (j & Hjk & Hid & Hrun & Hst & Hog & Hac)] Htold. unfold _finish.
  apply wp_bind, wp_gets. cbn [working]. rewrite Hjk. apply wp_bind, wp_some_or; [|done]. intros ? [= <-].
  apply wp_bind, wp_ensure; [|intros Hno; apply bool_decide_eq_false in Hno; done].
  intros _. apply wp_bind, (wp_update j).
  - done.
  - rewrite <-Hid in Hjk. exact Hjk.
  - apply (harmless_finished errors successes); [|done]. apply (tk_rows _ _ _ _ Hj _ _ Hjk).
  - intros [? ? ?]. apply wp_bind. unfold record_audit. apply wp_modify. apply wp_bind, wp_commit, wp_ret.
    eexists. split; [done|]. split_and!.
    + destruct Ha. by split.
    + by split.
    + done.
    + cbn. rewrite <-Hid. apply (lookup_insert_eq (DB.discovery_jobs d) (DJ.id j)).
    + change ((DJ.organization_id j, DJ.aws_account_id j, DJ.started_at j)
        = (DJ.organization_id j0, DJ.aws_account_id j0, DJ.started_at j0)). congruence.
    + done.
    + by apply Htold.
Qed.

(** From the first commit on. *)
Lemma wp_begun actor d :
  boto_faults → under_way d → DB.assets d = DB.assets d0 →
  wp (match (match client_factory with Some f => inl f | None => assumed account end) with
      | inr e =>
          code ← of_res (safe_aws_error e);
          _finish dr (DJ.id j0) actor DiscoveryJobStatus.FAILED [("sts", code)]
      | inl factory =>
          r ← collect_all regions dr factory account (DJ.id j0) services [] 0;
          _finish dr (DJ.id j0) actor (outcome_status (fst r) (snd r)) (fst r)
      end) (λ o s', ∃ j, o = Ret j ∧ over j (committed s')) (Sess d d).
Proof.
  intros Hcode Hd Ed. pose proof wp__finish as Hfin. unfold told in Hfin.
  destruct (match client_factory with Some f => inl f | None => assumed account end)
    as [factory|e] eqn:E.
  - apply wp_bind. eapply wp_mono, wp_collect_all; [|done..].
    intros o s' (failures & d1 & -> & Hd1 & Hc & ->). apply Hfin; [done|].
    intros j d' Hs Hsum Ea. exists d, d1, failures.
    pose proof (collected_length _ _ _ _ _ Hc) as Hl. cbn [fst snd] in *.
    rewrite Nat.add_0_l, outcome_called_for in Hs by done. split_and!; [done..|].
    intros Hn. by rewrite Hsum, errors_of_app.
  - assert (∃ code, safe_aws_error e = inl code) as [code Hc].
    { apply boto_coded. destruct client_factory eqn:Ef; [done|]. by apply Hcode. }
    apply wp_bind, wp_of_res; [|intros e' He'; congruence].
    intros code' Hc'. apply (Hfin actor [("sts", code')] 0 d Hd). intros j d' Hs Hsum Ea.
    exists code'. split_and!; [done..|congruence].
Qed.
End ends.

Section beginning.
Context (at_ : timestamp).
Definition begun (j : DiscoveryJob) : DiscoveryJob :=
  j <| DJ.status := DiscoveryJobStatus.RUNNING |> <| DJ.started_at := Some at_ |>.
Lemma harmless_begun j :
  discovery_checks j = true → DJ.status j = DiscoveryJobStatus.PENDING →
  harmless j (begun j).
Proof.
  intros Hc Hp. split; [by destruct j|..].
  - cbn [checks discovery_jobs_table]. unfold discovery_checks in *. rewrite Hp in Hc. by destruct j.
  - intros x. cbn [conflict discovery_jobs_table]. unfold discovery_conflict, active_discovery.
    rewrite Hp. by destruct j.
Qed.

(** The run has begun: what the first commit left. *)
Lemma run_begins account j f d :
  sound Asset d → DB.discovery_jobs d !! DJ.id j = Some j →
  sound DiscoveryJob (set_rows DiscoveryJob (put (begun j)) d) →
  under_way account d (j <| DJ.started_at := Some at_ |>)
    ((set_rows DiscoveryJob (put (begun j)) d) <| DB.audit ::= f |>).
Proof.
  intros [] Hk []. split; [by split|by split|intros k a Hka; by exists a|].
  exists (begun j). split; [|by destruct j].
  apply (lookup_insert_eq (DB.discovery_jobs d) (DJ.id j)).
Qed.
End beginning.

(** C16. A discovery always ends.  Whatever the collectors give, the errors of
    AWS among it being as boto3 builds them (with details that are a dict), a
    pending job of a known account is run to a terminal state.  The collectors
    have each their turn; a turn keeps the assets the collector gave, or fails,
    with its code, because the collector did or because the assets could not be
    stored.  The job is stored as finished: completed when no turn failed,
    failed when all did (or the role of the account could not be taken), partial
    otherwise, with the codes of the failures by collector in its summary.  The
    inventory is the one the turns leave; it stays well formed, no asset is lost
    and those of other accounts are as they were.  Otherwise the run is refused
    and nothing changes. *)
Theorem discovery_always_ends {F} services regions (client_factory : option F) assumed dr job_id
    actor d :
  sound Asset d → sound DiscoveryJob d →
  (∀ k account, DB.aws_accounts d !! k = Some account →
     boto_faults services regions client_factory assumed account) →
  let '(o, d') := run (run_discovery services regions client_factory assumed dr job_id actor) d in
  match DB.discovery_jobs d !! job_id with
  | None => o = Raise (NotFoundError "discovery_job_not_found") ∧ d' = d
  | Some j =>
      if DJ.status j ≟ DiscoveryJobStatus.PENDING then
        match DB.aws_accounts d !! DJ.aws_account_id j with
        | None => o = Raise (NotFoundError "aws_account_not_found") ∧ d' = d
        | Some account =>
            ∃ j', o = Ret j'
            ∧ over services regions client_factory assumed dr account d
                (j <| DJ.started_at := Some (at_start dr) |>) j' d'
        end
      else o = Raise (ConflictError "discovery_job_not_pending") ∧ d' = d
  end.
Proof.
  intros Ha Hj Hcode. destruct (run _ d) as [o d'] eqn:E. wp_run_in E. unfold run_discovery.
  apply wp_bind, wp_gets. cbn [working].
  destruct (DB.discovery_jobs d !! job_id) as [j|] eqn:Ejob; [|by apply wp_bind, wp_some_or].
  apply wp_bind, wp_some_or; [|done]. intros ? [= <-].
  apply wp_bind, wp_ensure; intros Ep; rewrite Ep; [|done]. apply wp_bind, wp_gets. cbn [working].
  destruct (DB.aws_accounts d !! _) as [account|] eqn:Eacc; [|by apply wp_bind, wp_some_or].
  apply wp_bind, wp_some_or; [|done]. intros ? [= <-]. apply bool_decide_eq_true in Ep.
  pose proof (tk_keyed _ _ _ _ Hj _ _ Ejob) as Hid. cbn in Hid. subst job_id.
  apply wp_bind, (wp_update j _ _ (Sess d d) Hj Ejob).
  { apply (harmless_begun (at_start dr)); [apply (tk_rows _ _ _ _ Hj _ _ Ejob)|done]. }
  intros Hj'. apply wp_bind. unfold audit_ok, record_audit. apply wp_modify.
  apply wp_bind, wp_commit. cbn [working committed] in *.
  match goal with |- context [_ <| DB.audit ::= ?f |>] =>
    pose proof (run_begins (at_start dr) account j f d Ha Ejob Hj') as Hs end.
  by apply (wp_begun _ _ _ _ _ _ d _ actor _ (Hcode _ _ Eacc) Hs).
Qed.

(** * Witnesses *)

(** Alice's account with a bucket of which little is known and one that is gone. *)
Definition old_bucket : Asset := bucket_with 30 [].
Definition gone_bucket : Asset := (bucket_with 31 []) <| Asset.resource_id := "cloudops-gone" |>.
Definition pending_discovery : DiscoveryJob :=
  DJ.mk 60 1 20 DiscoveryJobStatus.PENDING 2 None None 0 0 0 0 None 0.
Definition running_discovery : DiscoveryJob := begun 3 pending_discovery.
Definition inventory_lab (j : DiscoveryJob) : DB :=
  acme <| DB.aws_accounts := {[20%N := cloud_account]} |>
       <| DB.assets := {[30%N := old_bucket; 31%N := gone_bucket]} |>
       <| DB.discovery_jobs := {[60%N := j]} |>.
Definition bucket_item (name : string) : NormalizedAsset :=
  mk_NormalizedAsset AssetType.S3_BUCKET name None name "us-east-1" (Some "available")
    (PDict []) (PDict [("encryption", PBool true)]).
Definition listed_buckets : list NormalizedAsset :=
  [bucket_item "cloudops-lab-data"; bucket_item "cloudops-new"].
(** A collector that answers, and one that is refused. *)
Definition s3_collector : DiscoveryCollector () :=
  mk_DiscoveryCollector "s3" [AssetType.S3_BUCKET] (λ _ _ _, inl listed_buckets).
Definition iam_collector : DiscoveryCollector () :=
  mk_DiscoveryCollector "iam" [AssetType.IAM_USER]
    (λ _ _ _, inr (ClientError [("Error", PDict [("Code", PStr "AccessDenied")])])).
Definition lab_collectors : list (DiscoveryCollector ()) := [s3_collector; iam_collector].
Definition discovery_lab_draws : discovery_draws :=
  mk_discovery_draws (λ ty rid, (1000 + Npos (encode (AssetType.value ty, rid)))%N) 3 (λ _, 4%Z) 5.

Definition discovered_lab : outcome DiscoveryJob * DB :=
  run (run_discovery lab_collectors [] (Some tt) (λ _, inl tt) discovery_lab_draws 60 alice)
    (inventory_lab pending_discovery).
Definition discovered_shape (x : outcome DiscoveryJob * DB) : bool :=
  match x with
  | (Ret j, d) =>
      (DJ.status j ≟ DiscoveryJobStatus.PARTIALLY_COMPLETED)
      && (DJ.error_summary j ≟ Some "iam:accessdenied")
      && (DJ.assets_created j =? 1)%Z && (DJ.assets_updated j =? 1)%Z
      && (DJ.assets_deactivated j =? 1)%Z && Nat.eqb (size (DB.assets d)) 3
  | _ => false
  end.
Example discovered_lab_shape : discovered_shape discovered_lab = true.
Proof. vm_compute. reflexivity. Qed.

Lemma inventory_lab_sound j :
  sound_test DiscoveryJob (inventory_lab j) = true →
  sound Asset (inventory_lab j) ∧ sound DiscoveryJob (inventory_lab j).
Proof. intros Hj. split; apply sound_tested; [vm_compute; reflexivity|exact Hj]. Qed.

Lemma inventory_lab_fresh j :
  upsert_fresh discovery_lab_draws 4 (DB.assets (inventory_lab j)).
Proof.
  split.
  - intros k a. cbn. rewrite lookup_insert_Some, lookup_singleton_Some.
    intros [[<- <-]|[_ [<- <-]]]; cbn; lia.
  - intros ty rid. cbn. rewrite lookup_insert_ne, lookup_singleton_ne; [done|lia|lia].
  - intros ty rid ty' rid' E. cbn in E.
    assert (encode (AssetType.value ty, rid) = encode (AssetType.value ty', rid')) as E' by lia.
    apply (inj encode) in E'. injection E' as E1 E2. split; [|exact E2].
    by destruct ty, ty'.
Qed.

Lemma inventory_exact_witness :
  let t' := inventory discovery_lab_draws 4 cloud_account [AssetType.S3_BUCKET] listed_buckets
              (DB.assets (inventory_lab running_discovery)) in
  run (keep_assets discovery_lab_draws cloud_account 60 s3_collector listed_buckets)
    (inventory_lab running_discovery)
  = (Ret tt, (inventory_lab (counted_job 2 1 1 1 running_discovery)) <| DB.assets := t' |>).
Proof.
  destruct (inventory_lab_sound running_discovery) as [Ha Hj]; [vm_compute; reflexivity|].
  pose proof (inventory_exact discovery_lab_draws cloud_account 60 running_discovery s3_collector
    listed_buckets (inventory_lab running_discovery) Ha Hj) as H.
  etrans; [apply H|].
  - apply (bool_decide_unpack _). vm_compute. exact I.
  - apply inventory_lab_fresh.
  - reflexivity.
  - assert (length (filter_rows (missing cloud_account [AssetType.S3_BUCKET] listed_buckets)
      (observed 4 cloud_account listed_buckets <$> DB.assets (inventory_lab running_discovery)))
      = 1) as E1 by (vm_compute; reflexivity).
    assert (length (additions discovery_lab_draws 4 cloud_account
      (DB.assets (inventory_lab running_discovery)) listed_buckets) = 1) as E2
      by (vm_compute; reflexivity).
    assert (length (List.filter (known cloud_account
      (DB.assets (inventory_lab running_discovery))) listed_buckets) = 1) as E3
      by (vm_compute; reflexivity).
    cbv zeta. change (asset_types s3_collector) with [AssetType.S3_BUCKET].
    change (at_upsert discovery_lab_draws (collector s3_collector)) with 4%Z.
    rewrite E1, E2, E3. reflexivity.
Defined.

Lemma discovery_always_ends_witness :
  ∃ j d', discovered_lab = (Ret j, d') ∧ DJ.status j = DiscoveryJobStatus.PARTIALLY_COMPLETED
  ∧ over lab_collectors [] (Some tt) (λ _, inl tt) discovery_lab_draws cloud_account
      (inventory_lab pending_discovery) (pending_discovery <| DJ.started_at := Some 3%Z |>) j d'.
Proof.
  destruct (inventory_lab_sound pending_discovery) as [Ha Hj]; [vm_compute; reflexivity|].
  pose proof (discovery_always_ends lab_collectors [] (Some tt) (λ _, inl tt) discovery_lab_draws
    60 alice (inventory_lab pending_discovery) Ha Hj) as H.
  pose proof discovered_lab_shape as Hc. unfold discovered_lab in *.
  destruct (run _ (inventory_lab pending_discovery)) as [o d'].
  destruct H as (j & -> & Hover).
  - intros k account _. split; [discriminate|]. unfold lab_collectors.
    intros service factory e Hin. set_unfold. destruct Hin as [->|[->|[]]]; [discriminate|].
    cbn. intros [= <-]. eexists. reflexivity.
  - cbn [discovered_shape] in Hc. bools. exists j, d'. split_and!; [done|done|exact Hover].
Defined.
