(* ===== verification/Uuids.v ===== *)
(** [uuid.UUID(s)], the parser of the identifiers that payloads carry, and that
    it reads back what [str(u)] writes; what a payload of identifiers is worth
    to the queue. *)

From S2P Require Import Prelude.
From S2P Require Import PyValue.
From S2P Require Import Sha256.
From S2P Require Import Evidence.
From Stdlib Require Import Ascii ZifyBool.
From stdpp Require Import list.

(** * [int(s, 16)], on ASCII text *)

Definition hex_value (c : ascii) : option N :=
  let n := code c in
  if (48 <=? n)%N && (n <=? 57)%N then Some (n - 48)%N
  else if (97 <=? n)%N && (n <=? 102)%N then Some (n - 87)%N
  else if (65 <=? n)%N && (n <=? 70)%N then Some (n - 55)%N
  else None.

(** Digits with single underscores between them; [digit] says whether the
    character before was one. *)
Fixpoint hex_digits (digit : bool) (acc : N) (s : string) : option N :=
  match s with
  | EmptyString => if digit then Some acc else None
  | String c s =>
      match hex_value c with
      | Some v => hex_digits true (16 * acc + v)%N s
      | None => if Ascii.eqb c "_" && digit then hex_digits false acc s else None
      end
  end.

Definition unsigned_hex (s : string) : option N :=
  match s with
  | String z (String x s') =>
      if Ascii.eqb z "0" && (Ascii.eqb x "x" || Ascii.eqb x "X") then
        match s' with
        | String u s'' => hex_digits false 0 (if Ascii.eqb u "_" then s'' else s')
        | EmptyString => None
        end
      else hex_digits false 0 s
  | _ => hex_digits false 0 s
  end.

Definition int_hex (s : string) : option Z :=
  match strip s with
  | String c s' =>
      if Ascii.eqb c "-" then Z.opp ∘ Z.of_N <$> unsigned_hex s'
      else if Ascii.eqb c "+" then Z.of_N <$> unsigned_hex s'
      else Z.of_N <$> unsigned_hex (String c s')
  | EmptyString => None
  end.

(** * [uuid.UUID(s)] *)

(** [s.replace(p, "")]; [n] characters of an occurrence remain. *)
Fixpoint remove_go (p : string) (n : nat) (s : string) : string :=
  match s with
  | EmptyString => EmptyString
  | String c s' =>
      match n with
      | S n => remove_go p n s'
      | O => if String.prefix p s then remove_go p (String.length p - 1) s'
             else String c (remove_go p 0 s')
      end
  end.
Definition remove (p s : string) : string := remove_go p 0 s.

Fixpoint lstrip_chars (chars s : string) : string :=
  match s with
  | String c s' => if has_char c chars then lstrip_chars chars s' else s
  | EmptyString => s
  end.
(** [s.strip(chars)] *)
Definition strip_chars (chars s : string) : string :=
  srev (lstrip_chars chars (srev (lstrip_chars chars s))).

Definition new_UUID (s : string) : res uuid :=
  let hex := remove "uuid:" (remove "urn:" s) in
  let hex := remove "-" (strip_chars "{}" hex) in
  if negb (Nat.eqb (String.length hex) 32) then inr ValueError
  else match int_hex hex with
       | Some (Zpos n) => inl (Npos n)
       | Some Z0 => inl 0%N
       | _ => inr ValueError
       end.

Example new_UUID_plain :
  new_UUID "{0123456789ABCDEF0123456789abcdef}" = inl 0x0123456789abcdef0123456789abcdef%N.
Proof. vm_compute. reflexivity. Qed.
Example new_UUID_bad : new_UUID "0x0123456789ABCDEF0123456789abcdef" = inr ValueError.
Proof. vm_compute. reflexivity. Qed.

(** * Round trip *)

(** What [str(u)] consists of. *)
Definition uuid_char (c : ascii) : bool :=
  let n := code c in
  ((48 <=? n) && (n <=? 57) || (97 <=? n) && (n <=? 102) || (n =? 45))%N.
Fixpoint sforall (P : ascii → bool) (s : string) : bool :=
  match s with EmptyString => true | String c s => P c && sforall P s end.

Lemma length_app_str s t : String.length (s +:+ t) = String.length s + String.length t.
Proof.
  induction s as [|c s IH]; [done|].
  change (S (String.length (s +:+ t)) = S (String.length s) + String.length t). lia.
Qed.

Lemma sforall_app P s t : sforall P (s +:+ t) = sforall P s && sforall P t.
Proof.
  induction s as [|c s IH]; [done|]. cbn [sforall]. rewrite <-andb_assoc, <-IH. done.
Qed.
Lemma sforall_take P n s : sforall P s = true → sforall P (str_take n s) = true.
Proof.
  revert s. induction n as [|n IH]; intros [|c s]; cbn; try done.
  intros [-> Hs]%andb_true_iff. by apply IH.
Qed.
Lemma sforall_drop P n s : sforall P s = true → sforall P (str_drop n s) = true.
Proof.
  revert s. induction n as [|n IH]; intros [|c s]; cbn; try done.
  intros [_ Hs]%andb_true_iff. by apply IH.
Qed.
Lemma sforall_mono (P P' : ascii → bool) s :
  (∀ c, P c = true → P' c = true) → sforall P s = true → sforall P' s = true.
Proof.
  intros HP. induction s as [|c s IH]; cbn; [done|]. rewrite !andb_true_iff. naive_solver.
Qed.

Lemma remove_go_none p s :
  sforall (λ c, negb (String.prefix (String c "") p)) s = true → p ≠ "" →
  remove_go p 0 s = s.
Proof.
  intros Hs Hp. induction s as [|c s IH]; [done|]. cbn [sforall] in Hs.
  apply andb_true_iff in Hs as [Hc Hs]. cbn [remove_go]. destruct p as [|c' p]; [done|].
  assert (c ≠ c') as Hne.
  { intros <-. cbn in Hc. destruct (ascii_dec c c); [|done]. by destruct p. }
  cbn [String.prefix]. destruct (ascii_dec c' c); [congruence|]. by rewrite IH.
Qed.

Lemma remove_char_cons d c s :
  remove_go (String d "") 0 (String c s)
  = if ascii_dec d c then remove_go (String d "") 0 s
    else String c (remove_go (String d "") 0 s).
Proof. cbn. destruct (ascii_dec d c); [|done]. by destruct s. Qed.
Lemma remove_char_app d s t :
  remove_go (String d "") 0 (s +:+ t) = remove_go (String d "") 0 s +:+ remove_go (String d "") 0 t.
Proof.
  induction s as [|c s IH]; [done|].
  change (String c s +:+ t) with (String c (s +:+ t)). rewrite !remove_char_cons, IH.
  by destruct (ascii_dec d c).
Qed.

Lemma str_take_drop n s : str_take n s +:+ str_drop n s = s.
Proof.
  revert s. induction n as [|n IH]; intros [|c s]; try done.
  change (String c (str_take n s +:+ str_drop n s) = String c s). by rewrite IH.
Qed.
Lemma str_drop_drop n m s : str_drop n (str_drop m s) = str_drop (m + n) s.
Proof.
  revert s. induction m as [|m IH]; intros [|c s]; try done; cbn; [by destruct n|by rewrite IH].
Qed.

Lemma srev_app_acc s acc acc' : srev_app s (acc +:+ acc') = srev_app s acc +:+ acc'.
Proof.
  revert acc. induction s as [|c s IH]; intros acc; [done|]. cbn.
  by rewrite <-(IH (String c acc)).
Qed.
Lemma srev_cons c s : srev (String c s) = srev s +:+ String c "".
Proof. unfold srev. cbn. by rewrite <-(srev_app_acc s "" (String c "")). Qed.
Lemma srev_snoc s c : srev (s +:+ String c "") = String c (srev s).
Proof.
  induction s as [|c' s IH]; [done|]. change ((String c' s) +:+ String c "") with (String c' (s +:+ String c "")).
  by rewrite !srev_cons, IH.
Qed.
Lemma srev_srev s : srev (srev s) = s.
Proof. induction s as [|c s IH]; [done|]. by rewrite srev_cons, srev_snoc, IH. Qed.
Lemma sforall_srev P s : sforall P (srev s) = sforall P s.
Proof.
  induction s as [|c s IH]; [done|]. rewrite srev_cons, sforall_app, IH. cbn.
  by rewrite andb_true_r, andb_comm.
Qed.

Lemma strip_chars_none chars s :
  sforall (λ c, negb (has_char c chars)) s = true → strip_chars chars s = s.
Proof.
  assert (∀ s, sforall (λ c, negb (has_char c chars)) s = true → lstrip_chars chars s = s) as E.
  { intros [|c t]; [done|]. cbn. destruct (has_char c chars); [done|]. done. }
  intros Hs. unfold strip_chars. rewrite (E s Hs), (E (srev s)), srev_srev; [done|].
  by rewrite sforall_srev.
Qed.
Lemma strip_none s : sforall (λ c, negb (is_space c)) s = true → strip s = s.
Proof.
  assert (∀ s, sforall (λ c, negb (is_space c)) s = true → lstrip s = s) as E.
  { intros [|c t]; [done|]. cbn. destruct (is_space c); [done|]. done. }
  intros Hs. unfold strip, rstrip. rewrite (E s Hs), (E (srev s)), srev_srev; [done|].
  by rewrite sforall_srev.
Qed.

(** Lower-case hexadecimal digits. *)
Definition hex_char (c : ascii) : bool :=
  let n := code c in ((48 <=? n) && (n <=? 57) || (97 <=? n) && (n <=? 102))%N.

Lemma hex_digit_char n : (n < 16)%N → hex_char (hex_digit n) = true ∧ hex_value (hex_digit n) = Some n.
Proof.
  intros Hn. assert (n ∈ N.of_nat <$> seq 0 16) as Hin.
  { apply list_elem_of_fmap. exists (N.to_nat n). rewrite N2Nat.id, elem_of_seq. lia. }
  revert Hin. generalize n. apply Forall_forall. repeat constructor.
Qed.

Lemma big_endian_bytes k u : Forall (λ b, b < 256)%N (big_endian k u).
Proof.
  induction k as [|k IH]; cbn [big_endian]; constructor; [|done].
  change 255%N with (N.ones 8). rewrite N.land_ones. by apply N.mod_lt.
Qed.
Lemma big_endian_length k u : length (big_endian k u) = k.
Proof. induction k as [|k IH]; cbn [big_endian length]; [done|]. by rewrite IH. Qed.

Lemma hex_bytes_char l : Forall (λ b, b < 256)%N l → sforall hex_char (hex_bytes l) = true.
Proof.
  induction 1 as [|b l Hb _ IH]; [done|]. cbn [hex_bytes sforall].
  destruct (hex_digit_char (b / 16)) as [-> _]; [apply N.Div0.div_lt_upper_bound; lia|].
  destruct (hex_digit_char (b mod 16)) as [-> _]; [by apply N.mod_lt|done].
Qed.
Lemma hex_bytes_length l : String.length (hex_bytes l) = 2 * length l.
Proof. induction l as [|b l IH]; [done|]. cbn [hex_bytes String.length length]. rewrite IH. lia. Qed.

Lemma hex_digits_cons digit acc n s :
  (n < 16)%N → hex_digits digit acc (String (hex_digit n) s) = hex_digits true (16 * acc + n) s.
Proof. intros Hn. cbn [hex_digits]. by rewrite (proj2 (hex_digit_char n Hn)). Qed.

(** The digits of the bytes of [u] are read back as [u]. *)
Lemma hex_digits_bytes k digit acc u :
  digit = true ∨ k ≠ 0 →
  hex_digits digit acc (hex_bytes (big_endian k u))
  = Some (acc * 256 ^ N.of_nat k + u mod 256 ^ N.of_nat k)%N.
Proof.
  revert digit acc. induction k as [|k IH]; intros digit acc Hd.
  { cbn. destruct Hd as [->|]; [|done]. f_equal. rewrite N.mod_1_r. lia. }
  cbn [big_endian hex_bytes]. set (b := N.land _ 255).
  assert (b = (u / 256 ^ N.of_nat k) mod 256)%N as Eb.
  { unfold b. change 255%N with (N.ones 8). rewrite N.land_ones, N.shiftr_div_pow2.
    by rewrite N.pow_mul_r. }
  assert (b < 256)%N as Hb by (rewrite Eb; by apply N.mod_lt).
  rewrite !hex_digits_cons; [|by apply N.mod_lt|apply N.Div0.div_lt_upper_bound; lia].
  rewrite IH by auto. f_equal.
  replace (16 * (16 * acc + b / 16) + b mod 16)%N with (256 * acc + b)%N; last first.
  { pose proof (N.div_mod b 16). lia. }
  rewrite Nat2N.inj_succ, N.pow_succ_r'.
  rewrite (N.mul_comm 256 (256 ^ N.of_nat k)), N.Div0.mod_mul_r, <-Eb. lia.
Qed.

(** Digits only: no sign and no prefix. *)
Lemma unsigned_hex_digits s :
  sforall hex_char s = true → unsigned_hex s = hex_digits false 0 s.
Proof.
  intros Hs. unfold unsigned_hex. destruct s as [|z [|x s]]; [done..|].
  destruct (Ascii.eqb_spec x "x") as [->|]; [by cbn in Hs; bools|].
  destruct (Ascii.eqb_spec x "X") as [->|]; [by cbn in Hs; bools|].
  by rewrite andb_false_r.
Qed.
Lemma int_hex_digits s :
  sforall hex_char s = true → int_hex s = Z.of_N <$> hex_digits false 0 s.
Proof.
  intros Hs. unfold int_hex. rewrite strip_none; last first.
  { eapply sforall_mono, Hs. intros c. unfold hex_char, is_space. lia. }
  destruct s as [|c s]; [done|].
  destruct (Ascii.eqb_spec c "-") as [->|]; [done|].
  destruct (Ascii.eqb_spec c "+") as [->|]; [done|]. by rewrite unsigned_hex_digits.
Qed.

Transparent uuid_str.
Lemma uuid_str_chars u : sforall uuid_char (uuid_str u) = true.
Proof.
  assert (sforall uuid_char (hex_bytes (big_endian 16 u)) = true) as H.
  { eapply sforall_mono, hex_bytes_char, big_endian_bytes.
    intros c. unfold hex_char, uuid_char. lia. }
  unfold uuid_str. rewrite !sforall_app.
  by rewrite !sforall_take, !sforall_drop by (try apply sforall_drop; exact H).
Qed.

Lemma remove_dashes u : remove "-" (uuid_str u) = hex_bytes (big_endian 16 u).
Proof.
  set (h := hex_bytes (big_endian 16 u)).
  assert (sforall hex_char h = true) as Hh by apply hex_bytes_char, big_endian_bytes.
  assert (∀ s, sforall hex_char s = true → remove_go "-" 0 s = s) as Hr.
  { intros s Hs. apply remove_go_none; [|done]. eapply sforall_mono, Hs.
    intros c Hc. cbn. destruct (ascii_dec c "-") as [->|]; [discriminate|done]. }
  unfold remove, uuid_str. fold h. rewrite !remove_char_app.
  assert (∀ n m, remove_go "-" 0 (str_take m (str_drop n h)) = str_take m (str_drop n h)) as Hm.
  { intros n m. by apply Hr, sforall_take, sforall_drop. }
  rewrite !Hm, (Hr (str_take 8 h)), (Hr (str_drop 20 h)) by
    (apply sforall_take || apply sforall_drop; exact Hh).
  rewrite <-(str_take_drop 8 h) at 6. f_equal.
Qed.

Lemma uuid_str_length u : String.length (uuid_str u) = 36.
Proof.
  assert (∀ s n, String.length (str_take n s) = Nat.min n (String.length s)) as Ht.
  { intros s n. revert s. induction n as [|n IH]; intros [|c s]; cbn; [done..|]. by rewrite IH. }
  assert (∀ s n, String.length (str_drop n s) = String.length s - n) as Hd.
  { intros s n. revert s. induction n as [|n IH]; intros [|c s]; cbn; [done..|]. by rewrite IH. }
  unfold uuid_str. rewrite !length_app_str, !Ht, !Hd, hex_bytes_length, big_endian_length. done.
Qed.
Opaque uuid_str.

(** What [str(u)] writes is read back. *)
Lemma new_UUID_str u : (u < 2 ^ 128)%N → new_UUID (uuid_str u) = inl u.
Proof.
  intros Hu. pose proof (uuid_str_chars u) as Hc. unfold new_UUID.
  assert (∀ p, p = "urn:" ∨ p = "uuid:" → remove p (uuid_str u) = uuid_str u) as Hr.
  { intros p Hp. apply remove_go_none; [|naive_solver]. eapply sforall_mono, Hc.
    intros c Hcc. destruct Hp as [->| ->]; cbn;
      destruct (ascii_dec c "u") as [->|]; (discriminate || done). }
  rewrite (Hr "urn:"), (Hr "uuid:") by auto. rewrite strip_chars_none; last first.
  { eapply sforall_mono, Hc. intros c Hcc. apply negb_true_iff, not_true_is_false. cbn.
    intros H. rewrite orb_false_r in H. apply orb_true_iff in H as [E|E];
      apply Ascii.eqb_eq in E as ->; discriminate. }
  rewrite remove_dashes, hex_bytes_length, big_endian_length. cbn [negb Nat.eqb Nat.mul Nat.add].
  rewrite int_hex_digits by apply hex_bytes_char, big_endian_bytes.
  rewrite hex_digits_bytes by auto. change (256 ^ N.of_nat 16)%N with (2 ^ 128)%N.
  rewrite N.mod_small by done. by destruct u.
Qed.

Lemma uuid_str_inj u u' :
  (u < 2 ^ 128)%N → (u' < 2 ^ 128)%N → uuid_str u = uuid_str u' → u = u'.
Proof. intros Hu Hu' E. apply new_UUID_str in Hu, Hu'. rewrite E in Hu. congruence. Qed.

(** Texts that agree up to a length agree on parts of one length below it. *)
Lemma str_take_app_inj n s s' t t' :
  String.length s = String.length s' → String.length s ≤ n →
  str_take n (s +:+ t) = str_take n (s' +:+ t') → s = s'.
Proof.
  revert n s'. induction s as [|c s IH]; intros n [|c' s']; cbn [String.length]; [done..|].
  intros [= Hl] Hn. destruct n as [|n]; [lia|].
  change (String c (str_take n (s +:+ t)) = String c' (str_take n (s' +:+ t')) → String c s = String c' s').
  intros [= -> E]. f_equal. apply (IH n); [done|lia|done].
Qed.

(** * Payloads of identifiers *)

Definition plain_char (c : ascii) : bool :=
  let n := code c in ((32 <=? n) && (n <=? 126) && negb (n =? 34) && negb (n =? 92))%N.

Lemma json_escape_plain s : sforall plain_char s = true → json_escape s = s.
Proof.
  induction s as [|c s IH]; [done|]. cbn [sforall json_escape]. intros [Hc Hs]%andb_true_iff.
  rewrite IH by done. unfold plain_char in Hc.
  assert (∀ n, code c ≠ N.of_nat n → n < 256 → Ascii.eqb c (ascii_of_nat n) = false) as E.
  { intros n Hn Hlt. apply Ascii.eqb_neq. intros ->. apply Hn. unfold code.
    apply (N_ascii_embedding (N.of_nat n)). lia. }
  unfold dquote_char, backslash. rewrite !E by lia.
  repeat match goal with |- context [(?a =? ?b)%N] => replace (a =? b)%N with false by lia end.
  by replace ((code c <? 32) || (126 <? code c))%N with false by lia.
Qed.

Lemma concat_sep_length sep l n :
  Forall (λ s, String.length s ≤ n) l →
  String.length (concat_sep sep l) ≤ length l * (n + String.length sep).
Proof.
  induction 1 as [|x l Hx Hl IH]; [cbn; lia|]. destruct l as [|y l]; [cbn in *; lia|].
  change (concat_sep sep (x :: y :: l)) with (x +:+ sep +:+ concat_sep sep (y :: l)).
  rewrite !length_app_str. cbn [length] in *. lia.
Qed.

(** A few identifiers under short names that are not sensitive. *)
Record id_payload (pl : pydict) : Prop := {
  ip_few : length pl ≤ 16;
  ip_keys : Forall (λ kv, sforall plain_char kv.1 = true ∧ String.length kv.1 ≤ 40
    ∧ rx_search SENSITIVE_PAYLOAD_KEY kv.1 = false) pl;
  ip_values : Forall (λ kv, ∃ u, kv.2 = PStr (uuid_str u)) pl
}.

(** The queue takes such a payload as it is. *)
Lemma id_payload_valid pl : id_payload pl → _validated_payload pl = inl pl.
Proof.
  intros [Hn Hk Hv]. unfold _validated_payload.
  assert (payload_check 0 (PDict pl) = true) as ->.
  { cbn [payload_check Nat.ltb Nat.leb negb andb]. apply forallb_forall. intros [k v] Hin%list_elem_of_In.
    rewrite Forall_forall in Hk, Hv. destruct (Hk _ Hin) as (_ & _ & Hs). cbn [fst snd] in *.
    rewrite Hs. destruct (Hv _ Hin) as [u E]. cbn in E. by rewrite E. }
  assert (String.length (json_dumps (PDict pl)) ≤ 2048) as Hl; last first.
  { assert (Nat.leb (String.length (json_dumps (PDict pl))) MAX_PAYLOAD_BYTES = true) as ->; [|done].
    apply Nat.leb_le. unfold MAX_PAYLOAD_BYTES. lia. }
  cbn [json_dumps]. rewrite !length_app_str.
  match goal with |- context [concat_sep "," ?l] => pose proof (concat_sep_length "," l 100) as Hc end.
  rewrite length_map, (Permutation_length (sort_items_perm _)), length_map in Hc.
  cbn [String.length] in *. enough (Forall (λ s, String.length s ≤ 100)
    (map (λ kv : string * string, json_str kv.1 +:+ ":" +:+ kv.2)
             (sort_items (map (λ kv, (kv.1, json_dumps kv.2)) pl)))) as H by (specialize (Hc H); lia).
  rewrite List.Forall_map, (sort_items_perm (A:=string)), List.Forall_map.
  rewrite Forall_forall in *. intros [k v] Hin. cbn [fst snd].
  destruct (Hk _ Hin) as (Hp & Hl & _), (Hv _ Hin) as [u Hu]. cbn [fst snd] in *. subst v.
  cbn [json_dumps]. unfold json_str. cbn [String.length].
  rewrite !json_escape_plain; [|eapply sforall_mono, uuid_str_chars|done].
  - rewrite !length_app_str. cbn [String.length]. rewrite !length_app_str, uuid_str_length.
    cbn [String.length]. lia.
  - intros c. unfold uuid_char, plain_char. lia.
Qed.
