(* ===== verification/Scheduler.v ===== *)
(** services/scheduler.py and api/v1/scheduler.py: recurring scans.

    A schedule only puts work in the queue: [run_schedule] records a scan run
    and enqueues its job, and [run_due_schedules] is the tick of the scheduler
    process.  Row locks are not modelled, a tick runs alone. *)

From S2P Require Import Prelude.
From S2P Require Import History.
From S2P Require Import Enums.
From S2P Require Import Rbac.
From S2P Require Import PyValue.
From S2P Require Import Models.
From S2P Require Import Tables.
From S2P Require Import Common.
From S2P Require Import Sha256.
From S2P Require Import Organizations.
From S2P Require Import Evidence.
From S2P Require Import PlatformJobs.
From S2P Require Import Calendar.
From S2P Require Import Uuids.
From stdpp Require Import list.

Module Sched := ScanSchedule.
Module Run := ScanRun.

(** models/scheduler.py:23-23, MINIMUM_INTERVAL_MINUTES. *)
Definition MINIMUM_INTERVAL_MINUTES : Z := 15.

(** * Tables *)

(** models/scheduler.py:41-44, part of ScanSchedule.  The CHECK constraint. *)
Definition schedule_checks (s : ScanSchedule) : bool :=
  (MINIMUM_INTERVAL_MINUTES <=? Sched.interval_minutes s)%Z.
#[export] Instance schedules_table : Table ScanSchedule.
Proof.
  refine (mk_table _ _ DB.scan_schedules (λ f d, d <| DB.scan_schedules ::= f |>) schedule_checks
    (λ _ _, false) _ _ _ _ _); solve_table.
Defined.

Definition active_run (r : ScanRun) : bool :=
  bool_decide (Run.status r ∈ [ScanRunStatus.PENDING; ScanRunStatus.RUNNING]).
(** models/scheduler.py:94-100, part of ScanRun.  One active run per account. *)
Definition run_conflict (r r' : ScanRun) : bool :=
  active_run r && active_run r' && (Run.aws_account_id r ≟ Run.aws_account_id r').
(** models/scheduler.py:80-89, part of ScanRun.  The CHECK constraint. *)
Definition run_checks (r : ScanRun) : bool :=
  match Run.status r with
  | ScanRunStatus.PENDING => is_none_ (Run.started_at r) && is_none_ (Run.finished_at r)
  | ScanRunStatus.RUNNING => is_some_ (Run.started_at r) && is_none_ (Run.finished_at r)
  | _ => is_some_ (Run.started_at r) && is_some_ (Run.finished_at r)
  end.
#[export] Instance runs_table : Table ScanRun.
Proof.
  refine (mk_table _ _ DB.scan_runs (λ f d, d <| DB.scan_runs ::= f |>) run_checks
    run_conflict _ _ _ _ _); unfold run_conflict; solve_table.
Defined.

(** * The service *)

(** services/scheduler.py:30-39, SchedulerService._get_account. *)
Definition _get_account (organization_id account_id : uuid) : txn DB AWSAccount :=
  account ← gets (λ d, find_row (λ a, (AWSAccount.id a ≟ account_id)
                                      && (AWSAccount.organization_id a ≟ organization_id))
                         (DB.aws_accounts d));
  some_or account (NotFoundError "aws_account_not_found").

(** services/scheduler.py:41-50, SchedulerService._get_scoped. *)
Definition _get_scoped (organization_id schedule_id : uuid) : txn DB ScanSchedule :=
  schedule ← gets (λ d, find_row (λ s, (Sched.id s ≟ schedule_id)
                                       && (Sched.organization_id s ≟ organization_id))
                          (DB.scan_schedules d));
  some_or schedule (NotFoundError "scan_schedule_not_found").

(** services/scheduler.py:52-85, SchedulerService.create_schedule. *)
Definition create_schedule (new_id : uuid) (now : timestamp) (organization_id account_id : uuid)
    (actor : User) (name : string) (interval_minutes : Z) : txn DB ScanSchedule :=
  _ ← require_capability organization_id (User.id actor) Capability.SCHEDULE_MANAGE;
  _ ← _get_account organization_id account_id;
  let schedule := Sched.mk new_id organization_id account_id name interval_minutes true
    (Some (User.id actor)) None None (Some (now + minutes interval_minutes)%Z) now in
  _ ← save true schedule;
  _ ← audit_ok "scheduler.schedule.created" "scan_schedule" organization_id (User.id actor)
        (Sched.id schedule);
  _ ← commit;
  mret schedule.

(** services/scheduler.py:87-110, SchedulerService.set_enabled. *)
Definition set_enabled (now : timestamp) (organization_id schedule_id : uuid) (actor : User)
    (enabled : bool) : txn DB ScanSchedule :=
  _ ← require_capability organization_id (User.id actor) Capability.SCHEDULE_MANAGE;
  schedule ← _get_scoped organization_id schedule_id;
  if Bool.eqb (Sched.enabled schedule) enabled then mret schedule
  else
    let schedule := schedule
      <| Sched.enabled := enabled |>
      <| Sched.next_run_at :=
           if enabled then Some (now + minutes (Sched.interval_minutes schedule))%Z else None |> in
    _ ← save false schedule;
    _ ← audit_ok (if enabled then "scheduler.schedule.enabled" else "scheduler.schedule.disabled")
          "scan_schedule" organization_id (User.id actor) (Sched.id schedule);
    _ ← commit;
    mret schedule.

(** services/scheduler.py:112-128, SchedulerService.delete_schedule.  The foreign key of
    the runs is set to NULL. *)
Definition delete_schedule (organization_id schedule_id : uuid) (actor : User) : txn DB () :=
  _ ← require_capability organization_id (User.id actor) Capability.SCHEDULE_MANAGE;
  schedule ← _get_scoped organization_id schedule_id;
  _ ← erase schedule;
  _ ← modify (set_rows ScanRun (fmap (λ r,
        if Run.schedule_id r ≟ Some schedule_id then r <| Run.schedule_id := None |> else r)));
  _ ← audit_ok "scheduler.schedule.deleted" "scan_schedule" organization_id (User.id actor)
        schedule_id;
  commit.

(** What a run draws: the identifiers of the run, its job and the job's
    correlation. *)
Record run_draws := mk_run_draws { new_run : uuid; new_scan_job : uuid; new_correlation : uuid }.

(** services/scheduler.py:147-161, part of SchedulerService.run_schedule.  The row of
    the run, behind a savepoint. *)
Definition add_run (now : timestamp) (new_run : uuid) (schedule : ScanSchedule)
    (trigger : ScanRunTrigger) : txn DB ScanRun :=
  let run := Run.mk new_run (Sched.organization_id schedule) (Sched.aws_account_id schedule)
    (Some (Sched.id schedule)) trigger ScanRunStatus.PENDING None None None None None now in
  _ ← try_catch (begin_nested (save true run))
        (λ e, match e with
              | IntegrityError => raise (ConflictError "scan_run_already_active")
              | e => raise e
              end);
  mret run.

(** services/scheduler.py:166-170, part of SchedulerService.run_schedule. *)
Definition run_key (now : timestamp) (run : ScanRun) (schedule : ScanSchedule)
    (trigger : ScanRunTrigger) : string :=
  if trigger ≟ ScanRunTrigger.MANUAL then "scan-run:" +:+ uuid_str (Run.id run)
  else "schedule:" +:+ uuid_str (Sched.id schedule) +:+ ":"
       +:+ isoformat "T" (default now (Sched.next_run_at schedule)).

(** services/scheduler.py:171-175, part of SchedulerService.run_schedule. *)
Definition run_payload (run : ScanRun) (schedule : ScanSchedule) (actor : User) : pydict :=
  [("scan_run_id", PStr (uuid_str (Run.id run)));
   ("actor_user_id", PStr (uuid_str (User.id actor)));
   ("schedule_id", PStr (uuid_str (Sched.id schedule)))].

(** services/scheduler.py:130-189, SchedulerService.run_schedule. *)
Definition run_schedule (now : timestamp) (dr : run_draws) (organization_id schedule_id : uuid)
    (actor : User) (trigger : ScanRunTrigger) (commit_ : bool) : txn DB ScanRun :=
  schedule ← _get_scoped organization_id schedule_id;
  _ ← (if trigger ≟ ScanRunTrigger.MANUAL
       then _ ← require_capability organization_id (User.id actor) Capability.SCHEDULE_MANAGE;
            mret tt
       else mret tt);
  _ ← ensure (Sched.enabled schedule) (ConflictError "schedule_disabled");
  run ← add_run now (new_run dr) schedule trigger;
  _ ← enqueue (new_scan_job dr) (new_correlation dr) now organization_id
        PlatformJobType.SCHEDULED_SCAN (Run.id run) (run_key now run schedule trigger)
        (Some (run_payload run schedule actor)) None 0 3 None None
        (if trigger ≟ ScanRunTrigger.MANUAL then Some (User.id actor) else None);
  _ ← audit_ok "scheduler.run.enqueued" "scan_run" organization_id (User.id actor) (Run.id run);
  _ ← (if commit_ then commit else mret tt);
  mret run.

(** services/scheduler.py:198-207, part of SchedulerService.run_due_schedules.  The
    schedules that are due, at most [scheduler_batch_size] of them, the longest
    waiting first. *)
Definition is_due (now : timestamp) (s : ScanSchedule) : bool :=
  Sched.enabled s && from_option (λ t, t <=? now)%Z false (Sched.next_run_at s).
Definition due_before (s s' : ScanSchedule) : bool :=
  let t s := default 0%Z (Sched.next_run_at s) in
  (t s <? t s')%Z || (t s =? t s')%Z && (Sched.id s <=? Sched.id s')%N.
Definition due_schedules (now : timestamp) (scheduler_batch_size : nat) (d : DB)
    : list ScanSchedule :=
  take scheduler_batch_size
    (sort_by due_before (filter_rows (is_due now) (DB.scan_schedules d))).

(** services/scheduler.py:209-236, part of SchedulerService.run_due_schedules.  One
    turn of the loop: the run, unless the creator is gone or another scan of the
    account is active. *)
Definition run_due (now : timestamp) (dr : uuid → run_draws) (schedule : ScanSchedule)
    : txn DB (option ScanRun) :=
  actor ← match Sched.created_by_user_id schedule with
          | Some i => gets (λ d, DB.users d !! i)
          | None => mret None
          end;
  match actor with
  | None =>
      _ ← save false (schedule <| Sched.next_run_at :=
            Some (now + minutes (Sched.interval_minutes schedule))%Z |>);
      mret None
  | Some actor =>
      let occurrence := Sched.next_run_at schedule in
      try_catch
        (run ← run_schedule now (dr (Sched.id schedule)) (Sched.organization_id schedule)
                 (Sched.id schedule) actor ScanRunTrigger.SCHEDULED false;
         occurrence ← some_or occurrence AssertionError;
         _ ← save false (schedule
               <| Sched.last_enqueued_at := Some occurrence |>
               <| Sched.next_run_at :=
                    Some (occurrence + minutes (Sched.interval_minutes schedule))%Z |>);
         mret (Some run))
        (λ e, match e with ConflictError _ => mret None | e => raise e end)
  end.

Fixpoint run_all_due (now : timestamp) (dr : uuid → run_draws) (due : list ScanSchedule)
    : txn DB (list ScanRun) :=
  match due with
  | [] => mret []
  | schedule :: due =>
      run ← run_due now dr schedule;
      runs ← run_all_due now dr due;
      mret (option_list run ++ runs)
  end.

(** services/scheduler.py:191-238, SchedulerService.run_due_schedules. *)
Definition run_due_schedules (now : timestamp) (dr : uuid → run_draws)
    (scheduler_batch_size : nat) : txn DB (list ScanRun) :=
  due ← gets (due_schedules now scheduler_batch_size);
  runs ← run_all_due now dr due;
  _ ← commit;
  mret runs.

(** * Endpoints *)

(** api/v1/scheduler.py:28-31, _require. *)
Definition _require (user : User) (organization_id : uuid) (capability : Capability)
    : txn DB () :=
  _ ← require_capability organization_id (User.id user) capability; mret tt.

(** api/v1/scheduler.py:52-76, list_schedules. *)
Definition list_schedules (user : User) (organization_id : uuid) (aws_account_id : option uuid)
    (page page_size : nat) : txn DB (list ScanSchedule * nat) :=
  _ ← _require user organization_id Capability.SCHEDULE_READ;
  rows ← gets (λ d, filter_rows (λ s, (Sched.organization_id s ≟ organization_id)
            && from_option (λ i, Sched.aws_account_id s ≟ i) true aws_account_id)
            (DB.scan_schedules d));
  mret (page_of page page_size (sort_by (newest_first Sched.created_at Sched.id) rows),
        length rows).

(** api/v1/scheduler.py:79-95, schedule_detail. *)
Definition schedule_detail (schedule_id : uuid) (user : User) (organization_id : uuid)
    : txn DB ScanSchedule :=
  _ ← _require user organization_id Capability.SCHEDULE_READ;
  item ← gets (λ d, find_row (λ s, (Sched.id s ≟ schedule_id)
                                   && (Sched.organization_id s ≟ organization_id))
                      (DB.scan_schedules d));
  some_or item (NotFoundError "scan_schedule_not_found").

(** api/v1/scheduler.py:98-108, enable_schedule. *)
Definition enable_schedule (now : timestamp) (schedule_id : uuid) (user : User)
    (organization_id : uuid) : txn DB ScanSchedule :=
  set_enabled now organization_id schedule_id user true.

(** api/v1/scheduler.py:111-121, disable_schedule. *)
Definition disable_schedule (now : timestamp) (schedule_id : uuid) (user : User)
    (organization_id : uuid) : txn DB ScanSchedule :=
  set_enabled now organization_id schedule_id user false.

(** api/v1/scheduler.py:135-150, run_schedule_now.  Without the rate limit. *)
Definition run_schedule_now (now : timestamp) (dr : run_draws) (schedule_id : uuid) (user : User)
    (organization_id : uuid) : txn DB ScanRun :=
  run_schedule now dr organization_id schedule_id user ScanRunTrigger.MANUAL true.

(** api/v1/scheduler.py:153-183, list_scan_runs. *)
Definition list_scan_runs (user : User) (organization_id : uuid)
    (schedule_id aws_account_id : option uuid) (status : option ScanRunStatus)
    (page page_size : nat) : txn DB (list ScanRun * nat) :=
  _ ← _require user organization_id Capability.SCHEDULE_READ;
  rows ← gets (λ d, filter_rows (λ r, (Run.organization_id r ≟ organization_id)
            && from_option (λ i, Run.schedule_id r ≟ Some i) true schedule_id
            && from_option (λ i, Run.aws_account_id r ≟ i) true aws_account_id
            && from_option (λ x, Run.status r ≟ x) true status) (DB.scan_runs d));
  mret (page_of page page_size (sort_by (newest_first Run.created_at Run.id) rows), length rows).

(** api/v1/scheduler.py:186-202, scan_run_detail. *)
Definition scan_run_detail (run_id : uuid) (user : User) (organization_id : uuid)
    : txn DB ScanRun :=
  _ ← _require user organization_id Capability.SCHEDULE_READ;
  item ← gets (λ d, find_row (λ r, (Run.id r ≟ run_id)
                                   && (Run.organization_id r ≟ organization_id))
                      (DB.scan_runs d));
  some_or item (NotFoundError "scan_run_not_found").

(** * A tick of the scheduler *)

Section tick.
Context (now : timestamp) (dr : uuid → run_draws).
Implicit Types (s : ScanSchedule) (t : gmap uuid ScanRun).

(** Nobody is accountable for the schedule any more. *)
Definition orphan (d : DB) (s : ScanSchedule) : bool :=
  from_option (λ i, is_none_ (DB.users d !! i)) true (Sched.created_by_user_id s).
Definition blocked (t : gmap uuid ScanRun) (s : ScanSchedule) : bool :=
  is_some_ (find_row (λ r, active_run r && (Run.aws_account_id r ≟ Sched.aws_account_id s)) t).

(** The run of a schedule, and its job. *)
Definition scan_of (s : ScanSchedule) : ScanRun :=
  Run.mk (new_run (dr (Sched.id s))) (Sched.organization_id s) (Sched.aws_account_id s)
    (Some (Sched.id s)) ScanRunTrigger.SCHEDULED ScanRunStatus.PENDING None None None None None now.
Definition scan_payload (s : ScanSchedule) : pydict :=
  [("scan_run_id", PStr (uuid_str (Run.id (scan_of s))));
   ("actor_user_id", PStr (uuid_str (default 0%N (Sched.created_by_user_id s))));
   ("schedule_id", PStr (uuid_str (Sched.id s)))].
Definition scan_job (s : ScanSchedule) : PlatformJob :=
  new_job (new_scan_job (dr (Sched.id s))) (new_correlation (dr (Sched.id s))) now
    (Sched.organization_id s) PlatformJobType.SCHEDULED_SCAN (Run.id (scan_of s))
    (run_key now (scan_of s) s ScanRunTrigger.SCHEDULED) (scan_payload s) None 0 3 None None.

(** The schedules of the batch whose scan starts, in order: the first of each
    account that has no active run. *)
Fixpoint starting (d : DB) (t : gmap uuid ScanRun) (due : list ScanSchedule)
    : list ScanSchedule :=
  match due with
  | [] => []
  | s :: due =>
      if orphan d s || blocked t s then starting d t due
      else s :: starting d (put (scan_of s) t) due
  end.

(** What becomes of a due schedule. *)
Definition postponed (s : ScanSchedule) : ScanSchedule :=
  s <| Sched.next_run_at := Some (now + minutes (Sched.interval_minutes s))%Z |>.
Definition advanced (s : ScanSchedule) : ScanSchedule :=
  s <| Sched.last_enqueued_at := Sched.next_run_at s |>
    <| Sched.next_run_at :=
         (λ x, x + minutes (Sched.interval_minutes s))%Z <$> Sched.next_run_at s |>.

Definition after_turn (d : DB) (s : ScanSchedule) : ScanSchedule :=
  if orphan d s then postponed s else if blocked (DB.scan_runs d) s then s else advanced s.
Definition started (d : DB) (s : ScanSchedule) : bool :=
  negb (orphan d s || blocked (DB.scan_runs d) s).

(** What is known of the rest of the batch. *)
Record pending (d : DB) (due : list ScanSchedule) : Prop := {
  pd_schedules : sound ScanSchedule d;
  pd_runs : sound ScanRun d;
  pd_jobs : sound PlatformJob d;
  pd_users : keyed (DB.users d);
  pd_nodup : NoDup (Sched.id <$> due);
  pd_rows s : s ∈ due → DB.scan_schedules d !! Sched.id s = Some s;
  pd_due s : s ∈ due → is_due now s = true;
  pd_ids s : s ∈ due → (Sched.id s < 2 ^ 128)%N;
  pd_run s : s ∈ due → DB.scan_runs d !! new_run (dr (Sched.id s)) = None;
  pd_job s : s ∈ due → DB.platform_jobs d !! new_scan_job (dr (Sched.id s)) = None;
  pd_free s k j : s ∈ due → DB.platform_jobs d !! k = Some j → job_conflict (scan_job s) j = false;
  pd_inj s s' : s ∈ due → s' ∈ due →
    new_run (dr (Sched.id s)) = new_run (dr (Sched.id s'))
    ∨ new_scan_job (dr (Sched.id s)) = new_scan_job (dr (Sched.id s')) → Sched.id s = Sched.id s'
}.

(** One turn of the loop. *)
Record turned (s : ScanSchedule) (d d' : DB) : Prop := {
  td_schedules : DB.scan_schedules d' = put (after_turn d s) (DB.scan_schedules d);
  td_runs : DB.scan_runs d' = (if started d s then put (scan_of s) else id) (DB.scan_runs d);
  td_jobs : DB.platform_jobs d'
            = (if started d s then put (scan_job s) else id) (DB.platform_jobs d);
  td_users : DB.users d' = DB.users d
}.

Lemma scan_payload_ids s : id_payload (scan_payload s).
Proof.
  split; [apply (bool_decide_unpack _); reflexivity| |]; repeat constructor; cbn; try lia; eauto.
Qed.

(** The keys of the jobs of different schedules differ. *)
Lemma scan_key_inj s s' :
  (Sched.id s < 2 ^ 128)%N → (Sched.id s' < 2 ^ 128)%N →
  Job.idempotency_key (scan_job s) = Job.idempotency_key (scan_job s') → Sched.id s = Sched.id s'.
Proof.
  intros Hs Hs' E. set (rest s := ":" +:+ isoformat "T" (default now (Sched.next_run_at s))).
  assert (str_take 151 (uuid_str (Sched.id s) +:+ rest s)
    = str_take 151 (uuid_str (Sched.id s') +:+ rest s')) as E' by exact (f_equal (str_drop 9) E).
  apply uuid_str_inj; [done..|]. eapply (str_take_app_inj 151), E'; rewrite !uuid_str_length; lia.
Qed.

Lemma blocked_unique t s :
  keyed t → t !! new_run (dr (Sched.id s)) = None →
  unique_ok true run_conflict (scan_of s) t = negb (blocked t s).
Proof.
  intros Hk Hn. apply eq_true_iff_eq. rewrite unique_ok_true, negb_true_iff. unfold blocked.
  destruct (find_row _ t) as [r|] eqn:E; cbn.
  - split; [|done]. intros [_ Hu]. apply find_row_Some in E as (k & Hr & Ha). bools.
    exfalso. assert (row_id r ≠ row_id (scan_of s)) as Hne.
    { rewrite (Hk _ _ Hr). intros ->. cbn in Hr. congruence. }
    specialize (Hu k r Hr Hne). unfold run_conflict in Hu. cbn in Hu. rewrite H in Hu. cbn in Hu.
    by rewrite bool_decide_eq_true_2 in Hu.
  - split; [done|]. intros _. split; [done|]. intros k r Hr _. rewrite find_row_None in E.
    specialize (E k r Hr). unfold run_conflict. cbn.
    destruct (active_run r); [|done]. cbn in E |- *. apply bool_decide_eq_false in E.
    by apply bool_decide_eq_false_2.
Qed.

Lemma scan_jobs_apart s s' due d :
  pending d due → s ∈ due → s' ∈ due → Sched.id s ≠ Sched.id s' →
  job_conflict (scan_job s) (scan_job s') = false.
Proof.
  intros Hp Hs Hs' Hne. apply not_true_is_false. unfold job_conflict. rewrite orb_true_iff.
  intros [H|H].
  - apply Hne, scan_key_inj; [by eapply pd_ids..|]. unfold same_key in H. by bools.
  - apply Hne, (pd_inj _ _ Hp); [done..|]. left. unfold same_reference in H. by bools.
Qed.

Lemma after_turn_id d s : Sched.id (after_turn d s) = Sched.id s.
Proof. unfold after_turn. by destruct (orphan d s), (blocked (DB.scan_runs d) s). Qed.

Lemma pending_turned s due d d' :
  pending d (s :: due) → turned s d d' →
  sound ScanSchedule d' → sound ScanRun d' → sound PlatformJob d' → pending d' due.
Proof.
  intros Hp [Es Er Ej Eu] H1 H2 H3. pose proof (pd_nodup _ _ Hp) as Hnd.
  rewrite fmap_cons, NoDup_cons in Hnd. destruct Hnd as [Hs Hnd].
  assert (∀ s', s' ∈ due → Sched.id s' ≠ Sched.id s) as Hne.
  { intros s' Hs' E. apply Hs. rewrite <-E. by apply list_elem_of_fmap_2. }
  assert (∀ s', s' ∈ due → s' ∈ s :: due) as Hin by (intros; by right).
  split; [done|done|done| |done| | | | | | |].
  - rewrite Eu. apply Hp.
  - intros s' Hs'. rewrite Es. unfold put. rewrite lookup_insert_ne; [apply (pd_rows _ _ Hp); auto|].
    change (Sched.id (after_turn d s) ≠ Sched.id s'). rewrite after_turn_id. by apply not_eq_sym, Hne.
  - intros s' Hs'. apply (pd_due _ _ Hp); auto.
  - intros s' Hs'. apply (pd_ids _ _ Hp); auto.
  - intros s' Hs'. rewrite Er. destruct (started d s); [|apply (pd_run _ _ Hp); auto].
    unfold put. rewrite lookup_insert_ne; [apply (pd_run _ _ Hp); auto|].
    intros E. apply (Hne s'); [done|]. apply (pd_inj _ _ Hp); [auto|by left|]. left. done.
  - intros s' Hs'. rewrite Ej. destruct (started d s); [|apply (pd_job _ _ Hp); auto].
    unfold put. rewrite lookup_insert_ne; [apply (pd_job _ _ Hp); auto|].
    intros E. apply (Hne s'); [done|]. apply (pd_inj _ _ Hp); [auto|by left|]. right. done.
  - intros s' k j Hs'. rewrite Ej. destruct (started d s); [|apply (pd_free _ _ Hp); auto].
    unfold put. rewrite lookup_insert. case_decide; [|apply (pd_free _ _ Hp); auto].
    intros [= <-]. eapply scan_jobs_apart; [exact Hp|auto|by left|auto].
  - intros s1 s2 H1' H2'. apply (pd_inj _ _ Hp); auto.
Qed.

Lemma due_next s d due : pending d due → s ∈ due →
  Sched.enabled s = true ∧ ∃ x, Sched.next_run_at s = Some x.
Proof.
  intros Hp Hs. pose proof (pd_due _ _ Hp s Hs) as H. unfold is_due in H.
  apply andb_true_iff in H as [He Hn]. split; [done|].
  destruct (Sched.next_run_at s) as [x|]; [eauto|done].
Qed.

Lemma wp_get_schedule o i s Q σ :
  keyed (DB.scan_schedules (working σ)) → DB.scan_schedules (working σ) !! i = Some s →
  Sched.organization_id s = o → Q (Ret s) σ → wp (_get_scoped o i) Q σ.
Proof.
  intros Hk Hs Ho HQ. unfold _get_scoped. apply wp_bind, wp_gets.
  rewrite (find_row_key (λ s, Sched.organization_id s ≟ o) _ i Hk
    : find_row (λ s, (Sched.id s ≟ i) && (Sched.organization_id s ≟ o)) _ = _).
  rewrite Hs. cbn. rewrite bool_decide_eq_true_2 by done.
  apply wp_some_or; [|done]. by intros ? [= <-].
Qed.

(** The postponement of an orphan, and the turn that puts work in the queue. *)
Lemma turned_orphan s d :
  orphan d s = true → turned s d (set_rows ScanSchedule (put (postponed s)) d).
Proof. intros Ho. split; unfold started, after_turn; by rewrite ?Ho. Qed.

Lemma turned_blocked s due d :
  pending d (s :: due) → orphan d s = false → blocked (DB.scan_runs d) s = true → turned s d d.
Proof.
  intros Hp Ho Hb. split; unfold started, after_turn; rewrite ?Ho, ?Hb; [|done..].
  unfold put. symmetry. apply insert_id, (pd_rows _ _ Hp). by left.
Qed.

Lemma wp_add_run s due Q σ :
  pending (working σ) (s :: due) →
  (blocked (DB.scan_runs (working σ)) s = true →
     Q (Raise (ConflictError "scan_run_already_active")) σ) →
  (blocked (DB.scan_runs (working σ)) s = false →
     sound ScanRun (set_rows ScanRun (put (scan_of s)) (working σ)) →
     Q (Ret (scan_of s)) (Sess (committed σ) (set_rows ScanRun (put (scan_of s)) (working σ)))) →
  wp (add_run now (new_run (dr (Sched.id s))) s ScanRunTrigger.SCHEDULED) Q σ.
Proof.
  intros Hp H1 H2. unfold add_run. change (Run.mk _ _ _ _ _ _ _ _ _ _ _ _) with (scan_of s).
  assert (unique_ok true conflict (scan_of s) (rows ScanRun (working σ))
    = negb (blocked (DB.scan_runs (working σ)) s)) as Hu.
  { apply blocked_unique; [apply (pd_runs _ _ Hp)|]. apply (pd_run _ _ Hp). by left. }
  apply wp_bind, wp_try, wp_begin_nested, wp_save.
  - intros _ Hok. rewrite Hu in Hok. apply negb_true_iff in Hok. apply wp_ret, H2; [done|].
    apply (sound_set _ true); [apply (pd_runs _ _ Hp)|done|]. by rewrite Hu, Hok.
  - intros Hno. rewrite Hu in Hno. apply wp_raise, H1. cbn in Hno.
    by apply negb_false_iff in Hno.
Qed.

Lemma scan_job_insertable s due d :
  pending d (s :: due) → unique_ok true conflict (scan_job s) (rows PlatformJob d) = true.
Proof.
  intros Hp. apply unique_ok_fresh; [apply (pd_job _ _ Hp); by left|].
  intros k j Hj. apply (pd_free _ _ Hp s k j); [by left|done].
Qed.

(** The job of the run enters the queue. *)
Lemma wp_enqueue_scan s due actor d0 Q σ :
  pending d0 (s :: due) → Sched.created_by_user_id s = Some (User.id actor) →
  DB.platform_jobs (working σ) = DB.platform_jobs d0 →
  (∀ f, Q (Ret (scan_job s, true)) (Sess (committed σ)
     ((set_rows PlatformJob (put (scan_job s)) (working σ)) <| DB.audit ::= f |>))) →
  wp (enqueue (new_scan_job (dr (Sched.id s))) (new_correlation (dr (Sched.id s))) now
        (Sched.organization_id s) PlatformJobType.SCHEDULED_SCAN (Run.id (scan_of s))
        (run_key now (scan_of s) s ScanRunTrigger.SCHEDULED)
        (Some (run_payload (scan_of s) s actor)) None 0 3 None None None) Q σ.
Proof.
  intros Hp Ha Ej HQ. apply wp_enqueue_new with (pl' := scan_payload s).
  - assert (run_payload (scan_of s) s actor = scan_payload s) as ->.
    { unfold scan_payload. by rewrite Ha. }
    apply id_payload_valid, scan_payload_ids.
  - reflexivity.
  - rewrite Ej. by eapply scan_job_insertable.
  - exact HQ.
Qed.

Lemma harmless_schedule s s' :
  Sched.id s' = Sched.id s → Sched.interval_minutes s' = Sched.interval_minutes s →
  schedule_checks s = true → harmless s s'.
Proof. intros Hi Hn Hc. split; [done| |done]. cbn. unfold schedule_checks. by rewrite Hn. Qed.

(** The turn that puts work in the queue. *)
Lemma turned_started s due d d' :
  pending d (s :: due) → orphan d s = false → blocked (DB.scan_runs d) s = false →
  sound ScanRun (set_rows ScanRun (put (scan_of s)) d) → sound ScanSchedule d' →
  DB.scan_schedules d' = put (advanced s) (DB.scan_schedules d) →
  DB.scan_runs d' = put (scan_of s) (DB.scan_runs d) →
  DB.platform_jobs d' = put (scan_job s) (DB.platform_jobs d) → DB.users d' = DB.users d →
  started d s = true ∧ turned s d d' ∧ pending d' due.
Proof.
  intros Hp Ho Hb Hr Hs E1 E2 E3 E4.
  assert (turned s d d') as Ht.
  { split; unfold started, after_turn; by rewrite ?Ho, ?Hb. }
  split; [unfold started; by rewrite Ho, Hb|]. split; [exact Ht|].
  eapply pending_turned; [exact Hp|exact Ht|exact Hs|by eapply (sound_rows ScanRun), Hr|].
  eapply (sound_rows PlatformJob), (sound_set (scan_job s) true);
    [exact E3|apply Hp|done|by eapply scan_job_insertable].
Qed.

(** Behind the lookup of the creator. *)
Lemma wp_run_live s due actor dc d Q :
  pending d (s :: due) → orphan d s = false → Sched.created_by_user_id s = Some (User.id actor) →
  (∀ d', turned s d d' → pending d' due →
     Q (Ret (if started d s then Some (scan_of s) else None)) (Sess dc d')) →
  wp (try_catch
        (run ← run_schedule now (dr (Sched.id s)) (Sched.organization_id s)
                 (Sched.id s) actor ScanRunTrigger.SCHEDULED false;
         occurrence ← some_or (Sched.next_run_at s) AssertionError;
         _ ← save false (s
               <| Sched.last_enqueued_at := Some occurrence |>
               <| Sched.next_run_at :=
                    Some (occurrence + minutes (Sched.interval_minutes s))%Z |>);
         mret (Some run))
        (λ e, match e with ConflictError _ => mret None | e => raise e end)) Q (Sess dc d).
Proof.
  intros Hp Ho Ha HQ. destruct (due_next s d _ Hp) as [He [x Hx]]; [by left|].
  assert (DB.scan_schedules d !! Sched.id s = Some s) as Hs by (apply (pd_rows _ _ Hp); by left).
  apply wp_try. unfold run_schedule.
  apply wp_bind, wp_bind, (wp_get_schedule _ _ s); [apply (pd_schedules _ _ Hp)|exact Hs|done|].
  cbn [bool_decide decide]. apply wp_bind, wp_ret.
  rewrite He. apply wp_bind, wp_ensure; [intros _|done].
  apply wp_bind, (wp_add_run s due); cbn [working committed]; [done|..].
  - intros Hb. apply wp_ret. pose proof (turned_blocked _ _ _ Hp Ho Hb) as Ht.
    assert (started d s = false) as E by (unfold started; by rewrite Ho, Hb). rewrite E in HQ.
    apply HQ; [done|]. eapply pending_turned; [exact Hp|exact Ht|apply Hp..].
  - intros Hb Hruns. apply wp_bind. apply (wp_enqueue_scan s due actor d); [done..|]. intros f.
    apply wp_bind. unfold audit_ok, record_audit. apply wp_modify. apply wp_bind, wp_ret, wp_ret.
    cbn beta iota. apply wp_bind. rewrite Hx. apply wp_some_or; [|done]. intros ? [= <-].
    assert (s <| Sched.last_enqueued_at := Some x |>
      <| Sched.next_run_at := Some (x + minutes (Sched.interval_minutes s))%Z |> = advanced s)
      as -> by (unfold advanced; by rewrite Hx).
    apply wp_bind, (wp_update s); [|exact Hs| |].
    + eapply (sound_rows ScanSchedule d); [done|apply Hp].
    + apply harmless_schedule; [done..|].
      apply (tk_rows _ _ _ _ (pd_schedules _ _ Hp) _ _ Hs).
    + intros Hsched. apply wp_ret. cbn beta iota.
      destruct (turned_started s due d _ Hp Ho Hb Hruns Hsched) as (E & Ht & Hp'); [done..|].
      rewrite E in HQ. by apply HQ.
Qed.

Lemma wp_run_due s due dc d Q :
  pending d (s :: due) →
  (∀ d', turned s d d' → pending d' due →
     Q (Ret (if started d s then Some (scan_of s) else None)) (Sess dc d')) →
  wp (run_due now dr s) Q (Sess dc d).
Proof.
  intros Hp HQ.
  assert (DB.scan_schedules d !! Sched.id s = Some s) as Hs by (apply (pd_rows _ _ Hp); by left).
  pose proof (tk_rows _ _ _ _ (pd_schedules _ _ Hp) _ _ Hs) as Hc.
  unfold run_due. apply wp_bind. destruct (orphan d s) eqn:Ho.
  - assert (∀ (R : outcome (option User) → sess DB → Prop), R (Ret None) (Sess dc d) →
      wp (match Sched.created_by_user_id s with
          | Some i => gets (λ d, DB.users d !! i) | None => mret None end) R (Sess dc d)) as Hn.
    { intros R HR. unfold orphan in Ho. destruct (Sched.created_by_user_id s) as [i|]; [|done].
      apply wp_gets. cbn in *. destruct (DB.users d !! i); [done|exact HR]. }
    apply Hn. apply wp_bind, (wp_update s); [apply Hp|exact Hs|by apply harmless_schedule|].
    intros Hsound. apply wp_ret. pose proof (turned_orphan _ _ Ho) as Ht.
    assert (started d s = false) as E by (unfold started; by rewrite Ho). rewrite E in HQ.
    apply HQ; [done|]. eapply pending_turned; [exact Hp|exact Ht|done|..];
      apply sound_apart, Hp.
  - pose proof Ho as Ho'. unfold orphan in Ho. destruct (Sched.created_by_user_id s) as [i|] eqn:Ei; [|done].
    apply wp_gets. cbn in *. destruct (DB.users d !! i) as [actor|] eqn:Ea; [|done].
    pose proof (pd_users _ _ Hp _ _ Ea) as Hi. cbn in Hi. subst i.
    by eapply wp_run_live.
Qed.

(** ** The loop *)

Lemma blocked_mono t t' s : t ⊆ t' → blocked t s = true → blocked t' s = true.
Proof.
  intros Hsub. unfold blocked. destruct (find_row _ t) as [r|] eqn:E; [intros _|done].
  apply find_row_Some in E as (k & Hk & Hr). destruct (find_row _ t') as [|] eqn:E'; [done|].
  rewrite find_row_None in E'. specialize (E' k r (lookup_weaken _ _ _ _ Hk Hsub)). congruence.
Qed.

Lemma blocked_own t s s' :
  Sched.aws_account_id s = Sched.aws_account_id s' → blocked (put (scan_of s) t) s' = true.
Proof.
  intros Ha. unfold blocked. destruct (find_row _ _) as [|] eqn:E; [done|].
  rewrite find_row_None in E.
  specialize (E _ (scan_of s) (lookup_insert_eq t _ _)). cbn in E.
  by rewrite bool_decide_eq_true_2 in E.
Qed.

(** After the turns of a batch. *)
Record ticked (due : list ScanSchedule) (d d' : DB) : Prop := {
  tc_schedules : sound ScanSchedule d';
  tc_runs : sound ScanRun d';
  tc_jobs : sound PlatformJob d';
  tc_others k : k ∉ Sched.id <$> due → DB.scan_schedules d' !! k = DB.scan_schedules d !! k;
  tc_postponed s : s ∈ due → orphan d s = true →
    DB.scan_schedules d' !! Sched.id s = Some (postponed s);
  tc_started s : s ∈ starting d (DB.scan_runs d) due →
    DB.scan_schedules d' !! Sched.id s = Some (advanced s);
  tc_waiting s : s ∈ due → orphan d s = false → s ∉ starting d (DB.scan_runs d) due →
    DB.scan_schedules d' !! Sched.id s = Some s;
  tc_served s : s ∈ due → orphan d s = false → blocked (DB.scan_runs d') s = true;
  tc_new_runs : DB.scan_runs d' = puts (map scan_of (starting d (DB.scan_runs d) due)) (DB.scan_runs d);
  tc_new_jobs : DB.platform_jobs d'
    = puts (map scan_job (starting d (DB.scan_runs d) due)) (DB.platform_jobs d);
  tc_kept : DB.scan_runs d ⊆ DB.scan_runs d';
  tc_free s : s ∈ starting d (DB.scan_runs d) due → blocked (DB.scan_runs d) s = false;
  tc_one_each : NoDup (Sched.aws_account_id <$> starting d (DB.scan_runs d) due)
}.

Lemma starting_ext d d' t due : DB.users d' = DB.users d → starting d' t due = starting d t due.
Proof.
  intros E. revert t. induction due as [|s due IH]; intros t; [done|]. cbn [starting].
  assert (orphan d' s = orphan d s) as -> by (unfold orphan; by rewrite E).
  by rewrite !IH.
Qed.

Lemma starting_sub d t due s : s ∈ starting d t due → s ∈ due ∧ orphan d s = false.
Proof.
  revert t. induction due as [|s' due IH]; intros t; cbn [starting]; [by intros ?%not_elem_of_nil|].
  assert (∀ t, s ∈ starting d t due → s ∈ s' :: due ∧ orphan d s = false) as IH'.
  { intros t' H. destruct (IH _ H). split; [by right|done]. }
  destruct (orphan d s') eqn:Eo; cbn [orb]; [apply IH'|].
  destruct (blocked t s'); [apply IH'|].
  intros [->|H]%elem_of_cons; [by split; [left|]|by eapply IH'].
Qed.

Lemma ticked_nil d :
  sound ScanSchedule d → sound ScanRun d → sound PlatformJob d → ticked [] d d.
Proof. split; try done; try (intros s Hs; by apply not_elem_of_nil in Hs). constructor. Qed.

Lemma starting_turn s due d d' :
  turned s d d' →
  starting d (DB.scan_runs d) (s :: due)
  = if started d s then s :: starting d' (DB.scan_runs d') due
    else starting d' (DB.scan_runs d') due.
Proof.
  intros [_ Er _ Eu]. cbn [starting]. rewrite Er, !(starting_ext d d') by done. unfold started.
  by destruct (orphan d s || blocked (DB.scan_runs d) s).
Qed.

Lemma ticked_cons s due d d1 d2 :
  pending d (s :: due) → turned s d d1 → ticked due d1 d2 → ticked (s :: due) d d2.
Proof.
  intros Hp Ht Hd. pose proof (starting_turn _ due _ _ Ht) as Ego.
  pose proof (pd_nodup _ _ Hp) as Hnd. rewrite fmap_cons, NoDup_cons in Hnd. destruct Hnd as [Hs Hnd].
  destruct Ht as [Es Er Ej Eu].
  assert (∀ s', orphan d1 s' = orphan d s') as Eo by (intros; unfold orphan; by rewrite Eu).
  assert (DB.scan_schedules d2 !! Sched.id s = Some (after_turn d s)) as Hown.
  { rewrite (tc_others _ _ _ Hd) by done. rewrite Es. unfold put.
    rewrite <-(after_turn_id d s). apply lookup_insert_eq. }
  assert (DB.scan_runs d ⊆ DB.scan_runs d1) as Hsub.
  { rewrite Er. destruct (started d s); [|done]. apply insert_subseteq, (pd_run _ _ Hp). by left. }
  assert (∀ s', s' ∈ due → Sched.id s' ≠ Sched.id s) as Hne.
  { intros s' Hs' E. apply Hs. rewrite <-E. by apply list_elem_of_fmap_2. }
  assert (∀ s', s' ∈ starting d1 (DB.scan_runs d1) due → s' ∈ due) as Hgo.
  { intros s' H. by apply starting_sub in H as [? _]. }
  split; try apply Hd.
  - intros k. rewrite fmap_cons, not_elem_of_cons. intros [Hk Hk'].
    rewrite (tc_others _ _ _ Hd), Es by done. apply lookup_insert_ne.
    change (Sched.id (after_turn d s) ≠ k). rewrite after_turn_id. by apply not_eq_sym.
  - intros s' [->|Hs']%elem_of_cons Ho; [|apply (tc_postponed _ _ _ Hd); [done|by rewrite Eo]].
    rewrite Hown. unfold after_turn. by rewrite Ho.
  - intros s'. rewrite Ego. intros H. destruct (started d s) eqn:E; [|by apply (tc_started _ _ _ Hd)].
    apply elem_of_cons in H as [->|H]; [|by apply (tc_started _ _ _ Hd)].
    rewrite Hown. unfold after_turn, started in *.
    by destruct (orphan d s), (blocked (DB.scan_runs d) s).
  - intros s' [->|Hs']%elem_of_cons Ho Hn; rewrite Ego in Hn.
    + rewrite Hown. unfold after_turn. rewrite Ho. unfold started in Hn. rewrite Ho in Hn.
      destruct (blocked (DB.scan_runs d) s); [done|]. cbn in Hn. set_solver.
    + apply (tc_waiting _ _ _ Hd); [done|by rewrite Eo|]. destruct (started d s); set_solver.
  - intros s' [->|Hs']%elem_of_cons Ho; [|apply (tc_served _ _ _ Hd); [done|by rewrite Eo]].
    apply (blocked_mono (DB.scan_runs d1)); [apply Hd|]. rewrite Er. unfold started. rewrite Ho.
    destruct (blocked (DB.scan_runs d) s) eqn:E; [exact E|by apply blocked_own].
  - rewrite (tc_new_runs _ _ _ Hd), Ego, Er. by destruct (started d s).
  - rewrite (tc_new_jobs _ _ _ Hd), Ego, Ej. by destruct (started d s).
  - etrans; [exact Hsub|apply Hd].
  - intros s'. rewrite Ego. intros H.
    assert (s' ∈ starting d1 (DB.scan_runs d1) due → blocked (DB.scan_runs d) s' = false) as Hf.
    { intros H'. apply not_true_is_false. intros E. apply (blocked_mono _ _ _ Hsub) in E.
      by rewrite (tc_free _ _ _ Hd) in E. }
    destruct (started d s) eqn:E; [|by apply Hf]. apply elem_of_cons in H as [->|H]; [|by apply Hf].
    unfold started in E. by destruct (orphan d s), (blocked (DB.scan_runs d) s).
  - rewrite Ego. destruct (started d s) eqn:E; [|apply Hd]. rewrite fmap_cons, NoDup_cons.
    split; [|apply Hd]. intros (s' & Ea & H)%list_elem_of_fmap.
    pose proof (tc_free _ _ _ Hd s' H) as Hb. rewrite Er in Hb. by rewrite blocked_own in Hb.
Qed.

Lemma wp_run_all_due due dc d Q :
  pending d due →
  (∀ d', ticked due d d' →
     Q (Ret (map scan_of (starting d (DB.scan_runs d) due))) (Sess dc d')) →
  wp (run_all_due now dr due) Q (Sess dc d).
Proof.
  revert d Q. induction due as [|s due IH]; intros d Q Hp HQ.
  { apply wp_ret, HQ, ticked_nil; apply Hp. }
  cbn [run_all_due]. apply wp_bind, (wp_run_due s due); [done|]. intros d1 Ht Hp1.
  apply wp_bind, IH; [done|]. intros d2 Hd. apply wp_ret.
  pose proof (ticked_cons _ _ _ _ _ Hp Ht Hd) as Hd2. specialize (HQ _ Hd2).
  rewrite (starting_turn _ due _ _ Ht) in HQ. by destruct (started d s).
Qed.

(** ** The batch *)

(** What a tick is taken to start from: well-formed tables, 128-bit identifiers,
    fresh draws, and no job yet for a due occurrence. *)
Record tick_ready (d : DB) : Prop := {
  tr_schedules : sound ScanSchedule d;
  tr_runs : sound ScanRun d;
  tr_jobs : sound PlatformJob d;
  tr_users : keyed (DB.users d);
  tr_ids k s : DB.scan_schedules d !! k = Some s → (k < 2 ^ 128)%N;
  tr_new_run k : DB.scan_runs d !! new_run (dr k) = None;
  tr_new_job k : DB.platform_jobs d !! new_scan_job (dr k) = None;
  tr_inj k k' : new_run (dr k) = new_run (dr k') ∨ new_scan_job (dr k) = new_scan_job (dr k') → k = k';
  tr_refs k k' j : DB.platform_jobs d !! k = Some j → Job.reference_id j ≠ new_run (dr k');
  tr_keys k j s : DB.platform_jobs d !! k = Some j → is_due now s = true →
    same_key (scan_job s) j = false
}.

Lemma due_schedules_elem n d s :
  s ∈ due_schedules now n d → ∃ k, DB.scan_schedules d !! k = Some s ∧ is_due now s = true.
Proof.
  intros H%(subseteq_take n). unfold due_schedules in H. rewrite sort_by_perm in H.
  by apply elem_of_filter_rows in H as [? [k ?]]; eauto.
Qed.

Lemma batch_pending n d : tick_ready d → pending d (due_schedules now n d).
Proof.
  intros Hr. assert (∀ s, s ∈ due_schedules now n d →
    DB.scan_schedules d !! Sched.id s = Some s ∧ is_due now s = true) as Hin.
  { intros s (k & Hk & Hd)%due_schedules_elem. split; [|done].
    pose proof (tk_keyed _ _ _ _ (tr_schedules _ Hr) _ _ Hk) as E. by subst k. }
  split; try apply Hr.
  - apply (sublist_NoDup _ (Sched.id <$> sort_by due_before
      (filter_rows (is_due now) (DB.scan_schedules d)))).
    + rewrite sort_by_perm. apply (filter_rows_ids (is_due now)), (tr_schedules _ Hr).
    + apply fmap_sublist, sublist_take.
  - intros s Hs. by apply Hin.
  - intros s Hs. by apply Hin.
  - intros s Hs. apply (tr_ids _ Hr _ s). by apply Hin.
  - intros s Hs. apply (tr_new_run _ Hr).
  - intros s Hs. apply (tr_new_job _ Hr).
  - intros s k j Hs Hj. unfold job_conflict.
    rewrite (tr_keys _ Hr k j s) by (done || by apply Hin). cbn [orb]. unfold same_reference.
    pose proof (tr_refs _ Hr k (Sched.id s) j Hj) as Hne. cbn.
    rewrite (bool_decide_eq_false_2 (new_run _ = _)) by (by apply not_eq_sym).
    by rewrite !andb_false_r.
  - intros s s' _ _. apply (tr_inj _ Hr).
Qed.
End tick.

(** C21. A tick of the scheduler.  On well-formed tables and with fresh draws the
    tick returns the runs it recorded.  Of the schedules in the batch, the first
    of each account without an active scan is started: a pending run and an
    available job that names it are added, and the schedule moves on by exactly
    its interval.  One whose creator is gone is postponed by its interval from
    now; one whose account is busy is left as it is, to be tried again.  Every
    schedule of the batch with a creator has an active scan afterwards, no
    account gets two, and all else of the three tables is as it was. *)
Theorem tick_starts_what_is_due now dr n d :
  tick_ready now dr d →
  let due := due_schedules now n d in
  ∃ d', run (run_due_schedules now dr n) d
        = (Ret (map (scan_of now dr) (starting now dr d (DB.scan_runs d) due)), d')
  ∧ ticked now dr due d d'.
Proof.
  intros Hr due. pose proof (batch_pending now dr n d Hr) as Hp.
  apply run_exists. unfold run_due_schedules. apply wp_bind, wp_gets. cbn [working].
  apply wp_bind, wp_run_all_due; [done|]. intros d' Ht. by apply wp_bind, wp_commit, wp_ret.
Qed.

(** * Witness *)

(** Two schedules of one account, and one whose creator is gone. *)
Definition nightly (i account : uuid) (creator : option uuid) : ScanSchedule :=
  Sched.mk i 1 account "nightly" 60 true creator None None (Some 100%Z) 0.
Definition schedules_lab : DB :=
  acme <| DB.users := {[10%N := alice]} |>
       <| DB.scan_schedules :=
            {[40%N := nightly 40 20 (Some 10%N); 41%N := nightly 41 20 (Some 10%N);
              42%N := nightly 42 21 None]} |>.
Definition tick_draws (k : uuid) : run_draws := mk_run_draws (1000 + k) (2000 + k) (3000 + k).

Lemma schedules_lab_ready : tick_ready 200 tick_draws schedules_lab.
Proof.
  split; try (apply sound_tested; vm_compute; reflexivity).
  - intros k u Hu. cbn in Hu. by apply lookup_singleton_Some in Hu as [<- <-].
  - intros k s. cbn. rewrite !lookup_insert_Some, lookup_singleton_Some.
    intros [[<- _]|[_ [[<- _]|[_ [<- _]]]]]; lia.
  - intros k. apply lookup_empty.
  - intros k. apply lookup_empty.
  - intros k k' [E|E]; cbn in E; lia.
  - intros k k' j Hj. exfalso. exact (lookup_empty_Some k j Hj).
  - intros k j s Hj. exfalso. exact (lookup_empty_Some k j Hj).
Qed.

Lemma tick_starts_what_is_due_witness :
  ∃ d', run (run_due_schedules 200 tick_draws 100) schedules_lab
        = (Ret [scan_of 200 tick_draws (nightly 40 20 (Some 10%N))], d')
  ∧ DB.scan_schedules d' !! 41%N = Some (nightly 41 20 (Some 10%N))
  ∧ DB.scan_schedules d' !! 42%N = Some (postponed 200 (nightly 42 21 None)).
Proof.
  destruct (tick_starts_what_is_due 200 tick_draws 100 schedules_lab schedules_lab_ready)
    as (d' & E & Ht).
  assert (due_schedules 200 100 schedules_lab
    = [nightly 40 20 (Some 10%N); nightly 41 20 (Some 10%N); nightly 42 21 None]) as Edue
    by (vm_compute; reflexivity).
  cbv zeta in E, Ht. rewrite Edue in E, Ht. exists d'. split; [exact E|]. split.
  - apply (tc_waiting _ _ _ _ _ Ht (nightly 41 20 (Some 10%N))); [right; left|reflexivity|].
    intros H%list_elem_of_singleton. discriminate H.
  - apply (tc_postponed _ _ _ _ _ Ht (nightly 42 21 None)); [right; right; left|reflexivity].
Defined.
