(* ===== verification/Worker.v ===== *)
(** worker/job_worker.py, worker/scheduler_worker.py and api/v1/platform_jobs.py:
    the process that takes jobs from the queue and calls the services.

    The lease of a job is fenced: what other processes do while a handler runs
    is a parameter, [meanwhile], and the outcome is only recorded when the lease
    is still held.  A flush that failed leaves the session unusable until a
    rollback, so an [IntegrityError] that leaves a handler cannot be recorded. *)

From S2P Require Import Prelude.
From S2P Require Import History.
From S2P Require Import Enums.
From S2P Require Import Rbac.
From S2P Require Import PyValue.
From S2P Require Import Models.
From S2P Require Import Tables.
From S2P Require Import Common.
From S2P Require Import Sha256.
From S2P Require Import Organizations.
From S2P Require Import Evidence.
From S2P Require Import PlatformJobs.
From S2P Require Import SecurityRules.
From S2P Require Import Calendar.
From S2P Require Import Notifications.
From S2P Require Import Evaluations.
From S2P Require Import RemediationActions.
From S2P Require Import AwsExecutor.
From S2P Require Import Remediation.
From S2P Require Import Discovery.
From S2P Require Import Uuids.
From S2P Require Import Scheduler.
From stdpp Require Import list.

(** * Payloads *)

(** worker/job_worker.py:478-482, _uuid_value. *)
Definition _uuid_value (payload : pydict) (key : string) : res uuid :=
  let invalid := inr (AppError "invalid_job_payload" 409) in
  match dget key payload with
  | None => invalid
  | Some v => match new_UUID (py_str v) with
              | inl i => inl i
              | inr _ => invalid
              end
  end.

(** worker/job_worker.py:485-487, _optional_uuid. *)
Definition _optional_uuid (payload : pydict) (key : string) : res (option uuid) :=
  match dget key payload with
  | None | Some PNone => inl None
  | Some _ => i ← _uuid_value payload key; mret (Some i)
  end.

Definition payload_of (job : PlatformJob) : pydict :=
  match Job.payload_json job with PDict d => d | _ => [] end.

(** worker/job_worker.py:302-306, part of JobWorker._scheduled_scan. *)
Definition discovery_payload (run : ScanRun) (actor_id : uuid) : pydict :=
  [("account_id", PStr (uuid_str (Run.aws_account_id run)));
   ("actor_user_id", PStr (uuid_str actor_id));
   ("scan_run_id", PStr (uuid_str (Run.id run)))].

(** worker/job_worker.py:326-331, part of JobWorker._discovery. *)
Definition evaluation_payload (account_id actor_id discovery_id run_id : uuid) : pydict :=
  [("account_id", PStr (uuid_str account_id));
   ("actor_user_id", PStr (uuid_str actor_id));
   ("discovery_job_id", PStr (uuid_str discovery_id));
   ("scan_run_id", PStr (uuid_str run_id))].

(** worker/job_worker.py:422-425, part of JobWorker._remediation. *)
Definition rediscovery_payload (account_id actor_id : uuid) : pydict :=
  [("aws_account_id", PStr (uuid_str account_id));
   ("actor_user_id", PStr (uuid_str actor_id))].

(** * The worker *)

(** The code of an application error. *)
Definition exn_code (e : exn) : string :=
  match e with
  | AppError c _ | AuthenticationError c | ForbiddenError c | NotFoundError c | ConflictError c
  | RateLimitError c _ _ _ => c
  | _ => ""
  end.

(** What other processes commit; the session sees it from then on. *)
Definition interfere (f : DB → DB) : txn DB () :=
  λ s, (Ret tt, Sess (f (committed s)) (f (working s))).
(** The outcome of a call, returned or raised. *)
Definition attempt {A} (m : txn DB A) : txn DB (A + exn) :=
  try_catch (a ← m; mret (inl a)) (λ e, mret (inr e)).

(** worker/job_worker.py:40-44, RetryableJobError. *)
Record RetryableJobError := mk_RetryableJobError {
  retry_code : string;
  retry_summary : string;
  retry_after : option Z
}.

(** What a handler returns: a reference to its result, or that it wants to run
    again, which it says by raising [RetryableJobError] at its end. *)
Abbreviation handled := (option string + RetryableJobError)%type.

(** The clock of a step of the worker and the token of its lease. *)
Record step_draws := mk_step_draws {
  wd_token : uuid;
  wd_acquire : timestamp; wd_start : timestamp; wd_heartbeat : timestamp; wd_end : timestamp
}.

Section process.
(** The worker, and the texts of errors. *)
Context (worker_id : string) (job_lease_seconds : Z) (message : exn → string).

(** worker/job_worker.py:453-475, JobWorker._finish_scan_run_if_terminal. *)
Definition _finish_scan_run_if_terminal (now : timestamp) (source_job terminal_job : PlatformJob)
    : txn DB () :=
  if negb (bool_decide (Job.status terminal_job ∈
             [PlatformJobStatus.FAILED; PlatformJobStatus.DEAD_LETTERED]))
  then mret tt
  else
    run_id ← of_res (_optional_uuid (payload_of source_job) "scan_run_id");
    match run_id with
    | None => mret tt
    | Some run_id =>
        run ← gets (λ d, find_row (λ r, (Run.id r ≟ run_id)
                  && (Run.organization_id r ≟ Job.organization_id source_job)) (DB.scan_runs d));
        match run with
        | Some run =>
            if active_run run then
              _ ← save false (run <| Run.status := ScanRunStatus.FAILED |>
                                  <| Run.finished_at := Some now |>
                                  <| Run.error_summary := Job.last_error_code terminal_job |>);
              commit
            else mret tt
        | None => mret tt
        end
    end.

(** worker/job_worker.py:193-231, JobWorker._record_failure. *)
Definition _record_failure (now : timestamp) (job : PlatformJob) (lease_token : uuid)
    (error_code error_summary : string) (retryable : bool) (retry_after_seconds : option Z)
    : txn DB () :=
  terminal ← attempt (fail now (Job.id job) lease_token error_code error_summary retryable
                        retry_after_seconds);
  match terminal with
  | inl terminal => _finish_scan_run_if_terminal now job terminal
  | inr (ConflictError _) => mret tt
  | inr e => raise e
  end.

(** worker/job_worker.py:101-154, part of JobWorker.process_one.  What is recorded
    of the outcome of the handler. *)
Definition record_outcome (now : timestamp) (job : PlatformJob) (token : uuid)
    (result : handled + exn) : txn DB () :=
  match result with
  | inl (inl reference) =>
      try_catch (_ ← succeed now (Job.id job) token reference; mret tt)
        (λ e, match e with ConflictError _ => mret tt | e => raise e end)
  | inl (inr r) =>
      _record_failure now job token (retry_code r) (retry_summary r) true (retry_after r)
  | inr IntegrityError => raise OtherException
  | inr e =>
      if is_app_error e
      then _record_failure now job token (exn_code e) (message e) false None
      else _record_failure now job token "worker_unexpected_error"
             "The job failed because of an unexpected internal error." true None
  end.

(** worker/job_worker.py:59-154, JobWorker.process_one. *)
Definition process_one (dispatch : PlatformJob → txn DB handled) (meanwhile : DB → DB)
    (dr : step_draws) : txn DB bool :=
  job ← acquire (wd_token dr) worker_id job_lease_seconds (wd_acquire dr);
  match job with
  | None => mret false
  | Some job =>
      token ← some_or (Job.lease_token job) AssertionError;
      _ ← PlatformJobs.start (wd_start dr) (Job.id job) token;
      job ← heartbeat (wd_heartbeat dr) (Job.id job) token job_lease_seconds;
      result ← attempt (dispatch job);
      _ ← interfere meanwhile;
      _ ← record_outcome (wd_end dr) job token result;
      mret true
  end.

(** worker/job_worker.py:233-262, JobWorker._heartbeat_lease.  The beats of the thread
    up to the one that fails or is stopped, each in a session of its own; whether
    the last succeeded. *)
Fixpoint _heartbeat_lease (beats : list timestamp) (job_id lease_token : uuid) : txn DB bool :=
  match beats with
  | [] => mret true
  | now :: beats =>
      r ← attempt (heartbeat now job_id lease_token job_lease_seconds);
      match r with
      | inl _ => _heartbeat_lease beats job_id lease_token
      | inr _ => _ ← rollback; mret false
      end
  end.

(** worker/job_worker.py:156-166, JobWorker.run_forever.  Until it is stopped, after
    the steps of [drs]; how many found a job. *)
Fixpoint run_forever (dispatch : step_draws → PlatformJob → txn DB handled)
    (meanwhile : DB → DB) (drs : list step_draws) (d : DB) : Prelude.outcome nat * DB :=
  match drs with
  | [] => (Ret 0, d)
  | dr :: drs =>
      match run (process_one (dispatch dr) meanwhile dr) d with
      | (Raise e, d) => (Raise e, d)
      | (Ret found, d) =>
          match run_forever dispatch meanwhile drs d with
          | (Ret n, d) => (Ret ((if found : bool then 1 else 0) + n), d)
          | r => r
          end
      end
  end.
End process.

(** worker/scheduler_worker.py:22-41, tick. *)
Definition tick (now : timestamp) (dr : uuid → run_draws) (scheduler_batch_size : nat)
    : txn DB nat :=
  runs ← run_due_schedules now dr scheduler_batch_size; mret (length runs).

(** * The handlers *)

(** What a handler draws. *)
Record worker_draws := mk_worker_draws {
  wd_now : timestamp;
  wd_child : uuid; wd_correlation : uuid;
  wd_discovery : uuid; wd_discovery_draws : discovery_draws;
  wd_evaluation : uuid; wd_evaluation_draws : Evaluations.draws; wd_times : times;
  wd_attempt : uuid
}.

(** worker/job_worker.py:432-439, JobWorker._actor. *)
Definition _actor (actor_id : uuid) : txn DB User :=
  actor ← gets (λ d, DB.users d !! actor_id);
  some_or actor (NotFoundError "job_actor_not_found").

(** worker/job_worker.py:441-451, JobWorker._scan_run. *)
Definition _scan_run (organization_id run_id : uuid) : txn DB ScanRun :=
  run ← gets (λ d, find_row (λ r, (Run.id r ≟ run_id)
                                  && (Run.organization_id r ≟ organization_id))
                     (DB.scan_runs d));
  some_or run (NotFoundError "scan_run_not_found").

(** worker/job_worker.py:281-311, JobWorker._scheduled_scan. *)
Definition _scheduled_scan (dr : worker_draws) (job : PlatformJob) : txn DB handled :=
  run_id ← of_res (_uuid_value (payload_of job) "scan_run_id");
  actor_id ← of_res (_uuid_value (payload_of job) "actor_user_id");
  run ← gets (λ d, find_row (λ r, (Run.id r ≟ run_id)
                                  && (Run.organization_id r ≟ Job.organization_id job)
                                  && (Run.status r ≟ ScanRunStatus.PENDING)) (DB.scan_runs d));
  run ← some_or run (ConflictError "scan_run_not_pending");
  let run := run <| Run.status := ScanRunStatus.RUNNING |>
                 <| Run.started_at := Some (wd_now dr) |> in
  _ ← save false run;
  jc ← enqueue (wd_child dr) (wd_correlation dr) (wd_now dr) (Job.organization_id job)
         PlatformJobType.DISCOVERY (Run.aws_account_id run)
         ("scan-discovery:" +:+ uuid_str (Run.id run))
         (Some (discovery_payload run actor_id)) None 0 3 (Some (Job.correlation_id job))
         (Some (Job.id job)) None;
  _ ← commit;
  mret (inl (Some (uuid_str (Job.id jc.1)))).

Section worker.
(** The services that the handlers call, with what they are built from. *)
Context {F : Type} (services : list (DiscoveryCollector F)) (regions : list string)
        (client_factory : option F) (assumed : AWSAccount → F + fault).
Context (registry : RuleRegistry).
Context {P : Type} `{NotificationProvider P} (provider : P) (frontend_url : string).
Context {E L : Type} `{RemediationExecutor E, RemediationExecutor L}
        (settings : Remediation.Settings) (action_registry : RemediationActionRegistry)
        (executor : E) (live_executor_factory : Remediation.Settings → L).

(** worker/job_worker.py:319-336, part of JobWorker._discovery.  The evaluation
    that follows when the discovery belongs to a scan. *)
Definition chain_evaluation (dr : worker_draws) (job : PlatformJob) (account_id : uuid)
    (actor : User) (discovered : DiscoveryJob) (run : ScanRun) : txn DB PlatformJob :=
  _ ← save false (run <| Run.discovery_job_id := Some (DiscoveryJob.id discovered) |>);
  jc ← enqueue (wd_child dr) (wd_correlation dr) (wd_now dr) (Job.organization_id job)
         PlatformJobType.EVALUATION account_id
         ("scan-evaluation:" +:+ uuid_str (Run.id run) +:+ ":"
          +:+ uuid_str (DiscoveryJob.id discovered))
         (Some (evaluation_payload account_id (User.id actor) (DiscoveryJob.id discovered)
                  (Run.id run)))
         None 0 3 (Some (Job.correlation_id job)) (Some (Job.id job)) None;
  _ ← commit;
  mret jc.1.

(** worker/job_worker.py:313-337, JobWorker._discovery. *)
Definition _discovery (dr : worker_draws) (job : PlatformJob) : txn DB handled :=
  account_id ← of_res (_uuid_value (payload_of job) "account_id");
  actor_id ← of_res (_uuid_value (payload_of job) "actor_user_id");
  actor ← _actor actor_id;
  discovered ← Discovery.start services regions client_factory assumed (wd_discovery_draws dr)
                 (wd_discovery dr) (wd_now dr) account_id actor;
  scan_run_id ← of_res (_optional_uuid (payload_of job) "scan_run_id");
  match scan_run_id with
  | Some scan_run_id =>
      run ← _scan_run (Job.organization_id job) scan_run_id;
      child ← chain_evaluation dr job account_id actor discovered run;
      mret (inl (Some (uuid_str (Job.id child))))
  | None => mret (inl (Some (uuid_str (DiscoveryJob.id discovered))))
  end.

(** worker/job_worker.py:350-362, part of JobWorker._evaluation.  The end of the
    scan that the evaluation belongs to. *)
Definition complete_scan (now : timestamp) (organization_id : uuid) (evaluation_id : uuid)
    (run : ScanRun) : txn DB () :=
  let run := run <| Run.evaluation_job_id := Some evaluation_id |>
                 <| Run.status := ScanRunStatus.COMPLETED |>
                 <| Run.finished_at := Some now |> in
  schedule ← match Run.schedule_id run with
             | Some schedule_id =>
                 gets (λ d, find_row (λ s, (Sched.id s ≟ schedule_id)
                                           && (Sched.organization_id s ≟ organization_id))
                              (DB.scan_schedules d))
             | None => mret None
             end;
  _ ← save false run;
  _ ← match schedule with
      | Some schedule => save false (schedule <| Sched.last_run_at := Run.finished_at run |>)
      | None => mret tt
      end;
  commit.

(** worker/job_worker.py:339-363, JobWorker._evaluation. *)
Definition _evaluation (dr : worker_draws) (job : PlatformJob) : txn DB handled :=
  account_id ← of_res (_uuid_value (payload_of job) "account_id");
  actor_id ← of_res (_uuid_value (payload_of job) "actor_user_id");
  actor ← _actor actor_id;
  discovery_job_id ← of_res (_optional_uuid (payload_of job) "discovery_job_id");
  evaluated ← Evaluations.start registry (wd_evaluation_draws dr) (wd_times dr)
                (wd_evaluation dr) (wd_now dr) account_id actor discovery_job_id;
  scan_run_id ← of_res (_optional_uuid (payload_of job) "scan_run_id");
  _ ← match scan_run_id with
      | Some scan_run_id =>
          run ← _scan_run (Job.organization_id job) scan_run_id;
          complete_scan (wd_now dr) (Job.organization_id job) (EvaluationJob.id evaluated) run
      | None => mret tt
      end;
  mret (inl (Some (uuid_str (EvaluationJob.id evaluated)))).

(** [a or b] of an optional text *)
Definition text_or (o : option string) (s : string) : string :=
  match o with Some t => if nonempty t then t else s | None => s end.

(** worker/job_worker.py:365-389, JobWorker._notification_delivery. *)
Definition _notification_delivery (dr : worker_draws) (job : PlatformJob) : txn DB handled :=
  event_id ← of_res (_uuid_value (payload_of job) "notification_event_id");
  er ← deliver provider frontend_url (wd_attempt dr) (wd_now dr) (Job.organization_id job)
         event_id;
  _ ← commit;
  let '(event, result) := er in
  if (NotificationEvent.status event ≟ NotificationStatus.APPROVED) && Notifications.retryable result then
    mret (inr (mk_RetryableJobError
      (text_or (Notifications.error_code result) "notification_provider_transient")
      (text_or (Notifications.sanitized_error result)
         "The notification provider reported a retryable failure.")
      (Notifications.retry_after_seconds result)))
  else
    _ ← ensure (NotificationEvent.status event ≟ NotificationStatus.DELIVERED)
          (ConflictError "notification_delivery_terminal");
    mret (inl (Some (uuid_str (NotificationEvent.id event)))).

(** worker/job_worker.py:391-430, JobWorker._remediation. *)
Definition _remediation (dr : worker_draws) (job : PlatformJob) : txn DB handled :=
  request_id ← of_res (_uuid_value (payload_of job) "remediation_request_id");
  actor_id ← of_res (_uuid_value (payload_of job) "actor_user_id");
  actor ← _actor actor_id;
  _ ← require_capability (Job.organization_id job) (User.id actor) Capability.REMEDIATION_EXECUTE;
  request ← Remediation.execute settings action_registry executor live_executor_factory
              (wd_now dr) (Job.organization_id job) request_id (Job.id job);
  _ ← commit;
  if Req.status request ≟ RemediationStatus.APPROVED then
    mret (inr (mk_RetryableJobError "remediation_retryable"
      "The simulated remediation requested a retry." None))
  else
    _ ← ensure (Req.status request ≟ RemediationStatus.SUCCEEDED)
          (ConflictError "remediation_terminal_failure");
    _ ← (if Req.execution_mode request ≟ RemediationExecutionMode.LIVE_AWS then
           _ ← enqueue (wd_child dr) (wd_correlation dr) (wd_now dr) (Job.organization_id job)
                 PlatformJobType.DISCOVERY (Req.aws_account_id request)
                 ("remediation-rediscovery:" +:+ uuid_str (Req.id request))
                 (Some (rediscovery_payload (Req.aws_account_id request) (User.id actor)))
                 None 0 3 (Some (Job.correlation_id job)) (Some (Job.id job))
                 (Some (User.id actor));
           mret tt
         else mret tt);
    mret (inl (Some (uuid_str (Req.id request)))).

(** worker/job_worker.py:264-279, JobWorker._dispatch. *)
Definition _dispatch (dr : worker_draws) (job : PlatformJob) : txn DB handled :=
  match Job.job_type job with
  | PlatformJobType.SCHEDULED_SCAN => _scheduled_scan dr job
  | PlatformJobType.DISCOVERY => _discovery dr job
  | PlatformJobType.EVALUATION => _evaluation dr job
  | PlatformJobType.NOTIFICATION_DELIVERY => _notification_delivery dr job
  | PlatformJobType.REMEDIATION_SIMULATION => _remediation dr job
  | _ => raise (AppError "unsupported_job_type" 409)
  end.
End worker.

(** * The endpoints of the queue *)

(** api/v1/platform_jobs.py:25-28, _require_read. *)
Definition _require_read (user : User) (organization_id : uuid) : txn DB () :=
  _ ← require_capability organization_id (User.id user) Capability.JOBS_READ; mret tt.

(** api/v1/platform_jobs.py:31-66, list_jobs. *)
Definition list_jobs (user : User) (organization_id : uuid) (job_type : option PlatformJobType)
    (status : option PlatformJobStatus) (created_after created_before : option timestamp)
    (page page_size : nat) : txn DB (list PlatformJob * nat) :=
  _ ← _require_read user organization_id;
  rows ← gets (λ d, filter_rows (λ j, (Job.organization_id j ≟ organization_id)
            && from_option (λ t, Job.job_type j ≟ t) true job_type
            && from_option (λ s, Job.status j ≟ s) true status
            && from_option (λ t, t <=? Job.created_at j)%Z true created_after
            && from_option (λ t, Job.created_at j <=? t)%Z true created_before)
            (DB.platform_jobs d));
  mret (page_of page page_size (sort_by (newest_first Job.created_at Job.id) rows), length rows).

(** api/v1/platform_jobs.py:69-78, job_counts. *)
Definition job_counts (user : User) (organization_id : uuid) : txn DB (list (string * Z)) :=
  _ ← _require_read user organization_id; counts organization_id.

(** api/v1/platform_jobs.py:81-89, job_detail. *)
Definition job_detail (job_id : uuid) (user : User) (organization_id : uuid)
    : txn DB PlatformJob :=
  _ ← _require_read user organization_id; PlatformJobs.get_scoped organization_id job_id.

(** api/v1/platform_jobs.py:92-99, cancel_job. *)
Definition cancel_job (now : timestamp) (job_id : uuid) (user : User) (organization_id : uuid)
    : txn DB PlatformJob := PlatformJobs.cancel now organization_id job_id user.

(** api/v1/platform_jobs.py:102-109, requeue_job. *)
Definition requeue_job (now : timestamp) (job_id : uuid) (user : User) (organization_id : uuid)
    : txn DB PlatformJob := requeue now organization_id job_id user.

(** * What the handlers leave of the queue *)

(** An invariant of the queue alone. *)
Class QueueOnly (I : DB → Prop) : Prop :=
  queue_only : ∀ d d', DB.platform_jobs d' = DB.platform_jobs d → I d → I d'.

Section frame.
Context (I : DB → Prop) `{!QueueOnly I}.

#[local] Instance queue_only_audit : StableAudit I.
Proof. intros d f. by apply queue_only. Qed.

Lemma keeps_modify_other f :
  (∀ d, DB.platform_jobs (f d) = DB.platform_jobs d) → keeps I (modify f).
Proof. intros Hf. apply keeps_modify. intros d. by apply queue_only. Qed.

Lemma keeps_save_other {R} `{Table R, !Apart PlatformJob R} fresh (r : R) : keeps I (save fresh r).
Proof.
  unfold save. keeps_go.
Qed.

Lemma keeps_save_all_other {R} `{Table R, !Apart PlatformJob R} (l : list R) :
  keeps I (save_all l).
Proof. apply keeps_for_each. intros r. apply keeps_save_other. Qed.

Ltac other :=
  repeat (keeps_go; try first
    [ apply keeps_record_audit, _ | apply keeps_audit_ok, _ | apply keeps_begin_nested
    | apply keeps_save_other | apply keeps_save_all_other
    | apply keeps_for_each; intros ?
    | apply keeps_modify_other; reflexivity ]).

(** ** Discovery *)

Lemma keeps_run_discovery {F} services regions (client_factory : option F) assumed dr job_id actor :
  keeps I (run_discovery services regions client_factory assumed dr job_id actor).
Proof.
  assert (∀ status errors, keeps I (Discovery._finish dr job_id actor status errors)) as Hf
    by (intros; unfold Discovery._finish; other).
  assert (∀ at_ account items, keeps I (upsert_items dr at_ account items)) as Hu.
  { intros at_ account items. induction items as [|item items IH]; cbn [upsert_items]; other; exact IH. }
  assert (∀ (factory : F) account l errors n,
    keeps I (collect_all regions dr factory account job_id l errors n)) as Hc.
  { intros factory account l. induction l as [|service l IH]; intros errors n; cbn [collect_all];
      other; try apply IH. unfold collect, keep_assets, _upsert, deactivate_missing. other. }
  unfold run_discovery. other; first [apply Hf|apply Hc].
Qed.
Lemma keeps_start_discovery {F} services regions (client_factory : option F) assumed dr i now a u :
  keeps I (Discovery.start services regions client_factory assumed dr i now a u).
Proof. unfold Discovery.start, require_capability. other. apply keeps_run_discovery. Qed.

(** ** Evaluation *)

Lemma keeps_queue_apply_result dr w rule asset result : keeps I (_apply_result dr w rule asset result).
Proof.
  unfold _apply_result, create_for_critical_finding, finding_event, flush, save_finding, save_event,
    save_evaluation, save_summaries, save_rule_result. other.
Qed.
Lemma keeps_finish_evaluation pending now job_id actor status errors :
  keeps I (Evaluations._finish pending now job_id actor status errors).
Proof. unfold Evaluations._finish, save_evaluation, save_summaries, save_rule_result. other. Qed.
Lemma keeps_recover now job_id actor code : keeps I (_recover_failed now job_id actor code).
Proof.
  unfold _recover_failed, save_evaluation.
  apply keeps_try; [apply keeps_finish_evaluation|intros e]. other.
Qed.
Lemma keeps_queue_run_rules dr context rules w errors : keeps I (run_rules dr context rules w errors).
Proof.
  assert (∀ rule assets w errors, keeps I (run_targets dr context rule assets w errors)) as Ht.
  { intros rule assets. induction assets as [|a assets IH]; intros w' e'; cbn [run_targets]; [other|].
    apply keeps_bind; [apply keeps_queue_apply_result|intros ?; apply IH]. }
  revert w errors. induction rules as [|rule rules IH]; intros w errors; cbn [run_rules]; [other|].
  apply keeps_bind; [apply Ht|intros ?; apply IH].
Qed.
Lemma keeps_start_evaluation registry dr t i now a u o :
  keeps I (Evaluations.start registry dr t i now a u o).
Proof.
  unfold Evaluations.start, run_evaluation, evaluate_account, require_capability, save_evaluation.
  other; first [apply keeps_queue_run_rules|apply keeps_finish_evaluation|apply keeps_recover].
Qed.

(** ** Notifications and remediations *)

Lemma keeps_deliver {P} `{NotificationProvider P} (provider : P) url i now o e :
  keeps I (deliver provider url i now o e).
Proof.
  unfold deliver, deliverable, Notifications._get_scoped, save_event, save_attempt. other.
Qed.

Lemma keeps_execute_remediation {E L} `{RemediationExecutor E, RemediationExecutor L}
    settings registry (executor : E) (factory : Remediation.Settings → L) now o r l :
  keeps I (Remediation.execute settings registry executor factory now o r l).
Proof.
  unfold Remediation.execute, admitted, executable, route, record_result, assign,
    Remediation.get_scoped, _get_finding, _live_execution_context, save_request. other.
Qed.
End frame.

(** The queue is well formed and the job is in it as it is given. *)
Definition holds (j : PlatformJob) (d : DB) : Prop :=
  jobs_ok d ∧ DB.platform_jobs d !! Job.id j = Some j.

#[export] Instance holds_queue_only j : QueueOnly (holds j).
Proof. intros d d' E [[] ?]. split; [split|]; by rewrite E. Qed.

(** Work that is added leaves the job alone. *)
Lemma keeps_enqueue_holds j i c now o t r key pl av pr mx co pa ac :
  keeps (holds j) (enqueue i c now o t r key pl av pr mx co pa ac).
Proof.
  unfold enqueue. destruct (_validated_payload _) as [pl'|e]; [|apply keeps_raise].
  apply keeps_bind; [apply keeps_try; [|intros []; apply keeps_raise || apply keeps_ret]|].
  - apply keeps_bind; [|intros; apply keeps_ret]. apply keeps_begin_nested.
    intros s [Hc [Hok Hj]]. apply wp_save_job; [|by split].
    intros Hch Hu. split; [done|]. split; [by eapply jobs_ok_put|]. cbn. unfold put.
    apply unique_ok_true in Hu as [Hn _]. specialize (Hn eq_refl).
    rewrite lookup_insert_ne; [done|]. intros E. cbn in E, Hn. congruence.
  - intros []; [|keeps_go]. apply keeps_bind; [|intros; apply keeps_ret].
    apply keeps_modify_other; [apply _|done].
Qed.

Section handlers.
Context {F : Type} (services : list (DiscoveryCollector F)) (regions : list string)
        (client_factory : option F) (assumed : AWSAccount → F + fault).
Context (registry : RuleRegistry).
Context {P : Type} `{NotificationProvider P} (provider : P) (frontend_url : string).
Context {E L : Type} `{RemediationExecutor E, RemediationExecutor L}
        (settings : Remediation.Settings) (action_registry : RemediationActionRegistry)
        (executor : E) (live_executor_factory : Remediation.Settings → L).

(** No handler touches the job it runs for. *)
Lemma keeps_dispatch j dr job :
  keeps (holds j) (_dispatch services regions client_factory assumed registry provider
    frontend_url settings action_registry executor live_executor_factory dr job).
Proof.
  unfold _dispatch. destruct (Job.job_type job); try apply keeps_raise.
  - unfold _discovery, chain_evaluation, _actor, _scan_run.
    keeps_go; try apply keeps_start_discovery; try apply keeps_save_other;
      try apply keeps_enqueue_holds; apply _.
  - unfold _evaluation, complete_scan, _actor, _scan_run.
    keeps_go; try apply keeps_start_evaluation; try apply keeps_save_other; apply _.
  - unfold _notification_delivery. keeps_go. apply keeps_deliver, _.
  - unfold _scheduled_scan. keeps_go; [apply keeps_save_other; apply _|apply keeps_enqueue_holds].
  - unfold _remediation, _actor, require_capability.
    keeps_go; first [apply keeps_execute_remediation, _|apply keeps_enqueue_holds].
Qed.
End handlers.

(** * A step of the worker *)

Transparent wp.
Lemma wp_attempt {A} (m : txn DB A) Q s :
  Q (Ret (match (m s).1 with Ret a => inl a | Raise e => inr e end)) (m s).2 →
  wp (attempt m) Q s.
Proof.
  unfold wp, attempt, try_catch, mbind, txn_bind. by destruct (m s) as [[a|e] s'].
Qed.
Lemma wp_interfere f (Q : Prelude.outcome () → sess DB → Prop) s :
  Q (Ret tt) (Sess (f (committed s)) (f (working s))) → wp (interfere f) Q s.
Proof. done. Qed.
Lemma wp_value {A} (m : txn DB A) (P : DB → Prop) s :
  wp m (λ _ s', both P s') s → both P (m s).2.
Proof. done. Qed.
Opaque wp.

Lemma wp_worker o now i t Q s :
  jobs_ok (working s) →
  (∀ j, owns i t (worker_status o) (working s) j →
     let d' := (working s) <| DB.platform_jobs ::= put (worker_update o now j) |> in
     jobs_ok d' → Q (Ret (worker_update o now j)) (Sess d' d')) →
  ((∀ j, ¬ owns i t (worker_status o) (working s) j) →
     Q (Raise (ConflictError "stale_job_lease")) s) →
  wp (run_worker o now i t) Q s.
Proof.
  intros Hok H1 H2. pose proof Hok as [Hk Hc Hu]. rewrite run_worker_eq.
  unfold leased_update, _leased. wp_go.
  2: { apply H2. intros j Hj%leased_Some; [|done]. cbn in *. congruence. }
  match goal with H : find_row _ _ = Some ?a |- _ =>
    apply leased_Some in H as Ho; [|done]; pose proof Ho as (Hl & Ht & Hs);
    destruct (worker_evolves o now t a (Hc _ _ Hl) Ht Hs) as [He _] end.
  destruct (evolves_ok _ _ _ _ Hok Hl He) as [Hch Huo].
  eapply wp_save_evolves; [done..|]. wp_go. apply H1; [done|]. by eapply jobs_ok_put.
Qed.

Lemma job_put_lookup (j : PlatformJob) d :
  DB.platform_jobs (d <| DB.platform_jobs ::= put j |>) !! Job.id j = Some j.
Proof. apply (lookup_insert_eq (DB.platform_jobs d)). Qed.

Lemma wp_worker_own o now j t Q d :
  jobs_ok d → DB.platform_jobs d !! Job.id j = Some j → Job.lease_token j = Some t →
  Job.status j = worker_status o →
  (let j' := worker_update o now j in
   let d' := d <| DB.platform_jobs ::= put j' |> in
   jobs_ok d' → DB.platform_jobs d' !! Job.id j = Some j' → Q (Ret j') (Sess d' d')) →
  wp (run_worker o now (Job.id j) t) Q (Sess d d).
Proof.
  intros Hok Hj Ht Hs HQ. apply wp_worker; [done| |].
  - intros j' (Hj' & _). cbn [working] in *. assert (j' = j) as -> by congruence. cbv zeta.
    intros Hok'. apply HQ; [done|].
    destruct (worker_evolves o now t j (jo_checks _ Hok _ _ Hj) Ht Hs) as [He _].
    rewrite <-(ev_id _ _ He). apply job_put_lookup.
  - intros Hno. by destruct (Hno j).
Qed.

Lemma put_twice (a b : PlatformJob) d :
  Job.id a = Job.id b →
  (d <| DB.platform_jobs ::= put a |>) <| DB.platform_jobs ::= put b |>
  = d <| DB.platform_jobs ::= put b |>.
Proof.
  intros E. unfold upd. cbn. f_equal. unfold put.
  change (row_id a) with (Job.id a). change (row_id b) with (Job.id b). rewrite E.
  apply insert_insert_eq.
Qed.

Section step.
Context (worker_id : string) (job_lease_seconds : Z) (message : exn → string).

(** The job as its handler is given it. *)
Definition leased_job (dr : step_draws) (j : PlatformJob) : PlatformJob :=
  after_heartbeat (wd_heartbeat dr) job_lease_seconds
    (after_start (wd_start dr)
       (after_acquire (wd_token dr) worker_id job_lease_seconds (wd_acquire dr) j)).

(** What becomes of a job whose lease is held. *)
Definition settle (now : timestamp) (r : handled + exn) (j : PlatformJob) : PlatformJob :=
  match r with
  | inl (inl reference) => after_succeed now reference j
  | inl (inr x) => after_fail now (retry_code x) (retry_summary x) true (retry_after x) j
  | inr e =>
      if is_app_error e then after_fail now (exn_code e) (message e) false None j
      else after_fail now "worker_unexpected_error"
             "The job failed because of an unexpected internal error." true None j
  end.

Lemma wp_acquire dr Q d :
  jobs_ok d →
  (first_by before (filter_rows (acquirable (wd_acquire dr)) (DB.platform_jobs d)) = None →
     Q (Ret None) (Sess d d)) →
  (∀ j, first_by before (filter_rows (acquirable (wd_acquire dr)) (DB.platform_jobs d)) = Some j →
     let j' := after_acquire (wd_token dr) worker_id job_lease_seconds (wd_acquire dr) j in
     let d' := d <| DB.platform_jobs ::= put j' |> in
     jobs_ok d' → Q (Ret (Some j')) (Sess d' d')) →
  wp (acquire (wd_token dr) worker_id job_lease_seconds (wd_acquire dr)) Q (Sess d d).
Proof.
  intros Hok H1 H2. pose proof Hok as [Hk Hc Hu]. unfold acquire. wp_step. wp_step. cbn [working].
  destruct (first_by _ _) as [j|] eqn:E; [|by apply wp_ret, H1].
  pose proof E as [Hj _]%first_by_Some; [|apply before_total|apply before_trans].
  apply elem_of_filter_rows in Hj as [Ha [k Hj]].
  assert (DB.platform_jobs d !! Job.id j = Some j) as Hid by (pose proof (Hk _ _ Hj) as <-; exact Hj).
  assert (evolves j (after_acquire (wd_token dr) worker_id job_lease_seconds (wd_acquire dr) j))
    as He by (pose proof (acquirable_active _ _ Ha); evolve).
  destruct (evolves_ok _ _ _ _ Hok Hid He) as [Hch Huo].
  wp_step. eapply wp_save_evolves; [done..|]. wp_go. apply H2; [done|]. by eapply jobs_ok_put.
Qed.

(** The three commits before the handler. *)
Lemma wp_begin dr j (k : PlatformJob → txn DB bool) Q d :
  jobs_ok d → DB.platform_jobs d !! Job.id j = Some j →
  Job.lease_token j = Some (wd_token dr) → Job.status j = PlatformJobStatus.LEASED →
  (let j' := after_heartbeat (wd_heartbeat dr) job_lease_seconds (after_start (wd_start dr) j) in
   let d' := d <| DB.platform_jobs ::= put j' |> in
   holds j' d' → wp (k j') Q (Sess d' d')) →
  wp (_ ← PlatformJobs.start (wd_start dr) (Job.id j) (wd_token dr);
      j ← heartbeat (wd_heartbeat dr) (Job.id j) (wd_token dr) job_lease_seconds;
      k j) Q (Sess d d).
Proof.
  intros Hok Hj Ht Hst HQ. apply wp_bind, (wp_worker_own WStart); [done..|].
  cbv zeta. intros Hok1 Hj1. apply wp_bind, (wp_worker_own (WHeartbeat job_lease_seconds)
    (wd_heartbeat dr) (after_start (wd_start dr) j)); [done|exact Hj1|done|done|].
  cbv zeta. intros Hok2 Hj2. cbn [worker_update] in *. rewrite put_twice in * by done.
  apply HQ. by split.
Qed.

(** The queue is as given. *)
Definition queue_is (t : gmap uuid PlatformJob) (d : DB) : Prop := DB.platform_jobs d = t.
#[local] Instance queue_is_only t : QueueOnly (queue_is t).
Proof. intros d d' E. unfold queue_is. by rewrite E. Qed.

Lemma keeps_finish_scan_run t now job terminal_job :
  keeps (queue_is t) (_finish_scan_run_if_terminal now job terminal_job).
Proof. unfold _finish_scan_run_if_terminal. keeps_go. all: apply keeps_save_other; apply _. Qed.

Lemma wp_record_failure now (job : PlatformJob) tok code summary retryable after Q s :
  jobs_ok (working s) →
  (∀ j, owns (Job.id job) tok PlatformJobStatus.RUNNING (working s) j → ∀ o s',
     both (queue_is (put (after_fail now code summary retryable after j)
                       (DB.platform_jobs (working s)))) s' → Q o s') →
  ((∀ j, ¬ owns (Job.id job) tok PlatformJobStatus.RUNNING (working s) j) → Q (Ret tt) s) →
  wp (_record_failure now job tok code summary retryable after) Q s.
Proof.
  intros Hok H1 H2. unfold _record_failure, attempt. apply wp_bind, wp_try, wp_bind.
  apply (wp_worker (WFail code summary retryable after)); [done| |].
  - intros j Hj. cbv zeta. intros _. apply wp_ret. cbn beta iota.
    eapply wp_keeps; [apply keeps_finish_scan_run|split; reflexivity|].
    intros o s' Hs'. by eapply H1.
  - intros Hno. apply wp_ret. cbn beta iota. by apply wp_ret, H2.
Qed.

(** What is recorded of an outcome, whether the lease is still held or not. *)
Lemma wp_record_outcome now (job : PlatformJob) tok r Q s :
  jobs_ok (working s) → r ≠ inr IntegrityError →
  (∀ j, owns (Job.id job) tok PlatformJobStatus.RUNNING (working s) j → ∀ o s',
     DB.platform_jobs (committed s') = put (settle now r j) (DB.platform_jobs (working s)) →
     (∀ x, r = inl (inl x) → o = Ret tt ∧ committed s'
        = (working s) <| DB.platform_jobs ::= put (settle now r j) |>) → Q o s') →
  ((∀ j, ¬ owns (Job.id job) tok PlatformJobStatus.RUNNING (working s) j) → Q (Ret tt) s) →
  wp (record_outcome message now job tok r) Q s.
Proof.
  intros Hok Hne H1 H2.
  assert (∀ code summary retryable after,
    (∀ j, settle now r j = after_fail now code summary retryable after j) →
    (∀ x, r ≠ inl (inl x)) →
    wp (_record_failure now job tok code summary retryable after) Q s) as Hf.
  { intros code summary retryable after E Hr. apply wp_record_failure; [done| |done].
    intros j Hj o s' [Hc _]. eapply H1; [done|by rewrite E|]. intros x Hx. by destruct (Hr x). }
  unfold record_outcome. destruct r as [[reference|x]|e].
  - apply wp_try, wp_bind. apply (wp_worker (WSucceed reference)); [done| |].
    + intros j Hj. cbv zeta. intros _. apply wp_ret. by eapply H1.
    + intros Hno. by apply wp_ret, H2.
  - by apply Hf.
  - destruct e; cbn beta iota; try done; by apply Hf.
Qed.
(** What a step leaves, after the handler of job [i] came back with [r] in session [s]. *)
Definition step_outcome (dr : step_draws) (i : uuid) (r : handled + exn) (s : sess DB)
    (meanwhile : DB → DB) (o : Prelude.outcome bool) (d' : DB) : Prop :=
  let dm := meanwhile (working s) in
  match r, DB.platform_jobs dm !! i with
  | inr IntegrityError, _ => o = Raise OtherException ∧ d' = meanwhile (committed s)
  | _, Some j =>
      if (Job.lease_token j ≟ Some (wd_token dr)) && (Job.status j ≟ PlatformJobStatus.RUNNING)
      then DB.platform_jobs d' = put (settle (wd_end dr) r j) (DB.platform_jobs dm)
           ∧ (∀ x, r = inl (inl x) →
                o = Ret true ∧ d' = dm <| DB.platform_jobs ::= put (settle (wd_end dr) r j) |>)
      else o = Ret true ∧ d' = meanwhile (committed s)
  | _, None => o = Ret true ∧ d' = meanwhile (committed s)
  end.

Lemma wp_step_outcome dr (job : PlatformJob) r meanwhile s :
  jobs_ok (meanwhile (working s)) →
  wp (_ ← interfere meanwhile; _ ← record_outcome message (wd_end dr) job (wd_token dr) r; mret true)
     (λ o s', step_outcome dr (Job.id job) r s meanwhile o (committed s')) s.
Proof.
  intros Hok. apply wp_bind, wp_interfere. cbn beta.
  assert (r = inr IntegrityError ∨ r ≠ inr IntegrityError) as [->|Hne].
  { destruct r as [|[]]; (by left) || (by right). }
  { by apply wp_bind, wp_raise. }
  assert (∀ o d', (match DB.platform_jobs (meanwhile (working s)) !! Job.id job with
     | Some j => if (Job.lease_token j ≟ Some (wd_token dr)) && (Job.status j ≟ PlatformJobStatus.RUNNING)
         then DB.platform_jobs d' = put (settle (wd_end dr) r j) (DB.platform_jobs (meanwhile (working s)))
              ∧ (∀ x, r = inl (inl x) → o = Ret true
                   ∧ d' = (meanwhile (working s)) <| DB.platform_jobs ::= put (settle (wd_end dr) r j) |>)
         else o = Ret true ∧ d' = meanwhile (committed s)
     | None => o = Ret true ∧ d' = meanwhile (committed s) end) →
     step_outcome dr (Job.id job) r s meanwhile o d') as Hfold.
  { intros o d'. unfold step_outcome. by destruct r as [|[]]. }
  apply wp_bind, wp_record_outcome; [done|done| |].
  - intros j (Hj & Ht & Hs) o s' Hq Hx. cbn [working] in *.
    assert (∀ o', (∀ x, r = inl (inl x) → o' = Ret true) →
      step_outcome dr (Job.id job) r s meanwhile o' (committed s')) as Hdone.
    { intros o' Ho. apply Hfold. rewrite Hj, Ht, Hs, !bool_decide_eq_true_2 by done. cbn [andb]. split; [done|].
      intros x E. split; [by eapply Ho|]. by apply (Hx x). }
    destruct o as [[]|e]; [by apply wp_ret, Hdone|].
    apply Hdone. intros x E. by destruct (Hx x E).
  - intros Hno. apply wp_ret, Hfold.
    destruct (DB.platform_jobs (meanwhile (working s)) !! Job.id job) as [j|] eqn:E; [|done].
    destruct (_ && _) eqn:Eo; [|done]. exfalso.
    apply andb_true_iff in Eo as [?%bool_decide_eq_true ?%bool_decide_eq_true].
    by apply (Hno j).
Qed.

(** C20. One step of the worker.  Without a ready job nothing happens.  Otherwise
    the first ready job in the order of the queue is leased under a fresh token,
    started and its lease extended, each committed before the handler runs, and no
    handler that leaves the job alone can change that.  The outcome is recorded on
    what the handler left and what others did [meanwhile], and only when the job
    is still running under that same token: a result that was returned makes it
    succeed with its reference, a retry is scheduled as the error asks, an error
    of the application is final, any other error may be retried.  A worker that
    has lost its lease changes nothing: what its handler did not commit is gone,
    the job is its new holder's.  Only an integrity error that leaves the handler
    is not recorded and ends the worker. *)
Theorem process_one_is_fenced (dispatch : PlatformJob → txn DB handled) meanwhile dr d :
  jobs_ok d →
  (∀ j, keeps (holds j) (dispatch j)) →
  (∀ d', jobs_ok d' → jobs_ok (meanwhile d')) →
  let '(o, d') := run (process_one worker_id job_lease_seconds message dispatch meanwhile dr) d in
  match first_by before (filter_rows (acquirable (wd_acquire dr)) (DB.platform_jobs d)) with
  | None => o = Ret false ∧ d' = d
  | Some j0 =>
      let j1 := leased_job dr j0 in
      let d1 := d <| DB.platform_jobs ::= put j1 |> in
      let '(r, s) := dispatch j1 (Sess d1 d1) in
      holds j1 (committed s) ∧ holds j1 (working s)
      ∧ step_outcome dr (Job.id j0) (match r with Ret a => inl a | Raise e => inr e end)
          s meanwhile o d'
  end.
Proof.
  intros Hok Hk Hm.
  set (Q := λ (o : Prelude.outcome bool) (d' : DB),
    match first_by before (filter_rows (acquirable (wd_acquire dr)) (DB.platform_jobs d)) with
    | None => o = Ret false ∧ d' = d
    | Some j0 =>
        let j1 := leased_job dr j0 in
        let d1 := d <| DB.platform_jobs ::= put j1 |> in
        let '(r, s) := dispatch j1 (Sess d1 d1) in
        holds j1 (committed s) ∧ holds j1 (working s)
        ∧ step_outcome dr (Job.id j0) (match r with Ret a => inl a | Raise e => inr e end)
            s meanwhile o d'
    end).
  cut (Q (run (process_one worker_id job_lease_seconds message dispatch meanwhile dr) d).1
         (run (process_one worker_id job_lease_seconds message dispatch meanwhile dr) d).2).
  { unfold Q. by destruct (run _ d) as [o d']. }
  apply wp_run. unfold process_one. apply wp_bind, wp_acquire; [done| |].
  { intros E. apply wp_ret. unfold Q. by rewrite E. }
  intros j0 E. cbv zeta. intros Hok0. apply wp_bind. cbn [Job.lease_token after_acquire some_or].
  apply wp_ret. set (ja := after_acquire _ _ _ _ j0) in *.
  apply wp_begin; [done|apply job_put_lookup|done|done|].
  cbv zeta. intros Hh. rewrite put_twice in * by done.
  change (after_heartbeat _ _ _) with (leased_job dr j0) in *.
  apply wp_bind, wp_attempt.
  pose proof (wp_value _ _ _ (Hk (leased_job dr j0) (Sess _ _) (conj Hh Hh))) as [Hc Hw].
  eapply wp_mono, (wp_step_outcome dr (leased_job dr j0)); [|apply Hm, Hw].
  intros o s' Ho. unfold Q. rewrite E. cbv zeta.
  by destruct (dispatch (leased_job dr j0) _) as [r s].
Qed.
End step.

(** * Payloads are read as they were written *)

Lemma uuid_value_read pl k i :
  (i < 2 ^ 128)%N → dget k pl = Some (PStr (uuid_str i)) → _uuid_value pl k = inl i.
Proof. intros Hi E. unfold _uuid_value. rewrite E. cbn [py_str]. by rewrite new_UUID_str. Qed.
Lemma optional_uuid_read pl k i :
  (i < 2 ^ 128)%N → dget k pl = Some (PStr (uuid_str i)) → _optional_uuid pl k = inl (Some i).
Proof.
  intros Hi E. unfold _optional_uuid. rewrite E. by rewrite (uuid_value_read _ _ i).
Qed.

(** A job with the payload is queued, and [k] is read from it as [i]. *)
Definition carries (pl : pydict) (k : string) (i : uuid) : Prop :=
  _validated_payload pl = inl pl ∧ _uuid_value pl k = inl i ∧ _optional_uuid pl k = inl (Some i).

Lemma carries_id pl k i :
  id_payload pl → (i < 2 ^ 128)%N → dget k pl = Some (PStr (uuid_str i)) → carries pl k i.
Proof.
  intros Hp Hi E. split; [by apply id_payload_valid|].
  split; [by apply uuid_value_read|by apply optional_uuid_read].
Qed.

Ltac ids_ok :=
  split; [apply (bool_decide_unpack _); reflexivity| |]; repeat constructor; cbn; try lia; eauto.

(** C22. What one process writes in the payload of a job, the worker reads back:
    the queue accepts the payloads of scan runs, of the discovery and the evaluation
    that follow from a scan, and of the discoveries, evaluations, deliveries and
    remediations that are requested by hand, as they are; and the identifiers in
    them survive being written as text and parsed.  In the payload of a discovery
    or an evaluation that was requested by hand the worker finds no scan run.  The
    discovery that follows a live remediation is the exception: its payload names
    the account under another key, and the handler refuses it before it looks at
    the account. *)
Theorem payloads_are_read_back run schedule actor account_id discovery_id request_id event_id
    {F} services regions (client_factory : option F) assumed dr job s :
  (Run.id run < 2 ^ 128)%N → (User.id actor < 2 ^ 128)%N → (Run.aws_account_id run < 2 ^ 128)%N →
  (Sched.id schedule < 2 ^ 128)%N → (account_id < 2 ^ 128)%N → (discovery_id < 2 ^ 128)%N →
  (request_id < 2 ^ 128)%N → (event_id < 2 ^ 128)%N →
  let scan := run_payload run schedule actor in
  let discovery := discovery_payload run (User.id actor) in
  let evaluation := evaluation_payload account_id (User.id actor) discovery_id (Run.id run) in
  let rediscovery := rediscovery_payload account_id (User.id actor) in
  let by_hand := manual_discovery_payload account_id (User.id actor) in
  let judged o := manual_evaluation_payload account_id (User.id actor) o in
  let delivery := delivery_payload event_id in
  let remediation := remediation_payload request_id (User.id actor) in
  (carries scan "scan_run_id" (Run.id run) ∧ carries scan "actor_user_id" (User.id actor)
   ∧ carries scan "schedule_id" (Sched.id schedule))
  ∧ (carries discovery "account_id" (Run.aws_account_id run)
     ∧ carries discovery "actor_user_id" (User.id actor)
     ∧ carries discovery "scan_run_id" (Run.id run))
  ∧ (carries evaluation "account_id" account_id ∧ carries evaluation "actor_user_id" (User.id actor)
     ∧ carries evaluation "discovery_job_id" discovery_id
     ∧ carries evaluation "scan_run_id" (Run.id run))
  ∧ (carries by_hand "account_id" account_id ∧ carries by_hand "actor_user_id" (User.id actor)
     ∧ _optional_uuid by_hand "scan_run_id" = inl None)
  ∧ (∀ o, carries (judged o) "account_id" account_id
     ∧ carries (judged o) "actor_user_id" (User.id actor)
     ∧ _optional_uuid (judged o) "scan_run_id" = inl None
     ∧ (o = None ∨ o = Some discovery_id → _optional_uuid (judged o) "discovery_job_id" = inl o))
  ∧ carries delivery "notification_event_id" event_id
  ∧ (carries remediation "remediation_request_id" request_id
     ∧ carries remediation "actor_user_id" (User.id actor))
  ∧ (_validated_payload rediscovery = inl rediscovery
     ∧ (Job.payload_json job = PDict rediscovery →
        _discovery services regions client_factory assumed dr job s
        = (Raise (AppError "invalid_job_payload" 409), s))).
Proof.
  intros ? ? ? ? ? ? ? ?. cbv zeta.
  assert (id_payload (run_payload run schedule actor)) by ids_ok.
  assert (id_payload (discovery_payload run (User.id actor))) by ids_ok.
  assert (id_payload (evaluation_payload account_id (User.id actor) discovery_id (Run.id run)))
    by ids_ok.
  assert (id_payload (rediscovery_payload account_id (User.id actor))) by ids_ok.
  assert (id_payload (manual_discovery_payload account_id (User.id actor))) by ids_ok.
  assert (id_payload (delivery_payload event_id)) by ids_ok.
  assert (id_payload (remediation_payload request_id (User.id actor))) by ids_ok.
  assert (∀ o, id_payload (manual_evaluation_payload account_id (User.id actor) o)) as Hj
    by (intros []; ids_ok).
  split_and!; try (by apply carries_id); [done| | |].
  - intros o. specialize (Hj o). split_and!; [by apply carries_id|by apply carries_id|by destruct o|].
    intros [-> | ->]; [done|]. by apply optional_uuid_read.
  - by apply id_payload_valid.
  - intros E. unfold _discovery, payload_of. by rewrite E.
Qed.

(** * Witnesses *)

(** The worker of an installation that discovers nothing. *)
Definition lab_dispatch (dr : worker_draws) : PlatformJob → txn DB handled :=
  _dispatch (F := unit) [] [] None (λ _, inl tt) (SecurityRules.mk_RuleRegistry [])
    (mk_mock "success" 0) "http://localhost:3000"
    (Remediation.mk_Settings false false false) (mk_RemediationActionRegistry ∅ ∅)
    (mk_MockRemediationExecutor "success" 0) (λ _, mk_MockRemediationExecutor "success" 0) dr.

Definition lab_draws (k : uuid) : worker_draws :=
  mk_worker_draws 300 (4000 + k) (5000 + k) (6000 + k)
    (mk_discovery_draws (λ _ _, 7000%N) 301 (λ _, 302%Z) 303) (8000 + k)
    (Evaluations.mk_draws (λ _, 0%N) (λ _ _, 0%N) (λ _ _, 0%N) (λ _ _, 304%Z))
    (mk_times 305 306 307) (9000 + k).
Definition lab_step (k : uuid) : step_draws :=
  mk_step_draws (10000 + k) (250 + Z.of_N k) (251 + Z.of_N k) (252 + Z.of_N k) (400 + Z.of_N k).

(** The scan of the first schedule is queued. *)
Definition scan_queued : DB := (run (run_due_schedules 200 tick_draws 100) schedules_lab).2.
Definition scan_step (meanwhile : DB → DB) : Prelude.outcome bool * DB :=
  run (process_one "worker" 60 (λ _, "") (lab_dispatch (lab_draws 0)) meanwhile (lab_step 0)) scan_queued.

(** Another worker takes the job over. *)
Definition taken_over (d : DB) : DB :=
  match DB.platform_jobs d !! 2040%N with
  | Some j => d <| DB.platform_jobs ::= put (j <| Job.lease_token := Some 77%N |>) |>
  | None => d
  end.

Lemma scan_queued_ok : jobs_ok scan_queued.
Proof. apply jobs_ok_sound, sound_tested. vm_compute. reflexivity. Qed.

Lemma process_one_is_fenced_witness :
  ∃ j0 o s d', Job.id j0 = 2040%N
  ∧ step_outcome (λ _, "") (lab_step 0) 2040 (inl (inl (Some (uuid_str 4000)))) s (λ d, d) o d'
  ∧ holds (leased_job "worker" 60 (lab_step 0) j0) (working s).
Proof.
  pose proof (process_one_is_fenced "worker" 60 (λ _, "") (lab_dispatch (lab_draws 0)) (λ d, d)
    (lab_step 0) scan_queued scan_queued_ok (λ j, keeps_dispatch _ _ _ _ _ _ _ _ _ _ _ j _ j)
    (λ d H, H)) as H.
  destruct (run _ scan_queued) as [o d'].
  assert (match first_by before (filter_rows (acquirable (wd_acquire (lab_step 0)))
            (DB.platform_jobs scan_queued)) with
          | Some j0 =>
              let j1 := leased_job "worker" 60 (lab_step 0) j0 in
              let d1 := scan_queued <| DB.platform_jobs ::= put j1 |> in
              (Job.id j0 =? 2040)%N
              && match (lab_dispatch (lab_draws 0) j1 (Sess d1 d1)).1 with
                 | Ret (inl (Some t)) => String.eqb t (uuid_str 4000)
                 | _ => false
                 end
          | None => false
          end = true) as Hc by (vm_compute; reflexivity).
  destruct (first_by _ _) as [j0|]; [|discriminate Hc]. cbv zeta in H, Hc.
  apply andb_true_iff in Hc as [Hid%N.eqb_eq Hr].
  destruct (lab_dispatch _ _ _) as [r s]. cbn [fst] in Hr.
  destruct r as [[[t|]|]|]; try discriminate Hr. apply String.eqb_eq in Hr. subst t.
  destruct H as (_ & Hw & Ho). rewrite Hid in Ho.
  exists j0, o, s, d'. split; [exact Hid|]. split; [exact Ho|exact Hw].
Defined.

Lemma payloads_are_read_back_witness :
  carries (run_payload (scan_of 200 tick_draws (nightly 40 20 (Some 10%N)))
             (nightly 40 20 (Some 10%N)) alice) "scan_run_id" 1040.
Proof.
  refine (proj1 (proj1 (payloads_are_read_back (scan_of 200 tick_draws (nightly 40 20 (Some 10%N)))
    (nightly 40 20 (Some 10%N)) alice 20 30 70 80 (F := unit) [] [] None (λ _, inl tt) (lab_draws 0)
    (new_job 1 1 0 1 PlatformJobType.DISCOVERY 20 "k" [] None 0 3 None None)
    (Sess scan_queued scan_queued) _ _ _ _ _ _ _ _))); reflexivity.
Defined.
