(* ===== verification/Risk.v ===== *)
(** services/risk.py and api/v1/risk.py: the risk contexts of accounts and
    assets, compensating controls, and assessments, which score every active
    finding and freeze the scores of findings, accounts and the organization.

    Times are aware.  [SELECT ... FOR UPDATE NOWAIT], which fails when another
    assessment holds the row, is not modelled: transactions run one at a time. *)

From S2P Require Import Prelude.
From S2P Require Import History.
From S2P Require Import Enums.
From S2P Require Import Rbac.
From S2P Require Import PyValue.
From S2P Require Import Models.
From S2P Require Import Tables.
From S2P Require Import Common.
From S2P Require Import Organizations.
From S2P Require Import RiskEngine.
From Stdlib Require Import Ascii.
From stdpp Require Import list.

Module Policy := RiskScoringPolicy.
Module RC := AssetRiskContext.
Module RA := RiskAssessment.
Module FR := FindingRiskSnapshot.
Module AR := AccountRiskSnapshot.
Module OR := OrganizationRiskSnapshot.
Module CC := CompensatingControl.
Module Fnd := Finding.

(** * Tables *)

Definition between (lo x hi : Z) : bool := (lo <=? x)%Z && (x <=? hi)%Z.

(** models/risk.py:40-40, part of RiskScoringPolicy.  The key and the CHECK
    constraint. *)
Definition policy_conflict (p p' : RiskScoringPolicy) : bool :=
  (Policy.key p ≟ Policy.key p') && (Policy.version p ≟ Policy.version p').
(** models/risk.py:41-41, part of RiskScoringPolicy. *)
Definition policy_checks (p : RiskScoringPolicy) : bool := (0 <? Policy.version p)%Z.

(** models/risk.py:75-75, part of AssetRiskContext. *)
Definition context_checks (c : AssetRiskContext) : bool := (0 <? RC.version c)%Z.
(** models/risk.py:78-91, part of AssetRiskContext.  One context per asset, and one
    default per account. *)
Definition context_conflict (c c' : AssetRiskContext) : bool :=
  (RC.asset_id c ≟ RC.asset_id c')
  && (is_some_ (RC.asset_id c) || (RC.aws_account_id c ≟ RC.aws_account_id c')).

Definition active_risk_assessment (a : RiskAssessment) : bool :=
  bool_decide (RA.status a ∈ [RiskAssessmentStatus.PENDING; RiskAssessmentStatus.RUNNING]).

(** models/risk.py:169-190, part of RiskAssessment.  The CHECK constraints. *)
Definition risk_assessment_checks (a : RiskAssessment) : bool :=
  forallb (Z.leb 0)
    [RA.findings_total a; RA.critical_count a; RA.high_count a; RA.medium_count a;
     RA.low_count a; RA.informational_count a; RA.accounts_scored a]
  && (RA.findings_total a =? RA.critical_count a + RA.high_count a + RA.medium_count a
        + RA.low_count a + RA.informational_count a)%Z
  && from_option (λ s, between 0 s 100) true (RA.aggregate_score a)
  && match RA.status a with
     | RiskAssessmentStatus.PENDING => is_none_ (RA.started_at a) && is_none_ (RA.finished_at a)
     | RiskAssessmentStatus.RUNNING => is_some_ (RA.started_at a) && is_none_ (RA.finished_at a)
     | _ => is_some_ (RA.started_at a) && is_some_ (RA.finished_at a)
     end.
(** models/risk.py:194-212, part of RiskAssessment.  One active assessment per
    scope and policy. *)
Definition risk_assessment_conflict (a a' : RiskAssessment) : bool :=
  active_risk_assessment a && active_risk_assessment a'
  && (RA.organization_id a ≟ RA.organization_id a')
  && (RA.aws_account_id a ≟ RA.aws_account_id a') && (RA.policy_id a ≟ RA.policy_id a').

(** models/risk.py:290-305, part of FindingRiskSnapshot. *)
Definition finding_risk_checks (s : FindingRiskSnapshot) : bool :=
  (0 <? FR.policy_version s)%Z && between 0 (FR.risk_score s) 100
  && between 0 (FR.severity_points s) 30 && between 0 (FR.exposure_points s) 15
  && between 0 (FR.exploitability_points s) 10 && between 0 (FR.privilege_points s) 10
  && between 0 (FR.asset_criticality_points s) 10 && between 0 (FR.environment_points s) 5
  && between 0 (FR.business_impact_points s) 10 && between 0 (FR.data_sensitivity_points s) 5
  && between 0 (FR.age_points s) 5 && between (-15) (FR.compensating_adjustment s) 0.
(** models/risk.py:277-277, part of FindingRiskSnapshot. *)
Definition finding_risk_conflict (s s' : FindingRiskSnapshot) : bool :=
  (FR.assessment_id s ≟ FR.assessment_id s') && (FR.finding_id s ≟ FR.finding_id s').

(** models/risk.py:381-386, part of AccountRiskSnapshot. *)
Definition account_risk_checks (s : AccountRiskSnapshot) : bool :=
  between 0 (AR.risk_score s) 100 && between 0 (AR.highest_finding_score s) 100
  && between 0 (AR.top_ten_mean s) 100 && between 0 (AR.all_findings_mean s) 100
  && (0 <=? AR.findings_total s)%Z.
(** models/risk.py:368-368, part of AccountRiskSnapshot. *)
Definition account_risk_conflict (s s' : AccountRiskSnapshot) : bool :=
  (AR.assessment_id s ≟ AR.assessment_id s') && (AR.aws_account_id s ≟ AR.aws_account_id s').

(** models/risk.py:428-432, part of OrganizationRiskSnapshot. *)
Definition organization_risk_checks (s : OrganizationRiskSnapshot) : bool :=
  between 0 (OR.risk_score s) 100 && between 0 (OR.highest_account_score s) 100
  && between 0 (OR.mean_account_score s) 100 && (0 <=? OR.accounts_total s)%Z.
(** models/risk.py:421-421, part of OrganizationRiskSnapshot. *)
Definition organization_risk_conflict (s s' : OrganizationRiskSnapshot) : bool :=
  OR.assessment_id s ≟ OR.assessment_id s'.

(** models/risk.py:470-477, part of CompensatingControl. *)
Definition compensating_checks (c : CompensatingControl) : bool :=
  between (-15) (CC.score_adjustment c) (-1)
  && from_option (λ t, CC.created_at c <? t)%Z true (CC.expires_at c).
(** models/risk.py:480-486, part of CompensatingControl. *)
Definition compensating_conflict (c c' : CompensatingControl) : bool :=
  CC.active c && CC.active c' && (CC.finding_id c ≟ CC.finding_id c').

#[export] Instance policies_table : Table RiskScoringPolicy.
Proof.
  refine (mk_table _ _ DB.risk_policies (λ f d, d <| DB.risk_policies ::= f |>) policy_checks
    policy_conflict _ _ _ _ _); unfold policy_conflict; solve_table.
Defined.
#[export] Instance contexts_table : Table AssetRiskContext.
Proof.
  refine (mk_table _ _ DB.risk_contexts (λ f d, d <| DB.risk_contexts ::= f |>) context_checks
    context_conflict _ _ _ _ _);
    [> by intros | by intros | by intros ? ? [] E; cbn in E |- *; unfold upd; cbn; rewrite E
     | by intros [] | intros c c'; unfold context_conflict].
  rewrite (bool_decide_ext (RC.asset_id c' = _) (RC.asset_id c = RC.asset_id c')) by done.
  rewrite (bool_decide_ext (RC.aws_account_id c' = _) (RC.aws_account_id c = RC.aws_account_id c'))
    by done.
  case_bool_decide as E; [by rewrite E|done].
Defined.
#[export] Instance risk_assessments_table : Table RiskAssessment.
Proof.
  refine (mk_table _ _ DB.risk_assessments (λ f d, d <| DB.risk_assessments ::= f |>)
    risk_assessment_checks risk_assessment_conflict _ _ _ _ _);
    unfold risk_assessment_conflict; solve_table.
Defined.
#[export] Instance finding_risks_table : Table FindingRiskSnapshot.
Proof.
  refine (mk_table _ _ DB.finding_risks (λ f d, d <| DB.finding_risks ::= f |>)
    finding_risk_checks finding_risk_conflict _ _ _ _ _);
    unfold finding_risk_conflict; solve_table.
Defined.
#[export] Instance account_risks_table : Table AccountRiskSnapshot.
Proof.
  refine (mk_table _ _ DB.account_risks (λ f d, d <| DB.account_risks ::= f |>)
    account_risk_checks account_risk_conflict _ _ _ _ _);
    unfold account_risk_conflict; solve_table.
Defined.
#[export] Instance organization_risks_table : Table OrganizationRiskSnapshot.
Proof.
  refine (mk_table _ _ DB.organization_risks (λ f d, d <| DB.organization_risks ::= f |>)
    organization_risk_checks organization_risk_conflict _ _ _ _ _);
    unfold organization_risk_conflict; solve_table.
Defined.
#[export] Instance compensating_table : Table CompensatingControl.
Proof.
  refine (mk_table _ _ DB.compensating_controls (λ f d, d <| DB.compensating_controls ::= f |>)
    compensating_checks compensating_conflict _ _ _ _ _);
    unfold compensating_conflict; solve_table.
Defined.

(** * The service *)

(** risk_engine.py:90-104, POLICY_WEIGHTS. *)
Definition POLICY_WEIGHTS : pyval :=
  let ints (l : list (string * Z)) := PDict (map (λ kv, (kv.1, PInt kv.2)) l) in
  PDict
    [("component_maximums", ints COMPONENT_MAXIMUMS);
     ("severity", ints (map (λ x, (FindingSeverity.value x, SEVERITY_POINTS x)) FindingSeverity.all));
     ("exposure", ints EXPOSURE_POINTS);
     ("exploitability", ints EXPLOITABILITY_POINTS);
     ("required_privilege", ints PRIVILEGE_POINTS);
     ("asset_criticality",
       ints (map (λ x, (RiskCriticality.value x, CRITICALITY_POINTS x)) RiskCriticality.all));
     ("environment",
       ints (map (λ x, (RiskEnvironment.value x, ENVIRONMENT_POINTS x)) RiskEnvironment.all));
     ("business_impact",
       ints (map (λ x, (BusinessImpact.value x, BUSINESS_IMPACT_POINTS x)) BusinessImpact.all));
     ("data_sensitivity",
       ints (map (λ x, (DataSensitivity.value x, DATA_SENSITIVITY_POINTS x)) DataSensitivity.all));
     ("age_threshold_days", ints [("0", 0); ("7", 1); ("30", 3); ("90", 4); ("180", 5)]);
     ("compensating_control", ints [("minimum", -15); ("maximum", 0)]);
     ("account_aggregate", ints [("highest", 50); ("top_ten_mean", 30); ("all_mean", 20)]);
     ("organization_aggregate", ints [("highest_account", 60); ("mean_account", 40)])]%Z.

(** risk_engine.py:17-17, POLICY_KEY. *)
Definition POLICY_KEY : string := "CLOUDOPS_RISK_V1".
(** risk_engine.py:18-18, POLICY_VERSION. *)
Definition POLICY_VERSION : Z := 1.

Definition policy_is (p : RiskScoringPolicy) : bool :=
  (Policy.key p ≟ POLICY_KEY) && (Policy.version p ≟ POLICY_VERSION).

(** services/risk.py:69-80, part of RiskService.ensure_policy. *)
Definition shipped_policy (new_id : uuid) : RiskScoringPolicy :=
  Policy.mk new_id POLICY_KEY POLICY_VERSION "CloudOps deterministic risk policy v1"
    ("CVSS-inspired deterministic cloud-risk prioritization; " +:+ "this is not a CVSS score.")
    POLICY_WEIGHTS
    (PDict (map (λ '(p, (lo, hi)), (RiskPriority.value p, PList [PInt lo; PInt hi])) POLICY_BANDS))
    true.

(** services/risk.py:61-83, RiskService.ensure_policy. *)
Definition ensure_policy (new_id : uuid) : txn DB RiskScoringPolicy :=
  get_or_create policy_is (shipped_policy new_id).

(** services/risk.py:501-528, RiskService._lock_scope. *)
Definition _lock_scope (organization_id actor_id : uuid) (aws_account_id : option uuid)
    : txn DB () :=
  match aws_account_id with
  | Some account_id =>
      authorized ← gets (aws_account_for_user account_id actor_id);
      ensure (from_option (λ am, AWSAccount.organization_id am.1 ≟ organization_id) false authorized)
        (NotFoundError "aws_account_not_found")
  | None =>
      organization ← gets (λ d, DB.organizations d !! organization_id);
      ensure (is_some_ organization) (NotFoundError "organization_not_found")
  end.

(** services/risk.py:530-544, RiskService._active_findings.  Each with its asset. *)
Definition _active_findings (organization_id : uuid) (account_id : option uuid) (d : DB)
    : list (Finding * option Asset) :=
  map (λ f, (f, i ← Fnd.asset_id f; DB.assets d !! i))
    (sort_by (λ f f', (Fnd.aws_account_id f <? Fnd.aws_account_id f')%N
                      || (Fnd.aws_account_id f =? Fnd.aws_account_id f')%N
                         && (Fnd.id f <=? Fnd.id f')%N)
       (filter_rows (λ f, (Fnd.organization_id f ≟ organization_id)
            && bool_decide (Fnd.status f ∈ [FindingStatus.OPEN; FindingStatus.SUPPRESSED])
            && from_option (λ i, Fnd.aws_account_id f ≟ i) true account_id) (DB.findings d))).

(** services/risk.py:546-551, RiskService._contexts. *)
Definition _contexts (organization_id : uuid) (d : DB) : list AssetRiskContext :=
  filter_rows (λ c, RC.organization_id c ≟ organization_id) (DB.risk_contexts d).

(** services/risk.py:553-570, RiskService._context_for. *)
Definition _context_for (contexts : list AssetRiskContext) (account_id : uuid)
    (asset_id : option uuid) : option AssetRiskContext :=
  match List.find (λ c, is_some_ asset_id && (RC.asset_id c ≟ asset_id)) contexts with
  | Some c => Some c
  | None => List.find (λ c, (RC.aws_account_id c ≟ account_id) && is_none_ (RC.asset_id c)) contexts
  end.

(** services/risk.py:572-585, RiskService._controls.  The control of a finding, the
    last one of the dict. *)
Definition _controls (organization_id : uuid) (evaluated_at : timestamp) (d : DB)
    (finding_id : uuid) : option CompensatingControl :=
  List.find (λ c, CC.finding_id c ≟ finding_id)
    (rev (filter_rows (λ c, (CC.organization_id c ≟ organization_id) && CC.active c
            && from_option (λ t, evaluated_at <? t)%Z true (CC.expires_at c))
       (DB.compensating_controls d))).

(** services/risk.py:587-598, RiskService._account_ids. *)
Definition _account_ids (organization_id : uuid) (account_id : option uuid) (d : DB)
    : list uuid :=
  match account_id with
  | Some i => [i]
  | None => sort_by N.leb (map AWSAccount.id
      (filter_rows (λ a, AWSAccount.organization_id a ≟ organization_id) (DB.aws_accounts d)))
  end.

(** services/risk.py:600-623, RiskService._require_tenant_asset. *)
Definition _require_tenant_asset (organization_id account_id : uuid) (asset_id : option uuid)
    : txn DB () :=
  account ← gets (λ d, find_row (λ a, (AWSAccount.id a ≟ account_id)
                && (AWSAccount.organization_id a ≟ organization_id)) (DB.aws_accounts d));
  _ ← ensure (is_some_ account) (NotFoundError "aws_account_not_found");
  match asset_id with
  | Some asset_id =>
      asset ← gets (λ d, find_row (λ a, (Asset.id a ≟ asset_id)
                && (Asset.aws_account_id a ≟ account_id)
                && (Asset.organization_id a ≟ organization_id)) (DB.assets d));
      ensure (is_some_ asset) (NotFoundError "asset_not_found")
  | None => mret tt
  end.

(** services/risk.py:625-635, RiskService._asset_exposure. *)
Definition _asset_exposure (asset : option Asset) : option string :=
  match asset with
  | None => None
  | Some asset =>
      let metadata := match Asset.metadata_json asset with PDict m => m | _ => [] end in
      foldr (λ key rest, match dget key metadata with
                         | Some (PBool true) => Some "public"
                         | Some (PBool false) => Some "internal"
                         | _ => rest
                         end) None ["publicly_accessible"; "public_ip"; "is_public"]
  end.

(** The identifiers that an assessment draws: of its snapshots by finding and by
    account. *)
Record risk_draws := mk_risk_draws {
  new_policy : uuid; new_assessment : uuid;
  new_finding_risk : uuid → uuid; new_account_risk : uuid → uuid; new_organization_risk : uuid
}.

(** A stored time, which is aware. *)
Definition utc (t : timestamp) : datetime := mk_datetime t (Some 0%Z).

Section assess.
Context (dr : risk_draws) (assessed_at : timestamp).

(** services/risk.py:161-180, part of RiskService.assess.  What is known of a
    finding. *)
Definition risk_inputs (contexts : list AssetRiskContext)
    (controls : uuid → option CompensatingControl) (finding : Finding) (asset : option Asset)
    : RiskInputs :=
  let context := _context_for contexts (Fnd.aws_account_id finding) (Fnd.asset_id finding) in
  let control := controls (Fnd.id finding) in
  mk_RiskInputs (Fnd.severity finding) (Fnd.rule_key finding) (utc (Fnd.first_seen_at finding))
    (utc assessed_at)
    (from_option RC.criticality RiskCriticality.UNKNOWN context)
    (from_option RC.environment RiskEnvironment.UNKNOWN context)
    (from_option RC.business_impact BusinessImpact.UNKNOWN context)
    (from_option RC.data_sensitivity DataSensitivity.UNKNOWN context)
    (_asset_exposure asset) None None
    (from_option CC.score_adjustment 0%Z control).

(** services/risk.py:181-208, part of RiskService.assess.  The snapshot of a
    finding; a component that is missing is a KeyError. *)
Definition finding_snapshot (assessment_id organization_id : uuid) (policy : RiskScoringPolicy)
    (finding : Finding) (result : RiskResult) : option FindingRiskSnapshot :=
  let component key := RiskEngine.assoc key (components result) in
  severity ← component "severity"; exposure ← component "exposure";
  exploitability ← component "exploitability"; privilege ← component "privilege";
  criticality ← component "asset_criticality"; environment ← component "environment";
  business_impact ← component "business_impact"; data_sensitivity ← component "data_sensitivity";
  age ← component "age"; adjustment ← component "compensating_controls";
  Some (FR.mk (new_finding_risk dr (Fnd.id finding)) assessment_id organization_id
    (Fnd.aws_account_id finding) (Fnd.id finding) (Fnd.asset_id finding)
    (Fnd.lifecycle_version finding) (Fnd.status finding) (Policy.key policy) (Policy.version policy)
    assessed_at (score result) (priority result) severity exposure exploitability privilege
    criticality environment business_impact data_sensitivity age adjustment
    (PDict (map (λ kv, (kv.1, PStr kv.2)) (explanation_codes result)))
    (unknown_inputs result)).

(** services/risk.py:160-208, part of RiskService.assess.  One turn of the loop. *)
Definition score_one (assessment_id organization_id : uuid) (policy : RiskScoringPolicy)
    (contexts : list AssetRiskContext) (controls : uuid → option CompensatingControl)
    (fa : Finding * option Asset) : option FindingRiskSnapshot :=
  result ← score_finding (risk_inputs contexts controls fa.1 fa.2);
  finding_snapshot assessment_id organization_id policy fa.1 result.

(** [account_scores.get(account_id, [])] *)
Definition scores_of (snapshots : list FindingRiskSnapshot) (account_id : uuid) : list Z :=
  map FR.risk_score (filter (λ s, FR.aws_account_id s = account_id) snapshots).

(** services/risk.py:224-240, part of RiskService.assess. *)
Definition account_snapshot (assessment_id organization_id : uuid)
    (snapshots : list FindingRiskSnapshot) (account_id : uuid) : AccountRiskSnapshot :=
  let scores := scores_of snapshots account_id in
  let aggregate := account_risk scores in
  AR.mk (new_account_risk dr account_id) assessment_id organization_id account_id assessed_at
    (agg_score aggregate) (agg_priority aggregate) (highest aggregate) (focused_mean aggregate)
    (overall_mean aggregate) (Z.of_nat (length scores)).

(** services/risk.py:241-254, part of RiskService.assess. *)
Definition organization_snapshot (assessment_id organization_id : uuid)
    (accounts : list AccountRiskSnapshot) : OrganizationRiskSnapshot :=
  let aggregate := organization_risk (map AR.risk_score accounts) in
  OR.mk (new_organization_risk dr) assessment_id organization_id assessed_at
    (agg_score aggregate) (agg_priority aggregate) (highest aggregate) (focused_mean aggregate)
    (Z.of_nat (length accounts)) (reason_code aggregate).

Definition count_severity (severity : FindingSeverity) (findings : list (Finding * option Asset)) : Z :=
  Z.of_nat (length (filter (λ fa, Fnd.severity fa.1 = severity) findings)).

(** services/risk.py:255-265, part of RiskService.assess.  The finished row. *)
Definition finish_assessment (findings : list (Finding * option Asset))
    (organization : OrganizationRiskSnapshot) (assessment : RiskAssessment) : RiskAssessment :=
  assessment
    <| RA.findings_total := Z.of_nat (length findings) |>
    <| RA.critical_count := count_severity FindingSeverity.CRITICAL findings |>
    <| RA.high_count := count_severity FindingSeverity.HIGH findings |>
    <| RA.medium_count := count_severity FindingSeverity.MEDIUM findings |>
    <| RA.low_count := count_severity FindingSeverity.LOW findings |>
    <| RA.informational_count := count_severity FindingSeverity.INFORMATIONAL findings |>
    <| RA.accounts_scored := OR.accounts_total organization |>
    <| RA.aggregate_score := Some (OR.risk_score organization) |>
    <| RA.aggregate_priority := Some (OR.priority organization) |>
    <| RA.status := RiskAssessmentStatus.COMPLETED |>
    <| RA.finished_at := Some assessed_at |>.

(** services/risk.py:280-287, part of RiskService.assess.  The flush of all that is
    pending and the commit. *)
Definition commit_assessment (assessment : RiskAssessment)
    (snapshots : list FindingRiskSnapshot) (accounts : list AccountRiskSnapshot)
    (organization : OrganizationRiskSnapshot) : txn DB () :=
  try_catch
    (_ ← save false assessment;
     _ ← save_all snapshots;
     _ ← save_all accounts;
     _ ← save true organization;
     commit)
    (λ e, match e with
          | IntegrityError => _ ← rollback; raise (ConflictError "risk_assessment_active")
          | e => raise e
          end).

(** services/risk.py:120-130, part of RiskService.assess.  The row as it starts. *)
Definition requested (organization_id : uuid) (actor : User) (aws_account_id : option uuid)
    (policy : RiskScoringPolicy) : RiskAssessment :=
  RA.mk (new_assessment dr) organization_id aws_account_id (Policy.id policy)
    assessed_at assessed_at RiskAssessmentStatus.RUNNING (User.id actor) (Some assessed_at) None
    0 0 0 0 0 0 0 None None None assessed_at.

(** services/risk.py:118-288, part of RiskService.assess.  The scores of a scope,
    under a policy. *)
Definition score_scope (organization_id : uuid) (actor : User) (aws_account_id : option uuid)
    (policy : RiskScoringPolicy) : txn DB RiskAssessment :=
  let assessment := requested organization_id actor aws_account_id policy in
  _ ← save true assessment;
  _ ← audit_ok "risk.assessment.requested" "risk_assessment" organization_id (User.id actor)
        (RA.id assessment);
  findings ← gets (_active_findings organization_id aws_account_id);
  contexts ← gets (_contexts organization_id);
  controls ← gets (_controls organization_id assessed_at);
  snapshots ← some_or (mapM (score_one (RA.id assessment) organization_id policy contexts controls)
                         findings) KeyError;
  account_ids ← gets (_account_ids organization_id aws_account_id);
  let accounts := map (account_snapshot (RA.id assessment) organization_id snapshots) account_ids in
  let organization := organization_snapshot (RA.id assessment) organization_id accounts in
  let assessment := finish_assessment findings organization assessment in
  _ ← audit_ok "risk.assessment.completed" "risk_assessment" organization_id (User.id actor)
        (RA.id assessment);
  _ ← commit_assessment assessment snapshots accounts organization;
  mret assessment.
(** services/risk.py:85-302, RiskService.assess. *)
Definition assess (organization_id : uuid) (actor : User) (aws_account_id : option uuid)
    : txn DB RiskAssessment :=
  _ ← require_capability organization_id (User.id actor) Capability.RISK_ASSESS;
  _ ← _lock_scope organization_id (User.id actor) aws_account_id;
  policy ← ensure_policy (new_policy dr);
  active ← gets (λ d, find_row (λ a, (RA.organization_id a ≟ organization_id)
              && (RA.aws_account_id a ≟ aws_account_id) && (RA.policy_id a ≟ Policy.id policy)
              && active_risk_assessment a) (DB.risk_assessments d));
  _ ← ensure (is_none_ active) (ConflictError "risk_assessment_active");
  score_scope organization_id actor aws_account_id policy.
End assess.

(** services/risk.py:304-380, RiskService.update_context. *)
Definition update_context (new_id organization_id : uuid) (actor : User) (aws_account_id : uuid)
    (asset_id : option uuid) (criticality : RiskCriticality) (environment : RiskEnvironment)
    (business_impact : BusinessImpact) (data_sensitivity : DataSensitivity)
    (expected_version : option Z) : txn DB AssetRiskContext :=
  _ ← require_capability organization_id (User.id actor) Capability.RISK_CONTEXT_MANAGE;
  _ ← _require_tenant_asset organization_id aws_account_id asset_id;
  context ← gets (λ d, find_row (λ c, (RC.organization_id c ≟ organization_id)
                && (RC.aws_account_id c ≟ aws_account_id) && (RC.asset_id c ≟ asset_id))
              (DB.risk_contexts d));
  let stale := ConflictError "risk_context_stale" in
  context ← match context with
            | None =>
                _ ← ensure (bool_decide (expected_version ∈ [None; Some 0%Z])) stale;
                let context := RC.mk new_id organization_id aws_account_id asset_id criticality
                  environment business_impact data_sensitivity "manual" (User.id actor) 1 in
                _ ← save true context;
                mret context
            | Some context =>
                _ ← ensure (from_option (λ v, v =? RC.version context)%Z true expected_version) stale;
                let context := context
                  <| RC.criticality := criticality |> <| RC.environment := environment |>
                  <| RC.business_impact := business_impact |>
                  <| RC.data_sensitivity := data_sensitivity |>
                  <| RC.updated_by_user_id := User.id actor |>
                  <| RC.version ::= Z.succ |> in
                _ ← save false context;
                mret context
            end;
  _ ← audit_ok "risk.context.changed" "asset_risk_context" organization_id (User.id actor)
        (RC.id context);
  _ ← commit;
  mret context.

(** services/risk.py:382-458, RiskService.add_compensating_control. *)
Definition add_compensating_control (new_id : uuid) (now : timestamp)
    (organization_id finding_id : uuid) (actor : User) (reason : string) (score_adjustment : Z)
    (expires_at : option timestamp) : txn DB CompensatingControl :=
  _ ← require_capability organization_id (User.id actor) Capability.RISK_CONTROLS_MANAGE;
  finding ← gets (λ d, find_row (λ f, (Fnd.id f ≟ finding_id)
                                      && (Fnd.organization_id f ≟ organization_id))
                         (DB.findings d));
  finding ← some_or finding (NotFoundError "finding_not_found");
  _ ← ensure (from_option (λ t, now <? t)%Z true expires_at)
        (AppError "compensating_control_expired" 422);
  active ← gets (λ d, find_row (λ c, (CC.finding_id c ≟ Fnd.id finding) && CC.active c)
                        (DB.compensating_controls d));
  _ ← ensure (is_none_ active) (ConflictError "compensating_control_active");
  let control := CC.mk new_id organization_id (Fnd.aws_account_id finding) (Fnd.id finding) reason
    score_adjustment (User.id actor) expires_at true now in
  _ ← save true control;
  _ ← audit_ok "risk.compensating_control.created" "compensating_control" organization_id
        (User.id actor) (CC.id control);
  _ ← commit;
  mret control.

(** services/risk.py:460-499, RiskService.remove_compensating_control. *)
Definition remove_compensating_control (organization_id control_id : uuid) (actor : User)
    : txn DB () :=
  _ ← require_capability organization_id (User.id actor) Capability.RISK_CONTROLS_MANAGE;
  control ← gets (λ d, find_row (λ c, (CC.id c ≟ control_id)
                                      && (CC.organization_id c ≟ organization_id))
                         (DB.compensating_controls d));
  control ← some_or control (NotFoundError "compensating_control_not_found");
  _ ← audit_ok "risk.compensating_control.removed" "compensating_control" organization_id
        (User.id actor) (CC.id control);
  _ ← save false (control <| CC.active := false |>);
  commit.

(** * Endpoints *)

(** [ORDER BY] of several numbers; a descending one is negated. *)
Fixpoint lex (l : list (Z * Z)) : bool :=
  match l with
  | [] => true
  | (a, b) :: l => (a <? b)%Z || (a =? b)%Z && lex l
  end.

(** api/v1/risk.py:59-60, _require_read. *)
Definition _require_read (user : User) (organization_id : uuid) : txn DB () :=
  _ ← require_capability organization_id (User.id user) Capability.RISK_READ; mret tt.

(** api/v1/risk.py:63-79, policies. *)
Definition policies (new_id : uuid) (user : User) (organization_id : uuid)
    : txn DB (list RiskScoringPolicy) :=
  _ ← _require_read user organization_id;
  _ ← ensure_policy new_id;
  _ ← commit;
  rows ← gets (λ d, filter_rows (λ _, true) (DB.risk_policies d));
  mret (sort_by (λ p p', negb (String.leb (Policy.key p') (Policy.key p))
                         || String.eqb (Policy.key p) (Policy.key p')
                            && (Policy.version p' <=? Policy.version p)%Z) rows).

(** api/v1/risk.py:82-123, assess. *)
Definition assess_endpoint (dr : risk_draws) (assessed_at : timestamp) (organization_id : uuid)
    (user : User) (aws_account_id : option uuid) : txn DB RiskAssessment :=
  try_catch (assess dr assessed_at organization_id user aws_account_id)
    (λ e, if is_app_error e then raise e
          else
            _ ← rollback;
            _ ← record_audit "risk.assessment.failed" "risk_assessment" AuditResult.SUCCEEDED
                  (Some organization_id) (Some (User.id user)) None;
            _ ← commit;
            raise e).

(** api/v1/risk.py:126-159, assessments. *)
Definition assessments (user : User) (organization_id : uuid) (aws_account_id : option uuid)
    (assessment_status : option RiskAssessmentStatus)
    (started_after started_before : option timestamp) (page page_size : nat)
    : txn DB (list RiskAssessment * nat) :=
  _ ← _require_read user organization_id;
  rows ← gets (λ d, filter_rows (λ a, (RA.organization_id a ≟ organization_id)
      && from_option (λ i, RA.aws_account_id a ≟ Some i) true aws_account_id
      && from_option (λ s, RA.status a ≟ s) true assessment_status
      && from_option (λ t, from_option (Z.ltb t) false (RA.started_at a)) true started_after
      && from_option (λ t, from_option (λ u, Z.ltb u t) false (RA.started_at a)) true started_before)
    (DB.risk_assessments d));
  mret (page_of page page_size (sort_by (newest_first RA.evaluation_time RA.id) rows), length rows).

(** api/v1/risk.py:162-178, assessment_detail. *)
Definition assessment_detail (assessment_id : uuid) (user : User) (organization_id : uuid)
    : txn DB RiskAssessment :=
  _ ← _require_read user organization_id;
  item ← gets (λ d, find_row (λ a, (RA.id a ≟ assessment_id)
                                   && (RA.organization_id a ≟ organization_id))
                      (DB.risk_assessments d));
  some_or item (NotFoundError "risk_assessment_not_found").

(** api/v1/risk.py:276-283, part of risk_findings.  The latest complete
    assessment of the organization, as in summary and asset_detail. *)
Definition latest_assessment (organization_id : uuid) (d : DB) : option RiskAssessment :=
  first_by (newest_first RA.evaluation_time RA.id)
    (filter_rows (λ a, (RA.organization_id a ≟ organization_id)
                       && (RA.status a ≟ RiskAssessmentStatus.COMPLETED)) (DB.risk_assessments d)).

(** An item of the list of findings: a snapshot, with what is read of its
    finding, its asset and the asset's context. *)
Record FindingRiskListItem := mk_item {
  snapshot : FindingRiskSnapshot;
  item_severity : FindingSeverity; item_rule_key : string; finding_status : FindingStatus;
  asset_name : option string; service : string; region : option string;
  item_business_impact : BusinessImpact
}.

(** [text.split("_", 1)[0]] *)
Fixpoint before_underscore (s : string) : string :=
  match s with
  | String c s => if Ascii.eqb c "_" then "" else String c (before_underscore s)
  | EmptyString => ""
  end.

(** api/v1/risk.py:529-575, _finding_items.  [None] is a KeyError. *)
Definition _finding_items (d : DB) (snapshots : list FindingRiskSnapshot)
    : option (list FindingRiskListItem) :=
  mapM (λ s,
    finding ← DB.findings d !! FR.finding_id s;
    let asset := i ← FR.asset_id s; DB.assets d !! i in
    let context := i ← FR.asset_id s;
                   find_row (λ c, RC.asset_id c ≟ Some i) (DB.risk_contexts d) in
    Some (mk_item s (Fnd.severity finding) (Fnd.rule_key finding) (Fnd.status finding)
      (Asset.name <$> asset) (lower (before_underscore (Fnd.rule_key finding)))
      (Asset.region <$> asset)
      (from_option RC.business_impact BusinessImpact.UNKNOWN context))) snapshots.

(** What the summary shows. *)
Record RiskSummary := mk_summary {
  current : option OrganizationRiskSnapshot; assessment : option RiskAssessment;
  highest_risk_accounts : list AccountRiskSnapshot;
  highest_risk_findings : list FindingRiskListItem;
  highest_risk_assets : list FindingRiskListItem;
  trend : list OrganizationRiskSnapshot
}.

(** api/v1/risk.py:181-241, summary.  Snapshots of equal time are in the order of
    the table. *)
Definition summary (user : User) (organization_id : uuid) : txn DB RiskSummary :=
  _ ← _require_read user organization_id;
  a ← gets (latest_assessment organization_id);
  match a with
  | None => mret (mk_summary None None [] [] [] [])
  | Some a =>
      current ← gets (λ d, find_row (λ o, OR.assessment_id o ≟ RA.id a) (DB.organization_risks d));
      accounts ← gets (λ d, take 10 (sort_by (λ s s', lex
          [(- AR.risk_score s, - AR.risk_score s');
           (Z.of_N (AR.aws_account_id s), Z.of_N (AR.aws_account_id s'))]%Z)
        (filter_rows (λ s, AR.assessment_id s ≟ RA.id a) (DB.account_risks d))));
      findings ← gets (λ d, _finding_items d (take 10 (sort_by (λ s s', lex
          [(- FR.risk_score s, - FR.risk_score s');
           (- FR.business_impact_points s, - FR.business_impact_points s');
           (Z.of_N (FR.finding_id s), Z.of_N (FR.finding_id s'))]%Z)
        (filter_rows (λ s, FR.assessment_id s ≟ RA.id a) (DB.finding_risks d)))));
      findings ← some_or findings KeyError;
      trend ← gets (λ d, take 30 (sort_by (λ o o', OR.evaluation_time o' <=? OR.evaluation_time o)%Z
        (filter_rows (λ o, OR.organization_id o ≟ organization_id) (DB.organization_risks d))));
      mret (mk_summary current (Some a) accounts findings
        (take 10 (filter (λ i, FR.asset_id (snapshot i) ≠ None) findings)) trend)
  end.

(** The filters of the list of findings. *)
Record finding_filters := mk_finding_filters {
  by_account : option uuid; by_asset : option uuid; by_severity : option FindingSeverity;
  by_priority : option RiskPriority; minimum_score : option Z; maximum_score : option Z;
  by_service : option string; by_region : option string;
  by_environment : option RiskEnvironment; by_impact : option BusinessImpact;
  by_sensitivity : option DataSensitivity; by_status : option FindingStatus;
  suppressed : option bool; by_rule : option string; search : option string;
  evaluated_after : option timestamp; evaluated_before : option timestamp
}.

(** A snapshot joined with its finding, its asset and the asset's context. *)
Abbreviation joined :=
  (FindingRiskSnapshot * Finding * option Asset * option AssetRiskContext)%type.
Definition joined_rows (d : DB) (snapshots : list FindingRiskSnapshot) : list joined :=
  omap (λ s,
    f ← DB.findings d !! FR.finding_id s;
    Some (s, f, i ← FR.asset_id s; DB.assets d !! i,
          i ← FR.asset_id s; find_row (λ c, RC.asset_id c ≟ Some i) (DB.risk_contexts d))) snapshots.

(** api/v1/risk.py:299-340, part of risk_findings.  The conditions. *)
Definition finding_matches (q : finding_filters) (x : joined) : bool :=
  let '(s, f, asset, context) := x in
  from_option (λ i, FR.aws_account_id s ≟ i) true (by_account q)
  && from_option (λ i, FR.asset_id s ≟ Some i) true (by_asset q)
  && from_option (λ v, Fnd.severity f ≟ v) true (by_severity q)
  && from_option (λ v, FR.priority s ≟ v) true (by_priority q)
  && from_option (λ v, v <=? FR.risk_score s)%Z true (minimum_score q)
  && from_option (λ v, FR.risk_score s <=? v)%Z true (maximum_score q)
  && from_option (λ v, like_with (λ c, c) (smap upper_char v +:+ "_%") (Fnd.rule_key f)) true
       (given (by_service q))
  && from_option (λ v, from_option (λ a, String.eqb (Asset.region a) v) false asset) true
       (given (by_region q))
  && from_option (λ v, from_option (λ c, RC.environment c ≟ v) false context) true (by_environment q)
  && from_option (λ v, from_option (λ c, RC.business_impact c ≟ v) false context) true (by_impact q)
  && from_option (λ v, from_option (λ c, RC.data_sensitivity c ≟ v) false context) true
       (by_sensitivity q)
  && from_option (λ v, Fnd.status f ≟ v) true (by_status q)
  && from_option (λ b : bool, Fnd.status f ≟
       if b then FindingStatus.SUPPRESSED else FindingStatus.OPEN) true (suppressed q)
  && from_option (λ v, String.eqb (Fnd.rule_key f) v) true (given (by_rule q))
  && from_option (λ t, t <? FR.evaluation_time s)%Z true (evaluated_after q)
  && from_option (λ t, FR.evaluation_time s <? t)%Z true (evaluated_before q)
  && from_option (λ text, let e := escaped text in
       negb (nonempty e)
       || like (anywhere e) (Fnd.rule_key f) || like (anywhere e) (Fnd.category f)
       || from_option (λ a, like (anywhere e) (Asset.name a)) false asset) true (given (search q)).

(** api/v1/risk.py:342-351, part of risk_findings.  [severity_order]. *)
Definition severity_rank (x : FindingSeverity) : Z :=
  match x with
  | FindingSeverity.CRITICAL => 4
  | FindingSeverity.HIGH => 3
  | FindingSeverity.MEDIUM => 2
  | FindingSeverity.LOW => 1
  | _ => 0
  end.
(** api/v1/risk.py:354-360, part of risk_findings.  The order. *)
Definition riskiest_first (x x' : joined) : bool :=
  let '(s, f, _, _) := x in let '(s', f', _, _) := x' in
  lex [(- FR.risk_score s, - FR.risk_score s');
       (- severity_rank (Fnd.severity f), - severity_rank (Fnd.severity f'));
       (- FR.business_impact_points s, - FR.business_impact_points s');
       (Fnd.first_seen_at f, Fnd.first_seen_at f'); (Z.of_N (Fnd.id f), Z.of_N (Fnd.id f'))]%Z.

(** api/v1/risk.py:244-364, risk_findings. *)
Definition risk_findings (user : User) (organization_id : uuid) (q : finding_filters)
    (page page_size : nat) : txn DB (list FindingRiskListItem * nat) :=
  _ ← _require_read user organization_id;
  _ ← ensure (match minimum_score q, maximum_score q with
              | Some lo, Some hi => (lo <=? hi)%Z
              | _, _ => true
              end) (AppError "invalid_score_range" 422);
  latest ← gets (latest_assessment organization_id);
  match latest with
  | None => mret ([], 0)
  | Some latest =>
      rows ← gets (λ d, filter (λ x, finding_matches q x = true) (joined_rows d
        (filter_rows (λ s, (FR.assessment_id s ≟ RA.id latest)
                           && (FR.organization_id s ≟ organization_id)) (DB.finding_risks d))));
      items ← gets (λ d, _finding_items d
        (map (λ '(s, _, _, _), s) (page_of page page_size (sort_by riskiest_first rows))));
      items ← some_or items KeyError;
      mret (items, length rows)
  end.

(** api/v1/risk.py:367-387, risk_finding_detail. *)
Definition risk_finding_detail (finding_id : uuid) (user : User) (organization_id : uuid)
    : txn DB FindingRiskSnapshot :=
  _ ← _require_read user organization_id;
  item ← gets (λ d, first_by (newest_first FR.evaluation_time FR.id)
    (filter_rows (λ s, (FR.finding_id s ≟ finding_id) && (FR.organization_id s ≟ organization_id)
        && from_option (λ a, RA.status a ≟ RiskAssessmentStatus.COMPLETED) false
             (DB.risk_assessments d !! FR.assessment_id s)) (DB.finding_risks d)));
  some_or item (NotFoundError "finding_risk_not_found").

(** api/v1/risk.py:390-408, account_detail. *)
Definition account_detail (account_id : uuid) (user : User) (organization_id : uuid)
    : txn DB AccountRiskSnapshot :=
  _ ← _require_read user organization_id;
  item ← gets (λ d, first_by (newest_first AR.evaluation_time AR.id)
    (filter_rows (λ s, (AR.aws_account_id s ≟ account_id) && (AR.organization_id s ≟ organization_id))
       (DB.account_risks d)));
  some_or item (NotFoundError "account_risk_not_found").

(** api/v1/risk.py:411-444, asset_detail. *)
Definition asset_detail (asset_id : uuid) (user : User) (organization_id : uuid)
    : txn DB (list FindingRiskSnapshot) :=
  _ ← _require_read user organization_id;
  exists_ ← gets (λ d, find_row (λ a, (Asset.id a ≟ asset_id)
                                      && (Asset.organization_id a ≟ organization_id)) (DB.assets d));
  _ ← ensure (is_some_ exists_) (NotFoundError "asset_not_found");
  latest ← gets (latest_assessment organization_id);
  match latest with
  | None => mret []
  | Some latest =>
      gets (λ d, sort_by (λ s s', lex [(- FR.risk_score s, - FR.risk_score s');
                                       (Z.of_N (FR.finding_id s), Z.of_N (FR.finding_id s'))]%Z)
        (filter_rows (λ s, (FR.assessment_id s ≟ RA.id latest) && (FR.asset_id s ≟ Some asset_id))
           (DB.finding_risks d)))
  end.

(** api/v1/risk.py:447-470, get_context. *)
Definition get_context (user : User) (organization_id aws_account_id : uuid)
    (asset_id : option uuid) : txn DB AssetRiskContext :=
  _ ← _require_read user organization_id;
  item ← gets (λ d, find_row (λ c, (RC.organization_id c ≟ organization_id)
                && (RC.aws_account_id c ≟ aws_account_id) && (RC.asset_id c ≟ asset_id))
              (DB.risk_contexts d));
  some_or item (NotFoundError "risk_context_not_found").

(** api/v1/risk.py:473-490, put_context. *)
Definition put_context (new_id : uuid) (user : User) (organization_id aws_account_id : uuid)
    (asset_id : option uuid) (criticality : RiskCriticality) (environment : RiskEnvironment)
    (business_impact : BusinessImpact) (data_sensitivity : DataSensitivity)
    (expected_version : option Z) : txn DB AssetRiskContext :=
  update_context new_id organization_id user aws_account_id asset_id criticality environment
    business_impact data_sensitivity expected_version.

(** api/v1/risk.py:493-512, create_control. *)
Definition create_control (new_id : uuid) (now : timestamp) (finding_id : uuid) (user : User)
    (organization_id : uuid) (reason : string) (score_adjustment : Z)
    (expires_at : option timestamp) : txn DB CompensatingControl :=
  add_compensating_control new_id now organization_id finding_id user reason score_adjustment
    expires_at.

(** api/v1/risk.py:515-526, remove_control. *)
Definition remove_control (control_id : uuid) (user : User) (organization_id : uuid)
    : txn DB () :=
  remove_compensating_control organization_id control_id user.

(** * An assessment *)

Lemma between_true lo x hi : between lo x hi = true ↔ (lo ≤ x ≤ hi)%Z.
Proof. unfold between. lia. Qed.

(** Scoring never fails, and its result passes the CHECK constraints. *)
Lemma score_one_total dr at_ i o policy contexts controls fa :
  (0 < Policy.version policy)%Z →
  ∃ s r, score_one dr at_ i o policy contexts controls fa = Some s
    ∧ score_finding (risk_inputs at_ contexts controls fa.1 fa.2) = Some r
    ∧ finding_risk_checks s = true
    ∧ FR.id s = new_finding_risk dr (Fnd.id fa.1) ∧ FR.assessment_id s = i
    ∧ FR.finding_id s = Fnd.id fa.1 ∧ FR.aws_account_id s = Fnd.aws_account_id fa.1
    ∧ FR.risk_score s = score r.
Proof.
  intros Hv. unfold score_one. set (x := risk_inputs _ _ _ _ _).
  pose proof (score_lookups x) as (e & xp & p & H). unfold score_finding.
  destruct (default _ _) as [ce cx]. destruct H as (-> & -> & -> & ? & ? & ?).
  pose proof (age_points_bounds (first_seen_at x) (evaluation_time x)).
  destruct (age_points _ _) as [a code]. cbn [mbind option_bind fst] in *.
  eexists _, _. split; [reflexivity|]. split; [reflexivity|]. split; [|done].
  unfold finding_risk_checks. cbn. rewrite !andb_true_iff, !between_true.
  split_and!; try lia; try apply clamp_bounds.
  all: match goal with
       | |- context [SEVERITY_POINTS ?y] => destruct y
       | |- context [CRITICALITY_POINTS ?y] => destruct y
       | |- context [ENVIRONMENT_POINTS ?y] => destruct y
       | |- context [BUSINESS_IMPACT_POINTS ?y] => destruct y
       | |- context [DATA_SENSITIVITY_POINTS ?y] => destruct y
       end; cbn; lia.
Qed.

(** Counts of rows fit a 32-bit column, which is all that a stored aggregate asks. *)
Definition few {A} (l : list A) : Prop := (Z.of_nat (length l) < 2 ^ 31)%Z.

Lemma account_risk_bounds scores :
  few scores →
  let r := account_risk scores in
  (0 ≤ agg_score r ≤ 100 ∧ 0 ≤ highest r ≤ 100 ∧ 0 ≤ focused_mean r ≤ 100
   ∧ 0 ≤ overall_mean r ≤ 100)%Z.
Proof.
  intros Hf. destruct scores as [|x l]; [cbn; lia|]. cbv zeta.
  assert (Z.of_nat (length (x :: l)) ≤ 10 ^ 24)%Z as Hl by (unfold few in Hf; lia).
  destruct (account_risk_spec (x :: l) (x :: l) ltac:(done) Hl ltac:(done))
    as (_ & _ & _ & _ & _ & ? & ? & ?). lia.
Qed.

Lemma organization_risk_bounds scores :
  few scores → Forall (λ x, 0 ≤ x ≤ 100)%Z scores →
  let r := organization_risk scores in
  (0 ≤ agg_score r ≤ 100 ∧ 0 ≤ highest r ≤ 100 ∧ 0 ≤ focused_mean r ≤ 100)%Z.
Proof.
  intros Hf Hx. destruct scores as [|x l]; [cbn; lia|]. cbv zeta.
  assert (Z.of_nat (length (x :: l)) ≤ 10 ^ 24)%Z as Hl by (unfold few in Hf; lia).
  pose proof (organization_risk_spec x l Hl) as Hs. cbv zeta in Hs.
  destruct Hs as (Hm & Hin & _ & _ & Hle).
  change (focused_mean (organization_risk (x :: l)))
    with (overall_mean (organization_risk (x :: l))).
  set (r := organization_risk (x :: l)) in *. set (c := map _ _) in *.
  assert (∀ y, y ∈ c → (0 ≤ y ≤ 100)%Z) as Hc.
  { intros y (z & -> & _)%list_elem_of_fmap. apply clamp_bounds. }
  pose proof (Hc _ Hin).
  assert (length c = S (length l)) as Hlen by apply (length_map (λ score, clamp score 0 100) (x :: l)).
  assert (0 ≤ foldr Z.add 0 c)%Z.
  { clearbody c. clear -Hc. induction c as [|y c IH]; [done|]. cbn.
    pose proof (Hc y ltac:(set_solver)). specialize (IH ltac:(set_solver)). lia. }
  assert (0 ≤ overall_mean r)%Z by (rewrite Hm; apply Z.div_pos; lia). lia.
Qed.

Lemma account_snapshot_checks dr at_ i o snaps account_id :
  few snaps → account_risk_checks (account_snapshot dr at_ i o snaps account_id) = true.
Proof.
  intros Hf. assert (few (scores_of snaps account_id)) as Hs.
  { unfold few, scores_of in *. rewrite length_map.
    eapply Z.le_lt_trans, Hf. apply Nat2Z.inj_le, length_filter. }
  apply account_risk_bounds in Hs. cbv zeta in Hs. unfold account_risk_checks, account_snapshot.
  cbn [AR.risk_score AR.highest_finding_score AR.top_ten_mean AR.all_findings_mean AR.findings_total].
  rewrite !andb_true_iff, !between_true, Z.leb_le. lia.
Qed.
Lemma organization_snapshot_checks dr at_ i o accounts :
  few accounts → Forall (λ a, 0 ≤ AR.risk_score a ≤ 100)%Z accounts →
  organization_risk_checks (organization_snapshot dr at_ i o accounts) = true.
Proof.
  intros Hf Ha. assert (few (map AR.risk_score accounts)) as Hs
    by (unfold few in *; by rewrite length_map).
  apply organization_risk_bounds in Hs; [|by apply List.Forall_map]. cbv zeta in Hs.
  unfold organization_risk_checks, organization_snapshot.
  cbn [OR.risk_score OR.highest_account_score OR.mean_account_score OR.accounts_total].
  rewrite !andb_true_iff, !between_true, Z.leb_le. lia.
Qed.

Lemma severities_add_up findings :
  Z.of_nat (length findings)
  = (count_severity FindingSeverity.CRITICAL findings + count_severity FindingSeverity.HIGH findings
     + count_severity FindingSeverity.MEDIUM findings + count_severity FindingSeverity.LOW findings
     + count_severity FindingSeverity.INFORMATIONAL findings)%Z.
Proof.
  unfold count_severity. induction findings as [|fa l IH]; [done|].
  rewrite !filter_cons. cbn [length]. rewrite Nat2Z.inj_succ, IH.
  destruct (Fnd.severity fa.1); repeat case_decide; try done; cbn [length]; lia.
Qed.

Lemma finished_assessment_checks at_ findings organization a :
  RA.started_at a = Some at_ → (0 ≤ OR.accounts_total organization)%Z →
  (0 ≤ OR.risk_score organization ≤ 100)%Z →
  risk_assessment_checks (finish_assessment at_ findings organization a) = true.
Proof.
  intros Hs Hn Hr. unfold risk_assessment_checks, finish_assessment. cbn. rewrite Hs.
  rewrite <-severities_add_up, Z.eqb_refl. unfold count_severity, between. cbn.
  rewrite !(proj2 (Z.leb_le _ _)) by lia. done.
Qed.

(** What the database guarantees: its constraints, and that a snapshot belongs
    to an assessment, a foreign key. *)
Record risk_ok (d : DB) : Prop := {
  rk_policies : sound RiskScoringPolicy d;
  rk_assessments : sound RiskAssessment d;
  rk_findings : sound FindingRiskSnapshot d;
  rk_accounts : sound AccountRiskSnapshot d;
  rk_organizations : sound OrganizationRiskSnapshot d;
  rk_keyed : keyed (DB.findings d) ∧ keyed (DB.aws_accounts d);
  rk_owned : all_rows (λ s, is_Some (DB.risk_assessments d !! FR.assessment_id s)) (DB.finding_risks d)
    ∧ all_rows (λ s, is_Some (DB.risk_assessments d !! AR.assessment_id s)) (DB.account_risks d)
    ∧ all_rows (λ s, is_Some (DB.risk_assessments d !! OR.assessment_id s)) (DB.organization_risks d)
}.

(** New identifiers, and no more rows than a counter can hold. *)
Record risk_fresh (dr : risk_draws) (d : DB) : Prop := {
  rf_assessment : DB.risk_assessments d !! new_assessment dr = None;
  rf_findings i : DB.finding_risks d !! new_finding_risk dr i = None;
  rf_accounts i : DB.account_risks d !! new_account_risk dr i = None;
  rf_organization : DB.organization_risks d !! new_organization_risk dr = None;
  rf_inj : Inj (=) (=) (new_finding_risk dr) ∧ Inj (=) (=) (new_account_risk dr);
  rf_few : (Z.of_nat (size (DB.findings d)) < 2 ^ 31 ∧ Z.of_nat (size (DB.aws_accounts d)) < 2 ^ 31)%Z
}.

Lemma filter_rows_size {R} (P : R → bool) (t : gmap uuid R) :
  length (filter_rows P t) ≤ size t.
Proof.
  unfold filter_rows. rewrite length_filter, length_fmap. by rewrite length_map_to_list.
Qed.

Lemma active_findings_ids o acc d :
  keyed (DB.findings d) → NoDup ((λ fa, Fnd.id fa.1) <$> _active_findings o acc d).
Proof.
  intros Hk. unfold _active_findings.
  match goal with |- NoDup (_ <$> map ?g ?l) => change (map g l) with (g <$> l) end.
  rewrite <-list_fmap_compose. unfold compose. cbn [fst].
  rewrite sort_by_perm. by apply (filter_rows_ids (R:=Finding)).
Qed.
Lemma active_findings_few o acc d :
  (Z.of_nat (size (DB.findings d)) < 2 ^ 31)%Z → few (_active_findings o acc d).
Proof.
  intros Hs. unfold few, _active_findings. rewrite length_map, sort_by_perm.
  eapply Z.le_lt_trans, Hs. apply Nat2Z.inj_le, filter_rows_size.
Qed.
Lemma account_ids_NoDup o acc d :
  keyed (DB.aws_accounts d) → NoDup (_account_ids o acc d).
Proof.
  intros Hk. unfold _account_ids. destruct acc as [i|]; [apply NoDup_singleton|].
  rewrite sort_by_perm. by apply (filter_rows_ids (R:=AWSAccount)).
Qed.
Lemma account_ids_few o acc d :
  (Z.of_nat (size (DB.aws_accounts d)) < 2 ^ 31)%Z → few (_account_ids o acc d).
Proof.
  intros Hs. unfold few, _account_ids. destruct acc as [i|]; [done|]. rewrite sort_by_perm, length_map.
  eapply Z.le_lt_trans, Hs. apply Nat2Z.inj_le, filter_rows_size.
Qed.

(** New rows of one assessment, with different identifiers and keys, pass every
    test of their table. *)
Lemma owned_insertable {R} `{Table R} (owner key : R → uuid) (i : uuid) (l : list R) t :
  (∀ r r', conflict r r' = true → owner r = owner r' ∧ key r = key r') →
  Forall (λ r, checks r = true ∧ owner r = i ∧ t !! row_id r = None) l →
  NoDup (row_id <$> l) → NoDup (key <$> l) →
  all_rows (λ r, owner r ≠ i) t → insertable l t.
Proof.
  intros Hcf Hl Hids Hkeys Ht. rewrite Forall_forall in Hl. split.
  - apply Forall_forall. intros r Hr. by apply Hl.
  - done.
  - apply Forall_forall. intros r Hr. by apply Hl.
  - apply Forall_forall. intros r Hr k r' Hr'. apply not_true_is_false. intros [E _]%Hcf.
    apply (Ht k r' Hr'). rewrite <-E. by apply Hl.
  - intros r r' Hr%list_elem_of_In Hr'%list_elem_of_In Hne. apply not_true_is_false.
    intros [_ E]%Hcf. apply Hne. f_equal.
    apply list_elem_of_lookup in Hr as [m Hm], Hr' as [n Hn].
    assert (m = n) as -> by (eapply (NoDup_lookup (key <$> l));
      [done|by rewrite list_lookup_fmap, Hm|rewrite list_lookup_fmap, Hn; cbn; by rewrite E]).
    congruence.
Qed.

Section aggregated.
Context (dr : risk_draws) (at_ : timestamp) (i o : uuid).

Lemma accounts_insertable snaps ids t :
  few snaps → NoDup ids → Inj (=) (=) (new_account_risk dr) →
  (∀ a, t !! new_account_risk dr a = None) → all_rows (λ s, AR.assessment_id s ≠ i) t →
  insertable (map (account_snapshot dr at_ i o snaps) ids) t.
Proof.
  intros Hf Hnd Hinj Hfr Ht.
  apply (owned_insertable AR.assessment_id AR.aws_account_id i); [|..|done].
  - intros s s'. cbn. unfold account_risk_conflict. intros. by bools.
  - apply Forall_map, Forall_forall. intros a _. split_and!; [|done|apply Hfr].
    by apply account_snapshot_checks.
  - change (NoDup (AR.id <$> (account_snapshot dr at_ i o snaps <$> ids))).
    rewrite <-list_fmap_compose. by apply (NoDup_fmap_2 (new_account_risk dr)).
  - change (NoDup (AR.aws_account_id <$> (account_snapshot dr at_ i o snaps <$> ids))).
    rewrite <-list_fmap_compose. unfold compose. cbn. by rewrite list_fmap_id.
Qed.

Lemma accounts_in_range snaps ids :
  few snaps →
  Forall (λ a, 0 ≤ AR.risk_score a ≤ 100)%Z (map (account_snapshot dr at_ i o snaps) ids).
Proof.
  intros Hf. apply Forall_map, Forall_forall. intros a _.
  pose proof (account_snapshot_checks dr at_ i o snaps a Hf) as H.
  unfold account_risk_checks in H. rewrite !andb_true_iff, !between_true in H. tauto.
Qed.
End aggregated.

Section scored.
Context (dr : risk_draws) (at_ : timestamp) (i o : uuid) (policy : RiskScoringPolicy)
        (contexts : list AssetRiskContext) (controls : uuid → option CompensatingControl).
Hypothesis Hpolicy : (0 < Policy.version policy)%Z.

Abbreviation scored_as := (λ fa s, score_one dr at_ i o policy contexts controls fa = Some s).

Lemma all_scored findings :
  ∃ snaps, mapM (score_one dr at_ i o policy contexts controls) findings = Some snaps
  ∧ Forall2 scored_as findings snaps.
Proof.
  assert (is_Some (mapM (score_one dr at_ i o policy contexts controls) findings)) as [snaps E].
  { apply mapM_is_Some, Forall_forall. intros fa _.
    destruct (score_one_total dr at_ i o policy contexts controls fa Hpolicy) as (s & r & Hs & _).
    by exists s. }
  exists snaps. split; [done|]. by apply mapM_Some.
Qed.

Lemma snapshot_of_scored fa s :
  scored_as fa s →
  finding_risk_checks s = true ∧ FR.id s = new_finding_risk dr (Fnd.id fa.1)
  ∧ FR.assessment_id s = i ∧ FR.finding_id s = Fnd.id fa.1.
Proof.
  intros Hs. destruct (score_one_total dr at_ i o policy contexts controls fa Hpolicy)
    as (s' & r & Hs' & _ & ? & ? & ? & ? & _). by assert (s = s') as -> by congruence.
Qed.

Lemma scored_ids findings snaps :
  Forall2 scored_as findings snaps →
  FR.id <$> snaps = new_finding_risk dr <$> ((λ fa, Fnd.id fa.1) <$> findings)
  ∧ FR.finding_id <$> snaps = (λ fa, Fnd.id fa.1) <$> findings.
Proof.
  induction 1 as [|fa s l l' Hs _ [IH1 IH2]]; [done|].
  apply snapshot_of_scored in Hs as (_ & Hi & _ & Hf). split; cbn; f_equal; congruence.
Qed.

Lemma scored_insertable findings snaps t :
  Forall2 scored_as findings snaps →
  NoDup ((λ fa, Fnd.id fa.1) <$> findings) → Inj (=) (=) (new_finding_risk dr) →
  (∀ f, t !! new_finding_risk dr f = None) → all_rows (λ s, FR.assessment_id s ≠ i) t →
  insertable snaps t.
Proof.
  intros Hs Hnd Hinj Hfr Ht. pose proof (scored_ids _ _ Hs) as [E1 E2].
  apply (owned_insertable FR.assessment_id FR.finding_id i); [|..|done].
  - intros s s'. cbn. unfold finding_risk_conflict. intros. by bools.
  - apply Forall_forall. intros s (n & Hn)%list_elem_of_lookup.
    destruct (Forall2_lookup_r _ _ _ _ _ Hs Hn) as (fa & _ & Hfa).
    apply snapshot_of_scored in Hfa as (? & Hi & ? & _). split_and!; [done..|].
    change (row_id s) with (FR.id s). by rewrite Hi.
  - change (row_id (R:=FindingRiskSnapshot)) with FR.id. rewrite E1. by apply NoDup_fmap_2.
  - by rewrite E2.
Qed.

End scored.

(** What an assessment leaves, on a database [dp] that has the policy: the
    finished row, a snapshot of each active finding of the scope, of each of its
    accounts, and of the organization. *)
Definition risk_assessed (dr : risk_draws) (at_ : timestamp) (organization_id : uuid) (actor : User)
    (aws_account_id : option uuid) (policy : RiskScoringPolicy) (dp : DB)
    (a : RiskAssessment) (d' : DB) : Prop :=
  let i := new_assessment dr in
  let findings := _active_findings organization_id aws_account_id dp in
  ∃ snaps f,
  Forall2 (λ fa s, score_one dr at_ i organization_id policy (_contexts organization_id dp)
             (_controls organization_id at_ dp) fa = Some s) findings snaps
  ∧ let accounts := map (account_snapshot dr at_ i organization_id snaps)
                      (_account_ids organization_id aws_account_id dp) in
    let organization := organization_snapshot dr at_ i organization_id accounts in
    a = finish_assessment at_ findings organization
          (requested dr at_ organization_id actor aws_account_id policy)
    ∧ d' = dp <| DB.risk_assessments ::= put a |> <| DB.finding_risks ::= puts snaps |>
             <| DB.account_risks ::= puts accounts |>
             <| DB.organization_risks ::= put organization |> <| DB.audit ::= f |>.

(** Snapshots that belong to a new assessment keep the tables in order. *)
Lemma risk_ok_assessed d a snaps accounts organization f :
  risk_ok d → checks a = true → unique_ok true conflict a (DB.risk_assessments d) = true →
  insertable snaps (DB.finding_risks d) → Forall (λ s, FR.assessment_id s = RA.id a) snaps →
  insertable accounts (DB.account_risks d) → Forall (λ s, AR.assessment_id s = RA.id a) accounts →
  checks organization = true →
  unique_ok true conflict organization (DB.organization_risks d) = true →
  OR.assessment_id organization = RA.id a →
  risk_ok (d <| DB.risk_assessments ::= put a |> <| DB.finding_risks ::= puts snaps |>
             <| DB.account_risks ::= puts accounts |>
             <| DB.organization_risks ::= put organization |> <| DB.audit ::= f |>).
Proof.
  intros [Sp Sa Sf Sc So [Kf Ka] (Of & Oa & Oo)] Hc Hu Hf Hfo Ha Hao Hoc Hou Hoo.
  pose proof (sound_set a true d Sa Hc Hu) as Sa'. pose proof (sound_puts _ d Sf Hf) as Sf'.
  pose proof (sound_puts _ d Sc Ha) as Sc'. pose proof (sound_set organization true d So Hoc Hou) as So'.
  assert (∀ i, is_Some (DB.risk_assessments d !! i) ∨ i = RA.id a →
               is_Some (put a (DB.risk_assessments d) !! i)) as Hmore.
  { intros i Hi. unfold put. change (row_id a) with (RA.id a). rewrite lookup_insert. case_decide; [by eexists|].
    destruct Hi as [Hi| ->]; [done|]. congruence. }
  split; [destruct Sp, Sa', Sf', Sc', So'; by split..|done|].
  split_and!; cbn.
  - apply all_rows_puts; [|by eapply Forall_impl; [done|]; intros s E; cbn; rewrite E; auto].
    intros k s Hs. apply Hmore. left. by apply (Of k).
  - apply all_rows_puts; [|by eapply Forall_impl; [done|]; intros s E; cbn; rewrite E; auto].
    intros k s Hs. apply Hmore. left. by apply (Oa k).
  - apply all_rows_put; [|by apply Hmore; right]. intros k s Hs. apply Hmore. left. by apply (Oo k).
Qed.

(** The flushes of an assessment come to one. *)
Lemma audit_apart (d : DB) f g :
  (∀ h : gmap uuid RiskAssessment → _, set_rows RiskAssessment h (d <| DB.audit ::= f |>)
     = (set_rows RiskAssessment h d) <| DB.audit ::= f |>)
  ∧ (∀ h, set_rows FindingRiskSnapshot h (d <| DB.audit ::= f |>)
     = (set_rows FindingRiskSnapshot h d) <| DB.audit ::= f |>)
  ∧ (∀ h, set_rows AccountRiskSnapshot h (d <| DB.audit ::= f |>)
     = (set_rows AccountRiskSnapshot h d) <| DB.audit ::= f |>)
  ∧ (∀ h, set_rows OrganizationRiskSnapshot h (d <| DB.audit ::= f |>)
     = (set_rows OrganizationRiskSnapshot h d) <| DB.audit ::= f |>)
  ∧ d <| DB.audit ::= f |> <| DB.audit ::= g |> = d <| DB.audit ::= λ l, g (f l) |>.
Proof. destruct d. split_and!; reflexivity. Qed.

Lemma assessed_frame (a0 a : RiskAssessment) snaps accounts (o : OrganizationRiskSnapshot) f1 f2 d :
  RA.id a = RA.id a0 →
  set_rows OrganizationRiskSnapshot (put o) (set_rows AccountRiskSnapshot (puts accounts)
    (set_rows FindingRiskSnapshot (puts snaps) (set_rows RiskAssessment (put a)
      ((set_rows RiskAssessment (put a0) d) <| DB.audit ::= f1 |> <| DB.audit ::= f2 |>))))
  = d <| DB.risk_assessments ::= put a |> <| DB.finding_risks ::= puts snaps |>
      <| DB.account_risks ::= puts accounts |> <| DB.organization_risks ::= put o |>
      <| DB.audit ::= λ l, f2 (f1 l) |>.
Proof.
  intros E. destruct (audit_apart (set_rows RiskAssessment (put a0) d) f1 f2) as (_ & _ & _ & _ & ->).
  set (g := λ l, f2 (f1 l)). clearbody g.
  destruct (audit_apart (set_rows RiskAssessment (put a0) d) g g) as (-> & _). rewrite set_set.
  rewrite (set_ext _ (put a)) by by apply put_put.
  set (d1 := set_rows RiskAssessment (put a) d). destruct (audit_apart d1 g g) as (_ & -> & _).
  set (d2 := set_rows FindingRiskSnapshot _ _).
  destruct (audit_apart d2 g g) as (_ & _ & -> & _).
  set (d3 := set_rows AccountRiskSnapshot _ _). by destruct (audit_apart d3 g g) as (_ & _ & _ & -> & _).
Qed.

Lemma not_owned {R} (owner : R → uuid) i t (asts : gmap uuid RiskAssessment) :
  all_rows (λ s, is_Some (asts !! owner s)) t → asts !! i = None →
  all_rows (λ s, owner s ≠ i) t.
Proof. intros Ht Hi k s Hs E. destruct (Ht k s Hs) as [x Hx]. rewrite E in Hx. congruence. Qed.

Lemma wp_scored dr at_ o actor acc policy dc dp Q :
  risk_ok dp → risk_fresh dr dp → (0 < Policy.version policy)%Z →
  (∀ k r, DB.risk_assessments dp !! k = Some r → active_risk_assessment r = true →
     RA.organization_id r = o → RA.aws_account_id r = acc → RA.policy_id r ≠ Policy.id policy) →
  (∀ a d', risk_assessed dr at_ o actor acc policy dp a d' → risk_ok d' →
     Q (Ret a) (Sess d' d')) →
  wp (score_scope dr at_ o actor acc policy) Q (Sess dc dp).
Proof.
  intros Hok [Fa Ff Fc Fo [If Ic] [Nf Nc]] Hv Hna HQ.
  pose proof Hok as [Sp Sa Sf Sc So [Kf Ka] (Of & Oa & Oo)].
  assert (unique_ok true conflict (requested dr at_ o actor acc policy)
            (DB.risk_assessments dp) = true) as Hu0.
  { apply unique_ok_fresh; [done|]. intros k r Hr. apply not_true_is_false. intros Hc.
    cbn in Hc. unfold risk_assessment_conflict in Hc. bools. cbn in *. by eapply (Hna k r). }
  unfold score_scope. cbv zeta. apply wp_bind, wp_saved; [done|exact Hu0|cbn [working committed]].
  set (a0 := requested _ _ _ _ _ _).
  apply wp_bind. unfold audit_ok at 1, record_audit. apply wp_modify. cbn [working committed].
  do 3 (apply wp_bind, wp_gets; cbn [working committed]).
  change (_active_findings o acc _) with (_active_findings o acc dp).
  change (_contexts o _) with (_contexts o dp). change (_controls o at_ _) with (_controls o at_ dp).
  destruct (all_scored dr at_ (RA.id a0) o policy (_contexts o dp) (_controls o at_ dp) Hv
    (_active_findings o acc dp)) as (snaps & -> & Hs).
  apply wp_bind, wp_ret. apply wp_bind, wp_gets. cbn [working committed].
  change (_account_ids o acc _) with (_account_ids o acc dp).
  assert (few snaps) as Hfew.
  { unfold few. rewrite <-(Forall2_length _ _ _ Hs). by apply active_findings_few. }
  set (accounts := map _ _). set (organization := organization_snapshot _ _ _ _ _).
  set (a := finish_assessment _ _ _ _).
  apply wp_bind. unfold audit_ok, record_audit. apply wp_modify. cbn [working committed].
  assert (insertable snaps (DB.finding_risks dp)) as Hsi.
  { eapply scored_insertable; [exact Hv|exact Hs|by apply active_findings_ids|done|done|].
    by eapply not_owned. }
  assert (insertable accounts (DB.account_risks dp)) as Hai.
  { apply accounts_insertable; [done|by apply account_ids_NoDup|done|done|].
    by eapply not_owned. }
  assert (checks organization = true) as Hoc.
  { apply organization_snapshot_checks; [|by apply accounts_in_range].
    unfold few, accounts. rewrite length_map. by apply account_ids_few. }
  assert (unique_ok true conflict organization (DB.organization_risks dp) = true) as Hou.
  { apply unique_ok_fresh; [done|]. intros k r Hr. apply bool_decide_eq_false_2. intros E.
    destruct (Oo k r Hr) as [x Hx]. cbn in E. congruence. }
  assert (checks a = true) as Hac.
  { apply finished_assessment_checks; [done|cbn; lia|].
    cbn [checks organization_risks_table] in Hoc. unfold organization_risk_checks in Hoc.
    rewrite !andb_true_iff, !between_true in Hoc. tauto. }
  assert (∀ r, conflict a r = false) as Hanc.
  { intros r. cbn. unfold risk_assessment_conflict, active_risk_assessment at 1.
    rewrite bool_decide_eq_false_2; [done|]. cbn. set_solver. }
  apply wp_bind. unfold commit_assessment. apply wp_try.
  apply wp_bind, wp_saved; cbn [working committed]; [exact Hac|by apply unique_ok_true|].
  apply wp_bind, wp_save_all; cbn [working committed]; [exact Hsi|].
  apply wp_bind, wp_save_all; cbn [working committed]; [exact Hai|].
  apply wp_bind, wp_saved; cbn [working committed]; [exact Hoc|exact Hou|].
  apply wp_commit. cbn beta iota. apply wp_ret. cbn [working committed].
  rewrite assessed_frame by done. apply HQ.
  - exists snaps. eexists. split; [exact Hs|]. split; reflexivity.
  - apply risk_ok_assessed; [done|done| |done| |done| |done|done|done].
    + apply unique_ok_fresh; [exact Fa|by intros].
    + apply Forall_forall. intros s (n & Hn)%list_elem_of_lookup.
      destruct (Forall2_lookup_r _ _ _ _ _ Hs Hn) as (fa & _ & Hfa).
      by apply (snapshot_of_scored dr at_ _ o policy) in Hfa as (_ & _ & ? & _).
    + apply Forall_map, Forall_forall. by intros x _.
Qed.

(** The scope of an assessment is one the actor may see. *)
Definition in_scope (organization_id : uuid) (actor : User) (aws_account_id : option uuid) (d : DB)
    : Prop :=
  match aws_account_id with
  | Some i => ∃ account m, aws_account_for_user i (User.id actor) d = Some (account, m)
                           ∧ AWSAccount.organization_id account = organization_id
  | None => is_Some (DB.organizations d !! organization_id)
  end.

Lemma wp_lock_scope o u acc actor (Q : outcome () → sess DB → Prop) s :
  u = User.id actor →
  (in_scope o actor acc (working s) → Q (Ret tt) s) →
  (¬ in_scope o actor acc (working s) →
     Q (Raise (NotFoundError (if acc is Some _ then "aws_account_not_found" else "organization_not_found"))) s) →
  wp (_lock_scope o u acc) Q s.
Proof.
  intros -> H1 H2. unfold _lock_scope. destruct acc as [i|]; cbn [in_scope] in *.
  - apply wp_bind, wp_gets. destruct (aws_account_for_user _ _ _) as [[account m]|] eqn:E; cbn [from_option].
    + apply wp_ensure.
      * intros Ho%bool_decide_eq_true. apply H1. by exists account, m.
      * intros Ho%bool_decide_eq_false. apply H2. intros (? & ? & [= <- <-] & ?). done.
    + apply wp_ensure; [done|]. intros _. apply H2. by intros (? & ? & ? & _).
  - apply wp_bind, wp_gets. destruct (DB.organizations _ !! o) as [x|] eqn:E; cbn [is_some_].
    + apply wp_ensure; [|done]. intros _. apply H1. by eexists.
    + apply wp_ensure; [done|]. intros _. apply H2. by intros [? ?].
Qed.

Lemma wp_ensure_policy new_id Q s :
  sound RiskScoringPolicy (working s) → DB.risk_policies (working s) !! new_id = None →
  (∀ p d', got policy_is (shipped_policy new_id) (working s) p d' → Q (Ret p) (Sess (committed s) d')) →
  wp (ensure_policy new_id) Q s.
Proof.
  intros Hs Hn HQ. unfold ensure_policy. apply wp_get_or_create; [done..| |exact HQ].
  intros r Hr. unfold conflict in Hr. cbn in Hr. unfold policy_conflict in Hr. cbn in Hr.
  bools. unfold policy_is. by rewrite !bool_decide_eq_true_2.
Qed.

(** Only the policies differ, and nothing an assessment reads is one. *)
Lemma risk_ok_policy f d :
  risk_ok d → sound RiskScoringPolicy (set_rows RiskScoringPolicy f d) →
  risk_ok (set_rows RiskScoringPolicy f d).
Proof.
  intros [_ Sa Sf Sc So Hk Ho] Hs. split; [done|by apply sound_apart..|done|done].
Qed.

(** C23. What an assessment does.  On a well-formed database, a member who may
    assess risk gets an assessment of the organization or of one of its
    accounts, unless one of the same scope is under way.  It adds one finished
    assessment, one snapshot for every active finding of the scope, whose score is
    that of the scoring policy for what is known of the finding, one for each
    account, which aggregates the scores of its findings, and one of the
    organization, which aggregates the accounts.  Every value passes the CHECK
    constraints, so that scoring never fails and nothing is refused at the
    commit; the counters by severity add up; apart from the policy, which is
    added when it is not there, and the audit log nothing else changes.  Every
    refusal leaves the database as it was. *)
Theorem risk_assessment_is_a_snapshot dr at_ o actor acc d :
  risk_ok d → risk_fresh dr d → DB.risk_policies d !! new_policy dr = None →
  match run (assess dr at_ o actor acc) d with
  | (Ret a, d') =>
      ∃ m policy dp, active_membership o (User.id actor) d = Some m
      ∧ role_has_capability (OrganizationMembership.role m) Capability.RISK_ASSESS = true
      ∧ in_scope o actor acc d
      ∧ got policy_is (shipped_policy (new_policy dr)) d policy dp
      ∧ risk_assessed dr at_ o actor acc policy dp a d' ∧ risk_ok d'
      ∧ RA.findings_total a = (RA.critical_count a + RA.high_count a + RA.medium_count a
          + RA.low_count a + RA.informational_count a)%Z
  | (Raise e, d') =>
      d' = d
      ∧ (e = NotFoundError "organization_not_found" ∧ active_membership o (User.id actor) d = None
         ∨ ∃ m, active_membership o (User.id actor) d = Some m
           ∧ (e = ForbiddenError "forbidden"
                ∧ role_has_capability (OrganizationMembership.role m) Capability.RISK_ASSESS = false
              ∨ e = NotFoundError (if acc is Some _ then "aws_account_not_found"
                                   else "organization_not_found") ∧ ¬ in_scope o actor acc d
              ∨ e = ConflictError "risk_assessment_active"
                ∧ ∃ k r, DB.risk_assessments d !! k = Some r ∧ active_risk_assessment r = true
                         ∧ RA.organization_id r = o ∧ RA.aws_account_id r = acc))
  end.
Proof.
  intros Hok Hfr Hpol. apply run_cases. unfold assess.
  apply wp_bind, wp_require_capability; cbn [working committed].
  2: { intros Hn. split; [done|by left]. }
  2: { intros m Hm Hc. split; [done|]. right. exists m. split; [done|by left]. }
  intros m Hm Hcap. apply wp_bind, (wp_lock_scope _ _ _ actor); cbn [working committed]; [done|..].
  2: { intros Hn. split; [done|]. right. exists m. split; [done|]. by right; left. }
  intros Hin. apply wp_bind, wp_ensure_policy; cbn [working committed]; [apply Hok|done|].
  intros policy dp Hgot. pose proof (got_frame _ _ _ _ _ Hgot) as [f Ef].
  assert (risk_ok dp) as Hokp.
  { pose proof (got_sound _ _ _ _ _ Hgot). rewrite Ef in *. by apply risk_ok_policy. }
  assert (0 < Policy.version policy)%Z as Hv.
  { pose proof (got_right _ _ _ _ _ Hgot) as Hp. unfold policy_is in Hp. bools.
    match goal with H : Policy.version _ = _ |- _ => rewrite H end. done. }
  apply wp_bind, wp_gets. cbn [working]. apply wp_bind, wp_ensure.
  2: { intros Ha. destruct (find_row _ _) as [r|] eqn:E; [|done].
       apply find_row_Some in E as (k & Hk & Hr). bools. rewrite Ef in Hk. split; [done|].
       right. exists m. split; [done|]. right; right. split; [done|]. by exists k, r. }
  intros Hna. destruct (find_row _ _) eqn:E; [done|]. rewrite find_row_None in E.
  apply wp_scored; [done| |done| |].
  - rewrite Ef. by destruct Hfr; split.
  - intros k r Hr Hact Ho Hacc Hp. specialize (E k r Hr).
    rewrite !bool_decide_eq_true_2, Hact in E by done. done.
  - intros a d' Ha Hd'. exists m, policy, dp. do 6 (split; [done|]).
    destruct Ha as (snaps & g & _ & -> & _). apply severities_add_up.
Qed.

(** * Witness *)

(** An account with two findings: an open port on an instance in production, and
    a weaker one under a compensating control. *)
Definition risk_account : AWSAccount :=
  AWSAccount.mk 20 1 "prod" "123456789012" None "ext" None None false None None
    AWSAccountStatus.CONNECTED AWSAccountStatus.CONNECTED None None None None 1 10.
Definition risk_finding (i : uuid) (asset : option uuid) (rule : string) (s : FindingSeverity)
    : Finding :=
  Fnd.mk i 1 20 asset rule 1 s "network" FindingStatus.OPEN PNone 0 0 None None None None None 80 1.
Definition risk_asset : Asset :=
  Asset.mk 30 1 20 AssetType.EC2_INSTANCE "i-1" None "web" "eu-west-1" None (PDict [])
    (PDict [("publicly_accessible", PBool true)]) 0 0 true.
Definition production : AssetRiskContext :=
  RC.mk 50 1 20 (Some 30%N) RiskCriticality.CRITICAL RiskEnvironment.PRODUCTION
    BusinessImpact.HIGH DataSensitivity.RESTRICTED "manual" 10 1.
Definition mitigated : CompensatingControl :=
  CC.mk 60 1 20 41 "firewall" (-10) 10 None true 0.
Definition risk_lab : DB :=
  acme <| DB.aws_accounts := {[20%N := risk_account]} |>
       <| DB.assets := {[30%N := risk_asset]} |>
       <| DB.findings := {[40%N := risk_finding 40 (Some 30%N) "EC2_SG_SSH_OPEN_TO_WORLD" FindingSeverity.CRITICAL;
                           41%N := risk_finding 41 None "CLOUDWATCH_LOG_GROUP_RETENTION_MISSING" FindingSeverity.LOW]} |>
       <| DB.risk_contexts := {[50%N := production]} |>
       <| DB.compensating_controls := {[60%N := mitigated]} |>.
Definition lab_risk_draws : risk_draws :=
  mk_risk_draws 90 91 (λ f, (1000 + f)%N) (λ a, (2000 + a)%N) 92.

Lemma risk_lab_ok : risk_ok risk_lab.
Proof.
  split; [apply sound_tested; vm_compute; reflexivity..| |].
  - split; intros k r; cbn.
    + rewrite lookup_insert_Some, lookup_singleton_Some. by intros [[<- <-]|[_ [<- <-]]].
    + rewrite lookup_singleton_Some. by intros [<- <-].
  - split_and!; intros k s Hs; exfalso; exact (lookup_empty_Some k s Hs).
Qed.
Lemma risk_lab_fresh : risk_fresh lab_risk_draws risk_lab.
Proof.
  split; [reflexivity|intros i; apply lookup_empty|intros i; apply lookup_empty|reflexivity|..].
  - split; intros i j; cbn; lia.
  - split; vm_compute; reflexivity.
Qed.

Lemma risk_assessment_is_a_snapshot_witness :
  ∃ a d', run (assess lab_risk_draws 100 1 alice (Some 20%N)) risk_lab = (Ret a, d')
  ∧ risk_ok d' ∧ RA.findings_total a = 2%Z ∧ RA.aggregate_score a = Some 74%Z.
Proof.
  pose proof (risk_assessment_is_a_snapshot lab_risk_draws 100 1 alice (Some 20%N) risk_lab
    risk_lab_ok risk_lab_fresh ltac:(reflexivity)) as H.
  assert (match (run (assess lab_risk_draws 100 1 alice (Some 20%N)) risk_lab).1 with
          | Ret a => (RA.findings_total a =? 2)%Z && (RA.aggregate_score a ≟ Some 74%Z)
          | Raise _ => false
          end = true) as Hc by (vm_compute; reflexivity).
  destruct (run _ risk_lab) as [[a|e] d']; [|discriminate Hc]. cbn [fst] in Hc. bools.
  destruct H as (m & policy & dp & _ & _ & _ & _ & _ & Hok & _).
  exists a, d'. split; [reflexivity|]. split; [exact Hok|]. split; [by apply Z.eqb_eq|assumption].
Defined.
