(* ===== verification/RateLimit.v ===== *)
(** security/rate_limit.py and its two users, the per-user limit of
    dependencies/auth.py and the middleware before the authentication routes.

    [time.monotonic()] is a number of microseconds.  A call reads the clock
    first and then takes the limiter's lock: the time is an argument of the step,
    and calls are in the order of the lock.  The theorem is for calls whose times
    are in that order too, that is, no two threads overtake each other between
    the two. *)

From S2P Require Import Prelude.
From S2P Require Import PyValue.
From S2P Require Import Sha256.
From Stdlib Require Import ZifyBool.
From stdpp Require Import list sorting.

Open Scope Z_scope.

Module Limiter.
(** security/rate_limit.py:11-19, part of InMemoryRateLimiter. *)
Record InMemoryRateLimiter := mk {
  limit : Z;
  window_seconds : Z;
  _events : gmap string (list timestamp)
}.
#[export] Instance eta : Eta InMemoryRateLimiter := eta! mk < limit ; window_seconds ; _events >.
Definition new (limit window_seconds : Z) : InMemoryRateLimiter := mk limit window_seconds ∅.
End Limiter.
Abbreviation InMemoryRateLimiter := Limiter.InMemoryRateLimiter.
Export (hints) Limiter.

(** [while events and events[0] <= start: events.popleft()] *)
Fixpoint evict (start : timestamp) (events : list timestamp) : list timestamp :=
  match events with
  | e :: rest => if e <=? start then evict start rest else events
  | [] => []
  end.

(** [ceil(x)] of a number of seconds *)
Definition ceil_seconds (x : Z) : Z := - (- x / seconds 1).

(** security/rate_limit.py:20-40, InMemoryRateLimiter.check.  The clock was read
    at [now], before the lock was taken.  A limit below one
    has no first event to look at: an IndexError. *)
Definition check (key : string) (now : timestamp) (l : InMemoryRateLimiter)
    : res () * InMemoryRateLimiter :=
  let window := seconds (Limiter.window_seconds l) in
  let events := evict (now - window) (default [] (Limiter._events l !! key)) in
  let usage := Z.of_nat (length events) in
  if Limiter.limit l <=? usage then
    (match events with
     | e :: _ =>
         inr (RateLimitError "rate_limited" (Z.max 1 (ceil_seconds (e + window - now)))
                (Limiter.limit l) usage)
     | [] => inr OtherException
     end, l <| Limiter._events ::= <[key := events]> |>)
  else (inl tt, l <| Limiter._events ::= <[key := events ++ [now]]> |>).

(** A sequence of calls. *)
Fixpoint check_all (calls : list (string * timestamp)) (l : InMemoryRateLimiter)
    : list (res ()) * InMemoryRateLimiter :=
  match calls with
  | [] => ([], l)
  | (key, now) :: calls =>
      let (r, l) := check key now l in
      let (rs, l) := check_all calls l in (r :: rs, l)
  end.

(** * Its users *)

Module UserLimiter.
(** dependencies/auth.py:59-64, part of UserRateLimiter. *)
Record UserRateLimiter := mk {
  _name : string;
  _limit : Z;
  _window_seconds : Z;
  _limiters : gmap Z InMemoryRateLimiter
}.
#[export] Instance eta : Eta UserRateLimiter :=
  eta! mk < _name ; _limit ; _window_seconds ; _limiters >.
End UserLimiter.
Abbreviation UserRateLimiter := UserLimiter.UserRateLimiter.
Export (hints) UserLimiter.

(** The key of a user's calls. *)
Definition user_key (name : string) (user_id : uuid) : string := name +:+ ":" +:+ uuid_str user_id.

(** dependencies/auth.py:66-77, UserRateLimiter.__call__. *)
Definition call_limiter (user_id : uuid) (app_env : string) (now : timestamp)
    (u : UserRateLimiter) : res () * UserRateLimiter :=
  let limit := if String.eqb app_env "testing" then 10000 else UserLimiter._limit u in
  let limiter :=
    default (Limiter.new limit (UserLimiter._window_seconds u)) (UserLimiter._limiters u !! limit) in
  let (r, limiter) := check (user_key (UserLimiter._name u) user_id) now limiter in
  (r, u <| UserLimiter._limiters ::= <[limit := limiter]> |>).

(** What the middleware does with a request. *)
Inductive dispatched :=
| Forwarded
| TooManyRequests (code : string) (retry_after : Z).

Definition limited_paths : list string := ["/auth/register"; "/auth/login"; "/auth/refresh"].

(** logging/middleware.py:190-210, AuthenticationRateLimitMiddleware.dispatch. *)
Definition dispatch (method path : string) (client : option string) (now : timestamp)
    (l : InMemoryRateLimiter) : res dispatched * InMemoryRateLimiter :=
  if String.eqb method "POST" && existsb (endswith path) limited_paths then
    let address := default "unknown" client in
    let (r, l) := check (address +:+ ":" +:+ path) now l in
    (match r with
     | inl _ => inl Forwarded
     | inr (RateLimitError code retry_after _ _) => inl (TooManyRequests code retry_after)
     | inr e => inr e
     end, l)
  else (inl Forwarded, l).

(** * The reference: a sliding window over the calls that were let through *)

(** The calls with [key] after [start]. *)
Definition recent (key : string) (start : timestamp) (past : list (string * timestamp))
    : list (string * timestamp) :=
  List.filter (λ c, String.eqb c.1 key && (start <? c.2)) past.

(** Which calls are let through when [past] already were. *)
Fixpoint sliding (limit window : Z) (past calls : list (string * timestamp)) : list bool :=
  match calls with
  | [] => []
  | (key, now) :: calls =>
      let free := Z.of_nat (length (recent key (now - window) past)) <? limit in
      free :: sliding limit window (if free then past ++ [(key, now)] else past) calls
  end.

(** The calls that were let through. *)
Definition passed (calls : list (string * timestamp)) (rs : list bool)
    : list (string * timestamp) :=
  omap (λ cr, if cr.2 : bool then Some cr.1 else None) (zip calls rs).

Definition is_ok {A} (r : res A) : bool := if r is inl _ then true else false.

(** The clock never runs backwards. *)
Definition clock (start : timestamp) (calls : list (string * timestamp)) : Prop :=
  StronglySorted Z.le (start :: calls.*2).

(** * Eviction *)

Lemma evict_filter start events :
  StronglySorted Z.le events → evict start events = List.filter (λ e, start <? e) events.
Proof.
  induction 1 as [|e events Hs IH Hall]; cbn; [done|].
  destruct (Z.leb_spec e start), (Z.ltb_spec start e); try lia; [done|].
  f_equal. clear IH Hs. induction Hall as [|e' events He' _ IH]; cbn; [done|].
  destruct (Z.ltb_spec start e'); [|lia]. by rewrite <-IH.
Qed.

Lemma filter_impl {A} (P Q : A → bool) l :
  (∀ x, P x = true → Q x = true) → List.filter P (List.filter Q l) = List.filter P l.
Proof.
  intros H. induction l as [|x l IH]; cbn; [done|].
  destruct (Q x) eqn:EQ, (P x) eqn:EP; cbn; rewrite ?EP; [by rewrite IH|done| |done].
  by rewrite (H x EP) in EQ.
Qed.

Lemma sorted_snoc (l : list Z) x :
  StronglySorted Z.le l → Forall (λ y, y ≤ x) l → StronglySorted Z.le (l ++ [x]).
Proof.
  induction 1 as [|y l Hs IH Hall]; cbn; intros Hx; [by repeat constructor|].
  apply Forall_cons in Hx as [Hy Hx]. constructor; [auto|].
  apply Forall_app. split; [done|]. by repeat constructor.
Qed.

Lemma sorted_filter (P : Z → bool) l :
  StronglySorted Z.le l → StronglySorted Z.le (List.filter P l).
Proof.
  induction 1 as [|y l Hs IH Hall]; cbn; [constructor|]. destruct (P y); [|done].
  constructor; [done|]. rewrite Forall_forall in *. intros z Hz.
  apply Hall, list_elem_of_In. by apply list_elem_of_In, filter_In in Hz as [].
Qed.

(** * The limiter follows the reference *)

Section follows.
Context (limit window : Z) (limit_pos : 1 ≤ limit).

Definition events_of (key : string) (l : InMemoryRateLimiter) : list timestamp :=
  default [] (Limiter._events l !! key).

(** The calls with [key] that one window, up to [t], holds. *)
Definition in_window (key : string) (t : timestamp) (past : list (string * timestamp)) :=
  List.filter (λ c, c.2 <=? t) (recent key (t - seconds window) past).

(** The state of the limiter after the calls in [past], at the time [last]. *)
Record follows (past : list (string * timestamp)) (last : timestamp) (l : InMemoryRateLimiter)
    : Prop := {
  fo_limit : Limiter.limit l = limit;
  fo_window : Limiter.window_seconds l = window;
  fo_past : Forall (λ c, c.2 ≤ last) past;
  fo_sorted key : StronglySorted Z.le (events_of key l);
  fo_events key : Forall (λ e, e ≤ last) (events_of key l);
  fo_few key : Z.of_nat (length (events_of key l)) ≤ limit;
  fo_recent key t : last ≤ t →
    List.filter (λ e, t - seconds window <? e) (events_of key l)
    = (recent key (t - seconds window) past).*2;
  fo_bounded key t : Z.of_nat (length (in_window key t past)) ≤ limit
}.

Lemma events_of_set key key' ev l :
  events_of key' (l <| Limiter._events ::= <[key := ev]> |>)
  = if decide (key = key') then ev else events_of key' l.
Proof. unfold events_of. cbn. rewrite lookup_insert. by case_decide. Qed.

Lemma follows_new start : follows [] start (Limiter.new limit window).
Proof.
  assert (∀ key, events_of key (Limiter.new limit window) = []) as E by done.
  split; try done; intros key; rewrite ?E; cbn; (lia || constructor).
Qed.

(** The events that are left are those of the window. *)
Lemma evicted key past last l now :
  follows past last l → last ≤ now →
  evict (now - seconds window) (events_of key l) = (recent key (now - seconds window) past).*2.
Proof. intros Hl Hn. rewrite evict_filter by apply Hl. by apply Hl. Qed.

Lemma follows_evict past last l now key :
  follows past last l → last ≤ now →
  follows past now
    (l <| Limiter._events ::= <[key := evict (now - seconds window) (events_of key l)]> |>).
Proof.
  intros Hl Hn. split; try apply Hl.
  - eapply Forall_impl; [apply Hl|]. cbn. lia.
  - intros k. rewrite events_of_set. case_decide; [|apply Hl].
    rewrite evict_filter by apply Hl. apply sorted_filter, Hl.
  - intros k. eapply (Forall_impl (λ e, e ≤ last)); [|cbn; lia]. rewrite events_of_set.
    case_decide; [|apply Hl]. rewrite evict_filter by apply Hl. rewrite Forall_forall.
    intros e He. apply list_elem_of_In, filter_In in He as [He _].
    pose proof (fo_events _ _ _ Hl key) as Hall. rewrite Forall_forall in Hall.
    by apply Hall, list_elem_of_In.
  - intros k. rewrite events_of_set. case_decide; [|apply Hl].
    rewrite evict_filter by apply Hl. etrans; [|apply (fo_few _ _ _ Hl key)].
    apply Nat2Z.inj_le, filter_length_le.
  - intros k t Ht. rewrite events_of_set. case_decide; [|apply Hl; lia]. subst k.
    rewrite evict_filter by apply Hl. rewrite filter_impl by (intros x; lia). apply Hl. lia.
Qed.

Lemma recent_snoc key start past c :
  recent key start (past ++ [c])
  = recent key start past ++ (if String.eqb c.1 key && (start <? c.2) then [c] else []).
Proof. unfold recent. rewrite List.filter_app. done. Qed.

Lemma recent_le key start start' past :
  start' ≤ start → (length (recent key start past) ≤ length (recent key start' past))%nat.
Proof.
  intros H. unfold recent.
  rewrite <-(filter_impl (λ c, String.eqb c.1 key && (start <? c.2))
              (λ c, String.eqb c.1 key && (start' <? c.2))); [apply filter_length_le|].
  intros c. rewrite !andb_true_iff. lia.
Qed.

Lemma follows_add past now l key :
  follows past now l → Z.of_nat (length (recent key (now - seconds window) past)) < limit →
  evict (now - seconds window) (events_of key l) = events_of key l →
  follows (past ++ [(key, now)]) now
    (l <| Limiter._events ::= <[key := events_of key l ++ [now]]> |>).
Proof.
  intros Hl Hfree Hev. split; try apply Hl.
  - apply Forall_app. split; [apply Hl|]. apply Forall_singleton. cbn. lia.
  - intros k. rewrite events_of_set. case_decide; [|apply Hl]. apply sorted_snoc; apply Hl.
  - intros k. rewrite events_of_set. case_decide; [|apply Hl]. apply Forall_app.
    split; [apply Hl|]. apply Forall_singleton. lia.
  - intros k. rewrite events_of_set. case_decide; [|apply Hl].
    rewrite (evicted key past now l now) in Hev by (done || lia). rewrite <-Hev.
    rewrite length_app, length_fmap. cbn. lia.
  - intros k t Ht. rewrite events_of_set, recent_snoc. cbn [fst snd]. case_decide as Hk.
    + subst k. rewrite String.eqb_refl, List.filter_app, (fo_recent _ _ _ Hl), fmap_app by done.
      f_equal. cbn. by destruct (t - seconds window <? now).
    + destruct (String.eqb_spec key k) as [|_]; [done|]. cbn.
      rewrite app_nil_r. by apply Hl.
  - intros k t. unfold in_window. rewrite recent_snoc, List.filter_app, length_app. cbn [fst snd].
    pose proof (fo_bounded _ _ _ Hl k t) as Hb. unfold in_window in Hb.
    destruct (String.eqb_spec key k) as [->|_]; cbn [andb]; [|cbn; lia].
    destruct (t - seconds window <? now); cbn; [|lia].
    destruct (Z.leb_spec now t) as [Ht|]; cbn; [|lia].
    pose proof (filter_length_le (λ c : string * Z, c.2 <=? t)
      (recent k (t - seconds window) past)).
    pose proof (recent_le k (t - seconds window) (now - seconds window) past ltac:(lia)). lia.
Qed.

(** One call. *)
Lemma check_follows key past last l now :
  follows past last l → last ≤ now →
  let '(r, l') := check key now l in
  let free := Z.of_nat (length (recent key (now - seconds window) past)) <? limit in
  is_ok r = free ∧ follows (if free then past ++ [(key, now)] else past) now l'.
Proof.
  intros Hl Hn. unfold check. rewrite (fo_limit _ _ _ Hl), (fo_window _ _ _ Hl).
  fold (events_of key l). pose proof (follows_evict _ _ _ _ key Hl Hn) as He.
  assert (length (evict (now - seconds window) (events_of key l))
          = length (recent key (now - seconds window) past)) as E.
  { by rewrite (evicted key past last l now), length_fmap. }
  rewrite E. destruct (Z.leb_spec limit (Z.of_nat (length (recent key (now - seconds window) past))));
    destruct (Z.ltb_spec (Z.of_nat (length (recent key (now - seconds window) past))) limit);
    try lia; cbv zeta beta iota.
  - split; [|done]. by destruct (evict _ _).
  - split; [done|]. set (l' := l <| Limiter._events ::= <[key := evict _ _]> |>) in He.
    assert (events_of key l' = evict (now - seconds window) (events_of key l)) as Hev.
    { unfold l'. rewrite events_of_set. by rewrite decide_True. }
    assert (l <| Limiter._events ::= <[key := evict (now - seconds window) (events_of key l) ++ [now]]> |>
            = l' <| Limiter._events ::= <[key := events_of key l' ++ [now]]> |>) as ->.
    { rewrite Hev. unfold l', upd. cbn. by rewrite insert_insert_eq. }
    apply follows_add; [done..|].
    rewrite (evicted key past now l' now), Hev, (evicted key past last l now) by (done || lia). done.
Qed.

(** A refused caller that waits as long as it is told is let through. *)
Lemma check_retry key past last l now c r n u l' :
  follows past last l → last ≤ now →
  check key now l = (inr (RateLimitError c r n u), l') →
  1 ≤ r ∧ r ≤ Z.max 1 window ∧ (check key (now + seconds r) l').1 = inl tt.
Proof.
  intros Hl Hn. unfold check at 1. rewrite (fo_limit _ _ _ Hl), (fo_window _ _ _ Hl).
  fold (events_of key l). pose proof (follows_evict _ _ _ _ key Hl Hn) as He.
  destruct (limit <=? _) eqn:Hfull; [|discriminate].
  destruct (evict _ _) as [|e events] eqn:Hev; [discriminate|]. intros [= <- <- <- <- <-].
  set (l' := upd _ _ l) in *. assert (events_of key l' = e :: events) as Hev'.
  { unfold l'. rewrite events_of_set. by rewrite decide_True. }
  assert (now - seconds window < e ≤ now) as He1.
  { split.
    - rewrite evict_filter in Hev by apply Hl.
      assert (In e (e :: events)) as Hin by by left. rewrite <-Hev in Hin.
      apply filter_In in Hin as [_ ?]. lia.
    - pose proof (fo_events _ _ _ He key) as Hall. rewrite Hev' in Hall. by inversion Hall. }
  assert (∀ x, x ≤ seconds (ceil_seconds x) ∧ (0 < x → 0 < ceil_seconds x)
    ∧ ∀ n, x ≤ seconds n → ceil_seconds x ≤ n) as Hceil.
  { intros x. unfold ceil_seconds. change (seconds 1) with 1000000. unfold seconds.
    pose proof (Z.div_mod (- x) 1000000 ltac:(lia)).
    pose proof (Z.mod_pos_bound (- x) 1000000 ltac:(lia)). split_and!; intros; lia. }
  destruct (Hceil (e + seconds window - now)) as (Hc1 & Hc2 & Hc3).
  specialize (Hc3 window ltac:(lia)). set (r := ceil_seconds _) in *.
  split; [lia|]. split; [lia|]. unfold check. rewrite (fo_limit _ _ _ He), (fo_window _ _ _ He).
  fold (events_of key l'). rewrite Hev'. cbn [evict].
  assert (seconds r ≤ seconds (Z.max 1 r)) as Hr by (unfold seconds; lia).
  replace (e <=? _) with true by lia.
  pose proof (fo_few _ _ _ He key) as Hf. rewrite Hev' in Hf. cbn [length] in Hf.
  assert (∀ s ev, (length (evict s ev) ≤ length ev)%nat) as Hlen.
  { intros s ev. induction ev as [|y ev IH]; cbn; [lia|]. destruct (y <=? s); cbn; lia. }
  specialize (Hlen (now + seconds (Z.max 1 r) - seconds window) events).
  by replace (limit <=? _) with false by lia.
Qed.

Lemma check_all_follows calls : ∀ past last l,
  follows past last l → clock last calls →
  let '(rs, l') := check_all calls l in
  map is_ok rs = sliding limit (seconds window) past calls
  ∧ follows (past ++ passed calls (map is_ok rs)) (default last (list.last calls.*2)) l'.
Proof.
  induction calls as [|[key now] calls IH]; intros past last l Hl Hc; cbn [check_all].
  { by rewrite app_nil_r. }
  unfold clock in Hc. cbn in Hc. apply StronglySorted_inv in Hc as [Hc Hn].
  apply Forall_cons in Hn as [Hn _].
  pose proof (check_follows key past last l now Hl Hn) as Hk.
  destruct (check key now l) as [r l1]. cbn zeta in Hk. destruct Hk as [Hr Hl1].
  specialize (IH _ _ _ Hl1 Hc). destruct (check_all calls l1) as [rs l2].
  destruct IH as [Hrs Hl2]. cbn [map sliding]. rewrite Hr, Hrs. split; [done|].
  rewrite fmap_cons, last_cons. cbn [snd].
  assert (default last (match list.last calls.*2 with Some y => Some y | None => Some now end)
          = default now (list.last calls.*2)) as -> by by destruct (list.last _).
  destruct (_ <? limit); cbn [passed zip_with omap list_omap] in *; [|by rewrite Hrs in Hl2].
  rewrite <-app_assoc, Hrs in Hl2. exact Hl2.
Qed.
End follows.

(** C25. The limiter lets a call through exactly when fewer than [limit] calls
    with its key were let through in the last [window] seconds; so no window,
    wherever it starts, holds more than [limit] of them; and a caller that is
    refused and waits as long as it was told is let through.  The calls take the
    lock in the order in which they read the clock. *)
Theorem limiter_is_a_sliding_window (limit window start : Z) (calls : list (string * timestamp)) :
  1 ≤ limit → clock start calls →
  let '(rs, l) := check_all calls (Limiter.new limit window) in
  map is_ok rs = sliding limit (seconds window) [] calls
  ∧ (∀ key t, Z.of_nat (length (in_window window key t (passed calls (map is_ok rs)))) ≤ limit)
  ∧ (∀ key now c r n u l',
       Forall (λ t, t ≤ now) (start :: calls.*2) →
       check key now l = (inr (RateLimitError c r n u), l') →
       1 ≤ r ∧ r ≤ Z.max 1 window ∧ (check key (now + seconds r) l').1 = inl tt).
Proof.
  intros Hpos Hc.
  pose proof (check_all_follows limit window calls [] start _ (follows_new _ _ Hpos _) Hc) as Ha.
  destruct (check_all calls _) as [rs l]. destruct Ha as [Hrs Hl]. split; [done|].
  split; [apply Hl|]. intros key now c r n u l' Hall Hk. eapply check_retry; [exact Hl| |exact Hk].
  apply Forall_cons in Hall as [Hs Hall]. destruct (list.last calls.*2) as [t|] eqn:E; [|done].
  apply last_Some_elem_of in E. rewrite Forall_forall in Hall. by apply Hall.
Qed.

Definition calls_example : list (string * timestamp) :=
  [("a", seconds 0); ("a", seconds 1); ("b", seconds 1); ("a", seconds 30); ("a", seconds 60);
   ("a", seconds 60)].
Example sliding_example :
  map is_ok (check_all calls_example (Limiter.new 2 60)).1 = [true; true; true; false; true; false].
Proof. vm_compute. reflexivity. Qed.

Lemma limiter_is_a_sliding_window_witness :
  let '(rs, l) := check_all calls_example (Limiter.new 2 60) in
  map is_ok rs = sliding 2 (seconds 60) [] calls_example
  ∧ (∀ key t, Z.of_nat (length (in_window 60 key t (passed calls_example (map is_ok rs)))) ≤ 2)
  ∧ (∀ key now c r n u l',
       Forall (λ t, t ≤ now) (0 :: calls_example.*2) →
       check key now l = (inr (RateLimitError c r n u), l') →
       1 ≤ r ∧ r ≤ Z.max 1 60 ∧ (check key (now + seconds r) l').1 = inl tt).
Proof.
  apply (limiter_is_a_sliding_window 2 60 0 calls_example); [lia|].
  unfold clock, calls_example, seconds. repeat constructor; cbn; lia.
Defined.
