(* ===== verification/Tokens.v ===== *)
(** security/tokens.py, security/passwords.py and the guards of
    dependencies/auth.py: who a request comes from.

    PyJWT and argon2 are not part of the program: they are interfaces, and
    what is relied on of PyJWT is stated as laws.  Strings are ASCII. *)

From S2P Require Import Prelude.
From S2P Require Import Enums.
From S2P Require Import PyValue.
From S2P Require Import Models.
From S2P Require Import Common.
From S2P Require Import Sha256.
From S2P Require Import Uuids.
From Stdlib Require Import Ascii ZifyBool.
From stdpp Require Import list.

(** * The libraries *)

(** PyJWT: [jwt.encode] with its headers, [jwt.get_unverified_header], and
    [jwt.decode] at a time, which requires the five claims; None stands for an
    [InvalidTokenError]. *)
Class Jwt := {
  jwt_encode (payload : pydict) (key algorithm kid : string) : string;
  jwt_header (token : string) : option pydict;
  jwt_decode (now : timestamp) (token key algorithm : string) : option pydict
}.

Definition required_claims : list string := ["sub"; "type"; "iat"; "exp"; "jti"].

(** What PyJWT documents: the header of a token is what it was made with; the
    payload is returned for the key and algorithm it was signed with, from
    [iat] until just before [exp]; after [exp] no key gets it. *)
Class JwtLaws `{Jwt} : Prop := {
  jwt_header_encode payload key algorithm kid :
    ∃ header, jwt_header (jwt_encode payload key algorithm kid) = Some header
      ∧ dget "kid" header = Some (PStr kid);
  jwt_decode_encode now payload key algorithm kid sub jti issued expires :
    dget "sub" payload = Some (PStr sub) → dget "jti" payload = Some (PStr jti) →
    dget "iat" payload = Some (PInt issued) → dget "exp" payload = Some (PInt expires) →
    Forall (λ c, is_some_ (dget c payload) = true) required_claims →
    (seconds issued ≤ now < seconds expires)%Z →
    jwt_decode now (jwt_encode payload key algorithm kid) key algorithm = Some payload;
  jwt_decode_expired now payload key algorithm kid key' algorithm' expires :
    dget "exp" payload = Some (PInt expires) → (seconds expires ≤ now)%Z →
    jwt_decode now (jwt_encode payload key algorithm kid) key' algorithm' = None
}.

(** argon2: [PasswordHasher.hash] with its salt, and [verify], where None is
    any of the three errors that are caught. *)
Class PasswordHasher := {
  hasher_hash (salt password : string) : string;
  hasher_verify (password_hash password : string) : option bool
}.

(** * Settings *)

Module TokenSettings.
(** core/config.py:78-84, part of Settings.  A secret is its value. *)
Record Settings := mk {
  jwt_secret_key : string;
  jwt_active_key_id : string;
  jwt_previous_secret_key : option string;
  jwt_previous_key_id : option string;
  jwt_algorithm : string;
  access_token_expire_minutes : Z;
  refresh_token_expire_days : Z
}.
#[export] Instance eta : Eta Settings :=
  eta! mk < jwt_secret_key ; jwt_active_key_id ; jwt_previous_secret_key ; jwt_previous_key_id ;
  jwt_algorithm ; access_token_expire_minutes ; refresh_token_expire_days >.
End TokenSettings.
Abbreviation TokenSettings := TokenSettings.Settings.
Export (hints) TokenSettings.


(** * Access tokens *)

Module Claims.
(** security/tokens.py:16-20, AccessClaims. *)
Record AccessClaims := mk {
  user_id : uuid;
  expires_at : timestamp;
  token_id : uuid
}.
End Claims.
Abbreviation AccessClaims := Claims.AccessClaims.

(** [int(t.timestamp())], which truncates towards zero *)
Definition int_timestamp (t : timestamp) : Z := (t ÷ seconds 1)%Z.

(** [uuid.UUID(v)] *)
Definition UUID_of (v : pyval) : res uuid :=
  match v with
  | PStr s => new_UUID s
  | PNone => inr TypeError
  | _ => inr AttributeError
  end.

(** [datetime.fromtimestamp(v, UTC)]: the years 1 to 9999; a year that C cannot
    represent is an OSError or an OverflowError. *)
Definition fromtimestamp (v : pyval) : res timestamp :=
  match as_number v with
  | Some z =>
      if ((-62135596800 <=? z) && (z <=? 253402300799))%Z then inl (seconds z)
      else if ((-67768040609740800 <=? z) && (z <=? 67768036191676799))%Z then inr ValueError
      else inr OtherException
  | None => inr TypeError
  end.

(** [payload[k]] *)
Definition item (k : string) (d : pydict) : res pyval :=
  match dget k d with Some v => inl v | None => inr KeyError end.

(** The first key that verifies the token. *)
Fixpoint decode_with {J : Jwt} (now : timestamp) (token algorithm : string) (keys : list string)
    : option pydict :=
  match keys with
  | [] => None
  | key :: keys =>
      match jwt_decode now token key algorithm with
      | Some payload => Some payload
      | None => decode_with now token algorithm keys
      end
  end.

Section tokens.
Context `{Jwt} (settings : TokenSettings).
Import TokenSettings.

(** security/tokens.py:26-31, part of create_access_token.  The payload. *)
Definition access_payload (user_id jti : uuid) (issued : timestamp) : pydict :=
  let expires := (issued + minutes (access_token_expire_minutes settings))%Z in
  [("sub", PStr (uuid_str user_id)); ("type", PStr "access");
   ("iat", PInt (int_timestamp issued)); ("exp", PInt (int_timestamp expires));
   ("jti", PStr (uuid_str jti))].

(** security/tokens.py:23-38, create_access_token. *)
Definition create_access_token (user_id jti : uuid) (issued : timestamp) : string :=
  jwt_encode (access_payload user_id jti issued) (jwt_secret_key settings)
    (jwt_algorithm settings) (jwt_active_key_id settings).

(** security/tokens.py:44-50, part of decode_access_token.  The keys that may
    have signed a token with this key id. *)
Definition candidate_keys (key_id : pyval) : list string :=
  (if is_none key_id || py_eq key_id (PStr (jwt_active_key_id settings))
   then [jwt_secret_key settings] else [])
  ++ match jwt_previous_secret_key settings with
     | Some previous =>
         if is_none key_id
            || py_eq key_id
                 (match jwt_previous_key_id settings with Some k => PStr k | None => PNone end)
         then [previous] else []
     | None => []
     end.

Definition invalid_authentication : exn := AuthenticationError "invalid_authentication".

(** security/tokens.py:67-73, part of decode_access_token. *)
Definition claims_of (payload : pydict) : res AccessClaims :=
  type ← item "type" payload;
  _ ← (if py_eq type (PStr "access") then inl tt else inr invalid_authentication : res ());
  user_id ← (sub ← item "sub" payload; UUID_of sub);
  expires_at ← (exp ← item "exp" payload; fromtimestamp exp);
  token_id ← (jti ← item "jti" payload; UUID_of jti);
  mret (Claims.mk user_id expires_at token_id).

(** security/tokens.py:41-75, decode_access_token. *)
Definition decode_access_token (now : timestamp) (token : string) : res AccessClaims :=
  match jwt_header token with
  | None => inr invalid_authentication
  | Some header =>
      match decode_with now token (jwt_algorithm settings)
              (candidate_keys (dget_or "kid" PNone header)) with
      | None => inr invalid_authentication
      | Some payload =>
          match claims_of payload with
          | inl claims => inl claims
          | inr (KeyError | TypeError | ValueError) => inr invalid_authentication
          | inr e => inr e
          end
      end
  end.

(** security/tokens.py:82-83, hash_opaque_token. *)
Definition hash_opaque_token (token : string) : string := sha256_hex token.

(** * Who a request comes from *)

(** dependencies/auth.py:24-35, require_authenticated_user.  The credentials are
    the scheme and the token of the Authorization header. *)
Definition require_authenticated_user (now : timestamp) (credentials : option (string * string))
    : txn DB User :=
  '(scheme, token) ← some_or credentials invalid_authentication;
  _ ← ensure (String.eqb (lower scheme) "bearer") invalid_authentication;
  claims ← of_res (decode_access_token now token);
  u ← gets (user (Claims.user_id claims));
  u ← some_or u invalid_authentication;
  _ ← ensure (User.status u ≟ UserStatus.ACTIVE) invalid_authentication;
  mret u.

(** dependencies/auth.py:41-46, require_platform_admin. *)
Definition require_platform_admin (u : User) : txn DB User :=
  _ ← ensure (User.is_platform_admin u) (ForbiddenError "forbidden");
  mret u.
End tokens.

(** * Passwords *)

Fixpoint sexists (P : ascii → bool) (s : string) : bool :=
  match s with
  | EmptyString => false
  | String c s => P c || sexists P s
  end.

(** [t in s] *)
Fixpoint is_in (t s : string) : bool :=
  String.prefix t s || match s with String _ s => is_in t s | EmptyString => false end.

(** [s.split(c, 1)[0]] *)
Fixpoint until (c : ascii) (s : string) : string :=
  match s with
  | String c' s => if Ascii.eqb c c' then "" else String c' (until c s)
  | EmptyString => ""
  end.

Definition is_upper (c : ascii) : bool := ((65 <=? code c) && (code c <=? 90))%N.
Definition is_lower (c : ascii) : bool := ((97 <=? code c) && (code c <=? 122))%N.
Definition is_digit (c : ascii) : bool := ((48 <=? code c) && (code c <=? 57))%N.
(** [[^\w\s]] *)
Definition is_symbol (c : ascii) : bool :=
  negb (is_upper c || is_lower c || is_digit c || Ascii.eqb c "_" || is_space c).

(** security/passwords.py:23-37, part of validate_password.  The failures. *)
Definition password_failures (password : string) (email : option string) : list string :=
  (if Nat.ltb (String.length password) 12 then ["at least 12 characters"] else [])
  ++ (if Nat.ltb 128 (String.length password) then ["at most 128 characters"] else [])
  ++ (if sexists is_upper password then [] else ["an uppercase character"])
  ++ (if sexists is_lower password then [] else ["a lowercase character"])
  ++ (if sexists is_digit password then [] else ["a number"])
  ++ (if sexists is_symbol password then [] else ["a symbol"])
  ++ match given email with
     | Some email => if is_in (lower (until "@" email)) (lower password)
                     then ["no email-name inclusion"] else []
     | None => []
     end.

(** security/passwords.py:22-43, validate_password. *)
Definition validate_password (password : string) (email : option string) : res () :=
  match password_failures password email with
  | [] => inl tt
  | _ => inr (AppError "weak_password" 422)
  end.

(** security/passwords.py:50-54, verify_password. *)
Definition verify_password {P : PasswordHasher} (password password_hash : string) : bool :=
  default false (hasher_verify password_hash password).

Example strong_password :
  password_failures "CloudOps-Dummy-Password-123!" (Some "ada@example.com") = [].
Proof. reflexivity. Qed.
Example weak_password :
  password_failures "ada lovelace" (Some "Ada@example.com")
  = ["an uppercase character"; "a number"; "a symbol"; "no email-name inclusion"].
Proof. reflexivity. Qed.

(** * A token library that satisfies the laws

    The token lists everything it was made from, so that the laws can hold;
    it shows that they do not contradict each other and gives no security. *)

Fixpoint tree_of (v : pyval) : gen_tree (bool + Z + string) :=
  match v with
  | PNone => GenNode 0 []
  | PBool b => GenLeaf (inl (inl b))
  | PInt z => GenLeaf (inl (inr z))
  | PStr s => GenLeaf (inr s)
  | PList l => GenNode 1 (map tree_of l)
  | PDict d => GenNode 2 (map (λ kv, GenNode 0 [GenLeaf (inr kv.1); tree_of kv.2]) d)
  end.
Fixpoint of_tree (t : gen_tree (bool + Z + string)) : pyval :=
  match t with
  | GenLeaf (inl (inl b)) => PBool b
  | GenLeaf (inl (inr z)) => PInt z
  | GenLeaf (inr s) => PStr s
  | GenNode 1 l => PList (map of_tree l)
  | GenNode 2 l =>
      PDict (omap (λ t, match t with
                        | GenNode _ [GenLeaf (inr k); v] => Some (k, of_tree v)
                        | _ => None
                        end) l)
  | GenNode _ _ => PNone
  end.
Lemma of_tree_of v : of_tree (tree_of v) = v.
Proof.
  induction v as [| | | |l IH|d IH] using pyval_rec'; try done; cbn; f_equal.
  - induction IH as [|x l Hx _ IHl]; cbn; [done|]. by rewrite Hx, IHl.
  - induction IH as [|[k x] d Hx _ IHd]; cbn in *; [done|]. by rewrite Hx, IHd.
Qed.
#[export] Instance pyval_eq_dec : EqDecision pyval.
Proof.
  refine (λ v v', cast_if (decide (tree_of v = tree_of v'))); [|by intros ->].
  by rewrite <-(of_tree_of v), <-(of_tree_of v'), e.
Defined.
#[export] Instance pyval_countable : Countable pyval := inj_countable' tree_of of_tree of_tree_of.

Fixpoint bits (p : positive) : string :=
  match p with xH => "" | xO p => String "0" (bits p) | xI p => String "1" (bits p) end.
Fixpoint of_bits (s : string) : positive :=
  match s with
  | String c s => if Ascii.eqb c "1" then xI (of_bits s) else xO (of_bits s)
  | EmptyString => xH
  end.
Lemma of_bits_bits p : of_bits (bits p) = p.
Proof. induction p as [p IH|p IH|]; cbn; by rewrite ?IH. Qed.

Definition clear_fields (token : string) : option (pydict * (string * string * string)) :=
  decode (of_bits token).
Lemma clear_fields_of (x : pydict * (string * string * string)) :
  clear_fields (bits (encode x)) = Some x.
Proof. unfold clear_fields. by rewrite of_bits_bits, decode_encode. Qed.

Definition number (k : string) (d : pydict) : Z :=
  match dget k d with Some (PInt z) => z | _ => 0%Z end.

Definition clear_jwt : Jwt := {|
  jwt_encode payload key algorithm kid := bits (encode (payload, (key, algorithm, kid)));
  jwt_header token := x ← clear_fields token; Some [("kid", PStr x.2.2)];
  jwt_decode now token key algorithm :=
    x ← clear_fields token;
    if String.eqb key x.2.1.1 && String.eqb algorithm x.2.1.2
       && (seconds (number "iat" x.1) <=? now)%Z && (now <? seconds (number "exp" x.1))%Z
    then Some x.1 else None
|}.
Lemma clear_jwt_laws : @JwtLaws clear_jwt.
Proof.
  split; cbn [jwt_encode jwt_header jwt_decode clear_jwt].
  - intros payload key algorithm kid. rewrite clear_fields_of. eexists. by split.
  - intros now payload key algorithm kid sub jti issued expires _ _ Hi He _ Hn.
    rewrite clear_fields_of. cbn -[seconds number]. unfold number. rewrite Hi, He, !String.eqb_refl.
    rewrite (proj2 (Z.leb_le _ _)), (proj2 (Z.ltb_lt _ _)) by lia. done.
  - intros now payload key algorithm kid key' algorithm' expires He Hn.
    rewrite clear_fields_of. cbn -[seconds number]. unfold number. rewrite He.
    replace (now <? seconds expires)%Z with false by lia. by rewrite !andb_false_r.
Qed.

(** * The life of an access token *)

Section life.
Context `{J : Jwt, !JwtLaws}.
Import TokenSettings.
Implicit Types s : TokenSettings.

(** The second at which the token expires. *)
Definition expiry s (issued : timestamp) : Z :=
  int_timestamp (issued + minutes (access_token_expire_minutes s)).

Lemma int_timestamp_bounds t :
  (0 ≤ t)%Z → (seconds (int_timestamp t) ≤ t < seconds (int_timestamp t) + seconds 1)%Z.
Proof.
  intros Ht. unfold int_timestamp, seconds. rewrite Z.quot_div_nonneg by lia.
  pose proof (Z.div_mod t (1 * 1000000) ltac:(lia)).
  pose proof (Z.mod_pos_bound t (1 * 1000000) ltac:(lia)). lia.
Qed.

Lemma kid_of s u j issued :
  ∃ header, jwt_header (create_access_token s u j issued) = Some header
    ∧ dget_or "kid" PNone header = PStr (jwt_active_key_id s).
Proof.
  destruct (jwt_header_encode (access_payload s u j issued) (jwt_secret_key s)
    (jwt_algorithm s) (jwt_active_key_id s)) as (header & Hh & Hk).
  exists header. split; [exact Hh|]. unfold dget_or. by rewrite Hk.
Qed.

(** The payload comes back with the right key. *)
Lemma payload_back s u j issued now :
  (0 ≤ issued ≤ now)%Z → (now < seconds (expiry s issued))%Z →
  jwt_decode now (create_access_token s u j issued) (jwt_secret_key s) (jwt_algorithm s)
  = Some (access_payload s u j issued).
Proof.
  intros Hi He. eapply jwt_decode_encode; [done..|by repeat constructor|].
  pose proof (int_timestamp_bounds issued ltac:(lia)). unfold expiry in He. lia.
Qed.

Lemma claims_of_items payload sub exp jti u t j :
  dget "type" payload = Some (PStr "access") → dget "sub" payload = Some sub →
  dget "exp" payload = Some exp → dget "jti" payload = Some jti →
  UUID_of sub = inl u → fromtimestamp exp = inl t → UUID_of jti = inl j →
  claims_of payload = inl (Claims.mk u t j).
Proof.
  intros E1 E2 E3 E4 Hu Ht Hj. unfold claims_of, item. rewrite E1, E2, E3, E4.
  cbn [mbind res_bind]. change (py_eq (PStr "access") (PStr "access")) with true.
  cbn [mbind res_bind]. by rewrite Hu, Ht, Hj.
Qed.

Lemma fromtimestamp_ok z : (0 ≤ z ≤ 253402300799)%Z → fromtimestamp (PInt z) = inl (seconds z).
Proof.
  intros Hz. unfold fromtimestamp. change (as_number (PInt z)) with (Some z). cbv beta iota.
  by rewrite (proj2 (Z.leb_le _ _)), (proj2 (Z.leb_le _ _)) by lia.
Qed.

Lemma claims_back s u j issued :
  (u < 2 ^ 128)%N → (j < 2 ^ 128)%N → (0 ≤ expiry s issued ≤ 253402300799)%Z →
  claims_of (access_payload s u j issued) = inl (Claims.mk u (seconds (expiry s issued)) j).
Proof.
  intros Hu Hj He. eapply claims_of_items; [reflexivity..|by apply new_UUID_str|
    by apply fromtimestamp_ok|by apply new_UUID_str].
Qed.

Lemma expired_nowhere s u j issued now algorithm keys :
  (seconds (expiry s issued) ≤ now)%Z →
  decode_with now (create_access_token s u j issued) algorithm keys = None.
Proof.
  intros He. induction keys as [|key keys IH]; cbn; [done|].
  unfold create_access_token at 1. by erewrite jwt_decode_expired.
Qed.

(** The settings after a rotation: [s]'s key is the previous one. *)
Record rotated s s' : Prop := {
  ro_secret : jwt_previous_secret_key s' = Some (jwt_secret_key s);
  ro_id : jwt_previous_key_id s' = Some (jwt_active_key_id s);
  ro_fresh : jwt_active_key_id s' ≠ jwt_active_key_id s;
  ro_algorithm : jwt_algorithm s' = jwt_algorithm s
}.

(** The key of [s] is neither active nor previous. *)
Record retired s s' : Prop := {
  re_active : jwt_active_key_id s' ≠ jwt_active_key_id s;
  re_previous : jwt_previous_key_id s' ≠ Some (jwt_active_key_id s)
}.

Lemma own_keys s : ∃ more,
  candidate_keys s (PStr (jwt_active_key_id s)) = jwt_secret_key s :: more.
Proof. unfold candidate_keys. cbn. rewrite String.eqb_refl. cbn. eauto. Qed.
Lemma rotated_keys s s' :
  rotated s s' → candidate_keys s' (PStr (jwt_active_key_id s)) = [jwt_secret_key s].
Proof.
  intros [E1 E2 Hne _]. unfold candidate_keys. rewrite E1, E2. cbn.
  destruct (String.eqb_spec (jwt_active_key_id s) (jwt_active_key_id s')); [congruence|].
  by rewrite String.eqb_refl.
Qed.
Lemma retired_keys s s' :
  retired s s' → candidate_keys s' (PStr (jwt_active_key_id s)) = [].
Proof.
  intros [Hne Hp]. unfold candidate_keys. cbn.
  destruct (String.eqb_spec (jwt_active_key_id s) (jwt_active_key_id s')); [congruence|]. cbn.
  destruct (jwt_previous_secret_key s'), (jwt_previous_key_id s') as [k|]; cbn; try done.
  destruct (String.eqb_spec (jwt_active_key_id s) k); [congruence|done].
Qed.

(** What decoding a token of [s] comes down to. *)
Lemma decode_own s s' u j issued now :
  decode_access_token s' now (create_access_token s u j issued)
  = match decode_with now (create_access_token s u j issued) (jwt_algorithm s')
            (candidate_keys s' (PStr (jwt_active_key_id s))) with
    | None => inr invalid_authentication
    | Some payload =>
        match claims_of payload with
        | inl claims => inl claims
        | inr (KeyError | TypeError | ValueError) => inr invalid_authentication
        | inr e => inr e
        end
    end.
Proof.
  unfold decode_access_token. destruct (kid_of s u j issued) as (header & -> & Hk). by rewrite Hk.
Qed.

Lemma decode_by s s' u j issued now more :
  (u < 2 ^ 128)%N → (j < 2 ^ 128)%N → (expiry s issued ≤ 253402300799)%Z →
  candidate_keys s' (PStr (jwt_active_key_id s)) = jwt_secret_key s :: more →
  jwt_algorithm s' = jwt_algorithm s →
  (0 ≤ issued ≤ now)%Z → (now < seconds (expiry s issued))%Z →
  decode_access_token s' now (create_access_token s u j issued)
  = inl (Claims.mk u (seconds (expiry s issued)) j).
Proof.
  intros Hu Hj Hy Hk Ha Hi He. rewrite decode_own, Hk, Ha. cbn [decode_with].
  rewrite payload_back by done. rewrite claims_back; [done..|].
  unfold seconds in He. lia.
Qed.

Lemma decode_expired s s' u j issued now :
  (seconds (expiry s issued) ≤ now)%Z →
  decode_access_token s' now (create_access_token s u j issued) = inr invalid_authentication.
Proof. intros He. rewrite decode_own. by rewrite expired_nowhere. Qed.
End life.

(** What a request with [token] gets. *)
Definition signed_in `{Jwt} (s : TokenSettings) (now : timestamp) (token : string) : txn DB User :=
  require_authenticated_user s now (Some ("Bearer", token)).

Lemma run_signed_in `{Jwt} s now token d :
  run (signed_in s now token) d
  = (match decode_access_token s now token with
     | inl c =>
         match user (Claims.user_id c) d with
         | Some u => if User.status u ≟ UserStatus.ACTIVE then Ret u
                     else Raise invalid_authentication
         | None => Raise invalid_authentication
         end
     | inr e => Raise e
     end, d).
Proof.
  rewrite (surjective_pairing (run _ _)). apply (wp_run _ (λ o d', (o, d') = _)).
  unfold signed_in, require_authenticated_user.
  wp_go; simplify_eq/=;
    repeat match goal with E : _ = inl _ |- _ => rewrite E | E : _ = inr _ |- _ => rewrite E
      | E : user _ d = _ |- _ => cbn in E |- *; rewrite E
      | E : bool_decide _ = _ |- _ => rewrite E end; try done.
Qed.

(** C9. An access token names its user, from its creation until it expires, to
    the settings it was made with and to those after one rotation of the key;
    it is refused once its key is retired, and everywhere once the configured
    lifetime is over.  A request that carries it acts as that user if the user
    is active, and as nobody otherwise. *)
Theorem access_tokens_name_their_user `{J : Jwt, !JwtLaws} (s s' : TokenSettings)
    (user_id jti : uuid) (issued now : timestamp) (d : DB) :
  (user_id < 2 ^ 128)%N → (jti < 2 ^ 128)%N → (0 ≤ issued ≤ now)%Z →
  (expiry s issued ≤ 253402300799)%Z →
  let token := create_access_token s user_id jti issued in
  let claims := Claims.mk user_id (seconds (expiry s issued)) jti in
  (s' = s ∨ rotated s s' →
   (now < seconds (expiry s issued))%Z →
   decode_access_token s' now token = inl claims
   ∧ (∀ u, user user_id d = Some u → User.status u = UserStatus.ACTIVE →
        run (signed_in s' now token) d = (Ret u, d))
   ∧ (∀ u, user user_id d = Some u → User.status u ≠ UserStatus.ACTIVE →
        run (signed_in s' now token) d = (Raise invalid_authentication, d))
   ∧ (user user_id d = None → run (signed_in s' now token) d = (Raise invalid_authentication, d)))
  ∧ (retired s s' → run (signed_in s' now token) d = (Raise invalid_authentication, d))
  ∧ ((issued + minutes (TokenSettings.access_token_expire_minutes s) ≤ now)%Z →
     run (signed_in s' now token) d = (Raise invalid_authentication, d)).
Proof.
  intros Hu Hj Hi Hy token claims. subst token claims. split_and!.
  - intros Hs He.
    assert (decode_access_token s' now (create_access_token s user_id jti issued)
            = inl (Claims.mk user_id (seconds (expiry s issued)) jti)) as E.
    { destruct Hs as [->|Hs].
      - destruct (own_keys s) as [more Hk]. by eapply decode_by.
      - eapply decode_by; [done..|by apply rotated_keys|apply Hs|done|done]. }
    split; [done|]. rewrite run_signed_in, E. cbn [Claims.user_id].
    split_and!; [intros u -> Ha|intros u -> Ha|intros ->; done]; by case_bool_decide.
  - intros Hs. by rewrite run_signed_in, decode_own, retired_keys.
  - intros Hn. rewrite run_signed_in, decode_expired; [done|].
    destruct (Z_lt_le_dec (issued + minutes (TokenSettings.access_token_expire_minutes s)) 0).
    + unfold expiry, int_timestamp, seconds. rewrite Z.mul_1_l.
      pose proof (Z.quot_opp_l (- (issued + minutes (TokenSettings.access_token_expire_minutes s))) 1000000).
      pose proof (Z.quot_pos (- (issued + minutes (TokenSettings.access_token_expire_minutes s))) 1000000).
      rewrite Z.opp_involutive in *. lia.
    + pose proof (int_timestamp_bounds (issued + minutes (TokenSettings.access_token_expire_minutes s)) ltac:(lia)).
      unfold expiry. lia.
Qed.

Definition settings_a : TokenSettings := TokenSettings.mk "secret a" "a" None None "HS256" 15 14.
Definition settings_b : TokenSettings :=
  TokenSettings.mk "secret b" "b" (Some "secret a") (Some "a") "HS256" 15 14.
Definition ada : User :=
  User.mk 7 "Ada@example.com" "ada@example.com" "" "Ada" UserStatus.ACTIVE false None None.
Definition db_ada : DB := DB.empty <| DB.users := {[7%N := ada]} |>.

#[local] Existing Instances clear_jwt clear_jwt_laws.
Lemma access_tokens_name_their_user_witness :
  let token := create_access_token settings_a 7 8 (seconds 100) in
  decode_access_token settings_b (seconds 200) token = inl (Claims.mk 7 (seconds 1000) 8)
  ∧ run (signed_in settings_b (seconds 200) token) db_ada = (Ret ada, db_ada)
  ∧ run (signed_in settings_b (seconds 1000) token) db_ada = (Raise invalid_authentication, db_ada).
Proof.
  destruct (access_tokens_name_their_user settings_a settings_b 7 8 (seconds 100) (seconds 200)
    db_ada) as [H1 _]; [done..|].
  destruct H1 as (E & Hu & _); [right; by split|done|].
  split; [exact E|]. split; [by apply Hu|].
  apply (access_tokens_name_their_user settings_a settings_b 7 8 (seconds 100) (seconds 1000)
    db_ada); [reflexivity|reflexivity|split; discriminate|discriminate|discriminate].
Defined.
