(* ===== verification/Auth.v ===== *)
(** services/auth.py and api/v1/auth.py: registration, sign-in, the rotation of
    refresh tokens, and passwords.

    The random tokens, salts and identifiers are arguments of the operations;
    the Sha-256 of a refresh token is computed. *)

From S2P Require Import Prelude.
From S2P Require Import History.
From S2P Require Import Enums.
From S2P Require Import PyValue.
From S2P Require Import Models.
From S2P Require Import Tables.
From S2P Require Import Common.
From S2P Require Import Sha256.
From S2P Require Import Uuids.
From S2P Require Import Organizations.
From S2P Require Import Tokens.
From Stdlib Require Import Ascii ZifyBool.
From stdpp Require Import pretty relations list.

Abbreviation Session := RefreshTokenSession.
Module Sess_ := RefreshTokenSession.

(** * The tables *)

(** models/user.py:16-16, part of User.  The unique constraint. *)
Definition user_conflict (u u' : User) : bool :=
  User.normalized_email u ≟ User.normalized_email u'.
#[export] Instance users_table : Table User.
Proof.
  refine (mk_table _ _ DB.users (λ f, upd DB.users f) (λ _, true) user_conflict _ _ _ _ _);
    unfold user_conflict; solve_table.
Defined.

(** models/refresh_session.py:15-15, part of RefreshTokenSession.  The unique
    constraint. *)
Definition session_conflict (s s' : Session) : bool := Sess_.token_hash s ≟ Sess_.token_hash s'.
#[export] Instance sessions_table : Table Session.
Proof.
  refine (mk_table _ _ DB.refresh_sessions (λ f, upd DB.refresh_sessions f) (λ _, true)
    session_conflict _ _ _ _ _); unfold session_conflict; solve_table.
Defined.

(** * Queries *)

(** repositories/data.py:171-174, Repository.refresh_session.  The variant that
    locks the row selects the same. *)
Definition refresh_session (token_hash : string) (d : DB) : option Session :=
  find_row (λ s, Sess_.token_hash s ≟ token_hash) (DB.refresh_sessions d).

(** A session that was not revoked. *)
Definition live (s : Session) : bool := is_none_ (Sess_.revoked_at s).

(** [update(RefreshTokenSession).where(P, revoked_at.is_(None)).values(revoked_at=now)] *)
Definition revoke_where (P : Session → bool) (now : timestamp) : txn DB () :=
  modify (set_rows Session (fmap (λ s,
    if P s && live s then s <| Sess_.revoked_at := Some now |> else s))).

(** repositories/data.py:184-192, Repository.revoke_family. *)
Definition revoke_family (family_id : uuid) (now : timestamp) : txn DB () :=
  revoke_where (λ s, Sess_.family_id s ≟ family_id) now.

(** * Free slugs *)

(** [s[:n]], from the end when [n] is negative *)
Definition slice_to (n : Z) (s : string) : string :=
  str_take (Z.to_nat (if (n <? 0)%Z then Z.of_nat (String.length s) + n else n)) s.

(** The candidate with a counter. *)
Definition numbered (base : string) (counter : N) : string :=
  let suffix := "-" +:+ pretty counter in
  slice_to (100 - Z.of_nat (String.length suffix)) base +:+ suffix.

(** The [while] loop, with fuel. *)
Fixpoint slug_loop (fuel : nat) (taken : string → bool) (base candidate : string) (counter : N)
    : option string :=
  match fuel with
  | O => None
  | S fuel =>
      if taken candidate then slug_loop fuel taken base (numbered base counter) (counter + 1)
      else Some candidate
  end.

Definition slug_taken (d : DB) (slug : string) : bool := is_some_ (organization_by_slug slug d).

(** services/auth.py:87-96, AuthService._available_slug.  The fuel is never used up. *)
Definition _available_slug (base : string) (d : DB) : option string :=
  let base := if nonempty base then base else "organization" in
  slug_loop (size (DB.organizations d) + 2) (slug_taken d) base base 2.

(** * The service *)

(** What a request draws at random. *)
Record draws := mk_draws {
  new_raw : string;
  new_session : uuid;
  new_family : uuid;
  new_jti : uuid
}.

(** services/auth.py:26-29, IssuedTokens. *)
Record IssuedTokens := mk_tokens { access_token : string; refresh_token : string }.

Section service.
Context {J : Jwt} {P : PasswordHasher} (DUMMY_PASSWORD_HASH : string) (settings : TokenSettings).

Definition email_in_use : exn := ConflictError "email_in_use".
Definition invalid_credentials : exn := AuthenticationError "invalid_credentials".

(** services/auth.py:45-51, part of AuthService.register.  The row of the user. *)
Definition new_user (user_id : uuid) (salt email password full_name : string) : User :=
  User.mk user_id (strip email) (normalize_email email) (hasher_hash salt password) full_name
    UserStatus.ACTIVE false None None.

(** services/auth.py:55-61, part of AuthService.register.  The organization. *)
Definition new_organization (org_id user_id : uuid) (name : string) : txn DB () :=
  slug ← gets (_available_slug (slugify name));
  slug ← some_or slug OtherException;
  save_organization true (Organization.mk org_id name slug OrganizationStatus.ACTIVE user_id).

(** services/auth.py:62-70, part of AuthService.register.  Its owner, flushed by
    the commit. *)
Definition owner_of (org_id user_id member_id : uuid) (now : timestamp) : OrganizationMembership :=
  OrganizationMembership.mk member_id org_id user_id OrganizationRole.OWNER
    MembershipStatus.ACTIVE None (Some now).

(** services/auth.py:38-85, AuthService.register. *)
Definition register (user_id org_id member_id : uuid) (salt : string) (now : timestamp)
    (email password full_name : string) (organization_name : option string) : txn DB User :=
  let normalized := normalize_email email in
  _ ← of_res (validate_password password (Some normalized));
  existing ← gets (user_by_email normalized);
  _ ← ensure (is_none_ existing) email_in_use;
  let u := new_user user_id salt email password full_name in
  _ ← save true u;
  _ ← record_audit "user.registered" "user" AuditResult.SUCCEEDED None (Some user_id) (Some user_id);
  let member := given organization_name in
  _ ← match member with
      | Some name => new_organization org_id user_id name
      | None => mret tt
      end;
  _ ← try_catch
        (_ ← match member with
             | Some _ =>
                 _ ← save_member true (owner_of org_id user_id member_id now);
                 audit_ok "organization.created" "organization" org_id user_id org_id
             | None => mret tt
             end;
         commit)
        (λ e, match e with
              | IntegrityError => _ ← rollback; raise (ConflictError "registration_conflict")
              | e => raise e
              end);
  mret u.

(** services/auth.py:144-152, part of AuthService._issue.  The row of the session. *)
Definition new_session_row (r : draws) (now : timestamp) (user_id : uuid)
    (family_id : option uuid) : Session :=
  Sess_.mk (new_session r) user_id (hash_opaque_token (new_raw r))
    (default (new_family r) family_id) now
    (now + days (TokenSettings.refresh_token_expire_days settings))%Z None None.

(** services/auth.py:134-154, AuthService._issue. *)
Definition _issue (r : draws) (now : timestamp) (user_id : uuid) (family_id : option uuid)
    : txn DB IssuedTokens :=
  _ ← save true (new_session_row r now user_id family_id);
  mret (mk_tokens (create_access_token settings user_id (new_jti r) now) (new_raw r)).

(** services/auth.py:98-132, AuthService.login. *)
Definition login (r : draws) (now : timestamp) (email password : string) : txn DB IssuedTokens :=
  u ← gets (user_by_email (normalize_email email));
  let valid := verify_password password
                 (match u with Some u => User.password_hash u | None => DUMMY_PASSWORD_HASH end) in
  let refused :=
    _ ← record_audit "auth.login_failed" "user" AuditResult.FAILED None (User.id <$> u) None;
    _ ← commit;
    raise invalid_credentials in
  match u with
  | None => refused
  | Some u =>
      if negb valid || negb (User.status u ≟ UserStatus.ACTIVE) then refused
      else
        _ ← save false (u <| User.last_login_at := Some now |>);
        tokens ← _issue r now (User.id u) None;
        _ ← record_audit "auth.login_succeeded" "user" AuditResult.SUCCEEDED None
              (Some (User.id u)) (Some (User.id u));
        _ ← commit;
        mret tokens
  end.

Definition audit_session (event_type : string) (result : AuditResult) (actor : option uuid)
    (session : option Session) : txn DB () :=
  record_audit event_type "refresh_session" result None actor (Sess_.id <$> session).

(** services/auth.py:156-200, AuthService.refresh. *)
Definition refresh (r : draws) (now : timestamp) (raw : string) : txn DB IssuedTokens :=
  session ← gets (refresh_session (hash_opaque_token raw));
  session ← some_or session (AuthenticationError "invalid_refresh_token");
  if negb (live session) then
    _ ← revoke_family (Sess_.family_id session) now;
    _ ← audit_session "auth.refresh_reuse_detected" AuditResult.FAILED
          (Some (Sess_.user_id session)) (Some session);
    _ ← commit;
    raise (AuthenticationError "refresh_token_reused")
  else if is_expired (Sess_.expires_at session) now then
    _ ← save false (session <| Sess_.revoked_at := Some now |>);
    _ ← commit;
    raise (AuthenticationError "refresh_token_expired")
  else
    u ← gets (user (Sess_.user_id session));
    u ← some_or u invalid_authentication;
    _ ← ensure (User.status u ≟ UserStatus.ACTIVE) invalid_authentication;
    new_tokens ← _issue r now (User.id u) (Some (Sess_.family_id session));
    replacement ← gets (refresh_session (hash_opaque_token (refresh_token new_tokens)));
    _ ← save false (session <| Sess_.revoked_at := Some now |>
                            <| Sess_.replaced_by_id := Sess_.id <$> replacement |>);
    _ ← audit_session "auth.token_refreshed" AuditResult.SUCCEEDED (Some (User.id u)) (Some session);
    _ ← commit;
    mret new_tokens.

(** services/auth.py:202-218, AuthService.logout. *)
Definition logout (now : timestamp) (raw : option string) (user_id : option uuid) : txn DB () :=
  session ← gets (λ d, raw ← given raw; refresh_session (hash_opaque_token raw) d);
  _ ← match session with
      | Some s => if live s then save false (s <| Sess_.revoked_at := Some now |>) else mret tt
      | None => mret tt
      end;
  _ ← audit_session "auth.logged_out" AuditResult.SUCCEEDED
        (match session with Some s => Some (Sess_.user_id s) | None => user_id end) session;
  commit.

(** services/auth.py:220-235, AuthService.change_password. *)
Definition change_password (salt : string) (now : timestamp) (u : User) (current new : string)
    : txn DB () :=
  _ ← ensure (verify_password current (User.password_hash u))
        (AuthenticationError "invalid_current_password");
  _ ← of_res (validate_password new (Some (User.normalized_email u)));
  _ ← save false (u <| User.password_hash := hasher_hash salt new |>);
  _ ← revoke_where (λ s, Sess_.user_id s ≟ User.id u) now;
  commit.

(** * The endpoints *)

(** What a response does to the refresh cookie. *)
Inductive cookie :=
| SetCookie (raw : string) (max_age : Z)
| ClearCookie.

(** [(access_token, expires_in)] and the cookie. *)
Record token_response := mk_response {
  tr_access_token : string;
  tr_expires_in : Z;
  tr_cookie : cookie
}.

(** api/v1/auth.py:27-38, _set_cookie. *)
Definition _set_cookie (raw : string) : cookie :=
  SetCookie raw (TokenSettings.refresh_token_expire_days settings * 86400).

(** api/v1/auth.py:52-55, _token_response. *)
Definition _token_response (tokens : IssuedTokens) : token_response :=
  mk_response (access_token tokens) (TokenSettings.access_token_expire_minutes settings * 60)
    (_set_cookie (refresh_token tokens)).

(** api/v1/auth.py:66-77, login. *)
Definition login_endpoint (r : draws) (now : timestamp) (email password : string)
    : txn DB token_response :=
  tokens ← login r now email password;
  mret (_token_response tokens).

(** api/v1/auth.py:80-90, refresh. *)
Definition refresh_endpoint (r : draws) (now : timestamp) (cookie_value : option string)
    : txn DB token_response :=
  raw ← some_or (given cookie_value) (AuthenticationError "missing_refresh_token");
  tokens ← refresh r now raw;
  mret (_token_response tokens).

(** api/v1/auth.py:93-99, logout. *)
Definition logout_endpoint (now : timestamp) (cookie_value : option string) : txn DB cookie :=
  _ ← logout now cookie_value None;
  mret ClearCookie.

(** api/v1/auth.py:102-114, me. *)
Definition me (u : User) : txn DB (User * list (Organization * OrganizationMembership)) :=
  l ← gets (user_organizations (User.id u));
  mret (u, l).

(** api/v1/auth.py:117-130, change_password.  The user is the authenticated one. *)
Definition change_password_endpoint (salt : string) (now : timestamp)
    (credentials : option (string * string)) (current new : string) : txn DB cookie :=
  u ← require_authenticated_user settings now credentials;
  _ ← change_password salt now u current new;
  mret ClearCookie.
End service.

(** * Rules *)

(** A row that is found by its hash, and the other way round. *)
Lemma refresh_session_Some h d s :
  sound Session d → refresh_session h d = Some s →
  DB.refresh_sessions d !! Sess_.id s = Some s ∧ Sess_.token_hash s = h.
Proof.
  intros Hs (k & Hk & ?)%find_row_Some. bools. split; [|done].
  pose proof (tk_keyed _ _ _ _ Hs _ _ Hk) as E. by change (Sess_.id s = k) in E; subst k.
Qed.
Lemma refresh_session_at d k s :
  sound Session d → DB.refresh_sessions d !! k = Some s →
  refresh_session (Sess_.token_hash s) d = Some s.
Proof.
  intros Hs Hk. unfold refresh_session. destruct (find_row _ _) as [s'|] eqn:E.
  - apply find_row_Some in E as (k' & Hk' & E). bools.
    destruct (decide (k' = k)) as [->|Hne]; [congruence|].
    pose proof (tk_unique _ _ _ _ Hs k' k s' s Hk' Hk Hne) as Hc.
    cbn in Hc. unfold session_conflict in Hc. by rewrite bool_decide_eq_false in Hc.
  - rewrite find_row_None in E. specialize (E _ _ Hk). by rewrite bool_decide_eq_false in E.
Qed.

Lemma user_by_email_at e d u :
  sound User d → user_by_email e d = Some u →
  DB.users d !! User.id u = Some u ∧ User.normalized_email u = e.
Proof.
  intros Hs (k & Hk & ?)%find_row_Some. bools. split; [|done].
  pose proof (tk_keyed _ _ _ _ Hs _ _ Hk) as E. by change (User.id u = k) in E; subst k.
Qed.

(** Changes that keep the unique column and the key. *)
Lemma session_harmless s s' :
  Sess_.id s' = Sess_.id s → Sess_.token_hash s' = Sess_.token_hash s → harmless s s'.
Proof. intros Hi Hh. split; [done|done|]. intros x. cbn. unfold session_conflict. by rewrite Hh. Qed.
Lemma user_harmless u u' :
  User.id u' = User.id u → User.normalized_email u' = User.normalized_email u → harmless u u'.
Proof. intros Hi Hh. split; [done|done|]. intros x. cbn. unfold user_conflict. by rewrite Hh. Qed.

(** * A free slug is always found *)

Section slugs.
Implicit Types (s t : string).

Lemma str_app_nil s : s +:+ "" = s.
Proof. induction s as [|c s IH]; [done|]. change (String c (s +:+ "") = String c s). by rewrite IH. Qed.
Lemma str_app_assoc s t u : (s +:+ t) +:+ u = s +:+ (t +:+ u).
Proof.
  induction s as [|c s IH]; [done|].
  change (String c ((s +:+ t) +:+ u) = String c (s +:+ (t +:+ u))). by rewrite IH.
Qed.

Lemma srev_append s t : srev (s +:+ t) = srev t +:+ srev s.
Proof.
  induction s as [|c s IH].
  - change ("" +:+ t) with t. change (srev "") with "". by rewrite str_app_nil.
  - change (String c s +:+ t) with (String c (s +:+ t)). rewrite !srev_cons, IH.
    by rewrite str_app_assoc.
Qed.

Lemma until_app c s t :
  sforall (λ x, negb (Ascii.eqb c x)) s = true → until c (s +:+ String c t) = s.
Proof.
  induction s as [|x s IH].
  - intros _. change (until c (String c t) = ""). cbn [until]. by rewrite Ascii.eqb_refl.
  - change (String x s +:+ String c t) with (String x (s +:+ String c t)). cbn [until sforall].
    intros [Hx%negb_true_iff Hs]%andb_true_iff. rewrite Hx. f_equal. by apply IH.
Qed.

Lemma pretty_digits (n : N) : sforall is_digit (pretty n) = true.
Proof.
  unfold pretty, pretty_N. destruct (decide (n = 0%N)) as [->|Hn]; [done|].
  enough (∀ s, sforall is_digit s = true → sforall is_digit (pretty_N_go n s) = true) as H by by apply H.
  clear Hn. induction (N.lt_wf_0 n) as [n _ IH]; intros s Hs. destruct (decide (n = 0%N)) as [->|Hn].
  { by rewrite pretty_N_go_0. }
  rewrite pretty_N_go_step by lia. apply IH; [by apply N.div_lt; lia|].
  cbn. rewrite Hs. unfold pretty_N_char. pose proof (N.mod_lt n 10 ltac:(done)).
  destruct (n `mod` 10)%N as [|p]; [done|]. repeat (destruct p as [p|p|]; try done; try lia).
Qed.

(** What follows the last dash. *)
Lemma after_dash x (n : N) : until "-" (srev (x +:+ "-" +:+ pretty n)) = srev (pretty n).
Proof.
  rewrite srev_append. change ("-" +:+ pretty n) with (String "-" (pretty n)).
  rewrite srev_cons, str_app_assoc.
  change (String "-" "" +:+ srev x) with (String "-" (srev x)).
  apply until_app. rewrite sforall_srev. eapply sforall_mono, pretty_digits. intros c.
  unfold is_digit. by destruct (Ascii.eqb_spec "-" c) as [<-|].
Qed.

Lemma numbered_inj base n m : numbered base n = numbered base m → n = m.
Proof.
  unfold numbered. intros E. apply (f_equal (λ s, until "-" (srev s))) in E.
  cbv beta in E. rewrite !after_dash in E.
  apply (f_equal srev) in E. rewrite !srev_srev in E. by apply (inj pretty) in E.
Qed.

Lemma slug_loop_None fuel taken base candidate counter :
  slug_loop (S fuel) taken base candidate counter = None →
  ∀ i, i < fuel → taken (numbered base (counter + N.of_nat i)) = true.
Proof.
  revert candidate counter. induction fuel as [|fuel IH]; intros candidate counter; [lia|].
  intros H i Hi. cbn [slug_loop] in H. destruct (taken candidate); [|done].
  destruct i as [|i].
  - rewrite N.add_0_r. cbn [slug_loop] in H. by destruct (taken (numbered base counter)).
  - specialize (IH _ _ H i ltac:(lia)). rewrite <-IH. f_equal. f_equal. lia.
Qed.

Lemma slug_loop_Some fuel taken base candidate counter s :
  slug_loop fuel taken base candidate counter = Some s → taken s = false.
Proof.
  revert candidate counter. induction fuel as [|fuel IH]; intros candidate counter; [done|]. cbn.
  destruct (taken candidate) eqn:E; [apply IH|by intros [= <-]].
Qed.

(** More numbered candidates than organizations: one is free. *)
Lemma available_slug_found base d :
  ∃ slug, _available_slug base d = Some slug ∧ organization_by_slug slug d = None.
Proof.
  unfold _available_slug. set (b := if nonempty base then base else "organization").
  destruct (slug_loop _ _ b b 2) as [slug|] eqn:E.
  { exists slug. split; [done|]. apply slug_loop_Some in E. unfold slug_taken in E.
    by destruct (organization_by_slug slug d). }
  exfalso. rewrite Nat.add_succ_r in E. pose proof (slug_loop_None _ _ _ _ _ E) as Hall.
  set (orgs := (map_to_list (DB.organizations d)).*2).
  assert (((λ i, numbered b (2 + N.of_nat i)) <$> seq 0 (size (DB.organizations d) + 1))
          ⊆+ (Organization.slug <$> orgs)) as Hsub.
  { apply NoDup_submseteq.
    - apply NoDup_fmap_2; [|apply NoDup_seq]. intros i j Hij%numbered_inj. lia.
    - intros s (i & -> & Hi%elem_of_seq)%list_elem_of_fmap.
      specialize (Hall i ltac:(lia)). unfold slug_taken in Hall.
      destruct (organization_by_slug _ d) as [o|] eqn:Eo; [|done].
      apply find_row_Some in Eo as (k & Hk & <-%bool_decide_eq_true).
      apply list_elem_of_fmap_2, list_elem_of_fmap. exists (k, o).
      by rewrite elem_of_map_to_list. }
  apply submseteq_length in Hsub. unfold orgs in Hsub.
  rewrite !length_fmap, length_seq, length_map_to_list in Hsub. lia.
Qed.
End slugs.

(** * What a refresh does *)

Section rules.
Context {J : Jwt} {P : PasswordHasher} (dummy : string) (settings : TokenSettings).
Implicit Types (d : DB) (s : Session).

(** The live sessions of a family, revoked. *)
Definition family_revoked (family_id : uuid) (now : timestamp) (t : gmap uuid Session)
    : gmap uuid Session :=
  (λ x, if (Sess_.family_id x ≟ family_id) && live x
        then x <| Sess_.revoked_at := Some now |> else x) <$> t.

Definition revoked s (now : timestamp) (by_ : option uuid) : Session :=
  s <| Sess_.revoked_at := Some now |> <| Sess_.replaced_by_id := by_ |>.

(** Its outcome and the table of sessions after it. *)
Definition refresh_outcome (r : draws) (now : timestamp) (raw : string) d
    : outcome IssuedTokens * gmap uuid Session :=
  let t := DB.refresh_sessions d in
  match refresh_session (hash_opaque_token raw) d with
  | None => (Raise (AuthenticationError "invalid_refresh_token"), t)
  | Some s =>
      if negb (live s) then
        (Raise (AuthenticationError "refresh_token_reused"), family_revoked (Sess_.family_id s) now t)
      else if (Sess_.expires_at s <=? now)%Z then
        (Raise (AuthenticationError "refresh_token_expired"),
         put (s <| Sess_.revoked_at := Some now |>) t)
      else match DB.users d !! Sess_.user_id s with
        | Some u =>
            let new := new_session_row settings r now (Sess_.user_id s) (Some (Sess_.family_id s)) in
            if negb (User.status u ≟ UserStatus.ACTIVE) then (Raise invalid_authentication, t)
            else if unique_ok true session_conflict new t then
              (Ret (mk_tokens (create_access_token settings (Sess_.user_id s) (new_jti r) now) (new_raw r)),
               put (revoked s now (Some (new_session r))) (put new t))
            else (Raise IntegrityError, t)
        | None => (Raise invalid_authentication, t)
        end
  end.

Lemma refresh_spec r now raw d :
  sound Session d → sound User d →
  ((run (refresh settings r now raw) d).1,
   DB.refresh_sessions (run (refresh settings r now raw) d).2)
  = refresh_outcome r now raw d
  ∧ DB.users (run (refresh settings r now raw) d).2 = DB.users d.
Proof.
  intros Hs Hu.
  apply (wp_run _ (λ o d', (o, DB.refresh_sessions d') = _ ∧ DB.users d' = _)).
  unfold refresh, refresh_outcome, revoke_family, revoke_where, audit_session, record_audit.
  apply wp_bind, wp_gets. cbn [working].
  destruct (refresh_session _ d) as [s|] eqn:E; [|by wp_go].
  destruct (refresh_session_Some _ _ _ Hs E) as [Hat Hh]. apply wp_bind, wp_ret.
  apply wp_if; intros Hl; [rewrite Hl; by wp_go|]. rewrite Hl. unfold is_expired.
  apply wp_if; intros Hx; rewrite Hx.
  { apply wp_bind, (wp_update s); [done|done|by apply session_harmless|]. intros _. by wp_go. }
  apply wp_bind, wp_gets. cbn [working]. unfold user.
  destruct (DB.users d !! Sess_.user_id s) as [u|] eqn:Eu; [|by wp_go].
  assert (User.id u = Sess_.user_id s) as Hid by apply (tk_keyed _ _ _ _ Hu _ _ Eu).
  apply wp_bind, wp_ret, wp_bind, wp_ensure; intros Ha; rewrite Ha; [|done]. cbn [negb].
  unfold _issue. rewrite Hid. set (new := new_session_row _ _ _ _ _).
  apply wp_bind, wp_bind, wp_save; [intros _ Hok|intros Hok].
  2: { change (unique_ok true session_conflict new (DB.refresh_sessions d) = false) in Hok.
       by rewrite Hok. }
  change (unique_ok true session_conflict new (DB.refresh_sessions d) = true) in Hok. rewrite Hok.
  apply wp_ret, wp_bind, wp_gets. cbn [working committed refresh_token].
  set (d1 := set_rows Session (put new) d).
  assert (sound Session d1) as Hs1 by by eapply sound_set.
  assert (DB.refresh_sessions d1 !! new_session r = Some new) as Hnew by apply lookup_insert_eq.
  change (hash_opaque_token (new_raw r)) with (Sess_.token_hash new).
  rewrite (refresh_session_at _ _ _ Hs1 Hnew).
  apply wp_bind, (wp_update s); cbn [working committed]; [done| |by apply session_harmless|].
  - apply unique_ok_true in Hok as [Hn _]. specialize (Hn eq_refl).
    assert (Sess_.id s ≠ new_session r) as Hne.
    { intros Ee. change (DB.refresh_sessions d !! new_session r = None) in Hn. congruence. }
    etrans; [|exact Hat]. by apply lookup_insert_ne.
  - intros _. by wp_go.
Qed.

(** The user that an address and a password sign in. *)
Definition admitted_user (email password : string) d : option User :=
  u ← user_by_email (normalize_email email) d;
  if verify_password password (User.password_hash u) && (User.status u ≟ UserStatus.ACTIVE)
  then Some u else None.

(** The outcome of a sign-in, the sessions and the users after it. *)
Definition login_outcome (r : draws) (now : timestamp) (email password : string) d
    : outcome IssuedTokens * gmap uuid Session * gmap uuid User :=
  let t := DB.refresh_sessions d in
  match admitted_user email password d with
  | None => (Raise invalid_credentials, t, DB.users d)
  | Some u =>
      let new := new_session_row settings r now (User.id u) None in
      if unique_ok true session_conflict new t then
        (Ret (mk_tokens (create_access_token settings (User.id u) (new_jti r) now) (new_raw r)),
         put new t, put (u <| User.last_login_at := Some now |>) (DB.users d))
      else (Raise IntegrityError, t, DB.users d)
  end.

(** The outcome of [m], the sessions and the users after it. *)
Definition effect {A} (m : txn DB A) d : outcome A * gmap uuid Session * gmap uuid User :=
  let '(o, d') := run m d in (o, DB.refresh_sessions d', DB.users d').
Lemma effect_wp {A} (m : txn DB A) d x :
  wp m (λ o σ, (o, DB.refresh_sessions (committed σ), DB.users (committed σ)) = x) (Sess d d) →
  effect m d = x.
Proof.
  intros H. apply (wp_run m (λ o d', (o, DB.refresh_sessions d', DB.users d') = x)) in H.
  unfold effect. by destruct (run m d).
Qed.

Lemma login_spec r now email password d :
  sound Session d → sound User d →
  effect (login dummy settings r now email password) d = login_outcome r now email password d.
Proof.
  intros Hs Hu. apply effect_wp. unfold login, login_outcome, admitted_user, record_audit.
  apply wp_bind, wp_gets. cbn [working].
  destruct (user_by_email _ d) as [u|] eqn:E; cbn [mbind option_bind]; [|by wp_go].
  destruct (user_by_email_at _ _ _ Hu E) as [Hat _].
  destruct (verify_password _ _); cbn [negb orb andb]; [|by wp_go].
  destruct (User.status u ≟ UserStatus.ACTIVE); cbn [negb]; [|by wp_go].
  apply wp_bind, (wp_update u); [done|done|by apply user_harmless|]. intros Hu1.
  unfold _issue. apply wp_bind, wp_bind, wp_save; cbn [working committed].
  - intros _ Hok. match type of Hok with unique_ok true _ ?n _ = true =>
      change (unique_ok true session_conflict n (DB.refresh_sessions d) = true) in Hok end.
    rewrite Hok. by wp_go.
  - intros Hok. match type of Hok with _ && unique_ok true _ ?n _ = false =>
      change (unique_ok true session_conflict n (DB.refresh_sessions d) = false) in Hok end.
    by rewrite Hok.
Qed.

(** The session that a cookie names. *)
Definition cookie_session (raw : option string) d : option Session :=
  raw ← given raw; refresh_session (hash_opaque_token raw) d.

Lemma logout_spec now raw actor d :
  sound Session d →
  effect (logout now raw actor) d
  = (Ret tt, match cookie_session raw d with
             | Some s => if live s then put (s <| Sess_.revoked_at := Some now |>) (DB.refresh_sessions d)
                         else DB.refresh_sessions d
             | None => DB.refresh_sessions d
             end, DB.users d).
Proof.
  intros Hs. apply effect_wp. unfold logout, audit_session, record_audit, cookie_session.
  apply wp_bind, wp_gets. cbn [working].
  destruct (given raw) as [x|]; cbn [mbind option_bind]; [|by wp_go].
  destruct (refresh_session _ d) as [s|] eqn:E; [|by wp_go].
  destruct (refresh_session_Some _ _ _ Hs E) as [Hat _]. destruct (live s); [|by wp_go].
  apply wp_bind, (wp_update s); [done|done|by apply session_harmless|]. intros _. by wp_go.
Qed.

(** The sessions of a user, revoked. *)
Definition user_revoked (user_id : uuid) (now : timestamp) (t : gmap uuid Session)
    : gmap uuid Session :=
  (λ x, if (Sess_.user_id x ≟ user_id) && live x
        then x <| Sess_.revoked_at := Some now |> else x) <$> t.

Lemma change_password_spec salt now u current new d :
  sound User d → DB.users d !! User.id u = Some u →
  effect (change_password salt now u current new) d
  = if verify_password current (User.password_hash u) then
      match validate_password new (Some (User.normalized_email u)) with
      | inl _ => (Ret tt, user_revoked (User.id u) now (DB.refresh_sessions d),
                  put (u <| User.password_hash := hasher_hash salt new |>) (DB.users d))
      | inr e => (Raise e, DB.refresh_sessions d, DB.users d)
      end
    else (Raise (AuthenticationError "invalid_current_password"), DB.refresh_sessions d, DB.users d).
Proof.
  intros Hu Hat. apply effect_wp. unfold change_password, revoke_where.
  apply wp_bind, wp_ensure; intros ->; [|done].
  apply wp_bind, wp_of_res; [intros [] ->|by intros e ->].
  apply wp_bind, (wp_update u); [done|done|by apply user_harmless|]. intros _. by wp_go.
Qed.
End rules.

(** * Registration *)

(** The identifiers a registration draws are new. *)
Record fresh_ids (user_id org_id member_id : uuid) (d : DB) : Prop := {
  fi_user : DB.users d !! user_id = None;
  fi_organization : DB.organizations d !! org_id = None;
  fi_member : DB.members d !! member_id = None;
  fi_members k m : DB.members d !! k = Some m → OrganizationMembership.organization_id m ≠ org_id
}.

Lemma organization_free org_id name slug by_ d :
  DB.organizations d !! org_id = None → organization_by_slug slug d = None →
  unique_ok true organization_conflict
    (Organization.mk org_id name slug OrganizationStatus.ACTIVE by_) (DB.organizations d) = true.
Proof.
  intros Hn Hs. apply unique_ok_true. split; [done|]. intros k o Hk _.
  unfold organization_by_slug in Hs. rewrite find_row_None in Hs. specialize (Hs k o Hk).
  apply bool_decide_eq_false. rewrite bool_decide_eq_false in Hs. cbn. congruence.
Qed.
Lemma owner_free org_id user_id member_id now d :
  DB.members d !! member_id = None →
  (∀ k m, DB.members d !! k = Some m → OrganizationMembership.organization_id m ≠ org_id) →
  unique_ok true membership_conflict (owner_of org_id user_id member_id now) (DB.members d) = true.
Proof.
  intros Hn Hm. apply unique_ok_true. split; [done|]. intros k m Hk _.
  unfold membership_conflict. apply andb_false_iff. left. apply bool_decide_eq_false.
  intros E. by apply (Hm k m Hk).
Qed.

(** The organization a registration creates, and its owner. *)
Record registered_in (user_id org_id member_id : uuid) (now : timestamp) (name : string)
    (d d' : DB) : Prop := mk_registered_in {
  ri_slug : ∃ slug, organization_by_slug slug d = None
    ∧ DB.organizations d'
      = put (Organization.mk org_id name slug OrganizationStatus.ACTIVE user_id) (DB.organizations d);
  ri_members : DB.members d' = put (owner_of org_id user_id member_id now) (DB.members d)
}.

Lemma user_by_email_None e d :
  user_by_email e d = None →
  ∀ k u, DB.users d !! k = Some u → User.normalized_email u ≠ e.
Proof.
  unfold user_by_email. rewrite find_row_None. intros H k u Hk E.
  specialize (H k u Hk). by rewrite bool_decide_eq_false in H.
Qed.

Section register.
Context {P : PasswordHasher}.

(** A registration is refused, changing nothing, for a weak password and
    for an address that is in use in any spelling.  Otherwise it adds exactly
    the user, active and no platform administrator; and, if an organization is
    named, the organization under a slug nobody has, with the user as its owner.
    A free slug is always found. *)
Theorem register_decides (user_id org_id member_id : uuid) (salt : string) (now : timestamp)
    (email password full_name : string) (organization_name : option string) (d : DB) :
  well_owned d → sound User d → fresh_ids user_id org_id member_id d →
  let '(o, d') := run (register user_id org_id member_id salt now email password full_name
                         organization_name) d in
  match validate_password password (Some (normalize_email email)),
        user_by_email (normalize_email email) d with
  | inr e, _ => o = Raise e ∧ d' = d
  | inl _, Some _ => o = Raise email_in_use ∧ d' = d
  | inl _, None =>
      let u := new_user user_id salt email password full_name in
      o = Ret u ∧ DB.users d' = put u (DB.users d)
      ∧ DB.refresh_sessions d' = DB.refresh_sessions d
      ∧ match given organization_name with
        | Some name => registered_in user_id org_id member_id now name d d'
        | None => DB.organizations d' = DB.organizations d ∧ DB.members d' = DB.members d
        end
      ∧ well_owned d' ∧ sound User d'
  end.
Proof.
  intros Hw Hu [Hfu Hfo Hfm Hfms].
  destruct (run _ d) as [o d'] eqn:H. wp_run_in H.
  set (u := new_user _ _ _ _ _). unfold register. fold u.
  apply wp_bind, wp_of_res; [intros [] ->|by intros e ->].
  apply wp_bind, wp_gets. cbn [working].
  destruct (user_by_email _ d) as [u0|] eqn:E; [by wp_go|].
  assert (unique_ok true user_conflict u (DB.users d) = true) as Hnew.
  { apply unique_ok_true. split; [done|]. intros k u' Hk _. apply bool_decide_eq_false.
    intros Ee. by apply (user_by_email_None _ _ E _ _ Hk). }
  apply wp_bind, wp_ret, wp_bind, wp_saved; [done..|]. cbn [working committed].
  assert (sound User (set_rows User (put u) d)) as Hu1 by by eapply sound_set.
  destruct (given organization_name) as [name|]; cbn zeta.
  - unfold record_audit, new_organization, save_organization.
    destruct (available_slug_found (slugify name) d) as (slug & Hslug & Hfree).
    apply wp_bind, wp_modify, wp_bind, wp_bind, wp_gets. cbn [working committed].
    change (_available_slug (slugify name) _) with (_available_slug (slugify name) d).
    rewrite Hslug. apply wp_bind, wp_ret, wp_bind, wp_gets. cbn [working committed].
    set (d1 := upd DB.audit _ _). pose proof (organization_free org_id name slug user_id d Hfo Hfree) as Ho.
    set (org := Organization.mk _ _ _ _ _) in *.
    apply wp_bind, wp_ensure; intros Ho'; [clear Ho'|].
    2: { exfalso. assert (true = false) by (etrans; [symmetry; exact Ho|exact Ho']). done. }
    apply wp_modify, wp_bind, wp_try, wp_bind, wp_bind, wp_save_member; cbn [working committed].
    all: pose proof (owner_free org_id user_id member_id now d Hfm Hfms) as Hm; intros Hm'.
    2: { change (unique_ok true membership_conflict (owner_of org_id user_id member_id now)
                   (DB.members d) = false) in Hm'. by rewrite Hm in Hm'. }
    apply wp_audit_ok, wp_commit, wp_ret. cbn [working committed]. split_and!; [done|done|done| | |].
    + by split; [exists slug|].
    + eapply (well_owned_insert d _ org (owner_of org_id user_id member_id now)); [|done..].
      by apply active_owner_true.
    + apply (sound_rows User (set_rows User (put u) d)); [done|exact Hu1].
  - unfold record_audit. wp_go. split_and!; [done..| |].
    + destruct Hw. by split.
    + apply (sound_rows User (set_rows User (put u) d)); [done|exact Hu1].
Qed.
End register.

(** * Families of sessions

    A sign-in starts a family; each refresh revokes one session of it and adds
    the next. *)

(** A later form of a session: only a live one changes, by being revoked. *)
Record later (s s' : Session) : Prop := {
  la_id : Sess_.id s' = Sess_.id s;
  la_hash : Sess_.token_hash s' = Sess_.token_hash s;
  la_user : Sess_.user_id s' = Sess_.user_id s;
  la_family : Sess_.family_id s' = Sess_.family_id s;
  la_dead t : Sess_.revoked_at s = Some t → Sess_.revoked_at s' = Some t
}.
#[export] Instance later_preorder : PreOrder later.
Proof.
  split.
  - intros s. by split.
  - intros a b c [????] [????]. split; try congruence. auto.
Qed.

Lemma later_live s s' : later s s' → live s' = true → live s = true.
Proof.
  intros Hl. unfold live. destruct (Sess_.revoked_at s) as [t|] eqn:E; [|done].
  by rewrite (la_dead _ _ Hl t E).
Qed.
Lemma revoked_later s now by_ : live s = true → later s (revoked s now by_).
Proof. unfold live. intros Hl. split; try done. intros t E. by rewrite E in Hl. Qed.
Lemma revoked_at_later s now : live s = true → later s (s <| Sess_.revoked_at := Some now |>).
Proof. unfold live. intros Hl. split; try done. intros t E. by rewrite E in Hl. Qed.

(** The same rows, in later forms. *)
Definition aged (t t' : gmap uuid Session) : Prop :=
  ∀ k, match t !! k, t' !! k with
       | Some s, Some s' => later s s'
       | None, None => True
       | _, _ => False
       end.

Lemma aged_refl t : aged t t.
Proof. intros k. by destruct (t !! k). Qed.
Lemma aged_put t s s' : t !! Sess_.id s = Some s → later s s' → aged t (put s' t).
Proof.
  intros Hs Hl k. unfold put. change (row_id s') with (Sess_.id s').
  rewrite (la_id _ _ Hl), lookup_insert. case_decide as E; [subst k; by rewrite Hs|].
  by destruct (t !! k).
Qed.
Lemma aged_fmap t (b : Session → bool) now :
  aged t ((λ x, if b x && live x then x <| Sess_.revoked_at := Some now |> else x) <$> t).
Proof.
  intros k. rewrite lookup_fmap. destruct (t !! k) as [s|]; [|done]. cbn.
  destruct (b s); [|done]. destruct (live s) eqn:E; [by apply revoked_at_later|done].
Qed.

(** One live session a family, and one user. *)
Record one_live (t : gmap uuid Session) : Prop := {
  ol_keyed : keyed t;
  ol_unique : unique_index session_conflict t;
  ol_live k k' s s' : t !! k = Some s → t !! k' = Some s' →
    Sess_.family_id s = Sess_.family_id s' → live s = true → live s' = true → k = k';
  ol_user k k' s s' : t !! k = Some s → t !! k' = Some s' →
    Sess_.family_id s = Sess_.family_id s' → Sess_.user_id s = Sess_.user_id s'
}.

Lemma aged_back t t' k s' : aged t t' → t' !! k = Some s' → ∃ s, t !! k = Some s ∧ later s s'.
Proof.
  intros Ha Hk. specialize (Ha k). rewrite Hk in Ha. destruct (t !! k) as [s|]; [|done]. by exists s.
Qed.

Lemma one_live_aged t t' : one_live t → aged t t' → one_live t'.
Proof.
  intros [Hk Hu Hl Ho] Ha.
  assert (∀ k s', t' !! k = Some s' → ∃ s, t !! k = Some s ∧ later s s') as Hb by eauto using aged_back.
  split.
  - intros k s' (s & Hs & Hla)%Hb. change (Sess_.id s' = k). rewrite (la_id _ _ Hla). by apply Hk.
  - intros k k' s1' s2' (s1 & H1 & L1)%Hb (s2 & H2 & L2)%Hb Hne.
    pose proof (Hu k k' s1 s2 H1 H2 Hne) as Hc. unfold session_conflict in *.
    by rewrite (la_hash _ _ L1), (la_hash _ _ L2).
  - intros k k' s1' s2' (s1 & H1 & L1)%Hb (s2 & H2 & L2)%Hb Hf V1 V2.
    eapply Hl; [exact H1|exact H2| | |]; eauto using later_live.
    by rewrite <-(la_family _ _ L1), <-(la_family _ _ L2).
  - intros k k' s1' s2' (s1 & H1 & L1)%Hb (s2 & H2 & L2)%Hb Hf.
    rewrite (la_user _ _ L1), (la_user _ _ L2). eapply Ho; [exact H1|exact H2|].
    by rewrite <-(la_family _ _ L1), <-(la_family _ _ L2).
Qed.

(** A new session beside a family that has no live one. *)
Lemma one_live_insert t n :
  one_live t → unique_ok true session_conflict n t = true →
  (∀ k s, t !! k = Some s → Sess_.family_id s = Sess_.family_id n →
     live s = false ∧ Sess_.user_id s = Sess_.user_id n) →
  one_live (put n t).
Proof.
  intros [Hk Hu Hl Ho] Hn Hf. split; [by apply keyed_put| | |].
  - eapply unique_index_put; [exact Hk| |exact Hn|exact Hu].
    intros r r'. apply bool_decide_ext. naive_solver.
  - intros k k' s s'. unfold put. rewrite !lookup_insert. intros H1 H2 E V V'.
    repeat case_decide; simplify_eq; [done| | |by eapply Hl].
    + destruct (Hf _ _ H1 E). congruence.
    + destruct (Hf _ _ H2 (eq_sym E)). congruence.
  - intros k k' s s'. unfold put. rewrite !lookup_insert. intros H1 H2 E.
    repeat case_decide; simplify_eq; [done| | |by eapply Ho].
    + by destruct (Hf _ _ H1 E).
    + by destruct (Hf _ _ H2 (eq_sym E)).
Qed.

Lemma sound_sessions d :
  sound Session d ↔ keyed (DB.refresh_sessions d) ∧ unique_index session_conflict (DB.refresh_sessions d).
Proof.
  split; [intros [Hk Hu _]; split; [exact Hk|exact Hu]|].
  intros [Hk Hu]. split; [exact Hk|exact Hu|by intros ???].
Qed.

(** * Histories of the sessions *)

Section reach.
Context {J : Jwt} {P : PasswordHasher} (dummy : string) (settings : TokenSettings).
Implicit Types (d : DB).

(** The requests, with what each draws. *)
Inductive auth_op :=
| OpRegister (user_id org_id member_id : uuid) (salt : string) (now : timestamp)
    (email password full_name : string) (organization_name : option string)
| OpLogin (r : draws) (now : timestamp) (email password : string)
| OpRefresh (r : draws) (now : timestamp) (cookie_value : option string)
| OpLogout (now : timestamp) (cookie_value : option string)
| OpChangePassword (salt : string) (now : timestamp) (credentials : option (string * string))
    (current new : string).

Definition perform_auth (o : auth_op) d : DB :=
  match o with
  | OpRegister u i m salt now e p f n => (run (register u i m salt now e p f n) d).2
  | OpLogin r now e p => (run (login_endpoint dummy settings r now e p) d).2
  | OpRefresh r now c => (run (refresh_endpoint settings r now c) d).2
  | OpLogout now c => (run (logout_endpoint now c) d).2
  | OpChangePassword salt now c old new =>
      (run (change_password_endpoint settings salt now c old new) d).2
  end.

(** The family that a sign-in draws is new. *)
Definition new_family_ok (o : auth_op) d : Prop :=
  match o with
  | OpLogin r _ _ _ =>
      ∀ k s, DB.refresh_sessions d !! k = Some s → Sess_.family_id s ≠ new_family r
  | _ => True
  end.

Definition auth_step d d' : Prop := ∃ o, new_family_ok o d ∧ d' = perform_auth o d.

Record auth_ok d : Prop := {
  ao_users : sound User d;
  ao_sessions : one_live (DB.refresh_sessions d)
}.

Lemma auth_ok_sessions d : auth_ok d → sound Session d.
Proof. intros [_ [? ? _ _]]. by apply sound_sessions. Qed.

(** A request that ends as another one does. *)
Lemma run_map {A B} (m : txn DB A) (f : A → B) d :
  (run (x ← m; mret (f x)) d).2 = (run m d).2.
Proof. unfold run, mbind, txn_bind. by destruct (m _) as [[a|e] s]. Qed.

Lemma effect_tables {A} (m : txn DB A) d o t us :
  effect m d = (o, t, us) →
  DB.refresh_sessions (run m d).2 = t ∧ DB.users (run m d).2 = us.
Proof. unfold effect. destruct (run m d) as [o' d']. by intros [= _ <- <-]. Qed.

(** What a step does to the two tables. *)
Inductive moves d d' : Prop :=
| moves_age : aged (DB.refresh_sessions d) (DB.refresh_sessions d') → sound User d' → moves d d'
| moves_add n :
    unique_ok true session_conflict n (DB.refresh_sessions d) = true →
    (∀ k s, DB.refresh_sessions d !! k = Some s → Sess_.family_id s ≠ Sess_.family_id n) →
    DB.refresh_sessions d' = put n (DB.refresh_sessions d) → sound User d' → moves d d'
| moves_rotate s n now by_ :
    DB.refresh_sessions d !! Sess_.id s = Some s → live s = true →
    unique_ok true session_conflict n (DB.refresh_sessions d) = true →
    Sess_.family_id n = Sess_.family_id s → Sess_.user_id n = Sess_.user_id s →
    DB.refresh_sessions d' = put (revoked s now by_) (put n (DB.refresh_sessions d)) →
    sound User d' → moves d d'.

Lemma put_comm (a b : Session) t : Sess_.id a ≠ Sess_.id b → put a (put b t) = put b (put a t).
Proof. intros Hne. unfold put. by apply insert_insert_ne. Qed.

Lemma aged_unique t t' n :
  aged t t' → unique_ok true session_conflict n t = true → unique_ok true session_conflict n t' = true.
Proof.
  intros Ha [Hn Hc]%unique_ok_true. apply unique_ok_true. split.
  - intros E. specialize (Hn E). specialize (Ha (row_id n)). rewrite Hn in Ha.
    by destruct (t' !! row_id n).
  - intros k s' (s & Hs & Hl)%(aged_back t t') Hne; [|done].
    unfold session_conflict in *. rewrite (la_hash _ _ Hl). eapply (Hc k s Hs).
    change (Sess_.id s ≠ Sess_.id n). by rewrite <-(la_id _ _ Hl).
Qed.

Lemma aged_advances d d' :
  aged (DB.refresh_sessions d) (DB.refresh_sessions d') → advances DB.refresh_sessions later d d'.
Proof.
  intros Ha k s Hs. specialize (Ha k). rewrite Hs in Ha.
  destruct (DB.refresh_sessions d' !! k) as [s'|]; [by exists s'|done].
Qed.

Lemma put_new_advances (t : gmap uuid Session) (n : Session) k s :
  t !! row_id n = None → t !! k = Some s → put n t !! k = Some s.
Proof. intros Hn Hs. unfold put. rewrite lookup_insert_ne; [done|]. intros E. congruence. Qed.

Lemma moves_ok d d' :
  auth_ok d → moves d d' → auth_ok d' ∧ advances DB.refresh_sessions later d d'.
Proof.
  intros [Hu Ho] [Ha Hu'|n Hn Hf E Hu'|s n now by_ Hs Hl Hn Hfa Hus E Hu'].
  - split; [|by apply aged_advances]. split; [done|]. by eapply one_live_aged.
  - pose proof (proj1 (proj1 (unique_ok_true _ _ _ _) Hn) eq_refl) as Hfree. split.
    + split; [done|]. rewrite E. apply one_live_insert; [done..|].
      intros k s Hk Ef. by destruct (Hf k s Hk).
    + intros k s Hs. exists s. split; [|done]. rewrite E. by apply put_new_advances.
  - pose proof (proj1 (proj1 (unique_ok_true _ _ _ _) Hn) eq_refl) as Hfree.
    assert (Sess_.id s ≠ Sess_.id n) as Hne.
    { intros Ee. change (DB.refresh_sessions d !! Sess_.id n = None) in Hfree. congruence. }
    rewrite put_comm in E by done.
    pose proof (aged_put _ _ _ Hs (revoked_later s now by_ Hl)) as Ha.
    assert (one_live (put (revoked s now by_) (DB.refresh_sessions d))) as Ho1 by by eapply one_live_aged.
    pose proof (aged_unique _ _ _ Ha Hn) as Hn1. split.
    + split; [done|]. rewrite E. apply one_live_insert; [done..|].
      intros k x Hx Hf. unfold put in Hx. change (row_id (revoked s now by_)) with (Sess_.id s) in Hx.
      rewrite lookup_insert in Hx. case_decide as Ek; simplify_eq.
      { by rewrite Hus. }
      rewrite Hfa in Hf. rewrite Hus. split; [|by eapply (ol_user _ Ho)].
      apply not_true_is_false. intros Hlx. apply Ek. by eapply (ol_live _ Ho).
    + intros k x Hx. specialize (Ha k). rewrite Hx in Ha.
      destruct (put (revoked s now by_) (DB.refresh_sessions d) !! k) as [x'|] eqn:Ex; [|done].
      exists x'. split; [|done]. rewrite E. apply put_new_advances; [|done].
      by apply unique_ok_true in Hn1 as [Hn1 _]; apply Hn1.
Qed.

(** Whatever a registration does, it does not touch sessions. *)
Definition users_only (t : gmap uuid Session) d : Prop := sound User d ∧ DB.refresh_sessions d = t.
Lemma keeps_users_only t u i m salt now e p f n :
  keeps (users_only t) (register u i m salt now e p f n).
Proof.
  assert (∀ g, (∀ d, DB.refresh_sessions (g d) = DB.refresh_sessions d) →
    (∀ d, DB.users (g d) = DB.users d) → keeps (users_only t) (modify g)) as Hm.
  { intros g Hs Hu. apply keeps_modify. intros d [H1 H2]. split; [|by rewrite Hs].
    by eapply sound_rows, H1. }
  unfold register, new_organization, save_organization, save_member, audit_ok, record_audit.
  keeps_go; try (by apply Hm).
  intros σ [[Hc1 Hc2] [Hw1 Hw2]]. apply wp_save; intros; [|by split].
  split; [done|]. split; [by eapply sound_set|exact Hw2].
Qed.

Lemma moves_same d d' :
  DB.refresh_sessions d' = DB.refresh_sessions d → sound User d' → moves d d'.
Proof. intros E Hu. apply moves_age; [|done]. rewrite E. apply aged_refl. Qed.

Lemma sound_users d d' : DB.users d' = DB.users d → sound User d → sound User d'.
Proof. exact (sound_rows User d d'). Qed.
Lemma sound_users_put d d' u u' :
  DB.users d' = put u' (DB.users d) → sound User d → DB.users d !! User.id u = Some u →
  User.id u' = User.id u → User.normalized_email u' = User.normalized_email u → sound User d'.
Proof.
  intros E Hs Hu Hi He. apply (sound_rows User (set_rows User (put u') d)); [exact E|].
  apply (sound_set u' false); [done|done|].
  apply unique_ok_true. split; [done|]. intros k x Hx Hne.
  cbn. unfold user_conflict. rewrite He. apply (tk_unique _ _ _ _ Hs (User.id u) k u x); [done..|].
  intros Ek. apply Hne. rewrite <-(tk_keyed _ _ _ _ Hs _ _ Hx) in Ek.
  change (User.id x = User.id u'). by rewrite Hi.
Qed.

Lemma register_moves u i m salt now e p f n d :
  auth_ok d → moves d (run (register u i m salt now e p f n) d).2.
Proof.
  intros [Hu _].
  destruct (keeps_run (users_only (DB.refresh_sessions d)) _ d
    (keeps_users_only _ u i m salt now e p f n)) as [Hu' E]; [by split|].
  by apply moves_same.
Qed.

Lemma login_moves r now e p d :
  auth_ok d → new_family_ok (OpLogin r now e p) d →
  moves d (run (login_endpoint dummy settings r now e p) d).2.
Proof.
  intros Hok Hf. pose proof (auth_ok_sessions _ Hok) as Hs. destruct Hok as [Hu _].
  unfold login_endpoint. rewrite run_map.
  pose proof (login_spec dummy settings r now e p d Hs Hu) as E. unfold login_outcome in E.
  destruct (admitted_user e p d) as [u|] eqn:Ea.
  2: { apply effect_tables in E as [Et Eu]. apply moves_same; [done|by eapply sound_users]. }
  destruct (unique_ok _ _ _ _) eqn:En; apply effect_tables in E as [Et Eu].
  - unfold admitted_user in Ea. destruct (user_by_email _ d) as [u0|] eqn:E0; [|done]. cbn in Ea.
    destruct (_ && _); simplify_eq. destruct (user_by_email_at _ _ _ Hu E0) as [Hat _].
    eapply moves_add; [exact En|exact Hf|exact Et|]. by eapply sound_users_put.
  - apply moves_same; [done|by eapply sound_users].
Qed.

Lemma refresh_moves r now raw d :
  auth_ok d → moves d (run (refresh settings r now raw) d).2.
Proof.
  intros Hok. pose proof (auth_ok_sessions _ Hok) as Hs. destruct Hok as [Hu _].
  destruct (refresh_spec settings r now raw d Hs Hu) as [E Eu].
  assert (sound User (run (refresh settings r now raw) d).2) as Hu' by by eapply sound_users.
  unfold refresh_outcome in E.
  destruct (refresh_session _ d) as [s|] eqn:Es; [|injection E as _ Et; by apply moves_same].
  destruct (refresh_session_Some _ _ _ Hs Es) as [Hat _].
  destruct (live s) eqn:El; cbn [negb] in E.
  2: { injection E as _ Et. apply moves_age; [|done]. rewrite Et. apply aged_fmap. }
  destruct (_ <=? _)%Z.
  { injection E as _ Et. apply moves_age; [|done]. rewrite Et. by eapply aged_put, revoked_at_later. }
  destruct (DB.users d !! _) as [u|]; [|injection E as _ Et; by apply moves_same].
  destruct (_ ≟ _); cbn [negb] in E; [|injection E as _ Et; by apply moves_same].
  destruct (unique_ok _ _ _ _) eqn:En; injection E as _ Et; [|by apply moves_same].
  by eapply moves_rotate.
Qed.

Lemma refresh_endpoint_moves r now c d :
  auth_ok d → moves d (run (refresh_endpoint settings r now c) d).2.
Proof.
  intros Hok. unfold refresh_endpoint. destruct (given c) as [raw|].
  - change (run _ d) with (run (x ← refresh settings r now raw; mret (_token_response settings x)) d).
    rewrite run_map. by apply refresh_moves.
  - apply moves_same; [done|apply Hok].
Qed.

Lemma logout_moves now c d : auth_ok d → moves d (run (logout_endpoint now c) d).2.
Proof.
  intros Hok. pose proof (auth_ok_sessions _ Hok) as Hs. destruct Hok as [Hu _].
  unfold logout_endpoint. rewrite run_map.
  pose proof (logout_spec now c None d Hs) as [Et Eu]%effect_tables.
  apply moves_age; [|by eapply sound_users]. rewrite Et.
  unfold cookie_session. destruct (given c) as [raw|]; cbn; [|apply aged_refl].
  destruct (refresh_session _ d) as [s|] eqn:Es; [|apply aged_refl].
  destruct (refresh_session_Some _ _ _ Hs Es) as [Hat _].
  destruct (live s) eqn:El; [|apply aged_refl]. by eapply aged_put, revoked_at_later.
Qed.

Lemma wp_require_user now credentials Q σ :
  sound User (working σ) →
  (∀ u, DB.users (working σ) !! User.id u = Some u → User.status u = UserStatus.ACTIVE →
     Q (Ret u) σ) →
  (∀ e, Q (Raise e) σ) →
  wp (require_authenticated_user settings now credentials) Q σ.
Proof.
  intros Hu HQ HE. unfold require_authenticated_user. wp_go; try done.
  match goal with H : user ?k _ = Some ?u |- _ => rename H into Hk end.
  bools. apply HQ; [|done]. unfold user in Hk.
  match type of Hk with _ !! ?k = Some ?x =>
    assert (User.id x = k) as -> by exact (tk_keyed _ _ _ _ Hu _ _ Hk) end. done.
Qed.

Lemma change_password_moves salt now c old new d :
  auth_ok d → moves d (run (change_password_endpoint settings salt now c old new) d).2.
Proof.
  intros [Hu _].
  apply (wp_run _ (λ _ d', moves d d')). unfold change_password_endpoint.
  apply wp_bind, wp_require_user; cbn [working committed]; [done| |intros; by apply moves_same].
  intros u Hat _. apply wp_bind. unfold change_password, revoke_where.
  apply wp_bind, wp_ensure; intros _; [|by apply moves_same].
  apply wp_bind, wp_of_res; [intros [] _|intros; by apply moves_same].
  apply wp_bind, (wp_update u); [done|done|by apply user_harmless|]. intros Hu'. wp_go.
  apply moves_age; [apply aged_fmap|]. by eapply sound_users, Hu'.
Qed.

Lemma auth_step_ok d d' :
  auth_ok d → auth_step d d' → auth_ok d' ∧ advances DB.refresh_sessions later d d'.
Proof.
  intros Hok ([] & Hf & ->); (apply moves_ok; [done|]);
    [by apply register_moves|by apply login_moves|by apply refresh_endpoint_moves|by apply logout_moves
    |by apply change_password_moves].
Qed.

Lemma auth_steps_ok d d' :
  auth_ok d → rtc auth_step d d' → auth_ok d' ∧ advances DB.refresh_sessions later d d'.
Proof.
  intros Hok Hs. induction Hs as [d|d1 d2 d3 H12 H23 IH].
  { split; [done|]. intros k s Hk. by exists s. }
  destruct (auth_step_ok _ _ Hok H12) as [Hok2 Ha]. destruct (IH Hok2) as [Hok3 Hb].
  split; [done|]. intros k s Hk. destruct (Ha k s Hk) as (s2 & Hk2 & H2).
  destruct (Hb k s2 Hk2) as (s3 & Hk3 & H3). exists s3. split; [done|]. by etrans.
Qed.

(** No session of the family is live. *)
Definition family_dead (family_id : uuid) d : Prop :=
  ∀ k s, DB.refresh_sessions d !! k = Some s → Sess_.family_id s = family_id → live s = false.

Lemma family_revoked_dead f now t k s :
  family_revoked f now t !! k = Some s → Sess_.family_id s = f → live s = false.
Proof.
  unfold family_revoked. rewrite lookup_fmap. destruct (t !! k) as [x|]; [|done]. cbn.
  intros [= <-] Hf. destruct (Sess_.family_id x ≟ f) eqn:E; cbn in *; [by destruct (live x) eqn:?|].
  by rewrite bool_decide_eq_false in E.
Qed.

(** A token whose session is revoked is refused, and takes its family along. *)
Lemma dead_token_refused r now raw d s :
  auth_ok d → refresh_session (hash_opaque_token raw) d = Some s → live s = false →
  let '(o, d') := run (refresh settings r now raw) d in
  o = Raise (AuthenticationError "refresh_token_reused") ∧ family_dead (Sess_.family_id s) d'.
Proof.
  intros Hok Es El. pose proof (auth_ok_sessions _ Hok) as Hs. destruct Hok as [Hu _].
  destruct (refresh_spec settings r now raw d Hs Hu) as [E _].
  unfold refresh_outcome in E. rewrite Es, El in E. cbn [negb] in E.
  destruct (run _ d) as [o d']. injection E as -> Et. cbn in Et. split; [done|].
  intros k x. rewrite Et. apply family_revoked_dead.
Qed.

(** A session that was found stays findable, in a later form. *)
Lemma session_stays h d d' s :
  auth_ok d → rtc auth_step d d' → refresh_session h d = Some s →
  ∃ s', refresh_session h d' = Some s' ∧ later s s'.
Proof.
  intros Hok Hst Hs. destruct (refresh_session_Some _ _ _ (auth_ok_sessions _ Hok) Hs) as [Hat <-].
  destruct (auth_steps_ok _ _ Hok Hst) as [Hok' Ha]. destruct (Ha _ _ Hat) as (s' & Hat' & Hl).
  exists s'. split; [|done]. rewrite <-(la_hash _ _ Hl).
  by eapply refresh_session_at; [apply auth_ok_sessions|].
Qed.

(** A family that is dead stays dead. *)
Lemma dead_stays f d d' :
  auth_ok d → rtc auth_step d d' →
  (∃ k s, DB.refresh_sessions d !! k = Some s ∧ Sess_.family_id s = f) →
  family_dead f d → family_dead f d'.
Proof.
  intros Hok Hs. induction Hs as [d|d1 d2 d3 H12 H23 IH]; [done|]. intros (k0 & s0 & Hk0 & Hf0) Hd.
  destruct (auth_step_ok _ _ Hok H12) as [Hok2 Ha]. apply IH; [done| |].
  { destruct (Ha _ _ Hk0) as (s1 & Hk1 & Hl). exists k0, s1. split; [done|].
    by rewrite (la_family _ _ Hl). }
  assert (moves d1 d2) as [Hage _|n _ Hn E _|s n now by_ Hs Hl _ Hfa _ E _].
  { destruct H12 as ([] & Hf & ->); [by apply register_moves|by apply login_moves
      |by apply refresh_endpoint_moves|by apply logout_moves|by apply change_password_moves]. }
  - intros k s' Hk Hf. destruct (aged_back _ _ _ _ Hage Hk) as (s & Hks & Hl).
    apply not_true_is_false. intros Hlive. apply (later_live _ _ Hl) in Hlive.
    rewrite (Hd k s Hks) in Hlive; [done|]. by rewrite <-(la_family _ _ Hl).
  - intros k s Hk Hf. rewrite E in Hk. unfold put in Hk. rewrite lookup_insert in Hk.
    case_decide; simplify_eq; [|by eapply Hd]. exfalso. eapply Hn; [exact Hk0|congruence].
  - intros k x Hk Hf. rewrite E in Hk. unfold put in Hk. rewrite !lookup_insert in Hk.
    repeat case_decide; simplify_eq; [done| |by eapply Hd].
    rewrite (Hd _ _ Hs) in Hl; [done|congruence].
Qed.

(** C5. A refresh token is good for one refresh.  A refresh that succeeds had a
    live session that was not over, and leaves a live one with the same user and
    family in its place.  Whatever requests follow, one family has at most one
    live session; and when the old token is presented again, it is refused and
    every session of its family is revoked, for ever. *)
Theorem refresh_tokens_work_once (r r' : draws) (now now' : timestamp) (raw : string)
    (tokens : IssuedTokens) (d d1 d2 : DB) :
  auth_ok d → run (refresh settings r now raw) d = (Ret tokens, d1) → rtc auth_step d1 d2 →
  ∃ s n,
    refresh_session (hash_opaque_token raw) d = Some s ∧ live s = true
    ∧ (now < Sess_.expires_at s)%Z
    ∧ refresh_session (hash_opaque_token (refresh_token tokens)) d1 = Some n ∧ live n = true
    ∧ Sess_.user_id n = Sess_.user_id s ∧ Sess_.family_id n = Sess_.family_id s
    ∧ one_live (DB.refresh_sessions d2)
    ∧ let '(o, d3) := run (refresh settings r' now' raw) d2 in
      o = Raise (AuthenticationError "refresh_token_reused")
      ∧ ∀ d4, rtc auth_step d3 d4 → family_dead (Sess_.family_id s) d4.
Proof.
  intros Hok Hr Hst. pose proof (auth_ok_sessions _ Hok) as Hs. pose proof (ao_users _ Hok) as Hu.
  destruct (moves_ok _ _ Hok (refresh_moves r now raw d Hok)) as [Hok1 _].
  destruct (refresh_spec settings r now raw d Hs Hu) as [E _]. rewrite Hr in E, Hok1.
  cbn [fst snd] in E, Hok1. unfold refresh_outcome in E.
  destruct (refresh_session _ d) as [s|] eqn:Es; [|done].
  destruct (live s) eqn:El; [|done]. cbn [negb] in E.
  destruct (Z.leb_spec (Sess_.expires_at s) now) as [|Hx]; [done|].
  destruct (DB.users d !! _) as [u|] eqn:Eu; [|done].
  destruct (_ ≟ _); [|done]. cbn [negb] in E.
  destruct (unique_ok _ _ _ _) eqn:En; [|done]. injection E as -> Et.
  set (n := new_session_row _ _ _ _ _) in *.
  pose proof (refresh_session_Some _ _ _ Hs Es) as [Hat Hh].
  apply unique_ok_true in En as [Hfree _]. specialize (Hfree eq_refl).
  assert (Sess_.id s ≠ new_session r) as Hne.
  { intros Ee. change (DB.refresh_sessions d !! new_session r = None) in Hfree. congruence. }
  assert (DB.refresh_sessions d1 !! new_session r = Some n) as Hn1.
  { rewrite Et. unfold put. rewrite lookup_insert_ne by done. apply lookup_insert_eq. }
  assert (refresh_session (hash_opaque_token raw) d1 = Some (revoked s now (Some (new_session r)))) as Hs1.
  { rewrite <-Hh. set (s1 := revoked _ _ _) in *. change (Sess_.token_hash s) with (Sess_.token_hash s1).
    apply (refresh_session_at d1 (Sess_.id s)); [by apply auth_ok_sessions|].
    rewrite Et. apply lookup_insert_eq. }
  destruct (session_stays _ _ _ _ Hok1 Hst Hs1) as (s2 & Hs2 & Hl2).
  destruct (auth_steps_ok _ _ Hok1 Hst) as [Hok2 _].
  exists s, n. split_and!; [done..|exact (refresh_session_at d1 _ n (auth_ok_sessions _ Hok1) Hn1)
    |done|done|done|apply Hok2|].
  assert (live s2 = false) as Hd2.
  { apply not_true_is_false. intros Hl. by apply (later_live _ _ Hl2) in Hl. }
  pose proof (dead_token_refused r' now' raw d2 s2 Hok2 Hs2 Hd2) as Hend.
  pose proof (moves_ok _ _ Hok2 (refresh_moves r' now' raw d2 Hok2)) as [Hok3 Ha3].
  destruct (run (refresh settings r' now' raw) d2) as [o d3]. destruct Hend as [-> Hd3].
  split; [done|]. intros d4 H4. change (Sess_.family_id s) with (Sess_.family_id (revoked s now (Some (new_session r)))).
  rewrite <-(la_family _ _ Hl2). apply (dead_stays _ d3); [done..| |done].
  pose proof (refresh_session_Some _ _ _ (auth_ok_sessions _ Hok2) Hs2) as [Hat2 _].
  destruct (Ha3 _ _ Hat2) as (s3 & Hat3 & Hl3). exists (Sess_.id s2), s3. split; [done|apply Hl3].
Qed.
End reach.

(** * What the other requests give *)

Section access.
Context {J : Jwt} {P : PasswordHasher} (dummy : string) (settings : TokenSettings).

(** A sign-in is refused in one way, whether the address is unknown, the
    password wrong or the user not active, and then changes neither users nor
    sessions.  Otherwise the access token acts as that user until it expires,
    and the refresh token has a live session of the user for the configured
    number of days. *)
Theorem sign_in_gives_access `{!JwtLaws} (r : draws) (now now' : timestamp)
    (email password : string) (d : DB) :
  auth_ok d → (new_jti r < 2 ^ 128)%N → (expiry settings now ≤ 253402300799)%Z →
  (0 ≤ now ≤ now')%Z → (now' < seconds (expiry settings now))%Z →
  let '(o, d') := run (login dummy settings r now email password) d in
  match admitted_user email password d with
  | None => o = Raise invalid_credentials ∧ DB.users d' = DB.users d
      ∧ DB.refresh_sessions d' = DB.refresh_sessions d
  | Some u =>
      (User.id u < 2 ^ 128)%N →
      unique_ok true session_conflict (new_session_row settings r now (User.id u) None)
        (DB.refresh_sessions d) = true →
      ∃ tokens s, o = Ret tokens
        ∧ run (signed_in settings now' (access_token tokens)) d'
          = (Ret (u <| User.last_login_at := Some now |>), d')
        ∧ refresh_session (hash_opaque_token (refresh_token tokens)) d' = Some s
        ∧ live s = true ∧ Sess_.user_id s = User.id u
        ∧ Sess_.expires_at s = (now + days (TokenSettings.refresh_token_expire_days settings))%Z
  end.
Proof.
  intros Hok Hj Hy Hn Hx. pose proof (auth_ok_sessions _ Hok) as Hs. pose proof (ao_users _ Hok) as Hu.
  pose proof (login_spec dummy settings r now email password d Hs Hu) as E. unfold effect in E.
  destruct (run _ d) as [o d']. unfold login_outcome in E.
  destruct (admitted_user email password d) as [u|] eqn:Ea; [|by injection E].
  intros Hid Hfree. rewrite Hfree in E. injection E as -> Et Eu.
  unfold admitted_user in Ea. destruct (user_by_email _ d) as [u0|] eqn:E0; [|done]. cbn in Ea.
  destruct (verify_password _ _), (User.status u0 ≟ UserStatus.ACTIVE) eqn:Ha; cbn in Ea; simplify_eq.
  destruct (user_by_email_at _ _ _ Hu E0) as [Hat _].
  set (n := new_session_row _ _ _ _ _) in *.
  eexists _, n. split; [done|]. cbn [access_token refresh_token]. split_and!; [| |done..].
  - rewrite run_signed_in. destruct (own_keys settings) as [more Hk].
    rewrite (decode_by settings settings (User.id u) (new_jti r) now now' more) by done.
    cbn [Claims.user_id]. unfold user. rewrite Eu. unfold put. change (row_id _) with (User.id u).
    rewrite lookup_insert_eq. cbn. by rewrite Ha.
  - change (hash_opaque_token (new_raw r)) with (Sess_.token_hash n).
    apply (refresh_session_at d' (new_session r)).
    + apply sound_sessions. rewrite Et. pose proof (sound_set n true d Hs eq_refl Hfree) as [H1 H2 _].
      split; [exact H1|exact H2].
    + rewrite Et. apply lookup_insert_eq.
Qed.

(** A change of password needs the current one and a strong new one, and
    changes nothing otherwise.  When it is made, the stored hash is that of the
    new password, every session of the user is revoked and no other is touched. *)
Theorem password_change_signs_out (salt : string) (now : timestamp) (u : User)
    (current new : string) (d : DB) :
  auth_ok d → DB.users d !! User.id u = Some u →
  let '(o, d') := run (change_password salt now u current new) d in
  if verify_password current (User.password_hash u)
     && is_some_ (match validate_password new (Some (User.normalized_email u)) with
                  | inl x => Some x | inr _ => None end)
  then
    o = Ret tt
    ∧ DB.users d' = put (u <| User.password_hash := hasher_hash salt new |>) (DB.users d)
    ∧ (∀ k s, DB.refresh_sessions d' !! k = Some s → Sess_.user_id s = User.id u → live s = false)
    ∧ (∀ k s, Sess_.user_id s ≠ User.id u →
         DB.refresh_sessions d' !! k = Some s ↔ DB.refresh_sessions d !! k = Some s)
  else
    o ∈ [Raise (AuthenticationError "invalid_current_password"); Raise (AppError "weak_password" 422)]
    ∧ DB.users d' = DB.users d ∧ DB.refresh_sessions d' = DB.refresh_sessions d.
Proof.
  intros Hok Hat.
  pose proof (change_password_spec salt now u current new d (ao_users _ Hok) Hat) as E.
  unfold effect in E. destruct (run _ d) as [o d'].
  destruct (verify_password _ _); cbn [andb]; [|injection E as -> -> ->; set_solver].
  unfold validate_password in *. destruct (password_failures _ _); cbn [is_some_];
    injection E as -> Et Eu; [|rewrite Et, Eu; set_solver].
  split_and!; [done|done|..]; rewrite Et; unfold user_revoked; intros k s.
  - rewrite lookup_fmap. destruct (DB.refresh_sessions d !! k) as [x|]; [|done]. cbn.
    intros [= <-] Hx. destruct (Sess_.user_id x ≟ User.id u) eqn:Ex; cbn in *.
    + by destruct (live x) eqn:?.
    + by rewrite bool_decide_eq_false in Ex.
  - intros Hne. rewrite lookup_fmap. destruct (DB.refresh_sessions d !! k) as [x|]; [|done]. cbn.
    destruct (Sess_.user_id x ≟ User.id u) eqn:Ex; [|done]. bools. cbn.
    split; intros [= E]; [|congruence]. exfalso. apply Hne. rewrite <-E, <-Ex. by destruct (live x).
Qed.
End access.

(** * Concrete requests *)

Definition plain_hasher : PasswordHasher :=
  {| hasher_hash salt password := salt +:+ password;
     hasher_verify h password := Some (String.eqb h ("salt" +:+ password)) |}.
Definition draw (n : N) : draws := mk_draws ("raw" +:+ pretty n) n (100 + n) (200 + n).

Section examples.
#[local] Existing Instances clear_jwt clear_jwt_laws plain_hasher.

Definition db_registered : DB :=
  (run (register 7 8 9 "salt" 0 " Ada@Example.com" "Strong-Passw0rd" "Ada" (Some "Ada Ltd")) DB.empty).2.
Definition login_1 := login "" settings_a (draw 1) (seconds 100) "ada@example.COM" "Strong-Passw0rd".
Definition db_signed_in : DB := (run login_1 db_registered).2.
Definition refresh_1 := refresh settings_a (draw 2) (seconds 200) "raw1".

Lemma empty_auth_ok : auth_ok DB.empty.
Proof. split; [by apply sound_tested|]. by split. Qed.
Lemma registered_auth_ok : auth_ok db_registered.
Proof.
  apply (auth_step_ok "" settings_a DB.empty); [apply empty_auth_ok|].
  by exists (OpRegister 7 8 9 "salt" 0 " Ada@Example.com" "Strong-Passw0rd" "Ada" (Some "Ada Ltd")).
Qed.
Lemma signed_in_auth_ok : auth_ok db_signed_in.
Proof.
  apply (moves_ok db_registered); [apply registered_auth_ok|]. unfold db_signed_in, login_1.
  rewrite <-(run_map (login "" settings_a (draw 1) (seconds 100) "ada@example.COM" "Strong-Passw0rd")
    (_token_response settings_a)).
  apply (login_moves "" settings_a (draw 1)); [apply registered_auth_ok|].
  intros k s Hk. exfalso.
  assert (size (DB.refresh_sessions db_registered) = 0) as E by (vm_compute; reflexivity).
  apply map_size_empty_inv in E. rewrite E in Hk. by rewrite lookup_empty in Hk.
Qed.

Definition returned {A} (o : outcome A) : bool := if o is Ret _ then true else false.

Lemma refresh_tokens_work_once_witness :
  ∃ tokens d1, run refresh_1 db_signed_in = (Ret tokens, d1)
  ∧ ∃ s, refresh_session (hash_opaque_token "raw1") db_signed_in = Some s
  ∧ let '(o, d3) := run (refresh settings_a (draw 3) (seconds 201) "raw1") d1 in
    o = Raise (AuthenticationError "refresh_token_reused") ∧ family_dead (Sess_.family_id s) d3.
Proof.
  assert (returned (run refresh_1 db_signed_in).1 = true) as Hr by (vm_compute; reflexivity).
  destruct (run refresh_1 db_signed_in) as [[tokens|e] d1] eqn:E; [|done].
  exists tokens, d1. split; [done|].
  destruct (refresh_tokens_work_once "" settings_a (draw 2) (draw 3) (seconds 200) (seconds 201)
    "raw1" tokens db_signed_in d1 d1 signed_in_auth_ok E (rtc_refl _ _))
    as (s & n & Hs & _ & _ & _ & _ & _ & _ & _ & H).
  exists s. split; [exact Hs|].
  destruct (run (refresh settings_a (draw 3) (seconds 201) "raw1") d1) as [o d3].
  destruct H as [-> H]. split; [reflexivity|]. apply H, rtc_refl.
Defined.

Lemma empty_well_owned : well_owned DB.empty.
Proof. split; try done. intros k [o Ho]. done. Qed.
Definition registered_user : User :=
  new_user 7 "salt" " Ada@Example.com" "Strong-Passw0rd" "Ada".

Lemma register_decides_witness :
  let '(o, d') := run (register 7 8 9 "salt" 0 " Ada@Example.com" "Strong-Passw0rd" "Ada"
                         (Some "Ada Ltd")) DB.empty in
  o = Ret registered_user ∧ registered_in 7 8 9 0 "Ada Ltd" DB.empty d' ∧ well_owned d'.
Proof.
  pose proof (register_decides 7 8 9 "salt" 0 " Ada@Example.com" "Strong-Passw0rd" "Ada"
    (Some "Ada Ltd") DB.empty empty_well_owned (ao_users _ empty_auth_ok)) as H.
  assert (fresh_ids 7 8 9 DB.empty) as Hf by by split.
  specialize (H Hf). destruct (run _ DB.empty) as [o d'].
  destruct H as (Ho & _ & _ & Hr & Hw & _). split; [exact Ho|]. split; [exact Hr|exact Hw].
Defined.

Lemma sign_in_gives_access_witness :
  let '(o, d') := run login_1 db_registered in
  ∃ tokens s, o = Ret tokens
  ∧ run (signed_in settings_a (seconds 999) (access_token tokens)) d'
    = (Ret (registered_user <| User.last_login_at := Some (seconds 100) |>), d')
  ∧ refresh_session (hash_opaque_token (refresh_token tokens)) d' = Some s ∧ live s = true.
Proof.
  pose proof (sign_in_gives_access "" settings_a (draw 1) (seconds 100) (seconds 999)
    "ada@example.COM" "Strong-Passw0rd" db_registered registered_auth_ok) as H.
  unfold login_1. destruct (run (login _ _ _ _ _ _) db_registered) as [o d'].
  assert (admitted_user "ada@example.COM" "Strong-Passw0rd" db_registered = Some registered_user)
    as Ea by (vm_compute; reflexivity).
  assert (unique_ok true session_conflict (new_session_row settings_a (draw 1) (seconds 100) 7 None)
            (DB.refresh_sessions db_registered) = true) as Hfree by (vm_compute; reflexivity).
  rewrite Ea in H. destruct H as (tokens & s & Ho & Hr & Hs & Hl & _);
    [reflexivity|discriminate|split; discriminate|reflexivity|reflexivity|exact Hfree|].
  exists tokens, s. split; [exact Ho|]. split; [exact Hr|]. by split.
Defined.

Lemma password_change_signs_out_witness :
  let '(o, d') := run (change_password "salt" (seconds 300) registered_user "Strong-Passw0rd"
                         "Stronger-Passw0rd") db_registered in
  o = Ret tt ∧ ∀ k s, DB.refresh_sessions d' !! k = Some s → Sess_.user_id s = 7%N → live s = false.
Proof.
  assert (DB.users db_registered !! User.id registered_user = Some registered_user) as Hat
    by (vm_compute; reflexivity).
  pose proof (password_change_signs_out "salt" (seconds 300) registered_user "Strong-Passw0rd"
    "Stronger-Passw0rd" db_registered registered_auth_ok Hat) as H.
  destruct (run _ db_registered) as [o d']. destruct H as (Ho & _ & Hd & _). by split.
Defined.
End examples.
