(* ===== verification/Invitations.v ===== *)
(** services/invitations.py with its endpoints of api/v1/organizations.py and
    api/v1/invitations.py: invitations, their delivery by e-mail, and their
    acceptance.

    A delivery is two transactions with a call of the provider between them.
    They are separate operations here, [create_sending] or [resend_sending] and
    [record_delivery], so that other requests can come in between; [create] and
    [resend] are the undisturbed sequence. *)

From S2P Require Import Prelude.
From S2P Require Import History.
From S2P Require Import Enums.
From S2P Require Import Rbac.
From S2P Require Import PyValue.
From S2P Require Import Models.
From S2P Require Import Tables.
From S2P Require Import Common.
From S2P Require Import Sha256.
From S2P Require Import Organizations.
From S2P Require Import Calendar.
From S2P Require Import Notifications.
From S2P Require Import Tokens.
From Stdlib Require Import Ascii ZifyBool.
From stdpp Require Import relations list.

Abbreviation Invitation := OrganizationInvitation.
Module Inv := OrganizationInvitation.
Open Scope Z_scope.

(** * The table *)

(** models/invitation.py:38-46, part of OrganizationInvitation.  The CHECK
    constraints. *)
Definition invitation_checks (i : Invitation) : bool :=
  match Inv.last_delivery_status i with
  | Some s => bool_decide (s ∈ ["pending"; "sending"; "delivered"; "failed"])
  | None => true
  end && (0 <=? Inv.delivery_generation i).

Definition pending (i : Invitation) : bool := Inv.status i ≟ InvitationStatus.PENDING.

(** models/invitation.py:27-36, part of OrganizationInvitation.  One invitation
    per token, one pending invitation per organization and address. *)
Definition invitation_conflict (i i' : Invitation) : bool :=
  (Inv.token_hash i ≟ Inv.token_hash i')
  || (pending i && pending i' && (Inv.organization_id i ≟ Inv.organization_id i')
      && (Inv.normalized_email i ≟ Inv.normalized_email i')).
#[export] Instance invitations_table : Table Invitation.
Proof.
  refine (mk_table _ _ DB.invitations (λ f, upd DB.invitations f) invitation_checks
    invitation_conflict _ _ _ _ _); unfold invitation_conflict, pending; solve_table.
Defined.

(** * Queries *)

(** repositories/data.py:119-122, Repository.invitation_by_hash.  The variant
    that locks the row selects the same. *)
Definition invitation_by_hash (token_hash : string) (d : DB) : option Invitation :=
  find_row (λ i, Inv.token_hash i ≟ token_hash) (DB.invitations d).

(** repositories/data.py:132-149, Repository.invitation_for_update. *)
Definition invitation_for_update (organization_id invitation_id : uuid) (d : DB)
    : option Invitation :=
  find_row (λ i, (Inv.id i ≟ invitation_id) && (Inv.organization_id i ≟ organization_id))
    (DB.invitations d).

(** repositories/data.py:151-160, Repository.pending_invitation. *)
Definition pending_invitation (organization_id : uuid) (normalized_email : string) (d : DB)
    : option Invitation :=
  find_row (λ i, (Inv.organization_id i ≟ organization_id)
                 && (Inv.normalized_email i ≟ normalized_email) && pending i)
    (DB.invitations d).

(** repositories/data.py:162-169, Repository.invitations. *)
Definition invitations (organization_id : uuid) (d : DB) : list Invitation :=
  sort_by (newest_first Inv.created_at Inv.id)
    (filter_rows (λ i, Inv.organization_id i ≟ organization_id) (DB.invitations d)).

(** * Delivery *)

Module InviteSettings.
(** core/config.py:85-85, part of Settings.  The settings the service reads. *)
Record Settings := mk {
  app_env : string;
  notification_provider : string;
  aws_ses_enabled : bool;
  frontend_url : string;
  invitation_token_expire_hours : Z
}.
End InviteSettings.
Abbreviation InviteSettings := InviteSettings.Settings.

Module Snapshot.
(** services/invitations.py:48-63, _DeliverySnapshot. *)
Record Snapshot := mk {
  invitation_id : uuid;
  organization_id : uuid;
  organization_name : string;
  email : string;
  role : OrganizationRole;
  expires_at : timestamp;
  generation : Z
}.
End Snapshot.
Abbreviation Snapshot := Snapshot.Snapshot.

(** [s.rstrip("/")] *)
Definition rstrip_slash (s : string) : string :=
  srev ((fix go s := match s with
                     | String c s' => if Ascii.eqb c "/" then go s' else s
                     | EmptyString => s
                     end) (srev s)).

(** [t.strftime("%Y-%m-%d %H:%M UTC")] *)
Definition strftime_minute (t : timestamp) : string :=
  let secs := t / 1000000 in
  let '(y, m, d) := civil (secs / 86400) in
  let s := secs mod 86400 in
  zpad 4 y +:+ "-" +:+ zpad 2 m +:+ "-" +:+ zpad 2 d +:+ " "
  +:+ zpad 2 (s / 3600) +:+ ":" +:+ zpad 2 (s / 60 mod 60) +:+ " UTC".

Definition nl : string := String newline "".

Section delivery.
Context {P : Type} `{NotificationProvider P} (settings : InviteSettings).
Import InviteSettings.

(** services/invitations.py:83-90, InvitationService._is_local_demo_delivery. *)
Definition _is_local_demo_delivery (key : string) : bool :=
  String.eqb (app_env settings) "development" && String.eqb key "smtp".

(** services/invitations.py:92-95, InvitationService._invitation_subject. *)
Definition _invitation_subject (key : string) : string :=
  if _is_local_demo_delivery key then "[LOCAL DEMO ONLY] CloudOps organization invitation"
  else "CloudOps organization invitation".

(** services/invitations.py:97-99, InvitationService._acceptance_url. *)
Definition _acceptance_url (raw_token : string) : string :=
  rstrip_slash (frontend_url settings) +:+ "/invitations/accept?token=" +:+ raw_token.

(** services/invitations.py:101-123, InvitationService._invitation_body.  The
    dash of the marker is its UTF-8 encoding. *)
Definition _invitation_body (snapshot : Snapshot) (raw_token key : string) : string :=
  let body :=
    "You have been invited to join the " +:+ Snapshot.organization_name snapshot
    +:+ " organization in CloudOps." +:+ nl +:+ nl
    +:+ "Assigned role: " +:+ OrganizationRole.value (Snapshot.role snapshot) +:+ nl
    +:+ "This invitation expires on " +:+ strftime_minute (Snapshot.expires_at snapshot)
    +:+ "." +:+ nl +:+ nl +:+ "Accept the invitation:" +:+ nl
    +:+ _acceptance_url raw_token +:+ nl +:+ nl
    +:+ "If you did not expect this invitation, ignore this message and the "
    +:+ "link will expire on its own." in
  if _is_local_demo_delivery key
  then "LOCAL DEMO ONLY — NEVER USE IN PRODUCTION." +:+ nl +:+ nl +:+ body else body.

(** services/invitations.py:69-69, _EMAIL_PROVIDERS. *)
Definition _EMAIL_PROVIDERS : list string := ["smtp"; "ses"; "mock"].

Definition delivery_failure (error code : string) (retryable : bool) : NotificationDeliveryResult :=
  mk_result FAILURE (Some error) None (Some code) retryable None.

(** services/invitations.py:125-171, InvitationService._deliver.  [make] is
    [notification_provider_from_settings], which may raise; [key] is not
    looked at again by the provider. *)
Definition _deliver (make : res P) (snapshot : Snapshot) (raw_token : string)
    : NotificationDeliveryResult :=
  let key := notification_provider settings in
  let unavailable :=
    delivery_failure "The invitation email could not be sent." "provider_unavailable" true in
  if negb (bool_decide (key ∈ _EMAIL_PROVIDERS)) then
    delivery_failure "The configured notification provider cannot send email."
      "provider_not_email_capable" false
  else if String.eqb key "ses" && negb (aws_ses_enabled settings) then
    delivery_failure "SES delivery is not enabled." "ses_disabled" false
  else
    match make with
    | inr _ => unavailable
    | inl provider =>
        match (provider_deliver provider
                 (mk_message NotificationChannel.EMAIL (Some (Snapshot.email snapshot))
                    [Snapshot.email snapshot] (_invitation_subject key)
                    (_invitation_body snapshot raw_token key) "organization_invitation"
                    [("invitation_id", PStr (uuid_str (Snapshot.invitation_id snapshot)))])).1 with
        | inl result => result
        | inr _ => unavailable
        end
    end.
End delivery.

(** services/invitations.py:173-184, InvitationService._snapshot. *)
Definition _snapshot (i : Invitation) : txn DB Snapshot :=
  o ← gets (organization (Inv.organization_id i));
  mret (Snapshot.mk (Inv.id i) (Inv.organization_id i)
          (match o with Some o => Organization.name o | None => "CloudOps" end)
          (Inv.email i) (Inv.role i) (Inv.expires_at i) (Inv.delivery_generation i)).

Definition delivered_ok (result : NotificationDeliveryResult) : bool :=
  match outcome result with SUCCESS => true | FAILURE => false end.

(** services/invitations.py:236-239, part of InvitationService._send_and_record.
    The delivery columns. *)
Definition with_result (now : timestamp) (result : NotificationDeliveryResult) (i : Invitation)
    : Invitation :=
  if delivered_ok result
  then i <| Inv.last_delivery_status := Some "delivered" |>
         <| Inv.last_delivery_error_code := None |>
         <| Inv.last_delivered_at := Some now |>
  else i <| Inv.last_delivery_status := Some "failed" |>
         <| Inv.last_delivery_error_code := error_code result |>.

(** What an UPDATE of the session writes: of the columns of a delivery those
    that differ from the row the session holds, into the row of the table. *)
Definition flushed (held i stored : Invitation) : Invitation :=
  let written {A} `{EqDecision A} (f : Invitation → A) : A :=
    if f i ≟ f held then f stored else f i in
  stored <| Inv.last_delivery_status := written Inv.last_delivery_status |>
         <| Inv.last_delivery_error_code := written Inv.last_delivery_error_code |>
         <| Inv.last_delivered_at := written Inv.last_delivered_at |>.

Definition audit_invitation (event : string) (result : AuditResult)
    (organization_id actor_id invitation_id : uuid) : txn DB () :=
  record_audit event "invitation" result (Some organization_id) (Some actor_id) (Some invitation_id).

(** services/invitations.py:207-262, part of InvitationService._send_and_record.
    The second transaction, given what the provider returned.  [held] is the row
    as the session has it since the first transaction, which is still
    referenced.  Sessions keep their objects after a commit (db/session.py,
    expire_on_commit=False) and the query does not populate existing ones, so
    it locks the row of the table and gives back [held]: that is whose
    generation is compared and whose changes are written.  At the end the
    object is refreshed from the table. *)
Definition record_delivery (now : timestamp) (held : Invitation) (snapshot : Snapshot)
    (actor_id : uuid) (result : NotificationDeliveryResult) : txn DB (option Invitation) :=
  stored ← gets (invitation_for_update (Snapshot.organization_id snapshot)
                   (Snapshot.invitation_id snapshot));
  match stored with
  | None => _ ← rollback; mret None
  | Some stored =>
      let audit event r := audit_invitation event r (Snapshot.organization_id snapshot) actor_id
                             (Snapshot.invitation_id snapshot) in
      if negb (Inv.delivery_generation held =? Snapshot.generation snapshot) then
        _ ← audit "invitation.delivery_result_discarded" AuditResult.FAILED;
        _ ← commit;
        mret (Some stored)
      else
        let i := flushed held (with_result now result held) stored in
        _ ← save false i;
        _ ← (if delivered_ok result
             then audit "invitation.delivery_succeeded" AuditResult.SUCCEEDED
             else audit "invitation.delivery_failed" AuditResult.FAILED);
        _ ← commit;
        mret (Some i)
  end.

(** * The service *)

Definition already_pending : exn := ConflictError "active_invitation_exists".
Definition invitation_not_found : exn := NotFoundError "invitation_not_found".
Definition invitation_unavailable : exn := ConflictError "invitation_unavailable".
Definition invitation_expired : exn := ConflictError "invitation_expired".

Section service.
Context (settings : InviteSettings).

Definition expires_from (now : timestamp) : timestamp :=
  now + hours (InviteSettings.invitation_token_expire_hours settings).

(** services/invitations.py:285-297, part of InvitationService.create.  The row. *)
Definition new_invitation (id : uuid) (raw : string) (now : timestamp)
    (organization_id actor_id : uuid) (email : string) (role : OrganizationRole) : Invitation :=
  Inv.mk id organization_id (strip email) (normalize_email email) role (hash_opaque_token raw)
    InvitationStatus.PENDING actor_id (expires_from now) None (Some "sending") None (Some now) None
    0 now.

(** services/invitations.py:266-320, part of InvitationService.create.  The first
    transaction. *)
Definition create_sending (id : uuid) (raw : string) (now : timestamp) (organization_id : uuid)
    (actor : User) (email : string) (role : OrganizationRole) : txn DB (Invitation * Snapshot) :=
  actor_member ← require_capability organization_id (User.id actor) Capability.INVITATIONS_MANAGE;
  _ ← ensure (can_assign_role (OrganizationMembership.role actor_member) role)
        (ForbiddenError "unsafe_role_assignment");
  let normalized := normalize_email email in
  existing_user ← gets (user_by_email normalized);
  member ← gets (λ d, u ← existing_user; membership organization_id (User.id u) d);
  _ ← ensure (is_none_ member) (ConflictError "already_member");
  other ← gets (pending_invitation organization_id normalized);
  _ ← ensure (is_none_ other) already_pending;
  let i := new_invitation id raw now organization_id (User.id actor) email role in
  _ ← save true i;
  _ ← audit_invitation "invitation.created" AuditResult.SUCCEEDED organization_id (User.id actor)
        (Inv.id i);
  snapshot ← _snapshot i;
  _ ← try_catch commit
        (λ e, match e with
              | IntegrityError => _ ← rollback; raise already_pending
              | e => raise e
              end);
  mret (i, snapshot).

(** services/invitations.py:352-364, part of InvitationService.resend.  The row. *)
Definition resent (raw : string) (now : timestamp) (i : Invitation) : Invitation :=
  i <| Inv.token_hash := hash_opaque_token raw |>
    <| Inv.expires_at := expires_from now |>
    <| Inv.last_delivery_status := Some "sending" |>
    <| Inv.last_delivery_error_code := None |>
    <| Inv.last_delivery_attempt_at := Some now |>
    <| Inv.delivery_generation ::= Z.succ |>.

(** services/invitations.py:329-382, part of InvitationService.resend.  The first
    transaction. *)
Definition resend_sending (raw : string) (now : timestamp) (organization_id invitation_id : uuid)
    (actor : User) : txn DB (Invitation * Snapshot) :=
  _ ← require_capability organization_id (User.id actor) Capability.INVITATIONS_MANAGE;
  i ← gets (invitation_for_update organization_id invitation_id);
  i ← some_or i invitation_not_found;
  _ ← ensure (pending i) invitation_unavailable;
  if is_expired (Inv.expires_at i) now then
    _ ← save false (i <| Inv.status := InvitationStatus.EXPIRED |>);
    _ ← commit;
    raise invitation_expired
  else
    let i := resent raw now i in
    _ ← save false i;
    _ ← audit_invitation "invitation.resent" AuditResult.SUCCEEDED organization_id (User.id actor)
          (Inv.id i);
    snapshot ← _snapshot i;
    _ ← commit;
    mret (i, snapshot).

(** [raw if app_env in {"development", "testing"} else None] *)
Definition development_token (raw : string) : option string :=
  if bool_decide (InviteSettings.app_env settings ∈ ["development"; "testing"])
  then Some raw else None.

(** services/invitations.py:266-327, InvitationService.create. *)
Definition create {P} `{NotificationProvider P} (make : res P) (id : uuid) (raw : string)
    (now now' : timestamp) (organization_id : uuid) (actor : User) (email : string)
    (role : OrganizationRole) : txn DB (Invitation * option string) :=
  '(i, snapshot) ← create_sending id raw now organization_id actor email role;
  delivered ← record_delivery now' i snapshot (User.id actor) (_deliver settings make snapshot raw);
  mret (default i delivered, development_token raw).

(** services/invitations.py:329-387, InvitationService.resend. *)
Definition resend {P} `{NotificationProvider P} (make : res P) (raw : string)
    (now now' : timestamp) (organization_id invitation_id : uuid) (actor : User)
    : txn DB (Invitation * option string) :=
  '(i, snapshot) ← resend_sending raw now organization_id invitation_id actor;
  delivered ← record_delivery now' i snapshot (User.id actor) (_deliver settings make snapshot raw);
  delivered ← some_or delivered invitation_not_found;
  mret (delivered, development_token raw).
End service.

(** services/invitations.py:389-393, InvitationService.list. *)
Definition list_invitations (organization_id : uuid) (actor : User) : txn DB (list Invitation) :=
  _ ← require_capability organization_id (User.id actor) Capability.INVITATIONS_MANAGE;
  gets (invitations organization_id).

(** services/invitations.py:417-436, part of InvitationService.accept.  The
    membership: a removed one comes back with the invited role, a new one is
    made. *)
Definition invited_member (member_id : uuid) (now : timestamp) (i : Invitation) (u : User)
    (existing : option OrganizationMembership) : OrganizationMembership :=
  match existing with
  | Some m => m <| OrganizationMembership.status := MembershipStatus.ACTIVE |>
                <| OrganizationMembership.role := Inv.role i |>
                <| OrganizationMembership.joined_at := Some now |>
  | None => OrganizationMembership.mk member_id (Inv.organization_id i) (User.id u) (Inv.role i)
              MembershipStatus.ACTIVE (Some (Inv.invited_by_user_id i)) (Some now)
  end.

(** services/invitations.py:437-442, part of InvitationService.accept. *)
Definition accepted (now : timestamp) (i : Invitation) : Invitation :=
  i <| Inv.status := InvitationStatus.ACCEPTED |>
    <| Inv.accepted_at := Some now |>
    <| Inv.delivery_generation ::= Z.succ |>.

(** services/invitations.py:395-455, InvitationService.accept. *)
Definition accept (member_id : uuid) (now : timestamp) (raw : string) (u : User)
    : txn DB OrganizationMembership :=
  i ← gets (invitation_by_hash (hash_opaque_token raw));
  i ← some_or i invitation_not_found;
  existing ← gets (membership (Inv.organization_id i) (User.id u));
  match Inv.status i, existing with
  | InvitationStatus.ACCEPTED, Some m => mret m
  | _, _ =>
      _ ← ensure (pending i) invitation_unavailable;
      if is_expired (Inv.expires_at i) now then
        _ ← save false (i <| Inv.status := InvitationStatus.EXPIRED |>
                          <| Inv.delivery_generation ::= Z.succ |>);
        _ ← commit;
        raise invitation_expired
      else
        _ ← ensure (Inv.normalized_email i ≟ User.normalized_email u)
              (ForbiddenError "invitation_email_mismatch");
        _ ← ensure (match existing with
                    | Some m => OrganizationMembership.status m ≟ MembershipStatus.REMOVED
                    | None => true
                    end) (ConflictError "already_member");
        let member := invited_member member_id now i u existing in
        _ ← save_member (is_none_ existing) member;
        _ ← save false (accepted now i);
        _ ← audit_invitation "invitation.accepted" AuditResult.SUCCEEDED (Inv.organization_id i)
              (User.id u) (Inv.id i);
        _ ← commit;
        mret member
  end.

(** services/invitations.py:457-487, InvitationService.cancel. *)
Definition cancel (organization_id invitation_id : uuid) (actor : User) : txn DB () :=
  _ ← require_capability organization_id (User.id actor) Capability.INVITATIONS_MANAGE;
  i ← gets (invitation_for_update organization_id invitation_id);
  i ← some_or i invitation_not_found;
  if pending i then
    _ ← save false (i <| Inv.status := InvitationStatus.CANCELLED |>
                      <| Inv.delivery_generation ::= Z.succ |>);
    _ ← audit_invitation "invitation.cancelled" AuditResult.SUCCEEDED organization_id
          (User.id actor) (Inv.id i);
    commit
  else rollback.

(** api/v1/invitations.py:13-23, accept. *)
Definition accept_endpoint (member_id : uuid) (now : timestamp) (raw : string) (u : User)
    : txn DB (OrganizationMembership * option User) :=
  member ← accept member_id now raw u;
  target ← gets (user (OrganizationMembership.user_id member));
  mret (member, target).

(** api/v1/organizations.py:116-135, invite. *)
Definition invite_endpoint {P} `{NotificationProvider P} (settings : InviteSettings) (make : res P)
    (id : uuid) (raw : string) (now now' : timestamp) (organization_id : uuid) (actor : User)
    (email : string) (role : OrganizationRole) : txn DB (Invitation * option string) :=
  '(i, raw) ← create settings make id raw now now' organization_id actor email role;
  mret (i, r ← raw; development_token settings r).

(** api/v1/organizations.py:152-168, resend_invitation. *)
Definition resend_endpoint {P} `{NotificationProvider P} (settings : InviteSettings) (make : res P)
    (raw : string) (now now' : timestamp) (organization_id invitation_id : uuid) (actor : User)
    : txn DB (Invitation * option string) :=
  '(i, raw) ← resend settings make raw now now' organization_id invitation_id actor;
  mret (i, r ← raw; development_token settings r).

(** * Rules *)

Lemma invitation_by_hash_Some h d i :
  sound Invitation d → invitation_by_hash h d = Some i →
  DB.invitations d !! Inv.id i = Some i ∧ Inv.token_hash i = h.
Proof.
  intros Hs (k & Hk & ?)%find_row_Some. bools. split; [|done].
  pose proof (tk_keyed _ _ _ _ Hs _ _ Hk) as E. by change (Inv.id i = k) in E; subst k.
Qed.
Lemma invitation_for_update_Some o k d i :
  sound Invitation d →
  invitation_for_update o k d = Some i ↔
  DB.invitations d !! k = Some i ∧ Inv.organization_id i = o.
Proof.
  intros Hs. unfold invitation_for_update.
  rewrite (find_row_pinned _ (λ i, Inv.organization_id i ≟ o) _ k); [|apply Hs|done].
  by rewrite bool_decide_eq_true.
Qed.

(** What a snapshot says of its invitation. *)
Definition fits (sn : Snapshot) (i : Invitation) : Prop :=
  Snapshot.invitation_id sn = Inv.id i ∧ Snapshot.organization_id sn = Inv.organization_id i
  ∧ Snapshot.email sn = Inv.email i ∧ Snapshot.role sn = Inv.role i
  ∧ Snapshot.expires_at sn = Inv.expires_at i
  ∧ Snapshot.generation sn = Inv.delivery_generation i.

Section rules.
Implicit Types (d : DB) (i : Invitation) (σ : sess DB).

Lemma wp_snapshot i Q σ :
  (∀ sn, fits sn i → Q (Ret sn) σ) → wp (_snapshot i) Q σ.
Proof. intros HQ. unfold _snapshot. wp_go; by apply HQ. Qed.

Lemma wp_audit_invitation e r o a k Q σ :
  (∀ f, Q (Ret tt) (Sess (committed σ) ((working σ) <| DB.audit ::= f |>))) →
  wp (audit_invitation e r o a k) Q σ.
Proof. intros HQ. unfold audit_invitation, record_audit. wp_go. by apply (HQ _). Qed.

(** The table after a row of it was saved. *)
Definition saved (fresh : bool) i d d' : Prop :=
  invitation_checks i = true ∧ unique_ok fresh invitation_conflict i (DB.invitations d) = true
  ∧ DB.invitations d' = put i (DB.invitations d).

Lemma wp_save_invitation fresh i Q σ :
  (saved fresh i (working σ) (set_rows Invitation (put i) (working σ)) →
     Q (Ret tt) (Sess (committed σ) (set_rows Invitation (put i) (working σ)))) →
  Q (Raise IntegrityError) σ →
  wp (save fresh i) Q σ.
Proof. intros H1 H2. apply wp_save; [|done]. intros Hc Hu. by apply H1. Qed.
End rules.

Ltac wp_call ::=
  lazymatch goal with
  | |- wp (require_member _ _) _ _ => apply wp_require_member; intros
  | |- wp (require_capability _ _ _) _ _ => apply wp_require_capability; intros
  | |- wp (audit_invitation _ _ _ _ _) _ _ => apply wp_audit_invitation; intros ?
  | |- wp (_snapshot _) _ _ => apply wp_snapshot; intros ? ?
  | |- wp (save_member _ _) _ _ => apply wp_save_member; intros
  | |- wp (save _ _) _ _ => apply wp_save_invitation; [intros ?|]
  end.

Section specs.
Context (settings : InviteSettings).
Implicit Types (d : DB) (i : Invitation) (σ : sess DB).

(** ** The first transactions *)

Lemma create_sending_spec id raw now org actor email role d :
  match run (create_sending settings id raw now org actor email role) d with
  | (Ret (i, sn), d') =>
      i = new_invitation settings id raw now org (User.id actor) email role ∧ fits sn i
      ∧ saved true i d d' ∧ DB.members d' = DB.members d
      ∧ ∃ m, active_membership org (User.id actor) d = Some m
          ∧ role_has_capability (OrganizationMembership.role m) Capability.INVITATIONS_MANAGE = true
          ∧ can_assign_role (OrganizationMembership.role m) role = true
  | (Raise e, d') => d' = d
  end.
Proof.
  apply run_cases. unfold create_sending. wp_go; try done. split_and!; [done..|]. eauto.
Qed.

Lemma resend_sending_spec raw now org k actor d :
  sound Invitation d →
  match run (resend_sending settings raw now org k actor) d with
  | (Ret (i, sn), d') =>
      ∃ i0, DB.invitations d !! k = Some i0 ∧ Inv.organization_id i0 = org ∧ pending i0 = true
        ∧ now < Inv.expires_at i0 ∧ i = resent settings raw now i0 ∧ fits sn i ∧ saved false i d d'
        ∧ DB.members d' = DB.members d
  | (Raise e, d') =>
      d' = d ∨ e = invitation_expired ∧ ∃ i0, DB.invitations d !! k = Some i0 ∧ pending i0 = true
        ∧ Inv.expires_at i0 ≤ now
        ∧ saved false (i0 <| Inv.status := InvitationStatus.EXPIRED |>) d d'
        ∧ DB.members d' = DB.members d
  end.
Proof.
  intros Hs. apply run_cases. unfold resend_sending. wp_go; try (by left).
  all: match goal with H : invitation_for_update _ _ _ = Some _ |- _ =>
    apply invitation_for_update_Some in H as [??]; [|done] end.
  - right. split; [done|]. exists a. split_and!; [done..|by apply Z.leb_le|done|done].
  - exists a. split_and!; try done. by apply Z.leb_gt.
Qed.

(** ** The second transaction *)

(** The row a delivery leaves. *)
Definition recorded (now : timestamp) (result : NotificationDeliveryResult) (held stored : Invitation)
    : Invitation := flushed held (with_result now result held) stored.

Lemma recorded_harmless now result held i :
  invitation_checks i = true → harmless i (recorded now result held i).
Proof.
  intros Hc. split; [done| |done]. unfold invitation_checks in *.
  apply andb_true_iff in Hc as [Hl Hg]. apply andb_true_iff. split; [|exact Hg].
  unfold recorded, flushed. cbn. case_bool_decide; [done|].
  unfold with_result. by destruct (delivered_ok result).
Qed.

Lemma record_delivery_spec now held sn by_ result d :
  sound Invitation d →
  let '(o, d') := run (record_delivery now held sn by_ result) d in
  DB.members d' = DB.members d
  ∧ match invitation_for_update (Snapshot.organization_id sn) (Snapshot.invitation_id sn) d with
    | None => o = Ret None ∧ d' = d
    | Some i =>
        if Inv.delivery_generation held =? Snapshot.generation sn
        then o = Ret (Some (recorded now result held i)) ∧ sound Invitation d'
             ∧ DB.invitations d' = put (recorded now result held i) (DB.invitations d)
        else o = Ret (Some i) ∧ DB.invitations d' = DB.invitations d
    end.
Proof.
  intros Hs. destruct (run _ d) as [o d'] eqn:H. wp_run_in H. unfold record_delivery.
  apply wp_bind, wp_gets. cbn [working].
  destruct (invitation_for_update _ _ d) as [i|] eqn:E; [|by wp_go].
  apply invitation_for_update_Some in E as [Hat _]; [|done].
  destruct (_ =? _); cbn [negb]; [|by wp_go].
  pose proof (tk_rows _ _ _ _ Hs _ _ Hat) as Hc.
  assert (Inv.id i = Snapshot.invitation_id sn) as Hid by apply (tk_keyed _ _ _ _ Hs _ _ Hat).
  apply wp_bind, (wp_update i); [done| |by apply recorded_harmless|].
  { change (DB.invitations d !! Inv.id i = Some i). by rewrite Hid. }
  intros Hs'.
  wp_go; (split_and!; [done|done| |done]); eapply (sound_rows Invitation), Hs'; done.
Qed.

(** ** Acceptance and cancellation *)

Definition expired_now i : Invitation :=
  i <| Inv.status := InvitationStatus.EXPIRED |> <| Inv.delivery_generation ::= Z.succ |>.

(** The invitation admits the user now. *)
Definition admits (now : timestamp) (u : User) i (existing : option OrganizationMembership) : Prop :=
  pending i = true ∧ now < Inv.expires_at i
  ∧ Inv.normalized_email i = User.normalized_email u
  ∧ match existing with
    | Some m => OrganizationMembership.status m = MembershipStatus.REMOVED
    | None => True
    end.

Lemma accept_spec member_id now raw u d :
  sound Invitation d →
  match run (accept member_id now raw u) d with
  | (Ret m, d') => ∃ i, invitation_by_hash (hash_opaque_token raw) d = Some i
      ∧ let existing := membership (Inv.organization_id i) (User.id u) d in
        (Inv.status i = InvitationStatus.ACCEPTED ∧ existing = Some m ∧ d' = d
         ∨ admits now u i existing ∧ m = invited_member member_id now i u existing
           ∧ unique_ok (is_none_ existing) membership_conflict m (DB.members d) = true
           ∧ DB.members d' = put m (DB.members d) ∧ saved false (accepted now i) d d'
           ∧ DB.organizations d' = DB.organizations d)
  | (Raise e, d') =>
      d' = d ∨ e = invitation_expired
        ∧ ∃ i, invitation_by_hash (hash_opaque_token raw) d = Some i ∧ pending i = true
            ∧ Inv.expires_at i ≤ now ∧ saved false (expired_now i) d d'
            ∧ DB.members d' = DB.members d ∧ DB.organizations d' = DB.organizations d
  end.
Proof.
  intros Hs. apply run_cases. unfold accept. apply wp_bind, wp_gets. cbn [working].
  apply wp_bind, wp_some_or; [intros i Hi|intros _; by left].
  apply wp_bind, wp_gets. cbn [working].
  destruct (membership _ _ d) as [m|] eqn:Em;
    destruct (Inv.status i) eqn:Est; wp_go; try (by left);
    try (right; split; [done|]; exists i; split_and!; [done..|by apply Z.leb_le|done|done|done]).
  all: try match goal with H : pending ?x = true |- _ =>
    exfalso; unfold pending in H; by rewrite Est in H end.
  all: eexists; (split; [done|]); cbv zeta; rewrite Em.
  - right. unfold is_expired in *. bools. split_and!; [split_and!; [done|lia|done|done]|done..].
  - by left.
  - right. unfold is_expired in *. bools. split_and!; [split_and!; [done|lia|done|done]|done..].
Qed.

Lemma cancel_invitation_spec org k actor d :
  sound Invitation d →
  let '(o, d') := run (cancel org k actor) d in
  DB.members d' = DB.members d
  ∧ (DB.invitations d' = DB.invitations d
     ∨ ∃ i, DB.invitations d !! k = Some i ∧ Inv.organization_id i = org ∧ pending i = true
        ∧ saved false (i <| Inv.status := InvitationStatus.CANCELLED |>
                         <| Inv.delivery_generation ::= Z.succ |>) d d').
Proof.
  intros Hs. destruct (run _ d) as [o d'] eqn:H. wp_run_in H. unfold cancel.
  wp_go; try (by split; [|left]).
  match goal with H : invitation_for_update _ _ _ = Some ?i |- _ =>
    apply invitation_for_update_Some in H as [??]; [|done]; split; [done|]; right; by exists i end.
Qed.
End specs.

(** * Histories

    Requests and deliveries in any order.  The state is the database and the
    deliveries that are under way: each was handed to the provider by the first
    transaction of a request, and its second transaction is still to come, with
    whatever result, or never. *)

Record sending := mk_sending { held : Invitation; snap : Snapshot; sent_by : uuid }.

(** The invitation without what is kept of its delivery. *)
Definition undelivered (i : Invitation) : Invitation :=
  i <| Inv.last_delivery_status := None |> <| Inv.last_delivery_error_code := None |>
    <| Inv.last_delivered_at := None |>.

(** A later form of an invitation: what it offers never changes; a token is
    replaced, and the invitation accepted or cancelled, only with a higher
    generation; one that was accepted or cancelled only gets the result of a
    delivery. *)
Record later (i i' : Invitation) : Prop := {
  la_offer : Inv.id i' = Inv.id i ∧ Inv.organization_id i' = Inv.organization_id i
    ∧ Inv.email i' = Inv.email i ∧ Inv.normalized_email i' = Inv.normalized_email i
    ∧ Inv.role i' = Inv.role i ∧ Inv.invited_by_user_id i' = Inv.invited_by_user_id i;
  la_generation : Inv.delivery_generation i ≤ Inv.delivery_generation i';
  la_token : Inv.token_hash i' = Inv.token_hash i
    ∨ Inv.delivery_generation i < Inv.delivery_generation i';
  la_status : Inv.delivery_generation i' = Inv.delivery_generation i →
    Inv.status i' = Inv.status i ∨ Inv.status i' = InvitationStatus.EXPIRED;
  la_closed : pending i = false → Inv.status i' = Inv.status i
    ∧ Inv.token_hash i' = Inv.token_hash i ∧ Inv.accepted_at i' = Inv.accepted_at i
    ∧ Inv.delivery_generation i' = Inv.delivery_generation i;
  la_frozen : Inv.status i = InvitationStatus.ACCEPTED ∨ Inv.status i = InvitationStatus.CANCELLED →
    undelivered i' = undelivered i
}.
#[export] Instance later_preorder : PreOrder later.
Proof.
  split.
  - intros i. split; [done|lia|by left|by left|done|done].
  - intros i1 i2 i3 [O1 G1 T1 S1 C1 F1] [O2 G2 T2 S2 C2 F2]. split.
    + intuition congruence.
    + lia.
    + destruct T1, T2; [left; congruence|right; lia|right; lia|right; lia].
    + intros E. destruct (S2 ltac:(lia)) as [->|]; [apply S1; lia|by right].
    + intros Hp. destruct (C1 Hp) as (E1 & E2 & E3 & E4).
      assert (pending i2 = false) as Hp2 by (unfold pending in *; by rewrite E1).
      destruct (C2 Hp2) as (? & ? & ? & ?). intuition congruence.
    + intros Hf. rewrite <-(F1 Hf). apply F2.
      assert (pending i1 = false) as Hp by (unfold pending; by destruct Hf as [-> | ->]).
      by destruct (C1 Hp) as (-> & _).
Qed.

(** A delivery under way: its invitation is in the table, in whatever form, and
    the session holds it as it was sent. *)
Definition in_flight (d : DB) (s : sending) : Prop :=
  Inv.delivery_generation (held s) = Snapshot.generation (snap s)
  ∧ Inv.last_delivery_status (held s) = Some "sending"
  ∧ ∃ i, DB.invitations d !! Snapshot.invitation_id (snap s) = Some i
      ∧ Inv.organization_id i = Snapshot.organization_id (snap s).

Definition state : Type := DB * list sending.

Record inv_ok (s : state) : Prop := {
  io_sound : sound Invitation s.1;
  io_sendings : Forall (in_flight s.1) s.2
}.

(** The table moved on from [d] to [d']. *)
Definition moved (d d' : DB) : Prop :=
  sound Invitation d' ∧ advances DB.invitations later d d'.

Lemma moved_same d d' : sound Invitation d → DB.invitations d' = DB.invitations d → moved d d'.
Proof.
  intros Hs E. split; [by eapply (sound_rows Invitation)|]. intros k i Hk. exists i. by rewrite E.
Qed.

Lemma saved_sound fresh i d d' : sound Invitation d → saved fresh i d d' → sound Invitation d'.
Proof.
  intros Hs (Hc & Hu & E). apply (sound_rows Invitation (set_rows Invitation (put i) d)); [exact E|].
  by eapply sound_set.
Qed.

Lemma saved_new i d d' : sound Invitation d → saved true i d d' → moved d d'.
Proof.
  intros Hs Hsv. split; [by eapply saved_sound|]. destruct Hsv as (_ & Hu & E).
  apply unique_ok_true in Hu as [Hn _]. specialize (Hn eq_refl). intros k x Hk. exists x.
  split; [|done]. rewrite E. unfold put. rewrite lookup_insert_ne; [done|]. intros Ek. congruence.
Qed.

Lemma saved_later i0 i d d' :
  sound Invitation d → DB.invitations d !! Inv.id i0 = Some i0 → saved false i d d' →
  later i0 i → moved d d'.
Proof.
  intros Hs Hat Hsv Hl. split; [by eapply saved_sound|]. destruct Hsv as (_ & _ & E).
  intros k x Hk. rewrite E. unfold put. change (row_id i) with (Inv.id i).
  destruct (la_offer _ _ Hl) as (-> & _). rewrite lookup_insert. case_decide as Ek; [|by exists x].
  subst k. exists i. split; [done|]. congruence.
Qed.

Lemma pending_status i : pending i = true ↔ Inv.status i = InvitationStatus.PENDING.
Proof. unfold pending. by rewrite bool_decide_eq_true. Qed.

(** The forms that requests give to a pending invitation. *)
Ltac solve_later Hp :=
  split; cbn; [done|lia|(by left) || (right; lia)|lia || by (intros _; auto)|by rewrite Hp|];
  apply pending_status in Hp; rewrite Hp; by intros [].

Lemma resent_later settings raw now i : pending i = true → later i (resent settings raw now i).
Proof. intros Hp. solve_later Hp. Qed.
Lemma expired_later i : pending i = true → later i (i <| Inv.status := InvitationStatus.EXPIRED |>).
Proof. intros Hp. solve_later Hp. Qed.
Lemma expired_now_later i : pending i = true → later i (expired_now i).
Proof. intros Hp. solve_later Hp. Qed.
Lemma accepted_later now i : pending i = true → later i (accepted now i).
Proof. intros Hp. solve_later Hp. Qed.
Lemma cancelled_later i : pending i = true →
  later i (i <| Inv.status := InvitationStatus.CANCELLED |> <| Inv.delivery_generation ::= Z.succ |>).
Proof. intros Hp. solve_later Hp. Qed.
Lemma recorded_later now result h i : later i (recorded now result h i).
Proof. split; try done; try lia; by left. Qed.

Lemma in_flight_moved d d' s : moved d d' → in_flight d s → in_flight d' s.
Proof.
  intros [_ Ha] (Hg & Hh & i & Hat & Ho). destruct (Ha _ _ Hat) as (i' & Hat' & Hl).
  destruct (la_offer _ _ Hl) as (_ & Eo & _). split_and!; [done..|].
  exists i'. split; [done|congruence].
Qed.

Lemma sendings_moved d d' q : moved d d' → Forall (in_flight d) q → Forall (in_flight d') q.
Proof. intros Hm Hq. eapply Forall_impl; [exact Hq|]. intros s. by apply in_flight_moved. Qed.

(** A delivery that was just handed over. *)
Lemma in_flight_new fresh i sn by_ d d' :
  saved fresh i d d' → fits sn i → Inv.last_delivery_status i = Some "sending" →
  in_flight d' (mk_sending i sn by_).
Proof.
  intros (_ & _ & E) (Hi & Ho & _ & _ & _ & Hg) Hl. split_and!; [done|done|].
  exists i. cbn [snap]. split; [rewrite Hi, E; apply lookup_insert_eq|done].
Qed.

(** * Steps *)

Section steps.
Context (settings : InviteSettings).

Inductive inv_step : state → state → Prop :=
| step_create id raw now org actor email role i sn d d' q :
    run (create_sending settings id raw now org actor email role) d = (Ret (i, sn), d') →
    inv_step (d, q) (d', mk_sending i sn (User.id actor) :: q)
| step_create_refused id raw now org actor email role e d d' q :
    run (create_sending settings id raw now org actor email role) d = (Raise e, d') →
    inv_step (d, q) (d', q)
| step_resend raw now org k actor i sn d d' q :
    run (resend_sending settings raw now org k actor) d = (Ret (i, sn), d') →
    inv_step (d, q) (d', mk_sending i sn (User.id actor) :: q)
| step_resend_refused raw now org k actor e d d' q :
    run (resend_sending settings raw now org k actor) d = (Raise e, d') →
    inv_step (d, q) (d', q)
| step_record s now result d q1 q2 :
    inv_step (d, q1 ++ s :: q2)
      ((run (record_delivery now (held s) (snap s) (sent_by s) result) d).2, q1 ++ q2)
| step_lost s d q1 q2 : inv_step (d, q1 ++ s :: q2) (d, q1 ++ q2)
| step_accept member_id now raw u d q :
    inv_step (d, q) ((run (accept_endpoint member_id now raw u) d).2, q)
| step_cancel org k actor d q :
    inv_step (d, q) ((run (cancel org k actor) d).2, q).

Lemma create_moved id raw now org actor email role d :
  sound Invitation d → moved d (run (create_sending settings id raw now org actor email role) d).2.
Proof.
  intros Hs. pose proof (create_sending_spec settings id raw now org actor email role d) as H.
  destruct (run _ d) as [[[i sn]|e] d']; [|subst d'; by apply moved_same].
  destruct H as (-> & _ & Hsv & _). by eapply saved_new.
Qed.

Lemma resend_moved raw now org k actor d :
  sound Invitation d → moved d (run (resend_sending settings raw now org k actor) d).2.
Proof.
  intros Hs. pose proof (resend_sending_spec settings raw now org k actor d Hs) as H.
  assert (∀ i0, DB.invitations d !! k = Some i0 → DB.invitations d !! Inv.id i0 = Some i0) as Hk.
  { intros i0 Hat. pose proof (tk_keyed _ _ _ _ Hs _ _ Hat) as E.
    change (Inv.id i0 = k) in E. by rewrite E. }
  destruct (run _ d) as [[[i sn]|e] d']; cbn [snd].
  - destruct H as (i0 & Hat & _ & Hp & _ & -> & _ & Hsv & _).
    eapply saved_later; [done|by apply Hk|exact Hsv|by apply resent_later].
  - destruct H as [->|(_ & i0 & Hat & Hp & _ & Hsv & _)]; [by apply moved_same|].
    eapply saved_later; [done|by apply Hk|exact Hsv|by apply expired_later].
Qed.

Lemma record_moved s now result d :
  sound Invitation d → in_flight d s →
  moved d (run (record_delivery now (held s) (snap s) (sent_by s) result) d).2.
Proof.
  intros Hs (Hg & _ & i & Hat & Ho).
  pose proof (record_delivery_spec now (held s) (snap s) (sent_by s) result d Hs) as H.
  destruct (run _ d) as [o d']. destruct H as [_ H]. cbn [snd].
  rewrite (proj2 (invitation_for_update_Some _ _ _ i Hs)) in H by done.
  rewrite Hg, Z.eqb_refl in H. destruct H as (_ & Hs' & Et).
  split; [done|]. intros k x Hk. rewrite Et. unfold put.
  assert (row_id (recorded now result (held s) i) = Snapshot.invitation_id (snap s)) as ->
    by apply (tk_keyed _ _ _ _ Hs _ _ Hat).
  rewrite lookup_insert. case_decide as Ek; [|by exists x]. subst k.
  eexists. split; [done|]. assert (x = i) as -> by congruence. apply recorded_later.
Qed.

Lemma accept_moved member_id now raw u d :
  sound Invitation d → moved d (run (accept_endpoint member_id now raw u) d).2.
Proof.
  intros Hs. assert ((run (accept_endpoint member_id now raw u) d).2 = (run (accept member_id now raw u) d).2) as ->.
  { unfold accept_endpoint, run, mbind, txn_bind. by destruct (accept _ _ _ _ _) as [[m|e] σ]. }
  pose proof (accept_spec member_id now raw u d Hs) as H.
  destruct (run _ d) as [[m|e] d']; cbn [snd].
  - destruct H as (i & Hi & [(_ & _ & ->)|((Hp & _) & _ & _ & _ & Hsv & _)]); [by apply moved_same|].
    apply invitation_by_hash_Some in Hi as [Hat _]; [|done].
    eapply saved_later; [done|exact Hat|exact Hsv|by apply accepted_later].
  - destruct H as [->|(_ & i & Hi & Hp & _ & Hsv & _)]; [by apply moved_same|].
    apply invitation_by_hash_Some in Hi as [Hat _]; [|done].
    eapply saved_later; [done|exact Hat|exact Hsv|by apply expired_now_later].
Qed.

Lemma cancel_moved org k actor d :
  sound Invitation d → moved d (run (cancel org k actor) d).2.
Proof.
  intros Hs. pose proof (cancel_invitation_spec org k actor d Hs) as H. destruct (run _ d) as [o d'].
  destruct H as [_ [E|(i & Hat & _ & Hp & Hsv)]]; [by apply moved_same|].
  eapply saved_later; [done| |exact Hsv|by apply cancelled_later].
  pose proof (tk_keyed _ _ _ _ Hs _ _ Hat) as E. change (Inv.id i = k) in E. by rewrite E.
Qed.

Lemma inv_step_ok s s' : inv_ok s → inv_step s s' → inv_ok s' ∧ moved s.1 s'.1.
Proof.
  intros [Hs Hq] Hst.
  assert (∀ q, moved s.1 s'.1 → s'.2 = q → Forall (in_flight s'.1) q → inv_ok s' ∧ moved s.1 s'.1) as Hdone.
  { intros q Hm <- Hf. split; [|done]. by split; [apply Hm|]. }
  destruct Hst as [id raw now org actor email role i sn d d' q E
    |id raw now org actor email role e d d' q E|raw now org k actor i sn d d' q E
    |raw now org k actor e d d' q E|x now result d q1 q2|x d q1 q2|member_id now raw u d q
    |org k actor d q]; cbn [fst snd] in *.
  - pose proof (create_moved id raw now org actor email role d Hs) as Hm. rewrite E in Hm.
    pose proof (create_sending_spec settings id raw now org actor email role d) as H. rewrite E in H.
    destruct H as (-> & Hf & Hsv & _). eapply Hdone; [done..|]. constructor; [|by eapply sendings_moved].
    by eapply in_flight_new.
  - pose proof (create_moved id raw now org actor email role d Hs) as Hm. rewrite E in Hm.
    eapply Hdone; [done..|]. by eapply sendings_moved.
  - pose proof (resend_moved raw now org k actor d Hs) as Hm. rewrite E in Hm.
    pose proof (resend_sending_spec settings raw now org k actor d Hs) as H. rewrite E in H.
    destruct H as (i0 & _ & _ & _ & _ & -> & Hf & Hsv & _).
    eapply Hdone; [done..|]. constructor; [|by eapply sendings_moved].
    by eapply in_flight_new.
  - pose proof (resend_moved raw now org k actor d Hs) as Hm. rewrite E in Hm.
    eapply Hdone; [done..|]. by eapply sendings_moved.
  - apply Forall_app in Hq as [H1 [Hx H2]%Forall_cons].
    pose proof (record_moved x now result d Hs Hx) as Hm.
    eapply Hdone; [done..|]. apply Forall_app. split; by eapply sendings_moved.
  - apply Forall_app in Hq as [H1 [Hx H2]%Forall_cons].
    eapply Hdone; [by apply moved_same|done|]. by apply Forall_app.
  - pose proof (accept_moved member_id now raw u d Hs) as Hm.
    eapply Hdone; [done..|]. by eapply sendings_moved.
  - pose proof (cancel_moved org k actor d Hs) as Hm.
    eapply Hdone; [done..|]. by eapply sendings_moved.
Qed.
End steps.

(** * What acceptance gives *)

(** A member who was no owner before does not cost an organization its owner. *)
Lemma well_owned_member fresh d d' m :
  unique_ok fresh membership_conflict m (DB.members d) = true →
  DB.organizations d' = DB.organizations d → DB.members d' = put m (DB.members d) →
  (∀ old o, DB.members d !! OrganizationMembership.id m = Some old → active_owner o old = false) →
  well_owned d → well_owned d'.
Proof.
  intros Hu Eo Em Hold [Ho Hm Hs Hx Hw].
  split; rewrite ?Eo, ?Em; eauto using unique_index_put with rows.
  intros k (k' & m' & Hm' & Ha')%Hw. exists k', m'. split; [|done]. rewrite Em. unfold put.
  change (row_id m) with (OrganizationMembership.id m). rewrite lookup_insert_ne; [done|].
  intros <-. by rewrite (Hold _ _ Hm') in Ha'.
Qed.

Lemma well_owned_same d d' :
  DB.organizations d' = DB.organizations d → DB.members d' = DB.members d →
  well_owned d → well_owned d'.
Proof.
  intros Eo Em [Ho Hm Hs Hx Hw]. split; rewrite ?Eo, ?Em; try done.
  intros k (k' & m & Hk & Ha)%Hw. exists k', m. by rewrite Em.
Qed.

Lemma membership_Some o u d m :
  membership o u d = Some m →
  ∃ k, DB.members d !! k = Some m ∧ OrganizationMembership.organization_id m = o
    ∧ OrganizationMembership.user_id m = u.
Proof. intros (k & ? & ?)%find_row_Some. bools. eauto. Qed.

Lemma invited_member_fields member_id now i u d :
  let existing := membership (Inv.organization_id i) (User.id u) d in
  let m := invited_member member_id now i u existing in
  OrganizationMembership.organization_id m = Inv.organization_id i
  ∧ OrganizationMembership.user_id m = User.id u
  ∧ OrganizationMembership.role m = Inv.role i
  ∧ OrganizationMembership.status m = MembershipStatus.ACTIVE.
Proof.
  cbv zeta. destruct (membership _ _ d) as [m|] eqn:E; cbn; [|done].
  by apply membership_Some in E as (k & _ & Ho & Hu).
Qed.

Lemma invited_member_unique member_id now i u d :
  well_owned d → (membership (Inv.organization_id i) (User.id u) d = None →
    DB.members d !! member_id = None) →
  let existing := membership (Inv.organization_id i) (User.id u) d in
  unique_ok (is_none_ existing) membership_conflict
    (invited_member member_id now i u existing) (DB.members d) = true.
Proof.
  intros Hw Hn. cbv zeta. apply unique_ok_true.
  destruct (membership _ _ d) as [m|] eqn:E; cbn.
  - apply membership_Some in E as (k & Hk & Ho & Hu). split; [done|]. intros k' m' Hk' Hne.
    apply (wo_users _ Hw k k' m m' Hk Hk'). intros <-. apply Hne.
    assert (m' = m) as -> by congruence. done.
  - split; [auto|]. intros k' m' Hk' _. unfold membership in E. rewrite find_row_None in E.
    specialize (E _ _ Hk'). unfold membership_conflict. cbn. rewrite <-E. f_equal;
      apply bool_decide_ext; split; congruence.
Qed.

Lemma accepted_harmless now i :
  invitation_checks i = true → pending i = true → harmless i (accepted now i).
Proof.
  intros Hc Hp. unfold invitation_checks in Hc. apply andb_true_iff in Hc as [Hc Hg]. split; [done| |].
  - cbn. unfold invitation_checks. cbn. rewrite Hc. cbn. lia.
  - intros x. cbn. unfold invitation_conflict. cbn. rewrite orb_false_iff. by intros [-> _].
Qed.

Lemma accept_admits member_id now raw u d i :
  sound Invitation d → well_owned d →
  invitation_by_hash (hash_opaque_token raw) d = Some i →
  let existing := membership (Inv.organization_id i) (User.id u) d in
  admits now u i existing → (existing = None → DB.members d !! member_id = None) →
  (run (accept member_id now raw u) d).1 = Ret (invited_member member_id now i u existing).
Proof.
  intros Hs Hw Hi existing (Hp & Hx & He & Hm) Hn.
  pose proof (invited_member_unique member_id now i u d Hw Hn) as Hu.
  destruct (invitation_by_hash_Some _ _ _ Hs Hi) as [Hat _].
  pose proof (tk_rows _ _ _ _ Hs _ _ Hat) as Hc.
  apply (wp_run _ (λ o _, o = _)). unfold accept. apply wp_bind, wp_gets. cbn [working].
  rewrite Hi. apply wp_bind, wp_ret, wp_bind, wp_gets. cbn [working]. fold existing.
  apply pending_status in Hp as Est. rewrite Est, Hp, He. unfold is_expired.
  replace (Inv.expires_at i <=? now) with false by lia. rewrite bool_decide_true by done.
  assert (match existing with
          | Some m => OrganizationMembership.status m ≟ MembershipStatus.REMOVED
          | None => true
          end = true) as -> by (destruct existing; [by apply bool_decide_eq_true|done]).
  apply wp_bind, wp_ret, wp_bind, wp_ret, wp_bind, wp_ret. cbv zeta.
  apply wp_bind, wp_save_member; cbn [working]; [intros _|intros Hu'; fold existing in Hu; congruence]. cbn [working committed].
  apply wp_bind, (wp_update i); [by eapply (sound_rows Invitation), Hs|exact Hat
    |by apply accepted_harmless|]. intros _. by wp_go.
Qed.

Lemma accept_member member_id now raw u d i m :
  invitation_by_hash (hash_opaque_token raw) d = Some i →
  membership (Inv.organization_id i) (User.id u) d = Some m →
  OrganizationMembership.status m ≠ MembershipStatus.REMOVED →
  Inv.status i = InvitationStatus.PENDING → now < Inv.expires_at i →
  Inv.normalized_email i = User.normalized_email u →
  run (accept member_id now raw u) d = (Raise (ConflictError "already_member"), d).
Proof.
  intros Hi Hm Hr Hp Hx He. rewrite (surjective_pairing (run _ d)).
  apply (wp_run _ (λ o d', (o, d') = (Raise (ConflictError "already_member"), d))).
  unfold accept. apply wp_bind, wp_gets. cbn [working].
  rewrite Hi. apply wp_bind, wp_ret, wp_bind, wp_gets. cbn [working]. rewrite Hm, Hp.
  unfold pending, is_expired. rewrite Hp, He.
  replace (Inv.expires_at i <=? now) with false by lia.
  rewrite (bool_decide_false (_ = MembershipStatus.REMOVED)), !bool_decide_true by done. by wp_go.
Qed.


(** * The results of deliveries *)

(** What the second transaction of [x] does to the table: the result is recorded
    whatever became of the invitation since, and nothing else of it changes. *)
Definition recorded_late (x : sending) (now : timestamp) (result : NotificationDeliveryResult)
    (d : DB) : Prop :=
  let '(o, d') := run (record_delivery now (held x) (snap x) (sent_by x) result) d in
  ∃ i i', DB.invitations d !! Snapshot.invitation_id (snap x) = Some i
    ∧ o = Ret (Some i') ∧ undelivered i' = undelivered i
    ∧ Inv.last_delivery_status i' = Some (if delivered_ok result then "delivered" else "failed")
    ∧ DB.members d' = DB.members d ∧ DB.invitations d' = put i' (DB.invitations d).

Lemma in_flight_recorded x now result d :
  sound Invitation d → in_flight d x → recorded_late x now result d.
Proof.
  intros Hs (Hg & Hl & i & Hat & Ho). unfold recorded_late.
  pose proof (record_delivery_spec now (held x) (snap x) (sent_by x) result d Hs) as H.
  destruct (run _ d) as [o d']. destruct H as [Hm H].
  rewrite (proj2 (invitation_for_update_Some _ _ _ i Hs)), Hg, Z.eqb_refl in H by done.
  destruct H as (-> & _ & Et). exists i, (recorded now result (held x) i). split_and!; try done.
  unfold recorded, flushed, with_result. rewrite Hl.
  destruct (delivered_ok result); by cbn.
Qed.

(** Invitations, resends, acceptances, cancellations and slow deliveries in
    any order: the constraints of the table hold; no invitation is lost, what
    it offers never changes, its token only with a new generation, and of one
    that was accepted or cancelled nothing but the result of its delivery.
    The fence of the service does not hold back a late result: it compares the
    generation of the row the session kept, which is the one that was sent, so
    the result of every delivery under way is recorded, after a resend, an
    acceptance or a cancellation as well. *)
Theorem deliveries_are_recorded (settings : InviteSettings) (s s' : state) :
  inv_ok s → rtc (inv_step settings) s s' →
  sound Invitation s'.1 ∧ advances DB.invitations later s.1 s'.1
  ∧ ∀ x now result, x ∈ s'.2 → recorded_late x now result s'.1.
Proof.
  intros Hok Hst. assert (inv_ok s' ∧ advances DB.invitations later s.1 s'.1) as [[Hs Hq] Ha].
  { induction Hst as [s|s1 s2 s3 H12 H23 IH].
    { split; [done|]. intros k i Hk. by exists i. }
    destruct (inv_step_ok settings _ _ Hok H12) as [Hok2 [_ H1]]. destruct (IH Hok2) as [Hok3 H2].
    split; [done|]. intros k i Hk. destruct (H1 k i Hk) as (i2 & Hk2 & L2).
    destruct (H2 k i2 Hk2) as (i3 & Hk3 & L3). exists i3. split; [done|]. by etrans. }
  split; [done|]. split; [done|]. intros x now result Hx. rewrite Forall_forall in Hq.
  by apply in_flight_recorded; [|apply Hq].
Qed.

(** * Concrete requests *)

Section examples.
Definition dev : InviteSettings := InviteSettings.mk "development" "smtp" false "http://localhost/" 72.
Definition founder : User :=
  User.mk 1 "o@x.io" "o@x.io" "" "O" UserStatus.ACTIVE false None None.
Definition guest : User :=
  User.mk 2 "g@x.io" "g@x.io" "" "G" UserStatus.ACTIVE false None None.
Definition team : Organization := Organization.mk 5 "X" "x" OrganizationStatus.ACTIVE 1.
Definition team_owner : OrganizationMembership :=
  OrganizationMembership.mk 6 5 1 OrganizationRole.OWNER MembershipStatus.ACTIVE None (Some 0).
Definition db_team : DB := DB.empty
  <| DB.users := {[1%N := founder; 2%N := guest]} |>
  <| DB.organizations := {[5%N := team]} |>
  <| DB.members := {[6%N := team_owner]} |>.
Definition invite_guest :=
  create_sending dev 9 "raw-1" (seconds 10) 5 founder " G@x.io" OrganizationRole.AUDITOR.
Definition db_invited : DB := (run invite_guest db_team).2.
Definition sent_guest : sending :=
  mk_sending (new_invitation dev 9 "raw-1" (seconds 10) 5 1 " G@x.io" OrganizationRole.AUDITOR)
    (Snapshot.mk 9 5 "X" "G@x.io" OrganizationRole.AUDITOR (seconds 10 + hours 72) 0) 1.

Lemma db_team_ok : inv_ok (db_team, []).
Proof. split; [by apply sound_tested|constructor]. Qed.

Lemma db_team_owned : well_owned db_team.
Proof.
  assert (∀ k o, DB.organizations db_team !! k = Some o → 5%N = k ∧ team = o) as Ho.
  { intros k o. exact (proj1 (lookup_singleton_Some 5%N k team o)). }
  assert (∀ k m, DB.members db_team !! k = Some m → 6%N = k ∧ team_owner = m) as Hm.
  { intros k m. exact (proj1 (lookup_singleton_Some 6%N k team_owner m)). }
  split.
  - by intros k o [<- <-]%Ho.
  - by intros k o [<- <-]%Hm.
  - by intros k k' o o' [<- _]%Ho [<- _]%Ho.
  - by intros k k' o o' [<- _]%Hm [<- _]%Hm.
  - intros k [o [<- _]%Ho]. by exists 6%N, team_owner.
Qed.

Definition db_resent : DB :=
  (run (resend_sending dev "raw-2" (seconds 20) 5 9 founder) db_invited).2.

Definition sent_ok : NotificationDeliveryResult := mk_result SUCCESS None None None false None.
Definition db_cancelled : DB := (run (cancel 5 9 founder) db_resent).2.

(** The first delivery ends after a resend: its result is recorded. *)
Lemma deliveries_are_recorded_witness :
  recorded_late sent_guest (seconds 30) sent_ok db_resent
  ∧ advances DB.invitations later db_team db_resent.
Proof.
  assert (∃ i sn i' sn',
    run invite_guest db_team = (Ret (i, sn), db_invited) ∧ mk_sending i sn 1 = sent_guest
    ∧ run (resend_sending dev "raw-2" (seconds 20) 5 9 founder) db_invited = (Ret (i', sn'), db_resent))
    as (i & sn & i' & sn' & E1 & Es & E2).
  { eexists _, _, _, _. split; [vm_compute; reflexivity|].
    split; [vm_compute; reflexivity|vm_compute; reflexivity]. }
  destruct (deliveries_are_recorded dev (db_team, [])
    (db_resent, [mk_sending i' sn' 1; sent_guest]) db_team_ok) as (_ & Ha & Hf).
  - eapply rtc_l; [exact (step_create dev 9 "raw-1" (seconds 10) 5 founder " G@x.io"
      OrganizationRole.AUDITOR i sn db_team db_invited [] E1)|].
    eapply rtc_l; [|apply rtc_refl]. cbn [User.id founder]. rewrite Es.
    exact (step_resend dev "raw-2" (seconds 20) 5 9 founder i' sn' db_invited db_resent [sent_guest] E2).
  - split; [|exact Ha]. apply Hf. right. left.
Defined.

(** And after a cancellation, whose generation is two above that of the
    delivery: the cancelled invitation says that it was delivered. *)
Example cancelled_is_delivered :
  option_map (λ i, (Inv.status i, Inv.delivery_generation i, Inv.last_delivery_status i))
    (DB.invitations (run (record_delivery (seconds 30) (held sent_guest) (snap sent_guest) 1 sent_ok)
       db_cancelled).2 !! 9%N)
  = Some (InvitationStatus.CANCELLED, 2, Some "delivered").
Proof. vm_compute. reflexivity. Qed.

End examples.
