(* ===== verification/AwsOnboarding.v ===== *)
(** services/aws_onboarding.py with its endpoints of api/v1/aws_accounts.py: the
    registration of AWS accounts, their external ids, and the validation of
    their role.

    A validation is two transactions with calls of AWS between them:
    [validation_begin] and [validation_end] are separate operations, so that
    other requests can come in between, and [validate_connection] is the
    undisturbed sequence.  AWS is the arbitrary service of AwsExecutor. *)

From S2P Require Import Prelude.
From S2P Require Import History.
From S2P Require Import Enums.
From S2P Require Import Rbac.
From S2P Require Import PyValue.
From S2P Require Import Models.
From S2P Require Import Tables.
From S2P Require Import Common.
From S2P Require Import AiSafety.
From S2P Require Import Organizations.
From S2P Require Import PlatformJobs.
From S2P Require Import AwsExecutor.
From S2P Require Import RemediationAdmin.
From Stdlib Require Import Ascii ZifyBool.
From stdpp Require Import relations list.

Abbreviation Reservation := AWSExternalIDReservation.
Module Rsv := AWSExternalIDReservation.

(** * The tables *)

#[export] Instance accounts_table : Table AWSAccount.
Proof.
  refine (mk_table _ _ DB.aws_accounts (λ f, upd DB.aws_accounts f) account_checks
    account_conflict _ _ _ _ _); unfold account_conflict, both_set;
    [> by intros | by intros | by intros ? ? [] E; cbn in E |- *; unfold upd; cbn; rewrite E
     | by intros []
     | intros a b; apply eq_true_iff_eq;
       rewrite ?orb_true_iff, ?andb_true_iff, ?orb_true_iff, ?andb_true_iff, ?bool_decide_eq_true].
  assert (∀ x y : option string, is_some_ x = true ∧ x = y ↔ is_some_ y = true ∧ y = x) as Hb.
  { intros x y. split; intros [H ->]; done. }
  rewrite (Hb (Acc.role_arn a)), (Hb (Acc.remediation_external_id a)). intuition congruence.
Defined.

(** models/aws_external_id_reservation.py:16-19, part of AWSExternalIDReservation.
    The unique constraints. *)
Definition reservation_conflict (r r' : Reservation) : bool :=
  (Rsv.external_id r ≟ Rsv.external_id r')
  || is_some_ (Rsv.aws_account_id r) && (Rsv.aws_account_id r ≟ Rsv.aws_account_id r').
#[export] Instance reservations_table : Table Reservation.
Proof.
  refine (mk_table _ _ DB.reservations (λ f, upd DB.reservations f) (λ _, true)
    reservation_conflict _ _ _ _ _);
    [> by intros | by intros | by intros ? ? [] E; cbn in E |- *; unfold upd; cbn; rewrite E
     | by intros [] | intros r r'].
  unfold reservation_conflict. apply eq_true_iff_eq.
  rewrite !orb_true_iff, !andb_true_iff, !bool_decide_eq_true.
  split; (intros [H|[H E]]; [by left|right]); by rewrite E in *.
Defined.

(** * Texts *)

(** [s.split()]: the words between white space; [w] is the word being read. *)
Fixpoint words_go (w s : string) : list string :=
  match s with
  | EmptyString => if nonempty w then [srev w] else []
  | String c s =>
      if is_space c then (if nonempty w then srev w :: words_go "" s else words_go "" s)
      else words_go (String c w) s
  end.
(** [" ".join(s.split())] *)
Definition squeeze (s : string) : string := concat_sep " " (words_go "" s).

(** [s.split(",")]; [w] is the part being read. *)
Fixpoint commas_go (w s : string) : list string :=
  match s with
  | EmptyString => [srev w]
  | String c s => if Ascii.eqb c "," then srev w :: commas_go "" s else commas_go (String c w) s
  end.
Definition split_commas (s : string) : list string := commas_go "" s.

(** [list(dict.fromkeys(l))] *)
Fixpoint distinct (seen l : list string) : list string :=
  match l with
  | [] => []
  | x :: l => if existsb (String.eqb x) seen then distinct seen l else x :: distinct (x :: seen) l
  end.

(** [PRINCIPAL_ARN_PATTERN.fullmatch(s)]: the root, a role or a user of an account. *)
Definition principal_arn (s : string) : bool :=
  let try prefix :=
    let rest := str_drop (String.length prefix) s in
    let account := str_take 12 rest in
    let suffix := str_drop 12 rest in
    let named kind := startswith suffix kind
                      && nonempty (str_drop (String.length kind) suffix)
                      && all_chars role_char (str_drop (String.length kind) suffix) in
    startswith s prefix && Nat.eqb (String.length account) 12 && all_chars is_digit account
    && (String.eqb suffix ":root" || named ":role/" || named ":user/") in
  try "arn:aws:iam::" || try "arn:aws-us-gov:iam::" || try "arn:aws-cn:iam::".

(** services/aws_onboarding.py:49-58, AWSOnboardingService.validate_account_id. *)
Definition validate_account_id (account_id : string) : res string :=
  let value := strip account_id in
  if Nat.eqb (String.length value) 12 && all_chars is_digit value then inl value
  else inr (AppError "invalid_aws_account_id" 422).

(** services/aws_onboarding.py:60-72, AWSOnboardingService.validate_role_arn. *)
Definition validate_role_arn (role_arn : string) (expected_account_id : option string)
    : res string :=
  let value := strip role_arn in
  match role_arn_account value with
  | None => inr (AppError "invalid_role_arn" 422)
  | Some account =>
      match expected_account_id with
      | Some expected =>
          if String.eqb account expected then inl value
          else inr (AppError "role_account_mismatch" 422)
      | None => inl value
      end
  end.

(** * The trust policy *)

Section trust.
(** core/config.py:96-97, part of Settings: aws_trusted_principal_arn and
    aws_trusted_principal_arns. *)
Context (trusted_principal_arn trusted_principal_arns : string).

(** services/aws_onboarding.py:342-361, AWSOnboardingService._trusted_principals. *)
Definition _trusted_principals : res (list string) :=
  let configured := List.filter nonempty (map strip (split_commas trusted_principal_arns)) in
  let configured :=
    match configured with
    | [] => if nonempty (strip trusted_principal_arn) then [strip trusted_principal_arn] else []
    | l => l
    end in
  let principals := distinct [] configured in
  if Nat.eqb (length principals) 0 || Nat.ltb 4 (length principals)
     || existsb (λ p, negb (principal_arn p)) principals
  then inr (AppError "aws_principal_not_configured" 503)
  else inl principals.

(** services/aws_onboarding.py:327-340, AWSOnboardingService.trust_policy. *)
Definition trust_policy (account : AWSAccount) : res pyval :=
  principals ← _trusted_principals;
  let principal := match principals with [p] => PStr p | l => PList (map PStr l) end in
  mret (PDict
    [("Version", PStr "2012-10-17");
     ("Statement", PList [PDict
        [("Effect", PStr "Allow");
         ("Principal", PDict [("AWS", principal)]);
         ("Action", PStr "sts:AssumeRole");
         ("Condition", PDict [("StringEquals",
            PDict [("sts:ExternalId", PStr (Acc.external_id account))])])]])]).
End trust.

(** services/aws_onboarding.py:363-369, AWSOnboardingService.permission_policy. *)
Definition permission_policy : list (string * string) :=
  [("policy_name", "SecurityAudit");
   ("managed_policy_arn", "arn:aws:iam::aws:policy/SecurityAudit");
   ("description", "Attach the AWS managed SecurityAudit policy to CloudOpsReadOnlyRole.")].

(** * Queries *)

(** repositories/data.py:256-264, Repository.aws_account_by_provider_id. *)
Definition aws_account_by_provider_id (organization_id : uuid) (account_id : string) (d : DB)
    : option AWSAccount :=
  find_row (λ a, (Acc.organization_id a ≟ organization_id) && (Acc.account_id a ≟ account_id))
    (DB.aws_accounts d).

(** repositories/data.py:266-275, Repository.aws_account_by_role_arn. *)
Definition aws_account_by_role_arn (organization_id : uuid) (role_arn : string)
    (exclude_id : option uuid) (d : DB) : option AWSAccount :=
  find_row (λ a, (Acc.organization_id a ≟ organization_id) && (Acc.role_arn a ≟ Some role_arn)
                 && match exclude_id with Some i => negb (Acc.id a ≟ i) | None => true end)
    (DB.aws_accounts d).

(** repositories/data.py:287-294, Repository.external_id_reservation_for_account. *)
Definition external_id_reservation_for_account (account_id : uuid) (d : DB) : option Reservation :=
  find_row (λ r, Rsv.aws_account_id r ≟ Some account_id) (DB.reservations d).

(** repositories/data.py:204-211, Repository.aws_accounts. *)
Definition aws_accounts (organization_id : uuid) (d : DB) : list AWSAccount :=
  sort_by (λ a b, String.leb (Acc.name a) (Acc.name b))
    (filter_rows (λ a, Acc.organization_id a ≟ organization_id) (DB.aws_accounts d)).

(** * The service *)

(** services/aws_onboarding.py:74-94, AWSOnboardingService._require_account. *)
Definition require_account (account_id : uuid) (actor : User) (capability : Capability)
    : txn DB AWSAccount :=
  result ← gets (aws_account_for_user account_id (User.id actor));
  am ← some_or result (NotFoundError "aws_account_not_found");
  _ ← ensure (role_has_capability (OrganizationMembership.role am.2) capability)
        (ForbiddenError "forbidden");
  mret am.1.

Definition manage (account_id : uuid) (actor : User) : txn DB AWSAccount :=
  require_account account_id actor Capability.AWS_ACCOUNTS_MANAGE.

(** services/aws_onboarding.py:107-125, AWSOnboardingService._reserve_external_id.
    [draws] are the identifiers and external ids of the tries. *)
Fixpoint reserve_go (now : timestamp) (organization_id : uuid) (draws : list (uuid * string))
    : txn DB Reservation :=
  match draws with
  | [] => raise (AppError "external_id_generation_failed" 500)
  | (id, external_id) :: draws =>
      let reservation := Rsv.mk id external_id None organization_id now None in
      done ← try_catch (_ ← begin_nested (save true reservation); mret true)
               (λ e, match e with IntegrityError => mret false | e => raise e end);
      if done : bool then mret reservation else reserve_go now organization_id draws
  end.
Definition _reserve_external_id (now : timestamp) (organization_id : uuid)
    (draws : list (uuid * string)) : txn DB Reservation :=
  reserve_go now organization_id (take 10 draws).

(** services/aws_onboarding.py:96-105, AWSOnboardingService._new_external_id.  No
    operation uses it. *)
Definition unreserved_external_id (draws : list string) : txn DB string :=
  taken ← gets (λ d c, is_some_ (find_row (λ r, Rsv.external_id r ≟ c) (DB.reservations d)));
  some_or (List.find (λ c, negb (taken c)) (take 5 draws))
    (AppError "external_id_generation_failed" 500).

(** services/aws_onboarding.py:413-437, AWSOnboardingService._audit. *)
Definition audit_account (event_type : string) (account : AWSAccount) (actor : User)
    (result : AuditResult) : txn DB () :=
  record_audit event_type "aws_account" result (Some (Acc.organization_id account))
    (Some (User.id actor)) (Some (Acc.id account)).

(** services/aws_onboarding.py:143-149, part of AWSOnboardingService.create_account. *)
Definition new_account (id : uuid) (organization_id : uuid) (actor : User) (name account_id : string)
    (reservation : Reservation) : AWSAccount :=
  Acc.mk id organization_id (squeeze name) account_id None (Rsv.external_id reservation) None None
    false None None AWSAccountStatus.PENDING AWSAccountStatus.PENDING None None None None 0
    (User.id actor).

(** services/aws_onboarding.py:127-162, AWSOnboardingService.create_account. *)
Definition create_account (principals : res (list string)) (id : uuid) (now : timestamp)
    (draws : list (uuid * string)) (organization_id : uuid) (actor : User)
    (name account_id : string) : txn DB AWSAccount :=
  _ ← require_capability organization_id (User.id actor) Capability.AWS_ACCOUNTS_MANAGE;
  _ ← of_res principals;
  provider_account_id ← of_res (validate_account_id account_id);
  existing ← gets (aws_account_by_provider_id organization_id provider_account_id);
  _ ← ensure (is_none_ existing) (ConflictError "aws_account_exists");
  reservation ← _reserve_external_id now organization_id draws;
  let account := new_account id organization_id actor name provider_account_id reservation in
  _ ← save true account;
  let reservation := reservation <| Rsv.aws_account_id := Some (Acc.id account) |> in
  _ ← audit_account "aws.account.created" account actor AuditResult.SUCCEEDED;
  _ ← try_catch (_ ← save false reservation; commit)
        (λ e, match e with
              | IntegrityError => _ ← rollback; raise (ConflictError "aws_account_conflict")
              | e => raise e
              end);
  mret account.

(** services/aws_onboarding.py:407-411, AWSOnboardingService._supersede_validation. *)
Definition _supersede_validation (a : AWSAccount) : AWSAccount :=
  a <| Acc.validation_token := None |>
    <| Acc.validation_started_at := None |>
    <| Acc.lifecycle_version ::= Z.succ |>.

(** services/aws_onboarding.py:382-390, AWSOnboardingService._commit_account. *)
Definition _commit_account (a : AWSAccount) : txn DB AWSAccount :=
  _ ← try_catch (_ ← save false a; commit)
        (λ e, match e with
              | IntegrityError => _ ← rollback; raise (ConflictError "aws_account_conflict")
              | e => raise e
              end);
  mret a.

(** services/aws_onboarding.py:171-176, part of AWSOnboardingService.update_role. *)
Definition with_role (value : string) (a : AWSAccount) : AWSAccount :=
  _supersede_validation (a
    <| Acc.role_arn := Some value |>
    <| Acc.status := AWSAccountStatus.PENDING |>
    <| Acc.connection_status := AWSAccountStatus.PENDING |>
    <| Acc.failure_reason := None |>
    <| Acc.last_validated_at := None |>).

(** services/aws_onboarding.py:166-170, part of AWSOnboardingService.update_role. *)
Definition checked_role (account : AWSAccount) (role_arn : string) : txn DB string :=
  value ← of_res (validate_role_arn role_arn (Some (Acc.account_id account)));
  other ← gets (aws_account_by_role_arn (Acc.organization_id account) value (Some (Acc.id account)));
  _ ← ensure (is_none_ other) (ConflictError "role_arn_exists");
  mret value.

(** services/aws_onboarding.py:164-179, AWSOnboardingService.update_role. *)
Definition update_role (account_id : uuid) (actor : User) (role_arn : string) : txn DB AWSAccount :=
  account ← manage account_id actor;
  value ← checked_role account role_arn;
  let account := with_role value account in
  _ ← audit_account "aws.account.updated" account actor AuditResult.SUCCEEDED;
  _commit_account account.

(** services/aws_onboarding.py:181-208, AWSOnboardingService.update_account. *)
Definition update_account (account_id : uuid) (actor : User) (name role_arn : option string)
    : txn DB AWSAccount :=
  account ← manage account_id actor;
  let account := match name with
    | Some n => account <| Acc.name := squeeze n |> | None => account end in
  account ← match role_arn with
    | Some role_arn => value ← checked_role account role_arn; mret (with_role value account)
    | None => mret (if is_some_ name then _supersede_validation account else account)
    end;
  _ ← audit_account "aws.account.updated" account actor AuditResult.SUCCEEDED;
  _commit_account account.

(** services/aws_onboarding.py:210-214, AWSOnboardingService.list_accounts. *)
Definition list_accounts (organization_id : uuid) (actor : User) : txn DB (list AWSAccount) :=
  _ ← require_capability organization_id (User.id actor) Capability.AWS_ACCOUNTS_READ;
  gets (aws_accounts organization_id).

(** services/aws_onboarding.py:216-218, AWSOnboardingService.get_account. *)
Definition get_account (account_id : uuid) (actor : User) : txn DB AWSAccount :=
  require_account account_id actor Capability.AWS_ACCOUNTS_READ.

(** services/aws_onboarding.py:220-224, AWSOnboardingService.get_onboarding_account. *)
Definition get_onboarding_account (account_id : uuid) (actor : User) : txn DB AWSAccount :=
  account ← manage account_id actor;
  _ ← audit_account "aws.account.onboarding_material_accessed" account actor AuditResult.SUCCEEDED;
  _ ← commit;
  mret account.

(** ** Validation *)

(** services/aws_onboarding.py:268-270, part of AWSOnboardingService.validate_connection. *)
Definition started (now : timestamp) (token : uuid) (a : AWSAccount) : AWSAccount :=
  a <| Acc.validation_token := Some token |>
    <| Acc.validation_started_at := Some now |>
    <| Acc.lifecycle_version ::= Z.succ |>.

(** services/aws_onboarding.py:258-272, part of AWSOnboardingService.validate_connection.
    The first transaction. *)
Definition validation_begin (now : timestamp) (token account_id : uuid) (actor : User)
    : txn DB AWSAccount :=
  account ← manage account_id actor;
  _ ← ensure (is_some_ (Acc.role_arn account)) (ConflictError "role_arn_required");
  _ ← ensure (is_none_ (Acc.validation_token account)) (ConflictError "validation_already_running");
  let account := started now token account in
  _ ← audit_account "aws.account.validation_started" account actor AuditResult.SUCCEEDED;
  _ ← save false account;
  _ ← commit;
  mret account.

Section aws.
Context `{AwsApi W} (settings : AwsSettings) (now : timestamp).

(** services/aws_credentials.py:60-63, TenantRoleCredentialProvider.validate_account. *)
Definition validate_account (account : AWSAccount) : aws W string :=
  _ ← _current_credentials settings now (Acc.role_arn account) (Some (Acc.external_id account))
        (aws_role_session_name settings) (Acc.account_id account) None;
  mret (Acc.account_id account).

(** services/aws_onboarding.py:226-231, AWSOnboardingService.assume_role. *)
Definition assume_role (account : AWSAccount) : aws W string := validate_account account.

(** services/aws_onboarding.py:233-256, AWSOnboardingService.assume_role_credentials.
    The keys are the access key, its secret and the session token. *)
Definition assume_role_credentials (account : AWSAccount) : aws W (string * string * string) :=
  match Acc.role_arn account with
  | None => throw (AWSConnectionFailure "role_arn_missing")
  | Some role =>
      handle
        (r ← perform (AssumeRole role (aws_role_session_name settings) (Acc.external_id account) 900);
         raw ← pure (item "Credentials" (PDict (body r)));
         key ← pure (item "AccessKeyId" raw);
         secret ← pure (item "SecretAccessKey" raw);
         token ← pure (item "SessionToken" raw);
         mret (py_str key, py_str secret, py_str token))
        (λ e, match e with
              | ClientError error =>
                  code ← pure (_safe_client_error error); throw (AWSConnectionFailure code)
              | BotoCoreError | PyError KeyError | PyError TypeError =>
                  throw (AWSConnectionFailure "sts_validation_failed")
              | e => throw e
              end)
  end.

(** services/aws_onboarding.py:273-276, part of AWSOnboardingService.validate_connection.
    What is asked of AWS between the transactions. *)
Definition probe (account : AWSAccount) : aws W () :=
  returned ← assume_role account;
  require (String.eqb returned (Acc.account_id account))
    (AWSConnectionFailure "caller_account_mismatch").
End aws.

(** services/aws_onboarding.py:392-405, AWSOnboardingService._finish_validation. *)
Definition _finish_validation (account_id : uuid) (actor : User) (validation_token : uuid)
    : txn DB AWSAccount :=
  account ← manage account_id actor;
  if Acc.validation_token account ≟ Some validation_token
  then mret (_supersede_validation account)
  else _ ← rollback; raise (ConflictError "validation_superseded").

(** services/aws_onboarding.py:279-280, part of AWSOnboardingService.validate_connection.
    The columns of the result, in both cases. *)
Definition validated (now : timestamp) (failure : option string) (a : AWSAccount) : AWSAccount :=
  let status := if failure is Some _ then AWSAccountStatus.FAILED else AWSAccountStatus.CONNECTED in
  a <| Acc.status := status |>
    <| Acc.connection_status := status |>
    <| Acc.failure_reason := failure |>
    <| Acc.last_validated_at := Some now |>.

(** services/aws_onboarding.py:277-295, part of AWSOnboardingService.validate_connection.
    The second transaction; [failure] is the reason of the failure, if any. *)
Definition validation_end (now : timestamp) (token account_id : uuid) (actor : User)
    (failure : option string) : txn DB AWSAccount :=
  account ← _finish_validation account_id actor token;
  let account := validated now failure account in
  _ ← (if failure is Some _
       then audit_account "aws.account.validation_failed" account actor AuditResult.FAILED
       else audit_account "aws.account.validation_succeeded" account actor AuditResult.SUCCEEDED);
  _commit_account account.

(** What the service's [except] clause makes of the answer: any other exception
    leaves the validation unfinished. *)
Definition failure_of (answer : () + fault) : fault + option string :=
  match answer with
  | inl _ => inr None
  | inr (AWSConnectionFailure reason) => inr (Some reason)
  | inr e => inl e
  end.

(** services/aws_onboarding.py:258-295, AWSOnboardingService.validate_connection. *)
Definition validate_connection `{AwsApi W} (settings : AwsSettings) (now now' : timestamp)
    (token account_id : uuid) (actor : User) (d : DB) (w : W * list entry)
    : (outcome AWSAccount + fault) * DB * (W * list entry) :=
  match run (validation_begin now token account_id actor) d with
  | (Raise e, d) => (inl (Raise e), d, w)
  | (Ret account, d) =>
      let '(answer, w) := probe settings now account w in
      match failure_of answer with
      | inl e => (inr e, d, w)
      | inr failure =>
          let '(o, d) := run (validation_end now' token account_id actor failure) d in
          (inl o, d, w)
      end
  end.

(** services/aws_onboarding.py:303-306, part of AWSOnboardingService.disconnect_account. *)
Definition disconnected (a : AWSAccount) : AWSAccount :=
  _supersede_validation (a
    <| Acc.status := AWSAccountStatus.DISCONNECTED |>
    <| Acc.connection_status := AWSAccountStatus.DISCONNECTED |>
    <| Acc.failure_reason := None |>).

(** services/aws_onboarding.py:297-309, AWSOnboardingService.disconnect_account. *)
Definition disconnect_account (account_id : uuid) (actor : User) : txn DB AWSAccount :=
  account ← manage account_id actor;
  if Acc.connection_status account ≟ AWSAccountStatus.DISCONNECTED then
    _ ← commit; mret account
  else
    let account := disconnected account in
    _ ← audit_account "aws.account.disconnected" account actor AuditResult.SUCCEEDED;
    _commit_account account.

Definition reservation_missing : exn := AppError "external_id_reservation_missing" 500.

(** services/aws_onboarding.py:320-321, part of AWSOnboardingService.delete_account. *)
Definition retired (now : timestamp) (r : Reservation) : Reservation :=
  r <| Rsv.aws_account_id := None |> <| Rsv.retired_at := Some now |>.

(** services/aws_onboarding.py:311-325, AWSOnboardingService.delete_account.  The
    rows that refer to the account are not part of the step. *)
Definition delete_account (now : timestamp) (account_id : uuid) (actor : User) : txn DB () :=
  account ← manage account_id actor;
  reservation ← gets (external_id_reservation_for_account (Acc.id account));
  reservation ← some_or reservation reservation_missing;
  _ ← audit_account "aws.account.deleted" (_supersede_validation account) actor
        AuditResult.SUCCEEDED;
  _ ← save false (retired now reservation);
  _ ← erase account;
  commit.

(** services/aws_onboarding.py:371-380, AWSOnboardingService.onboarding_instructions. *)
Definition onboarding_instructions : list string :=
  ["Create an IAM role named CloudOpsReadOnlyRole in the target AWS account.";
   "Apply the displayed trust policy exactly, including the generated external ID.";
   "Attach the AWS managed SecurityAudit policy.";
   "Copy the role ARN into CloudOps and validate the connection.";
   "CloudOps will call STS AssumeRole and GetCallerIdentity only during Stage 2 validation."].

(** * The endpoints *)

Module Onboarding.
(** schemas/aws_account.py:93-98, AWSAccountOnboardingResponse. *)
Record Onboarding := mk {
  account : AWSAccount;
  external_id : string;
  trust_policy : pyval;
  permission_policy : list (string * string);
  onboarding_instructions : list string
}.
End Onboarding.

Section endpoints.
Context (trusted_principal_arn trusted_principal_arns : string).

(** api/v1/aws_accounts.py:39-48, _onboarding. *)
Definition _onboarding (account : AWSAccount) : res Onboarding.Onboarding :=
  policy ← trust_policy trusted_principal_arn trusted_principal_arns account;
  mret (Onboarding.mk account (Acc.external_id account) policy permission_policy
          onboarding_instructions).

(** api/v1/aws_accounts.py:75-87, create_account. *)
Definition create_account_endpoint (id : uuid) (now : timestamp) (draws : list (uuid * string))
    (organization_id : uuid) (actor : User) (name account_id : string)
    : txn DB Onboarding.Onboarding :=
  account ← create_account (_trusted_principals trusted_principal_arn trusted_principal_arns)
              id now draws organization_id actor name account_id;
  of_res (_onboarding account).

(** api/v1/aws_accounts.py:111-119, get_onboarding_material. *)
Definition get_onboarding_material (account_id : uuid) (actor : User) : txn DB Onboarding.Onboarding :=
  account ← get_onboarding_account account_id actor;
  of_res (_onboarding account).
End endpoints.

Module TrustStatus.
(** schemas/aws_account.py:61-67, RemediationAdministrationStatus. *)
Record TrustStatus := mk {
  account_id : uuid;
  remediation_trust_configured : bool;
  remediation_role_arn_masked : option string;
  sandbox_approved : bool;
  sandbox_approved_at : option timestamp;
  sandbox_approved_by_user_id : option uuid
}.
End TrustStatus.

(** api/v1/aws_accounts.py:51-63, _remediation_status. *)
Definition _remediation_status (a : AWSAccount) : TrustStatus.TrustStatus :=
  TrustStatus.mk (Acc.id a) (trusted a) (masked_role_arn (Acc.remediation_role_arn a))
    (Acc.sandbox_approved a) (Acc.sandbox_approved_at a) (Acc.sandbox_approved_by_user_id a).

(** api/v1/aws_accounts.py:66-72, _one_time_trust. *)
Definition _one_time_trust (a : AWSAccount) (external_id : option string)
    : TrustStatus.TrustStatus * option string := (_remediation_status a, external_id).

(** api/v1/aws_accounts.py:173-186, configure_remediation_trust. *)
Definition configure_remediation_trust (draws : list string) (account_id : uuid) (actor : User)
    (arn : string) : txn DB (TrustStatus.TrustStatus * option string) :=
  '(a, external_id) ← configure_trust draws account_id actor arn;
  mret (_one_time_trust a external_id).

(** api/v1/aws_accounts.py:189-202, rotate_remediation_external_id. *)
Definition rotate_remediation_external_id (draws : list string) (account_id : uuid) (actor : User)
    : txn DB (TrustStatus.TrustStatus * option string) :=
  '(a, external_id) ← rotate_external_id draws account_id actor;
  mret (_one_time_trust a (Some external_id)).

(** * Rules *)

(** An account keeps what it is registered as. *)
Definition same_account (a a' : AWSAccount) : Prop :=
  Acc.id a' = Acc.id a ∧ Acc.organization_id a' = Acc.organization_id a
  ∧ Acc.account_id a' = Acc.account_id a ∧ Acc.external_id a' = Acc.external_id a.

(** One account was changed, in a way that satisfies [P]. *)
Definition changed (P : AWSAccount → AWSAccount → Prop) (d d' : DB) : Prop :=
  DB.reservations d' = DB.reservations d
  ∧ (DB.aws_accounts d' = DB.aws_accounts d
     ∨ ∃ k a a', DB.aws_accounts d !! k = Some a ∧ same_account a a' ∧ P a a'
         ∧ account_checks a' = true
         ∧ unique_ok false account_conflict a' (DB.aws_accounts d) = true
         ∧ DB.aws_accounts d' = put a' (DB.aws_accounts d)).

Lemma unchanged P d : changed P d d.
Proof. split; [done|by left]. Qed.

Lemma changed_put (P : AWSAccount → AWSAccount → Prop) a a' k d d' :
  DB.aws_accounts d !! k = Some a → same_account a a' → P a a' → account_checks a' = true →
  unique_ok false account_conflict a' (DB.aws_accounts d) = true →
  DB.reservations d' = DB.reservations d → DB.aws_accounts d' = put a' (DB.aws_accounts d) →
  changed P d d'.
Proof. intros ????? ? ?. split; [done|]. right. by exists k, a, a'. Qed.

Section rules.
Implicit Types (d : DB) (a : AWSAccount) (σ : sess DB).

Lemma wp_require_onboarding i u c Q σ :
  (∀ a, DB.aws_accounts (working σ) !! i = Some a → Q (Ret a) σ) →
  (∀ e, e ≠ reservation_missing → Q (Raise e) σ) →
  wp (require_account i u c) Q σ.
Proof.
  intros H1 H2. unfold require_account. wp_go; [|by apply H2..].
  match goal with H : aws_account_for_user _ _ _ = Some ?x |- _ => destruct x as [a m];
    apply aws_account_for_user_Some in H as [H _]; by apply H1 end.
Qed.

Lemma wp_audit_account e a u r Q σ :
  (∀ f, Q (Ret tt) (Sess (committed σ) ((working σ) <| DB.audit ::= f |>))) →
  wp (audit_account e a u r) Q σ.
Proof. intros HQ. unfold audit_account, record_audit. wp_go. by apply (HQ _). Qed.

Lemma wp_checked_role a arn Q σ :
  (∀ v, Q (Ret v) σ) → (∀ e, Q (Raise e) σ) → wp (checked_role a arn) Q σ.
Proof. intros H1 H2. unfold checked_role. wp_go; auto. Qed.

Lemma wp_store a Q σ :
  (account_checks a = true →
   unique_ok false account_conflict a (DB.aws_accounts (working σ)) = true →
   let d := set_rows AWSAccount (put a) (working σ) in Q (Ret a) (Sess d d)) →
  (∀ e, Q (Raise e) (Sess (committed σ) (committed σ))) →
  wp (_commit_account a) Q σ.
Proof.
  intros H1 H2. unfold _commit_account. apply wp_bind, wp_try, wp_bind, wp_save.
  - intros Hc Hu. wp_go. by apply H1.
  - intros _. by wp_go.
Qed.

Lemma wp_admin_store a Q σ :
  (account_checks a = true →
   unique_ok false account_conflict a (DB.aws_accounts (working σ)) = true →
   let d := set_rows AWSAccount (put a) (working σ) in Q (Ret a) (Sess d d)) →
  (∀ e, Q (Raise e) (Sess (committed σ) (committed σ))) →
  wp (_commit a) Q σ.
Proof.
  intros H1 H2. unfold _commit. change (save_account false a) with (save false a).
  apply wp_bind, wp_try, wp_bind, wp_save.
  - intros Hc Hu. wp_go. by apply H1.
  - intros _. by wp_go.
Qed.
End rules.

Ltac wp_call ::=
  lazymatch goal with
  | |- wp (require_capability _ _ _) _ _ => apply wp_require_capability; intros
  | |- wp (manage _ _) _ _ => apply wp_require_onboarding; intros
  | |- wp (audit_account _ _ _ _) _ _ => apply wp_audit_account; intros ?
  | |- wp (checked_role _ _) _ _ => apply wp_checked_role; intros
  | |- wp (_commit_account _) _ _ => apply wp_store; intros; cbv zeta
  | |- wp (_require_account _ _) _ _ => apply wp_require_account; intros
  | |- wp (_new_external_id _) _ _ => apply wp_new_external_id; intros
  | |- wp (audit_ok _ _ _ _ _) _ _ => apply wp_audit_ok
  | |- wp (_commit _) _ _ => apply wp_admin_store; intros; cbv zeta
  | |- wp (save _ _) _ _ => apply wp_save; intros
  end.

(** * What the operations do to the accounts *)

(** Whatever keeps a validation token keeps the role, and nothing becomes
    connected. *)
Record upkeep (a a' : AWSAccount) : Prop := {
  uk_token : Acc.validation_token a' = None
    ∨ Acc.validation_token a' = Acc.validation_token a ∧ Acc.role_arn a' = Acc.role_arn a;
  uk_connected : Acc.connection_status a' = AWSAccountStatus.CONNECTED →
    Acc.connection_status a = AWSAccountStatus.CONNECTED ∧ Acc.role_arn a' = Acc.role_arn a
}.

Ltac stored :=
  match goal with
  | H : account_checks ?x = true |- _ => eapply (changed_put _ _ x)
  | H : checks (R:=AWSAccount) ?x = true |- _ => eapply (changed_put _ _ x)
  end; [eassumption|by repeat split| |assumption|assumption|done|done].
Ltac upkept := cbn; first [by (split; [by left|]) | split; cbn; auto].

Section accounts.
Implicit Types (d : DB) (a : AWSAccount).

Lemma update_role_changes i u arn d : changed upkeep d (run (update_role i u arn) d).2.
Proof.
  apply (wp_run _ (λ _ d', changed upkeep d d')). unfold update_role.
  wp_go; try apply unchanged. stored; upkept.
Qed.

Lemma update_account_changes i u name role d :
  changed upkeep d (run (update_account i u name role) d).2.
Proof.
  apply (wp_run _ (λ _ d', changed upkeep d d')). unfold update_account.
  destruct name, role; cbn [is_some_];
  wp_go; try apply unchanged; stored; upkept.
Qed.

Lemma disconnect_changes i u d : changed upkeep d (run (disconnect_account i u) d).2.
Proof.
  apply (wp_run _ (λ _ d', changed upkeep d d')). unfold disconnect_account.
  wp_go; try apply unchanged; try by stored; upkept.
Qed.

Lemma onboarding_material_changes arn arns i u d :
  changed upkeep d (run (get_onboarding_material arn arns i u) d).2.
Proof.
  apply (wp_run _ (λ _ d', changed upkeep d d')).
  unfold get_onboarding_material, get_onboarding_account. wp_go; split; by try left.
Qed.

Lemma validation_begin_spec now token i u d :
  match run (validation_begin now token i u) d with
  | (Ret a', d') => ∃ a, DB.aws_accounts d !! i = Some a ∧ a' = started now token a
      ∧ is_Some (Acc.role_arn a) ∧ Acc.validation_token a = None
      ∧ changed (λ _ _, True) d d' ∧ DB.aws_accounts d' = put a' (DB.aws_accounts d)
  | (Raise e, d') => d' = d
  end.
Proof.
  apply run_cases. unfold validation_begin. wp_go; try done. exists a.
  split_and!; [done|done| | | |done].
  - by destruct (Acc.role_arn a).
  - by destruct (Acc.validation_token a).
  - by stored.
Qed.

(** The second transaction: only for the validation that the account waits for. *)
Lemma validation_end_spec now token i u failure d :
  match run (validation_end now token i u failure) d with
  | (Ret a', d') => ∃ a, DB.aws_accounts d !! i = Some a
      ∧ Acc.validation_token a = Some token ∧ a' = validated now failure (_supersede_validation a)
      ∧ changed (λ _ _, True) d d' ∧ DB.aws_accounts d' = put a' (DB.aws_accounts d)
  | (Raise e, d') => d' = d
  end.
Proof.
  apply run_cases. unfold validation_end, _finish_validation. destruct failure; wp_go; try done.
  all: bools; eexists; split_and!; [eassumption|done|done| |done].
  all: by stored.
Qed.

Lemma administer_changes op d : changed upkeep d (administer op d).
Proof.
  assert (∀ {A} (m : txn DB A), wp m (λ _ s', changed upkeep d (committed s')) (Sess d d) →
    changed upkeep d (run m d).2) as Hrun.
  { intros A m Hm. by apply (wp_run m (λ _ d', changed upkeep d d')). }
  destruct op; cbn [administer]; apply Hrun; clear Hrun;
    unfold configure_trust, rotate_external_id, clear_trust, grant_sandbox_approval,
      revoke_sandbox_approval, _audit;
    wp_go; try apply unchanged; stored; upkept.
Qed.
End accounts.

(** * Registration and deletion *)

(** The new account and its reservation are in the database. *)
Record registered (a : AWSAccount) (r : Reservation) (d d' : DB) : Prop := {
  rg_account : account_checks a = true
    ∧ unique_ok true account_conflict a (DB.aws_accounts d) = true
    ∧ DB.aws_accounts d' = put a (DB.aws_accounts d);
  rg_reservation : unique_ok true reservation_conflict r (DB.reservations d) = true
    ∧ DB.reservations d' = put r (DB.reservations d);
  rg_link : Rsv.aws_account_id r = Some (Acc.id a) ∧ Rsv.external_id r = Acc.external_id a
    ∧ Rsv.organization_id r = Acc.organization_id a ∧ Rsv.retired_at r = None;
  rg_pending : Acc.validation_token a = None ∧ Acc.connection_status a = AWSAccountStatus.PENDING
    ∧ Acc.role_arn a = None
}.

Section registration.
Implicit Types (d : DB) (σ : sess DB).

Lemma wp_reserve now org draws Q σ :
  (∀ k e, let r := Rsv.mk k e None org now None in
     unique_ok true reservation_conflict r (DB.reservations (working σ)) = true →
     Q (Ret r) (Sess (committed σ) (set_rows Reservation (put r) (working σ)))) →
  (∀ e, Q (Raise e) σ) →
  wp (_reserve_external_id now org draws) Q σ.
Proof.
  intros H1 H2. unfold _reserve_external_id. generalize (take 10 draws). clear draws. intros l.
  induction l as [|[k e] l IH]; [apply wp_raise, H2|]. cbn [reserve_go].
  apply wp_bind, wp_try, wp_bind, wp_begin_nested, wp_save.
  - intros _ Hu. apply wp_ret, wp_ret. by apply H1.
  - intros _. apply wp_ret. exact IH.
Qed.

(** The link of a reservation, after that of its external id. *)
Lemma linked_unique r k t :
  unique_ok true reservation_conflict r t = true →
  unique_ok false reservation_conflict (r <| Rsv.aws_account_id := k |>) (put r t) = true →
  unique_ok true reservation_conflict (r <| Rsv.aws_account_id := k |>) t = true.
Proof.
  intros [Hn _]%unique_ok_true [_ H2]%unique_ok_true. specialize (Hn eq_refl).
  apply unique_ok_true. split; [done|]. intros k' r' Hk' Hne. apply (H2 k'); [|done].
  unfold put. rewrite lookup_insert_ne; [done|]. intros <-. congruence.
Qed.

Lemma create_account_spec principals id now draws org u name number d :
  match run (create_account principals id now draws org u name number) d with
  | (Ret a, d') => (∃ l, principals = inl l) ∧ Acc.id a = id ∧ Acc.organization_id a = org
      ∧ validate_account_id number = inl (Acc.account_id a) ∧ ∃ r, registered a r d d'
  | (Raise e, d') => d' = d
  end.
Proof.
  apply run_cases. unfold create_account. wp_go; try done.
  apply wp_reserve; [|done]. intros k e r Hr. wp_go; try done.
  split_and!; [by eexists|done..|].
  exists (r <| Rsv.aws_account_id := Some id |>). split; [done| |done|done].
  split; [|by apply put_put].
  by apply linked_unique.
Qed.

Lemma external_id_reservation_Some k d r :
  external_id_reservation_for_account k d = Some r →
  ∃ j, DB.reservations d !! j = Some r ∧ Rsv.aws_account_id r = Some k.
Proof. intros (j & ? & ?)%find_row_Some. bools. eauto. Qed.

Lemma delete_account_spec now i u d :
  match run (delete_account now i u) d with
  | (Ret _, d') => ∃ a r j, DB.aws_accounts d !! i = Some a
      ∧ DB.reservations d !! j = Some r ∧ Rsv.aws_account_id r = Some (Acc.id a)
      ∧ unique_ok false reservation_conflict (retired now r) (DB.reservations d) = true
      ∧ DB.reservations d' = put (retired now r) (DB.reservations d)
      ∧ DB.aws_accounts d' = delete (Acc.id a) (DB.aws_accounts d)
  | (Raise e, d') => d' = d ∧ (e = reservation_missing →
      ∃ a, DB.aws_accounts d !! i = Some a ∧ external_id_reservation_for_account (Acc.id a) d = None)
  end.
Proof.
  apply run_cases. unfold delete_account. wp_go; try by (split; [|intros [=]]).
  - unfold erase. wp_go. edestruct external_id_reservation_Some as (j & Hj & Hl); [eassumption|].
    eexists _, _, j. split_and!; [eassumption|exact Hj|exact Hl|done..].
  - split; [done|]. eauto.
Qed.
End registration.

(** * The external ids *)

(** Every account is linked to the reservation of its external id; a reservation
    is linked to an account that exists, or retired. *)
Record onboarded (d : DB) : Prop := {
  ob_accounts : sound AWSAccount d;
  ob_reservations : sound Reservation d;
  ob_linked k a : DB.aws_accounts d !! k = Some a →
    ∃ j r, DB.reservations d !! j = Some r ∧ Rsv.aws_account_id r = Some k
      ∧ Rsv.external_id r = Acc.external_id a ∧ Rsv.organization_id r = Acc.organization_id a;
  ob_live j r : DB.reservations d !! j = Some r →
    match Rsv.aws_account_id r with
    | Some k => Rsv.retired_at r = None ∧ is_Some (DB.aws_accounts d !! k)
    | None => is_Some (Rsv.retired_at r)
    end
}.

(** A later form of a reservation: it is retired once, for good. *)
Record outlives (r r' : Reservation) : Prop := {
  ol_same : Rsv.id r' = Rsv.id r ∧ Rsv.external_id r' = Rsv.external_id r
    ∧ Rsv.organization_id r' = Rsv.organization_id r ∧ Rsv.issued_at r' = Rsv.issued_at r;
  ol_link : r' = r ∨ Rsv.aws_account_id r' = None;
  ol_retired : is_Some (Rsv.retired_at r) → r' = r
}.
#[export] Instance outlives_preorder : PreOrder outlives.
Proof.
  split.
  - intros r. split; [done|by left|done].
  - intros r1 r2 r3 [S1 L1 R1] [S2 L2 R2]. split.
    + intuition congruence.
    + destruct L2 as [->|]; [done|by right].
    + intros H. rewrite (R1 H) in *. by apply R2.
Qed.

Definition issued (d d' : DB) : Prop := onboarded d' ∧ advances DB.reservations outlives d d'.

Section ids.
Implicit Types (d : DB) (a : AWSAccount) (r : Reservation).

Lemma account_id_of d k a : sound AWSAccount d → DB.aws_accounts d !! k = Some a → Acc.id a = k.
Proof. intros Hs Hk. exact (tk_keyed _ _ _ _ Hs _ _ Hk). Qed.
Lemma reservation_id_of d k r : sound Reservation d → DB.reservations d !! k = Some r → Rsv.id r = k.
Proof. intros Hs Hk. exact (tk_keyed _ _ _ _ Hs _ _ Hk). Qed.

Lemma advances_same d d' : DB.reservations d' = DB.reservations d →
  advances DB.reservations outlives d d'.
Proof. intros E k r Hk. exists r. by rewrite E. Qed.

Lemma onboarded_same d d' :
  DB.aws_accounts d' = DB.aws_accounts d → DB.reservations d' = DB.reservations d →
  onboarded d → onboarded d'.
Proof.
  intros Ea Er [Ha Hr Hl Hv]. split.
  - by eapply (sound_rows AWSAccount d).
  - by eapply (sound_rows Reservation d).
  - rewrite Ea, Er. exact Hl.
  - rewrite Ea, Er. exact Hv.
Qed.

Lemma changed_issued P d d' : onboarded d → changed P d d' → issued d d'.
Proof.
  intros Ho [Er [Ea|(k & a & a' & Hk & (Ei & Eo & _ & Ee) & _ & Hc & Hu & Ea)]];
    (split; [|by apply advances_same]); [by eapply onboarded_same|].
  pose proof (account_id_of _ _ _ (ob_accounts _ Ho) Hk) as Ek.
  assert (row_id a' = k) as Hid by (by change (Acc.id a' = k); congruence).
  split; rewrite ?Er, ?Ea; unfold put; rewrite ?Hid.
  - apply (sound_rows AWSAccount (set_rows AWSAccount (put a') d)); [exact Ea|].
    eapply sound_set; [apply Ho|done|exact Hu].
  - by eapply (sound_rows Reservation d), Ho.
  - intros k1 a1. rewrite lookup_insert. case_decide as E; [|apply (ob_linked _ Ho)].
    intros [= <-]. subst k1. rewrite Ee, Eo. by apply (ob_linked _ Ho).
  - intros j r Hj. pose proof (ob_live _ Ho _ _ Hj) as H. destruct (Rsv.aws_account_id r); [|done].
    destruct H as [Ht H]. split; [done|]. rewrite lookup_insert. by case_decide.
Qed.

Lemma registered_issued a r d d' : onboarded d → registered a r d d' → issued d d'.
Proof.
  intros Ho [(Hc & Hu & Ea) (Hru & Er) (Hl & He & Hog & Hrt) _].
  pose proof Hu as [Hn _]%unique_ok_true. specialize (Hn eq_refl).
  pose proof Hru as [Hrn _]%unique_ok_true. specialize (Hrn eq_refl).
  split.
  - split.
    + apply (sound_rows AWSAccount (set_rows AWSAccount (put a) d)); [exact Ea|].
      eapply sound_set; [apply Ho|done|exact Hu].
    + apply (sound_rows Reservation (set_rows Reservation (put r) d)); [exact Er|].
      eapply sound_set; [apply Ho|done|exact Hru].
    + intros k a1. rewrite Ea, Er. unfold put at 1. rewrite lookup_insert. case_decide as E.
      * intros [= <-]. exists (row_id r), r. split; [apply lookup_insert_eq|]. by rewrite Hl, <-E.
      * intros Hk. destruct (ob_linked _ Ho _ _ Hk) as (j & r1 & Hj & H1).
        exists j, r1. split; [|done]. unfold put. rewrite lookup_insert_ne; [done|].
        intros <-. congruence.
    + intros j r1. rewrite Ea, Er. unfold put at 1. rewrite lookup_insert. case_decide as E.
      * intros [= <-]. rewrite Hl. split; [done|]. unfold put. by rewrite lookup_insert_eq.
      * intros Hj. pose proof (ob_live _ Ho _ _ Hj) as H. destruct (Rsv.aws_account_id r1); [|done].
        destruct H as [Ht H]. split; [done|]. unfold put. rewrite lookup_insert. by case_decide.
  - intros k r1 Hk. exists r1. split; [|done]. rewrite Er. unfold put.
    rewrite lookup_insert_ne; [done|]. intros <-. congruence.
Qed.

(** An account has one reservation. *)
Lemma one_reservation d j j' r r' k :
  onboarded d → DB.reservations d !! j = Some r → DB.reservations d !! j' = Some r' →
  Rsv.aws_account_id r = Some k ∧ Rsv.aws_account_id r' = Some k ∨ Rsv.external_id r = Rsv.external_id r' →
  j = j'.
Proof.
  intros Ho Hj Hj' Heq. destruct (decide (j = j')) as [|Hne]; [done|].
  pose proof (tk_unique _ _ _ _ (ob_reservations _ Ho) _ _ _ _ Hj Hj' Hne) as Hc.
  cbn in Hc. unfold reservation_conflict in Hc. apply orb_false_iff in Hc as [Hx Hl].
  rewrite bool_decide_eq_false in Hx. destruct Heq as [[E E']|]; [|done].
  rewrite E, E' in Hl. cbn in Hl. by rewrite bool_decide_eq_false in Hl.
Qed.

Lemma deleted_issued now a r i j d d' :
  onboarded d → DB.aws_accounts d !! i = Some a → DB.reservations d !! j = Some r →
  Rsv.aws_account_id r = Some (Acc.id a) →
  unique_ok false reservation_conflict (retired now r) (DB.reservations d) = true →
  DB.reservations d' = put (retired now r) (DB.reservations d) →
  DB.aws_accounts d' = delete (Acc.id a) (DB.aws_accounts d) → issued d d'.
Proof.
  intros Ho Hi Hj Hl Hu Er Ea. pose proof (account_id_of _ _ _ (ob_accounts _ Ho) Hi) as Ei.
  pose proof (reservation_id_of _ _ _ (ob_reservations _ Ho) Hj) as Ej.
  assert (row_id (retired now r) = j) as Hid by exact Ej. split.
  - split.
    + destruct (ob_accounts _ Ho) as [Hk Hx Hr]. split; cbn [rows accounts_table]; rewrite Ea.
      * intros k a1 [_ H]%lookup_delete_Some. by apply Hk.
      * intros k k' a1 a2 [_ H1]%lookup_delete_Some [_ H2]%lookup_delete_Some. by apply Hx.
      * intros k a1 [_ H]%lookup_delete_Some. by eapply Hr.
    + apply (sound_rows Reservation (set_rows Reservation (put (retired now r)) d)); [exact Er|].
      eapply sound_set; [apply Ho|done|exact Hu].
    + intros k a1. rewrite Ea, Er. intros [Hne Hk]%lookup_delete_Some.
      destruct (ob_linked _ Ho _ _ Hk) as (j1 & r1 & Hj1 & H1). exists j1, r1. split; [|done].
      unfold put. rewrite Hid, lookup_insert_ne; [done|]. intros <-.
      destruct H1 as [H1 _]. congruence.
    + intros j1 r1. rewrite Ea, Er. unfold put. rewrite Hid, lookup_insert. case_decide as E.
      * intros [= <-]. cbn. by eexists.
      * intros Hj1. pose proof (ob_live _ Ho _ _ Hj1) as H.
        destruct (Rsv.aws_account_id r1) as [k|] eqn:E1; [|done]. destruct H as [Ht H].
        split; [done|]. rewrite lookup_delete_ne; [done|]. intros <-. apply E.
        eapply one_reservation; [done|exact Hj|exact Hj1|by left].
  - intros k r1 Hk. rewrite Er. unfold put. rewrite Hid, lookup_insert. case_decide as E.
    + subst k. assert (r1 = r) as -> by congruence. eexists. split; [done|].
      split; [done|by right|]. intros [t Ht]. pose proof (ob_live _ Ho _ _ Hj) as H.
      rewrite Hl in H. destruct H as [H _]. congruence.
    + by exists r1.
Qed.
End ids.

(** * What a validation asks of AWS *)

(** The keys of [c] are those of the answer [r]. *)
Definition keys_of (r : response) (c : Credentials) : Prop :=
  ∃ raw key secret token, dget "Credentials" (body r) = Some raw
    ∧ item "AccessKeyId" raw = inl key ∧ item "SecretAccessKey" raw = inl secret
    ∧ item "SessionToken" raw = inl token
    ∧ access_key_id c = py_str key ∧ secret_access_key c = py_str secret
    ∧ session_token c = py_str token.

(** AWS let CloudOps assume the account's role with its external id, and said
    that the keys it gave for it are those of the AWS account. *)
Definition confirmed (a : AWSAccount) (l : list entry) : Prop :=
  ∃ role name duration r c identity owner, Acc.role_arn a = Some role
    ∧ (AssumeRole role name (Acc.external_id a) duration, inl r) ∈ l ∧ keys_of r c
    ∧ (GetCallerIdentity c, inl identity) ∈ l
    ∧ dget "Account" (body identity) = Some owner ∧ py_str owner = Acc.account_id a.

Lemma item_inl k d v : item k (PDict d) = inl v → dget k d = Some v.
Proof. cbn. destruct (dget k d); [|done]. by intros [= ->]. Qed.

Section probes.
Context `{AwsApi W} (settings : AwsSettings) (now : timestamp).

Lemma awp_probe (a : AWSAccount) w l :
  awp (probe settings now a) (λ r _ l', l ⊆ l' ∧ (r = inl tt → confirmed a l')) w l.
Proof.
  unfold probe, assume_role, validate_account, _current_credentials, _assume_and_verify, assume.
  repeat awp_step. all: try (split; [set_solver|]; intros [=]).
  repeat match goal with H : item _ (PDict _) = inl _ |- _ => apply item_inl in H end.
  match goal with H : String.eqb (py_str _) _ = true |- _ => apply String.eqb_eq in H end.
  eexists _, _, _, _, _, _, _. split_and!; [done| | | |eassumption|done].
  3: apply elem_of_app; right; by apply list_elem_of_singleton.
  - apply elem_of_app. left. apply elem_of_app. right. by apply list_elem_of_singleton.
  - eexists _, _, _, _. split_and!; [eassumption..|done|done|done].
Qed.

Lemma probe_spec (a : AWSAccount) w l r w' l' :
  probe settings now a (w, l) = (r, (w', l')) → l ⊆ l' ∧ (r = inl tt → confirmed a l').
Proof. intros E. pose proof (awp_elim _ _ _ _ (awp_probe a w l)) as H0. by rewrite E in H0. Qed.
End probes.

(** * Histories

    Requests in any order, with validations that are under way.  A validation
    holds the account as its first transaction left it, and what came of its
    calls once they were made; [calls] are all calls of AWS so far. *)

Record validation := mk_validation {
  begun : AWSAccount;
  outcome_of : option (option string)
}.

Record state := mk_state { db : DB; running : list validation; calls : list entry }.

(** No validation, under way or lost, has the token: uuid4 does not repeat. *)
Definition unused (token : uuid) (s : state) : Prop :=
  Forall (λ v, Acc.validation_token (begun v) ≠ Some token) (running s)
  ∧ ∀ k a, DB.aws_accounts (db s) !! k = Some a → Acc.validation_token a ≠ Some token.

(** Requests that do not concern a validation under way. *)
Inductive request :=
| Create (id : uuid) (now : timestamp) (draws : list (uuid * string)) (organization_id : uuid)
    (actor : User) (name account_id : string)
| Update (account_id : uuid) (actor : User) (name role_arn : option string)
| UpdateRole (account_id : uuid) (actor : User) (role_arn : string)
| Material (account_id : uuid) (actor : User)
| Disconnect (account_id : uuid) (actor : User)
| Delete (now : timestamp) (account_id : uuid) (actor : User)
| Administer (op : admin_op).

Section histories.
Context (settings : AwsSettings) (trusted_principal_arn trusted_principal_arns : string).

Definition perform_request (r : request) (d : DB) : DB :=
  match r with
  | Create id now draws org u name number =>
      (run (create_account_endpoint trusted_principal_arn trusted_principal_arns id now draws org u
              name number) d).2
  | Update i u name role => (run (update_account i u name role) d).2
  | UpdateRole i u arn => (run (update_role i u arn) d).2
  | Material i u =>
      (run (get_onboarding_material trusted_principal_arn trusted_principal_arns i u) d).2
  | Disconnect i u => (run (disconnect_account i u) d).2
  | Delete now i u => (run (delete_account now i u) d).2
  | Administer op => administer op d
  end.

Inductive onboarding_step : state → state → Prop :=
| ob_request r d q l :
    onboarding_step (mk_state d q l) (mk_state (perform_request r d) q l)
| ob_begin now token i u a d d' q l :
    unused token (mk_state d q l) → run (validation_begin now token i u) d = (Ret a, d') →
    onboarding_step (mk_state d q l) (mk_state d' (mk_validation a None :: q) l)
| ob_refused now token i u e d d' q l :
    run (validation_begin now token i u) d = (Raise e, d') →
    onboarding_step (mk_state d q l) (mk_state d' q l)
| ob_probe W (api : AwsApi W) now w w' a answer failure d q1 q2 l l' :
    probe settings now a (w, l) = (answer, (w', l')) → failure_of answer = inr failure →
    onboarding_step (mk_state d (q1 ++ mk_validation a None :: q2) l)
      (mk_state d (q1 ++ mk_validation a (Some failure) :: q2) l')
| ob_escaped W (api : AwsApi W) now w w' a answer e d q1 q2 l l' :
    probe settings now a (w, l) = (answer, (w', l')) → failure_of answer = inl e →
    onboarding_step (mk_state d (q1 ++ mk_validation a None :: q2) l) (mk_state d (q1 ++ q2) l')
| ob_end now u a token failure d q1 q2 l :
    Acc.validation_token a = Some token →
    onboarding_step (mk_state d (q1 ++ mk_validation a (Some failure) :: q2) l)
      (mk_state (run (validation_end now token (Acc.id a) u failure) d).2 (q1 ++ q2) l)
| ob_lost v d q1 q2 l :
    onboarding_step (mk_state d (q1 ++ v :: q2) l) (mk_state d (q1 ++ q2) l).
End histories.

(** A validation whose token an account still has is one of this account, and
    of its present role. *)
Definition waits (d : DB) (v : validation) : Prop :=
  ∃ token, Acc.validation_token (begun v) = Some token
    ∧ ∀ k a, DB.aws_accounts d !! k = Some a → Acc.validation_token a = Some token →
        same_account (begun v) a ∧ Acc.role_arn a = Acc.role_arn (begun v).

Record onboarding_ok (s : state) : Prop := {
  oo_ids : onboarded (db s);
  oo_waits : Forall (waits (db s)) (running s);
  oo_answers : Forall (λ v, outcome_of v = Some None → confirmed (begun v) (calls s)) (running s);
  oo_connected k a : DB.aws_accounts (db s) !! k = Some a →
    Acc.connection_status a = AWSAccountStatus.CONNECTED → confirmed a (calls s)
}.

Lemma confirmed_same a a' l l' :
  same_account a a' → Acc.role_arn a' = Acc.role_arn a → l ⊆ l' → confirmed a l → confirmed a' l'.
Proof.
  intros (_ & _ & Ea & Ee) Er Hl (role & name & dur & r & c & r2 & o & H).
  exists role, name, dur, r, c, r2, o. rewrite Er, Ea, Ee. naive_solver.
Qed.
Lemma confirmed_more a l l' : l ⊆ l' → confirmed a l → confirmed a l'.
Proof. intros Hl. by apply confirmed_same. Qed.

Section preservation.
Implicit Types (d : DB) (a : AWSAccount) (v : validation).

(** What is left of the accounts after a request: each is new, or a kept form
    of one that was there. *)
Definition upkeeps d d' : Prop :=
  ∀ k a', DB.aws_accounts d' !! k = Some a' →
    (Acc.validation_token a' = None ∧ Acc.connection_status a' = AWSAccountStatus.PENDING)
    ∨ ∃ a, DB.aws_accounts d !! k = Some a ∧ same_account a a' ∧ upkeep a a'.

Lemma upkept_same a : same_account a a ∧ upkeep a a.
Proof. split; [done|]. split; [by right|done]. Qed.
Lemma upkeeps_same d d' : DB.aws_accounts d' = DB.aws_accounts d → upkeeps d d'.
Proof. intros E k a. rewrite E. intros Hk. right. exists a. split; [done|]. apply upkept_same. Qed.

(** The accounts after a change of one. *)
Lemma changed_lookup P d d' k a' :
  sound AWSAccount d → changed P d d' → DB.aws_accounts d' !! k = Some a' →
  DB.aws_accounts d !! k = Some a'
  ∨ ∃ a, DB.aws_accounts d !! k = Some a ∧ same_account a a' ∧ P a a'.
Proof.
  intros Hs [_ [->|(j & a & a1 & Hj & Hsm & HP & _ & _ & ->)]]; [by left|].
  pose proof (account_id_of _ _ _ Hs Hj) as Ej. unfold put. rewrite lookup_insert.
  change (row_id a1) with (Acc.id a1). case_decide as E; [|by left]. intros [= <-].
  right. exists a. split; [|done]. destruct Hsm as [E' _]. congruence.
Qed.

Lemma changed_upkeeps d d' : sound AWSAccount d → changed upkeep d d' → upkeeps d d'.
Proof.
  intros Hs Hc k a' Hk. right. eapply changed_lookup in Hk as [Hk|Hk]; [|exact Hk|done..].
  exists a'. split; [done|]. apply upkept_same.
Qed.

Lemma registered_upkeeps a r d d' : registered a r d d' → upkeeps d d'.
Proof.
  intros [(_ & _ & E) _ _ (Ht & Hc & _)] k a'. rewrite E. unfold put. rewrite lookup_insert.
  case_decide; [intros [= <-]; by left|]. intros Hk. right. exists a'. split; [done|].
  apply upkept_same.
Qed.

Lemma create_endpoint_db arn arns id now draws org u name number d :
  (run (create_account_endpoint arn arns id now draws org u name number) d).2
  = (run (create_account (_trusted_principals arn arns) id now draws org u name number) d).2.
Proof.
  unfold create_account_endpoint, run, mbind, txn_bind.
  destruct (create_account _ _ _ _ _ _ _ _ _) as [[a|e] σ]; [|done]. by destruct (_onboarding _ _ a).
Qed.

Lemma request_ok arn arns r d :
  onboarded d → issued d (perform_request arn arns r d) ∧ upkeeps d (perform_request arn arns r d).
Proof.
  intros Ho. pose proof (ob_accounts _ Ho) as Hs.
  assert (∀ d', changed upkeep d d' → issued d d' ∧ upkeeps d d') as Hch.
  { intros d' Hc. split; [by eapply changed_issued|by apply changed_upkeeps]. }
  destruct r as [id now draws org u name number| | | | |now i u|]; cbn [perform_request].
  - rewrite create_endpoint_db.
    pose proof (create_account_spec (_trusted_principals arn arns) id now draws org u name number d) as H.
    destruct (run _ d) as [[a|e] d']; cbn [snd]; [|subst; apply Hch, unchanged].
    destruct H as (_ & _ & _ & _ & r & Hr).
    split; [by eapply registered_issued|by eapply registered_upkeeps].
  - apply Hch, update_account_changes.
  - apply Hch, update_role_changes.
  - apply Hch, onboarding_material_changes.
  - apply Hch, disconnect_changes.
  - pose proof (delete_account_spec now i u d) as H.
    destruct (run _ d) as [[a|e] d']; cbn [snd]; [|destruct H as [-> _]; apply Hch, unchanged].
    destruct H as (a1 & r & j & Hi & Hj & Hl & Hu & Er & Ea). split; [by eapply deleted_issued|].
    intros k a'. rewrite Ea. intros [_ Hk]%lookup_delete_Some. right. exists a'.
    split; [done|apply upkept_same].
  - apply Hch, administer_changes.
Qed.

Lemma waits_upkeeps d d' v : upkeeps d d' → waits d v → waits d' v.
Proof.
  intros Hup (t & Ht & Hw). exists t. split; [done|]. intros k a' Hk Ht'.
  destruct (Hup _ _ Hk) as [[E _]|(a & Ha & Hsm & [Htk _])]; [congruence|].
  destruct Htk as [E|[E Er]]; [congruence|]. destruct (Hw k a Ha ltac:(congruence)) as [Hv Hr].
  split; [|congruence]. unfold same_account in *. intuition congruence.
Qed.

Lemma connected_upkeeps d d' l :
  upkeeps d d' →
  (∀ k a, DB.aws_accounts d !! k = Some a → Acc.connection_status a = AWSAccountStatus.CONNECTED →
     confirmed a l) →
  ∀ k a, DB.aws_accounts d' !! k = Some a → Acc.connection_status a = AWSAccountStatus.CONNECTED →
    confirmed a l.
Proof.
  intros Hup Hc k a' Hk Hst. destruct (Hup _ _ Hk) as [[_ E]|(a & Ha & Hsm & [_ Hu])]; [congruence|].
  destruct (Hu Hst) as [Hst' Er]. eapply confirmed_same; [done..|]. by eapply Hc.
Qed.

(** The accounts once one of them is stored again. *)
Lemma put_lookup_cases a a' k k' x t :
  t !! k = Some a → Acc.id a = k → same_account a a' → put a' t !! k' = Some x →
  k' = k ∧ x = a' ∨ t !! k' = Some x.
Proof.
  intros Hk Ei (E & _) . unfold put. rewrite lookup_insert. change (row_id a') with (Acc.id a').
  case_decide; [|by right]. intros [= <-]. left. split; congruence.
Qed.

Lemma begin_ok now token i u a d d' q l :
  onboarding_ok (mk_state d q l) → unused token (mk_state d q l) →
  run (validation_begin now token i u) d = (Ret a, d') →
  issued d d' ∧ onboarding_ok (mk_state d' (mk_validation a None :: q) l).
Proof.
  intros [Ho Hw Ha Hc] [Hq Hd] E. cbn [db running calls] in *.
  pose proof (ob_accounts _ Ho) as Hs.
  pose proof (validation_begin_spec now token i u d) as H. rewrite E in H.
  destruct H as (a0 & Hk & -> & _ & Hn & Hch & Ea).
  pose proof (changed_issued _ _ _ Ho Hch) as Hi. split; [done|].
  pose proof (account_id_of _ _ _ Hs Hk) as Ek.
  assert (∀ k x, DB.aws_accounts d' !! k = Some x →
    k = i ∧ x = started now token a0 ∨ DB.aws_accounts d !! k = Some x) as Hx.
  { intros k x. rewrite Ea. by apply put_lookup_cases with a0. }
  split; cbn [db running calls]; [apply Hi|..].
  - constructor.
    + exists token. split; [done|]. intros k x [[-> ->]|Hk']%Hx Ht; [done|].
      exfalso. by apply (Hd _ _ Hk').
    + rewrite Forall_forall in Hw, Hq |- *. intros v Hv.
      destruct (Hw v Hv) as (t & Ht & H). exists t. split; [done|].
      intros k x [[-> ->]|Hk']%Hx Hxt; [|by apply (H k)]. exfalso. cbn in Hxt.
      apply (Hq v Hv). congruence.
  - by constructor.
  - intros k x [[-> ->]|Hk']%Hx Hst; [|by apply (Hc k)].
    apply (confirmed_same a0 _ l); [done|done|done|]. by apply (Hc i).
Qed.

Lemma end_ok now u a token failure d q1 q2 l :
  onboarding_ok (mk_state d (q1 ++ mk_validation a (Some failure) :: q2) l) →
  Acc.validation_token a = Some token →
  let d' := (run (validation_end now token (Acc.id a) u failure) d).2 in
  issued d d' ∧ onboarding_ok (mk_state d' (q1 ++ q2) l).
Proof.
  intros [Ho Hw Ha Hc] Ht. cbn [db running calls] in *. cbv zeta.
  pose proof (ob_accounts _ Ho) as Hs.
  apply Forall_app in Hw as [Hw1 [(t & Et & Hv) Hw2]%Forall_cons].
  apply Forall_app in Ha as [Ha1 [Hva Ha2]%Forall_cons]. cbn [begun outcome_of] in *.
  assert (t = token) as -> by congruence.
  pose proof (validation_end_spec now token (Acc.id a) u failure d) as H.
  destruct (run _ d) as [[a'|e] d']; cbn [snd].
  2: { subst d'. split; [by eapply (changed_issued (λ _ _, True)), unchanged|].
       split; [done|by apply Forall_app|by apply Forall_app|done]. }
  destruct H as (a0 & Hk & Et0 & -> & Hch & Ea). destruct (Hv _ _ Hk Et0) as [Hsm Er].
  pose proof (changed_issued _ _ _ Ho Hch) as Hi. split; [done|].
  set (a' := validated now failure (_supersede_validation a0)) in *.
  assert (same_account a0 a') as Hsm' by done.
  pose proof (account_id_of _ _ _ Hs Hk) as Ek.
  assert (∀ k x, DB.aws_accounts d' !! k = Some x →
    k = Acc.id a ∧ x = a' ∨ DB.aws_accounts d !! k = Some x) as Hx.
  { intros k x. rewrite Ea. by apply put_lookup_cases with a0. }
  assert (∀ v, waits d v → waits d' v) as Hww.
  { intros v (t & Htv & H). exists t. split; [done|].
    intros k x [[-> ->]|Hk']%Hx Hxt; [discriminate Hxt|by apply (H k)]. }
  split; cbn [db running calls]; [apply Hi| |by apply Forall_app|].
  - apply Forall_app. split; [exact (Forall_impl _ _ _ Hw1 Hww)|exact (Forall_impl _ _ _ Hw2 Hww)].
  - intros k x [[-> ->]|Hk']%Hx Hst; [|by apply (Hc k)].
    destruct failure as [reason|]; [discriminate Hst|].
    apply (confirmed_same a _ l); [|exact Er|done|by apply Hva].
    unfold same_account in *. cbn. intuition congruence.
Qed.
End preservation.

Section steps.
Context (settings : AwsSettings) (arn arns : string).

Lemma issued_refl d : onboarded d → issued d d.
Proof. intros Ho. split; [done|]. by apply advances_same. Qed.

(** A validation may go on, or not. *)
Lemma probed_ok a answer d q1 q2 l l' :
  l ⊆ l' → (answer = Some None → confirmed a l') →
  onboarding_ok (mk_state d (q1 ++ mk_validation a None :: q2) l) →
  onboarding_ok (mk_state d (q1 ++ mk_validation a answer :: q2) l')
  ∧ onboarding_ok (mk_state d (q1 ++ q2) l').
Proof.
  intros Hl Hc [Ho Hw Ha Hcc]. cbn [db running calls] in *.
  apply Forall_app in Hw as [Hw1 [Hx Hw2]%Forall_cons].
  apply Forall_app in Ha as [Ha1 [_ Ha2]%Forall_cons].
  assert (∀ q, Forall (λ v, outcome_of v = Some None → confirmed (begun v) l) q →
    Forall (λ v, outcome_of v = Some None → confirmed (begun v) l') q) as Hq.
  { intros q Hq. eapply Forall_impl; [exact Hq|]. intros v Hv E. by eapply confirmed_more, Hv. }
  split; (split; cbn [db running calls]; [done| | |]).
  - apply Forall_app. split; [done|]. by constructor.
  - apply Forall_app. split; [by apply Hq|]. constructor; [exact Hc|by apply Hq].
  - intros k x Hk Hst. by eapply confirmed_more, Hcc.
  - by apply Forall_app.
  - apply Forall_app. split; by apply Hq.
  - intros k x Hk Hst. by eapply confirmed_more, Hcc.
Qed.

Lemma onboarding_step_ok s s' :
  onboarding_ok s → onboarding_step settings arn arns s s' →
  onboarding_ok s' ∧ issued (db s) (db s').
Proof.
  intros Hok Hst. pose proof (oo_ids _ Hok) as Ho.
  destruct Hst as [r d q l|now token i u a d d' q l Hf E|now token i u e d d' q l E
    |W api now w w' a answer failure d q1 q2 l l' E Ef|W api now w w' a answer e d q1 q2 l l' E Ef
    |now u a token failure d q1 q2 l Ht|v d q1 q2 l]; cbn [db running calls] in *.
  - destruct Hok as [_ Hw Ha Hc]. cbn [db running calls] in *.
    destruct (request_ok arn arns r d Ho) as [Hi Hu]. split; [|done]. split; cbn [db running calls].
    + apply Hi.
    + eapply Forall_impl; [exact Hw|]. intros v. by apply waits_upkeeps.
    + done.
    + by eapply connected_upkeeps.
  - apply and_comm. by eapply begin_ok.
  - pose proof (validation_begin_spec now token i u d) as H. rewrite E in H. subst d'.
    split; [done|by apply issued_refl].
  - apply probe_spec in E as [Hl Hcf]. split; [|by apply issued_refl].
    eapply (proj1 (probed_ok _ _ _ _ _ _ _ Hl _ Hok)). Unshelve. intros [= ->]. apply Hcf.
    destruct answer as [[]|[]]; by try discriminate Ef.
  - apply probe_spec in E as [Hl _]. split; [|by apply issued_refl].
    by eapply (probed_ok a None _ _ _ _ _ Hl).
  - apply and_comm. by apply end_ok.
  - split; [|by apply issued_refl]. destruct Hok as [_ Hw Ha Hc]. cbn [db running calls] in *.
    apply Forall_app in Hw as [Hw1 [_ Hw2]%Forall_cons].
    apply Forall_app in Ha as [Ha1 [_ Ha2]%Forall_cons].
    split; [done|by apply Forall_app|by apply Forall_app|done].
Qed.

Lemma onboarding_history s s' :
  onboarding_ok s → rtc (onboarding_step settings arn arns) s s' →
  onboarding_ok s' ∧ issued (db s) (db s').
Proof.
  intros Hok Hst. induction Hst as [s|s1 s2 s3 H12 H23 IH].
  { split; [done|]. apply issued_refl, Hok. }
  destruct (onboarding_step_ok _ _ Hok H12) as [Hok2 [_ H1]]. destruct (IH Hok2) as [Hok3 [H3 H2]].
  split; [done|]. split; [done|]. intros k r Hk. destruct (H1 _ _ Hk) as (r2 & Hk2 & L2).
  destruct (H2 _ _ Hk2) as (r3 & Hk3 & L3). exists r3. split; [done|]. by etrans.
Qed.
End steps.

(** C7. External ids are never issued twice.  After any history of requests and
    validations, every account is linked to the reservation of its own external
    id, no reservation is lost, and one that was retired never changes again.
    So an external id that an account had at any time is, later, at most that
    same account's, in the same organization; and a deletion never fails for
    want of its reservation. *)
Theorem external_ids_are_never_reissued (settings : AwsSettings) (arn arns : string)
    (s s' : state) :
  onboarding_ok s → rtc (onboarding_step settings arn arns) s s' →
  onboarded (db s') ∧ advances DB.reservations outlives (db s) (db s')
  ∧ (∀ k k' a a', DB.aws_accounts (db s) !! k = Some a → DB.aws_accounts (db s') !! k' = Some a' →
       Acc.external_id a = Acc.external_id a' →
       k = k' ∧ Acc.organization_id a = Acc.organization_id a')
  ∧ ∀ now k u, (run (delete_account now k u) (db s')).1 ≠ Raise reservation_missing.
Proof.
  intros Hok Hst. destruct (onboarding_history _ _ _ _ _ Hok Hst) as [Hok' [Ho' Ha]].
  split; [done|]. split; [done|]. split.
  - intros k k' a a' Hk Hk' E. destruct (ob_linked _ (oo_ids _ Hok) _ _ Hk) as (j & r & Hj & El & Ee & Eo).
    destruct (ob_linked _ Ho' _ _ Hk') as (j' & r' & Hj' & El' & Ee' & Eo').
    destruct (Ha _ _ Hj) as (r2 & Hj2 & [(_ & Se & So & _) Hl _]).
    assert (j = j') as -> by (eapply (one_reservation _ _ _ r2 r' k); [done..|right; congruence]).
    assert (r2 = r') as -> by congruence. destruct Hl as [->|]; split; congruence.
  - intros now k u E. pose proof (delete_account_spec now k u (db s')) as H.
    destruct (run _ (db s')) as [[?|e] d]; [discriminate E|]. cbn in E. injection E as ->.
    destruct H as [_ H]. destruct (H eq_refl) as (a & Hk & Hn).
    pose proof (account_id_of _ _ _ (ob_accounts _ Ho') Hk) as Ek.
    destruct (ob_linked _ Ho' _ _ Hk) as (j & r & Hj & El & _).
    unfold external_id_reservation_for_account in Hn. rewrite find_row_None in Hn.
    specialize (Hn _ _ Hj). cbn in Hn. rewrite Ek, El in Hn.
    by rewrite bool_decide_eq_false in Hn.
Qed.

(** C6. What is connected was confirmed.  After any history, whatever requests
    come between the two transactions of a validation: an account is shown as
    connected only if AWS let CloudOps assume exactly the account's present role
    with its external id, and said that the keys belong to the account's AWS
    account.  The second transaction of a validation changes only the account
    that it was begun for, as long as this waits for it, and that account has
    then the role that was tried; it is refused otherwise. *)
Theorem connected_means_confirmed (settings : AwsSettings) (arn arns : string) (s s' : state) :
  onboarding_ok s → rtc (onboarding_step settings arn arns) s s' →
  (∀ k a, DB.aws_accounts (db s') !! k = Some a →
     Acc.connection_status a = AWSAccountStatus.CONNECTED → confirmed a (calls s'))
  ∧ ∀ v token now u failure, v ∈ running s' → Acc.validation_token (begun v) = Some token →
      match run (validation_end now token (Acc.id (begun v)) u failure) (db s') with
      | (Ret a', d) => ∃ a, DB.aws_accounts (db s') !! Acc.id (begun v) = Some a
          ∧ Acc.validation_token a = Some token
          ∧ same_account (begun v) a ∧ Acc.role_arn a = Acc.role_arn (begun v)
          ∧ a' = validated now failure (_supersede_validation a)
          ∧ DB.aws_accounts d = put a' (DB.aws_accounts (db s'))
      | (Raise e, d) => d = db s'
      end.
Proof.
  intros Hok Hst. destruct (onboarding_history _ _ _ _ _ Hok Hst) as [[_ Hw _ Hc] _].
  split; [exact Hc|]. intros v token now u failure Hv Ht.
  pose proof (validation_end_spec now token (Acc.id (begun v)) u failure (db s')) as H.
  destruct (run _ (db s')) as [[a'|e] d]; [|done].
  destruct H as (a & Hk & Hta & -> & _ & Ea). exists a. rewrite Forall_forall in Hw.
  destruct (Hw v Hv) as (t & Et & Hv'). assert (t = token) as -> by congruence.
  destruct (Hv' _ _ Hk Hta) as [Hsm Er]. by split_and!.
Qed.

(** * Concrete requests *)

Section examples.
Definition principal : string := "arn:aws:iam::111122223333:root".
Definition lab_role : string := "arn:aws:iam::123456789012:role/CloudOpsReadOnlyRole".
Definition register : request :=
  Create 20 (seconds 1) [(21%N, "cloudops-a")] 1 alice "  the   lab " "123456789012".
Definition set_role : request := UpdateRole 20 alice lab_role.
Definition db_registered : DB := perform_request principal "" register acme.
Definition db_with_role : DB := perform_request principal "" set_role db_registered.
Definition db_validating : DB := (run (validation_begin (seconds 2) 22 20 alice) db_with_role).2.
Definition lab_account : AWSAccount :=
  Acc.mk 20 1 "the lab" "123456789012" (Some lab_role) "cloudops-a" None None false None None
    AWSAccountStatus.PENDING AWSAccountStatus.PENDING None None (Some 22%N) (Some (seconds 2)) 2 10.
Definition lab_calls : list entry := (probe role_settings (seconds 3) lab_account (sts_answers, [])).2.2.
Definition db_validated : DB := (run (validation_end (seconds 4) 22 20 alice None) db_validating).2.

Lemma lab_start : onboarding_ok (mk_state acme [] []).
Proof.
  assert (DB.aws_accounts acme = ∅ ∧ DB.reservations acme = ∅) as [Ea Er] by done.
  split; cbn [db running calls]; [split|constructor|constructor|].
  - apply sound_tested. vm_compute. reflexivity.
  - apply sound_tested. vm_compute. reflexivity.
  - intros k a. rewrite Ea. by rewrite lookup_empty.
  - intros k r. rewrite Er. by rewrite lookup_empty.
  - intros k a. rewrite Ea. by rewrite lookup_empty.
Qed.

Lemma lab_unused : unused 22 (mk_state db_with_role [] []).
Proof.
  split; [constructor|]. cbn [db].
  assert (forallb (λ ka, negb (Acc.validation_token ka.2 ≟ Some 22%N))
            (map_to_list (DB.aws_accounts db_with_role)) = true) as H by (vm_compute; reflexivity).
  rewrite forallb_forall in H. intros k a Hk%elem_of_map_to_list%list_elem_of_In%H. by bools.
Qed.

Lemma lab_validating :
  rtc (onboarding_step role_settings principal "") (mk_state acme [] [])
    (mk_state db_validating [mk_validation lab_account (Some None)] lab_calls).
Proof.
  eapply rtc_l; [exact (ob_request _ _ _ register acme [] [])|].
  eapply rtc_l; [exact (ob_request _ _ _ set_role db_registered [] [])|].
  eapply rtc_l.
  { eapply (ob_begin _ _ _ (seconds 2) 22 20 alice lab_account _ db_validating);
      [apply lab_unused|vm_compute; reflexivity]. }
  eapply rtc_l; [|apply rtc_refl].
  eapply (ob_probe _ _ _ script scripted (seconds 3) sts_answers _ lab_account (inl tt) None _ [] []);
    [vm_compute; reflexivity|reflexivity].
Qed.

Lemma lab_validated :
  rtc (onboarding_step role_settings principal "") (mk_state acme [] [])
    (mk_state db_validated [] lab_calls).
Proof.
  eapply rtc_r; [exact lab_validating|].
  exact (ob_end _ _ _ (seconds 4) alice lab_account 22 None db_validating [] [] lab_calls eq_refl).
Qed.

Lemma external_ids_are_never_reissued_witness :
  onboarded db_validated
  ∧ (run (delete_account (seconds 9) 20 alice) db_validated).1 ≠ Raise reservation_missing.
Proof.
  destruct (external_ids_are_never_reissued role_settings principal "" _ _ lab_start lab_validated)
    as (Ho & _ & _ & Hd).
  split; [exact Ho|exact (Hd _ _ _)].
Defined.

Lemma connected_means_confirmed_witness :
  (∃ a, DB.aws_accounts db_validated !! 20%N = Some a ∧ confirmed a lab_calls)
  ∧ ∃ a, (run (validation_end (seconds 4) 22 20 alice None) db_validating).1 = Ret a
      ∧ Acc.role_arn a = Some lab_role.
Proof.
  split.
  - destruct (connected_means_confirmed role_settings principal "" _ _ lab_start lab_validated)
      as [Hc _].
    eexists. split; [vm_compute; reflexivity|]. eapply (Hc 20%N); vm_compute; reflexivity.
  - destruct (connected_means_confirmed role_settings principal "" _ _ lab_start lab_validating)
      as [_ He].
    specialize (He (mk_validation lab_account (Some None)) 22%N (seconds 4) alice None
      ltac:(left) eq_refl).
    cbn [begun db] in He. change (Acc.id lab_account) with 20%N in He.
    assert (∃ a, (run (validation_end (seconds 4) 22 20 alice None) db_validating).1 = Ret a) as [a Ea].
    { eexists. vm_compute. reflexivity. }
    destruct (run _ db_validating) as [[a'|e] d]; [|discriminate Ea].
    destruct He as (a0 & _ & _ & _ & Er & -> & _). eexists. split; [reflexivity|exact Er].
Defined.
End examples.
