(* ===== verification/SecretBox.v ===== *)
(** security/secret_box.py: the tokens that are stored encrypted.

    Bytes are the characters of a string, a text is its own UTF-8 encoding.
    AES-GCM is a parameter with its documented laws; base64 is that of the
    standard library, which skips what is not of its alphabet. *)

From S2P Require Import Prelude.
From S2P Require Import PyValue.
From S2P Require Import Uuids.
From Stdlib Require Import Ascii ZifyN.
From stdpp Require Import tactics list.

Open Scope N_scope.

(** * Base64 *)

(** The character of six bits, in the url-safe alphabet. *)
Definition symbol (n : N) : ascii :=
  if n <? 26 then ascii_of_N (65 + n)
  else if n <? 52 then ascii_of_N (97 + (n - 26))
  else if n <? 62 then ascii_of_N (48 + (n - 52))
  else if n =? 62 then "-" else "_".

(** The six bits of a character: [-] and [_] are translated to [+] and [/]
    before the table is read, so both pairs are accepted. *)
Definition symbol_value (c : ascii) : option N :=
  let n := code c in
  if (65 <=? n) && (n <=? 90) then Some (n - 65)
  else if (97 <=? n) && (n <=? 122) then Some (n - 97 + 26)
  else if (48 <=? n) && (n <=? 57) then Some (n - 48 + 52)
  else if Ascii.eqb c "-" || Ascii.eqb c "+" then Some 62
  else if Ascii.eqb c "_" || Ascii.eqb c "/" then Some 63
  else None.

(** [base64.urlsafe_b64encode] *)
Fixpoint urlsafe_b64encode (s : string) : string :=
  match s with
  | String a (String b (String c s)) =>
      String (symbol (code a / 4)) (String (symbol (code a mod 4 * 16 + code b / 16))
        (String (symbol (code b mod 16 * 4 + code c / 64)) (String (symbol (code c mod 64))
          (urlsafe_b64encode s))))
  | String a (String b EmptyString) =>
      String (symbol (code a / 4)) (String (symbol (code a mod 4 * 16 + code b / 16))
        (String (symbol (code b mod 16 * 4)) "="))
  | String a EmptyString =>
      String (symbol (code a / 4)) (String (symbol (code a mod 4 * 16)) "==")
  | EmptyString => EmptyString
  end.

(** [binascii.a2b_base64], not strict: the position in a group of four, the
    bits that are left of the last character, and the padding seen so far.
    None is a [binascii.Error], which is a [ValueError]. *)
Fixpoint a2b_base64 (quad left pads : N) (s : string) : option string :=
  match s with
  | EmptyString => if quad =? 0 then Some EmptyString else None
  | String c s =>
      if Ascii.eqb c "=" then
        if 2 <=? quad then
          if 4 <=? quad + (pads + 1) then Some EmptyString else a2b_base64 quad left (pads + 1) s
        else a2b_base64 quad left pads s
      else
        match symbol_value c with
        | None => a2b_base64 quad left pads s
        | Some v =>
            match quad with
            | 0 => a2b_base64 1 v 0 s
            | 1 => String (ascii_of_N (left * 4 + v / 16)) <$> a2b_base64 2 (v mod 16) 0 s
            | 2 => String (ascii_of_N (left * 16 + v / 4)) <$> a2b_base64 3 (v mod 4) 0 s
            | _ => String (ascii_of_N (left * 64 + v)) <$> a2b_base64 0 0 0 s
            end
        end
  end.

(** [base64.urlsafe_b64decode] *)
Definition urlsafe_b64decode (s : string) : option string := a2b_base64 0 0 0 s.

(** * The box *)

(** security/secret_box.py:9-9, KEY_BYTES. *)
Definition KEY_BYTES : nat := 32.
(** security/secret_box.py:10-10, NONCE_BYTES. *)
Definition NONCE_BYTES : nat := 12.

(** security/secret_box.py:13-14, SecretBoxError.  What a call raises. *)
Inductive box_error := SecretBoxError.

(** [AESGCM(key).encrypt(nonce, text, None)] and [AESGCM(key).decrypt(...)],
    where None is [InvalidTag]. *)
Class Aesgcm := {
  aes_encrypt : string → string → string → string;
  aes_decrypt : string → string → string → option string
}.
(** The cipher text can be read with its key and nonce, and ends in a tag of 16
    bytes. *)
Class AesgcmLaws `{Aesgcm} : Prop := {
  aes_decrypt_encrypt key nonce text :
    String.length key = KEY_BYTES → String.length nonce = NONCE_BYTES →
    aes_decrypt key nonce (aes_encrypt key nonce text) = Some text;
  aes_encrypt_length key nonce text :
    String.length (aes_encrypt key nonce text) = (String.length text + 16)%nat
}.

(** security/secret_box.py:17-38, load_key. *)
Definition load_key (encoded_key : string) : string + box_error :=
  if negb (nonempty encoded_key) then inr SecretBoxError
  else
    let padding := ((4 - String.length encoded_key mod 4) mod 4)%nat in
    let padded := encoded_key +:+ String.string_of_list_ascii (repeat ("="%char) padding) in
    match urlsafe_b64decode padded with
    | Some raw => if Nat.eqb (String.length raw) KEY_BYTES then inl raw else inr SecretBoxError
    | None => inr SecretBoxError
    end.

Section box.
Context `{Aesgcm}.

(** security/secret_box.py:41-46, encrypt.  The nonce is drawn by [os.urandom]. *)
Definition encrypt (plaintext key nonce : string) : string :=
  urlsafe_b64encode (nonce +:+ aes_encrypt key nonce plaintext).

(** security/secret_box.py:49-63, decrypt. *)
Definition decrypt (token key : string) : string + box_error :=
  match urlsafe_b64decode token with
  | None => inr SecretBoxError
  | Some raw =>
      if Nat.leb (String.length raw) NONCE_BYTES then inr SecretBoxError
      else
        match aes_decrypt key (str_take NONCE_BYTES raw) (str_drop NONCE_BYTES raw) with
        | Some plaintext => inl plaintext
        | None => inr SecretBoxError
        end
  end.
End box.

(** * What is read back *)

(** A test of every number of six bits. *)
Definition six_bits (P : N → bool) : bool := forallb (λ n, P (N.of_nat n)) (seq 0 64).
Lemma six_bits_true P n : six_bits P = true → n < 64 → P n = true.
Proof.
  unfold six_bits. rewrite forallb_forall. intros H Hn. rewrite <-(N2Nat.id n).
  apply H, in_seq. lia.
Qed.

Lemma symbol_value_symbol n : n < 64 → symbol_value (symbol n) = Some n.
Proof.
  intros Hn. apply (six_bits_true (λ n, symbol_value (symbol n) ≟ Some n)) in Hn;
    [by apply bool_decide_eq_true in Hn|vm_compute; reflexivity].
Qed.
Lemma symbol_not_pad n : n < 64 → Ascii.eqb (symbol n) "=" = false.
Proof.
  intros Hn. apply (six_bits_true (λ n, negb (Ascii.eqb (symbol n) "="))) in Hn;
    [by apply negb_true_iff in Hn|vm_compute; reflexivity].
Qed.

Lemma code_bound c : code c < 256.
Proof. apply N_ascii_bounded. Qed.
Lemma ascii_code c n : n = code c → ascii_of_N n = c.
Proof. intros ->. apply ascii_N_embedding. Qed.

(** One step of the decoder over a character of the alphabet. *)
Lemma a2b_symbol quad left pads n s :
  n < 64 →
  a2b_base64 quad left pads (String (symbol n) s) =
  match quad with
  | 0 => a2b_base64 1 n 0 s
  | 1 => String (ascii_of_N (left * 4 + n / 16)) <$> a2b_base64 2 (n mod 16) 0 s
  | 2 => String (ascii_of_N (left * 16 + n / 4)) <$> a2b_base64 3 (n mod 4) 0 s
  | _ => String (ascii_of_N (left * 64 + n)) <$> a2b_base64 0 0 0 s
  end.
Proof. intros Hn. cbn [a2b_base64]. by rewrite symbol_not_pad, symbol_value_symbol. Qed.

(** The bytes of a group come together again. *)
Section bytes.
#[local] Ltac Zify.zify_post_hook ::= Z.to_euclidean_division_equations.
Lemma byte1 a n : n < 16 → ascii_of_N (code a / 4 * 4 + (code a mod 4 * 16 + n) / 16) = a.
Proof. intros Hn. apply ascii_code. lia. Qed.
Lemma byte2 m b n : n < 4 →
  ascii_of_N ((m * 16 + code b / 16) mod 16 * 16 + (code b mod 16 * 4 + n) / 4) = b.
Proof. intros Hn. apply ascii_code. pose proof (code_bound b). lia. Qed.
Lemma byte3 m c : ascii_of_N ((m * 4 + code c / 64) mod 4 * 64 + code c mod 64) = c.
Proof. apply ascii_code. pose proof (code_bound c). lia. Qed.

Lemma six_bits_of a b m : code a / 4 < 64 ∧ code a mod 64 < 64 ∧ code a mod 16 * 4 < 64
  ∧ code a mod 4 * 16 < 64 ∧ m mod 4 * 16 + code b / 16 < 64 ∧ m mod 16 * 4 + code b / 64 < 64
  ∧ code b / 16 < 16 ∧ code b / 64 < 4.
Proof. pose proof (code_bound a). pose proof (code_bound b). lia. Qed.
End bytes.

Lemma b64_round_trip n s : (String.length s < n)%nat → urlsafe_b64decode (urlsafe_b64encode s) = Some s.
Proof.
  unfold urlsafe_b64decode. revert s. induction n as [|n IH]; intros s Hn; [lia|].
  destruct s as [|a [|b [|c s]]]; [done|..]; cbn [urlsafe_b64encode].
  - destruct (six_bits_of a a 0) as (?&?&?&?&?&?&?&?).
    do 2 (rewrite a2b_symbol by done; cbv iota). cbn [a2b_base64].
    rewrite <-(N.add_0_r (code a mod 4 * 16)), byte1 by done. done.
  - destruct (six_bits_of a b (code a)) as (?&?&?&?&?&?&?&?).
    destruct (six_bits_of b b 0) as (?&?&?&?&?&?&?&?).
    do 3 (rewrite a2b_symbol by done; cbv iota). rewrite byte1 by done.
    rewrite <-(N.add_0_r (code b mod 16 * 4)), byte2 by done. done.
  - destruct (six_bits_of a b (code a)) as (?&?&?&?&?&?&?&?).
    destruct (six_bits_of c c (code b)) as (?&?&?&?&?&?&?&?).
    do 4 (rewrite a2b_symbol by done; cbv iota).
    rewrite byte1, byte2, byte3 by done. rewrite IH by (cbn in Hn; lia). done.
Qed.

Lemma urlsafe_b64decode_encode s : urlsafe_b64decode (urlsafe_b64encode s) = Some s.
Proof. apply (b64_round_trip (S (String.length s))). apply Nat.lt_succ_diag_r. Qed.

Lemma str_take_app_length n s t : String.length s = n → str_take n (s +:+ t) = s.
Proof. intros <-. induction s as [|c s IH]; [by destruct t|].
  change (String c (str_take (String.length s) (s +:+ t)) = String c s). by rewrite IH.
Qed.
Lemma str_drop_app_length n s t : String.length s = n → str_drop n (s +:+ t) = t.
Proof. intros <-. induction s as [|c s IH]; cbn; [by destruct t|]. exact IH. Qed.

(** A token that was encrypted with a key is read back with it. *)
Lemma decrypt_encrypt `{AesgcmLaws} plaintext key nonce :
  String.length key = KEY_BYTES → String.length nonce = NONCE_BYTES →
  decrypt (encrypt plaintext key nonce) key = inl plaintext.
Proof.
  intros Hk Hn. unfold decrypt, encrypt. rewrite urlsafe_b64decode_encode.
  rewrite str_take_app_length, str_drop_app_length by done.
  rewrite aes_decrypt_encrypt by done.
  replace (Nat.leb _ _) with false; [done|]. symmetry. apply Nat.leb_gt.
  rewrite length_app_str, aes_encrypt_length. lia.
Qed.
Lemma load_key_length encoded key : load_key encoded = inl key → String.length key = KEY_BYTES.
Proof.
  unfold load_key. destruct (negb _); [done|]. destruct (urlsafe_b64decode _) as [raw|]; [|done].
  destruct (Nat.eqb_spec (String.length raw) KEY_BYTES); [by intros [= <-]|done].
Qed.
