(* ===== verification/JiraClient.v ===== *)
(** services/jira_client.py: the client of Jira Cloud, over any resolver and
    any HTTP transport, and the mock client.

    [urlsplit] and [ipaddress.ip_address] are parameters; so is [json.loads].
    A body is kept as the value whose JSON text is sent. *)

From S2P Require Import Prelude.
From S2P Require Import PyValue.
From S2P Require Import SecretBox.
From Stdlib Require Import Ascii ZifyBool.
From stdpp Require Import pretty list.

Open Scope Z_scope.

(** * The interface *)

Module JiraErrorCode.
(** services/jira_client.py:15-23, JiraErrorCode. *)
Inductive JiraErrorCode :=
| DISABLED | INVALID_ENDPOINT | AUTHENTICATION_FAILED | RATE_LIMITED | TRANSIENT_FAILURE
| PERMANENT_FAILURE | INVALID_RESPONSE | TRANSPORT_ERROR.
#[export] Instance eq_dec : EqDecision JiraErrorCode.
Proof. solve_decision. Defined.
Definition value (c : JiraErrorCode) : string :=
  match c with
  | DISABLED => "jira_disabled"
  | INVALID_ENDPOINT => "jira_invalid_endpoint"
  | AUTHENTICATION_FAILED => "jira_authentication_failed"
  | RATE_LIMITED => "jira_rate_limited"
  | TRANSIENT_FAILURE => "jira_transient_failure"
  | PERMANENT_FAILURE => "jira_permanent_failure"
  | INVALID_RESPONSE => "jira_invalid_response"
  | TRANSPORT_ERROR => "jira_transport_error"
  end.
End JiraErrorCode.
Abbreviation JiraErrorCode := JiraErrorCode.JiraErrorCode.
Export (hints) JiraErrorCode.

(** services/jira_client.py:26-33, JiraClientError.  And any other exception. *)
Inductive jira_fault :=
| JiraClientError (code : JiraErrorCode) (retryable : bool)
| ClientException (e : exn).

(** services/jira_client.py:36-39, JiraIssueResult. *)
Record JiraIssueResult := mk_result { issue_key : string; issue_url : string }.

(** The site of a call with its credentials. *)
Record site := mk_site { base_url : string; email : string; api_token : string }.
#[export] Instance site_eq_dec : EqDecision site.
Proof. solve_decision. Defined.

(** What an issue is created from. *)
Record issue := mk_issue {
  project_key : string;
  issue_type : string;
  summary : string;
  description : string;
  labels : list string
}.

(** services/jira_client.py:54-68, JiraClient. *)
Class JiraClient (C : Type) := {
  test_connection : C → site → (() + jira_fault) * C;
  create_issue : C → site → issue → (JiraIssueResult + jira_fault) * C
}.

(** * The mock client *)

(** services/jira_client.py:282-290, part of MockJiraClient. *)
Record MockJiraClient := mk_mock {
  fault_mode : string;
  invocations : Z;
  created_issues : list issue
}.

(** services/jira_client.py:287-290, MockJiraClient.__init__. *)
Definition new_mock_jira (fault_mode : string) : MockJiraClient := mk_mock fault_mode 0 [].

(** services/jira_client.py:295-302, part of MockJiraClient.test_connection.  The
    fault of the mode. *)
Definition mock_fault (mode : string) : option jira_fault :=
  if String.eqb mode "auth_failure"
  then Some (JiraClientError JiraErrorCode.AUTHENTICATION_FAILED false)
  else if String.eqb mode "always_fail"
  then Some (JiraClientError JiraErrorCode.TRANSIENT_FAILURE true)
  else None.

(** services/jira_client.py:292-302, MockJiraClient.test_connection. *)
Definition mock_test_connection (c : MockJiraClient) (_ : site) : (() + jira_fault) * MockJiraClient :=
  let c := mk_mock (fault_mode c) (Z.succ (invocations c)) (created_issues c) in
  (match mock_fault (fault_mode c) with Some e => inr e | None => inl tt end, c).

(** services/jira_client.py:304-338, MockJiraClient.create_issue. *)
Definition mock_create_issue (c : MockJiraClient) (_ : site) (i : issue)
    : (JiraIssueResult + jira_fault) * MockJiraClient :=
  let c := mk_mock (fault_mode c) (Z.succ (invocations c)) (created_issues c) in
  match mock_fault (fault_mode c) with
  | Some e => (inr e, c)
  | None =>
      let key := "MOCK-" +:+ pretty (invocations c) in
      (inl (mk_result key ("https://mock.atlassian.net/browse/" +:+ key)),
       mk_mock (fault_mode c) (invocations c) (created_issues c ++ [i]))
  end.

#[export] Instance mock_jira : JiraClient MockJiraClient :=
  {| test_connection := mock_test_connection; create_issue := mock_create_issue |}.

(** * The real client *)

(** The parts of a [urlsplit]. *)
Record urlparts := mk_parts {
  scheme : string;
  hostname : option string;
  username : option string;
  password : option string;
  query : string;
  fragment : string
}.
(** The properties of an [ipaddress] that are looked at. *)
Record ip_kind := mk_ip {
  is_private : bool;
  is_loopback : bool;
  is_link_local : bool;
  is_reserved : bool;
  is_multicast : bool
}.

(** [urllib.parse.urlsplit], [ipaddress.ip_address], where None is a ValueError,
    and [json.loads], where [None] is a [JSONDecodeError]. *)
Class PyLib := {
  urlsplit : string → res urlparts;
  ip_address : string → option ip_kind;
  json_loads : string → option pyval + exn
}.

Record http_request := mk_request {
  http_method : string;
  http_url : string;
  http_headers : list (string * string);
  http_body : option pyval;
  timeout_seconds : Z
}.

(** What a transport raises: a [TimeoutError], [URLError] or [OSError], or
    anything else. *)
Inductive transport_fault := Unreachable | TransportException (e : exn).

(** services/jira_client.py:42-51, JiraTransport.  With the resolver, for which
    None is an [OSError]. *)
Class Network (W : Type) := {
  getaddrinfo : W → string → option (list string) * W;
  transport : W → http_request → (Z * string + transport_fault) * W
}.

(** [s.rstrip("/")] *)
Definition rstrip_slash (s : string) : string :=
  srev ((fix go s := match s with
         | String c s' => if Ascii.eqb c "/" then go s' else s
         | EmptyString => EmptyString
         end) (srev s)).

(** [base64.b64encode(s).decode()], the url-safe encoding in the usual alphabet *)
Definition b64encode (s : string) : string :=
  smap (λ c, if Ascii.eqb c "-" then "+"%char else if Ascii.eqb c "_" then "/"%char else c)
    (urlsafe_b64encode s).

Definition invalid_endpoint : jira_fault := JiraClientError JiraErrorCode.INVALID_ENDPOINT false.

(** services/jira_client.py:108-114, part of validate_base_url. *)
Definition internal_address (a : ip_kind) : bool :=
  is_private a || is_loopback a || is_link_local a || is_reserved a || is_multicast a.

Section validate.
Context `{PyLib} `{Network W}.

(** services/jira_client.py:106-118, part of validate_base_url. *)
Fixpoint check_addresses (l : list string) : () + jira_fault :=
  match l with
  | [] => inl tt
  | a :: l =>
      match ip_address a with
      | None => inr (ClientException ValueError)
      | Some a => if internal_address a then inr invalid_endpoint else check_addresses l
      end
  end.

(** services/jira_client.py:71-118, validate_base_url. *)
Definition validate_base_url (w : W) (base_url : string) : (() + jira_fault) * W :=
  match urlsplit base_url with
  | inr e => (inr (ClientException e), w)
  | inl parsed =>
      let host := lower (default "" (hostname parsed)) in
      if negb (String.eqb (scheme parsed) "https") || negb (nonempty host)
         || is_some_ (username parsed) || is_some_ (password parsed)
         || nonempty (fragment parsed) || nonempty (query parsed)
      then (inr invalid_endpoint, w)
      else if is_some_ (ip_address host) then (inr invalid_endpoint, w)
      else
        let '(resolved, w) := getaddrinfo w host in
        match resolved with
        | None => (inl tt, w)
        | Some resolved => (check_addresses resolved, w)
        end
  end.
End validate.

Section request.
Context `{Network W} (read_timeout_seconds : Z).

(** services/jira_client.py:209-215, part of RealJiraClient._request. *)
Definition headers_of (s : site) : list (string * string) :=
  [("Authorization", "Basic " +:+ b64encode (email s +:+ ":" +:+ api_token s));
   ("Accept", "application/json"); ("Content-Type", "application/json");
   ("User-Agent", "CloudOps/1.0")].

(** services/jira_client.py:217-262, part of RealJiraClient._request.  The loop over
    the attempts that are left; without any the assertion after it fails. *)
Fixpoint attempts (n : nat) (w : W) (request : http_request) : (Z * string + jira_fault) * W :=
  match n with
  | O => (inr (ClientException AssertionError), w)
  | S n =>
      let '(answer, w) := transport w request in
      let again e := if Nat.eqb n 0 then (inr e, w) else attempts n w request in
      match answer with
      | inr Unreachable => again (JiraClientError JiraErrorCode.TRANSPORT_ERROR true)
      | inr (TransportException e) => (inr (ClientException e), w)
      | inl (status, body) =>
          if (200 <=? status) && (status <? 300) then (inl (status, body), w)
          else if (status =? 401) || (status =? 403)
          then (inr (JiraClientError JiraErrorCode.AUTHENTICATION_FAILED false), w)
          else if status =? 429 then again (JiraClientError JiraErrorCode.RATE_LIMITED true)
          else if (500 <=? status) && (status <? 600)
          then again (JiraClientError JiraErrorCode.TRANSIENT_FAILURE true)
          else (inr (JiraClientError JiraErrorCode.PERMANENT_FAILURE false), w)
      end
  end.

(** services/jira_client.py:206-263, RealJiraClient._request. *)
Definition _request (max_retry_attempts : nat) (w : W) (method url : string) (s : site)
    (body : option pyval) : (Z * string + jira_fault) * W :=
  attempts max_retry_attempts w (mk_request method url (headers_of s) body read_timeout_seconds).
End request.

(** services/jira_client.py:131-142, RealJiraClient.__init__. *)
Record RealJiraClient (W : Type) := mk_real {
  read_timeout : Z;
  max_retry_attempts : nat;
  world : W
}.
Arguments mk_real {W} _ _ _.
Arguments read_timeout {W} _.
Arguments max_retry_attempts {W} _.
Arguments world {W} _.

(** services/jira_client.py:167-184, part of RealJiraClient.create_issue. *)
Definition issue_payload (i : issue) : pyval :=
  PDict [("fields", PDict
    [("project", PDict [("key", PStr (project_key i))]);
     ("issuetype", PDict [("name", PStr (issue_type i))]);
     ("summary", PStr (str_take 255 (summary i)));
     ("description", PDict
       [("type", PStr "doc"); ("version", PInt 1);
        ("content", PList [PDict
          [("type", PStr "paragraph");
           ("content", PList [PDict [("type", PStr "text");
              ("text", PStr (str_take (N.to_nat 32000) (description i)))]])]])]);
     ("labels", PList (map PStr (labels i)))])].

(** services/jira_client.py:192-204, part of RealJiraClient.create_issue. *)
Definition issue_result `{PyLib} (base_url body : string) : JiraIssueResult + jira_fault :=
  let invalid := JiraClientError JiraErrorCode.INVALID_RESPONSE false in
  match json_loads body with
  | inr e => inr (ClientException e)
  | inl None => inr invalid
  | inl (Some parsed) =>
      match parsed with
      | PDict d =>
          match dget "key" d with
          | Some key =>
              let key := py_str key in
              inl (mk_result key (rstrip_slash base_url +:+ "/browse/" +:+ key))
          | None => inr invalid
          end
      | _ => inr invalid
      end
  end.

Section real.
Context `{PyLib} `{Network W}.
Implicit Types (c : RealJiraClient W) (s : site).

Definition in_world (w : W) c : RealJiraClient W := mk_real (read_timeout c) (max_retry_attempts c) w.

(** services/jira_client.py:144-152, RealJiraClient.test_connection. *)
Definition real_test_connection c s : (() + jira_fault) * RealJiraClient W :=
  let '(valid, w) := validate_base_url (world c) (base_url s) in
  match valid with
  | inr e => (inr e, in_world w c)
  | inl _ =>
      let '(answer, w) := _request (read_timeout c) (max_retry_attempts c) w "GET"
        (rstrip_slash (base_url s) +:+ "/rest/api/3/myself") s None in
      (match answer with inl _ => inl tt | inr e => inr e end, in_world w c)
  end.

(** services/jira_client.py:154-204, RealJiraClient.create_issue. *)
Definition real_create_issue c s (i : issue) : (JiraIssueResult + jira_fault) * RealJiraClient W :=
  let '(valid, w) := validate_base_url (world c) (base_url s) in
  match valid with
  | inr e => (inr e, in_world w c)
  | inl _ =>
      let '(answer, w) := _request (read_timeout c) (max_retry_attempts c) w "POST"
        (rstrip_slash (base_url s) +:+ "/rest/api/3/issue") s (Some (issue_payload i)) in
      (match answer with
       | inl (_, body) => issue_result (base_url s) body
       | inr e => inr e
       end, in_world w c)
  end.

#[export] Instance real_jira : JiraClient (RealJiraClient W) :=
  {| test_connection := real_test_connection; create_issue := real_create_issue |}.
End real.

(** * What the real client promises *)

(** A site that may be called: HTTPS, a host that is neither a literal address
    nor known to be internal, no credentials, query or fragment. *)
Definition callable `{PyLib} `{Network W} (w : W) (url : string) : Prop :=
  ∃ parsed host, urlsplit url = inl parsed ∧ scheme parsed = "https"
  ∧ hostname parsed = Some host ∧ nonempty (lower host) = true ∧ ip_address (lower host) = None
  ∧ username parsed = None ∧ password parsed = None ∧ query parsed = "" ∧ fragment parsed = ""
  ∧ ∀ addresses, (getaddrinfo w (lower host)).1 = Some addresses →
      Forall (λ a, ∃ k, ip_address a = Some k ∧ internal_address k = false) addresses.

(** An answer after which the request may be sent again. *)
Definition again (a : Z * string + transport_fault) : bool :=
  match a with
  | inr Unreachable => true
  | inr (TransportException _) => false
  | inl (status, _) => (status =? 429) || (500 <=? status) && (status <? 600)
  end.

(** What an answer means. *)
Definition verdict (a : Z * string + transport_fault) : Z * string + jira_fault :=
  match a with
  | inr Unreachable => inr (JiraClientError JiraErrorCode.TRANSPORT_ERROR true)
  | inr (TransportException e) => inr (ClientException e)
  | inl (status, body) =>
      if (200 <=? status) && (status <? 300) then inl (status, body)
      else if bool_decide (status ∈ [401; 403])
      then inr (JiraClientError JiraErrorCode.AUTHENTICATION_FAILED false)
      else if status =? 429 then inr (JiraClientError JiraErrorCode.RATE_LIMITED true)
      else if (500 <=? status) && (status <? 600)
      then inr (JiraClientError JiraErrorCode.TRANSIENT_FAILURE true)
      else inr (JiraClientError JiraErrorCode.PERMANENT_FAILURE false)
  end.

(** [n] times the request is sent, the last answer is [a]. *)
Inductive exchange `{Network W} (request : http_request)
    : nat → W → Z * string + transport_fault → W → Prop :=
| exchange_last w a w' : transport w request = (a, w') → exchange request 1 w a w'
| exchange_again n w a w1 b w' :
    transport w request = (a, w1) → again a = true → exchange request n w1 b w' →
    exchange request (S n) w b w'.

Section promises.
Context `{PyLib} `{Network W}.
Implicit Types (w : W) (request : http_request).

Lemma check_addresses_ok l :
  check_addresses l = inl tt →
  Forall (λ a, ∃ k, ip_address a = Some k ∧ internal_address k = false) l.
Proof.
  induction l as [|a l IH]; cbn; [constructor|]. destruct (ip_address a) as [k|] eqn:Ea; [|done].
  destruct (internal_address k) eqn:Ek; [done|]. intros Hl. constructor; [eauto|by apply IH].
Qed.

Lemma nonempty_false s : nonempty s = false → s = "".
Proof. unfold nonempty. destruct (String.eqb_spec s ""); [done|done]. Qed.

Lemma validate_callable w url :
  (validate_base_url w url).1 = inl tt → callable w url.
Proof.
  unfold validate_base_url, callable. destruct (urlsplit url) as [parsed|]; [|done]. cbv zeta.
  destruct (negb _ || _ || _ || _ || _ || _) eqn:E; [done|].
  rewrite !orb_false_iff in E. destruct E as (((((Hs & Hh) & Hu) & Hp) & Hf) & Hq).
  apply negb_false_iff in Hs, Hh. apply String.eqb_eq in Hs. apply nonempty_false in Hf, Hq.
  destruct (username parsed) eqn:Eu, (password parsed) eqn:Ep, (hostname parsed) as [host|] eqn:Eh;
    try done.
  cbn in Hh |- *. destruct (ip_address (lower host)) eqn:Ei; [done|]. cbn.
  destruct (getaddrinfo w (lower host)) as [[l|] w'] eqn:Eg; cbn; intros Hv;
    exists parsed, host; split_and!; try done; rewrite Eg; cbn; [|done].
  intros l' [= <-]. by apply check_addresses_ok.
Qed.

Lemma attempts_exchange max w request :
  (0 < max)%nat →
  ∃ n a w', exchange request n w a w' ∧ (n ≤ max)%nat ∧ ((n < max)%nat → again a = false)
  ∧ attempts max w request = (verdict a, w').
Proof.
  revert w. induction max as [|max IH]; intros w Hmax; [lia|]. cbn [attempts].
  destruct (transport w request) as [a w1] eqn:Et. cbv zeta.
  assert (again a = false →
    ∃ n b w', exchange request n w b w' ∧ (n ≤ S max)%nat ∧ ((n < S max)%nat → again b = false)
    ∧ (verdict a, w1) = (verdict b, w')) as Hlast.
  { intros Ha. exists 1%nat, a, w1. split_and!; [by constructor|lia|done|done]. }
  assert (∀ e, again a = true → verdict a = inr e →
    ∃ n b w', exchange request n w b w' ∧ (n ≤ S max)%nat ∧ ((n < S max)%nat → again b = false)
    ∧ (if Nat.eqb max 0 then (inr e, w1) else attempts max w1 request) = (verdict b, w')) as Hmore.
  { intros e Ha He. destruct (Nat.eqb_spec max 0) as [->|Hne].
    - exists 1%nat, a, w1. split_and!; [by constructor|lia|lia|by rewrite He].
    - destruct (IH w1 ltac:(lia)) as (n & b & w' & Hx & Hn & Hb & E).
      exists (S n), b, w'. split_and!; [by eapply exchange_again|lia| |done].
      intros. apply Hb. lia. }
  destruct a as [[status body]|[|e]]; [|by apply Hmore|by apply Hlast].
  cbn [again verdict] in *.
  assert (bool_decide (status ∈ [401; 403]) = (status =? 401) || (status =? 403)) as Eb.
  { apply eq_true_iff_eq. rewrite bool_decide_eq_true, orb_true_iff, !Z.eqb_eq.
    rewrite !elem_of_cons, elem_of_nil. tauto. }
  rewrite Eb in *. clear Eb.
  destruct ((200 <=? status) && (status <? 300)) eqn:E2; [apply Hlast; lia|].
  destruct ((status =? 401) || (status =? 403)) eqn:E4; [apply Hlast; lia|].
  destruct (status =? 429); [by apply Hmore|].
  destruct ((500 <=? status) && (status <? 600)); [by apply Hmore|by apply Hlast].
Qed.

(** The client of Jira asks for an issue only at a site that may be called,
    and sends at least one and at most [max_retry_attempts] requests: again only
    when there was no answer, or one of the statuses 429 and 5xx.  The last
    answer decides: a status 2xx with the key of the issue is its creation,
    every other answer is the error of its kind. *)
Theorem issue_requests_are_bounded (c : RealJiraClient W) (s : site) (i : issue) :
  (0 < max_retry_attempts c)%nat →
  let '(o, c') := create_issue c s i in
  (∃ e, o = inr e ∧ (validate_base_url (world c) (base_url s)).1 = inr e)
  ∨ callable (world c) (base_url s)
    ∧ ∃ n a, exchange (mk_request "POST" (rstrip_slash (base_url s) +:+ "/rest/api/3/issue")
          (headers_of s) (Some (issue_payload i)) (read_timeout c))
        n (validate_base_url (world c) (base_url s)).2 a (world c')
      ∧ (n ≤ max_retry_attempts c)%nat ∧ ((n < max_retry_attempts c)%nat → again a = false)
      ∧ match verdict a with
        | inl (status, body) => 200 ≤ status < 300 ∧ o = issue_result (base_url s) body
        | inr e => o = inr e
        end.
Proof.
  intros Hmax. cbn [create_issue real_jira]. unfold real_create_issue.
  pose proof (validate_callable (world c) (base_url s)) as Hv.
  destruct (validate_base_url (world c) (base_url s)) as [[[]|e] w1]; [|left; by exists e].
  unfold _request. cbn [snd].
  destruct (attempts_exchange (max_retry_attempts c) w1 (mk_request "POST"
    (rstrip_slash (base_url s) +:+ "/rest/api/3/issue") (headers_of s) (Some (issue_payload i))
    (read_timeout c)) Hmax) as (n & a & w' & Hx & Hn & Ha & ->).
  right. split; [by apply Hv|]. exists n, a. split_and!; [exact Hx|done|done|].
  destruct (verdict a) as [[status body]|e] eqn:E; [|done]. split; [|done].
  destruct a as [[z b]|[|]]; cbn in E; [|done..].
  destruct ((200 <=? z) && (z <? 300)) eqn:Ez; [injection E as <- <-; lia|].
  repeat case_match; discriminate E.
Qed.
End promises.

(** * Witness *)

(** A network that answers from a script; every host is the documentation's
    public address. *)
Definition scripted := list (Z * string + transport_fault).
#[local] Instance scripted_network : Network scripted := {|
  getaddrinfo w _ := (Some ["203.0.113.7"], w);
  transport w _ := match w with a :: w => (a, w) | [] => (inr Unreachable, []) end
|}.
#[local] Instance simple_lib : PyLib := {|
  urlsplit s := inl (mk_parts "https" (Some (str_drop 8 s)) None None "" "");
  ip_address s :=
    if String.eqb s "203.0.113.7" then Some (mk_ip false false false false false) else None;
  json_loads s := inl (Some (PDict [("key", PStr s)]))
|}.

(** Jira is down, then busy, then creates the issue: three requests. *)
Lemma issue_requests_are_bounded_witness :
  let c := mk_real 15 3 [inr Unreachable; inl (503, ""); inl (201, "OPS-1"); inl (201, "OPS-2")] in
  let s := mk_site "https://acme.atlassian.net" "a@example.com" "token" in
  let '(o, c') := create_issue c s (mk_issue "OPS" "Bug" "summary" "text" []) in
  o = inl (mk_result "OPS-1" "https://acme.atlassian.net/browse/OPS-1")
  ∧ world c' = [inl (201, "OPS-2")] ∧ callable (world c) (base_url s).
Proof.
  intros c s.
  pose proof (issue_requests_are_bounded c s (mk_issue "OPS" "Bug" "summary" "text" []) ltac:(cbn; lia)) as Hb.
  assert (create_issue c s (mk_issue "OPS" "Bug" "summary" "text" [])
    = (inl (mk_result "OPS-1" "https://acme.atlassian.net/browse/OPS-1"),
       mk_real 15 3 [inl (201, "OPS-2")])) as Hc by (vm_compute; reflexivity).
  rewrite Hc in *. split; [done|]. split; [done|].
  destruct Hb as [(e & E & _)|[Hcall _]]; [discriminate E|exact Hcall].
Defined.
