(* ===== verification/Jira.v ===== *)
(** services/jira_integration_service.py, api/v1/jira.py and the schemas of
    schemas/jira_integration.py: the connection of an organization to a Jira
    site, and the issues that are created for findings.

    A call of the client happens between the queries of a method, which is
    split there: what a method asks of the client is a value of its own, so
    that histories can say which calls were made. *)

From S2P Require Import Prelude.
From S2P Require Import History.
From S2P Require Import Enums.
From S2P Require Import Rbac.
From S2P Require Import PyValue.
From S2P Require Import Models.
From S2P Require Import Tables.
From S2P Require Import Common.
From S2P Require Import Organizations.
From S2P Require Import Uuids.
From S2P Require Import SecretBox.
From S2P Require Import JiraClient.
From S2P Require Import AiProvider.
From S2P Require Import AiService.
From Stdlib Require Import Ascii.
From stdpp Require Import relations pretty list.

Module JI := JiraIntegration.
Module JL := JiraIssueLink.
Open Scope Z_scope.

(** * The tables *)

(** models/jira_integration.py:40-46, part of JiraIntegration.  One connection of
    an organization that is not disconnected. *)
Definition integration_conflict (i i' : JiraIntegration) : bool :=
  (JI.organization_id i ≟ JI.organization_id i')
  && negb (JI.status i ≟ JiraIntegrationStatus.DISCONNECTED)
  && negb (JI.status i' ≟ JiraIntegrationStatus.DISCONNECTED).
#[export] Instance integrations_table : Table JiraIntegration.
Proof.
  refine (mk_table _ _ DB.jira_integrations (λ f, upd DB.jira_integrations f) (λ _, true)
    integration_conflict _ _ _ _ _); unfold integration_conflict; solve_table.
Defined.

(** models/jira_integration.py:95-97, part of JiraIssueLink. *)
Definition link_conflict (l l' : JiraIssueLink) : bool :=
  (JL.organization_id l ≟ JL.organization_id l')
  && (JL.idempotency_key l ≟ JL.idempotency_key l').
#[export] Instance links_table : Table JiraIssueLink.
Proof.
  refine (mk_table _ _ DB.jira_links (λ f, upd DB.jira_links f) (λ _, true)
    link_conflict _ _ _ _ _); unfold link_conflict; solve_table.
Defined.

(** * Queries *)

(** repositories/data.py:296-306, Repository.jira_integration_for_organization.  At
    most one row qualifies, by the unique index; the variant that locks it
    selects the same. *)
Definition jira_integration_for_organization (organization_id : uuid) (d : DB)
    : option JiraIntegration :=
  find_row (λ i, (JI.organization_id i ≟ organization_id)
                 && negb (JI.status i ≟ JiraIntegrationStatus.DISCONNECTED))
    (DB.jira_integrations d).

(** repositories/data.py:321-329, Repository.jira_issue_link_by_idempotency_key. *)
Definition jira_issue_link_by_idempotency_key (organization_id : uuid) (idempotency_key : string)
    (d : DB) : option JiraIssueLink :=
  find_row (λ l, (JL.organization_id l ≟ organization_id)
                 && (JL.idempotency_key l ≟ idempotency_key)) (DB.jira_links d).

(** repositories/data.py:331-343, Repository.jira_issue_links_for_finding.  Links of
    one instant come in the order of their identifiers. *)
Definition jira_issue_links_for_finding (organization_id finding_id : uuid) (d : DB)
    : list JiraIssueLink :=
  sort_by (newest_first JL.created_at JL.id)
    (filter_rows (λ l, (JL.organization_id l ≟ organization_id)
                       && (JL.finding_id l ≟ Some finding_id)) (DB.jira_links d)).

(** services/jira_integration_service.py:271-275, part of
    JiraIntegrationService.create_issue_for_finding. *)
Definition finding_of (organization_id finding_id : uuid) (d : DB) : option Finding :=
  find_row (λ f, (Finding.id f ≟ finding_id) && (Finding.organization_id f ≟ organization_id))
    (DB.findings d).

(** * The content of an issue *)

(** services/jira_integration_service.py:349-362, part of
    JiraIntegrationService._issue_content.  The latest draft for the finding. *)
Definition latest_draft (organization_id : uuid) (finding : Finding) (d : DB) : option AIResponse :=
  let drafts := omap (λ r, x ← response_of r d; s ← source_of r d;
                        if (AS.source_type s ≟ AISourceType.FINDING)
                           && (AS.source_id s ≟ Finding.id finding)
                        then Some (r, x) else None)
    (filter_rows (λ r, (AR.organization_id r ≟ organization_id)
                       && (AR.task_type r ≟ AITaskType.JIRA_DESCRIPTION)
                       && (AR.status r ≟ AIRequestStatus.COMPLETED)) (DB.ai_requests d)) in
  snd <$> first_by (λ a b, newest_first AR.created_at AR.id a.1 b.1) drafts.

(** services/jira_integration_service.py:365-372, part of
    JiraIntegrationService._issue_content. *)
Definition draft_content (summary : string) (content : pyval) : string * string :=
  let get k := match content with PDict d => dget_or k PNone d | _ => PNone end in
  let title := get "title" in
  let body := get "summary" in
  let lines := (if py_bool body then py_str body else "")
    :: match get "details" with PList l => map (λ x, "- " +:+ py_str x) l | _ => [] end in
  (if py_bool title then py_str title else summary,
   concat_sep (String newline "") (List.filter nonempty lines)).

(** services/jira_integration_service.py:373-379, part of
    JiraIntegrationService._issue_content. *)
Definition template_content (f : Finding) : string :=
  concat_sep (String newline "")
    ["Rule: " +:+ Finding.rule_key f +:+ " (v" +:+ pretty (Finding.rule_version f) +:+ ")";
     "Severity: " +:+ FindingSeverity.value (Finding.severity f);
     "Category: " +:+ Finding.category f;
     "Status: " +:+ FindingStatus.value (Finding.status f);
     "This is a deterministic draft; no AI draft was available."].

(** services/jira_integration_service.py:343-380, JiraIntegrationService._issue_content. *)
Definition _issue_content (organization_id : uuid) (f : Finding) (d : DB) : string * string :=
  let summary := "CloudOps finding: " +:+ Finding.rule_key f +:+ " ("
                 +:+ FindingSeverity.value (Finding.severity f) +:+ ")" in
  match latest_draft organization_id f d with
  | Some response => draft_content summary (AP.content_json response)
  | None => (summary, template_content f)
  end.

(** * The service *)

Module JiraSettings.
(** core/config.py:170-176, part of Settings. *)
Record JiraSettings := mk { jira_enabled : bool; jira_token_encryption_key : string }.
End JiraSettings.
Abbreviation JiraSettings := JiraSettings.JiraSettings.

Module Change.
(** schemas/jira_integration.py:27-35, part of JiraIntegrationUpdate. *)
Record JiraIntegrationUpdate := mk {
  base_url : option string;
  project_key : option string;
  default_issue_type : option string;
  email : option string;
  api_token : option string;
  enabled : option bool
}.
End Change.
Abbreviation JiraIntegrationUpdate := Change.JiraIntegrationUpdate.

Module New.
(** schemas/jira_integration.py:12-17, part of JiraIntegrationCreate. *)
Record JiraIntegrationCreate := mk {
  base_url : string;
  project_key : string;
  default_issue_type : string;
  email : string;
  api_token : string
}.
End New.
Abbreviation JiraIntegrationCreate := New.JiraIntegrationCreate.

(** schemas/jira_integration.py:19-24, JiraIntegrationCreate.validate_https. *)
Definition validate_https (value : string) : res string :=
  if startswith value "https://" then inl (rstrip_slash value) else inr ValueError.

Definition not_configured : exn := NotFoundError "jira_integration_not_found".

(** A call of the secret box whose error nobody catches. *)
Definition of_box {A} (r : A + box_error) : txn DB A :=
  match r with inl a => mret a | inr _ => raise OtherException end.

Section service.
Context `{Aesgcm} (settings : JiraSettings).

(** services/jira_integration_service.py:65-71, JiraIntegrationService._require_enabled. *)
Definition _require_enabled : txn DB () :=
  ensure (JiraSettings.jira_enabled settings) (AppError "jira_disabled" 503).

(** services/jira_integration_service.py:73-74, JiraIntegrationService._encryption_key. *)
Definition _encryption_key : string + box_error :=
  load_key (JiraSettings.jira_token_encryption_key settings).

(** services/jira_integration_service.py:392-411, JiraIntegrationService._audit. *)
Definition _audit (event_type : string) (integration : JiraIntegration) (actor_user_id : uuid)
    : txn DB () :=
  audit_ok event_type "jira_integration" (JI.organization_id integration) actor_user_id
    (JI.id integration).

(** services/jira_integration_service.py:382-390, JiraIntegrationService._commit. *)
Definition _commit (integration : JiraIntegration) : txn DB () :=
  try_catch (_ ← save false integration; commit)
    (λ e, match e with
          | IntegrityError => _ ← rollback; raise (ConflictError "jira_integration_conflict")
          | e => raise e
          end).

(** The connection of the organization, for an actor with the capability. *)
Definition configured (organization_id : uuid) (actor : User) (capability : Capability)
    : txn DB JiraIntegration :=
  _ ← _require_enabled;
  _ ← require_capability organization_id (User.id actor) capability;
  integration ← gets (jira_integration_for_organization organization_id);
  some_or integration not_configured.

(** services/jira_integration_service.py:98-106, part of JiraIntegrationService.create. *)
Definition new_integration (new_id organization_id : uuid) (actor : User)
    (payload : JiraIntegrationCreate) (encrypted_token : string) : JiraIntegration :=
  JI.mk new_id organization_id (New.base_url payload) (New.project_key payload)
    (New.default_issue_type payload) (New.email payload) encrypted_token true
    JiraIntegrationStatus.PENDING None None (User.id actor).

(** services/jira_integration_service.py:76-118, JiraIntegrationService.create.  The
    flush comes before the commit that is guarded. *)
Definition create (new_id : uuid) (nonce : string) (organization_id : uuid) (actor : User)
    (payload : JiraIntegrationCreate) : txn DB JiraIntegration :=
  _ ← _require_enabled;
  _ ← require_capability organization_id (User.id actor) Capability.JIRA_MANAGE;
  existing ← gets (jira_integration_for_organization organization_id);
  _ ← ensure (is_none_ existing) (ConflictError "jira_integration_exists");
  key ← of_box _encryption_key;
  let integration := new_integration new_id organization_id actor payload
    (encrypt (New.api_token payload) key nonce) in
  _ ← save true integration;
  _ ← _audit "jira.integration.created" integration (User.id actor);
  _ ← commit;
  mret integration.

(** services/jira_integration_service.py:120-130, JiraIntegrationService.get. *)
Definition get (organization_id : uuid) (actor : User) : txn DB JiraIntegration :=
  configured organization_id actor Capability.JIRA_READ.

(** services/jira_integration_service.py:153-170, part of JiraIntegrationService.update.
    The row with the fields that are given; what the site is reached with makes
    the connection pending again. *)
Definition updated (payload : JiraIntegrationUpdate) (encrypted_token : option string)
    (i : JiraIntegration) : JiraIntegration :=
  let i := i <| JI.base_url ::= λ x, default x (Change.base_url payload) |>
             <| JI.project_key ::= λ x, default x (Change.project_key payload) |>
             <| JI.default_issue_type ::= λ x, default x (Change.default_issue_type payload) |>
             <| JI.email ::= λ x, default x (Change.email payload) |>
             <| JI.api_token_encrypted ::= λ x, default x encrypted_token |>
             <| JI.enabled ::= λ x, default x (Change.enabled payload) |> in
  if is_some_ (Change.base_url payload) || is_some_ (Change.api_token payload)
     || is_some_ (Change.email payload)
  then i <| JI.status := JiraIntegrationStatus.PENDING |> <| JI.failure_reason := None |>
         <| JI.last_validated_at := None |>
  else i.

(** services/jira_integration_service.py:132-173, JiraIntegrationService.update. *)
Definition update (nonce : string) (organization_id : uuid) (actor : User)
    (payload : JiraIntegrationUpdate) : txn DB JiraIntegration :=
  integration ← configured organization_id actor Capability.JIRA_MANAGE;
  encrypted_token ← match Change.api_token payload with
    | Some token => key ← of_box _encryption_key; mret (Some (encrypt token key nonce))
    | None => mret None
    end;
  let integration := updated payload encrypted_token integration in
  _ ← _audit "jira.integration.updated" integration (User.id actor);
  _ ← _commit integration;
  mret integration.

(** The site of the connection with its token. *)
Definition site_of (integration : JiraIntegration) : txn DB site :=
  key ← of_box _encryption_key;
  api_token ← of_box (decrypt (JI.api_token_encrypted integration) key);
  mret (mk_site (JI.base_url integration) (JI.email integration) api_token).

(** services/jira_integration_service.py:176-185, part of
    JiraIntegrationService.test_connection.  Before the client is asked. *)
Definition test_request (organization_id : uuid) (actor : User) : txn DB (JiraIntegration * site) :=
  integration ← configured organization_id actor Capability.JIRA_MANAGE;
  s ← site_of integration;
  mret (integration, s).

(** The row with the result of a validation. *)
Definition validated (now : timestamp) (status : JiraIntegrationStatus) (reason : option string)
    (i : JiraIntegration) : JiraIntegration :=
  i <| JI.status := status |> <| JI.failure_reason := reason |> <| JI.last_validated_at := Some now |>.

(** services/jira_integration_service.py:186-207, part of
    JiraIntegrationService.test_connection.  After the client answered. *)
Definition test_finish (now : timestamp) (actor : User) (integration : JiraIntegration)
    (answer : () + jira_fault) : txn DB JiraIntegration :=
  match answer with
  | inr (JiraClientError code _) =>
      let integration := validated now JiraIntegrationStatus.FAILED
        (Some (JiraErrorCode.value code)) integration in
      _ ← _audit "jira.integration.validation_failed" integration (User.id actor);
      _ ← _commit integration;
      mret integration
  | inr (ClientException e) => raise e
  | inl _ =>
      let integration := validated now JiraIntegrationStatus.CONNECTED None integration in
      _ ← _audit "jira.integration.validation_succeeded" integration (User.id actor);
      _ ← _commit integration;
      mret integration
  end.

(** services/jira_integration_service.py:209-224, JiraIntegrationService.disconnect. *)
Definition disconnect (organization_id : uuid) (actor : User) : txn DB JiraIntegration :=
  integration ← configured organization_id actor Capability.JIRA_MANAGE;
  let integration := integration <| JI.status := JiraIntegrationStatus.DISCONNECTED |>
    <| JI.enabled := false |> <| JI.failure_reason := None |> in
  _ ← _audit "jira.integration.disconnected" integration (User.id actor);
  _ ← _commit integration;
  mret integration.

(** services/jira_integration_service.py:226-233, JiraIntegrationService.get_issue_link. *)
Definition get_issue_link (organization_id : uuid) (idempotency_key : string) (actor : User)
    : txn DB (option JiraIssueLink) :=
  _ ← _require_enabled;
  _ ← require_capability organization_id (User.id actor) Capability.JIRA_READ;
  gets (jira_issue_link_by_idempotency_key organization_id idempotency_key).

(** services/jira_integration_service.py:251-290, part of
    JiraIntegrationService.create_issue_for_finding.  The link that is there, or
    what the client is asked. *)
Definition issue_request (organization_id finding_id : uuid) (actor : User)
    (idempotency_key : string) : txn DB (JiraIssueLink + JiraIntegration * Finding * site * issue) :=
  _ ← _require_enabled;
  _ ← require_capability organization_id (User.id actor) Capability.JIRA_MANAGE;
  existing_link ← gets (jira_issue_link_by_idempotency_key organization_id idempotency_key);
  match existing_link with
  | Some link => mret (inl link)
  | None =>
      integration ← gets (jira_integration_for_organization organization_id);
      integration ← some_or integration not_configured;
      _ ← ensure (JI.enabled integration
                  && (JI.status integration ≟ JiraIntegrationStatus.CONNECTED))
            (ConflictError "jira_integration_not_ready");
      finding ← gets (finding_of organization_id finding_id);
      finding ← some_or finding (NotFoundError "finding_not_found");
      content ← gets (_issue_content organization_id finding);
      s ← site_of integration;
      mret (inr (integration, finding, s,
        mk_issue (JI.project_key integration) (JI.default_issue_type integration) content.1 content.2
          ["cloudops"; FindingSeverity.value (Finding.severity finding)]))
  end.

(** services/jira_integration_service.py:291-300, part of
    JiraIntegrationService.create_issue_for_finding. *)
Definition new_link (new_id : uuid) (now : timestamp) (organization_id : uuid) (actor : User)
    (idempotency_key : string) (remediation_request_id : option uuid) (integration : JiraIntegration)
    (finding : Finding) (result : JiraIssueResult) : JiraIssueLink :=
  JL.mk new_id organization_id (JI.id integration) (Some (Finding.id finding))
    remediation_request_id idempotency_key (issue_key result) (issue_url result) (User.id actor) now.

(** services/jira_integration_service.py:235-324,
    JiraIntegrationService.create_issue_for_finding.  The flush of the link is
    not guarded, and the commit after it has nothing left that could fail. *)
Definition create_issue_for_finding `{JiraClient C} (client : C) (new_id : uuid) (now : timestamp)
    (organization_id finding_id : uuid) (actor : User) (idempotency_key : string)
    (remediation_request_id : option uuid) : txn DB JiraIssueLink :=
  request ← issue_request organization_id finding_id actor idempotency_key;
  match request with
  | inl link => mret link
  | inr (integration, finding, s, i) =>
      result ← match (create_issue client s i).1 with
        | inl result => mret result
        | inr (JiraClientError _ _) => raise OtherException
        | inr (ClientException e) => raise e
        end;
      let link := new_link new_id now organization_id actor idempotency_key remediation_request_id
        integration finding result in
      _ ← save true link;
      _ ← _audit "jira.issue.created" integration (User.id actor);
      _ ← commit;
      mret link
  end.

(** services/jira_integration_service.py:175-207, JiraIntegrationService.test_connection. *)
Definition test_jira_connection `{JiraClient C} (client : C) (now : timestamp)
    (organization_id : uuid) (actor : User) : txn DB JiraIntegration :=
  '(integration, s) ← test_request organization_id actor;
  test_finish now actor integration (test_connection client s).1.

(** services/jira_integration_service.py:326-341,
    JiraIntegrationService.issue_links_for_finding. *)
Definition issue_links_for_finding (organization_id finding_id : uuid) (actor : User)
    : txn DB (list JiraIssueLink) :=
  _ ← _require_enabled;
  _ ← require_capability organization_id (User.id actor) Capability.JIRA_READ;
  finding ← gets (finding_of organization_id finding_id);
  _ ← some_or finding (NotFoundError "finding_not_found");
  gets (jira_issue_links_for_finding organization_id finding_id).

(** * The endpoints *)

(** schemas/jira_integration.py:37-42, JiraIntegrationUpdate.validate_https. *)
Definition validate_https_change (value : option string) : res (option string) :=
  match value with
  | Some value => value ← validate_https value; mret (Some value)
  | None => mret None
  end.

(** schemas/jira_integration.py:44-58, JiraIntegrationUpdate.at_least_one_change. *)
Definition at_least_one_change (c : JiraIntegrationUpdate) : bool :=
  is_some_ (Change.base_url c) || is_some_ (Change.project_key c)
  || is_some_ (Change.default_issue_type c) || is_some_ (Change.email c)
  || is_some_ (Change.api_token c) || is_some_ (Change.enabled c).

(** api/v1/jira.py:20-41, create_jira_integration. *)
Definition create_jira_integration (new_id : uuid) (nonce : string) (organization_id : uuid)
    (payload : JiraIntegrationCreate) (user : User) : txn DB JiraIntegration :=
  base_url ← of_res (validate_https (New.base_url payload));
  create new_id nonce organization_id user
    (New.mk base_url (New.project_key payload) (New.default_issue_type payload) (New.email payload)
       (New.api_token payload)).

(** api/v1/jira.py:44-52, get_jira_integration. *)
Definition get_jira_integration (organization_id : uuid) (user : User) : txn DB JiraIntegration :=
  get organization_id user.

(** api/v1/jira.py:55-76, update_jira_integration. *)
Definition update_jira_integration (nonce : string) (organization_id : uuid)
    (payload : JiraIntegrationUpdate) (user : User) : txn DB JiraIntegration :=
  base_url ← of_res (validate_https_change (Change.base_url payload));
  _ ← ensure (at_least_one_change payload) ValueError;
  update nonce organization_id user
    (Change.mk base_url (Change.project_key payload) (Change.default_issue_type payload)
       (Change.email payload) (Change.api_token payload) (Change.enabled payload)).

(** api/v1/jira.py:79-87, test_jira_integration. *)
Definition test_jira_integration `{JiraClient C} (client : C) (now : timestamp)
    (organization_id : uuid) (user : User) : txn DB JiraIntegration :=
  test_jira_connection client now organization_id user.

(** api/v1/jira.py:90-98, disconnect_jira_integration. *)
Definition disconnect_jira_integration (organization_id : uuid) (user : User)
    : txn DB JiraIntegration := disconnect organization_id user.

(** api/v1/jira.py:101-121, create_jira_issue_for_finding. *)
Definition create_jira_issue_for_finding `{JiraClient C} (client : C) (new_id : uuid)
    (now : timestamp) (organization_id finding_id : uuid) (idempotency_key : string)
    (remediation_request_id : option uuid) (user : User) : txn DB JiraIssueLink :=
  create_issue_for_finding client new_id now organization_id finding_id user idempotency_key
    remediation_request_id.

(** api/v1/jira.py:124-138, list_jira_issues_for_finding. *)
Definition list_jira_issues_for_finding (organization_id finding_id : uuid) (user : User)
    : txn DB (list JiraIssueLink) := issue_links_for_finding organization_id finding_id user.
End service.

(** * Rules *)

(** The database without the tables of this file and the audit log. *)
Definition jira_facts (d : DB) : DB :=
  d <| DB.jira_integrations := ∅ |> <| DB.jira_links := ∅ |> <| DB.audit := [] |>.

Lemma jira_facts_integrations f d : jira_facts (set_rows JiraIntegration f d) = jira_facts d.
Proof. by destruct d. Qed.
Lemma jira_facts_links f d : jira_facts (set_rows JiraIssueLink f d) = jira_facts d.
Proof. by destruct d. Qed.
Lemma jira_facts_audit f d : jira_facts (d <| DB.audit ::= f |>) = jira_facts d.
Proof. by destruct d. Qed.

Record jira_ok (d : DB) : Prop := {
  jo_integrations : sound JiraIntegration d;
  jo_links : sound JiraIssueLink d
}.

(** One integration was written. *)
Definition stored (fresh : bool) (i : JiraIntegration) (d d' : DB) : Prop :=
  unique_ok fresh integration_conflict i (DB.jira_integrations d) = true
  ∧ DB.jira_integrations d' = put i (DB.jira_integrations d)
  ∧ DB.jira_links d' = DB.jira_links d ∧ jira_facts d' = jira_facts d.

(** One link was added. *)
Definition linked (l : JiraIssueLink) (d d' : DB) : Prop :=
  unique_ok true link_conflict l (DB.jira_links d) = true
  ∧ DB.jira_links d' = put l (DB.jira_links d)
  ∧ DB.jira_integrations d' = DB.jira_integrations d ∧ jira_facts d' = jira_facts d.

Lemma stored_ok fresh i d d' : jira_ok d → stored fresh i d d' → jira_ok d'.
Proof.
  intros [Hi Hl] (Hu & E1 & E2 & _). split.
  - by apply (sound_put JiraIntegration fresh i d).
  - by apply (sound_rows JiraIssueLink d).
Qed.
Lemma linked_ok l d d' : jira_ok d → linked l d d' → jira_ok d'.
Proof.
  intros [Hi Hl] (Hu & E1 & E2 & _). split.
  - by apply (sound_rows JiraIntegration d).
  - by apply (sound_put JiraIssueLink true l d).
Qed.

Definition manages (organization_id : uuid) (actor : User) (d : DB) : Prop :=
  ∃ m, active_membership organization_id (User.id actor) d = Some m
    ∧ role_has_capability (OrganizationMembership.role m) Capability.JIRA_MANAGE = true.

(** A method that begins with queries only. *)
Lemma run_prefix {A B} (m : txn DB A) (f : A → txn DB B) d (P : A → Prop) :
  wp m (λ o σ, σ = Sess d d ∧ match o with Ret a => P a | Raise _ => True end) (Sess d d) →
  (∃ a, P a ∧ (run m d).1 = Ret a ∧ run (m ≫= f) d = run (f a) d)
  ∨ ∃ e, (run m d).1 = Raise e ∧ run (m ≫= f) d = (Raise e, d).
Proof.
  Transparent wp. unfold wp, run, mbind, txn_bind. Opaque wp.
  destruct (m (Sess d d)) as [[a|e] σ]; cbn; intros [-> Ha]; [left; by exists a|right; by exists e].
Qed.

Section rules.
Context `{Aesgcm} (settings : JiraSettings).
Implicit Types (σ : sess DB) (i : JiraIntegration) (d : DB).

(** The site that a connection stands for. *)
Definition site_value i : option site :=
  match _encryption_key settings with
  | inl key =>
      match decrypt (JI.api_token_encrypted i) key with
      | inl token => Some (mk_site (JI.base_url i) (JI.email i) token)
      | inr _ => None
      end
  | inr _ => None
  end.

Lemma wp_of_box {A} (r : A + box_error) Q σ :
  (∀ a, r = inl a → Q (Ret a) σ) → (∀ e, Q (Raise e) σ) → wp (of_box r) Q σ.
Proof. intros H1 H2. destruct r as [a|e]; cbn; [apply wp_ret; auto|apply wp_raise; auto]. Qed.

Lemma wp_site_of i Q σ :
  (∀ s, site_value i = Some s → Q (Ret s) σ) → (∀ e, Q (Raise e) σ) → wp (site_of settings i) Q σ.
Proof.
  intros H1 H2. unfold site_of, site_value in *.
  apply wp_bind, wp_of_box; [|done]. intros key Ek. rewrite Ek in H1.
  apply wp_bind, wp_of_box; [|done]. intros token Et. rewrite Et in H1. by apply wp_ret, H1.
Qed.

Lemma wp_configured org actor Q σ :
  (∀ i, manages org actor (working σ) → jira_integration_for_organization org (working σ) = Some i →
     Q (Ret i) σ) →
  (∀ e, Q (Raise e) σ) →
  wp (configured settings org actor Capability.JIRA_MANAGE) Q σ.
Proof.
  intros H1 H2. unfold configured, _require_enabled. apply wp_bind, wp_ensure; [intros _|auto].
  apply wp_bind, wp_require_capability; auto. intros m Hm Hc.
  apply wp_bind, wp_gets, wp_some_or; [|auto]. intros i Hi. apply H1; [by exists m|done].
Qed.

Lemma wp_audit_jira e i actor Q σ :
  (∀ f, Q (Ret tt) (Sess (committed σ) ((working σ) <| DB.audit ::= f |>))) →
  wp (_audit e i actor) Q σ.
Proof. intros HQ. unfold _audit, audit_ok, record_audit. wp_go. by apply (HQ _). Qed.

(** The audit event and the commit of a changed row. *)
Lemma wp_store_integration e actor i Q σ :
  (∀ d', stored false i (working σ) d' → Q (Ret i) (Sess d' d')) →
  (∀ e s, committed s = committed σ → Q (Raise e) s) →
  wp (_ ← _audit e i actor; _ ← _commit i; mret i) Q σ.
Proof.
  intros H1 H2. apply wp_bind, wp_audit_jira. intros f. unfold _commit.
  apply wp_bind, wp_try, wp_bind, wp_save; intros.
  - apply wp_commit, wp_ret, H1. split_and!; [done..|]. cbn [working].
    by rewrite jira_facts_integrations, jira_facts_audit.
  - by apply wp_bind, wp_rollback, wp_raise, H2.
Qed.

Lemma jira_create_spec new_id nonce org actor payload d :
  match run (create settings new_id nonce org actor payload) d with
  | (Ret i, d') => manages org actor d ∧ jira_integration_for_organization org d = None
      ∧ (∃ key, _encryption_key settings = inl key
           ∧ i = new_integration new_id org actor payload (encrypt (New.api_token payload) key nonce))
      ∧ stored true i d d'
  | (Raise e, d') => d' = d
  end.
Proof.
  apply run_cases. unfold create, _require_enabled. apply wp_bind, wp_ensure; [intros _|done].
  apply wp_bind, wp_require_capability; [|done|done]. intros m Hm Hc.
  apply wp_bind, wp_gets, wp_bind, wp_ensure; [|done]. cbn [working]. intros Hn.
  apply wp_bind, wp_of_box; [|done]. intros key Ek. cbv zeta.
  apply wp_bind, wp_save; intros; [|done]. apply wp_bind, wp_audit_jira. intros f.
  apply wp_bind, wp_commit, wp_ret. cbn [committed working]. split; [by exists m|].
  split; [by destruct (jira_integration_for_organization org d)|]. split; [by exists key|].
  split_and!; [done..|]. by rewrite jira_facts_audit, jira_facts_integrations.
Qed.

Lemma jira_update_spec nonce org actor payload d :
  match run (update settings nonce org actor payload) d with
  | (Ret i, d') => manages org actor d ∧ ∃ i0 token, jira_integration_for_organization org d = Some i0
      ∧ match Change.api_token payload with
        | Some t => ∃ key, _encryption_key settings = inl key ∧ token = Some (encrypt t key nonce)
        | None => token = None
        end
      ∧ i = updated payload token i0 ∧ stored false i d d'
  | (Raise e, d') => d' = d
  end.
Proof.
  apply run_cases. unfold update. apply wp_bind, wp_configured; [|done]. cbn [working]. intros i0 Hm Hi.
  apply wp_bind. destruct (Change.api_token payload) as [t|].
  - apply wp_bind, wp_of_box; [|done]. intros key Ek. apply wp_ret, wp_store_integration; [|done].
    cbn [working]. intros d' Hd. split; [done|]. exists i0, (Some (encrypt t key nonce)). eauto 10.
  - apply wp_ret, wp_store_integration; [|done]. cbn [working]. intros d' Hd. split; [done|]. by exists i0, None.
Qed.

Lemma jira_disconnect_spec org actor d :
  match run (disconnect settings org actor) d with
  | (Ret i, d') => manages org actor d ∧ ∃ i0, jira_integration_for_organization org d = Some i0
      ∧ i = i0 <| JI.status := JiraIntegrationStatus.DISCONNECTED |> <| JI.enabled := false |>
              <| JI.failure_reason := None |> ∧ stored false i d d'
  | (Raise e, d') => d' = d
  end.
Proof.
  apply run_cases. unfold disconnect. apply wp_bind, wp_configured; [|done]. cbn [working].
  intros i0 Hm Hi. apply wp_store_integration; [|done]. cbn [working]. intros d' Hd. split; [done|]. by exists i0.
Qed.

Lemma wp_test_request org actor Q σ :
  (∀ i s, manages org actor (working σ) → jira_integration_for_organization org (working σ) = Some i →
     site_value i = Some s → Q (Ret (i, s)) σ) →
  (∀ e, Q (Raise e) σ) →
  wp (test_request settings org actor) Q σ.
Proof.
  intros H1 H2. unfold test_request. apply wp_bind, wp_configured; [|auto]. intros i Hm Hi.
  apply wp_bind, wp_site_of; [|auto]. intros s Hs. apply wp_ret. by apply H1.
Qed.

Lemma jira_test_spec `{JiraClient C} (client : C) now org actor d :
  match run (test_jira_connection settings client now org actor) d with
  | (Ret i, d') => manages org actor d ∧ ∃ i0 s, jira_integration_for_organization org d = Some i0
      ∧ site_value i0 = Some s ∧ (run (test_request settings org actor) d).1 = Ret (i0, s)
      ∧ stored false i d d'
      ∧ match (test_connection client s).1 with
        | inl _ => i = validated now JiraIntegrationStatus.CONNECTED None i0
        | inr (JiraClientError code _) => i = validated now JiraIntegrationStatus.FAILED
            (Some (JiraErrorCode.value code)) i0
        | inr _ => False
        end
  | (Raise e, d') => d' = d
  end.
Proof.
  unfold test_jira_connection.
  destruct (run_prefix (test_request settings org actor)
    (λ x, let '(i, s) := x in test_finish now actor i (test_connection client s).1) d
    (λ x, manages org actor d ∧ jira_integration_for_organization org d = Some x.1
       ∧ site_value x.1 = Some x.2)) as [([i0 s] & (Hm & Hi & Hs) & Hq & ->)|(e & _ & ->)]; [| |done].
  { by apply wp_test_request. }
  apply run_cases. unfold test_finish.
  destruct ((test_connection client s).1) as [[]|[code b|e]] eqn:Et; [| |by apply wp_raise];
    (apply wp_store_integration; [|done]); cbn [working]; intros d' Hd;
    (split; [done|]); exists i0, s; rewrite Et; by split_and!.
Qed.

(** What the issue for a finding is created from. *)
Definition issue_for (i : JiraIntegration) (f : Finding) (org : uuid) (d : DB) : issue :=
  let content := _issue_content org f d in
  mk_issue (JI.project_key i) (JI.default_issue_type i) content.1 content.2
    ["cloudops"; FindingSeverity.value (Finding.severity f)].

(** A connection through which an issue can be created for a finding. *)
Definition ready (org finding_id : uuid) (i : JiraIntegration) (f : Finding) (s : site) (d : DB)
    : Prop :=
  jira_integration_for_organization org d = Some i ∧ JI.enabled i = true
  ∧ JI.status i = JiraIntegrationStatus.CONNECTED ∧ finding_of org finding_id d = Some f
  ∧ site_value i = Some s.

Lemma wp_issue_request org finding_id actor key Q σ :
  (∀ l, manages org actor (working σ) →
     jira_issue_link_by_idempotency_key org key (working σ) = Some l → Q (Ret (inl l)) σ) →
  (∀ i f s, manages org actor (working σ) →
     jira_issue_link_by_idempotency_key org key (working σ) = None →
     ready org finding_id i f s (working σ) →
     Q (Ret (inr (i, f, s, issue_for i f org (working σ)))) σ) →
  (∀ e, Q (Raise e) σ) →
  wp (issue_request settings org finding_id actor key) Q σ.
Proof.
  intros H1 H2 H3. unfold issue_request, _require_enabled. apply wp_bind, wp_ensure; [intros _|auto].
  apply wp_bind, wp_require_capability; auto. intros m Hm Hc.
  assert (manages org actor (working σ)) as Hman by by exists m.
  apply wp_bind, wp_gets. destruct (jira_issue_link_by_idempotency_key _ _ _) as [l|] eqn:El.
  { apply wp_ret. by apply H1. }
  apply wp_bind, wp_gets, wp_bind, wp_some_or; [|auto]. intros i Hi.
  apply wp_bind, wp_ensure; [|auto]. intros [He Hst%bool_decide_eq_true]%andb_true_iff.
  apply wp_bind, wp_gets, wp_bind, wp_some_or; [|auto]. intros f Hf.
  apply wp_bind, wp_gets, wp_bind, wp_site_of; [|auto]. intros s Hs.
  apply wp_ret, H2; [done..|]. by split_and!.
Qed.

(** What the queries of a request find: the link, or what is asked of the
    client. *)
Definition requested (org finding_id : uuid) (actor : User) (key : string) (d : DB)
    (r : JiraIssueLink + JiraIntegration * Finding * site * issue) : Prop :=
  manages org actor d ∧
  match r with
  | inl l => jira_issue_link_by_idempotency_key org key d = Some l
  | inr (i, f, s, x) => jira_issue_link_by_idempotency_key org key d = None
      ∧ ready org finding_id i f s d ∧ x = issue_for i f org d
  end.

Lemma issue_request_prefix {B} org finding_id actor key d (g : _ → txn DB B) :
  (∃ r, requested org finding_id actor key d r
     ∧ (run (issue_request settings org finding_id actor key) d).1 = Ret r
     ∧ run (issue_request settings org finding_id actor key ≫= g) d = run (g r) d)
  ∨ ∃ e, (run (issue_request settings org finding_id actor key) d).1 = Raise e
     ∧ run (issue_request settings org finding_id actor key ≫= g) d = (Raise e, d).
Proof. apply run_prefix, wp_issue_request; cbn [working]; [by intros|by intros|done]. Qed.

Lemma issue_request_calls org finding_id actor key d r :
  (run (issue_request settings org finding_id actor key) d).1 = Ret r →
  requested org finding_id actor key d r.
Proof.
  destruct (issue_request_prefix org finding_id actor key d mret) as [(r' & Hr & -> & _)|(e & -> & _)];
    [by intros [= <-]|done].
Qed.

Lemma jira_issue_spec `{JiraClient C} (client : C) new_id now org finding_id actor key rem d :
  match run (create_issue_for_finding settings client new_id now org finding_id actor key rem) d with
  | (Ret l, d') => ∃ r, requested org finding_id actor key d r
      ∧ (run (issue_request settings org finding_id actor key) d).1 = Ret r
      ∧ match r with
        | inl l' => l' = l ∧ d' = d
        | inr (i, f, s, x) => ∃ result, (create_issue client s x).1 = inl result
            ∧ l = new_link new_id now org actor key rem i f result ∧ linked l d d'
        end
  | (Raise e, d') => d' = d
  end.
Proof.
  unfold create_issue_for_finding.
  match goal with |- context [run (issue_request _ _ _ _ _ ≫= ?g) d] =>
    destruct (issue_request_prefix org finding_id actor key d g) as [(r & Hr & Hq & ->)|(e & _ & ->)]
  end; [|done]. apply run_cases. destruct r as [l|[[[i f] s] x]].
  - apply wp_ret. exists (inl l). by split_and!.
  - apply wp_bind. destruct ((create_issue client s x).1) as [result|[|]] eqn:Ec; [|by apply wp_raise..].
    apply wp_ret. cbv zeta. apply wp_bind, wp_save; intros; [|done].
    apply wp_bind, wp_audit_jira. intros g. apply wp_bind, wp_commit, wp_ret. cbn [committed working].
    exists (inr (i, f, s, x)). split_and!; [done..|]. exists result. split_and!; [done..|].
    split_and!; [done..|]. by rewrite jira_facts_audit, jira_facts_links.
Qed.
End rules.

(** * Histories *)

(** A call of a client: a test of a site with its outcome, or an issue that is
    asked for. *)
Inductive call :=
| Tested (s : site) (accepted : bool)
| Created (s : site) (i : issue).

Section histories.
Context `{Aesgcm} (settings : JiraSettings).
Implicit Types (d : DB) (tr l : list call) (i : JiraIntegration).

(** The calls of a test, and of the creation of an issue. *)
Definition test_calls `{JiraClient C} (client : C) (org : uuid) (actor : User) d : list call :=
  match (run (test_request settings org actor) d).1 with
  | Ret (_, s) => [Tested s (if (test_connection client s).1 is inl _ then true else false)]
  | Raise _ => []
  end.
Definition issue_calls (org finding_id : uuid) (actor : User) (key : string) d : list call :=
  match (run (issue_request settings org finding_id actor key) d).1 with
  | Ret (inr (_, _, s, i)) => [Created s i]
  | _ => []
  end.

(** A step of the service with the calls it makes, by whoever and with any
    client, or a change of anything else. *)
Inductive jira_step : list call → DB → DB → Prop :=
| jira_create new_id nonce org actor payload d :
    jira_step [] d (run (create settings new_id nonce org actor payload) d).2
| jira_update nonce org actor payload d :
    jira_step [] d (run (update settings nonce org actor payload) d).2
| jira_test C `(JiraClient C) (client : C) now org actor d :
    jira_step (test_calls client org actor d) d
      (run (test_jira_connection settings client now org actor) d).2
| jira_disconnect org actor d : jira_step [] d (run (disconnect settings org actor) d).2
| jira_issue C `(JiraClient C) (client : C) new_id now org finding_id actor key rem d :
    jira_step (issue_calls org finding_id actor key d) d
      (run (create_issue_for_finding settings client new_id now org finding_id actor key rem) d).2
| jira_elsewhere d d' :
    DB.jira_integrations d' = DB.jira_integrations d → DB.jira_links d' = DB.jira_links d →
    jira_step [] d d'.

Inductive jira_history d0 : list call → DB → Prop :=
| history_start : jira_history d0 [] d0
| history_step tr d l d' :
    jira_history d0 tr d → jira_step l d d' → jira_history d0 (tr ++ l) d'.

(** A connection that is connected was accepted by a client with the address
    and the credentials it has. *)
Definition backed tr d : Prop :=
  ∀ k i, DB.jira_integrations d !! k = Some i → JI.status i = JiraIntegrationStatus.CONNECTED →
    ∃ s, site_value settings i = Some s ∧ Tested s true ∈ tr.

Definition is_creation (c : call) : bool := if c is Created _ _ then true else false.
Definition creations tr : nat := length (List.filter is_creation tr).

(** Every issue that was asked for was asked for at a site that had accepted
    its credentials before. *)
Definition asked_well tr : Prop :=
  ∀ tr1 s x tr2, tr = tr1 ++ Created s x :: tr2 → Tested s true ∈ tr1.

Lemma backed_more tr l d : backed tr d → backed (tr ++ l) d.
Proof. intros Hb k i Hi Hc. destruct (Hb k i Hi Hc) as (s & Hs & Ht). exists s. set_solver. Qed.

Lemma current_Some org d i :
  sound JiraIntegration d → jira_integration_for_organization org d = Some i →
  DB.jira_integrations d !! JI.id i = Some i.
Proof.
  intros Hs (k & Hk & _)%find_row_Some. pose proof (tk_keyed _ _ _ _ Hs _ _ Hk) as E.
  change (JI.id i = k) in E. by subst k.
Qed.

(** A row that is written keeps the table backed when it is. *)
Lemma backed_stored tr fresh i d d' :
  backed tr d → stored fresh i d d' →
  (JI.status i = JiraIntegrationStatus.CONNECTED →
     ∃ s, site_value settings i = Some s ∧ Tested s true ∈ tr) →
  backed tr d'.
Proof.
  intros Hb (_ & E & _) Hi k j. rewrite E. unfold put. rewrite lookup_insert.
  case_decide; [by intros [= <-]|]. apply Hb.
Qed.

Lemma updated_connected payload token i :
  is_some_ token = is_some_ (Change.api_token payload) →
  JI.status (updated payload token i) = JiraIntegrationStatus.CONNECTED →
  JI.status i = JiraIntegrationStatus.CONNECTED
  ∧ site_value settings (updated payload token i) = site_value settings i.
Proof.
  unfold updated, site_value. intros Ht.
  destruct (Change.base_url payload), (Change.email payload), (Change.api_token payload), token;
    try discriminate Ht; cbn; try discriminate; done.
Qed.

Lemma asked_well_nil tr : asked_well tr → asked_well (tr ++ []).
Proof. by rewrite app_nil_r. Qed.
Lemma asked_well_more tr l :
  asked_well tr → (∀ s x, Created s x ∈ l → l = [Created s x] ∧ Tested s true ∈ tr) →
  asked_well (tr ++ l).
Proof.
  intros Ht Hl tr1 s x tr2 E. apply app_eq_inv in E as [(k & E1 & E2)|(k & E1 & E2)].
  - destruct k as [|c k]; cbn in E2.
    + destruct (Hl s x) as [Hx Hs]; [rewrite <-E2; by left|]. rewrite app_nil_r in E1. by subst.
    + injection E2 as <- ->. by apply (Ht tr1 s x k).
  - destruct (Hl s x) as [Hx Hs]; [rewrite E2; set_solver|]. subst. set_solver.
Qed.

Lemma test_calls_of `{JiraClient C} (client : C) org actor d c :
  c ∈ test_calls client org actor d → is_creation c = false.
Proof.
  unfold test_calls. destruct (run _ d).1 as [[? s]|]; [|set_solver].
  intros ->%list_elem_of_singleton. done.
Qed.

(** Links are only added, at most as many as issues were asked for. *)
Definition links_grow (n : nat) d d' : Prop :=
  DB.jira_links d ⊆ DB.jira_links d' ∧ (size (DB.jira_links d') ≤ size (DB.jira_links d) + n)%nat.
Lemma links_same d d' : DB.jira_links d' = DB.jira_links d → links_grow 0 d d'.
Proof. intros E. split; rewrite E; [done|lia]. Qed.
Lemma linked_grow (x : JiraIssueLink) d d' : linked x d d' → links_grow 1 d d'.
Proof.
  intros ([Hn _]%unique_ok_true & E & _). specialize (Hn eq_refl). split; rewrite E; unfold put.
  - by apply insert_subseteq.
  - rewrite map_size_insert, Hn. cbn. lia.
Qed.

(** What a step without a call keeps. *)
Lemma quiet tr d d' :
  asked_well tr → jira_ok d' → backed tr d' → links_grow 0 d d' →
  jira_ok d' ∧ backed (tr ++ []) d' ∧ asked_well (tr ++ []) ∧ links_grow (creations []) d d'.
Proof. rewrite app_nil_r. by intros. Qed.
Lemma nothing tr l d :
  jira_ok d → backed tr d → asked_well (tr ++ l) →
  jira_ok d ∧ backed (tr ++ l) d ∧ asked_well (tr ++ l) ∧ links_grow (creations l) d d.
Proof. intros Ho Hb Ht. split_and!; [done|by apply backed_more|done|]. split; [done|lia]. Qed.

Lemma issue_calls_well tr org finding_id actor key d :
  jira_ok d → backed tr d → asked_well tr → asked_well (tr ++ issue_calls org finding_id actor key d).
Proof.
  intros Ho Hb Ht. apply asked_well_more; [done|]. intros s x. unfold issue_calls.
  pose proof (issue_request_calls settings org finding_id actor key d) as Hc.
  destruct (run _ d).1 as [[l|[[[i f] s'] x']]|]; [set_solver| |set_solver].
  intros [= -> ->]%list_elem_of_singleton. split; [done|].
  destruct (Hc _ eq_refl) as (_ & _ & (Hi & _ & Hst & _ & Hs) & _).
  apply current_Some in Hi; [|apply Ho]. destruct (Hb _ _ Hi Hst) as (s1 & Hs1 & Hin). congruence.
Qed.

Lemma jira_step_ok tr l d d' :
  jira_ok d → backed tr d → asked_well tr → jira_step l d d' →
  jira_ok d' ∧ backed (tr ++ l) d' ∧ asked_well (tr ++ l) ∧ links_grow (creations l) d d'.
Proof.
  intros Ho Hb Ht Hst. pose proof (asked_well_nil _ Ht) as Ht0.
  destruct Hst as [new_id nonce org actor payload d|nonce org actor payload d
    |C HC client now org actor d|org actor d|C HC client new_id now org fid actor key rem d
    |d d' E1 E2].
  - pose proof (jira_create_spec settings new_id nonce org actor payload d) as Hs.
    destruct (run _ d) as [[i|e] d']; cbn [snd]; [|subst; by apply nothing].
    destruct Hs as (_ & _ & (key & _ & ->) & Hs).
    apply quiet; [done|by eapply stored_ok|by eapply backed_stored|apply links_same, Hs].
  - pose proof (jira_update_spec settings nonce org actor payload d) as Hs.
    destruct (run _ d) as [[i|e] d']; cbn [snd]; [|subst; by apply nothing].
    destruct Hs as (_ & i0 & token & Hi & Htok & -> & Hs).
    apply quiet; [done|by eapply stored_ok| |apply links_same, Hs].
    eapply backed_stored; [done..|]. intros Hc. apply updated_connected in Hc as [Hc ->].
    + apply (Hb _ _ (current_Some _ _ _ (jo_integrations _ Ho) Hi) Hc).
    + destruct (Change.api_token payload); [by destruct Htok as (? & _ & ->)|by subst].
  - pose proof (jira_test_spec settings client now org actor d) as Hs.
    assert (asked_well (tr ++ test_calls client org actor d)) as Hw.
    { apply asked_well_more; [done|]. intros s x Hx%test_calls_of. done. }
    destruct (run _ d) as [[i|e] d']; cbn [snd]; [|subst; by apply nothing].
    destruct Hs as (_ & i0 & s & Hi & Hsite & Hreq & Hs & Hans).
    split; [by eapply stored_ok|]. split; [|split; [done|]].
    + eapply backed_stored; [by apply backed_more|done|].
      unfold test_calls. rewrite Hreq.
      destruct ((test_connection client s).1) as [[]|[code b|e]]; [..|done]; subst i; cbn; [|done].
      intros _. exists s. split; [done|set_solver].
    + destruct (links_same d d') as [H1 H2]; [apply Hs|]. split; [done|lia].
  - pose proof (jira_disconnect_spec settings org actor d) as Hs.
    destruct (run _ d) as [[i|e] d']; cbn [snd]; [|subst; by apply nothing].
    destruct Hs as (_ & i0 & Hi & -> & Hs).
    apply quiet; [done|by eapply stored_ok|by eapply backed_stored|apply links_same, Hs].
  - pose proof (jira_issue_spec settings client new_id now org fid actor key rem d) as Hs.
    pose proof (issue_calls_well tr org fid actor key d Ho Hb Ht) as Hw.
    destruct (run _ d) as [[l|e] d']; cbn [snd]; [|subst; by apply nothing].
    destruct Hs as ([l'|[[[i f] s] x]] & Hr & Hq & Hs); [destruct Hs as [_ ->]; by apply nothing|].
    destruct Hs as (result & _ & _ & Hs).
    split; [by eapply linked_ok|]. split; [|split; [done|]].
    + intros k j. destruct Hs as (_ & _ & -> & _). by apply backed_more.
    + unfold issue_calls. rewrite Hq. by eapply linked_grow.
  - apply quiet; [done| |by intros k i; rewrite E1; apply Hb|by apply links_same].
    split; [apply (sound_rows JiraIntegration d); [done|apply Ho]
      |apply (sound_rows JiraIssueLink d); [done|apply Ho]].
Qed.

(** C32. Issues over any history of the service, with any clients, users and
    requests, that starts without a connected integration: a client is asked for
    an issue only at an address and with an e-mail and a token that a client
    accepted in a test before, although each of them can be changed in between.
    At most one link is recorded for an issue that was asked for, one link for
    each key of an organization, and a link that was recorded stays as it is. *)
Theorem issues_go_to_tested_sites (d0 d : DB) (tr : list call) :
  jira_ok d0 →
  (∀ k i, DB.jira_integrations d0 !! k = Some i → JI.status i ≠ JiraIntegrationStatus.CONNECTED) →
  jira_history d0 tr d →
  (∀ tr1 s x tr2, tr = tr1 ++ Created s x :: tr2 → Tested s true ∈ tr1)
  ∧ DB.jira_links d0 ⊆ DB.jira_links d
  ∧ (size (DB.jira_links d) ≤ size (DB.jira_links d0) + creations tr)%nat
  ∧ unique_index link_conflict (DB.jira_links d)
  ∧ unique_index integration_conflict (DB.jira_integrations d).
Proof.
  intros Ho Hn Hh.
  assert (jira_ok d ∧ backed tr d ∧ asked_well tr ∧ links_grow (creations tr) d0 d)
    as (Ho' & _ & Ht & [H1 H2]).
  { induction Hh as [|tr d l d' Hh IH Hst].
    - split_and!; [done|intros k i Hi Hc; by destruct (Hn k i)|by intros [] ????|].
      split; [done|lia].
    - destruct IH as (Ho1 & Hb & Ht & [G1 G2]).
      destruct (jira_step_ok _ _ _ _ Ho1 Hb Ht Hst) as (Ho2 & Hb2 & Ht2 & [G3 G4]).
      split_and!; [done..|]. split; [by etrans|]. unfold creations in *.
      rewrite List.filter_app, List.length_app. lia. }
  split_and!; [exact Ht|done|done|exact (tk_unique _ _ _ _ (jo_links _ Ho'))
    |exact (tk_unique _ _ _ _ (jo_integrations _ Ho'))].
Qed.

Lemma link_found (org : uuid) (key : string) (l : JiraIssueLink) d' :
  sound JiraIssueLink d' → DB.jira_links d' !! JL.id l = Some l →
  JL.organization_id l = org → JL.idempotency_key l = key →
  jira_issue_link_by_idempotency_key org key d' = Some l.
Proof.
  intros Hs Hl <- <-. unfold jira_issue_link_by_idempotency_key.
  destruct (find_row _ _) as [l'|] eqn:E.
  - apply find_row_Some in E as (k & Hk & E). bools. destruct (decide (k = JL.id l)) as [->|Hne].
    + congruence.
    + pose proof (tk_unique _ _ _ _ Hs _ _ _ _ Hk Hl Hne) as Hu. cbn in Hu.
      unfold link_conflict in Hu. rewrite !bool_decide_eq_true_2 in Hu by done. discriminate Hu.
  - rewrite find_row_None in E. specialize (E _ _ Hl). cbn in E.
    rewrite !bool_decide_eq_true_2 in E by done. discriminate E.
Qed.

(** A request whose key was used gets the link, and no client is asked. *)
Lemma issue_again `{JiraClient C} (client : C) new_id now org finding_id actor key rem d (l : JiraIssueLink) :
  JiraSettings.jira_enabled settings = true → manages org actor d →
  jira_issue_link_by_idempotency_key org key d = Some l →
  run (create_issue_for_finding settings client new_id now org finding_id actor key rem) d = (Ret l, d)
  ∧ issue_calls org finding_id actor key d = [].
Proof.
  intros He (m & Hm & Hc) Hl.
  assert (∀ Q, Q (Ret (inl l)) (Sess d d) →
    wp (issue_request settings org finding_id actor key) Q (Sess d d)) as Hw.
  { intros Q HQ. unfold issue_request, _require_enabled. rewrite He.
    apply wp_bind, wp_ret, wp_bind, wp_require_capability; cbn [working]; [|congruence|congruence].
    intros _ _ _. apply wp_bind, wp_gets. cbn [working]. rewrite Hl. by apply wp_ret. }
  destruct (run_exists (create_issue_for_finding settings client new_id now org finding_id actor key rem)
    l (λ d', d' = d) d) as (d1 & -> & ->).
  { unfold create_issue_for_finding. apply wp_bind, Hw, wp_ret. done. }
  destruct (run_exists (issue_request settings org finding_id actor key) (inl l) (λ d', d' = d) d)
    as (d1 & E & ->); [by apply Hw|]. split; [done|]. unfold issue_calls. by rewrite E.
Qed.

(** What a request for an issue does.  It needs the capability in the
    organization.  When the key was used it gets the stored link: no client is
    asked and nothing changes.  Otherwise the client is asked once, through the
    enabled and connected integration of the organization, for a finding of the
    organization; the link with its answer is all that is added, and from then
    on every request with the key gets it, whoever makes it, with whatever
    client.  A request that fails changes nothing. *)
Theorem issue_creation_decides `{JiraClient C} (client : C) (new_id : uuid) (now : timestamp)
    (org finding_id : uuid) (actor : User) (key : string) (rem : option uuid) (d : DB) :
  jira_ok d →
  let calls := issue_calls org finding_id actor key d in
  match run (create_issue_for_finding settings client new_id now org finding_id actor key rem) d with
  | (Raise e, d') => d' = d
  | (Ret l, d') => manages org actor d
      ∧ (jira_issue_link_by_idempotency_key org key d = Some l ∧ d' = d ∧ calls = []
         ∨ jira_issue_link_by_idempotency_key org key d = None
           ∧ ∃ i f s result, ready settings org finding_id i f s d
             ∧ calls = [Created s (issue_for i f org d)]
             ∧ (create_issue client s (issue_for i f org d)).1 = inl result
             ∧ l = new_link new_id now org actor key rem i f result ∧ linked l d d')
      ∧ ∀ C' (HC : JiraClient C') (client' : C') id' now' finding' actor' rem',
          manages org actor' d' →
          run (create_issue_for_finding settings client' id' now' org finding' actor' key rem') d'
            = (Ret l, d')
          ∧ issue_calls org finding' actor' key d' = []
  end.
Proof.
  intros Ho calls.
  pose proof (jira_issue_spec settings client new_id now org finding_id actor key rem d) as Hs.
  destruct (run _ d) as [[l|e] d']; [|done]. destruct Hs as (r & [Hm Hr] & Hq & Hs).
  assert (JiraSettings.jira_enabled settings = true) as He.
  { destruct (JiraSettings.jira_enabled settings) eqn:E; [done|]. exfalso.
    unfold issue_request, _require_enabled in Hq. rewrite E in Hq. discriminate Hq. }
  split; [done|]. unfold calls, issue_calls. rewrite Hq.
  assert (jira_issue_link_by_idempotency_key org key d' = Some l) as Hl.
  { destruct r as [l'|[[[i f] s] x]]; [by destruct Hs as [-> ->]|].
    destruct Hs as (result & _ & -> & Hs). pose proof (linked_ok _ _ _ Ho Hs) as Ho'.
    apply link_found; [apply Ho'| |done|done]. destruct Hs as (_ & -> & _). apply lookup_insert_eq. }
  split; [|intros; by apply issue_again].
  destruct r as [l'|[[[i f] s] x]]; [left; by destruct Hs as [-> ->]|right].
  destruct Hr as (Hn & Hr & ->). destruct Hs as (result & Hc & -> & Hs). split; [done|].
  exists i, f, s, result. by split_and!.
Qed.
End histories.

Section tokens.
Context `{AesgcmLaws} (settings : JiraSettings).

Lemma site_value_encrypted key nonce token i :
  _encryption_key settings = inl key → String.length nonce = NONCE_BYTES →
  JI.api_token_encrypted i = encrypt token key nonce →
  site_value settings i = Some (mk_site (JI.base_url i) (JI.email i) token).
Proof.
  intros Hk Hn Ht. unfold site_value. rewrite Hk, Ht.
  rewrite decrypt_encrypt; [done|by eapply load_key_length|done].
Qed.

Lemma updated_site change token i0 s0 nonce :
  String.length nonce = NONCE_BYTES → site_value settings i0 = Some s0 →
  match Change.api_token change with
  | Some t => ∃ key, _encryption_key settings = inl key ∧ token = Some (encrypt t key nonce)
  | None => token = None
  end →
  site_value settings (updated change token i0)
  = Some (mk_site (default (base_url s0) (Change.base_url change))
            (default (email s0) (Change.email change))
            (default (api_token s0) (Change.api_token change))).
Proof.
  intros Hn Hs0 Htok.
  assert (JI.base_url (updated change token i0) = default (JI.base_url i0) (Change.base_url change)
    ∧ JI.email (updated change token i0) = default (JI.email i0) (Change.email change)
    ∧ JI.api_token_encrypted (updated change token i0) = default (JI.api_token_encrypted i0) token)
    as (Eb & Ee & Et) by (unfold updated; by destruct (_ || _)).
  assert (s0 = mk_site (JI.base_url i0) (JI.email i0) (api_token s0)) as Es0.
  { unfold site_value in Hs0. destruct (_encryption_key settings); [|done].
    destruct (decrypt _ _); [|done]. by injection Hs0 as <-. }
  rewrite Es0. cbn [base_url email api_token]. destruct (Change.api_token change) as [t|].
  - destruct Htok as (key & Hk & ->).
    rewrite (site_value_encrypted key nonce t) by done. by rewrite Eb, Ee.
  - subst token. unfold site_value in *. rewrite Et, Eb, Ee. cbn [default].
    destruct (_encryption_key settings); [|done].
    change (default (JI.api_token_encrypted i0) None) with (JI.api_token_encrypted i0).
    destruct (decrypt _ _); [|done]. by injection Hs0 as <-.
Qed.

(** The token of a connection is stored encrypted and comes back as it was
    given: after a connection is created the client is called with the address,
    the e-mail and the token of the request; after an update with the new values
    that were given and the old ones of the rest, and the connection is
    connected only if none of the three was given. *)
Theorem jira_tokens_are_read_back (nonce : string) (new_id org : uuid) (actor : User)
    (payload : JiraIntegrationCreate) (change : JiraIntegrationUpdate) (i0 : JiraIntegration)
    (s0 : site) (d d0 : DB) :
  String.length nonce = NONCE_BYTES →
  jira_integration_for_organization org d0 = Some i0 → site_value settings i0 = Some s0 →
  match run (create settings new_id nonce org actor payload) d with
  | (Ret i, d') => DB.jira_integrations d' !! new_id = Some i
      ∧ site_value settings i
        = Some (mk_site (New.base_url payload) (New.email payload) (New.api_token payload))
  | (Raise _, d') => d' = d
  end
  ∧ match run (update settings nonce org actor change) d0 with
    | (Ret i, d') => DB.jira_integrations d' !! JI.id i0 = Some i
        ∧ site_value settings i
          = Some (mk_site (default (base_url s0) (Change.base_url change))
                    (default (email s0) (Change.email change))
                    (default (api_token s0) (Change.api_token change)))
        ∧ (JI.status i = JiraIntegrationStatus.CONNECTED → site_value settings i = Some s0)
    | (Raise _, d') => d' = d0
    end.
Proof.
  intros Hn Hi0 Hs0. split.
  - pose proof (jira_create_spec settings new_id nonce org actor payload d) as Hs.
    destruct (run _ d) as [[i|e] d']; [|done]. destruct Hs as (_ & _ & (key & Hk & ->) & _ & E & _).
    split; [rewrite E; apply lookup_insert_eq|].
    by rewrite (site_value_encrypted key nonce (New.api_token payload)).
  - pose proof (jira_update_spec settings nonce org actor change d0) as Hs.
    destruct (run _ d0) as [[i|e] d']; [|done].
    destruct Hs as (_ & i1 & token & Hi1 & Htok & -> & _ & E & _).
    assert (i1 = i0) as -> by congruence. clear Hi1.
    assert (JI.id (updated change token i0) = JI.id i0) as Eid.
    { unfold updated. by destruct (_ || _). }
    split; [rewrite E, <-Eid; apply lookup_insert_eq|]. split.
    + by apply (updated_site change token i0 s0 nonce).
    + intros Hc. apply (updated_connected settings) in Hc as [_ ->]; [done|].
      destruct (Change.api_token change); [by destruct Htok as (? & _ & ->)|by subst].
Qed.
End tokens.

(** * Witnesses *)

(** A cipher that only appends a tag. *)
#[local] Instance tag_cipher : Aesgcm := {|
  aes_encrypt _ _ t := t +:+ "################";
  aes_decrypt _ _ c := Some (str_take (String.length c - 16) c)
|}.
#[local] Instance tag_cipher_laws : AesgcmLaws.
Proof.
  assert (∀ t, String.length (t +:+ "################") = String.length t + 16)%nat as Hl.
  { intros t. by rewrite length_app_str. }
  split; cbn [aes_encrypt aes_decrypt tag_cipher]; [|intros _ _; exact Hl].
  intros _ _ t _ _. rewrite Hl, str_take_app_length by lia. done.
Qed.

Definition lab_settings : JiraSettings :=
  JiraSettings.mk true "AAAAAAAAAAAAAAAAAAAAAAAAAAAAAAAAAAAAAAAAAAA".
Definition lab_payload : JiraIntegrationCreate :=
  New.mk "https://acme.atlassian.net" "OPS" "Bug" "a@example.com" "token".
Definition lab_nonce : string := "twelve bytes".
Definition lab_mock : MockJiraClient := new_mock_jira "success".

(** The connection is created, tested, and used for an issue. *)
Definition lab_connected : DB :=
  (run (create lab_settings 500 lab_nonce 1 alice lab_payload) ai_lab).2.
Definition lab_tested : DB :=
  (run (test_jira_connection lab_settings lab_mock 100 1 alice) lab_connected).2.
Definition lab_linked : DB :=
  (run (create_issue_for_finding lab_settings lab_mock 600 200 1 40 alice "key-0001" None) lab_tested).2.
Definition lab_site : site := mk_site "https://acme.atlassian.net" "a@example.com" "token".

Lemma ai_lab_jira_ok : jira_ok ai_lab.
Proof. split; apply sound_tested; vm_compute; reflexivity. Qed.
Lemma lab_tested_ok : jira_ok lab_tested.
Proof. split; apply sound_tested; vm_compute; reflexivity. Qed.

Definition lab_calls : list call :=
  (([] ++ []) ++ test_calls lab_settings lab_mock 1 alice lab_connected)
  ++ issue_calls lab_settings 1 40 alice "key-0001" lab_tested.
Lemma lab_history : jira_history lab_settings ai_lab lab_calls lab_linked.
Proof.
  exact (history_step _ ai_lab _ lab_tested _ lab_linked
    (history_step _ ai_lab _ lab_connected _ lab_tested
      (history_step _ ai_lab [] ai_lab [] lab_connected (history_start _ ai_lab)
        (jira_create lab_settings 500 lab_nonce 1 alice lab_payload ai_lab))
      (jira_test lab_settings _ _ lab_mock 100 1 alice lab_connected))
    (jira_issue lab_settings _ _ lab_mock 600 200 1 40 alice "key-0001" None lab_tested)).
Qed.

Lemma issues_go_to_tested_sites_witness :
  Tested lab_site true ∈ [Tested lab_site true] ∧ (size (DB.jira_links lab_linked) ≤ 1)%nat
  ∧ lab_calls = [Tested lab_site true;
      Created lab_site (issue_for (new_integration 500 1 alice lab_payload "") ai_finding 1 ai_lab)].
Proof.
  assert (lab_calls = [Tested lab_site true;
    Created lab_site (issue_for (new_integration 500 1 alice lab_payload "") ai_finding 1 ai_lab)])
    as Hc by (vm_compute; reflexivity).
  pose proof (issues_go_to_tested_sites lab_settings ai_lab lab_linked lab_calls ai_lab_jira_ok) as H.
  destruct H as (Ht & _ & Hsize & _).
  - intros k i Hi. exfalso. exact (lookup_empty_Some k i Hi).
  - exact lab_history.
  - rewrite Hc in *. split; [exact (Ht [_] _ _ [] eq_refl)|]. split; [exact Hsize|reflexivity].
Defined.

Lemma issue_creation_decides_witness :
  ∃ l, run (create_issue_for_finding lab_settings lab_mock 600 200 1 40 alice "key-0001" None) lab_tested
    = (Ret l, lab_linked) ∧ JL.issue_key l = "MOCK-1" ∧ linked l lab_tested lab_linked.
Proof.
  pose proof (issue_creation_decides lab_settings lab_mock 600 200 1 40 alice "key-0001" None
    lab_tested lab_tested_ok) as H.
  assert (match (run (create_issue_for_finding lab_settings lab_mock 600 200 1 40 alice "key-0001" None)
                  lab_tested).1 with
          | Ret l => String.eqb (JL.issue_key l) "MOCK-1" | Raise _ => false end = true) as Hc
    by (vm_compute; reflexivity).
  assert (jira_issue_link_by_idempotency_key 1 "key-0001" lab_tested = None) as Hn
    by (vm_compute; reflexivity).
  assert ((run (create_issue_for_finding lab_settings lab_mock 600 200 1 40 alice "key-0001" None)
    lab_tested).2 = lab_linked) as Hd by reflexivity.
  destruct (run _ lab_tested) as [[l|e] d']; [|discriminate Hc]. cbn [fst snd] in Hc, Hd. subst d'.
  apply String.eqb_eq in Hc. exists l. split; [reflexivity|]. split; [exact Hc|].
  destruct H as (_ & [(Hl & _)|(_ & i & f & s & r & _ & _ & _ & _ & Hl)] & _); [|exact Hl].
  rewrite Hn in Hl. discriminate Hl.
Defined.

(** The token is changed, so the connection has to be tested again. *)
Lemma jira_tokens_are_read_back_witness :
  let change := Change.mk None None None None (Some "other") None in
  let '(o, d') := run (update lab_settings lab_nonce 1 alice change) lab_tested in
  ∃ i, o = Ret i ∧ site_value lab_settings i
    = Some (mk_site "https://acme.atlassian.net" "a@example.com" "other").
Proof.
  intros change.
  assert ((jira_integration_for_organization 1 lab_tested ≫= site_value lab_settings) = Some lab_site)
    as E by (vm_compute; reflexivity).
  apply bind_Some in E as (i0 & Ei & Hs).
  destruct (jira_tokens_are_read_back lab_settings lab_nonce 700 1 alice lab_payload change i0 lab_site
    lab_tested lab_tested eq_refl Ei Hs) as [_ H].
  assert (match (run (update lab_settings lab_nonce 1 alice change) lab_tested).1 with
          | Ret _ => true | Raise _ => false end = true) as Hc by (vm_compute; reflexivity).
  destruct (run _ lab_tested) as [[i|e] d']; [|discriminate Hc]. destruct H as (_ & Hv & _).
  exists i. split; [reflexivity|exact Hv].
Defined.
