(* ===== verification/Dashboard.v ===== *)
(** services/dashboard.py and api/v1/dashboard.py: the summary of an
    organization, computed from the rows the other services keep.

    PostgreSQL sorts NULL first in descending order.  Texts are compared by
    their bytes. *)

From S2P Require Import Prelude.
From S2P Require Import History.
From S2P Require Import Enums.
From S2P Require Import Rbac.
From S2P Require Import Models.
From S2P Require Import Tables.
From S2P Require Import Common.
From S2P Require Import Sha256.
From S2P Require Import Organizations.
From Stdlib Require Import SpecFloat ZifyBool Sorted.
From stdpp Require Import sorting list.

Open Scope Z_scope.

(** * The response *)

Module CountItem.
(** schemas/dashboard.py:17-19, DashboardCountItem. *)
Record DashboardCountItem := mk { key : string; count : Z }.
End CountItem.
Abbreviation DashboardCountItem := CountItem.DashboardCountItem.

Module Metadata.
(** schemas/dashboard.py:22-26, DashboardMetadata. *)
Record DashboardMetadata := mk {
  organization_id : uuid;
  generated_at : timestamp;
  is_partial : bool;
  missing_sections : list string
}.
End Metadata.
Abbreviation DashboardMetadata := Metadata.DashboardMetadata.

Module Accounts.
(** schemas/dashboard.py:29-33, DashboardAccountPosture. *)
Record DashboardAccountPosture := mk {
  total_accounts : Z;
  connected_accounts : Z;
  disconnected_accounts : Z;
  accounts_requiring_attention : Z
}.
End Accounts.
Abbreviation DashboardAccountPosture := Accounts.DashboardAccountPosture.

Module Inventory.
(** schemas/dashboard.py:36-41, DashboardAssetInventory. *)
Record DashboardAssetInventory := mk {
  total_assets : Z;
  active_assets : Z;
  inactive_assets : Z;
  counts_by_type : list DashboardCountItem;
  counts_by_region : list DashboardCountItem
}.
End Inventory.
Abbreviation DashboardAssetInventory := Inventory.DashboardAssetInventory.

Module Recent.
(** schemas/dashboard.py:44-53, DashboardRecentFinding. *)
Record DashboardRecentFinding := mk {
  id : uuid;
  aws_account_id : uuid;
  asset_id : option uuid;
  rule_key : string;
  severity : FindingSeverity;
  status : FindingStatus;
  service : string;
  region : option string;
  last_seen_at : timestamp
}.
End Recent.
Abbreviation DashboardRecentFinding := Recent.DashboardRecentFinding.

Module Posture.
(** schemas/dashboard.py:56-63, DashboardFindingPosture. *)
Record DashboardFindingPosture := mk {
  open_total : Z;
  resolved_total : Z;
  suppressed_total : Z;
  open_by_severity : list DashboardCountItem;
  open_by_service : list DashboardCountItem;
  open_by_account : list DashboardCountItem;
  recent_critical_and_high_findings : list DashboardRecentFinding
}.
End Posture.
Abbreviation DashboardFindingPosture := Posture.DashboardFindingPosture.

Module Compliance.
(** schemas/dashboard.py:66-78, DashboardCompliancePosture.  The percentage is in
    hundredths. *)
Record DashboardCompliancePosture := mk {
  assessment_id : option uuid;
  framework_key : option string;
  framework_name : option string;
  framework_version : option string;
  assessment_status : option ComplianceAssessmentStatus;
  evaluation_time : option timestamp;
  controls_total : Z;
  passed : Z;
  failed : Z;
  not_assessed : Z;
  error : Z;
  pass_percentage : option Z
}.
End Compliance.
Abbreviation DashboardCompliancePosture := Compliance.DashboardCompliancePosture.

Module TrendPoint.
(** schemas/dashboard.py:81-85, DashboardRiskTrendPoint. *)
Record DashboardRiskTrendPoint := mk {
  assessment_id : uuid;
  evaluation_time : timestamp;
  aggregate_score : Z;
  aggregate_priority : RiskPriority
}.
End TrendPoint.
Abbreviation DashboardRiskTrendPoint := TrendPoint.DashboardRiskTrendPoint.

Module HeatmapItem.
(** schemas/dashboard.py:88-95, DashboardAccountRiskHeatmapItem. *)
Record DashboardAccountRiskHeatmapItem := mk {
  aws_account_id : uuid;
  account_display_identifier : string;
  score : Z;
  priority : RiskPriority;
  findings_total : Z;
  critical_count : Z;
  high_count : Z
}.
End HeatmapItem.
Abbreviation DashboardAccountRiskHeatmapItem := HeatmapItem.DashboardAccountRiskHeatmapItem.

Module RiskPosture.
(** schemas/dashboard.py:98-106, DashboardRiskPosture. *)
Record DashboardRiskPosture := mk {
  assessment_id : option uuid;
  evaluation_time : option timestamp;
  aggregate_score : option Z;
  aggregate_priority : option RiskPriority;
  findings_total : Z;
  severity_counters : list DashboardCountItem;
  highest_risk_accounts : list DashboardAccountRiskHeatmapItem;
  trend : list DashboardRiskTrendPoint
}.
End RiskPosture.
Abbreviation DashboardRiskPosture := RiskPosture.DashboardRiskPosture.

Module Freshness.
(** schemas/dashboard.py:109-114, DashboardFreshnessItem. *)
Record DashboardFreshnessItem := mk {
  id : uuid;
  status : string;
  started_at : option timestamp;
  finished_at : option timestamp;
  evaluation_time : option timestamp
}.
End Freshness.
Abbreviation DashboardFreshnessItem := Freshness.DashboardFreshnessItem.

Module Operational.
(** schemas/dashboard.py:117-125, DashboardOperationalFreshness. *)
Record DashboardOperationalFreshness := mk {
  latest_completed_discovery : option DashboardFreshnessItem;
  latest_discovery : option DashboardFreshnessItem;
  latest_completed_evaluation : option DashboardFreshnessItem;
  latest_evaluation : option DashboardFreshnessItem;
  latest_completed_compliance_assessment : option DashboardFreshnessItem;
  latest_compliance_assessment : option DashboardFreshnessItem;
  latest_completed_risk_assessment : option DashboardFreshnessItem;
  latest_risk_assessment : option DashboardFreshnessItem
}.
End Operational.
Abbreviation DashboardOperationalFreshness := Operational.DashboardOperationalFreshness.

Module Summary.
(** schemas/dashboard.py:128-136, DashboardSummaryResponse. *)
Record DashboardSummaryResponse := mk {
  metadata : DashboardMetadata;
  accounts : DashboardAccountPosture;
  assets : DashboardAssetInventory;
  findings : DashboardFindingPosture;
  compliance : DashboardCompliancePosture;
  risk : DashboardRiskPosture;
  account_risk_heatmap : list DashboardAccountRiskHeatmapItem;
  freshness : DashboardOperationalFreshness
}.
End Summary.
Abbreviation DashboardSummaryResponse := Summary.DashboardSummaryResponse.

(** * Queries *)

(** services/dashboard.py:48-48, DISTRIBUTION_LIMIT. *)
Definition DISTRIBUTION_LIMIT : nat := 10.
(** services/dashboard.py:49-49, RECENT_FINDINGS_LIMIT. *)
Definition RECENT_FINDINGS_LIMIT : nat := 10.
(** services/dashboard.py:50-50, ACCOUNT_RISK_LIMIT. *)
Definition ACCOUNT_RISK_LIMIT : nat := 20.
(** services/dashboard.py:51-51, RISK_TREND_LIMIT. *)
Definition RISK_TREND_LIMIT : nat := 12.

(** services/dashboard.py:53-63, _SEVERITY_RANK. *)
Definition _SEVERITY_RANK (s : FindingSeverity) : Z :=
  match s with
  | FindingSeverity.CRITICAL => 5
  | FindingSeverity.HIGH => 4
  | FindingSeverity.MEDIUM => 3
  | FindingSeverity.LOW => 2
  | FindingSeverity.INFORMATIONAL => 1
  end.

(** [func.count()] of the rows with the key. *)
Definition count_of {K} `{EqDecision K} (l : list K) (k : K) : Z :=
  Z.of_nat (length (filter (λ k', k' = k) l)).

(** [SELECT key, count() ... GROUP BY key] *)
Definition group_count {K} `{EqDecision K} (l : list K) : list (K * Z) :=
  map (λ k, (k, count_of l k)) (remove_dups l).

(** [counts.get(k, 0)] *)
Definition get_count {K} `{EqDecision K} (k : K) (counts : list (K * Z)) : Z :=
  default 0 (snd <$> List.find (λ kc, kc.1 ≟ k) counts).

(** [ORDER BY count DESC, key] *)
Definition by_count {K} (le : K → K → bool) (a b : K * Z) : bool :=
  (b.2 <? a.2) || (a.2 =? b.2) && le a.1 b.1.

(** [ORDER BY t DESC] for a column that may be NULL, then the next criterion. *)
Definition later_first (a b : option timestamp) (next : bool) : bool :=
  match a, b with
  | None, None => next
  | None, Some _ => true
  | Some _, None => false
  | Some a, Some b => (b <? a) || (a =? b) && next
  end.

(** services/dashboard.py:475-482, DashboardService._count_items. *)
Definition _count_items {K} (str : K → string) (rows : list (K * Z)) : list DashboardCountItem :=
  map (λ kc, CountItem.mk (str kc.1) kc.2) rows.

Section service.
Context (organization_id : uuid).

(** The rows of the organization. *)
Definition own {R} (org : R → uuid) (t : gmap uuid R) : list R :=
  filter_rows (λ r, org r ≟ organization_id) t.

(** services/dashboard.py:99-113, DashboardService._accounts. *)
Definition _accounts (d : DB) : DashboardAccountPosture :=
  let counts := group_count (map AWSAccount.connection_status
    (own AWSAccount.organization_id (DB.aws_accounts d))) in
  let total := foldr (λ kc n, kc.2 + n) 0 counts in
  let connected := get_count AWSAccountStatus.CONNECTED counts in
  Accounts.mk total connected (get_count AWSAccountStatus.DISCONNECTED counts) (total - connected).

(** services/dashboard.py:115-148, DashboardService._assets. *)
Definition _assets (d : DB) : DashboardAssetInventory :=
  let rows := own Asset.organization_id (DB.assets d) in
  let active_counts := group_count (map Asset.is_active rows) in
  let by_type := _count_items AssetType.value (take DISTRIBUTION_LIMIT
    (sort_by (by_count (λ a b, String.leb (AssetType.value a) (AssetType.value b)))
       (group_count (map Asset.asset_type rows)))) in
  let by_region := _count_items id (take DISTRIBUTION_LIMIT
    (sort_by (by_count String.leb) (group_count (map Asset.region rows)))) in
  let active := get_count true active_counts in
  let inactive := get_count false active_counts in
  Inventory.mk (active + inactive) active inactive by_type by_region.

(** services/dashboard.py:205-218, part of DashboardService._findings. *)
Definition recent_finding (f : Finding) (region : option string) : DashboardRecentFinding :=
  Recent.mk (Finding.id f) (Finding.aws_account_id f) (Finding.asset_id f) (Finding.rule_key f)
    (Finding.severity f) (Finding.status f) (Finding.category f) region (Finding.last_seen_at f).

(** services/dashboard.py:188-189, part of DashboardService._findings.  The outer
    join with the asset. *)
Definition region_of (d : DB) (f : Finding) : option string :=
  asset_id ← Finding.asset_id f; Asset.region <$> DB.assets d !! asset_id.

(** services/dashboard.py:190-196, part of DashboardService._findings. *)
Definition recent_findings (rows : list Finding) : list Finding :=
  take RECENT_FINDINGS_LIMIT
    (sort_by (λ f f', let r := _SEVERITY_RANK (Finding.severity f) in
                      let r' := _SEVERITY_RANK (Finding.severity f') in
                      (r' <? r) || (r =? r') && newest_first Finding.last_seen_at Finding.id f f')
       (filter (λ f, Finding.status f = FindingStatus.OPEN
                     ∧ Finding.severity f ∈ [FindingSeverity.CRITICAL; FindingSeverity.HIGH]) rows)).

(** services/dashboard.py:150-219, DashboardService._findings. *)
Definition _findings (d : DB) : DashboardFindingPosture :=
  let rows := own Finding.organization_id (DB.findings d) in
  let status_counts := group_count (map Finding.status rows) in
  let open := filter (λ f, Finding.status f = FindingStatus.OPEN) rows in
  let severity_items := _count_items FindingSeverity.value
    (sort_by (λ a b, _SEVERITY_RANK b.1 <=? _SEVERITY_RANK a.1)
       (group_count (map Finding.severity open))) in
  let service_items := _count_items id (take DISTRIBUTION_LIMIT
    (sort_by (by_count String.leb) (group_count (map Finding.category open)))) in
  let account_items := _count_items uuid_str (take DISTRIBUTION_LIMIT
    (sort_by (by_count N.leb) (group_count (map Finding.aws_account_id open)))) in
  Posture.mk (get_count FindingStatus.OPEN status_counts)
    (get_count FindingStatus.RESOLVED status_counts)
    (get_count FindingStatus.SUPPRESSED status_counts) severity_items service_items account_items
    (map (λ f, recent_finding f (region_of d f)) (recent_findings rows)).

(** [round((a / b) * 100, 2)] in hundredths: the operations of binary64, and the
    exact value of the product rounded half to even. *)
Definition binary64 (n : Z) : spec_float := binary_normalize 53 1024 n 0 false.
Definition half_even (n m : Z) : Z :=
  let q := n / m in let r := 2 * (n mod m) in
  if r <? m then q else if m <? r then q + 1 else if Z.even q then q else q + 1.
Definition hundredths (f : spec_float) : Z :=
  match f with
  | S754_finite s m e =>
      let m := if s then Zneg m else Zpos m in
      if 0 <=? e then m * 2 ^ e * 100 else half_even (m * 100) (2 ^ (- e))
  | _ => 0
  end.
(** services/dashboard.py:248-252, part of DashboardService._compliance. *)
Definition percentage (passed total : Z) : option Z :=
  if total =? 0 then None
  else Some (hundredths (SFmul 53 1024 (SFdiv 53 1024 (binary64 passed) (binary64 total))
                           (binary64 100))).

(** services/dashboard.py:222-231, part of DashboardService._compliance. *)
Definition latest_assessment (d : DB) : option (ComplianceAssessment * ComplianceFramework) :=
  first_by (λ a b, later_first (ComplianceAssessment.finished_at a.1)
                     (ComplianceAssessment.finished_at b.1)
                     (ComplianceAssessment.id a.1 <=? ComplianceAssessment.id b.1)%N)
    (omap (λ a, f ← DB.frameworks d !! ComplianceAssessment.framework_id a; Some (a, f))
       (filter (λ a, ComplianceAssessment.status a = ComplianceAssessmentStatus.COMPLETED)
          (own ComplianceAssessment.organization_id (DB.assessments d)))).

(** services/dashboard.py:221-266, DashboardService._compliance. *)
Definition _compliance (d : DB) : DashboardCompliancePosture :=
  match latest_assessment d with
  | None => Compliance.mk None None None None None None 0 0 0 0 0 None
  | Some (a, f) =>
      Compliance.mk (Some (ComplianceAssessment.id a)) (Some (ComplianceFramework.key f))
        (Some (ComplianceFramework.name f)) (Some (ComplianceFramework.version f))
        (Some (ComplianceAssessment.status a)) (ComplianceAssessment.finished_at a)
        (ComplianceAssessment.controls_total a) (ComplianceAssessment.controls_passed a)
        (ComplianceAssessment.controls_failed a) (ComplianceAssessment.controls_not_assessed a)
        (ComplianceAssessment.controls_error a)
        (percentage (ComplianceAssessment.controls_passed a) (ComplianceAssessment.controls_total a))
  end.

(** services/dashboard.py:324-342, part of DashboardService._account_risk_heatmap.
    The open findings of an account with the severity. *)
Definition open_findings (d : DB) (severity : FindingSeverity) (account_id : uuid) : Z :=
  Z.of_nat (length (filter (λ f, Finding.status f = FindingStatus.OPEN
                                 ∧ Finding.aws_account_id f = account_id
                                 ∧ Finding.severity f = severity)
    (own Finding.organization_id (DB.findings d)))).

(** services/dashboard.py:343-349, part of DashboardService._account_risk_heatmap.
    The snapshots with their accounts. *)
Definition snapshot_accounts (d : DB) (l : list AccountRiskSnapshot)
    : list (AccountRiskSnapshot * AWSAccount) :=
  omap (λ s, a ← DB.aws_accounts d !! AccountRiskSnapshot.aws_account_id s; Some (s, a)) l.

(** services/dashboard.py:321-364, DashboardService._account_risk_heatmap. *)
Definition _account_risk_heatmap (assessment_id : uuid) (d : DB)
    : list DashboardAccountRiskHeatmapItem :=
  let rows := snapshot_accounts d
    (filter (λ s, AccountRiskSnapshot.assessment_id s = assessment_id)
       (own AccountRiskSnapshot.organization_id (DB.account_risks d))) in
  let before x y :=
    let s := AccountRiskSnapshot.risk_score x.1 in let s' := AccountRiskSnapshot.risk_score y.1 in
    let n := AWSAccount.name x.2 in let n' := AWSAccount.name y.2 in
    (s' <? s) || (s =? s')
      && (if String.eqb n n' then (AWSAccount.id x.2 <=? AWSAccount.id y.2)%N else String.leb n n') in
  map (λ '(s, a),
    let i := AccountRiskSnapshot.aws_account_id s in
    HeatmapItem.mk i
      (if String.eqb (AWSAccount.name a) "" then AWSAccount.account_id a else AWSAccount.name a)
      (AccountRiskSnapshot.risk_score s) (AccountRiskSnapshot.priority s)
      (AccountRiskSnapshot.findings_total s) (open_findings d FindingSeverity.CRITICAL i)
      (open_findings d FindingSeverity.HIGH i))
    (take ACCOUNT_RISK_LIMIT (sort_by before rows)).

(** services/dashboard.py:290-295, part of DashboardService._risk. *)
Definition trend_rows (d : DB) : list OrganizationRiskSnapshot :=
  take RISK_TREND_LIMIT
    (sort_by (newest_first OrganizationRiskSnapshot.evaluation_time OrganizationRiskSnapshot.id)
       (own OrganizationRiskSnapshot.organization_id (DB.organization_risks d))).

(** services/dashboard.py:269-277, part of DashboardService._risk. *)
Definition latest_risk (completed_only : bool) (d : DB) : option RiskAssessment :=
  first_by (newest_first RiskAssessment.evaluation_time RiskAssessment.id)
    (filter (λ a, completed_only = true → RiskAssessment.status a = RiskAssessmentStatus.COMPLETED)
       (own RiskAssessment.organization_id (DB.risk_assessments d))).

(** services/dashboard.py:268-319, DashboardService._risk. *)
Definition _risk (d : DB) : DashboardRiskPosture :=
  match latest_risk true d with
  | None => RiskPosture.mk None None None None 0 [] [] []
  | Some a =>
      RiskPosture.mk (Some (RiskAssessment.id a)) (Some (RiskAssessment.evaluation_time a))
        (RiskAssessment.aggregate_score a) (RiskAssessment.aggregate_priority a)
        (RiskAssessment.findings_total a)
        [CountItem.mk "critical" (RiskAssessment.critical_count a);
         CountItem.mk "high" (RiskAssessment.high_count a);
         CountItem.mk "medium" (RiskAssessment.medium_count a);
         CountItem.mk "low" (RiskAssessment.low_count a);
         CountItem.mk "informational" (RiskAssessment.informational_count a)]
        (take 10 (_account_risk_heatmap (RiskAssessment.id a) d))
        (map (λ r, TrendPoint.mk (OrganizationRiskSnapshot.assessment_id r)
                     (OrganizationRiskSnapshot.evaluation_time r)
                     (OrganizationRiskSnapshot.risk_score r) (OrganizationRiskSnapshot.priority r))
           (reverse (trend_rows d)))
  end.

(** services/dashboard.py:388-405, DashboardService._latest_discovery. *)
Definition _latest_discovery (completed_only : bool) (d : DB) : option DashboardFreshnessItem :=
  job ← first_by (λ a b, later_first (DiscoveryJob.finished_at a) (DiscoveryJob.finished_at b)
                           (newest_first DiscoveryJob.created_at DiscoveryJob.id a b))
    (filter (λ j, completed_only = true → DiscoveryJob.status j = DiscoveryJobStatus.COMPLETED)
       (own DiscoveryJob.organization_id (DB.discovery_jobs d)));
  Some (Freshness.mk (DiscoveryJob.id job) (DiscoveryJobStatus.value (DiscoveryJob.status job))
          (DiscoveryJob.started_at job) (DiscoveryJob.finished_at job) None).

(** services/dashboard.py:407-424, DashboardService._latest_evaluation. *)
Definition _latest_evaluation (completed_only : bool) (d : DB) : option DashboardFreshnessItem :=
  job ← first_by (λ a b, later_first (EvaluationJob.finished_at a) (EvaluationJob.finished_at b)
                           (newest_first EvaluationJob.created_at EvaluationJob.id a b))
    (filter (λ j, completed_only = true → EvaluationJob.status j = EvaluationJobStatus.COMPLETED)
       (own EvaluationJob.organization_id (DB.evaluation_jobs d)));
  Some (Freshness.mk (EvaluationJob.id job) (EvaluationJobStatus.value (EvaluationJob.status job))
          (EvaluationJob.started_at job) (EvaluationJob.finished_at job) None).

(** services/dashboard.py:426-452, DashboardService._latest_compliance_freshness. *)
Definition _latest_compliance_freshness (completed_only : bool) (d : DB)
    : option DashboardFreshnessItem :=
  a ← first_by (λ a b, later_first (ComplianceAssessment.finished_at a)
                         (ComplianceAssessment.finished_at b)
                         (newest_first ComplianceAssessment.created_at ComplianceAssessment.id a b))
    (filter (λ a, completed_only = true →
               ComplianceAssessment.status a = ComplianceAssessmentStatus.COMPLETED)
       (own ComplianceAssessment.organization_id (DB.assessments d)));
  Some (Freshness.mk (ComplianceAssessment.id a)
          (ComplianceAssessmentStatus.value (ComplianceAssessment.status a))
          (ComplianceAssessment.started_at a) (ComplianceAssessment.finished_at a) None).

(** services/dashboard.py:454-473, DashboardService._latest_risk_freshness. *)
Definition _latest_risk_freshness (completed_only : bool) (d : DB)
    : option DashboardFreshnessItem :=
  a ← latest_risk completed_only d;
  Some (Freshness.mk (RiskAssessment.id a) (RiskAssessmentStatus.value (RiskAssessment.status a))
          (RiskAssessment.started_at a) (RiskAssessment.finished_at a)
          (Some (RiskAssessment.evaluation_time a))).

(** services/dashboard.py:366-386, DashboardService._freshness. *)
Definition _freshness (d : DB) : DashboardOperationalFreshness :=
  Operational.mk (_latest_discovery true d) (_latest_discovery false d)
    (_latest_evaluation true d) (_latest_evaluation false d)
    (_latest_compliance_freshness true d) (_latest_compliance_freshness false d)
    (_latest_risk_freshness true d) (_latest_risk_freshness false d).

(** services/dashboard.py:484-508, DashboardService._missing_sections. *)
Definition _missing_sections (accounts : DashboardAccountPosture) (assets : DashboardAssetInventory)
    (findings : DashboardFindingPosture) (compliance : DashboardCompliancePosture)
    (risk : DashboardRiskPosture) (freshness : DashboardOperationalFreshness) : list string :=
  let missing (b : bool) name := if b then [name] else [] in
  missing (Accounts.total_accounts accounts =? 0) "accounts"
  ++ missing (Inventory.total_assets assets =? 0) "assets"
  ++ missing (Posture.open_total findings + Posture.resolved_total findings
              + Posture.suppressed_total findings =? 0) "findings"
  ++ missing (is_none_ (Compliance.assessment_id compliance)) "latest_completed_compliance_assessment"
  ++ missing (is_none_ (RiskPosture.assessment_id risk)) "latest_completed_risk_assessment"
  ++ missing (is_none_ (Operational.latest_completed_discovery freshness)) "latest_completed_discovery"
  ++ missing (is_none_ (Operational.latest_completed_evaluation freshness)) "latest_completed_evaluation".

(** services/dashboard.py:72-97, DashboardService.summary. *)
Definition summary (now : timestamp) (d : DB) : DashboardSummaryResponse :=
  let accounts := _accounts d in
  let assets := _assets d in
  let findings := _findings d in
  let compliance := _compliance d in
  let risk := _risk d in
  let freshness := _freshness d in
  let missing := _missing_sections accounts assets findings compliance risk freshness in
  Summary.mk (Metadata.mk organization_id now (bool_decide (missing ≠ [])) missing)
    accounts assets findings compliance risk (RiskPosture.highest_risk_accounts risk) freshness.

(** api/v1/dashboard.py:17-26, summary. *)
Definition summary_endpoint (now : timestamp) (user : User) : txn DB DashboardSummaryResponse :=
  _ ← require_capability organization_id (User.id user) Capability.ORGANIZATION_READ;
  gets (summary now).
End service.

Example percent_thirds : percentage 2 3 = Some 6667. Proof. vm_compute. reflexivity. Qed.
(** A tie that binary64 represents goes to the even neighbour. *)
Example percent_tie : percentage 1 32 = Some 312. Proof. vm_compute. reflexivity. Qed.

(** * What the summary shows *)

(** ** Counting *)

Section counting.
Context {K : Type} `{EqDecision K}.
Implicit Types (l : list K) (k : K).

Lemma count_nil k : count_of (K:=K) [] k = 0.
Proof. done. Qed.
Lemma count_cons x l k : count_of (x :: l) k = (if decide (x = k) then 1 else 0) + count_of l k.
Proof. unfold count_of. rewrite filter_cons. case_decide; cbn [length]; lia. Qed.
Lemma count_nonneg l k : 0 ≤ count_of l k.
Proof. unfold count_of. lia. Qed.
Lemma count_not_in l k : k ∉ l → count_of l k = 0.
Proof.
  induction l as [|x l IH]; [done|]. rewrite count_cons, not_elem_of_cons. intros [Hne Hl].
  rewrite decide_False by congruence. by rewrite IH.
Qed.

Lemma get_group_count k l : get_count k (group_count l) = count_of l k.
Proof.
  unfold get_count, group_count.
  assert (∀ ks, default 0 (snd <$> List.find (λ kc, kc.1 ≟ k) (map (λ k, (k, count_of l k)) ks))
    = if decide (k ∈ ks) then count_of l k else 0) as Hf.
  { induction ks as [|x ks IH]; [done|]. cbn. case_bool_decide as E.
    - subst. rewrite decide_True by set_solver. done.
    - rewrite IH. destruct (decide (k ∈ ks)), (decide (k ∈ x :: ks)); set_solver. }
  rewrite Hf. case_decide as Hin; [done|]. rewrite elem_of_remove_dups in Hin.
  by rewrite count_not_in.
Qed.

(** The counts of the groups add up to the rows. *)
Definition total_of (l : list (K * Z)) : Z := foldr (λ kc n, kc.2 + n) 0 l.
Lemma total_perm (l l' : list (K * Z)) : l ≡ₚ l' → total_of l = total_of l'.
Proof.
  induction 1 as [|x l1 l2 Hp IH|x y l0|l1 l2 l3 H1 IH1 H2 IH2]; [done| | |congruence].
  - change (x.2 + total_of l1 = x.2 + total_of l2). lia.
  - change (y.2 + (x.2 + total_of l0) = x.2 + (y.2 + total_of l0)). lia.
Qed.
Lemma total_counts l ks :
  NoDup ks → (∀ k, k ∈ l → k ∈ ks) → total_of (map (λ k, (k, count_of l k)) ks) = Z.of_nat (length l).
Proof.
  intros Hnd. induction l as [|x l IH]; intros Hin.
  - clear. induction ks as [|k ks IH]; [done|]. cbn [map]. rewrite count_nil. exact IH.
  - assert (total_of (map (λ k, (k, count_of (x :: l) k)) ks)
      = (if decide (x ∈ ks) then 1 else 0) + total_of (map (λ k, (k, count_of l k)) ks)) as E.
    { clear IH Hin. induction ks as [|k ks IH]; [done|]. apply NoDup_cons in Hnd as [Hk Hnd].
      change (count_of (x :: l) k + total_of (map (λ k, (k, count_of (x :: l) k)) ks)
        = (if decide (x ∈ k :: ks) then 1 else 0)
          + (count_of l k + total_of (map (λ k, (k, count_of l k)) ks))).
      rewrite IH by done. rewrite count_cons.
      destruct (decide (x = k)) as [->|Hne].
      - rewrite decide_False by done. rewrite decide_True by set_solver. lia.
      - destruct (decide (x ∈ ks)), (decide (x ∈ k :: ks)); try lia; set_solver. }
    rewrite E, decide_True by (apply Hin; by left). rewrite IH by (intros; apply Hin; by right).
    cbn [length]. lia.
Qed.
Lemma total_group_count l : total_of (group_count l) = Z.of_nat (length l).
Proof.
  apply total_counts; [apply NoDup_remove_dups|]. intros k. by rewrite elem_of_remove_dups.
Qed.
End counting.

(** ** Sorting *)

(** A sort by an order that a number decides first. *)
Lemma sort_by_key {A} (le : A → A → bool) (key : A → Z) l :
  (∀ a b, le a b = true → key b ≤ key a) → (∀ a b, le a b = false → key a ≤ key b) →
  StronglySorted (λ a b, key b ≤ key a) (sort_by le l).
Proof.
  intros H1 H2.
  assert (∀ x l, StronglySorted (λ a b, key b ≤ key a) l →
    StronglySorted (λ a b, key b ≤ key a) (insert_by le x l)) as Hins.
  { clear l. intros x l. induction 1 as [|y l Hs IH Hy]; cbn; [by repeat constructor|].
    destruct (le x y) eqn:E.
    - constructor; [by constructor|]. constructor; [by apply H1|].
      eapply Forall_impl; [exact Hy|]. intros z Hz. apply H1 in E. cbn in Hz. lia.
    - constructor; [done|]. rewrite (insert_by_perm le x l). constructor; [by apply H2|done]. }
  induction l as [|x l IH]; cbn; [constructor|by apply Hins].
Qed.

Lemma sorted_split {A} (R : A → A → Prop) n l x y :
  StronglySorted R l → x ∈ take n l → y ∈ drop n l → R x y.
Proof.
  intros Hs. revert n. induction Hs as [|z l Hs IH Hz]; intros [|n]; cbn; try set_solver.
  intros [->|Hx]%elem_of_cons Hy; [|by apply IH with n].
  rewrite Forall_forall in Hz. apply Hz.
  rewrite <-(take_drop n l). set_solver.
Qed.

(** [items] are the at most [limit] most frequent values of [l], with their
    counts. *)
Definition distribution {K} `{EqDecision K} (str : K → string) (limit : nat) (l : list K)
    (items : list DashboardCountItem) : Prop :=
  ∃ top rest, items = map (λ k, CountItem.mk (str k) (count_of l k)) top
  ∧ NoDup (top ++ rest) ∧ (∀ k, k ∈ top ++ rest ↔ k ∈ l)
  ∧ (length top ≤ limit)%nat ∧ (rest ≠ [] → length top = limit)
  ∧ StronglySorted (λ k k', count_of l k' ≤ count_of l k) top
  ∧ ∀ k k', k ∈ top → k' ∈ rest → count_of l k' ≤ count_of l k.

Lemma distribution_spec {K} `{EqDecision K} (str : K → string) (le : K → K → bool) n l :
  distribution str n l
    (_count_items str (take n (sort_by (by_count le) (group_count l)))).
Proof.
  set (s := sort_by (by_count le) (group_count l)).
  assert (s ≡ₚ group_count l) as Hp by apply sort_by_perm.
  assert (StronglySorted (λ a b, b.2 ≤ a.2) s) as Hs.
  { apply sort_by_key; intros a b; unfold by_count; destruct (le a.1 b.1); lia. }
  assert (Forall (λ kc, kc.2 = count_of l kc.1) s) as Hc.
  { rewrite Hp. apply Forall_map, Forall_true. done. }
  assert (s.*1 ≡ₚ remove_dups l) as Hk.
  { rewrite Hp. unfold group_count. rewrite <-list_fmap_compose. change (id <$> remove_dups l ≡ₚ remove_dups l).
    by rewrite list_fmap_id. }
  exists (take n s).*1, (drop n s).*1. rewrite <-fmap_app, take_drop.
  assert (Forall (λ kc, kc.2 = count_of l kc.1) (take n s)
    ∧ Forall (λ kc, kc.2 = count_of l kc.1) (drop n s)) as [Ht Hd].
  { by rewrite <-Forall_app, take_drop. }
  split_and!.
  - unfold _count_items. rewrite map_map. apply map_ext_in. intros kc Hin.
    rewrite List.Forall_forall in Ht. by rewrite (Ht _ Hin).
  - rewrite Hk. apply NoDup_remove_dups.
  - intros k. rewrite Hk. apply elem_of_remove_dups.
  - rewrite length_fmap, length_take. lia.
  - rewrite length_fmap, length_take. intros Hr. destruct (decide (length s ≤ n)%nat) as [Hle|]; [|lia].
    by rewrite drop_ge in Hr.
  - assert (StronglySorted (λ a b, b.2 ≤ a.2) (take n s)) as Hst.
    { rewrite <-(take_drop n s) in Hs. by apply StronglySorted_app_1_l in Hs. }
    clear -Hst Ht. induction Hst as [|x t Hst IH Hx]; cbn; [constructor|].
    apply Forall_cons in Ht as [Ex Ht]. constructor; [by apply IH|].
    apply Forall_map. rewrite Forall_forall in *. intros y Hy. cbn.
    rewrite <-Ex, <-(Ht y Hy). by apply Hx.
  - intros k k' [x [-> Hx]]%list_elem_of_fmap [y [-> Hy]]%list_elem_of_fmap.
    rewrite Forall_forall in Ht, Hd. rewrite <-(Ht _ Hx), <-(Hd _ Hy).
    exact (sorted_split _ n s x y Hs Hx Hy).
Qed.

(** ** The summary *)

(** Two databases with the same rows of an organization, the same frameworks,
    and the same assets and accounts under its findings and risk snapshots. *)
Record same_view (org : uuid) (d d' : DB) : Prop := {
  sv_accounts : own org AWSAccount.organization_id (DB.aws_accounts d')
    = own org AWSAccount.organization_id (DB.aws_accounts d);
  sv_assets : own org Asset.organization_id (DB.assets d') = own org Asset.organization_id (DB.assets d);
  sv_findings : own org Finding.organization_id (DB.findings d')
    = own org Finding.organization_id (DB.findings d);
  sv_discoveries : own org DiscoveryJob.organization_id (DB.discovery_jobs d')
    = own org DiscoveryJob.organization_id (DB.discovery_jobs d);
  sv_evaluations : own org EvaluationJob.organization_id (DB.evaluation_jobs d')
    = own org EvaluationJob.organization_id (DB.evaluation_jobs d);
  sv_assessments : own org ComplianceAssessment.organization_id (DB.assessments d')
    = own org ComplianceAssessment.organization_id (DB.assessments d);
  sv_risks : own org RiskAssessment.organization_id (DB.risk_assessments d')
    = own org RiskAssessment.organization_id (DB.risk_assessments d);
  sv_account_risks : own org AccountRiskSnapshot.organization_id (DB.account_risks d')
    = own org AccountRiskSnapshot.organization_id (DB.account_risks d);
  sv_organization_risks : own org OrganizationRiskSnapshot.organization_id (DB.organization_risks d')
    = own org OrganizationRiskSnapshot.organization_id (DB.organization_risks d);
  sv_frameworks : DB.frameworks d' = DB.frameworks d;
  sv_regions f : f ∈ own org Finding.organization_id (DB.findings d) → region_of d' f = region_of d f;
  sv_named s : s ∈ own org AccountRiskSnapshot.organization_id (DB.account_risks d) →
    DB.aws_accounts d' !! AccountRiskSnapshot.aws_account_id s
    = DB.aws_accounts d !! AccountRiskSnapshot.aws_account_id s
}.

Section summary.
Context (org : uuid).
Implicit Types (d : DB).

Lemma recent_findings_elem rows f :
  f ∈ recent_findings rows → f ∈ rows ∧ Finding.status f = FindingStatus.OPEN
  ∧ Finding.severity f ∈ [FindingSeverity.CRITICAL; FindingSeverity.HIGH].
Proof.
  unfold recent_findings. intros Hf. apply elem_of_take in Hf as (i & Hi & _).
  apply list_elem_of_lookup_2 in Hi. rewrite sort_by_perm, list_elem_of_filter in Hi. tauto.
Qed.

(** At most ten of them, and none that is left out is more severe. *)
Lemma recent_findings_first rows f f' :
  f ∈ recent_findings rows → f' ∈ rows → Finding.status f' = FindingStatus.OPEN →
  Finding.severity f' ∈ [FindingSeverity.CRITICAL; FindingSeverity.HIGH] →
  f' ∈ recent_findings rows
  ∨ _SEVERITY_RANK (Finding.severity f') ≤ _SEVERITY_RANK (Finding.severity f).
Proof.
  unfold recent_findings. set (le := λ f f' : Finding, _). set (l := filter _ rows).
  intros Hf Hin Ho Hsev.
  assert (f' ∈ sort_by le l) as Hs.
  { rewrite sort_by_perm. unfold l. rewrite list_elem_of_filter. done. }
  rewrite <-(take_drop RECENT_FINDINGS_LIMIT (sort_by le l)) in Hs.
  apply elem_of_app in Hs as [Hs|Hs]; [by left|right].
  refine (sorted_split _ _ _ f f' (sort_by_key le (λ f, _SEVERITY_RANK (Finding.severity f)) l _ _) Hf Hs);
    intros a b; unfold le; cbv zeta; destruct (newest_first _ _ a b); lia.
Qed.

Lemma own_count {R K} `{EqDecision K} (key : R → K) (l : list R) k :
  count_of (map key l) k = Z.of_nat (length (filter (λ r, key r = k) l)).
Proof.
  induction l as [|r l IH]; [done|]. cbn [map]. rewrite count_cons, IH, filter_cons.
  case_decide; cbn [length]; lia.
Qed.

Lemma statuses_add_up (l : list Finding) :
  count_of (map Finding.status l) FindingStatus.OPEN
  + count_of (map Finding.status l) FindingStatus.RESOLVED
  + count_of (map Finding.status l) FindingStatus.SUPPRESSED = Z.of_nat (length l).
Proof.
  induction l as [|f l IH]; [done|]. cbn [map length]. rewrite !count_cons.
  destruct (Finding.status f); repeat (case_decide; try discriminate); try done; lia.
Qed.
Lemma activity_adds_up (l : list bool) : count_of l true + count_of l false = Z.of_nat (length l).
Proof.
  induction l as [|b l IH]; [done|]. cbn [length]. rewrite !count_cons.
  destruct b; repeat (case_decide; try discriminate); try done; lia.
Qed.

(** The severities of a list, the most severe first, with their counts. *)
Lemma severity_items_sum (l : list FindingSeverity) :
  foldr (λ i n, CountItem.count i + n) 0
    (_count_items FindingSeverity.value
       (sort_by (λ a b, _SEVERITY_RANK b.1 <=? _SEVERITY_RANK a.1) (group_count l)))
  = Z.of_nat (length l).
Proof.
  rewrite <-total_group_count.
  rewrite <-(total_perm (sort_by (λ a b, _SEVERITY_RANK b.1 <=? _SEVERITY_RANK a.1) (group_count l)))
    by apply sort_by_perm.
  generalize (sort_by (λ a b : FindingSeverity * Z, _SEVERITY_RANK b.1 <=? _SEVERITY_RANK a.1) (group_count l)).
  induction l0 as [|kc l' IH]; [done|exact (f_equal (Z.add kc.2) IH)].
Qed.

Lemma heatmap_same i d d' :
  same_view org d d' → _account_risk_heatmap org i d' = _account_risk_heatmap org i d.
Proof.
  intros Hv. unfold _account_risk_heatmap, open_findings.
  rewrite (sv_account_risks _ _ _ Hv), (sv_findings _ _ _ Hv).
  assert (∀ l, (∀ s, s ∈ l → s ∈ own org AccountRiskSnapshot.organization_id (DB.account_risks d)) →
    snapshot_accounts d' l = snapshot_accounts d l) as Hl.
  { induction l as [|s l IH]; intros Hin; [done|]. unfold snapshot_accounts in *. cbn.
    rewrite (sv_named _ _ _ Hv s) by (apply Hin; by left).
    specialize (IH (λ s' Hs', Hin s' (list_elem_of_further _ _ _ Hs'))). cbn in IH. by rewrite IH. }
  rewrite Hl; [done|]. intros s [_ Hs]%list_elem_of_filter. done.
Qed.

Lemma summary_same now d d' : same_view org d d' → summary org now d' = summary org now d.
Proof.
  intros Hv.
  assert (_accounts org d' = _accounts org d) as E1 by (unfold _accounts; by rewrite (sv_accounts _ _ _ Hv)).
  assert (_assets org d' = _assets org d) as E2 by (unfold _assets; by rewrite (sv_assets _ _ _ Hv)).
  assert (_findings org d' = _findings org d) as E3.
  { unfold _findings. rewrite (sv_findings _ _ _ Hv). f_equal. apply map_ext_in. intros f Hf.
    f_equal. apply (sv_regions _ _ _ Hv). apply list_elem_of_In, recent_findings_elem in Hf. tauto. }
  assert (_compliance org d' = _compliance org d) as E4.
  { unfold _compliance, latest_assessment. by rewrite (sv_assessments _ _ _ Hv), (sv_frameworks _ _ _ Hv). }
  assert (∀ b, latest_risk org b d' = latest_risk org b d) as E5.
  { intros b. unfold latest_risk. by rewrite (sv_risks _ _ _ Hv). }
  assert (_risk org d' = _risk org d) as E6.
  { unfold _risk, trend_rows. rewrite E5, (sv_organization_risks _ _ _ Hv).
    destruct (latest_risk org true d); [|done]. by rewrite (heatmap_same _ _ _ Hv). }
  assert (_freshness org d' = _freshness org d) as E7.
  { unfold _freshness, _latest_discovery, _latest_evaluation, _latest_compliance_freshness,
      _latest_risk_freshness.
    by rewrite !E5, (sv_discoveries _ _ _ Hv), (sv_evaluations _ _ _ Hv), (sv_assessments _ _ _ Hv). }
  unfold summary. by rewrite E1, E2, E3, E4, E6, E7.
Qed.
Lemma run_summary now user d :
  (∃ m, active_membership org (User.id user) d = Some m
     ∧ role_has_capability (OrganizationMembership.role m) Capability.ORGANIZATION_READ = true
     ∧ run (summary_endpoint org now user) d = (Ret (summary org now d), d))
  ∨ ∃ e, run (summary_endpoint org now user) d = (Raise e, d).
Proof.
  assert (match run (summary_endpoint org now user) d with
    | (Ret s, d') => (∃ m, active_membership org (User.id user) d = Some m
        ∧ role_has_capability (OrganizationMembership.role m) Capability.ORGANIZATION_READ = true)
        ∧ s = summary org now d ∧ d' = d
    | (Raise _, d') => d' = d
    end) as H.
  { apply run_cases. unfold summary_endpoint. apply wp_bind, wp_require_capability; [|done|done].
    intros m Hm Hc. apply wp_gets. split; [by exists m|done]. }
  destruct (run _ d) as [[s|e] d']; [left|right; exists e; by subst].
  destruct H as ((m & Hm & Hc) & -> & ->). by exists m.
Qed.
End summary.

