(* ===== verification/NotificationProviders.v ===== *)
(** services/notification_provider.py: the providers that deliver, over any SMTP
    server, any SES client and any HTTP transport.

    What the e-mail package makes of a message, the check of an address by
    email_validator and [urlsplit] are parameters.  The methods are instances of
    the interface that the notification service uses. *)

From S2P Require Import Prelude.
From S2P Require Import Enums.
From S2P Require Import PyValue.
From S2P Require Import JiraClient.
From S2P Require Import Notifications.
From Stdlib Require Import Ascii ZifyBool.
From stdpp Require Import pretty list.

Open Scope Z_scope.

Module NotificationSettings.
(** core/config.py:118-156, part of Settings.  What the providers are configured
    with. *)
Record NotificationSettings := mk {
  notification_provider : string;
  smtp_host : string;
  smtp_port : Z;
  smtp_username : string;
  smtp_password : string;
  smtp_from_email : string;
  smtp_from_name : string;
  smtp_use_tls : bool;
  smtp_security : string;
  smtp_timeout_seconds : Z;
  aws_ses_enabled : bool;
  aws_ses_from_email : string;
  aws_ses_from_name : string;
  aws_ses_configuration_set : string;
  aws_ses_reply_to : string;
  aws_ses_max_recipients : nat;
  notification_max_message_bytes : Z;
  slack_webhook_url : string;
  teams_webhook_url : string;
  webhook_timeout_seconds : Z
}.
End NotificationSettings.
Abbreviation NotificationSettings := NotificationSettings.NotificationSettings.
Module NS := NotificationSettings.

(** services/notification_provider.py:362-373, _delivery_failure. *)
Definition _delivery_failure (error_code message : string) (retryable : bool)
    : NotificationDeliveryResult := mk_result FAILURE (Some message) None (Some error_code) retryable None.

Definition delivered (message_id : option string) : NotificationDeliveryResult :=
  mk_result SUCCESS None message_id None false None.

(** A carriage return or a newline in a header. *)
Definition breaks_header (s : string) : bool :=
  has_char (ascii_of_N 13) s || has_char newline s.

(** * SMTP *)

(** What is asked of an SMTP connection. *)
Inductive smtp_command :=
| Connect (implicit_tls : bool) (host : string) (port timeout : Z)
| StartTls
| Ehlo
| Login (username password : string)
| SendMessage (from to subject message_id body : string)
| Quit.

(** The exceptions of smtplib that are told apart. *)
Inductive smtp_fault :=
| SMTPResponseException (smtp_code : Z)
| SMTPTransport
| SMTPOther.

(** An SMTP server: an answer, for a message whether some recipients were
    refused. *)
Class SmtpServer (W : Type) := smtp : W → smtp_command → (bool + smtp_fault) * W.

(** The length of a message as bytes, or the exception of its construction. *)
Class MailFormat := mail_size : string → string → string → string → string → res Z.

Record SMTPNotificationProvider (W : Type) := mk_smtp {
  smtp_settings : NotificationSettings;
  smtp_world : W
}.
Arguments mk_smtp {W} _ _.
Arguments smtp_settings {W} _.
Arguments smtp_world {W} _.

(** A sequence of commands that stops at the first fault; the last answer. *)
Fixpoint smtp_all `{SmtpServer W} (w : W) (last : bool) (l : list smtp_command)
    : (bool + smtp_fault) * W :=
  match l with
  | [] => (inl last, w)
  | c :: l =>
      match smtp w c with
      | (inl b, w) => smtp_all w b l
      | (inr e, w) => (inr e, w)
      end
  end.

Section smtp.
Context `{SmtpServer W} `{MailFormat}.

(** services/notification_provider.py:164-168, part of
    SMTPNotificationProvider.deliver. *)
Definition smtp_security_of (s : NotificationSettings) : string :=
  if NS.smtp_use_tls s && String.eqb (NS.smtp_security s) "none" then "starttls"
  else NS.smtp_security s.

(** services/notification_provider.py:148-150, part of
    SMTPNotificationProvider.deliver. *)
Definition smtp_from (s : NotificationSettings) : string :=
  let from_name := strip (NS.smtp_from_name s) in
  let from_email := strip (NS.smtp_from_email s) in
  if nonempty from_name then from_name +:+ " <" +:+ from_email +:+ ">" else from_email.

(** services/notification_provider.py:163-189, part of
    SMTPNotificationProvider.deliver.  The connection is closed with QUIT
    whatever happens to it; a fault of QUIT takes the place of the outcome. *)
Definition smtp_session (s : NotificationSettings) (message : smtp_command) (w : W)
    : (bool + smtp_fault) * W :=
  let security := smtp_security_of s in
  match smtp w (Connect (String.eqb security "implicit") (NS.smtp_host s) (NS.smtp_port s)
                  (NS.smtp_timeout_seconds s)) with
  | (inr e, w) => (inr e, w)
  | (inl _, w) =>
      let '(answer, w) := smtp_all w false
        ((if String.eqb security "starttls" then [StartTls; Ehlo] else [])
         ++ (if nonempty (NS.smtp_username s) then [Login (NS.smtp_username s) (NS.smtp_password s)]
             else [])
         ++ [message]) in
      match smtp w Quit with
      | (inr e, w) => (inr e, w)
      | (inl _, w) => (answer, w)
      end
  end.

(** services/notification_provider.py:190-222, part of
    SMTPNotificationProvider.deliver. *)
Definition smtp_result (message_id : string) (answer : bool + smtp_fault)
    : NotificationDeliveryResult :=
  match answer with
  | inr (SMTPResponseException code) =>
      _delivery_failure ("smtp_" +:+ pretty code) "SMTP notification delivery failed."
        ((400 <=? code) && (code <? 500))
  | inr SMTPTransport =>
      _delivery_failure "smtp_transport_error" "SMTP notification delivery failed." true
  | inr SMTPOther => _delivery_failure "smtp_internal_error" "SMTP notification delivery failed." false
  | inl true => _delivery_failure "smtp_recipient_refused"
      "SMTP notification delivery was refused for one or more recipients." false
  | inl false => delivered (Some message_id)
  end.

(** services/notification_provider.py:123-145, part of
    SMTPNotificationProvider.deliver.  Why a message is not sent. *)
Definition smtp_refusal (m : message) : option NotificationDeliveryResult :=
  if negb (msg_channel m ≟ NotificationChannel.EMAIL)
  then Some (mk_result FAILURE (Some "Unsupported notification channel.") None None false None)
  else match msg_recipients m with
  | [] => Some (_delivery_failure "invalid_recipient" "No valid notification recipients." false)
  | _ =>
      if existsb breaks_header (msg_subject m :: msg_recipients m)
      then Some (_delivery_failure "smtp_header_injection"
                   "Notification headers contain prohibited characters." false)
      else if Nat.ltb (N.to_nat 998) (String.length (msg_subject m))
      then Some (_delivery_failure "smtp_subject_too_large"
                   "Notification subject exceeds the configured limit." false)
      else None
  end.

(** services/notification_provider.py:112-222, SMTPNotificationProvider.deliver.
    The message identifier is drawn by [make_msgid]. *)
Definition smtp_deliver (message_id : string) (p : SMTPNotificationProvider W) (m : message)
    : res NotificationDeliveryResult * SMTPNotificationProvider W :=
  let s := smtp_settings p in
  match smtp_refusal m with
  | Some refusal => (inl refusal, p)
  | None =>
      let to := concat_sep ", " (msg_recipients m) in
      match mail_size (smtp_from s) to (msg_subject m) message_id (msg_body m) with
      | inr e => (inr e, p)
      | inl size =>
          if NS.notification_max_message_bytes s <? size
          then (inl (_delivery_failure "smtp_message_too_large"
                       "Notification message exceeds the configured size limit." false), p)
          else
            let '(answer, w) := smtp_session s
              (SendMessage (smtp_from s) to (msg_subject m) message_id (msg_body m)) (smtp_world p) in
            (inl (smtp_result message_id answer), mk_smtp s w)
      end
  end.

#[local] Instance smtp_provider (message_id : string)
    : NotificationProvider (SMTPNotificationProvider W) :=
  {| provider_key := λ _, "smtp"; provider_deliver := smtp_deliver message_id |}.
End smtp.

(** * Amazon SES *)

Inductive ses_fault :=
| SesTimeout
| SesClientError (response : pydict)
| SesBotoCoreError
| SesException (e : exn).

(** [send_email], and the check of [validate_email]. *)
Class SesClient (W : Type) := send_email : W → pydict → (pydict + ses_fault) * W.
Class EmailValidator := validate_email : string → bool.

Record SESNotificationProvider (W : Type) := mk_ses {
  ses_settings : NotificationSettings;
  ses_world : W
}.
Arguments mk_ses {W} _ _.
Arguments ses_settings {W} _.
Arguments ses_world {W} _.

(** [email.utils.formataddr((name, address))] with a name *)
Definition formataddr (name address : string) : string :=
  let special := existsb (λ c, has_char c name)
    ["["; "]"; "("; ")"; "<"; ">"; "@"; ","; ":"; ";"; "."; backslash; dquote_char]%char in
  let escaped := replace_char dquote_char (String backslash (String dquote_char ""))
    (replace_char backslash (String backslash (String backslash "")) name) in
  let quoted := if special then String dquote_char (escaped +:+ String dquote_char "") else name in
  quoted +:+ " <" +:+ address +:+ ">".

(** [s.split(",")] *)
Fixpoint split_comma (acc s : string) : list string :=
  match s with
  | EmptyString => [srev acc]
  | String c s =>
      if Ascii.eqb c "," then srev acc :: split_comma EmptyString s
      else split_comma (String c acc) s
  end.

Section ses.
Context `{SesClient W} `{EmailValidator}.

(** services/notification_provider.py:238-246, SESNotificationProvider._valid_address. *)
Definition _valid_address (value : string) : bool :=
  negb (breaks_header value) && validate_email value.

(** services/notification_provider.py:295-299, part of SESNotificationProvider.deliver. *)
Definition reply_to (s : NotificationSettings) : list string :=
  List.filter nonempty (map strip (split_comma EmptyString (NS.aws_ses_reply_to s))).

(** services/notification_provider.py:260-304, part of SESNotificationProvider.deliver.
    Why a message is not sent. *)
Definition ses_refusal (s : NotificationSettings) (m : message) : option NotificationDeliveryResult :=
  let from_name := strip (NS.aws_ses_from_name s) in
  if negb (msg_channel m ≟ NotificationChannel.EMAIL)
  then Some (_delivery_failure "unsupported_channel" "Unsupported notification channel." false)
  else if negb (NS.aws_ses_enabled s) || negb (_valid_address (NS.aws_ses_from_email s))
  then Some (_delivery_failure "ses_configuration_invalid"
               "SES notification delivery is not configured." false)
  else if Nat.eqb (length (msg_recipients m)) 0
          || Nat.ltb (NS.aws_ses_max_recipients s) (length (msg_recipients m))
          || existsb (λ r, negb (_valid_address r)) (msg_recipients m)
  then Some (_delivery_failure "invalid_recipient" "SES notification recipients are invalid." false)
  else if breaks_header (msg_subject m) || Nat.ltb (N.to_nat 998) (String.length (msg_subject m))
  then Some (_delivery_failure "ses_header_injection"
               "Notification headers contain prohibited characters." false)
  else if NS.notification_max_message_bytes s <? Z.of_nat (String.length (msg_body m))
  then Some (_delivery_failure "ses_message_too_large"
               "Notification message exceeds the configured size limit." false)
  else if breaks_header from_name
  then Some (_delivery_failure "ses_header_injection"
               "Notification headers contain prohibited characters." false)
  else if existsb (λ r, negb (_valid_address r)) (reply_to s)
  then Some (_delivery_failure "ses_configuration_invalid"
               "SES reply-to configuration is invalid." false)
  else None.

(** services/notification_provider.py:305-322, part of SESNotificationProvider.deliver. *)
Definition ses_request (s : NotificationSettings) (m : message) : pydict :=
  let from_name := strip (NS.aws_ses_from_name s) in
  let text t := PDict [("Data", PStr t); ("Charset", PStr "UTF-8")] in
  [("FromEmailAddress", PStr (if nonempty from_name
      then formataddr from_name (NS.aws_ses_from_email s) else NS.aws_ses_from_email s));
   ("Destination", PDict [("ToAddresses", PList (map PStr (msg_recipients m)))]);
   ("Content", PDict [("Simple", PDict
      [("Subject", text (msg_subject m)); ("Body", PDict [("Text", text (msg_body m))])])])]
  ++ (if reply_to s is [] then [] else [("ReplyToAddresses", PList (map PStr (reply_to s)))])
  ++ (if nonempty (NS.aws_ses_configuration_set s)
      then [("ConfigurationSetName", PStr (NS.aws_ses_configuration_set s))] else []).

Definition ses_transient : list string :=
  ["TooManyRequestsException"; "LimitExceededException"; "ServiceUnavailableException";
   "InternalFailure"].

(** services/notification_provider.py:323-359, part of SESNotificationProvider.deliver. *)
Definition ses_result (answer : pydict + ses_fault) : res NotificationDeliveryResult :=
  match answer with
  | inr SesTimeout => inl (_delivery_failure "ses_timeout" "SES notification delivery timed out." true)
  | inr (SesClientError response) =>
      match dget_or "Error" (PDict []) response with
      | PDict error =>
          let retryable := bool_decide (py_str (dget_or "Code" (PStr "") error) ∈ ses_transient) in
          inl (_delivery_failure (if retryable then "ses_transient_failure" else "ses_permanent_failure")
                 "SES notification delivery failed." retryable)
      | _ => inr AttributeError
      end
  | inr SesBotoCoreError =>
      inl (_delivery_failure "ses_transport_error" "SES notification delivery failed." true)
  | inr (SesException e) => inr e
  | inl response =>
      match dget "MessageId" response with
      | Some (PStr id) =>
          if nonempty id then inl (delivered (Some (str_take 255 id)))
          else inl (_delivery_failure "ses_invalid_response"
                      "SES notification delivery returned invalid evidence." false)
      | _ => inl (_delivery_failure "ses_invalid_response"
                    "SES notification delivery returned invalid evidence." false)
      end
  end.

(** services/notification_provider.py:248-359, SESNotificationProvider.deliver. *)
Definition ses_deliver (p : SESNotificationProvider W) (m : message)
    : res NotificationDeliveryResult * SESNotificationProvider W :=
  match ses_refusal (ses_settings p) m with
  | Some refusal => (inl refusal, p)
  | None =>
      let '(answer, w) := send_email (ses_world p) (ses_request (ses_settings p) m) in
      (ses_result answer, mk_ses (ses_settings p) w)
  end.

#[export] Instance ses_provider : NotificationProvider (SESNotificationProvider W) :=
  {| provider_key := λ _, "ses"; provider_deliver := ses_deliver |}.
End ses.

(** * Webhooks *)

(** services/notification_provider.py:376-379, WebhookTransport.  An answer, the
    unreachable endpoint, or any other exception. *)
Class WebhookTransport (W : Type) :=
  post : W → string → string → Z → (Z * list (string * string) + transport_fault) * W.

(** services/notification_provider.py:382-402, part of WebhookNotificationProvider. *)
Record WebhookNotificationProvider (W : Type) := mk_webhook {
  key : string;
  endpoint : string;
  channel : NotificationChannel;
  allowed_host_suffixes : list string;
  webhook_timeout : Z;
  max_message_bytes : Z;
  webhook_world : W
}.
Arguments mk_webhook {W} _ _ _ _ _ _ _.
Arguments key {W} _.
Arguments endpoint {W} _.
Arguments channel {W} _.
Arguments allowed_host_suffixes {W} _.
Arguments webhook_timeout {W} _.
Arguments max_message_bytes {W} _.
Arguments webhook_world {W} _.

(** [re.sub(r"[\x00-\x08\x0b\x0c\x0e-\x1f]", "", s)] *)
Definition clean_text (s : string) : string :=
  String.string_of_list_ascii (List.filter (λ c,
    let n := code c in
    negb ((n <? 9) || (n =? 11) || (n =? 12) || (14 <=? n) && (n <? 32))%N) (String.list_ascii_of_string s)).

(** [json.dumps({"text": s}, ensure_ascii=False, separators=(",", ":"))]; only
    the delete character is treated in another way than with [ensure_ascii]. *)
Fixpoint escape_raw (s : string) : string :=
  match s with
  | EmptyString => EmptyString
  | String c s =>
      if (code c =? 127)%N then String c (escape_raw s)
      else json_escape (String c "") +:+ escape_raw s
  end.
Definition text_payload (s : string) : string :=
  "{" +:+ json_str "text" +:+ ":" +:+ String dquote_char (escape_raw s +:+ String dquote_char "}").

(** services/notification_provider.py:505-509, _retry_after. *)
Definition _retry_after (headers : list (string * string)) : option Z :=
  let value := default "" (snd <$> List.find (λ kv, String.eqb kv.1 "retry-after") headers) in
  match py_int (PStr value) with inl n => Some (Z.min 3600 (Z.max 1 n)) | inr _ => None end.

Section webhook.
Context `{WebhookTransport W} `{PyLib}.

(** services/notification_provider.py:406-418, part of
    WebhookNotificationProvider._validate_endpoint. *)
Definition approved_endpoint (parsed : urlparts) (suffixes : list string) : bool :=
  let host := lower (default "" (hostname parsed)) in
  String.eqb (scheme parsed) "https" && nonempty host && is_none_ (username parsed)
  && is_none_ (password parsed) && negb (nonempty (fragment parsed))
  && existsb (λ suffix, String.eqb host suffix || endswith host ("." +:+ suffix)) suffixes.

(** services/notification_provider.py:405-419,
    WebhookNotificationProvider._validate_endpoint. *)
Definition _validate_endpoint (p : WebhookNotificationProvider W) : res () :=
  match urlsplit (endpoint p) with
  | inr e => inr e
  | inl parsed =>
      if approved_endpoint parsed (allowed_host_suffixes p) then inl tt else inr ValueError
  end.

(** services/notification_provider.py:385-403, WebhookNotificationProvider.__init__. *)
Definition new_webhook (key endpoint : string) (channel : NotificationChannel)
    (allowed_host_suffixes : list string) (timeout_seconds max_message_bytes : Z) (w : W)
    : res (WebhookNotificationProvider W) :=
  let p := mk_webhook key endpoint channel allowed_host_suffixes timeout_seconds max_message_bytes w in
  _ ← _validate_endpoint p; mret p.

(** services/notification_provider.py:438-443, part of
    WebhookNotificationProvider.deliver. *)
Definition webhook_payload (m : message) : string :=
  text_payload (msg_subject m +:+ String newline (String newline (clean_text (msg_body m)))).

(** services/notification_provider.py:432-449, part of
    WebhookNotificationProvider.deliver.  Why a message is not sent. *)
Definition webhook_refusal (p : WebhookNotificationProvider W) (m : message)
    : option NotificationDeliveryResult :=
  if negb (msg_channel m ≟ channel p)
  then Some (_delivery_failure "unsupported_channel" "Unsupported notification channel." false)
  else if max_message_bytes p <? Z.of_nat (String.length (webhook_payload m))
  then Some (_delivery_failure "webhook_message_too_large"
               "Webhook message exceeds the configured size limit." false)
  else None.

(** services/notification_provider.py:450-479, part of
    WebhookNotificationProvider.deliver. *)
Definition webhook_result (answer : Z * list (string * string) + transport_fault)
    : res NotificationDeliveryResult :=
  match answer with
  | inr Unreachable =>
      inl (_delivery_failure "webhook_transport_error" "Webhook notification delivery failed." true)
  | inr (TransportException e) => inr e
  | inl (status, headers) =>
      let code := "webhook_http_" +:+ pretty status in
      if (200 <=? status) && (status <? 300)
      then inl (delivered (snd <$> List.find (λ kv, String.eqb kv.1 "x-request-id") headers))
      else if (status =? 429) || (500 <=? status) && (status <? 600)
      then inl (mk_result FAILURE (Some "Webhook provider temporarily rejected delivery.") None
                  (Some code) true (_retry_after headers))
      else inl (_delivery_failure code "Webhook provider permanently rejected delivery." false)
  end.

(** services/notification_provider.py:421-479, WebhookNotificationProvider.deliver. *)
Definition webhook_deliver (p : WebhookNotificationProvider W) (m : message)
    : res NotificationDeliveryResult * WebhookNotificationProvider W :=
  match webhook_refusal p m with
  | Some refusal => (inl refusal, p)
  | None =>
      let '(answer, w) := post (webhook_world p) (endpoint p) (webhook_payload m) (webhook_timeout p) in
      (webhook_result answer,
       mk_webhook (key p) (endpoint p) (channel p) (allowed_host_suffixes p) (webhook_timeout p)
         (max_message_bytes p) w)
  end.

#[export] Instance webhook_provider : NotificationProvider (WebhookNotificationProvider W) :=
  {| provider_key := key; provider_deliver := webhook_deliver |}.
End webhook.

(** The provider that is configured, each with its own world. *)
Inductive configured_provider (V : Type) :=
| UseMock (p : MockNotificationProvider)
| UseSMTP (p : SMTPNotificationProvider V)
| UseSES (p : SESNotificationProvider V)
| UseWebhook (p : WebhookNotificationProvider V).
Arguments UseMock {V} _.
Arguments UseSMTP {V} _.
Arguments UseSES {V} _.
Arguments UseWebhook {V} _.

(** services/notification_provider.py:512-539, notification_provider_from_settings. *)
Definition notification_provider_from_settings `{WebhookTransport W} `{PyLib}
    (s : NotificationSettings) (w : W) : res (configured_provider W) :=
  let webhook key url channel suffixes :=
    p ← new_webhook key url channel suffixes (NS.webhook_timeout_seconds s)
          (NS.notification_max_message_bytes s) w;
    mret (UseWebhook p) in
  let kind := NS.notification_provider s in
  if String.eqb kind "smtp" then inl (UseSMTP (mk_smtp s w))
  else if String.eqb kind "ses" then inl (UseSES (mk_ses s w))
  else if String.eqb kind "slack" then
    webhook "slack" (NS.slack_webhook_url s) NotificationChannel.SLACK ["hooks.slack.com"]
  else if String.eqb kind "teams" then
    webhook "teams" (NS.teams_webhook_url s) NotificationChannel.TEAMS
      ["webhook.office.com"; "logic.azure.com"; "powerautomate.com"]
  else inl (UseMock (mk_mock "success" 0)).

(** * What the providers promise *)

(** A message was not sent: the provider is as it was, and the failure is not
    to be retried. *)
Definition not_sent {P} (p : P) (out : res NotificationDeliveryResult * P) : Prop :=
  out.2 = p ∧ ∃ r, out.1 = inl r ∧ outcome r = FAILURE ∧ retryable r = false.

(** A result in which a success carries no error, and only a failure is to be
    retried. *)
Definition consistent (r : NotificationDeliveryResult) : Prop :=
  match outcome r with
  | SUCCESS => sanitized_error r = None ∧ error_code r = None ∧ retryable r = false
  | FAILURE => is_Some (sanitized_error r)
  end ∧ (∀ n, retry_after_seconds r = Some n → retryable r = true ∧ 1 ≤ n ≤ 3600).

Lemma failure_consistent c t b : consistent (_delivery_failure c t b).
Proof. split; [by eexists|done]. Qed.
Lemma delivered_consistent o : consistent (delivered o).
Proof. by split. Qed.

Lemma retry_after_bounds headers n : _retry_after headers = Some n → 1 ≤ n ≤ 3600.
Proof. unfold _retry_after. destruct (py_int _); [intros [= <-]; lia|done]. Qed.

Lemma existsb_none {A} (P : A → bool) l : existsb P l = false → Forall (λ x, P x = false) l.
Proof.
  induction l as [|x l IH]; cbn; [constructor|]. intros [Hx Hl]%orb_false_iff. by constructor; [|apply IH].
Qed.

(** What every sent mail has. *)
Definition sendable (m : message) : Prop :=
  msg_channel m = NotificationChannel.EMAIL ∧ msg_recipients m ≠ []
  ∧ breaks_header (msg_subject m) = false ∧ Forall (λ r, breaks_header r = false) (msg_recipients m)
  ∧ Z.of_nat (String.length (msg_subject m)) ≤ 998.

Lemma smtp_refusal_None m : smtp_refusal m = None → sendable m.
Proof.
  unfold smtp_refusal, sendable. destruct (msg_channel m ≟ _) eqn:Ec; [|done]. cbn [negb].
  apply bool_decide_eq_true in Ec. destruct (msg_recipients m) as [|r l]; [done|].
  destruct (existsb breaks_header _) eqn:Eb; [done|]. apply existsb_none, Forall_cons in Eb as [E1 E2].
  destruct (Nat.ltb_spec (N.to_nat 998) (String.length (msg_subject m))); [done|].
  intros _. split_and!; [done..|lia].
Qed.
Lemma smtp_refusal_Some m r :
  smtp_refusal m = Some r → outcome r = FAILURE ∧ retryable r = false ∧ consistent r.
Proof.
  unfold smtp_refusal. intros H. repeat (case_match; try discriminate);
    injection H as <-; split_and!; try done; by apply failure_consistent || (split; [by eexists|done]).
Qed.

Lemma ses_refusal_None `{EmailValidator} s m :
  ses_refusal s m = None →
  sendable m ∧ NS.aws_ses_enabled s = true ∧ (length (msg_recipients m) ≤ NS.aws_ses_max_recipients s)%nat
  ∧ Forall (λ r, _valid_address r = true) (NS.aws_ses_from_email s :: msg_recipients m ++ reply_to s)
  ∧ Z.of_nat (String.length (msg_body m)) ≤ NS.notification_max_message_bytes s.
Proof.
  unfold ses_refusal, sendable. cbv zeta. destruct (msg_channel m ≟ _) eqn:Ec; [|done]. cbn [negb].
  apply bool_decide_eq_true in Ec. destruct (_ || _) eqn:E1; [done|].
  apply orb_false_iff in E1 as [Een%negb_false_iff Efrom%negb_false_iff].
  destruct (_ || _ || _) eqn:E2; [done|].
  rewrite !orb_false_iff, Nat.eqb_neq, Nat.ltb_ge in E2. destruct E2 as [[Hne Hmax] Hval].
  destruct (breaks_header (msg_subject m) || _) eqn:E3; [done|].
  apply orb_false_iff in E3 as [Hsub Hlen%Nat.ltb_ge].
  destruct (Z.ltb_spec (NS.notification_max_message_bytes s) (Z.of_nat (String.length (msg_body m)))); [done|].
  destruct (breaks_header (strip _)); [done|].
  destruct (existsb _ (reply_to s)) eqn:E4; [done|]. intros _.
  apply existsb_none in Hval, E4.
  assert (Forall (λ r, _valid_address r = true) (msg_recipients m)) as Hr.
  { eapply Forall_impl; [exact Hval|]. intros r Hr%negb_false_iff. done. }
  split_and!; try done; [by intros E; rewrite E in Hne| |lia|].
  - eapply Forall_impl; [exact Hr|]. intros r. unfold _valid_address.
    by intros [E%negb_true_iff _]%andb_true_iff.
  - constructor; [done|]. apply Forall_app. split; [done|].
    eapply Forall_impl; [exact E4|]. intros r Hx%negb_false_iff. done.
Qed.
Lemma ses_refusal_Some `{EmailValidator} s m r :
  ses_refusal s m = Some r → outcome r = FAILURE ∧ retryable r = false ∧ consistent r.
Proof.
  unfold ses_refusal. cbv zeta. intros H0. repeat (case_match; try discriminate);
    injection H0 as <-; split_and!; try done; apply failure_consistent.
Qed.
Lemma webhook_refusal_Some `{WebhookTransport W} (p : WebhookNotificationProvider W) m r :
  webhook_refusal p m = Some r → outcome r = FAILURE ∧ retryable r = false ∧ consistent r.
Proof.
  unfold webhook_refusal. intros H0. repeat (case_match; try discriminate);
    injection H0 as <-; split_and!; try done; apply failure_consistent.
Qed.

Lemma smtp_result_consistent i a : consistent (smtp_result i a).
Proof.
  destruct a as [[]|[code| |]]; cbn; try apply failure_consistent; apply delivered_consistent.
Qed.
Lemma ses_result_consistent a r : ses_result a = inl r → consistent r.
Proof.
  unfold ses_result. intros H. repeat (case_match; try discriminate); injection H as <-;
    apply failure_consistent || apply delivered_consistent.
Qed.
Lemma webhook_result_consistent a r : webhook_result a = inl r → consistent r.
Proof.
  unfold webhook_result. intros H. repeat (case_match; try discriminate); injection H as <-;
    try (apply failure_consistent || apply delivered_consistent).
  split; [by eexists|]. cbn. intros n Hn%retry_after_bounds. done.
Qed.

Section theorem.
Context `{SmtpServer W} `{MailFormat} `{SesClient V} `{EmailValidator} `{WebhookTransport U}.

(** C35. Every provider looks at a message before it calls its service: a message
    that it refuses leaves the service alone, and the failure is final.  What
    SMTP and SES get is a mail to someone, with no line break in the subject or
    an address, a subject of at most 998 characters and a size within the
    bound, and for SES with valid addresses only, not more than are allowed; a
    webhook gets what is for its channel and within its bound.  The answer of
    the service decides: its result is consistent, and a time to wait is
    between a second and an hour, for a failure that may be retried. *)
Theorem providers_check_before_they_send (message_id : string) (ps : SMTPNotificationProvider W)
    (pe : SESNotificationProvider V) (pw : WebhookNotificationProvider U) (m : message) :
  (let out := smtp_deliver message_id ps m in
   let s := smtp_settings ps in
   let to := concat_sep ", " (msg_recipients m) in
   not_sent ps out
   ∨ sendable m
     ∧ match mail_size (smtp_from s) to (msg_subject m) message_id (msg_body m) with
       | inr e => out = (inr e, ps)
       | inl size => size ≤ NS.notification_max_message_bytes s
           ∧ ∃ answer w, smtp_session s
               (SendMessage (smtp_from s) to (msg_subject m) message_id (msg_body m)) (smtp_world ps)
               = (answer, w)
             ∧ out = (inl (smtp_result message_id answer), mk_smtp s w)
             ∧ consistent (smtp_result message_id answer)
       end)
  ∧ (let out := provider_deliver pe m in
     let s := ses_settings pe in
     not_sent pe out
     ∨ sendable m ∧ NS.aws_ses_enabled s = true
       ∧ (length (msg_recipients m) ≤ NS.aws_ses_max_recipients s)%nat
       ∧ Forall (λ r, _valid_address r = true) (NS.aws_ses_from_email s :: msg_recipients m ++ reply_to s)
       ∧ Z.of_nat (String.length (msg_body m)) ≤ NS.notification_max_message_bytes s
       ∧ ∃ answer w, send_email (ses_world pe) (ses_request s m) = (answer, w)
         ∧ out = (ses_result answer, mk_ses s w) ∧ ∀ r, ses_result answer = inl r → consistent r)
  ∧ (let out := provider_deliver pw m in
     not_sent pw out
     ∨ msg_channel m = channel pw
       ∧ Z.of_nat (String.length (webhook_payload m)) ≤ max_message_bytes pw
       ∧ ∃ answer w, post (webhook_world pw) (endpoint pw) (webhook_payload m) (webhook_timeout pw)
           = (answer, w)
         ∧ out.1 = webhook_result answer ∧ webhook_world out.2 = w
         ∧ ∀ r, webhook_result answer = inl r → consistent r).
Proof.
  split; [|split]; cbv zeta.
  - unfold smtp_deliver. destruct (smtp_refusal m) as [r|] eqn:E.
    { apply smtp_refusal_Some in E as (Hf1 & Hf2 & _). left. split; [done|]. by exists r. }
    cbv zeta. apply smtp_refusal_None in E. destruct (mail_size _ _ _ _ _) as [size|e]; [|by right].
    destruct (Z.ltb_spec (NS.notification_max_message_bytes (smtp_settings ps)) size).
    { left. split; [done|]. eexists. by split_and!. }
    right. split; [done|]. split; [done|]. destruct (smtp_session _ _ _) as [answer w].
    exists answer, w. split_and!; [done..|apply smtp_result_consistent].
  - cbn [provider_deliver ses_provider]. unfold ses_deliver.
    destruct (ses_refusal (ses_settings pe) m) as [r|] eqn:E.
    { apply ses_refusal_Some in E as (Hf1 & Hf2 & _). left. split; [done|]. by exists r. }
    apply ses_refusal_None in E as (Hs1 & Hs2 & Hs3 & Hs4 & Hs5). right. split_and!; [done..|].
    destruct (send_email _ _) as [answer w]. exists answer, w.
    split_and!; [done..|apply ses_result_consistent].
  - cbn [provider_deliver webhook_provider]. unfold webhook_deliver.
    destruct (webhook_refusal pw m) as [r|] eqn:E.
    { apply webhook_refusal_Some in E as (Hf1 & Hf2 & _). left. split; [done|]. by exists r. }
    right. unfold webhook_refusal in E. destruct (msg_channel m ≟ channel pw) eqn:Ec; [|done].
    cbn [negb] in E. destruct (Z.ltb_spec (max_message_bytes pw) (Z.of_nat (String.length (webhook_payload m))));
      [done|]. apply bool_decide_eq_true in Ec. split_and!; [done..|].
    destruct (post _ _ _ _) as [answer w]. exists answer, w.
    split_and!; [done..|apply webhook_result_consistent].
Qed.
End theorem.
