(* ===== verification/Collectors.v ===== *)
(** services/discovery.py: the collectors, what is read from AWS about the assets
    of an account.

    A client of boto3 is an interface, [AwsClients]: which methods it has, the
    pages of a paginated operation, the answer of any other.  Clients read only,
    and an operation is taken to answer the same while a collector runs.  A
    value that is no text in a column of texts fails when it is stored; here it
    fails when the asset is made, with the same outcome for the collector. *)

From S2P Require Import Prelude.
From S2P Require Import Enums.
From S2P Require Import PyValue.
From S2P Require Import Models.
From S2P Require Import Calendar.
From S2P Require Import Evidence.
From S2P Require Import AwsExecutor.
From S2P Require Import Discovery.
From Stdlib Require Import Ascii.
From stdpp Require Import pretty list.

(** * Python on the answers *)

(** A step of a collector: a value or the exception that ends it. *)
Definition got (A : Type) : Type := (A + fault)%type.
#[export] Instance got_ret : MRet got := λ A a, inl a.
#[export] Instance got_bind : MBind got := λ A B f m,
  match m with inl a => f a | inr e => inr e end.

Definition py_error {A} (e : exn) : got A := inr (PyError e).

Fixpoint alookup {A} (k : string) (d : list (string * A)) : option A :=
  match d with
  | [] => None
  | (k', v) :: d => if String.eqb k k' then Some v else alookup k d
  end.

(** [v.get(k, default)] *)
Definition a_get_or (k : string) (dflt v : awsval) : got awsval :=
  match v with
  | ADict d => mret (default dflt (alookup k d))
  | _ => py_error AttributeError
  end.
Definition a_get (k : string) (v : awsval) : got awsval := a_get_or k ANone v.
(** [v[k]] *)
Definition a_item (k : string) (v : awsval) : got awsval :=
  match v with
  | ADict d => match alookup k d with Some x => mret x | None => py_error KeyError end
  | _ => py_error TypeError
  end.

(** [bool(v)] *)
Definition truthy (v : awsval) : bool :=
  match v with
  | ANone => false
  | ABool b => b
  | AInt z => negb (z =? 0)%Z
  | AStr s => nonempty s
  | AList l => if l is [] then false else true
  | ADict d => if d is [] then false else true
  | ADate _ | AOther _ => true
  end.
(** [v or w] *)
Definition or_else (v w : awsval) : awsval := if truthy v then v else w.

Definition a_is_true (v : awsval) : bool := match v with ABool true => true | _ => false end.
Definition a_is_dict (v : awsval) : bool := match v with ADict _ => true | _ => false end.
Definition is_text (s : string) (v : awsval) : bool :=
  match v with AStr s' => String.eqb s s' | _ => false end.

Fixpoint a_chars (s : string) : list awsval :=
  match s with
  | EmptyString => []
  | String c s => AStr (String c EmptyString) :: a_chars s
  end.
(** [iter(v)] *)
Definition a_iter (v : awsval) : got (list awsval) :=
  match v with
  | AList l => mret l
  | ADict d => mret (map (λ kv, AStr kv.1) d)
  | AStr s => mret (a_chars s)
  | _ => py_error TypeError
  end.
(** [len(v)] *)
Definition a_len (v : awsval) : got Z :=
  l ← a_iter v; mret (Z.of_nat (length l)).

(** [v in {s, ...}] for texts; a list or a dict has no hash. *)
Definition a_in (v : awsval) (texts : list string) : got bool :=
  match v with
  | AStr s => mret (existsb (String.eqb s) texts)
  | AList _ | ADict _ => py_error TypeError
  | _ => mret false
  end.

(** [repr] of a date from boto3, which shows dateutil's timezone *)
Class DateRepr := date_repr : timestamp → string.

Section text.
Context `{DateRepr}.

Fixpoint a_repr (v : awsval) : string :=
  match v with
  | ANone => "None"
  | ABool b => if b then "True" else "False"
  | AInt z => pretty z
  | AStr s => repr_str s
  | ADate t => date_repr t
  | AOther text => text
  | AList l => "[" +:+ concat_sep ", " (map a_repr l) +:+ "]"
  | ADict d =>
      "{" +:+ concat_sep ", " (map (λ kv, repr_str kv.1 +:+ ": " +:+ a_repr kv.2) d) +:+ "}"
  end.
(** [str(v)] *)
Definition a_str (v : awsval) : string :=
  match v with
  | AStr s => s
  | ADate t => str_datetime t
  | _ => a_repr v
  end.
End text.

(** A value for a column of texts that may be NULL, and for one that may not. *)
Definition nullable (v : awsval) : got (option string) :=
  match v with
  | ANone => mret None
  | AStr s => mret (Some s)
  | _ => py_error OtherException
  end.
Definition required_text (v : awsval) : got string :=
  match v with AStr s => mret s | _ => py_error OtherException end.

(** [for x in l: s = f(s, x)] *)
Fixpoint fold_got {A S} (f : S → A → got S) (s : S) (l : list A) : got S :=
  match l with
  | [] => mret s
  | x :: l => s ← f s x; fold_got f s l
  end.
(** [for x in v.get(key, []): ...] *)
Definition for_items {S} (key : string) (f : S → awsval → got S) (s : S) (v : awsval) : got S :=
  l ← a_get_or key (AList []) v; l ← a_iter l; fold_got f s l.
(** [any(f(x) for x in l)] *)
Fixpoint any_got {A} (f : A → got bool) (l : list A) : got bool :=
  match l with
  | [] => mret false
  | x :: l => b ← f x; if b : bool then mret true else any_got f l
  end.
(** [[f(x) for x in l]] *)
Fixpoint map_got {A B} (f : A → got B) (l : list A) : got (list B) :=
  match l with
  | [] => mret []
  | x :: l => y ← f x; l ← map_got f l; mret (y :: l)
  end.

(** * Clients *)

(** What tells two hashable values apart: their kind, and their number or
    text.  [True] is the number 1. *)
Definition token : Type := nat * Z * string.
Definition token_key (v : awsval) : option token :=
  match v with
  | AStr s => Some (0%nat, 0%Z, s)
  | ADate t => Some (1%nat, t, EmptyString)
  | AOther s => Some (2%nat, 0%Z, s)
  | ABool b => Some (3%nat, (if b then 1 else 0)%Z, EmptyString)
  | AInt z => Some (3%nat, z, EmptyString)
  | ANone | AList _ | ADict _ => None
  end.

(** Pages of an answer, then the exception that ended them. *)
Record pages := mk_pages { page_list : list awsval; page_fault : option fault }.

(** services/discovery.py:30-30, ClientFactory.  The factory of the clients, and
    their methods.  [get_paginator] raises or gives the pages; [next_tokens] are
    the tokens that an operation can hand out. *)
Class AwsClients (F C : Type) := {
  make_client : F → string → option string → got C;
  hasattr : C → string → bool;
  can_paginate : C → string → bool;
  get_paginator : C → string → list (string * awsval) → got pages;
  invoke : C → string → list (string * awsval) → got awsval;
  next_tokens : C → string → list token
}.

(** [json.loads] of a policy; [None] is the JSONDecodeError. *)
Class PolicyJson := policy_loads : string → option awsval.

(** [exc.response.get("Error", {}).get("Code")] *)
Definition fault_code (error : pydict) : got awsval :=
  match dget_or "Error" (PDict []) error with
  | PDict d => mret (of_json (dget_or "Code" PNone d))
  | _ => py_error AttributeError
  end.
(** [try: m except ClientError as exc: if code in codes: v else raise] *)
Definition or_when {A} (codes : list string) (v : A) (m : got A) : got A :=
  match m with
  | inr (ClientError error) =>
      code ← fault_code error;
      b ← a_in code codes;
      if b : bool then mret v else inr (ClientError error)
  | _ => m
  end.

(** * Helpers *)

(** services/discovery.py:31-36, S3_PUBLIC_ACCESS_BLOCK_KEYS. *)
Definition S3_PUBLIC_ACCESS_BLOCK_KEYS : list string :=
  ["BlockPublicAcls"; "IgnorePublicAcls"; "BlockPublicPolicy"; "RestrictPublicBuckets"].
(** services/discovery.py:37-49, SECURITY_GROUP_RULE_FIELDS. *)
Definition SECURITY_GROUP_RULE_FIELDS : list string :=
  ["GroupId"; "SecurityGroupRuleId"; "IsEgress"; "IpProtocol"; "FromPort"; "ToPort"; "CidrIpv4";
   "CidrIpv6"; "PrefixListId"; "ReferencedGroupInfo"; "Description"].

Section helpers.
Context {F C : Type} `{AwsClients F C} `{DateRepr} `{PolicyJson}.

(** [for page in p: ...] *)
Definition for_pages {S} (f : S → awsval → got S) (s : S) (p : pages) : got S :=
  s ← fold_got f s (page_list p);
  match page_fault p with None => mret s | Some e => inr e end.

(** services/discovery.py:73-75, part of tags_dict.  One tag. *)
Definition add_tag (tags : pydict) (tag : awsval) : got pydict :=
  key ← a_get "Key" tag;
  if truthy key && negb (rx_search SENSITIVE_KEYS (a_str key)) then
    value ← a_get_or "Value" (AStr "") tag;
    mret (dset (a_str key) (PStr (a_str value)) tags)
  else mret tags.

(** services/discovery.py:71-76, tags_dict. *)
Definition tags_dict (tags : awsval) : got pydict :=
  l ← a_iter (or_else tags (AList [])); fold_got add_tag [] l.

(** services/discovery.py:79-83, iam_tags. *)
Definition iam_tags (client : C) (operation argument : string) (value : awsval) : got pydict :=
  if can_paginate client operation then
    p ← get_paginator client operation [(argument, value)];
    for_pages (λ tags page, for_items "Tags" add_tag tags page) [] p
  else
    answer ← invoke client operation [(argument, value)];
    tags ← a_get "Tags" answer;
    tags_dict tags.

Definition truncated : pyval := PDict [("truncated", PBool true)].
Definition malformed : pyval := PDict [("malformed", PBool true)].
Definition POLICY_BYTES : nat := N.to_nat 20000.

(** services/discovery.py:86-100, bounded_policy_document.  The order of the keys
    does not change the length of the text. *)
Definition bounded_policy_document (value : awsval) : pyval :=
  let bounded value :=
    match value with
    | ADict _ =>
        let sanitized := json_safe value in
        if Nat.leb (String.length (json_dumps sanitized)) POLICY_BYTES then sanitized else truncated
    | _ => malformed
    end in
  match value with
  | ANone | AStr EmptyString => PNone
  | AStr s =>
      if Nat.ltb POLICY_BYTES (String.length s) then truncated
      else match policy_loads s with None => malformed | Some value => bounded value end
  | _ => bounded value
  end.

(** [token in seen_tokens] *)
Definition token_in (v : awsval) (seen : list token) : got bool :=
  match token_key v with
  | Some k => mret (bool_decide (k ∈ seen))
  | None => py_error TypeError
  end.

(** services/discovery.py:119-129, part of paginated_items.  One turn of the loop:
    the items of an answer, and the token to go on with, if there is one that
    was not seen. *)
Definition token_page (client : C) (operation result_key : string)
    (kwargs : list (string * awsval)) (next : awsval) (seen : list token)
    : got (list awsval * option awsval) :=
  response ← invoke client operation
    (kwargs ++ if truthy next then [("NextToken", next)] else []);
  more ← a_get_or result_key (AList []) response;
  more ← a_iter more;
  next_token ← a_get "NextToken" response;
  if negb (truthy next_token) then mret (more, None)
  else
    known ← token_in next_token seen;
    mret (more, if known : bool then None else Some next_token).

(** services/discovery.py:115-130, part of paginated_items.  The loop over the
    tokens; [None] when it did not end within a number of calls. *)
Fixpoint token_loop (calls : nat) (client : C) (operation result_key : string)
    (kwargs : list (string * awsval)) (items : list awsval) (next : awsval) (seen : list token)
    : option (got (list awsval)) :=
  match calls with
  | O => None
  | S calls =>
      match token_page client operation result_key kwargs next seen with
      | inr e => Some (inr e)
      | inl (more, None) => Some (mret (items ++ more))
      | inl (more, Some next_token) =>
          token_loop calls client operation result_key kwargs (items ++ more) next_token
            (match token_key next_token with Some k => k :: seen | None => seen end)
      end
  end.

(** services/discovery.py:103-130, paginated_items.  One call more than there are
    tokens is always enough. *)
Definition paginated_items (client : C) (operation result_key : string)
    (kwargs : list (string * awsval)) : got (list awsval) :=
  if can_paginate client operation then
    p ← get_paginator client operation kwargs;
    for_pages (λ items page,
      more ← a_get_or result_key (AList []) page;
      more ← a_iter more;
      mret (items ++ more)) [] p
  else default (py_error OtherException)
         (token_loop (S (length (next_tokens client operation))) client operation result_key kwargs
            [] ANone []).

(** services/discovery.py:139-152, part of security_group_rule_evidence.  What is
    kept of a rule of the group. *)
Definition rule_evidence (group_id : awsval) (rule : awsval) : option pydict :=
  match rule with
  | ADict d =>
      if match v ← alookup "GroupId" d; token_key v, token_key group_id with
         | Some k, Some k' => k ≟ k'
         | _, _ => false
         end
      then Some (omap (λ field,
             v ← alookup field d;
             Some (field, if String.eqb field "IsEgress" then PBool (a_is_true v) else json_safe v))
             SECURITY_GROUP_RULE_FIELDS)
      else None
  | _ => None
  end.

Definition text_lt (s t : string) : bool := String.leb s t && negb (String.eqb s t).
(** services/discovery.py:153-160, part of security_group_rule_evidence.  The order
    of the keys of two rules. *)
Definition rule_le (r r' : pydict) : bool :=
  let group r := py_str (dget_or "GroupId" (PStr "") r) in
  let id r := py_str (dget_or "SecurityGroupRuleId" (PStr "") r) in
  let text r := json_dumps (PDict r) in
  text_lt (group r) (group r')
  || String.eqb (group r) (group r')
     && (text_lt (id r) (id r')
         || String.eqb (id r) (id r') && String.leb (text r) (text r')).

(** services/discovery.py:133-160, security_group_rule_evidence. *)
Definition security_group_rule_evidence (client : C) (group_id : awsval) : got (list pydict) :=
  p ← get_paginator client "describe_security_group_rules"
        [("Filters", AList [ADict [("Name", AStr "group-id"); ("Values", AList [group_id])]])];
  normalized ← for_pages (for_items "SecurityGroupRules" (λ rules rule,
    mret (rules ++ match rule_evidence group_id rule with Some r => [r] | None => [] end))) [] p;
  mret (sort_by rule_le normalized).
End helpers.

(** * The collectors *)

Section collectors.
Context {F C : Type} `{AwsClients F C} `{DateRepr} `{PolicyJson}.

(** What the columns of an asset take from an answer. *)
Definition make_asset (t : AssetType) (resource_id arn name region status : awsval) (tags : pydict)
    (metadata : awsval) : got NormalizedAsset :=
  resource_id ← required_text resource_id;
  arn ← nullable arn;
  name ← required_text name;
  region ← required_text region;
  status ← nullable status;
  mret (mk_NormalizedAsset t resource_id arn name region status (PDict tags) (json_safe metadata)).

Definition tag_or (key : string) (dflt : awsval) (tags : pydict) : awsval :=
  match dget key tags with Some v => of_json v | None => dflt end.

(** ** EC2 *)

(** services/discovery.py:191-224, part of EC2DiscoveryService.discover. *)
Definition ec2_instance (region account_id : string) (instance : awsval) : got NormalizedAsset :=
  instance_id ← a_item "InstanceId" instance;
  tags ← a_get "Tags" instance; tags ← tags_dict tags;
  state ← a_get_or "State" (ADict []) instance; state ← a_get "Name" state;
  instance_type ← a_get "InstanceType" instance;
  vpc ← a_get "VpcId" instance;
  subnet ← a_get "SubnetId" instance;
  groups ← a_get_or "SecurityGroups" (AList []) instance; groups ← a_iter groups;
  groups ← map_got (a_get "GroupId") groups;
  launch ← a_get "LaunchTime" instance;
  public_ip ← a_get "PublicIpAddress" instance;
  options ← a_get "MetadataOptions" instance;
  tokens ← a_get "HttpTokens" (or_else options (ADict []));
  endpoint ← a_get "HttpEndpoint" (or_else options (ADict []));
  make_asset AssetType.EC2_INSTANCE instance_id
    (AStr ("arn:aws:ec2:" +:+ region +:+ ":" +:+ account_id +:+ ":instance/" +:+ a_str instance_id))
    (tag_or "Name" instance_id tags) (AStr region) state tags
    (ADict [("instance_type", instance_type); ("vpc_id", vpc); ("subnet_id", subnet);
            ("security_group_ids", AList groups); ("launch_time", launch);
            ("has_public_ip", ABool (truthy public_ip));
            ("metadata_options", ADict [("http_tokens", tokens); ("http_endpoint", endpoint)])]).

(** services/discovery.py:231-253, part of EC2DiscoveryService.discover. *)
Definition ec2_security_group (client : C) (region account_id : string) (group : awsval)
    : got NormalizedAsset :=
  group_id ← a_item "GroupId" group;
  tags ← a_get "Tags" group; tags ← tags_dict tags;
  rule_evidence ← security_group_rule_evidence client group_id;
  name ← a_get_or "GroupName" group_id group;
  description ← a_get "Description" group;
  vpc ← a_get "VpcId" group;
  ingress ← a_get_or "IpPermissions" (AList []) group;
  egress ← a_get_or "IpPermissionsEgress" (AList []) group;
  make_asset AssetType.EC2_SECURITY_GROUP group_id
    (AStr ("arn:aws:ec2:" +:+ region +:+ ":" +:+ account_id +:+ ":security-group/"
           +:+ a_str group_id))
    name (AStr region) (AStr "active") tags
    (ADict [("description", description); ("vpc_id", vpc); ("ip_permissions", ingress);
            ("ip_permissions_egress", egress);
            ("security_group_rules", AList (map (λ r, of_json (PDict r)) rule_evidence))]).

(** services/discovery.py:260-280, part of EC2DiscoveryService.discover. *)
Definition ec2_volume (region account_id : string) (volume : awsval) : got NormalizedAsset :=
  volume_id ← a_item "VolumeId" volume;
  tags ← a_get "Tags" volume; tags ← tags_dict tags;
  state ← a_get "State" volume;
  encrypted ← a_get "Encrypted" volume;
  volume_type ← a_get "VolumeType" volume;
  size ← a_get "Size" volume;
  snapshot ← a_get "SnapshotId" volume;
  make_asset AssetType.EBS_VOLUME volume_id
    (AStr ("arn:aws:ec2:" +:+ region +:+ ":" +:+ account_id +:+ ":volume/" +:+ a_str volume_id))
    (tag_or "Name" volume_id tags) (AStr region) state tags
    (ADict [("encrypted", encrypted); ("volume_type", volume_type); ("size_gib", size);
            ("snapshot_id", snapshot)]).

(** [assets.append(f(x))] *)
Definition appending (f : awsval → got NormalizedAsset) (assets : list NormalizedAsset) (x : awsval)
    : got (list NormalizedAsset) :=
  a ← f x; mret (assets ++ [a]).

(** services/discovery.py:225-228, part of EC2DiscoveryService.discover.  The pages
    of an operation, none if it cannot be paginated. *)
Definition pages_or_none (client : C) (operation : string) : got pages :=
  match get_paginator client operation [] with
  | inr (PyError (AssertionError | AttributeError | KeyError)) => mret (mk_pages [] None)
  | p => p
  end.

(** services/discovery.py:182-281, EC2DiscoveryService.discover. *)
Definition ec2_discover (client_factory : F) (regions : list string) (account_id : string)
    : got (list NormalizedAsset) :=
  fold_got (λ assets region,
    client ← make_client client_factory "ec2" (Some region);
    instances ← get_paginator client "describe_instances" [];
    assets ← for_pages (for_items "Reservations"
      (for_items "Instances" (appending (ec2_instance region account_id)))) assets instances;
    groups ← pages_or_none client "describe_security_groups";
    assets ← for_pages (for_items "SecurityGroups"
      (appending (ec2_security_group client region account_id))) assets groups;
    volumes ← pages_or_none client "describe_volumes";
    for_pages (for_items "Volumes" (appending (ec2_volume region account_id))) assets volumes)
  [] regions.

(** ** S3 *)

(** services/discovery.py:309-316, part of S3DiscoveryService.discover. *)
Definition optional_calls : list (string * string) :=
  [("get_public_access_block", "PublicAccessBlockConfiguration");
   ("get_bucket_acl", "Grants");
   ("get_bucket_policy_status", "PolicyStatus");
   ("get_bucket_encryption", "ServerSideEncryptionConfiguration");
   ("get_bucket_versioning", "Status");
   ("get_bucket_logging", "LoggingEnabled")].

(** services/discovery.py:318-335, part of S3DiscoveryService.discover.  One of the
    optional calls. *)
Definition optional_call (client : C) (name : awsval) (values : list (string * awsval))
    (call : string * string) : got (list (string * awsval)) :=
  let '(operation, key) := call in
  if negb (hasattr client operation) then mret values
  else match (answer ← invoke client operation [("Bucket", name)]; a_get key answer) with
  | inl v => mret (values ++ [(operation, v)])
  | inr (ClientError error) =>
      code ← fault_code error;
      if String.eqb operation "get_public_access_block"
         && is_text "NoSuchPublicAccessBlockConfiguration" code
      then mret (values ++ [(operation, ANone)])
      else
        b ← a_in code ["ServerSideEncryptionConfigurationNotFoundError"; "NoSuchBucketPolicy"];
        if b : bool then mret values else inr (ClientError error)
  | inr e => inr e
  end.

(** services/discovery.py:337-352, part of S3DiscoveryService.discover. *)
Definition block_metadata (block : awsval) : list (string * awsval) :=
  match block with
  | ADict d =>
      let normalized := omap (λ key, v ← alookup key d; Some (key, ABool (a_is_true v)))
                          S3_PUBLIC_ACCESS_BLOCK_KEYS in
      [("public_access_block", ADict normalized);
       ("public_access_block_complete",
        ABool (Nat.eqb (length normalized) (length S3_PUBLIC_ACCESS_BLOCK_KEYS)
               && forallb (λ kv, truthy kv.2) normalized))]
  | _ => [("public_access_block", ANone); ("public_access_block_complete", ABool false)]
  end.

(** services/discovery.py:355-358, part of S3DiscoveryService.discover. *)
Definition public_uris : list string :=
  ["http://acs.amazonaws.com/groups/global/AllUsers";
   "http://acs.amazonaws.com/groups/global/AuthenticatedUsers"].
(** services/discovery.py:361-362, part of S3DiscoveryService.discover. *)
Definition public_grant (grant : awsval) : got bool :=
  if a_is_dict grant then
    grantee ← a_get "Grantee" grant;
    uri ← a_get "URI" (or_else grantee (ADict []));
    a_in uri public_uris
  else mret false.

(** services/discovery.py:336-374, part of S3DiscoveryService.discover.  What the
    optional calls say of a bucket. *)
Definition bucket_metadata (values : list (string * awsval)) : got (list (string * awsval)) :=
  let value operation (f : awsval → list (string * awsval)) :=
    match alookup operation values with Some v => f v | None => [] end in
  signals ← match alookup "get_bucket_acl" values with
    | Some (AList grants) =>
        public_acl ← any_got public_grant grants;
        status ← a_get "IsPublic"
          (or_else (default ANone (alookup "get_bucket_policy_status" values)) (ADict []));
        mret [("public_access_signals",
               ADict [("public_acl", ABool public_acl); ("public_policy", ABool (truthy status))])]
    | _ => mret []
    end;
  mret (value "get_public_access_block" block_metadata ++ signals
        ++ value "get_bucket_encryption" (λ v, [("default_encryption_enabled", ABool (truthy v))])
        ++ value "get_bucket_versioning" (λ v, [("versioning_enabled", ABool (is_text "Enabled" v))])
        ++ value "get_bucket_logging" (λ v, [("logging_enabled", ABool (truthy v))])).

(** services/discovery.py:375-384, part of S3DiscoveryService.discover. *)
Definition policy_metadata (client : C) (name : awsval) : got (list (string * awsval)) :=
  if hasattr client "get_bucket_policy" then
    or_when ["NoSuchBucketPolicy"] [("policy_document", ANone)] (
      answer ← invoke client "get_bucket_policy" [("Bucket", name)];
      policy ← a_get "Policy" answer;
      mret [("policy_document", of_json (bounded_policy_document policy))])
  else mret [].

(** services/discovery.py:295-396, part of S3DiscoveryService.discover.  One
    bucket. *)
Definition s3_bucket (client : C) (bucket : awsval) : got NormalizedAsset :=
  name ← a_item "Name" bucket;
  location ← invoke client "get_bucket_location" [("Bucket", name)];
  location ← a_get "LocationConstraint" location;
  tags ← or_when ["NoSuchTagSet"; "NoSuchTagSetError"] [] (
    answer ← invoke client "get_bucket_tagging" [("Bucket", name)];
    tags ← a_get "TagSet" answer;
    tags_dict tags);
  created ← a_get "CreationDate" bucket;
  values ← fold_got (optional_call client name) [] optional_calls;
  metadata ← bucket_metadata values;
  policy ← policy_metadata client name;
  make_asset AssetType.S3_BUCKET name (AStr ("arn:aws:s3:::" +:+ a_str name)) name
    (or_else location (AStr "us-east-1")) (AStr "available") tags
    (ADict (("creation_date", created) :: metadata ++ policy)).

(** services/discovery.py:287-397, S3DiscoveryService.discover. *)
Definition s3_discover (client_factory : F) (regions : list string) (account_id : string)
    : got (list NormalizedAsset) :=
  client ← make_client client_factory "s3" None;
  buckets ← get_paginator client "list_buckets" [];
  for_pages (for_items "Buckets" (appending (s3_bucket client))) [] buckets.

(** ** IAM *)

(** services/discovery.py:415-420, part of IAMDiscoveryService.discover. *)
Record iam_spec := mk_iam_spec {
  operation : string; items_key : string; iam_type : AssetType; id_key : string; name_key : string
}.
Definition iam_specs : list iam_spec :=
  [mk_iam_spec "list_users" "Users" AssetType.IAM_USER "UserId" "UserName";
   mk_iam_spec "list_roles" "Roles" AssetType.IAM_ROLE "RoleId" "RoleName";
   mk_iam_spec "list_groups" "Groups" AssetType.IAM_GROUP "GroupId" "GroupName";
   mk_iam_spec "list_policies" "Policies" AssetType.IAM_POLICY "PolicyId" "PolicyName"].

(** services/discovery.py:429-446, part of IAMDiscoveryService.discover. *)
Definition principal_tags (client : C) (spec : iam_spec) (item : awsval) : got pydict :=
  let method := match iam_type spec with
    | AssetType.IAM_USER => Some ("list_user_tags", "UserName")
    | AssetType.IAM_ROLE => Some ("list_role_tags", "RoleName")
    | AssetType.IAM_POLICY => Some ("list_policy_tags", "PolicyArn")
    | _ => None
    end in
  match method with
  | Some (tag_method, argument) =>
      if hasattr client tag_method then
        value ← a_item (if iam_type spec ≟ AssetType.IAM_POLICY then "Arn" else name_key spec) item;
        iam_tags client tag_method argument value
      else mret []
  | None => mret []
  end.

(** services/discovery.py:453-459, part of IAMDiscoveryService.discover.  The prefix
    of the methods about a kind of principal, and their argument. *)
Definition principal_prefix (t : AssetType) : option (string * string) :=
  match t with
  | AssetType.IAM_USER => Some ("user", "UserName")
  | AssetType.IAM_ROLE => Some ("role", "RoleName")
  | AssetType.IAM_GROUP => Some ("group", "GroupName")
  | _ => None
  end.

(** services/discovery.py:448-497, part of IAMDiscoveryService.discover.  The
    policies of a user, a role or a group. *)
Definition policies_metadata (client : C) (spec : iam_spec) (item : awsval)
    : got (list (string * awsval)) :=
  match principal_prefix (iam_type spec) with
  | None => mret []
  | Some (prefix, argument) =>
      name ← a_item (name_key spec) item;
      let principal := AStr (a_str name) in
      let attached_operation := "list_attached_" +:+ prefix +:+ "_policies" in
      let inline_operation := "list_" +:+ prefix +:+ "_policies" in
      let get_inline := "get_" +:+ prefix +:+ "_policy" in
      attached ← (if hasattr client attached_operation then
          attached ← paginated_items client attached_operation "AttachedPolicies"
                       [(argument, principal)];
          arns ← map_got (a_get "PolicyArn") attached;
          mret [("attached_policy_arns", AList (List.filter truthy arns))]
        else mret []);
      inline_names ← (if hasattr client inline_operation then
          paginated_items client inline_operation "PolicyNames" [(argument, principal)]
        else mret []);
      let inline_names := take 100 inline_names in
      documents ← (if hasattr client get_inline then
          map_got (λ policy_name,
            answer ← invoke client get_inline [(argument, principal); ("PolicyName", policy_name)];
            document ← a_get_or "PolicyDocument" (ADict []) answer;
            mret (of_json (bounded_policy_document document))) inline_names
        else mret []);
      mret (attached ++ [("inline_policy_names", AList inline_names);
                         ("inline_policy_documents", AList documents)])
  end.

(** services/discovery.py:529-531, part of IAMDiscoveryService.discover. *)
Definition active_key (created_values : list awsval) (key : awsval) : got (list awsval) :=
  created ← a_get "CreateDate" key;
  status ← a_get "Status" key;
  mret match created with
       | ADate t => if is_text "Active" status
                    then created_values ++ [AStr (isoformat "T" t)] else created_values
       | _ => created_values
       end.

(** services/discovery.py:498-532, part of IAMDiscoveryService.discover.  The
    credentials of a user. *)
Definition user_metadata (client : C) (spec : iam_spec) (item : awsval)
    : got (list (string * awsval)) :=
  name ← a_item (name_key spec) item;
  let username := AStr (a_str name) in
  console ← (if hasattr client "get_login_profile" then
      or_when ["NoSuchEntity"] [("console_access", ABool false)] (
        _ ← invoke client "get_login_profile" [("UserName", username)];
        mret [("console_access", ABool true)])
    else mret []);
  mfa ← (if hasattr client "list_mfa_devices" then
      devices ← paginated_items client "list_mfa_devices" "MFADevices" [("UserName", username)];
      mret [("mfa_enabled", ABool (truthy (AList devices)))]
    else mret []);
  keys ← (if hasattr client "list_access_keys" then
      keys ← paginated_items client "list_access_keys" "AccessKeyMetadata" [("UserName", username)];
      created ← fold_got active_key [] keys;
      mret [("active_key_created_at", AList created)]
    else mret []);
  mret (console ++ mfa ++ keys).

(** services/discovery.py:429-553, part of IAMDiscoveryService.discover.  An item
    that was not seen yet, under its identifier. *)
Definition iam_asset (client : C) (spec : iam_spec) (resource_id : string) (item : awsval)
    : got NormalizedAsset :=
  tags ← principal_tags client spec item;
  path ← a_get "Path" item;
  created ← a_get "CreateDate" item;
  policies ← policies_metadata client spec item;
  user ← (if iam_type spec ≟ AssetType.IAM_USER then user_metadata client spec item else mret []);
  role ← (if iam_type spec ≟ AssetType.IAM_ROLE then
      duration ← a_get "MaxSessionDuration" item; mret [("max_session_duration", duration)]
    else mret []);
  policy ← (if iam_type spec ≟ AssetType.IAM_POLICY then
      attachments ← a_get "AttachmentCount" item;
      updated ← a_get "UpdateDate" item;
      mret [("attachment_count", attachments); ("update_date", updated)]
    else mret []);
  arn ← a_get "Arn" item;
  name ← a_item (name_key spec) item;
  make_asset (iam_type spec) (AStr resource_id) arn (AStr (a_str name)) (AStr "global")
    (AStr "active") tags
    (ADict ([("path", path); ("creation_date", created)] ++ policies ++ user ++ role ++ policy)).

(** The assets so far and the identities seen. *)
Definition unseen (spec : iam_spec) (resource_id : string) (seen : list (AssetType * string))
    : bool := negb (bool_decide ((iam_type spec, resource_id) ∈ seen)).

(** services/discovery.py:408-554, IAMDiscoveryService.discover. *)
Definition iam_discover (client_factory : F) (regions : list string) (account_id : string)
    : got (list NormalizedAsset) :=
  client ← make_client client_factory "iam" None;
  result ← fold_got (λ state spec,
    p ← get_paginator client (operation spec)
          (if String.eqb (operation spec) "list_policies" then [("Scope", AStr "Local")] else []);
    for_pages (for_items (items_key spec) (λ state item,
      let '(assets, seen) := state in
      id ← a_item (id_key spec) item;
      if unseen spec (a_str id) seen then
        a ← iam_asset client spec (a_str id) item;
        mret (assets ++ [a], (iam_type spec, a_str id) :: seen)
      else mret (assets, seen))) state p) ([], []) iam_specs;
  mret result.1.

(** ** RDS *)

(** services/discovery.py:569-601, part of RDSDiscoveryService.discover. *)
Definition rds_instance (client : C) (region : string) (item : awsval) : got NormalizedAsset :=
  arn ← a_get "DBInstanceArn" item;
  tags ← (if truthy arn then
      answer ← invoke client "list_tags_for_resource" [("ResourceName", arn)];
      tags ← a_get "TagList" answer; tags_dict tags
    else mret []);
  group ← a_get "DBSubnetGroup" item;
  vpc ← a_get "VpcId" (or_else group (ADict []));
  engine ← a_get "Engine" item;
  engine_version ← a_get "EngineVersion" item;
  class ← a_get "DBInstanceClass" item;
  endpoint ← a_get "Endpoint" item;
  multi_az ← a_get "MultiAZ" item;
  public ← a_get "PubliclyAccessible" item;
  encrypted ← a_get "StorageEncrypted" item;
  backup ← a_get "BackupRetentionPeriod" item;
  minor ← a_get "AutoMinorVersionUpgrade" item;
  protected ← a_get "DeletionProtection" item;
  identifier ← a_item "DBInstanceIdentifier" item;
  status ← a_get "DBInstanceStatus" item;
  make_asset AssetType.RDS_INSTANCE identifier arn identifier (AStr region) status tags
    (ADict [("engine", engine); ("engine_version", engine_version); ("instance_class", class);
            ("endpoint", of_json (json_safe endpoint)); ("multi_az", multi_az); ("vpc_id", vpc);
            ("publicly_accessible", public); ("storage_encrypted", encrypted);
            ("backup_retention_period", backup); ("auto_minor_version_upgrade", minor);
            ("deletion_protection", protected)]).

(** services/discovery.py:560-602, RDSDiscoveryService.discover. *)
Definition rds_discover (client_factory : F) (regions : list string) (account_id : string)
    : got (list NormalizedAsset) :=
  fold_got (λ assets region,
    client ← make_client client_factory "rds" (Some region);
    p ← get_paginator client "describe_db_instances" [];
    for_pages (for_items "DBInstances" (appending (rds_instance client region))) assets p) [] regions.

(** ** CloudWatch *)

(** services/discovery.py:623-649, part of CloudWatchDiscoveryService.discover. *)
Definition cloudwatch_alarm (region : string) (alarm : awsval) : got NormalizedAsset :=
  name ← a_item "AlarmName" alarm;
  arn ← a_get "AlarmArn" alarm;
  state ← a_get "StateValue" alarm;
  enabled ← a_get "ActionsEnabled" alarm;
  actions ← a_get_or "AlarmActions" (AList []) alarm;
  ok ← a_get_or "OKActions" (AList []) alarm;
  insufficient ← a_get_or "InsufficientDataActions" (AList []) alarm;
  metric ← a_get "MetricName" alarm;
  namespace ← a_get "Namespace" alarm;
  dimensions ← a_get_or "Dimensions" (AList []) alarm;
  operator ← a_get "ComparisonOperator" alarm;
  make_asset AssetType.CLOUDWATCH_ALARM (AStr (region +:+ ":" +:+ a_str name)) arn name (AStr region)
    state []
    (ADict [("actions_enabled", enabled); ("alarm_actions", actions); ("ok_actions", ok);
            ("insufficient_data_actions", insufficient); ("metric_name", metric);
            ("namespace", namespace); ("dimensions", dimensions); ("state", state);
            ("comparison_operator", operator)]).

(** services/discovery.py:652-685, part of CloudWatchDiscoveryService.discover. *)
Definition cloudwatch_log_group (logs : C) (region : string) (group : awsval) : got NormalizedAsset :=
  name ← a_item "logGroupName" group;
  metric_filters ← paginated_items logs "describe_metric_filters" "metricFilters"
                     [("logGroupName", name); ("limit", AInt 50)];
  subscriptions ← paginated_items logs "describe_subscription_filters" "subscriptionFilters"
                    [("logGroupName", name); ("limit", AInt 50)];
  arn ← a_get "arn" group;
  retention ← a_get "retentionInDays" group;
  kms ← a_get "kmsKeyId" group;
  make_asset AssetType.CLOUDWATCH_LOG_GROUP (AStr (region +:+ ":" +:+ a_str name)) arn name
    (AStr region) (AStr "active") []
    (ADict [("retention_days", retention); ("kms_encrypted", ABool (truthy kms));
            ("metric_filter_count", AInt (Z.of_nat (length metric_filters)));
            ("subscription_filter_count", AInt (Z.of_nat (length subscriptions)))]).

(** A loop over the regions, that ends with nothing when the factory does not
    know the service. *)
Fixpoint region_loop {Cs S} (make : string → got Cs) (f : S → Cs → string → got S) (none : S)
    (s : S) (regions : list string) : got S :=
  match regions with
  | [] => mret s
  | region :: regions =>
      match make region with
      | inr (PyError KeyError) => mret none
      | inr e => inr e
      | inl clients => s ← f s clients region; region_loop make f none s regions
      end
  end.

(** services/discovery.py:611-686, CloudWatchDiscoveryService.discover. *)
Definition cloudwatch_discover (client_factory : F) (regions : list string) (account_id : string)
    : got (list NormalizedAsset) :=
  region_loop
    (λ region, cloudwatch ← make_client client_factory "cloudwatch" (Some region);
               logs ← make_client client_factory "logs" (Some region);
               mret (cloudwatch, logs))
    (λ assets (clients : C * C) region,
       let '(cloudwatch, logs) := clients in
       alarms ← get_paginator cloudwatch "describe_alarms" [];
       assets ← for_pages (for_items "MetricAlarms" (appending (cloudwatch_alarm region))) assets alarms;
       groups ← get_paginator logs "describe_log_groups" [];
       for_pages (for_items "logGroups" (appending (cloudwatch_log_group logs region))) assets groups)
    [] [] regions.

(** ** CloudTrail *)

(** services/discovery.py:716-727, part of CloudTrailDiscoveryService.discover. *)
Definition trail_tags (client : C) (trail : awsval) : got pydict :=
  arn ← a_get "TrailARN" trail;
  if hasattr client "list_tags" && truthy arn then
    resources ← paginated_items client "list_tags" "ResourceTagList"
                  [("ResourceIdList", AList [arn])];
    fold_got (λ tags resource,
      if a_is_dict resource then
        more ← a_get "TagsList" resource;
        more ← tags_dict more;
        mret (foldl (λ tags kv, dset kv.1 kv.2 tags) tags more)
      else mret tags) [] resources
  else mret [].

(** services/discovery.py:708-760, part of CloudTrailDiscoveryService.discover.  A
    trail that was not seen yet, under its name. *)
Definition cloudtrail_trail (client : C) (region arn : string) (trail : awsval)
    : got NormalizedAsset :=
  status ← invoke client "get_trail_status" [("Name", AStr arn)];
  event_selectors ← invoke client "get_event_selectors" [("TrailName", AStr arn)];
  insights ← (if hasattr client "get_insight_selectors" then
      answer ← invoke client "get_insight_selectors" [("TrailName", AStr arn)];
      a_get_or "InsightSelectors" (AList []) answer
    else mret (AList []));
  tags ← trail_tags client trail;
  trail_arn ← a_get "TrailARN" trail;
  name ← a_get_or "Name" (AStr arn) trail;
  home ← a_get_or "HomeRegion" (AStr region) trail;
  logging ← a_get "IsLogging" status;
  multi_region ← a_get "IsMultiRegionTrail" trail;
  global_events ← a_get "IncludeGlobalServiceEvents" trail;
  validation ← a_get "LogFileValidationEnabled" trail;
  kms ← a_get "KmsKeyId" trail;
  log_group ← a_get "CloudWatchLogsLogGroupArn" trail;
  delivery_error ← a_get "LatestDeliveryError" status;
  basic ← a_get_or "EventSelectors" (AList []) event_selectors; basic ← a_len basic;
  advanced ← a_get_or "AdvancedEventSelectors" (AList []) event_selectors; advanced ← a_len advanced;
  insights ← a_len insights;
  make_asset AssetType.CLOUDTRAIL_TRAIL (AStr arn) trail_arn name home
    (AStr (if truthy logging then "logging" else "stopped")) tags
    (ADict [("is_logging", logging); ("is_multi_region", multi_region);
            ("include_global_service_events", global_events);
            ("log_file_validation_enabled", validation); ("kms_encrypted", ABool (truthy kms));
            ("cloudwatch_integration", ABool (truthy log_group));
            ("delivery_failed", ABool (truthy delivery_error));
            ("event_selector_count", AInt (basic + advanced));
            ("insight_selector_count", AInt insights)]).

(** services/discovery.py:692-761, CloudTrailDiscoveryService.discover. *)
Definition cloudtrail_discover (client_factory : F) (regions : list string) (account_id : string)
    : got (list NormalizedAsset) :=
  result ← region_loop (λ region, make_client client_factory "cloudtrail" (Some region))
    (λ state client region,
       answer ← invoke client "describe_trails" [("includeShadowTrails", ABool false)];
       for_items "trailList" (λ state trail,
         let '(assets, seen) := state in
         trail_arn ← a_get "TrailARN" trail;
         name ← a_get "Name" trail;
         let arn := a_str (or_else trail_arn name) in
         if bool_decide (arn ∈ seen) then mret (assets, seen)
         else
           a ← cloudtrail_trail client region arn trail;
           mret (assets ++ [a], arn :: seen)) state answer)
    ([], []) ([], []) regions;
  mret result.1.

(** ** The collectors of the orchestrator *)

(** services/discovery.py:175-180, part of EC2DiscoveryService. *)
Definition EC2DiscoveryService : DiscoveryCollector F :=
  mk_DiscoveryCollector "ec2"
    [AssetType.EC2_INSTANCE; AssetType.EC2_SECURITY_GROUP; AssetType.EBS_VOLUME] ec2_discover.
(** services/discovery.py:284-285, part of S3DiscoveryService. *)
Definition S3DiscoveryService : DiscoveryCollector F :=
  mk_DiscoveryCollector "s3" [AssetType.S3_BUCKET] s3_discover.
(** services/discovery.py:400-406, part of IAMDiscoveryService. *)
Definition IAMDiscoveryService : DiscoveryCollector F :=
  mk_DiscoveryCollector "iam"
    [AssetType.IAM_USER; AssetType.IAM_ROLE; AssetType.IAM_GROUP; AssetType.IAM_POLICY] iam_discover.
(** services/discovery.py:557-558, part of RDSDiscoveryService. *)
Definition RDSDiscoveryService : DiscoveryCollector F :=
  mk_DiscoveryCollector "rds" [AssetType.RDS_INSTANCE] rds_discover.
(** services/discovery.py:605-609, part of CloudWatchDiscoveryService. *)
Definition CloudWatchDiscoveryService : DiscoveryCollector F :=
  mk_DiscoveryCollector "cloudwatch" [AssetType.CLOUDWATCH_ALARM; AssetType.CLOUDWATCH_LOG_GROUP]
    cloudwatch_discover.
(** services/discovery.py:689-690, part of CloudTrailDiscoveryService. *)
Definition CloudTrailDiscoveryService : DiscoveryCollector F :=
  mk_DiscoveryCollector "cloudtrail" [AssetType.CLOUDTRAIL_TRAIL] cloudtrail_discover.

(** services/discovery.py:788-795, part of DiscoveryOrchestrator.  The services. *)
Definition services : list (DiscoveryCollector F) :=
  [EC2DiscoveryService; S3DiscoveryService; IAMDiscoveryService; RDSDiscoveryService;
   CloudWatchDiscoveryService; CloudTrailDiscoveryService].
End collectors.

(** * What the collectors report *)

(** ** Steps that end well *)

(** Whatever the step returns has the property. *)
Definition ens {A} (m : got A) (Q : A → Prop) : Prop := ∀ a, m = inl a → Q a.

Lemma ens_ret {A} (a : A) (Q : A → Prop) : Q a → ens (mret a) Q.
Proof. by intros HQ a' [= <-]. Qed.
Lemma ens_bind {A B} (m : got A) (f : A → got B) (Q : B → Prop) :
  ens m (λ a, ens (f a) Q) → ens (m ≫= f) Q.
Proof. intros Hm b. unfold mbind, got_bind. destruct m as [a|e]; [by apply Hm|done]. Qed.
Lemma ens_any {A B} (m : got A) (f : A → got B) (Q : B → Prop) :
  (∀ a, ens (f a) Q) → ens (m ≫= f) Q.
Proof. intros Hf. apply ens_bind. intros a _. apply Hf. Qed.
Lemma ens_mono {A} (m : got A) (Q Q' : A → Prop) : (∀ a, Q a → Q' a) → ens m Q → ens m Q'.
Proof. intros HQ Hm a Ha. apply HQ, Hm, Ha. Qed.
Lemma ens_error {A} e (Q : A → Prop) : ens (inr e) Q.
Proof. done. Qed.
Lemma ens_true {A} (m : got A) : ens m (λ _, True).
Proof. done. Qed.
Lemma ens_if {A} (b : bool) (m m' : got A) Q : ens m Q → ens m' Q → ens (if b then m else m') Q.
Proof. by destruct b. Qed.
Lemma ens_or_when {A} codes (v : A) m Q : Q v → ens m Q → ens (or_when codes v m) Q.
Proof.
  intros Hv Hm. unfold or_when. destruct m as [a|[]]; try exact Hm.
  apply ens_any. intros code. apply ens_any. intros [|]; [by apply ens_ret|done].
Qed.

Lemma ens_fold {A S} (P : S → Prop) (f : S → A → got S) s l :
  P s → (∀ s x, P s → ens (f s x) P) → ens (fold_got f s l) P.
Proof.
  intros Hs Hf. revert s Hs. induction l as [|x l IH]; intros s Hs; cbn [fold_got].
  { by apply ens_ret. }
  apply ens_bind. eapply ens_mono, Hf; [|done]. intros s' Hs'. by apply IH.
Qed.
Lemma ens_items {S} (P : S → Prop) key f s v :
  P s → (∀ s x, P s → ens (f s x) P) → ens (@for_items S key f s v) P.
Proof. intros Hs Hf. apply ens_any. intros l. apply ens_any. intros l'. by apply ens_fold. Qed.
Lemma ens_pages {S} (P : S → Prop) f s p :
  P s → (∀ s x, P s → ens (f s x) P) → ens (@for_pages S f s p) P.
Proof.
  intros Hs Hf. apply ens_bind. eapply ens_mono, ens_fold; [|done..]. intros s' Hs'.
  destruct (page_fault p); [done|by apply ens_ret].
Qed.
Lemma ens_regions {Cs S} (P : S → Prop) make f none s regions :
  P none → P s → (∀ s c r, r ∈ regions → P s → ens (f s c r) P) →
  ens (@region_loop Cs S make f none s regions) P.
Proof.
  intros Hn. revert s. induction regions as [|r regions IH]; intros s Hs Hf; cbn [region_loop].
  { by apply ens_ret. }
  destruct (make r) as [c|[]]; [|done..|by case_match; try done; apply ens_ret].
  apply ens_bind. eapply ens_mono, Hf; [|set_solver|done]. intros s' Hs'. apply IH; [done|].
  intros s'' c' r' Hr. apply Hf. set_solver.
Qed.

(** ** Tags and metadata *)

(** Tags are texts under distinct keys, none of them sensitive. *)
Record clean_tags (tags : pydict) : Prop := {
  ct_keys : NoDup tags.*1;
  ct_entries : Forall (λ kv, rx_search SENSITIVE_KEYS kv.1 = false ∧ ∃ s, kv.2 = PStr s) tags
}.

Lemma clean_nil : clean_tags [].
Proof. split; constructor. Qed.
Lemma clean_dset k s tags :
  clean_tags tags → rx_search SENSITIVE_KEYS k = false → clean_tags (dset k (PStr s) tags).
Proof.
  intros [Hk He] Hs. split; [by apply dset_NoDup|]. apply dset_Forall; [done|].
  split; [done|by exists s].
Qed.
Lemma clean_merge tags more :
  clean_tags tags → clean_tags more → clean_tags (foldl (λ tags kv, dset kv.1 kv.2 tags) tags more).
Proof.
  intros Ht [_ Hm]. revert tags Ht. induction Hm as [|[k v] more [Hk [s Hv]] _ IH]; intros tags Ht; [done|].
  cbn in Hk, Hv |- *. subst v. apply IH. by apply clean_dset.
Qed.

Create HintDb got.
#[export] Hint Resolve clean_nil ens_true ens_error : got.

Section clean.
Context `{DateRepr}.

Lemma ens_add_tag tags tag : clean_tags tags → ens (add_tag tags tag) clean_tags.
Proof.
  intros Ht. apply ens_any. intros key.
  destruct (truthy key && _) eqn:E; [|by apply ens_ret].
  apply ens_any. intros value. apply ens_ret, clean_dset; [done|].
  apply andb_true_iff in E as [_ E]. by apply negb_true_iff.
Qed.
Lemma ens_tags_dict tags : ens (tags_dict tags) clean_tags.
Proof. apply ens_any. intros l. apply ens_fold; [apply clean_nil|apply ens_add_tag]. Qed.
End clean.

(** An asset as its collector may report it. *)
Record reported (types : list AssetType) (region : string → Prop) (a : NormalizedAsset) : Prop := {
  rp_type : na_asset_type a ∈ types;
  rp_region : region (na_region a);
  rp_tags : ∃ tags, na_tags a = PDict tags ∧ clean_tags tags;
  rp_metadata : contains_key SENSITIVE_KEYS (na_metadata a) = false;
  rp_stable : json_safe (of_json (na_metadata a)) = na_metadata a
}.

Lemma ens_make_asset_id t id arn name region status tags metadata types (where_ : string → Prop) :
  t ∈ types → (∀ r, required_text region = inl r → where_ r) → clean_tags tags →
  ens (make_asset t id arn name region status tags metadata) (λ a,
    reported types where_ a ∧ na_asset_type a = t ∧ required_text id = inl (na_resource_id a)).
Proof.
  intros Ht Hr Htags. unfold make_asset.
  apply ens_bind. intros i Ei. do 2 (apply ens_any; intros ?). apply ens_bind. intros r Er.
  apply ens_any. intros st. apply ens_ret. split; [|done].
  split; cbn; [done|by apply Hr|by eexists| |]; by apply json_safe_is_clean.
Qed.
#[local] Opaque make_asset.
Lemma ens_make_asset t id arn name region status tags metadata types (where_ : string → Prop) :
  t ∈ types → (∀ r, required_text region = inl r → where_ r) → clean_tags tags →
  ens (make_asset t id arn name region status tags metadata) (reported types where_).
Proof.
  intros Ht Hr Htags. eapply ens_mono, ens_make_asset_id; [|done..]. by intros a [? _].
Qed.

Lemma ens_appending (Q : NormalizedAsset → Prop) f assets x :
  ens (f x) Q → Forall Q assets → ens (appending f assets x) (Forall Q).
Proof.
  intros Hf Ha. apply ens_bind. eapply ens_mono, Hf. intros a Hq. apply ens_ret.
  apply Forall_app. by repeat constructor.
Qed.

(** Steps whose results do not matter, down to the asset. *)
Ltac skip := repeat (apply ens_any; intros ?).

Section clean_assets.
Context {F C : Type} `{AwsClients F C} `{DateRepr} `{PolicyJson}.

Lemma ens_iam_tags client operation argument value :
  ens (iam_tags client operation argument value) clean_tags.
Proof.
  unfold iam_tags. apply ens_if.
  - apply ens_any. intros p. apply ens_pages; [apply clean_nil|]. intros tags page Ht.
    apply ens_items; [done|apply ens_add_tag].
  - apply ens_any. intros answer. apply ens_any. intros tags. apply ens_tags_dict.
Qed.

Lemma ens_trail_tags client trail : ens (trail_tags client trail) clean_tags.
Proof.
  apply ens_any. intros arn. destruct (_ && _); [|apply ens_ret, clean_nil].
  apply ens_any. intros l. apply ens_fold; [apply clean_nil|]. intros tags r Ht.
  destruct (a_is_dict r); [|by apply ens_ret]. apply ens_any. intros more. apply ens_bind.
  eapply ens_mono, ens_tags_dict. intros m Hm. by apply ens_ret, clean_merge.
Qed.

(** ** One asset *)

Implicit Types (types : list AssetType).

Definition EC2 : list AssetType := asset_types EC2DiscoveryService.
Definition in_region (region r : string) : Prop := r = region.

Lemma ens_ec2_instance region account_id instance :
  ens (ec2_instance region account_id instance) (reported EC2 (in_region region)).
Proof.
  do 2 (apply ens_any; intros ?). apply ens_bind. eapply ens_mono, ens_tags_dict. intros tags Ht.
  skip. apply ens_make_asset; [set_solver| |done]. by intros r [= <-].
Qed.
Lemma ens_ec2_security_group client region account_id group :
  ens (ec2_security_group client region account_id group) (reported EC2 (in_region region)).
Proof.
  do 2 (apply ens_any; intros ?). apply ens_bind. eapply ens_mono, ens_tags_dict. intros tags Ht.
  skip. apply ens_make_asset; [set_solver| |done]. by intros r [= <-].
Qed.
Lemma ens_ec2_volume region account_id volume :
  ens (ec2_volume region account_id volume) (reported EC2 (in_region region)).
Proof.
  do 2 (apply ens_any; intros ?). apply ens_bind. eapply ens_mono, ens_tags_dict. intros tags Ht.
  skip. apply ens_make_asset; [set_solver| |done]. by intros r [= <-].
Qed.
Lemma ens_s3_bucket client bucket :
  ens (s3_bucket client bucket) (reported [AssetType.S3_BUCKET] (λ _, True)).
Proof.
  do 3 (apply ens_any; intros ?). apply ens_bind.
  eapply (ens_mono _ clean_tags).
  { intros tags Ht. skip. apply ens_make_asset; [set_solver|done|done]. }
  apply ens_or_when; [apply clean_nil|]. do 2 (apply ens_any; intros ?). apply ens_tags_dict.
Qed.
Lemma ens_iam_asset client spec id item :
  ens (iam_asset client spec id item) (λ a,
    reported [iam_type spec] (in_region "global") a
    ∧ na_asset_type a = iam_type spec ∧ na_resource_id a = id).
Proof.
  apply ens_bind. eapply (ens_mono _ clean_tags).
  - intros tags Ht. skip.
    eapply ens_mono, (ens_make_asset_id _ _ _ _ _ _ _ _ [iam_type spec] (in_region "global"));
      [|by apply list_elem_of_singleton|by intros r [= <-]|done].
    by intros na (Ha & Ht' & [= <-]).
  - unfold principal_tags. destruct (iam_type spec); try (apply ens_ret, clean_nil);
      (apply ens_if; [|apply ens_ret, clean_nil]); apply ens_any; intros v; apply ens_iam_tags.
Qed.
Lemma ens_rds_instance client region item :
  ens (rds_instance client region item) (reported [AssetType.RDS_INSTANCE] (in_region region)).
Proof.
  apply ens_any. intros arn. apply ens_bind. eapply (ens_mono _ clean_tags).
  - intros tags Ht. skip. apply ens_make_asset; [set_solver| |done]. by intros r [= <-].
  - apply ens_if; [|apply ens_ret, clean_nil]. do 2 (apply ens_any; intros ?). apply ens_tags_dict.
Qed.
Lemma ens_cloudwatch_alarm region alarm :
  ens (cloudwatch_alarm region alarm)
    (reported (asset_types CloudWatchDiscoveryService) (in_region region)).
Proof. skip. apply ens_make_asset; [set_solver| |apply clean_nil]. by intros r [= <-]. Qed.
Lemma ens_cloudwatch_log_group logs region group :
  ens (cloudwatch_log_group logs region group)
    (reported (asset_types CloudWatchDiscoveryService) (in_region region)).
Proof. skip. apply ens_make_asset; [set_solver| |apply clean_nil]. by intros r [= <-]. Qed.
Lemma ens_cloudtrail_trail client region arn trail :
  ens (cloudtrail_trail client region arn trail) (λ a,
    reported [AssetType.CLOUDTRAIL_TRAIL] (λ _, True) a
    ∧ na_asset_type a = AssetType.CLOUDTRAIL_TRAIL ∧ na_resource_id a = arn).
Proof.
  do 3 (apply ens_any; intros ?). apply ens_bind. eapply ens_mono, ens_trail_tags. intros tags Ht.
  skip.
  eapply ens_mono, (ens_make_asset_id _ _ _ _ _ _ _ _ [AssetType.CLOUDTRAIL_TRAIL] (λ _, True));
    [|by apply list_elem_of_singleton|done|done].
  by intros na (Ha & Ht' & [= <-]).
Qed.

(** ** The collectors *)

Lemma ens_appended types where_ f assets x :
  ens (f x) (reported types where_) → Forall (reported types where_) assets →
  ens (appending f assets x) (Forall (reported types where_)).
Proof. apply ens_appending. Qed.

Lemma reported_in types (region : string) (regions : list string) a :
  region ∈ regions → reported types (in_region region) a → reported types (λ r, r ∈ regions) a.
Proof. intros Hr []. by split; [..|unfold in_region in *; subst| | |]. Qed.

Lemma ens_regional types f assets (x : awsval) (region : string) (regions : list string) :
  region ∈ regions → ens (f x) (reported types (in_region region)) →
  Forall (reported types (λ r, r ∈ regions)) assets →
  ens (appending f assets x) (Forall (reported types (λ r, r ∈ regions))).
Proof.
  intros Hr Hf. apply ens_appending. eapply ens_mono, Hf. intros a. by apply reported_in.
Qed.

Lemma ens_fold_in {A S} (P : S → Prop) (f : S → A → got S) s l :
  P s → (∀ s x, x ∈ l → P s → ens (f s x) P) → ens (fold_got f s l) P.
Proof.
  revert s. induction l as [|x l IH]; intros s Hs Hf; cbn [fold_got]; [by apply ens_ret|].
  apply ens_bind. eapply ens_mono, Hf; [|set_solver|done]. intros s' Hs'. apply IH; [done|].
  intros s'' y Hy. apply Hf. set_solver.
Qed.

Lemma ens_ec2_discover factory regions account_id :
  ens (ec2_discover factory regions account_id) (Forall (reported EC2 (λ r, r ∈ regions))).
Proof.
  apply ens_fold_in; [constructor|]. intros assets region Hr Ha.
  apply ens_any. intros client. apply ens_any. intros p1. apply ens_bind.
  eapply ens_mono, ens_pages; [|done|].
  2: { intros s page Hs. apply ens_items; [done|]. intros s' v Hs'. apply ens_items; [done|].
       intros s'' i Hs''. by eapply ens_regional, Hs''; [|apply ens_ec2_instance]. }
  intros assets2 Ha2. apply ens_any. intros p2. apply ens_bind.
  eapply ens_mono, ens_pages; [|done|].
  2: { intros s page Hs. apply ens_items; [done|]. intros s' g Hs'.
       by eapply ens_regional, Hs'; [|apply ens_ec2_security_group]. }
  intros assets3 Ha3. apply ens_any. intros p3. apply ens_pages; [done|]. intros s page Hs.
  apply ens_items; [done|]. intros s' v Hs'. by eapply ens_regional, Hs'; [|apply ens_ec2_volume].
Qed.
Lemma ens_s3_discover factory regions account_id :
  ens (s3_discover factory regions account_id) (Forall (reported [AssetType.S3_BUCKET] (λ _, True))).
Proof.
  do 2 (apply ens_any; intros ?). apply ens_pages; [constructor|]. intros s page Hs.
  apply ens_items; [done|]. intros s' b Hs'. by apply ens_appending; [apply ens_s3_bucket|].
Qed.
Lemma ens_rds_discover factory regions account_id :
  ens (rds_discover factory regions account_id)
    (Forall (reported [AssetType.RDS_INSTANCE] (λ r, r ∈ regions))).
Proof.
  apply ens_fold_in; [constructor|]. intros assets region Hr Ha. do 2 (apply ens_any; intros ?).
  apply ens_pages; [done|]. intros s page Hs. apply ens_items; [done|]. intros s' b Hs'.
  by eapply ens_regional, Hs'; [|apply ens_rds_instance].
Qed.
Lemma ens_cloudwatch_discover factory regions account_id :
  ens (cloudwatch_discover factory regions account_id)
    (Forall (reported (asset_types CloudWatchDiscoveryService) (λ r, r ∈ regions))).
Proof.
  apply ens_regions; [constructor..|]. intros assets [cloudwatch logs] region Hr Ha.
  apply ens_any. intros p1. apply ens_bind. eapply ens_mono, ens_pages; [|done|].
  2: { intros s page Hs. apply ens_items; [done|]. intros s' v Hs'.
       by eapply ens_regional, Hs'; [|apply ens_cloudwatch_alarm]. }
  intros assets2 Ha2. apply ens_any. intros p2. apply ens_pages; [done|]. intros s page Hs.
  apply ens_items; [done|]. intros s' v Hs'. by eapply ens_regional, Hs'; [|apply ens_cloudwatch_log_group].
Qed.

(** The assets so far have their identities, each once, among those seen. *)
Record identified {K} (key : NormalizedAsset → K) (Q : NormalizedAsset → Prop)
    (state : list NormalizedAsset * list K) : Prop := {
  id_seen : state.2 ≡ₚ map key state.1;
  id_once : NoDup state.2;
  id_good : Forall Q state.1
}.
Lemma identified_nil {K} key Q : @identified K key Q ([], []).
Proof. split; constructor. Qed.
Lemma identified_app {K} key Q assets seen (a : NormalizedAsset) (k : K) :
  identified key Q (assets, seen) → Q a → key a = k → k ∉ seen →
  identified key Q (assets ++ [a], k :: seen).
Proof.
  intros [Hi1 Hi2 Hi3] Ha <- Hk. cbn in *. split; cbn.
  - rewrite map_app, Hi1. cbn. by rewrite Permutation_app_comm.
  - by constructor.
  - apply Forall_app. by repeat constructor.
Qed.
Lemma identified_once {K} key Q assets seen :
  @identified K key Q (assets, seen) → NoDup (map key assets) ∧ Forall Q assets.
Proof. intros [Hi1 Hi2 Hi3]. cbn in *. by rewrite <-Hi1. Qed.

Definition IAM : list AssetType := asset_types IAMDiscoveryService.

Lemma ens_iam_discover factory regions account_id :
  ens (iam_discover factory regions account_id) (λ assets,
    NoDup (map identity assets) ∧ Forall (reported IAM (in_region "global")) assets).
Proof.
  apply ens_any. intros client. apply ens_bind.
  eapply ens_mono, (ens_fold_in (identified identity (reported IAM (in_region "global"))));
    [|apply identified_nil|].
  { intros [assets seen] Hi. by apply ens_ret, (identified_once _ _ _ seen). }
  intros state spec Hspec Hs. apply ens_any. intros p. apply ens_pages; [done|].
  intros state' page Hs'. apply ens_items; [done|]. intros [assets seen] item Hi.
  apply ens_any. intros id. unfold unseen. case_bool_decide as Hin; cbn [negb]; [by apply ens_ret|].
  apply ens_bind. eapply ens_mono, ens_iam_asset. intros a (Ha & Ht & Hid). apply ens_ret.
  apply identified_app; [done| |by unfold identity; rewrite Ht, Hid|done].
  destruct Ha as [Hty ? ? ? ?]. split; try done. apply list_elem_of_singleton in Hty. rewrite Hty.
  unfold iam_specs in Hspec. repeat (apply elem_of_cons in Hspec as [->|Hspec]; [set_solver|]).
  set_solver.
Qed.
Lemma ens_cloudtrail_discover factory regions account_id :
  ens (cloudtrail_discover factory regions account_id) (λ assets,
    NoDup (map na_resource_id assets)
    ∧ Forall (reported [AssetType.CLOUDTRAIL_TRAIL] (λ _, True)) assets).
Proof.
  apply ens_bind.
  eapply ens_mono, (ens_regions
    (identified na_resource_id (reported [AssetType.CLOUDTRAIL_TRAIL] (λ _, True))));
    [|apply identified_nil..|].
  { intros [assets seen] Hi. by apply ens_ret, (identified_once _ _ _ seen). }
  intros state client region _ Hs. apply ens_any. intros answer. apply ens_items; [done|].
  intros [assets seen] trail Hi. apply ens_any. intros trail_arn. apply ens_any. intros name. cbv zeta.
  case_bool_decide as Hin; [by apply ens_ret|].
  apply ens_bind. eapply ens_mono, ens_cloudtrail_trail. intros a (Ha & Ht & Hid). apply ens_ret.
  by apply identified_app.
Qed.

(** Where the assets of a collector are. *)
Definition located (service : DiscoveryCollector F) (regions : list string) (region : string)
    : Prop :=
  match collector service with
  | "ec2" | "rds" | "cloudwatch" => region ∈ regions
  | "iam" => region = "global"
  | _ => True
  end.

Lemma once_identity (assets : list NormalizedAsset) :
  NoDup (map na_resource_id assets) → NoDup (map identity assets).
Proof.
  intros Hn. apply (NoDup_fmap_1 snd). by rewrite <-list_fmap_compose.
Qed.
End clean_assets.

Lemma bounded_policy_size `{PolicyJson} document :
  (String.length (json_dumps (bounded_policy_document document)) <= POLICY_BYTES)%nat.
Proof.
  assert (String.length (json_dumps truncated) <= POLICY_BYTES
    ∧ String.length (json_dumps malformed) <= POLICY_BYTES
    ∧ String.length (json_dumps PNone) <= POLICY_BYTES)%nat as (Ht & Hm & Hn).
  { split_and!; by apply Nat.leb_le; vm_compute. }
  assert (∀ v, (String.length (json_dumps (match v with
    | ADict _ => if Nat.leb (String.length (json_dumps (json_safe v))) POLICY_BYTES
                 then json_safe v else truncated
    | _ => malformed end)) <= POLICY_BYTES)%nat) as Hv.
  { intros []; try exact Hm. destruct (Nat.leb_spec (String.length (json_dumps (json_safe (ADict items))))
      POLICY_BYTES); done. }
  unfold bounded_policy_document. destruct document as [| | |[|c s]| | | |]; try exact Hn; try exact Hm;
    try exact (Hv (ADict items)).
  destruct (Nat.ltb _ _); [exact Ht|]. destruct (policy_loads _); [apply Hv|exact Hm].
Qed.

(** C17. A collector reports only assets of the types it is responsible for, in
    the regions it was asked about (identities of IAM are global, a bucket and
    a trail say where they are).  Their tags are texts without a sensitive key,
    their metadata has no sensitive key at any depth, which is the test on the
    evidence of a remediation, and a second pass of [json_safe] keeps it.  IAM
    and CloudTrail report an identity once.  A policy document takes at most
    20000 bytes.  No two collectors share a type, and together they have every
    type, so retiring what one of them has not seen leaves the assets of the
    others alone. *)
Theorem collectors_report_clean_assets {F C : Type} `{AwsClients F C} `{DateRepr} `{PolicyJson} :
  (∀ service factory regions account_id assets,
     service ∈ services → discover service factory regions account_id = inl assets →
     Forall (λ a,
       na_asset_type a ∈ asset_types service
       ∧ located service regions (na_region a)
       ∧ (∃ tags, na_tags a = PDict tags ∧ clean_tags tags)
       ∧ _contains_sensitive_evidence_key (na_metadata a) = false
       ∧ contains_key SENSITIVE_KEYS (na_metadata a) = false
       ∧ json_safe (of_json (na_metadata a)) = na_metadata a) assets
     ∧ (collector service ∈ ["iam"; "cloudtrail"] → NoDup (map identity assets)))
  ∧ (∀ document, (String.length (json_dumps (bounded_policy_document document)) <= POLICY_BYTES)%nat)
  ∧ (∀ t, length (filter (λ s : DiscoveryCollector F, t ∈ asset_types s) services) = 1%nat).
Proof.
  split; [|split].
  - intros service factory regions account_id assets Hs Hd.
    assert (Forall (reported (asset_types service) (located service regions)) assets
      ∧ (collector service ∈ ["iam"; "cloudtrail"] → NoDup (map identity assets))) as [Hr Hn].
    { unfold services in Hs.
      repeat (apply elem_of_cons in Hs as [->|Hs];
        [cbn [discover EC2DiscoveryService S3DiscoveryService IAMDiscoveryService RDSDiscoveryService
              CloudWatchDiscoveryService CloudTrailDiscoveryService] in Hd|]); [..|set_solver].
      - apply ens_ec2_discover in Hd. split; [exact Hd|set_solver].
      - apply ens_s3_discover in Hd. split; [exact Hd|set_solver].
      - apply ens_iam_discover in Hd as [? Hd]. split; [exact Hd|done].
      - apply ens_rds_discover in Hd. split; [exact Hd|set_solver].
      - apply ens_cloudwatch_discover in Hd. split; [exact Hd|set_solver].
      - apply ens_cloudtrail_discover in Hd as [Hn Hd]. split; [exact Hd|]. intros _.
        by apply once_identity. }
    split; [|done]. eapply Forall_impl; [exact Hr|]. intros a [Ht Hl Hg Hm Hst]. split_and!; try done.
    rewrite <-Hst. apply json_safe_is_clean.
  - apply bounded_policy_size.
  - intros []; reflexivity.
Qed.

(** * Pagination *)

(** The tokens that the answers of an operation carry are those it lists. *)
Class TokensListed (F C : Type) `{AwsClients F C} : Prop :=
  tokens_listed client operation kwargs answer v k :
    invoke client operation kwargs = inl answer → a_get "NextToken" answer = inl v →
    token_key v = Some k → k ∈ next_tokens client operation.

Section pagination.
Context {F C : Type} `{AwsClients F C}.
Implicit Types (client : C).

(** The tokens that were not seen yet. *)
Definition fresh (tokens seen : list token) : nat := length (filter (λ k, k ∉ seen) tokens).

Lemma fresh_cons tokens seen k : k ∈ tokens → k ∉ seen → (fresh tokens (k :: seen) < fresh tokens seen)%nat.
Proof.
  unfold fresh. intros Hin Hk.
  assert (∀ l : list token, length (filter (λ k', k' ∉ k :: seen) l) ≤ length (filter (λ k', k' ∉ seen) l))%nat
    as Hle.
  { induction l as [|x l IH]; [done|]. rewrite !filter_cons. repeat case_decide; cbn; set_solver by lia. }
  induction tokens as [|x tokens IH]; [set_solver|]. rewrite !filter_cons. specialize (Hle tokens).
  destruct (decide (x = k)) as [->|Hne].
  { rewrite decide_False by set_solver. rewrite decide_True by done. cbn. lia. }
  apply elem_of_cons in Hin as [|Hin]; [done|]. specialize (IH Hin).
  repeat case_decide; cbn; set_solver by lia.
Qed.

(** A token to go on with is one that is listed and was not seen. *)
Lemma token_page_next `{!TokensListed F C} client operation key kwargs next seen more t :
  token_page client operation key kwargs next seen = inl (more, Some t) →
  ∃ k, token_key t = Some k ∧ k ∈ next_tokens client operation ∧ k ∉ seen.
Proof.
  unfold token_page, mbind, got_bind. destruct (invoke _ _ _) as [answer|e] eqn:Ei; [|done].
  destruct (a_get_or key (AList []) answer) as [x|e]; [|done].
  destruct (a_iter x) as [x'|e]; [|done].
  destruct (a_get "NextToken" answer) as [v|e] eqn:Et; [|done].
  destruct (truthy v); [cbn [negb]|done]. unfold token_in.
  destruct (token_key v) as [k|] eqn:Ek; [|done]. cbn. case_bool_decide as Hk; [done|].
  intros [= _ <-]. exists k. split_and!; [done| |done]. by eapply tokens_listed.
Qed.

(** The loop ends within one call more than there are fresh tokens, and further
    calls make no difference. *)
Lemma token_loop_enough `{!TokensListed F C} client operation key kwargs calls :
  ∀ items next seen calls', (fresh (next_tokens client operation) seen < calls)%nat → (calls <= calls')%nat →
  ∃ r, token_loop calls client operation key kwargs items next seen = Some r
    ∧ token_loop calls' client operation key kwargs items next seen = Some r.
Proof.
  induction calls as [|calls IH]; intros items next seen calls' Hf Hle; [lia|].
  destruct calls' as [|calls']; [lia|]. cbn [token_loop].
  destruct (token_page _ _ _ _ _ _) as [[more [t|]]|e] eqn:Ep; [|by eexists..].
  destruct (token_page_next _ _ _ _ _ _ _ _ Ep) as (k & -> & Hk & Hs).
  apply IH; [|lia]. pose proof (fresh_cons _ _ _ Hk Hs). lia.
Qed.

(** A service that hands out the items of some pages, one call after another:
    each answer names the token of the next page, the last one none. *)
Fixpoint serves client (operation key : string) (kwargs : list (string * awsval)) (next : awsval)
    (l : list (list awsval * string)) : Prop :=
  match l with
  | [] => False
  | (items, t) :: l =>
      (∃ d, invoke client operation (kwargs ++ if truthy next then [("NextToken", next)] else [])
            = inl (ADict d)
        ∧ alookup key d = Some (AList items) ∧ alookup "NextToken" d = Some (AStr t))
      ∧ (l = [] → t = EmptyString) ∧ (l ≠ [] → nonempty t = true ∧ serves client operation key kwargs (AStr t) l)
  end.

Definition text_token (s : string) : token := (0%nat, 0%Z, s).

Lemma token_loop_serves client operation key kwargs l :
  ∀ calls items next (seen : list string),
  (length l <= calls)%nat → serves client operation key kwargs next l →
  NoDup (seen ++ l.*2) →
  token_loop calls client operation key kwargs items next (map text_token seen)
  = Some (inl (items ++ concat l.*1)).
Proof.
  induction l as [|[its t] l IH]; intros calls items next seen Hc Hs Hn; [done|].
  destruct calls as [|calls]; [cbn in Hc; lia|]. cbn [token_loop].
  destruct Hs as ((d & Hd & Hk & Ht) & Hlast & Hmore). unfold token_page. rewrite Hd.
  unfold mbind, got_bind, a_get, a_get_or.
  rewrite Hk, Ht. cbn [from_option id mret got_ret a_iter truthy]. destruct l as [|p l].
  { rewrite Hlast by done. cbn. by rewrite app_nil_r. }
  destruct Hmore as [Hne Hs]; [done|]. rewrite Hne. cbn [negb token_in token_key].
  assert ((0%nat, 0%Z, t) ∉ map text_token seen) as Hin.
  { intros (s & [= <-] & Hin)%list_elem_of_fmap. apply NoDup_app in Hn as (_ & Hn & _).
    apply (Hn t Hin). cbn. set_solver. }
  unfold mret, got_ret. rewrite bool_decide_eq_false_2 by done. cbn [token_key].
  change ((0%nat, 0%Z, t) :: map text_token seen) with (map text_token (t :: seen)).
  rewrite IH; [by rewrite <-app_assoc|cbn in Hc |- *; lia|done|].
  cbn in Hn |- *. by rewrite <-Permutation_middle in Hn.
Qed.

Lemma paginator_serves key (l : list (list (string * awsval))) (items : list (list awsval)) acc :
  Forall2 (λ d its, alookup key d = Some (AList its)) l items →
  for_pages (λ items page,
    more ← a_get_or key (AList []) page; more ← a_iter more; mret (items ++ more)) acc
    (mk_pages (map ADict l) None) = (inl (acc ++ concat items) : got _).
Proof.
  intros Hl. unfold for_pages. cbn [page_list page_fault].
  revert acc. induction Hl as [|d its l items Hd _ IH]; intros acc; cbn; [by rewrite app_nil_r|].
  rewrite Hd. cbn. unfold for_pages in IH. rewrite app_assoc. apply IH.
Qed.
End pagination.

(** C19. Reading a listing of AWS ends and is complete.  For a client that hands
    out finitely many tokens, in any order and even in circles, the loop ends:
    within one call more than there are tokens it has returned or raised what
    the reading of the listing returns or raises.  For one
    that serves some pages under distinct tokens, the result is all the items
    of all the pages, in their order, from one call per page; a paginator of
    boto3 gives the same. *)
Theorem pagination_is_complete {F C : Type} `{AwsClients F C} `{!TokensListed F C} (client : C)
    (operation key : string) (kwargs : list (string * awsval)) :
  (can_paginate client operation = false → ∀ calls, (length (next_tokens client operation) < calls)%nat →
     token_loop calls client operation key kwargs [] ANone []
     = Some (paginated_items client operation key kwargs))
  ∧ (can_paginate client operation = false → ∀ l,
       serves client operation key kwargs ANone l → NoDup l.*2 →
       paginated_items client operation key kwargs = inl (concat l.*1)
       ∧ token_loop (length l) client operation key kwargs [] ANone [] = Some (inl (concat l.*1)))
  ∧ (can_paginate client operation = true → ∀ l items,
       get_paginator client operation kwargs = inl (mk_pages (map ADict l) None) →
       Forall2 (λ d its, alookup key d = Some (AList its)) l items →
       paginated_items client operation key kwargs = inl (concat items)).
Proof.
  unfold paginated_items. destruct (can_paginate client operation).
  { split_and!; [done..|]. intros _ l items -> Hl. exact (paginator_serves key l items [] Hl). }
  assert (fresh (next_tokens client operation) [] <= length (next_tokens client operation))%nat as Hf.
  { apply length_filter. }
  assert (∀ calls, (length (next_tokens client operation) < calls)%nat →
     token_loop calls client operation key kwargs [] ANone []
     = Some (default (py_error OtherException)
         (token_loop (S (length (next_tokens client operation))) client operation key kwargs [] ANone [])))
    as Henough.
  { intros calls Hc.
    destruct (token_loop_enough client operation key kwargs (S (length (next_tokens client operation)))
      [] ANone [] calls) as (r & E1 & E2); [lia|lia|]. by rewrite E1, E2. }
  split_and!; [done| |done]. intros _ l Hs Hn.
  pose proof (λ calls Hc, token_loop_serves client operation key kwargs l calls [] ANone [] Hc Hs Hn) as Hl.
  split; [|by apply Hl].
  specialize (Hl (length (next_tokens client operation) + 1 + length l)%nat ltac:(lia)).
  rewrite Henough in Hl by lia. by injection Hl.
Qed.

(** Three pages, the last token of which is empty. *)
Module Paged.
Definition answer (kwargs : list (string * awsval)) : got awsval :=
  let page items t := ADict [("Items", AList items); ("NextToken", AStr t)] in
  mret match alookup "NextToken" kwargs with
       | None => page [AInt 1; AInt 2] "a"
       | Some (AStr "a") => page [] "b"
       | _ => page [AInt 3] ""
       end.
#[local] Instance clients : AwsClients () () := {|
  make_client _ _ _ := mret tt;
  hasattr _ _ := true;
  can_paginate _ _ := false;
  get_paginator _ _ _ := py_error KeyError;
  invoke _ _ kwargs := answer kwargs;
  next_tokens _ _ := [text_token "a"; text_token "b"; text_token ""]
|}.
#[local] Instance listed : TokensListed () ().
Proof.
  intros client operation kwargs a v k Ha Hv Hk. cbn in Ha. injection Ha as <-.
  repeat case_match; cbn in Hv; injection Hv as <-; cbn in Hk; injection Hk as <-; cbn; set_solver.
Qed.

Lemma pagination_is_complete_witness :
  paginated_items tt "list_things" "Items" [] = inl [AInt 1; AInt 2; AInt 3]
  ∧ token_loop 3 tt "list_things" "Items" [] [] ANone [] = Some (inl [AInt 1; AInt 2; AInt 3]).
Proof.
  refine (proj1 (proj2 (pagination_is_complete tt "list_things" "Items" [])) eq_refl
    [([AInt 1; AInt 2], "a"); ([], "b"); ([AInt 3], "")] _ _).
  - split; [by eexists|]. split; [done|]. intros _. split; [done|].
    split; [by eexists|]. split; [done|]. intros _. split; [done|].
    split; [by eexists|]. done.
  - by apply (bool_decide_unpack _).
Defined.
End Paged.

(** A client that answers with the same token for ever is asked twice. *)
Module Circle.
#[local] Instance clients : AwsClients () () := {|
  make_client _ _ _ := mret tt;
  hasattr _ _ := true;
  can_paginate _ _ := false;
  get_paginator _ _ _ := py_error KeyError;
  invoke _ _ _ := mret (ADict [("Items", AList [AInt 1]); ("NextToken", AStr "a")]);
  next_tokens _ _ := [text_token "a"]
|}.
Example circle_ends :
  token_loop 1 tt "list_things" "Items" [] [] ANone [] = None
  ∧ token_loop 2 tt "list_things" "Items" [] [] ANone [] = Some (inl [AInt 1; AInt 1])
  ∧ paginated_items tt "list_things" "Items" [] = inl [AInt 1; AInt 1].
Proof. done. Qed.
End Circle.
