(* ===== verification/DiscoveredRules.v ===== *)
(** What the security rules conclude about an asset that a collector of
    services/discovery.py has read, and about the inventory of the demo
    (services/demo_inventory.py). *)

From S2P Require Import Prelude.
From S2P Require Import Enums.
From S2P Require Import PyValue.
From S2P Require Import Models.
From S2P Require Import Evidence.
From S2P Require Import SecurityRules.
From S2P Require Import AwsExecutor.
From S2P Require Import Discovery.
From S2P Require Import Collectors.
From Stdlib Require Import Ascii.
From stdpp Require Import list.

(** * Metadata *)

#[local] Arguments rx_search : simpl never.

Lemma dget_safe key items :
  rx_search SENSITIVE_KEYS key = false →
  dget key (safe_items items) = json_safe <$> alookup key items.
Proof.
  intros Hk. unfold safe_items. induction items as [|[k v] items IH]; [done|]. cbn.
  destruct (String.eqb_spec key k) as [<-|Hne].
  { rewrite Hk. cbn. by rewrite String.eqb_refl. }
  destruct (rx_search SENSITIVE_KEYS k); cbn; [exact IH|].
  apply String.eqb_neq in Hne. by rewrite Hne.
Qed.

Lemma alookup_app {A} key (l l' : list (string * A)) :
  alookup key (l ++ l') = match alookup key l with Some v => Some v | None => alookup key l' end.
Proof. induction l as [|[k v] l IH]; cbn; [done|]. by destruct (String.eqb key k). Qed.

Lemma make_asset_metadata t id arn name region status tags metadata asset :
  make_asset t id arn name region status tags metadata = inl asset →
  na_metadata asset = json_safe metadata.
Proof.
  unfold make_asset, mbind, got_bind. generalize (json_safe metadata). intros kept Ha.
  repeat (destruct (required_text _); [|done]) || (destruct (nullable _); [|done]).
  by injection Ha as <-.
Qed.

(** * Buckets *)

Section bucket.
Context {F C : Type} `{AwsClients F C} `{DateRepr} `{PolicyJson}.
Context (client : C) (name : awsval).

(** What an optional call says of the bucket. *)
Definition says (operation key : string) : got awsval :=
  answer ← invoke client operation [("Bucket", name)]; a_get key answer.

(** The outcome of an optional call: a value, or nothing when AWS has no
    configuration to show. *)
Definition outcome_of (call : string * string) : got (option awsval) :=
  match says call.1 call.2 with
  | inl v => mret (Some v)
  | inr (ClientError error) =>
      code ← fault_code error;
      if String.eqb call.1 "get_public_access_block"
         && is_text "NoSuchPublicAccessBlockConfiguration" code
      then mret (Some ANone)
      else
        b ← a_in code ["ServerSideEncryptionConfigurationNotFoundError"; "NoSuchBucketPolicy"];
        if b : bool then mret None else inr (ClientError error)
  | inr e => inr e
  end.
Definition entry_of (operation : string) (o : option awsval) : list (string * awsval) :=
  match o with Some v => [(operation, v)] | None => [] end.

Lemma optional_call_outcome values call :
  hasattr client call.1 = true →
  optional_call client name values call = o ← outcome_of call; mret (values ++ entry_of call.1 o).
Proof.
  destruct call as [operation key]. cbn [fst]. intros Hh. unfold optional_call, outcome_of, says.
  rewrite Hh. cbn [negb fst snd].
  destruct (invoke client operation _ ≫= _) as [v|[c|r|error| |e]]; try done.
  unfold mbind, got_bind. destruct (fault_code error) as [code|]; [|done].
  destruct (_ && _); [done|]. destruct (a_in code _) as [[]|]; try done. cbn. by rewrite app_nil_r.
Qed.

Lemma optional_outcomes calls values values' :
  (∀ call, call ∈ calls → hasattr client call.1 = true) →
  fold_got (optional_call client name) values calls = inl values' →
  ∃ os, Forall2 (λ call o, outcome_of call = inl o) calls os
    ∧ values' = values ++ concat (zip_with entry_of calls.*1 os).
Proof.
  revert values. induction calls as [|call calls IH]; intros values Hh Hf; cbn [fold_got] in Hf.
  { injection Hf as <-. exists []. by rewrite app_nil_r. }
  rewrite optional_call_outcome in Hf by (apply Hh; by left). unfold mbind, got_bind, mret, got_ret in Hf.
  destruct (outcome_of call) as [o|] eqn:Eo; [|done].
  apply IH in Hf as (os & Hos & ->); [|intros call' Hc; apply Hh; by right].
  exists (o :: os). split; [by constructor|]. cbn. by rewrite app_assoc.
Qed.

(** The four settings of the public access block, all of them on. *)
Definition all_blocked (block : awsval) : bool :=
  match block with
  | ADict d => forallb (λ key, match alookup key d with Some v => a_is_true v | None => false end)
                 S3_PUBLIC_ACCESS_BLOCK_KEYS
  | _ => false
  end.

Lemma normalized_complete (d : list (string * awsval)) keys :
  let normalized := omap (λ key, v ← alookup key d; Some (key, ABool (a_is_true v))) keys in
  (length normalized <= length keys)%nat
  ∧ Nat.eqb (length normalized) (length keys) && forallb (λ kv, truthy kv.2) normalized
    = forallb (λ key, match alookup key d with Some v => a_is_true v | None => false end) keys.
Proof.
  induction keys as [|key keys IH]; [done|]. cbv zeta in IH |- *. cbn [omap list_omap].
  destruct IH as [Hle IH]. change (list_omap ?A ?B ?f ?l) with (omap f l).
  destruct (alookup key d) as [v|] eqn:Ed; cbn [mbind option_bind].
  - cbn [length forallb snd truthy]. rewrite Ed. split; [lia|]. rewrite <-IH. cbn [Nat.eqb].
    destruct (a_is_true v); [done|by rewrite !andb_false_r].
  - split; [cbn; lia|]. cbn [forallb]. rewrite Ed. cbn [andb].
    assert (Nat.eqb (length (omap (λ key, v ← alookup key d; Some (key, ABool (a_is_true v))) keys))
      (length (key :: keys)) = false) as ->; [|done]. apply Nat.eqb_neq. cbn. lia.
Qed.
Lemma block_complete block :
  alookup "public_access_block_complete" (block_metadata block) = Some (ABool (all_blocked block)).
Proof.
  destruct block as [| | | | |d| |]; try done.
  change (Some (ABool (Nat.eqb (length (omap (λ key, v ← alookup key d; Some (key, ABool (a_is_true v)))
    S3_PUBLIC_ACCESS_BLOCK_KEYS)) (length S3_PUBLIC_ACCESS_BLOCK_KEYS)
    && forallb (λ kv, truthy kv.2) (omap (λ key, v ← alookup key d; Some (key, ABool (a_is_true v)))
    S3_PUBLIC_ACCESS_BLOCK_KEYS))) = Some (ABool (all_blocked (ADict d)))).
  by rewrite (proj2 (normalized_complete d S3_PUBLIC_ACCESS_BLOCK_KEYS)).
Qed.

Lemma bucket_metadata_lookup values metadata :
  bucket_metadata values = inl metadata →
  alookup "public_access_block_complete" metadata
    = (λ v, ABool (all_blocked v)) <$> alookup "get_public_access_block" values
  ∧ alookup "default_encryption_enabled" metadata
    = (λ v, ABool (truthy v)) <$> alookup "get_bucket_encryption" values
  ∧ alookup "versioning_enabled" metadata
    = (λ v, ABool (is_text "Enabled" v)) <$> alookup "get_bucket_versioning" values
  ∧ alookup "logging_enabled" metadata
    = (λ v, ABool (truthy v)) <$> alookup "get_bucket_logging" values
  ∧ (∀ grants, alookup "get_bucket_acl" values = Some (AList grants) →
       ∃ b public, any_got public_grant grants = inl b
       ∧ a_get "IsPublic" (or_else (default ANone (alookup "get_bucket_policy_status" values)) (ADict []))
         = inl public
       ∧ alookup "public_access_signals" metadata
         = Some (ADict [("public_acl", ABool b); ("public_policy", ABool (truthy public))])).
Proof.
  unfold bucket_metadata. intros Hm.
  assert (∃ signals, (signals = [] ∨ ∃ v, signals = [("public_access_signals", v)])
    ∧ metadata = match alookup "get_public_access_block" values with Some v => block_metadata v | None => [] end
        ++ signals
        ++ match alookup "get_bucket_encryption" values with
           | Some v => [("default_encryption_enabled", ABool (truthy v))] | None => [] end
        ++ match alookup "get_bucket_versioning" values with
           | Some v => [("versioning_enabled", ABool (is_text "Enabled" v))] | None => [] end
        ++ match alookup "get_bucket_logging" values with
           | Some v => [("logging_enabled", ABool (truthy v))] | None => [] end
    ∧ (∀ grants, alookup "get_bucket_acl" values = Some (AList grants) →
       ∃ b public, any_got public_grant grants = inl b
       ∧ a_get "IsPublic" (or_else (default ANone (alookup "get_bucket_policy_status" values)) (ADict []))
         = inl public
       ∧ signals = [("public_access_signals",
            ADict [("public_acl", ABool b); ("public_policy", ABool (truthy public))])]))
    as (signals & Hs & -> & Hg).
  { destruct (alookup "get_bucket_acl" values) as [[| | | |grants| | |]|];
      try (injection Hm as <-; exists []; split_and!; [by left|done|done]).
    unfold mbind, got_bind in Hm. destruct (any_got public_grant grants) as [b|] eqn:Eg; [|done].
    destruct (a_get "IsPublic" _) as [public|] eqn:Ep; [|done]. injection Hm as <-.
    eexists; split_and!; [by right; eexists|done|]. intros grants' [= <-].
    exists b, public. split_and!; done. }
  assert (∀ key, String.eqb key "public_access_block" = false →
    String.eqb key "public_access_block_complete" = false →
    ∀ o, alookup key match o with Some v => block_metadata v | None => [] end = None) as Hb.
  { intros key Hk1 Hk2 [[]|]; cbn; by rewrite ?Hk1, ?Hk2. }
  split_and!.
  - rewrite alookup_app. destruct (alookup "get_public_access_block" values) as [v|].
    + by rewrite block_complete.
    + destruct Hs as [->|[v ->]], (alookup "get_bucket_encryption" values),
      (alookup "get_bucket_versioning" values), (alookup "get_bucket_logging" values); reflexivity.
  - rewrite alookup_app, Hb by done. destruct Hs as [->|[v ->]], (alookup "get_bucket_encryption" values),
      (alookup "get_bucket_versioning" values), (alookup "get_bucket_logging" values); reflexivity.
  - rewrite alookup_app, Hb by done. destruct Hs as [->|[v ->]], (alookup "get_bucket_encryption" values),
      (alookup "get_bucket_versioning" values), (alookup "get_bucket_logging" values); reflexivity.
  - rewrite alookup_app, Hb by done. destruct Hs as [->|[v ->]], (alookup "get_bucket_encryption" values),
      (alookup "get_bucket_versioning" values), (alookup "get_bucket_logging" values); reflexivity.
  - intros grants Hgr. destruct (Hg grants Hgr) as (b & public & Hb1 & Hb2 & ->).
    exists b, public. split_and!; [done..|]. by rewrite alookup_app, Hb.
Qed.

Lemma policy_keys : ens (policy_metadata client name) (Forall (λ kv, kv.1 = "policy_document")).
Proof.
  apply ens_if; [|by apply ens_ret]. apply ens_or_when; [by repeat constructor|].
  do 2 (apply ens_any; intros ?). apply ens_ret. by repeat constructor.
Qed.

(** What is kept of a bucket, from what AWS said. *)
Lemma s3_bucket_kept bucket asset :
  a_item "Name" bucket = inl name →
  (∀ call, call ∈ optional_calls → hasattr client call.1 = true) →
  s3_bucket client bucket = inl asset →
  ∃ values os metadata policy created,
    Forall2 (λ call o, outcome_of call = inl o) optional_calls os
    ∧ values = concat (zip_with entry_of optional_calls.*1 os)
    ∧ bucket_metadata values = inl metadata
    ∧ Forall (λ kv, kv.1 = "policy_document") policy
    ∧ na_metadata asset
      = PDict (safe_items (("creation_date", created) :: metadata ++ policy)).
Proof.
  intros Hn Hh. unfold s3_bucket. rewrite Hn. unfold mbind, got_bind.
  destruct (invoke _ _ _) as [l|]; [|done]. destruct (a_get "LocationConstraint" l) as [location|]; [|done].
  destruct (or_when _ _ _) as [tags|]; [|done]. destruct (a_get "CreationDate" bucket) as [created|]; [|done].
  destruct (fold_got _ _ _) as [values|] eqn:Ev; [|done].
  destruct (bucket_metadata values) as [metadata|] eqn:Em; [|done].
  destruct (policy_metadata client name) as [policy|] eqn:Ep; [|done]. intros Ha.
  apply optional_outcomes in Ev as (os & Hos & ->); [|done].
  exists (concat (zip_with entry_of optional_calls.*1 os)), os, metadata, policy, created.
  split_and!; [done|done|exact Em| |].
  - by apply policy_keys.
  - apply make_asset_metadata in Ha as ->. apply json_safe_dict.
Qed.
End bucket.

(** The rule of a bucket, by its key. *)
Definition s3_rule (k : string) : option SecurityRule := List.find (λ r, String.eqb (key r) k) S3_RULES.

(** A rule whose field is true, or false, in the stored metadata. *)
Definition verdict (field : string) (safe : bool) : RuleResult :=
  if safe then passed [(field, PBool true)] else failed [(field, PBool false)].

(** The stored metadata of a bucket, for the keys its rules read. *)
Lemma bucket_says `{AwsClients F C} `{DateRepr} `{PolicyJson} (client : C) name bucket asset (m : pydict) :
  a_item "Name" bucket = inl name →
  (∀ call, call ∈ optional_calls → hasattr client call.1 = true) →
  s3_bucket client bucket = inl asset → na_metadata asset = PDict m →
  ∃ ob oa op oe ov ol,
    outcome_of client name ("get_public_access_block", "PublicAccessBlockConfiguration") = inl ob
    ∧ outcome_of client name ("get_bucket_acl", "Grants") = inl oa
    ∧ outcome_of client name ("get_bucket_policy_status", "PolicyStatus") = inl op
    ∧ outcome_of client name ("get_bucket_encryption", "ServerSideEncryptionConfiguration") = inl oe
    ∧ outcome_of client name ("get_bucket_versioning", "Status") = inl ov
    ∧ outcome_of client name ("get_bucket_logging", "LoggingEnabled") = inl ol
    ∧ dget "public_access_block_complete" m = (λ v, PBool (all_blocked v)) <$> ob
    ∧ dget "default_encryption_enabled" m = (λ v, PBool (truthy v)) <$> oe
    ∧ dget "versioning_enabled" m = (λ v, PBool (is_text "Enabled" v)) <$> ov
    ∧ dget "logging_enabled" m = (λ v, PBool (truthy v)) <$> ol
    ∧ (∀ grants, oa = Some (AList grants) → ∃ b public, any_got public_grant grants = inl b
       ∧ a_get "IsPublic" (or_else (default ANone op) (ADict [])) = inl public
       ∧ dget "public_access_signals" m
         = Some (PDict [("public_acl", PBool b); ("public_policy", PBool (truthy public))])).
Proof.
  intros Hn Hh Hs Hm.
  destruct (s3_bucket_kept client name bucket asset Hn Hh Hs)
    as (values & os & metadata & policy & created & Hos & -> & Hmeta & Hpol & Hkept).
  rewrite Hm in Hkept. injection Hkept as ->.
  unfold optional_calls in Hos.
  repeat match goal with Ho : Forall2 _ (_ :: _) _ |- _ =>
    let o := fresh "o" in let Eo := fresh "Eo" in
    apply Forall2_cons_inv_l in Ho as (o & ? & Eo & Ho & ->) end.
  apply Forall2_nil_inv_l in Hos as ->.
  exists o, o0, o1, o2, o3, o4. split_and!; try done.
  all: apply bucket_metadata_lookup in Hmeta as (Hb & He & Hv & Hl & Hg).
  all: assert (∀ k, String.eqb k "policy_document" = false → alookup k policy = None) as Hp
    by (intros k Hk; clear -Hpol Hk; induction Hpol as [|[k' v] l E _ IH]; cbn in *; [done|by subst; rewrite Hk]).
  all: rewrite ?dget_safe by (vm_compute; reflexivity).
  all: cbn [alookup String.eqb Ascii.eqb Bool.eqb]; rewrite alookup_app.
  - rewrite Hb, Hp by done. by destruct o, o0, o1, o2, o3, o4.
  - rewrite He, Hp by done. by destruct o, o0, o1, o2, o3, o4.
  - rewrite Hv, Hp by done. by destruct o, o0, o1, o2, o3, o4.
  - rewrite Hl, Hp by done. by destruct o, o0, o1, o2, o3, o4.
  - intros grants ->. destruct (Hg grants) as (b & public & Hg1 & Hg2 & Hg3);
      [by destruct o|]. exists b, public. split_and!; [done| |].
    + rewrite <-Hg2. by destruct o, o1, o2, o3, o4.
    + by rewrite Hg3.
Qed.

Lemma said `{AwsClients F C} (client : C) name operation key v :
  says client name operation key = inl v → outcome_of client name (operation, key) = inl (Some v).
Proof. unfold outcome_of. cbn [fst snd]. by intros ->. Qed.
Lemma unsaid `{AwsClients F C} (client : C) name operation key error o :
  says client name operation key = inr (ClientError error) →
  String.eqb operation "get_public_access_block" = false →
  outcome_of client name (operation, key) = inl o → o = None.
Proof.
  unfold outcome_of. cbn [fst snd]. intros -> ->. cbn [andb]. unfold mbind, got_bind.
  destruct (fault_code error); [|done]. destruct (a_in _ _) as [[]|]; [|done..]. by intros [= <-].
Qed.

(** The rule judges the row as the result says. *)
Definition concludes (x : Asset) (context : RuleContext) (k : string) (result : RuleResult) : Prop :=
  ∃ r, s3_rule k = Some r ∧ SecurityRules.evaluate r (Some x) context = inl result.

Lemma metadata_concludes x context k field m o (f : awsval → bool) :
  Asset.asset_type x = AssetType.S3_BUCKET → Asset.metadata_json x = PDict m →
  (∃ r, s3_rule k = Some r ∧ asset_type r = Some AssetType.S3_BUCKET
     ∧ evaluator r = _metadata_rule field (PBool false)) →
  dget field m = (λ v, PBool (f v)) <$> o →
  concludes x context k (match o with Some v => verdict field (f v) | None => error_default end).
Proof.
  intros Hx Hm (r & Hr & Ht & He) Hd. exists r. split; [done|]. unfold SecurityRules.evaluate, applies_to,
    SecurityRules.asset_types. rewrite Ht, Hx. rewrite bool_decide_eq_true_2 by (by left).
  rewrite He. unfold _metadata_rule, with_metadata. rewrite Hm, Hd. destruct o as [v|]; [|done]. cbn.
  unfold verdict. by destruct (f v).
Qed.

(** C18. What a bucket's rules conclude is what AWS said when the bucket was
    read: the public access block is complete only if all four settings are
    on, versioning only if the status is Enabled, logging and default
    encryption only if they are configured, and access is public when a grant
    is to everybody or the policy is.  A bucket for which AWS has no encryption
    configuration is not reported: its rule ends in an error. *)
Theorem bucket_rules_judge_the_answers {F C : Type} `{AwsClients F C} `{DateRepr} `{PolicyJson}
    (client : C) (name bucket : awsval) (asset : NormalizedAsset) (x : Asset) (context : RuleContext) :
  a_item "Name" bucket = inl name →
  (∀ call, call ∈ optional_calls → hasattr client call.1 = true) →
  s3_bucket client bucket = inl asset →
  Asset.asset_type x = AssetType.S3_BUCKET → Asset.metadata_json x = na_metadata asset →
  (∀ v, says client name "get_public_access_block" "PublicAccessBlockConfiguration" = inl v →
     concludes x context "S3_BUCKET_PUBLIC_ACCESS_BLOCK_INCOMPLETE"
       (verdict "public_access_block_complete" (all_blocked v)))
  ∧ (∀ v, says client name "get_bucket_versioning" "Status" = inl v →
       concludes x context "S3_BUCKET_VERSIONING_DISABLED"
         (verdict "versioning_enabled" (is_text "Enabled" v)))
  ∧ (∀ v, says client name "get_bucket_logging" "LoggingEnabled" = inl v →
       concludes x context "S3_BUCKET_LOGGING_DISABLED" (verdict "logging_enabled" (truthy v)))
  ∧ (∀ v, says client name "get_bucket_encryption" "ServerSideEncryptionConfiguration" = inl v →
       concludes x context "S3_BUCKET_DEFAULT_ENCRYPTION_MISSING"
         (verdict "default_encryption_enabled" (truthy v)))
  ∧ (∀ error, says client name "get_bucket_encryption" "ServerSideEncryptionConfiguration"
              = inr (ClientError error) →
       concludes x context "S3_BUCKET_DEFAULT_ENCRYPTION_MISSING" error_default)
  ∧ (∀ grants status, says client name "get_bucket_acl" "Grants" = inl (AList grants) →
       says client name "get_bucket_policy_status" "PolicyStatus" = inl status →
       ∃ b public, any_got public_grant grants = inl b
       ∧ a_get "IsPublic" (or_else status (ADict [])) = inl public
       ∧ concludes x context "S3_BUCKET_PUBLIC_ACCESS_CONFIRMED"
           ((if b || truthy public then failed else passed)
              [("signals", PDict [("public_acl", PBool b); ("public_policy", PBool (truthy public))])])).
Proof.
  intros Hn Hh Hs Hx Hm.
  assert (∃ m, na_metadata asset = PDict m) as [m Hk].
  { destruct (s3_bucket_kept client name bucket asset Hn Hh Hs) as (? & ? & ? & ? & ? & ? & ? & ? & ? & Hk).
    by eexists. }
  rewrite Hk in Hm.
  destruct (bucket_says client name bucket asset m Hn Hh Hs Hk)
    as (ob & oa & op & oe & ov & ol & Eb & Ea & Ep & Ee & Ev & El & Mb & Me & Mv & Ml & Mg).
  split_and!.
  - intros v Hv%said. rewrite Hv in Eb. injection Eb as <-.
    refine (metadata_concludes x context _ _ m (Some v) all_blocked Hx Hm _ Mb). by eexists.
  - intros v Hv%said. rewrite Hv in Ev. injection Ev as <-.
    refine (metadata_concludes x context _ _ m (Some v) (is_text "Enabled") Hx Hm _ Mv). by eexists.
  - intros v Hv%said. rewrite Hv in El. injection El as <-.
    refine (metadata_concludes x context _ _ m (Some v) truthy Hx Hm _ Ml). by eexists.
  - intros v Hv%said. rewrite Hv in Ee. injection Ee as <-.
    refine (metadata_concludes x context _ _ m (Some v) truthy Hx Hm _ Me). by eexists.
  - intros error Hv. apply (unsaid _ _ _ _ _ oe) in Hv as ->; [|done..].
    refine (metadata_concludes x context _ _ m None truthy Hx Hm _ Me). by eexists.
  - intros grants status Hg%said Hst%said. rewrite Hg in Ea. rewrite Hst in Ep.
    injection Ea as <-. injection Ep as <-.
    destruct (Mg grants eq_refl) as (b & public & Hb & Hp & Hd). exists b, public. split_and!; [done..|].
    eexists. split; [reflexivity|]. unfold SecurityRules.evaluate, applies_to, SecurityRules.asset_types.
    cbn [asset_type additional_asset_types]. rewrite Hx, bool_decide_eq_true_2 by (by left).
    cbn [evaluator]. unfold _public_confirmed, with_metadata. rewrite Hm, Hd. cbn [existsb snd].
    destruct b, (truthy public); reflexivity.
Qed.

(** A bucket without encryption, versioned, open to everybody. *)
Module Lab.
Definition answer (operation : string) : got awsval :=
  match operation with
  | "get_bucket_location" => mret (ADict [("LocationConstraint", ANone)])
  | "get_bucket_tagging" =>
      inr (ClientError [("Error", PDict [("Code", PStr "NoSuchTagSet")])])
  | "get_bucket_encryption" =>
      inr (ClientError [("Error", PDict
             [("Code", PStr "ServerSideEncryptionConfigurationNotFoundError")])])
  | "get_bucket_acl" => mret (ADict [("Grants", AList [ADict [("Grantee",
      ADict [("URI", AStr "http://acs.amazonaws.com/groups/global/AllUsers")])]])])
  | "get_bucket_versioning" => mret (ADict [("Status", AStr "Enabled")])
  | "get_public_access_block" =>
      mret (ADict [("PublicAccessBlockConfiguration", ADict [("BlockPublicAcls", ABool true)])])
  | _ => mret (ADict [])
  end.
#[local] Instance clients : AwsClients () () := {|
  make_client _ _ _ := mret tt;
  hasattr _ _ := true;
  can_paginate _ _ := false;
  get_paginator _ _ _ := py_error KeyError;
  invoke _ operation _ := answer operation;
  next_tokens _ _ := []
|}.
#[local] Instance dates : DateRepr := λ _, "datetime.datetime(...)".
#[local] Instance policies : PolicyJson := λ _, None.

Definition bucket : awsval := ADict [("Name", AStr "lab"); ("CreationDate", ADate 0)].
Definition asset : NormalizedAsset :=
  match s3_bucket tt bucket with inl a => a | inr _ => mk_NormalizedAsset AssetType.S3_BUCKET ""
    None "" "" None PNone PNone end.
Definition row : Asset :=
  Asset.mk 1 1 1 AssetType.S3_BUCKET "lab" None "lab" "us-east-1" None (PDict []) (na_metadata asset) 0 0 true.

Lemma bucket_rules_judge_the_answers_witness :
  concludes row (mk_RuleContext [] 0) "S3_BUCKET_DEFAULT_ENCRYPTION_MISSING" error_default
  ∧ concludes row (mk_RuleContext [] 0) "S3_BUCKET_VERSIONING_DISABLED" (verdict "versioning_enabled" true)
  ∧ concludes row (mk_RuleContext [] 0) "S3_BUCKET_PUBLIC_ACCESS_BLOCK_INCOMPLETE"
      (verdict "public_access_block_complete" false).
Proof.
  pose proof (bucket_rules_judge_the_answers tt (AStr "lab") bucket asset row (mk_RuleContext [] 0)
    eq_refl (λ _ _, eq_refl) eq_refl eq_refl eq_refl) as (Hb & Hv & _ & _ & He & _).
  split; [|split].
  - eapply He. reflexivity.
  - exact (Hv (AStr "Enabled") eq_refl).
  - exact (Hb (ADict [("BlockPublicAcls", ABool true)]) eq_refl).
Defined.
End Lab.

(** * The inventory of the demo *)

(** services/demo_inventory.py:27-27, DEMO_ACCOUNT_ID. *)
Definition DEMO_ACCOUNT_ID : string := "123456789012".
(** services/demo_inventory.py:28-28, DEMO_REGION. *)
Definition DEMO_REGION : string := "us-east-1".
(** services/demo_inventory.py:29-29, _TAGS. *)
Definition _TAGS : pyval := PDict [("Environment", PStr "demo"); ("Synthetic", PStr "true")].

(** services/demo_inventory.py:32-148, synthetic_inventory. *)
Definition synthetic_inventory (account_id : string) : list NormalizedAsset := [
  mk_NormalizedAsset AssetType.EC2_INSTANCE "i-0demo0instance0001"
    (Some ("arn:aws:ec2:" +:+ DEMO_REGION +:+ ":" +:+ account_id
           +:+ ":instance/i-0demo0instance0001"))
    "demo-web-instance" DEMO_REGION (Some "running") _TAGS
    (PDict [("instance_type", PStr "t3.micro"); ("vpc_id", PStr "vpc-0demo0000");
            ("subnet_id", PStr "subnet-0demo0000");
            ("security_group_ids", PList [PStr "sg-0demo0open0ssh"]); ("has_public_ip", PBool true);
            ("metadata_options",
             PDict [("http_tokens", PStr "optional"); ("http_endpoint", PStr "enabled")]);
            ("synthetic", PBool true)]);
  mk_NormalizedAsset AssetType.EC2_SECURITY_GROUP "sg-0demo0open0ssh"
    (Some ("arn:aws:ec2:" +:+ DEMO_REGION +:+ ":" +:+ account_id
           +:+ ":security-group/sg-0demo0open0ssh"))
    "demo-open-ssh" DEMO_REGION (Some "active") _TAGS
    (PDict [("description", PStr "Demo group intentionally exposing SSH");
            ("vpc_id", PStr "vpc-0demo0000");
            ("ip_permissions", PList [PDict
               [("IpProtocol", PStr "tcp"); ("FromPort", PInt 22); ("ToPort", PInt 22);
                ("IpRanges", PList [PDict [("CidrIp", PStr "0.0.0.0/0")]]);
                ("Ipv6Ranges", PList [])]]);
            ("ip_permissions_egress", PList []); ("synthetic", PBool true)]);
  mk_NormalizedAsset AssetType.S3_BUCKET "cloudops-demo-public-bucket"
    (Some "arn:aws:s3:::cloudops-demo-public-bucket") "cloudops-demo-public-bucket" DEMO_REGION
    (Some "active") _TAGS
    (PDict [("public_access_signals", PDict [("public_acl", PBool true); ("public_policy", PBool true)]);
            ("public_access_block_complete", PBool false);
            ("default_encryption_enabled", PBool false); ("versioning_enabled", PBool false);
            ("logging_enabled", PBool false); ("policy_document", PNone); ("synthetic", PBool true)]);
  mk_NormalizedAsset AssetType.CLOUDTRAIL_TRAIL "cloudops-demo-trail"
    (Some ("arn:aws:cloudtrail:" +:+ DEMO_REGION +:+ ":" +:+ account_id
           +:+ ":trail/cloudops-demo-trail"))
    "cloudops-demo-trail" DEMO_REGION (Some "disabled") _TAGS
    (PDict [("is_logging", PBool false); ("is_multi_region", PBool false);
            ("include_global_service_events", PBool false);
            ("log_file_validation_enabled", PBool false); ("kms_encrypted", PBool false);
            ("cloudwatch_integration", PBool false); ("delivery_failed", PBool false);
            ("synthetic", PBool true)]);
  mk_NormalizedAsset AssetType.IAM_USER "AIDADEMOUSER0000001"
    (Some ("arn:aws:iam::" +:+ account_id +:+ ":user/demo-admin-user")) "demo-admin-user" "global"
    (Some "active") _TAGS
    (PDict [("console_access", PBool true); ("mfa_enabled", PBool false);
            ("active_key_created_at", PList [PStr "2024-01-01T00:00:00Z"]);
            ("attached_policy_arns", PList [PStr "arn:aws:iam::aws:policy/AdministratorAccess"]);
            ("inline_policy_documents", PList [PDict [("Statement",
               PDict [("Effect", PStr "Allow"); ("Action", PStr "*"); ("Resource", PStr "*")])]]);
            ("synthetic", PBool true)]) ].

(** services/demo_inventory.py:151-152, _inventory_for. *)
Definition _inventory_for (asset_types : list AssetType) (account_id : string) : list NormalizedAsset :=
  filter (λ item, na_asset_type item ∈ asset_types) (synthetic_inventory account_id).

(** services/demo_inventory.py:155-169, _SyntheticDiscoveryService. *)
Definition _SyntheticDiscoveryService {F} (name : string) (asset_types : list AssetType)
    : DiscoveryCollector F :=
  mk_DiscoveryCollector name asset_types
    (λ _ _ account_id, inl (_inventory_for asset_types account_id)).

(** services/demo_inventory.py:197-204, synthetic_discovery_services.  The name of a
    class without "DiscoveryService", in small letters. *)
Definition synthetic_discovery_services {F} : list (DiscoveryCollector F) :=
  [_SyntheticDiscoveryService "syntheticec2"
     [AssetType.EC2_INSTANCE; AssetType.EC2_SECURITY_GROUP; AssetType.EBS_VOLUME];
   _SyntheticDiscoveryService "synthetics3" [AssetType.S3_BUCKET];
   _SyntheticDiscoveryService "syntheticiam"
     [AssetType.IAM_USER; AssetType.IAM_ROLE; AssetType.IAM_GROUP; AssetType.IAM_POLICY];
   _SyntheticDiscoveryService "syntheticcloudtrail" [AssetType.CLOUDTRAIL_TRAIL]].

(** A row with what the orchestrator stores of an item. *)
Definition stored (item : NormalizedAsset) (x : Asset) : Prop :=
  Asset.asset_type x = na_asset_type item
  ∧ Asset.metadata_json x = json_safe (of_json (na_metadata item)).

(** The rules that pass on the demo inventory; every other one that applies
    fails. *)
Definition demo_passes : list string :=
  ["EC2_SG_RDP_OPEN_TO_WORLD"; "EC2_SG_ALL_TRAFFIC_OPEN_TO_WORLD"; "CLOUDTRAIL_DELIVERY_FAILURE"].
Definition demo_status (k : string) : RuleResultStatus :=
  if bool_decide (k ∈ demo_passes) then RuleResultStatus.PASSED else RuleResultStatus.FAILED.

Section demo.
Context (fromisoformat : string → option RiskEngine.datetime) (context : RuleContext).
Hypothesis key_created : fromisoformat "2024-01-01T00:00:00+00:00"
  = Some (RiskEngine.mk_datetime 1704067200000000 (Some 0%Z)).
Hypothesis key_old : (1704067200000000 + days 91 <= evaluated_at context)%Z.

Lemma demo_key_age x m :
  Asset.asset_type x = AssetType.IAM_USER → Asset.metadata_json x = PDict m →
  dget "active_key_created_at" m = Some (PList [PStr "2024-01-01T00:00:00Z"]) →
  ∃ result, _access_key_age fromisoformat (Some x) context = inl result
    ∧ status result = RuleResultStatus.FAILED.
Proof.
  intros Hx Hm Hd. unfold _access_key_age, with_metadata. rewrite Hm, Hd.
  cbn [mapM key_age].
  change (replace_char "Z"%char "+00:00" "2024-01-01T00:00:00Z") with "2024-01-01T00:00:00+00:00".
  rewrite key_created. cbn [mbind option_bind mret option_ret fmap option_fmap option_map max_or_zero].
  assert (90 < (evaluated_at context - RiskEngine.instant (RiskEngine._aware
    (RiskEngine.mk_datetime 1704067200000000 (Some 0%Z)))) / days 1)%Z as Hlt.
  { change (RiskEngine.instant _) with 1704067200000000%Z. unfold days in *.
    apply Z.lt_le_trans with 91%Z; [lia|]. apply Z.div_le_lower_bound; lia. }
  apply Z.ltb_lt in Hlt. eexists. split; [reflexivity|]. unfold RiskEngine.py_max. cbn [foldr].
  by rewrite Hlt.
Qed.

Definition key_rule : string := "IAM_USER_ACCESS_KEY_TOO_OLD".

Definition judged (x : Asset) (r : SecurityRule) : bool :=
  negb (applies_to r (Some x))
  || match SecurityRules.evaluate r (Some x) context with
     | inl result => status result ≟ demo_status (key r)
     | inr _ => false
     end.

Lemma others_judged account_id f :
  forallb (λ item, forallb (λ r, (key r ≟ key_rule)
    || judged (f (na_asset_type item) (json_safe (of_json (na_metadata item)))) r)
    (all_rules fromisoformat)) (synthetic_inventory account_id) = true →
  ∀ item r, item ∈ synthetic_inventory account_id → r ∈ all_rules fromisoformat →
  key r ≠ key_rule → judged (f (na_asset_type item) (json_safe (of_json (na_metadata item)))) r = true.
Proof.
  intros Hf item r Hi Hr Hk. rewrite forallb_forall in Hf.
  specialize (Hf item). cbv beta in Hf. rewrite forallb_forall in Hf.
  specialize (Hf (proj1 (list_elem_of_In _ _) Hi) r (proj1 (list_elem_of_In _ _) Hr)).
  apply orb_true_iff in Hf as [Hf|Hf]; [by apply bool_decide_eq_true in Hf|done].
Qed.
Lemma rows_judged account_id id org account r arn name region st tags first last active :
  forallb (λ item, forallb (λ r', (key r' ≟ key_rule)
    || judged (Asset.mk id org account (na_asset_type item) r arn name region st tags
                 (json_safe (of_json (na_metadata item))) first last active) r')
    (all_rules fromisoformat)) (synthetic_inventory account_id) = true.
Proof. vm_compute. reflexivity. Qed.

Lemma key_rule_is r :
  r ∈ all_rules fromisoformat → key r = key_rule →
  SecurityRules.asset_types r = [AssetType.IAM_USER] ∧ evaluator r = _access_key_age fromisoformat.
Proof.
  revert r. apply (proj1 (Forall_forall (λ r, key r = key_rule →
    SecurityRules.asset_types r = [AssetType.IAM_USER] ∧ evaluator r = _access_key_age fromisoformat) _)).
  unfold all_rules, EC2_RULES, S3_RULES, IAM_RULES, RDS_RULES,
    CLOUDWATCH_RULES, CLOUDTRAIL_RULES. cbn [app].
  repeat (apply List.Forall_cons; [first [intros Hk; discriminate Hk|by intros _]|]). constructor.
Qed.

(** The findings that the demo promises: on the inventory of the demo no rule
    ends in an error, three pass, and every other one that applies fails. *)
Theorem demo_inventory_is_judged account_id item r x :
  item ∈ synthetic_inventory account_id → r ∈ all_rules fromisoformat → stored item x →
  applies_to r (Some x) = true →
  ∃ result, SecurityRules.evaluate r (Some x) context = inl result ∧ status result = demo_status (key r).
Proof.
  intros Hi Hr [Ht Hm] Ha. destruct (decide (key r = key_rule)) as [Hk|Hk].
  - destruct (key_rule_is r Hr Hk) as [Hty He]. unfold SecurityRules.evaluate. rewrite Ha, He, Hk.
    unfold applies_to in Ha. unfold SecurityRules.asset_types in Ha, Hty. destruct (asset_type r); [|done].
    rewrite Hty in Ha. apply bool_decide_eq_true, list_elem_of_singleton in Ha. rewrite Ha in Ht.
    unfold synthetic_inventory in Hi.
    repeat (apply elem_of_cons in Hi as [->|Hi]; [try discriminate Ht|]); [|by apply elem_of_nil in Hi].
    change (demo_status key_rule) with RuleResultStatus.FAILED.
    by eapply demo_key_age; [|rewrite Hm; vm_compute; reflexivity|].
  - destruct x as [id org account t rid arn name region st tags m first last active]. cbn in Ht, Hm. subst t m.
    pose proof (others_judged account_id
      (λ t m, Asset.mk id org account t rid arn name region st tags m first last active)
      (rows_judged account_id id org account rid arn name region st tags first last active)
      item r Hi Hr Hk) as Hj.
    unfold judged in Hj. rewrite Ha in Hj. cbn [negb orb] in Hj.
    destruct (SecurityRules.evaluate _ _ _) as [result|]; [|done]. exists result. split; [done|].
    by apply bool_decide_eq_true in Hj.
Qed.
End demo.
