(* ===== verification/Config.v ===== *)
(** core/config.py: the settings of the application and what is refused.

    The fields are those of the class, with pydantic's bounds on them; reading
    them from the environment is pydantic's.  A secret is its value, a float a
    rational number (NaN and the infinities are outside of every bound).
    [urlsplit] and [ipaddress] are parameters. *)

From S2P Require Import Prelude.
From S2P Require Import PyValue.
From S2P Require Import JiraClient.
From S2P Require Import Tokens.
From S2P Require Import Notifications.
From S2P Require Import NotificationProviders.
From Stdlib Require Import Ascii QArith ZifyBool.
From stdpp Require Import list.

Open Scope Z_scope.

Module Settings.
(** core/config.py:65-179, part of Settings. *)
Record Settings := mk {
  app_env : string;
  app_name : string;
  api_v1_prefix : string;
  database_url : string;
  migration_database_url : option string;
  jwt_secret_key : string;
  jwt_active_key_id : string;
  jwt_previous_secret_key : option string;
  jwt_previous_key_id : option string;
  jwt_algorithm : string;
  access_token_expire_minutes : Z;
  refresh_token_expire_days : Z;
  invitation_token_expire_hours : Z;
  cors_allowed_origins : string;
  trusted_hosts : string;
  cookie_secure : bool;
  cookie_samesite : string;
  cookie_domain : option string;
  hsts_enabled : bool;
  allow_insecure_staging_transport : bool;
  log_level : string;
  frontend_url : string;
  auth_rate_limit_per_minute : Z;
  aws_trusted_principal_arn : string;
  aws_trusted_principal_arns : string;
  aws_role_session_name : string;
  aws_role_session_duration_seconds : Z;
  aws_credential_refresh_window_seconds : Z;
  aws_discovery_regions : string;
  aws_connect_timeout_seconds : Z;
  aws_read_timeout_seconds : Z;
  aws_max_retry_attempts : Z;
  aws_retry_mode : string;
  ai_provider : string;
  ai_provider_api_key : string;
  aws_bedrock_enabled : bool;
  aws_bedrock_region : string;
  aws_bedrock_model_id : string;
  aws_bedrock_max_tokens : Z;
  aws_bedrock_temperature : Q;
  aws_bedrock_connect_timeout_seconds : Z;
  aws_bedrock_read_timeout_seconds : Z;
  aws_bedrock_max_retry_attempts : Z;
  aws_bedrock_max_request_bytes : Z;
  aws_bedrock_max_response_bytes : Z;
  notification_provider : string;
  smtp_host : string;
  smtp_port : Z;
  smtp_username : string;
  smtp_password : string;
  smtp_from_email : string;
  smtp_from_name : string;
  smtp_use_tls : bool;
  smtp_security : string;
  smtp_timeout_seconds : Z;
  aws_ses_enabled : bool;
  aws_ses_region : string;
  aws_ses_from_email : string;
  aws_ses_from_name : string;
  aws_ses_configuration_set : string;
  aws_ses_reply_to : string;
  aws_ses_max_recipients : Z;
  aws_ses_connect_timeout_seconds : Z;
  aws_ses_read_timeout_seconds : Z;
  aws_ses_max_retry_attempts : Z;
  remediation_execution_enabled : bool;
  remediation_live_aws_enabled : bool;
  remediation_emergency_stop : bool;
  demo_synthetic_discovery : bool;
  trust_forwarded_host_same_origin : bool;
  notification_max_message_bytes : Z;
  slack_webhook_url : string;
  teams_webhook_url : string;
  webhook_timeout_seconds : Z;
  scheduler_batch_size : Z;
  scheduler_poll_interval_seconds : Q;
  job_lease_seconds : Z;
  job_poll_interval_seconds : Q;
  job_shutdown_grace_seconds : Z;
  notification_provider_api_key : string;
  jira_enabled : bool;
  jira_token_encryption_key : string;
  jira_connect_timeout_seconds : Z;
  jira_read_timeout_seconds : Z;
  jira_max_retry_attempts : Z
}.
#[export] Instance eta : Eta Settings :=
  eta! mk <
    app_env ; app_name ; api_v1_prefix ; database_url ; migration_database_url ;
    jwt_secret_key ; jwt_active_key_id ; jwt_previous_secret_key ; jwt_previous_key_id ;
    jwt_algorithm ; access_token_expire_minutes ; refresh_token_expire_days ;
    invitation_token_expire_hours ; cors_allowed_origins ; trusted_hosts ; cookie_secure ;
    cookie_samesite ; cookie_domain ; hsts_enabled ; allow_insecure_staging_transport ;
    log_level ; frontend_url ; auth_rate_limit_per_minute ; aws_trusted_principal_arn ;
    aws_trusted_principal_arns ; aws_role_session_name ; aws_role_session_duration_seconds ;
    aws_credential_refresh_window_seconds ; aws_discovery_regions ;
    aws_connect_timeout_seconds ; aws_read_timeout_seconds ; aws_max_retry_attempts ;
    aws_retry_mode ; ai_provider ; ai_provider_api_key ; aws_bedrock_enabled ;
    aws_bedrock_region ; aws_bedrock_model_id ; aws_bedrock_max_tokens ;
    aws_bedrock_temperature ; aws_bedrock_connect_timeout_seconds ;
    aws_bedrock_read_timeout_seconds ; aws_bedrock_max_retry_attempts ;
    aws_bedrock_max_request_bytes ; aws_bedrock_max_response_bytes ; notification_provider ;
    smtp_host ; smtp_port ; smtp_username ; smtp_password ; smtp_from_email ; smtp_from_name ;
    smtp_use_tls ; smtp_security ; smtp_timeout_seconds ; aws_ses_enabled ; aws_ses_region ;
    aws_ses_from_email ; aws_ses_from_name ; aws_ses_configuration_set ; aws_ses_reply_to ;
    aws_ses_max_recipients ; aws_ses_connect_timeout_seconds ; aws_ses_read_timeout_seconds ;
    aws_ses_max_retry_attempts ; remediation_execution_enabled ; remediation_live_aws_enabled ;
    remediation_emergency_stop ; demo_synthetic_discovery ; trust_forwarded_host_same_origin ;
    notification_max_message_bytes ; slack_webhook_url ; teams_webhook_url ;
    webhook_timeout_seconds ; scheduler_batch_size ; scheduler_poll_interval_seconds ;
    job_lease_seconds ; job_poll_interval_seconds ; job_shutdown_grace_seconds ;
    notification_provider_api_key ; jira_enabled ; jira_token_encryption_key ;
    jira_connect_timeout_seconds ; jira_read_timeout_seconds ; jira_max_retry_attempts >.

(** core/config.py:73-179, part of Settings.  The defaults; the URL of the database
    and the key have none. *)
Definition defaults (database_url_ jwt_secret_key_ : string) : Settings :=
  mk
    "development" "CloudOps API" "/api/v1" database_url_ None jwt_secret_key_ "primary" None
    None "HS256" 15 14 72 "http://localhost:5173" "localhost,127.0.0.1,testserver" false "lax"
    None false false "INFO" "http://localhost:5173" 10 "" "" "CloudOpsConnectionValidation" 900
    60 "us-east-1,us-west-2,eu-west-1,ap-south-1" 5 30 3 "standard" "mock" "" false "us-east-1"
    "" 1200 (1 # 10) 5 30 2 65536 32768 "mock" "localhost" 1025 "" ""
    "cloudops-demo@example.local" "CloudOps Demo" false "none" 10 false "us-east-1" "" "" "" ""
    25 5 30 3 false false true false false 262144 "" "" 10 100 (15 # 1) 120 (1 # 1) 30 "" false
    "" 5 15 3.

Definition between (lo hi n : Z) : bool := (lo <=? n) && (n <=? hi).
Definition q_between (lo hi q : Q) : bool := Qle_bool lo q && Qle_bool q hi.
Definition one_of (l : list string) (s : string) : bool := existsb (String.eqb s) l.
Definition length_between (lo hi : nat) (s : string) : bool :=
  Nat.leb lo (String.length s) && Nat.leb (String.length s) hi.
Definition opt_length (lo hi : nat) (o : option string) : bool :=
  match o with None => true | Some s => length_between lo hi s end.

(** core/config.py:73-179, part of Settings.  The literals and bounds of the
    fields. *)
Definition fields_ok (s : Settings) : bool :=
  one_of ["development"; "testing"; "staging"; "production"] (app_env s)
   && length_between 1 64 (jwt_active_key_id s)
   && opt_length 1 64 (jwt_previous_key_id s)
   && one_of ["HS256"; "HS384"; "HS512"] (jwt_algorithm s)
   && between 1 60 (access_token_expire_minutes s)
   && between 1 90 (refresh_token_expire_days s)
   && between 1 168 (invitation_token_expire_hours s)
   && one_of ["lax"; "strict"; "none"] (cookie_samesite s)
   && between 1 1000 (auth_rate_limit_per_minute s)
   && between 900 3600 (aws_role_session_duration_seconds s)
   && between 30 600 (aws_credential_refresh_window_seconds s)
   && between 1 30 (aws_connect_timeout_seconds s)
   && between 1 120 (aws_read_timeout_seconds s)
   && between 1 10 (aws_max_retry_attempts s)
   && one_of ["standard"; "adaptive"] (aws_retry_mode s)
   && one_of ["mock"; "bedrock"; "external"] (ai_provider s)
   && between 128 4096 (aws_bedrock_max_tokens s)
   && q_between (0 # 1) (1 # 1) (aws_bedrock_temperature s)
   && between 1 30 (aws_bedrock_connect_timeout_seconds s)
   && between 1 120 (aws_bedrock_read_timeout_seconds s)
   && between 1 5 (aws_bedrock_max_retry_attempts s)
   && between 4096 262144 (aws_bedrock_max_request_bytes s)
   && between 4096 131072 (aws_bedrock_max_response_bytes s)
   && one_of ["mock"; "smtp"; "ses"; "slack"; "teams"] (notification_provider s)
   && between 1 65535 (smtp_port s)
   && one_of ["none"; "starttls"; "implicit"] (smtp_security s)
   && between 1 60 (smtp_timeout_seconds s)
   && between 1 50 (aws_ses_max_recipients s)
   && between 1 30 (aws_ses_connect_timeout_seconds s)
   && between 1 120 (aws_ses_read_timeout_seconds s)
   && between 1 5 (aws_ses_max_retry_attempts s)
   && between 1024 1048576 (notification_max_message_bytes s)
   && between 1 60 (webhook_timeout_seconds s)
   && between 1 1000 (scheduler_batch_size s)
   && q_between (1 # 1) (300 # 1) (scheduler_poll_interval_seconds s)
   && between 15 3600 (job_lease_seconds s)
   && q_between (1 # 10) (60 # 1) (job_poll_interval_seconds s)
   && between 1 300 (job_shutdown_grace_seconds s)
   && between 1 30 (jira_connect_timeout_seconds s)
   && between 1 60 (jira_read_timeout_seconds s)
   && between 1 5 (jira_max_retry_attempts s).
End Settings.
Abbreviation Settings := Settings.Settings.
Export (hints) Settings.
Module St := Settings.

(** * Origins and endpoints *)

(** The parts of a URL that [urlparts] leaves out: the path, and the port, which
    may be a ValueError. *)
Class UrlLib := {
  url_path : string → string;
  url_port : string → res (option Z)
}.

(** [c.isalnum()] *)
Definition is_alnum (c : ascii) : bool :=
  let n := code c in
  ((48 <=? n) && (n <=? 57) || (65 <=? n) && (n <=? 90) || (97 <=? n) && (n <=? 122))%N.
Definition first_char (s : string) : option ascii := String.get 0 s.
Definition last_char (s : string) : option ascii := String.get (String.length s - 1) s.
Fixpoint all_chars (f : ascii → bool) (s : string) : bool :=
  match s with EmptyString => true | String c s => f c && all_chars f s end.

(** [s.split(c)] *)
Fixpoint split_on (c : ascii) (acc s : string) : list string :=
  match s with
  | EmptyString => [srev acc]
  | String c' s =>
      if Ascii.eqb c c' then srev acc :: split_on c EmptyString s else split_on c (String c' acc) s
  end.
Definition dash : ascii := "-"%char.

(** core/config.py:36-44, part of _validate_origin.  A label of a host name. *)
Definition label_ok (label : string) : bool :=
  nonempty label && Nat.leb (String.length label) 63
  && negb (first_char label ≟ Some dash) && negb (last_char label ≟ Some dash)
  && all_chars (λ c, is_alnum c || Ascii.eqb c dash) label.

Section urls.
Context `{PyLib} `{UrlLib}.

(** core/config.py:14-49, _validate_origin. *)
Definition _validate_origin (origin : string) : res () :=
  match urlsplit origin, url_port origin with
  | inl parsed, inl port =>
      if negb (existsb (String.eqb (scheme parsed)) ["http"; "https"])
         || negb (nonempty (default "" (hostname parsed)))
         || is_some_ (username parsed) || is_some_ (password parsed)
         || nonempty (url_path origin) || nonempty (query parsed) || nonempty (fragment parsed)
      then inr ValueError
      else
        let host := default "" (hostname parsed) in
        if has_char "*" host || Nat.ltb 253 (String.length host) then inr ValueError
        else if is_none_ (ip_address host)
                && existsb (λ label, negb (label_ok label)) (split_on "." EmptyString host)
        then inr ValueError
        else match port with
             | Some port => if negb (St.between 1 65535 port) then inr ValueError else mret tt
             | None => mret tt
             end
  | inr e, _ | _, inr e => inr e
  end.

(** core/config.py:52-62, _validate_provider_endpoint. *)
Definition _validate_provider_endpoint (value : string) (allowed_hosts : list string) : res bool :=
  parsed ← urlsplit value; mret (approved_endpoint parsed allowed_hosts).

(** [[x.strip() for x in s.split(",") if x.strip()]] *)
Definition comma_list (s : string) : list string :=
  List.filter nonempty (map strip (split_on "," EmptyString s)).

(** core/config.py:316-318, Settings.allowed_origins. *)
Definition allowed_origins (s : Settings) : list string := comma_list (St.cors_allowed_origins s).
(** core/config.py:320-322, Settings.allowed_hosts. *)
Definition allowed_hosts (s : Settings) : list string := comma_list (St.trusted_hosts s).
(** core/config.py:324-326, Settings.refresh_cookie_name. *)
Definition refresh_cookie_name : string := "cloudops_refresh_token".
(** core/config.py:328-332, Settings.discovery_regions. *)
Definition discovery_regions (s : Settings) : list string := comma_list (St.aws_discovery_regions s).

(** core/config.py:367-370, Settings.database_dsn. *)
Definition database_dsn (s : Settings) : string := St.database_url s.
(** core/config.py:372-376, Settings.migration_database_dsn.  An empty secret is
    falsy. *)
Definition migration_database_dsn (s : Settings) : string :=
  match St.migration_database_url s with
  | Some url => if nonempty url then url else St.database_url s
  | None => St.database_url s
  end.

(** * Validation *)

(** core/config.py:181-188, Settings.validate_jwt_secret. *)
Definition validate_jwt_secret (value : option string) : res () :=
  match value with
  | None => mret tt
  | Some key => if Nat.ltb (String.length key) 32 then inr ValueError else mret tt
  end.

(** core/config.py:190-195, Settings.validate_prefix. *)
Definition validate_prefix (value : string) : res () :=
  if negb (startswith value "/") || endswith value "/" then inr ValueError else mret tt.

(** core/config.py:197-209, Settings.validate_cors_allowed_origins. *)
Definition validate_cors_allowed_origins (value : string) : res () :=
  _ ← res_map (λ origin,
    if String.eqb origin "*" then inr ValueError else _validate_origin origin) (comma_list value);
  mret tt.

(** [if b: raise ValueError] *)
Definition refuse (b : bool) : res () := if b then inr ValueError else mret tt.

Definition production_like (s : Settings) : bool :=
  String.eqb (St.app_env s) "staging" || String.eqb (St.app_env s) "production".
Definition static_variables : list string :=
  ["AWS_ACCESS_KEY_ID"; "AWS_SECRET_ACCESS_KEY"; "AWS_SESSION_TOKEN"].

(** core/config.py:232-262, part of Settings.model_post_init.  The names of the
    variables of the environment are given. *)
Definition check_production (environ : list string) (s : Settings) : res () :=
  _ ← refuse (existsb (λ v, existsb (String.eqb v) environ) static_variables);
  _ ← refuse (String.eqb (St.ai_provider s) "external" && negb (nonempty (St.ai_provider_api_key s)));
  _ ← refuse (String.eqb (St.ai_provider s) "bedrock"
              && (negb (St.aws_bedrock_enabled s) || negb (nonempty (strip (St.aws_bedrock_model_id s)))));
  _ ← refuse (String.eqb (St.notification_provider s) "smtp" && negb (nonempty (St.smtp_password s)));
  refuse (String.eqb (St.notification_provider s) "ses"
          && (negb (St.aws_ses_enabled s) || negb (nonempty (strip (St.aws_ses_from_email s))))).

(** [any(urlsplit(origin).scheme != "https" for origin in origins)] *)
Fixpoint any_insecure (origins : list string) : res bool :=
  match origins with
  | [] => mret false
  | origin :: origins =>
      parsed ← urlsplit origin;
      if negb (String.eqb (scheme parsed) "https") then mret true else any_insecure origins
  end.

(** A refusal whose last test is not always made. *)
Definition refuse_when (b : bool) (test : res bool) : res () :=
  if b then t ← test; refuse t else mret tt.

(** core/config.py:211-314, Settings.model_post_init. *)
Definition model_post_init (environ : list string) (s : Settings) : res () :=
  let production_like := production_like s in
  _ ← refuse (negb (eqb (is_none_ (St.jwt_previous_secret_key s)) (is_none_ (St.jwt_previous_key_id s))));
  _ ← refuse (St.jwt_previous_key_id s ≟ Some (St.jwt_active_key_id s));
  _ ← refuse (St.allow_insecure_staging_transport s && negb (String.eqb (St.app_env s) "staging"));
  _ ← refuse (production_like && negb (St.allow_insecure_staging_transport s)
              && negb (St.cookie_secure s));
  _ ← (if production_like then check_production environ s else mret tt);
  _ ← refuse (production_like && St.demo_synthetic_discovery s);
  _ ← refuse (production_like && St.trust_forwarded_host_same_origin s);
  _ ← refuse (String.eqb (St.cookie_samesite s) "none" && negb (St.cookie_secure s));
  _ ← refuse_when (production_like && negb (St.allow_insecure_staging_transport s))
        (any_insecure (allowed_origins s));
  _ ← refuse (St.hsts_enabled s && (negb production_like || negb (St.cookie_secure s)));
  _ ← refuse (production_like && String.eqb (St.notification_provider s) "smtp"
              && (String.eqb (St.smtp_security s) "none" && negb (St.smtp_use_tls s)));
  _ ← refuse (production_like && String.eqb (St.notification_provider s) "smtp"
              && (nonempty (St.smtp_username s) && negb (nonempty (St.smtp_password s))));
  _ ← refuse_when (production_like && String.eqb (St.notification_provider s) "slack")
        (ok ← _validate_provider_endpoint (St.slack_webhook_url s) ["hooks.slack.com"]; mret (negb ok));
  _ ← refuse_when (production_like && String.eqb (St.notification_provider s) "teams")
        (ok ← _validate_provider_endpoint (St.teams_webhook_url s)
                ["webhook.office.com"; "logic.azure.com"; "powerautomate.com"]; mret (negb ok));
  refuse (St.jira_enabled s && negb (nonempty (St.jira_token_encryption_key s))).

(** The construction of the settings: the bounds and validators of the fields,
    then the checks between them. *)
Definition new_Settings (environ : list string) (s : Settings) : res Settings :=
  _ ← refuse (negb (St.fields_ok s));
  _ ← validate_jwt_secret (Some (St.jwt_secret_key s));
  _ ← validate_jwt_secret (St.jwt_previous_secret_key s);
  _ ← validate_prefix (St.api_v1_prefix s);
  _ ← validate_cors_allowed_origins (St.cors_allowed_origins s);
  _ ← model_post_init environ s;
  mret s.
End urls.

(** What the providers of notifications and the tokens take from the settings. *)
Definition notification_settings (s : Settings) : NotificationSettings :=
  NotificationSettings.mk (St.notification_provider s) (St.smtp_host s) (St.smtp_port s) (St.smtp_username s)
    (St.smtp_password s) (St.smtp_from_email s) (St.smtp_from_name s) (St.smtp_use_tls s)
    (St.smtp_security s) (St.smtp_timeout_seconds s) (St.aws_ses_enabled s) (St.aws_ses_from_email s)
    (St.aws_ses_from_name s) (St.aws_ses_configuration_set s) (St.aws_ses_reply_to s)
    (Z.to_nat (St.aws_ses_max_recipients s)) (St.notification_max_message_bytes s)
    (St.slack_webhook_url s) (St.teams_webhook_url s) (St.webhook_timeout_seconds s).

(** * What accepted settings are *)

Lemma res_bind_inl {A B} (m : res A) (f : A → res B) b :
  m ≫= f = inl b → ∃ a, m = inl a ∧ f a = inl b.
Proof. destruct m as [a|]; [by exists a|done]. Qed.
Lemma refuse_inl b u : refuse b = inl u → b = false.
Proof. by destruct b. Qed.
Lemma refuse_when_inl b test u : refuse_when b test = inl u → b = true → test = inl false.
Proof. intros H ->. cbn in H. destruct test as [[]|]; done. Qed.

(** The conditions behind a chain of refusals. *)
Ltac accepted H :=
  repeat match type of H with
  | mbind _ _ = inl _ => let E := fresh "E" in apply res_bind_inl in H as (? & E & H)
  end.

Section accepted.
Context `{PyLib} `{UrlLib}.

(** An origin as a browser writes it. *)
Record browser_origin (origin : string) : Prop := {
  bo_scheme : ∃ parsed, urlsplit origin = inl parsed ∧ scheme parsed ∈ ["http"; "https"]
    ∧ username parsed = None ∧ password parsed = None
    ∧ query parsed = EmptyString ∧ fragment parsed = EmptyString
    ∧ ∃ host, hostname parsed = Some host ∧ has_char "*" host = false;
  bo_path : url_path origin = EmptyString;
  bo_port : ∀ port, url_port origin = inl (Some port) → 1 ≤ port ≤ 65535
}.

Lemma empty_text s : nonempty s = false → s = EmptyString.
Proof. unfold nonempty. rewrite negb_false_iff. by intros Hs%String.eqb_eq. Qed.
Lemma is_some_false {A} (o : option A) : is_some_ o = false → o = None.
Proof. by destruct o. Qed.

Lemma validate_origin_inl origin u : _validate_origin origin = inl u → browser_origin origin.
Proof.
  unfold _validate_origin. destruct (urlsplit origin) as [parsed|] eqn:Eu; [|done].
  destruct (url_port origin) as [port|] eqn:Ep; [|done].
  destruct (negb _ || _ || _ || _ || _ || _ || _) eqn:Eb; [done|].
  repeat (apply orb_false_iff in Eb as [Eb ?]).
  destruct (has_char "*" _ || _) eqn:Eh; [done|]. apply orb_false_iff in Eh as [Eh _].
  destruct (is_none_ _ && _); [done|]. intros Hport.
  rewrite negb_false_iff in *. split.
  - exists parsed. split; [done|]. split.
    { apply existsb_exists in Eb as (x & Hx & ->%String.eqb_eq). by apply list_elem_of_In. }
    split_and!; [by apply is_some_false..|by apply empty_text|by apply empty_text|].
    destruct (hostname parsed) as [host|]; [by exists host|done].
  - by apply empty_text.
  - intros p Hp. rewrite Ep in Hp. injection Hp as ->. destruct (negb (St.between 1 65535 p)) eqn:Eq; [done|].
    unfold St.between in Eq. lia.
Qed.

Lemma validate_cors_inl value u :
  validate_cors_allowed_origins value = inl u →
  Forall (λ origin, origin ≠ "*" ∧ browser_origin origin) (comma_list value).
Proof.
  unfold validate_cors_allowed_origins. intros Hv. accepted Hv. clear Hv. revert x E.
  induction (comma_list value) as [|origin l IH]; intros us Hm; [constructor|].
  cbn [res_map] in Hm. accepted Hm. constructor; [|by eapply IH].
  destruct (String.eqb_spec origin "*"); [done|]. split; [done|]. by eapply validate_origin_inl.
Qed.

Lemma any_insecure_false origins :
  any_insecure origins = inl false →
  Forall (λ origin, ∃ parsed, urlsplit origin = inl parsed ∧ scheme parsed = "https") origins.
Proof.
  induction origins as [|origin origins IH]; cbn; intros Ha; [constructor|].
  accepted Ha. destruct (String.eqb_spec (scheme x) "https"); [|done]. constructor; [by exists x|by apply IH].
Qed.

Lemma endpoint_inl value hosts b :
  _validate_provider_endpoint value hosts = inl b →
  ∃ parsed, urlsplit value = inl parsed ∧ approved_endpoint parsed hosts = b.
Proof. unfold _validate_provider_endpoint. intros He. accepted He. injection He as <-. by exists x. Qed.
End accepted.

Lemma fields_smtp s : St.fields_ok s = true →
  St.smtp_security s ∈ ["none"; "starttls"; "implicit"].
Proof.
  intros Hf. assert (St.one_of ["none"; "starttls"; "implicit"] (St.smtp_security s) = true) as Ho.
  { unfold St.fields_ok in Hf. by repeat (apply andb_true_iff in Hf as [Hf ?]). }
  apply existsb_exists in Ho as (x & Hx & ->%String.eqb_eq). by apply list_elem_of_In.
Qed.

Lemma smtp_encrypted s :
  St.fields_ok s = true → String.eqb (St.smtp_security s) "none" && negb (St.smtp_use_tls s) = false →
  smtp_security_of (notification_settings s) ∈ ["starttls"; "implicit"].
Proof.
  intros Hf%fields_smtp Hn. unfold smtp_security_of. cbn [NotificationSettings.smtp_use_tls
    NotificationSettings.smtp_security notification_settings].
  destruct (String.eqb_spec (St.smtp_security s) "none") as [Es|Es].
  - destruct (St.smtp_use_tls s); [|done]. cbn. set_solver.
  - rewrite andb_false_r. set_solver.
Qed.

Lemma not_none s : negb (nonempty s) = false → s ≠ EmptyString.
Proof. by destruct s. Qed.
Lemma when b c : b && c = false → b = true → c = false.
Proof. by intros Hb ->. Qed.

Section checked.
Context `{PyLib} `{UrlLib} (environ : list string) (s : Settings).

Lemma check_production_inl u : check_production environ s = inl u →
  (∀ v, v ∈ static_variables → v ∉ environ)
  ∧ (St.notification_provider s = "smtp" → St.smtp_password s ≠ EmptyString).
Proof.
  unfold check_production. intros Hc. accepted Hc. split.
  - intros v Hv Hin. apply refuse_inl in E.
    assert (existsb (λ v, existsb (String.eqb v) environ) static_variables = true); [|congruence].
    apply existsb_exists. exists v. split; [by apply list_elem_of_In|].
    apply existsb_exists. exists v. split; [by apply list_elem_of_In|by apply String.eqb_eq].
  - intros Hs. apply refuse_inl in E2. rewrite Hs in E2. by apply not_none.
Qed.

(** A webhook of the provider that is configured. *)
Definition webhook_approved (provider url : string) (hosts : list string) : Prop :=
  St.notification_provider s = provider →
  ∃ parsed, urlsplit url = inl parsed ∧ approved_endpoint parsed hosts = true.

Lemma webhook_inl provider url hosts u :
  refuse_when (production_like s && String.eqb (St.notification_provider s) provider)
    (ok ← _validate_provider_endpoint url hosts; mret (negb ok)) = inl u →
  production_like s = true → webhook_approved provider url hosts.
Proof.
  intros Hr Hp Hs. rewrite Hp, Hs, String.eqb_refl in Hr. apply refuse_when_inl in Hr; [|done].
  accepted Hr. injection Hr as Hb. apply endpoint_inl in E as (parsed & Hu & Ha). exists parsed.
  split; [done|]. by destruct x.
Qed.

(** The checks between the fields. *)
Lemma model_post_init_inl u : model_post_init environ s = inl u → St.fields_ok s = true →
  (∀ key, St.jwt_previous_secret_key s = Some key →
     ∃ id, St.jwt_previous_key_id s = Some id ∧ id ≠ St.jwt_active_key_id s)
  ∧ (St.cookie_samesite s = "none" → St.cookie_secure s = true)
  ∧ (St.hsts_enabled s = true → production_like s = true ∧ St.cookie_secure s = true)
  ∧ (St.jira_enabled s = true → St.jira_token_encryption_key s ≠ EmptyString)
  ∧ (production_like s = true →
       (∀ v, v ∈ static_variables → v ∉ environ)
       ∧ St.demo_synthetic_discovery s = false ∧ St.trust_forwarded_host_same_origin s = false
       ∧ (St.allow_insecure_staging_transport s = true → St.app_env s = "staging")
       ∧ (St.allow_insecure_staging_transport s = false →
            St.cookie_secure s = true
            ∧ Forall (λ origin, ∃ parsed, urlsplit origin = inl parsed ∧ scheme parsed = "https")
                (allowed_origins s))
       ∧ (St.notification_provider s = "smtp" →
            smtp_security_of (notification_settings s) ∈ ["starttls"; "implicit"]
            ∧ St.smtp_password s ≠ EmptyString)
       ∧ webhook_approved "slack" (St.slack_webhook_url s) ["hooks.slack.com"]
       ∧ webhook_approved "teams" (St.teams_webhook_url s)
           ["webhook.office.com"; "logic.azure.com"; "powerautomate.com"]).
Proof.
  unfold model_post_init. intros Hm Hf. accepted Hm.
  repeat match goal with Hr : refuse _ = inl _ |- _ => apply refuse_inl in Hr end.
  split_and!.
  - intros key Hk. rewrite Hk in E. destruct (St.jwt_previous_key_id s) as [id|]; [|done].
    exists id. split; [done|]. intros ->. by rewrite bool_decide_eq_true_2 in E0.
  - intros Hc. rewrite Hc in E6. by apply negb_false_iff.
  - intros Hh. apply (when _ _ E8) in Hh. apply orb_false_iff in Hh. by rewrite !negb_false_iff in Hh.
  - intros Hj. by apply (when _ _ Hm), not_none in Hj.
  - intros Hp. rewrite Hp in E3. destruct (check_production_inl _ E3) as [Hstatic Hsmtp].
    split_and!; [done|by apply (when _ _ E4)|by apply (when _ _ E5)| | | |by eapply webhook_inl|by eapply webhook_inl].
    + intros Ha. apply (when _ _ E1) in Ha. by apply negb_false_iff, String.eqb_eq in Ha.
    + intros Ha. rewrite Hp, Ha in E2, E7. split; [by apply negb_false_iff|].
      by apply refuse_when_inl, any_insecure_false in E7.
    + intros Hs. split; [|by apply Hsmtp]. apply smtp_encrypted; [done|].
      apply (when _ _ E9). by rewrite Hp, Hs.
Qed.
End checked.

(** C27. Settings that are accepted are safe.  The keys of the tokens have 32
    characters and distinct identifiers; the origins with credentials are those
    of a browser, none of them a wildcard; cookies for every site and HSTS
    need a secure cookie; Jira needs a key.  In staging and production no
    static AWS credentials are in the environment, the controls of the demo are
    off, SMTP is encrypted before it signs in, and a webhook is on a host of
    its provider; and unless staging explicitly says otherwise, cookies are
    secure and every origin uses HTTPS. *)
Theorem accepted_settings_are_safe `{PyLib} `{UrlLib} (environ : list string) (s s' : Settings) :
  new_Settings environ s = inl s' →
  s' = s
  ∧ (32 <= String.length (St.jwt_secret_key s))%nat
  ∧ (∀ key, St.jwt_previous_secret_key s = Some key →
       (32 <= String.length key)%nat
       ∧ ∃ id, St.jwt_previous_key_id s = Some id ∧ id ≠ St.jwt_active_key_id s)
  ∧ Forall (λ origin, origin ≠ "*" ∧ browser_origin origin) (allowed_origins s)
  ∧ (St.cookie_samesite s = "none" → St.cookie_secure s = true)
  ∧ (St.hsts_enabled s = true → production_like s = true ∧ St.cookie_secure s = true)
  ∧ (St.jira_enabled s = true → St.jira_token_encryption_key s ≠ EmptyString)
  ∧ (production_like s = true →
       (∀ v, v ∈ static_variables → v ∉ environ)
       ∧ St.demo_synthetic_discovery s = false ∧ St.trust_forwarded_host_same_origin s = false
       ∧ (St.allow_insecure_staging_transport s = true → St.app_env s = "staging")
       ∧ (St.allow_insecure_staging_transport s = false →
            St.cookie_secure s = true
            ∧ Forall (λ origin, ∃ parsed, urlsplit origin = inl parsed ∧ scheme parsed = "https")
                (allowed_origins s))
       ∧ (St.notification_provider s = "smtp" →
            smtp_security_of (notification_settings s) ∈ ["starttls"; "implicit"]
            ∧ St.smtp_password s ≠ EmptyString)
       ∧ webhook_approved s "slack" (St.slack_webhook_url s) ["hooks.slack.com"]
       ∧ webhook_approved s "teams" (St.teams_webhook_url s)
           ["webhook.office.com"; "logic.azure.com"; "powerautomate.com"]).
Proof.
  unfold new_Settings. intros Hn. accepted Hn. injection Hn as <-.
  apply refuse_inl, negb_false_iff in E.
  destruct (model_post_init_inl environ s _ E4 E) as (Hk & Hc & Hh & Hj & Hp).
  split_and!; try done.
  - unfold validate_jwt_secret in E0. destruct (Nat.ltb_spec (String.length (St.jwt_secret_key s)) 32); [done|lia].
  - intros key Hkey. split; [|by apply (Hk key)]. rewrite Hkey in E1. unfold validate_jwt_secret in E1.
    destruct (Nat.ltb_spec (String.length key) 32); [done|lia].
  - by eapply validate_cors_inl.
Qed.

(** A production deployment behind HTTPS, with SMTP. *)
Module Production.
#[local] Instance urls : PyLib := {|
  urlsplit s := inl (mk_parts "https" (Some (str_drop 8 s)) None None "" "");
  ip_address _ := None;
  json_loads _ := inl None
|}.
#[local] Instance parts : UrlLib := {| url_path _ := ""; url_port _ := inl None |}.

Definition settings : Settings :=
  (St.defaults "postgresql://db" "0123456789abcdef0123456789abcdef")
    <| St.app_env := "production" |> <| St.cookie_secure := true |> <| St.hsts_enabled := true |>
    <| St.cors_allowed_origins := "https://app.example.com, https://admin.example.com" |>
    <| St.notification_provider := "smtp" |> <| St.smtp_use_tls := true |> <| St.smtp_password := "x" |>.

Lemma accepted_settings_are_safe_witness :
  new_Settings ["PATH"] settings = inl settings
  ∧ allowed_origins settings = ["https://app.example.com"; "https://admin.example.com"]
  ∧ Forall (λ origin, ∃ parsed, urlsplit origin = inl parsed ∧ scheme parsed = "https")
      (allowed_origins settings)
  ∧ smtp_security_of (notification_settings settings) ∈ ["starttls"; "implicit"].
Proof.
  assert (new_Settings ["PATH"] settings = inl settings) as Ha by (vm_compute; reflexivity).
  destruct (accepted_settings_are_safe ["PATH"] settings settings Ha) as (_ & _ & _ & _ & _ & _ & _ & Hp).
  destruct (Hp eq_refl) as (_ & _ & _ & _ & Ho & Hs & _).
  split_and!; [exact Ha|vm_compute; reflexivity|exact (proj2 (Ho eq_refl))|exact (proj1 (Hs eq_refl))].
Defined.
End Production.
