(* ===== verification/Middleware.v ===== *)
(** main.py, logging/middleware.py and security/trusted_host.py: the layers that a
    request passes before the routes, and those of its response.

    A layer that is added later is outside of those that were added before.
    Starlette's checks of the Host header and of CORS are parameters, as are the
    routes. *)

From S2P Require Import Prelude.
From S2P Require Import PyValue.
From S2P Require Import Sha256.
From S2P Require Import Uuids.
From S2P Require Import JiraClient.
From S2P Require Import RateLimit.
From S2P Require Import Config.
From Stdlib Require Import Ascii ZifyBool.
From stdpp Require Import pretty list.

Open Scope Z_scope.

(** Headers by their names in small letters. *)
Definition headers : Type := list (string * string).
(** [headers.get(name)] *)
Fixpoint header (name : string) (l : headers) : option string :=
  match l with
  | [] => None
  | (k, v) :: l => if String.eqb name k then Some v else header name l
  end.
Definition header_or (name dflt : string) (l : headers) : string := default dflt (header name l).
(** [headers[name] = v] *)
Fixpoint set_header (name v : string) (l : headers) : headers :=
  match l with
  | [] => [(name, v)]
  | (k, v') :: l => if String.eqb name k then (name, v) :: l else (k, v') :: set_header name v l
  end.

Module Rq.
Record request := mk {
  method : string;
  path : string;
  request_headers : headers;
  client_host : option string
}.
End Rq.
Abbreviation request := Rq.request.

(** A response, and whether the routes gave it. *)
Record response := mk_response {
  status_code : Z;
  response_headers : headers;
  routed : bool
}.

(** [t in s] *)
Definition contains_text (t s : string) : bool :=
  match String.index 0 t s with Some _ => true | None => false end.

(** Starlette: the status with which a request to a host that is not allowed is
    answered, that of a preflight request of CORS, and the headers that CORS
    adds to another response. *)
Class Starlette := {
  refused_host : list string → request → option Z;
  preflight : list string → request → option Z;
  cors_headers : list string → request → headers
}.

(** * Origins *)

(** logging/middleware.py:65-76, part of CookieOriginMiddleware. *)
Record CookieOriginMiddleware := mk_cookie_origin {
  origins : list string;
  trust_forwarded_host : bool;
  trusted_proxy_marker : string
}.

Section layers.
Context `{PyLib} `{UrlLib} `{Starlette}.

(** logging/middleware.py:78-113, CookieOriginMiddleware._canonical_origin. *)
Definition _canonical_origin (value : string) : option string :=
  match urlsplit value, url_port value with
  | inl parsed, inl port =>
      if negb (existsb (String.eqb (scheme parsed)) ["http"; "https"])
         || negb (nonempty (default "" (hostname parsed)))
         || is_some_ (username parsed) || is_some_ (password parsed)
         || nonempty (url_path value) || nonempty (query parsed) || nonempty (fragment parsed)
      then None
      else
        let host := lower (default "" (hostname parsed)) in
        if is_none_ (ip_address host)
           && existsb (λ label, negb (label_ok label)) (split_on "." EmptyString host)
        then None
        else
          let host := if has_char ":" host then "[" +:+ host +:+ "]" else host in
          let default_port := if String.eqb (scheme parsed) "http" then 80 else 443 in
          let authority :=
            match port with
            | Some port => if port =? default_port then host else host +:+ ":" +:+ pretty port
            | None => host
            end in
          Some (scheme parsed +:+ "://" +:+ authority)
  | _, _ => None
  end.

(** logging/middleware.py:115-129, CookieOriginMiddleware._forwarded_origin. *)
Definition _forwarded_origin (m : CookieOriginMiddleware) (r : request) : option string :=
  let h := Rq.request_headers r in
  if negb (header "x-cloudops-demo-proxy" h ≟ Some (trusted_proxy_marker m))
     || negb (String.eqb (lower (header_or "host" "" h)) "api")
  then None
  else
    let forwarded_host := strip (header_or "x-forwarded-host" "" h) in
    let scheme := strip (header_or "x-forwarded-proto" "" h) in
    if negb (nonempty forwarded_host) || has_char "," forwarded_host
       || negb (existsb (String.eqb scheme) ["http"; "https"])
    then None
    else _canonical_origin (scheme +:+ "://" +:+ forwarded_host).

(** logging/middleware.py:131-136, CookieOriginMiddleware._is_forwarded_same_origin. *)
Definition _is_forwarded_same_origin (m : CookieOriginMiddleware) (r : request) (origin : string)
    : bool :=
  trust_forwarded_host m && is_some_ (_canonical_origin origin)
  && (_canonical_origin origin ≟ _forwarded_origin m r).

(** The routes that authenticate with a cookie. *)
Definition cookie_paths : list string := ["/auth/refresh"; "/auth/logout"].

(** logging/middleware.py:138-148, CookieOriginMiddleware.dispatch. *)
Definition cookie_origin_dispatch (m : CookieOriginMiddleware) (call_next : request → response)
    (r : request) : response :=
  if String.eqb (Rq.method r) "POST" && existsb (endswith (Rq.path r)) cookie_paths then
    match header "origin" (Rq.request_headers r) with
    | Some origin =>
        if nonempty origin && negb (existsb (String.eqb origin) (origins m))
           && negb (_is_forwarded_same_origin m r origin)
        then mk_response 403 [] false
        else call_next r
    | None => call_next r
    end
  else call_next r.

(** * The other layers *)

(** [s.rsplit(c, 1)[0]] *)
Definition before_last (c : ascii) (s : string) : string :=
  match (fix go (s : string) : option string :=
           match s with
           | EmptyString => None
           | String c' s => if Ascii.eqb c c' then Some s else go s
           end) (srev s) with
  | Some t => srev t
  | None => s
  end.

(** security/trusted_host.py:24-43, HealthCheckTrustedHostMiddleware._host_is_ip_literal. *)
Definition _host_is_ip_literal (r : request) : bool :=
  let raw_host := header_or "host" "" (Rq.request_headers r) in
  let candidate :=
    if startswith raw_host "[" then
      match String.index 0 "]" raw_host with
      | Some closing_bracket => str_drop 1 (str_take closing_bracket raw_host)
      | None => ""
      end
    else before_last ":" raw_host in
  is_some_ (ip_address candidate).

Definition _health_paths : list string := ["/health"; "/ready"].

(** security/trusted_host.py:14-22, HealthCheckTrustedHostMiddleware.__call__. *)
Definition trusted_host_call (allowed_hosts : list string) (call_next : request → response)
    (r : request) : response :=
  if existsb (String.eqb (Rq.path r)) _health_paths && _host_is_ip_literal r then call_next r
  else match refused_host allowed_hosts r with
       | Some status => mk_response status [] false
       | None => call_next r
       end.

(** The headers every response of the routes has. *)
Definition security_headers : headers :=
  [("x-content-type-options", "nosniff"); ("referrer-policy", "no-referrer");
   ("permissions-policy", "camera=(), microphone=(), geolocation=(), payment=()");
   ("content-security-policy", "default-src 'none'; frame-ancestors 'none'");
   ("x-frame-options", "DENY")].
Definition hsts : string := "max-age=63072000; includeSubDomains".

(** logging/middleware.py:161-180, SecurityHeadersMiddleware.dispatch. *)
Definition security_headers_dispatch (hsts_enabled : bool) (call_next : request → response)
    (r : request) : response :=
  let answer := call_next r in
  let h := foldl (λ h kv, set_header kv.1 kv.2 h) (response_headers answer) security_headers in
  let h := if contains_text "/auth/" (Rq.path r) then set_header "cache-control" "no-store" h else h in
  let h := if hsts_enabled then set_header "strict-transport-security" hsts h else h in
  mk_response (status_code answer) h (routed answer).

(** Starlette's layer of CORS. *)
Definition cors_call (allow_origins : list string) (call_next : request → response) (r : request)
    : response :=
  match preflight allow_origins r with
  | Some status => mk_response status (cors_headers allow_origins r) false
  | None =>
      let answer := call_next r in
      mk_response (status_code answer)
        (foldl (λ h kv, set_header kv.1 kv.2 h) (response_headers answer) (cors_headers allow_origins r))
        (routed answer)
  end.

(** logging/middleware.py:190-210, AuthenticationRateLimitMiddleware.dispatch.  The
    answer to a client that asks too often. *)
Definition rate_limit_call (now : timestamp) (limiter : InMemoryRateLimiter)
    (call_next : request → response) (r : request) : response * InMemoryRateLimiter :=
  let '(decision, limiter) := dispatch (Rq.method r) (Rq.path r) (Rq.client_host r) now limiter in
  (match decision with
   | inl Forwarded => call_next r
   | inl (TooManyRequests _ retry_after) =>
       mk_response 429 [("retry-after", pretty retry_after)] false
   | inr _ => mk_response 500 [] false
   end, limiter).

(** logging/middleware.py:22-23, part of RequestContextMiddleware.dispatch. *)
Definition request_id (new_id : uuid) (r : request) : string :=
  let supplied := header_or "x-request-id" "" (Rq.request_headers r) in
  if nonempty supplied && all_chars (λ c, (code c <? 128)%N) supplied
  then str_take 128 supplied else uuid_str new_id.

(** logging/middleware.py:21-42, RequestContextMiddleware.dispatch.  What is logged
    is left out. *)
Definition request_context_dispatch {L} (new_id : uuid) (call_next : request → response * L)
    (r : request) : response * L :=
  let '(answer, l) := call_next r in
  (mk_response (status_code answer)
     (set_header "x-request-id" (request_id new_id r) (response_headers answer)) (routed answer), l).

(** main.py:20-51, create_app.  The layers from the outermost to the routes. *)
Definition create_app (settings : Settings) (routes : request → Z * headers) (new_id : uuid)
    (now : timestamp) (limiter : InMemoryRateLimiter) (r : request)
    : response * InMemoryRateLimiter :=
  let app r := let '(status, h) := routes r in mk_response status h true in
  let app := security_headers_dispatch (St.hsts_enabled settings) app in
  let app := trusted_host_call (allowed_hosts settings) app in
  let app := cors_call (allowed_origins settings) app in
  let app := cookie_origin_dispatch
    (mk_cookie_origin (allowed_origins settings) (St.trust_forwarded_host_same_origin settings)
       "cloudops-demo-nginx") app in
  let app := rate_limit_call now limiter app in
  request_context_dispatch new_id app r.
End layers.

(** * What the layers let through *)

Lemma header_set name name' v l :
  header name (set_header name' v l) = if String.eqb name name' then Some v else header name l.
Proof.
  induction l as [|[k v'] l IH]; cbn; [by destruct (String.eqb name name')|].
  destruct (String.eqb_spec name' k) as [->|Hne]; cbn; [by destruct (String.eqb name k)|].
  rewrite IH. destruct (String.eqb_spec name k) as [->|]; [|done].
  apply not_eq_sym, String.eqb_neq in Hne. by rewrite Hne.
Qed.
(** The last of some headers that are set under distinct names. *)
Lemma header_set_all name l h :
  header name (foldl (λ h kv, set_header kv.1 kv.2 h) h l)
  = match header name (rev l) with Some v => Some v | None => header name h end.
Proof.
  revert h. induction l as [|[k v] l IH]; intros h; [done|]. cbn [foldl rev fst snd]. rewrite IH, header_set.
  assert (∀ a b, header name (a ++ b) = match header name a with Some v => Some v | None => header name b end)
    as Happ.
  { intros a b. induction a as [|[k' v'] a IHa]; cbn; [done|]. by destruct (String.eqb name k'). }
  rewrite Happ. cbn. by destruct (header name (rev l)), (String.eqb name k).
Qed.

Section theorem.
Context `{PyLib} `{UrlLib} `{Starlette}.
Implicit Types (r : request).

(** A POST to a route that authenticates with a cookie, from some origin. *)
Definition cookie_request r (origin : string) : Prop :=
  Rq.method r = "POST" ∧ (∃ p, p ∈ cookie_paths ∧ endswith (Rq.path r) p = true)
  ∧ header "origin" (Rq.request_headers r) = Some origin ∧ origin ≠ EmptyString.

Lemma cookie_origin_routed m app r origin :
  routed (cookie_origin_dispatch m app r) = true → cookie_request r origin →
  origin ∈ origins m
  ∨ trust_forwarded_host m = true ∧ ∃ o, _canonical_origin origin = Some o ∧ _forwarded_origin m r = Some o.
Proof.
  unfold cookie_origin_dispatch. intros Hr (Hm & (p & Hp & He) & Ho & Hne). rewrite Hm, Ho in Hr.
  assert (existsb (endswith (Rq.path r)) cookie_paths = true) as Hx.
  { apply existsb_exists. exists p. split; [by apply list_elem_of_In|done]. }
  rewrite Hx in Hr. cbn [String.eqb Ascii.eqb Bool.eqb andb] in Hr.
  destruct (nonempty origin) eqn:En.
  2: { unfold nonempty in En. rewrite negb_false_iff in En. by apply String.eqb_eq in En. }
  destruct (existsb (String.eqb origin) (origins m)) eqn:Eo.
  { left. apply existsb_exists in Eo as (x & Hin & ->%String.eqb_eq). by apply list_elem_of_In. }
  right. cbn [negb andb] in Hr. destruct (_is_forwarded_same_origin m r origin) eqn:Ef; [|done].
  unfold _is_forwarded_same_origin in Ef. apply andb_true_iff in Ef as [Ef Heq].
  apply andb_true_iff in Ef as [Ht Hs]. apply bool_decide_eq_true in Heq.
  destruct (_canonical_origin origin) as [o|]; [|done]. by eauto.
Qed.
Lemma cookie_origin_else m app r :
  cookie_origin_dispatch m app r = app r ∨ cookie_origin_dispatch m app r = mk_response 403 [] false.
Proof.
  unfold cookie_origin_dispatch. destruct (_ && _); [|by left]. destruct (header _ _); [|by left].
  destruct (_ && _); [by right|by left].
Qed.

Lemma security_headers_set hsts_enabled app r name v :
  header name (rev security_headers) = Some v →
  header name (response_headers (security_headers_dispatch hsts_enabled app r)) = Some v.
Proof.
  intros Hn. unfold security_headers_dispatch. cbn [response_headers].
  assert (String.eqb name "cache-control" = false ∧ String.eqb name "strict-transport-security" = false)
    as [E1 E2].
  { split; apply String.eqb_neq; intros ->; discriminate Hn. }
  destruct hsts_enabled, (contains_text _ _); rewrite ?header_set, ?E1, ?E2, header_set_all, Hn; done.
Qed.

(** What reaches the routes, from the outermost layer on. *)
Lemma create_app_routed settings routes new_id now limiter r :
  let '(answer, _) := create_app settings routes new_id now limiter r in
  let m := mk_cookie_origin (allowed_origins settings) (St.trust_forwarded_host_same_origin settings)
             "cloudops-demo-nginx" in
  ∃ inner, response_headers answer = set_header "x-request-id" (request_id new_id r) (response_headers inner)
  ∧ status_code answer = status_code inner ∧ routed answer = routed inner
  ∧ (inner = mk_response 403 [] false
     ∨ (∃ status h, inner = mk_response status h false ∧ (h = [] ∨ ∃ v, h = [("retry-after", v)]))
     ∨ ∃ app, inner = cors_call (allowed_origins settings)
           (trusted_host_call (allowed_hosts settings)
              (security_headers_dispatch (St.hsts_enabled settings) app)) r
         ∧ (∀ r', routed (app r') = true) ∧ ∀ origin, cookie_request r origin → routed inner = true →
             origin ∈ origins m
             ∨ trust_forwarded_host m = true
               ∧ ∃ o, _canonical_origin origin = Some o ∧ _forwarded_origin m r = Some o).
Proof.
  unfold create_app, request_context_dispatch, rate_limit_call.
  destruct (dispatch _ _ _ _ _) as [[[|code retry]|e] l]; cbv zeta.
  - set (m := mk_cookie_origin _ _ _). set (app := λ r, _ : response).
    set (rest := cors_call _ _). exists (cookie_origin_dispatch m rest r). split_and!; [done..|].
    destruct (cookie_origin_else m rest r) as [E|E].
    + right; right. exists app. split; [exact E|]. split; [by intros r'; unfold app; destruct (routes r')|]. intros origin Hc Hr. by eapply cookie_origin_routed.
    + by left.
  - eexists. split_and!; [done..|]. right; left. do 2 eexists. split; [reflexivity|right; by eexists].
  - eexists. split_and!; [done..|]. right; left. do 2 eexists. split; [reflexivity|by left].
Qed.

Lemma request_id_bounded new_id r :
  request_id new_id r ≠ EmptyString ∧ (String.length (request_id new_id r) <= 128)%nat.
Proof.
  unfold request_id. destruct (nonempty _ && _) eqn:E.
  - apply andb_true_iff in E as [E _]. split; [|apply str_take_length].
    by destruct (header_or _ _ _).
  - pose proof (uuid_str_length new_id) as Hl. split; [by intros Hn; rewrite Hn in Hl|lia].
Qed.

Lemma trusted_host_routed allowed app r :
  routed (trusted_host_call allowed app r) = true →
  trusted_host_call allowed app r = app r
  ∧ (refused_host allowed r = None
     ∨ Rq.path r ∈ _health_paths ∧ _host_is_ip_literal r = true).
Proof.
  unfold trusted_host_call. destruct (existsb _ _ && _) eqn:E.
  - intros _. split; [done|]. right. apply andb_true_iff in E as [E Hip]. split; [|done].
    apply existsb_exists in E as (x & Hx & ->%String.eqb_eq). by apply list_elem_of_In.
  - destruct (refused_host allowed r); [done|by auto].
Qed.

Lemma cors_routed origins app r :
  routed (cors_call origins app r) = true →
  routed (app r) = true ∧ ∀ name, header name (rev (cors_headers origins r)) = None →
    header name (response_headers (cors_call origins app r)) = header name (response_headers (app r)).
Proof.
  unfold cors_call. destruct (preflight origins r); [done|]. cbn. intros Hr. split; [done|].
  intros name Hn. by rewrite header_set_all, Hn.
Qed.

Lemma accepted_production environ (settings : Settings) :
  new_Settings environ settings = inl settings → production_like settings = true →
  St.trust_forwarded_host_same_origin settings = false
  ∧ (St.allow_insecure_staging_transport settings = false →
     Forall (λ origin, ∃ parsed, urlsplit origin = inl parsed ∧ scheme parsed = "https")
       (allowed_origins settings)).
Proof.
  unfold new_Settings. intros Hn Hp. accepted Hn. apply refuse_inl, negb_false_iff in E.
  destruct (model_post_init_inl environ settings _ E4 E) as (_ & _ & _ & _ & Hs).
  destruct (Hs Hp) as (_ & _ & Ht & _ & Ho & _). split; [done|]. intros Ha. by apply Ho.
Qed.
End theorem.

(** The headers of CORS have names of their own. *)
Class CorsNames `{Starlette} : Prop :=
  cors_names origins r name :
    header name (rev (cors_headers origins r)) ≠ None →
    startswith name "access-control-" = true ∨ name = "vary".

Lemma security_name_free `{CorsNames} origins r name v :
  header name (rev security_headers) = Some v ∨ name = "strict-transport-security" →
  header name (rev (cors_headers origins r)) = None ∧ String.eqb name "x-request-id" = false.
Proof.
  intros Hn. assert (startswith name "access-control-" = false ∧ name ≠ "vary"
    ∧ String.eqb name "x-request-id" = false) as (Ha & Hv & Hx).
  { destruct Hn as [Hn| ->]; [|done].
    assert (name ∈ (rev security_headers).*1) as Hin.
    { revert Hn. induction (rev security_headers) as [|[k w] l IH]; cbn; [done|].
      destruct (String.eqb_spec name k) as [->|]; [intros _; by left|intros Hh; right; by apply IH]. }
    cbn in Hin. repeat (apply elem_of_cons in Hin as [->|Hin]; [done|]). by apply elem_of_nil in Hin. }
  split; [|done]. destruct (header name (rev (cors_headers origins r))) eqn:E; [|done].
  destruct (cors_names origins r name) as [Hc|Hc]; [by rewrite E|congruence|congruence].
Qed.


(** The production deployment of Config, and a browser that refreshes. *)
Module Lab.
#[local] Existing Instance Config.Production.urls.
#[local] Existing Instance Config.Production.parts.
#[local] Instance starlette : Starlette := {|
  refused_host allowed r :=
    if existsb (String.eqb (header_or "host" "" (Rq.request_headers r))) allowed then None else Some 400;
  preflight _ r := if String.eqb (Rq.method r) "OPTIONS" then Some 200 else None;
  cors_headers _ _ := [("access-control-allow-credentials", "true")]
|}.
#[local] Instance names : CorsNames.
Proof.
  intros origins r name. cbn. destruct (String.eqb name "access-control-allow-credentials") eqn:E; [|done].
  apply String.eqb_eq in E as ->. by left.
Qed.
Definition browser : request :=
  Rq.mk "POST" "/api/v1/auth/refresh"
    [("host", "localhost"); ("origin", "https://admin.example.com")] (Some "10.0.0.1").

End Lab.
