(* ===== verification/AuditLog.v ===== *)
(** api/v1/audit.py and the audit log of api/v1/organizations.py: reading and
    exporting the events that services/common.py records.

    The identifier and the time of an event are drawn by the columns' defaults:
    [stored] gives the rows of the log, of which [record_audit] determines the
    rest.  Metadata are not part of the export. *)

From S2P Require Import Prelude.
From S2P Require Import Enums.
From S2P Require Import Rbac.
From S2P Require Import PyValue.
From S2P Require Import Models.
From S2P Require Import Common.
From S2P Require Import Sha256.
From S2P Require Import Calendar.
From S2P Require Import Organizations.
From S2P Require Import RateLimit.
From Stdlib Require Import Ascii Sorted.
From stdpp Require Import list.

(** * Events *)

Module Ev := AuditEvent.

Module Row.
(** models/audit.py:14-50, part of AuditEvent.  A row of the log. *)
Record row := mk { id : uuid; created_at : timestamp; event : AuditEvent }.
End Row.
Abbreviation audit_row := Row.row.

Definition org_of (r : audit_row) : option uuid := Ev.organization_id (Row.event r).

(** [if filter: statement.where(column == filter)] *)
Definition when_given {A} (given : option A) (test : A → bool) : bool :=
  match given with Some a => test a | None => true end.
(** A text of a query, which is not a filter when it is empty. *)
Definition given_text (o : option string) : option string :=
  s ← o; if nonempty s then Some s else None.

Module Query.
(** api/v1/audit.py:52-58, part of list_audit_events.  The filters of a request. *)
Record query := mk {
  event_type : option string;
  resource_type : option string;
  resource_id : option uuid;
  actor_user_id : option uuid;
  result_filter : option AuditResult;
  start_time : option timestamp;
  end_time : option timestamp
}.
End Query.
Abbreviation query := Query.query.

(** api/v1/audit.py:63-77, part of list_audit_events. *)
Definition matches (organization_id : uuid) (q : query) (r : audit_row) : bool :=
  let e := Row.event r in
  (org_of r ≟ Some organization_id)
  && when_given (given_text (Query.event_type q)) (λ t, String.eqb (Ev.event_type e) t)
  && when_given (given_text (Query.resource_type q)) (λ t, String.eqb (Ev.resource_type e) t)
  && when_given (Query.resource_id q) (λ i, Ev.resource_id e ≟ Some i)
  && when_given (Query.actor_user_id q) (λ i, Ev.actor_user_id e ≟ Some i)
  && when_given (Query.result_filter q) (λ x, Ev.result e ≟ x)
  && when_given (Query.start_time q) (λ t, (t <=? Row.created_at r)%Z)
  && when_given (Query.end_time q) (λ t, (Row.created_at r <=? t)%Z).

(** [.order_by(created_at.desc(), id)] *)
Definition later_event (r r' : audit_row) : bool :=
  ((Row.created_at r' <? Row.created_at r)
   || (Row.created_at r =? Row.created_at r') && (Z.of_N (Row.id r) <=? Z.of_N (Row.id r')))%Z.

(** * CSV *)

(** api/v1/audit.py:25-25, EXPORT_MAX_ROWS. *)
Definition EXPORT_MAX_ROWS : nat := N.to_nat 5000.
(** api/v1/audit.py:26-35, EXPORT_COLUMNS. *)
Definition EXPORT_COLUMNS : list string :=
  ["id"; "organization_id"; "actor_user_id"; "event_type"; "resource_type"; "resource_id"; "result";
   "created_at"].
(** api/v1/audit.py:36-36, _FORMULA_TRIGGER_CHARS. *)
Definition _FORMULA_TRIGGER_CHARS : list ascii :=
  ["="; "+"; "-"; "@"; ascii_of_nat 9; ascii_of_nat 13]%char.

(** The text is taken for a formula. *)
Definition formula (value : string) : bool :=
  match value with String c _ => existsb (Ascii.eqb c) _FORMULA_TRIGGER_CHARS | EmptyString => false end.

(** api/v1/audit.py:39-44, _csv_safe. *)
Definition _csv_safe (value : string) : string :=
  if formula value then String quote_char value else value.

Definition comma : ascii := ","%char.
Definition cr : ascii := ascii_of_nat 13.

(** [csv.writer(buffer).writerow(row)]: a cell is quoted when it has a delimiter, a
    quote or a line break, and its quotes are doubled. *)
Definition special (c : ascii) : bool :=
  Ascii.eqb c comma || Ascii.eqb c dquote_char || Ascii.eqb c cr || Ascii.eqb c newline.
Fixpoint has_special (s : string) : bool :=
  match s with EmptyString => false | String c s => special c || has_special s end.
Definition doubled : string := String dquote_char (String dquote_char EmptyString).
Definition csv_cell (s : string) : string :=
  if has_special s
  then String dquote_char (replace_char dquote_char doubled s +:+ String dquote_char EmptyString)
  else s.
Definition csv_line (row : list string) : string :=
  concat_sep "," (map csv_cell row) +:+ String cr (String newline EmptyString).
Definition csv_text (rows : list (list string)) : string := concat_sep "" (map csv_line rows).

Definition opt_id (o : option uuid) : string := match o with Some i => uuid_str i | None => "" end.

(** api/v1/audit.py:136-145, part of export_audit_events.  The cells of an event. *)
Definition export_row (r : audit_row) : list string :=
  let e := Row.event r in
  [uuid_str (Row.id r); opt_id (Ev.organization_id e); opt_id (Ev.actor_user_id e);
   _csv_safe (Ev.event_type e); _csv_safe (Ev.resource_type e); opt_id (Ev.resource_id e);
   AuditResult.value (Ev.result e); isoformat "T" (Row.created_at r)].

(** * Endpoints *)

Section endpoints.
Context (stored : DB → list audit_row).

(** api/v1/audit.py:47-90, list_audit_events. *)
Definition list_audit_events (user : User) (organization_id : uuid) (q : query) (page page_size : nat)
    : txn DB (list audit_row * nat) :=
  _ ← require_capability organization_id (User.id user) Capability.AUDIT_READ;
  rows ← gets (λ d, filter (λ r, matches organization_id q r = true) (stored d));
  mret (page_of page page_size (sort_by later_event rows), length rows).

(** api/v1/audit.py:93-151, export_audit_events. *)
Definition export_audit_events (user : User) (organization_id : uuid) (q : query) : txn DB string :=
  _ ← require_capability organization_id (User.id user) Capability.AUDIT_READ;
  items ← gets (λ d, take EXPORT_MAX_ROWS (sort_by later_event
    (filter (λ r, matches organization_id q r = true) (stored d))));
  mret (csv_text (EXPORT_COLUMNS :: map export_row items)).

(** api/v1/audit.py:23-23, part of _export_rate_limit.  The endpoint behind its limit. *)
Definition export_limited (app_env : string) (now : timestamp) (u : UserRateLimiter) (user : User)
    (organization_id : uuid) (q : query) : txn DB string * UserRateLimiter :=
  let '(r, u) := call_limiter (User.id user) app_env now u in
  (match r with
   | inl _ => export_audit_events user organization_id q
   | inr e => raise e
   end, u).

(** repositories/data.py:194-202, Repository.audit_events.  Events of the same
    instant are in any order. *)
Definition repo_audit_events (organization_id : uuid) (limit : nat) (d : DB) : list audit_row :=
  take limit (sort_by (λ r r', (Row.created_at r' <=? Row.created_at r)%Z)
    (filter (λ r, org_of r = Some organization_id) (stored d))).

(** api/v1/organizations.py:184-193, audit_events. *)
Definition audit_events (organization_id : uuid) (user : User) : txn DB (list audit_row) :=
  _ ← require_capability organization_id (User.id user) Capability.AUDIT_READ;
  gets (repo_audit_events organization_id 20).
End endpoints.

(** * What is exported *)

(** A reader of CSV: where it is in a cell, the cell and the row so far. *)
Inductive csv_mode := Plain | Quoted | QuoteSeen | LineEnd.
Fixpoint read_csv (m : csv_mode) (start : bool) (cell : string) (row : list string) (s : string)
    : list (list string) :=
  match s with
  | EmptyString => []
  | String c s =>
      let next := read_csv Plain true "" (row ++ [cell]) s in
      let ended := read_csv LineEnd true "" (row ++ [cell]) s in
      match m with
      | Plain =>
          if start && Ascii.eqb c dquote_char then read_csv Quoted false "" row s
          else if Ascii.eqb c comma then next
          else if Ascii.eqb c cr then ended
          else read_csv Plain false (cell +:+ String c "") row s
      | Quoted =>
          if Ascii.eqb c dquote_char then read_csv QuoteSeen false cell row s
          else read_csv Quoted false (cell +:+ String c "") row s
      | QuoteSeen =>
          if Ascii.eqb c dquote_char then read_csv Quoted false (cell +:+ String dquote_char "") row s
          else if Ascii.eqb c comma then next
          else if Ascii.eqb c cr then ended
          else read_csv Plain false (cell +:+ String c "") row s
      | LineEnd => row :: read_csv Plain true "" [] s
      end
  end.

Lemma append_assoc (a b c : string) : (a +:+ b) +:+ c = a +:+ (b +:+ c).
Proof. induction a as [|x a IH]; [done|]. exact (f_equal (String x) IH). Qed.
Lemma append_empty (a : string) : a +:+ "" = a.
Proof. induction a as [|x a IH]; [done|]. exact (f_equal (String x) IH). Qed.

Lemma special_false c : special c = false →
  Ascii.eqb c dquote_char = false ∧ Ascii.eqb c comma = false ∧ Ascii.eqb c cr = false.
Proof. unfold special. rewrite !orb_false_iff. tauto. Qed.

Lemma read_plain s : ∀ start cell row t, has_special s = false → s ≠ EmptyString →
  read_csv Plain start cell row (s +:+ t) = read_csv Plain false (cell +:+ s) row t.
Proof.
  induction s as [|c s IH]; intros start cell row t Hs Hne; [done|]. cbn in Hs.
  apply orb_false_iff in Hs as [(H1 & H2 & H3)%special_false Hs].
  change (String c s +:+ t) with (String c (s +:+ t)). cbn [read_csv]. rewrite H1, H2, H3, andb_false_r.
  destruct (decide (s = EmptyString)) as [->|Hn]; [done|]. rewrite IH, append_assoc by done. done.
Qed.

Lemma read_quoted s : ∀ cell row t,
  read_csv Quoted false cell row (replace_char dquote_char doubled s +:+ t)
  = read_csv Quoted false (cell +:+ s) row t.
Proof.
  induction s as [|c s IH]; intros cell row t; [by rewrite append_empty|]. cbn [replace_char].
  destruct (Ascii.eqb_spec dquote_char c) as [<-|Hne].
  - change ((doubled +:+ replace_char dquote_char doubled s) +:+ t)
      with (String dquote_char (String dquote_char (replace_char dquote_char doubled s +:+ t))).
    cbn [read_csv]. rewrite Ascii.eqb_refl, IH, append_assoc. done.
  - change (String c (replace_char dquote_char doubled s) +:+ t)
      with (String c (replace_char dquote_char doubled s +:+ t)).
    cbn [read_csv]. apply not_eq_sym, Ascii.eqb_neq in Hne. rewrite Hne, IH, append_assoc. done.
Qed.

(** A written cell is read back, before a delimiter and before the line's end. *)
Lemma read_cell s d row t :
  d = comma ∨ d = cr →
  read_csv Plain true "" row (csv_cell s +:+ String d t)
  = read_csv (if Ascii.eqb d comma then Plain else LineEnd) true "" (row ++ [s]) t.
Proof.
  intros Hd. unfold csv_cell. destruct (has_special s) eqn:Es.
  - change (String dquote_char ?a +:+ ?b) with (String dquote_char (a +:+ b)).
    rewrite append_assoc. cbn [read_csv]. rewrite Ascii.eqb_refl. cbn [andb]. rewrite read_quoted.
    destruct Hd as [->| ->]; reflexivity.
  - destruct (decide (s = EmptyString)) as [->|Hne].
    + destruct Hd as [->| ->]; reflexivity.
    + rewrite read_plain by done. destruct Hd as [->| ->]; reflexivity.
Qed.

Lemma read_line row done_ t :
  row ≠ [] →
  read_csv Plain true "" done_ (csv_line row +:+ t) = (done_ ++ row) :: read_csv Plain true "" [] t.
Proof.
  unfold csv_line. rewrite append_assoc. revert done_. induction row as [|s row IH]; intros done_ Hne; [done|].
  destruct row as [|s' row].
  - change (concat_sep "," (map csv_cell [s])) with (csv_cell s).
    change (String cr (String newline "") +:+ t) with (String cr (String newline t)).
    by rewrite read_cell by by right.
  - change (concat_sep "," (map csv_cell (s :: s' :: row)))
      with (csv_cell s +:+ (String comma "" +:+ concat_sep "," (map csv_cell (s' :: row)))).
    rewrite !append_assoc. change (String comma "" +:+ ?x) with (String comma x).
    rewrite read_cell by by left. change (Ascii.eqb comma comma) with true. cbv iota.
    rewrite IH by done. by rewrite <-app_assoc.
Qed.

Lemma concat_sep_empty x l : concat_sep "" (x :: l) = x +:+ concat_sep "" l.
Proof. destruct l; [symmetry; apply append_empty|done]. Qed.

Lemma read_text rows : Forall (λ row, row ≠ []) rows → read_csv Plain true "" [] (csv_text rows) = rows.
Proof.
  unfold csv_text. induction 1 as [|row rows Hr _ IH]; [done|]. cbn [map].
  by rewrite concat_sep_empty, read_line, IH.
Qed.

Lemma csv_safe_formula value : formula (_csv_safe value) = false.
Proof. unfold _csv_safe. by destruct (formula value) eqn:E. Qed.
Lemma formula_false value :
  formula value = false → ∀ x rest, value = String x rest →
  x ∉ ["="; "+"; "-"; "@"; "009"; "013"]%char.
Proof.
  intros Hf x rest -> Hin. unfold formula in Hf.
  enough (existsb (Ascii.eqb x) _FORMULA_TRIGGER_CHARS = true) by congruence.
  apply existsb_exists. exists x. split; [by apply list_elem_of_In|apply Ascii.eqb_refl].
Qed.

Abbreviation newest := (λ r r', (Row.created_at r' <= Row.created_at r)%Z).

Lemma later_event_insert x s :
  StronglySorted newest s → StronglySorted newest (insert_by later_event x s).
Proof.
  induction 1 as [|y s Hs IHs Hy]; cbn; [constructor; constructor|].
  destruct (later_event x y) eqn:E; unfold later_event in E.
  - constructor; [by constructor|]. constructor; [lia|].
    eapply Forall_impl; [exact Hy|]. intros z Hz. cbn in Hz. lia.
  - constructor; [done|]. rewrite (insert_by_perm later_event x s). constructor; [lia|done].
Qed.
Lemma later_event_sorted l : StronglySorted newest (sort_by later_event l).
Proof. unfold sort_by. induction l; cbn; [constructor|by apply later_event_insert]. Qed.

Lemma sorted_parts (l l' : list audit_row) : StronglySorted newest (l ++ l') →
  StronglySorted newest l ∧ ∀ r r', r ∈ l → r' ∈ l' → newest r r'.
Proof.
  induction l as [|x l IH]; cbn; intros Hs; [split; [constructor|set_solver]|].
  apply StronglySorted_inv in Hs as [Hs Hx]. destruct (IH Hs) as [Hl Hr].
  apply Forall_app in Hx as [Hx Hx']. split; [by constructor|].
  intros r r' [->|Hin]%elem_of_cons Hin'; [|by apply Hr]. rewrite Forall_forall in Hx'. by apply Hx'.
Qed.

Section reads.
Context (stored : DB → list audit_row) (user : User) (org : uuid) (q : query).

(** The events of the organization that meet the filters. *)
Definition found (d : DB) : list audit_row := filter (λ r, matches org q r = true) (stored d).

Lemma run_read {A} (f : DB → A) d :
  (run (_ ← require_capability org (User.id user) Capability.AUDIT_READ; gets f) d = (Ret (f d), d)
   ∧ ∃ m, active_membership org (User.id user) d = Some m
     ∧ role_has_capability (OrganizationMembership.role m) Capability.AUDIT_READ = true)
  ∨ ∃ e, run (_ ← require_capability org (User.id user) Capability.AUDIT_READ; gets f) d = (Raise e, d).
Proof.
  assert (match run (_ ← require_capability org (User.id user) Capability.AUDIT_READ; gets f) d with
    | (Ret x, d') => (x = f d ∧ d' = d) ∧ ∃ m, active_membership org (User.id user) d = Some m
        ∧ role_has_capability (OrganizationMembership.role m) Capability.AUDIT_READ = true
    | (Raise _, d') => d' = d
    end) as Hr.
  { apply run_cases, wp_bind, wp_require_capability; [|done|done]. intros m Hm Hc. apply wp_gets.
    split; [done|by exists m]. }
  destruct (run _ d) as [[x|e] d']; [left|right; exists e; by subst].
  by destruct Hr as [[-> ->] ?].
Qed.

Definition export_of (d : DB) : list audit_row := take EXPORT_MAX_ROWS (sort_by later_event (found d)).

Lemma export_cell r cell :
  cell ∈ [export_row r !! 3%nat; export_row r !! 4%nat] → ∃ c, cell = Some c ∧ ∀ x rest, c = String x rest →
    x ∉ ["="; "+"; "-"; "@"; "009"; "013"]%char.
Proof.
  intros Hc. repeat (apply elem_of_cons in Hc as [->|Hc]); [..|by apply elem_of_nil in Hc].
  - exists (_csv_safe (Ev.event_type (Row.event r))). split; [done|by apply formula_false, csv_safe_formula].
  - exists (_csv_safe (Ev.resource_type (Row.event r))). split; [done|by apply formula_false, csv_safe_formula].
Qed.

Lemma export_of_spec d :
  StronglySorted newest (export_of d) ∧ (length (export_of d) <= EXPORT_MAX_ROWS)%nat
  ∧ (∃ rest, export_of d ++ rest ≡ₚ found d ∧ (rest ≠ [] → length (export_of d) = EXPORT_MAX_ROWS)
       ∧ ∀ r r', r ∈ export_of d → r' ∈ rest → newest r r')
  ∧ ∀ r, r ∈ export_of d → org_of r = Some org.
Proof.
  pose proof (later_event_sorted (found d)) as Hs.
  rewrite <-(take_drop EXPORT_MAX_ROWS (sort_by later_event (found d))) in Hs.
  apply sorted_parts in Hs as [Hs Hr]. split_and!; [done| | |].
  - unfold export_of. rewrite length_take. lia.
  - exists (drop EXPORT_MAX_ROWS (sort_by later_event (found d))). split_and!; [| |exact Hr].
    + unfold export_of. by rewrite take_drop, sort_by_perm.
    + intros Hne. unfold export_of. rewrite length_take.
      destruct (decide (length (sort_by later_event (found d)) ≤ EXPORT_MAX_ROWS)%nat) as [Hle|]; [|lia].
      by rewrite drop_ge in Hne.
  - intros r (i & Hi & _)%elem_of_take. apply list_elem_of_lookup_2 in Hi.
    rewrite sort_by_perm in Hi. apply list_elem_of_filter in Hi as [Hm _].
    unfold matches in Hm. repeat (apply andb_true_iff in Hm as [Hm ?]). by apply bool_decide_eq_true in Hm.
Qed.
End reads.

(** C34. Reading the audit log needs the capability for it and changes nothing.
    The export is a well-formed table: reading it back gives the columns and
    then, newest first, the events of the organization that meet the filters,
    all of them if there are at most 5000 and otherwise the newest; no kind of
    event or resource begins with a sign that makes it a formula for a
    spreadsheet (= + - @, a tab or a carriage return).  The listing has the same
    events, page by page, and their number. *)
Theorem audit_export_is_readable (stored : DB → list audit_row) (user : User) (org : uuid) (q : query)
    (page page_size : nat) (d : DB) :
  (∀ text d', run (export_audit_events stored user org q) d = (Ret text, d') →
     ∃ events, read_csv Plain true "" [] text = EXPORT_COLUMNS :: map export_row events
     ∧ StronglySorted newest events ∧ (length events <= EXPORT_MAX_ROWS)%nat
     ∧ (∃ rest, events ++ rest ≡ₚ found stored org q d
          ∧ (rest ≠ [] → length events = EXPORT_MAX_ROWS)
          ∧ ∀ r r', r ∈ events → r' ∈ rest → newest r r')
     ∧ ∀ r, r ∈ events → org_of r = Some org
          ∧ ∀ cell, cell ∈ [export_row r !! 3%nat; export_row r !! 4%nat] →
              ∃ c, cell = Some c ∧ ∀ x rest, c = String x rest →
                x ∉ ["="; "+"; "-"; "@"; "009"; "013"]%char)
  ∧ (∀ items total d',
       run (list_audit_events stored user org q page page_size) d = (Ret (items, total), d') →
       total = length (found stored org q d)
       ∧ items = page_of page page_size (sort_by later_event (found stored org q d)))
  ∧ (run (export_audit_events stored user org q) d).2 = d
  ∧ (run (list_audit_events stored user org q page page_size) d).2 = d
  ∧ ((∀ m, active_membership org (User.id user) d = Some m →
        role_has_capability (OrganizationMembership.role m) Capability.AUDIT_READ = false) →
     ∃ e e', (run (export_audit_events stored user org q) d).1 = Raise e
       ∧ (run (list_audit_events stored user org q page page_size) d).1 = Raise e').
Proof.
  set (text_of := λ d, csv_text (EXPORT_COLUMNS :: map export_row (export_of stored org q d))).
  set (list_of := λ d, (page_of page page_size (sort_by later_event (found stored org q d)),
    length (found stored org q d))).
  assert (∀ d, run (export_audit_events stored user org q) d
    = run (_ ← require_capability org (User.id user) Capability.AUDIT_READ; gets text_of) d) as E1.
  { intros d0. unfold run, export_audit_events, mbind, txn_bind. by destruct (require_capability _ _ _ _) as [[]]. }
  assert (∀ d, run (list_audit_events stored user org q page page_size) d
    = run (_ ← require_capability org (User.id user) Capability.AUDIT_READ; gets list_of) d) as E2.
  { intros d0. unfold run, list_audit_events, mbind, txn_bind. by destruct (require_capability _ _ _ _) as [[]]. }
  rewrite E1, E2. pose proof (run_read user org text_of d) as H1. pose proof (run_read user org list_of d) as H2.
  split_and!.
  - intros text d' Ht. destruct H1 as [[H1 _]|[e H1]]; rewrite H1 in Ht; [|done]. injection Ht as <- _.
    exists (export_of stored org q d). destruct (export_of_spec stored org q d) as (Hs & Hl & Hr & Ho).
    split_and!; [|done..|].
    + apply read_text. constructor; [done|]. apply Forall_map. by apply Forall_forall.
    + intros r Hin. split; [by apply Ho|apply export_cell].
  - intros items total d' Ht. destruct H2 as [[H2 _]|[e H2]]; rewrite H2 in Ht; [|done].
    by injection Ht as <- <- _.
  - by destruct H1 as [[-> _]|[e ->]].
  - by destruct H2 as [[-> _]|[e ->]].
  - intros Hno. destruct H1 as [[_ (m & Hm & Hc)]|[e ->]]; [by rewrite (Hno m Hm) in Hc|].
    destruct H2 as [[_ (m & Hm & Hc)]|[e' ->]]; [by rewrite (Hno m Hm) in Hc|]. by exists e, e'.
Qed.
