(* ===== verification/OrganizationsApi.v ===== *)
(** api/v1/organizations.py and schemas/organization.py: what a request about
    organizations must look like, the endpoints over the service and what they
    answer.  Those about invitations are in Invitations, the audit log is in
    AuditLog.  Rows have no creation and update times. *)

From S2P Require Import Prelude.
From S2P Require Import Enums.
From S2P Require Import PyValue.
From S2P Require Import Models.
From S2P Require Import Common.
From S2P Require Import Organizations.
From Stdlib Require Import Ascii.
From stdpp Require Import list.

(** * Requests *)

(** [[a-z0-9]] *)
Definition slug_char (c : ascii) : bool :=
  let n := code c in ((97 <=? n) && (n <=? 122) || (48 <=? n) && (n <=? 57))%N.

(** schemas/organization.py:12-12, SLUG_PATTERN.  Whether the whole text matches;
    [start] says that a group of letters has to begin. *)
Fixpoint SLUG_PATTERN (start : bool) (s : string) : bool :=
  match s with
  | EmptyString => negb start
  | String c s =>
      if slug_char c then SLUG_PATTERN false s
      else negb start && Ascii.eqb c "-" && SLUG_PATTERN true s
  end.

(** schemas/organization.py:15-19, validate_slug. *)
Definition validate_slug (value : string) : res string :=
  let value := lower (strip value) in
  if negb (SLUG_PATTERN true value) || Nat.ltb 100 (String.length value) then inr ValueError
  else mret value.

(** [Field(min_length=lo, max_length=hi)] *)
Definition sized (lo hi : nat) (value : string) : res () :=
  if Nat.leb lo (String.length value) && Nat.leb (String.length value) hi then mret tt
  else inr ValueError.
(** The check of a field that may be absent. *)
Definition if_given {A B} (f : A → res B) (o : option A) : res (option B) :=
  match o with None => mret None | Some a => b ← f a; mret (Some b) end.

Module Create.
(** schemas/organization.py:22-29, OrganizationCreate. *)
Record OrganizationCreate := mk { name : string; slug : option string }.
End Create.
Module Update.
(** schemas/organization.py:32-39, OrganizationUpdate. *)
Record OrganizationUpdate := mk { name : option string; slug : option string }.
End Update.

Definition slug_field (slug : string) : res string := _ ← sized 2 100 slug; validate_slug slug.

(** schemas/organization.py:21-28, part of OrganizationCreate.  Its validation. *)
Definition new_OrganizationCreate (p : Create.OrganizationCreate) : res Create.OrganizationCreate :=
  _ ← sized 2 160 (Create.name p);
  slug ← if_given slug_field (Create.slug p);
  mret (Create.mk (Create.name p) slug).
(** schemas/organization.py:31-38, part of OrganizationUpdate.  Its validation. *)
Definition new_OrganizationUpdate (p : Update.OrganizationUpdate) : res Update.OrganizationUpdate :=
  _ ← if_given (sized 2 160) (Update.name p);
  slug ← if_given slug_field (Update.slug p);
  mret (Update.mk (Update.name p) slug).

(** * Answers *)

(** schemas/organization.py:42-50, OrganizationResponse. *)
Record OrganizationResponse := mk_OrganizationResponse {
  organization : Organization;
  current_user_role : option OrganizationRole
}.

Module MemberR.
(** schemas/organization.py:53-64, MemberResponse. *)
Record MemberResponse := mk {
  id : uuid;
  organization_id : uuid;
  user_id : uuid;
  email : string;
  full_name : string;
  user_status : UserStatus;
  role : OrganizationRole;
  status : MembershipStatus;
  joined_at : option timestamp
}.
End MemberR.
Abbreviation MemberResponse := MemberR.MemberResponse.

(** api/v1/organizations.py:26-27, org_response. *)
Definition org_response (org : Organization) (role : option OrganizationRole) : OrganizationResponse :=
  mk_OrganizationResponse org role.

(** api/v1/organizations.py:30-43, member_response.  A user that is not found has no
    attributes. *)
Definition member_response (member : OrganizationMembership) (u : option User) : txn DB MemberResponse :=
  u ← some_or u AttributeError;
  mret (MemberR.mk (OrganizationMembership.id member) (OrganizationMembership.organization_id member)
    (User.id u) (User.email u) (User.full_name u) (User.status u) (OrganizationMembership.role member)
    (OrganizationMembership.status member) (OrganizationMembership.joined_at member)).

(** * Endpoints *)

Definition user_row (user_id : uuid) (d : DB) : option User := DB.users d !! user_id.

(** api/v1/organizations.py:46-49, create. *)
Definition create_organization (org_id member_id : uuid) (now : timestamp)
    (payload : Create.OrganizationCreate) (user : User) : txn DB OrganizationResponse :=
  '(org, member) ← create org_id member_id now user (Create.name payload) (Create.slug payload);
  mret (org_response org (Some (OrganizationMembership.role member))).

(** api/v1/organizations.py:52-57, list_organizations. *)
Definition list_organizations (user : User) : txn DB (list OrganizationResponse) :=
  l ← list_for_user (User.id user);
  mret (map (λ om, org_response om.1 (Some (OrganizationMembership.role om.2))) l).

(** api/v1/organizations.py:60-63, get. *)
Definition get_organization (organization_id : uuid) (user : User) : txn DB OrganizationResponse :=
  '(org, member) ← get organization_id (User.id user);
  mret (org_response org (Some (OrganizationMembership.role member))).

(** api/v1/organizations.py:66-72, update. *)
Definition update_organization (organization_id : uuid) (payload : Update.OrganizationUpdate)
    (user : User) : txn DB OrganizationResponse :=
  org ← update organization_id user (Update.name payload) (Update.slug payload);
  member ← require_member organization_id (User.id user);
  mret (org_response org (Some (OrganizationMembership.role member))).

(** The answers of a list of members. *)
Fixpoint member_responses (l : list (OrganizationMembership * User)) : txn DB (list MemberResponse) :=
  match l with
  | [] => mret []
  | (member, target) :: l =>
      r ← member_response member (Some target); rs ← member_responses l; mret (r :: rs)
  end.

(** api/v1/organizations.py:75-80, members. *)
Definition members_endpoint (organization_id : uuid) (user : User) : txn DB (list MemberResponse) :=
  l ← list_members organization_id (User.id user); member_responses l.

(** api/v1/organizations.py:83-92, role. *)
Definition role_endpoint (organization_id membership_id : uuid) (role : OrganizationRole) (user : User)
    : txn DB MemberResponse :=
  member ← change_role organization_id membership_id user role;
  target ← gets (user_row (OrganizationMembership.user_id member));
  member_response member target.

(** api/v1/organizations.py:95-106, member_status. *)
Definition member_status (organization_id membership_id : uuid) (status : MembershipStatus) (user : User)
    : txn DB MemberResponse :=
  member ← change_status organization_id membership_id user status;
  target ← gets (user_row (OrganizationMembership.user_id member));
  member_response member target.

(** api/v1/organizations.py:109-113, remove. *)
Definition remove_endpoint (organization_id membership_id : uuid) (user : User) : txn DB () :=
  Organizations.remove organization_id membership_id user.

(** * Slugs *)

(** What a request may give as a slug. *)
Lemma validate_slug_inl value slug :
  validate_slug value = inl slug →
  slug = lower (strip value) ∧ SLUG_PATTERN true slug = true ∧ (String.length slug <= 100)%nat.
Proof.
  unfold validate_slug. destruct (negb _ || _) eqn:E; [done|]. intros [= <-].
  apply orb_false_iff in E as [E1 E2]. rewrite negb_false_iff in E1. apply Nat.ltb_ge in E2. done.
Qed.

(** A slug that the service makes of a long name can end in a dash, which no
    request may give. *)
Definition long_name : string := concat_sep "" (repeat "a" (N.to_nat 99)) +:+ " b".
Example slug_of_a_long_name :
  String.length long_name = N.to_nat 101
  ∧ last (String.list_ascii_of_string (slugify long_name)) = Some "-"%char
  ∧ validate_slug (slugify long_name) = inr ValueError.
Proof. vm_compute. done. Qed.

(** An endpoint leaves the database as the operation of the service does. *)
Lemma endpoint_same {A B} (m : txn DB A) (f : A → txn DB B) d :
  (∀ a s, committed (f a s).2 = committed s) → (run (m ≫= f) d).2 = (run m d).2.
Proof.
  intros Hf. unfold run, mbind, txn_bind. destruct (m (Sess d d)) as [[a|e] s]; [|done].
  specialize (Hf a s). by destruct (f a s).
Qed.
Lemma member_response_reads m u s : committed (member_response m u s).2 = committed s.
Proof. by destruct u. Qed.

(** Every endpoint about the members is an operation of the service, so what the
    operations keep the endpoints keep. *)
Lemma member_endpoints_are_operations organization_id membership_id role status user d :
  (run (role_endpoint organization_id membership_id role user) d).2
    = perform (OpChangeRole organization_id membership_id user role) d
  ∧ (active_or_suspended status = true →
     (run (member_status organization_id membership_id status user) d).2
       = perform (OpChangeStatus organization_id membership_id user status) d)
  ∧ (run (remove_endpoint organization_id membership_id user) d).2
    = perform (OpRemove organization_id membership_id user) d.
Proof.
  split_and!; [| |done].
  - apply endpoint_same. intros m s. apply (member_response_reads m _ s).
  - intros Hs. unfold perform. rewrite Hs. apply endpoint_same. intros m s. apply (member_response_reads m _ s).
Qed.
