(* ===== verification/ErrorResponses.v ===== *)
(** exceptions/errors.py, exceptions/handlers.py and api/v1/health.py: what a
    client is answered when a route raises.  Messages and log records are left
    out. *)

From S2P Require Import Prelude.
From S2P Require Import PyValue.
From stdpp Require Import pretty list.

Open Scope Z_scope.

(** What the body of an error says in its details: the limits of a rate limit, or
    a field of the request. *)
Inductive detail :=
| Limits (retry_after_seconds limit current_usage : Z)
| Field (field message : string).

(** exceptions/errors.py:6-45, part of AppError.  The attributes of an exception, if it is
    one of the application. *)
Definition app_error (e : exn) : option (string * Z * list detail) :=
  match e with
  | AppError code status_code => Some (code, status_code, [])
  | AuthenticationError code => Some (code, 401, [])
  | ForbiddenError code => Some (code, 403, [])
  | NotFoundError code => Some (code, 404, [])
  | ConflictError code => Some (code, 409, [])
  | RateLimitError code retry_after limit usage => Some (code, 429, [Limits retry_after limit usage])
  | IntegrityError | ValueError | TypeError | KeyError | AttributeError | AssertionError
  | OtherException => None
  end.

(** exceptions/errors.py:49-71, RateLimitError.  The attribute [retry_after_seconds],
    which other errors do not have. *)
Definition retry_after_seconds (e : exn) : option Z :=
  match e with RateLimitError _ retry_after _ _ => Some retry_after | _ => None end.

Record payload := mk_payload { code : string; correlation_id : string; details : list detail }.
Record JSONResponse := mk_json {
  status_code : Z;
  content : payload;
  response_headers : list (string * string)
}.

(** exceptions/handlers.py:14-24, _payload.  [request_id] is that of the state of
    the request, if the middleware set one. *)
Definition _payload (request_id : option string) (code : string) (details : list detail) : payload :=
  mk_payload code (default "unknown" request_id) details.

(** exceptions/handlers.py:33-41, part of register_exception_handlers.handle_app_error. *)
Definition error_headers (e : exn) (status : Z) : list (string * string) :=
  if status =? 401 then [("WWW-Authenticate", "Bearer")]
  else match retry_after_seconds e with
       | Some n => if status =? 429 then [("Retry-After", pretty n)] else []
       | None => []
       end.

(** exceptions/handlers.py:28-42, register_exception_handlers.handle_app_error. *)
Definition handle_app_error (request_id : option string) (e : exn)
    (attributes : string * Z * list detail) : JSONResponse :=
  let '(code, status, details) := attributes in
  mk_json status (_payload request_id code details) (error_headers e status).

(** A part of the location of a field: a name or an index. *)
Definition loc_part (p : string + Z) : string := match p with inl s => s | inr n => pretty n end.

(** exceptions/handlers.py:44-53, register_exception_handlers.handle_validation.  The
    errors of a [RequestValidationError]: location and message. *)
Definition handle_validation (request_id : option string)
    (errors : list (list (string + Z) * string)) : JSONResponse :=
  mk_json 422
    (_payload request_id "validation_error"
       (map (λ e, Field (concat_sep "." (map loc_part e.1)) e.2) errors)) [].

(** exceptions/handlers.py:55-68, register_exception_handlers.handle_unexpected. *)
Definition handle_unexpected (request_id : option string) : JSONResponse :=
  mk_json 500 (_payload request_id "internal_error" []) [].

(** exceptions/handlers.py:27-68, register_exception_handlers.  Starlette takes the
    handler of the nearest class of the exception. *)
Definition error_response (request_id : option string) (e : exn) : JSONResponse :=
  match app_error e with
  | Some attributes => handle_app_error request_id e attributes
  | None => handle_unexpected request_id
  end.

(** What the database says to [SELECT 1]; [Fails] is any [SQLAlchemyError]. *)
Inductive probe := Answers | Fails | Raises (e : exn).

(** api/v1/health.py:16-21, health. *)
Definition health : res string := mret "ok".

(** api/v1/health.py:24-45, ready. *)
Definition ready (db : probe) : res string :=
  match db with
  | Answers => mret "ready"
  | Fails => inr (AppError "dependency_unavailable" 503)
  | Raises e => inr e
  end.

(** * What a client learns *)

(** Every answer names the request.  An exception that is not of the application
    is answered with the same 500 whatever it is, so nothing of it leaks; those
    of the application keep their code and status.  A challenge goes with 401
    alone, and the time to wait with the rate limits alone, with the same number
    in the body. *)
Theorem errors_are_answered request_id e :
  let r := error_response request_id e in
  correlation_id (content r) = default "unknown" request_id
  ∧ match app_error e with
    | Some (code_, status, details_) =>
        status_code r = status ∧ code (content r) = code_ ∧ details (content r) = details_
    | None => r = handle_unexpected request_id
    end
  ∧ (("WWW-Authenticate", "Bearer") ∈ response_headers r ↔ status_code r = 401)
  ∧ ∀ v, ("Retry-After", v) ∈ response_headers r ↔
      ∃ code_ n limit usage, e = RateLimitError code_ n limit usage ∧ v = pretty n
        ∧ details (content r) = [Limits n limit usage].
Proof.
  destruct e; cbn; unfold error_headers; cbn; split_and!; try done;
    try (destruct (Z.eqb_spec status_code0 401)); set_solver.
Qed.

(** The application is live whatever happens to the database, and an outage of it
    is a 503 that names no cause. *)
Theorem outages_are_temporary request_id :
  health = inl "ok" ∧
  ∀ db e, ready db = inr e → db = Fails →
    error_response request_id e
    = mk_json 503 (mk_payload "dependency_unavailable" (default "unknown" request_id) []) [].
Proof. split; [done|]. by intros db e H ->; injection H as <-. Qed.
