(* ===== verification/SelfHost.v ===== *)
(** scripts/selfhost/configure.py and generate_secrets.py: the configuration file
    of an installation, what it must say, and the secrets beside it.

    The disk has the configuration file, the runtime secrets and the backups.
    The random secrets and the answers of a user are inputs.  Messages of
    errors, file permissions and failures of the file system are left out. *)

From S2P Require Import Prelude.
From S2P Require Import PyValue.
From S2P Require Import Uuids.
From S2P Require Import Config.
From Stdlib Require Import Ascii.
From stdpp Require Import gmap list.

Open Scope Z_scope.

(** * Errors and effects *)

(** scripts/selfhost/errors.py:6-14, SelfHostError.  And the exceptions of
    Python, which end the command; [OutOfFuel] is the end of the rounds of a
    loop of the model and no error of the program. *)
Inductive fault :=
| SelfHostError (code : string) (exit_code : Z)
| PyError (e : exn)
| OutOfFuel.

#[export] Instance fault_eq_dec : EqDecision fault.
Proof. solve_decision. Defined.

(** An error with the exit code that is the default. *)
Definition refusal (code : string) : fault := SelfHostError code 2.

Definition result (A : Type) : Type := (A + fault)%type.
#[export] Instance result_ret : MRet result := λ A a, inl a.
#[export] Instance result_bind : MBind result := λ A B f m,
  match m with inl a => f a | inr e => inr e end.

(** A command over a state [W]: what it did stays done when it fails. *)
Definition io (W A : Type) : Type := W → result A * W.
#[export] Instance io_ret {W} : MRet (io W) := λ A a w, (inl a, w).
#[export] Instance io_bind {W} : MBind (io W) := λ A B f m w,
  match m w with (inl a, w) => f a w | (inr e, w) => (inr e, w) end.

Section io.
Context {W : Type}.
Definition fail_with {A} (e : fault) : io W A := λ w, (inr e, w).
Definition asks {A} (f : W → A) : io W A := λ w, (inl (f w), w).
Definition changes (f : W → W) : io W () := λ w, (inl tt, f w).
Definition of_result {A} (r : result A) : io W A := λ w, (r, w).
(** [if not b: raise e] *)
Definition check (b : bool) (e : fault) : io W () := if b then mret tt else fail_with e.
(** [try: m except SelfHostError: h] *)
Definition catches {A} (m : io W A) (h : string → Z → io W A) : io W A := λ w,
  match m w with
  | (inr (SelfHostError code exit_code), w) => h code exit_code w
  | r => r
  end.
(** [for x in xs: f(x)] *)
Fixpoint each {A} (xs : list A) (f : A → io W ()) : io W () :=
  match xs with
  | [] => mret tt
  | x :: xs => _ ← f x; each xs f
  end.
End io.

Definition result_of_option {A} (o : option A) (e : fault) : result A :=
  match o with Some a => inl a | None => inr e end.
Definition check_r (b : bool) (e : fault) : result () := if b then inl tt else inr e.

(** The files of an installation. *)
Record disk := mk_disk {
  env_file : option string;
  runtime : gmap string string;
  backups : gmap (list string) string
}.
#[export] Instance disk_eta : Eta disk := 
  eta! mk_disk < env_file ; runtime ; backups >.

Abbreviation values := (gmap string string).

(** * The configuration file *)

(** The line boundaries of [str.splitlines], in ASCII. *)
Definition line_break (c : ascii) : bool :=
  existsb (N.eqb (code c)) [10; 11; 12; 13; 28; 29; 30]%N.
Definition carriage_return : ascii := ascii_of_nat 13.

(** [s.splitlines()]; [after_cr] after a carriage return *)
Fixpoint splitlines_from (after_cr : bool) (acc s : string) : list string :=
  match s with
  | EmptyString => if nonempty acc then [srev acc] else []
  | String c s =>
      if after_cr && Ascii.eqb c newline then splitlines_from false EmptyString s
      else if line_break c
      then srev acc :: splitlines_from (Ascii.eqb c carriage_return) EmptyString s
      else splitlines_from false (String c acc) s
  end.
Definition splitlines (s : string) : list string := splitlines_from false EmptyString s.

(** [line.split("=", 1)] of a line with an equals sign *)
Fixpoint split_equals (s : string) : option (string * string) :=
  match s with
  | EmptyString => None
  | String c s =>
      if Ascii.eqb c "=" then Some (EmptyString, s)
      else match split_equals s with
           | Some (k, v) => Some (String c k, v)
           | None => None
           end
  end.

Definition is_upper (c : ascii) : bool := ((65 <=? code c) && (code c <=? 90))%N.
Definition is_digit (c : ascii) : bool := ((48 <=? code c) && (code c <=? 57))%N.

(** [re.fullmatch(r"[A-Z][A-Z0-9_]*", key)] *)
Definition key_ok (key : string) : bool :=
  match key with
  | EmptyString => false
  | String c s =>
      is_upper c && sforall (λ c, is_upper c || is_digit c || Ascii.eqb c "_") s
  end.

(** scripts/selfhost/configure.py:59-60, part of read_env. *)
Definition unquoted (value : string) : string :=
  match value with
  | String c _ =>
      if (Ascii.eqb c quote_char || Ascii.eqb c dquote_char) && (last_char value ≟ Some c)
      then str_drop 1 (str_take (String.length value - 1) value)
      else value
  | EmptyString => value
  end.

(** scripts/selfhost/configure.py:61-61, part of read_env. *)
Definition control (c : ascii) : bool :=
  (code c =? 0)%N || Ascii.eqb c newline || Ascii.eqb c carriage_return.

Definition malformed : fault := refusal "CONFIG_ENV_MALFORMED".

(** scripts/selfhost/configure.py:40-67, part of read_env.  What a line adds. *)
Definition read_line (raw_line : string) (read : values) : result values :=
  let line := strip raw_line in
  if negb (nonempty line) || startswith line "#" then mret read
  else match split_equals line with
       | None => inr malformed
       | Some (key, value) =>
           let key := strip key in
           let value := strip value in
           _ ← check_r (key_ok key) malformed;
           let value := unquoted value in
           _ ← check_r (sforall (λ c, negb (control c)) value) malformed;
           mret (<[key := value]> read)
       end.

Fixpoint read_lines (lines : list string) (read : values) : result values :=
  match lines with
  | [] => mret read
  | line :: lines => read ← read_line line read; read_lines lines read
  end.

(** scripts/selfhost/configure.py:36-68, read_env. *)
Definition read_env (file : option string) : result values :=
  match file with
  | None => mret ∅
  | Some text => read_lines (splitlines text) ∅
  end.

(** scripts/selfhost/configure.py:15-28, DEFAULTS. *)
Definition DEFAULTS : list (string * string) := [
  ("APP_ENV", "production");
  ("POSTGRES_DB", "cloudops");
  ("POSTGRES_USER", "cloudops");
  ("AWS_REGION", "us-east-1");
  ("AI_PROVIDER", "mock");
  ("NOTIFICATION_PROVIDER", "mock");
  ("JIRA_ENABLED", "false");
  ("AWS_BEDROCK_ENABLED", "false");
  ("AWS_SES_ENABLED", "false");
  ("REMEDIATION_EXECUTION_ENABLED", "false");
  ("REMEDIATION_LIVE_AWS_ENABLED", "false");
  ("CLOUDOPS_INITIALIZED", "false")
].
(** [DEFAULTS | v] *)
Definition with_defaults (v : values) : values := v ∪ list_to_map DEFAULTS.

(** scripts/selfhost/configure.py:29, REQUIRED. *)
Definition REQUIRED : list string := ["CLOUDOPS_DOMAIN"; "CLOUDFLARE_TUNNEL_TOKEN"].

(** scripts/selfhost/configure.py:139-139, part of write_env.  The keys that are
    written. *)
Definition ordered : list string := REQUIRED ++ DEFAULTS.*1.

(** [f"{key}={values[key]}"] *)
Definition env_line (v : values) (key : string) : result string :=
  value ← result_of_option (v !! key) (PyError KeyError); mret (key +:+ "=" +:+ value).

Fixpoint env_lines (v : values) (keys : list string) : result (list string) :=
  match keys with
  | [] => mret []
  | k :: keys => l ← env_line v k; ls ← env_lines v keys; mret (l :: ls)
  end.

(** [s.join(l)] where every line ends in a line feed *)
Fixpoint text_of_lines (lines : list string) : string :=
  match lines with
  | [] => EmptyString
  | l :: lines => l +:+ String newline (text_of_lines lines)
  end.

Definition env_comment : string :=
  "# Local CloudOps self-host configuration. Never commit this file.".

(** scripts/selfhost/configure.py:138-149, write_env. *)
Definition write_env (v : values) : io disk () :=
  lines ← of_result (env_lines v ordered);
  changes (λ d, d <| env_file := Some (text_of_lines (env_comment :: lines)) |>).

(** * Validation *)

(** [s.rstrip(".")] *)
Definition rstrip_dot (s : string) : string :=
  srev ((fix go s := match s with
         | String c s' => if Ascii.eqb c "." then go s' else s
         | EmptyString => EmptyString
         end) (srev s)).

(** [t in s] *)
Definition contains_text (t s : string) : bool :=
  match String.index 0 t s with Some _ => true | None => false end.

Definition host_char (c : ascii) : bool :=
  ((97 <=? code c) && (code c <=? 122))%N || is_digit c.

(** [[a-z0-9](?:[a-z0-9-]{0,61}[a-z0-9])?] *)
Definition host_label (label : string) : bool :=
  nonempty label && Nat.leb (String.length label) 63
  && sforall (λ c, host_char c || Ascii.eqb c "-") label
  && negb (first_char label ≟ Some dash) && negb (last_char label ≟ Some dash).

(** scripts/selfhost/configure.py:30-33, DOMAIN_RE.  A label has no dot, so the
    expression asks for two labels or more, the last of which starts with a
    letter. *)
Definition DOMAIN_RE (domain : string) : bool :=
  let labels := split_on "." EmptyString domain in
  Nat.leb 4 (String.length domain) && Nat.leb (String.length domain) 253
  && Nat.leb 2 (length labels) && forallb host_label labels
  && match list.last labels with
     | Some (String c _) => host_char c && negb (is_digit c)
     | _ => false
     end.

(** scripts/selfhost/configure.py:71-84, _validate_domain. *)
Definition _validate_domain (value : string) : result string :=
  let domain := rstrip_dot (lower (strip value)) in
  if contains_text "://" domain || has_char "/" domain || has_char "*" domain
     || negb (DOMAIN_RE domain)
  then inr (refusal "CONFIG_CLOUDFLARE_DOMAIN_INVALID")
  else mret domain.

(** [values.get(key, d)] *)
Definition get_or (key d : string) (v : values) : string := default d (v !! key).

(** scripts/selfhost/configure.py:118-122, part of validate. *)
Definition forbidden_settings : list string :=
  ["DEMO_SYNTHETIC_DISCOVERY"; "TRUST_FORWARDED_HOST_SAME_ORIGIN"; "REMEDIATION_LIVE_AWS_ENABLED"].

Definition switched_on (value : string) : bool :=
  existsb (String.eqb (lower value)) ["1"; "true"; "yes"; "on"].

(** scripts/selfhost/configure.py:87-135, validate. *)
Definition validate (v : values) : result values :=
  let result := with_defaults v in
  app_env ← result_of_option (result !! "APP_ENV") (PyError KeyError);
  _ ← check_r (String.eqb app_env "production") (refusal "CONFIG_PRODUCTION_ENV_REQUIRED");
  let given := get_or "CLOUDOPS_DOMAIN" "" result in
  _ ← check_r (nonempty given) (refusal "CONFIG_CLOUDFLARE_DOMAIN_MISSING");
  domain ← _validate_domain given;
  let result := <["CLOUDOPS_DOMAIN" := domain]> result in
  let token := strip (get_or "CLOUDFLARE_TUNNEL_TOKEN" "" result) in
  _ ← check_r (negb (Nat.ltb (String.length token) 20
                     || existsb (String.eqb (lower token)) ["replace-me"; "changeme"; "placeholder"]))
        (refusal "CONFIG_CLOUDFLARE_TOKEN_MISSING");
  _ ← check_r (nonempty (strip (get_or "POSTGRES_DB" "" result))
               && nonempty (strip (get_or "POSTGRES_USER" "" result)))
        (refusal "CONFIG_DATABASE_IDENTITY_MISSING");
  _ ← check_r (forallb (λ key, negb (switched_on (get_or key "false" result))) forbidden_settings)
        (refusal "CONFIG_PRODUCTION_UNSAFE_SETTING");
  initialized ← result_of_option (result !! "CLOUDOPS_INITIALIZED") (PyError KeyError);
  _ ← check_r (existsb (String.eqb (lower initialized)) ["true"; "false"])
        (refusal "CONFIG_INITIALIZATION_STATE_INVALID");
  mret result.

(** * Secrets *)

(** scripts/selfhost/generate_secrets.py:10-14, INTERNAL_SECRET_NAMES. *)
Definition INTERNAL_SECRET_NAMES : list string :=
  ["postgres_password"; "jwt_secret_key"; "jira_token_encryption_key"].

Definition line_feed : string := String newline EmptyString.

(** scripts/selfhost/generate_secrets.py:17-42, _secure_write. *)
Definition _secure_write (name value : string) (replace : bool) : io disk bool :=
  file ← asks (λ d, runtime d !! name);
  match file with
  | Some text =>
      if replace then
        _ ← changes (λ d, d <| runtime ::= <[name := value +:+ line_feed]> |>); mret true
      else
        _ ← check (nonempty (strip text)) (refusal "CONFIG_GENERATED_SECRET_EMPTY"); mret false
  | None => _ ← changes (λ d, d <| runtime ::= <[name := value +:+ line_feed]> |>); mret true
  end.

(** The random values of [secrets.token_urlsafe] and [secrets.token_bytes]. *)
Record fresh_secrets := mk_fresh {
  fresh_password : string;
  fresh_jwt_key : string;
  fresh_jira_key : string
}.

(** scripts/selfhost/generate_secrets.py:45-57, ensure_internal_secrets. *)
Definition ensure_internal_secrets (fresh : fresh_secrets) : io disk () :=
  _ ← _secure_write "postgres_password" (fresh_password fresh) false;
  _ ← _secure_write "jwt_secret_key" (fresh_jwt_key fresh) false;
  _ ← _secure_write "jira_token_encryption_key" (fresh_jira_key fresh) false;
  mret tt.

(** scripts/selfhost/generate_secrets.py:60-68, require_internal_secrets. *)
Definition require_internal_secrets : io disk () :=
  each INTERNAL_SECRET_NAMES (λ name,
    file ← asks (λ d, runtime d !! name);
    check (nonempty (strip (default "" file))) (refusal "CONFIG_GENERATED_SECRET_MISSING")).

(** scripts/selfhost/generate_secrets.py:71-76, store_tunnel_token. *)
Definition store_tunnel_token (token : string) : io disk bool :=
  file ← asks (λ d, runtime d !! "cloudflare_tunnel_token");
  let replace := match file with
                 | Some text => negb (String.eqb (strip text) token)
                 | None => false
                 end in
  _secure_write "cloudflare_tunnel_token" token replace.

(** * Configuring *)

(** What a user types at the prompts. *)
Record answers := mk_answers { domain_answer : string; token_answer : string }.

(** scripts/selfhost/configure.py:162-169, part of configure.  The value of a
    required key: that of the environment, of the file, or an answer. *)
Definition required_value (interactive : bool) (typed : answers) (supplied : values)
    (v : values) (key : string) : values :=
  let v := if nonempty (get_or key "" supplied) then <[key := get_or key "" supplied]> v else v in
  if negb (nonempty (get_or key "" v)) && interactive
  then <[key := strip (if String.eqb key "CLOUDOPS_DOMAIN" then domain_answer typed
                       else token_answer typed)]> v
  else v.

(** scripts/selfhost/configure.py:152-179, configure. *)
Definition configure (interactive : bool) (typed : answers) (supplied : values)
    (fresh : fresh_secrets) : io disk values :=
  file ← asks env_file;
  existing ← of_result (read_env file);
  let v := foldl (required_value interactive typed supplied) (with_defaults existing) REQUIRED in
  v ← of_result (validate v);
  v ← (if String.eqb (lower (get_or "CLOUDOPS_INITIALIZED" "" v)) "true"
       then _ ← require_internal_secrets; mret v
       else _ ← ensure_internal_secrets fresh; mret (<["CLOUDOPS_INITIALIZED" := "true"]> v));
  _ ← store_tunnel_token (get_or "CLOUDFLARE_TUNNEL_TOKEN" "" v);
  _ ← write_env v;
  mret v.

(** * Rules for effects *)

Definition iwp {W A} (m : io W A) (Q : result A → W → Prop) (w : W) : Prop := Q (m w).1 (m w).2.

Section iwp.
Context {W : Type}.
Implicit Types w : W.

Lemma iwp_ret {A} (a : A) Q w : Q (inl a) w → iwp (mret a : io W A) Q w.
Proof. done. Qed.
Lemma iwp_fail {A} e (Q : result A → W → Prop) w : Q (inr e) w → iwp (fail_with e) Q w.
Proof. done. Qed.
Lemma iwp_asks {A} (f : W → A) Q w : Q (inl (f w)) w → iwp (asks f) Q w.
Proof. done. Qed.
Lemma iwp_changes f Q w : Q (inl tt) (f w) → iwp (changes f) Q w.
Proof. done. Qed.
Lemma iwp_of_result {A} (r : result A) Q w : (∀ r', r = r' → Q r' w) → iwp (of_result r) Q w.
Proof. intros H. by apply H. Qed.
Lemma iwp_check b e Q w :
  (b = true → Q (inl tt) w) → (b = false → Q (inr e) w) → iwp (check b e) Q w.
Proof. destruct b; intros H1 H2; [by apply H1|by apply H2]. Qed.
Lemma iwp_bind {A B} (m : io W A) (f : A → io W B) Q w :
  iwp m (λ r w', match r with inl a => iwp (f a) Q w' | inr e => Q (inr e) w' end) w →
  iwp (m ≫= f) Q w.
Proof. unfold iwp, mbind, io_bind. by destruct (m w) as [[a|e] w']. Qed.
Lemma iwp_catches {A} (m : io W A) h Q w :
  iwp m (λ r w', match r with
    | inr (SelfHostError code exit_code) => iwp (h code exit_code) Q w'
    | r => Q r w'
    end) w →
  iwp (catches m h) Q w.
Proof. unfold iwp, catches. by destruct (m w) as [[a|[]] w']. Qed.
Lemma iwp_mono {A} (m : io W A) (Q Q' : result A → W → Prop) w :
  (∀ r w', Q r w' → Q' r w') → iwp m Q w → iwp m Q' w.
Proof. unfold iwp. auto. Qed.
Lemma iwp_run {A} (m : io W A) Q w r w' : iwp m Q w → m w = (r, w') → Q r w'.
Proof. unfold iwp. intros H E. by rewrite E in H. Qed.
Lemma iwp_eq {A} (m : io W A) Q w r w' : m w = (r, w') → Q r w' → iwp m Q w.
Proof. unfold iwp. by intros ->. Qed.
End iwp.
Global Opaque iwp.

(** The step over a call; part of each proof that uses it. *)
Ltac iwp_call := fail.
Ltac iwp_step :=
  lazymatch goal with
  | |- iwp (mret _) _ _ => apply iwp_ret
  | |- iwp (fail_with _) _ _ => apply iwp_fail
  | |- iwp (asks _) _ _ => apply iwp_asks
  | |- iwp (changes _) _ _ => apply iwp_changes
  | |- iwp (of_result _) _ _ => apply iwp_of_result; intros [?|?] ?
  | |- iwp (check _ _) _ _ => apply iwp_check; intros ?
  | |- iwp (mbind _ _) _ _ => apply iwp_bind
  | |- iwp (if ?b then _ else _) _ _ => destruct b eqn:?
  | |- iwp (match ?x with _ => _ end) _ _ => destruct x eqn:?
  | |- iwp _ _ _ => iwp_call
  end; cbn beta iota.
Ltac iwp_go := repeat iwp_step.

(** * The configuration file is read back *)

(** A value that is the same after it was written and read: no line breaks, no
    white space and no quotes around it. *)
Definition plain (value : string) : bool :=
  String.eqb (strip value) value && String.eqb (unquoted value) value
  && sforall (λ c, negb (line_break c || (code c =? 0)%N)) value.

Lemma splitlines_from_line acc l t :
  sforall (λ c, negb (line_break c)) l = true →
  splitlines_from false acc (l +:+ String newline t)
  = (srev acc +:+ l) :: splitlines_from false EmptyString t.
Proof.
  revert acc. induction l as [|c l IH]; intros acc Hl.
  - change (EmptyString +:+ String newline t) with (String newline t). cbn. f_equal.
    clear. induction (srev acc) as [|c s IH]; [done|].
    change (String c s +:+ "") with (String c (s +:+ "")). by rewrite <-IH.
  - cbn [sforall] in Hl. apply andb_true_iff in Hl as [Hc Hl].
    apply negb_true_iff in Hc.
    change (String c l +:+ String newline t) with (String c (l +:+ String newline t)).
    cbn [splitlines_from andb]. rewrite Hc, IH by done. f_equal.
    rewrite srev_cons. clear. induction (srev acc) as [|c' s IH]; [done|].
    change (String c' s +:+ String c "") with (String c' (s +:+ String c "")).
    change (String c' (s +:+ String c "") +:+ l) with (String c' ((s +:+ String c "") +:+ l)).
    by rewrite IH.
Qed.

Lemma splitlines_text lines :
  Forall (λ l, sforall (λ c, negb (line_break c)) l = true) lines →
  splitlines (text_of_lines lines) = lines.
Proof.
  unfold splitlines. induction 1 as [|l lines Hl _ IH]; [done|]. cbn [text_of_lines].
  rewrite splitlines_from_line by done. by rewrite IH.
Qed.

(** No white space in front. *)
Definition sharp (s : string) : bool :=
  match s with String c _ => negb (is_space c) | EmptyString => true end.

Lemma lstrip_sharp s : sharp s = true → lstrip s = s.
Proof. destruct s as [|c s]; cbn; [done|]. by destruct (is_space c). Qed.
Lemma lstrip_makes_sharp s : sharp (lstrip s) = true.
Proof. induction s as [|c s IH]; cbn; [done|]. destruct (is_space c) eqn:E; [done|]. cbn. by rewrite E. Qed.
Lemma lstrip_shorter s : (String.length (lstrip s) ≤ String.length s)%nat.
Proof. induction s as [|c s IH]; cbn; [lia|]. destruct (is_space c); cbn; lia. Qed.
Lemma length_srev s : String.length (srev s) = String.length s.
Proof. induction s as [|c s IH]; [done|]. rewrite srev_cons, length_app_str, IH. cbn. lia. Qed.
Lemma sharp_app s t : sharp s = true → s ≠ "" → sharp (s +:+ t) = true.
Proof. by destruct s. Qed.
Lemma srev_app_str s t : srev (s +:+ t) = srev t +:+ srev s.
Proof.
  rewrite <-(srev_srev t) at 1. generalize (srev t). clear t. intros t. revert s.
  induction t as [|c t IH]; intros s.
  - change (srev EmptyString) with EmptyString.
    assert (s +:+ "" = s) as ->; [|done].
    induction s as [|c s IHs]; [done|]. change (String c (s +:+ "") = String c s). by rewrite IHs.
  - rewrite srev_cons.
    assert (s +:+ (srev t +:+ String c "") = (s +:+ srev t) +:+ String c "") as ->.
    { clear. induction s as [|c' s IHs]; [done|].
      change (String c' (s +:+ (srev t +:+ String c "")) = String c' ((s +:+ srev t) +:+ String c "")).
      by rewrite IHs. }
    rewrite srev_snoc, IH. done.
Qed.

Lemma strip_sharp s : sharp s = true → sharp (srev s) = true → strip s = s.
Proof.
  intros H1 H2. unfold strip, rstrip. by rewrite (lstrip_sharp s), (lstrip_sharp (srev s)), srev_srev.
Qed.
Lemma strip_fixed s : strip s = s → sharp s = true ∧ sharp (srev s) = true.
Proof.
  unfold strip, rstrip. intros H. split.
  - assert (String.length (lstrip s) = String.length s) as Hl.
    { apply Nat.le_antisymm; [apply lstrip_shorter|]. rewrite <-H at 1.
      rewrite length_srev. etrans; [apply lstrip_shorter|]. by rewrite length_srev. }
    destruct s as [|c s]; [done|]. cbn in *. destruct (is_space c); [|done].
    pose proof (lstrip_shorter s). lia.
  - rewrite <-H, srev_srev. apply lstrip_makes_sharp.
Qed.

(** The characters of a key. *)
Definition key_char (c : ascii) : bool := is_upper c || is_digit c || Ascii.eqb c "_".
Lemma key_ok_chars k : key_ok k = true → sforall key_char k = true ∧ k ≠ "".
Proof.
  destruct k as [|c k]; cbn; [done|]. rewrite !andb_true_iff. intros [Hc Hk]. split; [|done].
  split; [|done]. unfold key_char. by rewrite Hc.
Qed.
Lemma key_char_facts c :
  key_char c = true → is_space c = false ∧ line_break c = false ∧ Ascii.eqb c "=" = false.
Proof. destruct c as [[] [] [] [] [] [] [] []]; by vm_compute. Qed.

Lemma split_equals_key k v :
  sforall key_char k = true → split_equals (k +:+ String "=" v) = Some (k, v).
Proof.
  induction k as [|c k IH]; cbn [sforall]; [done|].
  intros [Hc Hk]%andb_true_iff. apply key_char_facts in Hc as (_ & _ & Hc).
  change (String c k +:+ String "=" v) with (String c (k +:+ String "=" v)).
  cbn [split_equals]. by rewrite Hc, IH.
Qed.

Lemma plain_spec v :
  plain v = true →
  sharp (srev v) = true ∧ strip v = v ∧ unquoted v = v
  ∧ sforall (λ c, negb (line_break c)) v = true ∧ sforall (λ c, negb (control c)) v = true.
Proof.
  unfold plain. rewrite !andb_true_iff. intros [[Hs%String.eqb_eq Hu%String.eqb_eq] Hc].
  split_and!; [by apply strip_fixed|done|done|..].
  - revert Hc. apply sforall_mono. intros c. by destruct (line_break c).
  - revert Hc. apply sforall_mono. intros c H.
    destruct c as [[] [] [] [] [] [] [] []]; by vm_compute in H |- *.
Qed.

Lemma nonempty_app s t : s ≠ "" → nonempty (s +:+ t) = true.
Proof. by destruct s. Qed.

(** A line that was written is read as it was meant. *)
Lemma read_env_line k v read :
  key_ok k = true → plain v = true → read_line (k +:+ "=" +:+ v) read = inl (<[k := v]> read).
Proof.
  intros Hk (Hsr & Hst & Hu & _ & Hc)%plain_spec.
  destruct (key_ok_chars _ Hk) as [Hkc Hne].
  assert (sharp k = true) as Hks.
  { destruct k as [|c k]; [done|]. cbn [sforall] in Hkc. apply andb_true_iff in Hkc as [Hkc _].
    apply key_char_facts in Hkc as (Hsp & _). cbn. by rewrite Hsp. }
  assert (strip k = k) as Hsk.
  { apply strip_none. revert Hkc. apply sforall_mono. intros c Hch.
    by destruct (key_char_facts _ Hch) as (-> & _). }
  change (k +:+ "=" +:+ v) with (k +:+ String "=" v). unfold read_line.
  rewrite (strip_sharp (k +:+ String "=" v)).
  - rewrite nonempty_app, split_equals_key, Hsk, Hk, Hst, Hu, Hc by done.
    destruct k as [|c k]; [done|]. cbn in Hk. apply andb_true_iff in Hk as [Hk _].
    assert (startswith (String c k +:+ String "=" v) "#" = false) as ->; [|done].
    destruct c as [[] [] [] [] [] [] [] []]; first [by vm_compute in Hk|done].
  - by apply sharp_app.
  - rewrite srev_app_str, srev_cons. destruct (srev v) as [|c t]; [done|exact Hsr].
Qed.

(** Every key that is written is a key. *)
Lemma ordered_keys : Forall (λ k, key_ok k = true) ordered.
Proof. by repeat constructor. Qed.

Lemma env_lines_spec v keys :
  Forall (λ k, key_ok k = true) keys →
  (∀ k, k ∈ keys → ∃ x, v !! k = Some x ∧ plain x = true) →
  ∃ lines, env_lines v keys = inl lines
    ∧ Forall (λ l, sforall (λ c, negb (line_break c)) l = true) lines
    ∧ ∀ read, ∃ read', read_lines lines read = inl read'
        ∧ ∀ k, read' !! k = if decide (k ∈ keys) then v !! k else read !! k.
Proof.
  induction 1 as [|k keys Hk _ IH]; intros Hv.
  { exists []. split_and!; [done|done|]. intros read. exists read. split; [done|]. set_solver. }
  destruct (Hv k) as (x & Hx & Hp); [set_solver|].
  destruct IH as (lines & Hl & Hb & Hr); [set_solver|].
  destruct (plain_spec _ Hp) as (_ & _ & _ & Hxb & _).
  exists ((k +:+ "=" +:+ x) :: lines). split_and!.
  - cbn [env_lines]. unfold env_line. by rewrite Hx, Hl.
  - constructor; [|done]. rewrite sforall_app, andb_true_iff. split; [|exact Hxb].
    destruct (key_ok_chars _ Hk) as [Hkc _]. revert Hkc. apply sforall_mono. intros c Hch. by destruct (key_char_facts _ Hch) as (_ & -> & _).
  - intros read. cbn [read_lines]. rewrite read_env_line by done.
    destruct (Hr (<[k:=x]> read)) as (read' & Hrd & Hlk). exists read'. split; [exact Hrd|].
    intros k'. rewrite Hlk. destruct (decide (k' ∈ keys)) as [Hin|Hin].
    + by rewrite decide_True by set_solver.
    + destruct (decide (k' = k)) as [->|Hne].
      * rewrite decide_True by set_solver. by rewrite lookup_insert_eq.
      * rewrite decide_False by set_solver. by rewrite lookup_insert_ne.
Qed.

(** What a configuration says of the keys that are written. *)
Definition written (v : values) : values := filter (λ kv, kv.1 ∈ ordered) v.

Definition all_plain (v : values) : Prop :=
  ∀ k, k ∈ ordered → ∃ x, v !! k = Some x ∧ plain x = true.

Definition plain_check (v : values) : bool :=
  forallb (λ k, match v !! k with Some x => plain x | None => false end) ordered.
Lemma plain_check_ok v : plain_check v = true → all_plain v.
Proof.
  unfold plain_check. rewrite forallb_forall. intros H k Hk%list_elem_of_In. apply H in Hk.
  destruct (v !! k) as [x|]; [by exists x|done].
Qed.

Lemma written_file_is_read v d :
  all_plain v →
  ∃ text, write_env v d = (inl tt, d <| env_file := Some text |>)
    ∧ read_env (Some text) = inl (written v).
Proof.
  intros Hp. destruct (env_lines_spec v ordered ordered_keys Hp) as (lines & Hl & Hb & Hr).
  exists (text_of_lines (env_comment :: lines)). split.
  - unfold write_env, mbind, io_bind, of_result. by rewrite Hl.
  - cbn [read_env]. rewrite splitlines_text by by constructor. cbn [read_lines].
    change (read_line env_comment ∅) with (inl ∅ : result values).
    destruct (Hr ∅) as (read' & Hrd & Hlk).
    change (read_lines lines ∅ = inl (written v)). rewrite Hrd. f_equal. apply map_eq. intros k.
    rewrite Hlk. unfold written. rewrite map_lookup_filter.
    destruct (decide (k ∈ ordered)) as [Hin|Hin].
    + destruct (v !! k) as [x|]; cbn; [|done]. by rewrite option_guard_True.
    + destruct (v !! k) as [x|]; cbn; [|done]. by rewrite option_guard_False.
Qed.

(** * What a valid configuration says *)

(** An installation for an organization: production, under a host name, with a
    tunnel token, and nothing that is for development. *)
Record production (v : values) : Prop := {
  production_env : v !! "APP_ENV" = Some "production";
  production_domain : ∃ domain, v !! "CLOUDOPS_DOMAIN" = Some domain ∧ DOMAIN_RE domain = true;
  production_token :
    ∃ token, v !! "CLOUDFLARE_TUNNEL_TOKEN" = Some token ∧ (20 ≤ String.length (strip token))%nat;
  production_safe : ∀ key, key ∈ forbidden_settings → switched_on (get_or key "false" v) = false;
  production_complete : ∀ key, key ∈ ordered → is_Some (v !! key)
}.

Definition recorded_initialized (v : values) : bool :=
  String.eqb (lower (get_or "CLOUDOPS_INITIALIZED" "" v)) "true".

Lemma with_defaults_complete v key : key ∈ DEFAULTS.*1 → is_Some (with_defaults v !! key).
Proof.
  intros Hk. unfold with_defaults. apply lookup_union_is_Some. right.
  apply list_elem_of_fmap in Hk as ([k x] & -> & Hk). exists x.
  apply elem_of_list_to_map_1; [|exact Hk].
  apply (bool_decide_eq_true_1 _). by vm_compute.
Qed.

Lemma check_r_inl b e x : check_r b e = inl x → b = true.
Proof. by destruct b. Qed.

Ltac result_inv H :=
  repeat lazymatch type of H with
  | mbind _ ?m = inl _ =>
      let E := fresh "E" in
      destruct m eqn:E; [cbn [mbind result_bind] in H|discriminate H]
  end.

Lemma validate_production v v' :
  validate v = inl v' →
  production v' ∧ is_Some (v' !! "CLOUDOPS_INITIALIZED")
  ∧ ∃ domain, v' = <["CLOUDOPS_DOMAIN" := domain]> (with_defaults v).
Proof.
  unfold validate. intros H. result_inv H. injection H as <-.
  repeat match goal with E : check_r _ _ = inl _ |- _ => apply check_r_inl in E end.
  assert (DOMAIN_RE s0 = true) as Hd.
  { clear -E2. unfold _validate_domain in E2. destruct (_ || _) eqn:Eo; [done|].
    injection E2 as <-. apply orb_false_iff in Eo as [_ Eo]. by apply negb_false_iff. }
  assert (∀ key, key ∈ DEFAULTS.*1 → is_Some (<["CLOUDOPS_DOMAIN":=s0]> (with_defaults v) !! key))
    as Hdef.
  { intros key Hk. apply lookup_insert_is_Some'. right. by apply with_defaults_complete. }
  split_and!; [|apply Hdef; set_solver|by eexists]. constructor.
  - rewrite lookup_insert_ne by done.
    destruct (with_defaults v !! "APP_ENV") as [x|]; [|done]. injection E as ->.
    apply String.eqb_eq in E0. by subst.
  - exists s0. by rewrite lookup_insert_eq.
  - rewrite negb_true_iff, orb_false_iff in E3. destruct E3 as [E3 _].
    apply Nat.ltb_ge in E3. unfold get_or in E3.
    destruct (_ !! "CLOUDFLARE_TUNNEL_TOKEN") as [t|] eqn:Et; [by exists t|].
    cbn in E3. vm_compute in E3. lia.
  - intros key Hk. rewrite forallb_forall in E5.
    apply negb_true_iff, E5. by apply list_elem_of_In.
  - intros key Hk. apply elem_of_app in Hk as [Hk|Hk]; [|by apply Hdef].
    apply elem_of_cons in Hk as [->|Hk]; [by rewrite lookup_insert_eq|].
    apply list_elem_of_singleton in Hk as ->.
    rewrite negb_true_iff, orb_false_iff in E3. destruct E3 as [E3 _]. apply Nat.ltb_ge in E3.
    unfold get_or in E3. destruct (_ !! "CLOUDFLARE_TUNNEL_TOKEN") as [t|] eqn:Et; [done|].
    cbn in E3. vm_compute in E3. lia.
Qed.

(** * Configuring an installation *)

Definition tunnel_token : string := "cloudflare_tunnel_token".

(** What is left of the disk by an operation on the secrets: it adds secrets
    and keeps those that are there. *)
Record secrets_added (d d' : disk) : Prop := {
  added_env : env_file d' = env_file d;
  added_backups : backups d' = backups d;
  added_runtime : ∀ name text, runtime d !! name = Some text → runtime d' !! name = Some text
}.
#[export] Instance secrets_added_preorder : PreOrder secrets_added.
Proof. split; [by split|]. intros d1 d2 d3 [] []. split; [congruence..|auto]. Qed.

Definition kept_secret (d : disk) (name : string) : Prop :=
  ∃ text, runtime d !! name = Some text ∧ nonempty (strip text) = true.

Lemma kept_secret_added d d' name : secrets_added d d' → kept_secret d name → kept_secret d' name.
Proof. intros [_ _ Hr] (text & Ht & Hn). exists text. split; [by apply Hr|done]. Qed.

Lemma strip_line s :
  sforall (λ c, negb (is_space c)) s = true → strip (s +:+ line_feed) = s.
Proof.
  intros Hs. assert (lstrip (srev s) = srev s) as Hr.
  { apply lstrip_sharp. rewrite <-sforall_srev in Hs. destruct (srev s) as [|c t]; [done|].
    cbn [sforall] in Hs. by apply andb_true_iff in Hs as [Hc _]. }
  destruct s as [|c s]; [done|]. unfold strip, rstrip.
  rewrite (lstrip_sharp (String c s +:+ line_feed)).
  - rewrite srev_app_str. change (srev line_feed +:+ srev (String c s)) with (String newline (srev (String c s))).
    cbn [lstrip]. change (is_space newline) with true. cbn iota. by rewrite Hr, srev_srev.
  - cbn [sforall] in Hs. by apply andb_true_iff in Hs as [Hc _].
Qed.

(** The text of a generated secret: not empty, and without white space. *)
Definition secret_text (s : string) : Prop :=
  s ≠ "" ∧ sforall (λ c, negb (is_space c)) s = true.
Definition fresh_ok (fresh : fresh_secrets) : Prop :=
  secret_text (fresh_password fresh) ∧ secret_text (fresh_jwt_key fresh)
  ∧ secret_text (fresh_jira_key fresh).

Lemma secure_write_spec name value d :
  iwp (_secure_write name value false) (λ r d', secrets_added d d' ∧
    match r with inl _ => secret_text value → kept_secret d' name | inr _ => True end) d.
Proof.
  unfold _secure_write. iwp_go; try (split; [done|]).
  - intros _. by exists s.
  - done.
  - split.
    + split; cbn; try done. intros n t Ht. rewrite lookup_insert_ne; [done|congruence].
    + intros [Hne Hs]. eexists. cbn. rewrite lookup_insert_eq. split; [done|].
      rewrite strip_line by done. by destruct value.
Qed.

Lemma ensure_internal_secrets_spec fresh d :
  fresh_ok fresh →
  iwp (ensure_internal_secrets fresh) (λ r d', secrets_added d d' ∧
    match r with
    | inl _ => Forall (kept_secret d') INTERNAL_SECRET_NAMES
    | inr _ => True
    end) d.
Proof.
  intros (H1 & H2 & H3). unfold ensure_internal_secrets.
  apply iwp_bind. eapply iwp_mono, secure_write_spec. intros [b1|] d1 [Hd1 Hk1]; [|done].
  apply iwp_bind. eapply iwp_mono, secure_write_spec.
  intros [b2|] d2 [Hd2 Hk2]; [|split; [by etrans|done]].
  apply iwp_bind. eapply iwp_mono, secure_write_spec.
  intros [b3|] d3 [Hd3 Hk3]; [|split; [etrans; [done|by etrans]|done]].
  apply iwp_ret. split; [etrans; [done|by etrans]|].
  repeat constructor; [apply (kept_secret_added d1); [by etrans|by apply Hk1]
    |apply (kept_secret_added d2); [done|by apply Hk2]|by apply Hk3].
Qed.

Lemma require_internal_secrets_spec d :
  iwp require_internal_secrets (λ r d', d' = d ∧
    match r with
    | inl _ => Forall (kept_secret d) INTERNAL_SECRET_NAMES
    | inr _ => True
    end) d.
Proof.
  assert (∀ name, nonempty (strip (default "" (runtime d !! name))) = true → kept_secret d name) as Hk.
  { intros name. unfold kept_secret. destruct (runtime d !! name) as [t|]; cbn; [by exists t|done]. }
  unfold require_internal_secrets. cbn [each INTERNAL_SECRET_NAMES]. iwp_go; try done.
  split; [done|]. repeat constructor; by apply Hk.
Qed.

Lemma store_tunnel_token_spec token d :
  iwp (store_tunnel_token token) (λ r d',
    env_file d' = env_file d ∧ backups d' = backups d
    ∧ (∀ name, name ≠ tunnel_token → runtime d' !! name = runtime d !! name)
    ∧ (is_Some (runtime d !! tunnel_token) → is_Some (runtime d' !! tunnel_token))
    ∧ match r with
      | inl _ => ∃ text, runtime d' !! tunnel_token = Some text
          ∧ (strip text = token ∨ text = token +:+ line_feed)
      | inr _ => True
      end) d.
Proof.
  unfold store_tunnel_token, _secure_write, tunnel_token.
  apply iwp_bind, iwp_asks. apply iwp_bind, iwp_asks.
  destruct (runtime d !! _) as [text|] eqn:E.
  - destruct (negb (String.eqb (strip text) token)) eqn:Er; iwp_go; cbn.
    + split_and!; try done; [|by intros; rewrite lookup_insert_eq|by rewrite lookup_insert_eq; eauto].
      intros name Hn. by rewrite lookup_insert_ne.
    + split_and!; try done. exists text. split; [done|]. left. by apply negb_false_iff, String.eqb_eq in Er.
    + done.
  - iwp_go; cbn. split_and!; try done; [|by rewrite lookup_insert_eq; eauto].
    intros name Hn. by rewrite lookup_insert_ne.
Qed.

Lemma required_values_keep interactive typed supplied v key :
  key ∉ REQUIRED →
  foldl (required_value interactive typed supplied) v REQUIRED !! key = v !! key.
Proof.
  assert (∀ v k, key ≠ k → required_value interactive typed supplied v k !! key = v !! key) as Hk.
  { intros v' k Hne. unfold required_value.
    destruct (nonempty (get_or k "" supplied)), (_ && interactive); by rewrite ?lookup_insert_ne. }
  intros Hn. cbn [foldl REQUIRED]. rewrite !Hk by set_solver. done.
Qed.

(** An installation that is recorded as initialized is so for [configure]. *)
Lemma validate_keeps_initialized interactive typed supplied existing v :
  recorded_initialized existing = true →
  validate (foldl (required_value interactive typed supplied) (with_defaults existing) REQUIRED) = inl v →
  recorded_initialized v = true.
Proof.
  intros Hi (_ & _ & domain & ->)%validate_production.
  unfold recorded_initialized, get_or in *. rewrite lookup_insert_ne by done.
  destruct (existing !! "CLOUDOPS_INITIALIZED") as [x|] eqn:E; [|done]. cbn in Hi.
  enough (with_defaults (foldl (required_value interactive typed supplied) (with_defaults existing) REQUIRED)
          !! "CLOUDOPS_INITIALIZED" = Some x) as ->; [done|].
  assert (∀ u : values, u !! "CLOUDOPS_INITIALIZED" = Some x →
            with_defaults u !! "CLOUDOPS_INITIALIZED" = Some x) as Hd.
  { intros u Hu. unfold with_defaults. by apply lookup_union_Some_l. }
  apply Hd. rewrite required_values_keep by (apply (bool_decide_eq_true_1 _); by vm_compute).
  by apply Hd.
Qed.

(** What [configure] promises of the disk it leaves. *)
Record configured (d : disk) (existing : option values) (r : result values) (d' : disk) : Prop := {
  configured_backups : backups d' = backups d;
  configured_secrets : ∀ name text, name ≠ tunnel_token →
    runtime d !! name = Some text → runtime d' !! name = Some text;
  configured_once : ∀ v, existing = Some v → recorded_initialized v = true →
    ∀ name, name ≠ tunnel_token → runtime d' !! name = runtime d !! name;
  configured_tunnel : is_Some (runtime d !! tunnel_token) → is_Some (runtime d' !! tunnel_token);
  configured_result :
    match r with
    | inr _ => env_file d' = env_file d
    | inl v =>
        production v ∧ recorded_initialized v = true
        ∧ Forall (kept_secret d') INTERNAL_SECRET_NAMES
        ∧ (∃ text, runtime d' !! tunnel_token = Some text
             ∧ (strip text = get_or "CLOUDFLARE_TUNNEL_TOKEN" "" v
                ∨ text = get_or "CLOUDFLARE_TUNNEL_TOKEN" "" v +:+ line_feed))
        ∧ is_Some (env_file d')
        ∧ (all_plain v → read_env (env_file d') = inl (written v))
    end
}.

Definition result_opt {A} (r : result A) : option A := match r with inl a => Some a | inr _ => None end.

Lemma production_initialized v :
  production v → production (<["CLOUDOPS_INITIALIZED" := "true"]> v).
Proof.
  intros [H1 (d & Hd & Hre) (t & Ht & Hl) H4 H5]. constructor.
  - by rewrite lookup_insert_ne.
  - exists d. by rewrite lookup_insert_ne.
  - exists t. by rewrite lookup_insert_ne.
  - intros key Hk. pose proof (H4 key Hk) as H. unfold get_or in *.
    rewrite lookup_insert_ne; [exact H|].
    intros <-. revert Hk. apply (bool_decide_eq_true_1 _). by vm_compute.
  - intros key Hk. apply lookup_insert_is_Some'. right. by apply H5.
Qed.

Lemma env_lines_total v keys :
  (∀ k, k ∈ keys → is_Some (v !! k)) → ∃ lines, env_lines v keys = inl lines.
Proof.
  induction keys as [|k keys IH]; intros Hk; [by eexists|].
  destruct (Hk k) as [x Hx]; [set_solver|]. destruct IH as [lines Hl]; [set_solver|].
  cbn [env_lines]. unfold env_line. rewrite Hx, Hl. by eexists.
Qed.

(** A complete configuration can be written. *)
Lemma write_env_total v d :
  (∀ k, k ∈ ordered → is_Some (v !! k)) →
  ∃ text, write_env v d = (inl tt, d <| env_file := Some text |>)
    ∧ (all_plain v → read_env (Some text) = inl (written v)).
Proof.
  intros [lines Hl]%env_lines_total.
  exists (text_of_lines (env_comment :: lines)).
  assert (write_env v d = (inl tt, d <| env_file := Some (text_of_lines (env_comment :: lines)) |>)) as Hw.
  { unfold write_env, mbind, io_bind, of_result. by rewrite Hl. }
  split; [exact Hw|]. intros Hp.
  destruct (written_file_is_read v d Hp) as (text & Hw' & Hr). rewrite Hw in Hw'.
  apply (f_equal (λ p, env_file p.2)) in Hw'.
  change (Some (text_of_lines (env_comment :: lines)) = Some text) in Hw'.
  rewrite Hw'. exact Hr.
Qed.

(** The last steps: the tunnel token and the file. *)
Lemma configure_end d d1 existing v :
  env_file d1 = env_file d → backups d1 = backups d →
  (∀ name text, name ≠ tunnel_token → runtime d !! name = Some text → runtime d1 !! name = Some text) →
  (∀ w, existing = Some w → recorded_initialized w = true →
     ∀ name, name ≠ tunnel_token → runtime d1 !! name = runtime d !! name) →
  production v → recorded_initialized v = true → Forall (kept_secret d1) INTERNAL_SECRET_NAMES →
  (is_Some (runtime d !! tunnel_token) → is_Some (runtime d1 !! tunnel_token)) →
  iwp (_ ← store_tunnel_token (get_or "CLOUDFLARE_TUNNEL_TOKEN" "" v); _ ← write_env v; mret v)
    (configured d existing) d1.
Proof.
  intros He Hb Hs Ho Hp Hi Hk Htun. apply iwp_bind. eapply iwp_mono, store_tunnel_token_spec.
  intros [b|e] d2 (He2 & Hb2 & Hr2 & Hst & Ht).
  2:{ constructor; [congruence|..|auto|congruence].
      - intros name text Hn Hl. rewrite Hr2 by done. by apply Hs.
      - intros w Hw Hi' name Hn. rewrite Hr2 by done. by eapply Ho. }
  destruct (write_env_total v d2) as (text & Hw & Hread); [by apply Hp|].
  apply iwp_bind. eapply iwp_eq; [exact Hw|]. apply iwp_ret. constructor; cbn.
  - congruence.
  - intros name t Hn Hl. rewrite Hr2 by done. by apply Hs.
  - intros w Hw' Hi' name Hn. rewrite Hr2 by done. by eapply Ho.
  - auto.
  - split_and!; [done|done|..|done|done|done].
    rewrite Forall_forall in *. intros name Hn. destruct (Hk _ Hn) as (t & Hl & Hne).
    exists t. cbn. rewrite Hr2; [done|]. intros ->. revert Hn.
    apply (bool_decide_eq_true_1 (¬ _)). by vm_compute.
Qed.

(** Configuring an installation: existing secrets are never replaced, backups
    are not touched and an installation that is recorded as initialized gets no
    new secrets.  A refusal leaves the configuration file as it was.  Otherwise
    the file records an initialized production installation that has all of its
    secrets, and reading it gives the configuration back, as far as it is
    written. *)
Theorem configuring_keeps_an_installation interactive typed supplied fresh d r d' :
  fresh_ok fresh →
  configure interactive typed supplied fresh d = (r, d') →
  configured d (result_opt (read_env (env_file d))) r d'.
Proof.
  intros Hf. apply iwp_run. unfold configure. apply iwp_bind, iwp_asks. apply iwp_bind.
  apply iwp_of_result. intros r0 <-.
  assert (∀ (e : fault) d1 ex, secrets_added d d1 →
    (∀ w, ex = Some w → recorded_initialized w = true → d1 = d) → configured d ex (inr e) d1) as Hfail.
  { intros e d1 ex [He Hb Hr] Ho. constructor; [done|by eauto| |by intros [t Ht]; exists t; auto|done].
    intros w Hw Hi name _. by rewrite (Ho w Hw Hi). }
  destruct (read_env (env_file d)) as [existing|e]; [|by apply Hfail].
  cbn [result_opt]. apply iwp_bind. apply iwp_of_result. intros [v|e] Hv; [|by apply Hfail].
  destruct (validate_production _ _ Hv) as (Hp & _). apply iwp_bind.
  change (String.eqb (lower (get_or "CLOUDOPS_INITIALIZED" "" v)) "true") with (recorded_initialized v).
  destruct (recorded_initialized v) eqn:Hi.
  - apply iwp_bind. eapply iwp_mono, require_internal_secrets_spec.
    intros [[]|e] d1 [-> Hk]; [|by apply Hfail]. apply iwp_ret. by apply configure_end.
  - apply iwp_bind. eapply iwp_mono, ensure_internal_secrets_spec, Hf.
    assert (∀ w, Some existing = Some w → recorded_initialized w = true → False) as Hnot.
    { intros w [= <-] Hw. eapply validate_keeps_initialized in Hw; [|exact Hv]. congruence. }
    intros [[]|e] d1 [Hd1 Hk]; [|by apply Hfail; [|intros w Hw Hiw; destruct (Hnot w Hw Hiw)]].
    apply iwp_ret. destruct Hd1 as [He Hb Hr].
    apply configure_end; [done|done|by eauto| |by apply production_initialized| |done
      |by intros [t Ht]; exists t; auto].
    + intros w Hw Hiw. destruct (Hnot w Hw Hiw).
    + unfold recorded_initialized, get_or. by rewrite lookup_insert_eq.
Qed.

(** * A laboratory *)

Module Lab.
Definition fresh : fresh_secrets := mk_fresh "p0stgres" "jwt-key" "jira-key".
Definition nobody : answers := mk_answers "" "".
(** The example of the repository, filled in. *)
Definition first_file : string := text_of_lines [
  "CLOUDOPS_DOMAIN=Cloudops.Example.com";
  "CLOUDFLARE_TUNNEL_TOKEN=synthetic-test-token-not-a-real-token";
  "";
  "AWS_REGION=us-east-1";
  "AWS_SES_ENABLED=true";
  "AWS_SES_FROM_EMAIL=alerts@example.com";
  "CLOUDOPS_INITIALIZED=false"
].
Definition before : disk := mk_disk (Some first_file) ∅ ∅.
Definition outcome := configure false nobody ∅ fresh before.
Definition after : disk := outcome.2.

Definition read (key : string) (file : option string) : option string :=
  v ← result_opt (read_env file); v !! key.

Example domain_is_normalized : read "CLOUDOPS_DOMAIN" (env_file after) = Some "cloudops.example.com".
Proof. by vm_compute. Qed.
Example secrets_are_made : runtime after !! "jwt_secret_key" = Some ("jwt-key" +:+ line_feed).
Proof. by vm_compute. Qed.
(** The sender of e-mails is a setting of the stack that is not written back:
    configuring the installation forgets it. *)
Example sender_is_forgotten :
  read "AWS_SES_FROM_EMAIL" (env_file before) = Some "alerts@example.com"
  ∧ read "AWS_SES_ENABLED" (env_file after) = Some "true"
  ∧ read "AWS_SES_FROM_EMAIL" (env_file after) = None.
Proof. by vm_compute. Qed.
(** Once initialized, a missing secret is not made again. *)
Example no_new_secrets :
  (configure false nobody ∅ fresh (after <| runtime ::= delete "jwt_secret_key" |>)).1
  = inr (refusal "CONFIG_GENERATED_SECRET_MISSING").
Proof. by vm_compute. Qed.

Lemma configuring_keeps_an_installation_witness :
  ∃ v, configure false nobody ∅ fresh before = (inl v, after) ∧ production v
    ∧ read_env (env_file after) = inl (written v).
Proof.
  assert (configured before (result_opt (read_env (env_file before))) outcome.1 after) as [_ _ _ _ H].
  { apply (configuring_keeps_an_installation false nobody ∅ fresh before).
    - by repeat split.
    - apply surjective_pairing. }
  assert (match outcome.1 with inl v => plain_check v | inr _ => false end = true) as Hc
    by (vm_compute; reflexivity).
  destruct outcome.1 as [v|e] eqn:E; [|discriminate Hc].
  destruct H as (Hp & _ & _ & _ & _ & Hr). exists v.
  split_and!; [|exact Hp|exact (Hr (plain_check_ok v Hc))].
  rewrite <-E. apply surjective_pairing.
Defined.
End Lab.
