(* ===== verification/SelfHostController.v ===== *)
(** scripts/selfhost/cloudops.py, healthcheck.py and preflight.py: the controller
    of an installation, over any host that runs Docker and Git.

    A command of the controller changes the files of the installation and runs
    processes; what it ran is kept with what the processes answered.  Processes
    do not write the configuration, the secrets or the backups, and paths have
    no symbolic links.  What is printed, hints about resources and the text of
    errors are left out. *)

From S2P Require Import Prelude.
From S2P Require Import PyValue.
From S2P Require Import Sha256.
From S2P Require Import AiSafety.
From S2P Require Import Calendar.
From S2P Require Import JiraClient.
From S2P Require Import SelfHost.
From Stdlib Require Import Ascii.
From stdpp Require Import pretty gmap list.

Open Scope Z_scope.

(** * The host *)

(** [subprocess.CompletedProcess] *)
Record process := mk_process { returncode : Z; stdout : string; stderr : string }.

(** What the controller calls outside of its files: a process with its standard
    input, [shutil.which("docker")], the clocks, and a request for a page, for
    which None is an [OSError] or a [URLError]. *)
Class Host (H : Type) := {
  run_process : H → list string → option string → process * H;
  docker_on_path : H → bool;
  monotonic : H → Z;
  sleep : Z → H → H;
  utcnow : H → timestamp;
  open_url : H → string → option Z * H
}.

(** A process: one of [docker compose] for the installation, or any other. *)
Inductive command :=
| Compose (arguments : list string)
| Process (argv : list string).
#[export] Instance command_eq_dec : EqDecision command.
Proof. solve_decision. Defined.

Record entry := mk_entry { ran : command; stdin : option string; answer : process }.

Record world (H : Type) := mk_world { files : disk; host : H; history : list entry }.
Arguments mk_world {H} _ _ _.
Arguments files {H} _.
Arguments host {H} _.
Arguments history {H} _.

(** What an installation is started with: the directory of the repository, the
    name of the project, the environment, whether the host is a Windows, and
    the user. *)
Record Controller := mk_controller {
  root : list string;
  project : string;
  environ : values;
  windows : bool;
  isatty : bool;
  typed : answers;
  fresh : fresh_secrets
}.

(** * Constants *)

(** scripts/selfhost/cloudops.py:33-33, COMPOSE_FILE. *)
Definition COMPOSE_FILE : string := "compose.selfhost.yml".
(** scripts/selfhost/cloudops.py:34-34, SERVICES. *)
Definition SERVICES : list string :=
  ["postgres"; "api"; "web"; "worker"; "scheduler"; "cloudflared"; "migration"].
(** scripts/selfhost/cloudops.py:35-35, LOG_TARGETS. *)
Definition LOG_TARGETS : list string := "all" :: SERVICES.
(** scripts/selfhost/cloudops.py:36-41, SECRET_NAMES. *)
Definition SECRET_NAMES : list string :=
  ["postgres_password"; "jwt_secret_key"; "jira_token_encryption_key"; "cloudflare_tunnel_token"].
(** scripts/selfhost/healthcheck.py:12-12, EXPECTED_MIGRATION_HEAD. *)
Definition EXPECTED_MIGRATION_HEAD : string := "0020_invitation_delivery_state".

Definition upper : string → string := smap upper_char.

(** * Paths *)

(** [Path(s)]: whether it is absolute, and its parts. *)
Record path := mk_path { absolute : bool; parts : list string }.
Definition new_Path (s : string) : path :=
  mk_path (startswith s "/")
    (List.filter (λ p, nonempty p && negb (String.eqb p ".")) (Config.split_on "/" EmptyString s)).

(** [p.resolve()] of an absolute path without symbolic links *)
Fixpoint resolve_from (done_ : list string) (l : list string) : list string :=
  match l with
  | [] => rev done_
  | p :: l => if String.eqb p ".." then resolve_from (tail done_) l else resolve_from (p :: done_) l
  end.
Definition resolve (l : list string) : list string := resolve_from [] l.

(** [str(p)] *)
Definition path_text (l : list string) : string := "/" +:+ concat_sep "/" l.

(** [p.relative_to(base)], where None is a ValueError *)
Fixpoint relative_to (base p : list string) : option (list string) :=
  match base, p with
  | [], _ => Some p
  | b :: base, x :: p => if String.eqb b x then relative_to base p else None
  | _ :: _, [] => None
  end.

(** [name.rfind(".")], counted from the end: the length of what follows. *)
Fixpoint after_last_dot (n : nat) (reversed : string) : option nat :=
  match reversed with
  | EmptyString => None
  | String c s => if Ascii.eqb c "." then Some n else after_last_dot (S n) s
  end.
(** The name without its suffix. *)
Definition stem (name : string) : string :=
  match after_last_dot 0 (srev name) with
  | Some n =>
      let i := (String.length name - S n)%nat in
      if (Nat.ltb 0 i && Nat.ltb 0 n)%bool then str_take i name else name
  | None => name
  end.
(** [p.with_suffix(".json")] *)
Definition metadata_path (p : list string) : list string :=
  match rev p with
  | [] => []
  | name :: dirs => rev ((stem name +:+ ".json") :: dirs)
  end.

(** * Redaction *)

(** scripts/selfhost/cloudops.py:43-43, part of REDACTION_PATTERNS. *)
Definition bearer : re := AiSafety.seq [word "bearer"; spaces1; AiSafety.plus (Cls (λ c, negb (is_space c)))].
(** scripts/selfhost/cloudops.py:45-46, part of REDACTION_PATTERNS.  Its first two
    groups. *)
Definition secret_name : re :=
  let name := Star (Cls (λ c, is_alnum c || Ascii.eqb c "_")) in
  AiSafety.seq [name; words ["token"; "password"; "secret"; "authorization"]; name;
       AiSafety.plus (Cls (λ c, has_char c quotes || has_char c "=:" || is_space c))].
(** scripts/selfhost/cloudops.py:46-46, part of REDACTION_PATTERNS.  The third. *)
Definition secret_value : re :=
  AiSafety.plus (Cls (λ c, negb (is_space c || has_char c quotes || Ascii.eqb c ","))).

(** [pattern.sub] that keeps what [kept] matched and replaces what [r] matches
    after it *)
Fixpoint sub_after (fuel : nat) (kept r : re) (by_ : string) (prev : option ascii) (s : string)
    : string :=
  match fuel with
  | O => s
  | S fuel =>
      match re_match kept (prev, s)
              (λ p, if re_match r p (λ p, Some p.2) is Some _ then Some p.2 else None) with
      | Some after =>
          let n := (String.length s - String.length after)%nat in
          let middle := String.get (n - 1) s in
          let rest := default EmptyString (re_match r (middle, after) (λ p, Some p.2)) in
          str_take n s +:+ by_
          +:+ sub_after fuel kept r by_ (String.get (String.length s - String.length rest - 1) s) rest
      | None =>
          match s with
          | EmptyString => EmptyString
          | String c s => String c (sub_after fuel kept r by_ (Some c) s)
          end
      end
  end.

(** scripts/selfhost/cloudops.py:554-565, redact. *)
Definition redact (value : string) : string :=
  let redacted := re_sub bearer "[REDACTED]" value in
  sub_after (S (String.length redacted)) secret_name secret_value "[REDACTED]" None redacted.

(** * Health *)

(** scripts/selfhost/healthcheck.py:15-19, HealthResult. *)
Record HealthResult := mk_health { component : string; status : pyval; detail : pyval }.

(** scripts/selfhost/healthcheck.py:25-25, part of container_health.  The state in
    the answer of [docker inspect]. *)
Definition inspected_state (v : pyval) : option pyval :=
  match v with
  | PList (PDict d :: _) => dget "State" d
  | _ => None
  end.

Section health.
Context `{PyLib}.

(** scripts/selfhost/healthcheck.py:22-34, container_health. *)
Definition container_health (inspect_json service : string) : result HealthResult :=
  let failed := refusal ("HEALTH_" +:+ upper service +:+ "_INSPECT_FAILED") in
  inspected ← match json_loads inspect_json with
              | inl (Some v) => mret v
              | inl None => inr failed
              | inr TypeError | inr KeyError => inr failed
              | inr e => inr (PyError e)
              end;
  state ← result_of_option (inspected_state inspected) failed;
  match state with
  | PDict state =>
      match dget_or "Health" (PDict []) state with
      | PDict health =>
          let health := dget_or "Status" PNone health in
          let status := if py_bool health then health
                        else dget_or "Status" (PStr "unknown") state in
          mret (mk_health service status status)
      | _ => inr (PyError AttributeError)
      end
  | _ => inr (PyError AttributeError)
  end.

(** scripts/selfhost/healthcheck.py:39-45, part of assert_healthy. *)
Definition unhealthy_code (component : string) : string :=
  if String.eqb component "worker" then "HEALTH_WORKER_HEARTBEAT_STALE"
  else if String.eqb component "scheduler" then "HEALTH_SCHEDULER_HEARTBEAT_STALE"
  else if String.eqb component "cloudflared" then "HEALTH_CLOUDFLARE_TUNNEL_DOWN"
  else "HEALTH_" +:+ upper component +:+ "_NOT_HEALTHY".

(** scripts/selfhost/healthcheck.py:37-50, assert_healthy. *)
Definition assert_healthy (r : HealthResult) : result () :=
  match status r with
  | PList _ | PDict _ => inr (PyError TypeError)
  | PStr s => check_r (String.eqb s "healthy" || String.eqb s "exited")
                (refusal (unhealthy_code (component r)))
  | _ => inr (refusal (unhealthy_code (component r)))
  end.

(** scripts/selfhost/healthcheck.py:53-60, verify_migration. *)
Definition verify_migration (output : string) : result HealthResult :=
  _ ← check_r (contains_text EXPECTED_MIGRATION_HEAD output)
        (refusal "HEALTH_MIGRATION_HEAD_MISMATCH");
  mret (mk_health "migration" (PStr "healthy") (PStr EXPECTED_MIGRATION_HEAD)).
End health.

(** * Processes *)

Section controller.
Context `{PyLib} {M : Type} `{Host M} (self : Controller).

Abbreviation io := (io (world M)).

(** An operation on the files of the installation. *)
Definition on_disk {A} (m : SelfHost.io disk A) : io A := λ w,
  let '(r, d) := m (files w) in (r, mk_world d (host w) (history w)).
Definition reads {A} (f : disk → A) : io A := asks (λ w, f (files w)).

(** scripts/selfhost/cloudops.py:63-73, part of Controller.compose. *)
Definition compose_command (arguments : list string) : list string :=
  ["docker"; "compose"; "--env-file"; path_text (root self ++ [".env.selfhost"]); "-p"; project self;
   "-f"; path_text (root self ++ [COMPOSE_FILE])] ++ arguments.

Definition argv (c : command) : list string :=
  match c with Compose arguments => compose_command arguments | Process l => l end.

(** scripts/selfhost/preflight.py:28-43, SystemRunner.run.  Also [subprocess.run]
    with an input. *)
Definition run_with (input : option string) (c : command) : io process := λ w,
  let '(p, h) := run_process (host w) (argv c) input in
  (inl p, mk_world (files w) h (history w ++ [mk_entry c input p])).
Definition runs (l : list string) : io process := run_with None (Process l).

Definition failed (p : process) : bool := negb (returncode p =? 0).

(** scripts/selfhost/cloudops.py:60-87, Controller.compose. *)
Definition compose (arguments : list string) : io process :=
  result ← run_with None (Compose arguments);
  _ ← check (negb (failed result)) (SelfHostError "COMPOSE_COMMAND_FAILED" (returncode result));
  mret result.

(** * Preflight *)

(** scripts/selfhost/preflight.py:46-56, require_repository. *)
Definition require_repository : io () :=
  result ← runs ["git"; "-C"; path_text (root self); "rev-parse"; "--show-toplevel"];
  let top := new_Path (strip (stdout result)) in
  check (negb (failed result)
         && bool_decide (resolve (if absolute top then parts top else root self ++ parts top) = root self))
    (refusal "PRECHECK_GIT_REPOSITORY_INVALID").

(** scripts/selfhost/preflight.py:59-79, require_tools. *)
Definition require_tools : io () :=
  docker ← asks (λ w, docker_on_path (host w));
  _ ← check docker (refusal "PRECHECK_DOCKER_UNAVAILABLE");
  version ← runs ["docker"; "compose"; "version"];
  _ ← check (negb (failed version)) (refusal "PRECHECK_COMPOSE_UNAVAILABLE");
  daemon ← runs ["docker"; "info"];
  check (negb (failed daemon)) (refusal "PRECHECK_DOCKER_DAEMON_UNAVAILABLE").

(** scripts/selfhost/preflight.py:130-133, run_preflight. *)
Definition run_preflight : io () := _ ← require_repository; require_tools.

(** * Configuration *)

(** scripts/selfhost/cloudops.py:89-90, Controller.config. *)
Definition config (interactive : bool) : io values :=
  on_disk (configure interactive (typed self) (environ self) (fresh self)).

Definition quoted (s : string) : string := dquote +:+ s +:+ dquote.

(** scripts/selfhost/cloudops.py:104-109, part of Controller.validate_rendered_config. *)
Definition forbidden : list string :=
  ["0.0.0.0:5432"; "0.0.0.0:8000";
   quoted "APP_ENV" +:+ ": " +:+ quoted "development";
   quoted "DEMO_SYNTHETIC_DISCOVERY" +:+ ": " +:+ quoted "true"].

(** scripts/selfhost/cloudops.py:94-98, part of Controller.validate_rendered_config.
    Does a text contain the secret of a file? *)
Definition shows_secret (rendered : string) (file : option string) : bool :=
  match file with
  | Some text => let value := strip text in nonempty value && contains_text value rendered
  | None => false
  end.

(** scripts/selfhost/cloudops.py:92-115, Controller.validate_rendered_config. *)
Definition validate_rendered_config : io () :=
  rendered ← compose ["config"];
  let rendered := stdout rendered in
  _ ← each SECRET_NAMES (λ name,
        file ← reads (λ d, runtime d !! name);
        check (negb (shows_secret rendered file)) (refusal "CONFIG_SECRET_IN_COMPOSE_OUTPUT"));
  check (negb (existsb (λ value, contains_text value rendered) forbidden))
    (refusal "CONFIG_PRODUCTION_UNSAFE_COMPOSE").

(** * Verification *)

Definition seconds (n : Z) : Z := n * 1000000.
(** [time.sleep(interval)] *)
Definition rests (interval : Z) : io () := λ w,
  (inl tt, mk_world (files w) (sleep interval (host w)) (history w)).
(** [opener(url, timeout=10)] *)
Definition opens (url : string) : io (option Z) := λ w,
  let '(code, h) := open_url (host w) url in (inl code, mk_world (files w) h (history w)).

(** scripts/selfhost/healthcheck.py:94-104, part of wait_until.  [last] is the
    error of the last probe. *)
Fixpoint wait_loop (fuel : nat) (probe : io HealthResult) (deadline interval : Z)
    (last : option fault) : io HealthResult :=
  match fuel with
  | O => fail_with OutOfFuel
  | S fuel =>
      time ← asks (λ w, monotonic (host w));
      if time <? deadline then
        catches (result ← probe; _ ← of_result (assert_healthy result); mret result)
          (λ code exit_code, _ ← rests interval;
             wait_loop fuel probe deadline interval (Some (SelfHostError code exit_code)))
      else fail_with (default (refusal "HEALTH_TIMEOUT") last)
  end.

(** Rounds that are enough when each takes at least the interval. *)
Definition rounds (timeout interval : Z) : nat := Z.to_nat (timeout / interval + 2).

(** scripts/selfhost/healthcheck.py:86-108, wait_until. *)
Definition wait_until (probe : io HealthResult) (timeout_seconds interval_seconds : Z)
    : io HealthResult :=
  start ← asks (λ w, monotonic (host w));
  wait_loop (rounds timeout_seconds interval_seconds) probe (start + timeout_seconds) interval_seconds
    None.

(** scripts/selfhost/cloudops.py:507-524, Controller._probe_service. *)
Definition _probe_service (service : string) : io HealthResult :=
  ps ← compose ["ps"; "-q"; service];
  let container_id := strip (stdout ps) in
  _ ← check (nonempty container_id) (refusal ("HEALTH_" +:+ upper service +:+ "_MISSING"));
  inspected ← runs ["docker"; "inspect"; container_id];
  _ ← check (negb (failed inspected)) (refusal ("HEALTH_" +:+ upper service +:+ "_INSPECT_FAILED"));
  of_result (container_health (stdout inspected) service).

(** scripts/selfhost/healthcheck.py:63-83, public_https_health. *)
Definition public_https_health (domain : string) : io HealthResult :=
  code ← opens ("https://" +:+ domain +:+ "/healthz");
  _ ← check (code ≟ Some 200) (refusal "HEALTH_PUBLIC_URL_UNREACHABLE");
  mret (mk_health "public_url" (PStr "healthy") (PStr ("https://" +:+ domain))).

(** scripts/selfhost/cloudops.py:175-175, part of Controller.verify. *)
Definition verified_services : list string := ["postgres"; "api"; "web"; "worker"; "scheduler"].

(** scripts/selfhost/cloudops.py:182-192, part of Controller.verify. *)
Definition current_revision : list string :=
  ["run"; "--rm"; "--no-deps"; "migration"; "/app/scripts/selfhost-container-env.sh"; "python"; "-m";
   "alembic"; "current"].

(** scripts/selfhost/cloudops.py:195-219, part of Controller.verify.  The tunnel and
    the public page. *)
Definition verify_public : io () :=
  ps ← compose ["ps"; "-q"; "cloudflared"];
  let tunnel_id := strip (stdout ps) in
  _ ← check (nonempty tunnel_id) (refusal "HEALTH_CLOUDFLARE_TUNNEL_DOWN");
  inspect ← runs ["docker"; "inspect"; tunnel_id];
  tunnel ← of_result (container_health (stdout inspect) "cloudflared");
  _ ← (if py_eq (status tunnel) (PStr "running") then mret tt else of_result (assert_healthy tunnel));
  file ← reads env_file;
  v ← of_result (read_env file);
  _ ← wait_until (public_https_health (get_or "CLOUDOPS_DOMAIN" "" v)) (seconds 60) (seconds 5);
  mret tt.

(** scripts/selfhost/cloudops.py:173-221, Controller.verify. *)
Definition verify (include_public : bool) : io () :=
  _ ← each verified_services (λ service,
        _ ← wait_until (_probe_service service) (seconds 120) (seconds 3); mret tt);
  migration ← compose current_revision;
  _ ← of_result (verify_migration (stdout migration));
  if include_public then verify_public else mret tt.

(** * Starting and stopping *)

Definition images : list string := ["api"; "worker"; "scheduler"; "web"; "cloudflared"].
Definition run_migration : list string :=
  ["up"; "--abort-on-container-exit"; "--exit-code-from"; "migration"; "migration"].

(** scripts/selfhost/cloudops.py:117-136, Controller.up. *)
Definition up : io () :=
  _ ← run_preflight;
  _ ← config (isatty self);
  _ ← validate_rendered_config;
  _ ← compose ("build" :: images);
  _ ← compose ["up"; "-d"; "postgres"];
  _ ← compose run_migration;
  _ ← compose ["up"; "-d"; "api"; "worker"; "scheduler"; "web"];
  _ ← verify false;
  _ ← compose ["up"; "-d"; "cloudflared"];
  verify true.

Definition in_production : bool :=
  String.eqb (lower (get_or "APP_ENV" "development" (environ self))) "production".
(** scripts/selfhost/cloudops.py:147-154, part of Controller.demo_up.  With [-Reset]
    the script truncates and reseeds the database of the demonstration. *)
Definition demo_bootstrap : list string :=
  ["powershell"; "-NoProfile"; "-File";
   path_text (root self ++ ["scripts"; "demo_bootstrap.ps1"]); "-Reset"; "-Tunnel"].

(** scripts/selfhost/cloudops.py:138-171, Controller.demo_up. *)
Definition demo_up : io () :=
  _ ← check (negb in_production) (refusal "DEMO_PRODUCTION_REFUSED");
  _ ← check (windows self) (refusal "DEMO_SHELL_HELPER_UNAVAILABLE");
  result ← runs demo_bootstrap;
  check (negb (failed result)) (SelfHostError "DEMO_START_FAILED" (returncode result)).

(** scripts/selfhost/cloudops.py:223-237, Controller.status.  What is printed comes
    from the answers. *)
Definition show_status : io () :=
  file ← reads env_file;
  _ ← of_result (read_env file);
  _ ← compose ["ps"];
  _ ← runs ["docker"; "volume"; "inspect"; "cloudops_postgres"];
  _ ← compose ["images"];
  mret tt.

(** scripts/selfhost/cloudops.py:239-250, Controller.logs.  The result is printed. *)
Definition logs (target : string) : io string :=
  _ ← check (existsb (String.eqb target) LOG_TARGETS) (refusal "LOG_TARGET_INVALID");
  let targets := if String.eqb target "all" then SERVICES else [target] in
  result ← compose (["logs"; "--no-color"; "--tail"; "200"] ++ targets);
  mret (redact (stdout result)).

(** scripts/selfhost/cloudops.py:478-486, Controller._require_initialized. *)
Definition _require_initialized : io () :=
  d ← reads (λ d, d);
  check (is_some_ (env_file d) && forallb (λ name, is_some_ (runtime d !! name)) SECRET_NAMES)
    (refusal "CONFIG_RUNTIME_STATE_MISSING").

(** scripts/selfhost/cloudops.py:252-255, Controller.restart. *)
Definition restart : io () :=
  _ ← _require_initialized;
  _ ← compose ("restart" :: images);
  verify true.

(** scripts/selfhost/cloudops.py:257-261, Controller.down. *)
Definition down : io () := _ ← compose ["down"]; mret tt.

Definition DESTROY : string := "DESTROY-CLOUDOPS-DATA".
Definition RESTORE : string := "RESTORE-CLOUDOPS-DATA".

(** scripts/selfhost/cloudops.py:263-277, Controller.destroy. *)
Definition destroy (confirmation : option string) : io () :=
  _ ← check (confirmation ≟ Some DESTROY) (refusal "DESTROY_CONFIRMATION_REQUIRED");
  _ ← compose ["down"; "--volumes"; "--remove-orphans"];
  on_disk (changes (λ d, d <| runtime := ∅ |> <| env_file := None |>)).

(** * Backups *)

(** scripts/selfhost/cloudops.py:488-495, Controller._git_sha. *)
Definition _git_sha : io string :=
  result ← runs ["git"; "-C"; path_text (root self); "rev-parse"; "HEAD"];
  mret (if failed result then "unknown" else strip (stdout result)).

(** [f"{t:%Y%m%dT%H%M%SZ}"] *)
Definition stamp_of (t : timestamp) : string :=
  let secs := t / 1000000 in
  let '(y, m, d) := civil (secs / 86400) in
  let s := secs mod 86400 in
  zpad 4 y +:+ zpad 2 m +:+ zpad 2 d +:+ "T"
  +:+ zpad 2 (s / 3600) +:+ zpad 2 (s / 60 mod 60) +:+ zpad 2 (s mod 60) +:+ "Z".

(** [json.dumps(d, indent=2)] of a dict without lists and dicts in it *)
Definition json_dumps_indent (d : pydict) : string :=
  "{" +:+ line_feed
  +:+ concat_sep ("," +:+ line_feed) (map (λ kv, "  " +:+ json_str kv.1 +:+ ": " +:+ json_dumps kv.2) d)
  +:+ line_feed +:+ "}".

(** scripts/selfhost/cloudops.py:326-333, part of Controller.backup. *)
Definition backup_metadata (created_at git_sha dump database : string) : pydict :=
  [("format", PInt 1); ("created_at", PStr created_at); ("git_sha", PStr git_sha);
   ("alembic_head", PStr EXPECTED_MIGRATION_HEAD); ("sha256", PStr (sha256_hex dump));
   ("database", PStr database)].

(** [values[key]] *)
Definition value_of (key : string) (v : values) : result string :=
  result_of_option (v !! key) (PyError KeyError).

Definition write_backup (p : list string) (text : string) : io () :=
  on_disk (changes (λ d, d <| backups ::= <[p := text]> |>)).

(** scripts/selfhost/cloudops.py:279-341, Controller.backup.  The result is the path
    in the directory of the backups. *)
Definition backup : io (list string) :=
  _ ← _require_initialized;
  time ← asks (λ w, utcnow (host w));
  let destination := ["cloudops-" +:+ stamp_of time +:+ ".dump"] in
  exists_ ← reads (λ d, is_some_ (backups d !! destination));
  _ ← check (negb exists_) (refusal "BACKUP_DESTINATION_EXISTS");
  file ← reads env_file;
  v ← of_result (read_env file);
  user ← of_result (value_of "POSTGRES_USER" v);
  database ← of_result (value_of "POSTGRES_DB" v);
  result ← run_with None (Compose ["exec"; "-T"; "postgres"; "pg_dump"; "-U"; user; "-d"; database; "-Fc"]);
  _ ← check (negb (failed result)) (SelfHostError "BACKUP_DATABASE_DUMP_FAILED" (returncode result));
  _ ← write_backup destination (stdout result);
  created_at ← asks (λ w, isoformat "T" (utcnow (host w)));
  git_sha ← _git_sha;
  _ ← write_backup (metadata_path destination)
        (json_dumps_indent (backup_metadata created_at git_sha (stdout result) database) +:+ line_feed);
  mret destination.

(** scripts/selfhost/cloudops.py:540-551, bounded_backup_path.  The result is the path
    in the directory of the backups. *)
Definition bounded_backup_path (requested : path) : result (list string) :=
  let candidate := if absolute requested then parts requested else root self ++ parts requested in
  result_of_option (relative_to (root self ++ [".cloudops"; "backups"]) (resolve candidate))
    (refusal "RESTORE_PATH_OUTSIDE_BACKUP_DIRECTORY").

(** scripts/selfhost/cloudops.py:497-505, Controller._service_running. *)
Definition _service_running (service : string) : io bool :=
  ps ← compose ["ps"; "-q"; service];
  let container_id := strip (stdout ps) in
  if negb (nonempty container_id) then mret false
  else
    result ← runs ["docker"; "inspect"; "--format"; "{{.State.Status}}"; container_id];
    mret (negb (failed result) && String.eqb (strip (stdout result)) "running").

(** scripts/selfhost/cloudops.py:343-378, part of Controller.restore.  The checks of
    the backup and of the confirmation: the dump, and its metadata. *)
Definition checked_backup (requested : option path) (confirmation : option string)
    : io (string * pydict) :=
  requested ← of_result (result_of_option requested (refusal "RESTORE_BACKUP_REQUIRED"));
  target ← of_result (bounded_backup_path requested);
  d ← reads (λ d, d);
  dump ← of_result (result_of_option (backups d !! target) (refusal "RESTORE_BACKUP_INVALID"));
  text ← of_result (result_of_option (backups d !! metadata_path target) (refusal "RESTORE_BACKUP_INVALID"));
  metadata ← of_result (match json_loads text with
                        | inl (Some v) => inl v
                        | inl None => inr (refusal "RESTORE_BACKUP_INVALID")
                        | inr e => inr (PyError e)
                        end);
  metadata ← of_result (match metadata with PDict m => inl m | _ => inr (PyError AttributeError) end);
  _ ← check (py_eq (dget_or "sha256" PNone metadata) (PStr (sha256_hex dump))
             && py_eq (dget_or "format" PNone metadata) (PInt 1))
        (refusal "RESTORE_BACKUP_CORRUPTED");
  _ ← check (confirmation ≟ Some RESTORE) (refusal "RESTORE_CONFIRMATION_REQUIRED");
  mret (dump, metadata).

Definition stop_services : list string := ["stop"; "api"; "worker"; "scheduler"; "web"].
Definition pg_restore (user database : string) : list string :=
  ["exec"; "-T"; "postgres"; "pg_restore"; "-U"; user; "-d"; database; "--clean"; "--if-exists";
   "--no-owner"; "--exit-on-error"; "--single-transaction"].

(** scripts/selfhost/cloudops.py:343-431, Controller.restore. *)
Definition restore (requested : option path) (confirmation : option string) : io () :=
  checked ← checked_backup requested confirmation;
  let '(dump, metadata) := checked in
  tunnel_was_running ← _service_running "cloudflared";
  file ← reads env_file;
  v ← of_result (read_env file);
  _ ← check (py_eq (dget_or "database" PNone metadata)
               (match v !! "POSTGRES_DB" with Some x => PStr x | None => PNone end))
        (refusal "RESTORE_DATABASE_IDENTITY_MISMATCH");
  _ ← compose stop_services;
  user ← of_result (value_of "POSTGRES_USER" v);
  database ← of_result (value_of "POSTGRES_DB" v);
  result ← run_with (Some dump) (Compose (pg_restore user database));
  _ ← check (negb (failed result)) (SelfHostError "RESTORE_DATABASE_FAILED" (returncode result));
  _ ← compose run_migration;
  _ ← compose (["up"; "-d"; "api"; "worker"; "scheduler"; "web"]
               ++ (if tunnel_was_running then ["cloudflared"] else []));
  verify tunnel_was_running.

(** scripts/selfhost/cloudops.py:433-476, Controller.update. *)
Definition update : io () :=
  let git l := "git" :: "-C" :: path_text (root self) :: l in
  branch ← runs (git ["branch"; "--show-current"]);
  _ ← check (negb (failed branch) && String.eqb (strip (stdout branch)) "main")
        (refusal "UPDATE_GIT_BRANCH_UNSUPPORTED");
  changed ← runs (git ["status"; "--porcelain"]);
  _ ← check (negb (failed changed) && negb (nonempty (strip (stdout changed))))
        (refusal "UPDATE_GIT_WORKTREE_DIRTY");
  _ ← _git_sha;
  _ ← backup;
  pull ← runs (git ["pull"; "--ff-only"; "origin"; "main"]);
  _ ← check (negb (failed pull)) (refusal "UPDATE_GIT_PULL_FAILED");
  _ ← validate_rendered_config;
  _ ← compose ("build" :: images);
  _ ← compose run_migration;
  _ ← compose (["up"; "-d"] ++ images);
  _ ← verify true;
  _ ← _git_sha;
  mret tt.

(** * Commands *)

(** scripts/selfhost/cloudops.py:575-598, parser.  What its arguments say; the words
    are told apart by argparse. *)
Inductive arguments :=
| Up | DemoUp | Verify | Status | Restart | Update | Backup | Down
| Logs (target : string)
| Restore (backup : option path) (confirm : option string)
| Destroy (confirm : option string).

(** scripts/selfhost/cloudops.py:601-611, dispatch. *)
Definition dispatch (a : arguments) : io () :=
  match a with
  | Up => up
  | DemoUp => demo_up
  | Verify => verify true
  | Status => show_status
  | Restart => restart
  | Update => update
  | Backup => _ ← backup; mret tt
  | Down => down
  | Logs target => _ ← logs target; mret tt
  | Restore requested confirm => restore requested confirm
  | Destroy confirm => destroy confirm
  end.

(** scripts/selfhost/cloudops.py:619-626, main.  The status that the process exits
    with; that of a traceback is 1. *)
Definition main (a : arguments) (w : world M) : Z * world M :=
  match dispatch a w with
  | (inl _, w) => (0, w)
  | (inr (SelfHostError _ exit_code), w) => (exit_code, w)
  | (inr _, w) => (1, w)
  end.
End controller.

(** * Effects of commands *)

(** What [m] does to the world is within [R]. *)
Definition does {W A} (R : W → W → Prop) (m : SelfHost.io W A) : Prop := ∀ w, R w (m w).2.

Section does.
Context {W : Type} (R : W → W → Prop) `{!PreOrder R}.

Lemma does_ret {A} (a : A) : does R (mret a : SelfHost.io W A).
Proof. intros w. change (R w w). reflexivity. Qed.
Lemma does_fail {A} e : does R (fail_with e : SelfHost.io W A).
Proof. intros w. change (R w w). reflexivity. Qed.
Lemma does_asks {A} (f : W → A) : does R (asks f).
Proof. intros w. change (R w w). reflexivity. Qed.
Lemma does_of_result {A} (r : result A) : does R (of_result r : SelfHost.io W A).
Proof. intros w. change (R w w). reflexivity. Qed.
Lemma does_check b e : does R (check b e : SelfHost.io W ()).
Proof. destruct b; [apply does_ret|apply does_fail]. Qed.
Lemma does_bind {A B} (m : SelfHost.io W A) (f : A → SelfHost.io W B) :
  does R m → (∀ a, does R (f a)) → does R (m ≫= f).
Proof.
  intros Hm Hf w. unfold mbind, io_bind. specialize (Hm w). destruct (m w) as [[a|e] w1]; [|done].
  etrans; [exact Hm|apply Hf].
Qed.
Lemma does_if {A} (b : bool) (m1 m2 : SelfHost.io W A) :
  does R m1 → does R m2 → does R (if b then m1 else m2).
Proof. by destruct b. Qed.
Lemma does_catches {A} (m : SelfHost.io W A) h :
  does R m → (∀ c z, does R (h c z)) → does R (catches m h).
Proof.
  intros Hm Hh w. unfold catches. specialize (Hm w).
  destruct (m w) as [[a|[]] w1]; try done. etrans; [exact Hm|apply Hh].
Qed.
Lemma does_each {A} (xs : list A) f : (∀ x, does R (f x)) → does R (each xs f).
Proof. intros Hf. induction xs; cbn [each]; [apply does_ret|by apply does_bind]. Qed.
End does.

Create HintDb does discriminated.
#[export] Hint Resolve does_ret does_fail does_asks does_of_result does_check : does.

(** Takes a command apart; what remains are its processes and its writes. *)
Ltac does_go :=
  repeat match goal with
  | |- ∀ _, _ => intros ?
  | |- does _ (mbind _ _) => apply does_bind; [exact _| |]
  | |- does _ (if _ then _ else _) => apply does_if
  | |- does _ (catches _ _) => apply does_catches; [exact _| |]
  | |- does _ (each _ _) => apply does_each; [exact _|]
  | |- does _ (let '(_, _) := ?x in _) => destruct x
  | |- does _ _ => solve [eauto with does typeclass_instances]
  end.

Section within.
Context `{PyLib} {M : Type} `{Host M} (self : Controller).
(** Processes and rests are within [R], under a condition on what is run. *)
Context (R : world M → world M → Prop) `{!PreOrder R} (allowed : command → Prop).
Hypothesis R_run : ∀ input c, allowed c → does R (run_with self input c).
Hypothesis R_rests : ∀ n, does R (rests n).
Hypothesis R_opens : ∀ url, does R (opens url).

Lemma does_compose l : allowed (Compose l) → does R (compose self l).
Proof. intros Hl. unfold compose. apply does_bind; [exact _|by apply R_run|]. does_go. Qed.
Lemma does_runs l : allowed (Process l) → does R (runs self l).
Proof. apply R_run. Qed.

Lemma does_wait_until probe timeout interval : does R probe → does R (wait_until probe timeout interval).
Proof.
  intros Hp. unfold wait_until. does_go. generalize (@None fault) as last.
  induction (rounds timeout interval) as [|n IH]; intros last; cbn [wait_loop]; does_go.
Qed.

Hypothesis ps_allowed : ∀ service, allowed (Compose ["ps"; "-q"; service]).
Hypothesis inspect_allowed : ∀ id, allowed (Process ["docker"; "inspect"; id]).
Hypothesis current_allowed : allowed (Compose current_revision).

Lemma does_probe service : does R (_probe_service self service).
Proof. unfold _probe_service. does_go; eauto using does_compose, does_runs. Qed.

Lemma does_verify public : does R (verify self public).
Proof.
  unfold verify, verify_public, public_https_health, reads.
  does_go; eauto using does_compose, does_runs, does_wait_until, does_probe.
  apply does_wait_until. does_go.
Qed.
End within.

(** * What is never lost without a confirmation *)

(** The processes that neither delete nor replace data, but for what a migration
    of the schema does: those that look, build, start, stop, restart and dump. *)
Definition harmless (c : command) : bool :=
  match c with
  | Compose (verb :: l) =>
      existsb (String.eqb verb)
        ["config"; "build"; "up"; "run"; "ps"; "images"; "logs"; "restart"; "stop"]
      || String.eqb verb "down" && bool_decide (l = [])
      || String.eqb verb "exec" && bool_decide (take 3 l = ["-T"; "postgres"; "pg_dump"])
  | Process (program :: l) =>
      String.eqb program "git"
        && existsb (λ verb, bool_decide (l !! 2%nat = Some verb)) ["rev-parse"; "branch"; "status"; "pull"]
      || String.eqb program "docker"
         && (existsb (λ verb, bool_decide (l !! 0%nat = Some verb)) ["info"; "inspect"]
             || bool_decide (l = ["compose"; "version"])
             || bool_decide (take 2 l = ["volume"; "inspect"]))
  | _ => false
  end.

Definition is_dump (p : list string) : Prop := ∃ dirs name, p = dirs ++ [name +:+ ".dump"].

(** Configuration, secrets and dumps are there afterwards; only the token of
    the tunnel can change. *)
Record kept_files (d d' : disk) : Prop := {
  kept_env : is_Some (env_file d) → is_Some (env_file d');
  kept_secrets : ∀ name text, name ≠ tunnel_token →
    runtime d !! name = Some text → runtime d' !! name = Some text;
  kept_tunnel : is_Some (runtime d !! tunnel_token) → is_Some (runtime d' !! tunnel_token);
  kept_dumps : ∀ p text, is_dump p → backups d !! p = Some text → backups d' !! p = Some text
}.
#[export] Instance kept_files_preorder : PreOrder kept_files.
Proof. split; [by split|]. intros d1 d2 d3 [] []. split; eauto. Qed.

(** The processes of a part of the history. *)
Definition ran_between {M} (w w' : world M) (l : list entry) : Prop := history w' = history w ++ l.

(** Only harmless processes were run. *)
Definition ran_harmless {M} (w w' : world M) : Prop :=
  ∃ l, ran_between w w' l ∧ Forall (λ e, harmless (ran e) = true) l.
#[export] Instance ran_harmless_preorder {M} : PreOrder (@ran_harmless M).
Proof.
  unfold ran_harmless, ran_between. split.
  - intros w. exists []. by rewrite app_nil_r.
  - intros w1 w2 w3 (l1 & E1 & H1) (l2 & E2 & H2).
    exists (l1 ++ l2). rewrite E2, E1, app_assoc. split; [done|]. by apply Forall_app.
Qed.

(** The same, without a change of the files and with what they may change. *)
Definition quiet {M} (w w' : world M) : Prop := ran_harmless w w' ∧ files w' = files w.
Definition careful {M} (w w' : world M) : Prop :=
  ran_harmless w w' ∧ kept_files (files w) (files w').
#[export] Instance quiet_preorder {M} : PreOrder (@quiet M).
Proof. split; [by split|]. intros w1 w2 w3 [] []. split; [by etrans|congruence]. Qed.
#[export] Instance careful_preorder {M} : PreOrder (@careful M).
Proof. split; [by split|]. intros w1 w2 w3 [] []. split; by etrans. Qed.
Lemma quiet_careful {M} (w w' : world M) : quiet w w' → careful w w'.
Proof. intros [Hl Hf]. split; [done|by rewrite Hf]. Qed.
Lemma quiet_does {M A} (m : SelfHost.io (world M) A) : does quiet m → does careful m.
Proof. intros Hm w. apply quiet_careful, Hm. Qed.

Lemma metadata_is_no_dump p : ¬ is_dump (metadata_path p).
Proof.
  intros (dirs & name & E). unfold metadata_path in E. destruct (rev p) as [|x l].
  { by destruct dirs. }
  cbn [rev] in E. apply app_inj_tail in E as [_ E].
  apply (f_equal srev) in E. rewrite !srev_app_str in E.
  change (srev ".json") with (String "n" "osj.") in E.
  change (srev ".dump") with (String "p" "mud.") in E.
  change (String "n" "osj." +:+ srev (stem x)) with (String "n" ("osj." +:+ srev (stem x))) in E.
  change (String "p" "mud." +:+ srev name) with (String "p" ("mud." +:+ srev name)) in E.
  injection E. discriminate.
Qed.

Section safety.
Context `{PyLib} {M : Type} `{Host M} (self : Controller).
Abbreviation is_quiet := (does (quiet (M := M))).
Abbreviation is_careful := (does (careful (M := M))).

Lemma quiet_run input c : harmless c = true → is_quiet (run_with self input c).
Proof.
  intros Hc w. unfold run_with. destruct (run_process _ _ _) as [p h]. split; [|done].
  eexists [_]. split; [done|]. by constructor.
Qed.
Lemma quiet_rests n : is_quiet (rests n).
Proof. intros w. split; [|done]. exists []. by unfold ran_between; rewrite app_nil_r. Qed.
Lemma quiet_opens url : is_quiet (opens url).
Proof.
  intros w. unfold opens. destruct (open_url _ _). split; [|done]. exists [].
  by unfold ran_between; rewrite app_nil_r.
Qed.
Lemma quiet_compose l : harmless (Compose l) = true → is_quiet (compose self l).
Proof. intros. by apply (does_compose self quiet (λ c, harmless c = true) quiet_run). Qed.
Lemma quiet_verify public : is_quiet (verify self public).
Proof. by apply (does_verify self quiet (λ c, harmless c = true) quiet_run quiet_rests quiet_opens). Qed.
Lemma quiet_reads {A} (f : disk → A) : is_quiet (reads f).
Proof. apply does_asks, _. Qed.
Hint Resolve quiet_reads : does.

(** Takes apart a command that writes no files. *)
Ltac quiet_go :=
  repeat first
    [ progress does_go
    | apply quiet_compose; reflexivity
    | apply quiet_run; reflexivity
    | apply quiet_verify ].

Lemma quiet_validate : is_quiet (validate_rendered_config self).
Proof. unfold validate_rendered_config. quiet_go. Qed.
Lemma quiet_git_sha : is_quiet (_git_sha self).
Proof. unfold _git_sha. quiet_go. Qed.
Lemma quiet_preflight : is_quiet (run_preflight self).
Proof. unfold run_preflight, require_repository, require_tools. quiet_go. Qed.
Lemma quiet_require_initialized : is_quiet (_require_initialized (M := M)).
Proof. unfold _require_initialized. quiet_go. Qed.
Lemma quiet_restart : is_quiet (restart self).
Proof. unfold restart. quiet_go. apply quiet_require_initialized. Qed.
Lemma quiet_status : is_quiet (show_status self).
Proof. unfold show_status. quiet_go. Qed.
Lemma quiet_logs target : is_quiet (logs self target).
Proof. unfold logs. quiet_go. Qed.
Lemma quiet_down : is_quiet (down self).
Proof. unfold down. quiet_go. Qed.
Lemma quiet_service_running service : is_quiet (_service_running self service).
Proof. unfold _service_running. quiet_go. Qed.

Lemma careful_config interactive : fresh_ok (fresh self) → is_careful (config self interactive).
Proof.
  intros Hf w. unfold config, on_disk.
  destruct (configure interactive (typed self) (environ self) (fresh self) (files w)) as [r d'] eqn:E.
  pose proof (configuring_keeps_an_installation _ _ _ _ _ _ _ Hf E) as [Hb Hs _ Ht Hr].
  split; [exists []; by unfold ran_between; rewrite app_nil_r|].
  split; [|exact Hs|exact Ht|cbn; by rewrite Hb].
  intros Hd. cbn. destruct r as [v|e]; [by destruct Hr as (_ & _ & _ & _ & He & _)|by rewrite Hr].
Qed.

Lemma careful_up : fresh_ok (fresh self) → is_careful (up self).
Proof.
  intros Hf. unfold up.
  apply does_bind; [exact _|apply quiet_does, quiet_preflight|]. intros _.
  apply does_bind; [exact _|by apply careful_config|]. intros _.
  apply quiet_does. quiet_go. apply quiet_validate.
Qed.

(** A new dump, or its metadata. *)
Lemma careful_write p text (w : world M) :
  ¬ is_dump p ∨ backups (files w) !! p = None → careful w (write_backup p text w).2.
Proof.
  intros Hp. split; [exists []; by unfold ran_between; rewrite app_nil_r|].
  split; cbn; try done. intros p' t Hd Hl.
  destruct (decide (p' = p)) as [->|Hne]; [|by rewrite lookup_insert_ne].
  destruct Hp as [Hp|Hp]; [done|congruence].
Qed.

Lemma iwp_does {W A} (R : W → W → Prop) (m : SelfHost.io W A) (Q : result A → W → Prop) w :
  does R m → (∀ r w', R w w' → Q r w') → iwp m Q w.
Proof. intros Hm HQ. eapply iwp_eq; [apply surjective_pairing|]. apply HQ, Hm. Qed.

Lemma iwp_write p text (Q : result () → world M → Prop) w :
  Q (inl tt) (write_backup p text w).2 → iwp (write_backup p text) Q w.
Proof. intros HQ. by eapply iwp_eq; [apply surjective_pairing|]. Qed.

Lemma careful_backup : is_careful (backup self).
Proof.
  intros w. eapply (iwp_run _ (λ _ w', careful w w')); [|apply surjective_pairing].
  unfold backup, reads. apply iwp_bind. eapply iwp_does; [apply quiet_require_initialized|].
  intros [[]|e] w1 H1; [|by apply quiet_careful].
  apply iwp_bind, iwp_asks. apply iwp_bind, iwp_asks. apply iwp_bind, iwp_check.
  2:{ intros _. by apply quiet_careful. }
  intros Hnew. apply iwp_bind, iwp_asks.
  do 3 (apply iwp_bind, iwp_of_result; intros [?|?] _; [|by apply quiet_careful]).
  apply iwp_bind. eapply iwp_does; [by apply quiet_run|]. intros [p|e] w2 H2.
  2:{ apply quiet_careful. by etrans. }
  assert (quiet w w2) as H02 by by etrans.
  apply iwp_bind, iwp_check; intros _; [|by apply quiet_careful].
  apply iwp_bind, iwp_write.
  set (destination := ["cloudops-" +:+ stamp_of (utcnow (host w1)) +:+ ".dump"]) in *.
  assert (careful w (write_backup destination (stdout p) w2).2) as H3.
  { etrans; [by apply quiet_careful|]. apply careful_write. right.
    destruct H1 as [_ H1], H2 as [_ H2]. rewrite H2. by destruct (backups (files w1) !! _). }
  revert H3. generalize (write_backup destination (stdout p) w2).2 as w3. intros w3 H3.
  apply iwp_bind, iwp_asks. apply iwp_bind. eapply iwp_does; [apply quiet_git_sha|].
  intros [sha|e] w4 H4%quiet_careful; [|by etrans].
  apply iwp_bind, iwp_write, iwp_ret. etrans; [exact H3|]. etrans; [exact H4|].
  apply careful_write. left. apply metadata_is_no_dump.
Qed.

Lemma careful_update : is_careful (update self).
Proof.
  unfold update. cbn zeta.
  repeat lazymatch goal with |- does _ (mbind _ _) => apply does_bind; [exact _| |intros ?] end;
    first [apply careful_backup|apply quiet_does; quiet_go; auto using quiet_validate, quiet_git_sha].
Qed.

(** What the checks of a restore promise. *)
Record verified_dump (requested : option path) (d : disk) (dump : string) (metadata : pydict)
    : Prop := {
  verified_target : ∃ s target text,
    requested = Some s ∧ bounded_backup_path self s = inl target
    ∧ backups d !! target = Some dump ∧ backups d !! metadata_path target = Some text
    ∧ json_loads text = inl (Some (PDict metadata));
  verified_digest : py_eq (dget_or "sha256" PNone metadata) (PStr (sha256_hex dump)) = true
}.

Lemma checked_backup_spec requested confirmation (w : world M) :
  iwp (checked_backup self requested confirmation) (λ r w', w' = w ∧
    match r with
    | inl (dump, metadata) =>
        confirmation = Some RESTORE ∧ verified_dump requested (files w) dump metadata
    | inr _ => True
    end) w.
Proof.
  unfold checked_backup, reads. iwp_go; split_and!; try done.
  - by eapply bool_decide_eq_true_1.
  - match goal with E : _ && _ = true |- _ => apply andb_true_iff in E as [E _] end.
    split; [|done].
    repeat match goal with
    | E : result_of_option ?o _ = inl _ |- _ =>
        unfold result_of_option in E; destruct o eqn:?; [injection E as ->|discriminate E]
    end.
    repeat (case_match; simplify_eq/=). eauto 10.
Qed.

(** The replacement of the data by a restore: one process, after the services
    were stopped. *)
Definition restored_by (requested : option path) (w : world M) (l : list entry) : Prop :=
  ∃ before e after dump metadata user database,
    l = before ++ e :: after
    ∧ Forall (λ e, harmless (ran e) = true) before ∧ Forall (λ e, harmless (ran e) = true) after
    ∧ ran e = Compose (pg_restore user database) ∧ stdin e = Some dump
    ∧ verified_dump requested (files w) dump metadata
    ∧ ∃ stop, list.last before = Some stop ∧ ran stop = Compose stop_services
        ∧ returncode (answer stop) = 0.

Lemma iwp_compose l (Q : result process → world M → Prop) w :
  (∀ p h, let w' := mk_world (files w) h (history w ++ [mk_entry (Compose l) None p]) in
     (returncode p = 0 → Q (inl p) w') ∧ ∀ e, Q (inr e) w') →
  iwp (compose self l) Q w.
Proof.
  intros HQ. unfold compose. apply iwp_bind.
  eapply iwp_eq; [apply surjective_pairing|]. unfold run_with.
  destruct (run_process _ _ _) as [p h]. destruct (HQ p h) as [H1 H2]. cbn.
  apply iwp_bind, iwp_check; intros Hr; [apply iwp_ret, H1|apply H2].
  unfold failed in Hr. rewrite negb_involutive in Hr. lia.
Qed.

Lemma restore_spec requested confirmation (w : world M) :
  iwp (restore self requested confirmation) (λ _ w', files w' = files w ∧
    (ran_harmless w w' ∨ confirmation = Some RESTORE ∧
       ∃ l, ran_between w w' l ∧ restored_by requested w l)) w.
Proof.
  assert (∀ w' : world M, quiet w w' → files w' = files w ∧ (ran_harmless w w' ∨
    confirmation = Some RESTORE ∧ ∃ l, ran_between w w' l ∧ restored_by requested w l)) as Hquiet.
  { intros w' [Hl Hf]. auto. }
  unfold restore, reads. apply iwp_bind. eapply iwp_mono, checked_backup_spec.
  intros [[dump metadata]|e] w0 [-> Hv]; [destruct Hv as [Hc Hv]|by apply Hquiet].
  apply iwp_bind. eapply iwp_does; [apply quiet_service_running|].
  intros [tunnel|e] w1 H1; [|by apply Hquiet].
  apply iwp_bind, iwp_asks. apply iwp_bind, iwp_of_result. intros [v|e] _; [|by apply Hquiet].
  apply iwp_bind, iwp_check; intros _; [|by apply Hquiet].
  apply iwp_bind, iwp_compose. intros p h. set (w2 := mk_world _ h _).
  assert (quiet w1 w2) as H2.
  { split; [|done]. eexists [_]. split; [done|]. by constructor. }
  assert (quiet w w2) as H02 by by etrans.
  split; [intros Hp|intros e; by apply Hquiet].
  do 2 (apply iwp_bind, iwp_of_result; intros [?|?] _; [|by apply Hquiet]).
  apply iwp_bind. eapply iwp_eq; [apply surjective_pairing|].
  unfold run_with. destruct (run_process _ _ _) as [p' h']. cbn [fst snd].
  set (w3 := mk_world (files w2) h' _).
  assert (∀ w', quiet w3 w' → files w' = files w ∧ (ran_harmless w w' ∨
    confirmation = Some RESTORE ∧ ∃ l, ran_between w w' l ∧ restored_by requested w l)) as Hrest.
  { intros w' [(after & Ea & Ha) Hf]. split; [rewrite Hf; apply H02|]. right. split; [done|].
    destruct H1 as [(before & Eb & Hb) Hf1]. unfold ran_between in *.
    eexists ((before ++ [_]) ++ _ :: after). split.
    - rewrite Ea. cbn. rewrite Eb. rewrite <-!app_assoc. cbn. done.
    - do 7 eexists. split; [done|]. split_and!; try done.
      + apply Forall_app. split; [done|]. by constructor.
      + eexists. by rewrite last_snoc. }
  assert (∀ A (m : SelfHost.io (world M) A), is_quiet m → iwp m (λ _ w', files w' = files w ∧ (ran_harmless w w' ∨
    confirmation = Some RESTORE ∧ ∃ l, ran_between w w' l ∧ restored_by requested w l)) w3) as Hend.
  { intros A m Hm. eapply iwp_does; [exact Hm|]. intros _. apply Hrest. }
  apply Hend. quiet_go.
Qed.

Lemma destroy_spec confirm (w : world M) :
  iwp (destroy self confirm) (λ r w', backups (files w') = backups (files w)
    ∧ if confirm ≟ Some DESTROY
      then ∃ p, ran_between w w' [mk_entry (Compose ["down"; "--volumes"; "--remove-orphans"]) None p]
           ∧ if failed p then files w' = files w
             else env_file (files w') = None ∧ runtime (files w') = ∅
      else w' = w ∧ r = inr (refusal "DESTROY_CONFIRMATION_REQUIRED")) w.
Proof.
  unfold destroy. apply iwp_bind, iwp_check; intros ->; [|done].
  unfold compose. apply iwp_bind, iwp_bind. eapply iwp_eq; [apply surjective_pairing|].
  unfold run_with. destruct (run_process _ _ _) as [p h]. cbn.
  apply iwp_bind, iwp_check; intros Hr.
  - apply iwp_ret. eapply iwp_eq; [apply surjective_pairing|]. cbn. split; [done|]. exists p.
    split; [done|]. by apply negb_true_iff in Hr as ->.
  - split; [done|]. exists p. split; [done|]. by apply negb_false_iff in Hr as ->.
Qed.

Lemma demo_up_spec (w : world M) :
  iwp (demo_up self) (λ r w', files w' = files w
    ∧ if windows self && negb (in_production self)
      then ∃ p, ran_between w w' [mk_entry (Process (demo_bootstrap self)) None p]
           ∧ r = if failed p then inr (SelfHostError "DEMO_START_FAILED" (returncode p)) else inl tt
      else w' = w ∧ r = inr (refusal (if in_production self then "DEMO_PRODUCTION_REFUSED"
                                      else "DEMO_SHELL_HELPER_UNAVAILABLE"))) w.
Proof.
  unfold demo_up. apply iwp_bind, iwp_check; intros Hp.
  2:{ apply negb_false_iff in Hp as ->. by rewrite andb_false_r. }
  apply negb_true_iff in Hp as ->.
  apply iwp_bind, iwp_check; intros ->; [|done].
  apply iwp_bind. eapply iwp_eq; [apply surjective_pairing|].
  unfold runs, run_with. destruct (run_process _ _ _) as [p h]. cbn.
  apply iwp_check; intros Hr; cbn; (split; [done|]; exists p; split; [done|]).
  - by apply negb_true_iff in Hr as ->.
  - by apply negb_false_iff in Hr as ->.
Qed.

End safety.

(** * The tunnel is opened last *)

Definition open_tunnel : command := Compose ["up"; "-d"; "cloudflared"].

(** Files stay, and the tunnel is not opened. *)
Definition shut {M} (w w' : world M) : Prop :=
  (∃ l, ran_between w w' l ∧ Forall (λ e, ran e ≠ open_tunnel) l) ∧ files w' = files w.
#[export] Instance shut_preorder {M} : PreOrder (@shut M).
Proof.
  unfold shut, ran_between. split.
  - intros w. split; [|done]. exists []. by rewrite app_nil_r.
  - intros w1 w2 w3 [(l1 & E1 & H1) F1] [(l2 & E2 & H2) F2]. split; [|congruence].
    exists (l1 ++ l2). rewrite E2, E1, app_assoc. split; [done|]. by apply Forall_app.
Qed.

(** Something was seen among the processes. *)
Definition saw {M} (P : entry → Prop) (w w' : world M) : Prop :=
  ∃ l, ran_between w w' l ∧ Exists P l.
Lemma saw_l {M} P (w1 w2 w3 : world M) : saw P w1 w2 → shut w2 w3 → saw P w1 w3.
Proof.
  intros (l & E & HP) [(l' & E' & _) _]. exists (l ++ l'). unfold ran_between in *.
  rewrite E', E, app_assoc. split; [done|]. apply Exists_app. by left.
Qed.
Lemma saw_r {M} P (w1 w2 w3 : world M) : shut w1 w2 → saw P w2 w3 → saw P w1 w3.
Proof.
  intros [(l' & E' & _) _] (l & E & HP). exists (l' ++ l). unfold ran_between in *.
  rewrite E, E', app_assoc. split; [done|]. apply Exists_app. by right.
Qed.
Lemma saw_mono {M} (P Q : entry → Prop) (w1 w2 : world M) :
  (∀ e, P e → Q e) → saw P w1 w2 → saw Q w1 w2.
Proof. intros HPQ (l & E & HP). exists l. split; [done|]. by eapply Exists_impl. Qed.

Section tunnel.
Context `{PyLib} {M : Type} `{Host M} (self : Controller).
Abbreviation is_shut := (does (shut (M := M))).

(** The answers a stack is judged by: that a service was inspected and passed
    [assert_healthy], which takes a container that exited for healthy too,
    that the schema is current, and that the rendered configuration has no
    secret and nothing that is forbidden. *)
Definition inspected (service : string) (x : HealthResult) (e : entry) : Prop :=
  (∃ id, ran e = Process ["docker"; "inspect"; id]) ∧ returncode (answer e) = 0
  ∧ container_health (stdout (answer e)) service = inl x.
Definition healthy (service : string) (e : entry) : Prop :=
  ∃ x, inspected service x e ∧ assert_healthy x = inl tt.
Definition migrated (e : entry) : Prop :=
  ran e = Compose current_revision ∧ returncode (answer e) = 0
  ∧ contains_text EXPECTED_MIGRATION_HEAD (stdout (answer e)) = true.
Definition clean_render (d : disk) (e : entry) : Prop :=
  ran e = Compose ["config"] ∧ returncode (answer e) = 0
  ∧ (∀ name, name ∈ SECRET_NAMES → shows_secret (stdout (answer e)) (runtime d !! name) = false)
  ∧ existsb (λ value, contains_text value (stdout (answer e))) forbidden = false.

Lemma shut_run input c : c ≠ open_tunnel → is_shut (run_with self input c).
Proof.
  intros Hc w. unfold run_with. destruct (run_process _ _ _) as [p h]. split; [|done].
  eexists [_]. split; [done|]. by constructor.
Qed.
Lemma shut_rests n : is_shut (rests n).
Proof. intros w. split; [|done]. exists []. by unfold ran_between; rewrite app_nil_r. Qed.
Lemma shut_opens url : is_shut (opens url).
Proof.
  intros w. unfold opens. destruct (open_url _ _). split; [|done]. exists [].
  by unfold ran_between; rewrite app_nil_r.
Qed.
Lemma shut_compose l : Compose l ≠ open_tunnel → is_shut (compose self l).
Proof. intros. by apply (does_compose self shut (λ c, c ≠ open_tunnel) shut_run). Qed.
Lemma shut_verify public : is_shut (verify self public).
Proof. by apply (does_verify self shut (λ c, c ≠ open_tunnel) shut_run shut_rests shut_opens). Qed.

(** A process of the stack that ended well was seen. *)
Lemma compose_seen l (w : world M) :
  Compose l ≠ open_tunnel →
  iwp (compose self l) (λ r w', shut w w' ∧
    match r with
    | inl p => saw (λ e, ran e = Compose l ∧ answer e = p ∧ returncode p = 0) w w'
    | inr _ => True
    end) w.
Proof.
  intros Hl. apply iwp_compose. intros p h w'.
  assert (shut w w') as Hw.
  { split; [|done]. eexists [_]. split; [done|]. by constructor. }
  split; [|done]. intros Hp. split; [done|]. eexists [_]. split; [done|]. by constructor.
Qed.

Lemma probe_seen service (w : world M) :
  iwp (_probe_service self service) (λ r w', shut w w' ∧
    match r with inl x => saw (inspected service x) w w' | inr _ => True end) w.
Proof.
  unfold _probe_service. apply iwp_bind. eapply iwp_mono, compose_seen; [|done].
  intros [ps|e] w1 [H1 _]; [|done]. apply iwp_bind, iwp_check; intros _; [|done].
  apply iwp_bind. eapply iwp_eq; [apply surjective_pairing|]. unfold runs, run_with.
  destruct (run_process _ _ _) as [p h]. cbn [fst snd].
  assert (shut w1 (mk_world (files w1) h (history w1 ++
    [mk_entry (Process ["docker"; "inspect"; strip (stdout ps)]) None p]))) as H2.
  { split; [|done]. eexists [_]. split; [done|]. by constructor. }
  apply iwp_bind, iwp_check; intros Hp; [|split; [by etrans|done]].
  apply iwp_of_result. intros r <-. split; [by etrans|].
  destruct (container_health _ _) as [x|] eqn:E; [|done]. eapply saw_r; [exact H1|].
  eexists [_]. split; [done|]. constructor. split_and!; [by eexists| |exact E].
  unfold failed in Hp. rewrite negb_involutive in Hp. cbn. lia.
Qed.

Lemma wait_seen (P : HealthResult → entry → Prop) probe timeout interval (w : world M) :
  (∀ w, iwp probe (λ r w', shut w w' ∧
     match r with inl x => saw (P x) w w' | inr _ => True end) w) →
  iwp (wait_until probe timeout interval) (λ r w', shut w w' ∧
    match r with inl x => assert_healthy x = inl tt ∧ saw (P x) w w' | inr _ => True end) w.
Proof.
  intros Hp. unfold wait_until. apply iwp_bind, iwp_asks. generalize (@None fault) as last.
  set (deadline := monotonic (host w) + timeout). clearbody deadline. revert w.
  induction (rounds timeout interval) as [|n IH]; intros w last; cbn [wait_loop].
  { by apply iwp_fail. }
  apply iwp_bind, iwp_asks. destruct (_ <? deadline); [|by apply iwp_fail].
  apply iwp_catches, iwp_bind. eapply iwp_mono, Hp.
  assert (∀ code exit_code w1, shut w w1 →
    iwp (_ ← rests interval; wait_loop n probe deadline interval (Some (SelfHostError code exit_code)))
      (λ r w', shut w w' ∧
        match r with inl x => assert_healthy x = inl tt ∧ saw (P x) w w' | inr _ => True end) w1) as Hagain.
  { intros code exit_code w1 H1. apply iwp_bind. eapply iwp_does; [apply shut_rests|].
    intros [[]|e] w2 H2; [|split; [by etrans|done]]. eapply iwp_mono, IH.
    assert (shut w w2) as H02 by by etrans.
    intros [x|e] w3 [H3 Hx]; (split; [by etrans|]); [|done].
    split; [apply Hx|]. by eapply saw_r; [|apply Hx]. }
  intros [x|e] w1 [H1 Hx]; [|by destruct e; [apply Hagain|..]].
  apply iwp_bind, iwp_of_result. intros r Hr. destruct r as [[]|e]; [by apply iwp_ret|].
  by destruct e; [apply Hagain|..].
Qed.

Lemma each_seen {A} (P : A → entry → Prop) (f : A → SelfHost.io (world M) ()) xs (w : world M) :
  (∀ x w, iwp (f x) (λ r w', shut w w' ∧
     match r with inl _ => saw (P x) w w' | inr _ => True end) w) →
  iwp (each xs f) (λ r w', shut w w' ∧
    match r with inl _ => ∀ x, x ∈ xs → saw (P x) w w' | inr _ => True end) w.
Proof.
  intros Hf. revert w. induction xs as [|x xs IH]; intros w; cbn [each].
  { apply iwp_ret. split; [done|]. set_solver. }
  apply iwp_bind. eapply iwp_mono, Hf. intros [[]|e] w1 [H1 Hx]; [|done].
  eapply iwp_mono, IH. intros [[]|e] w2 [H2 Hxs]; (split; [by etrans|]); [|done].
  intros y [->|Hy]%elem_of_cons; [by eapply saw_l|by eapply saw_r, Hxs].
Qed.

(** What a verification of the stack has seen. *)
Lemma verify_seen (w : world M) :
  iwp (verify self false) (λ r w', shut w w' ∧
    match r with
    | inl _ => (∀ service, service ∈ verified_services → saw (healthy service) w w')
               ∧ saw migrated w w'
    | inr _ => True
    end) w.
Proof.
  unfold verify. apply iwp_bind. eapply iwp_mono; [|apply (each_seen healthy)].
  - intros [[]|e] w1 [H1 Hs]; [|done]. apply iwp_bind. eapply iwp_mono, compose_seen; [|done].
    intros [p|e] w2 [H2 Hm]; [|split; [by etrans|done]].
    apply iwp_bind, iwp_of_result. intros r Hr.
    assert (shut w w2) as H02 by by etrans. destruct r as [x|e]; [|done].
    apply iwp_ret. split; [done|]. split; [intros s Hin; eapply saw_l; [by apply Hs|done]|].
    eapply saw_r; [exact H1|]. eapply saw_mono, Hm. intros e (He & <- & Hrc).
    split_and!; [exact He|exact Hrc|]. unfold verify_migration in Hr.
    by destruct (contains_text _ _).
  - intros service w1. apply iwp_bind. eapply iwp_mono.
    2:{ apply (wait_seen (inspected service)), probe_seen. }
    intros [x|e] w2 [H2 Hx]; [|done]. apply iwp_ret. split; [done|]. destruct Hx as [Hh Hx].
    eapply saw_mono, Hx. intros e He. by exists x.
Qed.

Lemma validate_seen (w : world M) :
  iwp (validate_rendered_config self) (λ r w', shut w w' ∧
    match r with inl _ => saw (clean_render (files w)) w w' | inr _ => True end) w.
Proof.
  unfold validate_rendered_config. apply iwp_bind. eapply iwp_mono, compose_seen; [|done].
  intros [p|e] w1 [H1 Hp]; [|done]. destruct H1 as [Hl Hf]. apply iwp_bind.
  enough (iwp (each SECRET_NAMES (λ name, file ← reads (λ d, runtime d !! name);
      check (negb (shows_secret (stdout p) file)) (refusal "CONFIG_SECRET_IN_COMPOSE_OUTPUT")))
    (λ r w', w' = w1 ∧ match r with
       | inl _ => ∀ name, name ∈ SECRET_NAMES → shows_secret (stdout p) (runtime (files w1) !! name) = false
       | inr _ => True end) w1) as He.
  { eapply iwp_mono, He. intros [[]|e] w2 [-> Hs]; [|done].
    apply iwp_check; intros Hv; [|done]. split; [done|]. eapply saw_mono, Hp.
    intros e (E & <- & Hrc). rewrite Hf in Hs. split_and!; try done.
    by apply negb_true_iff. }
  clear. unfold reads. induction SECRET_NAMES as [|name l IH]; cbn [each].
  { apply iwp_ret. split; [done|]. set_solver. }
  apply iwp_bind, iwp_bind, iwp_asks, iwp_check; intros Hn; [|done].
  eapply iwp_mono, IH. intros [[]|e] w' [-> Hl]; [|done]. split; [done|].
  intros n [->|Hin]%elem_of_cons; [by apply negb_true_iff|by apply Hl].
Qed.

(** What there is before the tunnel is opened: a valid production configuration
    that was rendered without secrets, and a stack that is current and healthy. *)
Record ready (w w' : world M) (before : list entry) : Prop := {
  ready_configured : ∃ v, configure (isatty self) (typed self) (environ self) (fresh self) (files w)
    = (inl v, files w') ∧ production v;
  ready_rendered : Exists (clean_render (files w')) before;
  ready_migrated : Exists migrated before;
  ready_healthy : ∀ service, service ∈ verified_services → Exists (healthy service) before
}.

(** The only element with a property splits a list in one way. *)
Lemma split_at {A} (P : A → Prop) la x lb l1 e l2 :
  Forall (λ y, ¬ P y) la → Forall (λ y, ¬ P y) lb → P e →
  la ++ x :: lb = l1 ++ e :: l2 → l1 = la ∧ l2 = lb.
Proof.
  intros Ha Hb He. revert l1. induction Ha as [|y la Hy _ IH]; intros [|z l1] E; simplify_eq/=.
  - done.
  - exfalso. rewrite Forall_forall in Hb. apply (Hb e); [set_solver|done].
  - done.
  - destruct (IH l1) as [-> ->]; done.
Qed.

Lemma shut_preflight : is_shut (run_preflight self).
Proof.
  unfold run_preflight, require_repository, require_tools. does_go; by apply shut_run.
Qed.

(** The promise of [up] for the world it leaves. *)
Definition opened_last (w w' : world M) : Prop :=
  ∃ l, ran_between w w' l ∧ ∀ before e after, l = before ++ e :: after → ran e = open_tunnel →
    ready w w' before ∧ Forall (λ e, ran e ≠ open_tunnel) after.

Lemma never_opened (w w' : world M) l :
  ran_between w w' l → Forall (λ e, ran e ≠ open_tunnel) l → opened_last w w'.
Proof.
  intros Hl Hn. exists l. split; [done|]. intros before e after -> He.
  apply Forall_app in Hn as [_ Hn]. by apply Forall_cons in Hn as [Hn _].
Qed.

(** From the end of the configuration to that of the verification, and then the
    tunnel. *)
Lemma opened_after (w w2 w8 w9 w' : world M) v l p :
  configure (isatty self) (typed self) (environ self) (fresh self) (files w) = (inl v, files w2) →
  production v → ran_between w w2 l → Forall (λ e, ran e ≠ open_tunnel) l →
  shut w2 w8 → saw (clean_render (files w2)) w2 w8 → saw migrated w2 w8 →
  (∀ service, service ∈ verified_services → saw (healthy service) w2 w8) →
  history w9 = history w8 ++ [mk_entry open_tunnel None p] → files w9 = files w8 → shut w9 w' →
  opened_last w w'.
Proof.
  intros Hc Hp Hl Hn [(l8 & E8 & Hn8) F8] Hr Hm Hh E9 F9 [(l' & E' & Hn') F'].
  unfold ran_between in *.
  assert (∀ P, saw P w2 w8 → Exists P (l ++ l8)) as Hsaw.
  { intros P (l0 & E0 & HP). unfold ran_between in E0. rewrite E8 in E0. apply app_inv_head in E0.
    subst. apply Exists_app. by right. }
  exists ((l ++ l8) ++ mk_entry open_tunnel None p :: l'). split.
  { unfold ran_between. rewrite E', E9, E8, Hl, <-!app_assoc. done. }
  intros before e after E He.
  apply (split_at (λ e, ran e = open_tunnel)) in E as [-> ->]; [|by apply Forall_app|done|done].
  assert (files w' = files w2) as HF by congruence. split; [|done].
  constructor; rewrite ?HF; eauto.
Qed.

Lemma up_spec (w : world M) : fresh_ok (fresh self) → iwp (up self) (λ _ w', opened_last w w') w.
Proof.
  intros Hf. unfold up. apply iwp_bind. eapply iwp_does; [apply shut_preflight|].
  intros [[]|e] w1 [(l1 & E1 & Hn1) F1]; [|by eapply never_opened].
  apply iwp_bind. eapply iwp_eq; [apply surjective_pairing|]. unfold config, on_disk.
  destruct (configure _ _ _ _ (files w1)) as [r d] eqn:Ec. cbn [fst snd].
  set (w2 := mk_world d (host w1) (history w1)).
  assert (ran_between w w2 l1) as E2 by exact E1.
  assert (∀ w', shut w2 w' → opened_last w w') as Hshut.
  { intros w' [(l' & E' & Hn') _]. eapply (never_opened _ _ (l1 ++ l')); [|by apply Forall_app].
    unfold ran_between in *. by rewrite E', E2, app_assoc. }
  destruct r as [v|e]; [|by apply Hshut].
  destruct (configuring_keeps_an_installation _ _ _ _ _ _ _ Hf Ec) as [_ _ _ _ (Hp & _)].
  rewrite F1 in Ec.
  apply iwp_bind. eapply iwp_mono, validate_seen. intros [[]|e] w3 [H3 Hr]; [|by apply Hshut].
  do 4 (apply iwp_bind; eapply iwp_does; [by apply shut_compose|];
        let w' := fresh "v" in let H' := fresh "Hs" in
        intros [?|?] w' H'; [|by apply Hshut; repeat (etrans; [eassumption|])];
        pose proof (saw_l _ _ _ _ Hr H') as Hr'; clear Hr; rename Hr' into Hr;
        apply (transitivity H3) in H'; clear H3; rename H' into H3).
  apply iwp_bind. eapply iwp_mono, verify_seen.
  intros r w8 [H8 Hv].
  pose proof (transitivity H3 H8) as H28.
  destruct r as [[]|e]; [|by apply Hshut]. destruct Hv as [Hh Hm].
  apply iwp_bind, iwp_compose. intros p' h w9.
  assert (∀ w', shut w9 w' → opened_last w w') as Hopen.
  { intros w'' H9. apply (opened_after w w2 w8 w9 w'' v l1 p'); try done.
    - by eapply saw_l.
    - exact (saw_r _ _ _ _ H3 Hm).
    - intros service Hs. exact (saw_r _ _ _ _ H3 (Hh service Hs)). }
  split; [intros _|by intros e; apply Hopen].
  eapply iwp_does; [apply shut_verify|]. intros _ w'' Hw. by apply Hopen.
Qed.

(** C36. [up] opens the tunnel to the public last.  Before it does, the
    configuration is one for production and was written, Docker Compose rendered
    it without any of the secrets of the installation and without a setting that
    is forbidden, the database is at the revision of the code, and the database,
    the API, the web server, the worker and the scheduler were each inspected
    and passed the check of their health. *)
Theorem up_opens_the_tunnel_last (w w' : world M) r :
  fresh_ok (fresh self) → up self w = (r, w') →
  ∃ l, ran_between w w' l ∧ ∀ before e after, l = before ++ e :: after → ran e = open_tunnel →
    ready w w' before ∧ Forall (λ e, ran e ≠ open_tunnel) after.
Proof. intros Hf E. exact (iwp_run _ _ _ _ _ (up_spec w Hf) E). Qed.
End tunnel.

(** * Commands end *)

(** The rounds of the model were enough. *)
Definition in_time {A} (r : result A) : Prop := r ≠ inr OutOfFuel.
Definition ends {W A} (m : SelfHost.io W A) : Prop := ∀ w, in_time (m w).1.

Section ends.
Context {W : Type}.
Lemma ends_ret {A} (a : A) : ends (mret a : SelfHost.io W A).
Proof. by intros w. Qed.
Lemma ends_asks {A} (f : W → A) : ends (asks f).
Proof. by intros w. Qed.
Lemma ends_changes (f : W → W) : ends (changes f).
Proof. by intros w. Qed.
Lemma ends_of_result {A} (r : result A) : in_time r → ends (of_result r : SelfHost.io W A).
Proof. by intros Hr w. Qed.
Lemma ends_check b e : e ≠ OutOfFuel → ends (check b e : SelfHost.io W ()).
Proof. intros He w. destruct b; [done|]. cbn. unfold in_time. congruence. Qed.
Lemma ends_bind {A B} (m : SelfHost.io W A) (f : A → SelfHost.io W B) :
  ends m → (∀ a, ends (f a)) → ends (m ≫= f).
Proof.
  intros Hm Hf w. unfold mbind, io_bind. specialize (Hm w). unfold in_time in *.
  destruct (m w) as [[a|e] w1]; [apply Hf|]. cbn in *. congruence.
Qed.
Lemma ends_if {A} (b : bool) (m1 m2 : SelfHost.io W A) : ends m1 → ends m2 → ends (if b then m1 else m2).
Proof. by destruct b. Qed.
Lemma ends_each {A} (xs : list A) f : (∀ x, ends (f x)) → ends (each xs f : SelfHost.io W ()).
Proof. intros Hf. induction xs; cbn [each]; [apply ends_ret|by apply ends_bind]. Qed.
End ends.

Lemma in_time_option {A} (o : option A) e : e ≠ OutOfFuel → in_time (result_of_option o e).
Proof. intros He. unfold in_time. destruct o; cbn; congruence. Qed.
Lemma in_time_check b e : e ≠ OutOfFuel → in_time (check_r b e).
Proof. intros He. unfold in_time. destruct b; cbn; congruence. Qed.
Lemma in_time_bind {A B} (m : result A) (f : A → result B) :
  in_time m → (∀ a, in_time (f a)) → in_time (m ≫= f).
Proof. intros Hm Hf. unfold in_time in *. destruct m; cbn; [apply Hf|congruence]. Qed.

Create HintDb ends discriminated.
#[export] Hint Resolve ends_ret ends_asks ends_changes : ends.
#[export] Hint Extern 1 (_ ≠ _) => discriminate : ends.

(** Takes a command apart; what remains are its loops. *)
Ltac ends_go :=
  repeat match goal with
  | |- ∀ _, _ => intros ?
  | |- in_time (mbind _ _) => apply in_time_bind
  | |- in_time (result_of_option _ _) => apply in_time_option; discriminate
  | |- in_time (check_r _ _) => apply in_time_check; discriminate
  | |- in_time (mret _) => discriminate
  | |- in_time (inl _) => discriminate
  | |- in_time (inr _) => discriminate
  | |- in_time (match ?x with _ => _ end) => destruct x
  | |- in_time (if ?x then _ else _) => destruct x
  | |- ends (mbind _ _) => apply ends_bind
  | |- ends (if _ then _ else _) => apply ends_if
  | |- ends (each _ _) => apply ends_each
  | |- ends (check _ _) => apply ends_check; discriminate
  | |- ends (of_result _) => apply ends_of_result
  | |- ends _ => solve [auto with ends]
  | |- ends (match ?x with _ => _ end) => destruct x
  end.

Lemma read_env_ends file : in_time (read_env file).
Proof.
  destruct file as [text|]; [|done]. cbn. generalize (∅ : values).
  induction (splitlines text) as [|line lines IH]; intros v; cbn [read_lines]; [done|].
  unfold read_line. ends_go; auto.
Qed.
Lemma validate_ends v : in_time (validate v).
Proof. unfold validate, _validate_domain. ends_go. Qed.
Lemma env_lines_ends v keys : in_time (env_lines v keys).
Proof. induction keys as [|k keys IH]; cbn [env_lines]; [done|]. unfold env_line. ends_go; auto. Qed.
Lemma secure_write_ends name value replace : ends (_secure_write name value replace).
Proof. unfold _secure_write. ends_go. Qed.
#[export] Hint Resolve secure_write_ends : ends.

Section clocks.
Context `{PyLib} {M : Type} `{Host M} (self : Controller).

(** Time does not go back, and a rest takes its time. *)
Class Clock := {
  runs_forward h l input : monotonic h ≤ monotonic (run_process h l input).2;
  opens_forward h url : monotonic h ≤ monotonic (open_url h url).2;
  rests_forward h n : monotonic h + n ≤ monotonic (sleep n h)
}.
Context `{Clock}.

Definition later (w w' : world M) : Prop := monotonic (host w) ≤ monotonic (host w').
#[local] Instance later_preorder : PreOrder later.
Proof. unfold later. split; [intros w|intros w1 w2 w3]; lia. Qed.

Lemma run_later input c : does later (run_with self input c).
Proof.
  intros w. unfold run_with, later. pose proof (runs_forward (host w) (argv self c) input).
  by destruct (run_process _ _ _).
Qed.
Lemma opens_later url : does later (opens url).
Proof.
  intros w. unfold opens, later. pose proof (opens_forward (host w) url). by destruct (open_url _ _).
Qed.

Lemma run_ends input c : ends (run_with self input c).
Proof. intros w. unfold run_with. by destruct (run_process _ _ _). Qed.
Lemma opens_ends url : ends (opens url).
Proof. intros w. unfold opens. by destruct (open_url _ _). Qed.
Lemma on_disk_ends {A} (m : SelfHost.io disk A) : ends m → ends (on_disk (M := M) m).
Proof. intros Hm w. unfold on_disk. specialize (Hm (files w)). by destruct (m (files w)). Qed.
Hint Resolve run_ends opens_ends on_disk_ends : ends.
Lemma compose_ends l : ends (compose self l).
Proof. unfold compose. ends_go. Qed.
Lemma runs_ends l : ends (runs self l).
Proof. apply run_ends. Qed.
Lemma reads_ends {A} (f : disk → A) : ends (reads (M := M) f).
Proof. apply ends_asks. Qed.
Hint Resolve compose_ends runs_ends reads_ends read_env_ends validate_ends env_lines_ends : ends.

Lemma container_health_ends text service : in_time (container_health text service).
Proof. unfold container_health. ends_go. Qed.
Lemma assert_healthy_ends x : in_time (assert_healthy x).
Proof. unfold assert_healthy. ends_go. Qed.
Lemma verify_migration_ends output : in_time (verify_migration output).
Proof. unfold verify_migration. ends_go. Qed.

(** The rounds are enough: each takes at least the interval. *)
Lemma wait_loop_ends probe deadline interval n last (w : world M) :
  0 < interval → ends probe → does later probe → (0 < n)%nat → last ≠ Some OutOfFuel →
  deadline - monotonic (host w) ≤ (Z.of_nat n - 1) * interval →
  in_time (wait_loop n probe deadline interval last w).1.
Proof.
  intros Hi Hp Hl. revert last w. induction n as [|n IH]; intros last w Hn Hlast Hd; [lia|].
  cbn [wait_loop]. unfold mbind at 1, io_bind, asks. cbn iota beta.
  destruct (Z.ltb_spec (monotonic (host w)) deadline) as [Ht|Ht].
  2:{ destruct last as [e|]; [|done]. cbn. intros [= ->]. by apply Hlast. }
  unfold catches.
  assert (ends (result ← probe; _ ← of_result (assert_healthy result); mret result)) as He.
  { apply ends_bind; [done|]. intros x. ends_go. apply assert_healthy_ends. }
  assert (does later (result ← probe; _ ← of_result (assert_healthy result); mret result)) as Hla.
  { does_go. }
  specialize (He w). specialize (Hla w). unfold later in Hla.
  destruct ((result ← probe; _ ← of_result (assert_healthy result); mret result) w)
    as [[x|[code exit_code|e|]] w1]; try done.
  cbn [fst snd] in *. unfold mbind, io_bind, rests. apply IH; [|done|].
  - destruct n; [lia|lia].
  - cbn. pose proof (rests_forward (host w1) interval). nia.
Qed.

Lemma wait_until_ends probe timeout interval :
  0 < interval → 0 ≤ timeout → ends probe → does later probe → ends (wait_until probe timeout interval).
Proof.
  intros Hi Ht Hp Hl w. unfold wait_until, mbind, io_bind, asks. cbn iota beta.
  pose proof (Z.div_pos timeout interval Ht Hi).
  pose proof (Z.mul_succ_div_gt timeout interval Hi).
  apply wait_loop_ends; try done; unfold rounds; [lia|]. rewrite Z2Nat.id; nia.
Qed.

Lemma probe_ends service : ends (_probe_service self service).
Proof. unfold _probe_service. ends_go. apply container_health_ends. Qed.
Lemma probe_later service : does later (_probe_service self service).
Proof. by apply (does_probe self later (λ _, True)); auto using run_later. Qed.
Lemma public_ends domain : ends (public_https_health (M := M) domain).
Proof. unfold public_https_health. ends_go. Qed.
Lemma public_later domain : does later (public_https_health (M := M) domain).
Proof. unfold public_https_health. does_go. apply opens_later. Qed.

Lemma verify_ends public : ends (verify self public).
Proof.
  unfold verify, verify_public.
  ends_go; auto using verify_migration_ends, container_health_ends, assert_healthy_ends, read_env_ends;
    apply wait_until_ends; auto using probe_ends, probe_later, public_ends, public_later; done.
Qed.
Hint Resolve verify_ends : ends.

Lemma configure_ends interactive typed supplied fresh : ends (configure interactive typed supplied fresh).
Proof.
  unfold configure, require_internal_secrets, ensure_internal_secrets, store_tunnel_token, write_env.
  ends_go; auto using read_env_ends, validate_ends, env_lines_ends.
Qed.
Hint Resolve configure_ends : ends.

Lemma preflight_ends : ends (run_preflight self).
Proof. unfold run_preflight, require_repository, require_tools. ends_go. Qed.
Lemma validate_rendered_ends : ends (validate_rendered_config self).
Proof. unfold validate_rendered_config. ends_go. Qed.
Lemma git_sha_ends : ends (_git_sha self).
Proof. unfold _git_sha. ends_go. Qed.
Lemma require_initialized_ends : ends (_require_initialized (M := M)).
Proof. unfold _require_initialized. ends_go. Qed.
Lemma write_backup_ends p text : ends (write_backup (M := M) p text).
Proof. apply on_disk_ends, ends_changes. Qed.
Hint Resolve preflight_ends validate_rendered_ends git_sha_ends require_initialized_ends
  write_backup_ends : ends.
Lemma backup_ends : ends (backup self).
Proof. unfold backup, value_of. ends_go. all: auto using read_env_ends. Qed.
Lemma service_running_ends service : ends (_service_running self service).
Proof. unfold _service_running. ends_go. Qed.
Hint Resolve backup_ends service_running_ends : ends.
Lemma restore_ends requested confirm : ends (restore self requested confirm).
Proof.
  unfold restore, checked_backup, bounded_backup_path, value_of. ends_go; auto using read_env_ends.
Qed.

(** Every command ends: waiting for a service ends with its answer or with the
    last error, in the rounds of the model, for every host whose clock does not
    go back. *)
Theorem commands_end a (w : world M) : (dispatch self a w).1 ≠ inr OutOfFuel.
Proof.
  revert w. change (ends (dispatch self a)).
  destruct a; cbn [dispatch]; auto using verify_ends, restore_ends.
  - unfold up, config. ends_go.
  - unfold demo_up. ends_go.
  - unfold show_status. ends_go. apply read_env_ends.
  - unfold restart. ends_go.
  - unfold update. cbn zeta. ends_go.
  - ends_go.
  - unfold down. ends_go.
  - unfold logs. ends_go.
  - unfold destroy. ends_go.
Qed.
End clocks.

(** * Backups can be restored *)

Section backups.
Context `{PyLib} {M : Type} `{Host M} (self : Controller).

Lemma resolve_plain l : ".." ∉ l → resolve l = l.
Proof.
  unfold resolve. enough (∀ done_, ".." ∉ l → resolve_from done_ l = rev done_ ++ l) as E.
  { intros Hl. by rewrite E. }
  induction l as [|p l IH]; intros done_ Hl; cbn [resolve_from]; [by rewrite app_nil_r|].
  destruct (String.eqb_spec p "..") as [->|Hne]; [set_solver|].
  rewrite IH by set_solver. cbn. by rewrite <-app_assoc.
Qed.
Lemma relative_to_app base p : relative_to base (base ++ p) = Some p.
Proof. induction base as [|b base IH]; cbn; [done|]. by rewrite String.eqb_refl. Qed.

(** The path of a file in the directory of the backups, as a user gives it. *)
Definition backup_argument (p : list string) : path := mk_path false ([".cloudops"; "backups"] ++ p).

Lemma backup_argument_bounded p :
  ".." ∉ root self → ".." ∉ p → bounded_backup_path self (backup_argument p) = inl p.
Proof.
  intros Hr Hp. unfold bounded_backup_path, backup_argument. cbn [absolute parts].
  rewrite resolve_plain by set_solver. rewrite app_assoc, relative_to_app. done.
Qed.

Lemma app_assoc_str s t u : s +:+ (t +:+ u) = (s +:+ t) +:+ u.
Proof.
  induction s as [|c s IH]; [done|].
  change (String c (s +:+ (t +:+ u)) = String c ((s +:+ t) +:+ u)). by rewrite IH.
Qed.

(** What a backup leaves. *)
Definition backed_up (d : disk) (p : list string) : Prop :=
  ∃ v user database created_at git_sha dump,
    read_env (env_file d) = inl v ∧ v !! "POSTGRES_USER" = Some user ∧ v !! "POSTGRES_DB" = Some database
    ∧ is_dump p ∧ (".." ∉ p) ∧ backups d !! p = Some dump
    ∧ backups d !! metadata_path p
      = Some (json_dumps_indent (backup_metadata created_at git_sha dump database) +:+ line_feed).

Lemma backup_spec (w : world M) :
  iwp (backup self) (λ r w', match r with inl p => backed_up (files w') p | inr _ => True end) w.
Proof.
  unfold backup, reads. apply iwp_bind. eapply iwp_does; [apply quiet_require_initialized|].
  intros [[]|e] w1 _; [|done].
  apply iwp_bind, iwp_asks. apply iwp_bind, iwp_asks. apply iwp_bind, iwp_check; intros _; [|done].
  apply iwp_bind, iwp_asks.
  apply iwp_bind, iwp_of_result. intros [v|] Hv; [|done].
  apply iwp_bind, iwp_of_result. intros [user|] Hu; [|done].
  apply iwp_bind, iwp_of_result. intros [database|] Hd; [|done].
  apply iwp_bind. eapply iwp_does; [by apply quiet_run|]. intros [p|e] w2 [_ F2]; [|done].
  apply iwp_bind, iwp_check; intros _; [|done].
  apply iwp_bind, iwp_write. apply iwp_bind, iwp_asks.
  apply iwp_bind. eapply iwp_does; [apply quiet_git_sha|]. intros [sha|e] w3 [_ F3]; [|done].
  apply iwp_bind, iwp_write, iwp_ret.
  set (destination := ["cloudops-" +:+ stamp_of (utcnow (host w1)) +:+ ".dump"]) in *.
  assert (is_dump destination) as Hdump.
  { exists [], ("cloudops-" +:+ stamp_of (utcnow (host w1))). cbn. unfold destination.
    by rewrite app_assoc_str. }
  assert (".." ∉ destination) as Hdots.
  { unfold destination. intros [E|E]%elem_of_cons; [discriminate E|set_solver]. }
  clearbody destination. cbn in F3.
  unfold value_of, result_of_option in *.
  destruct (v !! "POSTGRES_USER") eqn:Eu; [|done]. destruct (v !! "POSTGRES_DB") eqn:Ed; [|done].
  exists v, user, database, (isoformat "T" (utcnow (host w2))), sha, (stdout p). cbn.
  rewrite F3. cbn. split_and!; [by rewrite F2|congruence|congruence|done|done| |].
  - rewrite lookup_insert_ne; [by rewrite lookup_insert_eq|].
    intros E. apply (metadata_is_no_dump destination). by rewrite E.
  - by rewrite lookup_insert_eq.
Qed.

(** A backup that was made can be restored: its metadata have the digest of the
    dump, and if [json.loads] reads the digest and the format that [json.dumps]
    wrote, then the checks of [restore] accept the dump.  It is of the database
    of the installation. *)
Theorem backups_are_restorable (w w' : world M) p :
  (".." ∉ root self) →
  backup self w = (inl p, w') →
  ∃ v database dump text m,
    read_env (env_file (files w')) = inl v ∧ v !! "POSTGRES_DB" = Some database
    ∧ backups (files w') !! p = Some dump ∧ backups (files w') !! metadata_path p = Some text
    ∧ text = json_dumps_indent m +:+ line_feed ∧ dget "database" m = Some (PStr database)
    ∧ dget "sha256" m = Some (PStr (sha256_hex dump)) ∧ dget "format" m = Some (PInt 1)
    ∧ ∀ read, json_loads text = inl (Some (PDict read)) →
        dget "sha256" read = dget "sha256" m → dget "format" read = dget "format" m →
        checked_backup self (Some (backup_argument p)) (Some RESTORE) w' = (inl (dump, read), w').
Proof.
  intros Hr E. pose proof (iwp_run _ _ _ _ _ (backup_spec w) E)
    as (v & user & database & created & sha & dump & Hv & Hu & Hd & Hdump & Hp & Hb & Hm).
  exists v, database, dump. eexists. exists (backup_metadata created sha dump database).
  split_and!; [exact Hv|exact Hd|exact Hb|exact Hm|done..|]. intros read Hj Hsha Hfmt.
  unfold checked_backup, reads, mbind, io_bind, of_result, asks. cbn [result_of_option].
  rewrite backup_argument_bounded by done. cbn beta iota. rewrite Hb. cbn beta iota delta [result_of_option].
  rewrite Hm. cbn beta iota delta [result_of_option]. rewrite Hj.
  cbn beta iota. unfold check, dget_or. rewrite Hsha, Hfmt.
  assert (py_eq (default PNone (dget "sha256" (backup_metadata created sha dump database)))
            (PStr (sha256_hex dump)) = true) as ->; [|done].
  change (String.eqb (sha256_hex dump) (sha256_hex dump) = true). apply String.eqb_refl.
Qed.
End backups.

(** * A laboratory *)

Module Lab.
Definition metadata : pydict :=
  backup_metadata "2024-02-29T12:34:56+00:00" "abc123" "PGDMP" "cloudops".

(** Docker answers that everything is well. *)
Definition answers_well (argv : list string) : string :=
  let has word := existsb (String.eqb word) argv in
  if has "--show-toplevel" then "/srv/cloudops" +:+ line_feed
  else if has "ps" then "c0ffee" +:+ line_feed
  else if has "inspect" then (if has "--format" then "running" else "healthy")
  else if has "current" then "0020_invitation_delivery_state (head)"
  else if has "pg_dump" then "PGDMP"
  else if has "branch" then "main"
  else if has "HEAD" then "abc123"
  else "".

#[local] Instance lib : PyLib := {|
  urlsplit _ := inr ValueError;
  ip_address _ := None;
  json_loads s :=
    if String.eqb s "healthy" then
      inl (Some (PList [PDict [("State", PDict
        [("Status", PStr "running"); ("Health", PDict [("Status", PStr "healthy")])])]]))
    else if startswith s "{" then inl (Some (PDict metadata))
    else inl None
|}.
(** A host is its clock. *)
#[local] Instance lab_host : Host Z := {|
  run_process t argv _ := (mk_process 0 (answers_well argv) "", t + 1000000);
  docker_on_path _ := true;
  monotonic t := t;
  sleep n t := t + n;
  utcnow t := t;
  open_url t _ := (Some 200, t)
|}.

Definition controller : Controller :=
  mk_controller ["srv"; "cloudops"] "cloudops-selfhost" ∅ false false SelfHost.Lab.nobody
    SelfHost.Lab.fresh.
Definition start : world Z := mk_world SelfHost.Lab.before 1709210096000000 [].
Definition running : world Z := (up controller start).2.

Example up_succeeds : (main controller Up start).1 = 0.
Proof. by vm_compute. Qed.
(** Nothing is prepared: the controller says so, with its exit status. *)
Example backup_needs_an_installation : (main controller Backup start).1 = 2.
Proof. by vm_compute. Qed.
Example update_succeeds : (main controller Update running).1 = 0.
Proof. by vm_compute. Qed.

(** The command line of the tests. *)
Example redacts :
  redact "token=synthetic-value password: another-value Authorization: Bearer fake-token CLOUDFLARE_TUNNEL_TOKEN=third-value"
  = "token=[REDACTED] password: [REDACTED] Authorization: [REDACTED] CLOUDFLARE_TUNNEL_TOKEN=[REDACTED]".
Proof. by vm_compute. Qed.
Example stays_inside :
  bounded_backup_path controller (new_Path "../../outside.dump")
  = inr (refusal "RESTORE_PATH_OUTSIDE_BACKUP_DIRECTORY")
  ∧ bounded_backup_path controller (new_Path ".cloudops/backups/x/../safe.dump") = inl ["safe.dump"].
Proof. by vm_compute. Qed.

Definition backed : world Z := (backup controller running).2.
Definition dump_name : list string := ["cloudops-20240229T123529Z.dump"].
Example backup_name : (backup controller running).1 = inl dump_name.
Proof. by vm_compute. Qed.

Lemma fresh_ready : fresh_ok (fresh controller).
Proof. by repeat split. Qed.

(** The tunnel is opened after 20 processes. *)
Lemma up_opens_the_tunnel_last_witness :
  ∃ before e after, history running = before ++ e :: after ∧ ran e = open_tunnel
    ∧ ready controller start running before.
Proof.
  destruct (up_opens_the_tunnel_last controller start running (up controller start).1 fresh_ready
    (surjective_pairing _)) as (l & Hl & Hopen).
  assert (existsb (λ e, bool_decide (ran e = open_tunnel)) (history running) = true) as He
    by (vm_compute; reflexivity).
  apply existsb_exists in He as (e & Hin & He%bool_decide_eq_true_1).
  apply in_split in Hin as (before & after & Hs). exists before, e, after.
  split_and!; [exact Hs|exact He|]. apply (Hopen before e after); [|exact He].
  unfold ran_between in Hl. cbn [history start] in Hl. rewrite <-Hs. symmetry. exact Hl.
Defined.


Lemma backups_are_restorable_witness :
  checked_backup controller (Some (backup_argument dump_name)) (Some RESTORE) backed
  = (inl ("PGDMP", metadata), backed).
Proof.
  assert ((".." ∉ root controller)) as Hr by (apply (bool_decide_eq_true_1 _); vm_compute; reflexivity).
  assert (backup controller running = (inl dump_name, backed)) as E.
  { rewrite <-backup_name. apply surjective_pairing. }
  destruct (backups_are_restorable controller running backed dump_name Hr E)
    as (v & database & dump & text & m & _ & _ & Hb & Ht & _ & _ & Hsha & Hfmt & Hread).
  assert (backups (files backed) !! dump_name = Some "PGDMP") as Hb' by (vm_compute; reflexivity).
  assert ((λ text, json_loads text) <$> (backups (files backed) !! metadata_path dump_name)
          = Some (inl (Some (PDict metadata)))) as Ht' by (vm_compute; reflexivity).
  rewrite Hb in Hb'. injection Hb' as ->. rewrite Ht in Ht'. injection Ht' as Ht'.
  apply Hread; [exact Ht'|rewrite Hsha|rewrite Hfmt]; vm_compute; reflexivity.
Defined.

Lemma lab_clock : Clock (M := Z).
Proof. split; intros; cbn; lia. Qed.
Lemma commands_end_witness : (dispatch controller Up start).1 ≠ inr OutOfFuel.
Proof. apply (commands_end controller (H1 := lab_clock)). Defined.
End Lab.
